(* ===== verification/_CoqProject ===== *)
-Q . S2P
Prelude.v
Cstr.v
Time4.v
Stamp.v
Brc.v
BrcStore.v
BrcInsert.v
BrcMarks.v
BrcFacts.v
BrcProps.v
Vbuf.v
VbufFacts.v
VbufProps.v
Aids.v
AidsProps.v
Record.v
RecordProps.v
Utf8.v
Utf8Props.v
Vtkbd.v
VtkbdProps.v
Telnet.v
TelnetProps.v
Vector.v
VectorProps.v
Str.v
StrProps.v
Mime.v
MimeProps.v
Mbs.v
MbsProps.v
Fav.v
FavTree.v
FavClean.v
FavStore.v
FavOps.v
FavProps.v
Uhash.v
UhashProps.v
Utmp.v
UtmpProps.v
Money.v
MoneyProps.v
Boards.v
BoardsProps.v
BoardGroups.v
BottomProps.v
Edit.v
EditText.v
EditHeap.v
EditRep.v
EditPos.v
EditList.v
EditSplit.v
EditJoin.v
EditChars.v
EditInsert.v
EditMoves.v
EditCmds.v
EditDelete.v
EditBlocks.v
EditColor.v
EditSession.v
EditStart.v
EditSave.v
EditRound.v
EditWords.v
EditProps.v
