(* ===== verification/Prelude.v ===== *)
(** * The core of a bulletin board system

    A development about the C sources of pttbbs.  A user reaches the system
    over TELNET: the daemon [logind] and the session program [mbbsd] read his
    bytes into ring buffers, take the TELNET commands out, and turn what is
    left into key codes.  In a session he opens boards, which are directories
    of articles with an index file .DIR of fixed-size records; an article is
    named by its creation time, found again by that name or by a short
    identifier, and remembered as read in the .brc3 file of the user.  His
    favourite boards are a tree of folders kept in .fav.  He writes articles in
    an editor of the system itself.  Text comes in Big5 or UTF-8, with colour
    sequences, and from outside as MIME words.

    This development models the parts that compute: the file formats, data
    structures, codecs and state machines under these screens, in the order
    below.  Each file with definitions is one module, and the file of the same
    name with [Props] proves its properties, each with an instance that
    evaluates the definitions.

    ** How code becomes definitions

    An integer is a [Z] with its wrap-around written out ([u8] ... [s32] of this
    file), a byte a [Z] below 256 or a [char] between -128 and 127 where the
    code reads one, a pointer into a buffer an offset or, for a C string that is
    only read, the rest of the string.  A function that writes memory takes and
    gives the state; [None] is undefined behaviour or the end of the process: an
    access out of a block, a null pointer, a failed assertion, and, in a loop, the
    end of its fuel.  A theorem that gives [Some] says that none of these happens.
    A signed sum that can overflow wraps, as gcc compiles it (parameters of
    [Vtkbd], balances of [Money], stamps of [Stamp], the window of a search in
    [Aids]); in the sizes of [Vector] and the counters of [Boards] an overflow is
    [None].  Numbers of records and lines are taken to be far below 2^31.

    Every loop that is not a recursion on its data has fuel, computed from the
    input by its caller ([scan_fuel], [copy_fuel], [enlarge_fuel], the length
    of the string plus one, the depth of a tree, the number of lines), and the
    theorems prove that it is enough; where the fuel is an argument, as in
    [fhdr_stamp] and the reading and writing of ring buffers, a theorem says how
    much is enough.

    What the sources only call is an argument: the conversion tables and the
    width table, iconv(3), the system calls a buffer is read from and written
    to, random numbers, new memory and whether there is any, the clock's
    calendar (localtime), which files can be made, the index service of articles, qsort(3), the allocator under the
    editor (which address a block gets, whether realloc moves it, what is in it),
    for the favourites and the read marks the table of boards, and for the pinned
    articles what another process writes between two accesses.  Where a
    theorem needs something of an argument, it is a class or a hypothesis with an
    instance that has it.

    ** The parts

    - [Prelude], [Cstr]: machine integers, blocks of memory, the C string and
      character functions the sources use; the shared lemmas and tactics.
    - [Time4] ([include/cmsys.h], [common/sys/time.c]): the 32-bit timestamps,
      which are unsigned though stored in a signed type.
    - [Stamp] ([common/bbs/fhdr_stamp.c]): file names that carry a time.
      [stampfile] ends, at any time of the clock, and its name is new and reads
      back; the record it leaves has the name and the date.
    - [Brc] ([mbbsd/brc.c]): the read marks.  [brc_buf] is modelled byte by
      byte; [BrcStore] is the abstract store, a most-recently-used list of
      boards, and the relation [repr] to the bytes; [BrcInsert] refines
      insertion, [BrcMarks] the marks of the current board, [BrcFacts] the
      rest.  [BrcProps]: insertion refines the list and terminates, finding
      after inserting, saving and loading, reading and marking.
    - [Vbuf] ([common/sys/vbuf.c]): the ring buffer.  [VbufFacts] relates it to a
      bounded queue, [VbufProps] proves the refinement for every sequence of
      operations that takes no more than is there, and the termination of the
      transfers.
    - [Aids] ([common/bbs/aids.c]): identifiers of articles and the search of a
      .DIR by stamp, which uses [Stamp]: round trip, and exactness of the search.
    - [Record] ([common/sys/record.c], [common/sys/sort.c]): files of records.
      Deletion of one and of a range, upper bound search, binary search.
    - [Utf8] ([common/sys/utf8.c], [include/multibyte.h]): stream decoders,
      encoders and the conversions.  Round trips, safety on any bytes.
    - [Vtkbd] ([common/sys/vtkbd.c]): the state machine of the keyboard.  It
      stays well formed, never hangs, whatever the parameters of a sequence
      are, and reads sequences and mouse reports.
    - [Telnet] ([common/sys/telnet.c]): the TELNET filter.  It decodes what a
      client encodes, for any cut of the stream into reads; only the hash that
      tells clients apart depends on the cut.
    - [Vector] ([common/sys/vector.c], [common/sys/buffer.c]): growing arrays,
      with memory that can run out.  They refine lists.
    - [Str] ([common/sys/string.c]): strings and control sequences.  Stripping
      removes exactly the sequences of a mode; which path names are refused.
    - [Mime] (the same file): MIME words, encoded and decoded.  The decoder of
      headers stays in its buffers for any input and undoes the encoder.
    - [Mbs] (the same file and [include/multibyte.h]): strings of characters.
      The class [MbCodec] is the interface the macros [mb_*] choose between
      the two codecs of [Utf8]; [MbLaws] (in [MbsProps]) is what the functions
      need of it, and both codecs have it.
    - [Fav] ([mbbsd/fav.c]): the favourites, objects on a heap.  [FavTree] is
      the abstract tree and the relation [repr] to a heap that holds it.
      [FavClean], [FavStore] and [FavOps] follow the recursive operations,
      the file and the operations on one folder along that relation; [FavProps]:
      cleaning up, saving and loading, adding, moving.
    - [Uhash] ([common/bbs/cache.c]): the table of users in shared memory, whose
      chains many processes change with atomic exchanges.  [step] is one atomic
      operation of a process and [sys_step] a step of any of them.  [UhashProps]:
      searching and renaming by one process, and an invariant of any
      interleaving of additions and searches.
    - [Utmp] (the same file): the sessions of each user, linked lists with
      deletion marks, for one process.  They refine a list for each user.
    - [Money] (the same file, [common/bbs/passwd.c]): the balances, changed by
      exchanges of many processes: any interleaving is some order of them.  The
      sums wrap; a theorem says when they are what is meant.
    - [Boards] (the same file, [mbbsd/bbs.c]): the table of boards.  [BoardsProps]
      proves the search in the sorted index, [BoardGroups] the linked lists of the
      boards of a group, [BottomProps] the pinned articles, which are found
      through [Aids].
    - [Edit] ([mbbsd/edit.c], the stripper of [mbbsd/kaede.c]): the editor.  A
      text is a doubly linked list of lines on the heap; the editor keeps seven
      pointers into it and their line numbers beside them.  [vedit_turn] is a turn
      of the loop of [vedit2]: the health check, then a character, a click or a
      command ([run_command], the table [edit_cmds]).  [EditText] is the abstract
      machine: the lines above the cursor, its line, the lines below, and the modes;
      its [d_key] does what an input means, without heap, pointers or counters.
      [EditRep] relates the two ([rep]), on the list segments of [EditHeap].  Along
      it go [EditPos] (positions and columns), [EditList] (linking and unlinking a
      line), [EditSplit], [EditJoin], [EditChars] and [EditInsert] (typing and
      wrapping), [EditMoves], [EditCmds], [EditDelete], [EditBlocks] and
      [EditColor]; [EditSession] puts the commands and the turn together,
      [EditStart] opening and leaving, [EditSave] writing the file.  [EditRound]
      and [EditWords] are facts of the abstract machine alone.  [EditProps]: the
      session refines the machine, passes the health check, leaks nothing, what
      follows of it for loading, saving, typing and cutting, and when the health
      check ends the process.

    ** Which theorems matter

    Refinements of an abstract specification: [brc_insert_record_refines],
    [vbuf_refines_queue], [vector_refines_list], [fav_cleanup_spec],
    [editor_refines_text].  Equivalence with a simpler program:
    [telnet_session_stream], [strip_pieces], [mbs_strstr_big5].  Round trips:
    [utf8_roundtrip], [big5_utf8_roundtrip], [aid_name_roundtrip],
    [brc_save_then_load], [telnet_decodes], [base64_decodes],
    [header_roundtrip], [fav_save_then_load], [editor_open_save],
    [editor_undelete_restores].  The editor: [editor_safe_no_leak],
    [editor_heap_typed], [editor_typing_keeps_text],
    [editor_cut_removes_block].  Processes that interleave:
    [concurrent_add_search], [money_linearizable].  The shared tables:
    [setuserid_spec], [utmp_refines_lists], [sort_then_find],
    [groups_listed], [resolve_bottoms_spec], [pin_slots_spec].
    Safety for any input: [utf8_decode_sound], [str_decode_M3_bounded],
    [conversions_bounded], [mbs_sanitize_clean], [stream_col_offset_bounded].
    Termination and progress: [stampfile_fresh], [strip_total], [vtkbd_no_hang],
    the two transfers of [Vbuf].  Where the code does not do what it says, an
    example or a theorem shows the input: [editor_leaves_window],
    [wide_overwrite_dies], [refused_save_dies], [deposit_wraps], [vtkbd_param_wraps],
    [vbuf_popn_beyond],
    [brc_insert_at_expiry_writes_junk],
    [vbuf_cstr_corrupts], [fn2aidu_after_2038], [skip_scan_differ],
    [half_character], [concurrent_rename_loses_user],
    [passwds_stays_behind], [last_child_without_parent], [strncasecmp_overread],
    [removed_folder_still_counts], [moved_line_collides] and others.

    The theorems of the editor are about the inputs it can take ([can_take] of
    [EditSession]).  Left out are the inputs that make the code fail, with some room:
    while overwriting, characters in a line with fewer than six free places,
    inserting a file, and shifting a line right; a click on the bar of symbols; a
    character when the terminal has become too small.  A tab is a loop that types
    spaces, with fuel 1024, twice the longest line; it is taken when every space is
    and the column comes to a multiple of eight ([tab_takes], which is evaluated).
    Files with tabs are left out.  [editor_leaves_window] says what the clicks and
    the small terminals do, exactly, and [wide_overwrite_dies] shows the failure of
    an overwriting character.  The fuel of [join] is 2 because the code calls itself at most once;
    a walk along the list has one more than the number of blocks.

    ** Not modelled

    The interactive screens ([bbs.c], [board.c], [pmore.c], [mail.c], [read.c],
    [announce.c], the games) mix their logic with terminal input; the screen
    libraries are tied to the output stream.  Of the editor the drawing of the
    window, the colouring of syntax, the search for text and parentheses, the
    prompts, the headers, quotes and signatures, and the temporary files are left
    out: a prompt is the answer that was given, a file its lines.  Of the shared
    memory, the hot boards, the cache of notes, the snapshots of sessions and the
    loading of the file of boards are left out, and the lists of sessions and the
    table of boards are those of one process.  The daemons are event loops around
    system and libevent calls.  Of the modelled files, these functions are left
    out: the debug report of [vbuf.c], [bsearch_record] (a library call on a mapped
    file), the formatting of dates (the time zone of the C library), the parsers of
    URLs and [mbs_remove_intr_escape] of [string.c], and [reginit_fav],
    [get_folder_title] and the failing calls of malloc in [fav.c] and [edit.c].
    File locks are not modelled: an operation on a file is that of one process. *)

From Stdlib Require Export ZArith Lia Bool.
From stdpp Require Export base list option numbers.

#[global] Open Scope Z_scope.

(** ** Machine integers

    A C integer is a [Z]; an unsigned w-bit value is in [0, 2^w), a signed one
    in [-2^(w-1), 2^(w-1)), and the conversions wrap around as gcc does. *)

Definition u8 (z : Z) : Z := z mod 2 ^ 8.
Definition u16 (z : Z) : Z := z mod 2 ^ 16.
Definition u32 (z : Z) : Z := z mod 2 ^ 32.
Definition u64 (z : Z) : Z := z mod 2 ^ 64.
Definition s8 (z : Z) : Z := (z + 2 ^ 7) mod 2 ^ 8 - 2 ^ 7.
Definition s16 (z : Z) : Z := (z + 2 ^ 15) mod 2 ^ 16 - 2 ^ 15.
Definition s32 (z : Z) : Z := (z + 2 ^ 31) mod 2 ^ 32 - 2 ^ 31.

Definition is_u8 (z : Z) : Prop := 0 <= z < 2 ^ 8.
Definition is_u16 (z : Z) : Prop := 0 <= z < 2 ^ 16.
Definition is_u32 (z : Z) : Prop := 0 <= z < 2 ^ 32.
Definition is_s32 (z : Z) : Prop := - 2 ^ 31 <= z < 2 ^ 31.

(** ** Lists with [Z] lengths, and blocks of memory *)

Definition zlen {A} (l : list A) : Z := Z.of_nat (length l).

(** [memcpy] out of a block: [None] is an access out of its bounds. *)
Definition mem_read {A} (blk : list A) (off n : Z) : option (list A) :=
  if (0 <=? off) && (0 <=? n) && (off + n <=? zlen blk)
  then Some (take (Z.to_nat n) (drop (Z.to_nat off) blk)) else None.

(** [memcpy] into a block. *)
Definition mem_write {A} (blk : list A) (off : Z) (data : list A) : option (list A) :=
  if (0 <=? off) && (off + zlen data <=? zlen blk)
  then Some (take (Z.to_nat off) blk ++ data ++ drop (Z.to_nat (off + zlen data)) blk)
  else None.

(** [memmove] within a block. *)
Definition mem_move {A} (blk : list A) (dst src n : Z) : option (list A) :=
  d ← mem_read blk src n; mem_write blk dst d.

(** One element, [p[i]]. *)
Definition zget {A} (l : list A) (i : Z) : option A :=
  if 0 <=? i then l !! Z.to_nat i else None.

(** ** Little-endian images of integers, as [memcpy] sees them *)

Fixpoint le_bytes (n : nat) (z : Z) : list Z :=
  match n with
  | O => []
  | S n => z mod 256 :: le_bytes n (z / 256)
  end.

Fixpoint le_val (l : list Z) : Z :=
  match l with
  | [] => 0
  | b :: l => b + 256 * le_val l
  end.

(** ** Automation *)

Create HintDb ptt.
Create Rewrite HintDb zlen.

(** Split the conditions of the code: booleans over [Z] become propositions. *)
Ltac zbool :=
  repeat match goal with
  | H : _ && _ = true |- _ => apply andb_true_iff in H; destruct H
  | H : _ && _ = false |- _ => apply andb_false_iff in H
  | H : _ || _ = true |- _ => apply orb_true_iff in H
  | H : _ || _ = false |- _ => apply orb_false_iff in H; destruct H
  | H : negb _ = true |- _ => apply negb_true_iff in H
  | H : negb _ = false |- _ => apply negb_false_iff in H
  | H : (_ =? _) = true |- _ => apply Z.eqb_eq in H
  | H : (_ =? _) = false |- _ => apply Z.eqb_neq in H
  | H : (_ <? _) = true |- _ => apply Z.ltb_lt in H
  | H : (_ <? _) = false |- _ => apply Z.ltb_ge in H
  | H : (_ <=? _) = true |- _ => apply Z.leb_le in H
  | H : (_ <=? _) = false |- _ => apply Z.leb_gt in H
  | H : (_ >? _) = true |- _ => rewrite Z.gtb_ltb in H; apply Z.ltb_lt in H
  | H : (_ >? _) = false |- _ => rewrite Z.gtb_ltb in H; apply Z.ltb_ge in H
  | H : (_ >=? _) = true |- _ => rewrite Z.geb_leb in H; apply Z.leb_le in H
  | H : (_ >=? _) = false |- _ => rewrite Z.geb_leb in H; apply Z.leb_gt in H
  end.

(** Case analysis on the first [if] of the goal, with its condition named. *)
Ltac case_if H :=
  match goal with
  | |- context [if ?b then _ else _] => destruct b eqn:H; zbool
  end.

(** Case analysis on every [if] of the goal; the branches [lia] refutes go. *)
Ltac split_ifs :=
  repeat match goal with
  | |- _ => let H := fresh "Hif" in case_if H; try lia
  end.

(** ** Generic lemmas: lengths *)

Section Lengths.
Context {A : Type}.
Implicit Types l a b c : list A.

Lemma zlen_nonneg l : 0 <= zlen l.
Proof. unfold zlen; lia. Qed.

Lemma zlen_nil : zlen (@nil A) = 0.
Proof. reflexivity. Qed.

Lemma zlen_cons x l : zlen (x :: l) = 1 + zlen l.
Proof. unfold zlen; cbn [length]; lia. Qed.

Lemma zlen_app a b : zlen (a ++ b) = zlen a + zlen b.
Proof. unfold zlen; rewrite length_app; lia. Qed.

Lemma zlen_take n l : zlen (take n l) = Z.min (Z.of_nat n) (zlen l).
Proof. unfold zlen; rewrite length_take; lia. Qed.

Lemma zlen_drop n l : zlen (drop n l) = Z.max 0 (zlen l - Z.of_nat n).
Proof. unfold zlen; rewrite length_drop; lia. Qed.

Lemma zlen_replicate n (x : A) : zlen (replicate n x) = Z.of_nat n.
Proof. unfold zlen; now rewrite length_replicate. Qed.

Lemma to_nat_zlen l : Z.to_nat (zlen l) = length l.
Proof. unfold zlen; lia. Qed.

Lemma zlen_map {B} (f : A -> B) l : zlen (map f l) = zlen l.
Proof. unfold zlen; now rewrite length_map. Qed.

Lemma zlen_zero l : zlen l = 0 -> l = [].
Proof. destruct l; [done|]; rewrite zlen_cons; pose proof (zlen_nonneg l); lia. Qed.
End Lengths.

#[export] Hint Rewrite @zlen_nil @zlen_cons @zlen_app @zlen_take @zlen_drop
  @zlen_replicate @zlen_map @to_nat_zlen : zlen.
#[export] Hint Resolve zlen_nonneg : ptt.

(** Normalise lengths, then [lia]. *)
Ltac zlia :=
  autorewrite with zlen in *;
  repeat match goal with
  | |- context [zlen ?l] =>
      lazymatch goal with
      | _ : 0 <= zlen l |- _ => fail
      | _ => pose proof (zlen_nonneg l)
      end
  | _ : context [zlen ?l] |- _ =>
      lazymatch goal with
      | _ : 0 <= zlen l |- _ => fail
      | _ => pose proof (zlen_nonneg l)
      end
  end; lia.

(** Reduce a condition of the goal to the branch [zlia] proves it takes. *)
Ltac if_true :=
  match goal with
  | |- context [if ?b then _ else _] =>
      let H := fresh in
      destruct b eqn:H; [clear H | exfalso; zbool; intuition zlia]
  end.
Ltac if_false :=
  match goal with
  | |- context [if ?b then _ else _] =>
      let H := fresh in
      destruct b eqn:H; [exfalso; zbool; intuition zlia | clear H]
  end.

(** ** Generic lemmas: blocks *)

Section Blocks.
Context {A : Type}.
Implicit Types l a b c : list A.

Lemma take_zlen_app a b : take (Z.to_nat (zlen a)) (a ++ b) = a.
Proof. rewrite to_nat_zlen. apply take_app_length. Qed.

Lemma drop_zlen_app a b : drop (Z.to_nat (zlen a)) (a ++ b) = b.
Proof. rewrite to_nat_zlen. apply drop_app_length. Qed.

Lemma mem_read_app a b c off n :
  off = zlen a -> n = zlen b -> mem_read (a ++ b ++ c) off n = Some b.
Proof.
  intros -> ->. unfold mem_read. if_true.
  now rewrite drop_zlen_app, take_zlen_app.
Qed.

Lemma mem_write_app a b c d off :
  off = zlen a -> zlen d = zlen b ->
  mem_write (a ++ b ++ c) off d = Some (a ++ d ++ c).
Proof.
  intros -> Hd. unfold mem_write. if_true.
  rewrite take_zlen_app, Hd.
  replace (zlen a + zlen b) with (zlen (a ++ b)) by zlia.
  now rewrite (app_assoc a b c), drop_zlen_app.
Qed.

Lemma mem_write_head b c d : zlen d = zlen b -> mem_write (b ++ c) 0 d = Some (d ++ c).
Proof. apply (mem_write_app [] b c d 0). done. Qed.

(** The assignment [p[i] = y]. *)
Lemma mem_write_one a x y c i :
  i = zlen a -> mem_write (a ++ x :: c) i [y] = Some (a ++ y :: c).
Proof. intros. now apply (mem_write_app a [x] c [y]). Qed.

Lemma mem_read_head b c n : n = zlen b -> mem_read (b ++ c) 0 n = Some b.
Proof. apply (mem_read_app [] b c 0 n). done. Qed.

Lemma mem_read_some l off n :
  0 <= off -> 0 <= n -> off + n <= zlen l ->
  exists d, mem_read l off n = Some d /\ zlen d = n.
Proof.
  intros. unfold mem_read. if_true. eexists; split; [done|]. zlia.
Qed.

Lemma mem_write_some l off d :
  0 <= off -> off + zlen d <= zlen l ->
  exists l', mem_write l off d = Some l' /\ zlen l' = zlen l.
Proof.
  intros. unfold mem_write. if_true. eexists; split; [done|]. zlia.
Qed.

Lemma mem_write_zlen l l' off d : mem_write l off d = Some l' -> zlen l' = zlen l.
Proof.
  unfold mem_write. destruct (_ && _) eqn:E; [|done]. intros [= <-]. zbool. zlia.
Qed.

Lemma mem_move_zlen l l' dst src n : mem_move l dst src n = Some l' -> zlen l' = zlen l.
Proof.
  unfold mem_move. destruct (mem_read l src n); [|done]. apply mem_write_zlen.
Qed.

(** Closing a gap [g] in front of [t], and opening one of [n] cells. *)
Lemma mem_move_close a (g t p : list A) dst src n :
  dst = zlen a -> src = zlen a + zlen g -> n = zlen t ->
  exists p', mem_move (a ++ g ++ t ++ p) dst src n = Some (a ++ t ++ p') /\
             zlen p' = zlen g + zlen p.
Proof.
  intros -> -> ->. unfold mem_move.
  rewrite (app_assoc a g), mem_read_app by zlia.
  cbn [mbind option_bind].
  exists (drop (length t) (g ++ t ++ p)). split.
  - rewrite <- app_assoc, <- (take_drop (length t) (g ++ t ++ p)) at 1.
    apply mem_write_app; [done|]. rewrite zlen_take. unfold zlen.
    rewrite !length_app. lia.
  - rewrite zlen_drop. unfold zlen. rewrite !length_app. lia.
Qed.

Lemma mem_move_open (t p : list A) n :
  0 <= n <= zlen p ->
  exists x p', mem_move (t ++ p) n 0 (zlen t) = Some (x ++ t ++ p') /\
               zlen x = n /\ zlen p' = zlen p - n.
Proof.
  intros Hn. unfold mem_move. rewrite (mem_read_app [] t p) by done.
  cbn [mbind option_bind].
  exists (take (Z.to_nat n) (t ++ p)), (drop (length t) (drop (Z.to_nat n) (t ++ p))).
  split; [|split; [rewrite zlen_take; unfold zlen in *; rewrite length_app; lia|
                   rewrite !zlen_drop; unfold zlen in *; rewrite length_app; lia]].
  rewrite <- (take_drop (Z.to_nat n) (t ++ p)) at 1.
  rewrite <- (take_drop (length t) (drop (Z.to_nat n) (t ++ p))) at 1.
  apply mem_write_app.
  - rewrite zlen_take. unfold zlen in *; rewrite length_app; lia.
  - rewrite zlen_take, zlen_drop. unfold zlen in *; rewrite length_app; lia.
Qed.

Lemma zget_app_l a b i x : zget a i = Some x -> zget (a ++ b) i = Some x.
Proof.
  unfold zget. destruct (0 <=? i); [|done]. intros H.
  now apply lookup_app_l_Some.
Qed.

Lemma zget_middle a x b i : i = zlen a -> zget (a ++ x :: b) i = Some x.
Proof.
  intros ->. unfold zget. if_true.
  rewrite to_nat_zlen. apply list_lookup_middle. done.
Qed.

Lemma zget_some l i : 0 <= i < zlen l -> is_Some (zget l i).
Proof.
  intros. unfold zget. if_true. apply lookup_lt_is_Some. unfold zlen in *; lia.
Qed.

Lemma zget_range l i x : zget l i = Some x -> 0 <= i < zlen l.
Proof.
  unfold zget. destruct (0 <=? i) eqn:Hi; [|done]. intros H%lookup_lt_Some.
  unfold zlen; zbool; lia.
Qed.
End Blocks.

Lemma mem_write_Forall {A} (P : A -> Prop) l off d l' :
  mem_write l off d = Some l' -> Forall P l -> Forall P d -> Forall P l'.
Proof.
  unfold mem_write. destruct (_ && _); [|done]. intros [= <-] H Hd.
  rewrite !list.Forall_app. split_and!; [by apply Forall_take|done|by apply Forall_drop].
Qed.

(** ** Generic lemmas: integers *)

Lemma u32_small z : is_u32 z -> u32 z = z.
Proof. apply Z.mod_small. Qed.

Lemma u32_range z : is_u32 (u32 z).
Proof. apply Z.mod_pos_bound; lia. Qed.

Lemma s32_small z : is_s32 z -> s32 z = z.
Proof. unfold is_s32, s32; intros; rewrite Z.mod_small; lia. Qed.

Lemma s32_range z : is_s32 (s32 z).
Proof.
  unfold is_s32, s32. pose proof (Z.mod_pos_bound (z + 2 ^ 31) (2 ^ 32)). lia.
Qed.

Lemma s32_u32 z : s32 (u32 z) = s32 z.
Proof. unfold s32, u32. now rewrite Zplus_mod_idemp_l. Qed.

Lemma u32_s32 z : u32 (s32 z) = u32 z.
Proof.
  unfold s32, u32. rewrite Zminus_mod_idemp_l. f_equal; lia.
Qed.

Lemma u32_inj_s32 a b : is_s32 a -> is_s32 b -> u32 a = u32 b -> a = b.
Proof.
  intros Ha Hb H. rewrite <- (s32_small a), <- (s32_small b) by done.
  now rewrite <- s32_u32, H, s32_u32.
Qed.

#[export] Hint Resolve u32_range s32_range : ptt.

(** ** Generic lemmas: little-endian images *)

Lemma length_le_bytes n z : length (le_bytes n z) = n.
Proof. revert z; induction n; cbn; auto. Qed.

Lemma zlen_le_bytes n z : zlen (le_bytes n z) = Z.of_nat n.
Proof. unfold zlen; now rewrite length_le_bytes. Qed.

#[export] Hint Rewrite zlen_le_bytes length_le_bytes : zlen.

Lemma le_val_bytes n z : le_val (le_bytes n z) = z mod 256 ^ Z.of_nat n.
Proof.
  revert z; induction n as [|n IH]; intros z; cbn [le_bytes le_val].
  - now rewrite Z.mod_1_r.
  - rewrite IH, Nat2Z.inj_succ, Z.pow_succ_r by lia.
    rewrite Z.rem_mul_r by lia. lia.
Qed.

Lemma le_bytes_u8 n z : Forall is_u8 (le_bytes n z).
Proof.
  revert z; induction n; intros z; constructor; [|done].
  apply Z.mod_pos_bound; lia.
Qed.

Lemma le_bytes_mod n z : le_bytes n (z mod 256 ^ Z.of_nat n) = le_bytes n z.
Proof.
  revert z; induction n as [|n IH]; intros z; cbn [le_bytes]; [done|].
  rewrite Nat2Z.inj_succ, Z.pow_succ_r by lia. f_equal.
  - rewrite Z.rem_mul_r, Z.mul_comm, Z.mod_add, Z.mod_mod by lia. done.
  - rewrite <- (IH (z / 256)). f_equal. rewrite Z.rem_mul_r by lia.
    rewrite Z.mul_comm, Z.div_add by lia.
    rewrite Z.div_small by (apply Z.mod_pos_bound; lia). lia.
Qed.

(** ** Bit fields *)

Lemma lor_add a n b : 0 <= n -> 0 <= b < 2 ^ n -> Z.lor (a * 2 ^ n) b = a * 2 ^ n + b.
Proof.
  intros Hn Hb. assert (Hl : Z.land (a * 2 ^ n) b = 0).
  { apply Z.bits_inj'. intros i Hi. rewrite Z.land_spec, Z.bits_0.
    destruct (Z.lt_ge_cases i n).
    - by rewrite Z.mul_pow2_bits_low.
    - rewrite <- (Z.mod_small b (2 ^ n)) by done.
      by rewrite Z.mod_pow2_bits_high, andb_false_r by lia. }
  by rewrite <- Z.lxor_lor, <- Z.add_nocarry_lxor.
Qed.

Lemma lor_shiftl_add a b n : 0 <= n -> 0 <= b < 2 ^ n -> Z.lor (Z.shiftl a n) b = a * 2 ^ n + b.
Proof. intros. rewrite Z.shiftl_mul_pow2 by done. now apply lor_add. Qed.
