(* ===== verification/Cstr.v ===== *)
(** C strings and the functions of the C library the sources call on them.

    A [char*] is the list of the characters before its terminating NUL, each a
    nonzero [unsigned char] value in a [Z]; [cchar s i] is [s[i]], the NUL
    included.  These definitions model <string.h>, <ctype.h> (in the C locale)
    and <stdlib.h>, on which every component relies; none is code of src/. *)

From Stdlib Require Import Ascii String.
From S2P Require Import Prelude.

#[global] Open Scope Z_scope.
#[global] Open Scope list_scope.

Module Cstr.

(** A literal. *)
Fixpoint str (s : string) : list Z :=
  match s with
  | EmptyString => []
  | String a s => Z.of_N (N_of_ascii a) :: str s
  end.

Definition chr (s : string) : Z := hd 0 (str s).

Definition cchar (s : list Z) (i : Z) : Z := default 0 (zget s i).

(** The string held by a [char] array: up to its first NUL. *)
Fixpoint cstring (a : list Z) : list Z :=
  match a with
  | [] => []
  | c :: a => if c =? 0 then [] else c :: cstring a
  end.

(** [strlcpy] into an array of [n] bytes leaves this string there. *)
Definition strlcpy (n : Z) (src : list Z) : list Z := take (Z.to_nat (n - 1)) src.

(** [strlcat] onto a string in an array of [n] bytes. *)
Definition strlcat (n : Z) (dst src : list Z) : list Z :=
  if n <=? zlen dst then dst else take (Z.to_nat (n - 1)) (dst ++ src).

(** *** <ctype.h> *)

Definition isspace (c : Z) : bool := ((9 <=? c) && (c <=? 13)) || (c =? 32).
Definition isascii (c : Z) : bool := (0 <=? c) && (c <=? 127).
Definition isdigit (c : Z) : bool := (48 <=? c) && (c <=? 57).
Definition toupper (c : Z) : Z := if (97 <=? c) && (c <=? 122) then c - 32 else c.
Definition tolower (c : Z) : Z := if (65 <=? c) && (c <=? 90) then c + 32 else c.

(** *** Searching *)

Fixpoint prefix_b (p s : list Z) : bool :=
  match p, s with
  | [], _ => true
  | a :: p, b :: s => (a =? b) && prefix_b p s
  | _, _ => false
  end.

(** The suffix of [s] that starts at the first match of [p]. *)
Fixpoint strstr (s p : list Z) : option (list Z) :=
  if prefix_b p s then Some s else
  match s with
  | [] => None
  | _ :: s => strstr s p
  end.

Fixpoint strchr (s : list Z) (c : Z) : option (list Z) :=
  match s with
  | [] => None
  | x :: s' => if x =? c then Some s else strchr s' c
  end.

Fixpoint strrchr (s : list Z) (c : Z) : option (list Z) :=
  match s with
  | [] => None
  | x :: s' => match strrchr s' c with
               | Some r => Some r
               | None => if x =? c then Some s else None
               end
  end.

(** [strncasecmp], [strcasecmp]: the difference of the first pair that
    differs after [tolower], 0 when there is none. *)
Fixpoint strncasecmp (n : nat) (a b : list Z) : Z :=
  match n with
  | O => 0
  | S n =>
      match a, b with
      | [], [] => 0
      | [], y :: _ => - tolower y
      | x :: _, [] => tolower x
      | x :: a, y :: b =>
          if tolower x =? tolower y then strncasecmp n a b
          else tolower x - tolower y
      end
  end.

Definition strcasecmp (a b : list Z) : Z :=
  strncasecmp (S (Nat.max (length a) (length b))) a b.

(** [strcmp]: the difference of the first pair of characters that differ. *)
Fixpoint strcmp (a b : list Z) : Z :=
  match a, b with
  | [], [] => 0
  | [], y :: _ => - y
  | x :: _, [] => x
  | x :: a, y :: b => if x =? y then strcmp a b else x - y
  end.

(** The first position at which [p] matches with the case ignored. *)
Fixpoint strcasestr (s p : list Z) : option (list Z) :=
  if prefix_b (map tolower p) (map tolower s) then Some s else
  match s with
  | [] => None
  | _ :: s => strcasestr s p
  end.

(** *** Numbers *)

Definition digit_val (c : Z) : Z :=
  if isdigit c then c - 48
  else if (65 <=? c) && (c <=? 90) then c - 55
  else if (97 <=? c) && (c <=? 122) then c - 87
  else 99.

(** The digits of base [b] at the front of [s], and how many there are. *)
Fixpoint scan_digits (b : Z) (s : list Z) (acc : Z) : Z :=
  match s with
  | [] => acc
  | c :: s => if digit_val c <? b then scan_digits b s (acc * b + digit_val c) else acc
  end.

Fixpoint skip_spaces (s : list Z) : list Z :=
  match s with
  | [] => []
  | c :: s' => if isspace c then skip_spaces s' else s
  end.

Definition ULONG_MAX : Z := 2 ^ 64 - 1.

(** The prefix 0x of base 16 is skipped when a hexadecimal digit follows. *)
Definition skip_0x (s : list Z) : list Z :=
  match s with
  | 48 :: x :: d :: _ =>
      if (toupper x =? 88) && (digit_val d <? 16) then drop 2 s else s
  | _ => s
  end.

(** [strtoul(s, NULL, base)] with a 64-bit [unsigned long]. *)
Definition strtoul (s : list Z) (base : Z) : Z :=
  let s := skip_spaces s in
  let neg := cchar s 0 =? 45 in
  let s := if neg || (cchar s 0 =? 43) then drop 1 s else s in
  let s := if base =? 16 then skip_0x s else s in
  let v := scan_digits base s 0 in
  if ULONG_MAX <? v then ULONG_MAX else if neg then u64 (- v) else v.

(** [atoi], as glibc computes it: [strtol] saturates, the cast truncates. *)
Definition atoi (s : list Z) : Z :=
  let s := skip_spaces s in
  let neg := cchar s 0 =? 45 in
  let s := if neg || (cchar s 0 =? 43) then drop 1 s else s in
  let v := scan_digits 10 s 0 in
  s32 (if neg then Z.max (- 2 ^ 63) (- v) else Z.min (2 ^ 63 - 1) v).

(** The character of a digit, as %X and %d write it. *)
Definition digit_chr (d : Z) : Z := if d <? 10 then 48 + d else 55 + d.

Fixpoint digits_rev (fuel : nat) (b v : Z) : list Z :=
  match fuel with
  | O => []
  | S fuel => digit_chr (v mod b) :: (if v <? b then [] else digits_rev fuel b (v / b))
  end.

(** %u and %X of a value below 2^64; 64 digits are enough for any base. *)
Definition fmt_base (b v : Z) : list Z := rev (digits_rev 64 b v).
Definition fmt_u (v : Z) : list Z := fmt_base 10 v.
Definition fmt_d (v : Z) : list Z := if v <? 0 then 45 :: fmt_u (- v) else fmt_u v.
Definition pad0 (n : nat) (s : list Z) : list Z := replicate (n - length s) 48 ++ s.
(** %03X and %3.3X. *)
Definition fmt_03X (v : Z) : list Z := pad0 3 (fmt_base 16 v).

(** *** Lemmas *)

Definition c_string (s : list Z) : Prop := Forall (fun c => c <> 0) s.

Lemma cstring_app s r : c_string s -> cstring (s ++ 0 :: r) = s.
Proof.
  induction 1 as [|c s Hc _ IH]; [done|]. cbn [app cstring].
  replace (c =? 0) with false by lia. by rewrite IH.
Qed.

Lemma cchar_nil i : cchar [] i = 0.
Proof. unfold cchar, zget. destruct (0 <=? i); [|done]. now rewrite lookup_nil. Qed.

Lemma cchar_0 c s : cchar (c :: s) 0 = c.
Proof. reflexivity. Qed.

Lemma cchar_1 c d s : cchar (c :: d :: s) 1 = d.
Proof. reflexivity. Qed.

Lemma cchar_drop s i : 0 <= i -> cchar (drop (Z.to_nat i) s) 0 = cchar s i.
Proof.
  intros. unfold cchar, zget. do 2 if_true. rewrite lookup_drop, Nat.add_0_r. done.
Qed.

(** A position in the second part of a string. *)
Lemma cchar_app_r a s i k : 0 <= k -> i = zlen a + k -> cchar (a ++ s) i = cchar s k.
Proof.
  intros Hk ->. pose proof (zlen_nonneg a). unfold cchar, zget. do 2 if_true.
  rewrite lookup_app_r by (unfold zlen; lia). do 2 f_equal. unfold zlen. lia.
Qed.

Lemma digit_val_chr d : 0 <= d < 16 -> digit_val (digit_chr d) = d.
Proof.
  intros. unfold digit_chr, digit_val, isdigit. destruct (Z.ltb_spec d 10).
  - if_true. lia.
  - if_false. if_true. lia.
Qed.

(** Scanning a run of digits accumulates; it stops at the first other character. *)
Lemma scan_digits_app b ds r acc :
  0 < b -> Forall (fun c => 0 <= digit_val c < b) ds ->
  scan_digits b (ds ++ r) acc = scan_digits b r (scan_digits b ds acc).
Proof.
  intros Hb H. revert acc. induction H as [|c ds [? Hc] H IH]; intros acc; cbn; [done|].
  apply Z.ltb_lt in Hc. rewrite Hc. apply IH.
Qed.

Lemma scan_digits_stop b c s acc : b <= digit_val c -> scan_digits b (c :: s) acc = acc.
Proof. intros. cbn. now if_false. Qed.

Lemma digits_rev_Forall fuel b v :
  1 < b <= 16 -> 0 <= v ->
  Forall (fun c => 0 <= digit_val c < b) (digits_rev fuel b v).
Proof.
  intros Hb. revert v. induction fuel as [|fuel IH]; intros v Hv; cbn; [constructor|].
  pose proof (Z.mod_pos_bound v b). constructor.
  - rewrite digit_val_chr; lia.
  - destruct (v <? b); [constructor|]. apply IH. apply Z.div_pos; lia.
Qed.

Lemma fmt_base_Forall b v :
  1 < b <= 16 -> 0 <= v -> Forall (fun c => 0 <= digit_val c < b) (fmt_base b v).
Proof. intros. apply Forall_rev. now apply digits_rev_Forall. Qed.

Lemma scan_digits_rev fuel b v acc :
  1 < b <= 16 -> 0 <= v < b ^ Z.of_nat fuel ->
  exists k, 0 <= k /\
  scan_digits b (rev (digits_rev fuel b v)) acc = acc * b ^ k + v.
Proof.
  intros Hb. revert v acc. induction fuel as [|fuel IH]; intros v acc Hv.
  { exists 0. change (Z.of_nat 0) with 0 in Hv. rewrite Z.pow_0_r in *. cbn. lia. }
  rewrite Nat2Z.inj_succ, Z.pow_succ_r in Hv by lia.
  cbn [digits_rev rev].
  pose proof (Z.mod_pos_bound v b). pose proof (Z.div_mod v b).
  destruct (Z.ltb_spec v b).
  - exists 1. cbn [rev app scan_digits]. rewrite digit_val_chr by lia. if_true.
    rewrite (Z.mod_small v b) by lia. lia.
  - destruct (IH (v / b) acc) as (k & Hk & IHk).
    { split; [apply Z.div_pos; lia|]. apply Z.div_lt_upper_bound; lia. }
    exists (k + 1). split; [lia|]. rewrite scan_digits_app, IHk.
    + cbn [scan_digits]. rewrite digit_val_chr by lia. if_true.
      rewrite Z.pow_add_r, Z.pow_1_r by lia. nia.
    + lia.
    + apply Forall_rev. apply digits_rev_Forall; [lia|]. apply Z.div_pos; lia.
Qed.

(** Reading back what %u or %X wrote, whatever comes after the digits. *)
Lemma scan_fmt_base b v r :
  1 < b <= 16 -> 0 <= v < b ^ 64 ->
  scan_digits b (fmt_base b v ++ r) 0 = scan_digits b r v.
Proof.
  intros Hb Hv. rewrite scan_digits_app; [|lia|apply fmt_base_Forall; lia].
  destruct (scan_digits_rev 64 b v 0) as (k & _ & E); [lia|exact Hv|].
  unfold fmt_base. rewrite E. f_equal; lia.
Qed.

Lemma scan_pad0 b n s r acc :
  1 < b -> acc = 0 -> scan_digits b (pad0 n s ++ r) acc = scan_digits b (s ++ r) acc.
Proof.
  intros Hb ->. unfold pad0. rewrite <- app_assoc.
  induction (n - length s)%nat as [|k IH]; [done|]. cbn [replicate app scan_digits].
  change (digit_val 48) with 0. if_true. now rewrite Z.mul_0_l, Z.add_0_l.
Qed.

(** A nonempty run of digits starts with a digit: no space, sign or 0x. *)
Lemma fmt_base_cons b v :
  exists c s, fmt_base b v = c :: s /\
  (1 < b <= 16 -> 0 <= v -> 0 <= digit_val c < b).
Proof.
  destruct (fmt_base b v) as [|c s] eqn:E.
  - exfalso. apply (f_equal length) in E. unfold fmt_base in E.
    rewrite length_rev in E. cbn in E. lia.
  - exists c, s. split; [done|]. intros Hb Hv.
    pose proof (fmt_base_Forall b v Hb Hv) as H. rewrite E in H. now inversion H.
Qed.

(** A value below [b^k] is written with at most [k] digits. *)
Lemma digits_rev_length fuel b v k :
  1 < b -> 0 <= v < b ^ Z.of_nat (S k) -> (length (digits_rev fuel b v) <= S k)%nat.
Proof.
  intros Hb. revert v k. induction fuel as [|fuel IH]; intros v k Hv; cbn; [lia|].
  destruct (Z.ltb_spec v b); cbn; [lia|]. destruct k as [|k].
  { change (Z.of_nat 1) with 1 in Hv. rewrite Z.pow_1_r in Hv. lia. }
  apply le_n_S, IH. split; [apply Z.div_pos; lia|]. apply Z.div_lt_upper_bound; [lia|].
  rewrite <- Z.pow_succ_r, <- Nat2Z.inj_succ by lia. lia.
Qed.

Lemma fmt_base_length b v k :
  1 < b -> 0 <= v < b ^ Z.of_nat (S k) -> (length (fmt_base b v) <= S k)%nat.
Proof. intros. unfold fmt_base. rewrite length_rev. now apply digits_rev_length. Qed.

Lemma digit_not_space_sign c :
  0 <= digit_val c < 16 -> isspace c = false /\ c <> 45 /\ c <> 43.
Proof.
  unfold digit_val, isdigit, isspace. intros H.
  destruct ((48 <=? c) && (c <=? 57)) eqn:E1; [lia|].
  destruct ((65 <=? c) && (c <=? 90)) eqn:E2; [lia|].
  destruct ((97 <=? c) && (c <=? 122)) eqn:E3; lia.
Qed.

Lemma strtoul_fmt_u v r :
  0 <= v <= ULONG_MAX -> 10 <= digit_val (cchar r 0) ->
  strtoul (fmt_u v ++ r) 10 = v.
Proof.
  unfold ULONG_MAX. intros Hv Hr. unfold strtoul, fmt_u.
  assert (E : scan_digits 10 (fmt_base 10 v ++ r) 0 = v).
  { rewrite scan_fmt_base by lia. destruct r; [done|]. now apply scan_digits_stop. }
  destruct (fmt_base_cons 10 v) as (c & s & Ec & Hc).
  destruct (digit_not_space_sign c) as (Hs & H1 & H2); [lia|].
  rewrite Ec in E |- *. cbn [app skip_spaces]. rewrite Hs, cchar_0.
  apply Z.eqb_neq in H1, H2. rewrite H1, H2. cbv zeta. cbn [app] in E.
  change (10 =? 16) with false. cbn [orb]. rewrite E.
  unfold ULONG_MAX. now if_false.
Qed.

End Cstr.
