(* ===== verification/Time4.v ===== *)
(** The 32-bit timestamps of the BBS ([include/cmsys.h], [common/sys/time.c]).

    A [time4_t] is an [int32_t] whose bits are read as an unsigned 32-bit
    number of seconds, so that it lasts until 2106.  A value is a [Z] in the
    signed range; every helper below converts as the code casts.  Also here:
    the leap year test and the star signs. *)

From S2P Require Import Prelude.

Module Time4.

Definition TIME4_INVALID : Z := 0.

Definition time4_is_invalid (t : Z) : bool := (t =? 0) || (t =? -1).
Definition time4_is_valid (t : Z) : bool := negb (t =? 0) && negb (t =? -1).
Definition time4_to_time (t : Z) : Z := u32 t.

Definition time4_cmp (a b : Z) : Z :=
  let ua := u32 a in let ub := u32 b in
  (if ub <? ua then 1 else 0) - (if ua <? ub then 1 else 0).

Definition time4_gt (a b : Z) : bool := u32 b <? u32 a.
Definition time4_ge (a b : Z) : bool := u32 b <=? u32 a.
Definition time4_lt (a b : Z) : bool := u32 a <? u32 b.
Definition time4_le (a b : Z) : bool := u32 a <=? u32 b.

Definition time4_diff (a b : Z) : Z := u32 a - u32 b.

Definition time4_days_remaining (expire now_time : Z) : Z :=
  if negb (time4_gt expire now_time) then 0
  else Z.quot (time4_diff expire now_time) 86400 + 1.

Definition time4_days_elapsed (now_time start_time : Z) : Z :=
  if negb (time4_gt now_time start_time) then 0
  else Z.quot (time4_diff now_time start_time) 86400.

(** [None] is the return value -1; the new time is [*out]. *)
Definition time4_add_sec (base seconds : Z) : option Z :=
  let res := u64 (u32 base + seconds) in
  if 0xFFFFFFFF <? res then None else Some (s32 res).

(** [%] of C rounds towards zero. *)
Definition is_leap_year (year : Z) : bool :=
  (Z.rem year 400 =? 0) || ((Z.rem year 4 =? 0) && negb (Z.rem year 100 =? 0)).

Definition firstday : list Z := [20; 19; 21; 20; 21; 22; 23; 23; 24; 24; 22; 22].

Definition getHoroscope (m d : Z) : Z :=
  if (12 <? m) || (m <? 1) then 1
  else if default 0 (zget firstday (m - 1)) <=? d
       then (if m =? 12 then 1 else m + 1)
       else m.

(** The comparisons are those of the times the values stand for. *)
Lemma time4_gt_spec a b : time4_gt a b = true <-> time4_to_time b < time4_to_time a.
Proof. apply Z.ltb_lt. Qed.

Lemma time4_gt_le a b : time4_gt a b = negb (time4_le a b).
Proof. unfold time4_gt, time4_le. apply Z.ltb_antisym. Qed.

Lemma time4_lt_gt a b : time4_lt a b = time4_gt b a.
Proof. reflexivity. Qed.

Lemma time4_gt_trans a b c :
  time4_gt a b = true -> time4_gt b c = true -> time4_gt a c = true.
Proof. unfold time4_gt. rewrite !Z.ltb_lt. lia. Qed.

Lemma time4_gt_irrefl a : time4_gt a a = false.
Proof. apply Z.ltb_irrefl. Qed.

Lemma time4_trichotomy a b :
  is_s32 a -> is_s32 b -> time4_gt a b = false -> time4_gt b a = false -> a = b.
Proof.
  unfold time4_gt. rewrite !Z.ltb_ge. intros. apply u32_inj_s32; auto; lia.
Qed.

Lemma time4_cmp_spec a b :
  time4_cmp a b = match Z.compare (time4_to_time a) (time4_to_time b) with
                  | Lt => -1 | Eq => 0 | Gt => 1 end.
Proof.
  unfold time4_cmp, time4_to_time.
  destruct (Z.compare_spec (u32 a) (u32 b)); split_ifs; lia.
Qed.

(** Adding seconds: the sum is refused exactly when the time leaves
    the 32-bit range; otherwise the stored value stands for the exact sum, and
    every later comparison sees it as that time, before and after 2038. *)
Lemma time4_add_sec_exact base seconds :
  0 <= seconds < 2 ^ 63 ->
  match time4_add_sec base seconds with
  | None => 2 ^ 32 <= time4_to_time base + seconds
  | Some t => is_s32 t /\ time4_to_time t = time4_to_time base + seconds /\
              time4_ge t base = true
  end.
Proof.
  intros Hs. unfold time4_add_sec, time4_ge, time4_to_time.
  pose proof (u32_range base) as Hb. unfold is_u32 in Hb.
  unfold u64. rewrite Z.mod_small by lia.
  destruct (Z.ltb_spec 0xFFFFFFFF (u32 base + seconds)); [lia|].
  rewrite u32_s32, (u32_small (u32 base + seconds)) by (unfold is_u32; lia).
  split; [auto with ptt|]. split; [done|]. apply Z.leb_le; lia.
Qed.

(** A year added to a time after 2038. *)
Lemma time4_add_sec_exact_witness :
  match time4_add_sec (s32 (2 ^ 31)) (365 * 86400) with
  | None => 2 ^ 32 <= time4_to_time (s32 (2 ^ 31)) + 365 * 86400
  | Some t => is_s32 t /\ time4_to_time t = time4_to_time (s32 (2 ^ 31)) + 365 * 86400 /\
              time4_ge t (s32 (2 ^ 31)) = true
  end.
Proof. apply (time4_add_sec_exact (s32 (2 ^ 31)) (365 * 86400)). lia. Defined.

(** Days left are rounded up, elapsed days are rounded down. *)
Lemma time4_days_remaining_bounds expire now :
  time4_gt expire now = true ->
  let d := time4_days_remaining expire now in
  1 <= d /\ 86400 * (d - 1) <= time4_diff expire now < 86400 * d.
Proof.
  intros H. unfold time4_days_remaining, time4_diff. rewrite H. cbn [negb].
  unfold time4_gt in H. zbool. rewrite Z.quot_div_nonneg by lia.
  pose proof (Z.div_mod (u32 expire - u32 now) 86400).
  pose proof (Z.mod_pos_bound (u32 expire - u32 now) 86400).
  pose proof (Z.div_pos (u32 expire - u32 now) 86400). lia.
Qed.

Lemma getHoroscope_range m d : 1 <= getHoroscope m d <= 12.
Proof. unfold getHoroscope. split_ifs; zbool; lia. Qed.

End Time4.
