(* ===== verification/Stamp.v ===== *)
(** File names that carry a creation time ([include/cmsys.h],
    [common/bbs/fhdr_stamp.c]).

    An article is the file M.<time>.A.<hex>; its name is its identity and its
    creation time.  [get_fhdr_stamp_ts] and [get_fhdr_stamp_hex] read the two
    numbers back; [fhdr_stamp] picks a name that no other file has. *)

From Stdlib Require Import String.
From S2P Require Import Prelude Cstr Time4.
Import Cstr Time4.

Module Stamp.

(** A null pointer is [None]. *)
Definition get_fhdr_stamp_ts (fn : option (list Z)) : Z :=
  match fn with
  | None => 0
  | Some fn =>
      let fn :=
        if negb (cchar fn 0 =? 0) &&
           ((cchar fn 1 =? 46) || ((cchar fn 0 =? 46) && (cchar fn 1 =? 100)))
        then drop 2 fn else fn in
      s32 (strtoul fn 10)
  end.

Definition get_fhdr_stamp_hex (fn : option (list Z)) : Z :=
  match fn with
  | None => 0
  | Some fn =>
      match strstr fn (str ".A.") with
      | None => 0
      | Some p => Z.land (u32 (strtoul (drop 3 p) 16)) 0xFFF
      end
  end.

(** *** Creating a stamped file, directory or link *)

Inductive stamp_type := STAMP_FILE | STAMP_DIR | STAMP_LINK.

(** The outcome of open(O_EXCL), mkdir or symlink on a name: it succeeds, the
    name is taken ([EEXIST]), or it fails for another reason. *)
Inductive create_result := Created | Eexist | Efail.

(** What [sprintf(ip, ...)] writes at the end of the path. *)
Definition stamp_name (type : stamp_type) (dtime rnd : Z) : list Z :=
  match type with
  | STAMP_FILE => str "M." ++ fmt_u (u32 dtime) ++ str ".A." ++ fmt_03X rnd
  | STAMP_DIR => str "D" ++ fmt_base 16 (Z.land (u32 dtime) 0xFFF)
  | STAMP_LINK => str "S" ++ fmt_base 16 (u32 dtime)
  end.

Definition FNLEN : Z := 28.
Definition DATE_SIZE : Z := 6.

(** [fh_rest] stands for the bytes of the other fields. *)
Record fhdr := Fhdr { fh_filename : list Z; fh_date : list Z; fh_rest : list Z }.

Definition clear_fhdr (fh : fhdr) : fhdr := Fhdr [] [] (map (fun _ => 0) (fh_rest fh)).

(** "%2d/%02d" of the month and the day, or blanks, in [date]. *)
Definition fhdr_set_date_tm (tm : option (Z * Z)) : list Z :=
  strlcpy DATE_SIZE
    match tm with
    | Some (tm_mon, tm_mday) =>
        let m := Z.rem (tm_mon + 1) 100 in
        let d := Z.rem tm_mday 100 in
        let m := fmt_u (if m <? 0 then 0 else m) in
        replicate (2 - length m) 32 ++ m ++ [47] ++ pad0 2 (fmt_u (if d <? 0 then 0 else d))
    | None => replicate (Z.to_nat (DATE_SIZE - 1)) 32
    end.

(** [localtime] gives the month and the day of a time. *)
Definition fhdr_set_date (localtime : Z -> Z * Z) (ts : Z) : list Z :=
  if time4_gt ts 740000000 then fhdr_set_date_tm (Some (localtime (time4_to_time ts)))
  else fhdr_set_date_tm None.

(** The world outside: [access] says whether a directory can be used, [mkdir]
    makes one (its result is not looked at), and [creat] is open(O_EXCL), mkdir
    or symlink on a path. *)
Section Stamping.
Context {W : Type} (access : list Z -> W -> bool) (mkdir : list Z -> W -> W)
  (creat : list Z -> W -> W * create_result) (localtime : Z -> Z * Z) (rnd : nat -> Z).

(** The do-while loop: [k] counts the calls of [arc4random_uniform(0x1000)], and
    [++dtime] is on an [int32_t].  The result has the last path, its time, and
    whether it could be created; [None] means the fuel ran out. *)
Fixpoint stamp_loop (fuel : nat) (type : stamp_type) (w : W) (dir : list Z) (dtime : Z) (k : nat)
    : option (W * list Z * Z * bool) :=
  match fuel with
  | O => None
  | S fuel =>
      let dtime := s32 (dtime + 1) in
      let name := stamp_name type dtime (rnd k) in
      let '(w, res) := creat (dir ++ 47 :: name) w in
      match res with
      | Created => Some (w, name, dtime, true)
      | Efail => Some (w, name, dtime, false)
      | Eexist => stamp_loop fuel type w dir dtime (S k)
      end
  end.

(** [time] is what time(0) gives.  The result has [fpath] and the header on
    return, and the value returned; an empty [fpath] is read past its end. *)
Definition fhdr_stamp (fuel : nat) (type : stamp_type) (w : W) (time : Z) (fpath : list Z)
    (fh : option fhdr) : option (W * list Z * option fhdr * Z) :=
  if zlen fpath =? 0 then None else
  let w := if access fpath w then w else mkdir fpath w in
  '(w, name, dtime, ok) ← stamp_loop fuel type w fpath (s32 time) 0;
  let path := fpath ++ 47 :: name in
  if negb ok then Some (w, path, fh, -1)
  else Some (w, path,
             fh ← fh; Some (Fhdr (strlcpy FNLEN name) (fhdr_set_date localtime dtime) (fh_rest fh)), 0).

Definition stampfile (fuel : nat) (w : W) (time : Z) (fpath : list Z) (fh : option fhdr) :=
  fhdr_stamp fuel STAMP_FILE w time fpath (fh ← fh; Some (clear_fhdr fh)).
Definition stampfile_u (fuel : nat) := fhdr_stamp fuel STAMP_FILE.
Definition stampdir (fuel : nat) (w : W) (time : Z) (fpath : list Z) (fh : fhdr) :=
  fhdr_stamp fuel STAMP_DIR w time fpath (Some (clear_fhdr fh)).
Definition stamplink (fuel : nat) (w : W) (time : Z) (fpath : list Z) (fh : fhdr) :=
  fhdr_stamp fuel STAMP_LINK w time fpath (Some (clear_fhdr fh)).

End Stamping.

(** *** Reading a name back *)

Lemma strtoul_stop v r : is_u32 v -> strtoul (fmt_u v ++ 46 :: r) 10 = v.
Proof.
  unfold is_u32. intros. apply strtoul_fmt_u; [unfold ULONG_MAX; lia|].
  rewrite cchar_0. vm_compute. congruence.
Qed.

Lemma get_fhdr_stamp_ts_name c t r :
  c <> 0 -> is_u32 t -> get_fhdr_stamp_ts (Some (c :: 46 :: fmt_u t ++ 46 :: r)) = s32 t.
Proof.
  intros Hc Ht. unfold get_fhdr_stamp_ts. rewrite cchar_0, cchar_1.
  apply Z.eqb_neq in Hc. rewrite Hc. cbn -[strtoul fmt_u s32].
  now rewrite drop_0, strtoul_stop.
Qed.

Lemma strstr_digits ds p c r :
  Forall (fun c => 0 <= digit_val c < 10) ds ->
  digit_val c >= 10 -> prefix_b (c :: p) (c :: r) = true ->
  strstr (ds ++ c :: r) (c :: p) = Some (c :: r).
Proof.
  intros H Hc Hp. induction H as [|d ds Hd H IH].
  - cbn [app strstr]. now rewrite Hp.
  - cbn [app strstr prefix_b]. destruct (Z.eqb_spec c d) as [<-|]; [lia|]. exact IH.
Qed.

Lemma strstr_skip p x s : prefix_b p (x :: s) = false -> strstr (x :: s) p = strstr s p.
Proof. intros H. cbn [strstr]. now rewrite H. Qed.

Lemma strtoul_fmt_03X h : 0 <= h < 0x1000 -> strtoul (fmt_03X h) 16 = h.
Proof.
  intros Hh. assert (E : forallb (fun n => strtoul (fmt_03X (Z.of_nat n)) 16 =? Z.of_nat n)
    (seq 0 4096) = true) by (vm_compute; reflexivity).
  rewrite forallb_forall in E. specialize (E (Z.to_nat h)).
  rewrite Z2Nat.id in E by lia. apply Z.eqb_eq, E. apply in_seq. lia.
Qed.

Lemma get_fhdr_stamp_hex_name c t h :
  c <> 46 -> is_u32 t -> 0 <= h < 0x1000 ->
  get_fhdr_stamp_hex (Some (c :: 46 :: fmt_u t ++ str ".A." ++ fmt_03X h)) = h.
Proof.
  intros Hc Ht Hh. unfold get_fhdr_stamp_hex.
  assert (E : strstr (c :: 46 :: fmt_u t ++ str ".A." ++ fmt_03X h) (str ".A.")
              = Some (str ".A." ++ fmt_03X h)).
  { destruct (fmt_base_cons 10 t) as (d & s & E & Hd).
    unfold is_u32 in Ht. specialize (Hd ltac:(lia) ltac:(lia)).
    assert (Hd65 : d <> 65) by (intros ->; revert Hd; vm_compute; intuition congruence).
    change (str ".A.") with [46; 65; 46]. cbn [app].
    rewrite !strstr_skip.
    - apply strstr_digits; [apply fmt_base_Forall; lia|vm_compute; congruence|reflexivity].
    - unfold fmt_u. rewrite E. cbn [app prefix_b].
      destruct (Z.eqb_spec 65 d); [congruence|apply andb_false_r].
    - cbn [prefix_b]. destruct (Z.eqb_spec 46 c); [congruence|done]. }
  rewrite E. change (drop 3 (str ".A." ++ fmt_03X h)) with (fmt_03X h).
  rewrite strtoul_fmt_03X by done.
  rewrite u32_small by (unfold is_u32; lia). change 0xFFF with (Z.ones 12).
  rewrite Z.land_ones, Z.mod_small; lia.
Qed.

Lemma stamp_name_ts t h :
  is_s32 t -> get_fhdr_stamp_ts (Some (stamp_name STAMP_FILE t h)) = t.
Proof.
  intros. unfold stamp_name. change (str "M.") with [77; 46].
  change (str ".A.") with (46 :: [65; 46]). cbn [app].
  rewrite get_fhdr_stamp_ts_name by (auto with ptt; lia).
  now rewrite s32_u32, s32_small.
Qed.

Lemma stamp_name_inj t1 h1 t2 h2 :
  is_s32 t1 -> is_s32 t2 ->
  stamp_name STAMP_FILE t1 h1 = stamp_name STAMP_FILE t2 h2 -> t1 = t2.
Proof.
  intros H1 H2 E. rewrite <- (stamp_name_ts t1 h1), <- (stamp_name_ts t2 h2) by done.
  now rewrite E.
Qed.

(** *** The loop *)

(** What the creation of a file promises: it is refused as existing exactly on
    the paths that exist, and adds the path when it succeeds. *)
Class Directory {W} (creat : list Z -> W -> W * create_result) := {
  files : W -> list (list Z);
  creat_exists n w : snd (creat n w) = Eexist <-> n ∈ files w;
  creat_files n w :
    files (fst (creat n w)) = match snd (creat n w) with Created => n :: files w | _ => files w end
}.

Section Loop.
Context {W : Type} (creat : list Z -> W -> W * create_result) `{!Directory creat} (rnd : nat -> Z).

(** The time of the attempt [i]. *)
Definition try_time (dtime : Z) (i : nat) : Z := s32 (dtime + 1 + Z.of_nat i).

Lemma u32_add_s32 x c : u32 (s32 x + c) = u32 (x + c).
Proof.
  unfold u32 at 1. rewrite <- Zplus_mod_idemp_l. change (s32 x mod 2 ^ 32) with (u32 (s32 x)).
  rewrite u32_s32. apply Zplus_mod_idemp_l.
Qed.

Lemma try_time_S dtime i : try_time dtime (S i) = try_time (s32 (dtime + 1)) i.
Proof.
  unfold try_time. rewrite <- (s32_u32 (s32 _ + _ + _)), <- (Z.add_assoc (s32 _)), u32_add_s32, s32_u32. f_equal. lia.
Qed.

(** The loop stops at the first path that does not exist; out of fuel, all exist. *)
Lemma stamp_loop_result fuel type dir : forall w dtime k,
  match stamp_loop creat rnd fuel type w dir dtime k with
  | None => forall i, (i < fuel)%nat ->
      dir ++ 47 :: stamp_name type (try_time dtime i) (rnd (k + i)%nat) ∈ files w
  | Some (w', name, t, ok) =>
      exists j w1, (j < fuel)%nat /\ t = try_time dtime j /\ name = stamp_name type t (rnd (k + j)%nat) /\
        files w1 = files w /\ w' = fst (creat (dir ++ 47 :: name) w1) /\
        snd (creat (dir ++ 47 :: name) w1) = (if ok then Created else Efail) /\
        forall i, (i < j)%nat ->
          dir ++ 47 :: stamp_name type (try_time dtime i) (rnd (k + i)%nat) ∈ files w
  end.
Proof.
  induction fuel as [|fuel IH]; intros w dtime k; cbn [stamp_loop]; [lia|].
  assert (E0 : s32 (dtime + 1) = try_time dtime 0) by (unfold try_time; f_equal; lia).
  set (name := stamp_name _ _ _).
  pose proof (creat_exists (dir ++ 47 :: name) w) as He. pose proof (creat_files (dir ++ 47 :: name) w) as Hf.
  assert (Hname : name = stamp_name type (try_time dtime 0) (rnd (k + 0)%nat))
    by (unfold name; by rewrite E0, Nat.add_0_r).
  destruct (creat (dir ++ 47 :: name) w) as [w' res] eqn:E. cbn [fst snd] in *.
  assert (Hstop : forall ok : bool, res = (if ok then Created else Efail) ->
    exists j w1, (j < S fuel)%nat /\ s32 (dtime + 1) = try_time dtime j /\
      name = stamp_name type (s32 (dtime + 1)) (rnd (k + j)%nat) /\ files w1 = files w /\
      w' = fst (creat (dir ++ 47 :: name) w1) /\
      snd (creat (dir ++ 47 :: name) w1) = (if ok then Created else Efail) /\
      forall i, (i < j)%nat -> dir ++ 47 :: stamp_name type (try_time dtime i) (rnd (k + i)%nat) ∈ files w).
  { intros ok Hok. exists 0%nat, w. rewrite E, E0. cbn [fst snd].
    split_and!; [lia|done|exact Hname|done|done|done|lia]. }
  destruct res; [by apply (Hstop true)| |by apply (Hstop false)].
  assert (Hfirst : dir ++ 47 :: stamp_name type (try_time dtime 0) (rnd (k + 0)%nat) ∈ files w)
    by (rewrite <- Hname; by apply He).
  assert (Hrest : forall n, (forall i, (i < n)%nat ->
      dir ++ 47 :: stamp_name type (try_time (s32 (dtime + 1)) i) (rnd (S k + i)%nat) ∈ files w) ->
    forall i, (i < S n)%nat -> dir ++ 47 :: stamp_name type (try_time dtime i) (rnd (k + i)%nat) ∈ files w).
  { intros n H [|i] Hi; [done|]. rewrite try_time_S. replace (k + S i)%nat with (S k + i)%nat by lia.
    apply H. lia. }
  specialize (IH w' (s32 (dtime + 1)) (S k)). rewrite Hf in IH.
  destruct (stamp_loop _ _ _ _ _ _ _ _) as [[[[w2 n2] t2] ok]|]; [|by apply Hrest].
  destruct IH as (j & w1 & Hj & -> & -> & Hw1 & Hw2 & Hok & Hi). exists (S j), w1.
  rewrite try_time_S. replace (k + S j)%nat with (S k + j)%nat by lia.
  split_and!; [lia|done|done|done|done|done|by apply Hrest].
Qed.

Lemma try_time_s32 time i : try_time (s32 time) i = s32 (time + 1 + Z.of_nat i).
Proof.
  pose proof (try_time_S (time - 1) i) as H. replace (time - 1 + 1) with time in H by lia. rewrite <- H.
  unfold try_time. f_equal. lia.
Qed.

Lemma s32_mod_eq a b : s32 a = s32 b -> a mod 2 ^ 32 = b mod 2 ^ 32.
Proof. intros H. change (u32 a = u32 b). by rewrite <- (u32_s32 a), H, u32_s32. Qed.

Lemma try_time_inj dtime i j :
  Z.of_nat i < 2 ^ 32 -> Z.of_nat j < 2 ^ 32 -> try_time dtime i = try_time dtime j -> i = j.
Proof.
  intros Hi Hj E%s32_mod_eq. apply (f_equal (fun x => (x - (dtime + 1)) mod 2 ^ 32)) in E.
  rewrite !Zminus_mod_idemp_l in E.
  replace (dtime + 1 + Z.of_nat i - (dtime + 1)) with (Z.of_nat i) in E by lia.
  replace (dtime + 1 + Z.of_nat j - (dtime + 1)) with (Z.of_nat j) in E by lia.
  rewrite !Z.mod_small in E by lia. lia.
Qed.

(** Distinct names that exist are distinct files. *)
Lemma tries_bound w dir dtime n :
  zlen (files w) < 2 ^ 32 ->
  (forall i, (i < n)%nat -> dir ++ 47 :: stamp_name STAMP_FILE (try_time dtime i) (rnd i) ∈ files w) ->
  (n <= length (files w))%nat.
Proof.
  intros Hlen Hs. destruct (Nat.le_gt_cases n (length (files w))) as [|Hn]; [done|exfalso].
  set (f := fun i => dir ++ 47 :: stamp_name STAMP_FILE (try_time dtime i) (rnd i)).
  assert (Hl : (length (map f (seq 0 (S (length (files w))))) <= length (files w))%nat).
  { apply submseteq_length, NoDup_submseteq.
    - apply NoDup_fmap_2_strong; [|apply NoDup_seq].
      intros i j Hi%elem_of_seq Hj%elem_of_seq E. unfold zlen in Hlen.
      apply app_inv_head, (f_equal tl) in E. apply stamp_name_inj in E; [|apply s32_range..].
      apply (try_time_inj dtime); [lia|lia|exact E].
    - intros m (i & -> & Hi%elem_of_seq)%list_elem_of_fmap. apply Hs. lia. }
  rewrite length_map, length_seq in Hl. lia.
Qed.

End Loop.

Lemma stamp_name_short t h :
  0 <= h < 0x1000 -> strlcpy FNLEN (stamp_name STAMP_FILE t h) = stamp_name STAMP_FILE t h.
Proof.
  intros Hh. unfold strlcpy, FNLEN. apply take_ge. unfold stamp_name, fmt_03X, pad0.
  pose proof (u32_range t) as Ht. unfold is_u32 in Ht.
  pose proof (fmt_base_length 10 (u32 t) 9 ltac:(lia) ltac:(lia)) as H10.
  pose proof (fmt_base_length 16 h 2 ltac:(lia) ltac:(lia)) as H16.
  rewrite !length_app, length_replicate. unfold fmt_u.
  change (length (str "M.")) with 2%nat. change (length (str ".A.")) with 3%nat. lia.
Qed.

(** C21. [stampfile] on a directory with fewer than [2 ^ 32] files returns after
    at most one more attempt than there are files, for any clock.  The name it
    tried last carries one of the times after the clock, which reads back from
    it.  Either that file did not exist, now does and is the only new one, and
    the result is 0 with the name and the date of that time in a header that is
    otherwise zero; or the result is -1, its creation failed for another reason
    than that it exists, and no file is new.  The time is later than the clock,
    also after 2038, unless the times from the clock on reach [2 ^ 32]. *)
Theorem stampfile_fresh {W} (access : list Z -> W -> bool) mkdir creat `{!Directory creat}
    localtime rnd fuel w time fpath fh :
  let w0 := if access fpath w then w else mkdir fpath w in
  fpath <> [] -> (length (files w0) < fuel)%nat -> zlen (files w0) < 2 ^ 32 ->
  (forall k, 0 <= rnd k < 0x1000) ->
  exists w' name t fh' r,
    stampfile access mkdir creat localtime rnd fuel w time fpath fh = Some (w', fpath ++ 47 :: name, fh', r) /\
    (exists j h, 0 <= j <= zlen (files w0) /\ t = s32 (time + 1 + j) /\ name = stamp_name STAMP_FILE t h) /\
    get_fhdr_stamp_ts (Some name) = t /\
    (r = 0 /\ fpath ++ 47 :: name ∉ files w0 /\ files w' = (fpath ++ 47 :: name) :: files w0 /\
       fh' = (fh ← fh; Some (Fhdr name (fhdr_set_date localtime t) (map (fun _ => 0) (fh_rest fh)))) \/
     r = -1 /\ files w' = files w0 /\
       exists w1, files w1 = files w0 /\ snd (creat (fpath ++ 47 :: name) w1) = Efail) /\
    (0 <= time -> time + 1 + zlen (files w0) < 2 ^ 32 -> time4_gt t (s32 time) = true).
Proof.
  intros w0 Hp Hfuel Hlen Hr. unfold stampfile, fhdr_stamp.
  replace (zlen fpath =? 0) with false by (symmetry; apply Z.eqb_neq; intros ?%zlen_zero; done). fold w0.
  pose proof (stamp_loop_result creat rnd fuel STAMP_FILE fpath w0 (s32 time) 0) as Hres.
  pose proof (fun n => tries_bound creat rnd w0 fpath (s32 time) n Hlen) as Htries.
  destruct (stamp_loop _ _ _ _ _ _ _ _) as [[[[w' name] t] ok]|] eqn:E.
  2:{ apply Htries in Hres. lia. }
  destruct Hres as (j & w1 & _ & Et & En & Hw1 & Hw' & Hok & Hi). cbn [mbind option_bind].
  assert (Hj : (j <= length (files w0))%nat) by (by apply Htries).
  assert (Et' : t = s32 (time + 1 + Z.of_nat j)) by (rewrite Et; apply try_time_s32).
  assert (Hfiles : files w' = if ok then (fpath ++ 47 :: name) :: files w0 else files w0).
  { rewrite Hw', creat_files, Hok. destruct ok; congruence. }
  assert (Hs : strlcpy FNLEN name = name) by (rewrite En; by apply stamp_name_short).
  assert (Hts : get_fhdr_stamp_ts (Some name) = t).
  { rewrite En. apply stamp_name_ts. rewrite Et'. apply s32_range. }
  assert (Htry : exists j h, 0 <= j <= zlen (files w0) /\ t = s32 (time + 1 + j) /\ name = stamp_name STAMP_FILE t h).
  { exists (Z.of_nat j), (rnd (0 + j)%nat). unfold zlen. split_and!; [lia|lia|exact Et'|exact En]. }
  assert (Hgt : 0 <= time -> time + 1 + zlen (files w0) < 2 ^ 32 -> time4_gt t (s32 time) = true).
  { intros H0 H. unfold zlen in H. unfold time4_gt.
    rewrite Et', !u32_s32, !u32_small by (unfold is_u32; lia). lia. }
  exists w', name, t. destruct ok; do 2 eexists; (split; [reflexivity|]);
    (split; [done|]); (split; [done|]); (split; [|done]); [left|right]; (split; [done|]).
  - rewrite Hs. split_and!; [|done|by destruct fh]. rewrite <- Hw1, <- creat_exists, Hok. done.
  - split; [done|]. by exists w1.
Qed.

(** The limit of [stampdir]: a directory name has only 12 bits
    of the time, so a directory in which all 4096 names are taken makes the
    loop go on for ever, whatever the fuel. *)
Lemma stampdir_diverges {W} (access : list Z -> W -> bool) mkdir creat `{!Directory creat}
    localtime rnd w time fpath fh fuel :
  (forall v, 0 <= v < 4096 ->
     fpath ++ 47 :: str "D" ++ fmt_base 16 v ∈ files (if access fpath w then w else mkdir fpath w)) ->
  stampdir access mkdir creat localtime rnd fuel w time fpath fh = None.
Proof.
  intros H. unfold stampdir, fhdr_stamp. destruct (zlen fpath =? 0); [done|].
  set (w0 := if access fpath w then w else mkdir fpath w) in *.
  enough (E : forall (w1 : W) t k, files w1 = files w0 -> stamp_loop creat rnd fuel STAMP_DIR w1 fpath t k = None)
    by now rewrite E.
  induction fuel as [|fuel IH]; intros w1 t k Hw; [done|]. cbn [stamp_loop stamp_name].
  change 0xFFF with (Z.ones 12). rewrite Z.land_ones by lia.
  set (path := fpath ++ _). assert (Hin : path ∈ files w1).
  { rewrite Hw. apply H. apply Z.mod_pos_bound. lia. }
  pose proof (creat_files path w1) as Hf. apply creat_exists in Hin.
  destruct (creat path w1) as [w2 res]. cbn [fst snd] in *. subst res. apply IH. congruence.
Qed.

(** A file system as the list of its paths, on which only creation in "boards" works. *)
Definition demo_creat (n : list Z) (w : list (list Z)) : list (list Z) * create_result :=
  if bool_decide (n ∈ w) then (w, Eexist)
  else if prefix_b (str "boards") n then (n :: w, Created) else (w, Efail).

#[local] Instance demo_directory : Directory demo_creat.
Proof.
  refine {| files := fun w => w |}; intros n w; unfold demo_creat;
    (case_bool_decide; [|destruct (prefix_b _ _)]); cbn; done.
Defined.

(** In 2038, when the time passes [2 ^ 31]: the first name is taken, and the
    second one is stored with a negative [time4_t]. *)
Lemma stampfile_fresh_witness :
  let w := [str "boards/M.2147483647.A.005"] in
  exists w' name t fh' r,
    stampfile (fun _ _ => true) (fun _ w => w) demo_creat (fun _ => (0, 19)) (fun _ => 5) 2 w 2147483646
      (str "boards") (Some (Fhdr [] [] [1])) = Some (w', str "boards" ++ 47 :: name, fh', r) /\
    name = str "M.2147483648.A.005" /\ t = - 2 ^ 31 /\ r = 0 /\
    get_fhdr_stamp_ts (Some name) = t /\
    fh' = Some (Fhdr name (str " 1/19") [0]) /\ time4_gt t 2147483646 = true.
Proof.
  intros w. destruct (stampfile_fresh (fun _ _ => true) (fun _ w => w) demo_creat (fun _ => (0, 19)) (fun _ => 5)
    2 w 2147483646 (str "boards") (Some (Fhdr [] [] [1])))
    as (w' & name & t & fh' & r & E & Hn & Hts & _ & Hgt); [done|cbn; lia|done|lia|].
  exists w', name, t, fh', r. rewrite E. split; [done|].
  assert (E1 : name = str "M.2147483648.A.005" /\ r = 0 /\ fh' = Some (Fhdr name (str " 1/19") [0])).
  { vm_compute in E. injection E as _ E1 E2 E3. by subst. }
  destruct E1 as (-> & -> & ->). split_and!; [done| |done|done|done|by apply Hgt].
  rewrite <- Hts. by vm_compute.
Defined.

End Stamp.
