(* ===== verification/Brc.v ===== *)
(** The read marks of a user ([mbbsd/brc.c]): the in-memory .brc3 store.

    The store is one byte buffer of records (board, number of entries, entries),
    most recently used board first, at most [BRC_MAXSIZE] bytes; the marks of
    the board being read are a second copy, [brc_list].  The buffer is modelled
    byte by byte, with its pointers as offsets, and every access that would
    leave the allocated block makes the operation [None]. *)

From S2P Require Import Prelude Cstr Time4 Stamp.
Import Cstr Time4 Stamp.

Module Brc.

Definition BRC_MAXSIZE : Z := 65536.
Definition BRC_MAXNUM : Z := 80.
Definition BRC_BLOCKSIZE : Z := 1024.
Definition DAY_SECONDS : Z := 86400.

(** sizeof(brcbid_t), sizeof(brcnbrd_t), sizeof(brc_rec) *)
Definition SZ_BID : Z := 4.
Definition SZ_NUM : Z := 2.
Definition SZ_REC : Z := 8.
Definition SZ_HDR : Z := SZ_BID + SZ_NUM.

Record brc_rec := BrcRec { create : Z; modified : Z }.

#[export] Instance brc_rec_eq_dec : EqDecision brc_rec.
Proof. solve_decision. Defined.

(** The image of an array of [brc_rec] in memory. *)
Definition rec_bytes (r : brc_rec) : list Z :=
  le_bytes 4 (u32 (create r)) ++ le_bytes 4 (u32 (modified r)).
Definition recs_bytes (l : list brc_rec) : list Z := concat (map rec_bytes l).

Fixpoint bytes_recs (n : nat) (bs : list Z) : list brc_rec :=
  match n with
  | O => []
  | S n => BrcRec (s32 (le_val (take 4 bs))) (s32 (le_val (take 4 (drop 4 bs))))
           :: bytes_recs n (drop 8 bs)
  end.

(** The static variables of the file. [brc_buf] is [None] for the null
    pointer, otherwise the block of [brc_alloc] bytes; [brc_list] is the whole
    array of [BRC_MAXNUM] entries. *)
Record brc_state := BrcState {
  brc_initialized : bool;
  brc_expire_time : Z;
  brc_changed : bool;
  brc_buf : option (list Z);
  brc_size : Z;
  brc_alloc : Z;
  brc_needs_file_update : bool;
  brc_currbid : Z;
  brc_num : Z;
  brc_list : list brc_rec
}.

(** The variables of the session outside of [brc.c]: [cuser.userlevel],
    [login_start_time], [now], [currbid]. *)
Record session := Session { userlevel : Z; login_start_time : Z; now : Z; currbid : Z }.

Definition set_currbid (bid : Z) (se : session) : session :=
  Session (userlevel se) (login_start_time se) (now se) bid.

Definition MAX_BOARD : Z := 8192.

Definition set_initialized (b : bool) (e : Z) (s : brc_state) : brc_state :=
  BrcState b e (brc_changed s) (brc_buf s) (brc_size s) (brc_alloc s)
    (brc_needs_file_update s) (brc_currbid s) (brc_num s) (brc_list s).
Definition set_changed (b : bool) (s : brc_state) : brc_state :=
  BrcState (brc_initialized s) (brc_expire_time s) b (brc_buf s) (brc_size s) (brc_alloc s)
    (brc_needs_file_update s) (brc_currbid s) (brc_num s) (brc_list s).
Definition set_store (buf : option (list Z)) (size alloc : Z) (s : brc_state) : brc_state :=
  BrcState (brc_initialized s) (brc_expire_time s) (brc_changed s) buf size alloc
    (brc_needs_file_update s) (brc_currbid s) (brc_num s) (brc_list s).
Definition set_update (b : bool) (s : brc_state) : brc_state :=
  BrcState (brc_initialized s) (brc_expire_time s) (brc_changed s) (brc_buf s) (brc_size s)
    (brc_alloc s) b (brc_currbid s) (brc_num s) (brc_list s).
Definition set_curr (bid num : Z) (l : list brc_rec) (s : brc_state) : brc_state :=
  BrcState (brc_initialized s) (brc_expire_time s) (brc_changed s) (brc_buf s) (brc_size s)
    (brc_alloc s) (brc_needs_file_update s) bid num l.

Definition set_buf (b : list Z) (s : brc_state) : brc_state :=
  set_store (Some b) (brc_size s) (brc_alloc s) s.
Definition set_size (n : Z) (s : brc_state) : brc_state :=
  set_store (brc_buf s) n (brc_alloc s) s.

(** The block; reading through the null pointer finds no byte. *)
Definition blk (s : brc_state) : list Z := default [] (brc_buf s).

(** *** Access to a record *)

Definition brc_read_bid (buf : list Z) (p : Z) : option Z :=
  le_val <$> mem_read buf p SZ_BID.
Definition brc_read_num (buf : list Z) (p : Z) : option Z :=
  le_val <$> mem_read buf p SZ_NUM.
Definition brc_write_num (buf : list Z) (p v : Z) : option (list Z) :=
  mem_write buf p (le_bytes 2 v).

(** Every record is at least [SZ_HDR] bytes, so one step per byte is enough
    for the loops over a block. *)
Definition scan_fuel (buf : list Z) : nat := S (length buf).

(** The result is the address and [*num]. *)
Fixpoint brc_findrecord_loop (fuel : nat) (buf : list Z) (ptr endp bid : Z)
    : option (option Z * Z) :=
  match fuel with
  | O => None
  | S fuel =>
      if ptr + SZ_BID + SZ_NUM <? endp then
        tbid ← brc_read_bid buf ptr;
        num ← brc_read_num buf (ptr + SZ_BID);
        let tmpp := ptr + SZ_BID + SZ_NUM + num * SZ_REC in
        if endp <? tmpp then Some (None, endp - ptr)
        else if tbid =? bid then Some (Some ptr, num)
        else brc_findrecord_loop fuel buf tmpp endp bid
      else Some (None, 0)
  end.

Definition brc_findrecord_in (s : brc_state) (bid : Z) : option (option Z * Z) :=
  brc_findrecord_loop (scan_fuel (blk s)) (blk s) 0 (brc_size s) (u32 bid).

(** The list the returned pointer designates, with its length [*num]; a null
    pointer is [None]. *)
Definition brc_find_record (s : brc_state) (bid : Z) : option (option (list brc_rec) * Z) :=
  '(p, tnum) ← brc_findrecord_in s bid;
  match p with
  | Some p =>
      d ← mem_read (blk s) (p + SZ_BID + SZ_NUM) (tnum * SZ_REC);
      Some (Some (bytes_recs (Z.to_nat tnum) d), tnum)
  | None => Some (None, 0)
  end.

(** Returns the buffer and the address after the record. *)
Definition brc_putrecord (expire : Z) (buf : list Z) (ptr endp bid num : Z)
    (l : list brc_rec) : option (list Z * Z) :=
  if 0 <? num then
    r0 ← zget l 0;
    if time4_gt (create r0) expire && (ptr + SZ_BID + SZ_NUM <? endp) then
      let num := if BRC_MAXNUM <? num then BRC_MAXNUM else num in
      if num =? 0 then Some (buf, ptr) else
      buf ← mem_write buf ptr (le_bytes 4 bid);
      let ptr := ptr + SZ_BID in
      buf ← mem_write buf ptr (le_bytes 2 num);
      let ptr := ptr + SZ_NUM in
      let tmp := ptr + num * SZ_REC in
      if tmp <=? endp then
        d ← mem_read l 0 num;
        buf ← mem_write buf ptr (recs_bytes d);
        Some (buf, tmp)
      else Some (buf, tmp)
    else Some (buf, ptr)
  else Some (buf, ptr).

Section Memory.
(** The bytes [malloc] and [realloc] leave in new memory. *)
Variable junk : nat -> Z.
Definition fresh (n : Z) : list Z := map junk (seq 0 (Z.to_nat n)).

(** [false] is the return value 0. [assert(brc_buf)]: memory does not run out. *)
Definition brc_enlarge_buf (s : brc_state) : brc_state * bool :=
  if BRC_MAXSIZE <=? brc_alloc s then (s, false)
  else
    let alloc := brc_alloc s + BRC_BLOCKSIZE in
    let b := blk s ++ fresh (alloc - zlen (blk s)) in
    (set_store (Some b) (brc_size s) alloc s, true).

Definition brc_get_buf (size : Z) (s : brc_state) : brc_state :=
  let alloc :=
    if size =? 0 then BRC_BLOCKSIZE
    else Z.quot (size + BRC_BLOCKSIZE - 1) BRC_BLOCKSIZE * BRC_BLOCKSIZE in
  let alloc := if BRC_MAXSIZE <? alloc then BRC_MAXSIZE else alloc in
  set_store (Some (fresh alloc)) (brc_size s) alloc s.

(** while (brc_size + new_size > brc_alloc && brc_enlarge_buf()); *)
Fixpoint enlarge_loop (fuel : nat) (new_size : Z) (s : brc_state) : option brc_state :=
  match fuel with
  | O => None
  | S fuel =>
      if brc_alloc s <? brc_size s + new_size then
        let '(s', ok) := brc_enlarge_buf s in
        if ok : bool then enlarge_loop fuel new_size s' else Some s'
      else Some s
  end.
Definition enlarge_fuel : nat := 66. (* BRC_MAXSIZE / BRC_BLOCKSIZE + 2 *)

(** The inner loop of [brc_compact_tail_drop]: the last whole record. *)
Fixpoint last_rec_loop (fuel : nat) (buf : list Z) (ptr endp : Z) (last_rec : option Z)
    : option (option Z) :=
  match fuel with
  | O => None
  | S fuel =>
      if ptr + SZ_BID + SZ_NUM <? endp then
        num ← brc_read_num buf (ptr + SZ_BID);
        let rec_len := SZ_BID + SZ_NUM + num * SZ_REC in
        if endp <? ptr + rec_len then Some last_rec
        else last_rec_loop fuel buf (ptr + rec_len) endp (Some ptr)
      else Some last_rec
  end.

Fixpoint brc_compact_tail_drop (fuel : nat) (needed : Z) (s : brc_state) : option brc_state :=
  match fuel with
  | O => None
  | S fuel =>
      if (BRC_MAXSIZE <? brc_size s + needed) && (0 <? brc_size s) then
        last_rec ← last_rec_loop (scan_fuel (blk s)) (blk s) 0 (brc_size s) None;
        match last_rec with
        | Some p => brc_compact_tail_drop fuel needed (set_size p s)
        | None => Some s
        end
      else Some s
  end.

(** The inner loop of [brc_compact]: the tail-most record with [num > 1] of a
    board other than [protect_bid]. *)
Fixpoint candidate_loop (fuel : nat) (buf : list Z) (ptr endp protect_bid : Z)
    (candidate : option Z) : option (option Z) :=
  match fuel with
  | O => None
  | S fuel =>
      if ptr + SZ_BID + SZ_NUM <? endp then
        bid ← brc_read_bid buf ptr;
        num ← brc_read_num buf (ptr + SZ_BID);
        let rec_len := SZ_BID + SZ_NUM + num * SZ_REC in
        if endp <? ptr + rec_len then Some candidate
        else
          let candidate :=
            if negb (bid =? protect_bid) && (1 <? num) then Some ptr else candidate in
          candidate_loop fuel buf (ptr + rec_len) endp protect_bid candidate
      else Some candidate
  end.

Fixpoint brc_compact (fuel : nat) (needed protect_bid : Z) (s : brc_state) : option brc_state :=
  match fuel with
  | O => None
  | S fuel =>
      if (BRC_MAXSIZE <? brc_size s + needed) && (0 <? brc_size s) then
        candidate ←
          candidate_loop (scan_fuel (blk s)) (blk s) 0 (brc_size s) protect_bid None;
        match candidate with
        | None => Some s
        | Some candidate =>
            cnum ← brc_read_num (blk s) (candidate + SZ_BID);
            let old_len := SZ_BID + SZ_NUM + cnum * SZ_REC in
            let new_len := SZ_BID + SZ_NUM + 1 * SZ_REC in
            let diff := old_len - new_len in
            let tail := candidate + old_len in
            let tail_size := brc_size s - tail in
            b ← brc_write_num (blk s) (candidate + SZ_BID) 1;
            b ← (if 0 <? tail_size
                 then mem_move b (candidate + new_len) tail tail_size else Some b);
            brc_compact fuel needed protect_bid
              (set_size (brc_size s - diff) (set_buf b s))
        end
      else Some s
  end.

(** while (num > 0 && time4_lt(list[num - 1].create, brc_expire_time)) num--; *)
Fixpoint trim_expired (expire : Z) (num : nat) (l : list brc_rec) : option Z :=
  match num with
  | O => Some 0
  | S n =>
      r ← l !! n;
      if time4_lt (create r) expire then trim_expired expire n l
      else Some (Z.of_nat num)
  end.

(** [brc_insert_record] from "If deleting record" on: the old record of the
    board is gone. *)
Definition brc_insert_head (bid num new_size : Z) (l : list brc_rec) (s : brc_state)
    : option brc_state :=
  if num =? 0 then Some (set_changed false s) else
  s ← (if BRC_MAXSIZE <? brc_size s + new_size
       then brc_compact (scan_fuel (blk s)) new_size bid s else Some s);
  let shrink := (BRC_MAXSIZE <? brc_size s + new_size) && (1 <? num) in
  let num := if shrink then 1 else num in
  let new_size := if shrink then SZ_BID + SZ_NUM + SZ_REC else new_size in
  let s := match brc_buf s with None => brc_get_buf new_size s | Some _ => s end in
  s ← enlarge_loop enlarge_fuel new_size s;
  s ← (if BRC_MAXSIZE <? brc_size s + new_size
       then brc_compact_tail_drop (scan_fuel (blk s)) new_size s else Some s);
  s ← (if brc_size s + new_size <=? BRC_MAXSIZE then
         b ← (if 0 <? brc_size s
              then mem_move (blk s) new_size 0 (brc_size s) else Some (blk s));
         '(b, _) ← brc_putrecord (brc_expire_time s) b 0 new_size bid num l;
         Some (set_size (brc_size s + new_size) (set_buf b s))
       else Some s);
  Some (set_changed false s).

Definition brc_insert_record (bid num : Z) (l : list brc_rec) (s : brc_state)
    : option brc_state :=
  let bid := u32 bid in
  let s := set_update true s in
  '(ptr, tnum) ← brc_findrecord_in s bid;
  num ← trim_expired (brc_expire_time s) (Z.to_nat (u16 num)) l;
  let new_size := if num =? 0 then 0 else SZ_BID + SZ_NUM + num * SZ_REC in
  match ptr with
  | Some p =>
      let len := SZ_BID + SZ_NUM + tnum * SZ_REC in
      if (p =? 0) && (new_size =? len) then
        '(b, _) ← brc_putrecord (brc_expire_time s) (blk s) 0 new_size bid num l;
        Some (set_changed false (set_buf b s))
      else
        let tmpp := p + len in
        let end_size := brc_size s - tmpp in
        b ← (if 0 <? end_size then mem_move (blk s) p tmpp end_size else Some (blk s));
        brc_insert_head bid num new_size l (set_size (brc_size s - len) (set_buf b s))
  | None => brc_insert_head bid num new_size l (set_size (brc_size s - tnum) s)
  end.

(** *** Loading, saving, and the life of the store *)

Definition brc_release (s : brc_state) : brc_state := set_changed false (set_store None 0 0 s).

(** [file] is what open, fstat and read find: [None] when no store can be opened. *)
Definition load_local_brc (file : option (list Z)) (s : brc_state) : brc_state * bool :=
  let s := set_size 0 s in
  match file with
  | None => (s, false)
  | Some f =>
      let s := brc_get_buf (zlen f) s in
      let d := take (Z.to_nat (brc_alloc s)) f in
      let b := d ++ drop (length d) (blk s) in
      (set_update false (set_size (zlen d) (set_buf b s)), true)
  end.

(** [open_ok], [write_ok]: whether the temporary file can be created and
    written whole.  The last component is the new file, when [Rename] puts one
    in place; the first two are the state and the return value. *)
Definition save_local_brc (open_ok write_ok : bool) (s : brc_state)
    : brc_state * bool * option (list Z) :=
  if negb (brc_needs_file_update s) then (s, true, None) else
  let '(ok, f) :=
    match brc_buf s with
    | None => (true, None)
    | Some b =>
        if open_ok then
          if write_ok then (true, Some (take (Z.to_nat (brc_size s)) b)) else (false, None)
        else (false, None)
    end in
  (set_update false s, ok, f).

Definition read_brc_buf (file : option (list Z)) (s : brc_state) : brc_state :=
  match brc_buf s with
  | Some _ => s
  | None => fst (load_local_brc file s)
  end.

Definition brc_initialize (se : session) (file : option (list Z)) (s : brc_state) : brc_state :=
  if brc_initialized s then s
  else read_brc_buf file
         (set_initialized true (s32 (login_start_time se - 365 * DAY_SECONDS)) s).

Definition brc_update (se : session) (file : option (list Z)) (s : brc_state)
    : option brc_state :=
  if negb (brc_currbid s =? 0) && brc_changed s && negb (userlevel se =? 0) &&
     (0 <? brc_num s)
  then
    let s := brc_initialize se file s in
    brc_insert_record (brc_currbid s) (brc_num s) (brc_list s) s
  else Some s.

Definition brc_finalize (se : session) (file : option (list Z)) (open_ok write_ok : bool)
    (s : brc_state) : option (brc_state * option (list Z)) :=
  if negb (brc_initialized s) then Some (s, None) else
  s ← brc_update se file s;
  let '(s, _, f) := save_local_brc open_ok write_ok s in
  let s := brc_release s in
  Some (set_initialized false (brc_expire_time s) s, f).

(** *** The marks of one board *)

(** [None] is the failure of the assertion, or an access out of a block. The
    results are [*num], [list] and the return value. *)
Definition brc_read_record (s : brc_state) (bid : Z) (l : list brc_rec)
    : option (Z * list brc_rec * Z) :=
  '(p, tnum) ← brc_findrecord_in s bid;
  match p with
  | Some p =>
      if (0 <=? tnum) && (tnum <=? BRC_MAXNUM) then
        d ← mem_read (blk s) (p + SZ_BID + SZ_NUM) (tnum * SZ_REC);
        l ← mem_write l 0 (bytes_recs (Z.to_nat tnum) d);
        l ← (if tnum <? BRC_MAXNUM then mem_write l tnum [BrcRec 0 0] else Some l);
        Some (tnum, l, tnum)
      else None
  | None =>
      r0 ← zget l 0;
      l ← mem_write l 0 [BrcRec 1 (modified r0)];
      Some (1, l, 0)
  end.

(** [same_board] is [strcmp(currboard, boardname) == 0]; [bid] and [default_bid]
    are the board numbers [getbnum] finds for the name and for [DEFAULT_BOARD].
    [None] is also the failure of the assertions on [currbid]. *)
Definition brc_initial_board (se : session) (file : option (list Z)) (same_board : bool)
    (bid default_bid : Z) (s : brc_state) : option (session * brc_state * Z) :=
  let s := brc_initialize se file s in
  if same_board then
    if currbid se =? brc_currbid s then Some (se, s, brc_num s) else None
  else
  s ← brc_update se file s;
  let bid := if bid =? 0 then default_bid else bid in
  if (0 <=? bid - 1) && (bid - 1 <? MAX_BOARD) then
    '(num, l, ret) ← brc_read_record s bid (brc_list s);
    Some (set_currbid bid se, set_curr bid num l s, ret)
  else None.

Definition brc_trunc (bid ftime : Z) (s : brc_state) : option brc_state :=
  let r := BrcRec ftime ftime in
  s ← brc_insert_record bid 1 [r] s;
  if bid =? brc_currbid s then
    l ← mem_write (brc_list s) 0 [r];
    Some (set_changed false (set_curr (brc_currbid s) 1 l s))
  else Some s.

Definition brc_toggle_all_read (se : session) (file : option (list Z)) (bid : Z)
    (is_all_read : bool) (s : brc_state) : option brc_state :=
  let s := brc_initialize se file s in
  if is_all_read then brc_trunc bid (now se) s else brc_trunc bid 1 s.

Definition brc_toggle_read (se : session) (file : option (list Z)) (bid newtime : Z)
    (s : brc_state) : option brc_state :=
  brc_trunc bid newtime (brc_initialize se file s).

(** for (i = brc_num - 1; --i >= n; brc_list[i + 1] = brc_list[i]);
    [cnt] is the number of entries moved. *)
Fixpoint shift_loop (cnt : nat) (i : Z) (l : list brc_rec) : option (list brc_rec) :=
  match cnt with
  | O => Some l
  | S cnt =>
      r ← zget l i;
      l ← mem_write l (i + 1) [r];
      shift_loop cnt (i - 1) l
  end.

(** The body of the linear search of [brc_addlist] from index [n]; [steps]
    entries are left. The results are [brc_num], [brc_list], [brc_changed]. *)
Fixpoint addlist_loop (steps : nat) (n num : Z) (frec : brc_rec) (l : list brc_rec)
    (changed : bool) : option (Z * list brc_rec * bool) :=
  match steps with
  | O => Some (num, l, changed)
  | S steps =>
      r ← zget l n;
      if create frec =? create r then
        if time4_is_invalid (modified frec) then Some (num, l, changed) else
        let m := if time4_is_invalid (modified r) then 0 else modified r in
        let m' := if time4_lt m (modified frec) then modified frec else m in
        l ← mem_write l n [BrcRec (create r) m'];
        Some (num, l, time4_lt m (modified frec) || changed)
      else if time4_gt (create frec) (create r) then
        let num := if num <? BRC_MAXNUM then num + 1 else num in
        l ← shift_loop (Z.to_nat (num - 1 - n)) (num - 2) l;
        l ← mem_write l n [frec];
        Some (num, l, true)
      else addlist_loop steps (n + 1) num frec l changed
  end.

(** [None] is also the failure of the assertion on [currbid]. *)
Definition brc_addlist (se : session) (file : option (list Z)) (fname : list Z)
    (mtime : Z) (s : brc_state) : option brc_state :=
  if negb (currbid se =? brc_currbid s) then None else
  if userlevel se =? 0 then Some s else
  let s := brc_initialize se file s in
  let frec := BrcRec (get_fhdr_stamp_ts (Some fname)) mtime in
  if time4_le (create frec) (brc_expire_time s) then Some s else
  if brc_num s <=? 0 then
    l ← mem_write (brc_list s) 0 [frec];
    Some (set_changed true (set_curr (brc_currbid s) 1 l s))
  else
    r0 ← zget (brc_list s) 0;
    if (brc_num s =? 1) && time4_lt (create frec) (create r0) then Some s else
    '(num, l, ch) ←
      addlist_loop (Z.to_nat (brc_num s)) 0 (brc_num s) frec (brc_list s) (brc_changed s);
    Some (set_changed ch (set_curr (brc_currbid s) num l s)).

(** [blist] and [bnum] of the board, from the copy when it is the current one. *)
Definition board_marks (s : brc_state) (bid : Z) : option (option (list brc_rec) * Z) :=
  if negb (brc_currbid s =? 0) && (bid =? brc_currbid s)
  then Some (Some (brc_list s), brc_num s)
  else brc_find_record s bid.

Fixpoint unread_loop (steps : nat) (i : Z) (ftime mtime : Z) (blist : list brc_rec)
    : option Z :=
  match steps with
  | O => Some 0
  | S steps =>
      r ← zget blist i;
      if time4_gt ftime (create r) then Some 1
      else if ftime =? create r then
        let brcm := modified r in
        if (mtime =? 0) || (brcm =? 0) then Some 0
        else if time4_is_invalid mtime || time4_is_invalid brcm then Some 0
        else Some (if time4_gt mtime brcm then 2 else 0)
      else unread_loop steps (i + 1) ftime mtime blist
  end.

Definition brc_unread_time (se : session) (file : option (list Z)) (bid ftime mtime : Z)
    (s : brc_state) : option (brc_state * Z) :=
  let s := brc_initialize se file s in
  if time4_le ftime (brc_expire_time s) then Some (s, 0) else
  '(blist, bnum) ← board_marks s bid;
  if bnum <=? 0 then Some (s, 1) else
  v ← unread_loop (Z.to_nat bnum) 0 ftime mtime (default [] blist);
  Some (s, v).

Definition brc_unread (se : session) (file : option (list Z)) (bid : Z) (fname : list Z)
    (mtime : Z) (s : brc_state) : option (brc_state * Z) :=
  brc_unread_time se file bid (get_fhdr_stamp_ts (Some fname)) mtime s.

(** The result pairs the return value with [*result], [None] when it is left
    alone. [i] is the index of the loop. *)
Fixpoint search_loop (steps : nat) (i bnum ftime : Z) (forward : bool)
    (blist : list brc_rec) : option (Z * option Z) :=
  let return_newer := (r ← zget blist (i - 1); Some (1, Some (create r))) in
  match steps with
  | O => if forward && negb (i =? 0) then return_newer else Some (0, None)
  | S steps =>
      r ← zget blist i;
      if time4_gt ftime (create r) then
        if forward then (if negb (i =? 0) then return_newer else Some (0, None))
        else Some (1, Some (create r))
      else if ftime =? create r then
        if forward && negb (i =? 0) then return_newer
        else if negb forward && (i + 1 <? bnum) then
          r ← zget blist (i + 1); Some (1, Some (create r))
        else Some (0, None)
      else search_loop steps (i + 1) bnum ftime forward blist
  end.

Definition brc_search_read (se : session) (file : option (list Z)) (bid ftime : Z)
    (forward : bool) (s : brc_state) : option (brc_state * (Z * option Z)) :=
  let s := brc_initialize se file s in
  '(blist, bnum) ← board_marks s bid;
  match blist with
  | None => Some (s, (-1, None))
  | Some blist =>
      if bnum =? 0 then Some (s, (-1, None)) else
      if bnum =? 1 then
        r0 ← zget blist 0;
        if create r0 =? 1 then Some (s, (-1, None))
        else v ← search_loop (Z.to_nat bnum) 0 bnum ftime forward blist; Some (s, v)
      else v ← search_loop (Z.to_nat bnum) 0 bnum ftime forward blist; Some (s, v)
  end.

End Memory.

End Brc.
