(* ===== verification/BrcStore.v ===== *)
(** The byte store of [Brc] refines a list of board entries.

    [repr s rs t]: the first [brc_size] bytes of the block are the images of
    the entries [rs], most recently used board first, then a tail [t] no scan
    can read as a record.  Each loop over the bytes is a function on [rs]. *)

From S2P Require Import Prelude Cstr Time4 Stamp Brc.
Import Cstr Time4 Stamp Brc.

Module BrcStore.

(** *** The abstract store *)

(** A board and its marks, newest first. *)
Abbreviation entry := (Z * list brc_rec)%type.

Definition entry_bytes (e : entry) : list Z :=
  le_bytes 4 (fst e) ++ le_bytes 2 (zlen (snd e)) ++ recs_bytes (snd e).
Definition store_bytes (rs : list entry) : list Z := concat (map entry_bytes rs).

Definition rec_ok (r : brc_rec) : Prop := is_s32 (create r) /\ is_s32 (modified r).

Definition entry_ok (e : entry) : Prop :=
  is_u32 (fst e) /\ 1 <= zlen (snd e) < 2 ^ 16 /\ Forall rec_ok (snd e).

(** A tail of the buffer that holds no whole record. *)
Definition tail_ok (t : list Z) : Prop :=
  zlen t <= SZ_HDR \/ zlen t < SZ_HDR + SZ_REC * le_val (take 2 (drop 4 t)).

Definition repr (s : brc_state) (rs : list entry) (t : list Z) : Prop :=
  (exists post, blk s = store_bytes rs ++ t ++ post) /\
  brc_size s = zlen (store_bytes rs) + zlen t /\
  zlen (blk s) = brc_alloc s /\
  Forall entry_ok rs /\ tail_ok t.

Fixpoint remove_bid (bid : Z) (rs : list entry) : list entry :=
  match rs with
  | [] => []
  | e :: rs => if fst e =? bid then rs else e :: remove_bid bid rs
  end.

Fixpoint find_bid (bid : Z) (rs : list entry) : option (list brc_rec) :=
  match rs with
  | [] => None
  | e :: rs => if fst e =? bid then Some (snd e) else find_bid bid rs
  end.

(** The entries before the first one of the board, its marks, and the rest. *)
Fixpoint split_bid (bid : Z) (rs : list entry)
    : option (list entry * list brc_rec * list entry) :=
  match rs with
  | [] => None
  | e :: rs =>
      if fst e =? bid then Some ([], snd e, rs)
      else '(a, l, b) ← split_bid bid rs; Some (e :: a, l, b)
  end.

Lemma split_bid_spec bid rs :
  match split_bid bid rs with
  | Some (a, l, b) =>
      rs = a ++ (bid, l) :: b /\ remove_bid bid rs = a ++ b /\ find_bid bid rs = Some l
  | None => remove_bid bid rs = rs /\ find_bid bid rs = None
  end.
Proof.
  induction rs as [|[i l] rs IH]; [done|]. cbn [split_bid remove_bid find_bid fst snd].
  destruct (Z.eqb_spec i bid) as [->|]; [done|].
  destruct (split_bid bid rs) as [[[a l'] b]|]; cbn [mbind option_bind].
  - destruct IH as (-> & -> & ->). done.
  - destruct IH as (-> & ->). done.
Qed.

Lemma remove_bid_ok bid rs : Forall entry_ok rs -> Forall entry_ok (remove_bid bid rs).
Proof.
  induction 1; cbn; [constructor|]. destruct (_ =? _); [done|]. by constructor.
Qed.

Lemma remove_bid_find bid rs : NoDup (map fst rs) -> find_bid bid (remove_bid bid rs) = None.
Proof.
  induction rs as [|e rs IH]; [done|]. cbn [map remove_bid].
  intros [Hni Hnd]%list.NoDup_cons. destruct (Z.eqb_spec (fst e) bid) as [<-|Hne].
  - clear -Hni. induction rs as [|x rs IH]; [done|]. cbn [map find_bid] in *.
    apply not_elem_of_cons in Hni as [Hne Hni].
    destruct (Z.eqb_spec (fst x) (fst e)); [congruence|auto].
  - cbn [find_bid]. destruct (Z.eqb_spec (fst e) bid); [done|auto].
Qed.

Lemma remove_bid_other bid other rs :
  other <> bid -> find_bid other (remove_bid bid rs) = find_bid other rs.
Proof.
  intros Hne. induction rs as [|e rs IH]; [done|]. cbn [remove_bid find_bid].
  destruct (Z.eqb_spec (fst e) bid) as [->|].
  - by destruct (Z.eqb_spec bid other); [congruence|].
  - cbn [find_bid]. by rewrite IH.
Qed.

(** The last entry of another board that has more than one mark. *)
Fixpoint split_cand (bid : Z) (rs : list entry)
    : option (list entry * entry * list entry) :=
  match rs with
  | [] => None
  | e :: rs =>
      match split_cand bid rs with
      | Some (a, c, b) => Some (e :: a, c, b)
      | None => if negb (fst e =? bid) && (1 <? zlen (snd e)) then Some ([], e, rs) else None
      end
  end.

(** *** Images *)

Lemma zlen_rec_bytes r : zlen (rec_bytes r) = 8.
Proof. unfold rec_bytes. zlia. Qed.

Lemma zlen_recs_bytes l : zlen (recs_bytes l) = SZ_REC * zlen l.
Proof.
  unfold recs_bytes, SZ_REC. induction l as [|r l IH]; [done|].
  cbn [map concat]. rewrite zlen_app, zlen_rec_bytes, IH. zlia.
Qed.

Lemma zlen_entry_bytes e : zlen (entry_bytes e) = SZ_HDR + SZ_REC * zlen (snd e).
Proof.
  unfold entry_bytes. rewrite !zlen_app, !zlen_le_bytes, zlen_recs_bytes.
  unfold SZ_HDR, SZ_BID, SZ_NUM. lia.
Qed.

Lemma store_bytes_cons e rs : store_bytes (e :: rs) = entry_bytes e ++ store_bytes rs.
Proof. reflexivity. Qed.

Lemma store_bytes_app a b : store_bytes (a ++ b) = store_bytes a ++ store_bytes b.
Proof. unfold store_bytes. now rewrite map_app, concat_app. Qed.

Lemma store_bytes_length rs :
  Forall entry_ok rs -> 14 * zlen rs <= zlen (store_bytes rs).
Proof.
  induction 1 as [|e rs He Hrs IH]; [done|]. rewrite store_bytes_cons, zlen_app, zlen_entry_bytes.
  destruct He as (_ & He & _). rewrite zlen_cons. unfold SZ_HDR, SZ_BID, SZ_NUM, SZ_REC. lia.
Qed.

Lemma remove_bid_zlen bid rs : zlen (store_bytes (remove_bid bid rs)) <= zlen (store_bytes rs).
Proof.
  induction rs as [|e rs IH]; [done|]. cbn [remove_bid]. rewrite store_bytes_cons.
  destruct (_ =? _); [|rewrite store_bytes_cons]; zlia.
Qed.

#[export] Hint Rewrite zlen_rec_bytes zlen_recs_bytes zlen_entry_bytes : zlen.

Lemma bytes_recs_image l post :
  Forall rec_ok l -> bytes_recs (length l) (recs_bytes l ++ post) = l.
Proof.
  induction 1 as [|r l [Hc Hm] Hl IH]; [done|]. cbn [length bytes_recs recs_bytes map concat].
  change (rec_bytes r) with (le_bytes 4 (u32 (create r)) ++ le_bytes 4 (u32 (modified r))).
  rewrite <- !app_assoc.
  pose proof (length_le_bytes 4 (u32 (create r))) as E1.
  pose proof (length_le_bytes 4 (u32 (modified r))) as E2.
  rewrite take_app_length' by done. rewrite drop_app_length' by done.
  rewrite take_app_length' by done.
  rewrite app_assoc, drop_app_length' by (rewrite length_app; lia).
  rewrite !le_val_bytes. change (256 ^ Z.of_nat 4) with (2 ^ 32).
  change (u32 (create r) mod 2 ^ 32) with (u32 (u32 (create r))).
  change (u32 (modified r) mod 2 ^ 32) with (u32 (u32 (modified r))).
  rewrite !s32_u32, !s32_small by done. fold (recs_bytes l). rewrite IH. now destruct r.
Qed.

(** *** Reading a header *)

Lemma read_bid_entry pre e post :
  entry_ok e -> brc_read_bid (pre ++ entry_bytes e ++ post) (zlen pre) = Some (fst e).
Proof.
  intros (Hb & _). unfold brc_read_bid, entry_bytes. rewrite <- !app_assoc.
  rewrite mem_read_app by (rewrite ?zlen_le_bytes; done).
  cbn [fmap option_fmap option_map].
  f_equal. rewrite le_val_bytes. apply Z.mod_small. exact Hb.
Qed.

Lemma read_num_entry pre e post :
  entry_ok e ->
  brc_read_num (pre ++ entry_bytes e ++ post) (zlen pre + SZ_BID) = Some (zlen (snd e)).
Proof.
  intros (_ & Hn & _). unfold brc_read_num, entry_bytes. rewrite <- !app_assoc.
  rewrite app_assoc, mem_read_app.
  - cbn [fmap option_fmap option_map]. f_equal. rewrite le_val_bytes.
    apply Z.mod_small. change (256 ^ Z.of_nat 2) with (2 ^ 16). lia.
  - rewrite zlen_app, zlen_le_bytes. reflexivity.
  - rewrite zlen_le_bytes. reflexivity.
Qed.

(** The header of a tail that is long enough to have one. *)
Lemma read_tail pre t post :
  SZ_HDR < zlen t ->
  (exists b, brc_read_bid (pre ++ t ++ post) (zlen pre) = Some b) /\
  brc_read_num (pre ++ t ++ post) (zlen pre + SZ_BID) = Some (le_val (take 2 (drop 4 t))).
Proof.
  unfold SZ_HDR, SZ_BID, SZ_NUM. intros Ht. split.
  - unfold brc_read_bid. destruct (mem_read_some (pre ++ t ++ post) (zlen pre) SZ_BID)
      as (d & -> & _); [zlia|unfold SZ_BID; lia|unfold SZ_BID; zlia|]. by eexists.
  - unfold brc_read_num.
    rewrite <- (take_drop 4 t) at 1. rewrite <- (take_drop 2 (drop 4 t)) at 1.
    rewrite <- !app_assoc, app_assoc, mem_read_app; [done| |]; unfold SZ_NUM, SZ_BID; zlia.
Qed.

(** *** The scans *)

(** Unfold one step of a scan at a whole record, or at the tail. *)
Ltac scan_entry :=
  match goal with
  | |- context [_ <? _] => if_true
  end;
  rewrite ?read_bid_entry, ?read_num_entry by done; cbn [mbind option_bind].

Ltac arith :=
  autorewrite with zlen in *; cbn [fst snd] in *; unfold SZ_HDR, SZ_BID, SZ_NUM, SZ_REC in *; zlia.

Section Scans.
Context (t post : list Z) (Htail : tail_ok t).

Lemma find_loop_entry fuel pre e rest bid endp :
  entry_ok e -> endp >= zlen pre + zlen (entry_bytes e) ->
  brc_findrecord_loop (S fuel) (pre ++ entry_bytes e ++ rest) (zlen pre) endp bid =
  if fst e =? bid then Some (Some (zlen pre), zlen (snd e))
  else brc_findrecord_loop fuel (pre ++ entry_bytes e ++ rest)
         (zlen (pre ++ entry_bytes e)) endp bid.
Proof.
  intros He Hend. pose proof He as (_ & Hn & _). rewrite zlen_entry_bytes in Hend.
  cbn [brc_findrecord_loop]. replace (zlen pre + SZ_BID + SZ_NUM <? endp) with true by arith.
  rewrite read_bid_entry, read_num_entry by done. cbn [mbind option_bind].
  replace (endp <? _) with false by arith.
  replace (zlen (pre ++ entry_bytes e)) with (zlen pre + SZ_BID + SZ_NUM + zlen (snd e) * SZ_REC) by arith.
  reflexivity.
Qed.

Lemma find_loop_tail fuel pre bid :
  brc_findrecord_loop (S fuel) (pre ++ t ++ post) (zlen pre) (zlen pre + zlen t) bid =
  Some (None, if zlen t <=? SZ_HDR then 0 else zlen t).
Proof.
  cbn [brc_findrecord_loop]. destruct (Z.leb_spec (zlen t) SZ_HDR) as [Hs|Hl].
  - replace (_ <? _) with false by arith. reflexivity.
  - replace (_ <? _) with true by arith.
    destruct (read_tail pre t post Hl) as [[b ->] ->]. cbn [mbind option_bind].
    destruct Htail as [|Ht]; [lia|]. replace (_ <? _) with true by arith.
    do 2 f_equal. lia.
Qed.

(** [brc_findrecord_in] finds the first entry of the board. *)
Lemma find_loop_spec fuel pre rs bid :
  Forall entry_ok rs -> (length rs < fuel)%nat ->
  brc_findrecord_loop fuel (pre ++ store_bytes rs ++ t ++ post) (zlen pre)
    (zlen pre + zlen (store_bytes rs) + zlen t) bid =
  match split_bid bid rs with
  | Some (a, l, _) => Some (Some (zlen pre + zlen (store_bytes a)), zlen l)
  | None => Some (None, if zlen t <=? SZ_HDR then 0 else zlen t)
  end.
Proof.
  intros Hrs. revert pre fuel. induction Hrs as [|e rs He Hrs IH]; intros pre fuel Hf;
    (destruct fuel as [|fuel]; [cbn in Hf; lia|]).
  - cbn [store_bytes map concat app split_bid]. rewrite zlen_nil, Z.add_0_r. apply find_loop_tail.
  - rewrite store_bytes_cons, <- app_assoc, find_loop_entry by (done || arith).
    cbn [split_bid]. destruct (fst e =? bid) eqn:Eb.
    + cbn [store_bytes map concat]. now rewrite zlen_nil, Z.add_0_r.
    + rewrite (app_assoc pre).
      replace (zlen pre + zlen (entry_bytes e ++ store_bytes rs) + zlen t)
        with (zlen (pre ++ entry_bytes e) + zlen (store_bytes rs) + zlen t) by arith.
      cbn [length] in Hf. rewrite IH by lia.
      destruct (split_bid bid rs) as [[[a l] b]|]; cbn [mbind option_bind]; [|done].
      rewrite store_bytes_cons. do 3 f_equal. arith.
Qed.

Lemma last_rec_spec fuel pre rs last :
  Forall entry_ok rs -> (length rs < fuel)%nat ->
  last_rec_loop fuel (pre ++ store_bytes rs ++ t ++ post) (zlen pre)
    (zlen pre + zlen (store_bytes rs) + zlen t) last =
  Some (match rs with
        | [] => last
        | _ => Some (zlen pre + zlen (store_bytes (removelast rs)))
        end).
Proof.
  intros Hrs. revert pre fuel last. induction Hrs as [|e rs He Hrs IH]; intros pre fuel last Hf;
    (destruct fuel as [|fuel]; [cbn in Hf; lia|]); cbn [last_rec_loop].
  - cbn [store_bytes map concat app]. rewrite zlen_nil, Z.add_0_r.
    destruct (Z.leb_spec (zlen t) SZ_HDR) as [Hs|Hl].
    + now replace (_ <? _) with false by arith.
    + replace (_ <? _) with true by arith.
      destruct (read_tail pre t post Hl) as [_ ->]. cbn [mbind option_bind].
      destruct Htail as [|Ht]; [lia|]. now replace (_ <? _) with true by arith.
  - rewrite store_bytes_cons, <- app_assoc. pose proof He as (_ & Hn & _).
    replace (_ <? _) with true by arith.
    rewrite read_num_entry by done. cbn [mbind option_bind].
    replace (_ <? _) with false by arith. rewrite (app_assoc pre).
    replace (zlen pre + (SZ_BID + SZ_NUM + zlen (snd e) * SZ_REC))
      with (zlen (pre ++ entry_bytes e)) by arith.
    replace (zlen pre + zlen (entry_bytes e ++ store_bytes rs) + zlen t)
      with (zlen (pre ++ entry_bytes e) + zlen (store_bytes rs) + zlen t) by arith.
    cbn [length] in Hf. rewrite IH by lia. f_equal. destruct rs as [|e' rs].
    + cbn [removelast store_bytes map concat]. now rewrite zlen_nil, Z.add_0_r.
    + change (removelast (e :: e' :: rs)) with (e :: removelast (e' :: rs)).
      rewrite store_bytes_cons. f_equal. arith.
Qed.

Lemma candidate_spec fuel pre rs bid cand :
  Forall entry_ok rs -> (length rs < fuel)%nat ->
  candidate_loop fuel (pre ++ store_bytes rs ++ t ++ post) (zlen pre)
    (zlen pre + zlen (store_bytes rs) + zlen t) bid cand =
  Some (match split_cand bid rs with
        | Some (a, _, _) => Some (zlen pre + zlen (store_bytes a))
        | None => cand
        end).
Proof.
  intros Hrs. revert pre fuel cand. induction Hrs as [|e rs He Hrs IH]; intros pre fuel cand Hf;
    (destruct fuel as [|fuel]; [cbn in Hf; lia|]); cbn [candidate_loop].
  - cbn [store_bytes map concat app split_cand]. rewrite zlen_nil, Z.add_0_r.
    destruct (Z.leb_spec (zlen t) SZ_HDR) as [Hs|Hl].
    + now replace (_ <? _) with false by arith.
    + replace (_ <? _) with true by arith.
      destruct (read_tail pre t post Hl) as [[b ->] ->]. cbn [mbind option_bind].
      destruct Htail as [|Ht]; [lia|]. now replace (_ <? _) with true by arith.
  - rewrite store_bytes_cons, <- app_assoc. pose proof He as (_ & Hn & _).
    replace (_ <? _) with true by arith.
    rewrite read_bid_entry, read_num_entry by done. cbn [mbind option_bind].
    replace (_ <? _) with false by arith. rewrite (app_assoc pre).
    replace (zlen pre + (SZ_BID + SZ_NUM + zlen (snd e) * SZ_REC))
      with (zlen (pre ++ entry_bytes e)) by arith.
    replace (zlen pre + zlen (entry_bytes e ++ store_bytes rs) + zlen t)
      with (zlen (pre ++ entry_bytes e) + zlen (store_bytes rs) + zlen t) by arith.
    cbn [length] in Hf. rewrite IH by lia. f_equal. cbn [split_cand].
    destruct (split_cand bid rs) as [[[a c] b]|].
    + rewrite store_bytes_cons. f_equal. arith.
    + destruct (_ && _); [|done]. cbn [store_bytes map concat]. now rewrite zlen_nil, Z.add_0_r.
Qed.

End Scans.

(** *** Compaction *)

(** The entry without its last candidate but for its newest mark. *)
Fixpoint compact (fuel : nat) (tlen needed bid : Z) (rs : list entry) : option (list entry) :=
  match fuel with
  | O => None
  | S fuel =>
      let size := zlen (store_bytes rs) + tlen in
      if (BRC_MAXSIZE <? size + needed) && (0 <? size) then
        match split_cand bid rs with
        | None => Some rs
        | Some (a, c, b) => compact fuel tlen needed bid (a ++ (fst c, take 1 (snd c)) :: b)
        end
      else Some rs
  end.

(** Two states that differ at most in the buffer, its size and its capacity. *)
Definition store_only (s s' : brc_state) : Prop :=
  s' = set_store (brc_buf s') (brc_size s') (brc_alloc s') s.

Lemma store_only_refl s : store_only s s.
Proof. by destruct s. Qed.

Lemma store_only_trans a b c : store_only a b -> store_only b c -> store_only a c.
Proof. unfold store_only. intros -> ->. by destruct c. Qed.

Lemma split_cand_spec bid rs :
  match split_cand bid rs with
  | Some (a, c, b) => rs = a ++ c :: b /\ fst c <> bid /\ 1 < zlen (snd c)
  | None => Forall (fun e => fst e = bid \/ zlen (snd e) <= 1) rs
  end.
Proof.
  induction rs as [|e rs IH]; cbn [split_cand]; [constructor|].
  destruct (split_cand bid rs) as [[[a c] b]|].
  - destruct IH as (-> & ? & ?). done.
  - destruct (Z.eqb_spec (fst e) bid), (Z.ltb_spec 1 (zlen (snd e))); cbn [negb andb];
      first [done | by constructor; [left|] | by constructor; [right; lia|]].
Qed.

Lemma entry_ok_shrink i l : entry_ok (i, l) -> entry_ok (i, take 1 l).
Proof.
  intros (Hi & Hn & Hl). cbn [fst snd] in *. repeat split; cbn [fst snd]; try apply Hi.
  - zlia.
  - rewrite zlen_take. lia.
  - by apply Forall_take.
Qed.

(** The bytes that replace an entry by its first mark, in place. *)
Lemma shrink_bytes a i l b t post :
  entry_ok (i, l) -> 1 < zlen l ->
  exists b1 b2 post',
    brc_write_num (store_bytes (a ++ (i, l) :: b) ++ t ++ post)
      (zlen (store_bytes a) + SZ_BID) 1 = Some b1 /\
    (if 0 <? zlen (store_bytes b) + zlen t
     then mem_move b1 (zlen (store_bytes a) + (SZ_BID + SZ_NUM + 1 * SZ_REC))
            (zlen (store_bytes a) + (SZ_BID + SZ_NUM + zlen l * SZ_REC))
            (zlen (store_bytes b) + zlen t)
     else Some b1) = Some b2 /\
    b2 = store_bytes (a ++ (i, take 1 l) :: b) ++ t ++ post' /\
    zlen b2 = zlen (store_bytes (a ++ (i, l) :: b) ++ t ++ post).
Proof.
  intros He Hl. destruct l as [|r l]; [done|].
  rewrite !store_bytes_app, !store_bytes_cons. unfold entry_bytes. cbn [fst snd].
  change (recs_bytes (r :: l)) with (rec_bytes r ++ recs_bytes l).
  change (take 1 (r :: l)) with [r]. change (zlen [r]) with 1.
  change (recs_bytes [r]) with (rec_bytes r ++ []).
  unfold brc_write_num.
  set (A := store_bytes a). set (I := le_bytes 4 i). set (N := le_bytes 2 (zlen (r :: l))).
  set (R := rec_bytes r). set (L := recs_bytes l). set (B := store_bytes b).
  assert (HI : zlen I = 4) by apply zlen_le_bytes.
  assert (HN : zlen N = 2) by apply zlen_le_bytes.
  assert (HR : zlen R = 8) by apply zlen_rec_bytes.
  assert (HL : zlen L = 8 * (zlen (r :: l) - 1)) by (unfold L; arith).
  rewrite !app_nil_r.
  replace ((A ++ (I ++ N ++ R ++ L) ++ B) ++ t ++ post)
    with ((A ++ I) ++ N ++ (R ++ L ++ (B ++ t) ++ post)) by (rewrite <- !app_assoc; done).
  rewrite (mem_write_app _ N _ (le_bytes 2 1)) by (unfold N; arith).
  replace ((A ++ I) ++ le_bytes 2 1 ++ R ++ L ++ (B ++ t) ++ post)
    with ((A ++ I ++ le_bytes 2 1 ++ R) ++ L ++ (B ++ t) ++ post) by (rewrite <- !app_assoc; done).
  destruct (Z.ltb_spec 0 (zlen B + zlen t)) as [Hp|Hp].
  - destruct (mem_move_close (A ++ I ++ le_bytes 2 1 ++ R) L (B ++ t) post
      (zlen A + (SZ_BID + SZ_NUM + 1 * SZ_REC))
      (zlen A + (SZ_BID + SZ_NUM + zlen (r :: l) * SZ_REC)) (zlen B + zlen t))
      as (p' & Hm & _); [arith|arith|arith|].
    eexists _, ((A ++ I ++ le_bytes 2 1 ++ R) ++ (B ++ t) ++ p'), p'.
    split; [done|]. split; [exact Hm|].
    split; [now rewrite <- !app_assoc|]. apply mem_move_zlen in Hm. rewrite Hm. arith.
  - assert (B = []) as -> by (apply zlen_zero; arith).
    assert (t = []) as -> by (apply zlen_zero; arith).
    eexists _, _, (L ++ post). split; [done|]. split; [done|].
    split; [rewrite <- ?app_assoc; cbn [app]; now rewrite <- ?app_assoc|]. arith.
Qed.

Lemma repr_fuel s rs t : repr s rs t -> (length rs < scan_fuel (blk s))%nat.
Proof.
  intros ([post Hb] & _ & _ & Hok & _). unfold scan_fuel. rewrite Hb, !length_app.
  pose proof (store_bytes_length rs Hok). unfold zlen in *. lia.
Qed.

Lemma repr_null s rs t : repr s rs t -> brc_buf s = None -> brc_size s = 0.
Proof.
  intros ([post Hb] & Hs & _) E. unfold blk in Hb. rewrite E in Hb. cbn in Hb.
  apply (f_equal zlen) in Hb. zlia.
Qed.

Lemma compact_refines fuel needed bid rs rs' s t :
  repr s rs t -> compact fuel (zlen t) needed bid rs = Some rs' ->
  exists s', brc_compact fuel needed bid s = Some s' /\ repr s' rs' t /\ store_only s s' /\
             (brc_buf s = None -> s' = s).
Proof.
  revert rs s. induction fuel as [|fuel IH]; intros rs s Hr Hc; [done|].
  pose proof Hr as ([post Hb] & Hs & Ha & Hok & Ht).
  cbn [compact brc_compact] in *. rewrite Hs.
  destruct ((BRC_MAXSIZE <? _) && _) eqn:Hcond; cycle 1.
  { injection Hc as <-. exists s. auto using store_only_refl. }
  rewrite Hb. pose proof (candidate_spec t post Ht (scan_fuel (blk s)) [] rs bid None Hok
    (repr_fuel _ _ _ Hr)) as Hcand. rewrite Hb in Hcand. cbn [app] in Hcand.
  rewrite zlen_nil, Z.add_0_l in Hcand. rewrite Hcand. cbn [mbind option_bind].
  pose proof (split_cand_spec bid rs) as Hsp.
  destruct (split_cand bid rs) as [[[a [i l]] b]|]; cycle 1.
  { injection Hc as <-. exists s. auto using store_only_refl. }
  destruct Hsp as (-> & _ & Hl). cbn [fst snd] in *.
  apply Forall_app in Hok as [Hoa [Hoe Hob]%Forall_cons_1].
  rewrite Z.add_0_l.
  assert (Hnum : brc_read_num (store_bytes (a ++ (i, l) :: b) ++ t ++ post)
    (zlen (store_bytes a) + SZ_BID) = Some (zlen l)).
  { rewrite store_bytes_app, store_bytes_cons, <- !app_assoc. now apply (read_num_entry _ (i, l)). }
  rewrite Hnum. cbn [mbind option_bind].
  destruct (shrink_bytes a i l b t post Hoe Hl) as (b1 & b2 & post' & -> & Hmv & -> & Hz).
  cbn [mbind option_bind].
  replace (zlen (store_bytes (a ++ (i, l) :: b)) + zlen t -
    (zlen (store_bytes a) + (SZ_BID + SZ_NUM + zlen l * SZ_REC)))
    with (zlen (store_bytes b) + zlen t)
    by (rewrite store_bytes_app, store_bytes_cons; arith).
  rewrite Hmv. cbn [mbind option_bind].
  match goal with |- context [brc_compact fuel needed bid ?s1] =>
    destruct (IH (a ++ (i, take 1 l) :: b) s1) as (s' & Hs' & Hr' & Hso & _); [|exact Hc|]
  end.
  - split_and!.
    + exists post'. reflexivity.
    + cbn. rewrite !store_bytes_app, !store_bytes_cons. arith.
    + cbn. rewrite <- Ha, Hb. exact Hz.
    + apply Forall_app; split; [done|]. constructor; [by apply entry_ok_shrink|done].
    + exact Ht.
  - exists s'. split; [exact Hs'|]. split; [done|]. split.
    + eapply store_only_trans; [|exact Hso]. reflexivity.
    + intros E. apply repr_null in Hr; [|done]. zbool. lia.
Qed.

(** What compaction does to the entries: boards other than [bid] may lose all
    their marks but the newest. *)
Definition shrunk (bid : Z) : list entry -> list entry -> Prop :=
  Forall2 (fun e e' => fst e' = fst e /\
    (snd e' = snd e \/ fst e <> bid /\ snd e' = take 1 (snd e))).

Lemma shrunk_refl bid rs : shrunk bid rs rs.
Proof. apply Forall_Forall2_diag, Forall_true. auto. Qed.

Lemma shrunk_trans bid a b c : shrunk bid a b -> shrunk bid b c -> shrunk bid a c.
Proof.
  unfold shrunk. intros Hab. revert c. induction Hab as [|x y a b [E H] Hab IH]; intros c Hbc;
    inversion_clear Hbc as [|? z ? c' [E' H']]; constructor; [|by apply IH].
  split; [congruence|]. destruct H as [H|[Hn H]], H' as [H'|[Hn' H']].
  - left; congruence.
  - right; split; congruence.
  - right; split; congruence.
  - right; split; [done|]. rewrite H', H. by destruct (snd x).
Qed.

Fixpoint nbig (rs : list entry) : nat :=
  match rs with
  | [] => 0
  | e :: rs => (if (1 <? zlen (snd e))%Z then 1 else 0) + nbig rs
  end.

Lemma nbig_app a b : nbig (a ++ b) = (nbig a + nbig b)%nat.
Proof. induction a; cbn; lia. Qed.

Lemma nbig_le rs : (nbig rs <= length rs)%nat.
Proof. induction rs; cbn; [done|]. destruct (_ <? _); lia. Qed.

Definition fits (rs : list entry) (tlen needed : Z) : Prop :=
  zlen (store_bytes rs) + tlen + needed <= BRC_MAXSIZE.

(** Compaction ends: when the record fits, or when nothing is left to shrink. *)
Lemma compact_total fuel tlen needed bid rs :
  (nbig rs < fuel)%nat -> 0 <= tlen -> needed <= BRC_MAXSIZE ->
  exists rs', compact fuel tlen needed bid rs = Some rs' /\ shrunk bid rs rs' /\
    (fits rs' tlen needed \/ Forall (fun e => fst e = bid \/ zlen (snd e) <= 1) rs').
Proof.
  intros Hf Ht Hn. revert rs Hf. induction fuel as [|fuel IH]; intros rs Hf; [lia|].
  cbn [compact]. destruct ((BRC_MAXSIZE <? _) && _) eqn:Hc; cycle 1.
  { exists rs. split; [done|]. split; [apply shrunk_refl|]. left. unfold fits. zbool.
    destruct Hc; zlia. }
  pose proof (split_cand_spec bid rs) as Hsp.
  destruct (split_cand bid rs) as [[[a [i l]] b]|].
  - destruct Hsp as (-> & Hi & Hl). cbn [fst snd] in *.
    destruct (IH (a ++ (i, take 1 l) :: b)) as (rs' & -> & Hsh & Hfin).
    + rewrite nbig_app in *. cbn [nbig snd] in *.
      rewrite (proj2 (Z.ltb_lt _ _) Hl) in Hf.
      rewrite (proj2 (Z.ltb_ge 1 (zlen (take 1 l)))) by zlia. lia.
    + exists rs'. split; [done|]. split; [|done]. eapply shrunk_trans; [|exact Hsh].
      apply Forall2_app; [apply shrunk_refl|]. constructor; [|apply shrunk_refl]. auto.
  - exists rs. split; [done|]. split; [apply shrunk_refl|]. by right.
Qed.

(** *** Dropping records from the tail *)

Lemma removelast_take {A} (l : list A) : removelast l = take (length l - 1) l.
Proof. rewrite removelast_firstn_len. f_equal. lia. Qed.

Lemma tail_drop_refines fuel needed s rs t :
  repr s rs t -> (length rs < fuel)%nat ->
  exists s' k t', brc_compact_tail_drop fuel needed s = Some s' /\
    repr s' (take k rs) t' /\ s' = set_size (brc_size s') s /\
    (t' = t \/ t' = []) /\
    (brc_size s' + needed <= BRC_MAXSIZE \/ take k rs = [] \/ brc_size s' <= 0) /\
    (brc_size s + needed <= BRC_MAXSIZE -> s' = s /\ take k rs = rs).
Proof.
  revert s rs t. induction fuel as [|fuel IH]; intros s rs t Hr Hf; [lia|].
  pose proof Hr as ([post Hb] & Hs & Ha & Hok & Ht). cbn [brc_compact_tail_drop].
  destruct ((BRC_MAXSIZE <? _) && _) eqn:Hc; cycle 1.
  { exists s, (length rs), t. rewrite take_ge by lia. split_and!; auto.
    all: first [by destruct s|zbool; lia]. }
  pose proof (last_rec_spec t post Ht (scan_fuel (blk s)) [] rs None Hok
    (repr_fuel _ _ _ Hr)) as Hlast. rewrite <- Hb in Hlast. cbn [app] in Hlast.
  rewrite zlen_nil, Z.add_0_l, <- Hs in Hlast. rewrite Hlast. cbn [mbind option_bind].
  destruct rs as [|e rs'] eqn:Ers.
  { exists s, 0%nat, t. split_and!; auto.
    all: first [by destruct s|zbool; lia]. }
  rewrite <- Ers in *. set (rs0 := removelast rs).
  assert (Hsplit : rs = rs0 ++ [List.last rs (0, [])])
    by (apply app_removelast_last; subst; done).
  assert (Hsb : exists x, store_bytes rs = store_bytes rs0 ++ x)
    by (exists (store_bytes [List.last rs (0, [])]); rewrite <- store_bytes_app; congruence).
  destruct (IH (set_size (0 + zlen (store_bytes rs0)) s) rs0 []) as
    (s' & k & t' & -> & Hr' & Hso & Ht' & Hfit & _).
  - split_and!; cbn.
    + destruct Hsb as [x Hsb]. rewrite Hsb, <- app_assoc in Hb. by eexists.
    + zlia.
    + done.
    + rewrite Hsplit in Hok. by apply Forall_app in Hok as [? _].
    + left. by vm_compute.
  - unfold rs0. rewrite removelast_take, length_take.
    assert (1 <= length rs)%nat by (rewrite Ers; cbn; lia). lia.
  - exists s', (Nat.min k (length rs - 1)), t'.
    replace (take (k `min` (length rs - 1)) rs) with (take k rs0)
      by (unfold rs0; rewrite removelast_take, take_take; done).
    split_and!; auto.
    + destruct Ht'; auto.
    + zbool. lia.
Qed.

(** *** Room and writing *)

Lemma zlen_fresh junk n : 0 <= n -> zlen (fresh junk n) = n.
Proof. intros. unfold fresh, zlen. rewrite length_map, length_seq. lia. Qed.

Lemma enlarge_spec junk fuel new_size s rs t :
  repr s rs t -> (0 < fuel)%nat ->
  BRC_MAXSIZE - brc_alloc s <= BRC_BLOCKSIZE * (Z.of_nat fuel - 1) ->
  exists s', enlarge_loop junk fuel new_size s = Some s' /\ repr s' rs t /\
    store_only s s' /\ brc_size s' = brc_size s /\
    (brc_size s + new_size <= brc_alloc s' \/ BRC_MAXSIZE <= brc_alloc s').
Proof.
  revert s. induction fuel as [|fuel IH]; intros s Hr Hf Hm; [lia|]. cbn [enlarge_loop].
  destruct (Z.ltb_spec (brc_alloc s) (brc_size s + new_size)); cycle 1.
  { exists s. split_and!; auto using store_only_refl. }
  unfold brc_enlarge_buf. destruct (Z.leb_spec BRC_MAXSIZE (brc_alloc s)).
  { exists s. split_and!; auto using store_only_refl. }
  pose proof Hr as ([post Hb] & Hs & Ha & Hok & Ht).
  match goal with |- context [enlarge_loop junk fuel new_size ?s1] =>
    destruct (IH s1) as (s' & -> & Hr' & Hso & Hsz & Hfit) end.
  - split_and!; cbn; auto.
    + exists (post ++ fresh junk (brc_alloc s + BRC_BLOCKSIZE - zlen (blk s))).
      rewrite Hb. now rewrite <- !app_assoc.
    + rewrite zlen_app, zlen_fresh; unfold BRC_BLOCKSIZE; lia.
  - unfold BRC_MAXSIZE, BRC_BLOCKSIZE in *. lia.
  - cbn. unfold BRC_BLOCKSIZE in *. lia.
  - exists s'. split_and!; auto.
Qed.

Lemma get_buf_repr junk n s :
  repr s [] [] -> brc_size s = 0 -> 0 <= n -> repr (brc_get_buf junk n s) [] [].
Proof.
  intros (_ & _ & _ & _ & Ht) Hs Hn. unfold brc_get_buf.
  set (alloc := if BRC_MAXSIZE <? _ then _ else _).
  assert (0 <= alloc).
  { unfold alloc, BRC_MAXSIZE, BRC_BLOCKSIZE. pose proof (Z.quot_pos (n + 1024 - 1) 1024).
    destruct (n =? 0); split_ifs; lia. }
  split_and!; cbn; auto.
  - exists (fresh junk alloc). reflexivity.
  - apply zlen_fresh; lia.
Qed.

(** Writing a record over bytes of its length. *)
Lemma putrecord_spec expire x rest bid num l r :
  zlen x = SZ_HDR + SZ_REC * num -> 1 <= num <= BRC_MAXNUM -> num <= zlen l ->
  zget l 0 = Some r -> time4_gt (create r) expire = true ->
  brc_putrecord expire (x ++ rest) 0 (zlen x) bid num l =
  Some (entry_bytes (bid, take (Z.to_nat num) l) ++ rest, zlen x).
Proof.
  intros Hx Hn Hl Hr He. unfold brc_putrecord, BRC_MAXNUM in *.
  replace (0 <? num) with true by lia. rewrite Hr. cbn [mbind option_bind].
  rewrite He. replace (_ <? zlen x) with true by arith. cbn [andb].
  replace (80 <? num) with false by lia. replace (num =? 0) with false by lia.
  set (L := take (Z.to_nat num) l). assert (HL : zlen L = num) by (unfold L; zlia).
  rewrite <- (take_drop 4 x). rewrite <- (take_drop 2 (drop 4 x)).
  set (x1 := take 4 x). set (x2 := take 2 (drop 4 x)). set (x3 := drop 2 (drop 4 x)).
  assert (H1 : zlen x1 = 4) by (unfold x1; arith).
  assert (H2 : zlen x2 = 2) by (unfold x2; arith).
  assert (H3 : zlen x3 = 8 * num) by (unfold x3; arith).
  rewrite <- !app_assoc.
  rewrite mem_write_head by arith. cbn [mbind option_bind].
  rewrite (mem_write_app _ x2) by arith. cbn [mbind option_bind].
  replace (_ <=? _) with true by arith.
  assert (Hrd : mem_read l 0 num = Some L).
  { unfold mem_read. now if_true. }
  rewrite Hrd. cbn [mbind option_bind]. rewrite app_assoc.
  rewrite (mem_write_app _ x3) by arith. cbn [mbind option_bind].
  do 2 f_equal.
  - unfold entry_bytes. cbn [fst snd]. rewrite HL. now rewrite <- !app_assoc.
  - arith.
Qed.

(** *** Expired marks *)

(** The marks without the expired ones at the end. *)
Fixpoint trim_marks (expire : Z) (l : list brc_rec) : list brc_rec :=
  match l with
  | [] => []
  | r :: l =>
      match trim_marks expire l with
      | [] => if time4_lt (create r) expire then [] else [r]
      | l' => r :: l'
      end
  end.

Lemma trim_marks_snoc expire l r :
  trim_marks expire (l ++ [r]) =
  if time4_lt (create r) expire then trim_marks expire l else l ++ [r].
Proof.
  induction l as [|x l IH]; cbn [app trim_marks]; [done|]. rewrite IH.
  destruct (time4_lt _ _); [done|]. by destruct l.
Qed.

Lemma trim_marks_prefix expire l : exists k, trim_marks expire l = take k l.
Proof.
  induction l as [|x l [k IH]] using rev_ind; [by exists 0%nat|]. rewrite trim_marks_snoc.
  destruct (time4_lt _ _).
  - rewrite IH. exists (Nat.min k (length l)). rewrite take_app_le by lia. by rewrite <- firstn_firstn, firstn_all.
  - exists (length (l ++ [x])). by rewrite firstn_all.
Qed.

Lemma trim_expired_spec expire n l :
  (n <= length l)%nat ->
  trim_expired expire n l = Some (zlen (trim_marks expire (take n l))).
Proof.
  induction n as [|n IH]; intros Hn; [done|]. cbn [trim_expired].
  destruct (lookup_lt_is_Some_2 l n) as [r Hr]; [lia|]. rewrite Hr. cbn [mbind option_bind].
  rewrite (take_S_r _ _ _ Hr), trim_marks_snoc. destruct (time4_lt _ _); [apply IH; lia|].
  f_equal. rewrite zlen_app. unfold zlen. rewrite length_take. cbn. lia.
Qed.

Lemma trim_marks_take expire n l :
  trim_marks expire (take n l) = take (length (trim_marks expire (take n l))) l.
Proof.
  destruct (trim_marks_prefix expire (take n l)) as [k ->]. rewrite take_take, length_take.
  destruct (Nat.le_gt_cases (k `min` n) (length l)).
  - f_equal. lia.
  - rewrite !take_ge; [done|lia|lia].
Qed.

End BrcStore.
