(* ===== verification/BrcInsert.v ===== *)
(** [brc_insert_record] refines a most-recently-used list of boards. *)

From S2P Require Import Prelude Cstr Time4 Stamp Brc BrcStore.
Import Cstr Time4 Stamp Brc BrcStore.

Module BrcInsert.

Ltac mset := unfold BRC_MAXSIZE, BRC_MAXNUM, SZ_HDR, SZ_BID, SZ_NUM, SZ_REC in *.

Lemma shrunk_ok bid rs rs' : shrunk bid rs rs' -> Forall entry_ok rs -> Forall entry_ok rs'.
Proof.
  induction 1 as [|[i l] [i' l'] rs rs' [E H] _ IH]; intros Hok; [constructor|].
  apply Forall_cons_1 in Hok as [He Hok]. constructor; [|auto]. cbn [fst snd] in *. subst i'.
  destruct H as [->|[_ ->]]; [done|]. by apply entry_ok_shrink.
Qed.

Lemma shrunk_fst bid rs rs' : shrunk bid rs rs' -> map fst rs' = map fst rs.
Proof. induction 1 as [|x y rs rs' [E H] _ IH]; cbn; congruence. Qed.

Lemma shrunk_zlen bid rs rs' : shrunk bid rs rs' -> zlen rs' = zlen rs.
Proof. intros H. unfold zlen. now rewrite (Forall2_length H). Qed.

(** A store in which every board is down to one mark. *)
Lemma store_bytes_small rs :
  Forall entry_ok rs -> Forall (fun e => zlen (snd e) <= 1) rs ->
  zlen (store_bytes rs) = 14 * zlen rs.
Proof.
  intros Hok. induction Hok as [|e rs (_ & He & _) Hok IH]; intros Hs; [done|].
  apply Forall_cons_1 in Hs as [Hs1 Hs]. rewrite store_bytes_cons, zlen_app, IH by done. arith.
Qed.

Lemma repr_set_changed b s rs t : repr s rs t -> repr (set_changed b s) rs t.
Proof. destruct s. exact (fun H => H). Qed.

Lemma repr_set_update b s rs t : repr s rs t -> repr (set_update b s) rs t.
Proof. destruct s. exact (fun H => H). Qed.

Lemma repr_size s rs t : repr s rs t -> brc_size s = zlen (store_bytes rs) + zlen t.
Proof. by intros (_ & ? & _). Qed.

Lemma repr_ok s rs t : repr s rs t -> Forall entry_ok rs.
Proof. by intros (_ & _ & _ & ? & _). Qed.

Lemma repr_empty s rs t : repr s rs t -> brc_size s = 0 -> rs = [] /\ t = [].
Proof.
  intros Hr Hs. pose proof (repr_size _ _ _ Hr) as E.
  pose proof (store_bytes_length _ (repr_ok _ _ _ Hr)).
  split; apply zlen_zero; zlia.
Qed.

(** Stage 1: make room by compaction. *)
Lemma compact_stage s rs t needed bid :
  repr s rs t -> needed <= BRC_MAXSIZE ->
  exists s' rs', (if BRC_MAXSIZE <? brc_size s + needed
                  then brc_compact (scan_fuel (blk s)) needed bid s else Some s) = Some s' /\
    repr s' rs' t /\ store_only s s' /\ shrunk bid rs rs' /\
    (fits rs (zlen t) needed -> rs' = rs) /\
    (fits rs' (zlen t) needed \/ Forall (fun e => fst e = bid \/ zlen (snd e) <= 1) rs').
Proof.
  intros Hr Hn. pose proof (repr_size _ _ _ Hr) as Hs.
  destruct (Z.ltb_spec BRC_MAXSIZE (brc_size s + needed)).
  - destruct (compact_total (scan_fuel (blk s)) (zlen t) needed bid rs) as (rs' & Hc & Hsh & Hf).
    + pose proof (nbig_le rs). pose proof (repr_fuel _ _ _ Hr). lia.
    + apply zlen_nonneg.
    + done.
    + destruct (compact_refines _ _ _ _ _ _ _ Hr Hc) as (s' & -> & Hr' & Hso & _).
      exists s', rs'. split_and!; auto. unfold fits. lia.
  - exists s, rs. split_and!; auto using store_only_refl, shrunk_refl. left. unfold fits. lia.
Qed.

(** Stage 2: a buffer that can hold the record. *)
Lemma room_stage junk s rs t new_size :
  repr s rs t -> 0 <= new_size ->
  exists s', enlarge_loop junk enlarge_fuel new_size
      (match brc_buf s with None => brc_get_buf junk new_size s | Some _ => s end) = Some s' /\
    repr s' rs t /\ store_only s s' /\ brc_size s' = brc_size s /\
    (brc_size s + new_size <= brc_alloc s' \/ BRC_MAXSIZE <= brc_alloc s').
Proof.
  intros Hr Hn. set (s0 := match brc_buf s with None => _ | Some _ => _ end).
  assert (H0 : repr s0 rs t /\ store_only s s0 /\ brc_size s0 = brc_size s).
  { unfold s0. destruct (brc_buf s) eqn:E; [auto using store_only_refl|].
    pose proof (repr_null _ _ _ Hr E) as Hz. destruct (repr_empty _ _ _ Hr Hz) as [-> ->].
    split; [by apply get_buf_repr|]. done. }
  destruct H0 as (Hr0 & Hso0 & Hs0). clearbody s0.
  destruct (enlarge_spec junk enlarge_fuel new_size s0 rs t) as (s' & -> & Hr' & Hso & Hs & Hf);
    [done|unfold enlarge_fuel; lia| |].
  - destruct Hr0 as (_ & _ & Ha & _). pose proof (zlen_nonneg (blk s0)).
    unfold BRC_MAXSIZE, BRC_BLOCKSIZE, enlarge_fuel. lia.
  - exists s'. rewrite <- Hs0. split_and!; auto. by eapply store_only_trans.
Qed.

(** Stage 3: the record goes in at the head. *)
Lemma write_stage s rs t bid num l r :
  repr s rs t -> is_u32 bid -> Forall rec_ok l ->
  1 <= num <= BRC_MAXNUM -> num <= zlen l ->
  zget l 0 = Some r -> time4_gt (create r) (brc_expire_time s) = true ->
  brc_size s + (SZ_HDR + SZ_REC * num) <= brc_alloc s ->
  exists b p, (b ← (if 0 <? brc_size s
                    then mem_move (blk s) (SZ_HDR + SZ_REC * num) 0 (brc_size s)
                    else Some (blk s));
               brc_putrecord (brc_expire_time s) b 0 (SZ_HDR + SZ_REC * num) bid num l)
              = Some (b, p) /\
    repr (set_size (brc_size s + (SZ_HDR + SZ_REC * num)) (set_buf b s))
         ((bid, take (Z.to_nat num) l) :: rs) t.
Proof.
  intros Hr Hbid Hl Hn Hnl Hr0 He Ha. pose proof Hr as ([post Hb] & Hs & Hblk & Hok & Ht).
  set (new := SZ_HDR + SZ_REC * num) in *.
  assert (Hmv : exists x post', (if 0 <? brc_size s then mem_move (blk s) new 0 (brc_size s)
      else Some (blk s)) = Some (x ++ (store_bytes rs ++ t) ++ post') /\
      zlen x = new /\ zlen post' = zlen post - new).
  { rewrite app_assoc in Hb. destruct (Z.ltb_spec 0 (brc_size s)).
    - rewrite Hb, Hs. rewrite <- zlen_app. apply mem_move_open. split; [unfold new; mset; lia|].
      rewrite Hb in Hblk. revert Ha. rewrite <- Hblk, Hs. zlia.
    - destruct (repr_empty _ _ _ Hr ltac:(zlia)) as [-> ->]. cbn [store_bytes map concat app] in *.
      exists (take (Z.to_nat new) post), (drop (Z.to_nat new) post). rewrite take_drop, Hb.
      rewrite Hb in Hblk. split_and!; [done| |]; unfold new in *; mset; zlia. }
  destruct Hmv as (x & post' & -> & Hx & Hp). cbn [mbind option_bind]. rewrite <- Hx.
  rewrite (putrecord_spec _ x _ bid num l r) by (done || lia).
  eexists _, _. split; [reflexivity|]. split_and!.
  - exists post'. rewrite store_bytes_cons. now rewrite <- !app_assoc.
  - cbn [brc_size set_size set_buf set_store]. rewrite store_bytes_cons, Hs, Hx. unfold new. arith.
  - unfold blk. cbn [brc_buf brc_alloc set_size set_buf set_store default].
    rewrite <- Hblk, Hb. unfold new, id in *. arith.
  - constructor; [|done]. split_and!; cbn [fst snd]; [exact Hbid|mset; zlia|mset; zlia|].
    by apply Forall_take.
  - done.
Qed.

(** What inserting [marks] leaves: the board first with its marks (or only the
    newest), the others after it, shrunk and cut only as far as needed. *)
Definition inserted (bid : Z) (marks : list brc_rec) (rs rs' : list entry) (tlen : Z) : Prop :=
  exists marks' rs1 k,
    rs' = (bid, marks') :: take k rs1 /\
    shrunk bid rs rs1 /\ (marks' = marks \/ marks' = take 1 marks) /\
    (fits rs tlen (SZ_HDR + SZ_REC * zlen marks) -> marks' = marks /\ take k rs1 = rs) /\
    (bid ∉ map fst rs -> 14 * (zlen rs + 1) + tlen <= BRC_MAXSIZE -> take k rs1 = rs1).

(** When every other board keeps one mark, the record of one mark fits. *)
Lemma small_fits bid rs rs1 tlen :
  shrunk bid rs rs1 -> Forall entry_ok rs -> bid ∉ map fst rs ->
  Forall (fun e => fst e = bid \/ zlen (snd e) <= 1) rs1 ->
  14 * (zlen rs + 1) + tlen <= BRC_MAXSIZE -> fits rs1 tlen 14.
Proof.
  intros Hsh Hok Hbid Hsm Hsz. unfold fits.
  rewrite store_bytes_small; [rewrite (shrunk_zlen _ _ _ Hsh); lia|by eapply shrunk_ok|].
  rewrite <- (shrunk_fst _ _ _ Hsh) in Hbid.
  clear -Hbid Hsm. induction Hsm as [|e rs1 He _ IH]; [constructor|]. cbn [map] in Hbid.
  apply not_elem_of_cons in Hbid as [Hne Hbid]. constructor; [|auto].
  destruct He; [congruence|done].
Qed.

Lemma insert_head_refines junk s rs t bid num l r :
  repr s rs t -> zlen t <= SZ_HDR -> is_u32 bid -> Forall rec_ok l ->
  1 <= num <= BRC_MAXNUM -> num <= zlen l ->
  zget l 0 = Some r -> time4_gt (create r) (brc_expire_time s) = true ->
  exists s' rs' t',
    brc_insert_head junk bid num (SZ_HDR + SZ_REC * num) l s = Some s' /\
    repr s' rs' t' /\ inserted bid (take (Z.to_nat num) l) rs rs' (zlen t) /\
    brc_size s' <= BRC_MAXSIZE /\ zlen t' <= SZ_HDR /\
    s' = set_changed false (set_store (brc_buf s') (brc_size s') (brc_alloc s') s).
Proof.
  intros Hr Hts Hbid Hl Hn Hnl Hr0 He. unfold brc_insert_head.
  replace (num =? 0) with false by lia.
  destruct (compact_stage s rs t (SZ_HDR + SZ_REC * num) bid Hr) as
    (s1 & rs1 & -> & Hr1 & Hso1 & Hsh & Hsame & Hsmall); [mset; lia|]. cbn [mbind option_bind].
  pose proof (repr_size _ _ _ Hr1) as Hs1.
  set (shrink := (BRC_MAXSIZE <? _) && (1 <? num)).
  set (m := if shrink then 1 else num).
  assert (Hm : (m = num \/ m = 1) /\ 1 <= m <= BRC_MAXNUM /\ m <= num /\
    (if shrink then SZ_BID + SZ_NUM + SZ_REC else SZ_HDR + SZ_REC * num) = SZ_HDR + SZ_REC * m).
  { unfold m. destruct shrink; mset; lia. }
  destruct Hm as (Hm & Hm1 & Hmn & ->).
  destruct (room_stage junk s1 rs1 t (SZ_HDR + SZ_REC * m) Hr1) as
    (s2 & -> & Hr2 & Hso2 & Hs2 & Hroom); [mset; lia|]. cbn [mbind option_bind].
  destruct (tail_drop_refines (scan_fuel (blk s2)) (SZ_HDR + SZ_REC * m) s2 rs1 t Hr2
    (repr_fuel _ _ _ Hr2)) as (s3 & k & t' & Hd & Hr3 & Hso3 & Ht' & Hfit & Hnodrop).
  assert (Hts' : zlen t' <= SZ_HDR) by (destruct Ht' as [->| ->]; [done|by vm_compute]).
  assert (Hd' : (if BRC_MAXSIZE <? brc_size s2 + (SZ_HDR + SZ_REC * m)
    then brc_compact_tail_drop (scan_fuel (blk s2)) (SZ_HDR + SZ_REC * m) s2 else Some s2) = Some s3).
  { destruct (Z.ltb_spec BRC_MAXSIZE (brc_size s2 + (SZ_HDR + SZ_REC * m))); [done|].
    destruct Hnodrop as [-> _]; [lia|done]. }
  rewrite Hd'. cbn [mbind option_bind].
  assert (Hfit3 : brc_size s3 + (SZ_HDR + SZ_REC * m) <= BRC_MAXSIZE).
  { pose proof (repr_size _ _ _ Hr3) as E. destruct Hfit as [|[Hnil|]]; [done| |mset; lia].
    rewrite Hnil in E. change (zlen (store_bytes [])) with 0 in E. mset; lia. }
  replace (_ <=? _) with true by lia.
  assert (Halloc : brc_size s3 + (SZ_HDR + SZ_REC * m) <= brc_alloc s3).
  { rewrite Hso3. cbn [brc_alloc set_size set_store].
    destruct (Z.le_gt_cases (brc_size s2 + (SZ_HDR + SZ_REC * m)) BRC_MAXSIZE) as [H|H].
    - destruct (Hnodrop H) as [E _]. rewrite E. cbn. lia.
    - rewrite <- Hs2 in Hroom. cbn. lia. }
  assert (Hexp : brc_expire_time s3 = brc_expire_time s).
  { rewrite Hso3. cbn. rewrite Hso2, Hso1. done. }
  destruct (write_stage s3 (take k rs1) t' bid m l r) as (b & p & Hw & Hrw); try done; [lia|by rewrite Hexp|].
  destruct (if 0 <? brc_size s3 then _ else _) as [b0|]; [|done]. cbn [mbind option_bind] in Hw |- *.
  rewrite Hw. cbn [mbind option_bind]. eexists _, _, t'. split; [reflexivity|].
  split; [by apply repr_set_changed|]. split; [|split; [|split]]; [|done|done|].
  - exists (take (Z.to_nat m) l), rs1, k.
    replace (zlen (take (Z.to_nat num) l)) with num by zlia. split_and!; auto.
    + destruct Hm as [->| ->]; [by left|right]. rewrite take_take. f_equal. lia.
    + intros Hf. specialize (Hsame Hf). subst rs1. unfold fits in Hf.
      assert (E : shrink = false) by (unfold shrink; replace (BRC_MAXSIZE <? _) with false by lia; done).
      unfold m in *. rewrite E in *. split; [done|]. apply Hnodrop. rewrite Hs2, Hs1. lia.
    + intros Hni Hsz. apply Hnodrop. rewrite Hs2, Hs1.
      assert (Hf : fits rs1 (zlen t) (SZ_HDR + SZ_REC * m)); [|exact Hf].
      unfold m, shrink. destruct Hsmall as [Hf|Hsm].
      * unfold fits in Hf |- *. replace (BRC_MAXSIZE <? _) with false by lia. cbn [andb]. lia.
      * pose proof (small_fits bid rs rs1 (zlen t) Hsh (repr_ok _ _ _ Hr) Hni Hsm Hsz) as Hf.
        unfold fits in Hf |- *. destruct (Z.ltb_spec BRC_MAXSIZE (brc_size s1 + (SZ_HDR + SZ_REC * num)));
          cbn [andb]; [|lia]. destruct (Z.ltb_spec 1 num); mset; lia.
  - cbn [brc_buf brc_size brc_alloc set_changed set_store set_size set_buf].
    rewrite Hso3. cbn. rewrite Hso2, Hso1. reflexivity.
Qed.

(** *** The whole operation *)

(** The result of the removal half of [brc_insert_record]. *)
Lemma remove_refines s a l b t bid :
  repr s (a ++ (bid, l) :: b) t ->
  exists b', (if 0 <? brc_size s - (zlen (store_bytes a) + (SZ_BID + SZ_NUM + zlen l * SZ_REC))
              then mem_move (blk s) (zlen (store_bytes a))
                     (zlen (store_bytes a) + (SZ_BID + SZ_NUM + zlen l * SZ_REC))
                     (brc_size s - (zlen (store_bytes a) + (SZ_BID + SZ_NUM + zlen l * SZ_REC)))
              else Some (blk s)) = Some b' /\
    repr (set_size (brc_size s - (SZ_BID + SZ_NUM + zlen l * SZ_REC)) (set_buf b' s)) (a ++ b) t.
Proof.
  intros ([post Hb] & Hs & Ha & Hok & Ht).
  rewrite store_bytes_app, store_bytes_cons in Hb, Hs.
  set (E := entry_bytes (bid, l)) in *.
  assert (HE : zlen E = SZ_BID + SZ_NUM + zlen l * SZ_REC) by (unfold E; arith).
  rewrite <- HE. replace (brc_size s - (zlen (store_bytes a) + zlen E))
    with (zlen (store_bytes b ++ t)) by zlia.
  replace ((store_bytes a ++ E ++ store_bytes b) ++ t ++ post)
    with (store_bytes a ++ E ++ (store_bytes b ++ t) ++ post) in Hb by (rewrite <- !app_assoc; done).
  assert (Hmv : exists p', (if 0 <? zlen (store_bytes b ++ t)
      then mem_move (blk s) (zlen (store_bytes a)) (zlen (store_bytes a) + zlen E)
             (zlen (store_bytes b ++ t))
      else Some (blk s)) = Some (store_bytes a ++ (store_bytes b ++ t) ++ p') /\
      zlen p' = zlen E + zlen post).
  { destruct (Z.ltb_spec 0 (zlen (store_bytes b ++ t))).
    - rewrite Hb. now apply mem_move_close.
    - assert (store_bytes b ++ t = []) as Hnil by (apply zlen_zero; zlia).
      rewrite Hb, Hnil. exists (E ++ post). split; [done|zlia]. }
  destruct Hmv as (p' & -> & Hp'). eexists. split; [reflexivity|].
  apply Forall_app in Hok as [Hoa Hob%Forall_cons_1]. split_and!.
  - exists p'. rewrite store_bytes_app. cbn. now rewrite <- !app_assoc.
  - cbn [brc_size set_size set_buf set_store]. rewrite store_bytes_app. zlia.
  - unfold blk. cbn [brc_buf brc_alloc set_size set_buf set_store default id].
    rewrite <- Ha, Hb. unfold id. zlia.
  - apply Forall_app. split; [done|apply Hob].
  - done.
Qed.

(** The tail a failed search leaves: a dangling record is cut off. *)
Lemma cut_tail_repr s rs t :
  repr s rs t ->
  repr (set_size (brc_size s - (if zlen t <=? SZ_HDR then 0 else zlen t)) s) rs
       (if zlen t <=? SZ_HDR then t else []).
Proof.
  intros ([post Hb] & Hs & Ha & Hok & Ht). destruct (zlen t <=? SZ_HDR).
  - split_and!; cbn; eauto. lia.
  - split_and!; cbn; eauto; [zlia|]. left. by vm_compute.
Qed.

Lemma insert_head_spec junk s rs t bid marks l :
  repr s rs t -> zlen t <= SZ_HDR -> is_u32 bid -> Forall rec_ok l ->
  marks = take (length marks) l -> zlen marks <= BRC_MAXNUM -> brc_size s <= BRC_MAXSIZE ->
  (forall r, head marks = Some r -> time4_gt (create r) (brc_expire_time s) = true) ->
  exists s' rs' t',
    brc_insert_head junk bid (zlen marks)
      (if zlen marks =? 0 then 0 else SZ_BID + SZ_NUM + zlen marks * SZ_REC) l s = Some s' /\
    repr s' rs' t' /\
    match marks with [] => rs' = rs | _ => inserted bid marks rs rs' (zlen t) end /\
    brc_size s' <= BRC_MAXSIZE /\ zlen t' <= SZ_HDR /\
    s' = set_changed false (set_store (brc_buf s') (brc_size s') (brc_alloc s') s).
Proof.
  intros Hr Hts Hbid Hl Htk Hmax Hsz Hhd. destruct marks as [|r0 marks].
  - rewrite zlen_nil. unfold brc_insert_head. cbn [Z.eqb].
    exists (set_changed false s), rs, t. split_and!; auto using repr_set_changed.
  - set (num := zlen (r0 :: marks)) in *.
    assert (Hpos : 1 <= num) by (unfold num; zlia).
    replace (num =? 0) with false by lia.
    replace (SZ_BID + SZ_NUM + num * SZ_REC) with (SZ_HDR + SZ_REC * num) by (mset; lia).
    assert (Hnl : num <= zlen l) by (unfold num; rewrite Htk; zlia).
    destruct (insert_head_refines junk s rs t bid num l r0) as
      (s' & rs' & t' & E & Hr' & Hins & Hrest); try done.
    + destruct l as [|x l]; [done|]. cbn [length take] in Htk. by injection Htk as <- _.
    + by apply Hhd.
    + exists s', rs', t'. unfold num in Hins at 1. rewrite to_nat_zlen, <- Htk in Hins. auto.
Qed.

Lemma trim_marks_zlen expire l : zlen (trim_marks expire l) <= zlen l.
Proof. destruct (trim_marks_prefix expire l) as [k ->]. zlia. Qed.

(** The record is already at the head with its size: it is written in place. *)
Lemma overwrite_head s l0 b t bid marks l r :
  repr s ((bid, l0) :: b) t -> is_u32 bid -> Forall rec_ok l ->
  marks = take (length marks) l -> head marks = Some r -> zlen marks <= BRC_MAXNUM ->
  zlen marks = zlen l0 -> time4_gt (create r) (brc_expire_time s) = true ->
  exists b' p,
    brc_putrecord (brc_expire_time s) (blk s) 0 (SZ_BID + SZ_NUM + zlen marks * SZ_REC) bid
      (zlen marks) l = Some (b', p) /\
    repr (set_buf b' s) ((bid, marks) :: b) t.
Proof.
  intros ([post Hb] & Hs & Ha & Hok & Ht) Hbid Hl Htk Hhd Hmax Hlen He.
  rewrite store_bytes_cons in Hb, Hs. set (E := entry_bytes (bid, l0)) in *.
  assert (HE : zlen E = SZ_HDR + SZ_REC * zlen marks) by (unfold E; arith).
  replace (SZ_BID + SZ_NUM + zlen marks * SZ_REC) with (zlen E) by (rewrite HE; mset; lia).
  assert (Hpos : 1 <= zlen marks) by (destruct marks; [done|zlia]).
  rewrite Hb, <- app_assoc.
  rewrite (putrecord_spec _ E _ bid (zlen marks) l r); try done.
  - rewrite to_nat_zlen, <- Htk. eexists _, _. split; [reflexivity|].
    apply Forall_cons_1 in Hok as [(_ & Hl0 & _) Hok]. cbn [snd] in Hl0. split_and!.
    + exists post. rewrite store_bytes_cons. cbn. now rewrite <- !app_assoc.
    + cbn [brc_size set_buf set_store]. rewrite store_bytes_cons. unfold E in *. arith.
    + unfold blk. cbn [brc_buf brc_alloc set_buf set_store default id]. unfold id.
      rewrite <- Ha, Hb. unfold E in *. arith.
    + constructor; [|done]. split_and!; cbn [fst snd]; [done|lia|lia|].
      rewrite Htk. by apply Forall_take.
    + done.
  - rewrite Htk. zlia.
  - rewrite Htk in Hhd. destruct l as [|x l]; [by destruct (length marks)|].
    destruct (length marks); [done|]. by injection Hhd as <-.
Qed.

Lemma inserted_in_place bid marks b tlen :
  inserted bid marks b ((bid, marks) :: b) tlen.
Proof.
  exists marks, b, (length b). rewrite firstn_all.
  split_and!; auto using shrunk_refl.
Qed.

End BrcInsert.
