(* ===== verification/BrcMarks.v ===== *)
(** The marks of the current board: [brc_addlist], [brc_unread_time] and
    [brc_search_read] refine functions on the list of active marks. *)

From S2P Require Import Prelude Cstr Time4 Stamp Brc.
Import Cstr Time4 Stamp Brc.

Module BrcMarks.

(** *** Reference functions *)

(** Is the article created at [f], modified at [m], unread? 0 no, 1 by its
    creation time, 2 by its modification. *)
Definition modified_status (r : brc_rec) (m : Z) : Z :=
  if (m =? 0) || (modified r =? 0) then 0
  else if time4_is_invalid m || time4_is_invalid (modified r) then 0
  else if time4_gt m (modified r) then 2 else 0.

Fixpoint mark_status (l : list brc_rec) (f m : Z) : Z :=
  match l with
  | [] => 0
  | r :: l =>
      if time4_gt f (create r) then 1
      else if f =? create r then modified_status r m
      else mark_status l f m
  end.

Definition touch_mark (r : brc_rec) (m : Z) : brc_rec :=
  if time4_is_invalid m then r else
  let m0 := if time4_is_invalid (modified r) then 0 else modified r in
  BrcRec (create r) (if time4_lt m0 m then m else m0).

(** The list with the article marked, before it is cut to [BRC_MAXNUM]. *)
Fixpoint add_mark (f : brc_rec) (l : list brc_rec) : list brc_rec :=
  match l with
  | [] => []
  | r :: l =>
      if create f =? create r then touch_mark r (modified f) :: l
      else if time4_gt (create f) (create r) then f :: r :: l
      else r :: add_mark f l
  end.

(** Strictly newest first. *)
Fixpoint desc (l : list brc_rec) : Prop :=
  match l with
  | [] => True
  | r :: l => Forall (fun x => time4_gt (create r) (create x) = true) l /\ desc l
  end.

Definition active (num : Z) (l : list brc_rec) : list brc_rec := take (Z.to_nat num) l.

(** *** [brc_addlist] *)

Lemma shift_loop_spec a b x c i :
  i = zlen a + zlen b - 1 ->
  shift_loop (length b) i (a ++ b ++ x :: c) = Some (a ++ take 1 (b ++ [x]) ++ b ++ c).
Proof.
  revert x c i. induction b as [|y b IH] using rev_ind; intros x c i ->; [done|].
  rewrite length_app, Nat.add_1_r. cbn [shift_loop].
  replace (a ++ (b ++ [y]) ++ x :: c) with ((a ++ b) ++ y :: x :: c)
    by (rewrite <- !app_assoc; done).
  rewrite zget_middle by zlia. cbn [mbind option_bind].
  replace ((a ++ b) ++ y :: x :: c) with ((a ++ b ++ [y]) ++ [x] ++ c)
    by (rewrite <- !app_assoc; done).
  rewrite (mem_write_app _ [x] c [y]) by zlia. cbn [mbind option_bind].
  replace ((a ++ b ++ [y]) ++ [y] ++ c) with (a ++ b ++ y :: ([y] ++ c))
    by (rewrite <- !app_assoc; done).
  rewrite IH by zlia. do 2 f_equal. destruct b; cbn [app take]; rewrite <- ?app_assoc; done.
Qed.

(** Inserting before the element at [zlen a]: the last of the array goes when
    it is full. *)
Lemma insert_mark_array f a b x c :
  exists l', (l ← shift_loop (length b) (zlen a + zlen b - 1) (a ++ b ++ x :: c);
              mem_write l (zlen a) [f]) = Some l' /\ l' = a ++ f :: b ++ c.
Proof.
  rewrite shift_loop_spec by done. cbn [mbind option_bind]. destruct b as [|y b].
  - eexists. split; [apply (mem_write_app a [x] c [f]); done|done].
  - eexists. split; [apply (mem_write_app a [y] ((y :: b) ++ c) [f]); done|done].
Qed.

(** Where the tail of the array moves when a mark goes in after [pre]. *)
Lemma array_split (pre act c : list brc_rec) n :
  zlen (pre ++ act ++ c) = 80 -> zlen act > 0 ->
  n = (let N := zlen pre + zlen act in if N <? 80 then N + 1 else N) ->
  exists b x c' d, act ++ c = b ++ x :: c' /\ act = b ++ d /\
    zlen pre + zlen b = n - 1 /\ n <= 80 /\ (n < 80 -> d = []).
Proof.
  intros Hlen Hact Hn. cbv zeta in Hn.
  assert (Hb : 0 <= n - 1 - zlen pre < zlen (act ++ c) /\ n - 1 - zlen pre <= zlen act /\
    n <= 80 /\ (n < 80 -> n - 1 - zlen pre = zlen act)).
  { destruct (Z.ltb_spec (zlen pre + zlen act) 80); zlia. }
  destruct (lookup_lt_is_Some_2 (act ++ c) (Z.to_nat (n - 1 - zlen pre))) as [x Hx];
    [unfold zlen in *; lia|].
  exists (take (Z.to_nat (n - 1 - zlen pre)) act), x,
    (drop (S (Z.to_nat (n - 1 - zlen pre))) (act ++ c)),
    (drop (Z.to_nat (n - 1 - zlen pre)) act).
  rewrite <- (take_app_le act c) by (unfold zlen in *; lia).
  split_and!; [symmetry; by apply take_drop_middle| |rewrite zlen_take; lia|lia|].
  - rewrite take_app_le by (unfold zlen in *; lia). by rewrite take_drop.
  - intros. apply drop_ge. unfold zlen in *; lia.
Qed.

Lemma addlist_insert f pre act c n :
  zlen (pre ++ act ++ c) = 80 -> zlen act > 0 ->
  n = (let N := zlen pre + zlen act in if N <? 80 then N + 1 else N) ->
  exists l', (l ← shift_loop (Z.to_nat (n - 1 - zlen pre)) (n - 2) (pre ++ act ++ c);
              mem_write l (zlen pre) [f]) = Some l' /\
    zlen l' = 80 /\ n <= 80 /\ active n l' = take 80 (pre ++ f :: act).
Proof.
  intros Hlen Hact Hn.
  destruct (array_split pre act c n Hlen Hact Hn) as (b & x & c' & d & Hbx & Hbd & Hbl & Hn80 & Hd).
  destruct (insert_mark_array f pre b x c') as (l' & E & ->). exists (pre ++ f :: b ++ c').
  replace (Z.to_nat (n - 1 - zlen pre)) with (length b) by (unfold zlen in *; lia).
  replace (n - 2) with (zlen pre + zlen b - 1) by lia. rewrite Hbx. split; [exact E|].
  split; [rewrite Hbx in Hlen; zlia|]. split; [done|]. unfold active.
  rewrite Hbd. change (f :: b ++ c') with ((f :: b) ++ c'). change (f :: b ++ d) with ((f :: b) ++ d).
  rewrite !app_assoc. replace n with (zlen (pre ++ f :: b)) by zlia. rewrite take_zlen_app.
  assert (Hz : length (pre ++ f :: b) = Z.to_nat n) by (rewrite length_app; unfold zlen in Hbl; cbn; lia).
  destruct (Z.lt_ge_cases n 80).
  - rewrite Hd by done. rewrite app_nil_r, take_ge by lia. done.
  - rewrite take_app_length'; [done|lia].
Qed.

Lemma addlist_loop_spec f pre act c ch :
  zlen (pre ++ act ++ c) = BRC_MAXNUM ->
  exists num' l' ch',
    addlist_loop (length act) (zlen pre) (zlen pre + zlen act) f (pre ++ act ++ c) ch
      = Some (num', l', ch') /\
    zlen l' = BRC_MAXNUM /\ zlen pre + zlen act <= num' <= BRC_MAXNUM /\
    active num' l' = take (Z.to_nat BRC_MAXNUM) (pre ++ add_mark f act).
Proof.
  unfold BRC_MAXNUM, active. revert pre. induction act as [|r act IH]; intros pre Hlen.
  { cbn [length addlist_loop add_mark]. eexists _, _, _. split; [done|]. split_and!; try zlia.
    rewrite zlen_nil, Z.add_0_r, take_zlen_app, app_nil_r. rewrite take_ge; [done|].
    unfold zlen in Hlen. rewrite !length_app in Hlen. lia. }
  cbn [length addlist_loop add_mark app]. rewrite (zget_middle pre r) by done.
  cbn [mbind option_bind].
  destruct (create f =? create r) eqn:Eeq.
  - assert (Hfull : take (Z.to_nat 80) (pre ++ touch_mark r (modified f) :: act)
      = pre ++ touch_mark r (modified f) :: act).
    { apply take_ge. unfold zlen in Hlen. rewrite !length_app in *. cbn [length] in *. lia. }
    unfold touch_mark in *. destruct (time4_is_invalid (modified f)).
    + eexists _, _, _. split; [reflexivity|]. split_and!; try zlia. rewrite Hfull, <- zlen_app.
      change (r :: act ++ c) with ((r :: act) ++ c). rewrite app_assoc. apply take_zlen_app.
    + rewrite mem_write_one by done. cbn [mbind option_bind].
      eexists _, _, _. split; [reflexivity|]. split_and!; try zlia. rewrite Hfull.
      set (r' := BrcRec _ _). replace (zlen pre + zlen (r :: act)) with (zlen (pre ++ r' :: act)) by zlia.
      change (r' :: act ++ c) with ((r' :: act) ++ c). rewrite app_assoc. apply take_zlen_app.
  - destruct (time4_gt (create f) (create r)) eqn:Egt; cycle 1.
    + destruct (IH (pre ++ [r])) as (num' & l' & ch' & E & Hl & Hn & Ht); [rewrite <- app_assoc; exact Hlen|].
      rewrite <- !app_assoc in E, Ht. cbn [app] in E, Ht |- *.
      replace (zlen (pre ++ [r])) with (zlen pre + 1) in * by zlia.
      replace (zlen pre + zlen (r :: act)) with (zlen pre + 1 + zlen act) by zlia.
      eauto 10.
    + destruct (addlist_insert f pre (r :: act) c _ Hlen ltac:(zlia) eq_refl) as (l' & E & Hl & Hn & Ht).
      cbv zeta in *. cbn [app] in E |- *. set (n := if _ <? 80 then _ else _) in *.
      destruct (shift_loop _ _ _) as [l1|]; [|done]. cbn [mbind option_bind] in *.
      rewrite E. cbn [mbind option_bind]. eexists _, _, _. split; [reflexivity|]. split_and!; auto.
      unfold n. split_ifs; lia.
Qed.

(** *** [brc_unread_time] *)

Lemma unread_loop_spec pre act c f m :
  unread_loop (length act) (zlen pre) f m (pre ++ act ++ c) = Some (mark_status act f m).
Proof.
  revert pre. induction act as [|r act IH]; intros pre; [done|].
  cbn [length unread_loop mark_status app]. rewrite (zget_middle pre r) by done.
  cbn [mbind option_bind]. destruct (time4_gt f (create r)); [done|].
  destruct (f =? create r); [unfold modified_status; by repeat case_match|].
  replace (zlen pre + 1) with (zlen (pre ++ [r])) by zlia.
  replace (pre ++ r :: act ++ c) with ((pre ++ [r]) ++ act ++ c) by (by rewrite <- app_assoc).
  apply IH.
Qed.

Lemma unread_active num l f m :
  0 <= num <= zlen l ->
  unread_loop (Z.to_nat num) 0 f m l = Some (mark_status (active num l) f m).
Proof.
  intros. unfold active. pose proof (unread_loop_spec [] (take (Z.to_nat num) l)
    (drop (Z.to_nat num) l) f m) as E. cbn [app] in E. rewrite take_drop in E.
  rewrite length_take, Nat.min_l in E by (unfold zlen in *; lia). exact E.
Qed.

(** *** Lists of marks *)

Lemma modified_status_touch r m : modified_status (touch_mark r m) m = 0.
Proof.
  unfold modified_status, touch_mark. destruct (time4_is_invalid m) eqn:Em.
  - cbn. by repeat case_match.
  - cbn [modified]. set (m0 := if time4_is_invalid (modified r) then 0 else modified r).
    destruct (time4_lt m0 m) eqn:El.
    + rewrite time4_gt_irrefl. by repeat case_match.
    + rewrite <- time4_lt_gt, El. by repeat case_match.
Qed.

(** The article just marked is read. *)
Lemma add_mark_read f l m :
  modified f = m -> mark_status (add_mark f l) (create f) m = 0.
Proof.
  intros <-. induction l as [|r l IH]; [done|]. cbn [add_mark].
  destruct (create f =? create r) eqn:Ee; [|destruct (time4_gt (create f) (create r)) eqn:Eg].
  - assert (Ec : create (touch_mark r (modified f)) = create r)
      by (unfold touch_mark; by case_match).
    cbn [mark_status]. rewrite Ec. apply Z.eqb_eq in Ee. rewrite Ee, time4_gt_irrefl, Z.eqb_refl.
    apply modified_status_touch.
  - cbn [mark_status]. rewrite time4_gt_irrefl, Z.eqb_refl. unfold modified_status.
    rewrite time4_gt_irrefl. by repeat case_match.
  - cbn [mark_status]. by rewrite Eg, Ee.
Qed.

(** Cutting marks off the end never makes a read article unread. *)
Lemma mark_status_take n l f m :
  mark_status l f m = 0 -> mark_status (take n l) f m = 0.
Proof.
  revert n. induction l as [|r l IH]; intros [|n] H; cbn [take mark_status] in *; try done.
  destruct (time4_gt f (create r)); [done|]. destruct (f =? create r); auto.
Qed.

(** Marking one article does not change what is known of the others. *)
Lemma add_mark_other f l g m :
  create f <> g -> desc l -> mark_status l g m = 0 -> mark_status (add_mark f l) g m = 0.
Proof.
  intros Hne. induction l as [|r l IH]; intros Hd H; [done|]. cbn [add_mark].
  destruct (create f =? create r) eqn:Ee; [|destruct (time4_gt (create f) (create r)) eqn:Eg].
  - assert (Ec : create (touch_mark r (modified f)) = create r)
      by (unfold touch_mark; by case_match).
    cbn [mark_status] in *. rewrite Ec. zbool.
    destruct (time4_gt g (create r)); [done|].
    destruct (Z.eqb_spec g (create r)); [congruence|done].
  - cbn [mark_status] in *. destruct (time4_gt g (create f)) eqn:Egf.
    + rewrite (time4_gt_trans _ _ _ Egf Eg) in H. done.
    + destruct (Z.eqb_spec g (create f)); [congruence|done].
  - cbn [mark_status] in *. destruct (time4_gt g (create r)); [done|].
    destruct (g =? create r); [done|]. apply IH; [apply Hd|done].
Qed.

Lemma add_mark_Forall (P : Z -> Prop) f l :
  P (create f) -> Forall (fun x => P (create x)) l ->
  Forall (fun x => P (create x)) (add_mark f l).
Proof.
  intros Hf H. induction H as [|r l Hr H IH]; cbn; [constructor|].
  repeat case_match; constructor; auto. unfold touch_mark. by case_match.
Qed.

(** The list stays strictly ordered, newest first. *)
Lemma add_mark_desc f l :
  is_s32 (create f) -> Forall (fun x => is_s32 (create x)) l ->
  desc l -> desc (add_mark f l).
Proof.
  intros Hf Hl. induction Hl as [|r l Hr Hl IH]; intros Hd; [done|]. cbn [add_mark].
  destruct Hd as [Hall Hd].
  destruct (Z.eqb_spec (create f) (create r)) as [Ee|Ee];
    [|destruct (time4_gt (create f) (create r)) eqn:Eg].
  - split; [|done]. assert (Ec : create (touch_mark r (modified f)) = create r)
      by (unfold touch_mark; by case_match). by rewrite Ec.
  - split; [|done]. constructor; [done|]. eapply List.Forall_impl; [|exact Hall].
    intros x. by apply time4_gt_trans.
  - split; [|auto]. apply (add_mark_Forall (fun z => time4_gt (create r) z = true)); [|done].
    destruct (time4_gt (create r) (create f)) eqn:E; [done|].
    exfalso. apply Ee. by apply time4_trichotomy.
Qed.

Lemma desc_take n l : desc l -> desc (take n l).
Proof.
  revert n. induction l as [|r l IH]; intros [|n] Hd; cbn; auto.
  destruct Hd. split; [by apply Forall_take|auto].
Qed.

(** *** [brc_search_read] *)

(** The nearest read article, newer or older, as a function of the list. *)
Fixpoint search_spec (newer : option brc_rec) (l : list brc_rec) (f : Z) (forward : bool)
    : Z * option Z :=
  let ret := fun o => match o with Some r => (1, Some (create r)) | None => (0, None) end in
  match l with
  | [] => if forward then ret newer else (0, None)
  | r :: l' =>
      if time4_gt f (create r) then (if forward then ret newer else (1, Some (create r)))
      else if f =? create r then (if forward then ret newer else ret (head l'))
      else search_spec (Some r) l' f forward
  end.

Lemma search_loop_spec pre act c f forward :
  search_loop (length act) (zlen pre) (zlen pre + zlen act) f forward (pre ++ act ++ c)
  = Some (search_spec (list.last pre) act f forward).
Proof.
  revert pre. induction act as [|r act IH]; intros pre.
  - cbn [length search_loop search_spec app]. destruct forward; [|done].
    destruct pre as [|x pre _] using rev_ind; [done|]. rewrite last_snoc.
    replace (zlen (pre ++ [x]) =? 0) with false by zlia. cbn [andb negb].
    rewrite <- app_assoc. cbn [app]. rewrite zget_middle by zlia. done.
  - cbn [length search_loop search_spec app]. rewrite (zget_middle pre r (act ++ c) (zlen pre)) by done.
    cbn [mbind option_bind].
    assert (Hnew : (if negb (zlen pre =? 0)
      then r0 ← zget (pre ++ r :: act ++ c) (zlen pre - 1); Some (1, Some (create r0))
      else Some (0, None)) = Some (match list.last pre with Some r => (1, Some (create r)) | None => (0, None) end)).
    { destruct pre as [|x pre _] using rev_ind; [done|]. rewrite last_snoc.
      replace (zlen (pre ++ [x]) =? 0) with false by zlia. cbn [negb].
      rewrite <- app_assoc. cbn [app]. rewrite zget_middle by zlia. done. }
    destruct (time4_gt f (create r)); [by destruct forward|].
    destruct (f =? create r).
    + destruct forward; cbn [andb negb].
      * rewrite <- Hnew. by destruct (negb _).
      * destruct act as [|x act]; cbn [head].
        { replace (_ <? _) with false by zlia. done. }
        replace (_ <? _) with true by zlia. cbn [app].
        replace (pre ++ r :: x :: act ++ c) with ((pre ++ [r]) ++ x :: act ++ c) by (by rewrite <- app_assoc).
        rewrite zget_middle by zlia. done.
    + replace (zlen pre + 1) with (zlen (pre ++ [r])) by zlia.
      replace (zlen pre + zlen (r :: act)) with (zlen (pre ++ [r]) + zlen act) by zlia.
      replace (pre ++ r :: act ++ c) with ((pre ++ [r]) ++ act ++ c) by (by rewrite <- app_assoc).
      rewrite IH, last_snoc. done.
Qed.

(** *** What the list functions mean on an ordered list *)

Definition newer_than (f : Z) (l : list brc_rec) : list brc_rec :=
  filter (fun r => time4_gt (create r) f = true) l.
Definition older_than (f : Z) (l : list brc_rec) : list brc_rec :=
  filter (fun r => time4_gt f (create r) = true) l.

Lemma time4_gt_asym a b : time4_gt a b = true -> time4_gt b a = false.
Proof.
  intros H. destruct (time4_gt b a) eqn:E; [|done].
  pose proof (time4_gt_trans _ _ _ H E) as Hc. by rewrite time4_gt_irrefl in Hc.
Qed.

Lemma newer_none f l :
  Forall (fun x => time4_gt f (create x) = true) l -> newer_than f l = [].
Proof.
  unfold newer_than. induction 1 as [|x l Hx _ IH]; [done|].
  rewrite filter_cons_False; [done|]. by rewrite time4_gt_asym.
Qed.

Lemma older_all f l :
  Forall (fun x => time4_gt f (create x) = true) l -> older_than f l = l.
Proof.
  unfold older_than. induction 1 as [|x l Hx _ IH]; [done|]. by rewrite filter_cons_True, IH.
Qed.

Lemma desc_older f r l :
  desc (r :: l) -> time4_gt f (create r) = true ->
  Forall (fun x => time4_gt f (create x) = true) l.
Proof.
  intros [Hl _] Hf. eapply List.Forall_impl; [|exact Hl]. intros x. by apply time4_gt_trans.
Qed.

Definition answer (o : option brc_rec) : Z * option Z :=
  match o with Some r => (1, Some (create r)) | None => (0, None) end.

Definition stamps_ok (l : list brc_rec) : Prop := Forall (fun x => is_s32 (create x)) l.

Lemma search_forward newer l f :
  is_s32 f -> stamps_ok l -> desc l ->
  search_spec newer l f true =
    answer (match list.last (newer_than f l) with Some r => Some r | None => newer end).
Proof.
  intros Hf Hok. revert newer. induction Hok as [|r l Hr Hok IH]; intros newer Hd; [done|].
  cbn [search_spec]. destruct (time4_gt f (create r)) eqn:Ef.
  - by rewrite newer_none by (constructor; [done|by eapply desc_older]).
  - unfold newer_than. destruct (Z.eqb_spec f (create r)) as [->|Hne].
    + rewrite filter_cons_False by (by rewrite time4_gt_irrefl).
      destruct Hd as [Hl _]. fold (newer_than (create r) l). by rewrite newer_none.
    + rewrite IH by apply Hd. destruct (time4_gt (create r) f) eqn:Eg.
      * rewrite filter_cons_True by done. fold (newer_than f l).
        rewrite last_cons. by destruct (list.last _).
      * by destruct (Hne (time4_trichotomy _ _ Hf Hr Ef Eg)).
Qed.

Lemma search_backward newer l f :
  desc l -> search_spec newer l f false = answer (head (older_than f l)).
Proof.
  revert newer. induction l as [|r l IH]; intros newer Hd; [done|]. cbn [search_spec].
  unfold older_than. destruct (time4_gt f (create r)) eqn:Ef.
  - by rewrite filter_cons_True.
  - rewrite filter_cons_False by congruence. fold (older_than f l). destruct Hd as [Hl Hd].
    destruct (Z.eqb_spec f (create r)) as [->|Hne]; [|by apply IH].
    by rewrite older_all.
Qed.

(** By creation time, the unread articles are those that are not marked and
    are newer than some mark. *)
Lemma mark_status_unread l f m :
  is_s32 f -> stamps_ok l -> desc l ->
  mark_status l f m = 1 <->
  f ∉ map create l /\ exists r, r ∈ l /\ time4_gt f (create r) = true.
Proof.
  intros Hf Hok. induction Hok as [|r l Hr Hok IH]; intros Hd; cbn [mark_status map].
  { split; [done|]. intros [_ (r & Hr & _)]. by apply elem_of_nil in Hr. }
  rewrite not_elem_of_cons. destruct (time4_gt f (create r)) eqn:Ef.
  - split; [intros _|done]. split_and!; [intros ->; by rewrite time4_gt_irrefl in Ef| |].
    + rewrite list_elem_of_fmap. intros (x & -> & Hx).
      pose proof (desc_older _ _ _ Hd Ef) as Ha. rewrite list.Forall_forall in Ha.
      specialize (Ha x Hx). by rewrite time4_gt_irrefl in Ha.
    + exists r. split; [by constructor|done].
  - destruct (Z.eqb_spec f (create r)) as [->|Hne].
    + split; [|tauto]. unfold modified_status. by repeat case_match.
    + rewrite IH by apply Hd. split.
      * intros (H & x & Hx & Hg). split_and!; auto. exists x. split; [by constructor|done].
      * intros ((_ & H) & x & Hx & Hg). split; [done|].
        apply elem_of_cons in Hx as [->|Hx]; [congruence|eauto].
Qed.

Lemma mark_status_modified l f m :
  mark_status l f m = 2 ->
  exists r, r ∈ l /\ create r = f /\ time4_gt m (modified r) = true.
Proof.
  induction l as [|r l IH]; [done|]. cbn [mark_status].
  destruct (time4_gt f (create r)); [done|]. destruct (Z.eqb_spec f (create r)) as [->|].
  - unfold modified_status. intros H. exists r. repeat case_match; try done. by split; [constructor|].
  - intros (x & Hx & H)%IH. exists x. split; [by constructor|done].
Qed.

End BrcMarks.
