(* ===== verification/BrcFacts.v ===== *)
(** The operations of [Brc] as functions of the abstract store and of the
    marks of the current board. *)

From S2P Require Import Prelude Cstr Time4 Stamp Brc BrcStore BrcInsert BrcMarks.
Import Cstr Time4 Stamp Brc BrcStore BrcInsert BrcMarks.

Module BrcFacts.

Lemma insert_record_sim junk s rs t bid num l :
  repr s rs t -> zlen t <= SZ_HDR \/ find_bid (u32 bid) rs = None ->
  brc_size s <= BRC_MAXSIZE ->
  0 <= num <= BRC_MAXNUM -> num <= zlen l -> Forall rec_ok l ->
  let marks := trim_marks (brc_expire_time s) (take (Z.to_nat num) l) in
  (forall r, head marks = Some r -> time4_gt (create r) (brc_expire_time s) = true) ->
  exists s' rs' t',
    brc_insert_record junk bid num l s = Some s' /\ repr s' rs' t' /\
    (let rest := remove_bid (u32 bid) rs in
     match marks with
     | [] => rs' = rest
     | _ => inserted (u32 bid) marks rest rs' (if zlen t <=? SZ_HDR then zlen t else 0)
     end) /\
    brc_size s' <= BRC_MAXSIZE /\ zlen t' <= SZ_HDR /\
    s' = set_changed false (set_update true
           (set_store (brc_buf s') (brc_size s') (brc_alloc s') s)).
Proof.
  intros Hr Htail Hsz Hn Hnl Hl marks Hhd.
  unfold brc_insert_record, brc_findrecord_in.
  pose proof (u32_range bid) as Hbid. rewrite (u32_small (u32 bid)) by done.
  apply (repr_set_update true) in Hr. pose proof Hr as ([post Hb] & Hs & Ha & Hok & Ht).
  change (blk (set_update true s)) with (blk s) in *.
  change (brc_size (set_update true s)) with (brc_size s) in *.
  pose proof (find_loop_spec t post Ht (scan_fuel (blk s)) [] rs (u32 bid) Hok
    (repr_fuel _ _ _ Hr)) as Hfind. cbn [app] in Hfind.
  rewrite zlen_nil, Z.add_0_l, <- Hb, <- Hs in Hfind. rewrite Hfind. clear Hfind.
  assert (Hu : u16 num = num) by (apply Z.mod_small; mset; lia).
  rewrite Hu, trim_expired_spec by (unfold zlen in Hnl; lia).
  change (brc_expire_time (set_update true s)) with (brc_expire_time s).
  fold marks. pose proof (trim_marks_take (brc_expire_time s) (Z.to_nat num) l) as Htk.
  fold marks in Htk.
  pose proof (trim_marks_zlen (brc_expire_time s) (take (Z.to_nat num) l)) as Hml.
  fold marks in Hml. rewrite zlen_take in Hml.
  pose proof (split_bid_spec (u32 bid) rs) as Hsp.
  destruct (split_bid (u32 bid) rs) as [[[a l0] b]|]; cbn [mbind option_bind].
  - destruct Hsp as (-> & -> & Hfb). destruct Htail as [Htail|Htail]; [|congruence].
    replace (zlen t <=? SZ_HDR) with true by lia. rewrite Z.add_0_l.
    destruct (_ && _) eqn:Hfast.
    + zbool.
      assert (a = []) as ->.
      { apply zlen_zero. apply Forall_app in Hok as [Hoa _].
        pose proof (store_bytes_length a Hoa). zlia. }
      assert (Hl0 : zlen marks = zlen l0).
      { apply Forall_cons_1 in Hok as [(_ & Hl0 & _) _]. cbn [snd] in Hl0.
        destruct (zlen marks =? 0) eqn:E; mset; zbool; lia. }
      destruct marks as [|r0 marks'] eqn:Em.
      { rewrite zlen_nil in *. apply Forall_cons_1 in Hok as [(_ & Hl0' & _) _]. cbn [snd] in *. lia. }
      rewrite <- Em in *. replace (zlen marks =? 0) with false by (rewrite Em; zlia).
      destruct (overwrite_head _ l0 b t (u32 bid) marks l r0 Hr Hbid Hl Htk) as (b' & p & Hp & Hr');
        [by rewrite Em|mset; lia|done|apply Hhd; by rewrite Em|].
      change (blk (set_update true s)) with (blk s) in Hp.
      change (brc_expire_time (set_update true s)) with (brc_expire_time s) in Hp.
      rewrite Hp. cbn [mbind option_bind].
      eexists _, _, t. split; [reflexivity|]. split; [by apply repr_set_changed|].
      split; [|split; [|split]]; [|done|lia|done].
      rewrite Em. cbn [app]. apply inserted_in_place.
    + destruct (remove_refines _ _ _ _ _ _ Hr) as (b' & Hmv & Hr').
      change (brc_size (set_update true s)) with (brc_size s) in *.
      change (blk (set_update true s)) with (blk s) in *.
      rewrite Hmv. cbn [mbind option_bind].
      edestruct (insert_head_spec junk _ _ _ (u32 bid) marks l Hr') as (s' & rs' & t' & E & H);
        try done; [mset; lia|cbn; mset; zlia|].
      rewrite E. exists s', rs', t'. split; [done|]. destruct H as (H1 & H2 & H3 & H4 & H5).
      split_and!; auto.
  - destruct Hsp as [-> _]. apply cut_tail_repr in Hr.
    edestruct (insert_head_spec junk _ _ _ (u32 bid) marks l Hr) as (s' & rs' & t' & E & H);
      try done; [by case_if Hc; [lia|vm_compute]|mset; lia|cbn; case_if Hc; zlia|].
    change (brc_size (set_update true s)) with (brc_size s) in *.
    rewrite E. exists s', rs', t'. split; [done|]. destruct H as (H1 & H2 & H3 & H4 & H5).
    split_and!; auto. by destruct (zlen t <=? SZ_HDR).
Qed.

(** *** Looking a board up *)

Lemma findrecord_spec s rs t bid :
  repr s rs t -> exists n,
  brc_findrecord_in s bid =
  Some (match split_bid (u32 bid) rs with
        | Some (a, l, _) => (Some (zlen (store_bytes a)), zlen l)
        | None => (None, n)
        end).
Proof.
  intros Hr. pose proof Hr as ([post Hb] & Hs & _ & Hok & Ht).
  pose proof (find_loop_spec t post Ht (scan_fuel (blk s)) [] rs (u32 bid) Hok
    (repr_fuel _ _ _ Hr)) as Hfind. cbn [app] in Hfind.
  rewrite zlen_nil, Z.add_0_l, <- Hb, <- Hs in Hfind.
  unfold brc_findrecord_in. rewrite Hfind. eexists.
  by destruct (split_bid (u32 bid) rs) as [[[a l] b]|].
Qed.

(** The marks of a stored board read back. *)
Lemma read_marks s a l b t bid :
  repr s (a ++ (bid, l) :: b) t ->
  exists d, mem_read (blk s) (zlen (store_bytes a) + SZ_BID + SZ_NUM) (zlen l * SZ_REC) = Some d /\
    bytes_recs (Z.to_nat (zlen l)) d = l.
Proof.
  intros ([post Hb] & Hs & _ & Hok & _). apply Forall_app in Hok as [_ Hok].
  apply Forall_cons_1 in Hok as [(_ & _ & Hl) _]. cbn [snd] in Hl.
  exists (recs_bytes l). split.
  - rewrite Hb, store_bytes_app, store_bytes_cons. unfold entry_bytes. cbn [fst snd].
    rewrite <- !app_assoc.
    rewrite (app_assoc (store_bytes a)), (app_assoc (_ ++ _)), mem_read_app; [done|arith|arith].
  - rewrite to_nat_zlen, <- (app_nil_r (recs_bytes l)). by apply bytes_recs_image.
Qed.

Lemma find_record_sim s rs t bid :
  repr s rs t ->
  brc_find_record s bid =
  Some (match find_bid (u32 bid) rs with Some l => (Some l, zlen l) | None => (None, 0) end).
Proof.
  intros Hr. unfold brc_find_record. destruct (findrecord_spec s rs t bid Hr) as [n ->].
  pose proof (split_bid_spec (u32 bid) rs) as Hsp. cbn [mbind option_bind].
  destruct (split_bid (u32 bid) rs) as [[[a l] b]|].
  - destruct Hsp as (-> & _ & ->). destruct (read_marks _ _ _ _ _ _ Hr) as (d & -> & Hd).
    cbn [mbind option_bind]. by rewrite Hd.
  - by destruct Hsp as [_ ->].
Qed.

Lemma inserted_find bid marks rs rs' tlen :
  inserted bid marks rs rs' tlen ->
  find_bid bid rs' = Some marks \/ find_bid bid rs' = Some (take 1 marks).
Proof.
  intros (m & rs1 & k & -> & _ & Hm & _). cbn [find_bid fst snd]. rewrite Z.eqb_refl.
  destruct Hm as [->| ->]; auto.
Qed.

(** *** The marks of the board being read *)

Definition marks_ok (s : brc_state) : Prop :=
  zlen (brc_list s) = BRC_MAXNUM /\ 0 <= brc_num s <= BRC_MAXNUM /\
  stamps_ok (active (brc_num s) (brc_list s)) /\ desc (active (brc_num s) (brc_list s)).

(** The marks the code consults for a board: the copy of the current board, or
    the stored entry. *)
Definition board_view (s : brc_state) (rs : list entry) (bid : Z) : list brc_rec :=
  if negb (brc_currbid s =? 0) && (bid =? brc_currbid s)
  then active (brc_num s) (brc_list s) else default [] (find_bid (u32 bid) rs).

Lemma zlen_active num l : 0 <= num <= zlen l -> zlen (active num l) = num.
Proof. intros. unfold active. zlia. Qed.

Lemma board_marks_spec s rs t bid :
  repr s rs t -> marks_ok s ->
  exists bl n, board_marks s bid = Some (bl, n) /\
    active n (default [] bl) = board_view s rs bid /\ 0 <= n <= zlen (default [] bl) /\
    (bl = None -> n = 0).
Proof.
  intros Hr (Hl & Hn & _). unfold board_marks, board_view.
  destruct (negb _ && _).
  - eexists _, _. split; [done|]. cbn [default id]. unfold id. rewrite Hl. split_and!; try done; lia.
  - rewrite (find_record_sim _ _ _ _ Hr). destruct (find_bid _ _) as [l|].
    + eexists _, _. split; [done|]. cbn [default]. unfold active, id. rewrite to_nat_zlen, firstn_all.
      split_and!; [done|zlia|lia|done].
    + eexists _, _. split; [done|]. cbn. by split_and!.
Qed.

Lemma unread_time_eq junk se file s rs t bid f m :
  repr s rs t -> marks_ok s -> brc_initialized s = true ->
  brc_unread_time junk se file bid f m s =
  Some (s, if time4_le f (brc_expire_time s) then 0 else
           match board_view s rs bid with [] => 1 | l => mark_status l f m end).
Proof.
  intros Hr Hm Hi. unfold brc_unread_time, brc_initialize. rewrite Hi.
  destruct (time4_le f (brc_expire_time s)); [done|].
  destruct (board_marks_spec s rs t bid Hr Hm) as (bl & n & -> & <- & Hn & _).
  cbn [mbind option_bind]. pose proof (zlen_active n _ Hn) as Hz.
  destruct (Z.leb_spec n 0).
  - by rewrite (zlen_zero (active n (default [] bl))) by lia.
  - rewrite unread_active by done. cbn [mbind option_bind].
    destruct (active n (default [] bl)); [rewrite zlen_nil in Hz; lia|done].
Qed.

Lemma search_active num l f forward :
  0 <= num <= zlen l ->
  search_loop (Z.to_nat num) 0 num f forward l = Some (search_spec None (active num l) f forward).
Proof.
  intros. unfold active. pose proof (search_loop_spec [] (take (Z.to_nat num) l)
    (drop (Z.to_nat num) l) f forward) as E. cbn [app list.last] in E. rewrite take_drop in E.
  rewrite length_take, Nat.min_l in E by (unfold zlen in *; lia).
  replace (zlen [] + zlen (take (Z.to_nat num) l)) with num in E by zlia. exact E.
Qed.

Lemma search_read_eq junk se file s rs t bid f forward :
  repr s rs t -> marks_ok s -> brc_initialized s = true ->
  brc_search_read junk se file bid f forward s =
  Some (s, match board_view s rs bid with
           | [] => (-1, None)
           | [r] => if create r =? 1 then (-1, None) else search_spec None [r] f forward
           | l => search_spec None l f forward
           end).
Proof.
  intros Hr Hm Hi. unfold brc_search_read, brc_initialize. rewrite Hi.
  destruct (board_marks_spec s rs t bid Hr Hm) as (bl & n & -> & <- & Hn & Hnone).
  cbn [mbind option_bind]. destruct bl as [bl|]; cbn [default] in *; unfold id in *;
    [|by specialize (Hnone eq_refl) as ->].
  pose proof (zlen_active n _ Hn) as Hz. rewrite search_active by done. cbn [mbind option_bind].
  destruct (Z.eqb_spec n 0) as [->|]; [done|].
  destruct (active n bl) as [|r [|r' l]] eqn:E; [rewrite zlen_nil in Hz; lia| |].
  - assert (n = 1) as -> by zlia. cbn [Z.eqb Pos.eqb].
    destruct bl as [|x bl]; [zlia|]. cbn in E. injection E as ->. change (zget (r :: bl) 0) with (Some r).
    cbn [mbind option_bind]. by destruct (create r =? 1).
  - replace (n =? 1) with false by zlia. done.
Qed.

(** *** Marking an article *)

Lemma addlist_active num l f ch :
  0 <= num <= BRC_MAXNUM -> zlen l = BRC_MAXNUM ->
  exists num' l' ch', addlist_loop (Z.to_nat num) 0 num f l ch = Some (num', l', ch') /\
    zlen l' = BRC_MAXNUM /\ 0 <= num' <= BRC_MAXNUM /\
    active num' l' = take (Z.to_nat BRC_MAXNUM) (add_mark f (active num l)).
Proof.
  intros Hn Hl. unfold active.
  destruct (addlist_loop_spec f [] (take (Z.to_nat num) l) (drop (Z.to_nat num) l) ch)
    as (num' & l' & ch' & E & H1 & H2 & H3); [by rewrite app_nil_l, take_drop|].
  rewrite !app_nil_l, take_drop in E. rewrite length_take, Nat.min_l in E by (unfold zlen in *; lia).
  replace (zlen [] + zlen (take (Z.to_nat num) l)) with num in E by zlia.
  exists num', l', ch'. split_and!; auto; zlia.
Qed.

(** After a board is opened, the current board is the board of the marks, as the
    assertions of [brc.c] want it. *)
Lemma initial_board_agrees junk se file same_board bid default_bid s se' s' ret :
  brc_initial_board junk se file same_board bid default_bid s = Some (se', s', ret) ->
  currbid se' = brc_currbid s'.
Proof.
  unfold brc_initial_board. set (s0 := brc_initialize _ _ _ _). destruct same_board.
  - destruct (Z.eqb_spec (currbid se) (brc_currbid s0)) as [E|]; [|done]. by intros [= <- <- _].
  - destruct (brc_update _ _ _ _) as [s1|]; [|done]. cbn [mbind option_bind].
    destruct (_ && _); [|done]. destruct (brc_read_record _ _ _) as [[[num l] r]|]; [|done].
    cbn [mbind option_bind]. by intros [= <- <- _].
Qed.

(** What [brc_addlist] leaves in the copy of the current board. *)
Definition added (f : brc_rec) (l : list brc_rec) : list brc_rec :=
  match l with
  | [] => [f]
  | [r] => if time4_lt (create f) (create r) then l else take (Z.to_nat BRC_MAXNUM) (add_mark f l)
  | _ => take (Z.to_nat BRC_MAXNUM) (add_mark f l)
  end.

Lemma addlist_sim junk se file fname mtime s :
  marks_ok s -> brc_initialized s = true -> userlevel se <> 0 -> currbid se = brc_currbid s ->
  let f := BrcRec (get_fhdr_stamp_ts (Some fname)) mtime in
  exists num l ch,
    brc_addlist junk se file fname mtime s =
      Some (set_changed ch (set_curr (brc_currbid s) num l s)) /\
    zlen l = BRC_MAXNUM /\ 0 <= num <= BRC_MAXNUM /\
    active num l = if time4_le (create f) (brc_expire_time s)
                   then active (brc_num s) (brc_list s)
                   else added f (active (brc_num s) (brc_list s)).
Proof.
  intros (Hl & Hn & _) Hi Hu Hcur f. unfold brc_addlist, brc_initialize. rewrite Hcur, Z.eqb_refl, Hi.
  cbn [negb].
  replace (userlevel se =? 0) with false by lia. fold f.
  assert (Hsame : s = set_changed (brc_changed s) (set_curr (brc_currbid s) (brc_num s) (brc_list s) s))
    by (by destruct s).
  destruct (time4_le (create f) (brc_expire_time s)).
  { exists (brc_num s), (brc_list s), (brc_changed s). by rewrite <- Hsame. }
  pose proof (zlen_active (brc_num s) (brc_list s) ltac:(lia)) as Hz.
  destruct (brc_list s) as [|r0 rest] eqn:Elist; [done|].
  destruct (Z.leb_spec (brc_num s) 0).
  { rewrite (mem_write_one [] r0 f rest) by done. cbn [mbind option_bind app].
    rewrite (zlen_zero (active _ _)) by lia.
    eexists _, _, _. split; [reflexivity|]. split_and!; [zlia|lia|unfold BRC_MAXNUM; lia|done]. }
  change (zget (r0 :: rest) 0) with (Some r0). cbn [mbind option_bind].
  destruct (addlist_active (brc_num s) (r0 :: rest) f (brc_changed s)) as
    (num' & l' & ch' & -> & Hl' & Hn' & Ha); [lia|done|]. cbn [mbind option_bind].
  destruct (Z.eqb_spec (brc_num s) 1) as [E1|E1]; cbn [andb].
  - rewrite E1 in *. change (active 1 (r0 :: rest)) with [r0] in *. cbn [added].
    destruct (time4_lt _ _); [|by exists num', l', ch'].
    exists 1, (r0 :: rest), (brc_changed s). by rewrite <- Hsame.
  - destruct (active (brc_num s) (r0 :: rest)) as [|r [|r' l]]; [zlia|zlia|].
    by exists num', l', ch'.
Qed.

Lemma added_read f m l : modified f = m -> mark_status (added f l) (create f) m = 0.
Proof.
  intros <-. pose proof (fun l => mark_status_take (Z.to_nat BRC_MAXNUM) _ _ _ (add_mark_read f l _ eq_refl)) as H.
  destruct l as [|r [|r' l]]; cbn [added].
  - cbn [mark_status]. rewrite time4_gt_irrefl, Z.eqb_refl. unfold modified_status.
    rewrite time4_gt_irrefl. by repeat case_match.
  - destruct (time4_lt (create f) (create r)) eqn:E; [|apply H]. cbn [mark_status].
    rewrite time4_lt_gt in E. rewrite (time4_gt_asym _ _ E).
    destruct (Z.eqb_spec (create f) (create r)) as [Ee|]; [|done].
    by rewrite Ee, time4_gt_irrefl in E.
  - apply H.
Qed.

Lemma added_other f l g m :
  l <> [] -> create f <> g -> desc l -> mark_status l g m = 0 -> mark_status (added f l) g m = 0.
Proof.
  intros Hne Hg Hd H. pose proof (mark_status_take (Z.to_nat BRC_MAXNUM) _ _ _
    (add_mark_other f l g m Hg Hd H)) as Ht.
  destruct l as [|r [|r' l]]; cbn [added]; [done| |done]. by destruct (time4_lt _ _).
Qed.

Lemma added_ok f l :
  is_s32 (create f) -> stamps_ok l -> desc l ->
  stamps_ok (added f l) /\ desc (added f l) /\ added f l <> [].
Proof.
  intros Hf Hl Hd.
  assert (Ht : stamps_ok (take (Z.to_nat BRC_MAXNUM) (add_mark f l)) /\
    desc (take (Z.to_nat BRC_MAXNUM) (add_mark f l))).
  { split; [by apply Forall_take, (add_mark_Forall is_s32)|by apply desc_take, add_mark_desc]. }
  assert (Hn : forall r l, take (Z.to_nat BRC_MAXNUM) (add_mark f (r :: l)) <> []).
  { intros r l0. cbn [add_mark]. by repeat case_match. }
  destruct l as [|r [|r' l]]; cbn [added].
  - split; [constructor; [done|constructor]|]. split; [by split|done].
  - destruct (time4_lt _ _); [by split|]. split_and!; [apply Ht|apply Ht|apply Hn].
  - split_and!; [apply Ht|apply Ht|apply Hn].
Qed.

(** *** The file *)

Lemma load_sim junk s rs t s0 :
  repr s rs t -> brc_size s <= BRC_MAXSIZE ->
  exists s2, load_local_brc junk (Some (take (Z.to_nat (brc_size s)) (blk s))) s0 = (s2, true) /\
    repr s2 rs t /\ brc_size s2 = brc_size s.
Proof.
  intros ([post Hb] & Hs & Ha & Hok & Ht) Hsz.
  assert (Hf : take (Z.to_nat (brc_size s)) (blk s) = store_bytes rs ++ t).
  { rewrite Hb, Hs, app_assoc, <- zlen_app. apply take_zlen_app. }
  rewrite Hf. unfold load_local_brc. set (s1 := brc_get_buf _ _ _).
  assert (Halloc : brc_size s <= brc_alloc s1 /\ zlen (blk s1) = brc_alloc s1).
  { unfold s1, brc_get_buf. set (a := if BRC_MAXSIZE <? _ then _ else _).
    assert (brc_size s <= a); [|split; [done|cbn; apply zlen_fresh; zlia]].
    unfold a. rewrite zlen_app, <- Hs. unfold BRC_MAXSIZE, BRC_BLOCKSIZE in *. clear -Hsz Hs.
    assert (0 <= brc_size s) by zlia. rewrite Z.quot_div_nonneg by lia.
    pose proof (Z.div_mod (brc_size s + 1024 - 1) 1024 ltac:(lia)).
    pose proof (Z.mod_pos_bound (brc_size s + 1024 - 1) 1024 ltac:(lia)).
    destruct (Z.eqb_spec (brc_size s) 0); split_ifs; lia. }
  clearbody s1. rewrite take_ge by (unfold zlen in *; rewrite length_app; lia).
  eexists. split; [reflexivity|]. split; [|cbn; zlia]. split_and!; cbn; auto; [|zlia|].
  - exists (drop (length (store_bytes rs ++ t)) (blk s1)). by rewrite <- app_assoc.
  - rewrite zlen_app, zlen_drop. unfold zlen in *. rewrite !length_app in *. lia.
Qed.

End BrcFacts.
