(* ===== verification/BrcProps.v ===== *)
(** The properties of the read marks ([Brc]), each with an instance. *)

From S2P Require Import Prelude Cstr Time4 Stamp Brc BrcStore BrcInsert BrcMarks BrcFacts.
Import Cstr Time4 Stamp Brc BrcStore BrcInsert BrcMarks BrcFacts.

Module BrcProps.

(** C1. [brc_insert_record] refines a most-recently-used list: from a buffer
    that holds the entries [rs], it terminates without leaving the block,
    drops the board's old entry, puts its unexpired marks first, and shrinks
    or cuts other boards only when 65536 bytes do not suffice; the size stays
    within the limit. *)
Theorem brc_insert_record_refines junk s rs t bid num l :
  repr s rs t -> zlen t <= SZ_HDR \/ find_bid (u32 bid) rs = None ->
  brc_size s <= BRC_MAXSIZE ->
  0 <= num <= BRC_MAXNUM -> num <= zlen l -> Forall rec_ok l ->
  let marks := trim_marks (brc_expire_time s) (take (Z.to_nat num) l) in
  (forall r, head marks = Some r -> time4_gt (create r) (brc_expire_time s) = true) ->
  exists s' rs' t',
    brc_insert_record junk bid num l s = Some s' /\ repr s' rs' t' /\
    (let rest := remove_bid (u32 bid) rs in
     match marks with
     | [] => rs' = rest
     | _ => inserted (u32 bid) marks rest rs' (if zlen t <=? SZ_HDR then zlen t else 0)
     end) /\
    brc_size s' <= BRC_MAXSIZE /\ zlen t' <= SZ_HDR /\
    s' = set_changed false (set_update true
           (set_store (brc_buf s') (brc_size s') (brc_alloc s') s)).
Proof. exact (insert_record_sim junk s rs t bid num l). Qed.

(** C17. When the entry fits, added to what is stored, in the 65536 bytes of the
    buffer, and the board's newest mark is later than the expiry time (or none is
    left), what [brc_insert_record] stores is what [brc_find_record] reads back,
    and every other board reads as before.  Otherwise the store is compacted or
    cut, and what remains of the other boards is
    [brc_insert_record_refines]. *)
Theorem brc_insert_then_find junk s rs t bid num l :
  repr s rs t -> NoDup (map fst rs) -> zlen t <= SZ_HDR ->
  0 <= num <= BRC_MAXNUM -> num <= zlen l -> Forall rec_ok l ->
  let marks := trim_marks (brc_expire_time s) (take (Z.to_nat num) l) in
  (forall r, head marks = Some r -> time4_gt (create r) (brc_expire_time s) = true) ->
  brc_size s + SZ_HDR + SZ_REC * num <= BRC_MAXSIZE ->
  exists s',
    brc_insert_record junk bid num l s = Some s' /\
    brc_find_record s' bid =
      Some (match marks with [] => (None, 0) | _ => (Some marks, zlen marks) end) /\
    forall other, u32 other <> u32 bid -> brc_find_record s' other = brc_find_record s other.
Proof.
  intros Hr Hnd Ht Hn Hl Hok marks Hhd Hroom.
  destruct (insert_record_sim junk s rs t bid num l) as (s' & rs' & t' & E & Hr' & Hins & _);
    auto; [mset; lia|]. exists s'. split; [done|]. fold marks in Hins. cbv zeta in Hins.
  replace (zlen t <=? SZ_HDR) with true in Hins by lia.
  assert (Hrs' : rs' = match marks with [] => [] | _ => [(u32 bid, marks)] end ++ remove_bid (u32 bid) rs).
  { destruct marks as [|r0 m] eqn:Em; [done|]. rewrite <- Em in *.
    destruct Hins as (m' & rs1 & k & -> & _ & _ & Hfit & _).
    destruct Hfit as [-> ->]; [|done]. unfold fits.
    pose proof (repr_size _ _ _ Hr). pose proof (remove_bid_zlen (u32 bid) rs).
    pose proof (trim_marks_zlen (brc_expire_time s) (take (Z.to_nat num) l)).
    fold marks in H1. rewrite zlen_take in H1. mset; lia. }
  rewrite !(find_record_sim _ _ _ _ Hr'), Hrs'. split.
  - destruct marks as [|r0 m]; cbn [app find_bid fst snd].
    + by rewrite remove_bid_find.
    + by rewrite Z.eqb_refl.
  - intros other Ho. rewrite (find_record_sim _ _ _ _ Hr'), (find_record_sim _ _ _ _ Hr), Hrs'.
    replace (find_bid (u32 other) (_ ++ _)) with (find_bid (u32 other) rs); [done|].
    rewrite <- (remove_bid_other (u32 bid)) by done.
    destruct marks; cbn [app find_bid fst snd]; [done|]. by replace (u32 bid =? u32 other) with false by lia.
Qed.

(** C16. A saved store loads back: the file [save_local_brc] puts in place,
    read by [load_local_brc] in another session, gives every board the marks
    it had. *)
Theorem brc_save_then_load junk s rs t s0 :
  repr s rs t -> brc_size s <= BRC_MAXSIZE ->
  brc_needs_file_update s = true -> brc_buf s <> None ->
  exists f s1 s2,
    save_local_brc true true s = (s1, true, Some f) /\
    load_local_brc junk (Some f) s0 = (s2, true) /\
    zlen f = brc_size s /\
    forall bid, brc_find_record s2 bid = brc_find_record s bid.
Proof.
  intros Hr Hsz Hu Hb. destruct (brc_buf s) as [b|] eqn:Eb; [clear Hb|done].
  destruct (load_sim junk s rs t s0 Hr Hsz) as (s2 & E & Hr2 & Hs2).
  unfold save_local_brc. rewrite Hu, Eb. cbn [negb].
  unfold blk in E. rewrite Eb in E. cbn [default] in E.
  eexists _, _, s2. split; [reflexivity|]. split; [exact E|]. split.
  - destruct Hr as ([post Hp] & Hs & _). unfold blk in Hp. rewrite Eb in Hp. cbn in Hp.
    unfold id in Hp. rewrite Hp. pose proof (zlen_nonneg t). zlia.
  - intros bid. by rewrite (find_record_sim _ _ _ _ Hr), (find_record_sim _ _ _ _ Hr2).
Qed.

(** [brc_unread_time]: an article not newer than the expiry is read; on a
    board without marks every newer one is unread; otherwise it is unread by
    its creation time (1) exactly when it is not marked and some mark is
    older, and else 2 only for a marked article modified since. *)
Theorem brc_unread_time_spec junk se file s rs t bid f m :
  repr s rs t -> marks_ok s -> brc_initialized s = true -> is_s32 f ->
  let l := board_view s rs bid in
  stamps_ok l -> desc l ->
  exists v, brc_unread_time junk se file bid f m s = Some (s, v) /\
    (time4_le f (brc_expire_time s) = true -> v = 0) /\
    (time4_le f (brc_expire_time s) = false ->
      (l = [] -> v = 1) /\
      (l <> [] -> (v = 1) <->
        ((f ∉ map create l) /\ exists r, r ∈ l /\ time4_gt f (create r) = true)) /\
      (v = 2 -> exists r, r ∈ l /\ create r = f /\ time4_gt m (modified r) = true)).
Proof.
  intros Hr Hm Hi Hf l Hok Hd. rewrite (unread_time_eq junk se file s rs t bid f m Hr Hm Hi).
  fold l. eexists. split; [reflexivity|].
  destruct (time4_le f (brc_expire_time s)); [done|]. split; [done|]. intros _.
  destruct l as [|r0 l']; [done|]. split_and!; [done| |].
  - intros _. by apply mark_status_unread.
  - by apply mark_status_modified.
Qed.

(** [brc_search_read]: the marked article nearest to [f], newer when
    [forward] and older otherwise; -1 when the board has no marks. *)
Theorem brc_search_read_spec junk se file s rs t bid f forward :
  repr s rs t -> marks_ok s -> brc_initialized s = true -> is_s32 f ->
  let l := board_view s rs bid in
  stamps_ok l -> desc l ->
  brc_search_read junk se file bid f forward s =
  Some (s,
    if bool_decide (l = [] \/ map create l = [1]) then (-1, None)
    else match (if forward then list.last (newer_than f l) else head (older_than f l)) with
         | Some r => (1, Some (create r))
         | None => (0, None)
         end).
Proof.
  intros Hr Hm Hi Hf l Hok Hd. rewrite (search_read_eq junk se file s rs t bid f forward Hr Hm Hi).
  fold l.
  assert (Hs : search_spec None l f forward =
    answer (if forward then list.last (newer_than f l) else head (older_than f l))).
  { destruct forward; [rewrite search_forward by done; by destruct (list.last _)|by apply search_backward]. }
  unfold answer in Hs. rewrite <- Hs. do 2 f_equal.
  destruct l as [|r [|r' l']]; [done| |rewrite bool_decide_eq_false_2; [done|by intros [|]]].
  destruct (Z.eqb_spec (create r) 1) as [E|E].
  - rewrite bool_decide_eq_true_2; [done|]. right. cbn. by rewrite E.
  - rewrite bool_decide_eq_false_2; [done|]. cbn. intros [|H]; [done|]. by injection H.
Qed.

(** C18. Marking an article of the current board, which is also the board of the
    marks (the code asserts it, and [initial_board_agrees] is how it comes
    about): after [brc_addlist] it is read ([brc_unread] answers 0), every other article that was read still is, and
    the marks stay strictly ordered within the array. *)
Theorem brc_addlist_reads junk se file fname mtime s rs t :
  repr s rs t -> marks_ok s -> brc_initialized s = true ->
  userlevel se <> 0 -> brc_currbid s <> 0 -> currbid se = brc_currbid s ->
  exists s',
    brc_addlist junk se file fname mtime s = Some s' /\ marks_ok s' /\
    brc_unread junk se file (brc_currbid s) fname mtime s' = Some (s', 0) /\
    forall g m, g <> get_fhdr_stamp_ts (Some fname) ->
      brc_unread_time junk se file (brc_currbid s) g m s = Some (s, 0) ->
      brc_unread_time junk se file (brc_currbid s) g m s' = Some (s', 0).
Proof.
  intros Hr Hm Hi Hu Hc Hcur.
  destruct (addlist_sim junk se file fname mtime s Hm Hi Hu Hcur) as (num & l & ch & E & Hl & Hn & Ha).
  set (f := BrcRec _ mtime) in *. set (s' := set_changed ch _) in E. exists s'. split; [done|].
  assert (Hf : is_s32 (create f)) by (unfold f, get_fhdr_stamp_ts; cbn; apply s32_range).
  destruct Hm as (Hml & Hmn & Hmo & Hmd).
  destruct (added_ok f _ Hf Hmo Hmd) as (Hao & Had & Hane).
  assert (Hm' : marks_ok s').
  { split_and!; [done|apply Hn|apply Hn| |]; cbn [s' set_changed set_curr brc_num brc_list];
      rewrite Ha; by destruct (time4_le _ _). }
  assert (Hr' : repr s' rs t) by (by destruct s).
  assert (Hi' : brc_initialized s' = true) by (by destruct s).
  assert (He : brc_expire_time s' = brc_expire_time s) by (by destruct s).
  assert (Hv : board_view s' rs (brc_currbid s) = active num l /\
    board_view s rs (brc_currbid s) = active (brc_num s) (brc_list s)).
  { unfold board_view. cbn [s' set_changed set_curr brc_currbid brc_num brc_list].
    rewrite Z.eqb_refl. by replace (brc_currbid s =? 0) with false by lia. }
  destruct Hv as [Hv' Hv]. split; [done|]. unfold brc_unread.
  split; [|intros g m Hg]; rewrite !(unread_time_eq junk se file s' rs t), ?He, ?Hv' by done.
  - rewrite Ha. change (get_fhdr_stamp_ts (Some fname)) with (create f).
    destruct (time4_le (create f) _); [done|].
    pose proof (added_read f mtime (active (brc_num s) (brc_list s)) eq_refl) as Hread.
    revert Hane Hread. destruct (added f _); congruence.
  - rewrite (unread_time_eq junk se file s rs t) by done. rewrite Hv, Ha.
    destruct (time4_le g _); [done|]. destruct (time4_le (create f) _); [intros H; congruence|].
    destruct (active (brc_num s) (brc_list s)) as [|r0 l0]; [done|].
    intros [= H]. pose proof (added_other f (r0 :: l0) g m ltac:(done)
      (fun E => Hg (eq_sym E)) Hmd H) as Hother.
    revert Hane Hother. destruct (added f _); congruence.
Qed.

(** The boundary of the expiry: a board whose newest mark was made exactly
    at the expiry time is neither dropped nor written.  [brc_insert_record]
    counts its 14 bytes as stored, and they are whatever [malloc] left. *)
Theorem brc_insert_at_expiry_writes_junk junk bid expire m :
  is_s32 expire ->
  exists s' b, brc_insert_record junk bid 1 [BrcRec expire m]
      (BrcState true expire true None 0 0 false 0 0 []) = Some s' /\
    brc_size s' = 14 /\ brc_needs_file_update s' = true /\ brc_buf s' = Some b /\
    take 14 b = map junk (seq 0 14).
Proof.
  intros _. unfold brc_insert_record.
  change (brc_findrecord_in _ _) with (Some (@None Z, 0)). cbn [mbind option_bind].
  change (Z.to_nat (u16 1)) with 1%nat. cbn [trim_expired lookup list_lookup mbind option_bind].
  change (brc_expire_time _) with expire. unfold time4_lt. cbn [create]. rewrite Z.ltb_irrefl.
  lazy -[time4_gt u32]. unfold time4_gt. rewrite Z.ltb_irrefl.
  eexists _, _. split; [reflexivity|]. by split_and!.
Qed.

(** *** Instances *)

Definition demo_junk : nat -> Z := fun _ => 165.
Definition demo_session : session := Session 1 1731536000 1731536000 2.
Definition demo_marks : list brc_rec :=
  [BrcRec 1700000500 1700000500; BrcRec 1700000100 1].
Definition demo_store : list entry := [(1, [BrcRec 1700000000 1700000000]); (2, demo_marks)].
Definition demo : brc_state :=
  BrcState true 1600000000 true (Some (store_bytes demo_store)) 36 36 true 2 2
    (demo_marks ++ replicate 78 (BrcRec 0 0)).
Definition demo_name : list Z := [77; 46; 49; 55; 48; 48; 48; 48; 48; 51; 48; 48; 46; 65; 46; 48; 48; 49].

Lemma demo_repr : repr demo demo_store [].
Proof.
  split_and!; [by exists []|done|done| |left; by vm_compute].
  repeat constructor; cbn; try lia; vm_compute; congruence.
Qed.

Lemma demo_marks_ok : marks_ok demo.
Proof.
  split_and!; [done|vm_compute; congruence|vm_compute; congruence| |].
  - repeat constructor; vm_compute; congruence.
  - by repeat constructor.
Qed.

Lemma brc_insert_record_refines_witness :
  exists s' rs' t',
    brc_insert_record demo_junk 7 1 [BrcRec 1700000900 5] demo = Some s' /\ repr s' rs' t' /\
    inserted 7 [BrcRec 1700000900 5] demo_store rs' 0.
Proof.
  destruct (brc_insert_record_refines demo_junk demo demo_store [] 7 1 [BrcRec 1700000900 5])
    as (s' & rs' & t' & E & Hr & Hi & _).
  - apply demo_repr.
  - left. by vm_compute.
  - by vm_compute.
  - by vm_compute.
  - by vm_compute.
  - repeat constructor; vm_compute; congruence.
  - intros r [= <-]. by vm_compute.
  - exists s', rs', t'. split; [exact E|]. split; [exact Hr|exact Hi].
Defined.

Lemma brc_insert_then_find_witness :
  exists s', brc_insert_record demo_junk 1 1 [BrcRec 1700000900 5] demo = Some s' /\
    brc_find_record s' 1 = Some (Some [BrcRec 1700000900 5], 1) /\
    brc_find_record s' 2 = brc_find_record demo 2.
Proof.
  destruct (brc_insert_then_find demo_junk demo demo_store [] 1 1 [BrcRec 1700000900 5])
    as (s' & E & Hf & Ho).
  - apply demo_repr.
  - apply (bool_decide_unpack _). by vm_compute.
  - by vm_compute.
  - by vm_compute.
  - by vm_compute.
  - repeat constructor; vm_compute; congruence.
  - intros r [= <-]. by vm_compute.
  - by vm_compute.
  - exists s'. split; [exact E|]. split; [exact Hf|]. apply Ho. by vm_compute.
Defined.

Lemma brc_save_then_load_witness :
  exists f s1 s2, save_local_brc true true demo = (s1, true, Some f) /\
    load_local_brc demo_junk (Some f) s1 = (s2, true) /\ zlen f = 36 /\
    brc_find_record s2 2 = Some (Some demo_marks, 2).
Proof.
  destruct (brc_save_then_load demo_junk demo demo_store [] (set_update false demo))
    as (f & s1 & s2 & E1 & E2 & E3 & H).
  - apply demo_repr.
  - by vm_compute.
  - reflexivity.
  - by vm_compute.
  - exists f, s1, s2. split; [exact E1|].
    assert (s1 = set_update false demo) as -> by (injection E1 as <- _; reflexivity).
    split; [exact E2|]. split; [exact E3|]. rewrite H. by vm_compute.
Defined.

Lemma brc_unread_time_spec_witness :
  exists v, brc_unread_time demo_junk demo_session None 2 1700000300 0 demo = Some (demo, v) /\
    v = 1.
Proof.
  destruct (brc_unread_time_spec demo_junk demo_session None demo demo_store [] 2 1700000300 0)
    as (v & E & _ & Hv).
  - apply demo_repr.
  - apply demo_marks_ok.
  - reflexivity.
  - by vm_compute.
  - repeat constructor; vm_compute; congruence.
  - by repeat constructor.
  - exists v. split; [exact E|]. destruct (Hv ltac:(by vm_compute)) as (_ & H & _).
    apply H; [by vm_compute|]. split; [apply (bool_decide_unpack _); by vm_compute|].
    exists (BrcRec 1700000100 1). split; [|by vm_compute]. apply (bool_decide_unpack _). by vm_compute.
Defined.

Lemma brc_search_read_spec_witness :
  brc_search_read demo_junk demo_session None 2 1700000300 true demo =
  Some (demo, (1, Some 1700000500)).
Proof.
  etransitivity.
  - apply (brc_search_read_spec demo_junk demo_session None demo demo_store [] 2 1700000300 true).
    + apply demo_repr.
    + apply demo_marks_ok.
    + reflexivity.
    + by vm_compute.
    + repeat constructor; vm_compute; congruence.
    + by repeat constructor.
  - by vm_compute.
Defined.

Lemma brc_addlist_reads_witness :
  exists s', brc_addlist demo_junk demo_session None demo_name 9 demo = Some s' /\
    brc_unread demo_junk demo_session None 2 demo_name 9 s' = Some (s', 0) /\
    brc_unread_time demo_junk demo_session None 2 1700000500 0 s' = Some (s', 0).
Proof.
  destruct (brc_addlist_reads demo_junk demo_session None demo_name 9 demo demo_store [])
    as (s' & E & _ & Hu & Ho).
  - apply demo_repr.
  - apply demo_marks_ok.
  - reflexivity.
  - by vm_compute.
  - by vm_compute.
  - reflexivity.
  - exists s'. split; [exact E|]. split; [exact Hu|]. apply Ho; by vm_compute.
Defined.

Lemma brc_insert_at_expiry_writes_junk_witness :
  exists s' b, brc_insert_record demo_junk 3 1 [BrcRec 1600000000 1]
      (BrcState true 1600000000 true None 0 0 false 0 0 []) = Some s' /\
    brc_buf s' = Some b /\ take 14 b = replicate 14 165.
Proof.
  destruct (brc_insert_at_expiry_writes_junk demo_junk 3 1600000000 1) as (s' & b & E & _ & _ & Hb & Ht).
  - by vm_compute.
  - exists s', b. split; [exact E|]. split; [exact Hb|]. rewrite Ht. reflexivity.
Defined.

End BrcProps.
