(* ===== verification/Vbuf.v ===== *)
(** The virtual ring buffer ([common/sys/vbuf.c], [include/cmsys.h]).

    A [VBUF] is a block of [capacity + 1] bytes with a read offset and a write
    offset; the one spare byte tells a full buffer from an empty one.  The
    pointers of the code are offsets into the block, [buf_end] is its length,
    and an access outside of the block, or a failed assertion, is [None]. *)

From S2P Require Import Prelude Cstr.
Import Cstr.

Module Vbuf.

Definition EOF : Z := -1.

Record VBUF := MkVbuf { buf : list Z; vhead : Z; vtail : Z; capacity : Z }.

Definition buf_end (v : VBUF) : Z := zlen (buf v).
Definition set_head (h : Z) (v : VBUF) : VBUF := MkVbuf (buf v) h (vtail v) (capacity v).
Definition set_tail (t : Z) (v : VBUF) : VBUF := MkVbuf (buf v) (vhead v) t (capacity v).
Definition set_bytes (b : list Z) (v : VBUF) : VBUF := MkVbuf b (vhead v) (vtail v) (capacity v).

Definition vbuf_size (v : VBUF) : Z :=
  if vhead v <=? vtail v then vtail v - vhead v else buf_end v - vhead v + vtail v.
Definition vbuf_capacity (v : VBUF) : Z := capacity v.
Definition vbuf_space (v : VBUF) : Z := u64 (capacity v - vbuf_size v).
Definition vbuf_is_full (v : VBUF) : bool := vbuf_space v =? 0.
Definition vbuf_is_empty (v : VBUF) : bool := vhead v =? vtail v.

(** *** Buffer management *)

(** [block] is what [malloc] returns, or the caller's buffer. *)
Definition vbuf_new (block : list Z) : option VBUF :=
  if 1 <? zlen block then Some (MkVbuf block 0 0 (zlen block - 1)) else None.
Definition vbuf_attach (v : VBUF) (block : list Z) : option VBUF :=
  if 1 <? zlen block then Some (MkVbuf block 0 0 (zlen block - 1)) else None.
Definition vbuf_delete (v : VBUF) : VBUF := MkVbuf [] 0 0 0.
Definition vbuf_detach (v : VBUF) : VBUF := MkVbuf [] 0 0 0.
Definition vbuf_clear (v : VBUF) : VBUF := MkVbuf (buf v) 0 0 (capacity v).

(** *** One byte *)

Definition vbuf_peek (v : VBUF) : option Z :=
  if vbuf_is_empty v then Some EOF else zget (buf v) (vhead v).

Definition vbuf_peekat (v : VBUF) (i : Z) : option Z :=
  let s := vhead v + i in
  if vbuf_is_empty v || (s32 (vbuf_capacity v) <=? i) then Some EOF else
  if s <? vtail v then zget (buf v) s else
  let s := if buf_end v <=? s then s - buf_end v else s in
  if s <? vtail v then zget (buf v) s else Some EOF.

Definition vbuf_normalize (v : VBUF) : VBUF :=
  if vhead v =? vtail v then MkVbuf (buf v) 0 0 (capacity v) else v.

Definition vbuf_pop (v : VBUF) : option (VBUF * Z) :=
  c ← vbuf_peek v;
  let v :=
    if 0 <=? c then
      let h := vhead v + 1 in set_head (if h =? buf_end v then 0 else h) v
    else v in
  Some (vbuf_normalize v, c).

Definition vbuf_popn (v : VBUF) (n : Z) : VBUF :=
  let h := vhead v + n in
  if h <? buf_end v then set_head h v else
  let h := h - buf_end v in
  let h := if vtail v <? h then vtail v else h in
  vbuf_normalize (set_head h v).

Definition vbuf_add (v : VBUF) (c : Z) : option (VBUF * bool) :=
  if vbuf_is_full v then Some (v, false) else
  b ← mem_write (buf v) (vtail v) [u8 c];
  let t := vtail v + 1 in
  Some (set_tail (if t =? buf_end v then 0 else t) (set_bytes b v), true).

(** [memchr]: the index of the first [ch]. *)
Fixpoint memchr (l : list Z) (ch : Z) : option Z :=
  match l with
  | [] => None
  | x :: l => if x =? ch then Some 0 else i ← memchr l ch; Some (i + 1)
  end.

Definition vbuf_strchr (v : VBUF) (c : Z) : option Z :=
  let ch := u8 c in
  if vbuf_is_empty v then Some EOF else
  let d := if vtail v <? vhead v then buf_end v else vtail v in
  seg ← mem_read (buf v) (vhead v) (d - vhead v);
  match memchr seg ch with
  | Some p => Some p
  | None =>
      if vhead v <? vtail v then Some EOF else
      seg ← mem_read (buf v) 0 (vtail v);
      match memchr seg ch with
      | Some p => Some (buf_end v - vhead v + p)
      | None => Some EOF
      end
  end.

(** *** Blocks *)

Definition VBUF_TAIL_SZ (v : VBUF) : Z :=
  if vhead v <=? vtail v then vtail v - vhead v else buf_end v - vhead v.
Definition VBUF_HEAD_SZ (v : VBUF) : Z :=
  if vtail v <? vhead v then vhead v - vtail v else buf_end v - vtail v.

(** [phases] is [2 - i]; the last component is what is copied out. *)
Fixpoint getblk_loop (phases : nat) (v : VBUF) (sz : Z) (out : list Z)
    : option (VBUF * Z * list Z) :=
  match phases with
  | O => Some (v, sz, out)
  | S phases =>
      if sz =? 0 then Some (v, sz, out) else
      let rw := VBUF_TAIL_SZ v in
      if capacity v + 1 <? rw then None else
      let rw := if sz <? rw then sz else rw in
      d ← mem_read (buf v) (vhead v) rw;
      let h := vhead v + rw in
      getblk_loop phases (set_head (if h =? buf_end v then 0 else h) v) (sz - rw) (out ++ d)
  end.

(** The bytes copied to [p], when the result is 1. *)
Definition vbuf_getblk (v : VBUF) (sz : Z) : option (VBUF * option (list Z)) :=
  if (sz =? 0) || (vbuf_size v <? sz) then Some (v, None) else
  '(v, sz, out) ← getblk_loop 2 v sz [];
  if sz =? 0 then Some (vbuf_normalize v, Some out) else None.

Fixpoint putblk_loop (phases : nat) (v : VBUF) (sz : Z) (s : list Z) : option (VBUF * Z) :=
  match phases with
  | O => Some (v, sz)
  | S phases =>
      if sz =? 0 then Some (v, sz) else
      let rw := VBUF_HEAD_SZ v in
      if capacity v + 1 <? rw then None else
      let rw := if sz <? rw then sz else rw in
      d ← mem_read s 0 rw;
      b ← mem_write (buf v) (vtail v) d;
      let t := vtail v + rw in
      putblk_loop phases (set_tail (if t =? buf_end v then 0 else t) (set_bytes b v))
        (sz - rw) (drop (Z.to_nat rw) s)
  end.

Definition vbuf_putblk (v : VBUF) (p : list Z) (sz : Z) : option (VBUF * bool) :=
  if (sz =? 0) || (vbuf_space v <? sz) then Some (v, false) else
  '(v, sz) ← putblk_loop 2 v sz p;
  if sz =? 0 then Some (v, true) else None.

(** *** Strings *)

(** The loop of [vbuf_getstr], with the bytes written so far and [n] the value
    of [sz]; the result is [inl] at the return inside the loop, [inr] with the
    final [sz] after it. *)
Fixpoint getstr_loop (n : nat) (v : VBUF) (s : list Z)
    : option (VBUF * (list Z + Z * list Z)) :=
  match n with
  | O => Some (v, inr (u64 (-1), s))
  | S n =>
      if vbuf_is_empty v then Some (v, inr (Z.of_nat n, s)) else
      '(v, c) ← vbuf_pop v;
      let s := s ++ [c] in
      if c =? 0 then Some (v, inl s) else getstr_loop n v s
  end.

(** The bytes of [s] on return, [None] inside for the null pointer. *)
Definition vbuf_getstr (v : VBUF) (sz : Z) : option (VBUF * option (list Z)) :=
  if sz <=? 0 then None else
  if vbuf_is_empty v then Some (v, None) else
  '(v, r) ← getstr_loop (Z.to_nat sz) v [];
  match r with
  | inl s => Some (v, Some s)
  | inr (sz, s) =>
      if sz =? 0 then Some (v, Some (s ++ [0]))
      else s ← mem_write s (zlen s - 1) [0]; Some (v, Some s)
  end.

(** [s] is the string without its NUL. *)
Definition vbuf_putstr (v : VBUF) (s : list Z) : option (VBUF * bool) :=
  let len := zlen s in
  if vbuf_space v <? len then Some (v, false) else
  '(v, _) ← vbuf_putblk v s len;
  Some (v, true).

Fixpoint reverse_loop (fuel : nat) (b : list Z) (p q : Z) : option (list Z) :=
  match fuel with
  | O => if p <? q then None else Some b
  | S fuel =>
      if p <? q then
        let q := q - 1 in
        c ← zget b q;
        x ← zget b p;
        b ← mem_write b q [x];
        b ← mem_write b p [c];
        reverse_loop fuel b (p + 1) q
      else Some b
  end.
Definition vbuf_reverse (b : list Z) (p q : Z) : option (list Z) :=
  if q <? p then None else reverse_loop (length b) b p q.

Definition vbuf_flat_inplace (v : VBUF) : option VBUF :=
  if vhead v <=? vtail v then Some v else
  let sz := vbuf_size v in
  b ← vbuf_reverse (buf v) 0 (vtail v);
  b ← vbuf_reverse b (vhead v) (buf_end v);
  b ← mem_move b (vtail v) (vhead v) (buf_end v - vhead v);
  b ← vbuf_reverse b 0 sz;
  Some (MkVbuf b 0 sz (capacity v)).

Definition FLAT_TMP : Z := 128.

(** Step 2 of [vbuf_flat]. *)
Fixpoint flat_loop (fuel : nat) (b : list Z) (len_a len_b processed : Z) : option (list Z) :=
  match fuel with
  | O => None
  | S fuel =>
      if processed <? len_b then
        let chunk := Z.min FLAT_TMP (len_b - processed) in
        tmp ← mem_read b processed chunk;
        b ← mem_move b processed (processed + chunk) len_a;
        b ← mem_write b (processed + len_a) tmp;
        flat_loop fuel b len_a len_b (processed + chunk)
      else Some b
  end.

Definition vbuf_flat (v : VBUF) : option VBUF :=
  if vhead v <=? vtail v then Some v else
  let len_b := vtail v in
  let len_a := buf_end v - vhead v in
  b ← mem_move (buf v) len_b (vhead v) len_a;
  b ← flat_loop (S (Z.to_nat len_b)) b len_a len_b 0;
  Some (MkVbuf b 0 (len_a + len_b) (capacity v)).

Definition VBUF_FLAT_INPLACE : bool := false.

(** The offset of the string in the block; [None] for the null pointer. *)
Definition vbuf_cstr (v : VBUF) : option (VBUF * option Z) :=
  if vbuf_is_empty v then Some (v, None) else
  v ← (if VBUF_FLAT_INPLACE then vbuf_flat_inplace v else vbuf_flat v);
  b ← mem_write (buf v) (vtail v) [0];
  Some (set_bytes b v, Some (vhead v)).

(** *** Reading and writing file descriptors *)

Definition VBUF_RWSZ_ALL : Z := 0.
Definition VBUF_RWSZ_MIN : Z := -1.
Definition EINTR : Z := 4.
Definition EAGAIN : Z := 11.

(** while ((ret = call()) < 0 && errno == EINTR); the callback then makes of
    [ret] 0 (try again), -1 (end or error) or a count.  A system call gives
    its result and [errno]; [St] is the state of the outside world. *)
Section Callbacks.
Context {St : Type}.

Fixpoint rw_retry {R} (fuel : nat) (call : St -> St * (Z * Z * R)) (w : St)
    : option (St * Z * R) :=
  match fuel with
  | O => None
  | S fuel =>
      let '(w, (ret, errno, d)) := call w in
      if (ret <? 0) && (errno =? EINTR) then rw_retry fuel call w
      else Some (w, if ret <=? 0 then (if errno =? EAGAIN then 0 else -1) else ret, d)
  end.

(** [writev] and [send] are given the bytes of the vectors. *)
Definition vbuf_rw_write (fuel : nat) (writev : list (list Z) -> St -> St * (Z * Z * unit))
    (w : St) (iov0 iov1 : list Z) : option (St * Z) :=
  '(w, ret, _) ← rw_retry fuel (writev (if zlen iov1 =? 0 then [iov0] else [iov0; iov1])) w;
  Some (w, ret).
Definition vbuf_rw_send (fuel : nat) (send : list Z -> St -> St * (Z * Z * unit))
    (w : St) (iov0 iov1 : list Z) : option (St * Z) :=
  '(w, ret, _) ← rw_retry fuel (send iov0) w; Some (w, ret).

(** [readv] and [recv] are given the room and return the bytes. *)
Definition vbuf_rw_read (fuel : nat) (readv : list Z -> St -> St * (Z * Z * list Z))
    (w : St) (n0 n1 : Z) : option (St * Z * list Z) :=
  rw_retry fuel (readv (if n1 =? 0 then [n0] else [n0; n1])) w.
Definition vbuf_rw_recv (fuel : nat) (recv : Z -> St -> St * (Z * Z * list Z))
    (w : St) (n0 n1 : Z) : option (St * Z * list Z) :=
  rw_retry fuel (recv n0) w.

(** The do-while loop of [vbuf_general_write]; [copied] is as the code keeps it. *)
Fixpoint general_write_loop (fuel : nat) (writer : St -> list Z -> list Z -> option (St * Z))
    (is_min : bool) (copied : Z) (w : St) (v : VBUF) (sz : Z) : option (St * VBUF * Z) :=
  match fuel with
  | O => None
  | S fuel =>
      let rw := VBUF_TAIL_SZ v in
      let rw := if sz <? rw then sz else rw in
      iov0 ← mem_read (buf v) (vhead v) rw;
      iov1 ← mem_read (buf v) 0 (sz - rw);
      '(w, rw) ← writer w iov0 iov1;
      if rw <? 0 then Some (w, v, if 0 <? copied then copied else -1) else
      if sz <? rw then None else
      let h := vhead v + rw in
      let v := set_head (if buf_end v <=? h then h - buf_end v else h) v in
      let sz := sz - rw in
      if (0 <? sz) && negb is_min then general_write_loop fuel writer is_min copied w v sz
      else Some (w, v, copied)
  end.

Definition vbuf_general_write (fuel : nat) (v : VBUF) (sz : Z) (w : St)
    (writer : St -> list Z -> list Z -> option (St * Z)) : option (St * VBUF * Z) :=
  let is_min := negb (sz =? VBUF_RWSZ_ALL) && (sz =? VBUF_RWSZ_MIN) in
  let sz := if sz =? VBUF_RWSZ_ALL then vbuf_size v
            else if sz =? VBUF_RWSZ_MIN then vbuf_size v else sz in
  if (sz <? 1) || (vbuf_size v <? sz) then Some (w, v, 0)
  else general_write_loop fuel writer is_min 0 w v sz.

(** What [readv] does with [d]: the first vector is filled first. *)
Definition scatter (b : list Z) (off0 n0 : Z) (d : list Z) : option (list Z) :=
  b ← mem_write b off0 (take (Z.to_nat n0) d);
  mem_write b 0 (drop (Z.to_nat n0) d).

Fixpoint general_read_loop (fuel : nat) (reader : St -> Z -> Z -> option (St * Z * list Z))
    (is_min : bool) (copied : Z) (w : St) (v : VBUF) (sz : Z) : option (St * VBUF * Z) :=
  match fuel with
  | O => None
  | S fuel =>
      let n0 := VBUF_HEAD_SZ v in
      let n0 := if sz <? n0 then sz else n0 in
      '(w, rw, d) ← reader w n0 (sz - n0);
      if rw <? 0 then Some (w, v, if 0 <? copied then copied else -1) else
      if sz <? rw then None else
      b ← scatter (buf v) (vtail v) n0 (take (Z.to_nat rw) d);
      let t := vtail v + rw in
      let v := set_tail (if buf_end v <=? t then t - buf_end v else t) (set_bytes b v) in
      let sz := sz - rw in
      if (0 <? sz) && negb is_min then general_read_loop fuel reader is_min copied w v sz
      else Some (w, v, copied)
  end.

Definition vbuf_general_read (fuel : nat) (v : VBUF) (sz : Z) (w : St)
    (reader : St -> Z -> Z -> option (St * Z * list Z)) : option (St * VBUF * Z) :=
  let is_min := negb (sz =? VBUF_RWSZ_ALL) && (sz =? VBUF_RWSZ_MIN) in
  let sz := if sz =? VBUF_RWSZ_ALL then vbuf_space v
            else if sz =? VBUF_RWSZ_MIN then vbuf_space v else sz in
  if (sz <? 1) || (vbuf_space v <? sz) then Some (w, v, 0)
  else general_read_loop fuel reader is_min 0 w v sz.

Definition vbuf_read (fuel : nat) (v : VBUF) (sz : Z) (w : St)
    (readv : list Z -> St -> St * (Z * Z * list Z)) :=
  vbuf_general_read fuel v sz w (vbuf_rw_read fuel readv).
Definition vbuf_write (fuel : nat) (v : VBUF) (sz : Z) (w : St)
    (writev : list (list Z) -> St -> St * (Z * Z * unit)) :=
  vbuf_general_write fuel v sz w (vbuf_rw_write fuel writev).
Definition vbuf_recv (fuel : nat) (v : VBUF) (sz : Z) (w : St)
    (recv : Z -> St -> St * (Z * Z * list Z)) :=
  vbuf_general_read fuel v sz w (vbuf_rw_recv fuel recv).
Definition vbuf_send (fuel : nat) (v : VBUF) (sz : Z) (w : St)
    (send : list Z -> St -> St * (Z * Z * unit)) :=
  vbuf_general_write fuel v sz w (vbuf_rw_send fuel send).
End Callbacks.

(** The filters rewrite the buffer in place and return its new length. *)
Fixpoint run_filters (filters : list (list Z -> Z -> list Z * Z)) (b : list Z) (len : Z)
    : list Z * Z :=
  match filters with
  | [] => (b, len)
  | f :: filters =>
      if 0 <? len then let '(b, len) := f b len in run_filters filters b len else (b, len)
  end.

(** [sink] is [None] for the null pointer. *)
Definition vbuf_pipeline (v : VBUF) (b : list Z) (len : Z)
    (filters : list (list Z -> Z -> list Z * Z))
    (sink : option (VBUF -> list Z -> Z -> option (VBUF * Z))) : option (VBUF * Z) :=
  let '(b, len) := run_filters filters b len in
  if len <=? 0 then Some (v, len) else
  match sink with
  | Some sink => sink v b len
  | None => '(v, ok) ← vbuf_putblk v b len; Some (v, if ok : bool then 1 else 0)
  end.

End Vbuf.
