(* ===== verification/VbufFacts.v ===== *)
(** The ring buffer refines a bounded queue of bytes. *)

From S2P Require Import Prelude Cstr Vbuf.
Import Cstr Vbuf.

Module VbufFacts.

(** *** The abstract value *)

(** [vrep v q]: the bytes [q] are stored from [vhead], around the end of the
    block if they must, and end just before [vtail]. *)
Definition vwf (v : VBUF) : Prop :=
  capacity v = zlen (buf v) - 1 /\ 1 <= capacity v < 2 ^ 31 /\ Forall is_u8 (buf v).

Inductive layout (v : VBUF) (q : list Z) : Prop :=
| layout_flat a b :
    buf v = a ++ q ++ b -> vhead v = zlen a -> vtail v = zlen a + zlen q -> b <> [] -> layout v q
| layout_wrap c2 g c1 :
    buf v = c2 ++ g ++ c1 -> vtail v = zlen c2 -> vhead v = zlen c2 + zlen g ->
    g <> [] -> c1 <> [] -> q = c1 ++ c2 -> layout v q.

Definition vrep (v : VBUF) (q : list Z) : Prop := vwf v /\ layout v q.

Lemma nonempty_zlen {A} (l : list A) : l <> [] <-> 0 < zlen l.
Proof. unfold zlen. destruct l; cbn [length]; split; done || lia. Qed.

Lemma vrep_size v q : vrep v q -> vbuf_size v = zlen q.
Proof.
  intros [(Hc & _) [a b Hb Hh Ht Hne|c2 g c1 Hb Ht Hh Hg Hc1 ->]]; unfold vbuf_size, buf_end;
    rewrite Hb, Hh, Ht; [if_true; lia|]. apply nonempty_zlen in Hg. if_false. zlia.
Qed.

Lemma vrep_max v q : vrep v q -> zlen q <= capacity v.
Proof.
  intros [(Hc & _) [a b Hb Hh Ht Hne|c2 g c1 Hb Ht Hh Hg Hc1 ->]]; rewrite Hc, Hb;
    [apply nonempty_zlen in Hne|apply nonempty_zlen in Hg]; zlia.
Qed.

Lemma vrep_space v q : vrep v q -> vbuf_space v = capacity v - zlen q.
Proof.
  intros Hr. pose proof (vrep_max v q Hr). unfold vbuf_space. rewrite (vrep_size v q Hr).
  destruct Hr as [(_ & ? & _) _]. pose proof (zlen_nonneg q). apply Z.mod_small; lia.
Qed.

Lemma vrep_empty v q : vrep v q -> vbuf_is_empty v = (zlen q =? 0).
Proof.
  intros [_ [a b Hb Hh Ht Hne|c2 g c1 Hb Ht Hh Hg Hc1 ->]]; unfold vbuf_is_empty;
    rewrite Hh, Ht; [lia|]. apply nonempty_zlen in Hg, Hc1. zlia.
Qed.

Lemma vrep_bytes v q : vrep v q -> Forall is_u8 q.
Proof.
  intros [(_ & _ & Hu) [a b Hb Hh Ht Hne|c2 g c1 Hb Ht Hh Hg Hc1 ->]]; rewrite Hb in Hu;
    rewrite ?list.Forall_app in *; tauto.
Qed.

Lemma flat_intro v a q b :
  vwf v -> buf v = a ++ q ++ b -> vhead v = zlen a -> vtail v = zlen a + zlen q ->
  0 < zlen b -> vrep v q.
Proof. intros. split; [done|]. eapply layout_flat; eauto. by apply nonempty_zlen. Qed.

Lemma wrap_intro v c2 g c1 q :
  vwf v -> buf v = c2 ++ g ++ c1 -> vtail v = zlen c2 -> vhead v = zlen c2 + zlen g ->
  0 < zlen g -> 0 < zlen c1 -> q = c1 ++ c2 -> vrep v q.
Proof. intros. split; [done|]. eapply layout_wrap; eauto; by apply nonempty_zlen. Qed.

(** *** Moving the read end *)

Definition step_head (n : Z) (v : VBUF) : VBUF :=
  set_head (if vhead v + n =? buf_end v then 0 else vhead v + n) v.

Lemma advance_head v q n :
  vrep v q -> 0 <= n <= VBUF_TAIL_SZ v ->
  mem_read (buf v) (vhead v) n = Some (take (Z.to_nat n) q) /\
  vrep (step_head n v) (drop (Z.to_nat n) q) /\
  (n = VBUF_TAIL_SZ v -> VBUF_TAIL_SZ (step_head n v) = zlen (drop (Z.to_nat n) q)).
Proof.
  intros [Hw [a b Hb Hh Ht Hne|c2 g c1 Hb Ht Hh Hg Hc1 ->]] Hn; pose proof Hw as (Hcap & _);
    unfold VBUF_TAIL_SZ, step_head, buf_end in *; rewrite Hb, Hh, Ht in *.
  - apply nonempty_zlen in Hne. destruct (Z.leb_spec (zlen a) (zlen a + zlen q)); [|zlia].
    set (x := take (Z.to_nat n) q). set (y := drop (Z.to_nat n) q).
    assert (Hx : zlen x = n) by (unfold x; zlia).
    assert (Hy : zlen y = zlen q - n) by (unfold y; zlia).
    assert (Hq : q = x ++ y) by (unfold x, y; by rewrite take_drop).
    replace (_ =? _) with false by (rewrite !zlen_app; lia). split_and!.
    + rewrite Hq, <- app_assoc. apply mem_read_app; lia.
    + apply (flat_intro _ (a ++ x) y b); cbn; auto; try zlia. rewrite Hb, Hq. by rewrite <- !app_assoc.
    + cbn. rewrite Ht. intros ->. if_true. lia.
  - apply nonempty_zlen in Hg, Hc1.
    destruct (Z.leb_spec (zlen c2 + zlen g) (zlen c2)); [lia|].
    set (x := take (Z.to_nat n) c1). set (y := drop (Z.to_nat n) c1). rewrite !zlen_app in *.
    assert (Hx : zlen x = n) by (unfold x; zlia).
    assert (Hy : zlen y = zlen c1 - n) by (unfold y; zlia).
    assert (Hq : c1 = x ++ y) by (unfold x, y; by rewrite take_drop).
    rewrite take_app_le, drop_app_le by (unfold zlen in *; lia). fold x y.
    split; [|split].
    + rewrite Hq. rewrite app_assoc. apply mem_read_app; zlia.
    + destruct (Z.eqb_spec (zlen c2 + zlen g + n) (zlen c2 + (zlen g + zlen c1))).
      * rewrite (zlen_zero y) by lia.
        apply (flat_intro _ [] c2 (g ++ c1)); cbn; auto. zlia.
      * apply (wrap_intro _ c2 (g ++ x) y); cbn; auto; try zlia. rewrite Hb, Hq. by rewrite <- !app_assoc.
    + cbn. rewrite Ht. intros ->. replace (_ =? _) with true by lia.
      replace (0 <=? zlen c2) with true by zlia. zlia.
Qed.

(** *** Moving the write end *)

Definition step_tail (n : Z) (b : list Z) (v : VBUF) : VBUF :=
  set_tail (if vtail v + n =? buf_end v then 0 else vtail v + n) (set_bytes b v).

Lemma vwf_set v h t b :
  vwf v -> zlen b = zlen (buf v) -> Forall is_u8 b -> vwf (MkVbuf b h t (capacity v)).
Proof. intros (? & ? & ?) ??. split_and!; cbn; auto; lia. Qed.

Lemma advance_tail v q d :
  vrep v q -> zlen d <= VBUF_HEAD_SZ v -> zlen q + zlen d <= capacity v -> Forall is_u8 d ->
  exists b, mem_write (buf v) (vtail v) d = Some b /\
    vrep (step_tail (zlen d) b v) (q ++ d) /\
    (zlen d = VBUF_HEAD_SZ v ->
     capacity v - zlen (q ++ d) <= VBUF_HEAD_SZ (step_tail (zlen d) b v)).
Proof.
  intros [Hw [a b Hb Hh Ht Hne|c2 g c1 Hb Ht Hh Hg Hc1 ->]] Hn Hcap Hd;
    pose proof Hw as (Hc & Hc1' & Hu);
    unfold VBUF_HEAD_SZ, step_tail, buf_end in *; rewrite Hb, Hh, Ht in *;
    rewrite !list.Forall_app in Hu.
  - apply nonempty_zlen in Hne. pose proof (zlen_nonneg q).
    destruct (Z.ltb_spec (zlen a + zlen q) (zlen a)); [lia|]. rewrite !zlen_app in *.
    set (x := take (length d) b). set (y := drop (length d) b).
    assert (Hx : zlen x = zlen d) by (unfold x, zlen in *; rewrite length_take; lia).
    assert (Hy : zlen y = zlen b - zlen d) by (unfold y, zlen in *; rewrite length_drop; lia).
    assert (Hq : b = x ++ y) by (unfold x, y; by rewrite take_drop).
    exists ((a ++ q) ++ d ++ y). split; [|split].
    + rewrite Hq, app_assoc. apply mem_write_app; [zlia|done].
    + assert (Hb' : Forall is_u8 ((a ++ q) ++ d ++ y)).
      { rewrite Hq in Hu. rewrite !list.Forall_app in *. tauto. }
      destruct (Z.eqb_spec (zlen a + zlen q + zlen d) (zlen a + (zlen q + zlen b))).
      * rewrite (zlen_zero y) by lia. apply (wrap_intro _ [] a (q ++ d)); cbn; rewrite ?app_nil_r; auto.
        { apply (vwf_set v); [done|cbn; rewrite Hb; zlia|]; cbn. rewrite (zlen_zero y) in Hb' by lia. by rewrite app_nil_r in Hb'. }
        { by rewrite app_assoc. } { lia. } { zlia. }
      * apply (flat_intro _ a (q ++ d) y); cbn; auto; try zlia; [|by rewrite <- !app_assoc].
        apply (vwf_set v); [done|cbn; rewrite Hb; zlia|done].
    + cbn. intros Hfull. replace (_ =? _) with true by lia. rewrite Hh.
      destruct (Z.ltb_spec 0 (zlen a)); zlia.
  - apply nonempty_zlen in Hg, Hc1.
    destruct (Z.ltb_spec (zlen c2) (zlen c2 + zlen g)); [|lia]. rewrite !zlen_app in *.
    set (x := take (length d) g). set (y := drop (length d) g).
    assert (Hx : zlen x = zlen d) by (unfold x, zlen in *; rewrite length_take; lia).
    assert (Hy : zlen y = zlen g - zlen d) by (unfold y, zlen in *; rewrite length_drop; lia).
    assert (Hq : g = x ++ y) by (unfold x, y; by rewrite take_drop).
    replace (_ =? _) with false by zlia.
    exists (c2 ++ d ++ y ++ c1). split; [|split].
    + rewrite Hq, <- app_assoc. by apply mem_write_app.
    + apply (wrap_intro _ (c2 ++ d) y c1); cbn; auto; try zlia; try by rewrite <- !app_assoc.
      apply (vwf_set v); [done|cbn; rewrite Hb; zlia|]; cbn. rewrite Hq in Hu. rewrite !list.Forall_app in *. tauto.
    + lia.
Qed.

Lemma vrep_normalize v q : vrep v q -> vrep (vbuf_normalize v) q.
Proof.
  intros Hr. unfold vbuf_normalize. destruct (Z.eqb_spec (vhead v) (vtail v)) as [E|]; [|done].
  pose proof (vrep_empty v q Hr) as Hz. unfold vbuf_is_empty in Hz. rewrite E, Z.eqb_refl in Hz.
  rewrite (zlen_zero q) by lia. destruct Hr as [Hw _].
  apply (flat_intro _ [] [] (buf v)); cbn; auto. destruct Hw as (? & ? & _). lia.
Qed.

Lemma vrep_tail_sz v q : vrep v q -> 0 <= VBUF_TAIL_SZ v <= zlen q /\
  (0 < zlen q -> 0 < VBUF_TAIL_SZ v) /\ VBUF_TAIL_SZ v <= capacity v + 1.
Proof.
  intros Hr. pose proof (vrep_max v q Hr). revert Hr.
  intros [(Hc & _) [a b Hb Hh Ht Hne|c2 g c1 Hb Ht Hh Hg Hc1 ->]]; unfold VBUF_TAIL_SZ, buf_end;
    rewrite Hb, Hh, Ht.
  - pose proof (zlen_nonneg q). if_true. lia.
  - apply nonempty_zlen in Hg, Hc1. if_false. zlia.
Qed.

Lemma vrep_head_sz v q : vrep v q -> 0 < VBUF_HEAD_SZ v <= capacity v + 1.
Proof.
  intros [(Hc & _) [a b Hb Hh Ht Hne|c2 g c1 Hb Ht Hh Hg Hc1 ->]]; unfold VBUF_HEAD_SZ, buf_end;
    rewrite Hc, Hb, Hh, Ht.
  - apply nonempty_zlen in Hne. pose proof (zlen_nonneg q). if_false. zlia.
  - apply nonempty_zlen in Hg, Hc1. if_true. zlia.
Qed.

(** *** The operations on the queue *)

Lemma mem_read_one {A} (l : list A) i x : mem_read l i 1 = Some [x] -> zget l i = Some x.
Proof.
  unfold mem_read, zget. destruct (_ && _) eqn:E; [|done]. zbool. replace (0 <=? i) with true by lia.
  change (Z.to_nat 1) with 1%nat. intros [= Hx]. rewrite <- (Nat.add_0_r (Z.to_nat i)), <- lookup_drop.
  revert Hx. destruct (drop (Z.to_nat i) l); [done|]. by intros [= ->].
Qed.

Lemma mem_read_take {A} (l : list A) n :
  0 <= n <= zlen l -> mem_read l 0 n = Some (take (Z.to_nat n) l).
Proof. intros. unfold mem_read. if_true. done. Qed.

Lemma take_add {A} (n m : nat) (l : list A) : take (n + m) l = take n l ++ take m (drop n l).
Proof.
  revert l. induction n as [|n IH]; intros [|x l]; [done|done| |cbn; by rewrite IH].
  by rewrite !take_nil, drop_nil, take_nil.
Qed.

Lemma take_drop_step {A} (l : list A) a b :
  0 <= a -> 0 <= b ->
  take (Z.to_nat a) l ++ take (Z.to_nat b) (drop (Z.to_nat a) l) = take (Z.to_nat (a + b)) l.
Proof. intros. rewrite <- take_add. f_equal. lia. Qed.

Lemma drop_drop_step {A} (l : list A) a b :
  0 <= a -> 0 <= b -> drop (Z.to_nat b) (drop (Z.to_nat a) l) = drop (Z.to_nat (a + b)) l.
Proof. intros. rewrite drop_drop. f_equal. lia. Qed.

Lemma peek_spec v q : vrep v q -> vbuf_peek v = Some (hd EOF q).
Proof.
  intros Hr. unfold vbuf_peek. rewrite (vrep_empty v q Hr). destruct q as [|x q]; [done|].
  replace (_ =? 0) with false by zlia.
  destruct (vrep_tail_sz v _ Hr) as (_ & Hpos & _). specialize (Hpos ltac:(zlia)).
  destruct (advance_head v _ 1 Hr ltac:(lia)) as (Hm & _). by apply mem_read_one.
Qed.

Lemma pop_spec v q :
  vrep v q -> exists v', vbuf_pop v = Some (v', hd EOF q) /\ vrep v' (tl q).
Proof.
  intros Hr. unfold vbuf_pop. rewrite (peek_spec v q Hr). cbn [mbind option_bind].
  eexists. split; [reflexivity|]. apply vrep_normalize. pose proof (vrep_bytes v q Hr) as Hu.
  destruct q as [|x q]; cbn [hd tl]; [by unfold EOF|].
  apply list.Forall_cons_1 in Hu as [Hx _]. unfold is_u8 in Hx.
  replace (0 <=? x) with true by lia.
  destruct (vrep_tail_sz v _ Hr) as (_ & Hpos & _). specialize (Hpos ltac:(zlia)).
  by destruct (advance_head v _ 1 Hr ltac:(lia)) as (_ & Hr' & _).
Qed.

Lemma u8_range c : is_u8 (u8 c).
Proof. apply Z.mod_pos_bound. lia. Qed.

Lemma add_spec v q c :
  vrep v q ->
  exists v', vbuf_add v c = Some (v', zlen q <? capacity v) /\
    vrep v' (if zlen q <? capacity v then q ++ [u8 c] else q) /\ capacity v' = capacity v.
Proof.
  intros Hr. unfold vbuf_add, vbuf_is_full. rewrite (vrep_space v q Hr).
  pose proof (vrep_max v q Hr). destruct (Z.ltb_spec (zlen q) (capacity v)).
  - replace (_ =? 0) with false by lia. pose proof (vrep_head_sz v q Hr).
    destruct (advance_tail v q [u8 c] Hr) as (b & -> & Hr' & _).
    { cbn. unfold zlen. cbn. lia. } { unfold zlen in *. cbn. lia. }
    { constructor; [apply u8_range|constructor]. }
    cbn [mbind option_bind]. eexists. split; [reflexivity|]. by split.
  - replace (_ =? 0) with true by lia. by exists v.
Qed.

Lemma getblk_spec v q sz :
  vrep v q -> 0 <= sz ->
  let ok := (0 <? sz) && (sz <=? zlen q) in
  exists v', vbuf_getblk v sz =
      Some (v', if ok then Some (take (Z.to_nat sz) q) else None) /\
    vrep v' (if ok then drop (Z.to_nat sz) q else q) /\ capacity v' = capacity v.
Proof.
  intros Hr Hsz ok. unfold vbuf_getblk. rewrite (vrep_size v q Hr). unfold ok.
  destruct (Z.eqb_spec sz 0) as [->|Hnz]; cbn [orb]; [by exists v|].
  replace (0 <? sz) with true by lia. cbn [andb].
  destruct (Z.ltb_spec (zlen q) sz); [replace (sz <=? zlen q) with false by lia; by exists v|].
  replace (sz <=? zlen q) with true by lia. cbn [getblk_loop].
  replace (sz =? 0) with false by lia.
  pose proof (vrep_tail_sz v q Hr) as (Ht & _ & Hm). if_false.
  set (rw := if sz <? VBUF_TAIL_SZ v then sz else VBUF_TAIL_SZ v).
  assert (Hrw : 0 <= rw <= VBUF_TAIL_SZ v /\ rw <= sz /\ (rw < sz -> rw = VBUF_TAIL_SZ v))
    by (unfold rw; split_ifs; lia).
  destruct (advance_head v q rw Hr ltac:(lia)) as (-> & Hr1 & Hfull).
  cbn [mbind option_bind app]. fold (step_head rw v).
  destruct (Z.eqb_spec (sz - rw) 0) as [E|E]; cbn [mbind option_bind].
  - replace (sz - rw =? 0) with true by lia. eexists. split; [|split].
    + replace rw with sz by lia. reflexivity.
    + replace rw with sz by lia. apply vrep_normalize.
      replace sz with rw by lia. exact Hr1.
    + unfold vbuf_normalize, step_head. by destruct (_ =? _).
  - set (v1 := step_head rw v) in *. specialize (Hfull ltac:(lia)).
    pose proof (vrep_tail_sz v1 _ Hr1) as (Ht1 & _ & Hm1). if_false.
    rewrite Hfull. rewrite zlen_drop in *.
    set (rw1 := if sz - rw <? _ then _ else _).
    assert (rw1 = sz - rw) as -> by (unfold rw1; split_ifs; lia).
    destruct (advance_head v1 _ (sz - rw) Hr1 ltac:(rewrite Hfull; lia)) as (-> & Hr2 & _).
    cbn [mbind option_bind]. fold (step_head (sz - rw) v1).
    replace (sz - rw - (sz - rw) =? 0) with true by lia. rewrite take_drop_step by lia.
    rewrite drop_drop_step in Hr2 by lia. replace (rw + (sz - rw)) with sz in * by lia.
    eexists. split; [reflexivity|]. split; [by apply vrep_normalize|].
    unfold vbuf_normalize, v1, step_head. by destruct (_ =? _).
Qed.

Lemma putblk_spec v q p sz :
  vrep v q -> 0 <= sz <= zlen p -> Forall is_u8 p ->
  let ok := (0 <? sz) && (zlen q + sz <=? capacity v) in
  exists v', vbuf_putblk v p sz = Some (v', ok) /\
    vrep v' (if ok then q ++ take (Z.to_nat sz) p else q) /\ capacity v' = capacity v.
Proof.
  intros Hr Hsz Hp ok. unfold vbuf_putblk. rewrite (vrep_space v q Hr). unfold ok.
  destruct (Z.eqb_spec sz 0) as [->|Hnz]; cbn [orb]; [by exists v|].
  replace (0 <? sz) with true by lia. cbn [andb].
  destruct (Z.ltb_spec (capacity v - zlen q) sz);
    [replace (zlen q + sz <=? capacity v) with false by lia; by exists v|].
  replace (zlen q + sz <=? capacity v) with true by lia. cbn [putblk_loop].
  replace (sz =? 0) with false by lia. pose proof (vrep_head_sz v q Hr). if_false.
  set (rw := if sz <? VBUF_HEAD_SZ v then sz else VBUF_HEAD_SZ v).
  assert (Hrw : 0 <= rw <= VBUF_HEAD_SZ v /\ rw <= sz /\ (rw < sz -> rw = VBUF_HEAD_SZ v))
    by (unfold rw; split_ifs; lia).
  rewrite (mem_read_take p rw) by lia.
  set (d := take (Z.to_nat rw) p). set (p1 := drop (Z.to_nat rw) p).
  assert (Hd : zlen d = rw) by (unfold d; zlia). assert (Hp1 : zlen p1 = zlen p - rw) by (unfold p1; zlia).
  cbn [mbind option_bind].
  destruct (advance_tail v q d Hr) as (b & -> & Hr1 & Hfull); [lia|lia|by apply Forall_take|].
  cbn [mbind option_bind]. rewrite Hd in *. fold (step_tail rw b v).
  destruct (Z.eqb_spec (sz - rw) 0) as [E|E]; cbn [mbind option_bind].
  - replace (sz - rw =? 0) with true by lia. eexists. split; [reflexivity|].
    split; [|done]. replace (Z.to_nat sz) with (Z.to_nat rw) by lia. exact Hr1.
  - set (v1 := step_tail rw b v) in *. specialize (Hfull ltac:(lia)). rewrite zlen_app in Hfull.
    pose proof (vrep_head_sz v1 _ Hr1). if_false.
    set (rw1 := if sz - rw <? _ then _ else _).
    assert (rw1 = sz - rw) as -> by (unfold rw1; split_ifs; lia).
    rewrite (mem_read_take p1 (sz - rw)) by lia. set (d1 := take (Z.to_nat (sz - rw)) p1).
    assert (Hd1 : zlen d1 = sz - rw) by (unfold d1; zlia).
    cbn [mbind option_bind].
    destruct (advance_tail v1 _ d1 Hr1) as (b1 & -> & Hr2 & _);
      [lia|change (capacity v1) with (capacity v); rewrite zlen_app; lia|
       by apply Forall_take, Forall_drop|].
    cbn [mbind option_bind]. rewrite Hd1 in *. fold (step_tail (sz - rw) b1 v1).
    replace (sz - rw - (sz - rw) =? 0) with true by lia. eexists. split; [reflexivity|].
    split; [|done]. rewrite <- app_assoc in Hr2. unfold d, d1, p1 in Hr2.
    rewrite take_drop_step in Hr2 by lia. replace (rw + (sz - rw)) with sz in Hr2 by lia. exact Hr2.
Qed.

Lemma memchr_app a b ch :
  memchr (a ++ b) ch =
  match memchr a ch with
  | Some i => Some i
  | None => i ← memchr b ch; Some (zlen a + i)
  end.
Proof.
  induction a as [|x a IH]; cbn [app memchr].
  - by destruct (memchr b ch).
  - destruct (x =? ch); [done|]. rewrite IH. destruct (memchr a ch); [done|].
    destruct (memchr b ch); cbn [mbind option_bind]; [|done]. f_equal. zlia.
Qed.

Lemma strchr_spec v q c :
  vrep v q -> vbuf_strchr v c = Some (default EOF (memchr q (u8 c))).
Proof.
  intros Hr. unfold vbuf_strchr. rewrite (vrep_empty v q Hr).
  destruct Hr as [_ [a b Hb Hh Ht Hne|c2 g c1 Hb Ht Hh Hg Hc1 ->]]; rewrite ?Hh, ?Ht.
  - destruct (Z.eqb_spec (zlen q) 0) as [E|E]; [by rewrite (zlen_zero q)|].
    pose proof (zlen_nonneg q). if_false. rewrite Hb, (mem_read_app a q b (zlen a)) by lia. cbn [mbind option_bind].
    destruct (memchr q (u8 c)); [done|]. by if_true.
  - apply nonempty_zlen in Hg, Hc1. replace (_ =? 0) with false by zlia. if_true.
    unfold buf_end. rewrite Hb, !zlen_app.
    pose proof (mem_read_app (c2 ++ g) c1 [] (zlen c2 + zlen g)) as E.
    rewrite app_nil_r, <- app_assoc in E. rewrite E by zlia.
    cbn [mbind option_bind]. rewrite memchr_app. destruct (memchr c1 (u8 c)); [done|].
    if_false. rewrite mem_read_head by done. cbn [mbind option_bind].
    destruct (memchr c2 (u8 c)); cbn; [f_equal; lia|done].
Qed.

Lemma clear_spec v q : vrep v q -> vrep (vbuf_clear v) [].
Proof.
  intros [(Hc & ? & Hu) _]. apply (flat_intro _ [] [] (buf v)); cbn; auto; [by split_and!; cbn; auto; lia|lia].
Qed.

Lemma vrep_head_bound v q : vrep v q -> 0 <= vhead v /\ vhead v + VBUF_TAIL_SZ v <= buf_end v.
Proof.
  intros [_ [a b Hb Hh Ht Hne|c2 g c1 Hb Ht Hh Hg Hc1 ->]]; unfold VBUF_TAIL_SZ, buf_end;
    rewrite Hb, Hh, Ht.
  - apply nonempty_zlen in Hne. pose proof (zlen_nonneg q). if_true. zlia.
  - apply nonempty_zlen in Hg, Hc1. if_false. zlia.
Qed.

(** Past the end of the block in one step. *)
Definition jump_head (n : Z) (v : VBUF) : VBUF :=
  set_head (if buf_end v <=? vhead v + n then vhead v + n - buf_end v else vhead v + n) v.

Lemma jump_step v q n : vrep v q -> 0 <= n <= VBUF_TAIL_SZ v -> jump_head n v = step_head n v.
Proof.
  intros Hr Hn. pose proof (vrep_head_bound v q Hr). unfold jump_head, step_head.
  destruct (Z.leb_spec (buf_end v) (vhead v + n)).
  - replace (_ =? _) with true by lia. f_equal. lia.
  - by replace (_ =? _) with false by lia.
Qed.

Lemma vrep_wrapped v q :
  vrep v q -> VBUF_TAIL_SZ v < zlen q -> vhead v + VBUF_TAIL_SZ v = buf_end v /\ vtail v < vhead v /\
  vtail v = zlen q - VBUF_TAIL_SZ v.
Proof.
  intros [_ [a b Hb Hh Ht Hne|c2 g c1 Hb Ht Hh Hg Hc1 ->]]; unfold VBUF_TAIL_SZ, buf_end;
    rewrite Hb, Hh, Ht.
  - pose proof (zlen_nonneg q). if_true. lia.
  - apply nonempty_zlen in Hg, Hc1. if_false. zlia.
Qed.

Lemma jump_spec v q n :
  vrep v q -> 0 <= n <= zlen q -> vrep (jump_head n v) (drop (Z.to_nat n) q).
Proof.
  intros Hr Hn. destruct (Z.le_gt_cases n (VBUF_TAIL_SZ v)) as [Hle|Hgt].
  - rewrite (jump_step v q n Hr) by lia. by destruct (advance_head v q n Hr ltac:(lia)) as (_ & ? & _).
  - destruct (vrep_wrapped v q Hr ltac:(lia)) as (Hend & Hlt & Ht).
    pose proof (vrep_tail_sz v q Hr) as (Hts & _).
    destruct (advance_head v q (VBUF_TAIL_SZ v) Hr ltac:(lia)) as (_ & Hr1 & Hfull).
    specialize (Hfull eq_refl). set (v1 := step_head (VBUF_TAIL_SZ v) v) in *.
    assert (Hh1 : vhead v1 = 0).
    { unfold v1, step_head. cbn. by replace (_ =? _) with true by lia. }
    destruct (advance_head v1 _ (n - VBUF_TAIL_SZ v) Hr1) as (_ & Hr2 & _).
    { rewrite Hfull, zlen_drop. lia. }
    rewrite drop_drop_step in Hr2 by lia.
    replace (VBUF_TAIL_SZ v + (n - VBUF_TAIL_SZ v)) with n in Hr2 by lia.
    replace (jump_head n v) with (step_head (n - VBUF_TAIL_SZ v) v1); [done|].
    unfold step_head at 1, jump_head. rewrite Hh1. change (buf_end v1) with (buf_end v).
    replace (buf_end v <=? vhead v + n) with true by lia.
    pose proof (vrep_max v q Hr). destruct Hr as [(Hc & _) _]. unfold buf_end in *.
    replace (0 + (n - VBUF_TAIL_SZ v) =? zlen (buf v)) with false by lia.
    replace (0 + (n - VBUF_TAIL_SZ v)) with (vhead v + n - zlen (buf v)) by lia. done.
Qed.

Lemma vrep_tail_bound v q : vrep v q -> 0 <= vtail v.
Proof.
  intros [_ [a b Hb Hh Ht Hne|c2 g c1 Hb Ht Hh Hg Hc1 ->]]; rewrite Ht; zlia.
Qed.

Lemma popn_spec v q n :
  vrep v q -> 0 <= n <= zlen q -> vrep (vbuf_popn v n) (drop (Z.to_nat n) q).
Proof.
  intros Hr Hn. pose proof (jump_spec v q n Hr Hn) as Hj. unfold jump_head in Hj. unfold vbuf_popn.
  pose proof (vrep_head_bound v q Hr). pose proof (vrep_tail_bound v q Hr).
  destruct (Z.leb_spec (buf_end v) (vhead v + n)); [|by if_true]. if_false.
  apply vrep_normalize. destruct (Z.ltb_spec (vtail v) (vhead v + n - buf_end v)); [|done].
  exfalso. destruct (Z.le_gt_cases n (VBUF_TAIL_SZ v)); [lia|].
  destruct (vrep_wrapped v q Hr); lia.
Qed.

(** Popping more than an unwrapped queue holds, but not past the end of the
    block, leaves the head behind the tail: the buffer then holds the free bytes. *)
Lemma popn_beyond v q n :
  vrep v q -> vhead v <= vtail v -> zlen q < n -> vhead v + n < buf_end v ->
  vbuf_size (vbuf_popn v n) = capacity v + 1 + zlen q - n.
Proof.
  intros Hr Hw Hn Hb. pose proof (vrep_size v q Hr) as Hs. unfold vbuf_size in Hs.
  replace (vhead v <=? vtail v) with true in Hs by lia. unfold vbuf_popn. if_true.
  unfold vbuf_size. cbn [vhead vtail set_head]. if_false. change (buf_end (set_head _ v)) with (buf_end v).
  destruct Hr as [[He _] _]. unfold buf_end in *. lia.
Qed.

(** What [vbuf_getstr] gives and leaves of a queue: the bytes up to the first
    NUL; without one in the first [sz] bytes, the NUL is added when the queue
    has [sz - 1] bytes and replaces the last byte otherwise. *)
Definition queue_getstr (q : list Z) (sz : Z) : list Z * option (list Z) :=
  if zlen q =? 0 then (q, None) else
  let d := take (Z.to_nat sz) q in
  match memchr d 0 with
  | Some i => (drop (Z.to_nat (i + 1)) q, Some (take (Z.to_nat (i + 1)) q))
  | None => (drop (Z.to_nat sz) q,
             Some (if zlen q =? sz - 1 then q ++ [0] else take (Z.to_nat (zlen d - 1)) d ++ [0]))
  end.

Lemma pop_capacity v v' c : vbuf_pop v = Some (v', c) -> capacity v' = capacity v.
Proof.
  unfold vbuf_pop. intros E. destruct (vbuf_peek v); [|done]. cbn [mbind option_bind] in E.
  injection E as <- _. unfold vbuf_normalize. by repeat case_match.
Qed.

Lemma memchr_nonneg l c i : memchr l c = Some i -> 0 <= i.
Proof.
  revert i. induction l as [|x l IH]; intros i; cbn [memchr]; [done|].
  case_match; [intros [= <-]; lia|]. destruct (memchr l c) as [j|]; [|done].
  cbn [mbind option_bind]. intros [= <-]. specialize (IH j eq_refl). lia.
Qed.

Lemma getstr_loop_spec n : forall v q out, vrep v q ->
  exists v', vrep v' (match memchr (take n q) 0 with
                      | Some i => drop (Z.to_nat (i + 1)) q | None => drop n q end) /\
    capacity v' = capacity v /\
    getstr_loop n v out = Some (v',
      match memchr (take n q) 0 with
      | Some i => inl (out ++ take (Z.to_nat (i + 1)) q)
      | None => inr (if (n <=? length q)%nat then u64 (-1) else Z.of_nat (n - length q - 1), out ++ take n q)
      end).
Proof.
  induction n as [|n IH]; intros v q out Hr; cbn [getstr_loop].
  - exists v. rewrite drop_0, take_0, app_nil_r. cbn [memchr]. by split_and!.
  - rewrite (vrep_empty v q Hr). destruct q as [|x q].
    + exists v. cbn [zlen length Z.of_nat Z.eqb take drop memchr]. rewrite app_nil_r. split_and!; [done|done|].
      do 4 f_equal. replace (S n - 0 - 1)%nat with n by lia. reflexivity.
    + replace (_ =? 0) with false by zlia. destruct (pop_spec v _ Hr) as (v1 & E & Hr1).
      pose proof (pop_capacity _ _ _ E) as Hc. rewrite E. cbn [mbind option_bind hd tl take memchr] in *.
      destruct (Z.eqb_spec x 0) as [->|Hx].
      * exists v1. change (Z.to_nat (0 + 1)) with 1%nat. cbn [take drop]. by rewrite take_0, drop_0.
      * destruct (IH v1 q (out ++ [x]) Hr1) as (v' & Hr' & Hc' & ->). exists v'.
        destruct (memchr (take n q) 0) as [i|] eqn:Em; cbn [mbind option_bind].
        -- apply memchr_nonneg in Em. replace (Z.to_nat (i + 1 + 1)) with (S (Z.to_nat (i + 1))) by lia.
           cbn [take drop]. rewrite <- app_assoc. split_and!; [done|congruence|done].
        -- cbn [drop length]. rewrite <- app_assoc. split_and!; [done|congruence|done].
Qed.

Lemma getstr_spec v q sz : vrep v q -> 0 < sz < 2 ^ 64 ->
  exists v', vbuf_getstr v sz = Some (v', snd (queue_getstr q sz)) /\
    vrep v' (fst (queue_getstr q sz)) /\ capacity v' = capacity v.
Proof.
  intros Hr Hsz. unfold vbuf_getstr, queue_getstr. if_false. rewrite (vrep_empty v q Hr).
  destruct (Z.eqb_spec (zlen q) 0) as [E0|E0]; [by exists v|].
  destruct (getstr_loop_spec (Z.to_nat sz) v q [] Hr) as (v' & Hr' & Hc & ->). exists v'.
  cbn [mbind option_bind app]. destruct (memchr _ 0) as [i|]; [by split_and!|]. cbn [fst snd].
  split_and!; [|done|done]. set (d := take (Z.to_nat sz) q).
  assert (Hd : d <> []). { unfold d. intros Hd. apply (f_equal zlen) in Hd. unfold zlen in *. rewrite length_take in Hd. cbn in Hd. lia. }
  assert (Hn : (if (Z.to_nat sz <=? length q)%nat then u64 (-1) else Z.of_nat (Z.to_nat sz - length q - 1)) =? 0
               = (zlen q =? sz - 1)).
  { unfold zlen in *. destruct (Nat.leb_spec (Z.to_nat sz) (length q)).
    - change (u64 (-1) =? 0) with false. symmetry. apply Z.eqb_neq. lia.
    - destruct (Z.eqb_spec (Z.of_nat (Z.to_nat sz - length q - 1)) 0),
        (Z.eqb_spec (Z.of_nat (length q)) (sz - 1)); [done|lia|lia|done]. }
  rewrite Hn. destruct (Z.eqb_spec (zlen q) (sz - 1)) as [E|E].
  - unfold d. rewrite take_ge by (unfold zlen in *; lia). done.
  - destruct (exists_last Hd) as (d' & c & E'). rewrite E'. replace (zlen (d' ++ [c]) - 1) with (zlen d') by zlia.
    rewrite (mem_write_one d' c 0 []) by zlia. cbn [mbind option_bind]. do 3 f_equal.
    by rewrite take_app_length' by (by rewrite to_nat_zlen).
Qed.

(** What the vectors of a write hold. *)
Lemma iov_spec v q sz :
  vrep v q -> 0 <= sz <= zlen q ->
  let n0 := if sz <? VBUF_TAIL_SZ v then sz else VBUF_TAIL_SZ v in
  exists iov0 iov1, mem_read (buf v) (vhead v) n0 = Some iov0 /\
    mem_read (buf v) 0 (sz - n0) = Some iov1 /\ iov0 ++ iov1 = take (Z.to_nat sz) q.
Proof.
  intros Hr Hsz n0. pose proof (vrep_tail_sz v q Hr) as (Ht & _).
  assert (Hn0 : 0 <= n0 <= VBUF_TAIL_SZ v /\ n0 <= sz /\ (n0 < sz -> n0 = VBUF_TAIL_SZ v))
    by (unfold n0; split_ifs; lia).
  destruct (advance_head v q n0 Hr ltac:(lia)) as (E & Hr1 & Hfull).
  exists (take (Z.to_nat n0) q). rewrite E. destruct (Z.eqb_spec n0 sz) as [->|Hne].
  - rewrite Z.sub_diag. exists []. rewrite app_nil_r.
    rewrite mem_read_take by zlia. done.
  - specialize (Hfull ltac:(lia)). destruct (vrep_wrapped v q Hr ltac:(lia)) as (Hend & _).
    destruct (advance_head (step_head n0 v) _ (sz - n0) Hr1) as (E1 & _).
    { rewrite Hfull, zlen_drop. lia. }
    change (buf (step_head n0 v)) with (buf v) in E1.
    replace (vhead (step_head n0 v)) with 0 in E1
      by (unfold step_head; cbn; by replace (_ =? _) with true by lia).
    eexists. split; [reflexivity|]. split; [exact E1|]. rewrite take_drop_step by lia. do 2 f_equal. lia.
Qed.

(** Bytes read into the vectors go after the queue. *)
Lemma vrep_head_room v q : vrep v q -> vtail v + VBUF_HEAD_SZ v <= buf_end v /\
  (VBUF_HEAD_SZ v < capacity v - zlen q -> vtail v + VBUF_HEAD_SZ v = buf_end v).
Proof.
  intros [(Hc & _) [a b Hb Hh Ht Hne|c2 g c1 Hb Ht Hh Hg Hc1 ->]]; unfold VBUF_HEAD_SZ, buf_end;
    rewrite Hc, Hb, Hh, Ht.
  - apply nonempty_zlen in Hne. pose proof (zlen_nonneg q). if_false. zlia.
  - apply nonempty_zlen in Hg, Hc1. if_true. zlia.
Qed.

Definition jump_tail (n : Z) (b : list Z) (v : VBUF) : VBUF :=
  set_tail (if buf_end v <=? vtail v + n then vtail v + n - buf_end v else vtail v + n)
    (set_bytes b v).

Lemma jump_tail_step v q n b :
  vrep v q -> zlen b = zlen (buf v) -> 0 <= n <= VBUF_HEAD_SZ v ->
  jump_tail n b v = step_tail n b v.
Proof.
  intros Hr Hb Hn. pose proof (vrep_head_room v q Hr). unfold jump_tail, step_tail, buf_end in *.
  destruct (Z.leb_spec (zlen (buf v)) (vtail v + n)).
  - replace (_ =? _) with true by lia. f_equal. lia.
  - by replace (_ =? _) with false by lia.
Qed.

Lemma scatter_spec v q sz d :
  vrep v q -> 0 <= zlen d <= sz -> sz <= capacity v - zlen q -> Forall is_u8 d ->
  let n0 := if sz <? VBUF_HEAD_SZ v then sz else VBUF_HEAD_SZ v in
  exists b, scatter (buf v) (vtail v) n0 d = Some b /\ vrep (jump_tail (zlen d) b v) (q ++ d).
Proof.
  intros Hr Hd Hsz Hu n0. pose proof (vrep_head_sz v q Hr) as Hhs. unfold scatter.
  assert (Hn0 : 0 <= n0 <= VBUF_HEAD_SZ v /\ n0 <= sz /\ (n0 < sz -> n0 = VBUF_HEAD_SZ v))
    by (unfold n0; split_ifs; lia).
  set (d0 := take (Z.to_nat n0) d). set (d1 := drop (Z.to_nat n0) d).
  assert (Hd0 : zlen d0 = Z.min n0 (zlen d)) by (unfold d0; zlia).
  assert (Hd1 : zlen d1 = Z.max 0 (zlen d - n0)) by (unfold d1; zlia).
  assert (Hdd : d = d0 ++ d1) by (unfold d0, d1; by rewrite take_drop).
  destruct (advance_tail v q d0 Hr) as (b1 & E1 & Hr1 & Hfull); [lia|lia|by apply Forall_take|].
  rewrite E1. cbn [mbind option_bind]. pose proof (mem_write_zlen _ _ _ _ E1) as Hb1.
  destruct (Z.le_gt_cases (zlen d) n0).
  - rewrite (zlen_zero d1) by lia. pose proof (mem_write_head [] b1 [] eq_refl) as E0. cbn [app] in E0.
    rewrite E0. exists b1. split; [done|].
    rewrite (jump_tail_step v q) by (done || lia). rewrite Hdd at 2. rewrite (zlen_zero d1) by lia.
    rewrite app_nil_r. replace (zlen d) with (zlen d0) by lia. exact Hr1.
  - specialize (Hfull ltac:(lia)). destruct (vrep_head_room v q Hr) as [_ Hend].
    specialize (Hend ltac:(lia)). set (v1 := step_tail (zlen d0) b1 v) in *.
    assert (Ht1 : vtail v1 = 0).
    { unfold v1, step_tail. cbn. by replace (_ =? _) with true by lia. }
    destruct (advance_tail v1 _ d1 Hr1) as (b & E & Hr2 & _);
      [change (capacity v1) with (capacity v) in Hfull; rewrite zlen_app in Hfull; lia|
       change (capacity v1) with (capacity v); rewrite zlen_app; lia|by apply Forall_drop|].
    rewrite Ht1 in E. change (buf v1) with b1 in E. exists b. split; [exact E|].
    rewrite <- app_assoc, <- Hdd in Hr2. pose proof (mem_write_zlen _ _ _ _ E) as Hb.
    replace (jump_tail (zlen d) b v) with (step_tail (zlen d1) b v1); [done|].
    destruct Hr as [(Hcap & _) _].
    unfold step_tail at 1, jump_tail. rewrite Ht1. unfold buf_end in *. change (buf v1) with b1.
    rewrite Hb1. replace (_ =? _) with false by zlia.
    replace (zlen (buf v) <=? _) with true by lia.
    replace (0 + zlen d1) with (vtail v + zlen d - zlen (buf v)) by lia. done.
Qed.

(** *** Flattening *)

Lemma reverse_loop_spec fuel a m c :
  (length m <= fuel)%nat ->
  reverse_loop fuel (a ++ m ++ c) (zlen a) (zlen a + zlen m) = Some (a ++ rev m ++ c).
Proof.
  revert a m c. induction fuel as [|fuel IH]; intros a m c Hf; cbn [reverse_loop].
  - destruct m; [|cbn in Hf; lia]. rewrite zlen_nil, Z.add_0_r, Z.ltb_irrefl. done.
  - destruct m as [|x m]; [rewrite zlen_nil, Z.add_0_r, Z.ltb_irrefl; done|]. if_true.
    destruct m as [|y m _] using rev_ind.
    + rewrite !(zget_middle a x c) by zlia. cbn [mbind option_bind app].
      do 2 (rewrite (mem_write_one a x x c) by zlia; cbn [mbind option_bind]).
      destruct fuel; cbn [reverse_loop]; by if_false.
    + assert (E : a ++ (x :: m ++ [y]) ++ c = (a ++ x :: m) ++ y :: c)
        by (cbn; rewrite <- !app_assoc; done).
      rewrite E, (zget_middle (a ++ x :: m) y c (zlen a + zlen (x :: m ++ [y]) - 1)) by zlia.
      cbn [mbind option_bind].
      rewrite <- app_assoc. cbn [app]. rewrite (zget_middle a x _ (zlen a)) by done. cbn [mbind option_bind].
      change (a ++ x :: m ++ y :: c) with (a ++ (x :: m) ++ y :: c). rewrite app_assoc.
      rewrite (mem_write_one (a ++ x :: m) y x c) by zlia. cbn [mbind option_bind].
      rewrite <- app_assoc. cbn [app]. rewrite (mem_write_one a x y) by done. cbn [mbind option_bind].
      pose proof (IH (a ++ [y]) m (x :: c)) as H. rewrite <- !app_assoc in H. cbn [app] in H.
      replace (zlen (a ++ [y])) with (zlen a + 1) in H by zlia.
      replace (zlen a + zlen (x :: m ++ [y]) - 1) with (zlen a + 1 + zlen m) by zlia.
      rewrite H by (cbn in Hf; rewrite length_app in Hf; cbn in Hf; lia).
      cbn [rev]. rewrite rev_app_distr. cbn [rev app]. by rewrite <- !app_assoc.
Qed.

Lemma reverse_spec a m c p q :
  p = zlen a -> q = zlen a + zlen m -> vbuf_reverse (a ++ m ++ c) p q = Some (a ++ rev m ++ c).
Proof.
  intros -> ->. unfold vbuf_reverse. pose proof (zlen_nonneg m). if_false.
  apply reverse_loop_spec. rewrite !length_app. lia.
Qed.

Lemma zlen_rev {A} (l : list A) : zlen (rev l) = zlen l.
Proof. unfold zlen. by rewrite length_rev. Qed.

Lemma mem_read_Forall {A} (P : A -> Prop) l off n d :
  mem_read l off n = Some d -> Forall P l -> Forall P d.
Proof.
  unfold mem_read. destruct (_ && _); [|done]. intros [= <-] H. by apply Forall_take, Forall_drop.
Qed.

Lemma mem_move_Forall {A} (P : A -> Prop) l dst src n l' :
  mem_move l dst src n = Some l' -> Forall P l -> Forall P l'.
Proof.
  unfold mem_move. destruct (mem_read l src n) as [d|] eqn:E; [|done]. intros Hw H.
  eapply mem_write_Forall; eauto. by eapply mem_read_Forall.
Qed.

Lemma flat_inplace_spec v q :
  vrep v q -> exists v', vbuf_flat_inplace v = Some v' /\ vrep v' q /\ vhead v' <= vtail v'.
Proof.
  intros Hr. unfold vbuf_flat_inplace. destruct (Z.leb_spec (vhead v) (vtail v)) as [|Hlt]; [by exists v|].
  rewrite (vrep_size v q Hr). pose proof Hr as [Hw Hl].
  destruct Hl as [a b Hb Hh Ht Hne|c2 g c1 Hb Ht Hh Hg Hc1 Hq]; [zlia|].
  apply nonempty_zlen in Hg, Hc1. unfold buf_end. rewrite Hb, Hh, Ht, Hq, !zlen_app.
  pose proof (reverse_spec [] c2 (g ++ c1) 0 (zlen c2) eq_refl eq_refl) as E1.
  cbn [app] in E1. rewrite E1. cbn [mbind option_bind].
  pose proof (reverse_spec (rev c2 ++ g) c1 [] (zlen c2 + zlen g) (zlen c2 + (zlen g + zlen c1))) as E2.
  rewrite !app_nil_r, <- !app_assoc in E2. rewrite E2 by (rewrite zlen_app, zlen_rev; lia).
  cbn [mbind option_bind].
  destruct (mem_move_close (rev c2) g (rev c1) [] (zlen c2) (zlen c2 + zlen g)
    (zlen c2 + (zlen g + zlen c1) - (zlen c2 + zlen g))) as (p & E3 & Hp);
    [rewrite zlen_rev; lia|rewrite zlen_rev; lia|rewrite zlen_rev; lia|].
  rewrite !app_nil_r in E3. rewrite E3. cbn [mbind option_bind]. rewrite zlen_nil in Hp.
  pose proof (reverse_spec [] (rev c2 ++ rev c1) p 0 (zlen c1 + zlen c2) eq_refl) as E4.
  cbn [app] in E4. rewrite <- app_assoc in E4. rewrite E4 by (rewrite zlen_nil, zlen_app, !zlen_rev; lia).
  cbn [mbind option_bind]. rewrite rev_app_distr, !rev_involutive.
  eexists. split; [reflexivity|]. split; [|cbn; zlia].
  assert (Hu : Forall is_u8 ((c1 ++ c2) ++ p)).
  { pose proof (mem_move_Forall is_u8 _ _ _ _ _ E3) as Hu. rewrite !list.Forall_app in *.
    destruct Hw as (_ & _ & Hw). rewrite Hb, !list.Forall_app in Hw.
    destruct Hu as (_ & _ & Hp'); [|tauto]. split_and!; try apply List.Forall_rev; tauto. }
  apply (flat_intro _ [] (c1 ++ c2) p); cbn; auto; [|zlia|lia].
  apply (vwf_set v); [done| |done]. rewrite Hb. zlia.
Qed.

Lemma flat_spec v q :
  vrep v q -> vtail v <= FLAT_TMP \/ vhead v <= vtail v ->
  exists v', vbuf_flat v = Some v' /\ vrep v' q /\ vhead v' <= vtail v'.
Proof.
  intros Hr Hsmall. unfold vbuf_flat.
  destruct (Z.leb_spec (vhead v) (vtail v)) as [|Hlt]; [by exists v|].
  destruct Hsmall as [Hsmall|]; [|lia]. pose proof Hr as [Hw Hl].
  destruct Hl as [a b Hb Hh Ht Hne|c2 g c1 Hb Ht Hh Hg Hc1 Hq]; [zlia|].
  apply nonempty_zlen in Hg, Hc1. unfold buf_end. rewrite Hb, Hh, Ht, !zlen_app in *.
  replace (zlen c2 + (zlen g + zlen c1) - (zlen c2 + zlen g)) with (zlen c1) by lia.
  destruct (mem_move_close c2 g c1 [] (zlen c2) (zlen c2 + zlen g) (zlen c1)) as (p & E1 & Hp);
    try lia. rewrite app_nil_r in E1. rewrite E1. cbn [mbind option_bind]. rewrite zlen_nil in Hp.
  destruct Hw as (Hcap & Hcap1 & Hu). rewrite Hb in Hu, Hcap. rewrite !zlen_app in Hcap.
  pose proof (mem_move_Forall is_u8 _ _ _ _ _ E1 Hu) as Hu1.
  assert (Hfin : exists b p', flat_loop (S (Z.to_nat (zlen c2))) (c2 ++ c1 ++ p) (zlen c1) (zlen c2) 0
      = Some b /\ b = (c1 ++ c2) ++ p' /\ zlen p' = zlen p /\ Forall is_u8 b).
  { cbn [flat_loop]. destruct (Z.ltb_spec 0 (zlen c2)).
    - rewrite Z.min_r by lia. rewrite Z.sub_0_r. rewrite mem_read_head by done. cbn [mbind option_bind].
      destruct (mem_move_close [] c2 c1 p 0 (0 + zlen c2) (zlen c1)) as (p2 & E2 & Hp2); try done.
      cbn [app] in E2. rewrite E2. cbn [mbind option_bind].
      pose proof (mem_move_Forall is_u8 _ _ _ _ _ E2 Hu1) as Hu2.
      set (x := take (length c2) p2). set (p' := drop (length c2) p2).
      assert (zlen x = zlen c2) by (unfold x; rewrite zlen_take; unfold zlen in *; lia).
      assert (zlen p' = zlen p) by (unfold p'; rewrite zlen_drop; unfold zlen in *; lia).
      assert (p2 = x ++ p') as Hp2' by (unfold x, p'; by rewrite take_drop). clearbody x p'. subst p2.
      rewrite (mem_write_app c1 x p' c2) by (done || lia). cbn [mbind option_bind].
      destruct (Z.to_nat (zlen c2)) eqn:Ez; [lia|]. cbn [flat_loop]. if_false.
      eexists _, p'. split; [reflexivity|]. split; [by rewrite app_assoc|]. split; [zlia|].
      rewrite !list.Forall_app in *. tauto.
    - destruct c2; [|exfalso; zlia]. cbn [app] in *.
      eexists _, p. split; [reflexivity|]. rewrite app_nil_r. by split_and!. }
  destruct Hfin as (b & p' & -> & -> & Hp' & Hu'). cbn [mbind option_bind].
  eexists. split; [reflexivity|]. split; [|cbn; zlia]. rewrite Hq.
  apply (flat_intro _ [] (c1 ++ c2) p'); cbn; auto; [|zlia|lia].
  split_and!; cbn; [zlia|lia|lia|done].
Qed.

(** The string [vbuf_cstr] leaves: the bytes from the returned offset to the NUL. *)
Lemma cstr_spec v q :
  vrep v q -> vtail v <= FLAT_TMP \/ vhead v <= vtail v ->
  exists v' r, vbuf_cstr v = Some (v', r) /\ vrep v' q /\
    match r with
    | None => q = []
    | Some h => q <> [] /\ mem_read (buf v') h (zlen q + 1) = Some (q ++ [0])
    end.
Proof.
  intros Hr Hs. unfold vbuf_cstr, VBUF_FLAT_INPLACE. rewrite (vrep_empty v q Hr).
  destruct (Z.eqb_spec (zlen q) 0) as [E|E]; [exists v, None; split_and!; auto using zlen_zero|].
  destruct (flat_spec v q Hr Hs) as (v1 & -> & [Hw Hl] & Hle). cbn [mbind option_bind].
  destruct Hl as [a b Hb Hh Ht Hne|c2 g c1 Hb Ht Hh Hg Hc1 Hq];
    [|apply nonempty_zlen in Hg, Hc1; lia].
  destruct b as [|x b]; [done|]. rewrite Hb, app_assoc.
  rewrite (mem_write_one (a ++ q) x 0 b) by zlia. cbn [mbind option_bind].
  eexists _, _. split; [reflexivity|]. split.
  - apply (flat_intro _ a q (0 :: b)); cbn; auto; [|by rewrite <- app_assoc|zlia].
    destruct Hw as (Hcap & Hcap1 & Hu). rewrite Hb in *. split_and!; cbn; [zlia|lia|lia|].
    rewrite !list.Forall_app, list.Forall_cons in *. unfold is_u8 at 3. intuition lia.
  - split; [by intros ->|]. cbn. rewrite <- app_assoc.
    change (q ++ 0 :: b) with (q ++ [0] ++ b). rewrite (app_assoc q). apply mem_read_app; zlia.
Qed.

End VbufFacts.
