(* ===== verification/VbufProps.v ===== *)
(** The properties of the ring buffer ([Vbuf]), each with an instance. *)

From S2P Require Import Prelude Cstr Vbuf VbufFacts.
Import Cstr Vbuf VbufFacts.

Module VbufProps.

(** *** The specification: a bounded queue *)

Inductive vop :=
| OpPut (p : list Z) | OpPutstr (s : list Z) | OpAdd (c : Z)
| OpGet (n : Z) | OpGetstr (sz : Z) | OpPop | OpPopn (n : Z) | OpPeek | OpStrchr (c : Z) | OpClear | OpSize | OpSpace.

Inductive vout := OutBytes (o : option (list Z)) | OutInt (z : Z) | OutBool (b : bool) | OutUnit.

Definition vexec (v : VBUF) (op : vop) : option (VBUF * vout) :=
  match op with
  | OpPut p => '(v, ok) ← vbuf_putblk v p (zlen p); Some (v, OutBool ok)
  | OpPutstr s => '(v, ok) ← vbuf_putstr v s; Some (v, OutBool ok)
  | OpAdd c => '(v, ok) ← vbuf_add v c; Some (v, OutBool ok)
  | OpGet n => '(v, o) ← vbuf_getblk v n; Some (v, OutBytes o)
  | OpGetstr sz => '(v, o) ← vbuf_getstr v sz; Some (v, OutBytes o)
  | OpPop => '(v, c) ← vbuf_pop v; Some (v, OutInt c)
  | OpPopn n => Some (vbuf_popn v n, OutUnit)
  | OpPeek => c ← vbuf_peek v; Some (v, OutInt c)
  | OpStrchr c => i ← vbuf_strchr v c; Some (v, OutInt i)
  | OpClear => Some (vbuf_clear v, OutUnit)
  | OpSize => Some (v, OutInt (vbuf_size v))
  | OpSpace => Some (v, OutInt (vbuf_space v))
  end.

Definition qexec (cap : Z) (q : list Z) (op : vop) : list Z * vout :=
  match op with
  | OpPut p => if (0 <? zlen p) && (zlen q + zlen p <=? cap)
               then (q ++ p, OutBool true) else (q, OutBool false)
  | OpPutstr s => if zlen q + zlen s <=? cap
                  then (q ++ s, OutBool true) else (q, OutBool false)
  | OpAdd c => if zlen q <? cap then (q ++ [u8 c], OutBool true) else (q, OutBool false)
  | OpGet n => if (0 <? n) && (n <=? zlen q)
               then (drop (Z.to_nat n) q, OutBytes (Some (take (Z.to_nat n) q)))
               else (q, OutBytes None)
  | OpGetstr sz => let '(q, o) := queue_getstr q sz in (q, OutBytes o)
  | OpPop => (tl q, OutInt (hd EOF q))
  | OpPopn n => (drop (Z.to_nat n) q, OutUnit)
  | OpPeek => (q, OutInt (hd EOF q))
  | OpStrchr c => (q, OutInt (default EOF (memchr q (u8 c))))
  | OpClear => ([], OutUnit)
  | OpSize => (q, OutInt (zlen q))
  | OpSpace => (q, OutInt (cap - zlen q))
  end.

Fixpoint vrun (ops : list vop) (v : VBUF) : option (VBUF * list vout) :=
  match ops with
  | [] => Some (v, [])
  | op :: ops =>
      '(v, o) ← vexec v op;
      '(v, os) ← vrun ops v;
      Some (v, o :: os)
  end.

Fixpoint qrun (cap : Z) (ops : list vop) (q : list Z) : list Z * list vout :=
  match ops with
  | [] => (q, [])
  | op :: ops =>
      let '(q, o) := qexec cap q op in
      let '(q, os) := qrun cap ops q in
      (q, o :: os)
  end.

(** Sizes are unsigned and a [char] is a byte; [vbuf_getstr] asserts that its
    buffer is not empty, and [vbuf_popn] is for what the queue holds
    ([popn_beyond] is what it does otherwise). *)
Definition vop_ok (q : list Z) (op : vop) : Prop :=
  match op with
  | OpPut p | OpPutstr p => Forall is_u8 p
  | OpGet n => 0 <= n
  | OpGetstr sz => 0 < sz < 2 ^ 64
  | OpPopn n => 0 <= n <= zlen q
  | _ => True
  end.

Fixpoint vops_ok (cap : Z) (ops : list vop) (q : list Z) : Prop :=
  match ops with
  | [] => True
  | op :: ops => vop_ok q op /\ vops_ok cap ops (fst (qexec cap q op))
  end.

Lemma take_zlen {A} (l : list A) : take (Z.to_nat (zlen l)) l = l.
Proof. rewrite to_nat_zlen. apply firstn_all. Qed.

Lemma vexec_spec v q op :
  vrep v q -> vop_ok q op ->
  exists v', vexec v op = Some (v', snd (qexec (capacity v) q op)) /\
    vrep v' (fst (qexec (capacity v) q op)) /\ capacity v' = capacity v.
Proof.
  intros Hr Hok. destruct op as [p|s|c|n|sz| |n| |c| | |]; cbn [vexec qexec vop_ok] in *.
  - destruct (putblk_spec v q p (zlen p) Hr) as (v' & -> & Hr' & Hc); [zlia|done|].
    rewrite take_zlen in Hr'. cbn [mbind option_bind]. exists v'. by destruct (_ && _).
  - unfold vbuf_putstr. rewrite (vrep_space v q Hr).
    destruct (Z.ltb_spec (capacity v - zlen q) (zlen s)).
    + replace (_ <=? _) with false by lia. by exists v.
    + replace (zlen q + zlen s <=? capacity v) with true by lia.
      destruct (putblk_spec v q s (zlen s) Hr) as (v' & -> & Hr' & Hc); [zlia|done|].
      rewrite take_zlen in Hr'. cbn [mbind option_bind]. exists v'. split_and!; [done| |done].
      replace (zlen q + zlen s <=? capacity v) with true in Hr' by lia.
      destruct (Z.ltb_spec 0 (zlen s)); [done|]. cbn. by rewrite (zlen_zero s), app_nil_r by zlia.
  - destruct (add_spec v q c Hr) as (v' & -> & Hr' & Hc). cbn [mbind option_bind].
    exists v'. by destruct (_ <? _).
  - destruct (getblk_spec v q n Hr Hok) as (v' & -> & Hr' & Hc). cbn [mbind option_bind].
    exists v'. by destruct (_ && _).
  - destruct (getstr_spec v q sz Hr Hok) as (v' & -> & Hr' & Hc). cbn [mbind option_bind].
    exists v'. by destruct (queue_getstr q sz).
  - destruct (pop_spec v q Hr) as (v' & E & Hr'). rewrite E. cbn [mbind option_bind].
    exists v'. split_and!; [done|done|]. by eapply pop_capacity.
  - exists (vbuf_popn v n). split_and!; [done|by apply popn_spec|].
    unfold vbuf_popn, vbuf_normalize. by repeat case_match.
  - rewrite (peek_spec v q Hr). by exists v.
  - rewrite (strchr_spec v q c Hr). by exists v.
  - exists (vbuf_clear v). split_and!; [done|by eapply clear_spec|done].
  - rewrite (vrep_size v q Hr). by exists v.
  - rewrite (vrep_space v q Hr). by exists v.
Qed.

Lemma vrun_spec ops v q :
  vrep v q -> vops_ok (capacity v) ops q ->
  exists v', vrun ops v = Some (v', snd (qrun (capacity v) ops q)) /\
    vrep v' (fst (qrun (capacity v) ops q)).
Proof.
  revert v q. induction ops as [|op ops IH]; intros v q Hr Hok; cbn [vrun qrun].
  { by exists v. }
  destruct Hok as [Hop Hok].
  destruct (vexec_spec v q op Hr Hop) as (v1 & -> & Hr1 & Hc). cbn [mbind option_bind].
  destruct (qexec (capacity v) q op) as [q1 o]. cbn [fst snd] in *.
  rewrite <- Hc in Hok. destruct (IH v1 q1 Hr1 Hok) as (v2 & -> & Hr2). cbn [mbind option_bind]. rewrite Hc in *.
  exists v2. by destruct (qrun (capacity v) ops q1).
Qed.


(** *** Descriptors *)

(** What the writer callback promises: it takes a prefix of the vectors or
    reports an error; [log] is what the other side received. *)
Class ByteSink {St} (writer : St -> list Z -> list Z -> option (St * Z)) := {
  log : St -> list Z;
  sink_ok w a b : 0 < zlen (a ++ b) ->
    exists w' n, writer w a b = Some (w', n) /\
      ((n < 0 /\ log w' = log w) \/
       (0 < n <= zlen (a ++ b) /\ log w' = log w ++ take (Z.to_nat n) (a ++ b)))
}.

(** What the reader callback promises: the bytes come from [source] in order. *)
Class ByteSource {St} (reader : St -> Z -> Z -> option (St * Z * list Z)) := {
  source : St -> list Z;
  source_ok w n0 n1 : 0 < n0 + n1 ->
    exists w' n d, reader w n0 n1 = Some (w', n, d) /\
      ((n < 0 /\ source w' = source w) \/
       (0 < n <= n0 + n1 /\ zlen d = n /\ Forall is_u8 d /\ source w = d ++ source w'))
}.

Section Descriptors.
Context {St : Type}.

Lemma write_loop_spec (writer : St -> list Z -> list Z -> option (St * Z)) `{!ByteSink writer}
    fuel is_min w v q sz :
  vrep v q -> 0 < sz <= zlen q -> sz < Z.of_nat fuel ->
  exists w' v' ret sent rest,
    general_write_loop fuel writer is_min 0 w v sz = Some (w', v', ret) /\
    q = sent ++ rest /\ vrep v' rest /\ log w' = log w ++ sent /\ capacity v' = capacity v /\
    (ret = -1 \/ ret = 0 /\ 0 < zlen sent /\ (is_min = false -> zlen sent = sz)).
Proof.
  revert w v q sz. induction fuel as [|fuel IH]; intros w v q sz Hr Hsz Hf; [lia|].
  cbn [general_write_loop].
  destruct (iov_spec v q sz Hr ltac:(lia)) as (iov0 & iov1 & -> & -> & Eiov).
  cbn [mbind option_bind].
  assert (Hl : zlen (iov0 ++ iov1) = sz) by (rewrite Eiov; zlia).
  destruct (sink_ok w iov0 iov1 ltac:(lia)) as (w1 & n & -> & Hn). cbn [mbind option_bind].
  destruct Hn as [[Hneg Hlog]|[Hn Hlog]].
  { replace (n <? 0) with true by lia. exists w1, v, (-1), [], q.
    rewrite app_nil_r. split_and!; auto. }
  replace (n <? 0) with false by lia. replace (sz <? n) with false by lia.
  pose proof (jump_spec v q n Hr ltac:(lia)) as Hr1. fold (jump_head n v).
  rewrite Eiov, take_take in Hlog. replace (Z.to_nat n `min` Z.to_nat sz)%nat with (Z.to_nat n) in Hlog by lia.
  assert (Hz : zlen (take (Z.to_nat n) q) = n) by zlia.
  destruct ((0 <? sz - n) && negb is_min) eqn:Ec; zbool.
  - destruct (IH w1 (jump_head n v) (drop (Z.to_nat n) q) (sz - n)) as
      (w' & v' & ret & sent & rest & E & Hq & Hr' & Hl' & Hc' & Hret); [done|zlia|lia|].
    exists w', v', ret, (take (Z.to_nat n) q ++ sent), rest.
    split_and!; [done| |done| |done|].
    + by rewrite <- app_assoc, <- Hq, take_drop.
    + by rewrite Hl', Hlog, app_assoc.
    + rewrite zlen_app. destruct Hret as [|(? & ? & Hmin)]; [by left|right].
      split_and!; [done|lia|]. intros Hb. rewrite (Hmin Hb). lia.
  - exists w1, (jump_head n v), 0, (take (Z.to_nat n) q), (drop (Z.to_nat n) q).
    split_and!; auto; [by rewrite take_drop|]. right. split_and!; [done|lia|]. intros ->.
    destruct Ec; [lia|done].
Qed.

Lemma read_loop_spec (reader : St -> Z -> Z -> option (St * Z * list Z)) `{!ByteSource reader}
    fuel is_min w v q sz :
  vrep v q -> 0 < sz <= capacity v - zlen q -> sz < Z.of_nat fuel ->
  exists w' v' ret got,
    general_read_loop fuel reader is_min 0 w v sz = Some (w', v', ret) /\
    vrep v' (q ++ got) /\ source w = got ++ source w' /\
    (ret = -1 \/ ret = 0 /\ 0 < zlen got /\ (is_min = false -> zlen got = sz)).
Proof.
  revert w v q sz. induction fuel as [|fuel IH]; intros w v q sz Hr Hsz Hf; [lia|].
  cbn [general_read_loop]. set (n0 := if sz <? VBUF_HEAD_SZ v then sz else VBUF_HEAD_SZ v).
  destruct (source_ok w n0 (sz - n0) ltac:(lia)) as (w1 & n & d & -> & Hn). cbn [mbind option_bind].
  destruct Hn as [[Hneg Hsrc]|(Hn & Hd & Hu & Hsrc)].
  { replace (n <? 0) with true by lia. exists w1, v, (-1), [].
    rewrite app_nil_r. split_and!; auto. }
  replace (n <? 0) with false by lia. replace (sz <? n) with false by lia.
  replace (take (Z.to_nat n) d) with d by (symmetry; apply firstn_all2; unfold zlen in Hd; lia).
  destruct (scatter_spec v q sz d Hr ltac:(lia) ltac:(lia) Hu) as (b & E & Hr1). fold n0 in E.
  rewrite E. cbn [mbind option_bind]. rewrite Hd in Hr1. fold (jump_tail n b v).
  destruct ((0 <? sz - n) && negb is_min) eqn:Ec; zbool.
  - destruct (IH w1 (jump_tail n b v) (q ++ d) (sz - n) Hr1) as
      (w' & v' & ret & got & E' & Hr' & Hl' & Hret); [|lia|].
    { change (capacity (jump_tail n b v)) with (capacity v). zlia. }
    exists w', v', ret, (d ++ got). rewrite app_assoc.
    split_and!; [done|done|by rewrite <- app_assoc, <- Hl'|].
    rewrite zlen_app. destruct Hret as [|(? & ? & Hmin)]; [by left|right].
    split_and!; [done|lia|]. intros Hb. rewrite (Hmin Hb). lia.
  - exists w1, (jump_tail n b v), 0, d. split_and!; auto. right. split_and!; [done|lia|].
    intros ->. destruct Ec; [lia|done].
Qed.

(** [vbuf_general_write] to any writer that keeps making progress ends
    within one round per byte; what the writer received followed by what the
    buffer still holds is what the buffer held, so no byte is lost, repeated
    or reordered; with [VBUF_RWSZ_ALL] and no error the buffer ends empty.  The
    value returned is 0 or -1, never a count. *)
Theorem vbuf_general_write_spec (writer : St -> list Z -> list Z -> option (St * Z))
    `{!ByteSink writer} fuel v q w sz :
  vrep v q -> zlen q < Z.of_nat fuel ->
  exists w' v' ret sent rest,
    vbuf_general_write fuel v sz w writer = Some (w', v', ret) /\
    q = sent ++ rest /\ vrep v' rest /\ log w' = log w ++ sent /\
    (ret = 0 \/ ret = -1) /\
    (sz = VBUF_RWSZ_ALL -> ret = 0 -> rest = []) /\
    (0 < sz <= zlen q -> ret = 0 -> zlen sent = sz).
Proof.
  intros Hr Hf. unfold vbuf_general_write. rewrite (vrep_size v q Hr).
  set (is_min := negb _ && _). set (n := if sz =? VBUF_RWSZ_ALL then _ else _).
  destruct ((n <? 1) || (zlen q <? n)) eqn:Ec.
  - exists w, v, 0, [], q. rewrite app_nil_r. split_and!; auto.
    + intros -> _. apply zlen_zero. unfold n in Ec. cbn in Ec. zbool. zlia.
    + intros H _. unfold n, VBUF_RWSZ_ALL, VBUF_RWSZ_MIN in Ec.
      replace (sz =? 0) with false in Ec by lia. replace (sz =? -1) with false in Ec by lia. zbool. lia.
  - zbool. destruct (write_loop_spec writer fuel is_min w v q n Hr) as
      (w' & v' & ret & sent & rest & E & Hq & Hr' & Hl & Hc & Hret); [lia|lia|].
    exists w', v', ret, sent, rest. split_and!; auto; [tauto| |].
    + intros -> ->. destruct Hret as [|(_ & _ & Hm)]; [done|]. specialize (Hm eq_refl).
      unfold n in Hm. cbn in Hm. apply zlen_zero. rewrite Hq in Hm. zlia.
    + intros Hs ->. destruct Hret as [|(_ & _ & Hm)]; [done|]. unfold n, is_min in *.
      unfold VBUF_RWSZ_ALL, VBUF_RWSZ_MIN in *.
      replace (sz =? 0) with false in * by lia. replace (sz =? -1) with false in * by lia. by apply Hm.
Qed.

(** [vbuf_general_read] from any reader that keeps making progress ends
    within one round per byte of room; what it appends to the queue is what
    the reader gave, in order, within the capacity; with [VBUF_RWSZ_ALL] and
    no error the buffer ends full.  The value returned is 0 or -1. *)
Theorem vbuf_general_read_spec (reader : St -> Z -> Z -> option (St * Z * list Z))
    `{!ByteSource reader} fuel v q w sz :
  vrep v q -> capacity v < Z.of_nat fuel ->
  exists w' v' ret got,
    vbuf_general_read fuel v sz w reader = Some (w', v', ret) /\
    vrep v' (q ++ got) /\ source w = got ++ source w' /\
    (ret = 0 \/ ret = -1) /\
    (sz = VBUF_RWSZ_ALL -> ret = 0 -> zlen (q ++ got) = capacity v).
Proof.
  intros Hr Hf. unfold vbuf_general_read. rewrite (vrep_space v q Hr).
  pose proof (vrep_max v q Hr) as Hmax. pose proof (zlen_nonneg q).
  set (is_min := negb _ && _). set (n := if sz =? VBUF_RWSZ_ALL then _ else _).
  destruct ((n <? 1) || (capacity v - zlen q <? n)) eqn:Ec.
  - exists w, v, 0, []. rewrite app_nil_r. split_and!; auto.
    intros -> _. unfold n in Ec. cbn in Ec. zbool. lia.
  - zbool. destruct (read_loop_spec reader fuel is_min w v q n Hr) as
      (w' & v' & ret & got & E & Hr' & Hl & Hret); [lia|lia|].
    exists w', v', ret, got. split_and!; auto; [tauto|].
    intros -> ->. destruct Hret as [|(_ & _ & Hm)]; [done|]. specialize (Hm eq_refl).
    unfold n in Hm. cbn in Hm. rewrite zlen_app. lia.
Qed.

End Descriptors.

(** [vbuf_cstr] gives the queue as a string when the part stored at the
    start of the block is at most 128 bytes, or nothing wraps: the returned
    offset is followed by the bytes and a NUL, and the queue is unchanged. *)
Theorem vbuf_cstr_spec v q :
  vrep v q -> vtail v <= FLAT_TMP \/ vhead v <= vtail v ->
  exists v' r, vbuf_cstr v = Some (v', r) /\ vrep v' q /\
    match r with
    | None => q = []
    | Some h => q <> [] /\ mem_read (buf v') h (zlen q + 1) = Some (q ++ [0])
    end.
Proof. exact (cstr_spec v q). Qed.

(** A full buffer of 200 bytes whose first 50 are at the end of the block. *)
Definition wrapped_200 : VBUF :=
  MkVbuf (map (fun n => Z.of_nat n mod 256) (seq 50 150) ++ [0] ++
          map (fun n => Z.of_nat n mod 256) (seq 0 50)) 151 150 200.

(** Beyond 128 wrapped bytes [vbuf_flat] does not rotate the block: the
    buffer holds 0, 1, 2, ..., 199 and the string starts 150, 151, 152; the
    disabled in-place algorithm gives the right string. *)
Theorem vbuf_cstr_corrupts :
  vrep wrapped_200 (map Z.of_nat (seq 0 200)) /\
  (exists v', vbuf_cstr wrapped_200 = Some (v', Some 0) /\
     mem_read (buf v') 0 3 <> mem_read (map Z.of_nat (seq 0 200)) 0 3) /\
  (exists v', vbuf_flat_inplace wrapped_200 = Some v' /\
     mem_read (buf v') 0 200 = Some (map Z.of_nat (seq 0 200))).
Proof.
  split_and!.
  - apply (wrap_intro _ (map Z.of_nat (seq 50 150)) [0] (map Z.of_nat (seq 0 50))); try done.
    split_and!; [done|done|done|]. apply (bool_decide_unpack _). by vm_compute.
  - destruct (vbuf_cstr wrapped_200) as [[v' r]|] eqn:E; [|by vm_compute in E].
    vm_compute in E. injection E as <- <-. eexists. split; [reflexivity|]. by vm_compute.
  - eexists. split; [vm_compute; reflexivity|]. by vm_compute.
Qed.

(** [vbuf_getstr] loses a byte when the string is not terminated: reading
    the last [n] bytes of the queue, none of them NUL, into a larger buffer, it
    overwrites the last one with the NUL it adds. *)
Theorem vbuf_getstr_drops_last v q c sz :
  vrep v (q ++ [c]) -> Forall (fun x => x <> 0) (q ++ [c]) -> zlen q + 2 < sz ->
  exists v', vbuf_getstr v sz = Some (v', Some (q ++ [0])) /\ vbuf_size v' = 0.
Proof.
  intros Hr Hnz Hsz. unfold vbuf_getstr. pose proof (zlen_nonneg q). if_false.
  rewrite (vrep_empty v _ Hr). rewrite zlen_app. replace (_ =? 0) with false by zlia.
  assert (Hl : forall l out v n, vrep v l -> Forall (fun x => x <> 0) l -> (length l < n)%nat ->
    exists v', getstr_loop n v out = Some (v', inr (Z.of_nat (n - length l - 1), out ++ l)) /\ vrep v' []).
  { clear. induction l as [|x l IH]; intros out v n Hr Hnz Hn; (destruct n as [|n]; [cbn in Hn; lia|]);
      cbn [getstr_loop]; rewrite (vrep_empty v _ Hr).
    - cbn [Z.eqb zlen length Z.of_nat]. exists v. rewrite app_nil_r. split; [|done].
      do 4 f_equal. lia.
    - replace (_ =? 0) with false by zlia. destruct (pop_spec v _ Hr) as (v1 & -> & Hr1).
      cbn [mbind option_bind hd tl] in *. apply list.Forall_cons_1 in Hnz as [Hx Hnz].
      replace (x =? 0) with false by lia. cbn [length] in Hn.
      destruct (IH (out ++ [x]) v1 n Hr1 Hnz ltac:(lia)) as (v' & -> & Hr').
      exists v'. split; [|done]. by rewrite <- app_assoc. }
  destruct (Hl (q ++ [c]) [] v (Z.to_nat sz) Hr Hnz) as (v' & -> & Hr').
  { rewrite length_app. unfold zlen in *. cbn. lia. }
  cbn [mbind option_bind app]. replace (_ =? 0) with false
    by (rewrite length_app; unfold zlen in *; cbn [length]; symmetry; apply Z.eqb_neq; lia).
  rewrite (mem_write_one q c 0 []) by zlia. cbn [mbind option_bind].
  exists v'. split; [done|]. exact (vrep_size _ _ Hr').
Qed.

(** [vbuf_peekat] does not see the part of a wrapped queue at the end of
    the block: it answers EOF there for an index within the size. *)
Theorem vbuf_peekat_wrapped v q i :
  vrep v q -> vtail v < vhead v -> 0 <= i < buf_end v - vhead v ->
  vbuf_peekat v i = Some EOF /\ i < vbuf_size v.
Proof.
  intros Hr Hw Hi. pose proof (vrep_head_bound v q Hr). pose proof (vrep_tail_bound v q Hr). split.
  - unfold vbuf_peekat. destruct (_ || _); [done|]. by repeat (if_false).
  - unfold vbuf_size. if_false. lia.
Qed.

(** *** Instances *)

(** A descriptor: every other call is interrupted, the others transfer at most
    three bytes; a read at the end of the source gives 0. *)
Definition chunk (b : list Z) : list Z := take 3 b.

Definition demo_writev (iov : list (list Z)) (w : bool * list Z)
    : (bool * list Z) * (Z * Z * unit) :=
  if w.1 then ((false, w.2), (-1, EINTR, tt))
  else ((true, w.2 ++ chunk (concat iov)), (zlen (chunk (concat iov)), 0, tt)).

Definition demo_readv (iov : list Z) (w : bool * list Z)
    : (bool * list Z) * (Z * Z * list Z) :=
  if w.1 then ((false, w.2), (-1, EINTR, []))
  else let n := Z.to_nat (Z.min 3 (fold_right Z.add 0 iov)) in
       ((true, drop n w.2), (zlen (take n w.2), 0, map u8 (take n w.2))).

#[local] Instance demo_sink : ByteSink (vbuf_rw_write 2 demo_writev).
Proof.
  refine {| log := snd |}. intros w a b Hab. unfold vbuf_rw_write.
  set (iov := if zlen b =? 0 then [a] else [a; b]).
  assert (Hc : concat iov = a ++ b).
  { unfold iov. destruct (Z.eqb_spec (zlen b) 0) as [E|]; cbn; rewrite ?app_nil_r; [|done].
    by rewrite (zlen_zero b E), app_nil_r. }
  assert (Hz : zlen (chunk (concat iov)) = Z.min 3 (zlen (a ++ b)))
    by (rewrite Hc; unfold chunk; rewrite zlen_take; lia).
  exists (true, w.2 ++ chunk (concat iov)), (zlen (chunk (concat iov))). split.
  - destruct w as [[] l]; cbn [rw_retry demo_writev fst snd Z.ltb Z.compare andb Z.eqb EINTR Pos.eqb].
    + replace (_ <? 0) with false by lia. cbn [andb mbind option_bind].
      by replace (_ <=? 0) with false by lia.
    + replace (_ <? 0) with false by lia. cbn [andb mbind option_bind].
      by replace (_ <=? 0) with false by lia.
  - right. split; [lia|]. cbn [snd]. f_equal. rewrite Hz, Hc. unfold chunk, zlen.
    destruct (Nat.le_gt_cases 3 (length (a ++ b))).
    + f_equal. lia.
    + rewrite !take_ge by lia. done.
Defined.

#[local] Instance demo_source : ByteSource (vbuf_rw_read 2 demo_readv).
Proof.
  refine {| source := fun w => map u8 w.2 |}. intros w n0 n1 Hn. unfold vbuf_rw_read.
  set (iov := if n1 =? 0 then [n0] else [n0; n1]).
  assert (Hc : fold_right Z.add 0 iov = n0 + n1)
    by (unfold iov; destruct (Z.eqb_spec n1 0); cbn; lia).
  set (n := Z.to_nat (Z.min 3 (fold_right Z.add 0 iov))).
  pose proof (zlen_nonneg (take n w.2)) as Hp.
  exists (true, drop n w.2), (if zlen (take n w.2) <=? 0 then -1 else zlen (take n w.2)),
    (map u8 (take n w.2)). split.
  - destruct w as [[] l]; cbn [rw_retry demo_readv fst snd Z.ltb Z.compare andb Z.eqb EINTR Pos.eqb] in *;
      fold n; replace (zlen (take n l) <? 0) with false by lia; cbn [andb]; by destruct (_ <=? 0).
  - cbn [snd]. destruct (Z.leb_spec (zlen (take n w.2)) 0) as [H0|H0].
    + left. split; [done|]. f_equal. assert (take n w.2 = []) as E by (apply zlen_zero; lia).
      by rewrite <- (take_drop n w.2) at 2; rewrite E.
    + right. rewrite zlen_map. split_and!; [lia| |done| |].
      * rewrite zlen_take. unfold n. lia.
      * apply List.Forall_map. apply list.Forall_forall. intros x _. apply u8_range.
      * rewrite <- map_app, take_drop. done.
Defined.

(** Popping five of three bytes leaves six: the free bytes of the block. *)
Example vbuf_popn_beyond :
  let v := MkVbuf [104; 105; 33; 0; 0; 0; 0; 0] 0 3 7 in
  vbuf_size v = 3 /\ vbuf_size (vbuf_popn v 5) = 6.
Proof. vm_compute. auto. Qed.

Definition demo_ring : VBUF := MkVbuf [104; 105; 33; 0; 0; 0; 97; 98] 6 3 7.

Lemma demo_ring_rep : vrep demo_ring [97; 98; 104; 105; 33].
Proof.
  apply (wrap_intro _ [104; 105; 33] [0; 0; 0] [97; 98]); try done.
  split_and!; [done|done|done|]. apply (bool_decide_unpack _). by vm_compute.
Qed.


Lemma vbuf_general_write_spec_witness :
  exists w' v', vbuf_general_write 9 demo_ring VBUF_RWSZ_ALL (true, []) (vbuf_rw_write 2 demo_writev)
      = Some (w', v', 0) /\
    w'.2 = [97; 98; 104; 105; 33] /\ vrep v' [].
Proof.
  destruct (vbuf_general_write_spec (vbuf_rw_write 2 demo_writev) 9 demo_ring [97; 98; 104; 105; 33]
    (true, []) VBUF_RWSZ_ALL) as (w' & v' & ret & sent & rest & E & Hq & Hr & Hl & _ & Hall & _).
  - apply demo_ring_rep.
  - by vm_compute.
  - assert (ret = 0) as -> by (clear -E; vm_compute in E; injection E as _ _ E; exact (eq_sym E)).
    specialize (Hall eq_refl eq_refl). subst rest. rewrite app_nil_r in Hq. subst sent.
    exists w', v'. split; [exact E|]. split; [exact Hl|exact Hr].
Defined.

Lemma vbuf_general_read_spec_witness :
  exists w' v', vbuf_general_read 9 demo_ring VBUF_RWSZ_ALL (false, [1; 2; 3; 4])
      (vbuf_rw_read 2 demo_readv) = Some (w', v', 0) /\
    vrep v' [97; 98; 104; 105; 33; 1; 2].
Proof.
  destruct (vbuf_general_read_spec (vbuf_rw_read 2 demo_readv) 9 demo_ring [97; 98; 104; 105; 33]
    (false, [1; 2; 3; 4]) VBUF_RWSZ_ALL) as (w' & v' & ret & got & E & Hr & Hs & _).
  - apply demo_ring_rep.
  - by vm_compute.
  - assert (ret = 0 /\ w' = (true, [3; 4])) as [-> ->]
      by (clear -E; vm_compute in E; injection E as E1 _ E3; split; [exact (eq_sym E3)|exact (eq_sym E1)]).
    assert (got = [1; 2]) as ->.
    { apply (app_inv_tail [3; 4]). symmetry. exact Hs. }
    exists (true, [3; 4]), v'. split; [exact E|exact Hr].
Defined.

Lemma vbuf_cstr_spec_witness :
  exists v', vbuf_cstr demo_ring = Some (v', Some 0) /\
    mem_read (buf v') 0 6 = Some [97; 98; 104; 105; 33; 0].
Proof.
  destruct (vbuf_cstr_spec demo_ring [97; 98; 104; 105; 33]) as (v' & r & E & _ & H).
  - apply demo_ring_rep.
  - left. by vm_compute.
  - assert (r = Some 0) as -> by (clear -E; vm_compute in E; injection E as _ E; exact (eq_sym E)).
    exists v'. split; [exact E|]. apply H.
Defined.

Lemma vbuf_getstr_drops_last_witness :
  exists v', vbuf_getstr demo_ring 80 = Some (v', Some [97; 98; 104; 105; 0]) /\ vbuf_size v' = 0.
Proof.
  apply (vbuf_getstr_drops_last demo_ring [97; 98; 104; 105] 33 80).
  - apply demo_ring_rep.
  - repeat constructor; vm_compute; congruence.
  - by vm_compute.
Defined.

Lemma vbuf_peekat_wrapped_witness :
  vbuf_peekat demo_ring 1 = Some EOF /\ 1 < vbuf_size demo_ring.
Proof.
  apply (vbuf_peekat_wrapped demo_ring [97; 98; 104; 105; 33] 1).
  - apply demo_ring_rep.
  - by vm_compute.
  - by vm_compute.
Defined.

End VbufProps.
