(* ===== verification/Aids.v ===== *)
(** Article identifiers ([common/bbs/aids.c], [include/pttstruct.h]).

    An [aidu_t] packs an index hint, the type, the creation stamp and the
    random suffix of an article's file name into 64 bits; an AID is its
    8-character form.  [search_dir_by_stamp_fd_bounded] finds the article of an
    identifier in a .DIR file, which is read here as its list of headers. *)

From Stdlib Require Import String.
From S2P Require Import Prelude Cstr Time4 Stamp.
Import Cstr Time4 Stamp.

Module Aids.

(** *** [aidu_t] *)

Definition AIDU_TYPE_G : Z := Z.shiftl 1 44.
Definition AIDU_RAW_MASK : Z := 0x00001FFFFFFFFFFF.
Definition AIDU_IDX_SHIFT : Z := 45.
Definition AIDU_IDX_MASK : Z := 0x7FFFF.

Definition aidu_type (a : Z) : Z := if Z.land a AIDU_TYPE_G =? 0 then 0 else 1.
Definition aidu_stamp (a : Z) : Z := s32 (Z.land (Z.shiftr a 12) 0xFFFFFFFF).
Definition aidu_hex (a : Z) : Z := Z.land a 0xFFF.
Definition aidu_idx (a : Z) : Z := Z.land (Z.shiftr a AIDU_IDX_SHIFT) AIDU_IDX_MASK.
Definition aidu_raw (a : Z) : Z := Z.land a AIDU_RAW_MASK.

Definition safe_idx (idx : Z) : Z :=
  if (0 <? idx) && (u32 idx <=? AIDU_IDX_MASK) then u32 idx else 0.
Definition aidu_pack (idx stamp hex : Z) : Z :=
  Z.lor (Z.lor (u64 (Z.shiftl (safe_idx idx) AIDU_IDX_SHIFT)) (Z.shiftl (u32 stamp) 12))
        (Z.land hex 0xFFF).
Definition aidu_with_idx (a idx : Z) : Z :=
  Z.lor (Z.land a AIDU_RAW_MASK) (u64 (Z.shiftl (safe_idx idx) AIDU_IDX_SHIFT)).

(** *** Names and AIDs *)

Definition fn2aidu (fn : option (list Z)) : Z :=
  match fn with
  | None => 0
  | Some fn =>
      if (negb (cchar fn 0 =? 77) && negb (cchar fn 0 =? 71)) || negb (cchar fn 1 =? 46)
      then 0 else
      let ts := get_fhdr_stamp_ts (Some fn) in
      if ts <=? 0 then 0 else
      match strstr (drop 2 fn) (str ".A") with
      | None => 0
      | Some dot_a =>
          if negb (cchar dot_a 2 =? 0) && negb (cchar dot_a 2 =? 46) then 0 else
          let hex := get_fhdr_stamp_hex (Some fn) in
          let raw := aidu_pack 0 ts hex in
          if cchar fn 0 =? 71 then Z.lor raw AIDU_TYPE_G else raw
      end
  end.

Definition aidu2aidc_table : list Z :=
  str "0123456789ABCDEFGHIJKLMNOPQRSTUVWXYZabcdefghijklmnopqrstuvwxyz-_".

(** The loop fills the buffer from its end; [acc] is what is written so far. *)
Fixpoint aidc_loop (n : nat) (aidu : Z) (acc : list Z) : list Z :=
  match n with
  | O => acc
  | S n =>
      aidc_loop n (aidu / zlen aidu2aidc_table)
        (cchar aidu2aidc_table (aidu mod zlen aidu2aidc_table) :: acc)
  end.
Definition aidu2aidc (orig_aidu : Z) : list Z := aidc_loop 8 (aidu_raw orig_aidu) [].

Definition aidu2fn (aidu : Z) : list Z :=
  let v1 := Z.land (Z.shiftr aidu 12) 0xffffffff in
  let v2 := Z.land aidu 0xfff in
  take (Z.to_nat (FNLEN - 1))
    ((if aidu_type aidu =? 0 then 77 else 71) :: 46 ::
     fmt_d (s32 v1) ++ str ".A." ++ fmt_03X v2).

(** The value of one character, [None] for one outside of the alphabet. *)
Definition aidc_digit (c : Z) : option Z :=
  if (48 <=? c) && (c <=? 57) then Some (c - 48)
  else if (65 <=? c) && (c <=? 90) then Some (c - 65 + 10)
  else if (97 <=? c) && (c <=? 122) then Some (c - 97 + 36)
  else if c =? 45 then Some 62
  else if c =? 95 then Some 63
  else None.
Fixpoint aidc_scan (s : list Z) (aidu : Z) : Z :=
  match s with
  | [] => aidu
  | c :: s =>
      if (c =? 0) || (c =? 32) then aidu else
      match aidc_digit c with
      | None => 0
      | Some v => aidc_scan s (Z.lor (u64 (Z.shiftl aidu 6)) (Z.land v 0x3f))
      end
  end.
Definition aidc2aidu (aidc : option (list Z)) : Z :=
  match aidc with None => 0 | Some s => aidc_scan s 0 end.

(** *** Searching a .DIR *)

(** The fields the search reads; the other bytes of the header are [fh_rest]. *)
Record fileheader := Fileheader
  { filename : list Z; owner : list Z; filemode : Z; fh_rest : list Z }.

Definition FILE_BOTTOM : Z := 0x0008.

Definition match_fhdr_stamp_hex (fh : fileheader) (prefix_ch target_ts target_hex : Z)
    (allow_prefix : bool) (required_mode : Z) : bool :=
  let fn := filename fh in
  if (cchar fn 0 =? 0) || (cchar fn 0 =? 46) then false else
  if negb (prefix_ch =? 0) && negb (cchar fn 0 =? prefix_ch) &&
     negb ((prefix_ch =? 77) && (cchar fn 0 =? 76) &&
           negb (Z.land required_mode FILE_BOTTOM =? 0)) then false else
  if negb (required_mode =? 0) &&
     ((cchar (owner fh) 0 =? 45) ||
      negb (Z.land (filemode fh) required_mode =? required_mode)) then false else
  if negb (get_fhdr_stamp_ts (Some fn) =? target_ts) then false else
  let hex := get_fhdr_stamp_hex (Some fn) in
  if hex =? target_hex then
    if negb (target_hex =? 0) || allow_prefix then true
    else match strrchr fn 46 with
         | None => false
         | Some dot => (cchar dot 1 =? 48) || ((cchar dot 1 =? 65) && (cchar dot 2 =? 0))
         end
  else false.

(** [pread] of [cnt] headers from the 1-based record [start]. *)
Definition pread_one (dir : list fileheader) (i : Z) : option fileheader := zget dir (i - 1).
Definition pread_many (dir : list fileheader) (start cnt : Z) : list fileheader :=
  take (Z.to_nat cnt) (drop (Z.to_nat (start - 1)) dir).

(** for (i = cnt - 1; i >= 0; i--): the last header that matches. *)
Fixpoint scan_back (m : fileheader -> bool) (buf : list fileheader) : option (Z * fileheader) :=
  match buf with
  | [] => None
  | fh :: buf =>
      match scan_back m buf with
      | Some (i, r) => Some (i + 1, r)
      | None => if m fh then Some (0, fh) else None
      end
  end.

(** Stage 3: the binary search; the result is [mid]. *)
Fixpoint stamp_bsearch (fuel : nat) (dir : list fileheader) (target_ts low high mid : Z)
    : option Z :=
  match fuel with
  | O => None
  | S fuel =>
      if low <=? high then
        let mid := low + Z.quot (high - low) 2 in
        match pread_one dir mid with
        | None => Some mid
        | Some fh =>
            let ts := get_fhdr_stamp_ts (Some (filename fh)) in
            if ts =? target_ts then Some mid
            else if ts <? target_ts then stamp_bsearch fuel dir target_ts (mid + 1) high mid
            else stamp_bsearch fuel dir target_ts low (mid - 1) mid
        end
      else Some mid
  end.

Definition CHUNK : Z := 256.
Definition BSEARCH_WIN : Z := 256.

(** Stages 3 and 4: backwards from record [cur] to record [lo], in chunks. *)
Fixpoint batch_scan (fuel : nat) (m : fileheader -> bool) (dir : list fileheader) (lo cur : Z)
    : option (option (Z * fileheader)) :=
  match fuel with
  | O => None
  | S fuel =>
      if lo <=? cur then
        let cstart := if cur - CHUNK + 1 <? lo then lo else cur - CHUNK + 1 in
        let ccnt := cur - cstart + 1 in
        match pread_many dir cstart ccnt with
        | [] => Some None
        | buf =>
            match scan_back m buf with
            | Some (i, fh) => Some (Some (cstart + i, fh))
            | None => batch_scan fuel m dir lo (cur - CHUNK)
            end
        end
      else Some None
  end.

(** The window of stage 3 around [mid]: its first record and its size.  The sum
    with [max_backtrack] is one of [int]s. *)
Definition bsearch_window (total mid max_backtrack : Z) : Z * Z :=
  let win_size := if 0 <=? max_backtrack then s32 (max_backtrack * 2 + BSEARCH_WIN) else BSEARCH_WIN in
  let win_size := if total <? win_size then total else win_size in
  let wstart := mid - Z.quot win_size 2 in
  let wstart := if wstart <? 1 then 1 else wstart in
  let wstart := if total <? wstart + win_size - 1 then total - win_size + 1 else wstart in
  let wstart := if wstart <? 1 then 1 else wstart in
  (wstart, win_size).

(** Stage 1. *)
Definition hint_exact (m : fileheader -> bool) (dir : list fileheader) (total hint_idx : Z)
    : option (Z * fileheader) :=
  if (1 <=? hint_idx) && (hint_idx <=? total) then
    fh ← pread_one dir hint_idx;
    if m fh then Some (hint_idx, fh) else None
  else None.

(** Stage 2. *)
Definition hint_window (m : fileheader -> bool) (dir : list fileheader) (total hint_idx : Z)
    : option (Z * fileheader) :=
  if 1 <=? hint_idx then
    let start := hint_idx - 32 in
    let e := hint_idx + 4 in
    let start := if start <? 1 then 1 else start in
    let e := if total <? e then total else e in
    if start <=? e then
      '(i, fh) ← scan_back m (pread_many dir start (e - start + 1));
      Some (start + i, fh)
    else None
  else None.

Section Search.
(** [fileheader_storage_to_mem], or nothing when the encodings agree. *)
Variable conv : fileheader -> fileheader.

Definition found (r : option (Z * fileheader)) : Z * option fileheader :=
  match r with Some (i, fh) => (i, Some (conv fh)) | None => (0, None) end.

(** The return value and [*out_fh] when it is set. *)
Definition search_dir_by_stamp_fd_bounded (dir : list fileheader)
    (total hint_idx prefix_ch target_ts target_hex : Z) (allow_prefix : bool)
    (required_mode max_backtrack : Z) : option (Z * option fileheader) :=
  let m fh := match_fhdr_stamp_hex fh prefix_ch target_ts target_hex allow_prefix required_mode in
  if total <=? 0 then Some (0, None) else
  match hint_exact m dir total hint_idx with
  | Some r => Some (found (Some r))
  | None =>
  match hint_window m dir total hint_idx with
  | Some r => Some (found (Some r))
  | None =>
  let fuel := S (Z.to_nat total) in
  stage3 ←
    (if BSEARCH_WIN <? total then
       mid ← stamp_bsearch fuel dir target_ts 1 total 1;
       let '(wstart, win_size) := bsearch_window total mid max_backtrack in
       r ← batch_scan fuel m dir wstart (wstart + win_size - 1);
       match r with
       | Some r => Some (Some (found (Some r)))
       | None => if 0 <=? max_backtrack then Some (Some (0, None)) else Some None
       end
     else Some None);
  match stage3 with
  | Some r => Some r
  | None => r ← batch_scan fuel m dir 1 total; Some (found r)
  end
  end
  end.

Definition search_dir_by_stamp_fd (dir : list fileheader)
    (total hint_idx prefix_ch target_ts target_hex : Z) (allow_prefix : bool)
    (required_mode : Z) : option (Z * option fileheader) :=
  search_dir_by_stamp_fd_bounded dir total hint_idx prefix_ch target_ts target_hex allow_prefix
    required_mode (-1).

Definition allow_prefix_of (aidu required_mode : Z) : bool :=
  (aidu_hex aidu =? 0) && (Z.land required_mode FILE_BOTTOM =? 0).
Definition prefix_of (aidu : Z) : Z := if aidu_type aidu =? 0 then 77 else 71.

Definition search_dir_by_aidu_fd_bounded (dir : list fileheader) (total aidu required_mode
    max_backtrack : Z) : option (Z * option fileheader) :=
  if aidu_raw aidu =? 0 then Some (0, None) else
  search_dir_by_stamp_fd_bounded dir total (aidu_idx aidu) (prefix_of aidu) (aidu_stamp aidu)
    (aidu_hex aidu) (allow_prefix_of aidu required_mode) required_mode max_backtrack.

Definition search_dir_by_aidu_fd (dir : list fileheader) (total aidu required_mode : Z)
    : option (Z * option fileheader) :=
  search_dir_by_aidu_fd_bounded dir total aidu required_mode (-1).

Definition SEARCH_AID_MAGIC_V2 : Z := 0x53414932.
Record search_aid_req := SearchAidReq
  { magic : Z; req_bid : Z; req_aidu : Z; req_mode : Z; req_source : Z; req_direct : list Z }.
Record search_aid_resp := SearchAidResp
  { resp_status : Z; resp_found_idx : Z; resp_fh : fileheader }.

(** The search service: [None] when it cannot be reached, or a transfer is
    short. *)
Variable search_svc : search_aid_req -> option search_aid_resp.

(** The return value, and [*out_fh] when it is set. *)
Definition search_aidu_via_svc (direct : list Z) (bid aidu required_mode source : Z)
    : Z * option fileheader :=
  let req := SearchAidReq SEARCH_AID_MAGIC_V2 bid aidu required_mode source (strlcpy 256 direct) in
  match search_svc req with
  | None => (-1, None)
  | Some resp =>
      if negb (resp_status resp =? 0) then (-1, None)
      else (resp_found_idx resp,
            if 0 <? resp_found_idx resp then Some (resp_fh resp) else None)
  end.

(** [file] is the .DIR, [None] when it cannot be opened. The results are the
    return value, [*out_fh], and whether the service's cache is invalidated. *)
Definition search_dir_by_aidu (direct : option (list Z)) (file : option (list fileheader))
    (aidu required_mode source : Z) : option (Z * option fileheader * bool) :=
  match direct with
  | None => Some (0, None, false)
  | Some direct =>
      if aidu_raw aidu =? 0 then Some (0, None, false) else
      let is_g := negb (aidu_type aidu =? 0) in
      if is_g && bool_decide (is_Some (strstr direct (str ".DIR"))) then Some (0, None, false) else
      if negb is_g && (bool_decide (is_Some (strstr direct (str ".Names"))) ||
                       bool_decide (is_Some (strstr direct (str "mandex"))))
      then Some (0, None, false) else
      match file with
      | None | Some [] => Some (0, None, false)
      | Some dir =>
          let total := zlen dir in
          let local out inv :=
            '(i, o) ← search_dir_by_aidu_fd dir total aidu required_mode;
            Some (i, match o with Some fh => Some fh | None => out end, inv) in
          if aidu_idx aidu =? 0 then
            let '(svc_idx, out) := search_aidu_via_svc direct 0 aidu required_mode source in
            if svc_idx =? 0 then Some (0, None, false) else
            if 0 <? svc_idx then
              match (if svc_idx <=? total then pread_one dir svc_idx else None) with
              | Some vfh =>
                  if match_fhdr_stamp_hex vfh (prefix_of aidu) (aidu_stamp aidu) (aidu_hex aidu)
                       (allow_prefix_of aidu required_mode) required_mode
                  then Some (svc_idx, Some (conv vfh), false)
                  else local out true
              | None => local out true
              end
            else local None false
          else local None false
      end
  end.

Definition search_dir_by_aidu_legacy := fun direct file aidu required_mode =>
  search_dir_by_aidu direct file aidu required_mode 0.

Definition search_aidu (bfile : option (list Z)) (file : option (list fileheader))
    (aidu source : Z) : option Z :=
  '(idx, _, _) ← search_dir_by_aidu bfile file aidu 0 source;
  Some (if 0 <? idx then idx - 1 else -1).
Definition search_aidu_legacy := fun bfile file aidu => search_aidu bfile file aidu 0.

End Search.

End Aids.
