(* ===== verification/AidsProps.v ===== *)
(** The properties of article identifiers ([Aids]), each with an instance. *)

From Stdlib Require Import String.
From S2P Require Import Prelude Cstr Time4 Stamp Aids.
Import Cstr Time4 Stamp Aids.

Module AidsProps.

(** *** The bits of an identifier *)

(** [i]: index, [g]: type, [s]: stamp, [h]: suffix. *)
Definition aidu_val (i g s h : Z) : Z := i * 2 ^ 45 + g * 2 ^ 44 + s * 2 ^ 12 + h.
Definition fields_ok (i g s h : Z) : Prop :=
  0 <= i < 2 ^ 19 /\ 0 <= g <= 1 /\ is_u32 s /\ 0 <= h < 2 ^ 12.

Lemma type_bit a : Z.land a AIDU_TYPE_G = ((a / 2 ^ 44) mod 2) * 2 ^ 44.
Proof.
  rewrite <- Z.testbit_spec' by lia. apply Z.bits_inj'. intros i Hi.
  rewrite <- Z.shiftl_mul_pow2 by lia. rewrite Z.land_spec.
  unfold AIDU_TYPE_G. rewrite !Z.shiftl_spec by done.
  destruct (Z.eqb_spec i 44) as [->|Hne].
  - rewrite Z.sub_diag. by destruct (Z.testbit a 44).
  - replace (Z.testbit 1 (i - 44)) with false.
    + rewrite andb_false_r. destruct (Z.testbit a 44); cbn [Z.b2z]; [|by rewrite Z.bits_0].
      destruct (Z.lt_ge_cases i 44); [by rewrite Z.testbit_neg_r by lia|].
      change 1 with (Z.of_N 1). symmetry. apply Z.bits_above_log2; cbn; lia.
    + destruct (Z.lt_ge_cases i 44); [by rewrite Z.testbit_neg_r by lia|].
      symmetry. apply Z.bits_above_log2; cbn; lia.
Qed.

Lemma div_mod_eq a q n r : a = q * n + r -> 0 <= r < n -> a / n = q /\ a mod n = r.
Proof.
  intros -> Hr. split.
  - symmetry. apply Z.div_unique_pos with r; lia.
  - symmetry. apply Z.mod_unique_pos with q; lia.
Qed.

Lemma val_fields i g s h :
  fields_ok i g s h ->
  aidu_idx (aidu_val i g s h) = i /\ aidu_type (aidu_val i g s h) = g /\
  aidu_stamp (aidu_val i g s h) = s32 s /\ aidu_hex (aidu_val i g s h) = h /\
  aidu_raw (aidu_val i g s h) = aidu_val 0 g s h.
Proof.
  unfold fields_ok, is_u32, aidu_val. intros (Hi & Hg & Hs & Hh).
  unfold aidu_idx, aidu_type, aidu_stamp, aidu_hex, aidu_raw, AIDU_IDX_SHIFT.
  change AIDU_IDX_MASK with (Z.ones 19). change 0xFFFFFFFF with (Z.ones 32).
  change 0xFFF with (Z.ones 12). change AIDU_RAW_MASK with (Z.ones 45).
  rewrite type_bit, !Z.land_ones, !Z.shiftr_div_pow2 by lia.
  set (a := i * 2 ^ 45 + g * 2 ^ 44 + s * 2 ^ 12 + h).
  destruct (div_mod_eq a i (2 ^ 45) (g * 2 ^ 44 + s * 2 ^ 12 + h)) as [E1 E2]; [unfold a; lia|lia|].
  destruct (div_mod_eq a (2 * i + g) (2 ^ 44) (s * 2 ^ 12 + h)) as [E3 _]; [unfold a; lia|lia|].
  destruct (div_mod_eq a ((2 * i + g) * 2 ^ 32 + s) (2 ^ 12) h) as [E4 E5]; [unfold a; lia|lia|].
  rewrite E1, E2, E3, E4, E5. clear E1 E2 E3 E4 E5.
  split_and!; [by apply Z.mod_small| | |done|lia].
  - rewrite (proj2 (div_mod_eq (2 * i + g) i 2 g ltac:(lia) ltac:(lia))).
    destruct (Z.eqb_spec (g * 2 ^ 44) 0); lia.
  - f_equal. by apply (div_mod_eq _ (2 * i + g) (2 ^ 32) s).
Qed.

Lemma safe_idx_range idx : 0 <= safe_idx idx < 2 ^ 19.
Proof.
  unfold safe_idx, AIDU_IDX_MASK. destruct (_ && _) eqn:E; zbool; [|lia].
  pose proof (u32_range idx) as Hu. unfold is_u32 in Hu. lia.
Qed.

Lemma shiftl_idx idx : u64 (Z.shiftl (safe_idx idx) AIDU_IDX_SHIFT) = Z.shiftl (safe_idx idx) 45.
Proof.
  apply Z.mod_small. pose proof (safe_idx_range idx). unfold AIDU_IDX_SHIFT.
  rewrite Z.shiftl_mul_pow2; lia.
Qed.

Lemma pack_val idx stamp hex :
  0 <= hex < 2 ^ 12 -> aidu_pack idx stamp hex = aidu_val (safe_idx idx) 0 (u32 stamp) hex.
Proof.
  intros Hh. unfold aidu_pack, aidu_val. rewrite shiftl_idx.
  pose proof (u32_range stamp) as Hs. unfold is_u32 in Hs.
  change 0xFFF with (Z.ones 12). rewrite Z.land_ones, (Z.mod_small hex) by lia.
  rewrite <- Z.lor_assoc, (lor_shiftl_add (u32 stamp)) by lia.
  rewrite lor_shiftl_add by lia. lia.
Qed.

Lemma with_idx_val i g s h idx :
  fields_ok i g s h -> aidu_with_idx (aidu_val i g s h) idx = aidu_val (safe_idx idx) g s h.
Proof.
  intros Hf. unfold aidu_with_idx. destruct (val_fields i g s h Hf) as (_ & _ & _ & _ & E).
  unfold aidu_raw in E. rewrite E, shiftl_idx, Z.lor_comm.
  destruct Hf as (Hi & Hg & Hs & Hh). unfold is_u32, aidu_val in *.
  rewrite lor_shiftl_add by lia. lia.
Qed.

Lemma val_type_g s h :
  is_u32 s -> 0 <= h < 2 ^ 12 -> Z.lor (aidu_val 0 0 s h) AIDU_TYPE_G = aidu_val 0 1 s h.
Proof.
  unfold is_u32, aidu_val. intros. rewrite Z.lor_comm. unfold AIDU_TYPE_G.
  rewrite lor_shiftl_add by lia. lia.
Qed.

(** *** AIDs *)

Fixpoint aidc_digits (n : nat) (v : Z) : list Z :=
  match n with
  | O => []
  | S n => aidc_digits n (v / 64) ++ [cchar aidu2aidc_table (v mod 64)]
  end.

Lemma aidc_loop_digits n v acc : aidc_loop n v acc = aidc_digits n v ++ acc.
Proof.
  revert v acc. induction n as [|n IH]; intros v acc; [done|]. cbn [aidc_loop aidc_digits].
  change (zlen aidu2aidc_table) with 64. by rewrite IH, <- app_assoc.
Qed.

Lemma aidc_digit_table d :
  0 <= d < 64 -> let c := cchar aidu2aidc_table d in
  c <> 0 /\ c <> 32 /\ aidc_digit c = Some d.
Proof.
  intros Hd c. assert (E : forallb (fun n => let c := cchar aidu2aidc_table (Z.of_nat n) in
      negb (c =? 0) && negb (c =? 32) && bool_decide (aidc_digit c = Some (Z.of_nat n))) (seq 0 64) = true)
    by (vm_compute; reflexivity).
  rewrite forallb_forall in E. specialize (E (Z.to_nat d)). rewrite Z2Nat.id in E by lia.
  specialize (E ltac:(apply in_seq; lia)). fold c in E. cbv zeta in E. zbool.
  by apply bool_decide_eq_true in H0.
Qed.

Lemma aidc_scan_digits n v r :
  (n <= 8)%nat -> 0 <= v < 64 ^ Z.of_nat n -> aidc_scan (aidc_digits n v ++ r) 0 = aidc_scan r v.
Proof.
  revert v r. induction n as [|n IH]; intros v r Hn Hv.
  { replace v with 0 by (cbn in Hv; lia). done. }
  cbn [aidc_digits]. rewrite <- app_assoc. rewrite Nat2Z.inj_succ, Z.pow_succ_r in Hv by lia.
  assert (Hq : 0 <= v / 64 < 64 ^ Z.of_nat n).
  { split; [apply Z.div_pos; lia|apply Z.div_lt_upper_bound; lia]. }
  assert (Hp : 64 ^ Z.of_nat n <= 64 ^ 7) by (apply Z.pow_le_mono_r; lia).
  rewrite IH by (done || lia). cbn [app aidc_scan].
  pose proof (Z.mod_pos_bound v 64 ltac:(lia)) as Hm.
  destruct (aidc_digit_table (v mod 64) Hm) as (H0 & H32 & ->).
  replace (_ || _) with false by lia.
  change 0x3f with (Z.ones 6). rewrite Z.land_ones by lia.
  change (2 ^ 6) with 64. rewrite Z.mod_mod by lia.
  replace (u64 (Z.shiftl (v / 64) 6)) with (Z.shiftl (v / 64) 6).
  - rewrite lor_shiftl_add by (change (2 ^ 6) with 64; lia). f_equal. change (2 ^ 6) with 64.
    pose proof (Z.div_mod v 64). lia.
  - symmetry. apply Z.mod_small. rewrite Z.shiftl_mul_pow2 by lia. lia.
Qed.

Lemma aidc_roundtrip a : aidc2aidu (Some (aidu2aidc a)) = aidu_raw a.
Proof.
  unfold aidc2aidu, aidu2aidc. rewrite aidc_loop_digits. rewrite aidc_scan_digits; [done|lia|].
  unfold aidu_raw. change AIDU_RAW_MASK with (Z.ones 45). rewrite Z.land_ones by lia.
  pose proof (Z.mod_pos_bound a (2 ^ 45)). lia.
Qed.

(** *** Names *)

Definition article_name (c t h : Z) : list Z := c :: 46 :: fmt_u t ++ str ".A." ++ fmt_03X h.

Lemma strstr_article t h :
  0 <= t -> strstr (fmt_u t ++ str ".A." ++ fmt_03X h) (str ".A") = Some (str ".A." ++ fmt_03X h).
Proof.
  intros Ht. change (str ".A.") with (46 :: [65; 46]). change (str ".A") with (46 :: [65]).
  cbn [app]. apply strstr_digits; [apply fmt_base_Forall; lia|vm_compute; congruence|reflexivity].
Qed.

Lemma fn2aidu_article c t h :
  c = 77 \/ c = 71 -> 0 < t < 2 ^ 31 -> 0 <= h < 2 ^ 12 ->
  fn2aidu (Some (article_name c t h)) = aidu_val 0 (if c =? 71 then 1 else 0) t h.
Proof.
  intros Hc Ht Hh. unfold fn2aidu.
  assert (Ets : get_fhdr_stamp_ts (Some (article_name c t h)) = t).
  { unfold article_name. change (str ".A.") with (46 :: [65; 46]). cbn [app].
    rewrite get_fhdr_stamp_ts_name by (unfold is_u32; lia). apply s32_small. unfold is_s32; lia. }
  assert (Ehex : get_fhdr_stamp_hex (Some (article_name c t h)) = h)
    by (apply get_fhdr_stamp_hex_name; unfold is_u32; lia).
  rewrite Ets, Ehex. change (cchar (article_name c t h) 0) with c.
  change (cchar (article_name c t h) 1) with 46.
  change (drop 2 (article_name c t h)) with (fmt_u t ++ str ".A." ++ fmt_03X h).
  replace (_ || _) with false by lia. replace (t <=? 0) with false by lia.
  rewrite strstr_article by lia.
  change (cchar (str ".A." ++ fmt_03X h) 2) with 46. cbn [Z.eqb Pos.eqb negb andb].
  rewrite pack_val by done. rewrite u32_small by (unfold is_u32; lia). change (safe_idx 0) with 0.
  destruct (c =? 71); [|done].
  apply val_type_g; unfold is_u32; lia.
Qed.

Lemma aidu2fn_article i g t h :
  fields_ok i g t h -> t < 2 ^ 31 ->
  aidu2fn (aidu_val i g t h) = article_name (if g =? 0 then 77 else 71) t h.
Proof.
  intros Hf Ht. pose proof (val_fields _ _ _ _ Hf) as (_ & Hty & _ & Hhex & _).
  unfold aidu2fn. rewrite Hty. unfold aidu_hex in Hhex. rewrite Hhex.
  destruct Hf as (Hi & Hg & Hs & Hh). unfold is_u32 in *.
  replace (Z.land (Z.shiftr (aidu_val i g t h) 12) 0xffffffff) with t.
  - rewrite s32_small by (unfold is_s32; lia). unfold fmt_d. replace (t <? 0) with false by lia.
    apply take_ge. unfold article_name, fmt_03X, pad0.
    pose proof (fmt_base_length 10 t 9 ltac:(lia) ltac:(lia)).
    pose proof (fmt_base_length 16 h 2 ltac:(lia) ltac:(lia)).
    cbn [length]. rewrite !length_app, length_replicate. unfold fmt_u.
    change (length (str ".A.")) with 3%nat. unfold FNLEN. lia.
  - change 0xffffffff with (Z.ones 32). rewrite Z.land_ones, Z.shiftr_div_pow2 by lia.
    rewrite (proj1 (div_mod_eq (aidu_val i g t h) ((2 * i + g) * 2 ^ 32 + t) (2 ^ 12) h
      ltac:(unfold aidu_val; lia) ltac:(lia))).
    symmetry. by apply (div_mod_eq _ (2 * i + g) (2 ^ 32) t).
Qed.

(** *** The search *)

Section Scan.
Context (m : fileheader -> bool) (dir : list fileheader).

Lemma scan_back_spec buf :
  match scan_back m buf with
  | Some (i, fh) => zget buf i = Some fh /\ m fh = true
  | None => Forall (fun fh => m fh = false) buf
  end.
Proof.
  induction buf as [|x buf IH]; [constructor|]. cbn [scan_back].
  destruct (scan_back m buf) as [[i fh]|].
  - destruct IH as [Hg Hm]. split; [|done]. pose proof (zget_range _ _ _ Hg).
    unfold zget in *.
    replace (0 <=? i + 1) with true by lia. replace (0 <=? i) with true in Hg by lia.
    replace (Z.to_nat (i + 1)) with (S (Z.to_nat i)) by lia. exact Hg.
  - destruct (m x) eqn:E; [done|]. by constructor.
Qed.

Lemma zget_pread start cnt i fh :
  1 <= start -> zget (pread_many dir start cnt) i = Some fh -> zget dir (start + i - 1) = Some fh.
Proof.
  intros Hs Hg. pose proof (zget_range _ _ _ Hg). unfold zget, pread_many in *.
  replace (0 <=? i) with true in Hg by lia. replace (0 <=? start + i - 1) with true by lia.
  apply lookup_take_Some in Hg as [Hg _]. rewrite lookup_drop in Hg. rewrite <- Hg. f_equal. lia.
Qed.

Lemma pread_none start cnt i fh :
  1 <= start -> Forall (fun fh => m fh = false) (pread_many dir start cnt) ->
  zget dir (i - 1) = Some fh -> start <= i < start + cnt -> m fh = false.
Proof.
  intros Hs Hall Hg Hi. rewrite list.Forall_forall in Hall. apply Hall.
  apply list_elem_of_lookup. exists (Z.to_nat (i - start)). unfold pread_many.
  pose proof (zget_range _ _ _ Hg). unfold zget in Hg. replace (0 <=? i - 1) with true in Hg by lia.
  apply lookup_take_Some. rewrite lookup_drop. split; [|lia]. rewrite <- Hg. f_equal. lia.
Qed.

(** A header that matches, with its record number. *)
Definition hit (r : Z * fileheader) : Prop :=
  zget dir (r.1 - 1) = Some r.2 /\ m r.2 = true.

Lemma hint_exact_hit total hint r : hint_exact m dir total hint = Some r -> hit r.
Proof.
  unfold hint_exact, pread_one. destruct (_ && _); [|done].
  destruct (zget dir (hint - 1)) as [fh|] eqn:E; [|done]. cbn [mbind option_bind].
  destruct (m fh) eqn:Em; [|done]. by intros [= <-].
Qed.

Lemma hint_window_hit total hint r : hint_window m dir total hint = Some r -> hit r.
Proof.
  unfold hint_window. destruct (1 <=? hint); [|done].
  set (start := if hint - 32 <? 1 then 1 else hint - 32).
  assert (1 <= start) by (unfold start; split_ifs; lia).
  destruct (start <=? _); [|done].
  match goal with |- context [scan_back m ?b] => pose proof (scan_back_spec b) as Hs;
    destruct (scan_back m b) as [[i fh]|] end; [|done].
  cbn [mbind option_bind]. intros [= <-]. split; [|apply Hs]. cbn [fst snd].
  by eapply zget_pread, Hs.
Qed.

(** The backward scan finds a header in [lo..cur], or there is none. *)
Lemma batch_scan_spec fuel lo cur :
  1 <= lo -> cur <= zlen dir -> Z.max 0 (cur - lo + 1) < Z.of_nat fuel ->
  exists r, batch_scan fuel m dir lo cur = Some r /\
  match r with
  | Some r => hit r /\ lo <= r.1 <= cur
  | None => forall i fh, lo <= i <= cur -> zget dir (i - 1) = Some fh -> m fh = false
  end.
Proof.
  intros Hlo. revert cur. induction fuel as [|fuel IH]; intros cur Hcur Hf; [lia|].
  cbn [batch_scan].
  destruct (Z.leb_spec lo cur); [|exists None; split; [done|]; lia].
  set (cstart := if cur - CHUNK + 1 <? lo then lo else cur - CHUNK + 1).
  assert (Hc : lo <= cstart <= cur /\ cur - CHUNK + 1 <= cstart /\
    (lo < cstart -> cstart = cur - CHUNK + 1)) by (unfold cstart, CHUNK; split_ifs; lia).
  pose proof (scan_back_spec (pread_many dir cstart (cur - cstart + 1))) as Hs.
  assert (Hz : zlen (pread_many dir cstart (cur - cstart + 1)) = cur - cstart + 1)
    by (unfold pread_many; zlia).
  assert (Hp : 1 <= cstart) by lia.
  pose proof (fun i fh => zget_pread cstart (cur - cstart + 1) i fh Hp) as Hg.
  pose proof (fun i fh H => pread_none cstart (cur - cstart + 1) i fh Hp H) as Hn.
  destruct (pread_many _ _ _) as [|x buf] eqn:E; [zlia|]. rewrite <- E in *.
  destruct (scan_back m _) as [[i fh]|].
  - destruct Hs as [Hi Hm]. exists (Some (cstart + i, fh)). split; [done|].
    pose proof (zget_range _ _ _ Hi). unfold hit. cbn [fst snd].
    split; [split; [by apply Hg|done]|lia].
  - destruct (IH (cur - CHUNK)) as (r & -> & Hr); [unfold CHUNK; lia|unfold CHUNK; lia|].
    exists r. split; [done|]. destruct r as [[i fh]|].
    + unfold CHUNK in *. destruct Hr as [Hh Hr]. split; [done|lia].
    + intros i fh Hi Hgi. destruct (Z.le_gt_cases cstart i).
      * eapply Hn; [exact Hs|exact Hgi|lia].
      * apply (Hr i fh); [|done]. lia.
Qed.

End Scan.

(** *** The binary search *)

Definition stamp_of (fh : fileheader) : Z := get_fhdr_stamp_ts (Some (filename fh)).

(** Stamps out of order are at most [b] records apart. *)
Definition backtrack (dir : list fileheader) (b : Z) : Prop :=
  forall i j fi fj, zget dir (i - 1) = Some fi -> zget dir (j - 1) = Some fj ->
    i < j -> stamp_of fj < stamp_of fi -> j - i <= b.

Lemma stamp_bsearch_spec fuel dir ts low high mid t b :
  0 <= b -> 1 <= low -> high <= zlen dir -> Z.max 0 (high - low + 1) < Z.of_nat fuel ->
  exists mid', stamp_bsearch fuel dir ts low high mid = Some mid' /\
  (backtrack dir b -> low <= high + 1 ->
   (exists fh, zget dir (t - 1) = Some fh /\ stamp_of fh = ts) ->
   (forall j fh, zget dir (j - 1) = Some fh -> stamp_of fh = ts -> j = t) ->
   low - 1 - b <= t <= high + 1 + b ->
   (low <= high \/ mid = low - 1 \/ mid = low) -> t - (b + 1) <= mid' <= t + (b + 1)).
Proof.
  intros Hb. revert low high mid. induction fuel as [|fuel IH]; intros low high mid Hl Hh Hf; [lia|].
  cbn [stamp_bsearch]. destruct (Z.leb_spec low high) as [Hle|Hgt].
  - rewrite Z.quot_div_nonneg by lia. set (mid0 := low + (high - low) / 2).
    assert (Hm : low <= mid0 <= high).
    { pose proof (Z.div_pos (high - low) 2). pose proof (Z.div_le_upper_bound (high - low) 2 (high - low)).
      unfold mid0. lia. }
    destruct (zget_some dir (mid0 - 1)) as [fm Efm]; [lia|]. unfold pread_one. rewrite Efm.
    fold (stamp_of fm). destruct (Z.eqb_spec (stamp_of fm) ts) as [Eq|Hne].
    { exists mid0. split; [done|]. intros _ _ _ Hu _ _. rewrite (Hu mid0 fm Efm Eq). lia. }
    destruct (Z.ltb_spec (stamp_of fm) ts).
    + destruct (IH (mid0 + 1) high mid0) as (mid' & -> & Hmid); [lia|lia|lia|].
      exists mid'. split; [done|]. intros Hbt _ Hex Hu Ht _. apply Hmid; eauto; [lia| |lia].
      destruct Hex as (ft & Eft & Hft). split; [|lia].
      destruct (Z.lt_trichotomy t mid0) as [Hlt|[->|]]; [|congruence|lia].
      pose proof (Hbt t mid0 ft fm Eft Efm Hlt ltac:(lia)). lia.
    + destruct (IH low (mid0 - 1) mid0) as (mid' & -> & Hmid); [lia|lia|lia|].
      exists mid'. split; [done|]. intros Hbt _ Hex Hu Ht _. apply Hmid; auto; [lia| |].
      * destruct Hex as (ft & Eft & Hft). split; [lia|].
        destruct (Z.lt_trichotomy t mid0) as [|[->|Hlt]]; [lia|congruence|].
        pose proof (Hbt mid0 t fm ft Efm Eft Hlt ltac:(lia)). lia.
      * destruct (Z.le_gt_cases low (mid0 - 1)); [by left|]. right; right. lia.
  - exists mid. split; [done|]. intros _ Hlh _ _ Ht Hmid. lia.
Qed.

(** *** The four stages together *)

Section Search.
Context (conv : fileheader -> fileheader) (dir : list fileheader).
Context (hint prefix_ch ts hex : Z) (allow_prefix : bool) (mode : Z).

Let m fh := match_fhdr_stamp_hex fh prefix_ch ts hex allow_prefix mode.

Lemma match_stamp fh : m fh = true -> stamp_of fh = ts.
Proof.
  unfold m, match_fhdr_stamp_hex. fold (stamp_of fh).
  do 3 (match goal with |- (if ?b then false else _) = true -> _ => destruct b; [done|] end).
  by destruct (Z.eqb_spec (stamp_of fh) ts).
Qed.

(** The largest bound for which the size of the window is an [int]. *)
Definition MAX_BOUND : Z := 2 ^ 30 - 129.

Lemma window_range mid b :
  BSEARCH_WIN < zlen dir -> b <= MAX_BOUND ->
  1 <= fst (bsearch_window (zlen dir) mid b) /\
  fst (bsearch_window (zlen dir) mid b) + snd (bsearch_window (zlen dir) mid b) - 1 <= zlen dir /\
  1 <= snd (bsearch_window (zlen dir) mid b) /\
  (0 <= b -> forall t, 1 <= t <= zlen dir -> t - (b + 1) <= mid <= t + (b + 1) ->
   fst (bsearch_window (zlen dir) mid b) <= t <=
   fst (bsearch_window (zlen dir) mid b) + snd (bsearch_window (zlen dir) mid b) - 1).
Proof.
  unfold bsearch_window, BSEARCH_WIN, MAX_BOUND. intros Htot Hmax.
  set (w0 := if 0 <=? b then s32 (b * 2 + 256) else 256).
  set (w := if zlen dir <? w0 then zlen dir else w0).
  assert (Hw0 : 256 <= w0 /\ (0 <= b -> w0 = b * 2 + 256)).
  { unfold w0. destruct (Z.leb_spec 0 b); [|lia]. rewrite s32_small by (unfold is_s32; lia). lia. }
  assert (Hw : 1 <= w <= zlen dir /\ (w < zlen dir -> w = w0)) by (unfold w; split_ifs; lia).
  clearbody w0 w. pose proof (Z.quot_rem' w 2).
  pose proof (Z.rem_bound_pos w 2 ltac:(lia) ltac:(lia)).
  set (a := if mid - Z.quot w 2 <? 1 then 1 else mid - Z.quot w 2).
  assert (Ha : 1 <= a /\ (1 < a -> a = mid - Z.quot w 2) /\ mid - Z.quot w 2 <= a)
    by (unfold a; split_ifs; lia). clearbody a.
  set (c := if zlen dir <? a + w - 1 then zlen dir - w + 1 else a).
  assert (Hc : 1 <= c /\ c + w - 1 <= zlen dir /\ (a + w - 1 <= zlen dir -> c = a) /\
    (zlen dir < a + w - 1 -> c = zlen dir - w + 1)) by (unfold c; split_ifs; lia). clearbody c.
  replace (c <? 1) with false by lia. cbn [fst snd]. split_and!; [lia|lia|lia|].
  intros Hb t Ht Hmid. destruct Hw0 as [_ Hw0]. specialize (Hw0 Hb). destruct Hw as [Hw1 Hw2].
  destruct (Z.lt_ge_cases w (zlen dir)) as [Hlt|Hge]; [specialize (Hw2 Hlt)|]; lia.
Qed.

(** The result of the search: nothing matches, or record [i] does. *)
Definition found_ok (r : Z * option fileheader) : Prop :=
  exists i fh, r = (i, Some (conv fh)) /\ 1 <= i <= zlen dir /\ hit m dir (i, fh).
Definition absent (r : Z * option fileheader) : Prop :=
  r = (0, None) /\ forall fh, fh ∈ dir -> m fh = false.

Lemma found_hit i fh : hit m dir (i, fh) -> found_ok (found conv (Some (i, fh))).
Proof.
  intros Hh. exists i, fh. split; [done|]. split; [|done].
  destruct Hh as [Hg _]. pose proof (zget_range _ _ _ Hg). cbn in *. lia.
Qed.

Lemma search_cases b :
  b <= MAX_BOUND ->
  exists r, search_dir_by_stamp_fd_bounded conv dir (zlen dir) hint prefix_ch ts hex allow_prefix mode b
    = Some r /\
  (found_ok r \/ absent r \/
   (r = (0, None) /\ 0 <= b /\
    forall t ft, zget dir (t - 1) = Some ft -> stamp_of ft = ts -> m ft = true ->
      (forall j fh, zget dir (j - 1) = Some fh -> stamp_of fh = ts -> j = t) ->
      backtrack dir b -> False)).
Proof.
  intros Hmax. unfold search_dir_by_stamp_fd_bounded. fold m.
  destruct (Z.leb_spec (zlen dir) 0).
  { eexists. split; [done|]. right. left.
    split; [done|]. intros fh Hf. rewrite (zlen_zero dir) in Hf by zlia. by apply elem_of_nil in Hf. }
  destruct (hint_exact m dir _ hint) as [[i fh]|] eqn:E1.
  { eexists. split; [done|]. left. by eapply found_hit, hint_exact_hit. }
  destruct (hint_window m dir _ hint) as [[i fh]|] eqn:E2.
  { eexists. split; [done|]. left. by eapply found_hit, hint_window_hit. }
  set (fuel := S (Z.to_nat (zlen dir))).
  assert (Hlast : exists r, (r ← batch_scan fuel m dir 1 (zlen dir); Some (found conv r)) = Some r /\
    (found_ok r \/ absent r)).
  { destruct (batch_scan_spec m dir fuel 1 (zlen dir)) as (r & -> & Hr); [lia|lia|unfold fuel; lia|].
    cbn [mbind option_bind]. eexists. split; [done|]. destruct r as [[i fh]|].
    - left. apply found_hit, Hr.
    - right. split; [done|]. intros fh Hin.
      apply list_elem_of_lookup in Hin as [k Hk]. pose proof (lookup_lt_Some _ _ _ Hk).
      apply (Hr (Z.of_nat k + 1) fh); [unfold zlen; lia|].
      unfold zget. replace (0 <=? _) with true by lia. rewrite <- Hk. f_equal. lia. }
  destruct (Z.ltb_spec BSEARCH_WIN (zlen dir)) as [Hwin|]; cbn [mbind option_bind].
  2:{ destruct Hlast as (r & -> & Hr). exists r. split; [done|]. tauto. }
  destruct (stamp_bsearch_spec fuel dir ts 1 (zlen dir) 1 1 0) as (mid & E & _);
    [lia|lia|lia|unfold fuel; lia|].
  rewrite E. cbn [mbind option_bind]. pose proof (window_range mid b Hwin Hmax) as (W1 & W2 & W3 & W4).
  destruct (bsearch_window _ mid b) as [wstart win_size]. cbn [fst snd] in *.
  destruct (batch_scan_spec m dir fuel wstart (wstart + win_size - 1)) as (r & -> & Hr);
    [lia|lia|unfold fuel; lia|]. cbn [mbind option_bind]. destruct r as [[i fh]|].
  { eexists. split; [done|]. left. apply found_hit, Hr. }
  destruct (Z.leb_spec 0 b) as [Hb|]; cbn [mbind option_bind].
  - eexists. split; [done|]. right. right. split; [done|]. split; [done|].
    intros t ft Hg Hft Hm Hu Hbt.
    destruct (stamp_bsearch_spec fuel dir ts 1 (zlen dir) 1 t b) as (mid' & E' & Hmid);
      [done|lia|lia|unfold fuel; lia|].
    rewrite E in E'. injection E' as <-. pose proof (zget_range _ _ _ Hg).
    specialize (Hmid Hbt ltac:(lia) ltac:(eauto) Hu ltac:(lia) ltac:(lia)).
    rewrite (Hr t ft) in Hm; [done|apply W4; lia|done].
  - destruct Hlast as (r & -> & Hr'). exists r. split; [done|]. tauto.
Qed.

End Search.

(** *** Properties *)

(** The fields of an identifier: what [aidu_pack] packs, the accessors
    give back, and [aidu_with_idx] changes the index hint only; a hint that
    does not fit 19 bits is dropped. *)
Theorem aidu_pack_fields idx stamp hex idx' :
  is_s32 stamp -> 0 <= hex < 2 ^ 12 -> is_s32 idx -> is_s32 idx' ->
  let a := aidu_pack idx stamp hex in
  let fit i := if (0 <? i) && (i <? 2 ^ 19) then i else 0 in
  aidu_idx a = fit idx /\ aidu_stamp a = stamp /\ aidu_hex a = hex /\ aidu_type a = 0 /\
  aidu_idx (aidu_with_idx a idx') = fit idx' /\
  aidu_raw (aidu_with_idx a idx') = aidu_raw a.
Proof.
  intros Hs Hh Hi Hi' a fit.
  assert (Hfit : forall i, is_s32 i -> safe_idx i = fit i).
  { intros i Hi0. unfold safe_idx, fit, AIDU_IDX_MASK, is_s32 in *.
    destruct (Z.ltb_spec 0 i); cbn [andb]; [|done].
    rewrite u32_small by (unfold is_u32; lia). destruct (Z.leb_spec i 0x7FFFF).
    - by replace (i <? 2 ^ 19) with true by lia.
    - by replace (i <? 2 ^ 19) with false by lia. }
  assert (Hf : forall i, fields_ok (safe_idx i) 0 (u32 stamp) hex)
    by (intros i; pose proof (safe_idx_range i); pose proof (u32_range stamp); split_and!; done || lia).
  unfold a. rewrite pack_val by done. rewrite with_idx_val by apply Hf.
  destruct (val_fields _ _ _ _ (Hf idx)) as (-> & -> & -> & -> & ->).
  destruct (val_fields _ _ _ _ (Hf idx')) as (-> & _ & _ & _ & ->).
  rewrite !Hfit, s32_u32, s32_small by done. by split_and!.
Qed.

(** C15. An article's name survives the trip through its AID: the file name
    [stampfile] makes, its identifier, the 8 characters shown to the user and
    back to the name, up to the year 2038. *)
Theorem aid_name_roundtrip t h :
  0 < t < 2 ^ 31 -> 0 <= h < 2 ^ 12 ->
  let fn := stamp_name STAMP_FILE t h in
  let aidc := aidu2aidc (fn2aidu (Some fn)) in
  zlen aidc = 8 /\ aidc2aidu (Some aidc) = fn2aidu (Some fn) /\
  aidu2fn (aidc2aidu (Some aidc)) = fn /\
  aidu_stamp (fn2aidu (Some fn)) = t /\ aidu_hex (fn2aidu (Some fn)) = h.
Proof.
  intros Ht Hh fn aidc. unfold aidc.
  assert (Efn : fn = article_name 77 t h).
  { unfold fn, stamp_name, article_name. by rewrite u32_small by (unfold is_u32; lia). }
  rewrite Efn, fn2aidu_article by (done || by left). cbn [Z.eqb Pos.eqb].
  assert (Hf : fields_ok 0 0 t h) by (unfold fields_ok, is_u32; lia).
  destruct (val_fields _ _ _ _ Hf) as (_ & _ & -> & -> & Hr).
  rewrite aidc_roundtrip, Hr, aidu2fn_article by (done || lia).
  split_and!; auto. apply s32_small. unfold is_s32; lia.
Qed.

(** From 2038 on ([time4_t] lasts until 2106) the name of a new article
    has no identifier: [fn2aidu] compares the stamp with 0 as a signed number. *)
Theorem fn2aidu_after_2038 t h :
  2 ^ 31 <= t < 2 ^ 32 -> 0 <= h < 2 ^ 12 ->
  fn2aidu (Some (stamp_name STAMP_FILE (s32 t) h)) = 0 /\
  aidu2fn (aidu_pack 0 (s32 t) h) <> stamp_name STAMP_FILE (s32 t) h.
Proof.
  intros Ht Hh. assert (Hneg : s32 t < 0).
  { unfold s32. rewrite <- (Z.mod_unique_pos (t + 2 ^ 31) (2 ^ 32) 1 (t - 2 ^ 31)); lia. }
  split.
  - unfold fn2aidu. rewrite (stamp_name_ts (s32 t) h) by apply s32_range.
    change (cchar (stamp_name STAMP_FILE (s32 t) h) 0) with 77.
    change (cchar (stamp_name STAMP_FILE (s32 t) h) 1) with 46. cbn [Z.eqb Pos.eqb negb andb orb].
    by replace (s32 t <=? 0) with true by lia.
  - rewrite pack_val by done. rewrite u32_s32, u32_small by (unfold is_u32; lia).
    assert (Hf : fields_ok (safe_idx 0) 0 t h) by (unfold fields_ok, is_u32; change (safe_idx 0) with 0; lia).
    destruct (val_fields _ _ _ _ Hf) as (_ & Hty & Hst & _ & _).
    unfold aidu2fn. rewrite Hty. unfold aidu_stamp in Hst. rewrite Hst.
    unfold fmt_d. replace (s32 t <? 0) with true by lia. unfold stamp_name.
    rewrite u32_s32, u32_small by (unfold is_u32; lia).
    destruct (fmt_base_cons 10 t) as (d & s & E & Hd). unfold fmt_u. rewrite E.
    intros H. apply (f_equal (fun l => cchar l 2)) in H. change (45 = d) in H. subst d. specialize (Hd ltac:(lia) ltac:(lia)).
    revert Hd. vm_compute. intuition congruence.
Qed.

(** C6. The search without a bound is exact: it ends, reads only records of
    the file, and answers 0 exactly when no header matches; otherwise it
    answers the record number and the header of one that does. *)
Theorem search_dir_by_stamp_fd_spec conv dir hint prefix_ch ts hex allow_prefix mode :
  let m fh := match_fhdr_stamp_hex fh prefix_ch ts hex allow_prefix mode in
  exists i out,
    search_dir_by_stamp_fd conv dir (zlen dir) hint prefix_ch ts hex allow_prefix mode = Some (i, out) /\
    (i = 0 <-> (forall fh, fh ∈ dir -> m fh = false)) /\
    (i = 0 -> out = None) /\
    (i <> 0 -> 1 <= i <= zlen dir /\
       exists fh, zget dir (i - 1) = Some fh /\ m fh = true /\ out = Some (conv fh)).
Proof.
  intros m. unfold search_dir_by_stamp_fd.
  destruct (search_cases conv dir hint prefix_ch ts hex allow_prefix mode (-1) ltac:(done)) as (r & E & Hr).
  destruct Hr as [(i & fh & -> & Hi & Hg & Hm)|[[-> Hn]|(_ & ? & _)]]; [| |lia].
  - exists i, (Some (conv fh)). cbn [fst snd] in *. split_and!; [done| |lia|eauto].
    split; [lia|]. intros Hn. pose proof (zget_range _ _ _ Hg). unfold zget in Hg.
    replace (0 <=? i - 1) with true in Hg by lia. apply list_elem_of_lookup_2 in Hg.
    specialize (Hn fh Hg). unfold m in Hn. congruence.
  - exists 0, None. split_and!; [done|by split|done|done].
Qed.

(** C19. The bounded search skips the full scan safely: when headers are out of
    order by at most [b] records and the stamp wanted occurs once, the window
    around the binary search holds it and its record is found.  A bound above
    [MAX_BOUND] would make the size of the window overflow an [int]. *)
Theorem search_bounded_finds conv dir hint prefix_ch ts hex allow_prefix mode b t fh :
  0 <= b <= MAX_BOUND -> backtrack dir b ->
  zget dir (t - 1) = Some fh ->
  match_fhdr_stamp_hex fh prefix_ch ts hex allow_prefix mode = true ->
  (forall j fh', zget dir (j - 1) = Some fh' -> stamp_of fh' = ts -> j = t) ->
  search_dir_by_stamp_fd_bounded conv dir (zlen dir) hint prefix_ch ts hex allow_prefix mode b
  = Some (t, Some (conv fh)).
Proof.
  intros Hb Hbt Hg Hm Hu.
  destruct (search_cases conv dir hint prefix_ch ts hex allow_prefix mode b ltac:(lia)) as (r & -> & Hr).
  pose proof (match_stamp prefix_ch ts hex allow_prefix mode fh Hm) as Hst.
  destruct Hr as [(i & f & -> & Hi & Hgi & Hmi)|[[-> Hn]|(_ & _ & Hn)]].
  - cbn [fst snd] in *. pose proof (match_stamp _ _ _ _ _ f Hmi) as Hsi.
    pose proof (Hu i f Hgi Hsi) as ->. rewrite Hg in Hgi. by injection Hgi as ->.
  - exfalso. pose proof (zget_range _ _ _ Hg). unfold zget in Hg.
    replace (0 <=? t - 1) with true in Hg by lia. apply list_elem_of_lookup_2 in Hg.
    specialize (Hn fh Hg). congruence.
  - exfalso. exact (Hn t fh Hg Hst Hm Hu Hbt).
Qed.

(** *** Instances *)

Definition demo_fh (t : Z) : fileheader := Fileheader (stamp_name STAMP_FILE t 10) (str "user") 0 [].
Definition demo_dir : list fileheader := map demo_fh [1700000000; 1700000900; 1700000500].

Lemma aidu_pack_fields_witness :
  aidu_idx (aidu_with_idx (aidu_pack 7 1700000000 10) 9) = 9 /\
  aidu_stamp (aidu_pack 7 1700000000 10) = 1700000000.
Proof.
  destruct (aidu_pack_fields 7 1700000000 10 9) as (_ & H1 & _ & _ & H2 & _).
  - by vm_compute.
  - by vm_compute.
  - by vm_compute.
  - by vm_compute.
  - split; [exact H2|exact H1].
Defined.

Lemma aid_name_roundtrip_witness :
  aidu2fn (aidc2aidu (Some (aidu2aidc (fn2aidu (Some (stamp_name STAMP_FILE 1700000000 10))))))
  = str "M.1700000000.A.00A".
Proof.
  destruct (aid_name_roundtrip 1700000000 10) as (_ & _ & H & _).
  - by vm_compute.
  - by vm_compute.
  - exact H.
Defined.

Lemma fn2aidu_after_2038_witness :
  fn2aidu (Some (stamp_name STAMP_FILE (s32 2500000000) 10)) = 0.
Proof.
  destruct (fn2aidu_after_2038 2500000000 10) as (H & _).
  - by vm_compute.
  - by vm_compute.
  - exact H.
Defined.

Lemma search_bounded_finds_witness :
  search_dir_by_stamp_fd_bounded id demo_dir 3 0 77 1700000500 10 false 0 1
  = Some (3, Some (demo_fh 1700000500)).
Proof.
  assert (Hcase : forall j f, zget demo_dir (j - 1) = Some f ->
    (j = 1 /\ f = demo_fh 1700000000) \/ (j = 2 /\ f = demo_fh 1700000900) \/
    (j = 3 /\ f = demo_fh 1700000500)).
  { intros j f Hg. pose proof (zget_range _ _ _ Hg) as Hr. change (zlen demo_dir) with 3 in Hr.
    assert (j = 1 \/ j = 2 \/ j = 3) as [->|[->| ->]] by lia; injection Hg as <-; auto. }
  apply (search_bounded_finds id demo_dir 0 77 1700000500 10 false 0 1 3 (demo_fh 1700000500)).
  - by vm_compute.
  - intros i j fi fj [[-> ->]|[[-> ->]|[-> ->]]]%Hcase [[-> ->]|[[-> ->]|[-> ->]]]%Hcase; vm_compute; congruence.
  - reflexivity.
  - by vm_compute.
  - intros j f [[-> ->]|[[-> ->]|[-> ->]]]%Hcase; [by vm_compute|by vm_compute|done].
Defined.

End AidsProps.
