(* ===== verification/Record.v ===== *)
(** Files of fixed-size records and sorted arrays ([common/sys/record.c],
    [common/sys/sort.c]).

    A file is its bytes, [None] when it does not exist; opening with
    [OpenCreate] makes an empty one.  The operations are those of one process:
    the record locks and [flock] they take are not modelled. *)

From S2P Require Import Prelude.

Module Record.

Definition BUFSIZE : Z := 512.

(** *** System calls on the bytes of a file *)

(** [read] of [n] bytes at [off]; nothing past the end. *)
Definition file_read (f : list Z) (off n : Z) : list Z :=
  take (Z.to_nat n) (drop (Z.to_nat off) f).
(** [write] at [off]; the gap past the end is filled with zeros. *)
Definition file_write (f : list Z) (off : Z) (data : list Z) : list Z :=
  let f := f ++ replicate (Z.to_nat (off - zlen f)) 0 in
  take (Z.to_nat off) f ++ data ++ drop (Z.to_nat (off + zlen data)) f.
(** [ftruncate]; a negative length is refused. *)
Definition file_truncate (f : list Z) (n : Z) : list Z :=
  if n <? 0 then f else take (Z.to_nat n) f ++ replicate (Z.to_nat (n - zlen f)) 0.

(** *** [record.c] *)

Definition get_num_records (file : option (list Z)) (size : Z) : Z :=
  match file with None => 0 | Some f => zlen f / size end.

(** The return value and the bytes put in [rptr]. *)
Definition get_records_keep (file : option (list Z)) (size id number : Z) : Z * list Z :=
  if id <? 1 then (-1, []) else
  match file with
  | None => (-1, [])
  | Some f =>
      let d := file_read f (size * (id - 1)) (size * number) in
      (zlen d / size, d)
  end.
Definition get_records := get_records_keep.
Definition get_record (file : option (list Z)) (size id : Z) : Z * list Z :=
  get_records file size id 1.
Definition get_record_keep (file : option (list Z)) (size id : Z) : Z * list Z :=
  get_records_keep file size id 1.

(** [open_ok]: whether [OpenCreate] succeeds. *)
Definition substitute_record (file : option (list Z)) (open_ok : bool) (rptr : list Z)
    (size id : Z) : Z * option (list Z) :=
  let offset := size * (id - 1) in
  if (id <? 1) || negb open_ok then (-1, file)
  else (0, Some (file_write (default [] file) offset rptr)).

Definition append_record (file : option (list Z)) (open_ok : bool) (record : list Z)
    (size : Z) : Z * option (list Z) :=
  if negb open_ok then (-1, file) else
  let f := default [] file in
  let index := zlen f / size in
  (index + 1, Some (file_write f (index * size) record)).

(** [cb] is [cb_can_substitue] applied to [srcptr], [None] the null pointer. *)
Definition substitute_record2 (file : option (list Z)) (open_ok : bool) (destptr : list Z)
    (size id : Z) (cb : option (list Z -> bool)) : Z * option (list Z) :=
  let offset := size * (id - 1) in
  if (id <? 1) || negb open_ok then (-1, file) else
  let f := default [] file in
  let err :=
    match cb with
    | None => 0
    | Some cb =>
        let p := file_read f offset size in
        if negb (zlen p =? size) then -1 else if negb (cb p) then -1 else 0
    end in
  if err =? 0 then (0, Some (file_write f offset destptr)) else (-1, Some f).

(** while (d < readsize && (c = read(fi, buf, BUFSIZE)) > 0): [rpos] and
    [wpos] are the offsets of the two descriptors. *)
Fixpoint copy_loop (fuel : nat) (f : list Z) (rpos wpos d readsize : Z) : option (list Z) :=
  match fuel with
  | O => None
  | S fuel =>
      if d <? readsize then
        let buf := file_read f rpos BUFSIZE in
        let c := zlen buf in
        if 0 <? c then copy_loop fuel (file_write f wpos buf) (rpos + c) (wpos + c) (d + c) readsize
        else Some f
      else Some f
  end.

(** Each round but the last copies [BUFSIZE] bytes. *)
Definition copy_fuel (f : list Z) : nat := S (length f).

Definition delete_record2 (file : option (list Z)) (size id : Z)
    (cb : option (list Z -> bool)) : option (Z * option (list Z)) :=
  let num := 1 in
  let offset := size * (id - 1) in
  if id <? 1 then Some (-1, file) else
  match file with
  | None => Some (-1, None)
  | Some f =>
      let st_size := zlen f in
      let locksize := s32 (st_size - offset) in
      if locksize <? 0 then Some (-1, Some f) else
      let readsize := s32 (locksize - size * num) in
      (* the error so far and the offset of [fi] *)
      let '(err, rpos) :=
        match cb with
        | Some cb =>
            let p := file_read f offset size in
            if negb (zlen p =? size) then (-1, offset + zlen p)
            else if negb (cb p) then (-1, offset + size) else (0, offset + size)
        | None =>
            (if negb (offset + size * num =? offset) then -1 else 0, offset + size * num)
        end in
      if err =? 0 then
        f ← copy_loop (copy_fuel f) f rpos offset 0 readsize;
        Some (0, Some (file_truncate f (st_size - size * num)))
      else Some (-1, Some f)
  end.

Definition delete_records (file : option (list Z)) (size id num : Z)
    : option (Z * option (list Z)) :=
  let offset := size * (id - 1) in
  match file with
  | None => Some (-1, None)
  | Some f =>
      let st_size := zlen f in
      let locksize := s32 (st_size - offset) in
      let readsize := s32 (locksize - size * num) in
      if locksize <? 0 then Some (-1, Some f) else
      f ← (if 0 <? readsize then copy_loop (copy_fuel f) f (offset + size * num) offset 0 readsize
           else Some f);
      Some (0, Some (file_truncate f (st_size - size * num)))
  end.
Definition delete_record (file : option (list Z)) (size id : Z)
    : option (Z * option (list Z)) :=
  delete_records file size id 1.

(** The callback threads its state [A]; a nonzero result stops the walk. *)
Fixpoint apply_loop {A} (fuel : nat) (f : list Z) (fptr : list Z -> A -> A * Z) (size : Z) (a : A)
    : A * Z :=
  match fuel with
  | O => (a, 0)
  | S fuel =>
      let buf := file_read f 0 size in
      if zlen buf =? size then
        let '(a, ret) := fptr buf a in
        if negb (ret =? 0) then (a, ret)
        else apply_loop fuel (drop (Z.to_nat size) f) fptr size a
      else (a, 0)
  end.
(** [None] is the failed assertion [size <= sizeof(buf)]. *)
Definition apply_record {A} (file : option (list Z)) (fptr : list Z -> A -> A * Z) (size : Z) (a : A)
    : option (A * Z) :=
  if BUFSIZE <? size then None else
  match file with
  | None => Some (a, -1)
  | Some f => Some (apply_loop (S (length f)) f fptr size a)
  end.

(** The binary search of [upper_bound_record]: [left] is an offset in records. *)
Fixpoint upper_bound_loop (fuel : nat) (less : Z -> bool) (left count : Z) : option Z :=
  match fuel with
  | O => None
  | S fuel =>
      if 0 <? count then
        let i := Z.shiftr count 1 in
        let mid := left + i in
        if less mid then upper_bound_loop fuel less left i
        else upper_bound_loop fuel less (mid + 1) (count - (i + 1))
      else Some left
  end.

(** [compar] is applied to the key; the results are the return value, [*num]
    and the record copied to [buffer]. *)
Definition upper_bound_record (file : option (list Z)) (compar : list Z -> Z) (size : Z)
    : option (Z * Z * option (list Z)) :=
  match file with
  | None => Some (-1, 0, None)
  | Some f =>
      let sz := zlen f in
      let num := sz / size in
      left ← upper_bound_loop (S (Z.to_nat num))
               (fun i => compar (file_read f (i * size) size) <? 0) 0 num;
      let offset := left * size in
      Some (offset / size, num,
            if offset <? sz then Some (file_read f offset size) else None)
  end.

(** *** [sort.c] *)

(** Signed overflow aside, these are the signs [qsort] needs. *)
Definition cmp_int (a b : Z) : Z := s32 (a - b).
Definition cmp_int_desc (a b : Z) : Z := s32 (b - a).

(** for (lim = nmemb; lim != 0; lim >>= 1): the index of [key] or [None] for
    the null pointer; the outer [None] is an access out of the array. *)
Fixpoint bsearch_loop (fuel : nat) (key : Z) (l : list Z) (base lim : Z) : option (option Z) :=
  match fuel with
  | O => None
  | S fuel =>
      if lim =? 0 then Some None else
      let p := base + Z.shiftr lim 1 in
      x ← zget l p;
      if key =? x then Some (Some p)
      else if x <? key then bsearch_loop fuel key l (p + 1) (Z.shiftr (lim - 1) 1)
      else bsearch_loop fuel key l base (Z.shiftr lim 1)
  end.
Definition intbsearch (key : Z) (base0 : list Z) (nmemb : Z) : option (option Z) :=
  bsearch_loop (S (Z.to_nat nmemb)) key base0 0 nmemb.
Definition uintbsearch (key : Z) (base0 : list Z) (nmemb : Z) : option (option Z) :=
  bsearch_loop (S (Z.to_nat nmemb)) key base0 0 nmemb.

End Record.
