(* ===== verification/RecordProps.v ===== *)
(** The properties of record files and sorted arrays ([Record]). *)

From S2P Require Import Prelude Record.
Import Record.

Module RecordProps.

(** *** Files as concatenations *)

Lemma file_read_app a b c off n :
  off = zlen a -> n = zlen b -> file_read (a ++ b ++ c) off n = b.
Proof. intros -> ->. unfold file_read. by rewrite drop_zlen_app, take_zlen_app. Qed.

Lemma file_write_app a b c d off :
  off = zlen a -> zlen d = zlen b -> file_write (a ++ b ++ c) off d = a ++ d ++ c.
Proof.
  intros -> Hd. unfold file_write.
  replace (Z.to_nat (zlen a - zlen (a ++ b ++ c))) with 0%nat by zlia. cbn [replicate].
  rewrite app_nil_r, take_zlen_app, Hd. rewrite <- zlen_app, (app_assoc a b c). by rewrite drop_zlen_app.
Qed.

Lemma file_write_end a t d off :
  off = zlen a -> zlen t <= zlen d -> file_write (a ++ t) off d = a ++ d.
Proof.
  intros -> Ht. unfold file_write.
  replace (Z.to_nat (zlen a - zlen (a ++ t))) with 0%nat by zlia. cbn [replicate].
  rewrite app_nil_r, take_zlen_app, drop_ge; [by rewrite app_nil_r|].
  unfold zlen in *. rewrite length_app. lia.
Qed.

Lemma file_truncate_app a b n : n = zlen a -> file_truncate (a ++ b) n = a.
Proof.
  intros ->. unfold file_truncate. pose proof (zlen_nonneg a). if_false.
  replace (Z.to_nat (zlen a - zlen (a ++ b))) with 0%nat by zlia. cbn [replicate].
  by rewrite app_nil_r, take_zlen_app.
Qed.

(** Copying the rest of the file down over a gap: no byte is read after it was
    overwritten. *)
Lemma copy_loop_spec fuel a g todo rpos wpos d readsize :
  zlen todo < Z.of_nat fuel ->
  wpos = zlen a -> rpos = zlen a + zlen g -> readsize - d = zlen todo ->
  exists g', copy_loop fuel (a ++ g ++ todo) rpos wpos d readsize = Some (a ++ todo ++ g') /\
    zlen g' = zlen g.
Proof.
  revert a g todo rpos wpos d. induction fuel as [|fuel IH]; intros a g todo rpos wpos d Hf Hw Hr Hd.
  { pose proof (zlen_nonneg todo). lia. }
  cbn [copy_loop]. pose proof (zlen_nonneg todo). destruct (Z.ltb_spec d readsize); cycle 1.
  { exists g. rewrite (zlen_zero todo) by lia. rewrite app_nil_r. done. }
  set (t1 := take (Z.to_nat BUFSIZE) todo). set (t2 := drop (Z.to_nat BUFSIZE) todo).
  assert (Ht : todo = t1 ++ t2) by (unfold t1, t2; by rewrite take_drop).
  assert (E : file_read (a ++ g ++ todo) rpos BUFSIZE = t1).
  { unfold file_read. rewrite Hr, app_assoc, <- zlen_app, drop_zlen_app. done. }
  rewrite E. assert (Hz : zlen t1 = Z.min 512 (zlen todo) /\ zlen t2 = zlen todo - zlen t1)
    by (unfold t1, t2, BUFSIZE; zlia).
  replace (0 <? zlen t1) with true by lia.
  set (g1 := take (length t1) (g ++ t1)). set (g2 := drop (length t1) (g ++ t1)).
  assert (Hg : g ++ t1 = g1 ++ g2) by (unfold g1, g2; by rewrite take_drop).
  assert (Hgz : zlen g1 = zlen t1 /\ zlen g2 = zlen g).
  { unfold g1, g2, zlen. rewrite length_take, length_drop, length_app. lia. }
  rewrite Ht, (app_assoc g), Hg, <- (app_assoc g1), (file_write_app a g1) by (done || lia).
  destruct (IH (a ++ t1) g2 t2 (rpos + zlen t1) (wpos + zlen t1) (d + zlen t1)) as (g' & E' & Hg');
    [lia|zlia|zlia|lia|].
  exists g'. rewrite app_assoc, E'. split; [by rewrite <- !app_assoc|lia].
Qed.

(** Removing the bytes [g] of a file. *)
Lemma cut_spec a g c st rpos wpos :
  wpos = zlen a -> rpos = zlen a + zlen g -> st = zlen a + zlen c ->
  exists f', copy_loop (copy_fuel (a ++ g ++ c)) (a ++ g ++ c) rpos wpos 0 (zlen c) = Some f' /\
    file_truncate f' st = a ++ c.
Proof.
  intros Hw Hr Hst. destruct (copy_loop_spec (copy_fuel (a ++ g ++ c)) a g c rpos wpos 0 (zlen c))
    as (g' & -> & _); [unfold copy_fuel, zlen; rewrite !length_app; lia|done|done|lia|].
  eexists. split; [done|]. rewrite app_assoc. apply file_truncate_app. zlia.
Qed.

(** *** Files of records *)

Definition records (size : Z) (rs : list (list Z)) : Prop :=
  0 < size /\ Forall (fun r => zlen r = size) rs /\ zlen (concat rs) < 2 ^ 31.

Lemma zlen_concat size (rs : list (list Z)) : Forall (fun r => zlen r = size) rs -> zlen (concat rs) = size * zlen rs.
Proof.
  induction 1 as [|r rs Hr _ IH]; cbn [concat]; [rewrite zlen_nil; zlia|].
  rewrite zlen_app, zlen_cons, IH. lia.
Qed.

(** A file of records around its records [n], ..., [n + k - 1]. *)
Lemma records_split size rs n k :
  records size rs -> 0 <= n -> 0 <= k -> n + k <= zlen rs ->
  let a := take (Z.to_nat n) rs in
  let b := take (Z.to_nat k) (drop (Z.to_nat n) rs) in
  let c := drop (Z.to_nat (n + k)) rs in
  concat rs = concat a ++ concat b ++ concat c /\
  zlen (concat a) = size * n /\ zlen (concat b) = size * k /\
  zlen (concat c) = size * (zlen rs - n - k).
Proof.
  intros (Hs & Hrs & _) Hn Hk Hnk a b c.
  assert (E : rs = a ++ b ++ c).
  { unfold a, b, c. rewrite <- (take_drop (Z.to_nat n) rs) at 1. f_equal.
    rewrite <- (take_drop (Z.to_nat k) (drop (Z.to_nat n) rs)) at 1. f_equal.
    rewrite drop_drop. f_equal. lia. }
  assert (Hz : zlen a = n /\ zlen b = k /\ zlen c = zlen rs - n - k) by (unfold a, b, c; zlia).
  rewrite E in Hrs. rewrite !list.Forall_app in Hrs. destruct Hrs as (Ha & Hb & Hc).
  split; [by rewrite E at 1; rewrite !concat_app|].
  rewrite !(zlen_concat size) by done. destruct Hz as (-> & -> & ->). done.
Qed.

Lemma s32_locksize size n k : 0 <= size * n < 2 ^ 31 -> 0 <= size * k <= size * n ->
  s32 (size * n - size * k) = size * n - size * k.
Proof. intros. apply s32_small. unfold is_s32. lia. Qed.

(** C10. [delete_record2] with a callback removes exactly the record it was
    shown when the callback agrees, keeping the order of the others; when the
    callback refuses, or there is no such record, the file is unchanged and
    the result is -1. *)
Theorem delete_record2_spec rs size id cb :
  records size rs -> size * id < 2 ^ 31 ->
  delete_record2 (Some (concat rs)) size id (Some cb) =
  match (if 1 <=? id then rs !! Z.to_nat (id - 1) else None) with
  | Some r =>
      if cb r : bool then Some (0, Some (concat (take (Z.to_nat (id - 1)) rs ++ drop (Z.to_nat id) rs)))
      else Some (-1, Some (concat rs))
  | None => Some (-1, Some (concat rs))
  end.
Proof.
  intros Hrs Hid. pose proof Hrs as (Hs & Hall & Hmax). unfold delete_record2.
  destruct (Z.ltb_spec id 1); [by replace (1 <=? id) with false by lia|].
  replace (1 <=? id) with true by lia. pose proof (zlen_concat size rs Hall) as Hz.
  rewrite Hz in *. pose proof (zlen_nonneg rs).
  rewrite s32_small by (unfold is_s32; nia).
  destruct (Z.ltb_spec (size * zlen rs - size * (id - 1)) 0).
  { rewrite lookup_ge_None_2; [done|]. unfold zlen in *. nia. }
  rewrite s32_small by (unfold is_s32; nia).
  destruct (Z.le_gt_cases id (zlen rs)) as [Hle|Hgt].
  - destruct (records_split size rs (id - 1) 1 Hrs ltac:(lia) ltac:(lia) ltac:(lia)) as (E & Ha & Hb & Hc).
    destruct (lookup_lt_is_Some_2 rs (Z.to_nat (id - 1))) as [r Hr]; [unfold zlen in *; lia|].
    assert (Eb : take (Z.to_nat 1) (drop (Z.to_nat (id - 1)) rs) = [r]).
    { rewrite (drop_S _ _ _ Hr). change (Z.to_nat 1) with 1%nat. done. }
    rewrite Eb in *. cbn [concat] in *. rewrite app_nil_r in *.
    replace (id - 1 + 1) with id in * by lia. set (a := concat (take _ rs)) in *.
    set (c := concat (drop _ rs)) in *. rewrite Hr, E.
    rewrite file_read_app by lia. replace (zlen r =? size) with true by lia. cbn [negb].
    destruct (cb r); cbn [negb]; [|done].
    change (0 =? 0) with true. cbn iota.
    replace (size * zlen rs - size * (id - 1) - size * 1) with (zlen c) by nia.
    destruct (cut_spec a r c (size * zlen rs - size * 1) (size * (id - 1) + size) (size * (id - 1)))
      as (f' & -> & Hf'); [lia|lia|nia|].
    cbn [mbind option_bind]. by rewrite Hf', concat_app.
  - rewrite lookup_ge_None_2 by (unfold zlen in *; lia).
    assert (file_read (concat rs) (size * (id - 1)) size = []) as ->.
    { unfold file_read. rewrite drop_ge; [by rewrite take_nil|]. unfold zlen in *. nia. }
    rewrite zlen_nil. replace (0 =? size) with false by lia. done.
Qed.

(** Without a callback [delete_record2] never deletes: it compares the
    offset it seeks to with the one of the record itself and takes the
    difference for an error. *)
Theorem delete_record2_null_deletes_nothing f size id :
  0 < size ->
  delete_record2 (Some f) size id None = Some (-1, Some f).
Proof.
  intros Hs. unfold delete_record2. destruct (id <? 1); [done|]. destruct (_ <? 0); [done|].
  by replace (size * (id - 1) + size * 1 =? size * (id - 1)) with false by lia.
Qed.

(** [delete_records] removes the [num] records from [id] on, keeping the
    order of the others. *)
Theorem delete_records_spec rs size id num :
  records size rs -> 1 <= id -> 0 <= num -> id - 1 + num <= zlen rs ->
  delete_records (Some (concat rs)) size id num =
  Some (0, Some (concat (take (Z.to_nat (id - 1)) rs ++ drop (Z.to_nat (id - 1 + num)) rs))).
Proof.
  intros Hrs Hid Hn Hle. pose proof Hrs as (Hs & Hall & Hmax). unfold delete_records.
  destruct (records_split size rs (id - 1) num Hrs ltac:(lia) ltac:(lia) ltac:(lia)) as (E & Ha & Hb & Hc).
  pose proof (zlen_concat size rs Hall) as Hz. rewrite Hz in *.
  set (a := concat (take _ rs)) in *. set (b := concat (take _ (drop _ rs))) in *.
  set (c := concat (drop _ rs)) in *.
  rewrite s32_small by (unfold is_s32; nia). rewrite s32_small by (unfold is_s32; nia).
  destruct (Z.ltb_spec (size * zlen rs - size * (id - 1)) 0); [nia|].
  replace (size * zlen rs - size * (id - 1) - size * num) with (zlen c) by nia.
  rewrite E, concat_app. fold a c. destruct (Z.ltb_spec 0 (zlen c)).
  - destruct (cut_spec a b c (size * zlen rs - size * num) (size * (id - 1) + size * num)
      (size * (id - 1))) as (f' & -> & Hf'); [lia|lia|nia|]. cbn [mbind option_bind]. by rewrite Hf'.
  - cbn [mbind option_bind]. assert (Hc0 : zlen c = 0) by (pose proof (zlen_nonneg c); lia).
    rewrite (zlen_zero c Hc0), !app_nil_r. rewrite file_truncate_app by lia. done.
Qed.

(** [delete_records] one past the end deletes the last record: the check of
    the position lets [id = n + 1] through, nothing is copied, and the file is
    truncated all the same. *)
Theorem delete_records_past_end rs r size :
  records size (rs ++ [r]) ->
  delete_record (Some (concat (rs ++ [r]))) size (zlen rs + 2) = Some (0, Some (concat rs)).
Proof.
  intros Hrs. pose proof Hrs as (Hs & Hall & Hmax). unfold delete_record, delete_records.
  pose proof (zlen_concat size _ Hall) as Hz. rewrite Hz in *. rewrite zlen_app in *.
  change (zlen [r]) with 1 in *. pose proof (zlen_nonneg rs).
  replace (size * (zlen rs + 1) - size * (zlen rs + 2 - 1)) with 0 by lia.
  assert (size <= size * (zlen rs + 1)) by nia.
  change (s32 0) with 0. destruct (Z.ltb_spec 0 (s32 (0 - size * 1))) as [Hc|Hc].
  { rewrite s32_small in Hc by (unfold is_s32; nia). lia. }
  cbn [Z.ltb Z.compare mbind option_bind]. rewrite concat_app.
  apply list.Forall_app in Hall as [Hall _].
  rewrite file_truncate_app by (rewrite (zlen_concat size) by done; lia). done.
Qed.

(** [append_record] makes a new last record, over whatever partial record
    the file ended with, and answers its number; [get_record] reads it back,
    and [substitute_record] on it replaces it. *)
Theorem append_then_get rs partial rec rec' size :
  records size rs -> zlen partial < size -> zlen rec = size -> zlen rec' = size ->
  let num := zlen rs + 1 in
  let f := concat (rs ++ [rec]) in
  append_record (Some (concat rs ++ partial)) true rec size = (num, Some f) /\
  get_record (Some f) size num = (1, rec) /\
  (forall i r, rs !! i = Some r -> get_record (Some f) size (Z.of_nat i + 1) = (1, r)) /\
  substitute_record (Some f) true rec' size num = (0, Some (concat (rs ++ [rec']))) /\
  get_num_records (Some f) size = num.
Proof.
  intros (Hs & Hall & _) Hp Hr Hr' num f. pose proof (zlen_concat size rs Hall) as Hz.
  pose proof (zlen_nonneg rs). pose proof (zlen_nonneg partial).
  assert (Hf : f = concat rs ++ rec) by (unfold f; rewrite concat_app; cbn; by rewrite app_nil_r).
  assert (Hall' : Forall (fun r => zlen r = size) (rs ++ [rec])).
  { apply list.Forall_app. split; [done|]. by constructor. }
  assert (Hget : forall i r, (rs ++ [rec]) !! i = Some r ->
    get_record (Some f) size (Z.of_nat i + 1) = (1, r)).
  { intros i r Hi. unfold get_record, get_records, get_records_keep.
    destruct (Z.ltb_spec (Z.of_nat i + 1) 1); [lia|].
    pose proof (take_drop_middle _ _ _ Hi) as E. rewrite <- E in Hall'.
    apply list.Forall_app in Hall' as [Hall1 Hall2]. apply list.Forall_cons_1 in Hall2 as [Hrz _].
    unfold f. rewrite <- E, concat_app. cbn [concat]. rewrite file_read_app.
    - f_equal. rewrite Hrz. apply Z.div_same. lia.
    - rewrite (zlen_concat size) by done. pose proof (lookup_lt_Some _ _ _ Hi).
      rewrite zlen_take. unfold zlen. lia.
    - lia. }
  split_and!.
  - unfold append_record. cbn [negb default]. unfold id. rewrite zlen_app, Hz.
    replace ((size * zlen rs + zlen partial) / size) with (zlen rs).
    + unfold num, f. rewrite concat_app. cbn [concat]. rewrite app_nil_r.
      by rewrite file_write_end by lia.
    + apply (Z.div_unique_pos _ _ _ (zlen partial)); lia.
  - replace num with (Z.of_nat (length rs) + 1) by (unfold num, zlen; lia). apply Hget.
    by rewrite lookup_app_r, Nat.sub_diag by lia.
  - intros i r Hi. apply Hget. by apply lookup_app_l_Some.
  - unfold substitute_record. replace (num <? 1) with false by (unfold num; lia). cbn [orb negb].
    cbn [default]. unfold id. rewrite Hf. rewrite file_write_end by (unfold num; lia).
    rewrite concat_app. cbn [concat]. by rewrite app_nil_r.
  - unfold get_num_records. rewrite Hf, zlen_app, Hz. unfold num.
    symmetry. apply Z.div_unique_pos with 0; lia.
Qed.

(** *** Sorted arrays *)

Definition sorted (l : list Z) : Prop :=
  forall i j x y, zget l i = Some x -> zget l j = Some y -> i < j -> x < y.

Lemma bsearch_loop_spec fuel key l base lim :
  sorted l -> 0 <= base -> 0 <= lim -> base + lim <= zlen l -> lim < Z.of_nat fuel ->
  (forall i, zget l i = Some key -> base <= i < base + lim) ->
  exists r, bsearch_loop fuel key l base lim = Some r /\
  match r with
  | Some p => zget l p = Some key
  | None => forall i, zget l i <> Some key
  end.
Proof.
  intros Hs. revert base lim. induction fuel as [|fuel IH]; intros base lim Hb Hl Hn Hf Hin; [lia|].
  cbn [bsearch_loop]. destruct (Z.eqb_spec lim 0) as [->|Hnz].
  { exists None. split; [done|]. intros i Hi. specialize (Hin i Hi). lia. }
  rewrite !Z.shiftr_div_pow2 by lia. change (2 ^ 1) with 2.
  pose proof (Z.div_mod lim 2 ltac:(lia)). pose proof (Z.mod_pos_bound lim 2 ltac:(lia)).
  pose proof (Z.div_mod (lim - 1) 2 ltac:(lia)). pose proof (Z.mod_pos_bound (lim - 1) 2 ltac:(lia)).
  set (p := base + lim / 2). destruct (zget_some l p) as [x Hx]; [unfold p; lia|].
  rewrite Hx. cbn [mbind option_bind]. destruct (Z.eqb_spec key x) as [->|Hne]; [by exists (Some p)|].
  assert (Hmid : forall i, zget l i = Some key -> i <> p) by (intros i Hi ->; congruence).
  destruct (Z.ltb_spec x key).
  - apply IH; [unfold p; lia|lia|unfold p; lia|lia|]. intros i Hi. specialize (Hin i Hi).
    specialize (Hmid i Hi). destruct (Z.lt_ge_cases i p) as [Hlt|Hge]; [|unfold p in *; lia].
    pose proof (Hs i p key x Hi Hx Hlt). lia.
  - apply IH; [lia|lia|lia|lia|]. intros i Hi. specialize (Hin i Hi).
    specialize (Hmid i Hi). destruct (Z.lt_ge_cases p i) as [Hlt|Hge]; [|unfold p in *; lia].
    pose proof (Hs p i x key Hx Hi Hlt). lia.
Qed.

(** [intbsearch] on a strictly increasing array ends without reading
    outside of it; it returns the place of the key, or null when the key is
    not there. *)
Theorem intbsearch_spec key l :
  sorted l ->
  exists r, intbsearch key l (zlen l) = Some r /\
  match r with
  | Some p => zget l p = Some key
  | None => key ∉ l
  end.
Proof.
  intros Hs. unfold intbsearch. pose proof (zlen_nonneg l).
  destruct (bsearch_loop_spec (S (Z.to_nat (zlen l))) key l 0 (zlen l)) as (r & E & Hr);
    [done|lia|lia|lia|lia| |].
  { intros i Hi. pose proof (zget_range _ _ _ Hi). lia. }
  exists r. split; [done|]. destruct r; [done|]. intros (k & Hk)%list_elem_of_lookup.
  apply (Hr (Z.of_nat k)). unfold zget. destruct (Z.leb_spec 0 (Z.of_nat k)); [|lia].
  by rewrite Nat2Z.id.
Qed.

Lemma upper_bound_loop_spec fuel less n left count :
  0 <= left -> 0 <= count -> count < Z.of_nat fuel -> left + count <= n ->
  (forall i j, 0 <= i <= j -> j < n -> less i = true -> less j = true) ->
  (forall i, 0 <= i < left -> less i = false) ->
  (forall i, left + count <= i < n -> less i = true) ->
  exists p, upper_bound_loop fuel less left count = Some p /\ left <= p <= left + count /\
    (forall i, 0 <= i < p -> less i = false) /\
    (forall i, p <= i < n -> less i = true).
Proof.
  intros Hl Hc Hf Hn Hmono. revert left count Hl Hc Hf Hn.
  induction fuel as [|fuel IH]; intros left count Hl Hc Hf Hn Hlow Hhigh; [lia|].
  cbn [upper_bound_loop]. destruct (Z.ltb_spec 0 count); cycle 1.
  { exists left. split_and!; [done|lia|lia|done|]. intros i Hi. apply Hhigh. lia. }
  rewrite !Z.shiftr_div_pow2 by lia. change (2 ^ 1) with 2.
  pose proof (Z.div_mod count 2 ltac:(lia)). pose proof (Z.mod_pos_bound count 2 ltac:(lia)).
  set (i := count / 2) in *. destruct (less (left + i)) eqn:E.
  - destruct (IH left i) as (p & Ep & Hp & Hlo & Hhi); [lia|lia|lia|lia|done| |].
    { intros j Hj. apply (Hmono (left + i)); [lia|lia|done]. }
    exists p. split_and!; [done|lia|lia|done|done].
  - destruct (IH (left + i + 1) (count - (i + 1))) as (p & Ep & Hp & Hlo & Hhi);
      [lia|lia|lia|lia| | |].
    { intros j Hj. destruct (less j) eqn:Ej; [|done].
      rewrite (Hmono j (left + i) ltac:(lia) ltac:(lia) Ej) in E. done. }
    { intros j Hj. apply Hhigh. lia. }
    exists p. split_and!; [done|lia|lia|done|done].
Qed.

Lemma read_record size rs i r :
  0 < size -> Forall (fun r => zlen r = size) rs -> rs !! i = Some r ->
  file_read (concat rs) (Z.of_nat i * size) size = r.
Proof.
  intros Hs Hall Hi. pose proof (take_drop_middle _ _ _ Hi) as E. pose proof (lookup_lt_Some _ _ _ Hi).
  rewrite <- E in Hall. apply list.Forall_app in Hall as [Hall1 Hall2].
  apply list.Forall_cons_1 in Hall2 as [Hrz _].
  rewrite <- E, concat_app. cbn [concat]. apply file_read_app; [|done].
  rewrite (zlen_concat size) by done. rewrite zlen_take. unfold zlen. lia.
Qed.

(** [upper_bound_record] on a file whose records are in order for the key:
    the number of the first record the key is below, or the number of records;
    that record is the one copied out. *)
Theorem upper_bound_record_spec rs size compar :
  records size rs ->
  (forall i j ri rj, rs !! i = Some ri -> rs !! j = Some rj -> (i <= j)%nat ->
     compar ri < 0 -> compar rj < 0) ->
  exists p,
    upper_bound_record (Some (concat rs)) compar size =
      Some (Z.of_nat p, zlen rs, rs !! p) /\ (p <= length rs)%nat /\
    (forall i r, rs !! i = Some r -> (i < p)%nat -> 0 <= compar r) /\
    (forall i r, rs !! i = Some r -> (p <= i)%nat -> compar r < 0).
Proof.
  intros (Hs & Hall & _) Hmono. unfold upper_bound_record.
  rewrite (zlen_concat size) by done. rewrite (Z.mul_comm size), Z.div_mul by lia.
  set (less := fun i => compar (file_read (concat rs) (i * size) size) <? 0).
  assert (Hless : forall i r, rs !! i = Some r -> less (Z.of_nat i) = (compar r <? 0)).
  { intros i r Hi. unfold less. by rewrite (read_record size rs i r Hs Hall Hi). }
  assert (Hat : forall i, 0 <= i < zlen rs -> exists r, rs !! Z.to_nat i = Some r /\
    less i = (compar r <? 0)).
  { intros i Hi. destruct (lookup_lt_is_Some_2 rs (Z.to_nat i)) as [r Hr]; [unfold zlen in *; lia|].
    exists r. split; [done|]. rewrite <- (Hless _ _ Hr). f_equal. lia. }
  pose proof (zlen_nonneg rs).
  destruct (upper_bound_loop_spec (S (Z.to_nat (zlen rs))) less (zlen rs) 0 (zlen rs))
    as (p & -> & Hp & Hlo & Hhi); [lia|lia|lia|lia| |lia|lia|].
  { intros i j Hij Hj Hi. destruct (Hat i ltac:(lia)) as (ri & Hri & Ei).
    destruct (Hat j ltac:(lia)) as (rj & Hrj & Ej). rewrite Ei in Hi. rewrite Ej.
    apply Z.ltb_lt in Hi. apply Z.ltb_lt. apply (Hmono _ _ _ _ Hri Hrj); [lia|done]. }
  cbn [mbind option_bind]. exists (Z.to_nat p). rewrite Z.div_mul, Z2Nat.id by lia.
  split_and!; [|unfold zlen in *; lia| |].
  - do 2 f_equal. destruct (Z.ltb_spec (p * size) (zlen rs * size)).
    + assert (p < zlen rs) by nia.
      destruct (lookup_lt_is_Some_2 rs (Z.to_nat p)) as [r Hr]; [unfold zlen in *; lia|].
      rewrite Hr. f_equal. rewrite <- (read_record size rs _ r Hs Hall Hr). f_equal. lia.
    + assert (zlen rs <= p) by nia. rewrite lookup_ge_None_2; [done|]. unfold zlen in *. lia.
  - intros i r Hi Hlt. specialize (Hlo (Z.of_nat i) ltac:(lia)). rewrite (Hless _ _ Hi) in Hlo.
    apply Z.ltb_ge in Hlo. done.
  - intros i r Hi Hge. pose proof (lookup_lt_Some _ _ _ Hi).
    specialize (Hhi (Z.of_nat i) ltac:(unfold zlen in *; lia)). rewrite (Hless _ _ Hi) in Hhi.
    by apply Z.ltb_lt in Hhi.
Qed.

(** *** Instances *)

Definition demo_recs : list (list Z) := [[1; 1]; [2; 2]; [4; 4]].

Lemma demo_records : records 2 demo_recs.
Proof. split; [done|]. split; [by repeat constructor|by vm_compute]. Qed.

Lemma delete_record2_spec_witness :
  delete_record2 (Some [1; 1; 2; 2; 4; 4]) 2 2 (Some (fun r => bool_decide (r = [2; 2])))
  = Some (0, Some [1; 1; 4; 4]).
Proof.
  etransitivity.
  - apply (delete_record2_spec demo_recs 2 2 (fun r => bool_decide (r = [2; 2]))).
    + apply demo_records.
    + by vm_compute.
  - reflexivity.
Defined.

Lemma delete_record2_null_witness :
  delete_record2 (Some [1; 1; 2; 2; 4; 4]) 2 2 None = Some (-1, Some [1; 1; 2; 2; 4; 4]).
Proof. apply delete_record2_null_deletes_nothing. reflexivity. Defined.

Lemma delete_records_spec_witness :
  delete_records (Some [1; 1; 2; 2; 4; 4]) 2 1 2 = Some (0, Some [4; 4]).
Proof.
  etransitivity.
  - apply (delete_records_spec demo_recs 2 1 2).
    + apply demo_records.
    + by vm_compute.
    + by vm_compute.
    + by vm_compute.
  - reflexivity.
Defined.

Lemma delete_records_past_end_witness :
  delete_record (Some [1; 1; 2; 2; 4; 4]) 2 4 = Some (0, Some [1; 1; 2; 2]).
Proof.
  apply (delete_records_past_end [[1; 1]; [2; 2]] [4; 4] 2). apply demo_records.
Defined.

Lemma append_then_get_witness :
  append_record (Some [1; 1; 2; 2; 4; 4; 7]) true [5; 6] 2 = (4, Some [1; 1; 2; 2; 4; 4; 5; 6]) /\
  get_record (Some [1; 1; 2; 2; 4; 4; 5; 6]) 2 4 = (1, [5; 6]).
Proof.
  destruct (append_then_get demo_recs [7] [5; 6] [8; 8] 2) as (H1 & H2 & _).
  - apply demo_records.
  - by vm_compute.
  - reflexivity.
  - reflexivity.
  - split; [exact H1|exact H2].
Defined.

Lemma intbsearch_spec_witness :
  exists r, intbsearch 7 [2; 7; 9] 3 = Some r /\ r = Some 1.
Proof.
  destruct (intbsearch_spec 7 [2; 7; 9]) as (r & E & _).
  - intros i j x y Hi Hj Hlt. pose proof (zget_range _ _ _ Hi). pose proof (zget_range _ _ _ Hj).
    change (zlen [2; 7; 9]) with 3 in *.
    assert (i = 0 /\ j = 1 \/ i = 0 /\ j = 2 \/ i = 1 /\ j = 2) as [[-> ->]|[[-> ->]|[-> ->]]] by lia;
      injection Hi as <-; injection Hj as <-; lia.
  - exists r. split; [exact E|]. vm_compute in E. injection E as <-. reflexivity.
Defined.

Lemma upper_bound_record_spec_witness :
  exists p, upper_bound_record (Some [1; 1; 2; 2; 4; 4]) (fun r => 2 - default 0 (head r)) 2 =
    Some (Z.of_nat p, 3, demo_recs !! p) /\ p = 2%nat.
Proof.
  destruct (upper_bound_record_spec demo_recs 2 (fun r => 2 - default 0 (head r))) as (p & E & Hp & _).
  - apply demo_records.
  - intros i j ri rj Hi Hj Hle.
    destruct i as [|[|[|i]]]; [| | |done]; (destruct j as [|[|[|j]]]; [| | |done]);
      injection Hi as <-; injection Hj as <-; cbn; lia.
  - exists p. split; [exact E|]. destruct p as [|[|[|[|p]]]]; vm_compute in E; congruence || (cbn in Hp; lia).
Defined.

End RecordProps.
