(* ===== verification/Utf8.v ===== *)
(** The UTF-8 and Big5 codecs ([include/multibyte.h], [common/sys/utf8.c]).

    A decoder takes one byte at a time; a write outside of its buffer would
    make the operation [None].  Contexts and buffers are not null.  The two
    conversion tables of 65536 entries are arguments of the conversions. *)

From S2P Require Import Prelude.

Module Utf8.

(** *** [utf8_ctx] *)

Record utf8_ctx := Utf8Ctx
  { ubuf : list Z; need : Z; got : Z; len : Z; ucs : Z }.

(** [buf[i] = b]: the new buffer. *)
Definition put (b : list Z) (i x : Z) : option (list Z) := mem_write b i [x].

Definition utf8_init (c : utf8_ctx) : option utf8_ctx :=
  b ← put (ubuf c) 0 0; Some (Utf8Ctx b 0 0 0 (-1)).
Definition utf8_reset := utf8_init.
Definition utf8_error (c : utf8_ctx) : option utf8_ctx :=
  b ← put (ubuf c) 0 63; b ← put b 1 0; Some (Utf8Ctx b 0 0 1 63).
Definition utf8_is_error (c : utf8_ctx) : bool := (need c =? 0) && (0 <? len c).
Definition utf8_pending (c : utf8_ctx) : Z := if got c <? need c then need c - got c else 0.
Definition utf8_is_ready (c : utf8_ctx) : bool := (0 <? need c) && (got c =? need c).
Definition utf8_get_ucs (c : utf8_ctx) : utf8_ctx * Z :=
  if negb (utf8_is_ready c) then (c, -1) else (Utf8Ctx (ubuf c) 0 0 0 (-1), ucs c).

(** The code points a sequence of [need] bytes may not encode. *)
Definition utf8_bad_value (need ucs : Z) : bool :=
  ((need =? 2) && (ucs <? 0x80)) ||
  ((need =? 3) && ((ucs <? 0x800) || ((0xD800 <=? ucs) && (ucs <=? 0xDFFF)))) ||
  ((need =? 4) && ((ucs <? 0x10000) || (0x10FFFF <? ucs))).

(** The new context and the return value. *)
Definition utf8_add_byte (c : utf8_ctx) (byte : Z) : option (utf8_ctx * bool) :=
  c ← (if utf8_is_ready c then utf8_reset c else Some c);
  if 0 <? need c then
    if negb (Z.land byte 0xC0 =? 0x80) || (need c <? 2) || (got c =? 0) || (need c <=? got c)
    then c ← utf8_error c; Some (c, false)
    else
      b ← put (ubuf c) (got c) byte;
      let got := got c + 1 in
      let u := Z.lor (Z.shiftl (ucs c) 6) (Z.land byte 0x3F) in
      let c := Utf8Ctx b (need c) got (len c) u in
      if got =? need c then
        if utf8_bad_value (need c) u then c ← utf8_error c; Some (c, false)
        else b ← put b got 0; Some (Utf8Ctx b (need c) got got u, true)
      else Some (c, false)
  else if byte <? 0x80 then
    b ← put (ubuf c) 0 byte; b ← put b 1 0;
    Some (Utf8Ctx b 1 1 1 byte, true)
  else if (byte <? 0xC2) || (0xF4 <? byte) then
    c ← utf8_error c; Some (c, false)
  else
    b ← put (ubuf c) 0 byte;
    Some (if Z.land byte 0xE0 =? 0xC0 then Utf8Ctx b 2 1 0 (Z.land byte 0x1F)
          else if Z.land byte 0xF0 =? 0xE0 then Utf8Ctx b 3 1 0 (Z.land byte 0x0F)
          else Utf8Ctx b 4 1 0 (Z.land byte 0x07), false).

(** The context when the bytes [bs] and a NUL are put in the buffer. *)
Definition utf8_fill (c : utf8_ctx) (u : Z) (bs : list Z) : option (utf8_ctx * Z) :=
  b ← mem_write (ubuf c) 0 (bs ++ [0]);
  Some (Utf8Ctx b (zlen bs) (zlen bs) (zlen bs) u, zlen bs).

Definition utf8_from_ucs (c : utf8_ctx) (u : Z) : option (utf8_ctx * Z) :=
  if (u <? 0) || (0x10FFFF <? u) || ((0xD800 <=? u) && (u <=? 0xDFFF)) then
    c ← utf8_reset c; Some (c, 0)
  else if u <? 0x80 then utf8_fill c u [u8 u]
  else if u <? 0x800 then
    utf8_fill c u [u8 (Z.lor 0xC0 (Z.shiftr u 6)); u8 (Z.lor 0x80 (Z.land u 0x3F))]
  else if u <? 0x10000 then
    utf8_fill c u [u8 (Z.lor 0xE0 (Z.shiftr u 12));
                   u8 (Z.lor 0x80 (Z.land (Z.shiftr u 6) 0x3F));
                   u8 (Z.lor 0x80 (Z.land u 0x3F))]
  else
    utf8_fill c u [u8 (Z.lor 0xF0 (Z.shiftr u 18));
                   u8 (Z.lor 0x80 (Z.land (Z.shiftr u 12) 0x3F));
                   u8 (Z.lor 0x80 (Z.land (Z.shiftr u 6) 0x3F));
                   u8 (Z.lor 0x80 (Z.land u 0x3F))].

(** The bytes written to [mb], without the NUL, and the return value. *)
Definition utf8_to_mb (c : utf8_ctx) : option (list Z * Z) :=
  if len c =? 0 then Some ([], 0) else d ← mem_read (ubuf c) 0 (len c); Some (d, len c).

(** *** [big5_ctx] *)

Record big5_ctx := Big5Ctx
  { bbuf : list Z; bneed : Z; bgot : Z; blen : Z; bch : Z }.

Definition big5_init (c : big5_ctx) : option big5_ctx :=
  b ← put (bbuf c) 0 0; Some (Big5Ctx b 0 0 0 (-1)).
Definition big5_reset := big5_init.
Definition big5_error (c : big5_ctx) : option big5_ctx :=
  b ← put (bbuf c) 0 63; b ← put b 1 0; Some (Big5Ctx b 0 0 1 63).
Definition big5_is_error (c : big5_ctx) : bool := (bneed c =? 0) && (0 <? blen c).
Definition big5_pending (c : big5_ctx) : Z := if bgot c <? bneed c then bneed c - bgot c else 0.
Definition big5_is_ready (c : big5_ctx) : bool := (0 <? bneed c) && (bgot c =? bneed c).
Definition big5_get_char (c : big5_ctx) : big5_ctx * Z :=
  if negb (big5_is_ready c) then (c, -1) else (Big5Ctx (bbuf c) 0 0 0 (-1), bch c).

Definition big5_add_byte (c : big5_ctx) (byte : Z) : option (big5_ctx * bool) :=
  c ← (if big5_is_ready c then big5_reset c else Some c);
  if 0 <? bneed c then
    if (byte <? 0x40) || (byte =? 0xFF) then c ← big5_error c; Some (c, false)
    else
      b ← put (bbuf c) 1 byte; b ← put b 2 0;
      lead ← zget b 0;
      Some (Big5Ctx b (bneed c) 2 2 (Z.lor (Z.shiftl lead 8) byte), true)
  else if byte <? 0x80 then
    b ← put (bbuf c) 0 byte; b ← put b 1 0;
    Some (Big5Ctx b 1 1 1 byte, true)
  else if (byte =? 0x80) || (byte =? 0xFF) then c ← big5_error c; Some (c, false)
  else
    b ← put (bbuf c) 0 byte; b ← put b 1 0;
    Some (Big5Ctx b 2 1 0 (-1), false).

Definition big5_from_char (c : big5_ctx) (ch : Z) : option (big5_ctx * Z) :=
  if (ch <? 0) || (0xFFFF <? ch) then c ← big5_reset c; Some (c, 0)
  else if ch <=? 0xFF then
    b ← mem_write (bbuf c) 0 [u8 ch; 0]; Some (Big5Ctx b 1 1 1 ch, 1)
  else
    b ← mem_write (bbuf c) 0 [u8 (Z.land (Z.shiftr ch 8) 0xFF); u8 (Z.land ch 0xFF); 0];
    Some (Big5Ctx b 2 2 2 ch, 2).

Definition big5_to_mb (c : big5_ctx) : option (list Z * Z) :=
  if blen c =? 0 then Some ([], 0) else d ← mem_read (bbuf c) 0 (blen c); Some (d, blen c).

(** *** Byte classes *)

Definition utf8_is_valid_lead (c : Z) : bool := (0xC2 <=? u8 c) && (u8 c <=? 0xF4).
Definition big5_is_valid_lead (c : Z) : bool := (0x81 <=? u8 c) && (u8 c <=? 0xFE).
Definition utf8_is_valid_trail (c : Z) : bool := Z.land (u8 c) 0xC0 =? 0x80.
Definition big5_is_valid_trail (c : Z) : bool := (0x40 <=? u8 c) && negb (u8 c =? 0xFF).

(** *** Conversions *)

Section Tables.
Variable u2b_table b2u_table : Z -> Z.

(** The loop of [utf8_to_big5_n]: [p] is the source from the read position to
    [end], or to the NUL; [out] is what is written.  [None] is the fuel. *)
Fixpoint u2b_loop (fuel : nat) (max_len : Z) (c : utf8_ctx) (p out : list Z)
    : option (utf8_ctx * list Z) :=
  match fuel with
  | O => None
  | S fuel =>
      match p with
      | [] => Some (c, out)
      | x :: p' =>
          if negb (x =? 0) && (zlen out <? max_len - 1) then
            let was_pending := utf8_pending c in
            '(c, ready) ← utf8_add_byte c x;
            if negb ready then
              if utf8_is_error c then
                u2b_loop fuel max_len c (if was_pending =? 0 then p' else p) (out ++ [63])
              else u2b_loop fuel max_len c p' out
            else
              let '(c, u) := utf8_get_ucs c in
              let b5 := if (0 <=? u) && (u <? 0x10000) then u2b_table u else 0 in
              let b5 := if b5 =? 0 then 63 else b5 in
              if 0xFF <? b5 then
                if max_len <=? zlen out + 2 then Some (c, out)
                else u2b_loop fuel max_len c p' (out ++ [Z.shiftr b5 8; Z.land b5 0xFF])
              else u2b_loop fuel max_len c p' (out ++ [b5])
          else Some (c, out)
      end
  end.

(** The string left in [big5], without its NUL, when [max_len > 0]. *)
Definition utf8_to_big5_n (src : list Z) (max_len : Z) : option (list Z) :=
  c ← utf8_init (Utf8Ctx [0; 0; 0; 0; 0] 0 0 0 0);
  '(c, out) ← u2b_loop (S (2 * length src)) max_len c src [];
  Some (if negb (utf8_pending c =? 0) && (zlen out <? max_len - 1) then out ++ [63] else out).
Definition utf8_to_big5 := utf8_to_big5_n.

Fixpoint b2u_loop (fuel : nat) (max_len : Z) (c : utf8_ctx) (p out : list Z) : option (list Z) :=
  match fuel with
  | O => None
  | S fuel =>
      match p with
      | [] => Some out
      | x :: p' =>
          if negb (x =? 0) && (zlen out <? max_len - 1) then
            (* the next source position and [ucs2]; [None] is the break *)
            let next :=
              if negb (Z.land x 0x80 =? 0) then
                match p' with
                | [] => None
                | y :: p'' =>
                    if y =? 0 then None
                    else if 0x40 <=? y then Some (p'', b2u_table (Z.lor (Z.shiftl x 8) y))
                    else Some (p', 63)
                end
              else Some (p', x) in
            match next with
            | None => Some out
            | Some (p, ucs2) =>
                '(c, utf_len) ← utf8_from_ucs c ucs2;
                if max_len <=? zlen out + utf_len then Some out
                else '(d, _) ← utf8_to_mb c; b2u_loop fuel max_len c p (out ++ d)
            end
          else Some out
      end
  end.

(** [same]: the two buffers are one; the source is copied first.  [src_len] is
    [None] for [(size_t)-1]. *)
Definition big5_to_utf8_n (src : list Z) (src_len : option Z) (same : bool) (max_len : Z)
    : option (list Z) :=
  let src :=
    if same then
      match src_len with
      | Some n => if max_len <=? n then take (Z.to_nat (max_len - 1)) src else src
      | None => take (Z.to_nat (max_len - 1)) src
      end
    else src in
  b2u_loop (S (length src)) max_len (Utf8Ctx [0; 0; 0; 0; 0] 0 0 0 0) src [].
Definition big5_to_utf8 (src : list Z) (same : bool) (max_len : Z) : option (list Z) :=
  big5_to_utf8_n src None same max_len.
End Tables.

End Utf8.
