(* ===== verification/Utf8Props.v ===== *)
(** The properties of the UTF-8 and Big5 codecs ([Utf8]). *)

From S2P Require Import Prelude Utf8.
Import Utf8.

Module Utf8Props.

(** *** Encodings by arithmetic *)

Definition scalar (u : Z) : Prop := 0 <= u <= 0x10FFFF /\ ~ (0xD800 <= u <= 0xDFFF).
Definition scalarb (u : Z) : bool :=
  (0 <=? u) && (u <=? 0x10FFFF) && negb ((0xD800 <=? u) && (u <=? 0xDFFF)).

Definition lead_base (n : Z) : Z := if n =? 2 then 192 else if n =? 3 then 224 else 240.

(** The first [k] bytes of an [n]-byte sequence, for the bits [v] they carry. *)
Fixpoint penc (n : Z) (k : nat) (v : Z) : list Z :=
  match k with
  | O => []
  | S O => [lead_base n + v]
  | S k => penc n k (v / 64) ++ [128 + v mod 64]
  end.

Definition enc_len (u : Z) : Z :=
  if u <? 0x80 then 1 else if u <? 0x800 then 2 else if u <? 0x10000 then 3 else 4.
Definition enc (u : Z) : list Z :=
  if u <? 0x80 then [u] else penc (enc_len u) (Z.to_nat (enc_len u)) u.

Lemma byte_forall (P : Z -> bool) b :
  forallb (fun n => P (Z.of_nat n)) (seq 0 256) = true -> is_u8 b -> P b = true.
Proof.
  intros H Hb. rewrite forallb_forall in H. unfold is_u8 in Hb.
  specialize (H (Z.to_nat b)). rewrite Z2Nat.id in H by lia. apply H. apply in_seq. lia.
Qed.

Lemma trail_test b : is_u8 b -> (Z.land b 0xC0 =? 0x80) = ((128 <=? b) && (b <? 192)).
Proof.
  intros Hb. apply eqb_prop. revert b Hb. intros b.
  apply (byte_forall (fun b => Bool.eqb (Z.land b 0xC0 =? 0x80) ((128 <=? b) && (b <? 192)))).
  vm_compute. reflexivity.
Qed.

Lemma lead2_test b : is_u8 b -> (Z.land b 0xE0 =? 0xC0) = ((192 <=? b) && (b <? 224)).
Proof.
  intros Hb. apply eqb_prop. revert b Hb. intros b.
  apply (byte_forall (fun b => Bool.eqb (Z.land b 0xE0 =? 0xC0) ((192 <=? b) && (b <? 224)))).
  vm_compute. reflexivity.
Qed.

Lemma lead3_test b : is_u8 b -> (Z.land b 0xF0 =? 0xE0) = ((224 <=? b) && (b <? 240)).
Proof.
  intros Hb. apply eqb_prop. revert b Hb. intros b.
  apply (byte_forall (fun b => Bool.eqb (Z.land b 0xF0 =? 0xE0) ((224 <=? b) && (b <? 240)))).
  vm_compute. reflexivity.
Qed.

Lemma land_low b n : 0 <= n -> Z.land b (Z.ones n) = b mod 2 ^ n.
Proof. apply Z.land_ones. Qed.

(** *** The states of the decoder *)

(** Idle after a reset, an error or a result taken; in the middle of a
    sequence; or holding a complete one. *)
Inductive dec_state (c : utf8_ctx) : Prop :=
| dec_idle : need c = 0 -> got c = 0 -> dec_state c
| dec_pending k :
    2 <= need c <= 4 -> (0 < k)%nat -> got c = Z.of_nat k -> got c < need c -> len c = 0 ->
    0 <= ucs c < (if need c =? 2 then 32 else if need c =? 3 then 16 else 5) * 64 ^ (Z.of_nat k - 1) ->
    take k (ubuf c) = penc (need c) k (ucs c) -> dec_state c
| dec_ready :
    scalar (ucs c) -> need c = enc_len (ucs c) -> got c = need c -> len c = need c ->
    take (Z.to_nat (len c)) (ubuf c) = enc (ucs c) -> dec_state c.

Definition dec_ok (c : utf8_ctx) : Prop := zlen (ubuf c) = 5 /\ dec_state c.

Lemma put_spec b i x :
  0 <= i < zlen b -> exists b', put b i x = Some b' /\ zlen b' = zlen b /\
    take (S (Z.to_nat i)) b' = take (Z.to_nat i) b ++ [x] /\
    (forall j, (j <= Z.to_nat i)%nat -> take j b' = take j b).
Proof.
  intros Hi. unfold put.
  destruct (lookup_lt_is_Some_2 b (Z.to_nat i)) as [y Hy]; [unfold zlen in *; lia|].
  pose proof (take_drop_middle _ _ _ Hy) as E. rewrite <- E.
  assert (Hl : length (take (Z.to_nat i) b) = Z.to_nat i) by (rewrite length_take; unfold zlen in *; lia).
  set (a := take (Z.to_nat i) b) in *. set (d := drop (S (Z.to_nat i)) b) in *.
  rewrite (mem_write_one a y x d) by (unfold zlen; lia).
  eexists. split; [reflexivity|]. split; [zlia|]. split.
  - rewrite <- Hl. rewrite (take_app_length a (y :: d)).
    change (a ++ x :: d) with (a ++ [x] ++ d). rewrite app_assoc. apply take_app_length'.
    rewrite length_app. cbn. lia.
  - intros j Hj. rewrite !take_app_le by lia. done.
Qed.

Lemma reset_spec c : zlen (ubuf c) = 5 -> exists c', utf8_reset c = Some c' /\ zlen (ubuf c') = 5 /\
  need c' = 0 /\ got c' = 0 /\ len c' = 0.
Proof.
  intros Hz. unfold utf8_reset, utf8_init. destruct (put_spec (ubuf c) 0 0 ltac:(lia)) as (b & -> & Hb & _).
  eexists. split; [reflexivity|]. cbn. lia.
Qed.

Lemma error_spec c : zlen (ubuf c) = 5 -> exists c', utf8_error c = Some c' /\ zlen (ubuf c') = 5 /\
  need c' = 0 /\ got c' = 0 /\ len c' = 1.
Proof.
  intros Hz. unfold utf8_error. destruct (put_spec (ubuf c) 0 63 ltac:(lia)) as (b & -> & Hb & _).
  cbn [mbind option_bind]. destruct (put_spec b 1 0 ltac:(lia)) as (b' & -> & Hb' & _).
  eexists. split; [reflexivity|]. cbn. lia.
Qed.

(** What one byte does, from an idle state and in a sequence. *)
Lemma add_idle c x :
  zlen (ubuf c) = 5 -> need c = 0 -> is_u8 x ->
  exists c' r, utf8_add_byte c x = Some (c', r) /\ dec_ok c' /\
  (if x <? 128 then r = true /\ ucs c' = x /\ utf8_is_ready c' = true
   else r = false /\
     if (x <? 194) || (244 <? x) then utf8_is_error c' = true /\ need c' = 0
     else utf8_is_error c' = false /\ got c' = 1 /\
       need c' = (if x <? 224 then 2 else if x <? 240 then 3 else 4) /\
       ucs c' = x - lead_base (need c')).
Proof.
  intros Hz Hn Hx. unfold utf8_add_byte.
  assert (utf8_is_ready c = false) as -> by (unfold utf8_is_ready; by rewrite Hn).
  cbn [mbind option_bind]. rewrite Hn. cbn [Z.ltb Z.compare].
  destruct (put_spec (ubuf c) 0 x ltac:(lia)) as (b & Eb & Hb & Htake & _).
  change (S (Z.to_nat 0)) with 1%nat in Htake. cbn [app] in Htake.
  change (take (Z.to_nat 0) (ubuf c) ++ [x]) with [x] in Htake.
  destruct (Z.ltb_spec x 128).
  - rewrite Eb. cbn [mbind option_bind]. destruct (put_spec b 1 0 ltac:(lia)) as (b' & -> & Hb' & _ & Hkeep).
    cbn [mbind option_bind]. eexists _, _. split; [reflexivity|]. split; [|done].
    split; [cbn; lia|]. unfold is_u8 in Hx. apply dec_ready; cbn [need got len ucs ubuf]; try done.
    + unfold scalar. lia.
    + unfold enc_len. by replace (x <? 128) with true by lia.
    + change (Z.to_nat 1) with 1%nat. rewrite (Hkeep 1%nat) by (cbn; lia).
      rewrite Htake. unfold enc. by replace (x <? 128) with true by lia.
  - destruct ((x <? 194) || (244 <? x)) eqn:Ebad.
    { destruct (error_spec c Hz) as (c' & -> & Hc' & Hn' & Hg' & Hl'). cbn [mbind option_bind].
      eexists _, _. split; [reflexivity|]. split; [split; [done|by apply dec_idle]|].
      split; [done|]. split; [|done]. unfold utf8_is_error. by rewrite Hn', Hl'. }
    zbool. rewrite Eb. cbn [mbind option_bind]. rewrite lead2_test, lead3_test by done.
    change 0x1F with (Z.ones 5). change 0x0F with (Z.ones 4). change 0x07 with (Z.ones 3).
    rewrite !land_low by lia. eexists _, _. split; [reflexivity|].
    destruct (Z.ltb_spec x 224); [|destruct (Z.ltb_spec x 240)].
    + replace ((192 <=? x) && true) with true by lia.
      assert (E : x mod 2 ^ 5 = x - 192)
        by (symmetry; apply Z.mod_unique_pos with 6; lia).
      split; [|split_and!; done]. split; [cbn; lia|].
      apply (dec_pending _ 1); cbn [need got len ucs ubuf]; rewrite ?E; try lia; try done.
      { cbn; lia. } rewrite Htake. cbn. f_equal. lia.
    + replace ((192 <=? x) && false) with false by lia.
      replace ((224 <=? x) && true) with true by lia.
      assert (E : x mod 2 ^ 4 = x - 224)
        by (symmetry; apply Z.mod_unique_pos with 14; lia).
      split; [|split_and!; done]. split; [cbn; lia|].
      apply (dec_pending _ 1); cbn [need got len ucs ubuf]; rewrite ?E; try lia; try done.
      { cbn; lia. } rewrite Htake. cbn. f_equal. lia.
    + replace ((192 <=? x) && false) with false by lia.
      replace ((224 <=? x) && false) with false by lia.
      assert (E : x mod 2 ^ 3 = x - 240)
        by (symmetry; apply Z.mod_unique_pos with 30; lia).
      split; [|split_and!; done]. split; [cbn; lia|].
      apply (dec_pending _ 1); cbn [need got len ucs ubuf]; rewrite ?E; try lia; try done.
      { cbn; lia. } rewrite Htake. cbn. f_equal. lia.
Qed.

Definition lead_bound (n : Z) : Z := if n =? 2 then 32 else if n =? 3 then 16 else 5.

(** A complete sequence the code accepts is the encoding of its value. *)
Lemma complete_enc n u :
  2 <= n <= 4 -> 0 <= u < lead_bound n * 64 ^ (n - 1) -> utf8_bad_value n u = false ->
  scalar u /\ n = enc_len u /\ penc n (Z.to_nat n) u = enc u.
Proof.
  intros Hn Hu Hbad. unfold utf8_bad_value in Hbad. zbool. unfold lead_bound in Hu.
  assert (Hu' : scalar u /\ n = enc_len u /\ 0x80 <= u).
  { assert (n = 2 \/ n = 3 \/ n = 4) as [->|[->| ->]] by lia; cbn in *; unfold scalar, enc_len;
      repeat match goal with |- context [if ?b then _ else _] => destruct b eqn:? end; zbool; lia. }
  destruct Hu' as (Hs & Hl & Hge). split; [done|]. split; [done|]. unfold enc.
  replace (u <? 0x80) with false by lia. by rewrite <- Hl.
Qed.

Lemma add_pending c k x :
  zlen (ubuf c) = 5 -> 2 <= need c <= 4 -> (0 < k)%nat -> got c = Z.of_nat k -> got c < need c ->
  len c = 0 -> 0 <= ucs c < lead_bound (need c) * 64 ^ (Z.of_nat k - 1) ->
  take k (ubuf c) = penc (need c) k (ucs c) -> is_u8 x ->
  exists c' r, utf8_add_byte c x = Some (c', r) /\ dec_ok c' /\
  if (128 <=? x) && (x <? 192) then
    let u := ucs c * 64 + (x - 128) in
    if got c + 1 =? need c then
      if utf8_bad_value (need c) u then r = false /\ utf8_is_error c' = true /\ need c' = 0
      else r = true /\ ucs c' = u /\ utf8_is_ready c' = true
    else r = false /\ utf8_is_error c' = false /\ need c' = need c /\ got c' = got c + 1 /\ ucs c' = u
  else r = false /\ utf8_is_error c' = true /\ need c' = 0.
Proof.
  intros Hz Hn Hk Hg Hgn Hl Hu Htake Hx. unfold utf8_add_byte.
  assert (utf8_is_ready c = false) as -> by (unfold utf8_is_ready; lia).
  cbn [mbind option_bind]. replace (0 <? need c) with true by lia. rewrite trail_test by done.
  replace (need c <? 2) with false by lia. replace (got c =? 0) with false by lia.
  replace (need c <=? got c) with false by lia. rewrite !orb_false_r.
  destruct ((128 <=? x) && (x <? 192)) eqn:Et; cbn [negb]; cycle 1.
  { destruct (error_spec c Hz) as (c' & -> & Hc' & Hn' & Hg' & Hl'). cbn [mbind option_bind].
    eexists _, _. split; [reflexivity|]. split; [split; [done|by apply dec_idle]|].
    split; [done|]. split; [|done]. unfold utf8_is_error. by rewrite Hn', Hl'. }
  zbool. destruct (put_spec (ubuf c) (got c) x ltac:(lia)) as (b & -> & Hb & Hbt & Hbk).
  cbn [mbind option_bind need got len ucs ubuf].
  assert (Eu : Z.lor (Z.shiftl (ucs c) 6) (Z.land x 0x3F) = ucs c * 64 + (x - 128)).
  { change 0x3F with (Z.ones 6). rewrite land_low by lia.
    replace (x mod 2 ^ 6) with (x - 128) by (apply Z.mod_unique_pos with 2; lia).
    rewrite Z.shiftl_mul_pow2 by lia. apply lor_add; lia. }
  rewrite Eu. set (u := ucs c * 64 + (x - 128)).
  assert (Hdm : u / 64 = ucs c /\ u mod 64 = x - 128).
  { unfold u. split; [symmetry; apply Z.div_unique_pos with (x - 128); lia|].
    symmetry. apply Z.mod_unique_pos with (ucs c); lia. }
  assert (Hub : 0 <= u < lead_bound (need c) * 64 ^ Z.of_nat k).
  { replace (Z.of_nat k) with (Z.succ (Z.of_nat k - 1)) by lia. rewrite Z.pow_succ_r by lia.
    unfold u. lia. }
  assert (Hpe : take (S k) b = penc (need c) (S k) u).
  { replace (S k) with (S (Z.to_nat (got c))) by lia. rewrite Hbt, Hg, Nat2Z.id, Htake.
    cbn [penc]. destruct k; [lia|]. destruct Hdm as [-> ->]. do 2 f_equal. lia. }
  destruct (Z.eqb_spec (got c + 1) (need c)) as [Efull|Efull]; cycle 1.
  { eexists _, _. split; [reflexivity|]. split; [split; [cbn; lia|]|].
    - apply (dec_pending _ (S k)); cbn [need got len ucs ubuf]; try lia; [|done].
      fold (lead_bound (need c)). replace (Z.of_nat (S k) - 1) with (Z.of_nat k) by lia. lia.
    - split_and!; try done. unfold utf8_is_error. cbn. lia. }
  destruct (utf8_bad_value (need c) u) eqn:Ebad.
  { match goal with |- context [utf8_error ?c1] =>
      destruct (error_spec c1) as (c' & -> & Hc' & Hn' & Hg' & Hl'); [cbn; lia|] end.
    cbn [mbind option_bind]. eexists _, _. split; [reflexivity|].
    split; [split; [done|by apply dec_idle]|].
    split; [done|]. split; [|done]. unfold utf8_is_error. by rewrite Hn', Hl'. }
  destruct (put_spec b (got c + 1) 0 ltac:(lia)) as (b' & -> & Hb' & _ & Hbk').
  cbn [mbind option_bind]. eexists _, _. split; [reflexivity|].
  destruct (complete_enc (need c) u) as (Hs & Hel & Hpenc); [lia| |done|].
  { replace (need c - 1) with (Z.of_nat k) by lia. done. }
  split; [split; [cbn; lia|]|split_and!; [done|done|unfold utf8_is_ready; cbn; lia]].
  apply dec_ready; cbn [need got len ucs ubuf]; [done|done|done|done|].
  rewrite <- Hpenc, Hbk' by lia. replace (Z.to_nat (got c + 1)) with (S k) by lia.
  replace (Z.to_nat (need c)) with (S k) by lia. done.
Qed.

Lemma add_ready c x :
  zlen (ubuf c) = 5 -> utf8_is_ready c = true -> exists c1, zlen (ubuf c1) = 5 /\ need c1 = 0 /\
    utf8_add_byte c x = utf8_add_byte c1 x.
Proof.
  intros Hz Hr. destruct (reset_spec c Hz) as (c1 & E & Hz1 & Hn & Hg & Hl). exists c1.
  split_and!; auto. unfold utf8_add_byte. rewrite Hr, E. cbn [mbind option_bind].
  assert (utf8_is_ready c1 = false) as -> by (unfold utf8_is_ready; by rewrite Hn). done.
Qed.

(** Every byte keeps the state, and a sequence is complete only on the
    encoding of a scalar value. *)
Lemma add_byte_ok c x :
  dec_ok c -> is_u8 x ->
  exists c' r, utf8_add_byte c x = Some (c', r) /\ dec_ok c' /\
    r = utf8_is_ready c' /\ (r = true -> scalar (ucs c') /\ take (Z.to_nat (len c')) (ubuf c') = enc (ucs c')).
Proof.
  intros [Hz Hst] Hx.
  assert (Hfin : forall c' r, dec_ok c' -> (r = true <-> utf8_is_ready c' = true) ->
    r = utf8_is_ready c' /\ (r = true -> scalar (ucs c') /\ take (Z.to_nat (len c')) (ubuf c') = enc (ucs c'))).
  { intros c' r [_ Hd] Hr. split; [by destruct r, (utf8_is_ready c'); intuition|].
    intros H%Hr. unfold utf8_is_ready in H. zbool. destruct Hd; [lia|lia|done]. }
  assert (Hidle : forall c0, zlen (ubuf c0) = 5 -> need c0 = 0 ->
    exists c' r, utf8_add_byte c0 x = Some (c', r) /\ dec_ok c' /\
    r = utf8_is_ready c' /\ (r = true -> scalar (ucs c') /\ take (Z.to_nat (len c')) (ubuf c') = enc (ucs c'))).
  { intros c0 Hz0 Hn0. destruct (add_idle c0 x Hz0 Hn0 Hx) as (c' & r & -> & Hok & H).
    exists c', r. split; [done|]. split; [done|]. apply Hfin; [done|].
    destruct (x <? 128); [by destruct H as (-> & _ & ->)|].
    destruct H as [-> H]. split; [done|]. unfold utf8_is_ready.
    destruct ((x <? 194) || (244 <? x)); [destruct H as [_ ->]; done|].
    destruct H as (_ & -> & -> & _). destruct (x <? 224), (x <? 240); done. }
  destruct Hst as [Hn Hg|k Hn Hk Hg Hgn Hl Hu Htake|Hs Hn Hg Hl Htake].
  - by apply Hidle.
  - destruct (add_pending c k x Hz Hn Hk Hg Hgn Hl Hu Htake Hx) as (c' & r & -> & Hok & H).
    exists c', r. split; [done|]. split; [done|]. apply Hfin; [done|].
    assert (Hnr : forall c', need c' = 0 -> utf8_is_ready c' = false)
      by (intros c1 E; unfold utf8_is_ready; by rewrite E).
    destruct (_ && _); [|destruct H as (-> & _ & H); by rewrite Hnr].
    cbv zeta in H. destruct (Z.eqb_spec (got c + 1) (need c)).
    + destruct (utf8_bad_value _ _); [destruct H as (-> & _ & H); by rewrite Hnr|].
      by destruct H as (-> & _ & ->).
    + destruct H as (-> & _ & E1 & E2 & _). split; [done|]. unfold utf8_is_ready. lia.
  - destruct (add_ready c x Hz) as (c1 & Hz1 & Hn1 & ->); [|by apply Hidle].
    unfold utf8_is_ready. unfold enc_len in Hn. rewrite Hg, Z.eqb_refl.
    destruct (ucs c <? 0x80), (ucs c <? 0x800), (ucs c <? 0x10000); rewrite Hn; done.
Qed.

(** *** Feeding an encoding to the decoder *)

(** Bytes that neither complete a sequence nor break one. *)
Fixpoint silent (c : utf8_ctx) (bs : list Z) : option utf8_ctx :=
  match bs with
  | [] => Some c
  | x :: bs =>
      '(c, r) ← utf8_add_byte c x;
      if r || utf8_is_error c then None else silent c bs
  end.

Lemma silent_app c a b : silent c (a ++ b) = c ← silent c a; silent c b.
Proof.
  revert c. induction a as [|x a IH]; intros c; [done|]. cbn [app silent].
  destruct (utf8_add_byte c x) as [[c' r]|]; [|done]. cbn [mbind option_bind].
  destruct (r || utf8_is_error c'); [done|]. apply IH.
Qed.

Definition starts (c : utf8_ctx) : Prop :=
  zlen (ubuf c) = 5 /\ (need c = 0 \/ utf8_is_ready c = true).

Lemma starts_idle c x :
  starts c -> exists c1, zlen (ubuf c1) = 5 /\ need c1 = 0 /\ utf8_add_byte c x = utf8_add_byte c1 x.
Proof.
  intros [Hz [Hn|Hr]]; [by exists c|]. by apply add_ready.
Qed.

Definition pend (c : utf8_ctx) (n : Z) (k : nat) (v : Z) : Prop :=
  zlen (ubuf c) = 5 /\ need c = n /\ got c = Z.of_nat k /\ len c = 0 /\ ucs c = v /\
  take k (ubuf c) = penc n k v.

Lemma ready_len c : dec_ok c -> utf8_is_ready c = true -> need c <> 0 /\ len c <> 0.
Proof.
  intros [_ Hd] Hr. unfold utf8_is_ready in Hr. zbool. destruct Hd as [| |? ? ? ->]; lia.
Qed.

Lemma pend_of c k : dec_ok c -> utf8_is_error c = false -> got c = Z.of_nat k -> (0 < k)%nat ->
  Z.of_nat k < need c -> pend c (need c) k (ucs c).
Proof.
  intros [Hz Hd] He Hg Hk Hn. destruct Hd as [|k' ? ? Hg' ? ? ? Htake|]; [lia| |lia].
  assert (k' = k) as -> by lia. by split_and!.
Qed.

(** The leading byte of [penc n k v] is one the decoder accepts for [n]. *)
Definition lead_ok (n L : Z) : Prop := 0 <= L < lead_bound n /\ (n = 2 -> 2 <= L).

Lemma silent_penc n k c v :
  2 <= n <= 4 -> (0 < k)%nat -> Z.of_nat k < n -> starts c -> 0 <= v ->
  lead_ok n (v / 64 ^ (Z.of_nat k - 1)) ->
  exists c', silent c (penc n k v) = Some c' /\ dec_ok c' /\ pend c' n k v.
Proof.
  intros Hn. revert v. induction k as [|k IH]; intros v Hk Hkn Hst Hv Hlead; [lia|].
  destruct k as [|k].
  - cbn [penc silent]. change (Z.of_nat 1 - 1) with 0 in Hlead. rewrite Z.pow_0_r, Z.div_1_r in Hlead.
    destruct (starts_idle c (lead_base n + v) Hst) as (c1 & Hz1 & Hn1 & ->).
    destruct Hlead as [Hl Hl2]. unfold lead_bound in Hl.
    assert (Hx : is_u8 (lead_base n + v) /\ 194 <= lead_base n + v <= 244 /\
      (if lead_base n + v <? 224 then 2 else if lead_base n + v <? 240 then 3 else 4) = n).
    { assert (n = 2 \/ n = 3 \/ n = 4) as [->|[->| ->]] by lia; unfold lead_base, is_u8; cbn in *.
      - replace (192 + v <? 224) with true by lia. lia.
      - replace (224 + v <? 224) with false by lia. replace (224 + v <? 240) with true by lia. lia.
      - replace (240 + v <? 224) with false by lia. replace (240 + v <? 240) with false by lia. lia. }
    destruct Hx as (Hx8 & Hx & Hneed).
    destruct (add_idle c1 _ Hz1 Hn1 Hx8) as (c' & r & -> & Hok & H).
    replace (lead_base n + v <? 128) with false in H by lia. destruct H as [-> H].
    replace ((lead_base n + v <? 194) || (244 <? lead_base n + v)) with false in H by lia.
    destruct H as (He & Hg & Hn' & Hu). cbn [mbind option_bind orb]. rewrite He.
    exists c'. split; [done|]. split; [done|]. rewrite Hneed in Hn'.
    pose proof (pend_of c' 1 Hok He ltac:(lia) ltac:(lia) ltac:(lia)) as Hp.
    rewrite Hn' in Hp, Hu. replace v with (ucs c') by lia. exact Hp.
  - change (penc n (S (S k)) v) with (penc n (S k) (v / 64) ++ [128 + v mod 64]).
    destruct (IH (v / 64)) as (c1 & E & Hok1 & Hp1); [lia|lia|done|apply Z.div_pos; lia| |].
    { rewrite Z.div_div by lia. replace (64 * 64 ^ (Z.of_nat (S k) - 1)) with (64 ^ (Z.of_nat (S (S k)) - 1)); [done|].
      rewrite <- Z.pow_succ_r by lia. f_equal. lia. }
    rewrite silent_app, E. cbn [mbind option_bind silent].
    destruct Hp1 as (Hz1 & Hn1 & Hg1 & Hl1 & Hu1 & Ht1).
    pose proof (Z.mod_pos_bound v 64 ltac:(lia)) as Hm.
    destruct Hok1 as [_ [|k1 ? ? Hg' ? ? Hub ?|]]; [lia| |lia].
    assert (k1 = S k) as -> by lia.
    destruct (add_pending c1 (S k) (128 + v mod 64) Hz1) as (c' & r & -> & Hok & Hr);
      try done; try lia; [unfold is_u8; lia|].
    replace ((128 <=? 128 + v mod 64) && (128 + v mod 64 <? 192)) with true in Hr by lia.
    cbv zeta in Hr. replace (got c1 + 1 =? need c1) with false in Hr by lia.
    destruct Hr as (-> & He & Hn' & Hg'' & Hu'). cbn [mbind option_bind orb]. rewrite He.
    exists c'. split; [done|]. split; [done|].
    pose proof (pend_of c' (S (S k)) Hok He ltac:(lia) ltac:(lia) ltac:(lia)) as Hp.
    rewrite Hn', Hn1 in Hp. replace v with (ucs c'); [exact Hp|].
    rewrite Hu', Hu1. pose proof (Z.div_mod v 64). lia.
Qed.

Lemma div_bounds v d a b : 0 < d -> a * d <= v -> v < b * d -> a <= v / d < b.
Proof. intros. split; [apply Z.div_le_lower_bound; lia|apply Z.div_lt_upper_bound; lia]. Qed.

(** The encoding of a scalar value: silent bytes, then one that completes. *)
Lemma feed_enc c u :
  starts c -> scalar u ->
  exists pre x c1 c2, enc u = pre ++ [x] /\ silent c pre = Some c1 /\
    utf8_add_byte c1 x = Some (c2, true) /\ dec_ok c2 /\ utf8_is_ready c2 = true /\ ucs c2 = u.
Proof.
  intros Hst [Hu Hs]. unfold enc. destruct (Z.ltb_spec u 0x80).
  { exists [], u. destruct (starts_idle c u Hst) as (c1 & Hz1 & Hn1 & E).
    destruct (add_idle c1 u Hz1 Hn1) as (c2 & r & E2 & Hok & Hadd); [unfold is_u8; lia|].
    replace (u <? 128) with true in Hadd by lia. destruct Hadd as (-> & Hu2 & Hr).
    exists c, c2. rewrite E. by split_and!. }
  set (n := enc_len u).
  assert (Hn : 2 <= n <= 4 /\ utf8_bad_value n u = false /\ lead_ok n (u / 64 ^ (n - 1)) /\
    (0 <= u < lead_bound n * 64 ^ (n - 1))).
  { unfold n, enc_len. replace (u <? 0x80) with false by lia.
    destruct (Z.ltb_spec u 0x800); [|destruct (Z.ltb_spec u 0x10000)];
      (split; [lia|]); unfold lead_ok, lead_bound;
      change (64 ^ (2 - 1)) with 64; change (64 ^ (3 - 1)) with 4096;
      change (64 ^ (4 - 1)) with 262144; cbn [Z.eqb Pos.eqb].
    - split; [unfold utf8_bad_value; cbn; lia|]. pose proof (div_bounds u 64 2 32 ltac:(lia) ltac:(lia) ltac:(lia)). lia.
    - split; [unfold utf8_bad_value; cbn; lia|]. pose proof (div_bounds u 4096 0 16 ltac:(lia) ltac:(lia) ltac:(lia)). lia.
    - split; [unfold utf8_bad_value; cbn; lia|]. pose proof (div_bounds u 262144 0 5 ltac:(lia) ltac:(lia) ltac:(lia)). lia. }
  destruct Hn as (Hn & Hbad & Hlead & Hub). clearbody n.
  destruct (Z.to_nat n) as [|[|k]] eqn:En; [lia|lia|].
  change (penc n (S (S k)) u) with (penc n (S k) (u / 64) ++ [128 + u mod 64]).
  destruct (silent_penc n (S k) c (u / 64)) as (c1 & E & Hok1 & Hp1);
    [done|lia|lia|done|apply Z.div_pos; lia| |].
  { rewrite Z.div_div by lia. replace (64 * 64 ^ (Z.of_nat (S k) - 1)) with (64 ^ (n - 1)); [done|].
    rewrite <- Z.pow_succ_r by lia. f_equal. lia. }
  destruct Hp1 as (Hz1 & Hn1 & Hg1 & Hl1 & Hu1 & Ht1).
  pose proof (Z.mod_pos_bound u 64 ltac:(lia)) as Hm.
  destruct Hok1 as [_ [|k1 ? ? Hg' ? ? Hub1 ?|]]; [lia| |lia].
  assert (k1 = S k) as -> by lia.
  destruct (add_pending c1 (S k) (128 + u mod 64) Hz1) as (c2 & r & E2 & Hok & Hr);
    try done; try lia; [unfold is_u8; lia|].
  replace ((128 <=? 128 + u mod 64) && (128 + u mod 64 <? 192)) with true in Hr by lia.
  cbv zeta in Hr. replace (got c1 + 1 =? need c1) with true in Hr by lia.
  replace (ucs c1 * 64 + (128 + u mod 64 - 128)) with u in Hr
    by (rewrite Hu1; pose proof (Z.div_mod u 64); lia).
  rewrite Hn1, Hbad in Hr. destruct Hr as (-> & Hu2 & Hr2).
  exists (penc n (S k) (u / 64)), (128 + u mod 64), c1, c2. by split_and!.
Qed.

(** What [utf8_from_ucs] stores. *)
Lemma shift6 u k : 0 <= u -> 0 <= k -> Z.shiftr u k = u / 2 ^ k.
Proof. intros. by apply Z.shiftr_div_pow2. Qed.

Lemma enc_bytes u :
  scalar u -> Forall is_u8 (enc u) /\ zlen (enc u) = enc_len u /\
  (u <> 0 -> Forall (fun x => x <> 0) (enc u)).
Proof.
  intros [Hu Hs]. unfold enc, enc_len.
  assert (Hm : forall v, 0 <= v mod 64 < 64) by (intros; apply Z.mod_pos_bound; lia).
  destruct (Z.ltb_spec u 0x80); [|destruct (Z.ltb_spec u 0x800); [|destruct (Z.ltb_spec u 0x10000)]].
  - split_and!; [by constructor; unfold is_u8; [lia|constructor]|done|intros; by constructor].
  - pose proof (div_bounds u 64 2 32 ltac:(lia) ltac:(lia) ltac:(lia)). pose proof (Hm u).
    change (Z.to_nat 2) with 2%nat. cbn [penc app lead_base Z.eqb Pos.eqb]. unfold is_u8.
    split_and!; [repeat constructor; lia|done|intros; repeat constructor; lia].
  - pose proof (div_bounds u 4096 0 16 ltac:(lia) ltac:(lia) ltac:(lia)). pose proof (Hm u). pose proof (Hm (u / 64)).
    change (Z.to_nat 3) with 3%nat. cbn [penc app lead_base Z.eqb Pos.eqb]. unfold is_u8.
    rewrite Z.div_div by lia. change (64 * 64) with 4096.
    split_and!; [repeat constructor; lia|done|intros; repeat constructor; lia].
  - pose proof (div_bounds u 262144 0 5 ltac:(lia) ltac:(lia) ltac:(lia)). pose proof (Hm u). pose proof (Hm (u / 64)).
    pose proof (Hm (u / 4096)).
    change (Z.to_nat 4) with 4%nat. cbn [penc app lead_base Z.eqb Pos.eqb]. unfold is_u8.
    rewrite !Z.div_div by lia. change (64 * 64) with 4096. change (64 * 4096) with 262144.
    split_and!; [repeat constructor; lia|done|intros; repeat constructor; lia].
Qed.

Lemma u8_small b : is_u8 b -> u8 b = b.
Proof. apply Z.mod_small. Qed.

Lemma from_ucs_bytes c u :
  scalar u -> utf8_from_ucs c u = utf8_fill c u (enc u).
Proof.
  intros [Hu Hs]. unfold utf8_from_ucs. replace (_ || _) with false by lia.
  assert (Hm : forall v, 0 <= v mod 64 < 64) by (intros; apply Z.mod_pos_bound; lia).
  assert (Htr : forall v, u8 (Z.lor 0x80 (Z.land v 0x3F)) = 128 + v mod 64).
  { intros v. change 0x3F with (Z.ones 6). rewrite land_low by lia.
    change 0x80 with (2 * 2 ^ 6). rewrite lor_add by (change (2 ^ 6) with 64; pose proof (Hm v); lia).
    change (2 ^ 6) with 64. apply u8_small. unfold is_u8. pose proof (Hm v). lia. }
  unfold enc, enc_len.
  destruct (Z.ltb_spec u 0x80); [rewrite u8_small; [done|unfold is_u8; lia]|].
  rewrite !Htr, !shift6 by lia.
  destruct (Z.ltb_spec u 0x800); [|destruct (Z.ltb_spec u 0x10000)].
  - pose proof (div_bounds u 64 2 32 ltac:(lia) ltac:(lia) ltac:(lia)). change (2 ^ 6) with 64.
    change 0xC0 with (3 * 2 ^ 6). rewrite lor_add by (change (2 ^ 6) with 64; lia).
    change (3 * 2 ^ 6) with 192. rewrite u8_small by (unfold is_u8; lia). reflexivity.
  - pose proof (div_bounds u 4096 0 16 ltac:(lia) ltac:(lia) ltac:(lia)). change (2 ^ 12) with 4096. change (2 ^ 6) with 64.
    change 0xE0 with (14 * 2 ^ 4). rewrite lor_add by (change (2 ^ 4) with 16; lia).
    change (14 * 2 ^ 4) with 224. rewrite u8_small by (unfold is_u8; lia).
    change (Z.to_nat 3) with 3%nat. cbn [penc app lead_base Z.eqb Pos.eqb].
    rewrite Z.div_div by lia. reflexivity.
  - pose proof (div_bounds u 262144 0 5 ltac:(lia) ltac:(lia) ltac:(lia)). change (2 ^ 18) with 262144. change (2 ^ 12) with 4096.
    change (2 ^ 6) with 64.
    change 0xF0 with (30 * 2 ^ 3). rewrite lor_add by (change (2 ^ 3) with 8; lia).
    change (30 * 2 ^ 3) with 240. rewrite u8_small by (unfold is_u8; lia).
    change (Z.to_nat 4) with 4%nat. cbn [penc app lead_base Z.eqb Pos.eqb].
    rewrite !Z.div_div by lia. reflexivity.
Qed.

Lemma fill_spec c u bs :
  zlen (ubuf c) = 5 -> 1 <= zlen bs <= 4 ->
  exists c', utf8_fill c u bs = Some (c', zlen bs) /\ zlen (ubuf c') = 5 /\
    need c' = zlen bs /\ utf8_is_ready c' = true /\ ucs c' = u /\ utf8_to_mb c' = Some (bs, zlen bs).
Proof.
  intros Hz Hbs. unfold utf8_fill.
  destruct (mem_write_some (ubuf c) 0 (bs ++ [0])) as (b & E & Hb); [lia|zlia|].
  rewrite E. cbn [mbind option_bind]. eexists. split; [reflexivity|]. split_and!; [cbn; lia|done| |done|].
  - unfold utf8_is_ready. cbn. lia.
  - unfold utf8_to_mb. cbn [len ubuf]. replace (zlen bs =? 0) with false by lia.
    unfold mem_write in E. destruct (_ && _) in E; [|done]. injection E as <-.
    change (Z.to_nat 0) with 0%nat. cbn [take app]. rewrite <- app_assoc.
    by rewrite mem_read_head.
Qed.

(** *** The conversions *)

Lemma u2b_silent u2b fuel max_len c bs c' rest out :
  silent c bs = Some c' -> Forall (fun x => x <> 0) bs -> zlen out < max_len - 1 ->
  u2b_loop u2b (length bs + fuel) max_len c (bs ++ rest) out = u2b_loop u2b fuel max_len c' rest out.
Proof.
  intros Hs Hnz Ho. revert c Hs. induction Hnz as [|x bs Hx _ IH]; intros c Hs.
  - by injection Hs as ->.
  - cbn [length Nat.add app u2b_loop silent] in *. replace (x =? 0) with false by lia.
    replace (zlen out <? max_len - 1) with true by lia. cbn [negb andb].
    destruct (utf8_add_byte c x) as [[c1 r]|]; [|done]. cbn [mbind option_bind] in *.
    destruct r; [done|]. cbn [orb negb] in *. destruct (utf8_is_error c1); [done|]. by apply IH.
Qed.

Definition big5_bytes (ch : Z) : list Z :=
  if 0xFF <? ch then [Z.shiftr ch 8; Z.land ch 0xFF] else [ch].

Lemma u2b_char u2b fuel max_len c u ch rest out :
  starts c -> scalar u -> u <> 0 -> u < 0x10000 -> u2b u = ch -> ch <> 0 ->
  zlen out + zlen (big5_bytes ch) < max_len ->
  exists c', starts c' /\ utf8_pending c' = 0 /\
  u2b_loop u2b (length (enc u) + fuel) max_len c (enc u ++ rest) out =
  u2b_loop u2b fuel max_len c' rest (out ++ big5_bytes ch).
Proof.
  intros Hst Hs Hu0 Hu Hch Hch0 Hroom.
  destruct (feed_enc c u Hst Hs) as (pre & x & c1 & c2 & E & Hsil & Hadd & [Hz2 _] & Hr & Hu2).
  destruct (enc_bytes u Hs) as (_ & _ & Hnz). specialize (Hnz Hu0). rewrite E in *.
  apply list.Forall_app in Hnz as [Hnz Hx]. apply list.Forall_cons_1 in Hx as [Hx _].
  assert (Hl : 1 <= zlen (big5_bytes ch)) by (unfold big5_bytes; destruct (_ <? _); zlia).
  rewrite length_app. cbn [length]. replace (length pre + 1 + fuel)%nat with (length pre + S fuel)%nat by lia.
  rewrite <- app_assoc. cbn [app]. rewrite (u2b_silent u2b (S fuel) max_len c pre c1) by (done || lia).
  cbn [u2b_loop]. replace (x =? 0) with false by lia.
  replace (zlen out <? max_len - 1) with true by lia. cbn [negb andb]. rewrite Hadd.
  cbn [mbind option_bind negb]. unfold utf8_get_ucs. rewrite Hr. cbn [negb].
  rewrite Hu2. destruct Hs as [Hs _]. replace ((0 <=? u) && (u <? 65536)) with true by lia. rewrite Hch.
  replace (ch =? 0) with false by lia.
  exists (Utf8Ctx (ubuf c2) 0 0 0 (-1)). split; [split; [done|by left]|]. split; [done|].
  unfold big5_bytes in *. destruct (0xFF <? ch); [|done].
  change (zlen [Z.shiftr ch 8; Z.land ch 255]) with 2 in Hroom. by destruct (Z.leb_spec max_len (zlen out + 2)); [lia|].
Qed.

Section Tables.
Context (u2b b2u : Z -> Z).

(** A Big5 character the tables map there and back. *)
Definition char_ok (ch : Z) : Prop :=
  (1 <= ch < 128 /\ u2b ch = ch) \/
  (0x8000 <= ch <= 0xFFFF /\ 0x40 <= ch mod 256 /\ scalar (b2u ch) /\
   0x80 <= b2u ch < 0x10000 /\ u2b (b2u ch) = ch).
Definition to_ucs (ch : Z) : Z := if ch <? 128 then ch else b2u ch.
Definition big5_text (l : list Z) : list Z := concat (map big5_bytes l).
Definition utf8_text (l : list Z) : list Z := concat (map (fun ch => enc (to_ucs ch)) l).

Lemma big5_text_length l : (length l <= length (big5_text l))%nat.
Proof.
  induction l as [|ch l IH]; [done|]. unfold big5_text in *. cbn [map concat]. rewrite length_app.
  enough (1 <= length (big5_bytes ch))%nat by (cbn [length]; lia).
  unfold big5_bytes. destruct (_ <? _); cbn; lia.
Qed.

Lemma char_ok_ucs ch : char_ok ch ->
  scalar (to_ucs ch) /\ to_ucs ch <> 0 /\ to_ucs ch < 0x10000 /\ u2b (to_ucs ch) = ch /\ ch <> 0.
Proof.
  unfold to_ucs. intros [[Hc Hu]|(Hc & Hlo & Hs & Hr & Hu)].
  - replace (ch <? 128) with true by lia. unfold scalar. split_and!; try lia; done.
  - replace (ch <? 128) with false by lia. split_and!; try lia; done.
Qed.

Lemma u2b_text fuel max_len c l out :
  starts c -> utf8_pending c = 0 -> Forall char_ok l -> (length (utf8_text l) < fuel)%nat ->
  zlen out + zlen (big5_text l) < max_len ->
  exists c', u2b_loop u2b fuel max_len c (utf8_text l) out = Some (c', out ++ big5_text l) /\
    utf8_pending c' = 0.
Proof.
  intros Hst Hp Hl. revert fuel c out Hst Hp.
  induction Hl as [|ch l Hch _ IH]; intros fuel c out Hst Hp Hf Hroom.
  - destruct fuel; [cbn in Hf; lia|]. exists c. cbn. by rewrite app_nil_r.
  - unfold utf8_text, big5_text in *. cbn [map concat] in *. fold (utf8_text l) in *. fold (big5_text l) in *.
    destruct (char_ok_ucs ch Hch) as (Hs & H0 & H1 & H2 & H3). rewrite length_app in Hf.
    replace fuel with (length (enc (to_ucs ch)) + (fuel - length (enc (to_ucs ch))))%nat by lia.
    rewrite zlen_app in Hroom. pose proof (zlen_nonneg (big5_text l)).
    destruct (u2b_char u2b (fuel - length (enc (to_ucs ch))) max_len c (to_ucs ch) ch (utf8_text l) out)
      as (c' & Hst' & Hp' & ->); try done; [lia|].
    destruct (IH (fuel - length (enc (to_ucs ch)))%nat c' (out ++ big5_bytes ch)) as (c2 & E & Hp2);
      [done|done|lia|zlia|].
    exists c2. rewrite E. split; [by rewrite <- app_assoc|done].
Qed.

Lemma b2u_text fuel max_len c l out :
  zlen (ubuf c) = 5 -> Forall char_ok l -> (length l < fuel)%nat ->
  zlen out + zlen (utf8_text l) < max_len ->
  b2u_loop b2u fuel max_len c (big5_text l) out = Some (out ++ utf8_text l).
Proof.
  intros Hz Hl. revert fuel c out Hz.
  induction Hl as [|ch l Hch _ IH]; intros fuel c out Hz Hf Hroom; (destruct fuel as [|fuel]; [cbn in Hf; lia|]).
  - cbn. by rewrite app_nil_r.
  - unfold utf8_text, big5_text in *. cbn [map concat] in *. fold (utf8_text l) in *. fold (big5_text l) in *.
    destruct (char_ok_ucs ch Hch) as (Hs & H0 & H1 & H2 & H3). rewrite zlen_app in Hroom.
    destruct (enc_bytes _ Hs) as (_ & Hel & _).
    assert (Hlen : 1 <= zlen (enc (to_ucs ch)) <= 4)
      by (rewrite Hel; unfold enc_len; repeat destruct (_ <? _); lia).
    pose proof (zlen_nonneg (utf8_text l)).
    destruct (fill_spec c (to_ucs ch) (enc (to_ucs ch)) Hz Hlen) as (c' & Efill & Hz' & _ & _ & _ & Hmb).
    assert (Hstep : forall p, ('(c, utf_len) ← utf8_from_ucs c (to_ucs ch);
        if max_len <=? zlen out + utf_len then Some out
        else '(d, _) ← utf8_to_mb c; b2u_loop b2u fuel max_len c p (out ++ d)) =
        b2u_loop b2u fuel max_len c' p (out ++ enc (to_ucs ch))).
    { intros p. rewrite from_ucs_bytes, Efill by done. cbn [mbind option_bind].
      replace (max_len <=? _) with false by lia. by rewrite Hmb. }
    assert (Hnext : b2u_loop b2u fuel max_len c' (big5_text l) (out ++ enc (to_ucs ch)) =
        Some (out ++ enc (to_ucs ch) ++ utf8_text l)).
    { rewrite IH; [by rewrite <- app_assoc|done|cbn in Hf; lia|zlia]. }
    unfold big5_bytes, to_ucs in *. destruct Hch as [[Hc _]|(Hc & Hlo & _ & _ & _)].
    + replace (0xFF <? ch) with false by lia. replace (ch <? 128) with true in * by lia.
      cbn [app b2u_loop]. replace (ch =? 0) with false by lia.
      replace (zlen out <? max_len - 1) with true by lia. cbn [negb andb].
      assert (Z.land ch 0x80 = 0) as ->.
      { assert (Hi : implb (ch <? 128) (Z.land ch 0x80 =? 0) = true)
          by (apply (byte_forall (fun b => implb (b <? 128) (Z.land b 0x80 =? 0)));
              [by vm_compute|unfold is_u8; lia]).
        apply Z.eqb_eq. by destruct (Z.ltb_spec ch 128); [|lia]. }
      cbn [Z.eqb negb]. by rewrite Hstep, Hnext.
    + replace (0xFF <? ch) with true by lia. replace (ch <? 128) with false in * by lia.
      change 0xFF with (Z.ones 8). rewrite land_low, Z.shiftr_div_pow2 by lia. change (2 ^ 8) with 256.
      pose proof (div_bounds ch 256 128 256 ltac:(lia) ltac:(lia) ltac:(lia)) as Hhi.
      pose proof (Z.mod_pos_bound ch 256 ltac:(lia)) as Hm.
      cbn [app b2u_loop]. replace (ch / 256 =? 0) with false by lia.
      replace (zlen out <? max_len - 1) with true by lia. cbn [negb andb].
      assert ((Z.land (ch / 256) 0x80 =? 0) = false) as ->.
      { assert (Hi : implb (128 <=? ch / 256) (negb (Z.land (ch / 256) 0x80 =? 0)) = true)
          by (apply (byte_forall (fun b => implb (128 <=? b) (negb (Z.land b 0x80 =? 0))));
              [by vm_compute|unfold is_u8; lia]).
        replace (128 <=? ch / 256) with true in Hi by lia. by destruct (_ =? 0). }
      cbn [negb]. replace (ch mod 256 =? 0) with false by lia. replace (0x40 <=? ch mod 256) with true by lia.
      assert (Z.lor (Z.shiftl (ch / 256) 8) (ch mod 256) = ch) as ->.
      { rewrite Z.shiftl_mul_pow2, lor_add by (change (2 ^ 8) with 256; lia).
        change (2 ^ 8) with 256. pose proof (Z.div_mod ch 256). lia. }
      by rewrite Hstep, Hnext.
Qed.
End Tables.

(** *** Any input *)

Lemma u2b_bounds u2b fuel max_len c p out :
  0 < max_len -> dec_ok c -> Forall is_u8 p -> zlen out <= max_len - 1 ->
  (2 * length p + (if (utf8_pending c =? 0)%Z then 0 else 1) < fuel)%nat ->
  exists c' out', u2b_loop u2b fuel max_len c p out = Some (c', out') /\
    zlen out' <= max_len - 1 /\ exists t, out' = out ++ t.
Proof.
  intros Hmax. revert c p out. induction fuel as [|fuel IH]; intros c p out Hok Hp Ho Hf; [lia|].
  cbn [u2b_loop]. assert (Hid : exists t, out = out ++ t) by (exists []; by rewrite app_nil_r).
  destruct p as [|x p]; [by eauto|]. apply list.Forall_cons_1 in Hp as [Hx Hp].
  destruct (negb (x =? 0) && (zlen out <? max_len - 1)) eqn:Ego; [|by eauto]. zbool.
  destruct (add_byte_ok c x Hok Hx) as (c1 & r & -> & Hok1 & Hr & _). cbn [mbind option_bind].
  assert (Hext : forall d c' p', zlen out + zlen d <= max_len - 1 -> dec_ok c' -> Forall is_u8 p' ->
    (2 * length p' + (if (utf8_pending c' =? 0)%Z then 0 else 1) < fuel)%nat ->
    exists c'' out', u2b_loop u2b fuel max_len c' p' (out ++ d) = Some (c'', out') /\
    zlen out' <= max_len - 1 /\ exists t, out' = out ++ t).
  { intros d c' p' Hd Hc' Hp' Hf'. destruct (IH c' p' (out ++ d)) as (c'' & out' & E & Hz & t & ->);
      [done|done|zlia|done|]. exists c'', ((out ++ d) ++ t). split; [done|]. split; [done|].
    exists (d ++ t). by rewrite app_assoc. }
  cbn [length] in Hf. destruct r; cbn [negb].
  - unfold utf8_get_ucs. rewrite <- Hr. cbn [negb].
    set (b5 := if _ =? 0 then 63 else _).
    assert (Hok' : dec_ok (Utf8Ctx (ubuf c1) 0 0 0 (-1))).
    { split; [apply Hok1|by apply dec_idle]. }
    destruct (0xFF <? b5).
    + destruct (Z.leb_spec max_len (zlen out + 2)); [by eauto|].
      apply Hext; [change (zlen [Z.shiftr b5 8; Z.land b5 0xFF]) with 2; lia|done|done|cbn; lia].
    + apply Hext; [change (zlen [b5]) with 1; lia|done|done|cbn; lia].
  - destruct (utf8_is_error c1) eqn:Eerr.
    + assert (Hp1 : utf8_pending c1 = 0).
      { unfold utf8_is_error, utf8_pending in *. zbool. destruct Hok1 as [_ [|k|]]; [|lia|].
        - case_if Hc; lia. - case_if Hc; lia. }
      destruct (utf8_pending c =? 0).
      * apply Hext; [change (zlen [63]) with 1; lia|done|done|rewrite Hp1; cbn; lia].
      * apply Hext; [change (zlen [63]) with 1; lia|done|by constructor|rewrite Hp1; cbn; lia].
    + destruct (IH c1 p out) as (c'' & out' & E & H1 & H2); [done|done|lia| |eauto].
      destruct (utf8_pending c1 =? 0), (utf8_pending c =? 0); lia.
Qed.

(** *** Streams *)

(** A reader of a stream: one result for each code point, [None] for an error. *)
Fixpoint decode (c : utf8_ctx) (bs : list Z) : option (utf8_ctx * list (option Z)) :=
  match bs with
  | [] => Some (c, [])
  | x :: bs =>
      '(c, r) ← utf8_add_byte c x;
      if (r : bool) then
        let '(c, u) := utf8_get_ucs c in
        '(c, us) ← decode c bs; Some (c, Some u :: us)
      else '(c', us) ← decode c bs; Some (c', if utf8_is_error c then None :: us else us)
  end.

(** A writer of one code point. *)
Definition encode (c : utf8_ctx) (u : Z) : option (list Z) :=
  '(c, n) ← utf8_from_ucs c u; '(d, m) ← utf8_to_mb c;
  if (n =? m) && (zlen d =? n) then Some d else None.

Definition new_ctx : utf8_ctx := Utf8Ctx [0; 0; 0; 0; 0] 0 0 0 (-1).

Lemma encode_scalar c u : zlen (ubuf c) = 5 -> scalar u -> encode c u = Some (enc u).
Proof.
  intros Hz Hs. destruct (enc_bytes u Hs) as (_ & Hl & _). unfold encode. rewrite from_ucs_bytes by done.
  assert (Hlen : 1 <= zlen (enc u) <= 4)
    by (rewrite Hl; unfold enc_len; repeat destruct (_ <? _); lia).
  destruct (fill_spec c u (enc u) Hz Hlen) as (c' & -> & _ & _ & _ & _ & E). cbn [mbind option_bind].
  rewrite E. cbn [mbind option_bind]. by rewrite !Z.eqb_refl.
Qed.

Lemma encode_all c us :
  zlen (ubuf c) = 5 -> Forall scalar us -> mapM (encode c) us = Some (map enc us).
Proof.
  intros Hz Hus. apply mapM_Some. induction Hus; constructor; [by apply encode_scalar|done].
Qed.

Lemma decode_silent c pre c' bs : silent c pre = Some c' -> decode c (pre ++ bs) = decode c' bs.
Proof.
  revert c. induction pre as [|x pre IH]; intros c E; [by injection E as ->|].
  cbn [app decode silent] in *. destruct (utf8_add_byte c x) as [[c1 r]|]; [|done].
  cbn [mbind option_bind] in *. destruct r; [done|]. cbn [orb] in E.
  destruct (utf8_is_error c1); [done|]. rewrite IH by done. by destruct (decode c' bs) as [[? ?]|].
Qed.

Lemma decode_enc c us :
  starts c -> Forall scalar us ->
  exists c', decode c (concat (map enc us)) = Some (c', map Some us) /\ starts c'.
Proof.
  intros Hst Hus. revert c Hst. induction Hus as [|u us Hu _ IH]; intros c Hst; [by exists c|].
  destruct (feed_enc c u Hst Hu) as (pre & x & c1 & c2 & E & Hsil & Hadd & [Hz2 _] & Hr & Hu2).
  cbn [map concat]. rewrite E, <- app_assoc, (decode_silent _ _ _ _ Hsil). cbn [app decode].
  rewrite Hadd. cbn [mbind option_bind]. unfold utf8_get_ucs. rewrite Hr. cbn [negb].
  destruct (IH (Utf8Ctx (ubuf c2) 0 0 0 (-1))) as (c' & -> & Hst'); [by split; [|left]|].
  exists c'. rewrite Hu2. done.
Qed.

(** What the context holds of the stream: nothing when it is idle. *)
Definition held (c : utf8_ctx) : list Z := take (Z.to_nat (got c)) (ubuf c).

Lemma add_byte_held c x c' r :
  dec_ok c -> utf8_is_ready c = false -> utf8_add_byte c x = Some (c', r) ->
  utf8_is_error c' = false -> held c' = held c ++ [x].
Proof.
  intros [Hz Hst] Hr. unfold utf8_add_byte. rewrite Hr. cbn [mbind option_bind].
  assert (Herr : forall c0, zlen (ubuf c0) = 5 ->
    (c ← utf8_error c0; Some (c, false)) = Some (c', r) -> utf8_is_error c' = false -> held c' = held c ++ [x]).
  { intros c0 Hz0. unfold utf8_error.
    destruct (put_spec (ubuf c0) 0 63) as (b & -> & Hb & _); [lia|]. cbn [mbind option_bind].
    destruct (put_spec b 1 0) as (b2 & -> & _); [lia|]. cbn [mbind option_bind]. by intros [= <- <-]. }
  destruct Hst as [Hn Hg|k Hn Hk Hg Hgn Hl Hu Ht|Hs Hn Hg]; cycle 2.
  { unfold utf8_is_ready in Hr. pose proof (eq_refl : enc_len (ucs c) = enc_len (ucs c)) as E.
    unfold enc_len in E at 1. destruct (_ <? _) in E; [|destruct (_ <? _) in E; [|destruct (_ <? _) in E]]; lia. }
  - rewrite Hn. cbn [Z.ltb Z.compare]. assert (Hh : held c = []) by (unfold held; by rewrite Hg). rewrite Hh in Herr |- *.
    destruct (put_spec (ubuf c) 0 x) as (b & -> & Hb & Htk & _); [lia|]. cbn [mbind option_bind].
    destruct (put_spec b 1 0) as (b2 & E2 & _ & _ & Htk2); [lia|].
    destruct (x <? 128).
    { rewrite E2. cbn [mbind option_bind]. intros [= <- <-] _. unfold held. cbn [got ubuf].
      change (Z.to_nat 1) with 1%nat. by rewrite Htk2. }
    destruct (_ || _); [by apply Herr|]. intros [= <- <-] _. unfold held.
    repeat case_match; cbn [got ubuf]; apply Htk.
  - replace (0 <? need c) with true by lia. destruct (_ || _); [by apply Herr|].
    destruct (put_spec (ubuf c) (got c) x) as (b & -> & Hb & Htk & _); [lia|]. cbn [mbind option_bind].
    replace (S (Z.to_nat (got c))) with (Z.to_nat (got c + 1)) in Htk by lia.
    cbn zeta. cbn [need got ubuf ucs len].
    destruct (got c + 1 =? need c) eqn:En; [|intros [= <- <-] _; exact Htk]. apply Z.eqb_eq in En.
    destruct (utf8_bad_value _ _); [apply Herr; cbn; lia|].
    destruct (put_spec b (got c + 1) 0) as (b2 & -> & _ & _ & Htk2); [lia|]. cbn [mbind option_bind].
    intros [= <- <-] _. unfold held. cbn [got ubuf]. by rewrite Htk2.
Qed.

Lemma ready_held c : dec_ok c -> utf8_is_ready c = true -> held c = enc (ucs c).
Proof.
  intros [_ Hst]. unfold utf8_is_ready, held. intros Hr. zbool.
  destruct Hst as [Hn Hg|k Hn Hk Hg Hgn|Hs Hn Hg Hl Ht]; [lia|lia|]. by rewrite Hg, <- Hl.
Qed.

Lemma decode_ok c bs :
  dec_ok c -> utf8_is_ready c = false -> Forall is_u8 bs ->
  exists c' us, decode c bs = Some (c', us) /\ dec_ok c' /\ utf8_is_ready c' = false /\
    Forall (fun o => match o with Some u => scalar u | None => True end) us /\
    (forall vs, us = map Some vs -> held c ++ bs = concat (map enc vs) ++ held c').
Proof.
  intros Hok Hr Hbs. revert c Hok Hr. induction Hbs as [|x bs Hx _ IH]; intros c Hok Hr.
  - exists c, []. split_and!; try done. intros [|? ?]; [|done]. intros _. by rewrite app_nil_r.
  - cbn [decode]. destruct (add_byte_ok c x Hok Hx) as (c1 & r & E & Hok1 & Hr1 & Hu). rewrite E.
    cbn [mbind option_bind]. destruct r.
    + unfold utf8_get_ucs. rewrite <- Hr1. cbn [negb].
      destruct (IH (Utf8Ctx (ubuf c1) 0 0 0 (-1))) as (c' & us & -> & Hok' & Hr' & Hs & Hv);
        [split; [apply Hok1|by apply dec_idle]|done|].
      exists c', (Some (ucs c1) :: us). split_and!; try done; [constructor; [by apply Hu|done]|].
      intros [|v vs]; [done|]. cbn [map concat]. intros [= Ev Evs]. rewrite <- app_assoc, <- (Hv vs Evs).
      subst v. rewrite <- ready_held by done.
      rewrite (add_byte_held _ _ _ _ Hok Hr E); [by rewrite <- app_assoc|].
      unfold utf8_is_error. unfold utf8_is_ready in Hr1. destruct (0 <? need c1) eqn:?; [|done].
      replace (need c1 =? 0) with false by lia. done.
    + destruct (IH c1 Hok1) as (c' & us & -> & Hok' & Hr' & Hs & Hv); [done|].
      cbn [mbind option_bind]. destruct (utf8_is_error c1) eqn:Eerr.
      * exists c', (None :: us). split_and!; try done; [by constructor|]. by intros [|? ?].
      * exists c', us. split_and!; try done. intros vs Evs. rewrite <- (Hv vs Evs).
        rewrite (add_byte_held _ _ _ _ Hok Hr E Eerr). by rewrite <- app_assoc.
Qed.

Lemma new_ctx_ok : dec_ok new_ctx /\ starts new_ctx /\ utf8_is_ready new_ctx = false.
Proof. split_and!; [split; [done|by apply dec_idle]|split; [done|by left]|done]. Qed.

(** *** The conversion from Big5, on any input *)

Lemma from_ucs_spec c u :
  zlen (ubuf c) = 5 ->
  exists c' bs, utf8_from_ucs c u = Some (c', zlen bs) /\ zlen (ubuf c') = 5 /\
    zlen bs <= 4 /\ utf8_to_mb c' = Some (bs, zlen bs).
Proof.
  intros Hz.
  assert (Hdec : scalar u \/ ~ scalar u).
  { unfold scalar. destruct (Z_le_dec 0 u), (Z_le_dec u 0x10FFFF), (Z_le_dec 0xD800 u), (Z_le_dec u 0xDFFF); lia. }
  destruct Hdec as [Hs|Hs].
  - destruct (enc_bytes u Hs) as (_ & Hl & _). rewrite from_ucs_bytes by done.
    assert (Hlen : 1 <= zlen (enc u) <= 4)
      by (rewrite Hl; unfold enc_len; repeat destruct (_ <? _); lia).
    destruct (fill_spec c u (enc u) Hz Hlen) as (c' & -> & H5 & _ & _ & _ & Hmb).
    exists c', (enc u). split_and!; try done. lia.
  - unfold utf8_from_ucs, utf8_reset, utf8_init.
    destruct (put_spec (ubuf c) 0 0) as (b & -> & Hb & _); [lia|]. cbn [mbind option_bind].
    destruct (_ || _) eqn:E; [by eexists _, []; split_and!; [reflexivity|cbn; lia| |]|].
    destruct Hs. unfold scalar. lia.
Qed.

Lemma b2u_bounds b2u fuel max_len c p out :
  0 < max_len -> zlen (ubuf c) = 5 -> zlen out <= max_len - 1 -> (length p < fuel)%nat ->
  exists out', b2u_loop b2u fuel max_len c p out = Some out' /\ zlen out' <= max_len - 1.
Proof.
  intros Hmax. revert p c out. induction fuel as [|fuel IH]; intros p c out Hz Ho Hf; [lia|].
  cbn [b2u_loop]. destruct p as [|x p]; [by eauto|].
  destruct (negb (x =? 0) && (zlen out <? max_len - 1)); [|by eauto].
  assert (Hstep : forall p' u, (length p' <= length p)%nat ->
    exists out', ('(c, n) ← utf8_from_ucs c u;
      if max_len <=? zlen out + n then Some out
      else '(d, _) ← utf8_to_mb c; b2u_loop b2u fuel max_len c p' (out ++ d)) = Some out' /\
      zlen out' <= max_len - 1).
  { intros p' u Hp'. destruct (from_ucs_spec c u Hz) as (c' & bs & -> & Hz' & _ & E).
    cbn [mbind option_bind]. destruct (Z.leb_spec max_len (zlen out + zlen bs)); [by eauto|].
    rewrite E. cbn [mbind option_bind]. apply IH; [done|zlia|cbn in Hf; lia]. }
  destruct (negb (Z.land x 128 =? 0)); [|by apply Hstep].
  destruct p as [|y p]; [by eauto|]. destruct (y =? 0); [by eauto|].
  destruct (64 <=? y); apply Hstep; cbn [length]; lia.
Qed.

(** *** The properties *)

(** C8. Decoding any text a caller encoded gives the text back: for code
    points that are Unicode scalar values, [utf8_from_ucs] then [utf8_to_mb]
    give bytes from which a fresh [utf8_add_byte] reader gets exactly those
    code points, and no error is ever signalled. *)
Theorem utf8_roundtrip c us :
  zlen (ubuf c) = 5 -> Forall scalar us ->
  exists bss c', mapM (encode c) us = Some bss /\
    decode new_ctx (concat bss) = Some (c', map Some us).
Proof.
  intros Hz Hus. destruct (decode_enc new_ctx us) as (c' & E & _); [apply new_ctx_ok|done|].
  exists (map enc us), c'. by rewrite encode_all.
Qed.

(** C9. The decoder is safe and strict on every byte stream: it never writes
    out of its five-byte buffer, every code point it delivers is a scalar value
    (no surrogate, nothing over U+10FFFF), and a stream it accepts without an
    error and without a rest is the encoding of what it delivered, so no
    overlong form is accepted. *)
Theorem utf8_decode_sound bs :
  Forall is_u8 bs ->
  exists c us, decode new_ctx bs = Some (c, us) /\
    Forall (fun o => match o with Some u => scalar u | None => True end) us /\
    (forall vs, us = map Some vs -> got c = 0 ->
       exists bss, mapM (encode new_ctx) vs = Some bss /\ concat bss = bs).
Proof.
  intros Hbs. destruct (decode_ok new_ctx bs) as (c & us & E & Hok & Hr & Hs & Hv); [apply new_ctx_ok..|done|].
  exists c, us. split; [done|]. split; [done|]. intros vs Evs Hg. exists (map enc vs). split.
  - apply encode_all; [done|]. rewrite Evs in Hs. by apply Forall_map in Hs.
  - specialize (Hv vs Evs). unfold held in Hv. rewrite Hg in Hv. change (Z.to_nat 0) with 0%nat in Hv.
    cbn [take] in Hv. by rewrite app_nil_r in Hv.
Qed.

(** C22. Big5 text goes to UTF-8 and comes back unchanged: for characters the two
    conversion tables map one to the other, and buffers with room for the
    results, [big5_to_utf8_n] then [utf8_to_big5_n] is the identity. *)
Theorem big5_utf8_roundtrip u2b b2u l n m :
  Forall (char_ok u2b b2u) l -> zlen (utf8_text b2u l) < n -> zlen (big5_text l) < m ->
  exists t, big5_to_utf8 b2u (big5_text l) false n = Some t /\
    utf8_to_big5 u2b t m = Some (big5_text l).
Proof.
  intros Hl Hn Hm. exists (utf8_text b2u l). split.
  - unfold big5_to_utf8, big5_to_utf8_n. cbn zeta iota.
    rewrite b2u_text with (u2b := u2b); [done|done|done| |done].
    pose proof (big5_text_length l). lia.
  - unfold utf8_to_big5, utf8_to_big5_n. change (utf8_init _) with (Some new_ctx). cbn [mbind option_bind].
    destruct (u2b_text u2b b2u (S (2 * length (utf8_text b2u l))) m new_ctx l [])
      as (c' & -> & Hp); try done; [apply new_ctx_ok|lia|].
    cbn [mbind option_bind]. by rewrite Hp.
Qed.

(** C23. On any source and with any tables both conversions end, and what they
    write leaves room for the NUL in [max_len] bytes. *)
Theorem conversions_bounded u2b b2u src src_len same max_len :
  0 < max_len -> Forall is_u8 src ->
  (exists t, utf8_to_big5_n u2b src max_len = Some t /\ zlen t < max_len) /\
  (exists t, big5_to_utf8_n b2u src src_len same max_len = Some t /\ zlen t < max_len).
Proof.
  intros Hm Hs. split.
  - unfold utf8_to_big5_n. change (utf8_init _) with (Some new_ctx). cbn [mbind option_bind].
    destruct (u2b_bounds u2b (S (2 * length src)) max_len new_ctx src []) as (c & t & -> & Ht & _);
      [done|apply new_ctx_ok|done|zlia|change (utf8_pending new_ctx) with 0; cbn [Z.eqb]; lia|].
    cbn [mbind option_bind]. eexists. split; [done|].
    destruct (negb _ && _) eqn:E; [zbool; zlia|lia].
  - unfold big5_to_utf8_n. set (p := if same then _ else src). cbn zeta.
    destruct (b2u_bounds b2u (S (length p)) max_len (Utf8Ctx [0; 0; 0; 0; 0] 0 0 0 0) p [])
      as (t & -> & Ht); [done|done|zlia|lia|]. exists t. split; [done|lia].
Qed.

(** *** Witnesses *)

Lemma utf8_roundtrip_witness :
  exists bss c', mapM (encode new_ctx) [0x41; 0xE9; 0x4E2D; 0x1F600] = Some bss /\
    decode new_ctx (concat bss) = Some (c', map Some [0x41; 0xE9; 0x4E2D; 0x1F600]).
Proof.
  apply (utf8_roundtrip new_ctx [0x41; 0xE9; 0x4E2D; 0x1F600]); [reflexivity|].
  repeat constructor; try lia; intros [? ?]; lia.
Defined.

(** A stray trail byte, an overlong NUL and a surrogate are all rejected. *)
Lemma utf8_decode_sound_witness :
  exists c us, decode new_ctx [0x80; 0xC0; 0x80; 0xED; 0xA0; 0x80; 0x41] = Some (c, us) /\
    Forall (fun o => match o with Some u => scalar u | None => True end) us /\
    (forall vs, us = map Some vs -> got c = 0 ->
       exists bss, mapM (encode new_ctx) vs = Some bss /\
         concat bss = [0x80; 0xC0; 0x80; 0xED; 0xA0; 0x80; 0x41]).
Proof.
  apply (utf8_decode_sound [0x80; 0xC0; 0x80; 0xED; 0xA0; 0x80; 0x41]).
  repeat constructor; unfold is_u8; lia.
Defined.

(** One row of the tables: [0xA4A4] is U+4E2D. *)
Lemma big5_utf8_roundtrip_witness :
  let u2b := fun u => if u =? 0x4E2D then 0xA4A4 else u in
  let b2u := fun b => if b =? 0xA4A4 then 0x4E2D else b in
  big5_text [0x41; 0xA4A4] = [0x41; 0xA4; 0xA4] /\
  exists t, big5_to_utf8 b2u (big5_text [0x41; 0xA4A4]) false 8 = Some t /\
    utf8_to_big5 u2b t 8 = Some (big5_text [0x41; 0xA4A4]).
Proof.
  intros u2b b2u. split; [reflexivity|].
  apply (big5_utf8_roundtrip u2b b2u [0x41; 0xA4A4]); [|by vm_compute..].
  constructor; [left; split; [lia|reflexivity]|]. constructor; [|constructor]. right.
  change (b2u 0xA4A4) with 0x4E2D. change (0xA4A4 mod 256) with 0xA4. unfold scalar.
  repeat split; lia || reflexivity.
Defined.

(** A cut two-byte sequence and a buffer that is too small. *)
Lemma conversions_bounded_witness :
  (exists t, utf8_to_big5_n id [0x41; 0xC3; 0xA9; 0xC3] 3 = Some t /\ zlen t < 3) /\
  (exists t, big5_to_utf8_n id [0x41; 0xC3; 0xA9; 0xC3] None true 3 = Some t /\ zlen t < 3).
Proof.
  apply (conversions_bounded id id [0x41; 0xC3; 0xA9; 0xC3] None true 3); [lia|].
  repeat constructor; unfold is_u8; lia.
Defined.

End Utf8Props.
