(* ===== verification/Vtkbd.v ===== *)
(** The keyboard of a virtual terminal ([common/sys/vtkbd.c],
    [include/vtkbd.h]): a state machine that takes one character at a time and
    gives a key code, [KEY_INCOMPLETE] inside of an escape sequence.

    [None] is an access out of an array.  A parameter of a sequence is an [int]
    that wraps when a client sends more digits than it can hold. *)

From S2P Require Import Prelude.

Module Vtkbd.

(** *** Key codes *)

Definition KEY_ESC := 27.
Definition KEY_ENTER := 13.
Definition KEY_BS := 0x08.
Definition KEY_UP := 0xD901.
Definition KEY_STAB := 0xD909.
Definition KEY_HOME := 0xDA01.
Definition KEY_INS := 0xDA02.
Definition KEY_DEL := 0xDA03.
Definition KEY_END := 0xDA04.
Definition KEY_PGUP := 0xDA05.
Definition KEY_PGDN := 0xDA06.
Definition KEY_F1 := 0xDB01.
Definition KEY_F6 := 0xDB06.
Definition KEY_F9 := 0xDB09.
Definition KEY_F11 := 0xDB0B.
Definition KEY_INCOMPLETE := 0xDC20.
Definition KEY_UNKNOWN := 0xDF20.
Definition KEY_MOUSE := 0xDD01.
Definition KEY_MOUSE_RELEASE := 0xDD02.
Definition VKRAW_BS := 0x08.
Definition VKRAW_ERASE := 0x7F.

Definition IS_SPECIAL_KEY (c : Z) : bool :=
  (0xD800 <=? c) && (c <=? 0xDFFF) && (Z.land c 0xFF <? 0x40).

(** *** The context *)

Definition MOUSE_BTN_WHEEL_UP := 64.
Definition MOUSE_BTN_WHEEL_DOWN := 65.

Record vtkbd_mouse_t := Mouse
  { x : Z; y : Z; button : Z; is_release : bool; is_motion : bool; flags : Z }.

Definition VTKBD_MAX_PARAMS := 8.
Definition VTKBD_MAX_INTERMEDIATE := 4.

Inductive VKSTATES := VKSTATE_NORMAL | VKSTATE_ESC | VKSTATE_ESC_APP | VKSTATE_CSI.

#[export] Instance VKSTATES_eq_dec : EqDecision VKSTATES.
Proof. solve_decision. Defined.

Record VtkbdCtx := Ctx
  { state : VKSTATES; esc_arg : Z; mouse : vtkbd_mouse_t;
    csi_prefix : Z; csi_params : list Z; csi_param_count : Z; csi_has_param : bool;
    csi_inter_count : Z; csi_intermediate : list Z; csi_len : Z }.

Definition set_state (s : VKSTATES) (k : VtkbdCtx) : VtkbdCtx :=
  Ctx s (esc_arg k) (mouse k) (csi_prefix k) (csi_params k) (csi_param_count k)
    (csi_has_param k) (csi_inter_count k) (csi_intermediate k) (csi_len k).

Definition vtkbd_reset_csi (k : VtkbdCtx) : VtkbdCtx :=
  Ctx (state k) (esc_arg k) (mouse k) 0 (replicate 8 0) 0 false 0 (replicate 4 0) 0.

(** A key that ends its sequence. *)
Definition done_key (k : VtkbdCtx) (key : Z) : option (VtkbdCtx * Z) :=
  Some (set_state VKSTATE_NORMAL k, key).
Definition more (k : VtkbdCtx) : option (VtkbdCtx * Z) := Some (k, KEY_INCOMPLETE).

(** *** The states *)

Definition vk_normal (c : Z) (k : VtkbdCtx) : option (VtkbdCtx * Z) :=
  if c =? KEY_ESC then more (set_state VKSTATE_ESC k)
  else if (c =? VKRAW_BS) || (c =? VKRAW_ERASE) then Some (k, KEY_BS)
  else Some (k, c).

Definition vk_esc (c : Z) (k : VtkbdCtx) : option (VtkbdCtx * Z) :=
  if c =? 0x5B (* [ *) then more (set_state VKSTATE_CSI (vtkbd_reset_csi k))
  else if c =? 0x4F (* O *) then more (set_state VKSTATE_ESC_APP k)
  else Some (Ctx VKSTATE_NORMAL c (mouse k) (csi_prefix k) (csi_params k) (csi_param_count k)
               (csi_has_param k) (csi_inter_count k) (csi_intermediate k) (csi_len k), KEY_ESC).

Definition numx : list Z := [42; 43; 44; 45; 46; 47].  (* *+,-./ *)

(** The key of ESC O c, or the break to the end of the function. *)
Definition vk_esc_app (c : Z) (k : VtkbdCtx) : option (VtkbdCtx * Z) :=
  if (0x41 <=? c) && (c <=? 0x44) (* A-D *) then done_key k (KEY_UP + (c - 0x41))
  else if c =? 0x48 (* H *) then done_key k KEY_HOME
  else if c =? 0x46 (* F *) then done_key k KEY_END
  else if c =? 0x47 (* G *) then done_key k KEY_PGDN
  else if c =? 0x49 (* I *) then done_key k KEY_PGUP
  else if c =? 0x4C (* L *) then done_key k KEY_INS
  else if (0x50 <=? c) && (c <=? 0x53) (* P-S *) then done_key k (KEY_F1 + (c - 0x50))
  else if c =? 0x77 (* w *) then done_key k KEY_DEL
  else if ((0x70 <=? c) && (c <=? 0x76)) || (c =? 0x78) || (c =? 0x79) (* p-v x y *) then
    done_key k (0x30 + (c - 0x70))
  else if c =? 0x4D (* M *) then done_key k KEY_ENTER
  else if c =? 0x58 (* X *) then done_key k 0x3D
  else if (0x6A <=? c) && (c <=? 0x6F) (* j-o *) then
    key ← zget numx (c - 0x6A); done_key k key
  else done_key k KEY_UNKNOWN.

(** A parameter character, 0x30 to 0x3F. *)
Definition vk_csi_param (c : Z) (k : VtkbdCtx) : option (VtkbdCtx * Z) :=
  if 0 <? csi_inter_count k then more k
  else if (csi_len k =? 1) && ((c =? 0x3C) || (c =? 0x3F) || (c =? 0x3D) || (c =? 0x3E)) then
    more (Ctx (state k) (esc_arg k) (mouse k) c (csi_params k) (csi_param_count k)
            (csi_has_param k) (csi_inter_count k) (csi_intermediate k) (csi_len k))
  else if (c =? 0x3B) || (c =? 0x3A) (* ; : *) then
    let count := if csi_param_count k <? VTKBD_MAX_PARAMS then csi_param_count k + 1
                 else csi_param_count k in
    more (Ctx (state k) (esc_arg k) (mouse k) (csi_prefix k) (csi_params k) count
            false (csi_inter_count k) (csi_intermediate k) (csi_len k))
  else if (0x30 <=? c) && (c <=? 0x39) then
    let count := if negb (csi_has_param k) && (csi_param_count k =? 0) then 1
                 else csi_param_count k in
    let idx := if 0 <? count then count - 1 else 0 in
    params ←
      (if idx <? VTKBD_MAX_PARAMS then
         p ← zget (csi_params k) idx;
         mem_write (csi_params k) idx [s32 (p * 10 + (c - 0x30))]
       else Some (csi_params k));
    more (Ctx (state k) (esc_arg k) (mouse k) (csi_prefix k) params count
            true (csi_inter_count k) (csi_intermediate k) (csi_len k))
  else more k.

(** An intermediate character, 0x20 to 0x2F. *)
Definition vk_csi_intermediate (c : Z) (k : VtkbdCtx) : option (VtkbdCtx * Z) :=
  if csi_inter_count k <? VTKBD_MAX_INTERMEDIATE then
    l ← mem_write (csi_intermediate k) (csi_inter_count k) [c];
    more (Ctx (state k) (esc_arg k) (mouse k) (csi_prefix k) (csi_params k) (csi_param_count k)
            (csi_has_param k) (csi_inter_count k + 1) l (csi_len k))
  else more k.

(** XTerm SGR mouse: ESC [ < btn ; col ; row M or m. *)
Definition vk_mouse (c : Z) (k : VtkbdCtx) : option (VtkbdCtx * Z) :=
  btn_raw ← zget (csi_params k) 0;
  col ← (if 1 <? csi_param_count k then zget (csi_params k) 1 else Some 0);
  row ← (if 2 <? csi_param_count k then zget (csi_params k) 2 else Some 0);
  let btn :=
    if negb (Z.land btn_raw MOUSE_BTN_WHEEL_UP =? 0) then
      if negb (Z.land btn_raw 1 =? 0) then MOUSE_BTN_WHEEL_DOWN else MOUSE_BTN_WHEEL_UP
    else Z.land btn_raw 3 in
  let m := Mouse (if 0 <? col then col - 1 else 0) (if 0 <? row then row - 1 else 0) btn
             (c =? 0x6D) (negb (Z.land btn_raw 32 =? 0)) (Z.land btn_raw 28) in
  Some (Ctx VKSTATE_NORMAL (esc_arg k) m (csi_prefix k) (csi_params k) (csi_param_count k)
          (csi_has_param k) (csi_inter_count k) (csi_intermediate k) (csi_len k),
        if c =? 0x6D then KEY_MOUSE_RELEASE else KEY_MOUSE).

(** ESC [ p0 ~ *)
Definition vk_tilde (p0 : Z) : Z :=
  if p0 =? 1 then KEY_HOME
  else if p0 =? 2 then KEY_INS
  else if p0 =? 3 then KEY_DEL
  else if p0 =? 4 then KEY_END
  else if p0 =? 5 then KEY_PGUP
  else if p0 =? 6 then KEY_PGDN
  else if p0 =? 7 then KEY_HOME
  else if p0 =? 8 then KEY_END
  else if (11 <=? p0) && (p0 <=? 15) then KEY_F1 + (p0 - 11)
  else if (17 <=? p0) && (p0 <=? 19) then KEY_F6 + (p0 - 17)
  else if (20 <=? p0) && (p0 <=? 21) then KEY_F9 + (p0 - 20)
  else if (23 <=? p0) && (p0 <=? 24) then KEY_F11 + (p0 - 23)
  else KEY_UNKNOWN.

(** A final character, 0x40 to 0x7E. *)
Definition vk_csi_final (c : Z) (k : VtkbdCtx) : option (VtkbdCtx * Z) :=
  if (csi_prefix k =? 0x3C) && ((c =? 0x4D) || (c =? 0x6D)) then vk_mouse c k
  else if negb (csi_prefix k =? 0) then done_key k KEY_UNKNOWN
  else if (0x41 <=? c) && (c <=? 0x44) then done_key k (KEY_UP + (c - 0x41))
  else if c =? 0x48 then done_key k KEY_HOME
  else if c =? 0x46 then done_key k KEY_END
  else if c =? 0x47 then done_key k KEY_PGDN
  else if c =? 0x49 then done_key k KEY_PGUP
  else if c =? 0x4C then done_key k KEY_INS
  else if c =? 0x5A then done_key k KEY_STAB
  else if c =? 0x7E then p0 ← zget (csi_params k) 0; done_key k (vk_tilde p0)
  else done_key k KEY_UNKNOWN.

Definition vk_csi (c : Z) (k : VtkbdCtx) : option (VtkbdCtx * Z) :=
  if c =? KEY_ESC then more (set_state VKSTATE_ESC k)
  else
    let k := Ctx (state k) (esc_arg k) (mouse k) (csi_prefix k) (csi_params k) (csi_param_count k)
               (csi_has_param k) (csi_inter_count k) (csi_intermediate k) (csi_len k + 1) in
    if 64 <? csi_len k then done_key k KEY_UNKNOWN
    else if (c <? 0x20) || (c =? 0x7F) then
      done_key k (if (c =? VKRAW_BS) || (c =? VKRAW_ERASE) then KEY_BS else c)
    else if 0x7E <? c then done_key k KEY_UNKNOWN
    else if (0x30 <=? c) && (c <=? 0x3F) then vk_csi_param c k
    else if (0x20 <=? c) && (c <=? 0x2F) then vk_csi_intermediate c k
    else if (0x40 <=? c) && (c <=? 0x7E) then vk_csi_final c k
    else done_key k KEY_UNKNOWN.

(** The new context and the key. *)
Definition vtkbd_process (c : Z) (k : VtkbdCtx) : option (VtkbdCtx * Z) :=
  match state k with
  | VKSTATE_NORMAL => vk_normal c k
  | VKSTATE_ESC => vk_esc c k
  | VKSTATE_ESC_APP => vk_esc_app c k
  | VKSTATE_CSI => vk_csi c k
  end.

Definition vtkbd_get_mouse (ctx : option VtkbdCtx) : option vtkbd_mouse_t := mouse <$> ctx.

(** [buf[i]] of a buffer of [zlen buf] characters. *)
Definition at_ (buf : list Z) (i : Z) : Z := default 0 (zget buf i).

Definition vtkbd_ignore_dbcs_evil_repeats (buf : list Z) : Z :=
  let len := zlen buf in
  if len =? 2 then
    if negb (at_ buf 0 =? at_ buf 1) then len
    else if (at_ buf 0 =? VKRAW_BS) || (at_ buf 0 =? VKRAW_ERASE) || (at_ buf 0 =? Z.land 0x44 0x1F)
    then len / 2 else len
  else if len =? 6 then
    if negb (at_ buf 2 =? 0x43) && negb (at_ buf 2 =? 0x44) then len
    else if (at_ buf 0 =? KEY_ESC) && ((at_ buf 1 =? 0x5B) || (at_ buf 1 =? 0x4F)) &&
            (at_ buf 0 =? at_ buf 3) && (at_ buf 1 =? at_ buf 4) && (at_ buf 2 =? at_ buf 5)
    then len / 2 else len
  else if len =? 8 then
    if negb (at_ buf 0 =? KEY_ESC) || negb (at_ buf 2 =? 0x33) ||
       negb (at_ buf 1 =? 0x5B) || negb (at_ buf 3 =? 0x7E) then len
    else if (at_ buf 4 =? at_ buf 0) && (at_ buf 5 =? at_ buf 1) &&
            (at_ buf 6 =? at_ buf 2) && (at_ buf 7 =? at_ buf 3)
    then len / 2 else len
  else len.

(** The caller's loop: the keys of a stream, without [KEY_INCOMPLETE]. *)
Fixpoint vtkbd_run (cs : list Z) (k : VtkbdCtx) : option (VtkbdCtx * list Z) :=
  match cs with
  | [] => Some (k, [])
  | c :: cs =>
      '(k, key) ← vtkbd_process c k;
      '(k, keys) ← vtkbd_run cs k;
      Some (k, if key =? KEY_INCOMPLETE then keys else key :: keys)
  end.

End Vtkbd.
