(* ===== verification/VtkbdProps.v ===== *)
(** The keyboard: what it delivers, that it never hangs, and the sequences a
    terminal sends. *)

From S2P Require Import Prelude Cstr Vtkbd.
Import Cstr Vtkbd.

Module VtkbdProps.

Ltac split3 := split; [|split].

(** *** The invariant of a context *)

Record wf (k : VtkbdCtx) : Prop := Wf
  { wf_params : zlen (csi_params k) = 8; wf_inter : zlen (csi_intermediate k) = 4;
    wf_count : 0 <= csi_param_count k <= 8; wf_icount : 0 <= csi_inter_count k <= 4;
    wf_values : Forall is_s32 (csi_params k);
    wf_len : state k = VKSTATE_CSI -> 0 <= csi_len k <= 64 }.

Lemma wf_set_state s k :
  wf k -> (s = VKSTATE_CSI -> 0 <= csi_len k <= 64) -> wf (set_state s k).
Proof. intros [] ?. by constructor. Qed.

Definition good_key (c key : Z) : Prop :=
  key = c \/ 0 <= key < 0x80 \/ IS_SPECIAL_KEY key = true.

(** What a step promises. *)
Definition step_ok (c : Z) (o : option (VtkbdCtx * Z)) : Prop :=
  exists k' key, o = Some (k', key) /\ wf k' /\ good_key c key /\
    (key = KEY_INCOMPLETE <-> state k' <> VKSTATE_NORMAL).

Lemma done_key_ok c k key :
  wf k -> good_key c key -> key <> KEY_INCOMPLETE -> step_ok c (done_key k key).
Proof.
  intros Hk Hg Hn. eexists _, _. split; [done|]. split3; [by apply wf_set_state|done|]. cbn. tauto.
Qed.

Lemma more_ok c k : wf k -> state k <> VKSTATE_NORMAL -> step_ok c (more k).
Proof. intros Hk Hs. eexists _, _. split; [done|]. split3; [done|by right; right|done]. Qed.

(** The keys are constants: each is checked by computation. *)
Lemma range_key (P : Z -> bool) b n c :
  forallb (fun i => P (b + Z.of_nat i)) (seq 0 n) = true -> 0 <= c < Z.of_nat n -> P (b + c) = true.
Proof.
  rewrite forallb_forall. intros H Hc. specialize (H (Z.to_nat c)).
  rewrite Z2Nat.id in H by lia. apply H. apply in_seq. lia.
Qed.

Lemma special_range c b n i :
  forallb (fun i => IS_SPECIAL_KEY (b + Z.of_nat i) && negb (b + Z.of_nat i =? KEY_INCOMPLETE)) (seq 0 n) = true ->
  0 <= i < Z.of_nat n -> good_key c (b + i) /\ b + i <> KEY_INCOMPLETE.
Proof.
  intros H Hi. apply (range_key (fun v => IS_SPECIAL_KEY v && negb (v =? KEY_INCOMPLETE)) b n i) in H; [|done].
  apply andb_true_iff in H as [H1 H2]. split; [by right; right|]. apply negb_true_iff in H2. zbool. done.
Qed.

Ltac key_done :=
  first
  [ apply done_key_ok; [done | by right; right | done]
  | apply done_key_ok; [done | right; left; cbv [KEY_ENTER]; lia | cbv [KEY_ENTER KEY_INCOMPLETE]; lia]
  | match goal with
    | |- step_ok ?c (done_key _ (?b + ?i)) =>
        let H1 := fresh in let H2 := fresh in
        destruct (special_range c b 5 i) as [H1 H2];
        [by vm_compute | lia | by apply done_key_ok]
    end ].

Lemma zget_values k i : wf k -> 0 <= i < 8 -> exists p, zget (csi_params k) i = Some p.
Proof. intros Hk Hi. apply zget_some. rewrite (wf_params _ Hk). lia. Qed.

Lemma csi_param_ok c k :
  wf k -> state k = VKSTATE_CSI -> 0x30 <= c <= 0x3F -> step_ok c (vk_csi_param c k).
Proof.
  intros Hk Hs Hc. unfold vk_csi_param, VTKBD_MAX_PARAMS.
  assert (Hmore : forall a b d e f, zlen b = 8 -> Forall is_s32 b -> 0 <= d <= 8 ->
    0 <= f <= 4 -> step_ok c (more (Ctx (state k) (esc_arg k) (mouse k) a b d e f (csi_intermediate k) (csi_len k)))).
  { intros. apply more_ok; [|cbn; by rewrite Hs]. destruct Hk. by constructor. }
  pose proof (wf_count _ Hk). pose proof (wf_icount _ Hk). pose proof (wf_params _ Hk). pose proof (wf_values _ Hk).
  assert (Hn : state k <> VKSTATE_NORMAL) by (by rewrite Hs).
  destruct (0 <? csi_inter_count k); [by apply more_ok|].
  destruct ((csi_len k =? 1) && _); [by apply Hmore|].
  cbn zeta. case_if Hsep; [apply Hmore; try done; case_if Hc8; lia|].
  destruct (_ && _) eqn:Hd; [|by apply more_ok]. zbool. cbn zeta.
  set (count := if negb (csi_has_param k) && _ then _ else _).
  assert (Hcount : 0 <= count <= 8) by (unfold count; destruct (negb _ && _); lia).
  assert (Hidx : 0 <= (if 0 <? count then count - 1 else 0) < 8) by (destruct (Z.ltb_spec 0 count); lia).
  destruct (Z.ltb_spec (if 0 <? count then count - 1 else 0) 8); [|lia].
  destruct (zget_values k _ Hk Hidx) as (p & ->). cbn [mbind option_bind].
  destruct (mem_write_some (csi_params k) (if 0 <? count then count - 1 else 0) [s32 (p * 10 + (c - 48))])
    as (l & El & Hl); [lia|zlia|]. rewrite El. cbn [mbind option_bind]. apply Hmore; try done; [lia|].
  eapply mem_write_Forall; [done|done|]. constructor; [apply s32_range|constructor].
Qed.

Lemma csi_final_ok c k :
  wf k -> 0x40 <= c <= 0x7E -> step_ok c (vk_csi_final c k).
Proof.
  intros Hk Hc. unfold vk_csi_final.
  destruct (zget_values k 0 Hk) as (p0 & E0); [lia|].
  destruct (_ && _).
  - unfold vk_mouse. rewrite E0. cbn [mbind option_bind].
    destruct (zget_values k 1 Hk) as (p1 & E1); [lia|]. destruct (zget_values k 2 Hk) as (p2 & E2); [lia|].
    rewrite E1, E2.
    assert (Ho : forall b (v : Z), exists w, (if b : bool then Some v else Some 0) = Some w) by (intros []; eauto).
    destruct (Ho (1 <? csi_param_count k) p1) as [w1 ->]. cbn [mbind option_bind].
    destruct (Ho (2 <? csi_param_count k) p2) as [w2 ->]. cbn [mbind option_bind].
    eexists _, _. split; [done|]. split3.
    + destruct Hk. constructor; done.
    + destruct (_ =? _); by right; right.
    + destruct (_ =? _); done.
  - repeat (let H := fresh in case_if H; [key_done|]). case_if Htilde; [|key_done]. rewrite E0. cbn [mbind option_bind].
    unfold vk_tilde. repeat (let H := fresh in case_if H; [key_done|]). key_done.
Qed.

Lemma process_ok c k :
  wf k -> c <> KEY_INCOMPLETE -> step_ok c (vtkbd_process c k).
Proof.
  intros Hk Hc. unfold vtkbd_process. destruct (state k) eqn:Hs.
  - unfold vk_normal. case_if H1; [apply more_ok; [by apply wf_set_state|done]|].
    case_if H2; eexists _, _; (split; [done|]); (split3; [done|..]).
    + right; left; done.
    + by rewrite Hs.
    + by left.
    + by rewrite Hs.
  - unfold vk_esc. case_if H1; [|case_if H2].
    + apply more_ok; [|done]. destruct Hk. constructor; cbn; try done; try lia. repeat constructor; unfold is_s32; lia.
    + apply more_ok; [|done]. by apply wf_set_state.
    + eexists _, _. split; [done|]. split3; [destruct Hk; by constructor|by right; left|by cbn].
  - unfold vk_esc_app. repeat (let H := fresh in case_if H; [key_done|]). case_if Hnum; [|key_done].
    destruct (zget_some numx (c - 0x6A)) as [key Hkey]; [change (zlen numx) with 6; lia|]. rewrite Hkey. cbn [mbind option_bind].
    assert (Hr : 0 <= key < 128).
    { assert (Hall : Forall (fun key => 0 <= key < 128) numx) by (unfold numx; repeat constructor; lia).
      unfold zget in Hkey. destruct (0 <=? _); [|done].
      exact (Forall_lookup_1 _ _ _ _ Hall Hkey). }
    apply done_key_ok; [done|by right; left|unfold KEY_INCOMPLETE; lia].
  - unfold vk_csi. case_if H1; [apply more_ok; [by apply wf_set_state|done]|].
    set (k1 := Ctx _ _ _ _ _ _ _ _ _ _). cbn zeta.
    pose proof (wf_len _ Hk Hs) as Hlen.
    case_if H2.
    { eexists _, _. split; [done|]. split3; [destruct Hk; by constructor|by right; right|done]. }
    assert (Hk1 : wf k1) by (destruct Hk; constructor; try done; intros _; cbn in *; lia).
    case_if H3.
    { destruct (_ || _); apply done_key_ok; try done; [by right; left|by left]. }
    case_if H4; [key_done|]. case_if H5; [apply csi_param_ok; try done; cbn; lia|].
    case_if H6; [|case_if H7; [by apply csi_final_ok|key_done]].
    unfold vk_csi_intermediate, VTKBD_MAX_INTERMEDIATE. pose proof (wf_icount _ Hk1).
    case_if Hroom; [|apply more_ok; [done|cbn; by rewrite Hs]].
    destruct (mem_write_some (csi_intermediate k1) (csi_inter_count k1) [c]) as (l & -> & Hl);
      [lia|rewrite (wf_inter _ Hk1); zlia|]. cbn [mbind option_bind].
    apply more_ok; [|cbn; by rewrite Hs]. destruct Hk1. constructor; try done; cbn in *; lia.
Qed.


(** *** Streams *)

Lemma run_app a b k :
  vtkbd_run (a ++ b) k =
  '(k, x) ← vtkbd_run a k; '(k, y) ← vtkbd_run b k; Some (k, x ++ y).
Proof.
  revert k. induction a as [|c a IH]; intros k; cbn [app vtkbd_run mbind option_bind].
  { by destruct (vtkbd_run b k) as [[? ?]|]. }
  destruct (vtkbd_process c k) as [[k1 key]|]; [|done]. cbn [mbind option_bind]. rewrite IH.
  destruct (vtkbd_run a k1) as [[k2 x]|]; [|done]. cbn [mbind option_bind].
  destruct (vtkbd_run b k2) as [[k3 y]|]; [|done]. cbn [mbind option_bind].
  by destruct (key =? KEY_INCOMPLETE).
Qed.

(** Case analysis on the conditions and the failures of the run in [E]. *)
Ltac cases_in E :=
  repeat first
  [ match type of E with context [if ?b then _ else _] => destruct b end
  | match type of E with context [?m ≫= _] =>
      destruct m; [cbn [mbind option_bind] in E | discriminate E]
    end ];
  injection E as <- ?.

(** How many characters the machine can still take without giving a key. *)
Definition left (k : VtkbdCtx) : Z :=
  match state k with
  | VKSTATE_NORMAL | VKSTATE_ESC_APP => 1
  | VKSTATE_ESC => 66
  | VKSTATE_CSI => 65 - csi_len k
  end.

Lemma csi_param_keeps c k k' key :
  vk_csi_param c k = Some (k', key) -> state k' = state k /\ csi_len k' = csi_len k.
Proof.
  unfold vk_csi_param, more. intros E. cbn zeta in E. by cases_in E.
Qed.

Lemma csi_intermediate_keeps c k k' key :
  vk_csi_intermediate c k = Some (k', key) -> state k' = state k /\ csi_len k' = csi_len k.
Proof.
  unfold vk_csi_intermediate, more. intros E. by cases_in E.
Qed.

Lemma csi_final_normal c k k' key : vk_csi_final c k = Some (k', key) -> state k' = VKSTATE_NORMAL.
Proof.
  unfold vk_csi_final, vk_mouse, done_key. intros E. by cases_in E.
Qed.

Lemma process_left c k k' :
  wf k -> c <> KEY_ESC -> c <> KEY_INCOMPLETE -> vtkbd_process c k = Some (k', KEY_INCOMPLETE) ->
  state k' <> VKSTATE_NORMAL -> left k' < left k.
Proof.
  intros Hk Hesc Hinc E Hn. unfold vtkbd_process in E. unfold left at 2. destruct (state k) eqn:Hs.
  - unfold vk_normal in E. replace (c =? KEY_ESC) with false in E by lia.
    destruct (_ || _); injection E as <- E; [discriminate|done].
  - unfold vk_esc, more in E. destruct (c =? 91); [|destruct (c =? 79)]; injection E as <-; cbn; lia || done.
  - exfalso. unfold vk_esc_app, done_key in E. apply Hn. by cases_in E.
  - unfold vk_csi in E. replace (c =? KEY_ESC) with false in E by lia. cbn zeta in E.
    set (k1 := Ctx _ _ _ _ _ _ _ _ _ _) in E.
    assert (Hk1 : forall k2, state k2 = state k1 /\ csi_len k2 = csi_len k1 -> left k2 < 65 - csi_len k).
    { intros k2 [E1 E2]. unfold left. rewrite E1, E2. unfold k1. cbn. rewrite Hs. lia. }
    unfold done_key in E. repeat (destruct (64 <? _) in E; [by injection E as <-|]).
    destruct (_ || _) in E; [by injection E as <-|].
    destruct (126 <? c) in E; [by injection E as <-|].
    destruct (_ && _) in E; [by apply Hk1, (csi_param_keeps c k1 _ KEY_INCOMPLETE)|].
    destruct (_ && _) in E; [by apply Hk1, (csi_intermediate_keeps c k1 _ KEY_INCOMPLETE)|].
    destruct (_ && _) in E; [by apply csi_final_normal in E|by injection E as <-].
Qed.

Lemma run_ok cs k :
  wf k -> Forall (fun c => c <> KEY_INCOMPLETE) cs ->
  exists k' keys, vtkbd_run cs k = Some (k', keys) /\ wf k' /\
    (Forall (fun c => c <> KEY_ESC) cs -> left k <= zlen cs -> keys <> []).
Proof.
  intros Hk Hcs. revert k Hk. induction Hcs as [|c cs Hc _ IH]; intros k Hk.
  { exists k, []. split3; [done|done|]. intros _ Hl. exfalso. revert Hl. unfold left.
    pose proof (wf_len _ Hk). rewrite zlen_nil. destruct (state k); try lia. intros; specialize (H eq_refl); lia. }
  destruct (process_ok c k Hk Hc) as (k1 & key & E & Hk1 & _ & Hkey).
  destruct (IH k1 Hk1) as (k2 & keys & Er & Hk2 & Hkeys).
  exists k2, (if key =? KEY_INCOMPLETE then keys else key :: keys).
  split3; [cbn [vtkbd_run]; rewrite E; cbn [mbind option_bind]; by rewrite Er|done|].
  intros [Hesc Hescs]%list.Forall_cons Hl. destruct (Z.eqb_spec key KEY_INCOMPLETE) as [->|]; [|done].
  apply Hkeys; [done|]. assert (left k1 < left k); [|zlia].
  apply (process_left c k k1); try done. by apply Hkey.
Qed.

(** *** Sequences *)

(** Inside of ESC [, with no intermediate character so far. *)
Definition csi_ctx (e : Z) (m : vtkbd_mouse_t) (pre : Z) (ps : list Z) (cnt : Z) (has : bool) (n : Z) :=
  Ctx VKSTATE_CSI e m pre ps cnt has 0 (replicate 4 0) n.

Lemma digit_step e m pre ps p zs cnt has n c :
  0x30 <= c <= 0x39 -> 0 <= n < 64 ->
  (cnt = zlen ps + 1 \/ (cnt = 0 /\ ps = [] /\ has = false)) -> zlen ps < 8 ->
  0 <= p -> p * 10 + (c - 0x30) < 2 ^ 31 ->
  vtkbd_process c (csi_ctx e m pre (ps ++ p :: zs) cnt has n) =
  Some (csi_ctx e m pre (ps ++ (p * 10 + (c - 0x30)) :: zs) (zlen ps + 1) true (n + 1), KEY_INCOMPLETE).
Proof.
  intros Hc Hn Hcnt Hps Hp Hv. unfold vtkbd_process, csi_ctx. cbn [state]. unfold vk_csi, KEY_ESC.
  replace (c =? 27) with false by lia. cbn zeta. cbn [csi_len csi_prefix csi_params csi_param_count
    csi_has_param csi_inter_count csi_intermediate state esc_arg mouse].
  replace (64 <? n + 1) with false by lia. replace ((c <? 32) || (c =? 127)) with false by lia.
  replace (126 <? c) with false by lia. replace ((48 <=? c) && (c <=? 63)) with true by lia.
  unfold vk_csi_param, VTKBD_MAX_PARAMS. cbn [csi_len csi_prefix csi_params csi_param_count
    csi_has_param csi_inter_count csi_intermediate state esc_arg mouse Z.ltb Z.compare].
  replace ((c =? 60) || (c =? 63) || (c =? 61) || (c =? 62)) with false by lia. rewrite andb_false_r.
  replace ((c =? 59) || (c =? 58)) with false by lia. replace ((48 <=? c) && (c <=? 57)) with true by lia.
  pose proof (zlen_nonneg ps).
  assert (E : (if negb has && (cnt =? 0) then 1 else cnt) = zlen ps + 1).
  { destruct Hcnt as [->|(-> & -> & ->)]; [|done]. replace (zlen ps + 1 =? 0) with false by lia.
    by rewrite andb_false_r. }
  rewrite E. replace (0 <? zlen ps + 1) with true by lia. replace (zlen ps + 1 - 1) with (zlen ps) by lia.
  replace (zlen ps <? 8) with true by lia. rewrite zget_middle by done. cbn [mbind option_bind].
  rewrite s32_small by (unfold is_s32; lia). by rewrite mem_write_one.
Qed.

Lemma scan_mono ds acc :
  Forall (fun c => 0x30 <= c <= 0x39) ds -> 0 <= acc -> acc <= scan_digits 10 ds acc.
Proof.
  intros H. revert acc. induction H as [|c ds Hc _ IH]; intros acc Ha; cbn [scan_digits]; [lia|].
  assert (digit_val c = c - 48) as -> by (unfold digit_val, isdigit; by if_true).
  if_true. specialize (IH (acc * 10 + (c - 48))). lia.
Qed.

Lemma digits_run e m pre ps p zs cnt has n ds :
  Forall (fun c => 0x30 <= c <= 0x39) ds -> ds <> [] -> 0 <= n -> n + zlen ds <= 64 ->
  (cnt = zlen ps + 1 \/ (cnt = 0 /\ ps = [] /\ has = false)) -> zlen ps < 8 ->
  0 <= p -> scan_digits 10 ds p < 2 ^ 31 ->
  vtkbd_run ds (csi_ctx e m pre (ps ++ p :: zs) cnt has n) =
  Some (csi_ctx e m pre (ps ++ scan_digits 10 ds p :: zs) (zlen ps + 1) true (n + zlen ds), []).
Proof.
  intros H. revert p cnt has n. induction H as [|c ds Hc Hds IH]; intros p cnt has n Hne Hn Hl Hcnt Hps Hp Hv; [done|].
  cbn [vtkbd_run scan_digits] in *.
  assert (digit_val c = c - 48) as Edv by (unfold digit_val, isdigit; by if_true). rewrite Edv in *.
  replace (c - 48 <? 10) with true in * by lia.
  pose proof (scan_mono ds (p * 10 + (c - 48)) Hds ltac:(lia)).
  rewrite digit_step by (done || zlia). cbn [mbind option_bind]. rewrite zlen_cons.
  destruct ds as [|d ds]; [by rewrite zlen_nil|].
  rewrite (IH (p * 10 + (c - 48)) (zlen ps + 1) true (n + 1)); try done; try lia; [|zlia].
  cbn [mbind option_bind]. change (KEY_INCOMPLETE =? KEY_INCOMPLETE) with true. cbn iota.
  by rewrite (Z.add_assoc n 1).
Qed.

Lemma fmt_u_digits v : 0 <= v -> Forall (fun c => 0x30 <= c <= 0x39) (fmt_u v).
Proof.
  intros Hv. eapply List.Forall_impl; [|apply (fmt_base_Forall 10 v); lia].
  intros c. cbn beta. unfold digit_val, isdigit.
  destruct ((48 <=? c) && (c <=? 57)) eqn:E1; [lia|].
  destruct ((65 <=? c) && (c <=? 90)) eqn:E2; [lia|].
  destruct ((97 <=? c) && (c <=? 122)) eqn:E3; lia.
Qed.

Lemma number_run e m pre ps zs cnt has n v :
  0 <= v < 2 ^ 31 -> 0 <= n -> n + zlen (fmt_u v) <= 64 ->
  (cnt = zlen ps + 1 \/ (cnt = 0 /\ ps = [] /\ has = false)) -> zlen ps < 8 ->
  vtkbd_run (fmt_u v) (csi_ctx e m pre (ps ++ 0 :: zs) cnt has n) =
  Some (csi_ctx e m pre (ps ++ v :: zs) (zlen ps + 1) true (n + zlen (fmt_u v)), []).
Proof.
  intros Hv Hn Hl Hcnt Hps.
  assert (E : scan_digits 10 (fmt_u v) 0 = v).
  { pose proof (scan_fmt_base 10 v [] ltac:(lia) ltac:(lia)) as E. by rewrite app_nil_r in E. }
  assert (Hd : fmt_u v <> []).
  { destruct (fmt_base_cons 10 v) as (c & s & Ec & _). unfold fmt_u. by rewrite Ec. }
  pose proof (fmt_u_digits v ltac:(lia)).
  rewrite (digits_run e m pre ps 0 zs cnt has n (fmt_u v)); rewrite ?E; done || lia.
Qed.

Lemma separator_step e m pre ps cnt n :
  0 <= n < 64 -> cnt < 8 ->
  vtkbd_process 0x3B (csi_ctx e m pre ps cnt true n) =
  Some (csi_ctx e m pre ps (cnt + 1) false (n + 1), KEY_INCOMPLETE).
Proof.
  intros Hn Hc. unfold vtkbd_process, csi_ctx. cbn [state]. unfold vk_csi. cbn zeta.
  cbn [csi_len]. replace (64 <? n + 1) with false by lia.
  change ((59 =? KEY_ESC)) with false. cbn [Z.ltb Z.compare Z.eqb orb andb Z.leb Pos.compare Pos.compare_cont Pos.eqb].
  unfold vk_csi_param. cbn [csi_inter_count csi_len Z.ltb Z.compare Z.eqb Pos.eqb orb andb].
  rewrite andb_false_r. cbn [csi_param_count]. unfold VTKBD_MAX_PARAMS.
  by replace (cnt <? 8) with true by lia.
Qed.

(** p1;p2;...;pn *)
Definition params_text (p : Z) (ps : list Z) : list Z :=
  fmt_u p ++ concat (map (fun p => 0x3B :: fmt_u p) ps).

Lemma params_tail_run e m pre ds ps n :
  zlen ds + zlen ps <= 8 -> Forall (fun p => 0 <= p < 2 ^ 31) ps -> 0 <= n ->
  n + zlen (concat (map (fun p => 0x3B :: fmt_u p) ps)) <= 64 ->
  vtkbd_run (concat (map (fun p => 0x3B :: fmt_u p) ps))
    (csi_ctx e m pre (ds ++ replicate (8 - length ds) 0) (zlen ds) true n) =
  Some (csi_ctx e m pre (ds ++ ps ++ replicate (8 - length (ds ++ ps)) 0) (zlen (ds ++ ps)) true
          (n + zlen (concat (map (fun p => 0x3B :: fmt_u p) ps))), []).
Proof.
  intros Hl Hps. revert ds n Hl. induction Hps as [|p ps Hp _ IH]; intros ds n Hl Hn Hz.
  { cbn [map concat vtkbd_run app]. by rewrite (app_nil_r ds), (Z.add_0_r n : n + zlen (@nil Z) = n). }
  cbn [map concat] in *. pose proof (zlen_nonneg ps). pose proof (zlen_nonneg ds).
  assert (Hz2 : n + (1 + zlen (fmt_u p) + zlen (concat (map (fun p => 59 :: fmt_u p) ps))) <= 64) by (revert Hz; clear; zlia).
  rewrite zlen_cons in Hl. pose proof (zlen_nonneg (fmt_u p)).
  pose proof (zlen_nonneg (concat (map (fun p => 59 :: fmt_u p) ps))).
  cbn [app vtkbd_run]. rewrite separator_step by lia. cbn [mbind option_bind].
  change (KEY_INCOMPLETE =? KEY_INCOMPLETE) with true. cbn iota.
  assert (Hrep : replicate (8 - length ds) 0 = 0 :: replicate (8 - length (ds ++ [p])) 0).
  { rewrite length_app. cbn [length]. unfold zlen in *.
    by replace (8 - length ds)%nat with (S (8 - (length ds + 1))) by lia. }
  rewrite run_app, Hrep, number_run by (lia || (left; done)). cbn [mbind option_bind].
  replace (zlen ds + 1) with (zlen (ds ++ [p])) by zlia.
  rewrite (cons_middle p ds), (app_assoc ds [p]).
  rewrite IH; [|zlia|lia|lia]. cbn [mbind option_bind app].
  rewrite <- !app_assoc. cbn [app]. do 2 f_equal. unfold csi_ctx. f_equal.
  rewrite zlen_cons, zlen_app. lia.
Qed.

Lemma params_run e m pre p ps n :
  zlen ps <= 7 -> Forall (fun p => 0 <= p < 2 ^ 31) (p :: ps) -> 0 <= n ->
  n + zlen (params_text p ps) <= 64 ->
  vtkbd_run (params_text p ps) (csi_ctx e m pre (replicate 8 0) 0 false n) =
  Some (csi_ctx e m pre (p :: ps ++ replicate (7 - length ps) 0) (1 + zlen ps) true
          (n + zlen (params_text p ps)), []).
Proof.
  intros Hl [Hp Hps]%list.Forall_cons Hn Hz. unfold params_text in *. rewrite zlen_app in *.
  pose proof (zlen_nonneg (concat (map (fun p => 59 :: fmt_u p) ps))). pose proof (zlen_nonneg (fmt_u p)).
  rewrite run_app. change (replicate 8 0) with ([] ++ 0 :: replicate 7 0).
  rewrite number_run by first [lia | done | by right]. cbn [mbind option_bind].
  change ([] ++ p :: replicate 7 0) with ([p] ++ replicate (8 - length [p]) 0). change (zlen [] + 1) with (zlen [p]).
  rewrite params_tail_run; [|zlia|done|lia|lia].
  cbn [mbind option_bind app length]. by rewrite zlen_cons, Z.add_assoc.
Qed.

Lemma csi_start k :
  state k = VKSTATE_NORMAL ->
  vtkbd_run [KEY_ESC; 0x5B] k = Some (csi_ctx (esc_arg k) (mouse k) 0 (replicate 8 0) 0 false 0, []).
Proof.
  intros Hs. destruct k. cbn in Hs. by subst.
Qed.

Lemma final_step e m pre ps cnt has n c :
  0x40 <= c <= 0x7E -> 0 <= n < 64 ->
  vtkbd_process c (csi_ctx e m pre ps cnt has n) = vk_csi_final c (csi_ctx e m pre ps cnt has (n + 1)).
Proof.
  intros Hc Hn. unfold vtkbd_process, csi_ctx. cbn [state]. unfold vk_csi, KEY_ESC. cbn zeta. cbn [csi_len].
  replace (c =? 27) with false by lia. replace (64 <? n + 1) with false by lia.
  replace ((c <? 32) || (c =? 127)) with false by lia. replace (126 <? c) with false by lia.
  replace ((48 <=? c) && (c <=? 63)) with false by lia. replace ((32 <=? c) && (c <=? 47)) with false by lia.
  by replace ((64 <=? c) && (c <=? 126)) with true by lia.
Qed.

Lemma fmt_u_length v : 0 <= v < 2 ^ 31 -> zlen (fmt_u v) <= 10.
Proof.
  intros Hv. pose proof (fmt_base_length 10 v 9 ltac:(lia)) as H. unfold zlen, fmt_u.
  assert (Hb : 2 ^ 31 <= 10 ^ Z.of_nat 10) by (vm_compute; done). lia.
Qed.

(** The keys of the final characters, for the first parameter [p]. *)
Definition csi_key_spec (c p key : Z) : Prop :=
  (0x41 <= c <= 0x44 -> key = KEY_UP + (c - 0x41)) /\
  (c = 0x7E -> 11 <= p <= 15 -> key = KEY_F1 + (p - 11)) /\
  (c = 0x7E -> 1 <= p <= 6 -> key = KEY_HOME + (p - 1)) /\
  (c = 0x52 -> key = KEY_UNKNOWN).

(** A context as its owner clears it. *)
Definition vtkbd_new : VtkbdCtx :=
  Ctx VKSTATE_NORMAL 0 (Mouse 0 0 0 false false 0) 0 (replicate 8 0) 0 false 0 (replicate 4 0) 0.

(** The bits of the button code of a mouse report. *)
Definition button_code (b m motion wheel : Z) : Z := b + 4 * m + 32 * motion + 64 * wheel.

Lemma button_bits b m motion wheel :
  0 <= b < 4 -> 0 <= m < 8 -> 0 <= motion < 2 -> 0 <= wheel < 2 ->
  let v := button_code b m motion wheel in
  Z.land v 64 = 64 * wheel /\ Z.land v 32 = 32 * motion /\ Z.land v 28 = 4 * m /\
  Z.land v 3 = b /\ Z.land v 1 = b mod 2 /\ 0 <= v < 128.
Proof.
  intros Hb Hm Hmo Hw. cbn zeta.
  set (check := fun v => forallb (fun b => forallb (fun m => forallb (fun mo => forallb (fun w =>
    implb (v =? button_code b m mo w)
      ((Z.land v 64 =? 64 * w) && (Z.land v 32 =? 32 * mo) && (Z.land v 28 =? 4 * m) &&
       (Z.land v 3 =? b) && (Z.land v 1 =? b mod 2) && (0 <=? v) && (v <? 128)))
    [0; 1]) [0; 1]) [0; 1; 2; 3; 4; 5; 6; 7]) [0; 1; 2; 3]).
  assert (Hv : 0 <= button_code b m motion wheel < 128) by (unfold button_code; lia).
  assert (Hall : check (0 + button_code b m motion wheel) = true)
    by (apply (range_key check 0 128); [by vm_compute|lia]).
  rewrite Z.add_0_l in Hall. unfold check in Hall. rewrite forallb_forall in Hall.
  specialize (Hall b ltac:(cbn; lia)). cbn beta in Hall. rewrite forallb_forall in Hall.
  specialize (Hall m ltac:(cbn; lia)). cbn beta in Hall. rewrite forallb_forall in Hall.
  specialize (Hall motion ltac:(cbn; lia)). cbn beta in Hall. rewrite forallb_forall in Hall.
  specialize (Hall wheel ltac:(cbn; lia)). cbn beta in Hall. rewrite Z.eqb_refl in Hall. cbn [implb] in Hall.
  zbool. repeat (split; [done|]). done.
Qed.

Lemma csi_final_key c p k :
  csi_prefix k = 0 -> zget (csi_params k) 0 = Some p ->
  exists key, vk_csi_final c k = done_key k key /\ key <> KEY_INCOMPLETE /\ csi_key_spec c p key.
Proof.
  intros Hp E. unfold vk_csi_final. rewrite Hp, E. cbn [Z.eqb andb negb mbind option_bind].
  unfold csi_key_spec, vk_tilde, KEY_UP, KEY_HOME, KEY_INS, KEY_DEL, KEY_END, KEY_PGUP, KEY_PGDN, KEY_STAB,
    KEY_F1, KEY_F6, KEY_F9, KEY_F11, KEY_UNKNOWN, KEY_INCOMPLETE.
  repeat (let H := fresh in case_if H; [eexists; split; [done|]; repeat split; intros; lia|]).
  case_if Ht; [|eexists; split; [done|]; repeat split; intros; lia].
  eexists; split; [done|].
  repeat (let H := fresh in case_if H; [repeat split; intros; lia|]). repeat split; intros; lia.
Qed.

Definition repeat_keys : list (list Z) :=
  [[VKRAW_BS]; [VKRAW_ERASE]; [4]; [KEY_ESC; 0x5B; 0x43]; [KEY_ESC; 0x4F; 0x43];
   [KEY_ESC; 0x5B; 0x44]; [KEY_ESC; 0x4F; 0x44]; [KEY_ESC; 0x5B; 0x33; 0x7E]].

(** The answer [r] of the filter on [buf]. *)
Definition repeat_spec (buf : list Z) (r : Z) : Prop :=
  (exists key, In key repeat_keys /\ buf = key ++ key /\ r = zlen key) \/
  ((forall key, In key repeat_keys -> buf <> key ++ key) /\ r = zlen buf).

Lemma repeat_hit key r : In key repeat_keys -> r = zlen key -> repeat_spec (key ++ key) r.
Proof. intros. left. by exists key. Qed.

Ltac no_key :=
  right; split; [|reflexivity]; let key := fresh in let Hin := fresh in let E := fresh in
  intros key Hin E; repeat destruct Hin as [<-|Hin]; try done;
  unfold VKRAW_BS, VKRAW_ERASE, KEY_ESC in *; injection E; intros; subst; cbn in *;
  zbool; intuition (congruence || lia).

Lemma repeat2 a b : repeat_spec [a; b] (vtkbd_ignore_dbcs_evil_repeats [a; b]).
Proof.
  change (vtkbd_ignore_dbcs_evil_repeats [a; b]) with
    (if negb (a =? b) then 2 else if (a =? 8) || (a =? 127) || (a =? 4) then 1 else 2).
  case_if Hne; [no_key|]. case_if Heq; [|no_key]. subst b.
  assert (a = 8 \/ a = 127 \/ a = 4) as [->|[->| ->]] by lia;
    (apply (repeat_hit [_]); [cbn; tauto|done]).
Qed.

Lemma repeat6 a b c d e f :
  repeat_spec [a; b; c; d; e; f] (vtkbd_ignore_dbcs_evil_repeats [a; b; c; d; e; f]).
Proof.
  change (vtkbd_ignore_dbcs_evil_repeats [a; b; c; d; e; f]) with
    (if negb (c =? 67) && negb (c =? 68) then 6
     else if (a =? 27) && ((b =? 91) || (b =? 79)) && (a =? d) && (b =? e) && (c =? f) then 3 else 6).
  case_if Hne; [no_key|]. case_if Heq; [|no_key].
  assert (a = 27 /\ d = a /\ e = b /\ f = c) as (-> & -> & -> & ->) by lia.
  assert (b = 91 \/ b = 79) as Hb by lia. assert (c = 67 \/ c = 68) as Hc by lia.
  destruct Hb as [-> | ->], Hc as [-> | ->]; (apply (repeat_hit [_; _; _]); [cbn; tauto|done]).
Qed.

Lemma repeat8 a b c d e f g h :
  repeat_spec [a; b; c; d; e; f; g; h] (vtkbd_ignore_dbcs_evil_repeats [a; b; c; d; e; f; g; h]).
Proof.
  change (vtkbd_ignore_dbcs_evil_repeats [a; b; c; d; e; f; g; h]) with
    (if negb (a =? 27) || negb (c =? 51) || negb (b =? 91) || negb (d =? 126) then 8
     else if (e =? a) && (f =? b) && (g =? c) && (h =? d) then 4 else 8).
  case_if Hne; [no_key|]. case_if Heq; [|no_key].
  assert (a = 27 /\ b = 91 /\ c = 51 /\ d = 126 /\ e = a /\ f = b /\ g = c /\ h = d)
    as (-> & -> & -> & -> & -> & -> & -> & ->) by lia.
  apply (repeat_hit [_; _; _; _]); [cbn; tauto|done].
Qed.

(** *** The properties *)

(** The keyboard is safe for any character in any state: the step stays inside
    of its arrays, keeps the context well formed, gives a key that is the
    character itself, an ASCII character or a code reserved for special keys, and
    says [KEY_INCOMPLETE] exactly when it is inside of a sequence. *)
Theorem vtkbd_process_safe c k :
  wf k -> c <> KEY_INCOMPLETE ->
  exists k' key, vtkbd_process c k = Some (k', key) /\ wf k' /\
    (key = c \/ 0 <= key < 0x80 \/ IS_SPECIAL_KEY key = true) /\
    (key = KEY_INCOMPLETE <-> state k' <> VKSTATE_NORMAL).
Proof. apply process_ok. Qed.

(** C20. The keyboard never hangs: from any state, any 66 characters without an
    ESC are read without an access out of its arrays, whatever the length and the
    number of the parameters among them, and deliver at least one key. *)
Theorem vtkbd_no_hang cs k :
  wf k -> Forall (fun c => c <> KEY_ESC /\ c <> KEY_INCOMPLETE) cs -> 66 <= zlen cs ->
  exists k' keys, vtkbd_run cs k = Some (k', keys) /\ wf k' /\ keys <> [].
Proof.
  intros Hk Hcs Hl. destruct (run_ok cs k Hk) as (k' & keys & E & Hk' & Hkeys).
  - eapply List.Forall_impl; [|exact Hcs]. cbn. tauto.
  - exists k', keys. split3; [done|done|]. apply Hkeys; [eapply List.Forall_impl; [|exact Hcs]; cbn; tauto|].
    unfold left. pose proof (wf_len _ Hk) as Hlen. destruct (state k); try lia. specialize (Hlen eq_refl). lia.
Qed.

(** A control sequence ESC [ p1 ; ... ; pn c is read as one key, and its
    parameters stay in the context for the caller: arrows with any modifiers,
    the keys of ESC [ p ~, and for a cursor report ESC [ row ; col R an unknown
    key with the parameters the login daemon looks at. *)
Theorem vtkbd_csi_sequence k p ps c :
  state k = VKSTATE_NORMAL -> zlen ps <= 7 -> Forall (fun p => 0 <= p < 2 ^ 31) (p :: ps) ->
  zlen (params_text p ps) < 64 -> 0x40 <= c <= 0x7E ->
  exists k' key, vtkbd_run ([KEY_ESC; 0x5B] ++ params_text p ps ++ [c]) k = Some (k', [key]) /\
    state k' = VKSTATE_NORMAL /\ csi_prefix k' = 0 /\ csi_param_count k' = 1 + zlen ps /\
    csi_params k' = p :: ps ++ replicate (7 - length ps) 0 /\ mouse k' = mouse k /\
    csi_key_spec c p key.
Proof.
  intros Hs Hl Hps Hz Hc. rewrite run_app, csi_start by done. cbn [mbind option_bind].
  rewrite run_app, params_run by (done || lia). cbn [mbind option_bind vtkbd_run app].
  pose proof (zlen_nonneg (params_text p ps)). rewrite final_step by (done || lia).
  destruct (csi_final_key c p (csi_ctx (esc_arg k) (mouse k) 0 (p :: ps ++ replicate (7 - length ps) 0)
    (1 + zlen ps) true (0 + zlen (params_text p ps) + 1))) as (key & -> & Hn & Hspec); [done|done|].
  unfold done_key. cbn [mbind option_bind]. replace (key =? KEY_INCOMPLETE) with false by lia.
  eexists _, _. split; [done|]. by split_and!.
Qed.

(** A mouse report gives back the event the terminal encoded: for button
    [b] (0-3, or the wheel), modifiers [m] and a position counted from 1, the
    sequence ESC [ < code ; col ; row M (m for a release) is one mouse key, and
    the context holds the position counted from 0, the button, the modifier
    bits and the motion. *)
Theorem vtkbd_mouse_report k b m motion wheel col row release :
  state k = VKSTATE_NORMAL -> 0 <= b < 4 -> 0 <= m < 8 -> 0 <= motion < 2 -> 0 <= wheel < 2 ->
  1 <= col < 2 ^ 31 -> 1 <= row < 2 ^ 31 ->
  exists k', vtkbd_run ([KEY_ESC; 0x5B; 0x3C] ++ params_text (button_code b m motion wheel) [col; row] ++
                        [if release : bool then 0x6D else 0x4D]) k =
      Some (k', [if release then KEY_MOUSE_RELEASE else KEY_MOUSE]) /\
    state k' = VKSTATE_NORMAL /\
    vtkbd_get_mouse (Some k') =
      Some (Mouse (col - 1) (row - 1)
              (if wheel =? 1 then MOUSE_BTN_WHEEL_UP + b mod 2 else b) release (motion =? 1) (4 * m)).
Proof.
  intros Hs Hb Hm Hmo Hw Hcol Hrow.
  destruct (button_bits b m motion wheel Hb Hm Hmo Hw) as (B64 & B32 & B28 & B3 & B1 & Bv).
  set (code := button_code b m motion wheel) in *.
  change ([KEY_ESC; 0x5B; 0x3C]) with ([KEY_ESC; 0x5B] ++ [0x3C]).
  rewrite <- app_assoc, run_app, csi_start by done. cbn [mbind option_bind].
  rewrite run_app.
  change (vtkbd_run [60] _) with (Some (csi_ctx (esc_arg k) (mouse k) 60 (replicate 8 0) 0 false 1, @nil Z)).
  cbn [mbind option_bind].
  assert (Hz : zlen (params_text code [col; row]) <= 32).
  { unfold params_text. cbn [map concat]. pose proof (fmt_u_length code ltac:(lia)).
    pose proof (fmt_u_length col ltac:(lia)). pose proof (fmt_u_length row ltac:(lia)). zlia. }
  pose proof (zlen_nonneg (params_text code [col; row])).
  rewrite run_app, params_run; [|zlia|repeat constructor; lia|lia|lia].
  cbn [mbind option_bind vtkbd_run app length Nat.sub replicate]. rewrite final_step by (destruct release; lia).
  unfold vk_csi_final, csi_ctx, vk_mouse. cbn [csi_prefix csi_params csi_param_count].
  replace ((60 =? 60) && _) with true by (by destruct release). cbn iota.
  change (zget (code :: _) 0) with (Some code). change (zget (code :: _) 1) with (Some col).
  change (zget (code :: _) 2) with (Some row). change (1 + zlen [col; row]) with 3.
  cbn [mbind option_bind Z.ltb Z.compare Pos.compare Pos.compare_cont].
  replace (0 <? col) with true by lia. replace (0 <? row) with true by lia.
  unfold MOUSE_BTN_WHEEL_UP, MOUSE_BTN_WHEEL_DOWN. rewrite B64, B32, B28, B3, B1.
  eexists. split; [f_equal; f_equal; by destruct release|]. split; [done|].
  unfold vtkbd_get_mouse. cbn [fmap option_fmap option_map mouse]. f_equal.
  assert (Hb2 : b mod 2 = 0 \/ b mod 2 = 1) by (pose proof (Z.mod_pos_bound b 2); lia).
  f_equal; [|by destruct release|].
  - destruct (Z.eqb_spec wheel 1) as [->|]; [|replace wheel with 0 by lia; done].
    by destruct Hb2 as [-> | ->].
  - assert (motion = 0 \/ motion = 1) as [-> | ->] by lia; done.
Qed.

(** A parameter of ten digits does not fit the [int] that holds it, and wraps:
    ESC [ 4294967297 ~ is taken for ESC [ 1 ~, the key Home. *)
Example vtkbd_param_wraps :
  exists k, vtkbd_run ([KEY_ESC; 0x5B] ++ fmt_u 4294967297 ++ [0x7E]) vtkbd_new = Some (k, [KEY_HOME]).
Proof. eexists. by vm_compute. Qed.

(** The filter of doubled keys halves a buffer exactly when it is one of the
    keys a DBCS client repeats (BS, DEL, Ctrl-D, a left or right arrow, the
    vt220 delete), sent twice; otherwise it keeps all of it. *)
Theorem vtkbd_repeats_spec buf : repeat_spec buf (vtkbd_ignore_dbcs_evil_repeats buf).
Proof.
  assert (Hlen : forall key, In key repeat_keys -> buf = key ++ key ->
    zlen buf = 2 \/ zlen buf = 6 \/ zlen buf = 8).
  { intros key Hin ->. repeat destruct Hin as [<-|Hin]; try done;
      first [by left | by right; left | by right; right]. }
  destruct (Z.eqb_spec (zlen buf) 2) as [E|E2].
  { destruct buf as [|a [|b [|]]]; try (exfalso; revert E; zlia). apply repeat2. }
  destruct (Z.eqb_spec (zlen buf) 6) as [E|E6].
  { destruct buf as [|a [|b [|c [|d [|e [|f [|]]]]]]]; try (exfalso; revert E; zlia). apply repeat6. }
  destruct (Z.eqb_spec (zlen buf) 8) as [E|E8].
  { destruct buf as [|a [|b [|c [|d [|e [|f [|g [|h [|]]]]]]]]]; try (exfalso; revert E; zlia). apply repeat8. }
  right. split.
  - intros key Hin E. destruct (Hlen key Hin E) as [|[|]]; lia.
  - unfold vtkbd_ignore_dbcs_evil_repeats. cbn zeta.
    by rewrite (proj2 (Z.eqb_neq _ _) E2), (proj2 (Z.eqb_neq _ _) E6), (proj2 (Z.eqb_neq _ _) E8).
Qed.

(** *** Witnesses *)

Lemma new_wf : wf vtkbd_new.
Proof. constructor; try done; try (cbn; lia). repeat constructor; unfold is_s32; lia. Qed.

Lemma vtkbd_process_safe_witness :
  let k := set_state VKSTATE_ESC_APP vtkbd_new in
  exists k' key, vtkbd_process 0x77 k = Some (k', key) /\ wf k' /\
    (key = 0x77 \/ 0 <= key < 0x80 \/ IS_SPECIAL_KEY key = true) /\
    (key = KEY_INCOMPLETE <-> state k' <> VKSTATE_NORMAL).
Proof.
  apply (vtkbd_process_safe 0x77 (set_state VKSTATE_ESC_APP vtkbd_new)).
  - apply wf_set_state; [apply new_wf|done].
  - done.
Defined.

(** A client that sends 66 digits after ESC [. *)
Lemma vtkbd_no_hang_witness :
  let k := set_state VKSTATE_CSI vtkbd_new in
  exists k' keys, vtkbd_run (replicate 66 0x39) k = Some (k', keys) /\ wf k' /\ keys <> [].
Proof.
  apply (vtkbd_no_hang (replicate 66 0x39) (set_state VKSTATE_CSI vtkbd_new)).
  - apply wf_set_state; [apply new_wf|cbn; lia].
  - apply Forall_replicate. done.
  - by vm_compute.
Defined.

(** ESC [ 24 ; 80 R *)
Lemma vtkbd_csi_sequence_witness :
  params_text 24 [80] = [0x32; 0x34; 0x3B; 0x38; 0x30] /\
  exists k' key, vtkbd_run ([KEY_ESC; 0x5B] ++ params_text 24 [80] ++ [0x52]) vtkbd_new = Some (k', [key]) /\
    state k' = VKSTATE_NORMAL /\ csi_prefix k' = 0 /\ csi_param_count k' = 1 + zlen [80] /\
    csi_params k' = 24 :: [80] ++ replicate (7 - length [80]) 0 /\ mouse k' = mouse vtkbd_new /\
    csi_key_spec 0x52 24 key.
Proof.
  split; [by vm_compute|]. apply (vtkbd_csi_sequence vtkbd_new 24 [80] 0x52).
  - done.
  - by vm_compute.
  - repeat constructor; lia.
  - by vm_compute.
  - lia.
Defined.

(** The wheel turned down at column 300, row 12, with Ctrl. *)
Lemma vtkbd_mouse_report_witness :
  exists k', vtkbd_run ([KEY_ESC; 0x5B; 0x3C] ++ params_text (button_code 1 4 0 1) [300; 12] ++ [0x4D]) vtkbd_new =
      Some (k', [KEY_MOUSE]) /\
    state k' = VKSTATE_NORMAL /\
    vtkbd_get_mouse (Some k') = Some (Mouse 299 11 (MOUSE_BTN_WHEEL_UP + 1 mod 2) false false 16).
Proof. apply (vtkbd_mouse_report vtkbd_new 1 4 0 1 300 12 false); lia || done. Defined.

End VtkbdProps.
