(* ===== verification/Telnet.v ===== *)
(** The TELNET filter of a connection ([common/sys/telnet.c] and the TELNET part
    of [include/cmsys.h]): it takes the commands out of the bytes of a client,
    in place, and calls back.  The calls it makes are an output, in order.

    [None] is an access out of [iac_buf] or of the buffer.  The codes of the
    protocol are those of <arpa/telnet.h>; TELOPTS and DBG_OUTRPT are not
    defined, as in a normal build. *)

From Stdlib Require Import String.
From S2P Require Import Prelude Cstr.
Import Cstr.
#[local] Open Scope list_scope.

Module Telnet.

(** *** <arpa/telnet.h> *)

Definition IAC := 255.
Definition DONT := 254.
Definition DO := 253.
Definition WONT := 252.
Definition WILL := 251.
Definition SB := 250.
Definition AYT := 246.
Definition NOP := 241.
Definition SE := 240.
Definition TELOPT_BINARY := 0.
Definition TELOPT_ECHO := 1.
Definition TELOPT_SGA := 3.
Definition TELOPT_TTYPE := 24.
Definition TELOPT_NAWS := 31.
Definition TELQUAL_SEND := 1.

(** *** The context *)

Inductive TELNET_IAC_STATES :=
| IAC_NONE | IAC_COMMAND | IAC_WAIT_OPT | IAC_WAIT_SE | IAC_PROCESS_OPT | IAC_ERROR.

#[export] Instance iac_states_eq_dec : EqDecision TELNET_IAC_STATES.
Proof. solve_decision. Defined.

Definition TELNET_IAC_MAXLEN := 32.

(** Which callbacks are set; [cc_arg] is whether the context has an argument
    for [update_client_code]. *)
Record TelnetCallback := Callback
  { term_resize : bool; update_client_code : bool; send_ayt : bool; ttype : bool; cc_arg : bool }.

Record TelnetCtx := Ctx
  { iac_state : TELNET_IAC_STATES; iac_quote : bool; iac_opt_req : Z;
    iac_buf : list Z; iac_buflen : Z }.

(** The calls: [Write] is [write_data] or [write(2)]. *)
Inductive event :=
| Write (bytes : list Z)
| Resize (w h : Z)
| ClientCode (seq : Z)
| Ayt
| TType (bytes : list Z).

Definition telnet_ctx_init : TelnetCtx := Ctx IAC_NONE false 0 (replicate 32 0) 0.

Definition telnet_init_cmds : list Z :=
  [IAC; DO; TELOPT_TTYPE;
   IAC; SB; TELOPT_TTYPE; TELQUAL_SEND; IAC; SE;
   IAC; DO; TELOPT_NAWS;
   IAC; WILL; TELOPT_ECHO;
   IAC; WILL; TELOPT_SGA;
   IAC; WILL; TELOPT_BINARY;
   IAC; DO; TELOPT_BINARY].

Definition telnet_write (buf : list Z) : list event := [Write buf].
Definition telnet_ctx_send_init_cmds : list event := telnet_write telnet_init_cmds.

Section Handler.
Context (cb : TelnetCallback).

Definition telnet_send_ayt : list event :=
  if send_ayt cb then [Ayt] else telnet_write (str "I'm still alive."%string ++ [13; 10]).

(** The callback [update_client_code] of each character, when there is one. *)
Definition client_code (l : list Z) : list event :=
  if cc_arg cb && update_client_code cb then map ClientCode l else [].

Definition with_state (t : TelnetCtx) (s : TELNET_IAC_STATES) : TelnetCtx :=
  Ctx s (iac_quote t) (iac_opt_req t) (iac_buf t) (iac_buflen t).

(** The new context, the calls and the return value: 0 for a data character. *)
Definition answer := option (TelnetCtx * list event * Z).

Definition iac_command (t : TelnetCtx) (c : Z) : answer :=
  let t := with_state t IAC_NONE in
  if c =? IAC then Some (t, [], 1)
  else if c =? AYT then Some (t, telnet_send_ayt, NOP)
  else if (c =? DONT) || (c =? DO) || (c =? WONT) || (c =? WILL) then
    Some (Ctx IAC_WAIT_OPT (iac_quote t) c (iac_buf t) (iac_buflen t), [], NOP)
  else if c =? SB then
    Some (Ctx IAC_WAIT_SE (iac_quote t) (iac_opt_req t) (iac_buf t) 0, [], NOP)
  else Some (t, [], NOP).

Definition iac_wait_opt (t : TelnetCtx) (c : Z) : answer :=
  let t := with_state t IAC_NONE in
  if (c =? TELOPT_TTYPE) || (c =? TELOPT_NAWS) || (c =? TELOPT_SGA) || (c =? TELOPT_ECHO) ||
     (c =? TELOPT_BINARY) then Some (t, [], 1)
  else if (iac_opt_req t =? WILL) || (iac_opt_req t =? DO) then
    Some (t, telnet_write [IAC; if iac_opt_req t =? DO then WONT else DONT; c], 1)
  else Some (t, [], 1).

Definition iac_wait_se (t : TelnetCtx) (c : Z) : answer :=
  b ← mem_write (iac_buf t) (iac_buflen t) [c];
  let n := iac_buflen t + 1 in
  if n =? TELNET_IAC_MAXLEN then Some (Ctx IAC_NONE (iac_quote t) (iac_opt_req t) b n, [], 0)
  else Some (Ctx (iac_state t) (iac_quote t) (iac_opt_req t) b n, [], 1).

Definition iac_process_opt (t : TelnetCtx) : answer :=
  let t := with_state t IAC_NONE in
  opt ← zget (iac_buf t) 0;
  if opt =? TELOPT_NAWS then
    b1 ← zget (iac_buf t) 1; b2 ← zget (iac_buf t) 2;
    b3 ← zget (iac_buf t) 3; b4 ← zget (iac_buf t) 4;
    let w := Z.shiftl b1 8 + b2 in
    let h := Z.shiftl b3 8 + b4 in
    let size := if (w =? 80) && (h =? 24) then 1 else if w =? 80 then 2 else if h =? 24 then 3 else 4 in
    Some (t, (if term_resize cb then [Resize w h] else []) ++ client_code [opt; size; IAC; SE], 1)
  else
    tt ← (if (opt =? TELOPT_TTYPE) && ttype cb && (2 <? iac_buflen t) then
            d ← mem_read (iac_buf t) 2 (iac_buflen t - 2); Some [TType d]
          else Some []);
    d ← mem_read (iac_buf t) 0 (iac_buflen t);
    Some (t, tt ++ client_code (d ++ [IAC; SE]), 1).

(** What happens once a quoted character is seen. *)
Definition unquote (t : TelnetCtx) (c : Z) : TelnetCtx :=
  if iac_quote t then
    let s := match iac_state t with IAC_NONE => IAC_COMMAND | s => s end in
    let s := match s with IAC_WAIT_SE => if c =? SE then IAC_PROCESS_OPT else s | s => s end in
    Ctx s false (iac_opt_req t) (iac_buf t) (iac_buflen t)
  else t.

Definition telnet_handler (t : TelnetCtx) (c : Z) : answer :=
  if (c =? IAC) && negb (iac_quote t) then
    Some (Ctx (iac_state t) true (iac_opt_req t) (iac_buf t) (iac_buflen t), [], NOP)
  else
    let codes := match iac_state t with
                 | IAC_WAIT_SE => []
                 | _ => client_code ((if iac_quote t then [IAC] else []) ++ [c])
                 end in
    let t := unquote t c in
    '(t, ev, r) ←
      match iac_state t with
      | IAC_NONE => Some (t, [], 0)
      | IAC_COMMAND => iac_command t c
      | IAC_WAIT_OPT => iac_wait_opt t c
      | IAC_WAIT_SE => iac_wait_se t c
      | IAC_PROCESS_OPT => iac_process_opt t
      | IAC_ERROR => Some (t, [], 1)
      end;
    Some (t, codes ++ ev, r).

(** The loop of [telnet_process]: [n] characters are left to read, from index
    [i] of the buffer; index [i2] is [buf2]. *)
Fixpoint process_loop (n : nat) (t : TelnetCtx) (blk : list Z) (i i2 : Z) (ev : list event)
    : option (TelnetCtx * list Z * Z * list event) :=
  match n with
  | O => Some (t, blk, i2, ev)
  | S n =>
      c ← zget blk i;
      '(t, e, r) ← telnet_handler t c;
      if r =? 0 then
        blk ← mem_write blk i2 [c]; process_loop n t blk (i + 1) (i2 + 1) (ev ++ e)
      else process_loop n t blk (i + 1) i2 (ev ++ e)
  end.

(** The context, the buffer, the return value and the calls. *)
Definition telnet_process (t : TelnetCtx) (blk : list Z) (size : Z)
    : option (TelnetCtx * list Z * Z * list event) :=
  if 0 <? size then
    d ← mem_read blk 0 size;
    if bool_decide (iac_state t = IAC_NONE) && negb (iac_quote t) && negb (existsb (Z.eqb IAC) d) then
      Some (t, blk, size, [])
    else
      '(t, blk, kept, ev) ← process_loop (Z.to_nat size) t blk 0 0 [];
      Some (t, blk, if kept =? 0 then -1 else kept, ev)
  else Some (t, blk, size, []).
End Handler.

End Telnet.
