(* ===== verification/TelnetProps.v ===== *)
(** The TELNET filter: it is safe, does not depend on how the stream is cut
    into reads, and decodes what a client means. *)

From Stdlib Require Import String.
From S2P Require Import Prelude Cstr Telnet.
Import Cstr Telnet.
#[local] Open Scope list_scope.

Module TelnetProps.

Record wf (t : TelnetCtx) : Prop := Wf
  { wf_buf : zlen (iac_buf t) = 32; wf_buflen : 0 <= iac_buflen t <= 32;
    wf_state : iac_state t = IAC_NONE \/ iac_state t = IAC_WAIT_OPT \/
               (iac_state t = IAC_WAIT_SE /\ iac_buflen t < 32) }.

Section Callbacks.
Context (cb : TelnetCallback).

(** *** One character *)

Definition answer_ok (a : answer) : Prop := exists t ev r, a = Some (t, ev, r) /\ wf t.

Lemma answer_some t ev r : wf t -> answer_ok (Some (t, ev, r)).
Proof. intros. by exists t, ev, r. Qed.

Lemma wf_none b r buf n :
  zlen buf = 32 -> 0 <= n <= 32 -> wf (Ctx IAC_NONE b r buf n).
Proof. intros. constructor; cbn; try done. by left. Qed.

Lemma command_ok t c :
  zlen (iac_buf t) = 32 -> 0 <= iac_buflen t <= 32 -> answer_ok (iac_command cb t c).
Proof.
  intros Hb Hn. unfold iac_command. cbn zeta. unfold with_state.
  case_if Hc1; [apply answer_some; by apply wf_none|]. case_if Hc2; [apply answer_some; by apply wf_none|].
  case_if Hc3; [|case_if Hc4; [|apply answer_some; by apply wf_none]]; apply answer_some.
  - constructor; cbn; try done. by right; left.
  - constructor; cbn; try lia. right; right. split; [done|lia].
Qed.

Lemma wait_opt_ok t c :
  zlen (iac_buf t) = 32 -> 0 <= iac_buflen t <= 32 -> answer_ok (iac_wait_opt t c).
Proof.
  intros Hb Hn. unfold iac_wait_opt. cbn zeta. unfold with_state.
  repeat case_match; apply answer_some; by apply wf_none.
Qed.

Lemma wait_se_ok t c :
  zlen (iac_buf t) = 32 -> 0 <= iac_buflen t < 32 -> iac_state t = IAC_WAIT_SE -> answer_ok (iac_wait_se t c).
Proof.
  intros Hb Hn Hs. unfold iac_wait_se.
  destruct (mem_write_some (iac_buf t) (iac_buflen t) [c]) as (b & -> & Hz); [lia|zlia|].
  cbn [mbind option_bind]. unfold TELNET_IAC_MAXLEN. cbn zeta.
  destruct (Z.eqb_spec (iac_buflen t + 1) 32); apply answer_some; [apply wf_none; lia|].
  constructor; cbn; [lia|lia|]. right; right. split; [done|lia].
Qed.

Lemma process_opt_ok t :
  zlen (iac_buf t) = 32 -> 0 <= iac_buflen t <= 32 -> answer_ok (iac_process_opt cb t).
Proof.
  intros Hb Hn. unfold iac_process_opt, with_state. cbn zeta. cbn [iac_buf iac_buflen].
  destruct (zget_some (iac_buf t) 0) as [b0 ->]; [lia|]. cbn [mbind option_bind].
  destruct (zget_some (iac_buf t) 1) as [b1 ->]; [lia|]. destruct (zget_some (iac_buf t) 2) as [b2 ->]; [lia|].
  destruct (zget_some (iac_buf t) 3) as [b3 ->]; [lia|]. destruct (zget_some (iac_buf t) 4) as [b4 ->]; [lia|].
  cbn [mbind option_bind]. destruct (b0 =? TELOPT_NAWS); [apply answer_some; by apply wf_none|].
  destruct (mem_read_some (iac_buf t) 0 (iac_buflen t)) as (d & Ed & _); [lia..|].
  destruct (_ && _) eqn:E; [zbool|].
  - destruct (mem_read_some (iac_buf t) 2 (iac_buflen t - 2)) as (d2 & -> & _); [lia..|].
    cbn [mbind option_bind]. rewrite Ed. apply answer_some. by apply wf_none.
  - cbn [mbind option_bind]. rewrite Ed. apply answer_some. by apply wf_none.
Qed.

Lemma handler_ok t c : wf t -> answer_ok (telnet_handler cb t c).
Proof.
  intros [Hb Hn Hs]. unfold telnet_handler.
  destruct (_ && _); [apply answer_some; by constructor|]. cbn zeta.
  set (codes := match iac_state t with IAC_WAIT_SE => _ | _ => _ end).
  assert (Hgo : forall a, answer_ok a -> answer_ok ('(t, ev, r) ← a; Some (t, codes ++ ev, r))).
  { intros a (t' & ev & r & -> & Hw). by apply answer_some. }
  apply Hgo. unfold unquote. destruct (iac_quote t).
  - destruct Hs as [Hs|[Hs|[Hs Hl]]]; rewrite Hs; cbn [iac_state].
    + by apply command_ok.
    + by apply wait_opt_ok.
    + destruct (c =? SE); cbn [iac_state]; [by apply process_opt_ok|apply wait_se_ok; cbn; lia || done].
  - destruct Hs as [Hs|[Hs|[Hs Hl]]]; rewrite Hs.
    + apply answer_some. by constructor; [..|left].
    + by apply wait_opt_ok.
    + apply wait_se_ok; lia || done.
Qed.

(** *** A stream of characters *)

(** The reference: the data and the calls of a stream. *)
Fixpoint scan (t : TelnetCtx) (cs : list Z) : option (TelnetCtx * list Z * list event) :=
  match cs with
  | [] => Some (t, [], [])
  | c :: cs =>
      '(t, e, r) ← telnet_handler cb t c;
      '(t, out, ev) ← scan t cs;
      Some (t, (if r =? 0 then [c] else []) ++ out, e ++ ev)
  end.

Lemma scan_ok t cs : wf t -> exists t' out ev, scan t cs = Some (t', out, ev) /\ wf t'.
Proof.
  revert t. induction cs as [|c cs IH]; intros t Ht; cbn [scan]; [by exists t, [], []|].
  destruct (handler_ok t c Ht) as (t1 & e & r & -> & Ht1). cbn [mbind option_bind].
  destruct (IH t1 Ht1) as (t2 & out & ev & -> & Ht2). cbn [mbind option_bind]. eauto.
Qed.

Lemma scan_app t a b :
  scan t (a ++ b) =
  '(t, o1, e1) ← scan t a; '(t, o2, e2) ← scan t b; Some (t, o1 ++ o2, e1 ++ e2).
Proof.
  revert t. induction a as [|c a IH]; intros t; cbn [app scan mbind option_bind].
  { by destruct (scan t b) as [[[? ?] ?]|]. }
  destruct (telnet_handler cb t c) as [[[t1 e] r]|]; [|done]. cbn [mbind option_bind]. rewrite IH.
  destruct (scan t1 a) as [[[t2 o1] e1]|]; [|done]. cbn [mbind option_bind].
  destruct (scan t2 b) as [[[t3 o2] e2]|]; [|done]. cbn [mbind option_bind]. by rewrite !app_assoc.
Qed.

(** The calls that are not the hash of the client's commands. *)
Definition is_reply (e : event) : bool := match e with ClientCode _ => false | _ => true end.
Definition replies (ev : list event) : list event := List.filter is_reply ev.

Lemma replies_app a b : replies (a ++ b) = replies a ++ replies b.
Proof. apply List.filter_app. Qed.
(** [fewer a b]: the calls [a] are the calls [b] without some of those of
    [update_client_code]. *)
Inductive fewer : list event -> list event -> Prop :=
| fewer_nil : fewer [] []
| fewer_same e a b : fewer a b -> fewer (e :: a) (e :: b)
| fewer_drop c a b : fewer a b -> fewer a (ClientCode c :: b).

Lemma fewer_refl a : fewer a a.
Proof. induction a; by constructor. Qed.

Lemma fewer_app a b c d : fewer a b -> fewer c d -> fewer (a ++ c) (b ++ d).
Proof. intros H Hc. induction H; [done|by apply fewer_same|by apply fewer_drop]. Qed.

Lemma fewer_replies a b : fewer a b -> replies a = replies b.
Proof.
  induction 1 as [|e a b _ IH|c a b _ IH]; [done| |done].
  unfold replies in *. cbn [List.filter]. by rewrite IH.
Qed.

Lemma fewer_code l : fewer [] (client_code cb l).
Proof. unfold client_code. destruct (_ && _); [|constructor]. induction l; by constructor. Qed.

Lemma no_code l : cc_arg cb && update_client_code cb = false -> client_code cb l = [].
Proof. unfold client_code. by intros ->. Qed.

Lemma replies_code l : replies (client_code cb l) = [].
Proof. unfold client_code. destruct (_ && _); [|done]. by induction l. Qed.

Lemma scan_plain t cs :
  iac_state t = IAC_NONE -> iac_quote t = false -> existsb (Z.eqb IAC) cs = false ->
  exists ev, scan t cs = Some (t, cs, ev) /\ fewer [] ev /\
    (cc_arg cb && update_client_code cb = false -> ev = []).
Proof.
  intros Hs Hq. induction cs as [|c cs IH]; cbn [existsb scan]; [exists []; split_and!; [done|constructor|done]|].
  intros [Hc Hcs]%orb_false_iff. destruct (IH Hcs) as (ev & E & Hev & Hno).
  unfold telnet_handler. rewrite Z.eqb_sym in Hc. rewrite Hc. cbn [andb]. cbn zeta.
  unfold unquote. rewrite Hq, Hs. cbn [mbind option_bind]. rewrite E. eexists. split; [done|].
  rewrite app_nil_r. split.
  - apply (fewer_app [] _ [] _); [apply fewer_code|done].
  - intros Hc'. by rewrite no_code, Hno.
Qed.

(** *** In place *)

Lemma process_loop_scan d : forall t done_ gap rest i i2 ev0 t' out ev,
  scan t d = Some (t', out, ev) -> i2 = zlen done_ -> i = zlen done_ + zlen gap ->
  exists gap', zlen gap' = zlen gap + zlen d - zlen out /\
    process_loop cb (length d) t (done_ ++ gap ++ d ++ rest) i i2 ev0 =
    Some (t', done_ ++ out ++ gap' ++ rest, i2 + zlen out, ev0 ++ ev).
Proof.
  induction d as [|c d IH]; intros t done_ gap rest i i2 ev0 t' out ev E Hi2 Hi.
  { injection E as <- <- <-. exists gap. split; [zlia|]. cbn [length process_loop app].
    rewrite app_nil_r. do 2 f_equal. f_equal. zlia. }
  cbn [scan length process_loop app] in *.
  rewrite (app_assoc done_ gap), zget_middle by zlia. cbn [mbind option_bind].
  destruct (telnet_handler cb t c) as [[[t1 e] r]|]; [|done]. cbn [mbind option_bind] in *.
  destruct (scan t1 d) as [[[t2 out2] ev2]|] eqn:E2; [|done]. cbn [mbind option_bind] in E.
  injection E as <- <- <-. rewrite <- app_assoc. destruct (r =? 0).
  - destruct gap as [|g gap].
    + cbn [app]. rewrite mem_write_one by done. cbn [mbind option_bind].
      destruct (IH t1 (done_ ++ [c]) [] rest (i + 1) (i2 + 1) (ev0 ++ e) t2 out2 ev2)
        as (gap' & Hg & Eg); [done|zlia|zlia|].
      exists gap'. split; [zlia|]. rewrite <- ?app_assoc in Eg. cbn [app] in Eg. rewrite Eg.
      rewrite <- ?app_assoc. cbn [app]. do 3 f_equal. zlia.
    + cbn [app]. rewrite mem_write_one by done. cbn [mbind option_bind].
      destruct (IH t1 (done_ ++ [c]) (gap ++ [c]) rest (i + 1) (i2 + 1) (ev0 ++ e) t2 out2 ev2)
        as (gap' & Hg & Eg); [done|zlia|zlia|].
      exists gap'. split; [zlia|]. rewrite <- ?app_assoc in Eg. cbn [app] in Eg. rewrite Eg.
      rewrite <- ?app_assoc. cbn [app]. do 3 f_equal. zlia.
  - destruct (IH t1 done_ (gap ++ [c]) rest (i + 1) i2 (ev0 ++ e) t2 out2 ev2)
      as (gap' & Hg & Eg); [done|zlia|zlia|].
    exists gap'. split; [zlia|]. rewrite <- app_assoc in Eg. cbn [app] in Eg. rewrite Eg.
    by rewrite <- ?app_assoc.
Qed.

Lemma process_scan t d rest :
  wf t -> d <> [] ->
  exists t' out ev ev' gap, scan t d = Some (t', out, ev') /\ wf t' /\ fewer ev ev' /\
    (cc_arg cb && update_client_code cb = false -> ev = ev') /\
    telnet_process cb t (d ++ rest) (zlen d) =
      Some (t', out ++ gap ++ rest, if zlen out =? 0 then -1 else zlen out, ev).
Proof.
  intros Ht Hd. destruct (scan_ok t d Ht) as (t' & out & ev' & Es & Ht').
  assert (0 < zlen d) by (destruct d; [done|zlia]).
  unfold telnet_process. replace (0 <? zlen d) with true by lia.
  rewrite mem_read_head by done. cbn [mbind option_bind].
  destruct (bool_decide _ && _ && _) eqn:E.
  - apply andb_true_iff in E as [[Hs%bool_decide_eq_true Hq%negb_true_iff]%andb_true_iff Hx%negb_true_iff].
    destruct (scan_plain t d Hs Hq Hx) as (ev & E & Hev & Hno). rewrite Es in E. injection E as -> -> ->.
    exists t, d, [], ev, []. split_and!; try done; [by intros ->%Hno|]. replace (zlen d =? 0) with false by lia. done.
  - destruct (process_loop_scan d t [] [] rest 0 0 [] t' out ev') as (gap & _ & El); [done|done|done|].
    cbn [app] in El. rewrite to_nat_zlen, El. cbn [mbind option_bind].
    exists t', out, ev', ev', gap. split_and!; try done. apply fewer_refl.
Qed.

(** *** A session: one buffer for each read *)

Fixpoint session (t : TelnetCtx) (reads : list (list Z)) : option (TelnetCtx * list Z * list event) :=
  match reads with
  | [] => Some (t, [], [])
  | d :: reads =>
      '(t, blk, n, e) ← telnet_process cb t d (zlen d);
      '(t, out, ev) ← session t reads;
      Some (t, take (Z.to_nat n) blk ++ out, e ++ ev)
  end.

Lemma session_scan t reads :
  wf t -> Forall (fun d => d <> []) reads ->
  exists t' out ev ev', session t reads = Some (t', out, ev) /\
    scan t (concat reads) = Some (t', out, ev') /\ wf t' /\ fewer ev ev' /\
    (cc_arg cb && update_client_code cb = false -> ev = ev').
Proof.
  intros Ht H. revert t Ht. induction H as [|d reads Hd _ IH]; intros t Ht.
  { exists t, [], [], []. split_and!; try done. constructor. }
  cbn [session concat]. destruct (process_scan t d [] Ht Hd) as (t1 & o1 & e1 & e1' & gap & Es & Ht1 & He1 & Hc1 & Ep).
  rewrite app_nil_r in Ep. rewrite Ep, scan_app, Es. cbn [mbind option_bind].
  destruct (IH t1 Ht1) as (t2 & o2 & e2 & e2' & -> & -> & Ht2 & He2 & Hc2). cbn [mbind option_bind].
  exists t2, (o1 ++ o2), (e1 ++ e2), (e1' ++ e2'). split_and!; try done.
  - repeat f_equal. destruct (Z.eqb_spec (zlen o1) 0) as [Hz|].
    + by rewrite (zlen_zero o1 Hz).
    + by rewrite take_zlen_app.
  - by apply fewer_app.
  - intros Hc. by rewrite Hc1, Hc2.
Qed.

(** *** What a client means *)

Inductive item :=
| Data (d : list Z)
| Negotiate (verb opt : Z)
| WindowSize (w h : Z)
| TermType (name : list Z)
| SubOption (payload : list Z)
| AreYouThere.

Definition escape (c : Z) : list Z := if c =? IAC then [IAC; IAC] else [c].
Definition suboption (p : list Z) : list Z := [IAC; SB] ++ concat (map escape p) ++ [IAC; SE].

Definition encode (i : item) : list Z :=
  match i with
  | Data d => d
  | Negotiate verb opt => [IAC; verb] ++ escape opt
  | WindowSize w h => suboption [TELOPT_NAWS; w / 256; w mod 256; h / 256; h mod 256]
  | TermType name => suboption (TELOPT_TTYPE :: 0 :: name)
  | SubOption p => suboption p
  | AreYouThere => [IAC; AYT]
  end.

(** Items the filter has room for: a suboption has at most 31 characters. *)
Definition item_ok (i : item) : Prop :=
  match i with
  | Data d => existsb (Z.eqb IAC) d = false
  | Negotiate verb opt => WILL <= verb <= DONT \/ verb = WONT
  | WindowSize w h => is_u16 w /\ is_u16 h
  | TermType name => 0 < zlen name <= 29
  | SubOption p => 0 < zlen p <= 31 /\ hd 0 p <> TELOPT_NAWS /\ hd 0 p <> TELOPT_TTYPE
  | AreYouThere => True
  end.

Definition known_option (opt : Z) : bool :=
  existsb (Z.eqb opt) [TELOPT_TTYPE; TELOPT_NAWS; TELOPT_SGA; TELOPT_ECHO; TELOPT_BINARY].

Definition item_data (i : item) : list Z := match i with Data d => d | _ => [] end.

(** The calls an item asks for: a refusal of an unknown option is the only
    answer to a negotiation, and an answer is never answered. *)
Definition item_calls (i : item) : list event :=
  match i with
  | Data _ | SubOption _ => []
  | Negotiate verb opt =>
      if known_option opt then []
      else if verb =? WILL then [Write [IAC; DONT; opt]]
      else if verb =? DO then [Write [IAC; WONT; opt]]
      else []
  | WindowSize w h => if term_resize cb then [Resize w h] else []
  | TermType name => if ttype cb then [TType name] else []
  | AreYouThere => if send_ayt cb then [Ayt] else [Write (str "I'm still alive." ++ [13; 10])]
  end.

Definition idle (t : TelnetCtx) : Prop :=
  iac_state t = IAC_NONE /\ iac_quote t = false /\ zlen (iac_buf t) = 32.

(** What an item does to an idle filter. *)
Definition decodes (t : TelnetCtx) (cs : list Z) (data : list Z) (calls : list event) : Prop :=
  exists t' ev, scan t cs = Some (t', data, ev) /\ idle t' /\ replies ev = calls.

Lemma wait_se_step r pre x gap c :
  zlen (pre ++ x :: gap) = 32 -> zlen pre < 31 ->
  iac_wait_se (Ctx IAC_WAIT_SE false r (pre ++ x :: gap) (zlen pre)) c =
  Some (Ctx IAC_WAIT_SE false r ((pre ++ [c]) ++ gap) (zlen (pre ++ [c])), [], 1).
Proof.
  intros Hz Hp. unfold iac_wait_se, TELNET_IAC_MAXLEN. cbn [iac_buf iac_buflen iac_state iac_quote iac_opt_req].
  rewrite mem_write_one by done. cbn [mbind option_bind]. cbn zeta.
  replace (zlen pre + 1 =? 32) with false by lia. rewrite <- app_assoc. cbn [app].
  by replace (zlen (pre ++ [c])) with (zlen pre + 1) by zlia.
Qed.

Lemma handler_quote s r b n :
  telnet_handler cb (Ctx s false r b n) IAC = Some (Ctx s true r b n, [], NOP).
Proof. reflexivity. Qed.

Lemma handler_wait_se (q : bool) r b n c :
  (if q then c <> SE else c <> IAC) ->
  telnet_handler cb (Ctx IAC_WAIT_SE q r b n) c = iac_wait_se (Ctx IAC_WAIT_SE false r b n) c.
Proof.
  intros Hc. unfold telnet_handler, unquote. cbn [iac_quote iac_state iac_opt_req iac_buf iac_buflen].
  destruct q; cbn [negb]; rewrite ?andb_false_r, ?andb_true_r.
  - replace (c =? SE) with false by lia. cbn [iac_state].
    by destruct (iac_wait_se _ c) as [[[? ?] ?]|].
  - replace (c =? IAC) with false by lia. cbn [iac_state].
    by destruct (iac_wait_se _ c) as [[[? ?] ?]|].
Qed.

Lemma handler_end r b n :
  telnet_handler cb (Ctx IAC_WAIT_SE true r b n) SE = iac_process_opt cb (Ctx IAC_PROCESS_OPT false r b n).
Proof.
  unfold telnet_handler, unquote. cbn [iac_quote iac_state iac_opt_req iac_buf iac_buflen negb].
  rewrite andb_false_r. change (SE =? SE) with true. cbn [iac_state].
  by destruct (iac_process_opt cb _) as [[[? ?] ?]|].
Qed.

Lemma payload_run r p : forall pre gap,
  zlen (pre ++ gap) = 32 -> zlen pre + zlen p <= 31 ->
  exists gap', zlen (pre ++ p ++ gap') = 32 /\
    scan (Ctx IAC_WAIT_SE false r (pre ++ gap) (zlen pre)) (concat (map escape p)) =
    Some (Ctx IAC_WAIT_SE false r (pre ++ p ++ gap') (zlen (pre ++ p)), [], []).
Proof.
  induction p as [|c p IH]; intros pre gap Hz Hp.
  { exists gap. split; [done|]. cbn [map concat scan app]. by rewrite app_nil_r. }
  destruct gap as [|x gap]; [exfalso; revert Hz Hp; zlia|].
  destruct (IH (pre ++ [c]) gap) as (gap' & Hz' & E); [revert Hz; zlia|revert Hp; zlia|].
  exists gap'. rewrite <- !app_assoc in Hz', E. cbn [app] in Hz', E. split; [done|].
  cbn [map concat]. rewrite scan_app.
  assert (Hone : scan (Ctx IAC_WAIT_SE false r (pre ++ x :: gap) (zlen pre)) (escape c) =
    Some (Ctx IAC_WAIT_SE false r (pre ++ c :: gap) (zlen (pre ++ [c])), [], [])).
  { assert (Hw : iac_wait_se (Ctx IAC_WAIT_SE false r (pre ++ x :: gap) (zlen pre)) c =
      Some (Ctx IAC_WAIT_SE false r (pre ++ c :: gap) (zlen (pre ++ [c])), [], 1)).
    { rewrite wait_se_step; [by rewrite <- app_assoc|done|revert Hp; zlia]. }
    unfold escape. destruct (Z.eqb_spec c IAC) as [->|Hc]; cbn [scan].
    - rewrite handler_quote. cbn [mbind option_bind]. by rewrite handler_wait_se, Hw.
    - by rewrite handler_wait_se, Hw. }
  rewrite Hone. cbn [mbind option_bind]. rewrite E, <- !app_assoc. done.
Qed.

Lemma suboption_run t p :
  idle t -> zlen p <= 31 -> exists r gap, zlen (p ++ gap) = 32 /\ forall t' ev,
  iac_process_opt cb (Ctx IAC_PROCESS_OPT false r (p ++ gap) (zlen p)) = Some (t', ev, 1) ->
  exists ev0, scan t (suboption p) = Some (t', [], ev0 ++ ev) /\ replies ev0 = [].
Proof.
  intros (Hs & Hq & Hz) Hp. destruct t as [s q r b n]. cbn in Hs, Hq, Hz. subst s q.
  destruct (payload_run r p [] b) as (gap & Hg & E); [done|zlia|]. cbn [app] in Hg, E. exists r, gap.
  split; [done|]. intros t' ev Ep. unfold suboption. rewrite scan_app.
  assert (Hstart : scan (Ctx IAC_NONE false r b n) [IAC; SB] =
    Some (Ctx IAC_WAIT_SE false r b 0, [], client_code cb [IAC; SB])).
  { cbn [scan]. rewrite handler_quote. cbn [mbind option_bind].
    change (telnet_handler cb (Ctx IAC_NONE true r b n) SB) with
      (Some (Ctx IAC_WAIT_SE false r b 0, client_code cb [IAC; SB] ++ [], NOP)).
    cbn [mbind option_bind]. by rewrite !app_nil_r. }
  rewrite Hstart. cbn [mbind option_bind]. rewrite scan_app. change (zlen []) with 0 in E. rewrite E.
  cbn [mbind option_bind].
  assert (Hend : scan (Ctx IAC_WAIT_SE false r (p ++ gap) (zlen p)) [IAC; SE] = Some (t', [], ev)).
  { cbn [scan]. rewrite handler_quote. cbn [mbind option_bind]. rewrite handler_end, Ep.
    cbn [mbind option_bind]. by rewrite !app_nil_r. }
  rewrite Hend. cbn [mbind option_bind app]. exists (client_code cb [IAC; SB]). split; [done|]. apply replies_code.
Qed.

Lemma suboption_decodes t p calls :
  idle t -> zlen p <= 31 ->
  (forall r gap, zlen (p ++ gap) = 32 -> exists b ev,
     iac_process_opt cb (Ctx IAC_PROCESS_OPT false r (p ++ gap) (zlen p)) =
       Some (Ctx IAC_NONE false r b (zlen p), ev, 1) /\ zlen b = 32 /\ replies ev = calls) ->
  decodes t (suboption p) [] calls.
Proof.
  intros Ht Hp H. destruct (suboption_run t p Ht Hp) as (r & gap & Hz & Hrun).
  destruct (H r gap Hz) as (b & ev & E & Hb & Hev). destruct (Hrun _ _ E) as (ev0 & Es & He0).
  exists (Ctx IAC_NONE false r b (zlen p)), (ev0 ++ ev). split; [done|]. split; [done|].
  by rewrite replies_app, He0, Hev.
Qed.

Lemma window_size_decodes t w h :
  idle t -> is_u16 w -> is_u16 h -> decodes t (encode (WindowSize w h)) [] (item_calls (WindowSize w h)).
Proof.
  intros Ht Hw Hh. apply suboption_decodes; [done|by vm_compute|]. intros r gap Hz.
  unfold iac_process_opt, with_state. cbn [iac_buf app].
  eexists _, _. split; [reflexivity|]. split; [done|].
  assert (Hc : forall v, is_u16 v -> Z.shiftl (v / 256) 8 + v mod 256 = v).
  { intros v Hv. rewrite Z.shiftl_mul_pow2 by lia. change (2 ^ 8) with 256. pose proof (Z.div_mod v 256). lia. }
  cbn zeta. rewrite !Hc, replies_app, replies_code, app_nil_r by done. cbn [item_calls].
  by destruct (term_resize cb).
Qed.

Lemma other_option r p gap :
  0 < zlen p <= 31 -> hd 0 p <> TELOPT_NAWS -> zlen (p ++ gap) = 32 ->
  exists b ev, iac_process_opt cb (Ctx IAC_PROCESS_OPT false r (p ++ gap) (zlen p)) =
    Some (Ctx IAC_NONE false r b (zlen p), ev, 1) /\ zlen b = 32 /\
    replies ev = (if (hd 0 p =? TELOPT_TTYPE) && ttype cb && (2 <? zlen p) then [TType (drop 2 p)] else []).
Proof.
  intros Hp Hn Hz. destruct p as [|o p]; [exfalso; revert Hp; zlia|]. cbn [hd] in *.
  unfold iac_process_opt, with_state. cbn [iac_buf iac_buflen].
  change (zget ((o :: p) ++ gap) 0) with (Some o). cbn [mbind option_bind]. cbn zeta.
  replace (o =? TELOPT_NAWS) with false by lia.
  rewrite (mem_read_head (o :: p) gap) by done.
  destruct (_ && _) eqn:E.
  - zbool. destruct p as [|o2 p]; [exfalso; zlia|].
    change ((o :: o2 :: p) ++ gap) with ([o; o2] ++ p ++ gap).
    rewrite (mem_read_app [o; o2] p gap) by zlia. cbn [mbind option_bind].
    eexists _, _. split; [done|]. split; [done|]. by rewrite replies_app, replies_code.
  - cbn [mbind option_bind]. eexists _, _. split; [done|]. split; [done|].
    by rewrite replies_app, replies_code.
Qed.

Lemma negotiate_decodes t verb opt :
  idle t -> item_ok (Negotiate verb opt) ->
  decodes t (encode (Negotiate verb opt)) [] (item_calls (Negotiate verb opt)).
Proof.
  intros (Hs & Hq & Hz) Hv. destruct t as [s q r b n]. cbn in Hs, Hq, Hz. subst s q.
  assert (Hopt : forall q, (q = false -> opt <> IAC) ->
    exists ev, telnet_handler cb (Ctx IAC_WAIT_OPT q verb b n) opt = Some (Ctx IAC_NONE false verb b n, ev, 1) /\
      replies ev = item_calls (Negotiate verb opt)).
  { intros q Hio. unfold telnet_handler, unquote. cbn [iac_quote iac_state iac_opt_req iac_buf iac_buflen].
    assert ((opt =? IAC) && negb q = false) as ->.
    { destruct q; [apply andb_false_r|]. specialize (Hio eq_refl). replace (opt =? IAC) with false by lia. done. }
    assert (Hst : (if q then Ctx IAC_WAIT_OPT false verb b n else Ctx IAC_WAIT_OPT q verb b n) =
      Ctx IAC_WAIT_OPT false verb b n) by (by destruct q). rewrite Hst. cbn zeta. cbn [iac_state].
    unfold iac_wait_opt, with_state. cbn [iac_quote iac_opt_req iac_buf iac_buflen].
    cbn [item_calls]. unfold known_option. cbn [existsb]. rewrite orb_false_r, !orb_assoc.
    destruct (_ || _); [eexists; split; [done|]; by rewrite replies_app, replies_code|].
    destruct (Z.eqb_spec verb WILL) as [->|Hw]; [eexists; split; [done|]; by rewrite replies_app, replies_code|].
    destruct (Z.eqb_spec verb DO) as [->|Hd]; (eexists; split; [done|]; by rewrite replies_app, replies_code). }
  assert (Hverb : scan (Ctx IAC_NONE false r b n) [IAC; verb] =
    Some (Ctx IAC_WAIT_OPT false verb b n, [], client_code cb [IAC; verb])).
  { cbn [scan]. rewrite handler_quote. cbn [mbind option_bind].
    assert (telnet_handler cb (Ctx IAC_NONE true r b n) verb =
      Some (Ctx IAC_WAIT_OPT false verb b n, client_code cb [IAC; verb] ++ [], NOP)) as ->.
    { cbn [item_ok] in Hv. unfold WILL, DONT, WONT in Hv.
      assert (verb = 251 \/ verb = 252 \/ verb = 253 \/ verb = 254) as [->|[->|[->| ->]]] by lia; done. }
    cbn [mbind option_bind]. by rewrite !app_nil_r. }
  unfold decodes. cbn [encode]. rewrite scan_app, Hverb. cbn [mbind option_bind].
  unfold escape. destruct (Z.eqb_spec opt IAC) as [Ho|Ho]; cbn [scan].
  - rewrite Ho, handler_quote. cbn [mbind option_bind].
    destruct (Hopt true) as (ev & E & Hev); [done|]. rewrite <- Ho, E. cbn [mbind option_bind].
    eexists _, _. split; [done|]. split; [done|]. by rewrite !replies_app, replies_code, Hev, app_nil_r.
  - destruct (Hopt false) as (ev & E & Hev); [done|]. rewrite E. cbn [mbind option_bind].
    eexists _, _. split; [done|]. split; [done|]. by rewrite !replies_app, replies_code, Hev, app_nil_r.
Qed.

Lemma item_decodes t i : idle t -> item_ok i -> decodes t (encode i) (item_data i) (item_calls i).
Proof.
  intros Ht Hi. destruct i as [d|verb opt|w h|name|p|].
  - destruct Ht as (Hs & Hq & Hz). destruct (scan_plain t d Hs Hq Hi) as (ev & E & Hev%fewer_replies & _).
    by exists t, ev.
  - by apply negotiate_decodes.
  - destruct Hi. by apply window_size_decodes.
  - cbn [item_ok] in Hi. apply suboption_decodes; [done|zlia|]. intros r gap Hz.
    destruct (other_option r (TELOPT_TTYPE :: 0 :: name) gap) as (b & ev & E & Hb & Hev); [zlia|done|done|].
    exists b, ev. split; [done|]. split; [done|]. rewrite Hev. cbn [hd drop item_calls].
    replace (2 <? zlen (TELOPT_TTYPE :: 0 :: name)) with true by (symmetry; apply Z.ltb_lt; zlia).
    change (TELOPT_TTYPE =? TELOPT_TTYPE) with true. by rewrite andb_true_r.
  - destruct Hi as (Hp & H1 & H2). apply suboption_decodes; [done|lia|]. intros r gap Hz.
    destruct (other_option r p gap) as (b & ev & E & Hb & Hev); [done..|].
    exists b, ev. split; [done|]. split; [done|]. rewrite Hev.
    by replace (hd 0 p =? TELOPT_TTYPE) with false by lia.
  - destruct Ht as (Hs & Hq & Hz). destruct t as [s q r b n]. cbn in Hs, Hq, Hz. subst s q.
    unfold decodes. cbn [encode scan]. rewrite handler_quote. cbn [mbind option_bind].
    change (telnet_handler cb (Ctx IAC_NONE true r b n) AYT) with
      (Some (Ctx IAC_NONE false r b n, client_code cb [IAC; AYT] ++ telnet_send_ayt cb, NOP)).
    cbn [mbind option_bind]. eexists _, _. split; [done|]. split; [done|].
    cbn [app]. rewrite app_nil_r, replies_app, replies_code. cbn [app item_calls]. unfold telnet_send_ayt.
    by destruct (send_ayt cb).
Qed.

Lemma items_decode t l :
  idle t -> Forall item_ok l ->
  decodes t (concat (map encode l)) (concat (map item_data l)) (concat (map item_calls l)).
Proof.
  intros Ht Hl. revert t Ht. induction Hl as [|i l Hi _ IH]; intros t Ht; [by exists t, []|].
  destruct (item_decodes t i Ht Hi) as (t1 & ev1 & E1 & Ht1 & He1).
  destruct (IH t1 Ht1) as (t2 & ev2 & E2 & Ht2 & He2).
  exists t2, (ev1 ++ ev2). cbn [map concat]. rewrite scan_app, E1. cbn [mbind option_bind]. rewrite E2.
  split; [done|]. split; [done|]. by rewrite replies_app, He1, He2.
Qed.

End Callbacks.

Lemma init_wf : wf telnet_ctx_init.
Proof. constructor; [done|done|by left]. Qed.

(** *** The properties *)

(** C11. The filter is safe on every stream, and how the stream is cut into
    reads does not matter for the data, the state and the replies: for any
    nonempty reads, in place and with the shortcut for reads without a command,
    [telnet_process] leaves in the buffers exactly the data of the reference run
    over the whole stream, in the same final state, and its calls are those of
    the reference, except that some calls of [update_client_code], the hash of
    the client's commands, can be missing ([telnet_client_code_depends] shows
    such a stream); without that callback the calls are the same. *)
Theorem telnet_session_stream cb t reads :
  wf t -> Forall (fun d => d <> []) reads ->
  exists t' out ev ev', session cb t reads = Some (t', out, ev) /\
    scan cb t (concat reads) = Some (t', out, ev') /\ wf t' /\
    fewer ev ev' /\ replies ev = replies ev' /\
    (cc_arg cb && update_client_code cb = false -> ev = ev').
Proof.
  intros Ht Hr. destruct (session_scan cb t reads Ht Hr) as (t' & out & ev & ev' & E & Es & Ht' & Hf & Hc).
  exists t', out, ev, ev'. split_and!; try done. by apply fewer_replies.
Qed.

(** C7. The filter decodes what a client means: for any mixture of data, option
    negotiations, window sizes, terminal types, other suboptions that fit and
    are-you-there requests, cut into reads in any way, the data come out
    without any command, the callbacks get the values the client encoded (a
    255 doubled or not), and only WILL and DO of unknown options are refused. *)
Theorem telnet_decodes cb items reads :
  Forall item_ok items -> Forall (fun d => d <> []) reads -> concat reads = concat (map encode items) ->
  exists t' ev, session cb telnet_ctx_init reads = Some (t', concat (map item_data items), ev) /\
    iac_state t' = IAC_NONE /\ replies ev = concat (map (item_calls cb) items).
Proof.
  intros Hi Hr E. destruct (session_scan cb telnet_ctx_init reads) as (t' & out & ev & ev' & Es & Ec & _ & Hev%fewer_replies & _);
    [apply init_wf|done|].
  destruct (items_decode cb telnet_ctx_init items) as (t2 & ev2 & E2 & (Hs & _) & He2); [done|done|].
  rewrite E, E2 in Ec. injection Ec as <- <- <-. exists t2, ev. by rewrite Hev.
Qed.

(** The hash of the client's commands does depend on the reads: plain text
    is hashed when it arrives in one read with a command, and is not when it
    arrives alone. *)
Theorem telnet_client_code_depends :
  let cb := Callback true true true true true in
  exists t ev1 ev2,
    session cb telnet_ctx_init [[97; IAC; NOP]] = Some (t, [97], ev1) /\
    session cb telnet_ctx_init [[97]; [IAC; NOP]] = Some (t, [97], ev2) /\
    ev1 = ClientCode 97 :: ev2.
Proof. eexists _, _, _. split; [by vm_compute|]. split; [by vm_compute|done]. Qed.

(** *** Witnesses *)

(** A read that ends inside of a suboption. *)
Lemma telnet_session_stream_witness :
  let cb := Callback true false true true false in
  let reads := [[97; IAC]; [SB; TELOPT_NAWS; 0; 80; 0]; [24; IAC; SE; 98]] in
  exists t' out ev ev', session cb telnet_ctx_init reads = Some (t', out, ev) /\
    scan cb telnet_ctx_init (concat reads) = Some (t', out, ev') /\ wf t' /\
    fewer ev ev' /\ replies ev = replies ev' /\
    (cc_arg cb && update_client_code cb = false -> ev = ev').
Proof.
  apply (telnet_session_stream (Callback true false true true false) telnet_ctx_init
    [[97; IAC]; [SB; TELOPT_NAWS; 0; 80; 0]; [24; IAC; SE; 98]]).
  - apply init_wf.
  - by repeat constructor.
Defined.

Lemma telnet_decodes_witness :
  let cb := Callback true false false true false in
  let items := [Negotiate WILL 1; Negotiate WILL 39; Data [97; 98]; WindowSize 255 511;
                TermType [120; 116]; AreYouThere] in
  exists t' ev, session cb telnet_ctx_init [concat (map encode items)] = Some (t', [97; 98], ev) /\
    iac_state t' = IAC_NONE /\
    replies ev = [Write [IAC; DONT; 39]; Resize 255 511; TType [120; 116];
                  Write (str "I'm still alive." ++ [13; 10])].
Proof.
  apply (telnet_decodes (Callback true false false true false)
    [Negotiate WILL 1; Negotiate WILL 39; Data [97; 98]; WindowSize 255 511; TermType [120; 116]; AreYouThere]).
  - repeat constructor; cbn; unfold is_u16, WILL, DONT; lia || done.
  - by repeat constructor.
  - apply app_nil_r.
Defined.

End TelnetProps.
