(* ===== verification/Vector.v ===== *)
(** Vectors of fixed-size C strings ([common/sys/vector.c]) and growing byte
    buffers ([common/sys/buffer.c], [include/buffer.h]).

    A [base] or [pool] is a heap block, [None] for a null pointer.  [malloc] and
    [realloc] leave unspecified bytes in new memory, [junk i] at offset [i];
    [alloc n] is whether they have [n] bytes.  The operations return [None]
    where the code fails an assertion, leaves a block, or overflows an [int]. *)

From S2P Require Import Prelude Cstr.
Import Cstr.

Module Vector.

Section Memory.
Context (junk : nat -> Z) (alloc : Z -> bool).

(** [realloc(p, n)]: what was there is kept as far as it fits. *)
Definition realloc (p : option (list Z)) (n : Z) : option (list Z) :=
  if alloc n then
    let old := default [] p in
    Some (take (Z.to_nat n) old ++ map junk (seq (length old) (Z.to_nat n - length old)))
  else None.

(** The C string at an offset, up to its NUL. *)
Definition cstr_at (b : list Z) (off : Z) : option (list Z) :=
  if (0 <=? off) && existsb (Z.eqb 0) (drop (Z.to_nat off) b)
  then Some (cstring (drop (Z.to_nat off) b)) else None.

Definition check_int (n : Z) : option Z :=
  if (- 2 ^ 31 <=? n) && (n <? 2 ^ 31) then Some n else None.

(** *** [struct Vector] *)

Record Vec := mkVec
  { size : Z; length_ : Z; capacity : Z; base : option (list Z); constant : bool }.

Definition Vector_init (size : Z) : option Vec :=
  if size =? 0 then None else Some (mkVec size 0 0 None false).
Definition Vector_init_const (b : list Z) (length size : Z) : option Vec :=
  if size =? 0 then None else Some (mkVec size length 0 (Some b) true).
Definition Vector_delete (self : Vec) : Vec := mkVec (size self) 0 0 None false.
Definition Vector_clear (self : Vec) (size : Z) : option Vec := Vector_init size.
Definition Vector_length (self : Vec) : Z := length_ self.

Definition MIN_CAPACITY := 4096.

(** [while (self->capacity < capacity) self->capacity *= 2] *)
Fixpoint grow_loop (fuel : nat) (have want : Z) : option Z :=
  if have <? want then
    match fuel with
    | O => None
    | S fuel => h ← check_int (have * 2); grow_loop fuel h want
    end
  else Some have.

Definition Vector_resize (self : Vec) (length : Z) : option Vec :=
  cap ← check_int (length * size self);
  if constant self then None
  else if cap =? 0 then Some (mkVec (size self) (length_ self) 0 None false)
  else if cap <=? 0 then None
  else
    let old := capacity self in
    new ← grow_loop 32 (if old =? 0 then MIN_CAPACITY else old) cap;
    if negb (old =? new) || negb (bool_decide (is_Some (base self))) then
      tmp ← realloc (base self) new;
      Some (mkVec (size self) (length_ self) new (Some tmp) false)
    else Some (mkVec (size self) (length_ self) new (base self) false).

(** [strlcpy(self->base + off, name, self->size)] *)
Definition put_name (b : option (list Z)) (off : Z) (name : list Z) (size : Z) : option (list Z) :=
  b ← b; if size =? 0 then Some b else mem_write b off (strlcpy size name ++ [0]).

Definition Vector_add (self : Vec) (name : list Z) : option Vec :=
  if constant self then None
  else
    self ← Vector_resize self (length_ self + 1);
    b ← put_name (base self) (size self * length_ self) name (size self);
    Some (mkVec (size self) (length_ self + 1) (capacity self) (Some b) (constant self)).

(** The string the pointer [base + size * idx] reads. *)
Definition name_at (self : Vec) (idx : Z) : option (list Z) :=
  b ← base self; cstr_at b (size self * idx).

Definition Vector_get (self : Vec) (idx : Z) : option (list Z) :=
  if (0 <=? idx) && (idx <? length_ self) then name_at self idx else None.

(** The loops run [n] times from index [i]. *)
Fixpoint maxlen_loop (n : nat) (self : Vec) (i maxlen : Z) : option Z :=
  match n with
  | O => Some maxlen
  | S n =>
      s ← name_at self i;
      maxlen_loop n self (i + 1) (if maxlen <? zlen s then zlen s else maxlen)
  end.
Definition Vector_MaxLen (list : Vec) (offset count : Z) : option Z :=
  m ← maxlen_loop (Z.to_nat (Z.min count (length_ list - offset))) list offset 0;
  if m <=? size list then Some m else None.

(** A [char] as an [int]. *)
Definition schar (c : Z) : Z := if c <? 128 then c else c - 256.
Definition chartoupper (c : Z) : Z := if (97 <=? c) && (c <=? 122) then c + 65 - 97 else c.

Fixpoint match_loop (n : nat) (src dst : Vec) (uckey lckey pos i : Z) : option Vec :=
  match n with
  | O => Some dst
  | S n =>
      b ← base src;
      c ← zget b (size src * i + pos);
      let ch := schar c in
      dst ← (if (ch =? lckey) || (ch =? uckey) then
               s ← name_at src i; Vector_add dst s
             else Some dst);
      match_loop n src dst uckey lckey pos (i + 1)
  end.
Definition Vector_match (src dst : Vec) (key pos : Z) : option (Vec * Z) :=
  dst ← Vector_clear dst (size src);
  let uckey := chartoupper key in
  let lckey := if (65 <=? key) && (key <=? 90) then Z.lor key 0x20 else key in
  dst ← match_loop (Z.to_nat (length_ src)) src dst uckey lckey pos 0;
  Some (dst, length_ dst).

Fixpoint sublist_loop (n : nat) (src dst : Vec) (tag : list Z) (i : Z) : option Vec :=
  match n with
  | O => Some dst
  | S n =>
      p ← name_at src i;
      dst ← (if bool_decide (p = []) then Some dst
             else if (zlen tag =? 0) || (strncasecmp (length tag) p tag =? 0) then Vector_add dst p
             else Some dst);
      sublist_loop n src dst tag (i + 1)
  end.
Definition Vector_sublist (src dst : Vec) (tag : list Z) : option Vec :=
  dst ← Vector_clear dst (size src);
  sublist_loop (Z.to_nat (length_ src)) src dst tag 0.

Fixpoint search_loop (n : nat) (self : Vec) (name : list Z) (i : Z) : option Z :=
  match n with
  | O => Some (-1)
  | S n =>
      s ← name_at self i;
      if strcasecmp s name =? 0 then Some i else search_loop n self name (i + 1)
  end.
Definition Vector_search (self : Vec) (name : list Z) : option Z :=
  search_loop (Z.to_nat (length_ self)) self name 0.

(** The loop looks for the index; the rest is its body. *)
Definition Vector_remove (self : Vec) (name : list Z) : option (Vec * Z) :=
  if constant self then None
  else
    i ← search_loop (Z.to_nat (length_ self)) self name 0;
    if i =? -1 then Some (self, 0)
    else
      last ← name_at self (length_ self - 1);
      b ← put_name (base self) (size self * i) last (size self);
      let self := mkVec (size self) (length_ self - 1) (capacity self) (Some b) (constant self) in
      self ← Vector_resize self (length_ self);
      Some (self, 1).

(** *** [BUFFER] *)

Record BUFFER := mkBuffer { allocated : Z; blength : Z; pool : list Z }.

Definition BUFFER_MIN_INCREMENT := 4096.

(** [/] of C: towards zero. *)
Definition buffer__aligned_size (desired_size : Z) : option Z :=
  let aligned := Z.quot desired_size BUFFER_MIN_INCREMENT * BUFFER_MIN_INCREMENT in
  if aligned <? desired_size then check_int (aligned + BUFFER_MIN_INCREMENT) else Some aligned.

(** The buffer and the return value; [pool] is not null after a success. *)
Definition buffer_init (initial_size : Z) : option (BUFFER * Z) :=
  n ← buffer__aligned_size initial_size;
  match realloc None n with
  | None => Some (mkBuffer 0 0 [], -1)
  | Some p => Some (mkBuffer n 0 p, 0)
  end.

Definition buffer_grow (b : BUFFER) (desired_size : Z) : option (BUFFER * Z) :=
  if desired_size <=? allocated b then Some (b, allocated b)
  else
    n ← buffer__aligned_size desired_size;
    match realloc (Some (pool b)) n with
    | None => Some (b, -1)
    | Some p => Some (mkBuffer n (blength b) p, n)
    end.

Definition buffer_append (b : BUFFER) (data : list Z) : option (BUFFER * Z) :=
  want ← check_int (blength b + zlen data);
  '(b, r) ← (if allocated b <? want then buffer_grow b want else Some (b, 0));
  if r <? 0 then Some (b, -1)
  else
    p ← mem_write (pool b) (blength b) data;
    Some (mkBuffer (allocated b) (blength b + zlen data) p, blength b).

Definition buffer_length (b : BUFFER) : Z := blength b.

(** What the pointer [buffer_get] returns reads, [n] bytes from [offset]. *)
Definition buffer_get (b : BUFFER) (offset n : Z) : option (list Z) := mem_read (pool b) offset n.

(** [readfunc maxread] is the value [readfunc] returns and what it stores. *)
Definition buffer_read_from_func (b : BUFFER) (readfunc : Z -> Z * list Z) : option (BUFFER * Z) :=
  '(b, r) ← (if blength b =? allocated b then
               want ← check_int (blength b + BUFFER_MIN_INCREMENT); buffer_grow b want
             else Some (b, 0));
  if r <? 0 then Some (b, -1)
  else
    let '(nread, data) := readfunc (allocated b - blength b) in
    p ← mem_write (pool b) (blength b) data;
    if nread <=? 0 then Some (mkBuffer (allocated b) (blength b) p, nread)
    else Some (mkBuffer (allocated b) (blength b + nread) p, nread).
End Memory.

End Vector.
