(* ===== verification/VectorProps.v ===== *)
(** The vector is a list of strings, the buffer a list of bytes. *)

From S2P Require Import Prelude Cstr Vector.
Import Cstr Vector.

Module VectorProps.

(** *** C strings in blocks *)

Lemma cstr_at_app a s r off :
  c_string s -> off = zlen a -> cstr_at (a ++ s ++ 0 :: r) off = Some s.
Proof.
  intros Hs ->. unfold cstr_at. rewrite drop_zlen_app, cstring_app by done.
  replace (0 <=? zlen a) with true by (pose proof (zlen_nonneg a); lia).
  rewrite existsb_app. cbn [existsb Z.eqb]. by rewrite orb_true_r.
Qed.

Lemma c_string_take n s : c_string s -> c_string (take n s).
Proof. apply Forall_take. Qed.

(** The slot of [n] bytes that holds [s]. *)
Definition slot (n : Z) (s b : list Z) : Prop := exists pad, b = s ++ 0 :: pad /\ zlen b = n.

Lemma zlen_slots n l bs : Forall2 (slot n) l bs -> zlen (concat bs) = n * zlen l.
Proof.
  induction 1 as [|s b l bs (pad & _ & Hb) _ IH]; [unfold zlen; cbn; lia|].
  cbn [concat]. rewrite zlen_app, zlen_cons, IH, Hb. lia.
Qed.

Section Memory.
Context (junk : nat -> Z) (alloc : Z -> bool).

Record rep (v : Vec) (l : list (list Z)) : Prop := Rep
  { rep_size : 0 < size v; rep_const : constant v = false; rep_len : length_ v = zlen l;
    rep_str : Forall (fun s => c_string s /\ zlen s < size v) l;
    rep_base : match base v with
               | None => l = [] /\ capacity v = 0
               | Some b => zlen b = capacity v /\ 0 < capacity v /\
                           exists bs rest, b = concat bs ++ rest /\ Forall2 (slot (size v)) l bs
               end }.

Lemma name_at_rep v l i s :
  rep v l -> zget l i = Some s -> name_at v i = Some s.
Proof.
  intros [H1 H2 H3 H4 H5] Hi. pose proof (zget_range _ _ _ Hi) as Hr.
  unfold zget in Hi. replace (0 <=? i) with true in Hi by lia.
  unfold name_at. destruct (base v) as [b|]; [|destruct H5 as [-> _]; done].
  destruct H5 as (_ & _ & bs & rest & -> & Hbs). cbn [mbind option_bind].
  destruct (Forall2_lookup_l _ _ _ _ _ Hbs Hi) as (bk & Hbk & pad & -> & _).
  assert (Hs : c_string s) by (by apply (Forall_lookup_1 _ _ _ _ H4 Hi)).
  rewrite <- (take_drop_middle bs _ _ Hbk), concat_app. cbn [concat]. rewrite <- !app_assoc. cbn [app].
  apply cstr_at_app; [done|].
  rewrite (zlen_slots (size v) (take (Z.to_nat i) l)) by (by apply Forall2_take).
  rewrite zlen_take. lia.
Qed.

Lemma rep_zget v l i : rep v l -> 0 <= i < length_ v -> exists s, zget l i = Some s /\ name_at v i = Some s.
Proof.
  intros Hv Hi. destruct (zget_some l i) as [s Hs]; [rewrite <- (rep_len _ _ Hv); lia|].
  exists s. split; [done|]. by eapply name_at_rep.
Qed.

(** *** [Vector_resize] *)

Lemma grow_spec fuel : forall have want,
  0 < have < 2 ^ 31 -> want <= 2 ^ 30 -> want <= have * 2 ^ Z.of_nat fuel ->
  exists new, grow_loop fuel have want = Some new /\ have <= new < 2 ^ 31 /\ want <= new.
Proof.
  induction fuel as [|fuel IH]; intros have want Hh Hw Hf; cbn [grow_loop].
  - change (2 ^ Z.of_nat 0) with 1 in Hf. replace (have <? want) with false by lia. exists have. split; [done|lia].
  - destruct (Z.ltb_spec have want); [|exists have; split; [done|lia]].
    unfold check_int. change (2 ^ 31) with (2 * 2 ^ 30) in *.
    replace (_ && _) with true by lia. cbn [mbind option_bind].
    rewrite Nat2Z.inj_succ, Z.pow_succ_r in Hf by lia.
    destruct (IH (have * 2) want) as (new & -> & Hn & Hwn); [lia|done|lia|]. exists new. split; [done|]. lia.
Qed.

Hypothesis Halloc : forall n, alloc n = true.

Lemma zlen_realloc p n b :
  realloc junk alloc p n = Some b -> 0 <= n -> zlen b = n.
Proof.
  unfold realloc. rewrite Halloc. intros [= <-] Hn. rewrite zlen_app, zlen_take, zlen_map.
  unfold zlen. rewrite length_seq. lia.
Qed.

(** Growing a block keeps the vector it holds. *)
Lemma rep_realloc v l new b :
  rep v l -> capacity v <= new -> 0 < new ->
  realloc junk alloc (base v) new = Some b -> rep (mkVec (size v) (length_ v) new (Some b) false) l.
Proof.
  intros [H1 H2 H3 H4 H5] Hc Hn E. constructor; cbn [size constant length_ base capacity]; try done.
  pose proof (zlen_realloc _ _ _ E ltac:(lia)) as Hb. unfold realloc in E. rewrite Halloc in E. injection E as <-.
  split; [done|]. split; [done|]. destruct (base v) as [b0|]; cbn [default].
  - destruct H5 as (Hz & _ & bs & rest & -> & Hbs). rewrite (take_ge (concat bs ++ rest)) by (revert Hz Hc; unfold zlen; intros; lia).
    eexists bs, _. split; [by rewrite <- app_assoc|done].
  - destruct H5 as [-> _]. eexists [], _. split; [by rewrite take_nil|constructor].
Qed.

Lemma resize_rep v l n :
  rep v l -> zlen l <= n -> n * size v <= 2 ^ 30 -> capacity v < 2 ^ 31 ->
  exists v', Vector_resize junk alloc v n = Some v' /\ rep v' l /\ size v' = size v /\
    n * size v <= capacity v' < 2 ^ 31 /\ (0 < n -> is_Some (base v')).
Proof.
  intros Hv Hn Hcap Hmax. pose proof Hv as [H1 H2 H3 H4 H5]. unfold Vector_resize.
  pose proof (zlen_nonneg l) as Hl0. assert (H0 : 0 <= n * size v) by nia.
  assert (check_int (n * size v) = Some (n * size v)) as ->.
  { unfold check_int. change (2 ^ 31) with (2 * 2 ^ 30). by if_true. }
  cbn [mbind option_bind]. rewrite H2. destruct (Z.eqb_spec (n * size v) 0) as [Hz|Hz].
  { assert (n = 0) by nia. assert (l = []) by (apply zlen_zero; lia). subst l.
    eexists. split; [done|]. cbn [size base capacity]. split_and!; try lia; by constructor. }
  replace (n * size v <=? 0) with false by lia. cbn zeta.
  set (have := if capacity v =? 0 then MIN_CAPACITY else capacity v).
  assert (Hpos : 0 <= capacity v) by (destruct (base v); [lia|destruct H5; lia]).
  assert (Hhave : 0 < have < 2 ^ 31 /\ capacity v <= have).
  { unfold have, MIN_CAPACITY. destruct (Z.eqb_spec (capacity v) 0); lia. }
  destruct (grow_spec 32 have (n * size v)) as (new & -> & Hnew & Hw); [lia|done| |].
  { change (2 ^ Z.of_nat 32) with (2 ^ 30 * 4). nia. }
  cbn [mbind option_bind]. destruct (negb _ || _) eqn:E.
  - destruct (realloc junk alloc (base v) new) as [b|] eqn:Er; [|unfold realloc in Er; by rewrite Halloc in Er].
    cbn [mbind option_bind]. eexists. split; [done|]. split; [apply rep_realloc; lia || done|].
    cbn [size base capacity]. split_and!; try lia; by eexists.
  - apply orb_false_iff in E as [E1%negb_false_iff E2%negb_false_iff].
    apply Z.eqb_eq in E1. apply bool_decide_eq_true in E2.
    eexists. split; [done|]. cbn [size base capacity]. split_and!; try lia; [|done].
    constructor; cbn [size constant length_ base capacity]; try done. by rewrite <- E1.
Qed.

(** *** [Vector_add] *)

Lemma strlcpy_zlen n s : 0 < n -> zlen (strlcpy n s) < n.
Proof. intros. unfold strlcpy. zlia. Qed.

Lemma put_name_spec n a x rest s :
  0 < n -> zlen x = n ->
  exists y, put_name (Some (a ++ x ++ rest)) (zlen a) s n = Some (a ++ y ++ rest) /\ slot n (strlcpy n s) y.
Proof.
  intros Hn Hx. unfold put_name. cbn [mbind option_bind]. replace (n =? 0) with false by lia.
  pose proof (strlcpy_zlen n s Hn) as Hs. set (d := strlcpy n s) in *.
  rewrite <- (take_drop (length (d ++ [0])) x), <- app_assoc.
  assert (Hd : zlen d + 1 <= zlen x) by lia.
  rewrite mem_write_app; [|done|].
  - exists ((d ++ [0]) ++ drop (length (d ++ [0])) x). split; [by rewrite <- (app_assoc (d ++ [0]))|].
    eexists. split; [by rewrite <- app_assoc|]. rewrite zlen_app, zlen_drop.
    change (Z.of_nat (length (d ++ [0]))) with (zlen (d ++ [0])). zlia.
  - rewrite zlen_take. change (Z.of_nat (length (d ++ [0]))) with (zlen (d ++ [0])). zlia.
Qed.

Lemma add_rep v l s :
  rep v l -> c_string s -> (zlen l + 1) * size v <= 2 ^ 30 -> capacity v < 2 ^ 31 ->
  exists v', Vector_add junk alloc v s = Some v' /\ rep v' (l ++ [strlcpy (size v) s]) /\
    size v' = size v /\ capacity v' < 2 ^ 31.
Proof.
  intros Hv Hs Hcap Hmax. pose proof (zlen_nonneg l). unfold Vector_add. rewrite (rep_const _ _ Hv), (rep_len _ _ Hv).
  destruct (resize_rep v l (zlen l + 1) Hv) as (v1 & -> & Hv1 & Hsz & Hc1 & Hb1); [lia|lia|done|].
  cbn [mbind option_bind]. destruct Hb1 as [b Hb]; [lia|].
  destruct Hv1 as [H1 H2 H3 H4 H5]. rewrite Hb in *. destruct H5 as (Hbz & Hc0 & bs & rest & -> & Hbs).
  pose proof (zlen_slots _ _ _ Hbs) as Hcz. rewrite H3, <- Hcz.
  assert (Hroom : size v1 <= zlen rest) by (rewrite zlen_app in Hbz; rewrite Hsz in *; nia).
  rewrite <- (take_drop (Z.to_nat (size v1)) rest).
  destruct (put_name_spec (size v1) (concat bs) (take (Z.to_nat (size v1)) rest)
    (drop (Z.to_nat (size v1)) rest) s) as (y & -> & Hy); [done|zlia|].
  cbn [mbind option_bind]. eexists. split; [done|]. cbn [size capacity]. split; [|split; [done|lia]].
  destruct Hy as (pad & Hy & Hyz). pose proof (strlcpy_zlen (size v1) s H1).
  rewrite <- Hsz. constructor; cbn [size constant length_ base capacity].
  - done.
  - done.
  - rewrite zlen_app, zlen_cons. unfold zlen. cbn. lia.
  - apply list.Forall_app. split; [done|]. constructor; [|constructor].
    split; [by apply c_string_take|done].
  - split; [|split; [lia|]].
    + rewrite zlen_app, zlen_app, Hyz, zlen_drop. rewrite zlen_app in Hbz. lia.
    + exists (bs ++ [y]), (drop (Z.to_nat (size v1)) rest). split.
      * rewrite concat_app. cbn [concat]. by rewrite app_nil_r, <- app_assoc.
      * apply Forall2_app; [done|]. constructor; [|constructor]. by exists pad.
Qed.

(** *** Searching, and [Vector_remove] *)

(** The first entry, from index [i] on, that is [name] but for case. *)
Fixpoint find_from (l : list (list Z)) (name : list Z) (i : Z) : Z :=
  match l with
  | [] => -1
  | s :: l => if strcasecmp s name =? 0 then i else find_from l name (i + 1)
  end.

Lemma search_loop_rep v l name : rep v l -> forall done_ todo, l = done_ ++ todo ->
  search_loop (length todo) v name (zlen done_) = Some (find_from todo name (zlen done_)).
Proof.
  intros Hv done_ todo. revert done_. induction todo as [|s todo IH]; intros done_ E; [done|].
  cbn [length search_loop find_from]. rewrite (name_at_rep v l (zlen done_) s Hv).
  - cbn [mbind option_bind]. destruct (_ =? 0); [done|].
    replace (zlen done_ + 1) with (zlen (done_ ++ [s])) by (rewrite zlen_app; done).
    apply IH. by rewrite <- app_assoc.
  - rewrite E. by apply zget_middle.
Qed.

Lemma search_rep v l name :
  rep v l -> search_loop (Z.to_nat (length_ v)) v name 0 = Some (find_from l name 0).
Proof.
  intros Hv. rewrite (rep_len _ _ Hv), to_nat_zlen. exact (search_loop_rep v l name Hv [] l eq_refl).
Qed.

Lemma find_from_spec l name i :
  (find_from l name i = -1 /\ Forall (fun s => strcasecmp s name <> 0) l) \/
  exists a s b, l = a ++ s :: b /\ find_from l name i = i + zlen a /\ strcasecmp s name = 0 /\
    Forall (fun s => strcasecmp s name <> 0) a.
Proof.
  revert i. induction l as [|s l IH]; intros i; [by left|]. cbn [find_from].
  destruct (Z.eqb_spec (strcasecmp s name) 0).
  - right. exists [], s, l. split_and!; [done|unfold zlen; cbn; lia|done|constructor].
  - destruct (IH (i + 1)) as [[-> H]|(a & t & b & -> & -> & Ht & Ha)].
    + left. split; [done|by constructor].
    + right. exists (s :: a), t, b. split_and!; [done|rewrite zlen_cons; lia|done|by constructor].
Qed.

(** The last entry takes the place of the one at [zlen a]. *)
Definition swap_remove (a : list (list Z)) (s : list Z) (b : list (list Z)) : list (list Z) :=
  a ++ match list.last b with None => [] | Some x => x :: removelast b end.

(** The block of the entry [s] is overwritten by the last one, the last is cut. *)
Lemma rep_swap v a s b last b2 :
  rep v (a ++ s :: b) -> zget (a ++ s :: b) (zlen a + zlen b) = Some last ->
  put_name (base v) (size v * zlen a) last (size v) = Some b2 ->
  rep (mkVec (size v) (length_ v - 1) (capacity v) (Some b2) (constant v)) (swap_remove a s b).
Proof.
  intros [H1 H2 H3 H4 H5] Hlast Hput.
  destruct (base v) as [blk|]; [|destruct H5 as [H5 _]; by destruct a].
  destruct H5 as (Hz & Hc & bs & rest & -> & Hbs).
  apply Forall2_app_inv_l in Hbs as (ba & bs' & Ha & Hbs & ->).
  apply Forall2_cons_inv_l in Hbs as (bx & bb & (padx & Hx & Hxz) & Hb & ->).
  rewrite <- (zlen_slots _ _ _ Ha), concat_app in Hput. cbn [concat] in Hput. rewrite <- !app_assoc in Hput.
  destruct (put_name_spec (size v) (concat ba) bx (concat bb ++ rest) last) as (y & Ey & Hy); [done|done|].
  rewrite Ey in Hput. injection Hput as <-.
  apply list.Forall_app in H4 as [H4a [H4s H4b]%list.Forall_cons].
  assert (Hzy : zlen y = zlen bx) by (destruct Hy as (? & _ & ->); done).
  assert (Hzb : zlen (concat ba ++ y ++ concat bb ++ rest) = capacity v).
  { rewrite <- Hz, concat_app. cbn [concat]. rewrite !zlen_app, Hzy. lia. }
  destruct b as [|x b _] using rev_ind.
  - inversion Hb; subst. constructor; cbn [size constant length_ base capacity]; try done.
    + rewrite H3. unfold swap_remove. cbn. rewrite app_nil_r, zlen_app. unfold zlen. cbn. lia.
    + unfold swap_remove. cbn. by rewrite app_nil_r.
    + split; [done|]. split; [done|]. exists ba, (y ++ concat [] ++ rest). unfold swap_remove. cbn.
      by rewrite app_nil_r.
  - apply list.Forall_app in H4b as [H4b [H4x _]%list.Forall_cons].
    assert (x = last) as ->.
    { rewrite app_comm_cons, app_assoc, zget_middle in Hlast; [by injection Hlast|].
      rewrite !zlen_app, zlen_cons. unfold zlen. cbn. lia. }
    assert (Hcopy : strlcpy (size v) last = last).
    { unfold strlcpy. apply take_ge. unfold zlen in *. lia. }
    rewrite Hcopy in Hy.
    assert (Hsw : swap_remove a s (b ++ [last]) = a ++ last :: b).
    { unfold swap_remove. by rewrite last_snoc, removelast_last. }
    rewrite Hsw. apply Forall2_app_inv_l in Hb as (bb1 & bz & Hb & Hbz & ->).
    apply Forall2_cons_inv_l in Hbz as (z & ? & _ & Hnil & ->). inversion Hnil; subst.
    constructor; cbn [size constant length_ base capacity]; try done.
    + rewrite H3, !zlen_app, !zlen_cons, zlen_app. unfold zlen. cbn. lia.
    + apply list.Forall_app. split; [done|]. by constructor.
    + split; [done|]. split; [done|]. exists (ba ++ y :: bb1), (z ++ rest). split.
      * rewrite !concat_app. cbn [concat]. rewrite !app_nil_r. by rewrite <- !app_assoc.
      * apply Forall2_app; [done|]. by constructor.
Qed.

Lemma remove_rep v l name :
  rep v l -> zlen l * size v <= 2 ^ 30 -> capacity v < 2 ^ 31 ->
  (find_from l name 0 = -1 -> Vector_remove junk alloc v name = Some (v, 0)) /\
  (forall a s b, l = a ++ s :: b -> find_from l name 0 = zlen a ->
     exists v', Vector_remove junk alloc v name = Some (v', 1) /\ rep v' (swap_remove a s b) /\
       size v' = size v /\ capacity v' < 2 ^ 31).
Proof.
  intros Hv Hcap Hmax. unfold Vector_remove. rewrite (rep_const _ _ Hv), (search_rep v l name Hv).
  cbn [mbind option_bind]. split; [by intros ->|]. intros a s b -> ->.
  pose proof (zlen_nonneg a). replace (zlen a =? -1) with false by lia.
  assert (Hl : length_ v - 1 = zlen a + zlen b) by (rewrite (rep_len _ _ Hv), zlen_app, zlen_cons; lia).
  destruct (zget_some (a ++ s :: b) (zlen a + zlen b)) as [last Hlast].
  { pose proof (zlen_nonneg b). rewrite zlen_app, zlen_cons. lia. }
  rewrite Hl, (name_at_rep v _ _ last Hv Hlast). cbn [mbind option_bind].
  destruct (put_name (base v) (size v * zlen a) last (size v)) as [b2|] eqn:Eput.
  - cbn [mbind option_bind]. pose proof (rep_swap v a s b last b2 Hv Hlast Eput) as Hw. rewrite Hl in Hw.
    assert (Hzl : zlen (swap_remove a s b) = zlen a + zlen b) by (symmetry; apply (rep_len _ _ Hw)).
    destruct (resize_rep _ _ (zlen a + zlen b) Hw) as (v' & E & Hv' & Hs' & Hc' & _).
    + lia.
    + cbn [size]. rewrite zlen_app, zlen_cons in Hcap. pose proof (rep_size _ _ Hv). nia.
    + done.
    + cbn [size capacity] in Hs', Hc'. cbn zeta. cbn [length_]. rewrite (rep_const _ _ Hv) in E. rewrite E. cbn [mbind option_bind]. exists v'. split_and!; done || lia.
  - exfalso. destruct Hv as [H1 H2 H3 H4 H5]. destruct (base v) as [blk|]; [|destruct H5 as [H5 _]; by destruct a].
    destruct H5 as (Hz & Hc & bs & rest & -> & Hbs).
    apply Forall2_app_inv_l in Hbs as (ba & bs' & Ha & Hbs & ->).
    apply Forall2_cons_inv_l in Hbs as (bx & bb & (padx & Hx & Hxz) & Hb & ->).
    rewrite <- (zlen_slots _ _ _ Ha), concat_app in Eput. cbn [concat] in Eput. rewrite <- !app_assoc in Eput.
    destruct (put_name_spec (size v) (concat ba) bx (concat bb ++ rest) last) as (y & Ey & _); [done|done|].
    by rewrite Ey in Eput.
Qed.

(** *** Selections *)

Definition sublist_spec (tag : list Z) (l : list (list Z)) : list (list Z) :=
  List.filter (fun p => negb (zlen p =? 0) && ((zlen tag =? 0) || (strncasecmp (length tag) p tag =? 0))) l.

Lemma sublist_loop_rep src l tag : rep src l -> zlen l * size src <= 2 ^ 30 ->
  forall todo done_ dst, l = done_ ++ todo -> rep dst (sublist_spec tag done_) -> size dst = size src ->
  capacity dst < 2 ^ 31 ->
  exists dst', sublist_loop junk alloc (length todo) src dst tag (zlen done_) = Some dst' /\
    rep dst' (sublist_spec tag l).
Proof.
  intros Hv Hcap. induction todo as [|p todo IH]; intros done_ dst E Hd Hsz Hmax.
  { exists dst. rewrite app_nil_r in E. by subst. }
  cbn [length sublist_loop]. rewrite (name_at_rep src l (zlen done_) p Hv) by (rewrite E; by apply zget_middle).
  cbn [mbind option_bind].
  assert (Hnext : forall dst', rep dst' (sublist_spec tag (done_ ++ [p])) -> size dst' = size src ->
    capacity dst' < 2 ^ 31 -> exists d, sublist_loop junk alloc (length todo) src dst' tag (zlen done_ + 1) = Some d /\
      rep d (sublist_spec tag l)).
  { intros dst' Hd' Hs' Hc'. replace (zlen done_ + 1) with (zlen (done_ ++ [p])) by (rewrite zlen_app; done).
    apply IH; try done. by rewrite <- app_assoc. }
  unfold sublist_spec in Hnext. rewrite List.filter_app in Hnext. fold (sublist_spec tag done_) in Hnext.
  cbn [List.filter] in Hnext.
  assert (Hp : c_string p /\ zlen p < size src).
  { pose proof (rep_str _ _ Hv) as H. rewrite E in H. apply list.Forall_app in H as [_ H]. by inversion H. }
  destruct p as [|c p].
  { rewrite bool_decide_true by done. cbn [mbind option_bind]. apply Hnext; [|done..]. by rewrite app_nil_r. }
  rewrite bool_decide_false by done. cbn [mbind option_bind].
  replace (zlen (c :: p) =? 0) with false in Hnext by (rewrite zlen_cons; pose proof (zlen_nonneg p); lia).
  cbn [negb andb] in Hnext. destruct (_ || _).
  - destruct (add_rep dst _ (c :: p) Hd) as (d & Ed & Hrd & Hsd & Hcd); [apply Hp| |done|].
    + assert (zlen (sublist_spec tag done_) + 1 <= zlen l).
      { assert (zlen (sublist_spec tag done_) <= zlen done_)
          by (unfold zlen, sublist_spec; pose proof (List.filter_length_le (fun p => negb (zlen p =? 0) &&
             ((zlen tag =? 0) || (strncasecmp (length tag) p tag =? 0))) done_); lia).
        rewrite E, zlen_app, zlen_cons. pose proof (zlen_nonneg todo). lia. }
      rewrite Hsz. pose proof (rep_size _ _ Hv). nia.
    + rewrite Ed. cbn [mbind option_bind]. apply Hnext; [|lia|done].
      assert (Hcopy : strlcpy (size dst) (c :: p) = c :: p).
      { unfold strlcpy. apply take_ge. destruct Hp as [_ Hp]. rewrite Hsz. unfold zlen in Hp. lia. }
      by rewrite Hcopy in Hrd.
  - cbn [mbind option_bind]. apply Hnext; [|done..]. by rewrite app_nil_r.
Qed.

(** *** Sequences of operations *)

Inductive op := Add (name : list Z) | Remove (name : list Z).
Definition op_name (o : op) : list Z := match o with Add n => n | Remove n => n end.

Fixpoint run (v : Vec) (ops : list op) : option (Vec * list Z) :=
  match ops with
  | [] => Some (v, [])
  | Add n :: ops => v ← Vector_add junk alloc v n; run v ops
  | Remove n :: ops =>
      '(v, r) ← Vector_remove junk alloc v n; '(v, rs) ← run v ops; Some (v, r :: rs)
  end.

(** The same on a list of strings that are cut to [n - 1] characters. *)
Fixpoint list_run (n : Z) (l : list (list Z)) (ops : list op) : list (list Z) * list Z :=
  match ops with
  | [] => (l, [])
  | Add s :: ops => list_run n (l ++ [take (Z.to_nat (n - 1)) s]) ops
  | Remove s :: ops =>
      let i := find_from l s 0 in
      if i =? -1 then let '(l, rs) := list_run n l ops in (l, 0 :: rs)
      else
        let a := take (Z.to_nat i) l in
        let '(l, rs) := list_run n (swap_remove a [] (drop (S (Z.to_nat i)) l)) ops in (l, 1 :: rs)
  end.

Lemma run_rep ops : forall v l,
  rep v l -> Forall (fun o => c_string (op_name o)) ops ->
  (zlen l + zlen ops) * size v <= 2 ^ 30 -> capacity v < 2 ^ 31 ->
  exists v', run v ops = Some (v', (list_run (size v) l ops).2) /\ rep v' (list_run (size v) l ops).1.
Proof.
  induction ops as [|o ops IH]; intros v l Hv Hops Hcap Hmax; [by exists v|].
  apply list.Forall_cons in Hops as [Ho Hops]. rewrite zlen_cons in Hcap.
  pose proof (rep_size _ _ Hv). pose proof (zlen_nonneg ops). pose proof (zlen_nonneg l).
  destruct o as [s|s]; cbn [run list_run op_name] in *.
  - destruct (add_rep v l s Hv Ho) as (v1 & -> & Hv1 & Hs1 & Hc1); [nia|done|]. cbn [mbind option_bind].
    rewrite <- Hs1. apply IH; try done; [by rewrite Hs1|]. rewrite Hs1, zlen_app. unfold zlen at 2. cbn [length]. nia.
  - destruct (remove_rep v l s Hv) as [Hno Hyes]; [nia|done|].
    destruct (find_from_spec l s 0) as [[E _]|(a & x & b & -> & E & _ & _)].
    + rewrite (Hno E), E. change (-1 =? -1) with true. cbn [mbind option_bind].
      destruct (IH v l Hv Hops) as (v' & E' & Hr); [nia|done|].
      rewrite E'. destruct (list_run (size v) l ops) as [l' rs]. by exists v'.
    + rewrite Z.add_0_l in E. destruct (Hyes a x b eq_refl E) as (v1 & -> & Hv1 & Hs1 & Hc1).
      rewrite E. pose proof (zlen_nonneg a). replace (zlen a =? -1) with false by lia. cbn zeta.
      rewrite take_zlen_app, to_nat_zlen.
      replace (drop (S (length a)) (a ++ x :: b)) with b
        by (rewrite drop_app_ge by lia; by replace (S (length a) - length a)%nat with 1%nat by lia).
      cbn [mbind option_bind].
      change (swap_remove a x b) with (swap_remove a [] b) in Hv1.
      assert (Hzl : zlen (swap_remove a [] b) <= zlen (a ++ x :: b)).
      { unfold swap_remove. rewrite !zlen_app, zlen_cons.
        destruct b as [|y b _] using rev_ind; [unfold zlen; cbn; lia|].
        rewrite last_snoc, removelast_last, zlen_cons, zlen_app. unfold zlen. cbn. lia. }
      destruct (IH v1 _ Hv1 Hops) as (v' & E' & Hr); [rewrite Hs1; nia|done|].
      rewrite Hs1 in E', Hr. rewrite E'. destruct (list_run (size v) _ ops) as [l' rs]. by exists v'.
Qed.

(** *** The buffer *)

Record buffer_wf (b : BUFFER) : Prop := BufferWf
  { bw_len : 0 <= blength b <= allocated b; bw_pool : zlen (pool b) = allocated b }.

Definition contents (b : BUFFER) : list Z := take (Z.to_nat (blength b)) (pool b).

End Memory.

Section Buffer.
Context (junk : nat -> Z) (alloc : Z -> bool).

Lemma aligned_size_spec n :
  0 <= n <= 2 ^ 30 ->
  exists m, buffer__aligned_size n = Some m /\ n <= m < n + 4096 /\ m mod 4096 = 0.
Proof.
  intros Hn. unfold buffer__aligned_size, BUFFER_MIN_INCREMENT. rewrite Z.quot_div_nonneg by lia.
  pose proof (Z.div_mod n 4096). pose proof (Z.mod_pos_bound n 4096). cbn zeta.
  destruct (Z.ltb_spec (n / 4096 * 4096) n).
  - unfold check_int. change (2 ^ 31) with (2 * 2 ^ 30). replace (_ && _) with true by lia.
    exists (n / 4096 * 4096 + 4096). split; [done|]. split; [lia|].
    replace (n / 4096 * 4096 + 4096) with ((n / 4096 + 1) * 4096) by lia. by rewrite Z.mod_mul.
  - exists (n / 4096 * 4096). split; [done|]. split; [lia|]. by rewrite Z.mod_mul.
Qed.

Lemma realloc_block p n b :
  realloc junk alloc (Some p) n = Some b -> zlen p <= n -> zlen b = n /\ exists r, b = p ++ r.
Proof.
  unfold realloc. destruct (alloc n); [|done]. cbn [default]. intros [= <-] Hn.
  rewrite (take_ge p) by (revert Hn; unfold zlen; lia). split; [|by eexists].
  rewrite zlen_app, zlen_map. revert Hn. unfold zlen. rewrite length_seq. lia.
Qed.

(** Growing keeps the contents, and gives the room unless memory is out. *)
Lemma grow_wf b want :
  buffer_wf b -> 0 <= want <= 2 ^ 30 ->
  exists b' r, buffer_grow junk alloc b want = Some (b', r) /\
    ((r = -1 /\ b' = b /\ exists m, want <= m /\ alloc m = false) \/
     (0 <= r /\ buffer_wf b' /\ blength b' = blength b /\ contents b' = contents b /\ want <= allocated b')).
Proof.
  intros Hb Hw. unfold buffer_grow. pose proof Hb as [Hl Hp]. destruct (Z.leb_spec want (allocated b)).
  { exists b, (allocated b). split; [done|]. right. split_and!; try done; lia. }
  destruct (aligned_size_spec want Hw) as (m & -> & Hm & _). cbn [mbind option_bind].
  destruct (realloc junk alloc (Some (pool b)) m) as [p|] eqn:E.
  - destruct (realloc_block _ _ _ E) as (Hz & r & ->); [lia|]. eexists _, _. split; [done|]. right.
    cbn [blength allocated]. split_and!; try lia; [by constructor; cbn; lia|].
    unfold contents. cbn [blength pool]. apply take_app_le. unfold zlen in *. lia.
  - eexists _, _. split; [done|]. left. split_and!; try done. exists m. split; [lia|].
    unfold realloc in E. by destruct (alloc m).
Qed.

Lemma store_contents b data n :
  buffer_wf b -> zlen data <= allocated b - blength b -> 0 <= n <= zlen data ->
  exists p, mem_write (pool b) (blength b) data = Some p /\
    buffer_wf (mkBuffer (allocated b) (blength b + n) p) /\
    contents (mkBuffer (allocated b) (blength b + n) p) = contents b ++ take (Z.to_nat n) data.
Proof.
  intros [Hl Hp] Hd Hn. pose proof (zlen_nonneg data).
  assert (exists h x t, pool b = h ++ x ++ t /\ zlen h = blength b /\ zlen x = zlen data) as (h & x & t & E & Hh & Hx).
  { exists (take (Z.to_nat (blength b)) (pool b)), (take (length data) (drop (Z.to_nat (blength b)) (pool b))),
      (drop (length data) (drop (Z.to_nat (blength b)) (pool b))).
    rewrite !take_drop, !zlen_take, zlen_drop. split_and!; [done|lia|unfold zlen in *; lia]. }
  rewrite E, (mem_write_app h x t data) by done. exists (h ++ data ++ t). split; [done|].
  assert (Hc : contents b = h) by (unfold contents; by rewrite E, <- Hh, take_zlen_app).
  rewrite Hc. split.
  - rewrite E, !zlen_app in Hp. constructor; cbn [blength allocated pool]; [lia|]. rewrite !zlen_app. lia.
  - unfold contents. cbn [blength pool]. rewrite take_app. f_equal; [apply take_ge; unfold zlen in *; lia|].
    replace (Z.to_nat (blength b + n) - length h)%nat with (Z.to_nat n) by (unfold zlen in *; lia).
    apply take_app_le. unfold zlen in *. lia.
Qed.
End Buffer.

(** *** The properties *)

(** C40. A vector is a list of strings: for any sequence of [Vector_add] and
    [Vector_remove] on a vector of entries of [n] bytes, within an [int] of
    bytes, the results are those of the list operations (strings cut to [n - 1]
    characters, the last entry moved into the place of the removed one), and
    [Vector_get] and [Vector_search] read that list. *)
Theorem vector_refines_list junk alloc n ops :
  (forall m, alloc m = true) -> 0 < n -> Forall (fun o => c_string (op_name o)) ops ->
  zlen ops * n <= 2 ^ 30 ->
  let '(l, rs) := list_run n [] ops in
  exists v0 v, Vector_init n = Some v0 /\ run junk alloc v0 ops = Some (v, rs) /\
    Vector_length v = zlen l /\
    (forall i s, zget l i = Some s -> Vector_get v i = Some s) /\
    (forall name, Vector_search v name = Some (find_from l name 0)).
Proof.
  intros Ha Hn Hops Hcap. destruct (list_run n [] ops) as [l rs] eqn:E.
  exists (mkVec n 0 0 None false).
  destruct (run_rep junk alloc Ha ops (mkVec n 0 0 None false) []) as (v & Er & Hv).
  - by constructor.
  - done.
  - cbn [size]. unfold zlen at 1. cbn [length]. lia.
  - done.
  - cbn [size] in Er, Hv. rewrite E in Er, Hv. cbn [fst snd] in Er, Hv. exists v. split_and!.
    + unfold Vector_init. by replace (n =? 0) with false by lia.
    + done.
    + apply (rep_len _ _ Hv).
    + intros i s Hs. unfold Vector_get. pose proof (zget_range _ _ _ Hs). rewrite (rep_len _ _ Hv).
      replace (_ && _) with true by lia. by eapply name_at_rep.
    + intros name. by apply search_rep.
Qed.

(** [Vector_sublist] copies, in order, exactly the nonempty entries that
    start with the tag, whatever the case of the letters. *)
Theorem vector_sublist_spec junk alloc src dst l tag :
  (forall m, alloc m = true) -> rep src l -> zlen l * size src <= 2 ^ 30 ->
  exists dst', Vector_sublist junk alloc src dst tag = Some dst' /\ rep dst' (sublist_spec tag l).
Proof.
  intros Ha Hv Hcap. pose proof (rep_size _ _ Hv). unfold Vector_sublist, Vector_clear, Vector_init.
  replace (size src =? 0) with false by lia. cbn [mbind option_bind].
  rewrite (rep_len _ _ Hv), to_nat_zlen.
  apply (sublist_loop_rep junk alloc Ha src l tag Hv Hcap l [] (mkVec (size src) 0 0 None false) eq_refl); done.
Qed.

(** A buffer only grows: an append or a read from a callback either adds the
    bytes at the end, the old contents unchanged, and returns the old length or
    the count; or, when memory is out, returns -1 and changes nothing. *)
Theorem buffer_append_read junk alloc b data readfunc :
  buffer_wf b -> blength b + zlen data <= 2 ^ 30 -> blength b + 4096 <= 2 ^ 30 ->
  (forall room, 0 < room -> (readfunc room).1 <= zlen (readfunc room).2 <= room) ->
  (exists b' r, buffer_append junk alloc b data = Some (b', r) /\
     ((r = -1 /\ b' = b) \/
      (r = blength b /\ buffer_wf b' /\ contents b' = contents b ++ data))) /\
  (exists b' r, buffer_read_from_func junk alloc b readfunc = Some (b', r) /\
     ((r = -1 /\ b' = b) \/
      exists room, 0 < room /\ r = (readfunc room).1 /\ buffer_wf b' /\
        contents b' = contents b ++ take (Z.to_nat r) (readfunc room).2)).
Proof.
  intros Hb Hd Hr Hf. pose proof Hb as [Hl Hp]. pose proof (zlen_nonneg data). split.
  - unfold buffer_append. unfold check_int. change (2 ^ 31) with (2 * 2 ^ 30).
    replace (_ && _) with true by lia. cbn [mbind option_bind].
    assert (Hgo : forall b1, buffer_wf b1 -> blength b1 = blength b -> contents b1 = contents b ->
      blength b + zlen data <= allocated b1 -> exists p,
      mem_write (pool b1) (blength b1) data = Some p /\
      buffer_wf (mkBuffer (allocated b1) (blength b1 + zlen data) p) /\
      contents (mkBuffer (allocated b1) (blength b1 + zlen data) p) = contents b ++ data).
    { intros b1 H1 H2 H3 H4. destruct (store_contents b1 data (zlen data) H1) as (p & E & Hw & Hc); [lia|lia|].
      exists p. rewrite Hc, H3, to_nat_zlen, take_ge by lia. done. }
    destruct (Z.ltb_spec (allocated b) (blength b + zlen data)).
    + destruct (grow_wf junk alloc b (blength b + zlen data) Hb) as (b1 & r & -> & Hc); [lia|]. cbn [mbind option_bind].
      destruct Hc as [(-> & -> & _)|(Hr0 & Hb1 & Hl1 & Hc1 & Hw)].
      * eexists _, _. split; [done|]. by left.
      * replace (r <? 0) with false by lia. destruct (Hgo b1) as (p & -> & Hw2 & Hc2); [done..|].
        cbn [mbind option_bind]. eexists _, _. split; [done|]. by right.
    + cbn [mbind option_bind Z.ltb Z.compare]. destruct (Hgo b) as (p & -> & Hw2 & Hc2); [done..|].
      cbn [mbind option_bind]. eexists _, _. split; [done|]. by right.
  - unfold buffer_read_from_func, BUFFER_MIN_INCREMENT, check_int.
    assert (Hgo : forall b1, buffer_wf b1 -> blength b1 = blength b -> contents b1 = contents b ->
      blength b1 < allocated b1 ->
      exists b' r, (let '(nread, data) := readfunc (allocated b1 - blength b1) in
        p ← mem_write (pool b1) (blength b1) data;
        if nread <=? 0 then Some (mkBuffer (allocated b1) (blength b1) p, nread)
        else Some (mkBuffer (allocated b1) (blength b1 + nread) p, nread)) = Some (b', r) /\
      exists room, 0 < room /\ r = (readfunc room).1 /\ buffer_wf b' /\
        contents b' = contents b ++ take (Z.to_nat r) (readfunc room).2).
    { intros b1 H1 H2 H3 H4. specialize (Hf (allocated b1 - blength b1) ltac:(lia)).
      destruct (readfunc (allocated b1 - blength b1)) as [nread d] eqn:E. cbn [fst snd] in Hf.
      pose proof (zlen_nonneg d).
      destruct (store_contents b1 d (Z.max 0 nread) H1) as (p & -> & Hw & Hc); [lia|lia|]. cbn [mbind option_bind].
      exists (mkBuffer (allocated b1) (blength b1 + Z.max 0 nread) p), nread. split.
      - destruct (Z.leb_spec nread 0); [|by rewrite Z.max_r by lia]. by rewrite Z.max_l, Z.add_0_r by lia.
      - exists (allocated b1 - blength b1). rewrite E. cbn [fst snd]. split_and!; try done; [lia|].
        rewrite Hc, H3. by replace (Z.to_nat (Z.max 0 nread)) with (Z.to_nat nread) by lia. }
    change (2 ^ 31) with (2 * 2 ^ 30). destruct (Z.eqb_spec (blength b) (allocated b)).
    + replace (_ && _) with true by lia. cbn [mbind option_bind].
      destruct (grow_wf junk alloc b (blength b + 4096) Hb) as (b1 & r & -> & Hc); [lia|]. cbn [mbind option_bind].
      destruct Hc as [(-> & -> & _)|(Hr0 & Hb1 & Hl1 & Hc1 & Hw)].
      * eexists _, _. split; [done|]. by left.
      * replace (r <? 0) with false by lia. destruct (Hgo b1) as (b' & r' & E & Hx); [done..|lia|].
        exists b', r'. split; [exact E|]. by right.
    + cbn [mbind option_bind Z.ltb Z.compare]. destruct (Hgo b) as (b' & r' & E & Hx); [done..|lia|].
      exists b', r'. split; [exact E|]. by right.
Qed.

(** *** Witnesses *)

(** Entries of 8 bytes: "amy", "Bob", a long one; "BOB" is removed. *)
Lemma vector_refines_list_witness :
  let ops := [Add [97; 109; 121]; Add [66; 111; 98]; Add [97; 98; 99; 100; 101; 102; 103; 104];
              Remove [66; 79; 66]; Remove [120]] in
  list_run 8 [] ops = ([[97; 109; 121]; [97; 98; 99; 100; 101; 102; 103]], [1; 0]) /\
  let '(l, rs) := list_run 8 [] ops in
  exists v0 v, Vector_init 8 = Some v0 /\
    run (fun _ => 0xAA) (fun _ => true) v0 ops = Some (v, rs) /\
    Vector_length v = zlen l /\
    (forall i s, zget l i = Some s -> Vector_get v i = Some s) /\
    (forall name, Vector_search v name = Some (find_from l name 0)).
Proof.
  intros ops. split; [by vm_compute|].
  apply (vector_refines_list (fun _ => 0xAA) (fun _ => true) 8 ops); [done|lia| |by vm_compute].
  unfold ops. repeat constructor; done.
Defined.

Lemma vector_sublist_spec_witness :
  let src := mkVec 4 2 8 (Some [97; 98; 0; 9; 66; 98; 99; 0]) false in
  exists dst', Vector_sublist (fun _ => 0) (fun _ => true) src src [98] = Some dst' /\
    rep dst' (sublist_spec [98] [[97; 98]; [66; 98; 99]]).
Proof.
  apply (vector_sublist_spec (fun _ => 0) (fun _ => true)
    (mkVec 4 2 8 (Some [97; 98; 0; 9; 66; 98; 99; 0]) false) _ [[97; 98]; [66; 98; 99]]); [done| |by vm_compute].
  constructor; cbn [size constant length_ base capacity]; [lia|done|done|by repeat constructor|].
  split; [done|]. split; [lia|]. exists [[97; 98; 0; 9]; [66; 98; 99; 0]], []. split; [done|].
  constructor; [by exists [9]|]. constructor; [by exists []|constructor].
Defined.

(** Memory is out: nothing changes. *)
Lemma buffer_append_read_witness :
  let b := mkBuffer 3 2 [1; 2; 3] in
  (exists b' r, buffer_append (fun _ => 0) (fun _ => false) b [7; 8] = Some (b', r) /\
     ((r = -1 /\ b' = b) \/ (r = blength b /\ buffer_wf b' /\ contents b' = contents b ++ [7; 8]))) /\
  (exists b' r, buffer_read_from_func (fun _ => 0) (fun _ => false) b (fun _ => (1, [9])) = Some (b', r) /\
     ((r = -1 /\ b' = b) \/
      exists room, 0 < room /\ r = 1 /\ buffer_wf b' /\
        contents b' = contents b ++ take (Z.to_nat r) [9])).
Proof.
  apply (buffer_append_read (fun _ => 0) (fun _ => false) (mkBuffer 3 2 [1; 2; 3]) [7; 8] (fun _ => (1, [9])));
    [|done|done|].
  - constructor; [cbn; lia|done].
  - intros room Hroom. change (1 <= 1 <= room). lia.
Defined.

End VectorProps.
