(* ===== verification/Str.v ===== *)
(** Strings and ECMA-48 control sequences ([common/sys/string.c]).

    A pointer into a string is the rest of the string, so [*p] is [cchar p 0],
    [p + n] is [drop n p], and a pointer to the NUL is [[]].  An operation that
    writes a string gives the string it leaves in its buffer. *)

From Stdlib Require Import String.
From S2P Require Import Prelude Cstr.

#[global] Open Scope list_scope.

Module Str.
Import Cstr.

(** *** Runs of characters: [while (f( *p)) p++] *)

Fixpoint run_len (f : Z -> bool) (p : list Z) : nat :=
  match p with
  | c :: p => if f c then S (run_len f p) else O
  | [] => O
  end.

Definition skip_run (f : Z -> bool) (p : list Z) : list Z := drop (run_len f p) p.

Definition between (a b c : Z) : bool := (a <=? c) && (c <=? b).

(** *** Basic strings *)

Definition CHAR_LOWER (c : Z) : Z := if (65 <=? c) && (c <=? 90) then Z.lor c 32 else c.
Definition str_lower (s : list Z) : list Z := map CHAR_LOWER s.

Fixpoint str_starts_with (str prefix : list Z) : bool :=
  match prefix with
  | [] => true
  | c :: prefix =>
      if negb (c =? cchar str 0) then false else str_starts_with (drop 1 str) prefix
  end.

Fixpoint str_case_starts_with (str prefix : list Z) : bool :=
  match prefix with
  | [] => true
  | c :: prefix =>
      if negb (tolower c =? tolower (cchar str 0)) then false
      else str_case_starts_with (drop 1 str) prefix
  end.

(** [strcmp(a, b) == 0]. *)
Definition str_eqb (a b : list Z) : bool := bool_decide (a = b).

(** A null pointer is [None]. *)
Definition str_ends_with (str suffix : option (list Z)) : bool :=
  match str, suffix with
  | Some str, Some suffix =>
      if zlen str <? zlen suffix then false
      else str_eqb (drop (Z.to_nat (zlen str - zlen suffix)) str) suffix
  | _, _ => false
  end.

Definition str_case_ends_with (str suffix : option (list Z)) : bool :=
  match str, suffix with
  | Some str, Some suffix =>
      if zlen str <? zlen suffix then false
      else strcasecmp (drop (Z.to_nat (zlen str - zlen suffix)) str) suffix =? 0
  | _, _ => false
  end.

Definition path_basename (path : option (list Z)) : list Z :=
  match path with
  | None => []
  | Some path => match strrchr path 47 with Some p => drop 1 p | None => path end
  end.

(** [trim]: the loop runs from the end of the string. *)
Definition trim (buf : list Z) : list Z := rev (skip_run (Z.eqb 32) (rev buf)).

Fixpoint chomp (src : list Z) : list Z :=
  match src with
  | [] => []
  | c :: src => if c =? 10 then [] else c :: chomp src
  end.

Definition strip_blank (buf : list Z) : list Z := List.filter (fun c => negb (c =? 32)) buf.

Definition isblank (c : Z) : bool := (c =? 32) || (c =? 9).

(** The loop: [cbuf] is the string written so far, [need_remove] says that the
    last character was a blank. *)
Fixpoint reduce_loop (need_remove : bool) (cbuf buf : list Z) : list Z :=
  match buf with
  | [] => cbuf
  | c :: buf =>
      if isascii c && isblank c then
        if need_remove then reduce_loop true cbuf buf
        else reduce_loop true (cbuf ++ [c]) buf
      else reduce_loop false (cbuf ++ [c]) buf
  end.

Definition reduce_blank (buf : list Z) : list Z :=
  let cbuf := reduce_loop true [] buf in
  if (0 <? zlen cbuf) && (default 0 (list.last cbuf) =? 32)
  then take (length cbuf - 1) cbuf else cbuf.

Definition is_number (p : list Z) : bool :=
  if cchar p 0 =? 0 then false else forallb (between 48 57) p.

(** *** Path names *)

Definition isalnum (c : Z) : bool := between 48 57 c || between 65 90 c || between 97 122 c.
Definition pname_symbols : list Z := str "@[]-._".

(** [p2 - p1]: up to the next slash, or to the end. *)
Definition pname_len (p1 : list Z) : nat := run_len (fun c => negb (c =? 47)) p1.

Fixpoint invalid_pname_loop (fuel : nat) (p1 : list Z) : bool :=
  match fuel with
  | O => false
  | S fuel =>
      if cchar p1 0 =? 0 then false else
      let n := pname_len p1 in
      if (n <? 1)%nat || (run_len (Z.eqb 46) p1 =? n)%nat then true
      else if existsb (fun c => negb (isalnum c) && negb (existsb (Z.eqb c) pname_symbols))
                      (take n p1) then true
      else let p2 := drop n p1 in
           invalid_pname_loop fuel (drop (if cchar p2 0 =? 0 then 0%nat else 1%nat) p2)
  end.

(** Each round consumes at least one character. *)
Definition invalid_pname (str : list Z) : bool := invalid_pname_loop (S (length str)) str.

(** *** Control sequences *)

Definition ESC_CHR : Z := 0x1b.
Definition BEL : Z := 7.

(** [( ) * + - . / #]: the second character of a sequence of three. *)
Definition is_charset (c : Z) : bool :=
  existsb (Z.eqb c) [40; 41; 42; 43; 45; 46; 47; 35].

(** The characters up to the BEL or the ESC \ that ends an OSC. *)
Fixpoint osc_len (p : list Z) : nat :=
  match p with
  | [] => O
  | c :: p' =>
      if (c =? BEL) || ((c =? ESC_CHR) && (cchar p' 0 =? 92)) then O else S (osc_len p')
  end.

(** The final characters of the commands that are safe in NO_RELOAD mode. *)
Definition safe_mask : Z :=
  fold_right Z.lor 0 (map (fun c => Z.shiftl 1 (c - 0x40)) (str "ABCDHIJKfhlmsu")).

(** [end - src], [*is_color] and [*is_safe_cmd]. *)
Definition scan_control_sequence (src : list Z) : nat * bool * bool :=
  let p := drop 1 src in
  let c := cchar p 0 in
  if c =? 0 then (0%nat, false, false)
  else if c =? 91 then
    let p := drop 1 p in
    let has_private := between 0x3C 0x3F (cchar p 0) in
    let n := run_len (between 0x30 0x3F) p in
    let p := drop n p in
    let m := run_len (between 0x20 0x2F) p in
    let p := drop m p in
    let f := cchar p 0 in
    let pos := (2 + n + m)%nat in
    if between 0x40 0x7E f then
      if negb has_private then
        if f =? 109 then (pos, true, true)
        else (pos, false, Z.testbit safe_mask (f - 0x40))
      else (pos, false, false)
    else (if (2 <? pos)%nat then (pos - 1)%nat else 1%nat, false, false)
  else if c =? 93 then
    let p := drop 1 p in
    let n := osc_len p in
    let p := drop n p in
    if cchar p 0 =? BEL then ((2 + n)%nat, false, false)
    else if (cchar p 0 =? ESC_CHR) && (cchar p 1 =? 92) then ((3 + n)%nat, false, false)
    else (if cchar p 0 =? 0 then (1 + n)%nat else (2 + n)%nat, false, false)
  else if is_charset c then
    (if cchar p 1 =? 0 then 1%nat else 2%nat, false, false)
  else (1%nat, false, false).

(** The number of characters to skip; [src] itself is an ESC. *)
Definition skip_len (src : list Z) : nat :=
  let p := drop 1 src in
  let c := cchar p 0 in
  if c =? 0 then 1%nat
  else if c =? 91 then
    let p := drop 1 p in
    let n := run_len (between 0x20 0x3F) p in
    let p := drop n p in
    if between 0x40 0x7E (cchar p 0) then (3 + n)%nat else (2 + n)%nat
  else if c =? 93 then
    let p := drop 1 p in
    let n := osc_len p in
    let p := drop n p in
    if cchar p 0 =? BEL then (3 + n)%nat
    else if (cchar p 0 =? ESC_CHR) && (cchar p 1 =? 92) then (4 + n)%nat
    else (2 + n)%nat
  else if is_charset c then (if cchar p 1 =? 0 then 2%nat else 3%nat)
  else 2%nat.

Definition skip_control_sequence (src : list Z) : list Z := drop (skip_len src) src.

(** What is written to [dst]; the return value [count] is its length. *)
Fixpoint strip_loop (fuel : nat) (dst src : list Z) : option (list Z) :=
  match fuel with
  | O => None
  | S fuel =>
      match src with
      | [] => Some dst
      | _ =>
          let chunk := run_len (fun c => negb (c =? ESC_CHR)) src in
          let dst := dst ++ take chunk src in
          let p := drop chunk src in
          if cchar p 0 =? 0 then Some dst
          else strip_loop fuel dst (skip_control_sequence p)
      end
  end.

Definition strip_control_sequence (src : list Z) : option (list Z) :=
  strip_loop (S (length src)) [] src.

Inductive STRIP_FLAG := STRIP_ALL | ONLY_COLOR | NO_RELOAD.

Definition strip_keeps (mode : STRIP_FLAG) (is_color is_safe_cmd : bool) : bool :=
  match mode with
  | STRIP_ALL => false
  | ONLY_COLOR => is_color
  | NO_RELOAD => is_safe_cmd
  end.

Fixpoint strip_ex_loop (fuel : nat) (mode : STRIP_FLAG) (dst src : list Z)
  : option (list Z) :=
  match fuel with
  | O => None
  | S fuel =>
      match src with
      | [] => Some dst
      | c :: src' =>
          if negb (c =? ESC_CHR) then strip_ex_loop fuel mode (dst ++ [c]) src'
          else
            let '(e, is_color, is_safe_cmd) := scan_control_sequence src in
            let dst := if strip_keeps mode is_color is_safe_cmd
                       then dst ++ take (e + 1) src else dst in
            let src := drop e src in
            if cchar src 0 =? 0 then Some dst
            else strip_ex_loop fuel mode dst (drop 1 src)
      end
  end.

Definition strip_control_sequence_ex (mode : STRIP_FLAG) (src : list Z)
  : option (list Z) :=
  match mode with
  | STRIP_ALL => strip_control_sequence src
  | _ => strip_ex_loop (S (length src)) mode [] src
  end.

(** *** Hashes ([fnv_hash.h]) *)

Definition FNV1_32_INIT : Z := 33554467.
Definition FNV_32_PRIME : Z := 0x01000193.

Fixpoint fnv1a_32_strcase (s : list Z) (hval : Z) : Z :=
  match s with
  | [] => hval
  | c :: s => fnv1a_32_strcase s (u32 (Z.lxor hval (toupper c) * FNV_32_PRIME))
  end.

Definition StringHash (s : list Z) : Z := fnv1a_32_strcase s FNV1_32_INIT.

End Str.
