(* ===== verification/StrProps.v ===== *)
(** What the string functions and the strippers of control sequences do. *)

From Stdlib Require Import String.
From S2P Require Import Prelude Cstr Str.

#[global] Open Scope list_scope.

Module StrProps.
Import Cstr Str.

(** *** Runs *)

Lemma run_len_app f a b :
  Forall (fun c => f c = true) a -> run_len f (a ++ b) = (length a + run_len f b)%nat.
Proof. induction 1 as [|c a H _ IH]; cbn; [done|]. now rewrite H, IH. Qed.

Lemma run_len_stop f b : f (cchar b 0) = false -> run_len f b = 0%nat.
Proof. destruct b as [|c b]; [done|]. cbn. intros H. change (f c = false) in H. now rewrite H. Qed.

Lemma run_len_le f p : (run_len f p <= length p)%nat.
Proof. induction p as [|c p IH]; cbn; [lia|]. destruct (f c); lia. Qed.

Lemma run_len_take f p : Forall (fun c => f c = true) (take (run_len f p) p).
Proof. induction p as [|c p IH]; cbn; [constructor|]. destruct (f c) eqn:E; cbn; auto. Qed.

Lemma run_len_all f p : Forall (fun c => f c = true) p -> run_len f p = length p.
Proof. intros H. rewrite <- (app_nil_r p) at 1. rewrite run_len_app by done. cbn. lia. Qed.

(** A run and the first character after it. *)
Lemma run_split f p :
  exists a b, p = a ++ b /\ run_len f p = length a /\ Forall (fun c => f c = true) a /\
              (b = [] \/ exists c b', b = c :: b' /\ f c = false).
Proof.
  induction p as [|c p (a & b & -> & E & H & Hb)]; [exists [], []; split_and!; auto|].
  cbn. destruct (f c) eqn:Ef.
  - exists (c :: a), b. split_and!; auto. cbn. lia.
  - exists [], (c :: a ++ b). split_and!; auto. right; eauto.
Qed.

Lemma between_true lo hi c : between lo hi c = true <-> lo <= c <= hi.
Proof. unfold between. rewrite andb_true_iff, !Z.leb_le. tauto. Qed.

Lemma between_false lo hi c : between lo hi c = false <-> ~ lo <= c <= hi.
Proof. rewrite <- between_true. now destruct (between lo hi c). Qed.

Lemma cchar_app_0 a b : a <> [] -> cchar (a ++ b) 0 = cchar a 0.
Proof. now destruct a. Qed.

(** *** Texts with well-formed control sequences *)

Inductive piece :=
  | Text (c : Z)
  | Csi (params inter : list Z) (final : Z)
  | Osc (body : list Z) (st : bool)
  | Charset (c x : Z)
  | Two (c : Z).

Definition render (q : piece) : list Z :=
  match q with
  | Text c => [c]
  | Csi ps ns f => [ESC_CHR; 91] ++ ps ++ ns ++ [f]
  | Osc body st => [ESC_CHR; 93] ++ body ++ (if st then [ESC_CHR; 92] else [BEL])
  | Charset c x => [ESC_CHR; c; x]
  | Two c => [ESC_CHR; c]
  end.

Definition piece_ok (q : piece) : Prop :=
  match q with
  | Text c => c <> 0 /\ c <> ESC_CHR
  | Csi ps ns f =>
      Forall (fun c => 0x30 <= c <= 0x3F) ps /\ Forall (fun c => 0x20 <= c <= 0x2F) ns /\
      0x40 <= f <= 0x7E
  | Osc body st => Forall (fun c => c <> 0 /\ c <> BEL /\ c <> ESC_CHR) body
  | Charset c x => is_charset c = true /\ x <> 0
  | Two c => c <> 0 /\ c <> 91 /\ c <> 93 /\ is_charset c = false
  end.

#[global] Instance piece_ok_dec q : Decision (piece_ok q).
Proof. destruct q; apply _. Defined.

(** Colours are the SGR commands; a private command is neither a colour nor safe. *)
Definition private (ps : list Z) : bool := between 0x3C 0x3F (cchar ps 0).
Definition is_color (q : piece) : bool :=
  match q with Csi ps ns f => negb (private ps) && (f =? 109) | _ => false end.
Definition is_safe (q : piece) : bool :=
  match q with
  | Csi ps ns f => negb (private ps) && existsb (Z.eqb f) (str "ABCDHIJKfhlmsu")
  | _ => false
  end.
Definition kept (mode : STRIP_FLAG) (q : piece) : bool :=
  match q, mode with
  | Text _, _ => true
  | _, STRIP_ALL => false
  | _, ONLY_COLOR => is_color q
  | _, NO_RELOAD => is_safe q
  end.

Lemma safe_mask_spec f :
  0x40 <= f <= 0x7E -> Z.testbit safe_mask (f - 0x40) = existsb (Z.eqb f) (str "ABCDHIJKfhlmsu").
Proof.
  intros H. assert (G : forallb (fun f => Bool.eqb (Z.testbit safe_mask (f - 0x40))
    (existsb (Z.eqb f) (str "ABCDHIJKfhlmsu"))) (seqZ 0x40 0x3F) = true) by (vm_compute; reflexivity).
  pose proof (proj1 (forallb_forall _ _) G) as G1. apply eqb_prop, G1, list_elem_of_In, elem_of_seqZ. lia.
Qed.

Lemma osc_len_spec body (st : bool) r :
  Forall (fun c => c <> 0 /\ c <> BEL /\ c <> ESC_CHR) body ->
  osc_len (body ++ (if st then [ESC_CHR; 92] else [BEL]) ++ r) = length body.
Proof.
  induction 1 as [|c body (_ & H1 & H2) _ IH]; [now destruct st|].
  cbn [app osc_len length]. if_false. now rewrite IH.
Qed.

Lemma drop_length_app {A} (a b : list A) : drop (length a) (a ++ b) = b.
Proof. apply drop_app_length. Qed.

Lemma cchar_cons c s i : 0 < i -> cchar (c :: s) i = cchar s (i - 1).
Proof.
  intros. unfold cchar, zget. if_true. if_true.
  replace (Z.to_nat i) with (S (Z.to_nat (i - 1))) by lia. done.
Qed.

(** The length of a sequence, as the skipper finds it. *)
Lemma skip_piece q r :
  piece_ok q -> match q with Text _ => False | _ => True end ->
  skip_len (render q ++ r) = length (render q).
Proof.
  destruct q as [c|ps ns f|body st|c x|c]; [done|..]; cbn [piece_ok]; intros Hq _;
    unfold skip_len; cbn zeta; cbn [render app drop].
  - destruct Hq as (Hp & Hi & Hf). rewrite cchar_0. cbn [Z.eqb Pos.eqb drop]. rewrite ?drop_0.
    replace ((ps ++ ns ++ [f]) ++ r) with ((ps ++ ns) ++ f :: r) by now rewrite <- !app_assoc.
    rewrite run_len_app; cycle 1.
    { apply list.Forall_app; split; eapply List.Forall_impl; try eassumption;
        intros c Hc; apply between_true; cbn in Hc; lia. }
    rewrite (run_len_stop _ (f :: r)) by (apply between_false; rewrite cchar_0; lia).
    rewrite Nat.add_0_r, drop_length_app, cchar_0.
    replace (between 0x40 0x7E f) with true by (symmetry; apply between_true; lia).
    cbn. rewrite !length_app. cbn. lia.
  - rewrite cchar_0. cbn [Z.eqb Pos.eqb drop]. rewrite ?drop_0. rewrite <- !app_assoc, osc_len_spec by done.
    rewrite drop_length_app. destruct st; cbn [app]; rewrite ?cchar_0, ?cchar_1; cbn; rewrite ?length_app; cbn; lia.
  - destruct Hq as [Hc Hx]. rewrite cchar_0, cchar_1.
    destruct (c =? 0) eqn:E0; [apply Z.eqb_eq in E0; now subst|].
    destruct (c =? 91) eqn:E1; [apply Z.eqb_eq in E1; now subst|].
    destruct (c =? 93) eqn:E2; [apply Z.eqb_eq in E2; now subst|].
    rewrite Hc. now if_false.
  - destruct Hq as (H0 & H1 & H2 & H3). rewrite cchar_0. do 3 if_false. now rewrite H3.
Qed.

(** What the scanner says of a sequence. *)
Lemma scan_piece q r :
  piece_ok q -> match q with Text _ => False | _ => True end ->
  scan_control_sequence (render q ++ r) = ((length (render q) - 1)%nat, is_color q, is_safe q).
Proof.
  destruct q as [c|ps ns f|body st|c x|c]; [done|..]; cbn [piece_ok]; intros Hq _;
    unfold scan_control_sequence; cbn zeta; cbn [render app drop].
  - destruct Hq as (Hp & Hi & Hf). rewrite cchar_0. cbn [Z.eqb Pos.eqb drop]. rewrite ?drop_0.
    replace ((ps ++ ns ++ [f]) ++ r) with (ps ++ ns ++ f :: r) by now rewrite <- !app_assoc.
    assert (Hs : run_len (between 0x30 0x3F) (ns ++ f :: r) = 0%nat).
    { apply run_len_stop, between_false. destruct Hi as [|i ns Hi _]; cbn [app]; rewrite cchar_0; lia. }
    rewrite run_len_app by (eapply List.Forall_impl; try eassumption; intros c; rewrite between_true; lia).
    rewrite Hs, Nat.add_0_r, drop_length_app.
    rewrite run_len_app by (eapply List.Forall_impl; try eassumption; intros c; rewrite between_true; lia).
    rewrite (run_len_stop _ (f :: r)) by (apply between_false; rewrite cchar_0; lia).
    rewrite Nat.add_0_r, drop_length_app, cchar_0.
    replace (between 0x40 0x7E f) with true by (symmetry; apply between_true; lia).
    rewrite safe_mask_spec by done.
    replace (between 60 63 (cchar (ps ++ ns ++ f :: r) 0)) with (private ps); cycle 1.
    { unfold private. destruct ps as [|p ps]; [|done]. cbn [app].
      change (between 60 63 (cchar [] 0)) with false. symmetry. apply between_false.
      destruct Hi as [|i ns Hi _]; cbn [app]; rewrite cchar_0; lia. }
    cbn [is_color is_safe].
    replace (length (ESC_CHR :: 91%Z :: ps ++ ns ++ [f]) - 1)%nat
      with (2 + length ps + length ns)%nat by (cbn; rewrite !length_app; cbn; lia).
    destruct (private ps); cbn [negb andb]; [done|].
    destruct (f =? 109) eqn:E; [|done]. apply Z.eqb_eq in E. now subst.
  - rewrite cchar_0. cbn [Z.eqb Pos.eqb drop]. rewrite ?drop_0. rewrite <- !app_assoc, osc_len_spec by done.
    rewrite drop_length_app. destruct st; cbn [app]; rewrite ?cchar_0, ?cchar_1; cbn;
      rewrite length_app; cbn; do 2 f_equal; lia.
  - destruct Hq as [Hc Hx]. rewrite cchar_0, cchar_1.
    destruct (c =? 0) eqn:E0; [apply Z.eqb_eq in E0; now subst|].
    destruct (c =? 91) eqn:E1; [apply Z.eqb_eq in E1; now subst|].
    destruct (c =? 93) eqn:E2; [apply Z.eqb_eq in E2; now subst|].
    rewrite Hc. now if_false.
  - destruct Hq as (H0 & H1 & H2 & H3). rewrite cchar_0. do 3 if_false. now rewrite H3.
Qed.


(** *** Stripping *)

Definition pieces (qs : list piece) : list Z := flat_map render qs.

Lemma render_nonempty q : render q <> [].
Proof. now destruct q. Qed.

(** The plain characters in front of a text. *)
Lemma pieces_chunk qs :
  Forall piece_ok qs ->
  exists t qs', qs = map Text t ++ qs' /\ Forall (fun c => c <> 0 /\ c <> ESC_CHR) t /\
    match qs' with Text _ :: _ => False | _ => True end.
Proof.
  induction 1 as [|q qs Hq _ (t & qs' & -> & Ht & Hqs')]; [exists [], []; now split_and!|].
  destruct q as [c|?|?|?|?]; [exists (c :: t), qs'; now split_and!; auto|..];
    eexists [], (_ :: _); split_and!; done.
Qed.

Lemma pieces_app a b : pieces (a ++ b) = pieces a ++ pieces b.
Proof. apply flat_map_app. Qed.

Lemma pieces_text t : pieces (map Text t) = t.
Proof. induction t as [|c t IH]; cbn; [done|]. now f_equal. Qed.

Lemma filter_text mode t : List.filter (kept mode) (map Text t) = map Text t.
Proof. induction t as [|c t IH]; cbn; [done|]. now f_equal. Qed.

(** A text whose first piece is a sequence does not start with a NUL. *)
Lemma if_esc {A} q qs (x y : A) :
  match q with Text _ => False | _ => True end ->
  (if cchar (pieces (q :: qs)) 0 =? 0 then x else y) = y.
Proof. now destruct q. Qed.

Lemma strip_loop_pieces fuel qs dst :
  Forall piece_ok qs -> (length (pieces qs) < fuel)%nat ->
  strip_loop fuel dst (pieces qs) = Some (dst ++ pieces (List.filter (kept STRIP_ALL) qs)).
Proof.
  revert qs dst. induction fuel as [|fuel IH]; intros qs dst Hqs Hf; [lia|].
  destruct (pieces_chunk qs Hqs) as (t & qs' & -> & Ht & Hqs').
  rewrite pieces_app, pieces_text in *. rewrite List.filter_app, filter_text, pieces_app, pieces_text.
  apply list.Forall_app in Hqs as [_ Hqs].
  assert (Hrun : run_len (fun c => negb (c =? ESC_CHR)) (t ++ pieces qs') = length t).
  { rewrite run_len_app by (eapply List.Forall_impl; [|exact Ht]; intros c [_ Hc];
      apply negb_true_iff, Z.eqb_neq; done).
    destruct qs' as [|q qs']; [cbn; lia|].
    rewrite run_len_stop; [lia|]. now destruct q. }
  cbn [strip_loop]. destruct (t ++ pieces qs') as [|c src] eqn:E.
  { apply app_eq_nil in E as [-> E]. destruct qs' as [|q qs']; [now rewrite !app_nil_r|].
    cbn in E. now apply app_eq_nil in E as [? _]; destruct q. }
  rewrite Hrun, <- E, take_app_length, drop_app_length.
  destruct qs' as [|q qs']; [cbn; now rewrite app_nil_r|].
  inversion_clear Hqs as [|? ? Hq Hqs1].
  rewrite if_esc by now destruct q. cbn [pieces flat_map].
  unfold skip_control_sequence. fold (pieces qs').
  rewrite skip_piece, drop_app_length by (now destruct q).
  assert (kept STRIP_ALL q = false) as Hk by now destruct q.
  rewrite IH; [|done|]; cycle 1.
  { rewrite <- E in Hf. revert Hf. rewrite length_app. cbn [pieces flat_map]. rewrite length_app. fold (pieces qs').
    pose proof (render_nonempty q). destruct (render q); [done|]. cbn. lia. }
  cbn [List.filter]. rewrite Hk. now rewrite <- app_assoc.
Qed.

(** A piece ends in a character that is not NUL. *)
Lemma render_last q : piece_ok q -> exists a l, render q = a ++ [l] /\ l <> 0.
Proof.
  destruct q as [c|ps ns f|body st|c x|c]; cbn [piece_ok render].
  - intros [H _]. exists [], c. done.
  - intros (_ & _ & H). exists ([ESC_CHR; 91] ++ ps ++ ns), f. rewrite <- !app_assoc. split; [done|lia].
  - intros _. destruct st; [exists ([ESC_CHR; 93] ++ body ++ [ESC_CHR]), 92|
      exists ([ESC_CHR; 93] ++ body), BEL]; now rewrite <- !app_assoc.
  - intros [_ H]. exists [ESC_CHR; c], x. done.
  - intros [H _]. exists [ESC_CHR], c. done.
Qed.

(** One round on a sequence: it is copied or not, and is passed over. *)
Lemma strip_ex_step mode fuel dst q r :
  mode <> STRIP_ALL -> piece_ok q -> match q with Text _ => False | _ => True end ->
  strip_ex_loop (S fuel) mode dst (render q ++ r) =
  strip_ex_loop fuel mode (if kept mode q then dst ++ render q else dst) r.
Proof.
  intros Hm Hq Hs. pose proof (scan_piece q r Hq Hs) as Hscan.
  destruct (render_last q Hq) as (a & l & Hal & Hl).
  assert (Hk : strip_keeps mode (is_color q) (is_safe q) = kept mode q)
    by (destruct q, mode; done).
  assert (exists r', render q = ESC_CHR :: r') as [r' Hr] by (destruct q; [done|eexists; reflexivity..]).
  rewrite Hr in *. cbn [app] in *. cbn [strip_ex_loop]. rewrite Z.eqb_refl, Hscan, Hk.
  cbn [negb]. rewrite app_comm_cons, Hal, length_app. cbn [length].
  replace (length a + 1 - 1)%nat with (length a) by lia.
  replace (length a + 1)%nat with (length (a ++ [l])) by (rewrite length_app; cbn; lia).
  rewrite take_app_length, <- app_assoc, drop_app_length. cbn [app]. rewrite cchar_0.
  now if_false.
Qed.

Lemma strip_ex_loop_pieces mode fuel qs dst :
  mode <> STRIP_ALL -> Forall piece_ok qs -> (length (pieces qs) < fuel)%nat ->
  strip_ex_loop fuel mode dst (pieces qs) = Some (dst ++ pieces (List.filter (kept mode) qs)).
Proof.
  intros Hm. revert qs dst. induction fuel as [|fuel IH]; intros qs dst Hqs Hf; [lia|].
  destruct Hqs as [|q qs Hq Hqs]; [cbn; now rewrite app_nil_r|].
  cbn [pieces flat_map] in *. fold (pieces qs) in *. rewrite length_app in Hf.
  assert (strip_ex_loop (S fuel) mode dst (render q ++ pieces qs) =
    strip_ex_loop fuel mode (if kept mode q then dst ++ render q else dst) (pieces qs)) as ->.
  { destruct q as [c|?|?|?|?]; [|apply strip_ex_step; done..].
    destruct Hq as [_ Hc]. cbn. now if_true. }
  rewrite IH; [|done|]; cycle 1.
  { pose proof (render_nonempty q). destruct (render q); [done|]. cbn in Hf. lia. }
  cbn [List.filter]. destruct (kept mode q); [|done]. cbn [pieces flat_map].
  now rewrite <- app_assoc.
Qed.

(** In a text of plain characters and well-formed control sequences,
    stripping removes exactly the sequences the mode does not keep: all of
    them, all but colours, or all but colours and cursor commands. *)
Theorem strip_pieces mode qs :
  Forall piece_ok qs ->
  strip_control_sequence_ex mode (pieces qs) = Some (pieces (List.filter (kept mode) qs)).
Proof.
  intros H. destruct mode; cbn [strip_control_sequence_ex].
  - unfold strip_control_sequence. rewrite strip_loop_pieces by (done || lia). done.
  - rewrite strip_ex_loop_pieces by (done || lia). done.
  - rewrite strip_ex_loop_pieces by (done || lia). done.
Qed.


Lemma skip_len_pos p : (1 <= skip_len p)%nat.
Proof. unfold skip_len. cbn zeta. repeat case_match; lia. Qed.

Lemma strip_loop_any fuel dst src :
  (length src < fuel)%nat ->
  exists d, strip_loop fuel dst src = Some (dst ++ d) /\ d `sublist_of` src /\
            Forall (fun c => c <> ESC_CHR) d.
Proof.
  revert dst src. induction fuel as [|fuel IH]; intros dst src Hf; [lia|].
  destruct (run_split (fun c => negb (c =? ESC_CHR)) src) as (a & b & E & Hr & Ha & Hb).
  assert (Ha' : Forall (fun c => c <> ESC_CHR) a).
  { eapply List.Forall_impl; [|exact Ha]. intros c Hc. cbn in Hc. zbool. done. }
  assert (Hcase : strip_loop (S fuel) dst src =
    if cchar b 0 =? 0 then Some (dst ++ a) else strip_loop fuel (dst ++ a) (skip_control_sequence b)).
  { cbn [strip_loop]. destruct src as [|c src].
    - symmetry in E. apply app_eq_nil in E as [-> ->]. cbn. now rewrite app_nil_r.
    - now rewrite Hr, E, take_app_length, drop_app_length. }
  rewrite Hcase. destruct Hb as [->|(c & b' & -> & Hc)].
  - exists a. subst src. rewrite app_nil_r. done.
  - cbn in Hc. zbool. subst c. rewrite cchar_0. cbn [Z.eqb].
    pose proof (skip_len_pos (ESC_CHR :: b')) as Hp.
    destruct (IH (dst ++ a) (skip_control_sequence (ESC_CHR :: b'))) as (d & -> & Hd & HF).
    { unfold skip_control_sequence. rewrite length_drop. subst src.
      rewrite length_app in Hf. cbn [length] in *. lia. }
    exists (a ++ d). rewrite app_assoc. split_and!; [done| |now apply list.Forall_app].
    subst src. apply sublist_app; [done|]. etrans; [exact Hd|apply sublist_drop].
Qed.

Lemma strip_ex_loop_any mode fuel dst src :
  (length src < fuel)%nat ->
  exists d, strip_ex_loop fuel mode dst src = Some (dst ++ d) /\ d `sublist_of` src.
Proof.
  revert dst src. induction fuel as [|fuel IH]; intros dst src Hf; [lia|].
  destruct src as [|c src]; [exists []; cbn; now rewrite app_nil_r|].
  cbn [strip_ex_loop]. destruct (negb (c =? ESC_CHR)).
  - destruct (IH (dst ++ [c]) src) as (d & -> & Hd); [cbn in Hf; lia|].
    exists (c :: d). rewrite <- app_assoc. split; [done|]. now apply sublist_skip.
  - destruct (scan_control_sequence (c :: src)) as [[e col] safe].
    set (w := if strip_keeps mode col safe then take (e + 1) (c :: src) else []).
    assert (Hw : w `sublist_of` take (e + 1) (c :: src))
      by (unfold w; destruct (strip_keeps mode col safe); [done|apply sublist_nil_l]).
    replace (if strip_keeps mode col safe then dst ++ take (e + 1) (c :: src) else dst)
      with (dst ++ w) by (unfold w; destruct (strip_keeps mode col safe); [done|apply app_nil_r]).
    destruct (cchar (drop e (c :: src)) 0 =? 0).
    + exists w. split; [done|]. etrans; [exact Hw|apply sublist_take].
    + rewrite drop_drop.
      destruct (IH (dst ++ w) (drop (e + 1) (c :: src))) as (d & -> & Hd).
      { rewrite length_drop. cbn [length] in *. lia. }
      exists (w ++ d). rewrite app_assoc. split; [done|].
      rewrite <- (take_drop (e + 1) (c :: src)). now apply sublist_app.
Qed.


(** *** The fast skipper and the scanner *)

(** They end a sequence at the same place, unless the parameters of a CSI go on
    after an intermediate character, where the scanner stops. *)
Definition csi_disordered (src : list Z) : bool :=
  (cchar src 1 =? 91) &&
  between 0x30 0x3F
    (cchar (skip_run (between 0x20 0x2F) (skip_run (between 0x30 0x3F) (drop 2 src))) 0).

Lemma run_len_split f p : run_len f (skip_run f p) = 0%nat.
Proof.
  unfold skip_run. destruct (run_split f p) as (a & b & -> & -> & _ & Hb).
  rewrite drop_app_length. destruct Hb as [->|(c & b' & -> & Hc)]; [done|]. cbn. now rewrite Hc.
Qed.

Lemma run_len_stop_inv f p : run_len f p = 0%nat -> p = [] \/ f (cchar p 0) = false.
Proof.
  destruct p as [|c p]; [by left|]. cbn [run_len]. rewrite cchar_0. destruct (f c); [done|by right].
Qed.

(** Parameters, then intermediates, make one run of the fast skipper. *)
Lemma run_len_params p :
  let q := skip_run (between 0x30 0x3F) p in
  let r := skip_run (between 0x20 0x2F) q in
  between 0x30 0x3F (cchar r 0) = false ->
  run_len (between 0x20 0x3F) p =
    (run_len (between 0x30 0x3F) p + run_len (between 0x20 0x2F) q)%nat /\
  drop (run_len (between 0x20 0x3F) p) p = r.
Proof.
  cbn zeta. intros H. unfold skip_run in *.
  set (n := run_len (between 0x30 0x3F) p) in *. set (q := drop n p) in *.
  set (m := run_len (between 0x20 0x2F) q) in *. set (r := drop m q) in *.
  assert (E : run_len (between 0x20 0x3F) p = (n + m)%nat); [|split; [done|]].
  - rewrite <- (take_drop n p) at 1. fold q.
    rewrite run_len_app by (eapply List.Forall_impl; [|apply run_len_take];
      intros c; rewrite !between_true; lia).
    rewrite <- (take_drop m q) at 1. fold r.
    rewrite run_len_app by (eapply List.Forall_impl; [|apply run_len_take];
      intros c; rewrite !between_true; lia).
    assert (Hr : run_len (between 0x20 0x2F) r = 0%nat) by apply run_len_split.
    pose proof (run_len_le (between 0x30 0x3F) p). pose proof (run_len_le (between 0x20 0x2F) q).
    rewrite !length_take_le by done.
    apply run_len_stop_inv in Hr as [->|Hr]; [cbn; lia|].
    rewrite run_len_stop; [lia|]. rewrite between_false in *. lia.
  - rewrite E. unfold r, q. now rewrite drop_drop.
Qed.

(** An OSC stops at its terminator or at the end of the string. *)
Lemma osc_stop p :
  let q := drop (osc_len p) p in
  q = [] \/ (cchar q 0 =? BEL) || ((cchar q 0 =? ESC_CHR) && (cchar q 1 =? 92)) = true.
Proof.
  induction p as [|c p IH]; cbn [osc_len]; [by left|].
  destruct ((c =? BEL) || _) eqn:E; [|exact IH].
  right. cbn [drop]. rewrite cchar_0, cchar_cons by lia. exact E.
Qed.

(** The fast skipper and the scanner end every control sequence at the same
    character, but for a CSI whose parameters go on after an intermediate. *)
Theorem skip_scan_agree src :
  csi_disordered src = false ->
  skip_control_sequence src = drop (S (scan_control_sequence src).1.1) src.
Proof.
  intros H. unfold skip_control_sequence. f_equal. revert H.
  unfold csi_disordered, skip_len, scan_control_sequence. cbn zeta.
  replace (cchar src 1) with (cchar (drop 1 src) 0)
    by (destruct src as [|a [|b src]]; rewrite ?cchar_nil; done).
  destruct (cchar (drop 1 src) 0 =? 0); [done|].
  destruct (cchar (drop 1 src) 0 =? 91) eqn:E; cbn [andb].
  - intros H. replace (drop 1 (drop 1 src)) with (drop 2 src) by now rewrite drop_drop.
    destruct (run_len_params _ H) as [E1 E2]. unfold skip_run in *. rewrite E2, E1.
    case_match; cycle 1.
    { destruct (2 <? _)%nat eqn:El; [apply Nat.ltb_lt in El|apply Nat.ltb_ge in El]; cbn in *; lia. }
    destruct (negb _); [|cbn; lia]. destruct (_ =? 109); cbn; lia.
  - intros _. destruct (cchar (drop 1 src) 0 =? 93).
    + destruct (osc_stop (drop 1 (drop 1 src))) as [->|E1]; [done|].
      destruct (_ =? BEL); [done|]. cbn [orb] in E1. now rewrite E1.
    + destruct (is_charset _); [|done]. now destruct (cchar _ 1 =? 0).
Qed.

(** They differ on ESC [ SP 1 m: the scanner leaves 1 and m in the text. *)
Example skip_scan_differ :
  let src := [ESC_CHR; 91; 32; 49; 109; 65] in
  strip_control_sequence_ex STRIP_ALL src = Some [65] /\
  strip_control_sequence_ex ONLY_COLOR src = Some [49; 109; 65].
Proof. split; reflexivity. Qed.

(** *** Path names *)

Definition allowed (c : Z) : bool := isalnum c || existsb (Z.eqb c) pname_symbols.

(** A component: not empty, not only dots, letters, digits and a few symbols. *)
Definition component (a : list Z) : bool :=
  (0 <? length a)%nat && negb (forallb (Z.eqb 46) a) && forallb allowed a.

(** Components separated by slashes; a slash may end the name. *)
Inductive pname : list Z -> Prop :=
  | pname_nil : pname []
  | pname_last a : component a = true -> pname a
  | pname_cons a s : component a = true -> pname s -> pname (a ++ 47 :: s).

Lemma run_dots a b :
  (b = [] \/ exists c b', b = c :: b' /\ c = 47) ->
  (run_len (Z.eqb 46) (a ++ b) =? length a)%nat = forallb (Z.eqb 46) a.
Proof.
  intros Hb. induction a as [|c a IH]; cbn [app run_len length forallb].
  - rewrite run_len_stop; [done|]. destruct Hb as [->|(c & b' & -> & ->)]; done.
  - destruct (46 =? c); [|done]. cbn. exact IH.
Qed.

Lemma allowed_components a : forallb allowed a = true -> Forall (fun c => negb (c =? 47) = true) a.
Proof.
  rewrite forallb_forall, list.Forall_forall. intros H c Hc.
  apply list_elem_of_In, H in Hc. apply negb_true_iff, Z.eqb_neq. now intros ->.
Qed.

Lemma forallb_existsb {A} (f : A -> bool) l : existsb (fun x => negb (f x)) l = negb (forallb f l).
Proof. induction l as [|x l IH]; cbn; [done|]. rewrite IH. now destruct (f x). Qed.

(** One round of the loop, on a name cut at its first slash. *)
Lemma invalid_pname_round fuel a b :
  Forall (fun c => negb (c =? 47) = true) a -> cchar (a ++ b) 0 <> 0 ->
  (b = [] \/ exists b', b = 47 :: b') ->
  invalid_pname_loop (S fuel) (a ++ b) =
    if component a then invalid_pname_loop fuel (drop 1 b) else true.
Proof.
  intros Ha H0 Hb. cbn [invalid_pname_loop]. if_false.
  assert (Hn : pname_len (a ++ b) = length a).
  { unfold pname_len. rewrite run_len_app by done.
    destruct Hb as [->|(b' & ->)]; cbn; lia. }
  rewrite Hn, take_app_length, drop_app_length, run_dots
    by (destruct Hb as [->|(b' & ->)]; eauto).
  replace (drop (if cchar b 0 =? 0 then 0%nat else 1%nat) b) with (drop 1 b)
    by (destruct Hb as [->|(b' & ->)]; done).
  replace (existsb _ a) with (negb (forallb allowed a)); cycle 1.
  { rewrite <- forallb_existsb. clear. induction a as [|c a IH]; cbn; [done|].
    rewrite IH. unfold allowed. now rewrite negb_orb. }
  unfold component. destruct a as [|c a]; [done|]. cbn [length Nat.ltb Nat.leb andb].
  destruct (forallb (Z.eqb 46) (c :: a)); [done|]. cbn [negb andb].
  now destruct (forallb allowed (c :: a)).
Qed.

Lemma slash_none a a' s :
  Forall (fun c => negb (c =? 47) = true) a -> a = a' ++ 47 :: s -> False.
Proof. intros H ->. apply list.Forall_app in H as [_ H]. now inversion H. Qed.

Lemma slash_unique a b a' b' :
  Forall (fun c => negb (c =? 47) = true) a -> Forall (fun c => negb (c =? 47) = true) a' ->
  a ++ 47 :: b = a' ++ 47 :: b' -> a = a' /\ b = b'.
Proof.
  intros Ha. revert a'. induction Ha as [|c a Hc _ IH]; intros [|c' a'] Ha' E; cbn in E.
  - now injection E.
  - injection E as <- E. now inversion Ha'.
  - injection E as -> E. done.
  - injection E as <- E. inversion_clear Ha'. destruct (IH a') as [-> ->]; done.
Qed.

Lemma component_no_slash a : component a = true -> Forall (fun c => negb (c =? 47) = true) a.
Proof. unfold component. intros H. zbool. now apply allowed_components. Qed.

(** A path name is accepted exactly when it is a sequence of components: no
    leading slash, no empty component, none of dots only, so none that leads
    out of the directory. *)
Theorem invalid_pname_spec s :
  Forall (fun c => c <> 0) s -> invalid_pname s = false <-> pname s.
Proof.
  unfold invalid_pname. intros H0.
  enough (G : forall fuel s, (length s < fuel)%nat -> Forall (fun c => c <> 0) s ->
    invalid_pname_loop fuel s = false <-> pname s) by (apply G; [lia|done]).
  clear. induction fuel as [|fuel IH]; intros s Hf H0; [lia|].
  destruct s as [|c0 s0] eqn:Es; [cbn; split; [constructor|done]|]. rewrite <- Es in *.
  assert (Hc : cchar s 0 <> 0) by (subst s; now inversion H0). clear Es c0 s0.
  destruct (run_split (fun c => negb (c =? 47)) s) as (a & b & -> & _ & Ha & Hb).
  assert (Hb' : b = [] \/ exists b', b = 47 :: b').
  { destruct Hb as [->|(c & b' & -> & Hcc)]; [by left|right]. cbn in Hcc. zbool. subst. eauto. }
  rewrite invalid_pname_round by done. clear Hb.
  destruct (component a) eqn:Ec; cycle 1.
  - split; [done|]. intros Hp. exfalso. inversion Hp as [E|a' Ha' E|a' s' Ha' Hs' E].
    + symmetry in E. apply app_eq_nil in E as [-> ->]. now destruct Hc.
    + subst a'. destruct Hb' as [->|(b' & ->)]; [rewrite app_nil_r in Ha'; congruence|].
      exact (slash_none _ _ _ (component_no_slash _ Ha') eq_refl).
    + destruct Hb' as [->|(b' & ->)].
      * rewrite app_nil_r in E. symmetry in E. exact (slash_none _ _ _ Ha E).
      * apply slash_unique in E as [-> ->]; [congruence|now apply component_no_slash|done].
  - destruct Hb' as [->|(b' & ->)]; cbn [drop]; rewrite ?drop_0.
    + rewrite app_nil_r in *. destruct fuel; [|cbn]; (split; [intros _; now constructor|done]).
    + rewrite IH; [|rewrite length_app in Hf; cbn in Hf; lia|
        apply list.Forall_app in H0 as [_ H0]; now inversion H0].
      split; [now constructor|]. intros Hp. inversion Hp as [E|a' Ha' E|a' s' Ha' Hs' E].
      * symmetry in E. now apply app_eq_nil in E as [_ E].
      * subst a'. destruct (slash_none _ _ _ (component_no_slash _ Ha') eq_refl).
      * apply slash_unique in E as [-> ->]; [done|now apply component_no_slash|done].
Qed.

(** *** Prefixes and suffixes *)

Lemma str_starts_with_spec s p :
  Forall (fun c => c <> 0) p -> str_starts_with s p = true <-> exists r, s = p ++ r.
Proof.
  intros Hp. revert s. induction Hp as [|c p Hc _ IH]; intros s; cbn [str_starts_with].
  - split; [eauto|done].
  - destruct s as [|x s]; cbn [drop app].
    + rewrite cchar_nil. if_true. split; [done|]. now intros [r E].
    + rewrite cchar_0, drop_0. destruct (c =? x) eqn:E; zbool; cbn [negb].
      * subst x. rewrite IH. split; intros [r Hr]; exists r; cbn in *; congruence.
      * split; [done|]. intros [r Hr]. cbn in Hr. congruence.
Qed.

Lemma str_ends_with_spec s p :
  str_ends_with (Some s) (Some p) = true <-> exists r, s = r ++ p.
Proof.
  cbn [str_ends_with]. case_if H.
  - split; [done|]. intros [r ->]. exfalso. zlia.
  - unfold str_eqb. rewrite bool_decide_eq_true. split.
    + intros E. exists (take (Z.to_nat (zlen s - zlen p)) s). rewrite <- E at 2.
      now rewrite take_drop.
    + intros [r ->]. replace (zlen (r ++ p) - zlen p) with (zlen r) by zlia.
      apply drop_zlen_app.
Qed.

(** *** Concrete instances *)

Lemma strip_pieces_witness :
  strip_control_sequence_ex NO_RELOAD
    (pieces [Text 65; Csi [49; 59; 51] [] 109; Osc [48] true; Csi [] [] 72;
             Csi [63] [] 108; Charset 40 66; Text 66])
  = Some (pieces [Text 65; Csi [49; 59; 51] [] 109; Csi [] [] 72; Text 66]).
Proof. apply (strip_pieces NO_RELOAD). apply (bool_decide_unpack _). by vm_compute. Defined.

Lemma skip_scan_agree_witness :
  skip_control_sequence [ESC_CHR; 91; 49; 32; 109; 65] = [65].
Proof. apply (skip_scan_agree [ESC_CHR; 91; 49; 32; 109; 65]). reflexivity. Defined.

Lemma invalid_pname_spec_witness :
  invalid_pname (str "man/M.1/G") = false <-> pname (str "man/M.1/G").
Proof. apply invalid_pname_spec. apply (bool_decide_unpack _). by vm_compute. Defined.

End StrProps.
