(* ===== verification/Mime.v ===== *)
(** MIME encoded words: [qp_encode], [mmdecode], [str_iconv], [mime_charset_name]
    and [str_decode_M3] of [common/sys/string.c].

    A write outside of a buffer, a failed assertion, and a loop that does not
    end make the operation [None].  iconv(3) is an argument. *)

From Stdlib Require Import String.
From S2P Require Import Prelude Cstr Str Utf8.

#[global] Open Scope list_scope.

Module Mime.
Import Cstr Str.

(** *** Encoding *)

Definition MimeSpecials : list Z := str "@.,;:<>[]\" ++ [34] ++ str "()?/= " ++ [9].
Definition hex : list Z := str "0123456789ABCDEF".

(** The characters the loop writes for one character. *)
Definition qp_char (c : Z) : option (list Z) :=
  if c =? 32 then Some [95]
  else if (0x7f <=? c) || (c <? 0x20) || (c =? 95) || existsb (Z.eqb c) MimeSpecials then
    h ← zget hex (Z.shiftr (Z.land c 0xf0) 4);
    l ← zget hex (Z.land c 0x0f);
    Some [61; h; l]
  else Some [c].

(** [s] is the buffer, of [slen] bytes, and [pos] is [s - s0]. *)
Fixpoint qp_loop (blk : list Z) (slen pos : Z) (d : list Z) : option (list Z * Z) :=
  match d with
  | [] => Some (blk, pos)
  | c :: d =>
      if pos + 6 <? slen then
        w ← qp_char c;
        blk ← mem_write blk pos w;
        qp_loop blk slen (pos + zlen w) d
      else Some (blk, pos)
  end.

Definition qp_encode (s : list Z) (slen : Z) (d tocode : list Z) : option (list Z) :=
  s ← mem_write s 0 (str "=?");
  s ← mem_write s 2 tocode;
  let pos := 2 + zlen tocode in
  s ← mem_write s pos (str "?Q?");
  let pos := pos + 3 in
  if pos + 3 <? slen then
    r ← qp_loop s slen pos d;
    let '(s, pos) := r in
    mem_write s pos (str "?=" ++ [0])
  else None.

(** *** Decoding *)

Definition qp_code (x : Z) : Z :=
  if between 48 57 x then x - 48
  else if between 97 102 x then x - 97 + 10
  else if between 65 70 x then x - 65 + 10
  else -1.

Definition base64_code (x : Z) : Z :=
  if between 65 90 x then x - 65
  else if between 97 122 x then x - 97 + 26
  else if between 48 57 x then x - 48 + 52
  else if x =? 43 then 62
  else if x =? 47 then 63
  else -1.

Definition isreturn (c : Z) : bool := (c =? 13) || (c =? 10).

(** The decoders give what they write to [dst], [None] for a result of -1. *)
Fixpoint mmdecode_q (fuel : nat) (src t : list Z) (dstlen : Z) : option (list Z) :=
  match fuel with
  | O => None
  | S fuel =>
      let c := cchar src 0 in
      if (c =? 0) || (c =? 63) then Some t
      else if dstlen <=? zlen t then Some t
      else if c =? 61 then
        let x := cchar src 1 in
        let y := if x =? 0 then 0 else cchar src 2 in
        if isreturn x then mmdecode_q fuel (drop 2 src) t dstlen
        else if (qp_code x <? 0) || (qp_code y <? 0) then None
        else mmdecode_q fuel (drop 3 src)
               (t ++ [u8 (Z.shiftl (qp_code x) 4 + qp_code y)]) dstlen
      else if c =? 95 then mmdecode_q fuel (drop 1 src) (t ++ [32]) dstlen
      else mmdecode_q fuel (drop 1 src) (t ++ [c]) dstlen
  end.

Fixpoint mmdecode_b (src t : list Z) (dstlen pattern bits : Z) : list Z :=
  match src with
  | [] => t
  | c :: src =>
      if c =? 63 then t
      else if dstlen <=? zlen t then t
      else
        let x := base64_code c in
        if x <? 0 then mmdecode_b src t dstlen pattern bits
        else
          let pattern := Z.lor (u32 (Z.shiftl pattern 6)) x in
          let bits := bits + 6 in
          if 8 <=? bits then
            let bits := bits - 8 in
            mmdecode_b src (t ++ [Z.land (Z.shiftr pattern bits) 0xff]) dstlen pattern bits
          else mmdecode_b src t dstlen pattern bits
  end.

(** The value of [encode] is an [unsigned char]. *)
Definition mmdecode (src : list Z) (encode dstlen : Z) : option (list Z) :=
  let encode := Z.lor encode 0x20 in
  if encode =? 113 then mmdecode_q (S (length src)) src [] dstlen
  else if encode =? 98 then Some (mmdecode_b src [] dstlen 0 0)
  else None.

(** *** Charsets *)

Definition known : list (list Z * list Z) :=
  [(str "usascii", str "US-ASCII"); (str "ascii", str "US-ASCII");
   (str "utf8", str "UTF-8");
   (str "big5", str "BIG5"); (str "big5hkscs", str "BIG5-HKSCS"); (str "cp950", str "CP950");
   (str "gb2312", str "GB2312"); (str "gbk", str "GBK"); (str "gb18030", str "GB18030");
   (str "euctw", str "EUC-TW");
   (str "windows1252", str "CP1252"); (str "cp1252", str "CP1252");
   (str "latin1", str "ISO-8859-1")].

Definition SZ_KEY : Z := 32.

(** The loop that builds [key]. *)
Fixpoint charset_key (key cs : list Z) : option (list Z) :=
  match cs with
  | [] => Some key
  | c :: cs =>
      if c =? 42 then Some key
      else if (c =? 45) || (c =? 95) then charset_key key cs
      else if SZ_KEY <=? zlen key + 1 then None
      else charset_key (key ++ [tolower c]) cs
  end.

Fixpoint lookup_key (k : list Z) (l : list (list Z * list Z)) : option (list Z) :=
  match l with
  | [] => None
  | (key, name) :: l => if str_eqb k key then Some name else lookup_key k l
  end.

(** The digits of iso-8859-N. *)
Fixpoint charset_digits (d : list Z) (v : Z) : option Z :=
  match d with
  | [] => Some v
  | c :: d => if negb (isdigit c) then None else charset_digits d (v * 10 + (c - 48))
  end.

(** [snprintf] cuts the name to [outlen - 1] characters. *)
Definition mime_charset_name (cs : list Z) (outlen : Z) : option (list Z) :=
  key ← charset_key [] cs;
  match lookup_key key known with
  | Some name => Some name
  | None =>
      if prefix_b (str "iso8859") key then
        let d := drop 7 key in
        if (cchar d 0 =? 0) || (2 <? zlen d) then None
        else
          v ← charset_digits d 0;
          if (v <? 1) || (16 <? v) then None
          else Some (strlcpy outlen (str "ISO-8859-" ++ fmt_d v))
      else None
  end.

(** *** iconv(3) *)

Inductive iconv_errno := EILSEQ | EINVAL | E2BIG | EOTHER.

(** What a call did: the error if it returned -1, the bytes it took from [src]
    and the bytes it put in [dst]. *)
Record iconv_step := IconvStep
  { ic_err : option iconv_errno; ic_used : nat; ic_out : list Z }.

(** [iconv_open] by the two names, [None] when it fails.  A call may depend on
    the state the earlier ones left, which the number of the call stands for. *)
Section Iconv.
Variable iconv_open : list Z -> list Z -> option (nat -> list Z -> Z -> iconv_step).

(** The loop of [str_iconv]: what is written to [dst], in [dstlen] bytes. *)
Fixpoint iconv_loop (fuel n : nat) (iconv : nat -> list Z -> Z -> iconv_step)
  (src out : list Z) (dstlen : Z) : option (list Z) :=
  match fuel with
  | O => None
  | S fuel =>
      if (0 <? zlen src) && (0 <? dstlen) then
        let r := iconv n src dstlen in
        let src := drop (ic_used r) src in
        let out := out ++ ic_out r in
        let dstlen := dstlen - zlen (ic_out r) in
        match ic_err r with
        | None => iconv_loop fuel (S n) iconv src out dstlen
        | Some EILSEQ | Some EINVAL =>
            if dstlen =? 0 then Some out
            else c ← zget src 0;
                 iconv_loop fuel (S n) iconv (drop 1 src) (out ++ [c]) (dstlen - 1)
        | Some _ => Some out
        end
      else Some out
  end.

(** The bytes written before the NUL; the return value is their number.  With
    [dstlen = 0] not even the NUL is written. *)
Definition str_iconv (fromcode tocode src : list Z) (dstlen : Z) : option (list Z) :=
  if dstlen =? 0 then Some []
  else
    let dstlen := dstlen - 1 in
    match iconv_open tocode fromcode with
    | None => Some (take (Z.to_nat (Z.min (zlen src) dstlen)) src)
    | Some iconv => iconv_loop (S (length src)) 0 iconv src [] dstlen
    end.

End Iconv.

(** *** [str_decode_M3]

    [src], [tmp] and [ws] are positions in [s], the string; [out] is what the
    buffer holds up to [dst], and a pointer into it is a length. *)

Definition SZ_BUF : Z := 512.

(** [*dst++ = ...], within [buf]. *)
Definition buf_put (out w : list Z) : option (list Z) :=
  if zlen out + zlen w <=? SZ_BUF then Some (out ++ w) else None.

Record m3 := M3
  { src : Z; out : list Z; adj : bool; ws : option Z; lastlead : option Z }.

Definition is_big5_char (s : list Z) (i : Z) : bool :=
  Utf8.big5_is_valid_lead (cchar s i) && Utf8.big5_is_valid_trail (cchar s (i + 1)).

(** Two characters are copied, and then one. *)
Definition copy_pair (s : list Z) (st : m3) : option m3 :=
  o ← buf_put (out st) [cchar s (src st); cchar s (src st + 1)];
  Some (M3 (src st + 2) o (adj st) (ws st) None).

Definition copy_one (s : list Z) (st : m3) : option m3 :=
  let c := cchar s (src st) in
  o ← buf_put (out st) [c];
  Some (M3 (src st + 1) o (adj st) (ws st)
          (if Utf8.big5_is_valid_lead c then Some (zlen o) else None)).

(** The branch for a character other than =; the flag is false on [break]. *)
Definition m3_plain (s : list Z) (cap : Z) (st : m3) : option (m3 * bool) :=
  let tmp := src st +
    (if adj st then Z.of_nat (run_len isspace (drop (Z.to_nat (src st)) s)) else 0) in
  if adj st && (cchar s tmp =? 61) then
    Some (M3 tmp (out st) false (Some (src st)) (lastlead st), true)
  else if is_big5_char s (src st) then
    if cap - 1 <? zlen (out st) + 2 then Some (st, false)
    else st ← copy_pair s st; Some (st, true)
  else st ← copy_one s st; Some (st, true).

(** The loop that copies a run up to [tmp]. *)
Fixpoint copy_run (fuel : nat) (s : list Z) (cap tmp : Z) (st : m3) : option m3 :=
  if (src st =? tmp) || (cap - 1 <=? zlen (out st)) then Some st else
  match fuel with
  | O => None
  | S fuel =>
      if is_big5_char s (src st) && negb (src st + 1 =? tmp) then
        if cap - 1 <? zlen (out st) + 2 then Some st
        else st ← copy_pair s st; copy_run fuel s cap tmp st
      else st ← copy_one s st; copy_run fuel s cap tmp st
  end.

(** A decoded word must not bring in control characters. *)
Definition clean (c : Z) : Z := if (c <? 0x20) || (c =? 0x7f) then 32 else c.

Section Decode.
Variable iconv_open : list Z -> list Z -> option (nat -> list Z -> Z -> iconv_step).

(** The text of a decoded word, at most [room - 1] bytes. *)
Definition m3_convert (charset d1 : list Z) (room : Z) : option (list Z) :=
  match mime_charset_name charset 16 with
  | Some cs => str_iconv iconv_open cs (str "big5") d1 room
  | None => Some (if room - 1 <? zlen d1 then take (Z.to_nat (room - 1)) d1 else d1)
  end.

(** The end of an encoded word whose text starts at [tmp]. *)
Definition word_end (s : list Z) (tmp : Z) : Z :=
  let tmp := tmp + Z.of_nat (run_len (fun c => negb (c =? 63)) (drop (Z.to_nat tmp) s)) in
  let tmp := if cchar s tmp =? 0 then tmp else tmp + 1 in
  if cchar s tmp =? 61 then tmp + 1 else tmp.

(** The branch for =: the new state and [tmp]. *)
Definition m3_coded (s : list Z) (cap : Z) (st : m3) : option (m3 * Z) :=
  let tmp := src st + 1 in
  if cchar s tmp =? 63 then
    let tmp := tmp + 1 in
    let name := take (run_len (fun c => negb (c =? 63)) (drop (Z.to_nat tmp) s))
                     (drop (Z.to_nat tmp) s) in
    let tmp := tmp + zlen name in
    let charset := strlcpy SZ_BUF name in
    if negb (cchar s tmp =? 0) && negb (cchar s (tmp + 1) =? 0) && (cchar s (tmp + 2) =? 63)
    then
      match mmdecode (drop (Z.to_nat (tmp + 3)) s) (cchar s (tmp + 1)) SZ_BUF with
      | Some d1 =>
          w ← m3_convert charset d1 (cap - zlen (out st));
          o ← buf_put (out st) (map clean w);
          let tmp := word_end s (tmp + 3) in
          Some (M3 tmp o true (ws st) None, tmp)
      | None => Some (st, tmp)
      end
    else Some (st, tmp)
  else Some (st, tmp).

(** The whole branch: a run that is not an encoded word is copied. *)
Definition m3_word (s : list Z) (cap : Z) (st : m3) : option m3 :=
  r ← m3_coded s cap st;
  let '(st, tmp) := r in
  let from := match ws st with
              | Some w => if negb (src st =? tmp) then w else src st
              | None => src st
              end in
  copy_run (length s) s cap tmp (M3 from (out st) (adj st) None (lastlead st)).

Fixpoint m3_loop (fuel : nat) (s : list Z) (cap : Z) (st : m3) : option m3 :=
  if (cchar s (src st) =? 0) || (cap - 1 <=? zlen (out st)) then Some st else
  match fuel with
  | O => None
  | S fuel =>
      if negb (cchar s (src st) =? 61) then
        r ← m3_plain s cap st;
        let '(st, go) := r in
        if (go : bool) then m3_loop fuel s cap st else Some st
      else st ← m3_word s cap st; m3_loop fuel s cap st
  end.

(** The string left in [s], a buffer of [size] bytes. *)
Definition str_decode_M3 (s : list Z) (size : Z) : option (list Z) :=
  if size =? 0 then Some s
  else
    let cap := if size <? SZ_BUF then size else SZ_BUF in
    st ← m3_loop (S (length s)) s cap (M3 0 [] false None None);
    let o := match lastlead st with
             | Some l => if l =? zlen (out st) then take (length (out st) - 1) (out st) else out st
             | None => out st
             end in
    if zlen o + 1 <=? size then Some o else None.

End Decode.
End Mime.
