(* ===== verification/MimeProps.v ===== *)
(** What the encoder and the decoders of MIME words do. *)

From Stdlib Require Import String.
From S2P Require Import Prelude Cstr Str Utf8 Mime StrProps.

#[global] Open Scope list_scope.

Module MimeProps.
Import Cstr Str Mime StrProps.

(** *** Quoted-printable *)

Definition enc (c : Z) : list Z := default [] (qp_char c).

Definition is_char (c : Z) : Prop := 1 <= c <= 255.

(** What the encoder writes for a character, and how the decoder reads it back. *)
Definition qp_ok (c : Z) : bool :=
  bool_decide (qp_char c = Some (enc c)) &&
  match enc c with
  | [a] => negb (a =? 0) && negb (a =? 63) && negb (a =? 61) &&
           (if a =? 95 then c =? 32 else a =? c)
  | [a; h; l] => (a =? 61) && negb (h =? 0) && negb (h =? 63) && negb (h =? 13) && negb (h =? 10) &&
           negb (l =? 63) && negb (l =? 0) && (0 <=? qp_code h) && (0 <=? qp_code l) &&
           (u8 (Z.shiftl (qp_code h) 4 + qp_code l) =? c)
  | _ => false
  end.

Lemma qp_ok_char c : is_char c -> qp_ok c = true.
Proof.
  intros H. assert (G : forallb qp_ok (seqZ 1 255) = true) by (vm_compute; reflexivity).
  apply (proj1 (forallb_forall _ _) G), list_elem_of_In, elem_of_seqZ.
  unfold is_char in H. lia.
Qed.

Lemma qp_char_enc c : is_char c -> qp_char c = Some (enc c).
Proof. intros H. apply qp_ok_char in H. unfold qp_ok in H. zbool. by eapply bool_decide_eq_true. Qed.

Lemma enc_length c : is_char c -> 1 <= zlen (enc c) <= 3.
Proof.
  intros H. apply qp_ok_char in H. unfold qp_ok in H. zbool.
  destruct (enc c) as [|? [|? [|? [|? ?]]]]; try done; zlia.
Qed.

(** None of the characters it writes ends the word. *)
Lemma enc_plain c : is_char c -> Forall (fun x => negb (x =? 63) = true /\ x <> 0) (enc c).
Proof.
  intros H. apply qp_ok_char in H. unfold qp_ok in H. zbool.
  destruct (enc c) as [|? [|? [|? [|? ?]]]]; try done; zbool; subst;
    repeat constructor; try done; apply negb_true_iff, Z.eqb_neq; lia.
Qed.

Lemma mmdecode_q_enc fuel c r t dstlen :
  is_char c -> zlen t < dstlen ->
  mmdecode_q (S fuel) (enc c ++ r) t dstlen = mmdecode_q fuel r (t ++ [c]) dstlen.
Proof.
  intros H Ht. apply qp_ok_char in H. unfold qp_ok in H. zbool.
  destruct (enc c) as [|a [|h [|l [|? ?]]]]; try done; zbool; cbn [app mmdecode_q]; cbn zeta.
  - rewrite cchar_0. do 3 if_false. destruct (a =? 95) eqn:E; zbool; subst; done.
  - subst a. rewrite cchar_0, cchar_1. do 2 if_false. cbn [Z.eqb Pos.eqb].
    if_false.
    destruct (isreturn h) eqn:Er; [unfold isreturn in Er; zbool; lia|].
    replace (h =? 0) with false by (symmetry; now apply Z.eqb_neq).
    change (cchar (61 :: h :: l :: r) 2) with l. if_false.
    cbn [drop]. rewrite drop_0. congruence.
Qed.

Definition encs (d : list Z) : list Z := flat_map enc d.

Lemma mmdecode_q_encs d fuel r t dstlen :
  Forall is_char d -> zlen t + zlen d <= dstlen -> (length d <= fuel)%nat ->
  mmdecode_q fuel (encs d ++ r) t dstlen = mmdecode_q (fuel - length d) r (t ++ d) dstlen.
Proof.
  intros H. revert fuel t. induction H as [|c d Hc _ IH]; intros fuel t Ht Hf.
  - cbn. now rewrite Nat.sub_0_r, app_nil_r.
  - destruct fuel as [|fuel]; [cbn in Hf; lia|].
    cbn [encs flat_map]. fold (encs d). rewrite <- app_assoc, mmdecode_q_enc by (done || zlia).
    rewrite IH; [|zlia|cbn in Hf; lia]. now rewrite <- app_assoc.
Qed.

Lemma encs_length d : Forall is_char d -> zlen d <= zlen (encs d) <= 3 * zlen d.
Proof.
  induction 1 as [|c d Hc _ IH]; [done|]. cbn [encs flat_map]. fold (encs d).
  pose proof (enc_length c Hc). zlia.
Qed.

(** An encoded word decodes to its text. *)
Lemma mmdecode_encs d r e dstlen :
  Forall is_char d -> zlen d <= dstlen -> (e = 81 \/ e = 113) ->
  mmdecode (encs d ++ 63 :: r) e dstlen = Some d.
Proof.
  intros Hd Hl He. unfold mmdecode.
  replace (Z.lor e 0x20) with 113 by (destruct He as [->| ->]; done). cbn [Z.eqb Pos.eqb].
  pose proof (encs_length d Hd) as Hlen. unfold zlen in Hlen.
  rewrite mmdecode_q_encs; [|done|zlia|rewrite length_app; lia].
  rewrite length_app. cbn [length].
  destruct (S _ - _)%nat as [|fuel] eqn:E; [lia|]. cbn [mmdecode_q app]. now rewrite cchar_0.
Qed.

(** The characters of an encoded text: none is a NUL or ends the word. *)
Lemma encs_plain d :
  Forall is_char d -> Forall (fun x => negb (x =? 63) = true /\ x <> 0) (encs d).
Proof.
  induction 1 as [|c d Hc _ IH]; [constructor|]. apply list.Forall_app; split; [|exact IH].
  now apply enc_plain.
Qed.

Lemma split_at {A} (l : list A) n :
  0 <= n <= zlen l -> exists a b, l = a ++ b /\ zlen a = n.
Proof.
  intros H. exists (take (Z.to_nat n) l), (drop (Z.to_nat n) l).
  rewrite take_drop. split; [done|]. rewrite zlen_take. lia.
Qed.

(** The loop encodes as many characters as the buffer has room for. *)
Lemma qp_loop_spec d a b slen :
  Forall is_char d -> slen = zlen (a ++ b) -> zlen a + 3 < slen ->
  exists k b', qp_loop (a ++ b) slen (zlen a) d = Some (a ++ encs (take k d) ++ b', zlen (a ++ encs (take k d))) /\
    3 < zlen b' /\ zlen (a ++ encs (take k d) ++ b') = slen /\
    (zlen a + 3 * zlen d + 3 < slen -> take k d = d).
Proof.
  intros Hd. revert a b. induction Hd as [|c d Hc Hd IH]; intros a b Hs Ha; cbn [qp_loop].
  - exists 0%nat, b. cbn. rewrite app_nil_r. split_and!; try done. revert Hs; zlia.
  - case_if Hr; cycle 1.
    { exists 0%nat, b. cbn [take encs flat_map app]. rewrite app_nil_r.
      split_and!; try done; [zlia|]. intros. exfalso. zlia. }
    rewrite qp_char_enc by done. cbn [mbind option_bind].
    pose proof (enc_length c Hc) as Hl.
    assert (exists b1 b2, b = b1 ++ b2 /\ zlen b1 = zlen (enc c)) as (b1 & b2 & -> & Hb1).
    { exists (take (length (enc c)) b), (drop (length (enc c)) b). rewrite take_drop.
      split; [done|]. rewrite zlen_take. revert Hs. unfold zlen in *. rewrite length_app. lia. }
    rewrite (mem_write_app a b1 b2) by done. cbn [mbind option_bind].
    replace (zlen a + zlen (enc c)) with (zlen (a ++ enc c)) by zlia.
    rewrite app_assoc. destruct (IH (a ++ enc c) b2) as (k & b' & -> & H1 & H2 & H3).
    { revert Hs. zlia. } { zlia. }
    exists (S k), b'. cbn [take encs flat_map]. fold (encs (take k d)).
    rewrite <- !app_assoc in *. split_and!; try done. intros. f_equal. apply H3. zlia.
Qed.

Lemma qp_encode_spec s slen d tocode r dstlen :
  Forall is_char d -> slen = zlen s -> zlen tocode + 8 < slen -> zlen d <= dstlen ->
  exists w d' b', qp_encode s slen d tocode =
      Some (str "=?" ++ tocode ++ str "?Q?" ++ w ++ str "?=" ++ [0] ++ b') /\
    zlen (str "=?" ++ tocode ++ str "?Q?" ++ w ++ str "?=" ++ [0] ++ b') = slen /\
    Forall (fun x => negb (x =? 63) = true /\ x <> 0) w /\
    d' `prefix_of` d /\ mmdecode (w ++ str "?=" ++ r) 81 dstlen = Some d' /\
    (zlen tocode + 8 + 3 * zlen d < slen -> d' = d).
Proof.
  intros Hd Hs Hroom Hdst. unfold qp_encode.
  assert (E2 : zlen (str "=?") = 2) by done. assert (E3 : zlen (str "?Q?") = 3) by done. assert (E4 : zlen (str "?=") = 2) by done.
  set (h := str "=?" ++ tocode ++ str "?Q?").
  assert (Hh : zlen h = zlen tocode + 5) by (unfold h; zlia).
  destruct (split_at s 2) as (s1 & s' & -> & H1); [zlia|].
  destruct (split_at s' (zlen tocode)) as (s2 & s'' & -> & H2); [zlia|].
  destruct (split_at s'' 3) as (s3 & b & -> & H3); [zlia|].
  rewrite mem_write_head by (rewrite H1; done). cbn [mbind option_bind].
  rewrite mem_write_app by done. cbn [mbind option_bind].
  rewrite !(app_assoc (str "=?")), mem_write_app by (zlia || done). cbn [mbind option_bind].
  if_true.
  replace ((str "=?" ++ tocode) ++ str "?Q?" ++ b) with (h ++ b)
    by (unfold h; now rewrite <- !app_assoc).
  replace (2 + zlen tocode + 3) with (zlen h) by lia.
  destruct (qp_loop_spec d h b slen Hd) as (k & b' & -> & Hb' & Hl & Hall); [zlia..|].
  cbn [mbind option_bind].
  destruct (split_at b' 3) as (b1 & b2 & -> & Hb1); [lia|].
  rewrite app_assoc, mem_write_app by done.
  exists (encs (take k d)), (take k d), b2. split_and!.
  - unfold h. now rewrite <- !app_assoc.
  - revert Hl Hb1. unfold h. zlia.
  - apply encs_plain. now apply list.Forall_take.
  - apply prefix_take.
  - apply mmdecode_encs; [now apply list.Forall_take| |by left].
    rewrite zlen_take. lia.
  - intros. apply Hall. lia.
Qed.

(** An encoded word stays in its buffer, ends in a NUL, and decodes to the
    longest prefix of the text that had room: to the whole text when the buffer
    has three bytes for every character. *)
Theorem qp_encode_decodes s slen d tocode r dstlen :
  Forall is_char d -> slen = zlen s -> zlen tocode + 8 < slen -> zlen d <= dstlen ->
  exists w d' b', qp_encode s slen d tocode =
      Some (str "=?" ++ tocode ++ str "?Q?" ++ w ++ str "?=" ++ [0] ++ b') /\
    zlen (str "=?" ++ tocode ++ str "?Q?" ++ w ++ str "?=" ++ [0] ++ b') = slen /\
    Forall (fun x => negb (x =? 63) = true /\ x <> 0) w /\
    d' `prefix_of` d /\ mmdecode (w ++ str "?=" ++ r) 81 dstlen = Some d' /\
    (zlen tocode + 8 + 3 * zlen d < slen -> d' = d).
Proof. apply qp_encode_spec. Qed.

(** The fuel of the decoder is enough: a result of [None] is the -1 of the code. *)
Lemma mmdecode_q_fuel src f1 f2 t dstlen :
  (length src < f1)%nat -> (length src < f2)%nat ->
  mmdecode_q f1 src t dstlen = mmdecode_q f2 src t dstlen.
Proof.
  revert f2 src t. induction f1 as [|f1 IH]; intros [|f2] src t H1 H2; try lia.
  cbn [mmdecode_q]. cbn zeta. destruct src as [|c src]; [done|].
  assert (Hd : forall k, (length (drop (S k) (c :: src)) <= length src)%nat)
    by (intros k; rewrite length_drop; cbn; lia).
  cbn [length] in *. pose proof (Hd 0%nat). pose proof (Hd 1%nat). pose proof (Hd 2%nat).
  rewrite cchar_0. destruct (_ || _); [done|]. destruct (dstlen <=? zlen t); [done|].
  destruct (c =? 61).
  - destruct (isreturn _); [apply IH; lia|]. destruct (_ || _); [done|]. apply IH; lia.
  - destruct (c =? 95); apply IH; lia.
Qed.

(** *** Base64 *)

(** The reference encoder (RFC 4648). *)
Definition b64_chr (x : Z) : Z :=
  default 0 (zget (str "ABCDEFGHIJKLMNOPQRSTUVWXYZabcdefghijklmnopqrstuvwxyz0123456789+/") x).

Fixpoint b64_encode (bs : list Z) : list Z :=
  match bs with
  | a :: b :: c :: bs =>
      [b64_chr (a / 4); b64_chr (a mod 4 * 16 + b / 16);
       b64_chr (b mod 16 * 4 + c / 64); b64_chr (c mod 64)] ++ b64_encode bs
  | [a; b] => [b64_chr (a / 4); b64_chr (a mod 4 * 16 + b / 16); b64_chr (b mod 16 * 4); 61]
  | [a] => [b64_chr (a / 4); b64_chr (a mod 4 * 16); 61; 61]
  | [] => []
  end.

Lemma base64_code_chr x : 0 <= x < 64 -> base64_code (b64_chr x) = x /\ b64_chr x <> 63.
Proof.
  intros H. assert (G : forallb (fun x => (base64_code (b64_chr x) =? x) && negb (b64_chr x =? 63))
    (seqZ 0 64) = true) by (vm_compute; reflexivity).
  pose proof (proj1 (forallb_forall _ _) G x) as G1. cbn beta in G1.
  rewrite <- list_elem_of_In, elem_of_seqZ in G1. specialize (G1 ltac:(lia)). zbool. done.
Qed.

(** The pattern after one more code. *)
Definition shift_in (p x : Z) : Z := Z.lor (u32 (Z.shiftl p 6)) x.

Lemma shift_in_mod p x :
  0 <= x < 64 -> shift_in p x mod 2 ^ 12 = (p mod 64) * 64 + x.
Proof.
  intros H. unfold shift_in, u32. rewrite Z.shiftl_mul_pow2 by lia.
  replace ((p * 2 ^ 6) mod 2 ^ 32) with (p mod 2 ^ 26 * 2 ^ 6); cycle 1.
  { change (2 ^ 32) with (2 ^ 26 * 2 ^ 6). rewrite Z.mul_mod_distr_r by lia. done. }
  rewrite lor_add by lia. Z.to_euclidean_division_equations; lia.
Qed.

Lemma land_ff p b : 0 <= b -> Z.land (Z.shiftr p b) 0xff = (p / 2 ^ b) mod 256.
Proof.
  intros. rewrite Z.shiftr_div_pow2 by done. change 0xff with (Z.ones 8).
  now rewrite Z.land_ones by lia.
Qed.

(** One code, with the bits that are pending. *)
Lemma mmdecode_b_step x r t dstlen p bits :
  0 <= x < 64 -> zlen t < dstlen ->
  mmdecode_b (b64_chr x :: r) t dstlen p bits =
    if 8 <=? bits + 6 then
      mmdecode_b r (t ++ [(shift_in p x / 2 ^ (bits - 2)) mod 256]) dstlen (shift_in p x) (bits - 2)
    else mmdecode_b r t dstlen (shift_in p x) (bits + 6).
Proof.
  intros Hx Ht. destruct (base64_code_chr x Hx) as [E Hne]. cbn [mmdecode_b]. rewrite E.
  do 3 if_false. cbn zeta. fold (shift_in p x). case_if H; [|done].
  replace (bits + 6 - 8) with (bits - 2) by lia. now rewrite land_ff by lia.
Qed.

(** The byte that two codes [x], [y] give when [k] bits stay pending. *)
Lemma shift_in_byte p x y k v :
  0 <= x < 64 -> 0 <= y < 64 -> (k = 4 \/ k = 2 \/ k = 0) ->
  p mod 64 = x -> v = ((x * 64 + y) / 2 ^ k) mod 256 ->
  (shift_in p y / 2 ^ k) mod 256 = v /\ shift_in p y mod 64 = y.
Proof.
  intros Hx Hy Hk Hp ->. pose proof (shift_in_mod p y Hy) as E. rewrite Hp in E.
  revert E. generalize (shift_in p y). intros q E.
  destruct Hk as [->|[->| ->]]; cbn [Z.pow] in *; Z.to_euclidean_division_equations; lia.
Qed.

Lemma shift_in_low p x : 0 <= x < 64 -> shift_in p x mod 64 = x.
Proof.
  intros Hx. pose proof (shift_in_mod p x Hx) as E. revert E. generalize (shift_in p x).
  intros q E. Z.to_euclidean_division_equations; lia.
Qed.

Definition is_byte (b : Z) : Prop := 0 <= b < 256.

(** A first and a second code: one byte. *)
Lemma mmdecode_b_two a x y r t dstlen p :
  0 <= x < 64 -> 0 <= y < 64 -> a = x * 4 + y / 16 -> zlen t < dstlen ->
  exists q, q mod 64 = y /\
    mmdecode_b (b64_chr x :: b64_chr y :: r) t dstlen p 0 = mmdecode_b r (t ++ [a]) dstlen q 4.
Proof.
  intros Hx Hy Ha Ht. rewrite mmdecode_b_step by done. if_false.
  rewrite mmdecode_b_step by done. if_true.
  exists (shift_in (shift_in p x) y). split; [now apply shift_in_low|].
  destruct (shift_in_byte (shift_in p x) x y 4 a) as [E _];
    [done|done|by left|now apply shift_in_low| |now rewrite <- E].
  subst a. Z.to_euclidean_division_equations; lia.
Qed.

(** A third, and a fourth: a byte each. *)
Lemma mmdecode_b_next a x y r t dstlen p bits :
  0 <= x < 64 -> 0 <= y < 64 -> p mod 64 = x -> (bits = 4 \/ bits = 2) ->
  a = ((x * 64 + y) / 2 ^ (bits - 2)) mod 256 -> zlen t < dstlen ->
  exists q, q mod 64 = y /\
    mmdecode_b (b64_chr y :: r) t dstlen p bits = mmdecode_b r (t ++ [a]) dstlen q (bits - 2).
Proof.
  intros Hx Hy Hp Hb Ha Ht. rewrite mmdecode_b_step by done. if_true.
  destruct (shift_in_byte p x y (bits - 2) a) as [E E']; [done|done|lia|done|done|].
  exists (shift_in p y). split; [done|]. now rewrite E.
Qed.

(** Padding is skipped; the end of the word ends the decoder. *)
Lemma mmdecode_b_pad n r t dstlen p bits :
  mmdecode_b (replicate n 61 ++ 63 :: r) t dstlen p bits = t.
Proof. induction n as [|n IH]; cbn; [done|]. case_match; [done|]. exact IH. Qed.

Ltac b64_side :=
  solve [done | zlia | cbn; Z.to_euclidean_division_equations; lia].

Lemma mmdecode_b_encode bs r t dstlen p :
  Forall is_byte bs -> zlen t + zlen bs <= dstlen ->
  mmdecode_b (b64_encode bs ++ 63 :: r) t dstlen p 0 = t ++ bs.
Proof.
  unfold is_byte.
  revert bs t p. fix IH 1. intros [|a [|b [|c bs]]] t p Hbs Hl.
  - cbn. now rewrite app_nil_r.
  - inversion_clear Hbs. cbn [b64_encode app].
    destruct (mmdecode_b_two a (a / 4) (a mod 4 * 16) (61 :: 61 :: 63 :: r) t dstlen p) as (q & _ & ->);
      try b64_side.
    exact (mmdecode_b_pad 2 _ _ _ _ _).
  - inversion_clear Hbs as [|? ? Ha Hbs']. inversion_clear Hbs' as [|? ? Hb _]. cbn [b64_encode app].
    destruct (mmdecode_b_two a (a / 4) (a mod 4 * 16 + b / 16) (b64_chr (b mod 16 * 4) :: 61 :: 63 :: r) t dstlen p) as (q & Hq & ->);
      try b64_side.
    destruct (mmdecode_b_next b (a mod 4 * 16 + b / 16) (b mod 16 * 4) (61 :: 63 :: r) (t ++ [a]) dstlen q 4) as (q' & _ & ->);
      try b64_side.
    etrans; [exact (mmdecode_b_pad 1 _ _ _ _ _)|]. now rewrite <- app_assoc.
  - inversion_clear Hbs as [|? ? Ha Hbs']. inversion_clear Hbs' as [|? ? Hb Hbs]. inversion_clear Hbs as [|? ? Hc Hbs'].
    cbn [b64_encode app].
    destruct (mmdecode_b_two a (a / 4) (a mod 4 * 16 + b / 16)
      (b64_chr (b mod 16 * 4 + c / 64) :: b64_chr (c mod 64) :: b64_encode bs ++ 63 :: r) t dstlen p) as (q & Hq & ->);
      try b64_side.
    destruct (mmdecode_b_next b (a mod 4 * 16 + b / 16) (b mod 16 * 4 + c / 64)
      (b64_chr (c mod 64) :: b64_encode bs ++ 63 :: r) (t ++ [a]) dstlen q 4) as (q' & Hq' & ->);
      try b64_side.
    destruct (mmdecode_b_next c (b mod 16 * 4 + c / 64) (c mod 64) (b64_encode bs ++ 63 :: r)
      ((t ++ [a]) ++ [b]) dstlen q' (4 - 2)) as (q'' & _ & ->);
      try b64_side.
    rewrite IH; [now rewrite <- !app_assoc|done|zlia].
Qed.

(** A base64 word decodes to the bytes a standard encoder was given. *)
Theorem base64_decodes bs r e dstlen :
  Forall is_byte bs -> zlen bs <= dstlen -> (e = 66 \/ e = 98) ->
  mmdecode (b64_encode bs ++ str "?=" ++ r) e dstlen = Some bs.
Proof.
  intros Hbs Hl He. unfold mmdecode.
  replace (Z.lor e 0x20) with 98 by (destruct He as [->| ->]; done). cbn [Z.eqb Pos.eqb].
  f_equal. now apply (mmdecode_b_encode bs (61 :: r) []).
Qed.

(** *** iconv(3), as documented *)

(** A call takes no more than the source and writes no more than the room; when
    it succeeds it took everything; when it stops at a bad or incomplete
    character, that character is left. *)
Class IconvLaws (iconv_open : list Z -> list Z -> option (nat -> list Z -> Z -> iconv_step)) :=
  iconv_law : forall tocode fromcode ic n src dstlen,
    iconv_open tocode fromcode = Some ic -> src <> [] -> 0 < dstlen ->
    let r := ic n src dstlen in
    (ic_used r <= length src)%nat /\ zlen (ic_out r) <= dstlen /\
    match ic_err r with
    | None => ic_used r = length src
    | Some EILSEQ | Some EINVAL => (ic_used r < length src)%nat
    | Some _ => True
    end.

Section Decoding.
Context {iconv_open} {laws : IconvLaws iconv_open}.

Lemma iconv_loop_bounded tocode fromcode ic fuel n s o dstlen :
  iconv_open tocode fromcode = Some ic -> (length s < fuel)%nat -> 0 <= dstlen ->
  exists w, iconv_loop fuel n ic s o dstlen = Some (o ++ w) /\ zlen w <= dstlen.
Proof.
  intros Ho. revert n s o dstlen. induction fuel as [|fuel IH]; intros n s o dstlen Hf Hd; [lia|].
  cbn [iconv_loop]. cbn zeta.
  case_if Hc; [|exists []; rewrite app_nil_r; split; [done|zlia]].
  assert (s <> []) as Hs by (intros ->; done).
  destruct (laws tocode fromcode ic n s dstlen Ho Hs) as (H1 & H2 & H3); [done|].
  set (r := ic n s dstlen) in *.
  assert (Hstep : forall s' w, (length s' < fuel)%nat -> zlen w <= dstlen ->
    exists w', iconv_loop fuel (S n) ic s' (o ++ w) (dstlen - zlen w) = Some (o ++ w') /\ zlen w' <= dstlen).
  { intros s' w Hs' Hw. destruct (IH (S n) s' (o ++ w) (dstlen - zlen w) Hs' ltac:(lia)) as (w' & -> & Hw').
    exists (w ++ w'). rewrite app_assoc. split; [done|zlia]. }
  assert (Hstop : exists w', Some (o ++ ic_out r) = Some (o ++ w') /\ zlen w' <= dstlen) by eauto.
  assert (Hbad : (ic_used r < length s)%nat ->
    exists w', (if dstlen - zlen (ic_out r) =? 0 then Some (o ++ ic_out r)
      else c ← zget (drop (ic_used r) s) 0;
           iconv_loop fuel (S n) ic (drop 1 (drop (ic_used r) s)) ((o ++ ic_out r) ++ [c])
             (dstlen - zlen (ic_out r) - 1)) = Some (o ++ w') /\ zlen w' <= dstlen).
  { intros Hu. case_if He; [done|].
    destruct (drop (ic_used r) s) as [|c s'] eqn:Ed.
    { apply (f_equal length) in Ed. rewrite length_drop in Ed. cbn in Ed. lia. }
    change (zget (c :: s') 0) with (Some c). cbn [mbind option_bind drop].
    rewrite drop_0, <- app_assoc.
    replace (dstlen - zlen (ic_out r) - 1) with (dstlen - zlen (ic_out r ++ [c])) by zlia.
    apply Hstep; [|zlia]. apply (f_equal length) in Ed. rewrite length_drop in Ed. cbn in Ed. lia. }
  destruct (ic_err r) as [[]|]; auto. apply Hstep; [|done]. rewrite length_drop. assert (0 < length s)%nat by (clear - Hs; destruct s; [done|cbn; lia]). lia.
Qed.

Lemma str_iconv_bounded fromcode tocode s dstlen :
  0 < dstlen ->
  exists w, str_iconv iconv_open fromcode tocode s dstlen = Some w /\ zlen w <= dstlen - 1.
Proof.
  intros Hd. unfold str_iconv. if_false. cbn zeta. destruct (iconv_open tocode fromcode) as [ic|] eqn:E.
  - apply (iconv_loop_bounded tocode fromcode ic _ 0 s [] _ E); lia.
  - eexists; split; [done|]. zlia.
Qed.

Lemma m3_convert_bounded charset d1 room :
  0 < room -> exists w, m3_convert iconv_open charset d1 room = Some w /\ zlen w <= room - 1.
Proof.
  intros H. unfold m3_convert. destruct (mime_charset_name charset 16).
  - now apply str_iconv_bounded.
  - eexists; split; [done|]. case_if Hc; [zlia|lia].
Qed.

(** *** [str_decode_M3] ends within its buffers *)

Context (s : list Z) (cap : Z).
Hypothesis s_chars : Forall (fun c => c <> 0) s.
Hypothesis cap_range : 0 < cap <= SZ_BUF.

Record m3_ok (st : m3) : Prop :=
  { ok_src : 0 <= src st <= zlen s;
    ok_out : zlen (out st) <= cap - 1;
    ok_chars : Forall (fun c => c <> 0) (out st);
    ok_ws : match ws st with Some w => 0 <= w <= src st | None => True end }.

(** No room for the character at [src]. *)
Definition stuck (st : m3) : Prop :=
  is_big5_char s (src st) = true /\ cap - 1 < zlen (out st) + 2.

Lemma cchar_nonzero i : 0 <= i -> cchar s i <> 0 -> i < zlen s.
Proof.
  intros H0 H. unfold cchar, zget in H. destruct (0 <=? i) eqn:E; [|done].
  destruct (s !! Z.to_nat i) eqn:El; [|done]. apply lookup_lt_Some in El. unfold zlen. lia.
Qed.

Lemma cchar_in i : 0 <= i < zlen s -> cchar s i <> 0.
Proof.
  intros H. unfold cchar, zget. if_true.
  destruct (lookup_lt_is_Some_2 s (Z.to_nat i)) as [c Hc]; [unfold zlen in *; lia|].
  rewrite Hc. cbn. rewrite list.Forall_forall in s_chars. eapply s_chars, list_elem_of_lookup_2, Hc.
Qed.

Lemma big5_char_in i : 0 <= i -> is_big5_char s i = true -> i + 1 < zlen s.
Proof.
  intros H. unfold is_big5_char, Utf8.big5_is_valid_trail. intros E. zbool.
  apply cchar_nonzero; [lia|]. intros E. rewrite E in *. change (u8 0) with 0 in *. lia.
Qed.

Lemma buf_put_ok o w :
  zlen o + zlen w <= cap - 1 -> buf_put o w = Some (o ++ w).
Proof. intros. unfold buf_put. now if_true. Qed.

Lemma copy_pair_ok st :
  m3_ok st -> 0 <= src st -> src st + 1 < zlen s -> zlen (out st) + 2 <= cap - 1 ->
  exists st', copy_pair s st = Some st' /\ m3_ok st' /\ src st' = src st + 2 /\
    adj st' = adj st /\ ws st' = ws st.
Proof.
  intros [H1 H2 H3 H4] H0 Hs Ho. unfold copy_pair. rewrite buf_put_ok by zlia.
  cbn [mbind option_bind]. eexists. split; [done|]. split_and!; try done. constructor; cbn; try lia; try zlia.
  - apply list.Forall_app; split; [done|]. repeat constructor; apply cchar_in; lia.
  - destruct (ws st); [lia|done].
Qed.

Lemma copy_one_ok st :
  m3_ok st -> src st < zlen s -> zlen (out st) < cap - 1 ->
  exists st', copy_one s st = Some st' /\ m3_ok st' /\ src st' = src st + 1 /\
    adj st' = adj st /\ ws st' = ws st.
Proof.
  intros [H1 H2 H3 H4] Hs Ho. unfold copy_one. cbn zeta. rewrite buf_put_ok by zlia.
  cbn [mbind option_bind]. eexists. split; [done|]. split_and!; try done. constructor; cbn; try lia; try zlia.
  - apply list.Forall_app; split; [done|]. repeat constructor; apply cchar_in; lia.
  - destruct (ws st); [lia|done].
Qed.

Lemma copy_run_ok fuel tmp st :
  m3_ok st -> src st <= tmp <= zlen s -> tmp - src st <= Z.of_nat fuel ->
  exists st', copy_run fuel s cap tmp st = Some st' /\ m3_ok st' /\ adj st' = adj st /\
    ws st' = ws st /\ src st <= src st' <= tmp /\
    (src st' = tmp \/ cap - 1 <= zlen (out st') \/ stuck st').
Proof.
  revert st. induction fuel as [|fuel IH]; intros st Hok Ht Hf; cbn [copy_run].
  - if_true. exists st. split_and!; try done; try lia.
  - case_if Hc; [exists st; split_and!; try done; lia|].
    pose proof (ok_src _ Hok).
    case_if Hb.
    + pose proof (big5_char_in (src st)). case_if Hr.
      * exists st. split_and!; try done; [lia|]. right; right; split; [done|lia].
      * destruct (copy_pair_ok st) as (st1 & -> & Hok1 & Hs1 & Ha1 & Hw1); [done|lia|lia|lia|].
        cbn [mbind option_bind]. destruct (IH st1) as (st' & -> & ? & ? & ? & ? & ?); [done|lia|lia|].
        exists st'. split_and!; try done; try congruence; lia.
    + destruct (copy_one_ok st) as (st1 & -> & Hok1 & Hs1 & Ha1 & Hw1); [done|lia|lia|].
      cbn [mbind option_bind]. destruct (IH st1) as (st' & -> & ? & ? & ? & ? & ?); [done|lia|lia|].
      exists st'. split_and!; try done; try congruence; lia.
Qed.

(** Every branch goes on to a later character, or there is no room for it. *)
Definition progress (st st' : m3) : Prop :=
  src st < src st' \/ cap - 1 <= zlen (out st') \/ stuck st'.

Lemma run_in f i : 0 <= i <= zlen s ->
  i + Z.of_nat (run_len f (drop (Z.to_nat i) s)) <= zlen s.
Proof.
  intros H. pose proof (run_len_le f (drop (Z.to_nat i) s)) as Hr.
  rewrite length_drop in Hr. unfold zlen in *. lia.
Qed.

Lemma m3_plain_ok st :
  m3_ok st -> src st < zlen s -> cchar s (src st) <> 61 -> zlen (out st) < cap - 1 ->
  exists st' go, m3_plain s cap st = Some (st', go) /\ m3_ok st' /\
    (if go : bool then src st < src st' else True).
Proof.
  intros Hok Hs H61 Ho. pose proof (ok_src _ Hok). unfold m3_plain. cbn zeta.
  set (n := if adj st then _ else 0).
  assert (Hn : 0 <= n /\ src st + n <= zlen s)
    by (unfold n; destruct (adj st); [split; [lia|apply run_in; lia]|lia]).
  case_if Ht.
  - eexists _, _. split_and!; [done| |cbn].
    + destruct Hok. constructor; cbn; try done; lia.
    + assert (n <> 0); [intros E; rewrite E, Z.add_0_r in *; done|lia].
  - case_if Hb.
    + pose proof (big5_char_in (src st) ltac:(lia) Hb). case_if Hr; [eexists _, _; split_and!; done|].
       destruct (copy_pair_ok st) as (st1 & -> & Hok1 & Hs1 & _); [done|lia..|].
      eexists _, _. cbn [mbind option_bind]. split_and!; try done; cbn; lia.
    + destruct (copy_one_ok st) as (st1 & -> & Hok1 & Hs1 & _); [done|lia..|].
      eexists _, _. cbn [mbind option_bind]. split_and!; try done; cbn; lia.
Qed.

Lemma clean_nonzero w : Forall (fun c => c <> 0) (map clean w).
Proof.
  apply list.Forall_forall. intros c Hc. apply list_elem_of_In, in_map_iff in Hc as (x & <- & _).
  unfold clean. case_if H; [done|]. lia.
Qed.

Lemma word_end_in i : 0 <= i <= zlen s -> i <= word_end s i <= zlen s.
Proof.
  intros H. unfold word_end. cbn zeta. pose proof (run_in (fun c => negb (c =? 63)) i H).
  set (j := i + _) in *. assert (i <= j) by (unfold j; lia).
  assert (Hj : (if cchar s j =? 0 then j else j + 1) <= zlen s).
  { case_if E; [lia|]. pose proof (cchar_nonzero j). lia. }
  assert (j <= (if cchar s j =? 0 then j else j + 1)) by (case_if E; lia).
  set (k := if cchar s j =? 0 then j else j + 1) in *.
  case_if E; [|lia]. pose proof (cchar_nonzero k). lia.
Qed.

Lemma m3_coded_ok st :
  m3_ok st -> src st < zlen s -> zlen (out st) < cap - 1 ->
  exists st' tmp, m3_coded iconv_open s cap st = Some (st', tmp) /\ m3_ok st' /\
    src st < tmp <= zlen s /\ (src st' = tmp \/ st' = st).
Proof.
  intros Hok Hs Ho. pose proof (ok_src _ Hok). unfold m3_coded. cbn zeta.
  case_if Hq; [|eexists _, _; split_and!; [done|done|lia|lia|by right]].
  pose proof (cchar_nonzero (src st + 1)).
  set (name := take _ _). assert (Hname : zlen name = Z.of_nat (run_len (fun c => negb (c =? 63))
    (drop (Z.to_nat (src st + 1 + 1)) s))).
  { unfold name. rewrite zlen_take. pose proof (run_len_le (fun c => negb (c =? 63))
      (drop (Z.to_nat (src st + 1 + 1)) s)). unfold zlen. lia. }
  pose proof (run_in (fun c => negb (c =? 63)) (src st + 1 + 1)).
  set (tmp := src st + 1 + 1 + zlen name) in *.
  assert (Htmp : src st < tmp <= zlen s) by (unfold tmp; lia).
  case_if Hw; [|eexists _, _; split_and!; [done|done|lia|lia|by right]].
  pose proof (cchar_nonzero (tmp + 2)).
  destruct (mmdecode _ _ _) as [d1|]; [|eexists _, _; split_and!; [done|done|lia|lia|by right]].
  destruct (m3_convert_bounded (strlcpy SZ_BUF name) d1 (cap - zlen (out st))) as (w & -> & Hwl); [lia|].
  cbn [mbind option_bind]. rewrite buf_put_ok by zlia. cbn [mbind option_bind].
  pose proof (word_end_in (tmp + 3)).
  eexists _, _. split_and!; [done| |lia|lia|by left].
  destruct Hok. constructor; cbn; try zlia.
  - apply list.Forall_app; split; [done|apply clean_nonzero].
  - destruct (ws st); [lia|done].
Qed.

Lemma m3_word_ok st :
  m3_ok st -> src st < zlen s -> zlen (out st) < cap - 1 ->
  exists st', m3_word iconv_open s cap st = Some st' /\ m3_ok st' /\ progress st st'.
Proof.
  intros Hok Hs Ho. unfold m3_word.
  destruct (m3_coded_ok st Hok Hs Ho) as (st1 & tmp & -> & Hok1 & Htmp & Hsrc).
  cbn [mbind option_bind]. set (from := match ws st1 with Some _ => _ | None => _ end).
  pose proof (ok_src _ Hok1). pose proof (ok_src _ Hok).
  assert (Hfrom : 0 <= from <= tmp).
  { assert (src st1 <= tmp) by (destruct Hsrc as [?| ->]; lia).
    pose proof (ok_ws _ Hok1). unfold from. destruct (ws st1); [|lia]. case_if E; lia. }
  destruct (copy_run_ok (length s) tmp (M3 from (out st1) (adj st1) None (lastlead st1)))
    as (st' & E & Hok' & _ & _ & Hr & Hend).
  - destruct Hok1. constructor; cbn; try done; lia.
  - cbn. lia.
  - cbn. unfold zlen in *. lia.
  - exists st'. split_and!; [done..|]. unfold progress. cbn in Hr. intuition lia.
Qed.

(** A state with no room for its character ends the loop. *)
Lemma stuck_ends fuel st :
  m3_ok st -> stuck st -> m3_loop iconv_open (S fuel) s cap st = Some st.
Proof.
  intros Hok [Hb Hr]. cbn [m3_loop]. case_if Hc; [done|].
  pose proof Hb as Hb'. unfold is_big5_char, Utf8.big5_is_valid_lead in Hb'. zbool.
  assert (H61 : cchar s (src st) <> 61)
    by (intros E; rewrite E in *; change (u8 61) with 61 in *; lia).
  replace (cchar s (src st) =? 61) with false by (symmetry; now apply Z.eqb_neq). cbn [negb].
  assert (Hn : run_len isspace (drop (Z.to_nat (src st)) s) = 0%nat).
  { apply run_len_stop. rewrite cchar_drop by apply (ok_src _ Hok).
    unfold isspace. destruct (_ || _) eqn:E; [|done]. zbool. exfalso.
    assert (u8 (cchar s (src st)) = cchar s (src st)) by (apply Z.mod_small; lia). lia. }
  unfold m3_plain. cbn zeta. rewrite Hn.
  replace (src st + (if adj st then Z.of_nat 0 else 0)) with (src st) by (destruct (adj st); cbn; lia).
  replace (cchar s (src st) =? 61) with false by (symmetry; now apply Z.eqb_neq).
  rewrite andb_false_r, Hb. now if_true.
Qed.

Lemma m3_loop_ok fuel st :
  m3_ok st -> zlen s - src st < Z.of_nat fuel ->
  exists st', m3_loop iconv_open fuel s cap st = Some st' /\ m3_ok st'.
Proof.
  revert st. induction fuel as [|fuel IH]; intros st Hok Hf.
  { pose proof (ok_src _ Hok). lia. }
  cbn [m3_loop]. case_if Hc; [by exists st|].
  pose proof (ok_src _ Hok). pose proof (cchar_nonzero (src st)).
  case_if Heq.
  - destruct (m3_plain_ok st) as (st' & go & -> & Hok' & Hgo); [done|lia..|].
    cbn [mbind option_bind]. destruct go; [|by exists st']. apply IH; [done|lia].
  - destruct (m3_word_ok st) as (st' & -> & Hok' & Hp); [done|lia..|destruct Hp as [Hp|[Hp|Hp] ] ];
      cbn [mbind option_bind].
    + apply IH; [done|lia].
    + destruct fuel as [|fuel]; [lia|]. exists st'. split; [|done]. cbn [m3_loop]. now if_true.
    + destruct fuel as [|fuel]; [lia|]. exists st'. split; [|done]. now apply stuck_ends.
Qed.

End Decoding.


(** *** Words in headers *)

Lemma drop_app_at {A} (a b : list A) i : i = zlen a -> drop (Z.to_nat i) (a ++ b) = b.
Proof. intros ->. apply drop_zlen_app. Qed.

Lemma run_to_mark a r :
  Forall (fun x => negb (x =? 63) = true) a ->
  run_len (fun c => negb (c =? 63)) (a ++ 63 :: r) = length a.
Proof. intros H. rewrite run_len_app by done. rewrite run_len_stop by done. lia. Qed.

(** An encoded word: its charset, its encoding and its text. *)
Definition word (tocode : list Z) (e : Z) (t : list Z) : list Z :=
  str "=?" ++ tocode ++ [63; e; 63] ++ t ++ str "?=".

Lemma m3_coded_word iconv_open tocode e t d cap w :
  Forall (fun x => negb (x =? 63) = true) tocode ->
  Forall (fun x => negb (x =? 63) = true) t -> e <> 0 ->
  mmdecode (t ++ str "?=") e SZ_BUF = Some d ->
  m3_convert iconv_open (strlcpy SZ_BUF tocode) d cap = Some w -> zlen w <= SZ_BUF ->
  m3_coded iconv_open (word tocode e t) cap (M3 0 [] false None None) =
    Some (M3 (zlen (word tocode e t)) (map clean w) true None None, zlen (word tocode e t)).
Proof.
  intros Hc Ht He Hd Hw Hl. set (s := word tocode e t).
  assert (E2 : zlen (str "=?") = 2) by done.
  set (p := 2 + zlen tocode).
  assert (D2 : drop (Z.to_nat 2) s = tocode ++ 63 :: e :: 63 :: t ++ str "?=").
  { now apply (drop_app_at (str "=?")). }
  assert (D3 : drop (Z.to_nat (p + 3)) s = t ++ str "?=").
  { replace s with ((str "=?" ++ tocode ++ [63; e; 63]) ++ t ++ str "?=")
      by (unfold s, word; now rewrite <- !app_assoc).
    apply drop_app_at. unfold p. zlia. }
  assert (C0 : cchar s p = 63 /\ cchar s (p + 1) = e /\ cchar s (p + 2) = 63).
  { replace s with ((str "=?" ++ tocode) ++ 63 :: e :: 63 :: t ++ str "?=")
      by (unfold s, word; now rewrite <- !app_assoc).
    split_and!; [rewrite (cchar_app_r _ _ _ 0)|rewrite (cchar_app_r _ _ _ 1)|
      rewrite (cchar_app_r _ _ _ 2)]; unfold p; try done; zlia. }
  destruct C0 as (C0 & C1 & C2).
  unfold m3_coded. cbn [src out ws adj lastlead]. change (0 + 1) with 1. change (1 + 1) with 2.
  change (cchar s 1) with 63. cbn [Z.eqb Pos.eqb]. cbn zeta.
  rewrite D2, run_to_mark, take_app_length by done. fold p.
  rewrite C0, C1, C2, D3, Hd. replace (e =? 0) with false by (symmetry; now apply Z.eqb_neq).
  cbn [Z.eqb Pos.eqb negb andb].
  change (zlen (@nil Z)) with 0. rewrite Z.sub_0_r, Hw. cbn [mbind option_bind].
  unfold buf_put. if_true. cbn [mbind option_bind app].
  replace (word_end s (p + 3)) with (zlen s); [done|].
  unfold word_end. rewrite D3. change (str "?=") with [63; 61]. rewrite run_to_mark by done. cbn zeta.
  assert (Ez : zlen s = p + 3 + zlen t + 2) by (unfold s, word, p; change (str "?=") with [63; 61]; zlia).
  assert (G : forall k, 0 <= k -> cchar s (p + 3 + zlen t + k) = cchar [63; 61] k).
  { intros k Hk. replace s with ((str "=?" ++ tocode ++ [63; e; 63] ++ t) ++ [63; 61])
      by (unfold s, word; now rewrite <- !app_assoc).
    apply cchar_app_r; [done|]. unfold p. zlia. }
  change (Z.of_nat (length t)) with (zlen t).
  pose proof (G 0) as G0. pose proof (G 1) as G1. rewrite Z.add_0_r in G0.
  rewrite G0 by lia. cbn [cchar Z.eqb Pos.eqb]. change (cchar [63; 61] 0 =? 0) with false. cbv iota.
  rewrite G1 by lia. change (cchar [63; 61] 1 =? 61) with true. cbv iota. lia.
Qed.


Lemma str_decode_M3_word iconv_open tocode e t d size w :
  Forall (fun x => negb (x =? 63) = true) tocode ->
  Forall (fun x => negb (x =? 63) = true) t -> e <> 0 -> 1 < size ->
  mmdecode (t ++ str "?=") e SZ_BUF = Some d ->
  m3_convert iconv_open (strlcpy SZ_BUF tocode) d (Z.min size SZ_BUF) = Some w ->
  zlen w <= Z.min size SZ_BUF - 1 ->
  str_decode_M3 iconv_open (word tocode e t) size = Some (map clean w).
Proof.
  intros Hc Ht He Hsize Hd Hw Hl. unfold str_decode_M3. if_false. cbn zeta.
  replace (if size <? SZ_BUF then size else SZ_BUF) with (Z.min size SZ_BUF) by (case_if E; lia).
  set (s := word tocode e t) in *. set (cap := Z.min size SZ_BUF) in *.
  assert (Hcap : 1 < cap) by (unfold cap, SZ_BUF; lia).
  assert (Hs : 2 <= zlen s) by (unfold s, word; change (str "=?") with [61; 63]; zlia).
  cbn [m3_loop src out]. change (cchar s 0) with 61. cbn [Z.eqb Pos.eqb negb orb].
  change (zlen (@nil Z)) with 0. if_false.
  unfold m3_word. pose proof (m3_coded_word iconv_open tocode e t d cap w Hc Ht He Hd Hw) as Hco.
  fold s in Hco. rewrite Hco by (unfold cap in *; lia). cbn [mbind option_bind ws src out adj lastlead].
  replace (copy_run _ _ _ _ _) with (Some (M3 (zlen s) (map clean w) true None None))
    by (destruct (length s); cbn [copy_run src]; now rewrite Z.eqb_refl).
  cbn [mbind option_bind].
  assert (Hend : cchar s (zlen s) = 0).
  { unfold cchar, zget, zlen. if_true. rewrite Nat2Z.id, (proj2 (lookup_ge_None s _)) by done. done. }
  replace (m3_loop _ _ _ _ _) with (Some (M3 (zlen s) (map clean w) true None None))
    by (destruct (length s); cbn [m3_loop src]; now rewrite Hend).
  cbn [mbind option_bind lastlead out]. now if_true.
Qed.

Lemma plain_chars l : Forall (fun x => negb (x =? 63) = true /\ x <> 0) l ->
  Forall (fun x => negb (x =? 63) = true) l /\ c_string l.
Proof. intros H. split; (eapply List.Forall_impl; [|exact H]); now intros x []. Qed.

(** C36. A header word made by [qp_encode] in a buffer with room for it decodes to
    its text, converted from its charset and with control characters blanked;
    to the text itself, cut to the buffer, when the charset is none of those
    that are converted. *)
Theorem header_roundtrip iconv_open s d tocode size :
  IconvLaws iconv_open -> Forall is_char d -> zlen d <= 512 ->
  Forall (fun x => negb (x =? 63) = true /\ x <> 0) tocode -> zlen tocode < 512 ->
  zlen tocode + 8 + 3 * zlen d < zlen s -> 1 < size ->
  exists blk w, qp_encode s (zlen s) d tocode = Some blk /\
    str_decode_M3 iconv_open (cstring blk) size = Some (map clean w) /\
    match mime_charset_name tocode 16 with
    | Some cs => str_iconv iconv_open cs (str "big5") d (Z.min size 512) = Some w
    | None => w = take (Z.to_nat (Z.min size 512 - 1)) d
    end.
Proof.
  intros laws Hd Hdl Htc Htl Hroom Hsize.
  destruct (plain_chars tocode Htc) as [Hq H0].
  destruct (qp_encode_spec s (zlen s) d tocode [] 512 Hd eq_refl) as
    (t & d' & b' & -> & _ & Ht & _ & Hdec & Hall); [zlia|done|].
  rewrite Hall in Hdec by done. destruct (plain_chars t Ht) as [Htq Ht0].
  change (mmdecode (t ++ str "?=") 81 SZ_BUF = Some d) in Hdec.
  assert (Hlc : strlcpy SZ_BUF tocode = tocode)
    by (unfold strlcpy; apply take_ge; unfold SZ_BUF, zlen in *; lia).
  destruct (m3_convert_bounded (laws := laws) tocode d (Z.min size SZ_BUF)) as (w & Hw & Hwl);
    [unfold SZ_BUF; lia|].
  eexists _, w. split_and!; [done| |].
  - replace (str "=?" ++ _) with (word tocode 81 t ++ 0 :: b')
      by (unfold word; now rewrite <- !app_assoc).
    rewrite cstring_app.
    + apply (str_decode_M3_word _ _ _ _ d); try done. now rewrite Hlc.
    + unfold word, c_string. repeat (apply list.Forall_app; split); try done;
        repeat constructor; done.
  - unfold m3_convert in Hw. destruct (mime_charset_name tocode 16); [exact Hw|].
    injection Hw as <-. change SZ_BUF with 512. case_if E; [done|]. symmetry. apply take_ge.
    unfold zlen in *. lia.
Qed.

(** *** Concrete instances *)

(** A conversion between charsets that agree: it copies. *)
Definition copy_iconv (n : nat) (src : list Z) (dstlen : Z) : iconv_step :=
  if zlen src <=? dstlen then IconvStep None (length src) src
  else IconvStep (Some E2BIG) (Z.to_nat dstlen) (take (Z.to_nat dstlen) src).

Definition copy_iconv_open (to from : list Z) : option (nat -> list Z -> Z -> iconv_step) :=
  Some copy_iconv.

#[global] Instance copy_iconv_laws : IconvLaws copy_iconv_open.
Proof.
  intros to from ic n src dstlen [= <-] Hs Hd. cbn zeta. unfold copy_iconv. case_if E; cbn.
  - split_and!; [done|lia|done].
  - split_and!; [unfold zlen in *; lia|zlia|done].
Qed.

Lemma qp_encode_decodes_witness :
  exists w d' b', qp_encode (replicate 40 0) 40 (str "a b=" ++ [200; 13]) (str "big5") =
      Some (str "=?" ++ str "big5" ++ str "?Q?" ++ w ++ str "?=" ++ [0] ++ b') /\
    zlen (str "=?" ++ str "big5" ++ str "?Q?" ++ w ++ str "?=" ++ [0] ++ b') = 40 /\
    Forall (fun x => negb (x =? 63) = true /\ x <> 0) w /\
    d' `prefix_of` (str "a b=" ++ [200; 13]) /\
    mmdecode (w ++ str "?=" ++ []) 81 512 = Some d' /\
    (zlen (str "big5") + 8 + 3 * zlen (str "a b=" ++ [200; 13]) < 40 ->
     d' = str "a b=" ++ [200; 13]).
Proof.
  apply (qp_encode_decodes (replicate 40 0) 40 _ (str "big5") [] 512); try done.
  apply (bool_decide_unpack _). by vm_compute.
Defined.

Lemma base64_decodes_witness :
  mmdecode (b64_encode [164; 164; 164; 229; 33] ++ str "?=" ++ [32]) 98 512
  = Some [164; 164; 164; 229; 33].
Proof.
  apply (base64_decodes [164; 164; 164; 229; 33] [32] 98 512).
  - apply (bool_decide_unpack _). by vm_compute.
  - done.
  - by right.
Defined.


Lemma header_roundtrip_witness :
  exists blk w, qp_encode (replicate 60 0) 60 [164; 164; 32; 65] (str "Big5") = Some blk /\
    str_decode_M3 copy_iconv_open (cstring blk) 64 = Some (map clean w) /\
    match mime_charset_name (str "Big5") 16 with
    | Some cs => str_iconv copy_iconv_open cs (str "big5") [164; 164; 32; 65] (Z.min 64 512) = Some w
    | None => w = take (Z.to_nat (Z.min 64 512 - 1)) [164; 164; 32; 65]
    end.
Proof.
  apply (header_roundtrip copy_iconv_open (replicate 60 0)); try done;
    try apply copy_iconv_laws; apply (bool_decide_unpack _); by vm_compute.
Defined.

(** A word in a charset that is not converted can be cut in the middle of a
    Big5 character. *)
Example half_character :
  str_decode_M3 copy_iconv_open (str "=?x?B?pKQ=?=") 2 = Some [164].
Proof. vm_compute. reflexivity. Qed.

End MimeProps.
