(* ===== verification/Mbs.v ===== *)
(** Multibyte strings ([common/sys/string.c], [include/multibyte.h]).

    The build selects one of the two codecs with [MB_IS_UTF8]; here a codec is
    an instance of [MbCodec], and the functions are defined for any of them.
    The width table of [wcwidth.c], a third-party file, is an argument. *)

From Stdlib Require Import String.
From S2P Require Import Prelude Cstr Str Utf8 Vtkbd.

#[global] Open Scope list_scope.

Module Mbs.
Import Cstr Str.

(** *** The codec interface: the [mb_*] macros *)

Class MbCodec (C : Type) :=
  { mb_is_utf8 : bool;
    mb_fresh : C;
    mb_init : C -> option C;
    mb_reset : C -> option C;
    mb_is_error : C -> bool;
    mb_pending : C -> Z;
    mb_is_ready : C -> bool;
    mb_get_char : C -> C * Z;
    mb_add_byte : C -> Z -> option (C * bool);
    mb_from_char : C -> Z -> option (C * Z);
    mb_to_str : C -> option (list Z * Z);
    mb_buf : C -> list Z;
    mb_len : C -> Z }.

(** A context on the stack, before [mb_init]. *)
#[global] Instance utf8_codec : MbCodec Utf8.utf8_ctx :=
  {| mb_is_utf8 := true; mb_fresh := Utf8.Utf8Ctx [0; 0; 0; 0; 0] 0 0 0 0;
     mb_init := Utf8.utf8_init; mb_reset := Utf8.utf8_reset;
     mb_is_error := Utf8.utf8_is_error; mb_pending := Utf8.utf8_pending;
     mb_is_ready := Utf8.utf8_is_ready; mb_get_char := Utf8.utf8_get_ucs;
     mb_add_byte := Utf8.utf8_add_byte; mb_from_char := Utf8.utf8_from_ucs;
     mb_to_str := Utf8.utf8_to_mb; mb_buf := Utf8.ubuf; mb_len := Utf8.len |}.

#[global] Instance big5_codec : MbCodec Utf8.big5_ctx :=
  {| mb_is_utf8 := false; mb_fresh := Utf8.Big5Ctx [0; 0; 0] 0 0 0 0;
     mb_init := Utf8.big5_init; mb_reset := Utf8.big5_reset;
     mb_is_error := Utf8.big5_is_error; mb_pending := Utf8.big5_pending;
     mb_is_ready := Utf8.big5_is_ready; mb_get_char := Utf8.big5_get_char;
     mb_add_byte := Utf8.big5_add_byte; mb_from_char := Utf8.big5_from_char;
     mb_to_str := Utf8.big5_to_mb; mb_buf := Utf8.bbuf; mb_len := Utf8.blen |}.

Definition IS_DBCSLEAD (c : Z) : bool := 0x80 <=? u8 c.

Section Functions.
Context {C : Type} `{MbCodec C}.
Variable mk_wcwidth_cjk : Z -> Z.

Definition ucs_width (ucs : Z) : Z :=
  let w := mk_wcwidth_cjk ucs in if w <? 0 then 0 else w.

Definition mb_char_width (ch : Z) : Z :=
  if ch <? 0 then 0
  else if mb_is_utf8 then ucs_width ch
  else if 0x0100 <=? ch then 2
  else if (0x20 <=? ch) && negb (ch =? 0x7F) then 1 else 0.

(** *** Characters and widths *)

(** The common loop of [mb_bytes] and [mb_width]: the context when a character
    is complete, [None] when there is none. *)
Fixpoint char_loop (c : C) (p : list Z) : option (option C) :=
  match p with
  | [] => Some None
  | x :: p =>
      '(c, ready) ← mb_add_byte c x;
      if (ready : bool) then Some (Some c)
      else if mb_pending c =? 0 then Some None
      else char_loop c p
  end.

Definition mb_bytes (s : list Z) : option Z :=
  if cchar s 0 =? 0 then Some 0 else
  c ← mb_init mb_fresh;
  r ← char_loop c s;
  Some (match r with Some c => mb_len c | None => 1 end).

Definition mb_width (p : list Z) : option Z :=
  let p0 := cchar p 0 in
  let p1 := cchar p 1 in
  if p0 =? 0 then Some 0
  else if mb_is_utf8 && (p0 <? 0x80) then
    Some (if (0x20 <=? p0) && negb (p0 =? 0x7F) then 1 else 0)
  else if mb_is_utf8 && (Z.land p1 0xC0 =? 0x80) && (Z.land (cchar p 2) 0xC0 =? 0x80) &&
          (between 0xE4 0xE9 p0 || (p0 =? 0xEB) || (p0 =? 0xEC) || (p0 =? 0xEE) ||
           ((p0 =? 0xE3) && negb (p1 =? 0x80) && negb (p1 =? 0x82)) ||
           ((p0 =? 0xEF) && ((p1 <=? 0xAB) || (p1 =? 0xBC))))
  then Some 2
  else
    c ← mb_init mb_fresh;
    r ← char_loop c p;
    Some (match r with Some c => mb_char_width (mb_get_char c).2 | None => 1 end).

(** The string and the return value. *)
Definition mb_from_vkey (key : Z) : option (list Z * Z) :=
  if (key <=? 0) || Vtkbd.IS_SPECIAL_KEY key then Some ([], 0)
  else
    '(c, n) ← mb_from_char mb_fresh key;
    if n =? 0 then Some ([], 0) else mb_to_str c.

(** [n] is [end - s]. *)
Fixpoint width_loop (fuel : nat) (s : list Z) (n width : Z) : option Z :=
  match fuel with
  | O => None
  | S fuel =>
      if (n <=? 0) || (cchar s 0 =? 0) then Some width
      else if cchar s 0 =? ESC_CHR then
        let k := skip_len s in
        width_loop fuel (drop k s) (Z.max 0 (n - Z.of_nat k)) width
      else if negb mb_is_utf8 then width_loop fuel (drop 1 s) (n - 1) (width + 1)
      else
        b ← mb_bytes s;
        if n <? b then Some width
        else w ← mb_width s;
             width_loop fuel (drop (Z.to_nat b) s) (n - b) (width + w)
  end.

Definition stream_width_n (s : list Z) (len : Z) : option Z :=
  if len <=? 0 then Some 0 else width_loop (S (length s)) s len 0.

Definition stream_width (s : list Z) : option Z :=
  if cchar s 0 =? 0 then Some 0 else stream_width_n s (zlen s).

(** Sequences between the two bytes of a Big5 character. *)
Fixpoint skip_escapes (fuel : nat) (p : list Z) : list Z :=
  match fuel with
  | O => p
  | S fuel => if cchar p 0 =? ESC_CHR then skip_escapes fuel (skip_control_sequence p) else p
  end.

(** The rest of the string and [cols]. *)
Fixpoint col_loop (fuel : nat) (count : Z) (s : list Z) (cols : Z) : option (list Z * Z) :=
  match fuel with
  | O => None
  | S fuel =>
      let c := cchar s 0 in
      if c =? 0 then Some (s, cols)
      else if c =? ESC_CHR then col_loop fuel count (skip_control_sequence s) cols
      else if (0x20 <=? c) && (c <? 0x7F) then
        if count <? cols + 1 then Some (s, cols)
        else col_loop fuel count (drop 1 s) (cols + 1)
      else
        let p := skip_escapes (length s) (drop 1 s) in
        if negb mb_is_utf8 && Utf8.big5_is_valid_lead c && negb (cchar p 0 =? 0) &&
           Utf8.big5_is_valid_trail (cchar p 0) then
          if count <? cols + 2 then Some (s, cols)
          else col_loop fuel count (drop 1 p) (cols + 2)
        else
          w ← mb_width s;
          let w := if w <? 0 then 1 else w in
          if count <? cols + w then Some (s, cols)
          else b ← mb_bytes s; col_loop fuel count (drop (Z.to_nat b) s) (cols + w)
  end.

(** The offset and [*real_cols]; a null string is [None]. *)
Definition stream_col_offset (count : Z) (s : option (list Z)) : option (Z * Z) :=
  match s with
  | Some s =>
      if count <=? 0 then Some (0, 0)
      else '(r, cols) ← col_loop (S (length s)) count s 0; Some (zlen s - zlen r, cols)
  | None => Some (0, 0)
  end.

(** *** Sanitizing in place *)

(** [memcpy(str + len, ctx.buf, ctx.len); len += ctx.len; mb_reset(&ctx)]. *)
Definition emit (str : list Z) (len : Z) (c : C) : option (list Z * Z * C) :=
  d ← mem_read (mb_buf c) 0 (mb_len c);
  str ← mem_write str len d;
  c' ← mb_reset c;
  Some (str, len + mb_len c, c').

(** The body of the loop, for the character [x]. *)
Definition sanitize_byte (str : list Z) (len : Z) (c : C) (x : Z) : option (list Z * Z * C) :=
  if negb (mb_pending c =? 0) then
    '(c, ready) ← mb_add_byte c x;
    if (ready : bool) then emit str len c
    else if mb_pending c =? 0 then
      c ← mb_reset c;
      if (32 <=? x) && (x <? 127) then
        str ← mem_write str len [x]; Some (str, len + 1, c)
      else if 0x80 <=? x then
        '(c, ready) ← mb_add_byte c x;
        if (ready : bool) then emit str len c else Some (str, len, c)
      else Some (str, len, c)
    else Some (str, len, c)
  else if (32 <=? x) && (x <? 127) then
    str ← mem_write str len [x]; Some (str, len + 1, c)
  else if 0x80 <=? x then
    '(c, ready) ← mb_add_byte c x;
    if (ready : bool) then emit str len c
    else if mb_is_error c then
      c ← mb_reset c;
      '(c, ready) ← mb_add_byte c x;
      if (ready : bool) then emit str len c else Some (str, len, c)
    else Some (str, len, c)
  else c ← mb_reset c; Some (str, len, c).

Fixpoint sanitize_loop (fuel : nat) (str : list Z) (maxlen i len : Z) (c : C)
  : option (list Z * Z) :=
  if i <? maxlen then
    x ← zget str i;
    if x =? 0 then Some (str, len) else
    match fuel with
    | O => None
    | S fuel =>
        '(str, len, c) ← sanitize_byte str len c x;
        sanitize_loop fuel str maxlen (i + 1) len c
    end
  else Some (str, len).

(** [str] is a block of memory. *)
Definition mbs_sanitize (str : list Z) (maxlen : Z) : option (list Z) :=
  if maxlen <=? 0 then Some str else
  c ← mb_init mb_fresh;
  '(str, len) ← sanitize_loop (Z.to_nat maxlen) str maxlen 0 0 c;
  if len <? maxlen then mem_write str len [0] else Some str.

(** *** The state of a byte *)

Inductive MB_STATUS := MB_ASCII | MB_LEADING | MB_TRAILING.

Definition big5_next_status (c : Z) (prev_status : MB_STATUS) : MB_STATUS :=
  match prev_status with
  | MB_LEADING => MB_TRAILING
  | _ => if 0x80 <=? u8 c then MB_LEADING else MB_ASCII
  end.

(** The loop runs [n] times, or up to the NUL. *)
Fixpoint status_loop (n : nat) (s : list Z) (sts : MB_STATUS) : MB_STATUS :=
  match n with
  | O => sts
  | S n =>
      let c := cchar s 0 in
      let sts := big5_next_status c sts in
      if c =? 0 then sts else status_loop n (drop 1 s) sts
  end.

Definition mbs_status (s : list Z) (pos : Z) : MB_STATUS :=
  if mb_is_utf8 then
    let c := u8 (cchar s pos) in
    if c <? 0x80 then MB_ASCII
    else if Z.land c 0xC0 =? 0x80 then MB_TRAILING else MB_LEADING
  else status_loop (Z.to_nat (pos + 1)) s MB_ASCII.

(** [i] going down while the byte is a trailing one. *)
Fixpoint lead_loop (n : nat) (s : list Z) : Z :=
  match n with
  | O => -1
  | S n => match mbs_status s (Z.of_nat n) with MB_TRAILING => lead_loop n s | _ => Z.of_nat n end
  end.

Fixpoint feed_bytes (c : Utf8.utf8_ctx) (p : list Z) : option Utf8.utf8_ctx :=
  match p with
  | [] => Some c
  | x :: p => '(c, _) ← Utf8.utf8_add_byte c x; feed_bytes c p
  end.

Definition mbs_safe_trim (s : list Z) : option (list Z) :=
  let len := zlen s in
  if len <? 1 then Some s
  else if mb_is_utf8 then
    let i := lead_loop (length s) s in
    match (if 0 <=? i then mbs_status s i else MB_ASCII) with
    | MB_LEADING =>
        c ← Utf8.utf8_init (Utf8.Utf8Ctx [0; 0; 0; 0; 0] 0 0 0 0);
        c ← feed_bytes c (drop (Z.to_nat i) s);
        Some (if negb (Utf8.utf8_is_ready c) then take (Z.to_nat i) s else s)
    | _ => Some s
    end
  else
    Some (match mbs_status s (len - 1) with
          | MB_LEADING => take (length s - 1) s
          | _ => s
          end).

Fixpoint nth_loop (nth : nat) (s : list Z) : option (list Z) :=
  match nth with
  | O => Some s
  | S nth => w ← mb_bytes s; if 0 <? w then nth_loop nth (drop (Z.to_nat w) s) else Some s
  end.

(** A null result is the inner [None]. *)
Definition mbs_nth (s : list Z) (nth : Z) : option (option (list Z)) :=
  s ← nth_loop (Z.to_nat nth) s;
  Some (if cchar s 0 =? 0 then None else Some s).

(** *** Searching and comparing *)

(** [scan] moved by whole characters while [scan < match]; [n] is
    [match - scan], and the result is how far it went beyond. *)
Fixpoint scan_to (fuel : nat) (scan : list Z) (n : Z) : list Z * Z :=
  match fuel with
  | O => (scan, n)
  | S fuel =>
      if 0 <? n then
        let k := if IS_DBCSLEAD (cchar scan 0) && negb (cchar scan 1 =? 0) then 2%nat else 1%nat in
        scan_to fuel (drop k scan) (n - Z.of_nat k)
      else (scan, n)
  end.

(** [None] is the fuel. *)
Fixpoint strstr_loop (fuel : nat) (scan ptr : list Z) : option (option (list Z)) :=
  match fuel with
  | O => None
  | S fuel =>
      match strstr scan ptr with
      | None => Some None
      | Some m =>
          let '(scan, n) := scan_to (S (length scan)) scan (zlen scan - zlen m) in
          if n =? 0 then Some (Some m) else strstr_loop fuel scan ptr
      end
  end.

Definition mbs_strstr (pool ptr : list Z) : option (option (list Z)) :=
  if mb_is_utf8 then Some (strstr pool ptr)
  else if cchar ptr 0 =? 0 then Some (Some pool)
  else strstr_loop (S (length pool)) pool ptr.

(** Does [ptr] match at [pool + i], ignoring the case of single bytes? *)
Fixpoint case_match_loop (fuel : nat) (pool ptr : list Z) : bool :=
  match fuel, ptr with
  | _, [] => true
  | O, _ => true
  | S fuel, c :: _ =>
      if IS_DBCSLEAD (cchar pool 0) then
        if negb (c =? cchar pool 0) || negb (cchar ptr 1 =? cchar pool 1) then false
        else case_match_loop fuel (drop 2 pool) (drop 2 ptr)
      else if IS_DBCSLEAD c || negb (tolower c =? tolower (cchar pool 0)) then false
      else case_match_loop fuel (drop 1 pool) (drop 1 ptr)
  end.

Fixpoint strcasestr_loop (fuel : nat) (pool ptr : list Z) : option (list Z) :=
  match fuel with
  | O => None
  | S fuel =>
      if zlen pool <? zlen ptr then None
      else if case_match_loop (length ptr) pool ptr then Some pool
      else strcasestr_loop fuel (drop (if IS_DBCSLEAD (cchar pool 0) then 2 else 1)%nat pool) ptr
  end.

Definition mbs_strcasestr (pool ptr : list Z) : option (list Z) :=
  if mb_is_utf8 then strcasestr pool ptr
  else strcasestr_loop (S (length pool)) pool ptr.

(** [s1] and [s2] are the bytes of memory from the two pointers on, the loop
    does not stop at a NUL: [None] is a read after them. *)
Fixpoint status_cmp_loop (len : nat) (s1 s2 : list Z) (sts1 sts2 : MB_STATUS) : option Z :=
  match len with
  | O => Some 0
  | S len =>
      c1 ← zget s1 0;
      c2 ← zget s2 0;
      let sts1 := big5_next_status c1 sts1 in
      let sts2 := big5_next_status c2 sts2 in
      if match sts1 with MB_ASCII => false | _ => negb (c1 =? c2) end
      then Some (u8 c1 - u8 c2)
      else status_cmp_loop len (drop 1 s1) (drop 1 s2) sts1 sts2
  end.

Definition mbs_strncasecmp (s1 s2 : list Z) (len : nat) : option Z :=
  let r := strncasecmp len (cstring s1) (cstring s2) in
  if mb_is_utf8 then Some r
  else if negb (r =? 0) then Some r
  else status_cmp_loop len s1 s2 MB_ASCII MB_ASCII.

Fixpoint fnv1a_32_dbcs_strcase (isDBCS : bool) (s : list Z) (hval : Z) : Z :=
  match s with
  | [] => hval
  | c :: s =>
      let '(isDBCS, c) :=
        if isDBCS then (false, c)
        else if c <? 0x80 then (false, toupper c) else (true, c) in
      fnv1a_32_dbcs_strcase isDBCS s (u32 (Z.lxor hval c * FNV_32_PRIME))
  end.

Definition mbs_strcasehash (s : list Z) : Z :=
  if mb_is_utf8 then fnv1a_32_strcase s FNV1_32_INIT
  else fnv1a_32_dbcs_strcase false s FNV1_32_INIT.

End Functions.

#[global] Arguments mbs_safe_trim C {_} s.
#[global] Arguments mbs_status C {_} s pos.
#[global] Arguments mbs_strstr C {_} pool ptr.
#[global] Arguments mbs_strcasestr C {_} pool ptr.
#[global] Arguments mbs_strncasecmp C {_} s1 s2 len.
#[global] Arguments mbs_strcasehash C {_} s.
#[global] Arguments mbs_sanitize C {_} str maxlen.
#[global] Arguments mb_bytes C {_} s.
#[global] Arguments lead_loop C {_} n s.

End Mbs.
