(* ===== verification/MbsProps.v ===== *)
(** What the multibyte string functions do. *)

From Stdlib Require Import String.
From S2P Require Import Prelude Cstr Str StrProps Utf8 Utf8Props Mbs.

#[global] Open Scope list_scope.

Module MbsProps.
Import Cstr Str StrProps Mbs.

(** *** Character boundaries of Big5 text *)

Definition char_len (s : list Z) : nat :=
  if IS_DBCSLEAD (cchar s 0) && negb (cchar s 1 =? 0) then 2 else 1.

(** [at_char s q]: [q] is [s] from one of its characters on, or its end. *)
Inductive at_char : list Z -> list Z -> Prop :=
  | at_here s : at_char s s
  | at_next s q : s <> [] -> at_char (drop (char_len s) s) q -> at_char s q.

Lemma at_char_trans a b c : at_char a b -> at_char b c -> at_char a c.
Proof. induction 1; intros; [done|]. apply at_next; auto. Qed.

Lemma char_len_le s : s <> [] -> (1 <= char_len s <= length s)%nat.
Proof.
  intros H. unfold char_len. destruct s as [|a [|b s]]; [done|..].
  - change (cchar [a] 1) with 0. cbn. rewrite andb_false_r. lia.
  - destruct (_ && _); cbn; lia.
Qed.

Lemma at_char_suffix s q : at_char s q -> exists a, s = a ++ q.
Proof.
  induction 1 as [s|s q _ _ [a E]]; [by exists []|].
  exists (take (char_len s) s ++ a). rewrite <- app_assoc, <- E. by rewrite take_drop.
Qed.

(** *** [strstr] finds the first match *)

Lemma strstr_spec s p :
  match strstr s p with
  | Some m => prefix_b p m = true /\ exists a, s = a ++ m /\
      forall a' m', s = a' ++ m' -> prefix_b p m' = true -> (length a <= length a')%nat
  | None => forall a' m', s = a' ++ m' -> prefix_b p m' = false
  end.
Proof.
  induction s as [|c s IH]; cbn [strstr].
  - destruct (prefix_b p []) eqn:E.
    + split; [done|]. exists []. split; [done|]. cbn. lia.
    + intros [|? ?] m' Em; [|done]. cbn in Em. by subst m'.
  - destruct (prefix_b p (c :: s)) eqn:E.
    + split; [done|]. exists []. split; [done|]. cbn. lia.
    + destruct (strstr s p) as [m|].
      * destruct IH as (Hm & a & -> & Hfirst). split; [done|]. exists (c :: a). split; [done|].
        intros [|c' a'] m' Em Hp; cbn in Em; [subst m'; congruence|].
        injection Em as _ Em. cbn. specialize (Hfirst _ _ Em Hp). lia.
      * intros [|c' a'] m' Em; cbn in Em; [by subst m'|]. injection Em as _ Em. eauto.
Qed.

(** Moving by characters: up to the first boundary not before [n]. *)
Lemma scan_to_spec fuel s n :
  (length s < fuel)%nat -> n <= zlen s ->
  exists s' n', scan_to fuel s n = (s', n') /\ at_char s s' /\ n' <= 0 /\
    zlen s - zlen s' = n - n' /\ (0 < n -> (length s' < length s)%nat) /\
    (n <= 0 -> s' = s) /\
    forall q, at_char s q -> at_char s' q \/ zlen s - zlen q < n.
Proof.
  revert s n. induction fuel as [|fuel IH]; intros s n Hf Hn; [lia|]. cbn [scan_to].
  case_if H; cycle 1.
  { exists s, n. split_and!; try done; try lia; [constructor|]. intros q Hq. by left. }
  assert (Hs : s <> []) by (intros ->; change (zlen (@nil Z)) with 0 in Hn; lia).
  fold (char_len s). pose proof (char_len_le s Hs) as Hc.
  assert (Hl : zlen (drop (char_len s) s) = zlen s - Z.of_nat (char_len s))
    by (rewrite zlen_drop; unfold zlen; lia).
  destruct (Z_le_gt_dec (n - Z.of_nat (char_len s)) (zlen (drop (char_len s) s))) as [Hle|]; [|lia].
  destruct (IH (drop (char_len s) s) (n - Z.of_nat (char_len s))) as (s' & n' & -> & H1 & H2 & H3 & H4 & H5 & H6);
    [rewrite length_drop; lia|done|].
  exists s', n'. split_and!; try done; try lia.
  - by apply at_next.
  - intros _. assert (length s' <= length (drop (char_len s) s))%nat.
    { destruct (at_char_suffix _ _ H1) as [a ->]. rewrite length_app. lia. }
    rewrite length_drop in *. lia.
  - intros q Hq. inversion Hq as [? E|? ? _ Hq']; subst.
    + right. lia.
    + destruct (H6 q Hq'); [by left|right; lia].
Qed.

Lemma strstr_loop_spec fuel s p :
  (length s < fuel)%nat -> p <> [] ->
  exists r, strstr_loop fuel s p = Some r /\
    match r with
    | Some q => at_char s q /\ prefix_b p q = true /\
        forall q', at_char s q' -> prefix_b p q' = true -> at_char q q'
    | None => forall q', at_char s q' -> prefix_b p q' = false
    end.
Proof.
  intros Hf Hp. revert s Hf. induction fuel as [|fuel IH]; intros s Hf; [lia|]. cbn [strstr_loop].
  pose proof (strstr_spec s p) as Hm. destruct (strstr s p) as [m|]; cycle 1.
  { exists None. split; [done|]. intros q [a ->]%at_char_suffix. by apply (Hm a). }
  destruct Hm as (Hpm & a & Es & Hfirst).
  destruct (scan_to_spec (S (length s)) s (zlen s - zlen m)) as (s' & n' & -> & H1 & H2 & H3 & H4 & H5 & H6);
    [lia|zlia|].
  assert (Hafter : forall q, at_char s q -> prefix_b p q = true -> at_char s' q).
  { intros q Hq Hpq. destruct (H6 q Hq) as [|Hlt]; [done|]. exfalso.
    destruct (at_char_suffix _ _ Hq) as [a' Eq]. specialize (Hfirst _ _ Eq Hpq).
    rewrite Eq in Hlt at 1. assert (length s = length a + length m)%nat by (rewrite Es; apply length_app).
    assert (length s = length a' + length q)%nat by (rewrite Eq at 1; apply length_app).
    unfold zlen in Hlt. rewrite length_app in Hlt. lia. }
  case_if En.
  - assert (s' = m) as ->.
    { destruct (at_char_suffix _ _ H1) as [a' Eq]. assert (length a' = length a).
      { assert (length s = length a + length m)%nat by (rewrite Es; apply length_app).
        assert (length s = length a' + length s')%nat by (rewrite Eq at 1; apply length_app).
        unfold zlen in H3. lia. }
      rewrite Es in Eq. by apply app_inj_1 in Eq as [_ ->]. }
    exists (Some m). split_and!; done.
  - destruct (IH s') as (r & -> & Hr).
    { destruct (Z_lt_le_dec 0 (zlen s - zlen m)); [specialize (H4 ltac:(lia)); lia|].
      specialize (H5 ltac:(lia)). pose proof (f_equal zlen Es) as El. rewrite zlen_app in El.
      pose proof (zlen_nonneg a). rewrite H5 in H3. lia. }
    exists r. split; [done|]. destruct r as [q|].
    + destruct Hr as (Hq & Hpq & Hall). split_and!; [by eapply at_char_trans|done|]. eauto.
    + intros q' Hq'. destruct (prefix_b p q') eqn:E; [|done]. rewrite <- E. apply Hr. eauto.
Qed.

(** C38. In Big5 text the search ends and finds the first match that starts at a
    character, never one that starts in the second byte of a character. *)
Theorem mbs_strstr_big5 pool ptr :
  c_string ptr -> ptr <> [] ->
  exists r, mbs_strstr Utf8.big5_ctx pool ptr = Some r /\
    match r with
    | Some q => at_char pool q /\ prefix_b ptr q = true /\
        forall q', at_char pool q' -> prefix_b ptr q' = true -> at_char q q'
    | None => forall q', at_char pool q' -> prefix_b ptr q' = false
    end.
Proof.
  intros Hc Hp. unfold mbs_strstr. cbn [mb_is_utf8 big5_codec].
  replace (cchar ptr 0 =? 0) with false; [apply strstr_loop_spec; [lia|done]|].
  destruct Hc as [|c p Hc _]; [done|]. symmetry. by apply Z.eqb_neq.
Qed.

(** *** Trimming half characters *)

Definition status_of (s : list Z) : MB_STATUS :=
  fold_left (fun sts c => big5_next_status c sts) s MB_ASCII.

Lemma status_loop_fold n s sts :
  c_string s -> (n <= length s)%nat ->
  status_loop n s sts = fold_left (fun sts c => big5_next_status c sts) (take n s) sts.
Proof.
  intros Hs. revert n sts. induction Hs as [|c s Hc _ IH]; intros [|n] sts Hn; try done; cbn in Hn; [lia|].
  cbn [status_loop take fold_left]. rewrite cchar_0. cbn zeta. if_false. cbn [drop].
  rewrite drop_0. apply IH. lia.
Qed.

(** Is the last character complete? *)
Definition complete (s : list Z) : bool := match status_of s with MB_LEADING => false | _ => true end.

Lemma mbs_safe_trim_spec s :
  c_string s ->
  exists s', mbs_safe_trim Utf8.big5_ctx s = Some s' /\ complete s' = true /\
    (s' = s \/ exists c, s = s' ++ [c] /\ complete s = false).
Proof.
  intros Hs. unfold mbs_safe_trim. cbn [mb_is_utf8 big5_codec]. cbn zeta.
  destruct (Z_lt_le_dec (zlen s) 1) as [Hl|Hl].
  { if_true. exists s. split; [done|]. assert (s = []) as -> by (apply zlen_zero; pose proof (zlen_nonneg s); lia).
    split; [done|by left]. }
  if_false. unfold mbs_status. cbn [mb_is_utf8 big5_codec].
  replace (Z.to_nat (zlen s - 1 + 1)) with (length s) by (unfold zlen; lia).
  rewrite status_loop_fold, take_ge by (done || lia). fold (status_of s).
  destruct (status_of s) eqn:E; try (exists s; unfold complete; rewrite E; split_and!; [done|done|by left]).
  destruct (exists_last (l := s)) as (s' & c & ->); [intros ->; done|].
  exists s'. rewrite length_app. cbn [length].
  replace (length s' + 1 - 1)%nat with (length s') by lia. rewrite take_app_length.
  split; [done|]. split; [|right; exists c; split; [done|unfold complete; by rewrite E]].
  unfold complete. unfold status_of in E. rewrite fold_left_app in E. cbn in E. fold (status_of s') in E.
  by destruct (status_of s').
Qed.

(** *** The codec laws the sanitizer needs *)

(** Bytes that are taken without completing or breaking a character. *)
Fixpoint mb_silent {C} `{MbCodec C} (c : C) (bs : list Z) : option C :=
  match bs with
  | [] => Some c
  | x :: bs =>
      '(c, r) ← mb_add_byte c x;
      if r || (mb_pending c =? 0) then None else mb_silent c bs
  end.

(** [mb_held] is the incomplete character in a context; [mb_char] are the
    encodings of characters beyond ASCII. *)
Class MbLaws (C : Type) `{MbCodec C} :=
  { mb_ok : C -> Prop;
    mb_held : C -> list Z;
    mb_char : list Z -> Prop;
    mb_init_ok : exists c, mb_init mb_fresh = Some c /\ mb_ok c /\ mb_held c = [];
    mb_reset_ok c : mb_ok c -> exists c', mb_reset c = Some c' /\ mb_ok c' /\ mb_held c' = [];
    mb_pending_held c : mb_ok c -> mb_pending c = 0 <-> mb_held c = [];
    mb_pending_error c : mb_ok c -> mb_pending c <> 0 -> mb_is_error c = false;
    mb_add_ok c x : mb_ok c -> is_u8 x ->
      exists c' r, mb_add_byte c x = Some (c', r) /\
      if r : bool then
        mem_read (mb_buf c') 0 (mb_len c') = Some (mb_held c ++ [x]) /\
        mb_len c' = zlen (mb_held c ++ [x]) /\
        ((mb_held c = [] /\ x < 128) \/ mb_char (mb_held c ++ [x])) /\
        exists c2, mb_reset c' = Some c2 /\ mb_ok c2 /\ mb_held c2 = []
      else mb_ok c' /\ (mb_held c' = mb_held c ++ [x] \/ mb_held c' = []);
    mb_char_feed w c : mb_char w -> mb_ok c -> mb_held c = [] ->
      exists y pre x c1 c2, w = y :: pre ++ [x] /\ 128 <= y /\ Forall is_u8 w /\
        mb_silent c (y :: pre) = Some c1 /\ mb_add_byte c1 x = Some (c2, true) }.

Section Sanitize.
Context {C : Type} `{MbLaws C}.

(** Printable ASCII and whole characters. *)
Inductive clean_text : list Z -> Prop :=
  | clean_nil : clean_text []
  | clean_ascii c s : 32 <= c < 127 -> clean_text s -> clean_text (c :: s)
  | clean_char w s : mb_char w -> clean_text s -> clean_text (w ++ s).

Lemma clean_app a b : clean_text a -> clean_text b -> clean_text (a ++ b).
Proof.
  induction 1; intros Hb; [done|apply clean_ascii; auto|].
  rewrite <- app_assoc. apply clean_char; auto.
Qed.

(** What one byte adds to the text, apart from memory. *)
Definition out_char (c : C) : option (C * list Z) :=
  d ← mem_read (mb_buf c) 0 (mb_len c);
  c ← mb_reset c; Some (c, d).

Definition san (c : C) (x : Z) : option (C * list Z) :=
  if negb (mb_pending c =? 0) then
    '(c, ready) ← mb_add_byte c x;
    if (ready : bool) then out_char c
    else if mb_pending c =? 0 then
      c ← mb_reset c;
      if (32 <=? x) && (x <? 127) then Some (c, [x])
      else if 0x80 <=? x then
        '(c, ready) ← mb_add_byte c x;
        if (ready : bool) then out_char c else Some (c, [])
      else Some (c, [])
    else Some (c, [])
  else if (32 <=? x) && (x <? 127) then Some (c, [x])
  else if 0x80 <=? x then
    '(c, ready) ← mb_add_byte c x;
    if (ready : bool) then out_char c
    else if mb_is_error c then
      c ← mb_reset c;
      '(c, ready) ← mb_add_byte c x;
      if (ready : bool) then out_char c else Some (c, [])
    else Some (c, [])
  else c ← mb_reset c; Some (c, []).

(** The text before [len], the bytes left behind it, and the unread ones. *)
Lemma write_at (out g rest d : list Z) :
  zlen d <= zlen g ->
  mem_write (out ++ g ++ rest) (zlen out) d = Some (out ++ d ++ drop (length d) g ++ rest).
Proof.
  intros Hd. rewrite <- (take_drop (length d) g) at 1. rewrite <- (app_assoc (take _ _)).
  apply mem_write_app; [done|]. rewrite zlen_take. unfold zlen in *. lia.
Qed.

(** A byte that completes a character. *)
Lemma emit_ok out g rest c c1 x :
  mb_ok c -> is_u8 x -> mb_add_byte c x = Some (c1, true) ->
  zlen (mb_held c) <= zlen g -> (mb_held c <> [] \/ 128 <= x) ->
  exists c2 d g', out_char c1 = Some (c2, d) /\
    emit (out ++ (g ++ [x]) ++ rest) (zlen out) c1 =
      Some ((out ++ d) ++ g' ++ rest, zlen (out ++ d), c2) /\
    mb_ok c2 /\ mb_held c2 = [] /\ clean_text d /\ zlen g' = zlen g + 1 - zlen d.
Proof.
  intros Hok Hx E Hg Hmb. destruct (mb_add_ok c x Hok Hx) as (c' & r & E' & Hr).
  rewrite E in E'. injection E' as <- <-. destruct Hr as (Hread & Hlen & Hchar & c2 & Hreset & Hok2 & Hh2).
  exists c2, (mb_held c ++ [x]), (drop (length (mb_held c ++ [x])) (g ++ [x])).
  unfold out_char, emit. rewrite Hread, Hreset. cbn [mbind option_bind].
  rewrite write_at by zlia. cbn [mbind option_bind]. rewrite Hlen. split_and!; try done.
  - rewrite (zlen_app out), <- !app_assoc. done.
  - destruct Hchar as [[? ?]|Hchar]; [exfalso; destruct Hmb; [done|lia]|].
    rewrite <- (app_nil_r (_ ++ _)). apply clean_char; [done|constructor].
  - rewrite zlen_drop, !zlen_app. unfold zlen in *. rewrite length_app. cbn [length]. lia.
Qed.

(** The body of the loop does in memory what [san] says. *)
Definition body_ok (out g rest : list Z) (c : C) (x : Z)
    (r : option (C * list Z)) (m : option (list Z * Z * C)) : Prop :=
  exists c' w g', r = Some (c', w) /\ m = Some ((out ++ w) ++ g' ++ rest, zlen (out ++ w), c') /\
    mb_ok c' /\ clean_text w /\ zlen g' = zlen g + 1 - zlen w /\ zlen (mb_held c') <= zlen g'.

Lemma body_none out g rest c x c' :
  mb_ok c' -> zlen (mb_held c') <= zlen g + 1 ->
  body_ok out g rest c x (Some (c', [])) (Some (out ++ (g ++ [x]) ++ rest, zlen out, c')).
Proof.
  intros. exists c', [], (g ++ [x]). rewrite app_nil_r. split_and!; try done; [constructor|zlia..].
Qed.

Lemma body_ascii out g rest c x c' :
  mb_ok c' -> mb_held c' = [] -> 32 <= x < 127 ->
  body_ok out g rest c x (Some (c', [x]))
    (str ← mem_write (out ++ (g ++ [x]) ++ rest) (zlen out) [x]; Some (str, zlen out + 1, c')).
Proof.
  intros Hok Hh Hx. rewrite write_at by zlia. cbn [mbind option_bind].
  exists c', [x], (drop 1 (g ++ [x])). split_and!; try done.
  - rewrite (zlen_app out), <- !app_assoc. done.
  - apply clean_ascii; [done|constructor].
  - rewrite zlen_drop. zlia.
  - rewrite Hh, zlen_drop. zlia.
Qed.

(** A byte beyond ASCII, in an idle context. *)
Lemma body_byte out g rest c0 c x :
  mb_ok c -> mb_held c = [] -> is_u8 x -> 128 <= x ->
  body_ok out g rest c0 x
    ('(c, ready) ← mb_add_byte c x; if (ready : bool) then out_char c else Some (c, []))
    ('(c, ready) ← mb_add_byte c x;
     if (ready : bool) then emit (out ++ (g ++ [x]) ++ rest) (zlen out) c
     else Some (out ++ (g ++ [x]) ++ rest, zlen out, c)).
Proof.
  intros Hok Hh Hx Hge. destruct (mb_add_ok c x Hok Hx) as (c1 & r & E & Hr). rewrite E.
  cbn [mbind option_bind]. destruct r.
  - destruct (emit_ok out g rest c c1 x Hok Hx E) as (c2 & d & g' & -> & -> & Hok2 & Hh2 & Hd & Hg');
      [rewrite Hh; zlia|by right|].
    exists c2, d, g'. rewrite Hh2. split_and!; try done. pose proof (zlen_nonneg g'). zlia.
  - apply body_none; [apply Hr|]. destruct Hr as [_ [-> | ->]]; rewrite ?Hh; zlia.
Qed.

Lemma sanitize_byte_ok out g rest c x :
  mb_ok c -> is_u8 x -> zlen (mb_held c) <= zlen g ->
  body_ok out g rest c x (san c x) (sanitize_byte (out ++ (g ++ [x]) ++ rest) (zlen out) c x).
Proof.
  intros Hok Hx Hg. unfold san, sanitize_byte. pose proof (mb_pending_held c Hok) as Hp.
  destruct (mb_pending c =? 0) eqn:Ep; cbn [negb].
  - apply Z.eqb_eq, Hp in Ep. case_if H1; [by apply body_ascii|]. case_if H2.
    + destruct (mb_add_ok c x Hok Hx) as (c1 & r & E & Hr). rewrite E. cbn [mbind option_bind].
      destruct r.
      * pose proof (body_byte out g rest c c x Hok Ep Hx H2) as Hb. rewrite E in Hb. exact Hb.
      * destruct Hr as [Hok1 Hh1]. destruct (mb_is_error c1).
        -- destruct (mb_reset_ok c1 Hok1) as (c2 & -> & Hok2 & Hh2). cbn [mbind option_bind].
           by apply body_byte.
        -- apply body_none; [done|]. destruct Hh1 as [-> | ->]; rewrite ?Ep; zlia.
    + destruct (mb_reset_ok c Hok) as (c1 & -> & Hok1 & Hh1). apply body_none; [done|]. rewrite Hh1. zlia.
  - assert (Hne : mb_held c <> []) by (intros E; apply Hp in E; rewrite E in Ep; done).
    destruct (mb_add_ok c x Hok Hx) as (c1 & r & E & Hr). rewrite E. cbn [mbind option_bind].
    destruct r.
    + destruct (emit_ok out g rest c c1 x Hok Hx E) as (c2 & d & g' & -> & -> & Hok2 & Hh2 & Hd & Hg');
        [done|by left|].
      exists c2, d, g'. rewrite Hh2. split_and!; try done. zlia.
    + destruct Hr as [Hok1 Hh1]. destruct (mb_pending c1 =? 0) eqn:Ep1.
      * destruct (mb_reset_ok c1 Hok1) as (c2 & -> & Hok2 & Hh2). cbn [mbind option_bind].
        case_if H1; [by apply body_ascii|]. case_if H2; [by apply body_byte|].
        apply body_none; [done|]. rewrite Hh2. zlia.
      * apply body_none; [done|]. destruct Hh1 as [-> | ->]; zlia.
Qed.

Fixpoint san_all (c : C) (s : list Z) : option (C * list Z) :=
  match s with
  | [] => Some (c, [])
  | x :: s => '(c, w) ← san c x; '(c, ws) ← san_all c s; Some (c, w ++ ws)
  end.

Definition text_chars (s : list Z) : Prop := Forall (fun x => is_u8 x /\ x <> 0) s.

(** The text ends at [maxlen] or at a NUL. *)
Definition text_end (maxlen i : Z) (s r : list Z) : Prop :=
  i + zlen s = maxlen \/ (i + zlen s < maxlen /\ exists r', r = 0 :: r').

Lemma sanitize_loop_ok fuel out g s r maxlen c :
  text_chars s -> mb_ok c -> zlen (mb_held c) <= zlen g ->
  text_end maxlen (zlen (out ++ g)) s r -> maxlen - zlen (out ++ g) <= Z.of_nat fuel ->
  exists c' w g', san_all c s = Some (c', w) /\
    sanitize_loop fuel (out ++ g ++ s ++ r) maxlen (zlen (out ++ g)) (zlen out) c =
      Some ((out ++ w) ++ g' ++ r, zlen (out ++ w)) /\
    clean_text w /\ zlen g' = zlen g + zlen s - zlen w.
Proof.
  intros Hs. revert fuel out g c. induction Hs as [|x s [Hx Hx0] _ IH]; intros fuel out g c Hok Hg Hend Hf.
  - exists c, [], g. rewrite app_nil_r. cbn [app].
    assert (sanitize_loop fuel (out ++ g ++ r) maxlen (zlen (out ++ g)) (zlen out) c =
      Some (out ++ g ++ r, zlen out)) as ->; [|split_and!; try done; [constructor|zlia]].
    destruct fuel; cbn [sanitize_loop]; case_if H1; try done;
      (destruct Hend as [Hend|[Hend [r' ->]]]; [exfalso; zlia|]);
      rewrite app_assoc, (zget_middle (out ++ g)) by done; done.
  - assert (Hlt : zlen (out ++ g) < maxlen) by (destruct Hend as [|[? _]]; zlia).
    destruct fuel as [|fuel]; [exfalso; zlia|]. cbn [sanitize_loop]. if_true.
    replace (zget (out ++ g ++ (x :: s) ++ r) (zlen (out ++ g))) with (Some x)
      by (rewrite app_assoc; symmetry; by apply (zget_middle (out ++ g))).
    cbn [mbind option_bind]. if_false.
    destruct (sanitize_byte_ok out g (s ++ r) c x Hok Hx Hg) as (c1 & w & g1 & Esan & E & Hok1 & Hw & Hg1 & Hh1).
    replace (out ++ g ++ (x :: s) ++ r) with (out ++ (g ++ [x]) ++ s ++ r)
      by (by rewrite <- (app_assoc g)).
    rewrite E. cbn [mbind option_bind].
    replace (zlen (out ++ g) + 1) with (zlen ((out ++ w) ++ g1)) by zlia.
    destruct (IH fuel (out ++ w) g1 c1 Hok1 Hh1) as (c' & ws & g' & Eall & -> & Hws & Hg').
    { unfold text_end in *. destruct Hend as [|[? ?]]; [left; zlia|right; split; [zlia|done]]. }
    { zlia. }
    exists c', (w ++ ws), g'. cbn [san_all]. rewrite Esan. cbn [mbind option_bind]. rewrite Eall.
    cbn [mbind option_bind]. rewrite <- !app_assoc. split_and!; try done; [by apply clean_app|zlia].
Qed.

(** *** Text that is clean stays *)

Lemma silent_san c bs r c1 :
  mb_ok c -> Forall is_u8 bs -> mb_pending c <> 0 -> mb_silent c bs = Some c1 ->
  mb_ok c1 /\ mb_held c1 = mb_held c ++ bs /\ mb_pending c1 <> 0 /\
  san_all c (bs ++ r) = san_all c1 r.
Proof.
  intros Hok Hbs. revert c Hok. induction Hbs as [|b bs Hb _ IH]; intros c Hok Hp; cbn [mb_silent app san_all].
  { intros [= <-]. by rewrite app_nil_r. }
  destruct (mb_add_ok c b Hok Hb) as (c' & r' & E & Hr). unfold san. rewrite E. cbn [mbind option_bind].
  destruct r'; [done|]. cbn [orb]. destruct (mb_pending c' =? 0) eqn:Ep; [done|].
  apply Z.eqb_neq in Ep. destruct Hr as [Hok' Hh']. intros Hs.
  destruct (IH c' Hok' Ep Hs) as (H1 & H2 & H3 & H4). split_and!; try done.
  - destruct Hh' as [E'|E']; [by rewrite H2, E', <- app_assoc|]. by apply mb_pending_held in E'.
  - apply Z.eqb_neq in Hp. rewrite Hp. cbn [negb mbind option_bind]. rewrite H4.
    by destruct (san_all c1 r) as [[? ?]|].
Qed.

Lemma san_clean s c :
  clean_text s -> mb_ok c -> mb_held c = [] ->
  exists c', san_all c s = Some (c', s) /\ mb_ok c' /\ mb_held c' = [].
Proof.
  intros Hs. revert c. induction Hs as [|x s Hx _ IH|w s Hw _ IH]; intros c Hok Hh.
  - by exists c.
  - cbn [san_all]. unfold san. rewrite (proj2 (mb_pending_held c Hok)) by done. cbn [Z.eqb negb].
    if_true. cbn [mbind option_bind]. destruct (IH c Hok Hh) as (c' & -> & ?). by exists c'.
  - destruct (mb_char_feed w c Hw Hok Hh) as (y & pre & x & c1 & c2 & -> & Hy & Hu & Hsil & Hadd).
    assert (Hu' : is_u8 y /\ Forall is_u8 pre /\ is_u8 x).
    { inversion_clear Hu as [|? ? ? Hu']. apply list.Forall_app in Hu' as [? Hx]. by inversion Hx. }
    destruct Hu' as (Huy & Hupre & Hux).
    cbn [mb_silent] in Hsil. destruct (mb_add_ok c y Hok Huy) as (cy & ry & Ey & Hry).
    rewrite Ey in Hsil. cbn [mbind option_bind] in Hsil. destruct ry; [done|]. cbn [orb] in Hsil.
    destruct (mb_pending cy =? 0) eqn:Epy; [done|]. apply Z.eqb_neq in Epy.
    destruct Hry as [Hoky Hhy]. rewrite Hh in Hhy. cbn [app] in Hhy.
    assert (Ehy : mb_held cy = [y]) by (destruct Hhy as [|E]; [done|]; by apply mb_pending_held in E).
    destruct (silent_san cy pre ([x] ++ s) c1 Hoky Hupre Epy Hsil) as (Hok1 & Hh1 & Hp1 & E1).
    assert (Estep : san_all c ((y :: pre ++ [x]) ++ s) = san_all c1 ([x] ++ s)).
    { cbn [app san_all]. unfold san at 1. rewrite (proj2 (mb_pending_held c Hok)) by done.
      cbn [Z.eqb negb]. if_false. if_true. rewrite Ey. cbn [mbind option_bind].
      rewrite (mb_pending_error cy Hoky Epy). cbn [mbind option_bind]. rewrite <- app_assoc, E1.
      destruct (san_all c1 ([x] ++ s)) as [[? ?]|] eqn:E; cbn [app san_all] in E; by rewrite E. }
    rewrite Estep. cbn [app san_all]. unfold san.
    apply Z.eqb_neq in Hp1. rewrite Hp1. cbn [negb]. rewrite Hadd. cbn [mbind option_bind].
    destruct (mb_add_ok c1 x Hok1 Hux) as (c2' & r2 & E2 & Hr2). rewrite Hadd in E2.
    injection E2 as <- <-. destruct Hr2 as (Hread & _ & _ & c3 & Hreset & Hok3 & Hh3).
    unfold out_char. rewrite Hread, Hreset. cbn [mbind option_bind].
    destruct (IH c3 Hok3 Hh3) as (c' & -> & Hok' & Hh'). cbn [mbind option_bind].
    exists c'. rewrite Hh1, Ehy. done.
Qed.

(** Sanitizing a block of [maxlen] bytes ends and stays inside of it, leaves
    printable ASCII and whole characters only, and leaves such text as it was. *)
Theorem mbs_sanitize_clean s r maxlen :
  text_chars s -> 0 < maxlen -> text_end maxlen 0 s r ->
  exists t r', mbs_sanitize C (s ++ r) maxlen = Some (t ++ r') /\
    zlen (t ++ r') = zlen (s ++ r) /\ clean_text t /\
    text_end maxlen 0 t r' /\ (clean_text s -> t = s).
Proof.
  intros Hs Hm Hend. unfold mbs_sanitize. if_false.
  destruct mb_init_ok as (c & -> & Hok & Hh). cbn [mbind option_bind].
  destruct (sanitize_loop_ok (Z.to_nat maxlen) [] [] s r maxlen c Hs Hok) as (c' & w & g' & Eall & E & Hw & Hg);
    [by rewrite Hh|exact Hend|cbn; change (zlen []) with 0; lia|].
  cbn [app] in E. change (zlen []) with 0 in *. rewrite E. cbn [mbind option_bind].
  assert (Hclean : clean_text s -> w = s).
  { intros Hc. destruct (san_clean s c Hc Hok Hh) as (? & E' & _). rewrite Eall in E'. by injection E'. }
  pose proof (zlen_nonneg g').
  assert (Hwl : zlen w <= maxlen) by (destruct Hend as [|[? _]]; lia).
  destruct (Z_lt_le_dec (zlen w) maxlen) as [Hl|Hl]; [if_true|if_false].
  - destruct (g' ++ r) as [|y r1] eqn:Egr.
    { exfalso. apply app_eq_nil in Egr as [-> ->]. change (zlen []) with 0 in *.
      destruct Hend as [|[_ [? ?]]]; [lia|done]. }
    rewrite mem_write_one by done. exists w, (0 :: r1).
    split_and!; try done.
    + rewrite !zlen_app, !zlen_cons. pose proof (f_equal zlen Egr) as El.
      rewrite zlen_app, zlen_cons in El. lia.
    + right. split; [lia|by exists r1].
  - exists w, (g' ++ r). split_and!; try done; [zlia|left; lia].
Qed.


(** *** Columns *)

Lemma char_loop_ok c p :
  mb_ok c -> Forall is_u8 p ->
  exists r, char_loop c p = Some r /\
    match r with Some c' => 1 <= mb_len c' <= zlen (mb_held c) + zlen p | None => True end.
Proof.
  intros Hok Hp. revert c Hok. induction Hp as [|x p Hx _ IH]; intros c Hok; cbn [char_loop].
  - by exists None.
  - destruct (mb_add_ok c x Hok Hx) as (c' & r & -> & Hr). cbn [mbind option_bind]. destruct r.
    + exists (Some c'). split; [done|]. destruct Hr as (_ & -> & _). zlia.
    + destruct Hr as [Hok' Hh']. case_if E; [by exists None|].
      destruct (IH c' Hok') as (r & -> & Hr). exists r. split; [done|].
      destruct r; [|done]. destruct Hh' as [Hh'|Hh']; rewrite Hh' in Hr; zlia.
Qed.

Lemma mb_bytes_ok s :
  Forall is_u8 s -> s <> [] -> exists b, mb_bytes C s = Some b /\ 0 <= b <= zlen s /\ (cchar s 0 <> 0 -> 1 <= b).
Proof.
  intros Hs Hne. unfold mb_bytes. assert (1 <= zlen s) by (destruct s; [done|zlia]).
  case_if E; [exists 0; split_and!; done || lia|].
  destruct mb_init_ok as (c & -> & Hok & Hh). cbn [mbind option_bind].
  destruct (char_loop_ok c s Hok Hs) as (r & -> & Hr). cbn [mbind option_bind].
  rewrite Hh in Hr. change (zlen []) with 0 in Hr.
  destruct r as [c'|]; [exists (mb_len c')|exists 1]; split_and!; done || lia.
Qed.

Lemma mb_char_width_nonneg wc ch : 0 <= mb_char_width wc ch.
Proof. unfold mb_char_width, ucs_width. cbn zeta. split_ifs; lia. Qed.

Lemma mb_width_ok wc s : Forall is_u8 s -> exists w, mb_width wc s = Some w /\ 0 <= w.
Proof.
  intros Hs. unfold mb_width. cbn zeta.
  case_if E1; [by exists 0|]. case_if E2; [eexists; split; [done|]; split_ifs|].
  case_if E3; [by exists 2|].
  destruct mb_init_ok as (c & -> & Hok & _). cbn [mbind option_bind].
  destruct (char_loop_ok c s Hok Hs) as (r & -> & _). cbn [mbind option_bind].
  destruct r as [c'|]; eexists; (split; [done|]); [apply mb_char_width_nonneg|lia].
Qed.

Lemma skip_escapes_le fuel p : (length (skip_escapes fuel p) <= length p)%nat.
Proof.
  revert p. induction fuel as [|fuel IH]; intros p; cbn [skip_escapes]; [lia|].
  case_if E; [|lia]. etrans; [apply IH|]. unfold skip_control_sequence. rewrite length_drop. lia.
Qed.

Lemma skip_escapes_u8 fuel p : Forall is_u8 p -> Forall is_u8 (skip_escapes fuel p).
Proof.
  revert p. induction fuel as [|fuel IH]; intros p Hp; cbn [skip_escapes]; [done|].
  case_if E; [|done]. apply IH. by apply Forall_drop.
Qed.

Lemma col_loop_ok wc fuel count s cols :
  (length s < fuel)%nat -> Forall is_u8 s -> 0 <= cols <= count ->
  exists r cols', col_loop wc fuel count s cols = Some (r, cols') /\
    zlen r <= zlen s /\ 0 <= cols' <= count.
Proof.
  revert s cols. induction fuel as [|fuel IH]; intros s cols Hf Hs Hc; [lia|].
  cbn [col_loop]. cbn zeta.
  case_if E0; [exists s, cols; split_and!; done || lia|].
  assert (Hne : s <> []) by (intros ->; done).
  assert (Hl1 : (1 <= length s)%nat) by (destruct s; [done|cbn; lia]).
  assert (Hrec : forall k cols', (1 <= k)%nat -> 0 <= cols' <= count ->
    exists r cols'', col_loop wc fuel count (drop k s) cols' = Some (r, cols'') /\
      zlen r <= zlen s /\ 0 <= cols'' <= count).
  { intros k cols' Hk Hc'. destruct (IH (drop k s) cols') as (r & c' & E & Hr & Hc2).
    - rewrite length_drop. destruct s; [done|]. cbn in *. lia.
    - by apply Forall_drop.
    - done.
    - exists r, c'. rewrite zlen_drop in Hr. pose proof (zlen_nonneg s). split_and!; done || lia. }
  case_if E1; [apply Hrec; [apply skip_len_pos|lia]|].
  case_if E2; [case_if E3; [exists s, cols; split_and!; done || lia|apply Hrec; lia]|].
  set (p := skip_escapes (length s) (drop 1 s)).
  case_if E4; [case_if E5; [exists s, cols; split_and!; done || lia|]|].
  - assert (Hp : (length p <= length (drop 1 s))%nat) by apply skip_escapes_le.
    rewrite length_drop in Hp.
    destruct (IH (drop 1 p) (cols + 2)) as (r & c' & -> & Hr & Hc2).
    + rewrite length_drop. lia.
    + apply Forall_drop, skip_escapes_u8. by apply Forall_drop.
    + lia.
    + exists r, c'. rewrite zlen_drop in Hr. unfold zlen in *. split_and!; done || lia.
  - destruct (mb_width_ok wc s Hs) as (w & -> & Hw). cbn [mbind option_bind].
    replace (if w <? 0 then 1 else w) with w by (by if_false).
    case_if E5; [exists s, cols; split_and!; done || lia|].
    destruct (mb_bytes_ok s Hs Hne) as (b & -> & Hb & Hb1). cbn [mbind option_bind].
    specialize (Hb1 E0). apply Hrec; lia.
Qed.

(** Looking for a column ends, stays inside of the string, and never counts
    more columns than were asked for. *)
Theorem stream_col_offset_bounded wc count s :
  Forall is_u8 s ->
  exists off cols, stream_col_offset wc count (Some s) = Some (off, cols) /\
    0 <= off <= zlen s /\ 0 <= cols <= Z.max 0 count.
Proof.
  intros Hs. unfold stream_col_offset.
  case_if E; [exists 0, 0; split_and!; try done; zlia|].
  destruct (col_loop_ok wc (S (length s)) count s 0) as (r & cols & -> & Hr & Hc); [lia|done|lia|].
  cbn [mbind option_bind]. exists (zlen s - zlen r), cols. pose proof (zlen_nonneg r).
  split_and!; try done; lia.
Qed.

End Sanitize.

(** *** Both codecs obey the laws *)

Definition big5_ok (c : Utf8.big5_ctx) : Prop :=
  zlen (Utf8.bbuf c) = 3 /\
  ((Utf8.bneed c = 0 /\ Utf8.bgot c = 0) \/
   (Utf8.bneed c = 2 /\ Utf8.bgot c = 1 /\ exists l, 0x81 <= l <= 0xFE /\ take 1 (Utf8.bbuf c) = [l])).
Definition big5_held (c : Utf8.big5_ctx) : list Z := take (Z.to_nat (Utf8.bgot c)) (Utf8.bbuf c).
Definition big5_char (w : list Z) : Prop :=
  exists l t, w = [l; t] /\ 0x81 <= l <= 0xFE /\ 0x40 <= t <= 0xFE.

Lemma three (b : list Z) : zlen b = 3 -> exists x y z, b = [x; y; z].
Proof.
  intros H. destruct b as [|x [|y [|z [|? ?]]]]; try (exfalso; revert H; zlia). by exists x, y, z.
Qed.

Lemma big5_add_ok c x :
  big5_ok c -> is_u8 x ->
  exists c' r, Utf8.big5_add_byte c x = Some (c', r) /\
  if r : bool then
    mem_read (Utf8.bbuf c') 0 (Utf8.blen c') = Some (big5_held c ++ [x]) /\
    Utf8.blen c' = zlen (big5_held c ++ [x]) /\
    ((big5_held c = [] /\ x < 128) \/ big5_char (big5_held c ++ [x])) /\
    exists c2, Utf8.big5_reset c' = Some c2 /\ big5_ok c2 /\ big5_held c2 = []
  else big5_ok c' /\ (big5_held c' = big5_held c ++ [x] \/ big5_held c' = []).
Proof.
  destruct c as [b n g l ch]. intros [Hz Hst] Hx. unfold is_u8 in Hx.
  cbn [Utf8.bbuf Utf8.bneed Utf8.bgot] in *. apply three in Hz as (x0 & x1 & x2 & ->).
  destruct Hst as [[-> ->]|(-> & -> & lead & Hlead & [= ->])]; unfold Utf8.big5_add_byte;
    cbn [Utf8.big5_is_ready Utf8.bneed Utf8.bgot Z.ltb Z.compare Z.eqb Pos.eqb andb mbind option_bind].
  - case_if H1.
    + eexists _, true. split; [reflexivity|]. split_and!; try done; [by left|].
      eexists. split; [reflexivity|]. split; [|done]. split; [done|by left].
    + case_if H2.
      * eexists _, false. split; [reflexivity|]. split; [split; [done|by left]|by right].
      * eexists _, false. split; [reflexivity|]. split; [|by left].
        split; [done|]. right. split_and!; try done. exists x. split; [lia|done].
  - case_if H1.
    + eexists _, false. split; [reflexivity|]. split; [split; [done|by left]|by right].
    + eexists _, true. split; [reflexivity|]. split_and!; try done.
      * right. exists lead, x. split_and!; try done; lia.
      * eexists. split; [reflexivity|]. split; [|done]. split; [done|by left].
Qed.

#[global] Instance big5_laws : MbLaws Utf8.big5_ctx.
Proof.
  refine {| mb_ok := big5_ok; mb_held := big5_held; mb_char := big5_char |}.
  - eexists. split; [reflexivity|]. split; [|done]. split; [done|by left].
  - intros [b n g l ch] [Hz _]. cbn in Hz. apply three in Hz as (x0 & x1 & x2 & ->).
    eexists. split; [reflexivity|]. split; [|done]. split; [done|by left].
  - intros [b n g l ch] [Hz Hst]. cbn in Hz, Hst. apply three in Hz as (x0 & x1 & x2 & ->).
    by destruct Hst as [[-> ->]|(-> & -> & _)].
  - intros [b n g l ch] [_ Hst]. cbn in Hst. by destruct Hst as [[-> ->]|(-> & -> & _)].
  - apply big5_add_ok.
  - intros w [b n g l ch] (lead & trail & -> & Hl & Ht) [Hz Hst] Hh. cbn in Hz, Hst.
    apply three in Hz as (x0 & x1 & x2 & ->). destruct Hst as [[-> ->]|(-> & -> & _)]; [|done].
    assert (E0 : (lead <? 128) = false) by lia.
    assert (E1 : (lead =? 128) || (lead =? 255) = false) by lia.
    assert (E2 : (trail <? 64) || (trail =? 255) = false) by lia.
    set (c1 := Utf8.Big5Ctx [lead; 0; x2] 2 1 0 (-1)).
    assert (S1 : Utf8.big5_add_byte (Utf8.Big5Ctx [x0; x1; x2] 0 0 l ch) lead = Some (c1, false)).
    { unfold Utf8.big5_add_byte. cbn. by rewrite E0, E1. }
    assert (S2 : exists c2, Utf8.big5_add_byte c1 trail = Some (c2, true)).
    { unfold Utf8.big5_add_byte. cbn. rewrite E2. eexists. reflexivity. }
    destruct S2 as [c2 S2]. exists lead, [], trail, c1, c2. split_and!; try done; [lia| |].
    2: { unfold mb_silent. cbn [mb_add_byte mb_pending big5_codec]. by rewrite S1. }
    repeat constructor; unfold is_u8; lia.
Defined.

Definition utf8_ok (c : Utf8.utf8_ctx) : Prop :=
  Utf8Props.dec_ok c /\ Utf8.utf8_is_ready c = false.
Definition utf8_char (w : list Z) : Prop :=
  exists u, Utf8Props.scalar u /\ 128 <= u /\ w = Utf8Props.enc u.

Lemma enc_len_range u : 1 <= Utf8Props.enc_len u <= 4.
Proof. unfold Utf8Props.enc_len. split_ifs. Qed.

(** A complete character is ready to be taken. *)
Lemma not_ready c :
  Utf8.utf8_is_ready c = false -> Utf8.need c = Utf8Props.enc_len (Utf8.ucs c) ->
  Utf8.got c = Utf8.need c -> False.
Proof.
  unfold Utf8.utf8_is_ready. intros Hr Hn Hg. pose proof (enc_len_range (Utf8.ucs c)).
  rewrite Hg, Z.eqb_refl in Hr. zbool. lia.
Qed.

Lemma utf8_idle c : utf8_ok c -> Utf8Props.held c = [] -> Utf8.need c = 0 /\ Utf8.got c = 0.
Proof.
  intros [[Hz Hst] Hr] Hh. destruct Hst as [Hn Hg|k Hn Hk Hg|Hs Hn Hg]; [done|..]; exfalso.
  - apply (f_equal length) in Hh. unfold Utf8Props.held in Hh. rewrite length_take in Hh.
    unfold zlen in Hz. cbn in Hh. lia.
  - by apply (not_ready c).
Qed.

Lemma utf8_pending_held c :
  utf8_ok c -> Utf8.utf8_pending c = 0 <-> Utf8Props.held c = [].
Proof.
  intros Hok. split.
  - unfold Utf8.utf8_pending. destruct Hok as [[Hz Hst] Hr]. case_if H; [lia|]. intros _.
    destruct Hst as [Hn Hg|k Hn Hk Hg Hgn|Hs Hn Hg]; [|lia|].
    + unfold Utf8Props.held. by rewrite Hg.
    + exfalso. by apply (not_ready c).
  - intros [Hn Hg]%utf8_idle; [|done]. unfold Utf8.utf8_pending. by rewrite Hn, Hg.
Qed.

Lemma utf8_error_held c : utf8_ok c -> Utf8.utf8_is_error c = true -> Utf8Props.held c = [].
Proof.
  intros Hok He. apply utf8_pending_held; [done|]. destruct Hok as [[_ Hst] _].
  unfold Utf8.utf8_is_error in He. zbool. unfold Utf8.utf8_pending.
  destruct Hst as [Hn Hg|k Hn Hk Hg Hgn|Hs Hn Hg]; [by rewrite Hn, Hg|lia|].
  rewrite Hg. by if_false.
Qed.

Lemma enc_short u : Utf8Props.scalar u -> u < 128 -> Utf8Props.enc u = [u].
Proof. intros. unfold Utf8Props.enc. by if_true. Qed.

Lemma utf8_reset_ok c : zlen (Utf8.ubuf c) = 5 ->
  exists c', Utf8.utf8_reset c = Some c' /\ utf8_ok c' /\ Utf8Props.held c' = [].
Proof.
  intros Hz. destruct (Utf8Props.reset_spec c Hz) as (c' & E & Hz' & Hn & Hg & Hl).
  exists c'. split; [done|]. split; [split; [split; [done|by apply Utf8Props.dec_idle]|]|].
  - unfold Utf8.utf8_is_ready. by rewrite Hn.
  - unfold Utf8Props.held. by rewrite Hg.
Qed.

Lemma utf8_add_ok c x :
  utf8_ok c -> is_u8 x ->
  exists c' r, Utf8.utf8_add_byte c x = Some (c', r) /\
  if r : bool then
    mem_read (Utf8.ubuf c') 0 (Utf8.len c') = Some (Utf8Props.held c ++ [x]) /\
    Utf8.len c' = zlen (Utf8Props.held c ++ [x]) /\
    ((Utf8Props.held c = [] /\ x < 128) \/ utf8_char (Utf8Props.held c ++ [x])) /\
    exists c2, Utf8.utf8_reset c' = Some c2 /\ utf8_ok c2 /\ Utf8Props.held c2 = []
  else utf8_ok c' /\ (Utf8Props.held c' = Utf8Props.held c ++ [x] \/ Utf8Props.held c' = []).
Proof.
  intros [Hok Hr] Hx. destruct (Utf8Props.add_byte_ok c x Hok Hx) as (c' & r & E & Hok' & Hr' & Hu).
  exists c', r. split; [done|].
  assert (Hheld : Utf8.utf8_is_error c' = false -> Utf8Props.held c' = Utf8Props.held c ++ [x])
    by (intros; by apply (Utf8Props.add_byte_held c x c' r)).
  destruct r.
  - destruct (Hu eq_refl) as [Hs Ht].
    assert (Hne : Utf8.utf8_is_error c' = false).
    { unfold Utf8.utf8_is_error. unfold Utf8.utf8_is_ready in Hr'. symmetry in Hr'. zbool.
      by replace (Utf8.need c' =? 0) with false by lia. }
    specialize (Hheld Hne). rewrite <- Hheld.
    assert (Henc : Utf8Props.held c' = Utf8Props.enc (Utf8.ucs c')) by by apply Utf8Props.ready_held.
    destruct (Utf8Props.enc_bytes _ Hs) as (_ & Hel & _). destruct Hok' as [Hz' Hst'].
    assert (Hlen : Utf8.len c' = zlen (Utf8Props.enc (Utf8.ucs c')) /\ 0 <= Utf8.len c' <= 5).
    { rewrite Hel. unfold Utf8.utf8_is_ready in Hr'. symmetry in Hr'. zbool.
      destruct Hst' as [|k ? ? ? ?|Hs' Hn Hg Hl _]; [lia|lia|]. split; [lia|]. rewrite Hl, Hn.
      pose proof (enc_len_range (Utf8.ucs c')). lia. }
    split_and!.
    + unfold mem_read. if_true. change (Z.to_nat 0) with 0%nat. rewrite drop_0. congruence.
    + rewrite Henc. tauto.
    + destruct (Z_lt_le_dec (Utf8.ucs c') 128) as [Hlt|Hge]; [left|right; by exists (Utf8.ucs c')].
      rewrite Henc, enc_short in Hheld by done. destruct (Utf8Props.held c) as [|h hs]; cbn in Hheld.
      * split; [done|]. injection Hheld as <-. done.
      * by destruct hs.
    + by apply utf8_reset_ok.
  - assert (Hok1 : utf8_ok c') by by split. split; [done|].
    destruct (Utf8.utf8_is_error c') eqn:He; [right; by apply utf8_error_held|left; auto].
Qed.

Lemma utf8_silent c bs c1 :
  utf8_ok c -> Forall is_u8 bs -> Utf8Props.silent c bs = Some c1 -> mb_silent c bs = Some c1.
Proof.
  intros Hok Hbs. revert c Hok. induction Hbs as [|x bs Hx _ IH]; intros c Hok; [done|].
  cbn [Utf8Props.silent mb_silent mb_add_byte utf8_codec mb_pending].
  destruct (utf8_add_ok c x Hok Hx) as (c' & r & E & Hr). rewrite E. cbn [mbind option_bind].
  destruct r; [done|]. destruct Hr as [Hok' _]. cbn [orb].
  destruct (Utf8.utf8_is_error c') eqn:He; [done|].
  assert (Hh : Utf8Props.held c' = Utf8Props.held c ++ [x])
    by (destruct Hok; by apply (Utf8Props.add_byte_held c x c' false)).
  destruct (Utf8.utf8_pending c' =? 0) eqn:Ep; [|by apply IH].
  apply Z.eqb_eq, utf8_pending_held in Ep; [|done]. rewrite Ep in Hh. by destruct (Utf8Props.held c).
Qed.

#[global] Instance utf8_laws : MbLaws Utf8.utf8_ctx.
Proof.
  refine {| mb_ok := utf8_ok; mb_held := Utf8Props.held; mb_char := utf8_char |}.
  - apply utf8_reset_ok. done.
  - intros c [[Hz _] _]. by apply utf8_reset_ok.
  - apply utf8_pending_held.
  - intros c Hok Hp. cbn in *. destruct (Utf8.utf8_is_error c) eqn:He; [|done].
    by apply utf8_error_held, utf8_pending_held in He.
  - apply utf8_add_ok.
  - intros w c (u & Hu & Hge & ->) Hok Hh. destruct (utf8_idle c Hok Hh) as [Hn Hg].
    destruct (Utf8Props.feed_enc c u) as (pre & x & c1 & c2 & E & Hsil & Hadd & _);
      [split; [apply Hok|by left]|done|].
    destruct (Utf8Props.enc_bytes u Hu) as (Hb & Hl & _).
    assert (2 <= zlen (Utf8Props.enc u)) as Hl2.
    { rewrite Hl. unfold Utf8Props.enc_len. if_false. split_ifs. }
    assert (Hpre : Forall is_u8 pre) by (rewrite E in Hb; by apply list.Forall_app in Hb as [Hb _]).
    apply utf8_silent in Hsil; [|done..].
    destruct pre as [|y pre]; [exfalso; rewrite E in Hl2; revert Hl2; zlia|].
    exists y, pre, x, c1, c2. split_and!; try done.
    destruct (Z_lt_le_dec y 128) as [Hy|]; [|done]. exfalso.
    assert (Hz : zlen (Utf8.ubuf c) = 5) by apply Hok.
    destruct (Utf8Props.add_idle c y Hz Hn) as (c' & r & Ey & _ & Hr).
    { rewrite E in Hb. by inversion Hb. }
    rewrite (proj2 (Z.ltb_lt _ _) Hy) in Hr. destruct Hr as [-> _].
    cbn [mb_silent mb_add_byte utf8_codec] in Hsil. by rewrite Ey in Hsil.
Defined.

(** *** Concrete instances *)

(** A lone lead byte, a character and a control character, then the NUL. *)
Lemma mbs_sanitize_clean_witness :
  exists t r', mbs_sanitize Utf8.big5_ctx ([65; 164; 164; 7; 66; 164] ++ [0; 9]) 8 = Some (t ++ r') /\
    zlen (t ++ r') = zlen ([65; 164; 164; 7; 66; 164] ++ [0; 9]) /\ clean_text t /\
    text_end 8 0 t r' /\
    (clean_text (C := Utf8.big5_ctx) [65; 164; 164; 7; 66; 164] -> t = [65; 164; 164; 7; 66; 164]).
Proof.
  apply (mbs_sanitize_clean (C := Utf8.big5_ctx) [65; 164; 164; 7; 66; 164] [0; 9] 8); [|done|].
  - unfold text_chars. repeat constructor; done.
  - right. split; [done|]. by exists [9].
Defined.

Lemma mbs_strstr_big5_witness :
  exists r, mbs_strstr Utf8.big5_ctx [164; 65; 65; 66] [65] = Some r /\
    match r with
    | Some q => at_char [164; 65; 65; 66] q /\ prefix_b [65] q = true /\
        forall q', at_char [164; 65; 65; 66] q' -> prefix_b [65] q' = true -> at_char q q'
    | None => forall q', at_char [164; 65; 65; 66] q' -> prefix_b [65] q' = false
    end.
Proof. apply (mbs_strstr_big5 [164; 65; 65; 66] [65]); [repeat constructor; done|done]. Defined.

Lemma stream_col_offset_bounded_witness :
  exists off cols, stream_col_offset (C := Utf8.utf8_ctx) (fun _ => 1) 3
      (Some [27; 91; 109; 228; 184; 173; 65; 66]) = Some (off, cols) /\
    0 <= off <= zlen [27; 91; 109; 228; 184; 173; 65; 66] /\ 0 <= cols <= Z.max 0 3.
Proof. apply stream_col_offset_bounded. repeat constructor; done. Defined.

(** The comparison of equal strings goes on behind their NUL. *)
Example strncasecmp_overread :
  mbs_strncasecmp Utf8.big5_ctx [65; 0] [97; 0] 4 = None /\
  mbs_strncasecmp Utf8.big5_ctx [65; 0; 200; 65] [97; 0; 200; 66] 4 = Some (-1).
Proof. split; reflexivity. Qed.

End MbsProps.
