(* ===== verification/Fav.v ===== *)
(** The favourites of a user ([mbbsd/fav.c], [include/fav.h]): a tree of
    folders of boards, lines and folders.

    A [fav_t] is an object of the heap, a [gmap] from addresses, and pointers
    to it are addresses: the stack of open folders, the folder where items are
    collected, and the folder entries of the tree share them.  An operation is
    a function of the state; [None] is a null or dangling pointer, an access
    out of [favh], a failed assertion, or the fuel.  Allocation succeeds. *)

From stdpp Require Import gmap.
From S2P Require Import Prelude Cstr Utf8 Mbs.

#[global] Open Scope Z_scope.
#[global] Open Scope list_scope.

Module Fav.
Import Cstr.

(** *** Constants and data *)

Definition FAV_VERSION : Z := 3363.
Definition FAVT_BOARD : Z := 1.
Definition FAVT_FOLDER : Z := 2.
Definition FAVT_LINE : Z := 3.
Definition FAVH_FAV : Z := 1.
Definition FAVH_TAG : Z := 2.
Definition FAVH_UNREAD : Z := 4.
Definition FAVH_ADM_TAG : Z := 8.
Definition FAV_PRE_ALLOC : Z := 8.
Definition FAV_MAXDEPTH : Z := 5.
Definition MAX_FAV : Z := 1024.
Definition MAX_LINE : Z := 64.
Definition MAX_FOLDER : Z := 64.
Definition MAX_BOARD : Z := 8192.
Definition SZ_TITLE : Z := 49.

Inductive CMD := FALSE | TRUE | EXCH.

(** [bpad] are the bytes that align the record. *)
Record fav_board_t := FavBoard { bid : Z; lastvisit : Z; battr : Z; bpad : Z }.
Record fav_folder_t := FavFolder { fid : Z; title : list Z; this_folder : option Z }.

(** The union of [fav_type_t], with its type; a zeroed entry is [NoItem]. *)
Inductive fav_data :=
  | NoItem
  | Board (b : fav_board_t)
  | Folder (f : option fav_folder_t)
  | Line (lid : Z).

Record fav_type_t := FavType { attr : Z; data : fav_data }.

Record fav_t := FavT
  { nAllocs : Z; DataTail : Z; nBoards : Z; nLines : Z; nFolders : Z;
    lineID : Z; folderID : Z; favh : list fav_type_t }.

(** The static variables, and the heap. *)
Record favs := Favs
  { heap : gmap Z fav_t; next : Z; fav_number : Z;
    fav_stack : list (option Z); fav_stack_num : Z; dirty : bool; fav_tmp : option Z }.

(** *** The monad of operations *)

Definition M (A : Type) : Type := favs -> option (favs * A).
#[export] Instance M_ret : MRet M := fun A x s => Some (s, x).
#[export] Instance M_bind : MBind M := fun A B f m s =>
  match m s with Some (s', x) => f x s' | None => None end.

Definition crash {A} : M A := fun _ => None.
Definition get : M favs := fun s => Some (s, s).
Definition modify (f : favs -> favs) : M () := fun s => Some (f s, ()).
Definition lift {A} (o : option A) : M A := fun s => match o with Some x => Some (s, x) | None => None end.

Definition with_heap (h : gmap Z fav_t) (s : favs) : favs :=
  Favs h (next s) (fav_number s) (fav_stack s) (fav_stack_num s) (dirty s) (fav_tmp s).
Definition add_number (n : Z) (s : favs) : favs :=
  Favs (heap s) (next s) (fav_number s + n) (fav_stack s) (fav_stack_num s) (dirty s) (fav_tmp s).
Definition with_number (n : Z) (s : favs) : favs :=
  Favs (heap s) (next s) n (fav_stack s) (fav_stack_num s) (dirty s) (fav_tmp s).
Definition with_stack (st : list (option Z)) (n : Z) (s : favs) : favs :=
  Favs (heap s) (next s) (fav_number s) st n (dirty s) (fav_tmp s).
Definition with_dirty (b : bool) (s : favs) : favs :=
  Favs (heap s) (next s) (fav_number s) (fav_stack s) (fav_stack_num s) b (fav_tmp s).
Definition with_tmp (p : option Z) (s : favs) : favs :=
  Favs (heap s) (next s) (fav_number s) (fav_stack s) (fav_stack_num s) (dirty s) p.

Definition set_dirty : M () := modify (with_dirty true).

(** [*fp] and [*fp = d]. *)
Definition load (p : Z) : M fav_t := s ← get; lift (heap s !! p).
Definition store (p : Z) (d : fav_t) : M () :=
  s ← get;
  match heap s !! p with
  | Some _ => modify (with_heap (<[p := d]> (heap s)))
  | None => crash
  end.

(** A new object, and [free]. *)
Definition alloc (d : fav_t) : M Z :=
  s ← get;
  _ ← modify (fun s => Favs (<[next s := d]> (heap s)) (next s + 1) (fav_number s)
                   (fav_stack s) (fav_stack_num s) (dirty s) (fav_tmp s));
  mret (next s).
Definition free (p : Z) : M () :=
  s ← get;
  match heap s !! p with
  | Some _ => modify (with_heap (delete p (heap s)))
  | None => crash
  end.

(** [fp->favh[i]] and its assignment. *)
Definition load_item (p i : Z) : M fav_type_t := d ← load p; lift (zget (favh d) i).
Definition with_favh (l : list fav_type_t) (d : fav_t) : fav_t :=
  FavT (nAllocs d) (DataTail d) (nBoards d) (nLines d) (nFolders d) (lineID d) (folderID d) l.
Definition store_item (p i : Z) (it : fav_type_t) : M () :=
  d ← load p;
  l ← lift (mem_write (favh d) i [it]);
  store p (with_favh l d).

(** A pointer to an entry is its folder and its index. *)
Definition item_ptr : Type := Z * Z.

(** *** Access *)

Definition get_data_number (d : fav_t) : Z := nBoards d + nLines d + nFolders d.

Definition get_item_type (it : fav_type_t) : Z :=
  match data it with NoItem => 0 | Board _ => 1 | Folder _ => 2 | Line _ => 3 end.

Definition get_current_fav : M (option Z) :=
  s ← get;
  if fav_stack_num s =? 0 then mret None
  else lift (zget (fav_stack s) (fav_stack_num s - 1)).

Definition get_fav_root : M (option Z) := s ← get; lift (zget (fav_stack s) 0).

(** [cast_folder(ft)->this_folder] of an entry that is a folder. *)
Definition get_fav_folder (it : fav_type_t) : M (option Z) :=
  match data it with Folder (Some f) => mret (this_folder f) | _ => crash end.

Definition valid_item (it : fav_type_t) : bool := negb (Z.land (attr it) FAVH_FAV =? 0).
Definition is_set_attr (it : fav_type_t) (bit : Z) : bool := negb (Z.land (attr it) bit =? 0).

Definition set_attr_val (a bit : Z) (cmd : CMD) : Z :=
  s8 (match cmd with
      | EXCH => Z.lxor a bit
      | TRUE => Z.lor a bit
      | FALSE => Z.land a (Z.lnot bit)
      end).

(** A null pointer is [None]. *)
Definition set_attr (ft : option item_ptr) (bit : Z) (cmd : CMD) : M () :=
  match ft with
  | None => mret ()
  | Some (p, i) =>
      it ← load_item p i;
      _ ← store_item p i (FavType (set_attr_val (attr it) bit cmd) (data it));
      set_dirty
  end.

Definition fav_getid (it : fav_type_t) : M Z :=
  match data it with
  | Folder (Some f) => mret (fid f)
  | Folder None => crash
  | Line l => mret l
  | Board b => mret (bid b)
  | NoItem => mret (-1)
  end.

(** *** Counters *)

Definition fav_decrease (p i : Z) : M () :=
  _ ← set_dirty;
  it ← load_item p i;
  d ← load p;
  _ ← store p
    (let dec b l f := FavT (nAllocs d) (DataTail d) (s16 (nBoards d - b)) (s8 (nLines d - l))
                        (s8 (nFolders d - f)) (lineID d) (folderID d) (favh d) in
     match data it with
     | Board _ => dec 1 0 0
     | Line _ => dec 0 1 0
     | Folder _ => dec 0 0 1
     | NoItem => d
     end);
  modify (add_number (-1)).

Definition fav_increase (p i : Z) : M () :=
  _ ← set_dirty;
  it ← load_item p i;
  d ← load p;
  _ ← match data it with
      | Board _ =>
          store p (FavT (nAllocs d) (DataTail d) (s16 (nBoards d + 1)) (nLines d) (nFolders d)
                     (lineID d) (folderID d) (favh d))
      | Line _ =>
          let id := s8 (lineID d + 1) in
          _ ← store p (FavT (nAllocs d) (DataTail d) (nBoards d) (s8 (nLines d + 1)) (nFolders d)
                         id (folderID d) (favh d));
          store_item p i (FavType (attr it) (Line id))
      | Folder f =>
          let id := s8 (folderID d + 1) in
          _ ← store p (FavT (nAllocs d) (DataTail d) (nBoards d) (nLines d) (s8 (nFolders d + 1))
                         (lineID d) id (favh d));
          match f with
          | Some f =>
              store_item p i (FavType (attr it) (Folder (Some (FavFolder id (title f) (this_folder f)))))
          | None => crash
          end
      | NoItem => mret ()
      end;
  _ ← modify (add_number 1);
  d ← load p;
  store p (FavT (nAllocs d) (s16 (DataTail d + 1)) (nBoards d) (nLines d) (nFolders d)
             (lineID d) (folderID d) (favh d)).

(** *** Recursive operations: [fuel] bounds the depth of the tree *)

Section FreeLoop.
Variable free_branch : option Z -> M ().

Fixpoint free_loop (n : nat) (i p : Z) : M () :=
  match n with
  | O => mret ()
  | S n =>
      it ← load_item p i;
      _ ← match data it with
          | Folder (Some f) =>
              _ ← free_branch (this_folder f);
              store_item p i (FavType (attr it) (Folder None))
          | _ => mret ()
          end;
      free_loop n (i + 1) p
  end.
End FreeLoop.

Fixpoint fav_free_branch (fuel : nat) (fp : option Z) : M () :=
  match fp with
  | None => mret ()
  | Some p =>
      match fuel with
      | O => crash
      | S fuel =>
          d ← load p;
          _ ← free_loop (fav_free_branch fuel) (Z.to_nat (DataTail d)) 0 p;
          free p
      end
  end.

Section NeedLoop.
Variable is_need_rebuild_fav : option Z -> M bool.

Fixpoint need_loop (n : nat) (i p : Z) : M bool :=
  match n with
  | O => mret false
  | S n =>
      it ← load_item p i;
      if negb (valid_item it) then mret true
      else match data it with
           | Board _ | Line _ => need_loop n (i + 1) p
           | Folder _ =>
               q ← get_fav_folder it;
               b ← is_need_rebuild_fav q;
               if (b : bool) then mret true else need_loop n (i + 1) p
           | NoItem => mret true
           end
  end.
End NeedLoop.

Fixpoint is_need_rebuild_fav (fuel : nat) (fp : option Z) : M bool :=
  match fuel, fp with
  | S fuel, Some p => d ← load p; need_loop (is_need_rebuild_fav fuel) (Z.to_nat (DataTail d)) 0 p
  | _, _ => crash
  end.

(** The head of [rebuild_fav]: the counters start again, and [nData] is left. *)
Definition rebuild_reset (p : Z) : M Z :=
  d ← load p;
  _ ← modify (add_number (- get_data_number d));
  _ ← store p (FavT (nAllocs d) 0 0 0 0 0 0 (favh d));
  mret (DataTail d).

Section RebuildLoop.
Variable free_branch : option Z -> M ().
Variable rebuild_fav : option Z -> M ().

Fixpoint rebuild_loop (n : nat) (i j p : Z) : M () :=
  match n with
  | O =>
      d ← load p;
      store p (FavT (nAllocs d) (s16 (get_data_number d)) (nBoards d) (nLines d) (nFolders d)
                 (lineID d) (folderID d) (favh d))
  | S n =>
      it ← load_item p i;
      if negb (valid_item it) then
        _ ← match data it with
            | Folder (Some f) =>
                _ ← free_branch (this_folder f);
                store_item p i (FavType (attr it) (Folder None))
            | _ => mret ()
            end;
        rebuild_loop n (i + 1) j p
      else
        keep ← match data it with
               | Board _ | Line _ => mret true
               | Folder _ => q ← get_fav_folder it; _ ← rebuild_fav q; mret true
               | NoItem => mret false
               end;
        if (keep : bool) then
          _ ← fav_increase p i;
          _ ← (if i =? j then mret () else it ← load_item p i; store_item p j it);
          rebuild_loop n (i + 1) (j + 1) p
        else rebuild_loop n (i + 1) j p
  end.
End RebuildLoop.

Fixpoint rebuild_fav (fuel : nat) (fp : option Z) : M () :=
  match fuel, fp with
  | S fuel, Some p =>
      nData ← rebuild_reset p;
      rebuild_loop (fav_free_branch fuel) (rebuild_fav fuel) (Z.to_nat nData) 0 0 p
  | _, _ => crash
  end.

(** A tree is never deeper than the number of its folders. *)
Definition depth_fuel : M nat := s ← get; mret (S (size (heap s))).

Definition fav_cleanup : M () :=
  root ← get_fav_root;
  fuel ← depth_fuel;
  b ← is_need_rebuild_fav fuel root;
  if (b : bool) then rebuild_fav fuel root else mret ().

(** *** Sorting *)

Section Sort.
Variable qsort : (fav_type_t -> fav_type_t -> Z) -> list fav_type_t -> list fav_type_t.
Variable brdname bclass : Z -> list Z.

(** [bcache] is indexed by the number of the board. *)
Definition in_bcache (b : fav_board_t) : bool := negb ((bid b <? 1) || (MAX_BOARD <? bid b)).

Definition get_item_title (it : fav_type_t) : list Z :=
  match data it with
  | Board b => if in_bcache b then brdname (bid b - 1) else []
  | Folder (Some f) => cstring (title f)
  | Line _ => [45; 45; 45; 45]
  | _ => []
  end.

(** The class of a folder is the Big5 text of a word for folder. *)
Definition get_item_class (it : fav_type_t) : list Z :=
  match data it with
  | Board b => if in_bcache b then bclass (bid b - 1) else []
  | Folder _ => [165; 216; 191; 253]
  | Line _ => [45; 45; 45; 45]
  | NoItem => []
  end.

Definition favcmp_by_name (a b : fav_type_t) : Z := strcasecmp (get_item_title a) (get_item_title b).

Definition favcmp_by_class (f1 f2 : fav_type_t) : Z :=
  if get_item_type f1 =? FAVT_FOLDER then -1
  else if get_item_type f2 =? FAVT_FOLDER then 1
  else if get_item_type f1 =? FAVT_LINE then 1
  else if get_item_type f2 =? FAVT_LINE then -1
  else
    let cmp := strcasecmp (get_item_class f1) (get_item_class f2) in
    if negb (cmp =? 0) then cmp else strcasecmp (get_item_title f1) (get_item_title f2).

(** The first entries of [favh] are sorted. *)
Definition fav_sort (cmp : fav_type_t -> fav_type_t -> Z) : M () :=
  fp ← get_current_fav;
  match fp with
  | None => mret ()
  | Some p =>
      _ ← set_dirty;
      fuel ← depth_fuel;
      _ ← rebuild_fav fuel (Some p);
      d ← load p;
      l ← lift (mem_read (favh d) 0 (get_data_number d));
      l ← lift (mem_write (favh d) 0 (qsort cmp l));
      store p (with_favh l d)
  end.
Definition fav_sort_by_name : M () := fav_sort favcmp_by_name.
Definition fav_sort_by_class : M () := fav_sort favcmp_by_class.
End Sort.

(** *** The stack of open folders *)

Definition fav_stack_full : M bool := s ← get; mret (FAV_MAXDEPTH <=? fav_stack_num s).

Definition fav_stack_push_fav (fp : option Z) : M Z :=
  full ← fav_stack_full;
  if (full : bool) then mret (-1)
  else
    s ← get;
    st ← lift (mem_write (fav_stack s) (fav_stack_num s) [fp]);
    _ ← modify (with_stack st (fav_stack_num s + 1));
    mret 0.

Definition fav_stack_push (it : fav_type_t) : M Z := q ← get_fav_folder it; fav_stack_push_fav q.

Definition fav_stack_pop : M () :=
  s ← get;
  if 0 <? fav_stack_num s then
    st ← lift (mem_write (fav_stack s) (fav_stack_num s - 1) [None]);
    modify (with_stack st (fav_stack_num s - 1))
  else mret ().
Definition fav_folder_out : M () := fav_stack_pop.

(** *** Looking up in the current folder *)

Section ItemLoop.
Variable id type : Z.

Fixpoint item_loop (n : nat) (i p : Z) : M (option item_ptr) :=
  match n with
  | O => mret None
  | S n =>
      it ← load_item p i;
      if negb (valid_item it) || negb (get_item_type it =? type) then item_loop n (i + 1) p
      else x ← fav_getid it;
           if x =? id then mret (Some (p, i)) else item_loop n (i + 1) p
  end.
End ItemLoop.

Definition get_fav_item (id type : Z) : M (option item_ptr) :=
  fp ← get_current_fav;
  match fp with
  | None => mret None
  | Some p => d ← load p; item_loop id type (Z.to_nat (DataTail d)) 0 p
  end.

Definition assert_bid (b : Z) : M () := if (0 <=? b - 1) && (b - 1 <? MAX_BOARD) then mret () else crash.

Definition getboard (b : Z) : M (option item_ptr) := _ ← assert_bid b; get_fav_item b FAVT_BOARD.
Definition getfolder (f : Z) : M (option item_ptr) := get_fav_item f FAVT_FOLDER.

Fixpoint admtag_loop (n : nat) (i p b : Z) : M (option item_ptr) :=
  match n with
  | O => mret None
  | S n =>
      it ← load_item p i;
      match data it with
      | Board x =>
          if (bid x =? b) && is_set_attr it FAVH_ADM_TAG then mret (Some (p, i))
          else admtag_loop n (i + 1) p b
      | _ => admtag_loop n (i + 1) p b
      end
  end.

Definition getadmtag (b : Z) : M (option item_ptr) :=
  root ← get_fav_root;
  _ ← assert_bid b;
  p ← lift root;
  d ← load p;
  admtag_loop (Z.to_nat (DataTail d)) 0 p b.

Definition getbrdattr (b : Z) : M Z :=
  ft ← getboard b;
  match ft with
  | None => mret 0
  | Some (p, i) => it ← load_item p i; mret (attr it)
  end.

Definition fav_folder_in (f : Z) : M Z :=
  tmp ← getfolder f;
  match tmp with
  | Some (p, i) =>
      it ← load_item p i;
      q ← get_fav_folder it;
      match q with Some _ => fav_stack_push it | None => mret (-1) end
  | None => mret (-1)
  end.

(** *** Removing and adding *)

Definition fav_free_item (ft : item_ptr) : M () := set_attr (Some ft) 0xFFFF FALSE.

Definition fav_remove (fp : option Z) (ft : option item_ptr) : M Z :=
  match fp, ft with
  | Some p, Some ft =>
      _ ← fav_free_item ft;
      _ ← (if ft.1 =? p then fav_decrease p ft.2 else crash);
      mret 0
  | _, _ => mret (-1)
  end.

Definition fav_remove_item (id type : Z) : M () :=
  fp ← get_current_fav;
  ft ← get_fav_item id type;
  _ ← fav_remove fp ft;
  mret ().

Definition is_maxsize : M bool := s ← get; mret (MAX_FAV <=? fav_number s).

Definition zero_item : fav_type_t := FavType 0 NoItem.

Definition enlarge_if_full (p : Z) : M Z :=
  full ← is_maxsize;
  if (full : bool) then mret (-1)
  else
    d ← load p;
    if DataTail d <? nAllocs d then mret 1
    else
      _ ← store p (FavT (s16 (nAllocs d + FAV_PRE_ALLOC)) (DataTail d) (nBoards d) (nLines d)
                     (nFolders d) (lineID d) (folderID d)
                     (favh d ++ replicate (Z.to_nat FAV_PRE_ALLOC) zero_item));
      mret 0.

Definition new_folder : fav_folder_t := FavFolder 0 (replicate (Z.to_nat SZ_TITLE) 0) None.

(** A new entry of a type; a type of none of the three is left out. *)
Definition new_data (type : Z) : fav_data :=
  if type =? FAVT_FOLDER then Folder (Some new_folder)
  else if type =? FAVT_BOARD then Board (FavBoard 0 0 0 0)
  else if type =? FAVT_LINE then Line 0
  else NoItem.

Definition fav_preappend (p type : Z) : M (option item_ptr) :=
  e ← enlarge_if_full p;
  if e <? 0 then mret None
  else
    d ← load p;
    let i := DataTail d in
    _ ← store_item p i (FavType FAVH_FAV (new_data type));
    _ ← fav_increase p i;
    mret (Some (p, i)).

(** The position of the [k]-th valid entry: the loops of [move_in_folder]. *)
Fixpoint find_valid (l : list fav_type_t) (i count k : Z) : option Z :=
  match l with
  | [] => None
  | it :: l =>
      if valid_item it then if count =? k then Some i else find_valid l (i + 1) (count + 1) k
      else find_valid l (i + 1) count k
  end.

(** The real position: with [k = -1] the loop does not run and the test passes. *)
Definition real_pos (l : list fav_type_t) (k : Z) : option Z :=
  if k <? 0 then if k =? -1 then Some (-1) else None else find_valid l 0 0 k.

(** The loops that move the entries between the two positions by one. *)
Definition shift_items (l : list fav_type_t) (src dst : Z) : option (list fav_type_t) :=
  tmp ← zget l src;
  l ← (if src <? dst then mem_move l src (src + 1) (dst - src)
       else mem_move l (dst + 1) dst (src - dst));
  mem_write l dst [tmp].

Definition move_in_folder (fav : option Z) (src dst : Z) : M () :=
  match fav with
  | None => mret ()
  | Some p =>
      d ← load p;
      let count := get_data_number d in
      let src := if DataTail d <=? src then count else src in
      let dst := if DataTail d <=? dst then count else dst in
      if src =? dst then mret ()
      else
        _ ← set_dirty;
        l ← lift (mem_read (favh d) 0 (Z.max 0 (DataTail d)));
        match real_pos l src, real_pos l dst with
        | Some src, Some dst => l ← lift (shift_items (favh d) src dst); store p (with_favh l d)
        | _, _ => mret ()
        end
  end.

Definition move_in_current_folder (from to : Z) : M () :=
  fp ← get_current_fav; move_in_folder fp from to.

Definition alloc_folder_item : M Z :=
  alloc (FavT FAV_PRE_ALLOC 0 0 0 0 0 0 (replicate (Z.to_nat FAV_PRE_ALLOC) zero_item)).

Definition fav_add_line : M (option item_ptr) :=
  fp ← get_current_fav;
  full ← is_maxsize;
  if (full : bool) then mret None else
  match fp with
  | None => mret None
  | Some p =>
      d ← load p;
      if MAX_LINE <=? nLines d then mret None else fav_preappend p FAVT_LINE
  end.

Definition set_this_folder (ft : item_ptr) (q : option Z) : M () :=
  it ← load_item ft.1 ft.2;
  match data it with
  | Folder (Some f) =>
      store_item ft.1 ft.2 (FavType (attr it) (Folder (Some (FavFolder (fid f) (title f) q))))
  | _ => crash
  end.

Definition fav_add_folder : M (option item_ptr) :=
  fp ← get_current_fav;
  full ← is_maxsize;
  deep ← fav_stack_full;
  if (full : bool) || (deep : bool) then mret None else
  match fp with
  | None => mret None
  | Some p =>
      d ← load p;
      if MAX_FOLDER <=? nFolders d then mret None
      else
        ft ← fav_preappend p FAVT_FOLDER;
        match ft with
        | None => mret None
        | Some ft =>
            q ← alloc_folder_item;
            _ ← set_this_folder ft (Some q);
            mret (Some ft)
        end
  end.

Definition set_bid (ft : item_ptr) (b : Z) : M () :=
  it ← load_item ft.1 ft.2;
  match data it with
  | Board x => store_item ft.1 ft.2 (FavType (attr it) (Board (FavBoard b (lastvisit x) (battr x) (bpad x))))
  | _ => crash
  end.

Definition fav_add_board (b : Z) : M (option item_ptr) :=
  fp ← get_current_fav;
  ft ← getboard b;
  match fp, ft with
  | None, _ => mret None
  | _, Some ft => mret (Some ft)
  | Some p, None =>
      full ← is_maxsize;
      if (full : bool) then mret None
      else
        ft ← fav_preappend p FAVT_BOARD;
        match ft with
        | None => mret None
        | Some ft => _ ← set_bid ft b; mret (Some ft)
        end
  end.

Definition fav_add_admtag (b : Z) : M (option item_ptr) :=
  root ← get_fav_root;
  full ← is_maxsize;
  if (full : bool) then mret None
  else
    p ← lift root;
    ft ← fav_preappend p FAVT_BOARD;
    _ ← set_attr ft FAVH_FAV FALSE;
    x ← lift ft;
    _ ← set_bid x b;
    _ ← set_attr ft FAVH_ADM_TAG TRUE;
    mret ft.

(** *** Tags *)

Definition fav_tag (id type : Z) (cmd : CMD) : M () :=
  ft ← get_fav_item id type;
  match ft with None => mret () | Some _ => set_attr ft FAVH_TAG cmd end.

(** The loop reads [DataTail] again in every round. *)
Section TaggedLoop.
Variable act : Z -> item_ptr -> M Z.

Fixpoint tagged_loop (fuel : nat) (i p : Z) : M () :=
  d ← load p;
  if i <? DataTail d then
    match fuel with
    | O => crash
    | S fuel =>
        it ← load_item p i;
        if valid_item it && is_set_attr it FAVH_TAG then
          r ← act p (p, i);
          if r <? 0 then mret () else tagged_loop fuel (i + 1) p
        else tagged_loop fuel (i + 1) p
    end
  else mret ().

(** Without an [act] that appends to the folder it is called for, the entries
    there at first are all. *)
Definition fav_dosomething_tagged_item (p : Z) : M () :=
  d ← load p; tagged_loop (Z.to_nat (DataTail d)) 0 p.
End TaggedLoop.

(** Is the folder of the entry open?  The scan stops at the first free slot. *)
Fixpoint on_stack (q : option Z) (st : list (option Z)) : bool :=
  match st with
  | Some x :: st => bool_decide (q = Some x) || on_stack q st
  | _ => false
  end.

(** The folder of a folder entry is looked at when the stack is not empty. *)
Definition is_open (it : fav_type_t) : M bool :=
  match data it with
  | Folder _ =>
      s ← get;
      match fav_stack s with
      | Some _ :: _ => q ← get_fav_folder it; mret (on_stack q (fav_stack s))
      | _ => mret false
      end
  | _ => mret false
  end.

Definition remove_tagged_item (p : Z) (ft : item_ptr) : M Z :=
  it ← load_item ft.1 ft.2;
  o ← is_open it;
  if (o : bool) then _ ← set_attr (Some ft) FAVH_TAG FALSE; mret 0
  else fav_remove (Some p) (Some ft).

Definition fav_remove_tagged_item (p : Z) : M () := fav_dosomething_tagged_item remove_tagged_item p.

(** The entry moves to the end of [fav_tmp] with a new id. *)
Definition add_and_remove_tag (p : Z) (ft : item_ptr) : M Z :=
  it ← load_item ft.1 ft.2;
  o ← is_open it;
  if (o : bool) then _ ← set_attr (Some ft) FAVH_TAG FALSE; mret 0
  else
    s ← get;
    t ← lift (fav_tmp s);
    tmp ← fav_preappend t (get_item_type it);
    _ ← match data it with
        | Folder (Some f) =>
            x ← lift tmp;
            new ← load_item x.1 x.2;
            match data new with
            | Folder (Some n) =>
                let s := strlcpy SZ_TITLE (cstring (title f)) in
                blk ← lift (mem_write (title n) 0 (s ++ [0]));
                _ ← store_item x.1 x.2
                      (FavType (attr new) (Folder (Some (FavFolder (fid n) blk (this_folder f)))));
                store_item ft.1 ft.2 (FavType (attr it) (Folder None))
            | _ => crash
            end
        | Folder None => crash
        | Board b =>
            x ← lift tmp;
            new ← load_item x.1 x.2;
            store_item x.1 x.2 (FavType (attr new) (Board b))
        | Line l =>
            x ← lift tmp;
            new ← load_item x.1 x.2;
            store_item x.1 x.2 (FavType (attr new) (Line l))
        | NoItem => mret ()
        end;
    _ ← set_attr tmp FAVH_TAG FALSE;
    _ ← fav_remove (Some p) (Some ft);
    mret 0.

Definition fav_add_tagged_item (p : Z) : M () :=
  s ← get;
  if bool_decide (fav_tmp s = Some p) then mret ()
  else fav_dosomething_tagged_item add_and_remove_tag p.

Definition remove_tag (p : Z) (ft : item_ptr) : M Z := _ ← set_attr (Some ft) FAVH_TAG FALSE; mret 0.
Definition remove_tags (p : Z) : M () := fav_dosomething_tagged_item remove_tag p.

(** Folders can be appended to the folder the loop is in. *)
Section Recursively.
Variable act : Z -> M ().

Section Loop.
Variable rec : Z -> M ().

Fixpoint recursive_loop (n : nat) (i p : Z) : M () :=
  d ← load p;
  if i <? DataTail d then
    match n with
    | O => crash
    | S n =>
        it ← load_item p i;
        _ ← (if negb (valid_item it) then mret ()
             else match data it with
                  | Folder _ =>
                      q ← get_fav_folder it;
                      match q with Some q => rec q | None => mret () end
                  | _ => mret ()
                  end);
        recursive_loop n (i + 1) p
    end
  else mret ().
End Loop.

(** [DataTail] is a [short], so no loop has more than 32767 rounds. *)
Fixpoint fav_do_recursively (fuel : nat) (p : Z) : M () :=
  match fuel with
  | O => crash
  | S fuel =>
      _ ← recursive_loop (fav_do_recursively fuel) (Z.to_nat 32767) 0 p;
      act p
  end.

Definition fav_dosomething_all_tagged_item : M () :=
  root ← get_fav_root;
  p ← lift root;
  fuel ← depth_fuel;
  fav_do_recursively fuel p.
End Recursively.

Definition fav_remove_all_tagged_item : M () := fav_dosomething_all_tagged_item fav_remove_tagged_item.
Definition fav_add_all_tagged_item : M () :=
  fp ← get_current_fav;
  _ ← modify (with_tmp fp);
  fav_dosomething_all_tagged_item fav_add_tagged_item.
Definition fav_remove_all_tag : M () := fav_dosomething_all_tagged_item remove_tags.

Definition fav_set_folder_title (ft : item_ptr) (t : list Z) : M () :=
  it ← load_item ft.1 ft.2;
  match data it with
  | Folder (Some f) =>
      _ ← set_dirty;
      blk ← lift (mem_write (title f) 0 (strlcpy SZ_TITLE t ++ [0]));
      store_item ft.1 ft.2 (FavType (attr it) (Folder (Some (FavFolder (fid f) blk (this_folder f)))))
  | Folder None => crash
  | _ => mret ()
  end.

Definition fav_free : M () :=
  root ← get_fav_root;
  fuel ← depth_fuel;
  _ ← fav_free_branch fuel root;
  s ← get;
  modify (with_stack (fav_stack s) 0).

(** *** The file

    Reading gives the object read, the rest of the file and the bytes of the
    object; at the end of the file only what is there is replaced. *)

Definition fread (old f : list Z) : list Z * list Z :=
  let got := take (length old) f in (got ++ drop (length got) old, drop (length old) f).

Definition read_s8 (f : list Z) : Z * list Z := let '(b, f) := fread [0] f in (s8 (le_val b), f).
Definition read_s16 (f : list Z) : Z * list Z := let '(b, f) := fread [0; 0] f in (s16 (le_val b), f).

(** [fav_board_t] in memory: two integers, a byte and three of padding. *)
Definition SZ_BOARD : nat := 12.
Definition board_of (b : list Z) : fav_board_t :=
  FavBoard (s32 (le_val (take 4 b))) (s32 (le_val (take 4 (drop 4 b))))
           (s8 (le_val (take 1 (drop 8 b)))) (le_val (drop 9 b)).
Definition board_bytes (b : fav_board_t) : list Z :=
  le_bytes 4 (bid b) ++ le_bytes 4 (lastvisit b) ++ le_bytes 1 (battr b) ++ le_bytes 3 (bpad b).

Definition is_valid_favtype (t : Z) : bool :=
  (t =? FAVT_BOARD) || (t =? FAVT_FOLDER) || (t =? FAVT_LINE).

(** [storage_to_mb(title, title, ...)] where both are Big5: it trims half a
    character in place.  A title that has no NUL would be read beyond. *)
Definition trim_title (t : list Z) : option (list Z) :=
  if existsb (Z.eqb 0) t then
    s ← Mbs.mbs_safe_trim Utf8.big5_ctx (cstring t);
    mem_write t (zlen s) [0]
  else None.

Definition zero_bytes (n : nat) : list Z := replicate n 0.

(** One entry of the first loop of [read_favrec]; the flag is false when the
    type is not valid. *)
Definition read_item (f : list Z) : option (fav_type_t * list Z * bool) :=
  let '(t, f) := read_s8 f in
  if negb (is_valid_favtype t) then Some (zero_item, f, false)
  else
    let '(a, f) := read_s8 f in
    if t =? FAVT_FOLDER then
      let '(i, f) := read_s8 f in
      let '(n, f) := fread (zero_bytes (Z.to_nat SZ_TITLE)) f in
      n ← trim_title n;
      Some (FavType a (Folder (Some (FavFolder i n None))), f, true)
    else if t =? FAVT_BOARD then
      let '(b, f) := fread (zero_bytes SZ_BOARD) f in
      Some (FavType a (Board (board_of b)), f, true)
    else
      let '(l, f) := read_s8 f in
      Some (FavType a (Line l), f, true).

(** An entry of the deprecated file: [fav_folder4_t] has 56 bytes. *)
Definition read_item4 (f : list Z) : option (fav_type_t * list Z * bool) :=
  let '(t, f) := read_s8 f in
  let '(a, f) := read_s8 f in
  if t =? FAVT_FOLDER then
    let '(b, f) := fread (zero_bytes 56) f in
    Some (FavType a (Folder (Some (FavFolder (s8 (le_val (take 1 b))) (take 49 (drop 1 b)) None))), f, true)
  else if t =? FAVT_BOARD then
    let '(b, f) := fread (zero_bytes SZ_BOARD) f in
    Some (FavType a (Board (board_of b)), f, true)
  else if t =? FAVT_LINE then
    let '(l, f) := read_s8 f in
    Some (FavType a (Line l), f, true)
  else Some (FavType a NoItem, f, true).

Definition zero_fav : fav_t := FavT 0 0 0 0 0 0 0 [].

(** The head of [read_favrec], for a new object [p]. *)
Definition read_head (p : Z) (f : list Z) : M (list Z) :=
  let '(b, f) := read_s16 f in
  let '(l, f) := read_s8 f in
  let '(n, f) := read_s8 f in
  let tail := s16 (b + l + n) in
  let allocs := s16 (tail + FAV_PRE_ALLOC) in
  if 0 <? allocs then
    _ ← store p (FavT allocs tail b l n 0 0 (replicate (Z.to_nat allocs) zero_item));
    _ ← modify (add_number (b + l + n));
    mret f
  else crash.

Section ReadLoops.
Variable read_entry : list Z -> option (fav_type_t * list Z * bool).
Variable read_rec : Z -> list Z -> M (list Z * bool).

Fixpoint read_items (n : nat) (i p : Z) (f : list Z) : M (list Z * bool) :=
  match n with
  | O => mret (f, true)
  | S n =>
      '(it, f, ok) ← lift (read_entry f);
      _ ← store_item p i it;
      if (ok : bool) then read_items n (i + 1) p f else mret (f, false)
  end.

Fixpoint read_subs (fuel n : nat) (i p : Z) (f : list Z) : M (list Z * bool) :=
  match n with
  | O => mret (f, true)
  | S n =>
      it ← load_item p i;
      match data it with
      | Folder (Some x) =>
          q ← alloc zero_fav;
          '(f, ok) ← read_rec q f;
          if (ok : bool) then
            d ← load p;
            let id := s8 (folderID d + 1) in
            _ ← store p (FavT (nAllocs d) (DataTail d) (nBoards d) (nLines d) (nFolders d)
                           (lineID d) id (favh d));
            _ ← store_item p i (FavType (attr it) (Folder (Some (FavFolder id (title x) (Some q)))));
            read_subs fuel n (i + 1) p f
          else
            _ ← fav_free_branch fuel (Some q);
            mret (f, false)
      | Folder None => crash
      | Line _ =>
          d ← load p;
          let id := s8 (lineID d + 1) in
          _ ← store p (FavT (nAllocs d) (DataTail d) (nBoards d) (nLines d) (nFolders d)
                         id (folderID d) (favh d));
          _ ← store_item p i (FavType (attr it) (Line id));
          read_subs fuel n (i + 1) p f
      | _ => read_subs fuel n (i + 1) p f
      end
  end.
End ReadLoops.

Section ReadRec.
Variable read_entry : list Z -> option (fav_type_t * list Z * bool).

(** The rest of the file, and whether the return value is 0. *)
Fixpoint read_rec (fuel : nat) (p : Z) (f : list Z) : M (list Z * bool) :=
  match fuel with
  | O => crash
  | S fuel =>
      f ← read_head p f;
      d ← load p;
      '(f, ok) ← read_items read_entry (Z.to_nat (DataTail d)) 0 p f;
      if (ok : bool) then
        d ← load p;
        read_subs (read_rec fuel) fuel (Z.to_nat (DataTail d)) 0 p f
      else mret (f, false)
  end.
End ReadRec.

Definition read_favrec : nat -> Z -> list Z -> M (list Z * bool) := read_rec read_item.
Definition fav4_read_favrec : nat -> Z -> list Z -> M (list Z * bool) := read_rec read_item4.

(** An entry as [write_favrec] writes it. *)
Definition item_bytes (it : fav_type_t) : option (list Z) :=
  let head := le_bytes 1 (get_item_type it) ++ le_bytes 1 (attr it) in
  match data it with
  | Folder (Some f) => Some (head ++ le_bytes 1 (fid f) ++ title f)
  | Folder None => None
  | Board b => Some (head ++ board_bytes b)
  | Line l => Some (head ++ le_bytes 1 l)
  | NoItem => Some head
  end.

Fixpoint write_items (n : nat) (i p : Z) : M (list Z) :=
  match n with
  | O => mret []
  | S n =>
      it ← load_item p i;
      w ← lift (item_bytes it);
      ws ← write_items n (i + 1) p;
      mret (w ++ ws)
  end.

Section WriteSubs.
Variable write_favrec : option Z -> M (list Z).

Fixpoint write_subs (n : nat) (i p : Z) : M (list Z) :=
  match n with
  | O => mret []
  | S n =>
      it ← load_item p i;
      w ← match data it with
          | Folder _ => q ← get_fav_folder it; write_favrec q
          | _ => mret []
          end;
      ws ← write_subs n (i + 1) p;
      mret (w ++ ws)
  end.
End WriteSubs.

Fixpoint write_favrec (fuel : nat) (fp : option Z) : M (list Z) :=
  match fp with
  | None => mret []
  | Some p =>
      match fuel with
      | O => crash
      | S fuel =>
          d ← load p;
          let tail := s16 (get_data_number d) in
          _ ← store p (FavT (nAllocs d) tail (nBoards d) (nLines d) (nFolders d)
                         (lineID d) (folderID d) (favh d));
          w ← write_items (Z.to_nat tail) 0 p;
          ws ← write_subs (write_favrec fuel) (Z.to_nat tail) 0 p;
          mret (le_bytes 2 (nBoards d) ++ le_bytes 1 (nLines d) ++ le_bytes 1 (nFolders d) ++ w ++ ws)
      end
  end.

(** The new file, when one is written and renamed, and the return value. *)
Definition fav_save (fopen_ok fclose_ok : bool) : M (option (list Z) * Z) :=
  root ← get_fav_root;
  match root with
  | None => mret (None, -1)
  | Some p =>
      _ ← fav_cleanup;
      s ← get;
      if negb (dirty s) then mret (None, 0)
      else if negb fopen_ok then mret (None, -1)
      else
        fuel ← depth_fuel;
        w ← write_favrec fuel (Some p);
        mret (if fclose_ok then Some (le_bytes 2 FAV_VERSION ++ w) else None, 0)
  end.

(** The deepest tree a file can hold: an entry of a folder takes 52 bytes. *)
Definition file_fuel (f : list Z) : nat := S (length f).

(** [file] is the content of .fav, [old] of .fav4; [None] is a file that does
    not exist.  A file that exists can be opened. *)
Definition fav_load (file old : option (list Z)) : M Z :=
  s ← get;
  if 0 <? fav_stack_num s then mret (-1)
  else
    match file with
    | None =>
        p ← alloc zero_fav;
        _ ← modify (with_number 0);
        match old with
        | Some f =>
            _ ← fav4_read_favrec (file_fuel f) p f;
            _ ← fav_stack_push_fav (Some p);
            _ ← fav_save true true;
            mret 0
        | None => _ ← fav_stack_push_fav (Some p); mret 0
        end
    | Some f =>
        p ← alloc zero_fav;
        _ ← modify (with_number 0);
        let '(_, f) := fread [0; 0] f in
        '(_, ok) ← read_favrec (file_fuel f) p f;
        p ← (if (ok : bool) then mret p
             else
               _ ← fav_free_branch (file_fuel f) (Some p);
               _ ← modify (with_number 0);
               alloc zero_fav);
        _ ← fav_stack_push_fav (Some p);
        _ ← modify (with_dirty false);
        mret 0
    end.

(** Before the first load. *)
Definition init_favs : favs := Favs ∅ 1 0 (replicate 5 None) 0 false None.

(** *** New boards *)

Definition BRD_OLD : Z := 0.
Definition BRD_NEW : Z := 1.
Definition BRD_END : Z := 2.

Section UpdateNewFav.
(** [bcache[i].brdname[0]], [HasBoardPerm] and the symbolic attribute. *)
Variable exists_board has_perm symbolic : Z -> bool.

(** A board that can be added: [BRD_OLD] is left for it. *)
Definition visit_board (mode : bool) (i count : Z) : M Z :=
  if mode && negb (symbolic i) then _ ← fav_add_board (i + 1); mret (count + 1)
  else mret count.

(** The entries before [BRD_END]: the file, and the number of boards added. *)
Fixpoint known_loop (mode : bool) (n : nat) (i brdnum : Z) (brd : list Z) (count : Z)
  : M (Z * list Z * Z) :=
  b ← lift (zget brd i);
  if (i <? brdnum) && negb (b =? BRD_END) then
    match n with
    | O => crash
    | S n =>
        '(brd, count) ←
          (if b =? BRD_NEW then
             if exists_board i && has_perm i then
               count ← visit_board mode i count;
               brd ← lift (mem_write brd i [BRD_OLD]);
               mret (brd, count)
             else mret (brd, count)
           else if negb (exists_board i) then
             brd ← lift (mem_write brd i [BRD_NEW]); mret (brd, count)
           else mret (brd, count));
        known_loop mode n (i + 1) brdnum brd count
    end
  else mret (i, brd, count).

(** The boards the file does not know yet. *)
Fixpoint unknown_loop (mode : bool) (n : nat) (i brdnum : Z) (brd : list Z) (count : Z)
  : M (Z * list Z * Z) :=
  if i <? brdnum then
    match n with
    | O => crash
    | S n =>
        '(brd, count) ←
          (if exists_board i && has_perm i then
             count ← visit_board mode i count;
             brd ← lift (mem_write brd i [BRD_OLD]);
             mret (brd, count)
           else brd ← lift (mem_write brd i [BRD_NEW]); mret (brd, count));
        unknown_loop mode n (i + 1) brdnum brd count
    end
  else mret (i, brd, count).

(** [file] is the content of .favnb; the result is the count and the new
    content. *)
Definition updatenewfav (addnew mode : bool) (brdnum : Z) (file : list Z) : M (Z * list Z) :=
  if negb addnew then mret (0, file)
  else if brdnum <? 0 then crash
  else
    let n := Z.to_nat brdnum in
    let got := take n file in
    let brd := got ++ replicate (n + 1 - length got) 0 in
    brd ← lift (mem_write brd (zlen got) [BRD_END]);
    '(i, brd, count) ← known_loop mode n 0 brdnum brd 0;
    '(i, brd, count) ← unknown_loop mode n i brdnum brd count;
    brd ← lift (mem_write brd i [BRD_END]);
    mret (count, brd ++ drop (n + 1) file).
End UpdateNewFav.

End Fav.
