(* ===== verification/FavTree.v ===== *)
(** The tree of favourites behind the heap: an abstract tree, what it means for
    a heap to hold one, and how the primitive operations act on such a heap. *)

From stdpp Require Import gmap.
From S2P Require Import Prelude Cstr Fav.

#[global] Open Scope Z_scope.
#[global] Open Scope list_scope.

Module FavTree.
Import Fav.

(** *** Trees *)

(** An entry is not a folder, or is a folder with its own tree. *)
Inductive tree :=
  | Tree (es : list entry)
with entry :=
  | Leaf (a : Z) (d : fav_data)
  | Sub (a : Z) (f : Z) (t : list Z) (sub : tree).

Definition entries (t : tree) : list entry := match t with Tree es => es end.
Definition entry_attr (e : entry) : Z := match e with Leaf a _ => a | Sub a _ _ _ => a end.
Definition live (e : entry) : bool :=
  negb (Z.land (entry_attr e) FAVH_FAV =? 0) &&
  match e with Leaf _ (Board _) | Leaf _ (Line _) | Sub _ _ _ _ => true | _ => false end.
Definition is_board (e : entry) : bool := match e with Leaf _ (Board _) => true | _ => false end.
Definition is_line (e : entry) : bool := match e with Leaf _ (Line _) => true | _ => false end.
Definition is_sub (e : entry) : bool := match e with Sub _ _ _ _ => true | _ => false end.

Definition count (f : entry -> bool) (es : list entry) : Z := zlen (List.filter f es).

(** What [rebuild_fav] makes of a tree: the entries that count, in order, with
    the lines and the folders numbered again. *)
Fixpoint clean (t : tree) : tree :=
  match t with
  | Tree es =>
      Tree ((fix go (es : list entry) (l f : Z) : list entry :=
        match es with
        | [] => []
        | e :: es =>
            if live e then
              match e with
              | Leaf a (Line _) => Leaf a (Line (s8 (l + 1))) :: go es (s8 (l + 1)) f
              | Sub a _ t sub => Sub a (s8 (f + 1)) t (clean sub) :: go es l (s8 (f + 1))
              | _ => e :: go es l f
              end
            else go es l f
        end) es 0 0)
  end.

Fixpoint clean_list (es : list entry) (l f : Z) : list entry :=
  match es with
  | [] => []
  | e :: es =>
      if live e then
        match e with
        | Leaf a (Line _) => Leaf a (Line (s8 (l + 1))) :: clean_list es (s8 (l + 1)) f
        | Sub a _ t sub => Sub a (s8 (f + 1)) t (clean sub) :: clean_list es l (s8 (f + 1))
        | _ => e :: clean_list es l f
        end
      else clean_list es l f
  end.

Lemma clean_eq es : clean (Tree es) = Tree (clean_list es 0 0).
Proof. reflexivity. Qed.

Fixpoint depth (t : tree) : nat :=
  match t with
  | Tree es => S (fold_right (fun e n => match e with Sub _ _ _ t => Nat.max (depth t) n | _ => n end) O es)
  end.

Definition depths (es : list entry) : nat :=
  fold_right (fun e n => match e with Sub _ _ _ t => Nat.max (depth t) n | _ => n end) O es.

Lemma depth_eq es : depth (Tree es) = S (depths es).
Proof. done. Qed.

(** *** Heaps that hold a tree *)

(** The item of an entry that is no folder; a folder that was moved away is
    removed too. *)
Definition plain (a : Z) (d : fav_data) : Prop :=
  match d with
  | Folder (Some _) => False
  | Folder None => Z.land a FAVH_FAV = 0
  | _ => True
  end.

(** The limits that keep the counters of a folder within their types. *)
Definition fits (es : list entry) : Prop :=
  count (fun e => live e && is_board e) es <= 32000 /\
  count (fun e => live e && is_line e) es <= 127 /\
  count (fun e => live e && is_sub e) es <= 127.

Definition sized (d : fav_t) : Prop :=
  0 <= DataTail d <= zlen (favh d) /\ zlen (favh d) = nAllocs d /\ nAllocs d <= 32767.

(** The counters are those of the entries that count. *)
Definition exact (d : fav_t) (es : list entry) : Prop :=
  nBoards d = count (fun e => live e && is_board e) es /\
  nLines d = count (fun e => live e && is_line e) es /\
  nFolders d = count (fun e => live e && is_sub e) es.

(** [repr ex h p t fp]: the object at [p] is the root of [t], and [fp] are the
    addresses of its objects; with [ex] every counter is exact. *)
Inductive repr (ex : bool) (h : gmap Z fav_t) : Z -> tree -> list Z -> Prop :=
  | repr_node p d es fp :
      h !! p = Some d -> sized d -> fits es -> (if ex then exact d es else True) ->
      reprs ex h (take (Z.to_nat (DataTail d)) (favh d)) es fp ->
      repr ex h p (Tree es) (p :: fp)
with reprs (ex : bool) (h : gmap Z fav_t) : list fav_type_t -> list entry -> list Z -> Prop :=
  | reprs_nil : reprs ex h [] [] []
  | reprs_leaf a d its es fp :
      plain a d -> reprs ex h its es fp ->
      reprs ex h (FavType a d :: its) (Leaf a d :: es) fp
  | reprs_sub a f n q t its es fp fp' :
      repr ex h q t fp -> reprs ex h its es fp' ->
      reprs ex h (FavType a (Folder (Some (FavFolder f n (Some q)))) :: its)
                 (Sub a f n t :: es) (fp ++ fp').

Scheme repr_mut := Minimality for repr Sort Prop
  with reprs_mut := Minimality for reprs Sort Prop.
Combined Scheme repr_reprs_ind from repr_mut, reprs_mut.

Lemma repr_frame_both ex h h' :
  (forall p t fp, repr ex h p t fp -> (forall q, q ∈ fp -> h' !! q = h !! q) -> repr ex h' p t fp) /\
  (forall its es fp, reprs ex h its es fp -> (forall q, q ∈ fp -> h' !! q = h !! q) ->
     reprs ex h' its es fp).
Proof.
  apply repr_reprs_ind; intros.
  - econstructor; try done; [|set_solver]. rewrite H5; [done|set_solver].
  - constructor.
  - constructor; auto.
  - constructor; set_solver.
Qed.

Lemma repr_frame ex h h' p t fp :
  repr ex h p t fp -> (forall q, q ∈ fp -> h' !! q = h !! q) -> repr ex h' p t fp.
Proof. apply repr_frame_both. Qed.

Lemma reprs_frame ex h h' its es fp :
  reprs ex h its es fp -> (forall q, q ∈ fp -> h' !! q = h !! q) -> reprs ex h' its es fp.
Proof. apply repr_frame_both. Qed.

Lemma repr_head ex h p t fp : repr ex h p t fp -> exists fp', fp = p :: fp' /\ is_Some (h !! p).
Proof. inversion 1; subst; eauto. Qed.

Lemma reprs_length ex h its es fp : reprs ex h its es fp -> length its = length es.
Proof. induction 1; cbn; auto. Qed.

Lemma reprs_app ex h its es fp its' es' fp' :
  reprs ex h its es fp -> reprs ex h its' es' fp' ->
  reprs ex h (its ++ its') (es ++ es') (fp ++ fp').
Proof.
  intros H H'. induction H; cbn; [done|by constructor|]. rewrite <- app_assoc. by constructor.
Qed.

(** *** The monad *)

Lemma bind_some {A B} (m : M A) (f : A -> M B) s s' x :
  m s = Some (s', x) -> (m ≫= f) s = f x s'.
Proof. intros E. unfold mbind, M_bind. by rewrite E. Qed.

(** Symbolic execution: the bind of a known step, and the primitive steps. *)
Ltac mstep H := rewrite (bind_some _ _ _ _ _ H); cbn [heap with_heap].

(** Straight-line code on one object, whose lookup is [Hp]. *)
Ltac mrun Hp :=
  unfold load_item, store_item, load, store, set_dirty, modify, get, lift, mbind, M_bind, mret, M_ret;
  repeat first
    [ progress cbn [with_heap with_dirty add_number with_number with_stack with_tmp with_favh heap next
        fav_number fav_stack fav_stack_num dirty fav_tmp favh data attr fst snd]
    | rewrite lookup_insert_eq | rewrite Hp | rewrite zget_middle by done | rewrite mem_write_one by done
    | rewrite insert_insert_eq ].

Lemma load_some p d s : heap s !! p = Some d -> load p s = Some (s, d).
Proof. intros E. unfold load, mbind, M_bind, get, lift. by rewrite E. Qed.

Lemma store_some p d d' s :
  heap s !! p = Some d -> store p d' s = Some (with_heap (<[p := d']> (heap s)) s, ()).
Proof. intros E. unfold store, mbind, M_bind, get. by rewrite E. Qed.

Lemma load_item_some p i d it s :
  heap s !! p = Some d -> zget (favh d) i = Some it -> load_item p i s = Some (s, it).
Proof.
  intros E E'. unfold load_item. mstep (load_some _ _ _ E). unfold lift. by rewrite E'.
Qed.

Lemma load_item_at p i d a it b s :
  heap s !! p = Some d -> favh d = a ++ it :: b -> i = zlen a -> load_item p i s = Some (s, it).
Proof. intros E Ef Ei. apply (load_item_some _ _ d); [done|]. rewrite Ef. by apply zget_middle. Qed.

Lemma store_item_some p i d a x b it s :
  heap s !! p = Some d -> favh d = a ++ x :: b -> i = zlen a ->
  store_item p i it s = Some (with_heap (<[p := with_favh (a ++ it :: b) d]> (heap s)) s, ()).
Proof.
  intros E Ef Ei. unfold store_item. mstep (load_some _ _ _ E).
  unfold mbind at 1, M_bind at 1, lift. rewrite Ef, mem_write_one by done. by apply store_some with d.
Qed.

Lemma free_some p d s :
  heap s !! p = Some d -> free p s = Some (with_heap (delete p (heap s)) s, ()).
Proof. intros E. unfold free, mbind, M_bind, get. by rewrite E. Qed.

(** *** Freeing *)

(** The objects [fp] are gone, and the others as they were. *)
Definition freed (fp : list Z) (h h' : gmap Z fav_t) : Prop :=
  (forall x, x ∈ fp -> h' !! x = None) /\ (forall x, x ∉ fp -> h' !! x = h !! x).

Lemma free_loop_spec fuel :
  (forall q t fp s, repr false (heap s) q t fp -> NoDup fp -> (depth t <= fuel)%nat ->
     exists h', fav_free_branch fuel (Some q) s = Some (with_heap h' s, ()) /\ freed fp (heap s) h') ->
  forall es its fp a b d p s,
  heap s !! p = Some d -> favh d = a ++ its ++ b ->
  reprs false (heap s) its es fp -> NoDup (p :: fp) -> (depths es <= fuel)%nat ->
  exists h', free_loop (fav_free_branch fuel) (length its) (zlen a) p s = Some (with_heap h' s, ()) /\
    is_Some (h' !! p) /\ (forall x, x ∈ fp -> h' !! x = None) /\
    (forall x, x ∉ p :: fp -> h' !! x = heap s !! x).
Proof.
  intros Hrec es. induction es as [|e es IH]; intros its fp a b d p s Hp Ef Hr Hnd Hd;
    inversion Hr; subst; cbn [length free_loop].
  - exists (heap s). split_and!; [by destruct s|eauto|set_solver|done].
  - cbn [app] in Ef. mstep (load_item_at _ _ _ _ _ _ _ Hp Ef eq_refl). cbn [data].
    destruct (IH its0 fp (a ++ [FavType a0 d0]) b d p s) as (h' & E & H');
      [done|by rewrite Ef, <- app_assoc|done|done|done|].
    exists h'. split; [|done]. rewrite zlen_app in E. change (zlen [_]) with 1 in E.
    destruct d0 as [| |[]|]; done.
  - cbn [app] in Ef. mstep (load_item_at _ _ _ _ _ _ _ Hp Ef eq_refl). cbn [data this_folder attr].
    apply list.NoDup_cons in Hnd as [Hin Hnd]. apply list.NoDup_app in Hnd as (Hnd0 & Hdis & Hnd').
    cbn [depths fold_right] in Hd. fold (depths es) in Hd.
    destruct (Hrec q t fp0 s) as (h1 & E1 & Hg1 & Hf1); [done|done|lia|].
    assert (Hp1 : h1 !! p = Some d) by (rewrite Hf1; [done|set_solver]).
    unfold mbind at 1, M_bind at 1. mstep E1.
    rewrite (store_item_some p _ d a _ (its0 ++ b) _ (with_heap h1 s) Hp1 Ef eq_refl).
    cbn [heap with_heap].
    set (d' := with_favh _ d).
    destruct (IH its0 fp' (a ++ [FavType a0 (Folder None)]) b d' p
                (with_heap (<[p:=d']> h1) s)) as (h' & E & Hp' & Hg & Hf).
    { apply lookup_insert_eq. }
    { unfold d'. cbn [favh with_favh]. by rewrite <- app_assoc. }
    { apply reprs_frame with (heap s); [done|]. intros x Hx. cbn [heap with_heap].
      rewrite lookup_insert_ne by set_solver. apply Hf1. set_solver. }
    { apply list.NoDup_cons. split; [set_solver|done]. }
    { lia. }
    exists h'. rewrite zlen_app in E. change (zlen [_]) with 1 in E. split_and!; [done|done| |].
    + intros x Hx. destruct (decide (x ∈ fp')) as [Hx'|Hx']; [by apply Hg|].
      rewrite Hf by set_solver. cbn [heap with_heap]. rewrite lookup_insert_ne by set_solver.
      apply Hg1. set_solver.
    + intros x Hx. rewrite Hf by set_solver. cbn [heap with_heap].
      rewrite lookup_insert_ne by set_solver. apply Hf1. set_solver.
Qed.

Lemma reprs_items ex h d es fp :
  reprs ex h (take (Z.to_nat (DataTail d)) (favh d)) es fp -> sized d ->
  exists its b, favh d = its ++ b /\ reprs ex h its es fp /\
    Z.to_nat (DataTail d) = length its /\ DataTail d = zlen its.
Proof.
  intros H [Hd _]. eexists _, (drop (Z.to_nat (DataTail d)) (favh d)).
  split; [symmetry; apply take_drop|]. split; [exact H|].
  unfold zlen in *. rewrite length_take. lia.
Qed.

Lemma repr_weaken_both h :
  (forall p t fp, repr true h p t fp -> repr false h p t fp) /\
  (forall its es fp, reprs true h its es fp -> reprs false h its es fp).
Proof. apply repr_reprs_ind; intros; econstructor; eauto. Qed.

Lemma free_branch_spec fuel : forall q t fp s,
  repr false (heap s) q t fp -> NoDup fp -> (depth t <= fuel)%nat ->
  exists h', fav_free_branch fuel (Some q) s = Some (with_heap h' s, ()) /\ freed fp (heap s) h'.
Proof.
  induction fuel as [|fuel IH]; intros q t fp s Hr Hnd Hd; inversion Hr as [? d es fp' Hp Hs Hfit _ Hrs]; subst.
  { rewrite depth_eq in Hd. lia. }
  rewrite depth_eq in Hd. destruct (reprs_items _ _ _ _ _ Hrs Hs) as (its & b & Ef & Hi & En & _).
  destruct (free_loop_spec fuel IH es its fp' [] b d q s) as (h' & E & [d' Hq] & Hg & Hf);
    [done|done|done|done|lia|].
  cbn [fav_free_branch]. mstep (load_some _ _ _ Hp). rewrite En. change (zlen []) with 0 in E. mstep E.
  rewrite (free_some q d') by done. exists (delete q h'). split; [done|].
  apply list.NoDup_cons in Hnd as [Hin Hnd]. split.
  - intros x Hx. apply elem_of_cons in Hx as [->|Hx]; [apply lookup_delete_eq|].
    rewrite lookup_delete_ne by set_solver. by apply Hg.
  - intros x Hx. rewrite lookup_delete_ne by set_solver. by apply Hf.
Qed.

End FavTree.
