(* ===== verification/FavClean.v ===== *)
(** Rebuilding the favourites: [rebuild_fav] and [fav_cleanup] on a heap that
    holds a tree. *)

From stdpp Require Import gmap.
From S2P Require Import Prelude Cstr Fav FavTree.

#[global] Open Scope Z_scope.
#[global] Open Scope list_scope.

Module FavClean.
Import Fav FavTree.

(** *** Counting an entry *)

Definition countable (d : fav_data) : Prop :=
  match d with Board _ | Line _ | Folder (Some _) => True | _ => False end.

(** The entry with its new number, when its folder has given [l] and [f]. *)
Definition renum (it : fav_type_t) (l f : Z) : fav_type_t :=
  FavType (attr it)
    match data it with
    | Line _ => Line (s8 (l + 1))
    | Folder (Some x) => Folder (Some (FavFolder (s8 (f + 1)) (title x) (this_folder x)))
    | d => d
    end.

Definition bumped (it : fav_type_t) (d : fav_t) (fh : list fav_type_t) : fav_t :=
  let t := s16 (DataTail d + 1) in
  match data it with
  | Board _ => FavT (nAllocs d) t (s16 (nBoards d + 1)) (nLines d) (nFolders d) (lineID d) (folderID d) fh
  | Line _ => FavT (nAllocs d) t (nBoards d) (s8 (nLines d + 1)) (nFolders d) (s8 (lineID d + 1)) (folderID d) fh
  | _ => FavT (nAllocs d) t (nBoards d) (nLines d) (s8 (nFolders d + 1)) (lineID d) (s8 (folderID d + 1)) fh
  end.

(** A state after operations that change the heap and count [n] more entries. *)
Definition after (h : gmap Z fav_t) (n : Z) (s : favs) : favs :=
  Favs h (next s) (fav_number s + n) (fav_stack s) (fav_stack_num s) true (fav_tmp s).

Lemma fav_increase_some p i d a it b s :
  heap s !! p = Some d -> favh d = a ++ it :: b -> i = zlen a -> countable (data it) ->
  fav_increase p i s =
    Some (after (<[p := bumped it d (a ++ renum it (lineID d) (folderID d) :: b)]> (heap s)) 1 s, ()).
Proof.
  intros Hp Ef -> Hc. destruct d as [na dt nb nl nf li fi fh]; cbn [favh] in Ef; subst fh.
  unfold fav_increase.
  destruct it as [at_ [|x|[x|]|l]]; cbn [countable data] in Hc; try done; mrun Hp; reflexivity.
Qed.

(** *** What a rebuild keeps *)

Definition kept (s s' : favs) : Prop :=
  next s' = next s /\ fav_stack s' = fav_stack s /\ fav_stack_num s' = fav_stack_num s /\
  fav_tmp s' = fav_tmp s /\ (dirty s = true -> dirty s' = true).

#[export] Instance kept_preorder : PreOrder kept.
Proof.
  split; [by intros s; split_and!|].
  intros s1 s2 s3 (?&?&?&?&?) (?&?&?&?&?). split_and!; try congruence. auto.
Qed.

(** The entries [es] of the folder are now those of the tree, in the objects
    [fp]; those of [fpr] that are not among them are gone. *)
Definition objects (p : Z) (fpr fp' : list Z) (s s' : favs) : Prop :=
  kept s s' /\ sublist fp' fpr /\
  (forall x, x ∈ fpr -> x ∉ fp' -> heap s' !! x = None) /\
  (forall x, x ∉ fpr -> x <> p -> heap s' !! x = heap s !! x).

Lemma count_app f a b : count f (a ++ b) = count f a + count f b.
Proof. unfold count. rewrite List.filter_app. zlia. Qed.

Lemma count_cons f e es : count f (e :: es) = (if f e then 1 else 0) + count f es.
Proof. unfold count. cbn. destruct (f e); zlia. Qed.

Lemma count_snoc f es e : count f (es ++ [e]) = count f es + (if f e then 1 else 0).
Proof. rewrite count_app, count_cons. change (count f []) with 0. lia. Qed.

Lemma count_nonneg f es : 0 <= count f es.
Proof. apply zlen_nonneg. Qed.

Lemma s8_id z : -128 <= z < 128 -> s8 z = z.
Proof. intros. unfold s8. rewrite Z.mod_small; lia. Qed.

Lemma s16_id z : -32768 <= z < 32768 -> s16 z = z.
Proof. intros. unfold s16. rewrite Z.mod_small; lia. Qed.

(** All entries count. *)
Definition all_live (es : list entry) : Prop := Forall (fun e => live e = true) es.

Lemma live_cases e : live e = true ->
  (is_board e = true /\ is_line e = false /\ is_sub e = false) \/
  (is_board e = false /\ is_line e = true /\ is_sub e = false) \/
  (is_board e = false /\ is_line e = false /\ is_sub e = true).
Proof. unfold live. destruct e as [a [| |[]|]|]; cbn; rewrite ?andb_false_r; intros E; try discriminate E; auto 10. Qed.

Lemma exact_total d es : exact d es -> all_live es -> get_data_number d = zlen es.
Proof.
  unfold exact, get_data_number. intros (-> & -> & ->) H.
  induction H as [|e es He _ IH]; [done|]. rewrite !count_cons, He. cbn [andb].
  destruct (live_cases e He) as [(-> & -> & ->)|[(-> & -> & ->)|(-> & -> & ->)]]; zlia.
Qed.

Lemma clean_list_live es : forall l f, all_live (clean_list es l f).
Proof.
  induction es as [|e es IH]; intros l f; cbn [clean_list]; [constructor|].
  destruct (live e) eqn:E; [|apply IH].
  destruct e as [a [| | |]|]; (constructor; [|apply IH]); done.
Qed.

Lemma count_clean g es : (forall a x y, g (Leaf a (Line x)) = g (Leaf a (Line y))) ->
  (forall a x y t t' u u', g (Sub a x t u) = g (Sub a y t' u')) ->
  forall l f, count (fun e => live e && g e) (clean_list es l f) = count (fun e => live e && g e) es.
Proof.
  intros Hl Hs. induction es as [|e es IH]; intros l f; cbn [clean_list]; [done|].
  rewrite count_cons. destruct (live e) eqn:E; [|cbn [andb]; by rewrite IH].
  destruct e as [a [| | |]|]; rewrite count_cons, IH; unfold live in *; cbn [entry_attr] in *; rewrite E;
    cbn [andb]; do 2 f_equal; auto.
  - by erewrite Hl.
  - by erewrite Hs.
Qed.

Lemma fits_clean es l f : fits es -> fits (clean_list es l f).
Proof. unfold fits. by rewrite !count_clean. Qed.

(** *** One entry that stays *)

Lemma keep_step p i j d out gap it b s {A} (k : M A) :
  heap s !! p = Some d -> favh d = out ++ gap ++ it :: b -> j = zlen out -> i = zlen (out ++ gap) ->
  countable (data it) ->
  exists gap', length gap' = length gap /\
  (_ ← fav_increase p i;
   _ ← (if i =? j then mret () else x ← load_item p i; store_item p j x);
   k) s =
  k (after (<[p := bumped it d (out ++ renum it (lineID d) (folderID d) :: gap' ++ b)]> (heap s)) 1 s).
Proof.
  intros Hp Ef -> -> Hc. rewrite app_assoc in Ef.
  set (it' := renum it (lineID d) (folderID d)).
  pose proof (fav_increase_some p _ d _ it b s Hp Ef eq_refl Hc) as Einc. fold it' in Einc.
  mstep Einc. destruct gap as [|y g].
  - exists []. split; [done|]. rewrite app_nil_r, Z.eqb_refl. done.
  - exists (g ++ [it']). split; [rewrite length_app; cbn; lia|].
    replace (zlen (out ++ y :: g) =? zlen out) with false by (symmetry; apply Z.eqb_neq; rewrite zlen_app, zlen_cons; pose proof (zlen_nonneg g); lia).
    set (d1 := bumped _ _ _) in *.
    assert (Ef1 : favh d1 = (out ++ y :: g) ++ it' :: b) by (unfold d1, bumped; by destruct (data it)).
    set (s1 := after _ _ _).
    assert (Hp1 : heap s1 !! p = Some d1) by apply lookup_insert_eq.
    unfold mbind at 1, M_bind at 1.
    mstep (load_item_at _ _ _ _ _ _ _ Hp1 Ef1 eq_refl).
    rewrite <- app_assoc in Ef1. cbn [app] in Ef1.
    rewrite (store_item_some _ _ _ _ _ _ _ _ Hp1 Ef1 eq_refl). f_equal.
    unfold s1, after, with_heap. cbn [heap]. rewrite insert_insert_eq. f_equal.
    f_equal. unfold d1, bumped, with_favh. rewrite <- !app_assoc. cbn [app]. by destruct (data it).
Qed.

(** *** The loop *)

Definition same_kind (e e' : entry) : Prop :=
  live e = true /\ live e' = true /\ is_board e' = is_board e /\ is_line e' = is_line e /\
  is_sub e' = is_sub e.

Lemma fits_kind e e' eo es : same_kind e e' -> fits (eo ++ e :: es) -> fits ((eo ++ [e']) ++ es).
Proof.
  intros (H&H'&Hb&Hl&Hs). unfold fits.
  rewrite !(count_app _ (eo ++ [e'])), !count_snoc, !count_app, !count_cons, H, H', Hb, Hl, Hs. lia.
Qed.

Lemma bumped_exact it d fh e e' eo es :
  exact d eo -> all_live eo -> DataTail d = zlen eo -> fits (eo ++ e :: es) -> same_kind e e' ->
  match data it with
  | Board _ => is_board e | Line _ => is_line e | Folder _ => is_sub e | NoItem => false
  end = true ->
  exact (bumped it d fh) (eo ++ [e']) /\ DataTail (bumped it d fh) = zlen (eo ++ [e']).
Proof.
  intros He Ha Ht Hf (H&H'&Hb&Hl&Hs) Hk.
  assert (Hz : zlen eo <= 32254).
  { rewrite <- (exact_total d) by done. destruct He as (E1&E2&E3).
    unfold fits in Hf. rewrite !count_app in Hf. unfold get_data_number.
    pose proof (fun g => count_nonneg g (e :: es)) as Hn.     pose proof (Hn (fun e => live e && is_board e)). pose proof (Hn (fun e => live e && is_line e)).
    pose proof (Hn (fun e => live e && is_sub e)). lia. }
  assert (Et : s16 (DataTail d + 1) = zlen (eo ++ [e'])).
  { pose proof (zlen_nonneg eo). rewrite zlen_app, s16_id; rewrite Ht; [done|lia]. }
  unfold exact in *. destruct He as (E1&E2&E3).
  unfold fits in Hf. rewrite !count_app, !count_cons in Hf. rewrite H in Hf. cbn [andb] in Hf.
  rewrite !count_snoc, H', Hb, Hl, Hs. cbn [andb].
  pose proof (fun g => count_nonneg g es) as Hn. pose proof (fun g => count_nonneg g eo) as Hn'.
  pose proof (Hn (fun e => live e && is_board e)). pose proof (Hn (fun e => live e && is_line e)).
  pose proof (Hn (fun e => live e && is_sub e)). pose proof (Hn' (fun e => live e && is_board e)).
  pose proof (Hn' (fun e => live e && is_line e)). pose proof (Hn' (fun e => live e && is_sub e)).
  destruct (live_cases e H) as [(X1 & X2 & X3)|[(X1 & X2 & X3)|(X1 & X2 & X3)]];
    rewrite X1, X2, X3 in *; unfold bumped; destruct (data it); try discriminate;
    cbn [nBoards nLines nFolders DataTail]; rewrite ?Et;
    (split_and!; [rewrite ?s16_id, ?s8_id; lia ..|done]).
Qed.

(** In the middle of the loop: [out] are the entries kept, those of [eo] in the
    tree, [gap] is what the others left, and [its] are still to come. *)
Definition loop_pre (p : Z) (s : favs) (d : fav_t) (out gap its b : list fav_type_t)
    (eo es : list entry) (fpo fpr : list Z) : Prop :=
  heap s !! p = Some d /\ favh d = out ++ gap ++ its ++ b /\
  reprs true (heap s) out eo fpo /\ reprs false (heap s) its es fpr /\ NoDup (p :: fpo ++ fpr) /\
  exact d eo /\ all_live eo /\ DataTail d = zlen eo /\ fits (eo ++ es).

(** At its end the folder has the entries [er]. *)
Definition loop_post (p : Z) (s : favs) (d : fav_t) (er : list entry) (fpo fpr : list Z)
    (r : option (favs * ())) : Prop :=
  exists s' d' out rest fp', r = Some (s', ()) /\ objects p fpr fp' s s' /\
    heap s' !! p = Some d' /\ favh d' = out ++ rest /\ zlen (favh d') = zlen (favh d) /\
    nAllocs d' = nAllocs d /\ DataTail d' = zlen out /\ exact d' er /\
    reprs true (heap s') out er (fpo ++ fp').

Lemma loop_end fb rf p s d out gap b eo fpo :
  loop_pre p s d out gap [] b eo [] fpo [] ->
  loop_post p s d eo fpo [] (rebuild_loop fb rf 0 (zlen (out ++ gap)) (zlen out) p s).
Proof.
  intros (Hp & Ef & Ho & _ & Hnd & He & Ha & Ht & Hf). cbn [rebuild_loop]. mstep (load_some _ _ _ Hp).
  set (d' := FavT _ _ _ _ _ _ _ _). rewrite (store_some p d) by done.
  apply list.NoDup_cons in Hnd as [Hin _].
  eexists _, d', out, (gap ++ b), []. split; [done|]. cbn [heap with_heap].
  split; [|split_and!; [apply lookup_insert_eq|done|done|done| |done|]].
  - split; [by split_and!|]. split_and!; [done|set_solver|]. intros x _ Hx.
    cbn [heap with_heap]. by rewrite lookup_insert_ne.
  - cbn [d' DataTail]. rewrite (exact_total _ _ He Ha). pose proof (zlen_nonneg eo).
    rewrite app_nil_r in Hf. rewrite <- (exact_total _ _ He Ha).
    destruct He as (E1 & E2 & E3), Hf as (F1 & F2 & F3).
    rewrite s16_id; [|unfold get_data_number; pose proof (count_nonneg); split; [|lia]].
    + rewrite (exact_total d eo); [|by split_and!|done]. apply reprs_length in Ho. unfold zlen. lia.
    + rewrite E1, E2, E3. pose proof (fun f => count_nonneg f eo) as Hn.
      pose proof (Hn (fun e => live e && is_board e)). pose proof (Hn (fun e => live e && is_line e)).
      pose proof (Hn (fun e => live e && is_sub e)). lia.
  - rewrite app_nil_r in *. apply reprs_frame with (heap s); [done|]. intros x Hx.
    apply lookup_insert_ne. set_solver.
Qed.

Lemma objects_trans p fq fq' fpr fp' s s1 s' :
  kept s s1 -> sublist fq' fq -> (forall x, x ∈ fq -> x ∉ fq' -> heap s1 !! x = None) ->
  (forall x, x ∉ fq -> x <> p -> heap s1 !! x = heap s !! x) -> NoDup (p :: fq ++ fpr) ->
  objects p fpr fp' s1 s' -> objects p (fq ++ fpr) (fq' ++ fp') s s'.
Proof.
  intros Hk Hs Hg Hf Hnd (Hk' & Hs' & Hg' & Hf').
  apply list.NoDup_cons in Hnd as [Hin Hnd]. apply list.NoDup_app in Hnd as (_ & Hdis & _).
  split; [by etrans|]. split; [by apply sublist_app|]. split.
  - intros x Hx Hx'. rewrite list.elem_of_app in Hx, Hx'. destruct (decide (x ∈ fpr)) as [Hr|Hr].
    + apply Hg'; tauto.
    + rewrite Hf' by set_solver. apply Hg; tauto.
  - intros x Hx Hne. rewrite list.elem_of_app in Hx. rewrite Hf' by tauto. apply Hf; tauto.
Qed.

(** [d1] stands for [d] with other entries. *)
Lemma loop_post_trans p s s1 d d1 er fpo fq fq' fpr r :
  kept s s1 -> sublist fq' fq -> (forall x, x ∈ fq -> x ∉ fq' -> heap s1 !! x = None) ->
  (forall x, x ∉ fq -> x <> p -> heap s1 !! x = heap s !! x) -> NoDup (p :: fq ++ fpr) ->
  zlen (favh d1) = zlen (favh d) -> nAllocs d1 = nAllocs d ->
  loop_post p s1 d1 er (fpo ++ fq') fpr r -> loop_post p s d er fpo (fq ++ fpr) r.
Proof.
  intros Hk Hs Hg Hf Hnd Hz Ha (s' & d' & out & rest & fp' & -> & Ho & Hp & Ef & Hz' & Ha' & Ht & He & Hr).
  exists s', d', out, rest, (fq' ++ fp'). split; [done|].
  split; [by eapply objects_trans|]. rewrite app_assoc. split_and!; congruence || done.
Qed.

Definition loop_ok fb rf (es : list entry) : Prop :=
  forall its fpr p s d out gap b eo fpo,
  loop_pre p s d out gap its b eo es fpo fpr ->
  loop_post p s d (eo ++ clean_list es (lineID d) (folderID d)) fpo fpr
    (rebuild_loop fb rf (length its) (zlen (out ++ gap)) (zlen out) p s).

Lemma loop_keep fb rf p s d out gap it its b eo es e e' fpo fpe fpr :
  loop_ok fb rf es ->
  heap s !! p = Some d -> favh d = out ++ gap ++ it :: its ++ b ->
  reprs true (heap s) out eo fpo ->
  reprs true (heap s) [renum it (lineID d) (folderID d)] [e'] fpe ->
  reprs false (heap s) its es fpr -> NoDup (p :: fpo ++ fpe ++ fpr) ->
  exact d eo -> all_live eo -> DataTail d = zlen eo -> fits (eo ++ e :: es) -> same_kind e e' ->
  match data it with
  | Board _ => is_board e | Line _ => is_line e | Folder _ => is_sub e | NoItem => false
  end = true ->
  countable (data it) ->
  loop_post p s d
    (eo ++ e' :: clean_list es (lineID (bumped it d [])) (folderID (bumped it d []))) (fpo ++ fpe) fpr
    ((_ ← fav_increase p (zlen (out ++ gap));
      _ ← (if zlen (out ++ gap) =? zlen out then mret ()
           else x ← load_item p (zlen (out ++ gap)); store_item p (zlen out) x);
      rebuild_loop fb rf (length its) (zlen (out ++ gap) + 1) (zlen out + 1) p) s).
Proof.
  intros IH Hp Ef Ho Hr1 Hr Hnd He Ha Ht Hf Hk Hkd Hc.
  set (it' := renum it (lineID d) (folderID d)) in *.
  destruct (keep_step p _ _ d out gap it (its ++ b) s
              (rebuild_loop fb rf (length its) (zlen (out ++ gap) + 1) (zlen out + 1) p)
              Hp Ef eq_refl eq_refl Hc) as (gap' & Eg & ->). fold it'.
  set (d1 := bumped it d (out ++ it' :: gap' ++ its ++ b)). set (s1 := after _ 1 s).
  assert (Ef1 : favh d1 = (out ++ [it']) ++ gap' ++ its ++ b).
  { unfold d1, bumped. rewrite <- app_assoc. cbn [app]. by destruct (data it). }
  destruct (bumped_exact it d (out ++ it' :: gap' ++ its ++ b) e e' eo es) as [He1 Ht1]; try done.
  fold d1 in He1, Ht1.
  assert (Hfr : forall x, x <> p -> heap s1 !! x = heap s !! x) by (intros; by apply lookup_insert_ne).
  apply list.NoDup_cons in Hnd as [Hin Hnd]. rewrite !list.elem_of_app in Hin.
  assert (Hpost : loop_post p s1 d1 ((eo ++ [e']) ++ clean_list es (lineID d1) (folderID d1))
                    (fpo ++ fpe) fpr
                    (rebuild_loop fb rf (length its) (zlen ((out ++ [it']) ++ gap')) (zlen (out ++ [it'])) p s1)).
  { apply IH with b. split; [apply lookup_insert_eq|]. split; [done|].
    split; [apply reprs_app; (eapply reprs_frame; [done|]); intros x Hx; apply Hfr; set_solver|].
    split; [eapply reprs_frame; [done|]; intros x Hx; apply Hfr; set_solver|].
    split; [apply list.NoDup_cons; rewrite <- app_assoc, !list.elem_of_app; done|].
    split; [done|]. split; [apply list.Forall_app; split; [done|]; repeat constructor; apply Hk|].
    split; [done|]. by apply fits_kind with e. }
  rewrite <- app_assoc in Hpost. cbn [app] in Hpost.
  replace (zlen ((out ++ [it']) ++ gap')) with (zlen (out ++ gap) + 1) in Hpost
    by (unfold zlen; rewrite !length_app; cbn; lia).
  replace (zlen (out ++ [it'])) with (zlen out + 1) in Hpost by (unfold zlen; rewrite !length_app; cbn; lia).
  replace (lineID (bumped it d [])) with (lineID d1) by (unfold d1, bumped; by destruct (data it)).
  replace (folderID (bumped it d [])) with (folderID d1) by (unfold d1, bumped; by destruct (data it)).
  apply (loop_post_trans p s s1 d d1 _ (fpo ++ fpe) [] [] fpr); try done.
  - intros x _ Hx. by apply Hfr.
  - apply list.NoDup_cons. apply list.NoDup_app in Hnd as (_ & _ & Hnd).
    apply list.NoDup_app in Hnd as (_ & _ & Hnd). cbn [app]. tauto.
  - rewrite Ef, Ef1. unfold zlen. rewrite !length_app. cbn. rewrite !length_app, Eg. lia.
  - unfold d1, bumped. by destruct (data it).
  - by rewrite app_nil_r.
Qed.

(** What a rebuild of the tree [t] at [q] does. *)
Definition rebuild_ok (rf : option Z -> M ()) (fuel : nat) : Prop :=
  forall q t fp s, repr false (heap s) q t fp -> NoDup fp -> (depth t <= fuel)%nat ->
  exists s' fp', rf (Some q) s = Some (s', ()) /\ repr true (heap s') q (clean t) fp' /\
    kept s s' /\ sublist fp' fp /\ (forall x, x ∈ fp -> x ∉ fp' -> heap s' !! x = None) /\
    (forall x, x ∉ fp -> heap s' !! x = heap s !! x).

(** An entry that goes: it becomes a part of the gap. *)
Lemma loop_skip fb rf es p s d out gap it its b eo fpo fpr :
  loop_ok fb rf es -> loop_pre p s d out (gap ++ [it]) its b eo es fpo fpr ->
  loop_post p s d (eo ++ clean_list es (lineID d) (folderID d)) fpo fpr
    (rebuild_loop fb rf (length its) (zlen (out ++ gap) + 1) (zlen out) p s).
Proof.
  intros IH H. apply IH in H. rewrite app_assoc, zlen_app in H. exact H.
Qed.

Lemma loop_pre_gap p s d out gap it its b eo e es fpo fpr :
  heap s !! p = Some d -> favh d = out ++ gap ++ it :: its ++ b ->
  reprs true (heap s) out eo fpo -> reprs false (heap s) its es fpr -> NoDup (p :: fpo ++ fpr) ->
  exact d eo -> all_live eo -> DataTail d = zlen eo -> fits (eo ++ e :: es) ->
  loop_pre p s d out (gap ++ [it]) its b eo es fpo fpr.
Proof.
  intros Hp Ef Ho Hr Hnd He Ha Ht Hf. split_and!; try done.
  - rewrite Ef, <- app_assoc. done.
  - unfold fits in *. rewrite !count_app, !count_cons in Hf. rewrite !count_app.
    destruct Hf as (H1 & H2 & H3). split_and!; repeat case_match; lia.
Qed.

Lemma loop_leaf fb rf a dt es p s d out gap its b eo fpo fpr :
  loop_ok fb rf es -> plain a dt ->
  loop_pre p s d out gap (FavType a dt :: its) b eo (Leaf a dt :: es) fpo fpr ->
  reprs false (heap s) its es fpr ->
  loop_post p s d (eo ++ clean_list (Leaf a dt :: es) (lineID d) (folderID d)) fpo fpr
    (rebuild_loop fb rf (S (length its)) (zlen (out ++ gap)) (zlen out) p s).
Proof.
  intros IH Hpl (Hp & Ef & Ho & _ & Hnd & He & Ha & Ht & Hf) Hr. cbn [rebuild_loop app] in *.
  rewrite app_assoc in Ef. mstep (load_item_at _ _ _ _ _ _ _ Hp Ef eq_refl). rewrite <- app_assoc in Ef.
  set (it := FavType a dt) in *. cbn [clean_list].
  assert (Hg : loop_pre p s d out (gap ++ [it]) its b eo es fpo fpr) by (by eapply loop_pre_gap).
  assert (El : live (Leaf a dt) = valid_item it && match dt with Board _ | Line _ => true | _ => false end)
    by (by destruct dt).
  destruct (valid_item it) eqn:Ev; cbn [negb andb] in *.
  - assert (Hkeep : live (Leaf a dt) = true -> forall e', same_kind (Leaf a dt) e' ->
      reprs true (heap s) [renum it (lineID d) (folderID d)] [e'] [] -> countable dt ->
      match dt with Board _ => is_board (Leaf a dt) | Line _ => is_line (Leaf a dt)
      | Folder _ => is_sub (Leaf a dt) | NoItem => false end = true ->
      loop_post p s d (eo ++ e' :: clean_list es (lineID (bumped it d [])) (folderID (bumped it d []))) fpo fpr
        ((_ ← fav_increase p (zlen (out ++ gap));
          _ ← (if zlen (out ++ gap) =? zlen out then mret ()
               else x ← load_item p (zlen (out ++ gap)); store_item p (zlen out) x);
          rebuild_loop fb rf (length its) (zlen (out ++ gap) + 1) (zlen out + 1) p) s)).
    { intros _ e' Hk Hr1 Hc Hm. pose proof (loop_keep fb rf p s d out gap it its b eo es (Leaf a dt) e' fpo [] fpr) as H.
      rewrite app_nil_r in H. by apply H. }
    destruct dt as [|x|f|l]; cbn [data it] in *; rewrite El.
    + apply (loop_skip _ _ _ _ _ _ _ _ it its b); done.
    + apply (Hkeep El (Leaf a (Board x))); try done. by repeat constructor.
    + destruct f; cbn [plain] in Hpl; [done|]. unfold valid_item, it in Ev. cbn in Ev. by rewrite Hpl in Ev.
    + apply (Hkeep El (Leaf a (Line (s8 (lineID d + 1))))); try done. by repeat constructor.
  - rewrite El. destruct dt as [|x|[f|]|l]; try done; apply (loop_skip _ _ _ _ _ _ _ _ it its b); done.
Qed.

Lemma nodup_parts (p : Z) fpo fpq fpr :
  NoDup (p :: fpo ++ fpq ++ fpr) ->
  (p ∉ fpo /\ p ∉ fpq /\ p ∉ fpr) /\ NoDup fpq /\ (forall x, x ∈ fpo -> x ∉ fpq) /\
  (forall x, x ∈ fpr -> x ∉ fpq) /\ NoDup (p :: fpq ++ fpr) /\
  (forall fq, sublist fq fpq -> NoDup (p :: fpo ++ fq ++ fpr)).
Proof.
  rewrite !list.NoDup_cons, !list.NoDup_app, !list.elem_of_app.
  intros (Hin & H1 & H2 & H3 & H4 & H5). split_and!; try tauto || set_solver.
  intros fq Hs. rewrite !list.NoDup_cons, !list.NoDup_app, !list.elem_of_app.
  assert (Hsub : forall x, x ∈ fq -> x ∈ fpq) by (intros x Hx; eapply elem_of_sublist; eauto).
  split_and!; try done; [| |by apply (sublist_NoDup fq fpq)|]; set_solver.
Qed.

Section LoopSub.
Variables (fuel : nat) (a f : Z) (n : list Z) (t : tree) (q : Z) (es : list entry).
Notation it := (FavType a (Folder (Some (FavFolder f n (Some q))))).
Hypothesis IH : loop_ok (fav_free_branch fuel) (rebuild_fav fuel) es.
Hypothesis Hd : (depth t <= fuel)%nat.

Lemma live_sub : live (Sub a f n t) = valid_item it.
Proof. unfold live. cbn. apply andb_true_r. Qed.

Lemma loop_sub_live p s d out gap its b eo fpo fpq fpr :
  rebuild_ok (rebuild_fav fuel) fuel ->
  loop_pre p s d out gap (it :: its) b eo (Sub a f n t :: es) fpo (fpq ++ fpr) ->
  repr false (heap s) q t fpq -> reprs false (heap s) its es fpr -> valid_item it = true ->
  loop_post p s d (eo ++ clean_list (Sub a f n t :: es) (lineID d) (folderID d)) fpo (fpq ++ fpr)
    (rebuild_loop (fav_free_branch fuel) (rebuild_fav fuel) (S (length its)) (zlen (out ++ gap)) (zlen out) p s).
Proof.
  intros Hrec (Hp & Ef & Ho & _ & Hnd & He & Ha & Ht & Hf) Hq Hr Ev. cbn [rebuild_loop app] in *.
  rewrite app_assoc in Ef. mstep (load_item_at _ _ _ _ _ _ _ Hp Ef eq_refl).
  rewrite <- app_assoc in Ef. cbn [clean_list]. rewrite live_sub, Ev. cbn [negb].
  destruct (nodup_parts _ _ _ _ Hnd) as ((Hpo & Hpq & Hpr) & Hndq & Hoq & Hrq & Hnd1 & Hnd2).
  destruct (Hrec q t fpq s Hq Hndq Hd) as (s1 & fq' & E & Hq1 & Hk & Hs & Hg & Hfr).
  unfold mbind at 1, M_bind at 1. unfold mbind at 1, M_bind at 1. unfold mbind at 1, M_bind at 1.
  cbn [get_fav_folder data this_folder mret M_ret]. rewrite E. cbn [mret M_ret].
  apply (loop_post_trans p s s1 d d _ fpo fpq fq' fpr); try done.
  { intros x Hx _. by apply Hfr. }
  pose proof (loop_keep (fav_free_branch fuel) (rebuild_fav fuel) p s1 d out gap it its b eo es
    (Sub a f n t) (Sub a (s8 (folderID d + 1)) n (clean t)) fpo fq' fpr) as H.
  cbn [bumped data lineID folderID] in H. apply H; try done.
  - by rewrite Hfr.
  - eapply reprs_frame; [done|]. intros x Hx. apply Hfr. by apply Hoq.
  - unfold renum. cbn [attr data title this_folder]. rewrite <- (app_nil_r fq'). by repeat constructor.
  - eapply reprs_frame; [done|]. intros x Hx. apply Hfr. by apply Hrq.
  - by apply Hnd2.
  - split; [by rewrite live_sub|]. split; [|done]. rewrite <- Ev. unfold live. cbn. apply andb_true_r.
Qed.

Lemma loop_sub_dead p s d out gap its b eo fpo fpq fpr :
  loop_pre p s d out gap (it :: its) b eo (Sub a f n t :: es) fpo (fpq ++ fpr) ->
  repr false (heap s) q t fpq -> reprs false (heap s) its es fpr -> valid_item it = false ->
  loop_post p s d (eo ++ clean_list (Sub a f n t :: es) (lineID d) (folderID d)) fpo (fpq ++ fpr)
    (rebuild_loop (fav_free_branch fuel) (rebuild_fav fuel) (S (length its)) (zlen (out ++ gap)) (zlen out) p s).
Proof.
  intros (Hp & Ef & Ho & _ & Hnd & He & Ha & Ht & Hf) Hq Hr Ev. cbn [rebuild_loop app] in *.
  rewrite app_assoc in Ef. mstep (load_item_at _ _ _ _ _ _ _ Hp Ef eq_refl).
  cbn [clean_list]. rewrite live_sub, Ev. cbn [negb data this_folder attr].
  destruct (nodup_parts _ _ _ _ Hnd) as ((Hpo & Hpq & Hpr) & Hndq & Hoq & Hrq & Hnd1 & Hnd2).
  destruct (free_branch_spec fuel q t fpq s Hq Hndq Hd) as (h1 & E & Hg & Hfr).
  unfold mbind at 1, M_bind at 1. mstep E.
  assert (Hp1 : heap (with_heap h1 s) !! p = Some d) by (cbn; by rewrite Hfr).
  rewrite (store_item_some p _ d _ _ _ _ _ Hp1 Ef eq_refl).
  set (it' := FavType a (Folder None)). set (d1 := with_favh _ d). set (s1 := with_heap _ _).
  assert (Hs1 : forall x, x <> p -> heap s1 !! x = h1 !! x) by (intros; by apply lookup_insert_ne).
  apply (loop_post_trans p s s1 d d1 _ fpo fpq [] fpr); try done.
  - apply sublist_nil_l.
  - intros x Hx _. rewrite Hs1 by set_solver. by apply Hg.
  - intros x Hx Hne. rewrite Hs1 by done. by apply Hfr.
  - rewrite Ef. cbn [d1 favh with_favh]. unfold zlen. rewrite !length_app. cbn. rewrite !length_app. lia.
  - rewrite app_nil_r. change (lineID d) with (lineID d1). change (folderID d) with (folderID d1).
    apply (loop_skip _ _ _ _ _ _ _ _ it' its b); [done|].
    apply (loop_pre_gap _ _ _ _ _ _ _ _ _ (Sub a f n t)); try done.
    + apply lookup_insert_eq.
    + cbn [d1 favh with_favh]. by rewrite <- app_assoc.
    + eapply reprs_frame; [done|]. intros x Hx. rewrite Hs1 by set_solver. apply Hfr. by apply Hoq.
    + eapply reprs_frame; [done|]. intros x Hx. rewrite Hs1 by set_solver. apply Hfr. by apply Hrq.
    + apply (Hnd2 []). apply sublist_nil_l.
Qed.
End LoopSub.

Lemma loop_all fuel : rebuild_ok (rebuild_fav fuel) fuel ->
  forall es, (depths es <= fuel)%nat -> loop_ok (fav_free_branch fuel) (rebuild_fav fuel) es.
Proof.
  intros Hrec es. induction es as [|e es IH]; intros Hd its fpr p s d out gap b eo fpo H.
  - assert (Hr : reprs false (heap s) its [] fpr) by apply H. inversion Hr; subst.
    cbn [clean_list]. rewrite app_nil_r. by apply loop_end with b.
  - assert (Hr : reprs false (heap s) its (e :: es) fpr) by apply H.
    assert (Hd' : (depths es <= fuel)%nat)
      by (destruct e; cbn [depths fold_right] in Hd; fold (depths es) in Hd; lia).
    inversion Hr; subst; cbn [length].
    + apply loop_leaf with b; auto.
    + cbn [depths fold_right] in Hd. fold (depths es) in Hd.
      destruct (valid_item (FavType a (Folder (Some (FavFolder f n (Some q)))))) eqn:Ev;
        [eapply loop_sub_live|eapply loop_sub_dead]; eauto; lia.
Qed.

(** *** The tree *)

Lemma take_out {A} (out rest : list A) n : n = zlen out -> take (Z.to_nat n) (out ++ rest) = out.
Proof. intros ->. unfold zlen. rewrite Nat2Z.id. by rewrite take_app_length. Qed.

Lemma rebuild_spec fuel : rebuild_ok (rebuild_fav fuel) fuel.
Proof.
  induction fuel as [|fuel IH]; intros p t fp s Hr Hnd Hd;
    inversion Hr as [? d es fpr Hp Hs Hfit _ Hrs]; subst; rewrite depth_eq in Hd; [lia|].
  destruct (reprs_items _ _ _ _ _ Hrs Hs) as (its & b & Ef & Hi & En & Ez).
  pose (d0 := FavT (nAllocs d) 0 0 0 0 0 0 (favh d)).
  pose (s0 := with_heap (<[p := d0]> (heap s)) (add_number (- get_data_number d) s)).
  assert (E0 : rebuild_reset p s = Some (s0, DataTail d)) by (unfold rebuild_reset; mrun Hp; done).
  cbn [rebuild_fav]. mstep E0. rewrite En.
  assert (Hpin : p ∉ fpr) by (apply list.NoDup_cons in Hnd; tauto).
  assert (Hs0 : forall x, x <> p -> heap s0 !! x = heap s !! x) by (intros; by apply lookup_insert_ne).
  destruct (loop_all fuel IH es ltac:(lia) its fpr p s0 d0 [] [] b [] [])
    as (s' & d' & out & rest & fp' & E & (Hk & Hsub & Hg & Hf) & Hp' & Ef' & Hz & Hal & Ht & He & Hro).
  { split; [apply lookup_insert_eq|]. split; [done|]. split; [constructor|].
    split; [|split_and!; try done; constructor]. eapply reprs_frame; [done|]. intros x Hx. apply Hs0. set_solver. }
  exists s', (p :: fp'). cbn [app lineID folderID d0] in *. change (zlen []) with 0 in E.
  split; [done|]. rewrite clean_eq. split.
  - apply repr_node with d'; try done.
    + change (favh d0) with (favh d) in Hz. change (nAllocs d0) with (nAllocs d) in Hal.
      destruct Hs as (Hs1 & Hs2 & Hs3). unfold sized. rewrite Hal, Hz, Ht. split; [|done].
      rewrite Ef', zlen_app in Hz. pose proof (zlen_nonneg out). pose proof (zlen_nonneg rest). lia.
    + by apply fits_clean.
    + rewrite Ef'. by rewrite take_out.
  - assert (Hk0 : kept s s0) by (by split_and!). split; [by transitivity s0|]. split; [by constructor|]. split.
    + intros x Hx Hx'. apply Hg; set_solver.
    + intros x Hx. rewrite Hf by set_solver. apply Hs0. set_solver.
Qed.

(** [is_need_rebuild_fav] looks for an entry that does not count. *)
Fixpoint clean_b (t : tree) : bool :=
  match t with
  | Tree es => forallb (fun e => live e && match e with Sub _ _ _ t => clean_b t | _ => true end) es
  end.

Definition entry_clean (e : entry) : bool :=
  live e && match e with Sub _ _ _ t => clean_b t | _ => true end.

Lemma need_loop_spec fuel p :
  (forall q t fp s, repr false (heap s) q t fp -> (depth t <= fuel)%nat ->
     is_need_rebuild_fav fuel (Some q) s = Some (s, negb (clean_b t))) ->
  forall es its fp a b d s,
  heap s !! p = Some d -> favh d = a ++ its ++ b -> reprs false (heap s) its es fp ->
  (depths es <= fuel)%nat ->
  need_loop (is_need_rebuild_fav fuel) (length its) (zlen a) p s =
    Some (s, negb (forallb entry_clean es)).
Proof.
  intros Hrec es. induction es as [|e es IH]; intros its fp a b d s Hp Ef Hr Hd; inversion Hr; subst;
    cbn [length need_loop forallb app] in *; [done| |];
    mstep (load_item_at _ _ _ _ _ _ _ Hp Ef eq_refl).
  - assert (Hgo : need_loop (is_need_rebuild_fav fuel) (length its0) (zlen a + 1) p s =
                    Some (s, negb (forallb entry_clean es))).
    { rewrite <- (IH its0 fp (a ++ [FavType a0 d0]) b d s); try done; [by rewrite zlen_app|].
      by rewrite Ef, <- app_assoc. }
    unfold entry_clean at 1, live, valid_item. cbn [entry_attr attr data].
    destruct (Z.land a0 FAVH_FAV =? 0) eqn:Ev; cbn [negb andb]; [done|].
    destruct d0 as [|x|[f|]|l]; cbn [andb negb]; try done.
    assert (Hpl : plain a0 (Folder None)) by done. unfold plain in Hpl. by rewrite Hpl in Ev.
  - cbn [depths fold_right] in Hd. fold (depths es) in Hd.
    unfold entry_clean at 1, live, valid_item. cbn [entry_attr attr data].
    destruct (Z.land a0 FAVH_FAV =? 0) eqn:Ev; cbn [negb andb]; [done|].
    unfold mbind at 1, M_bind at 1. cbn [get_fav_folder data this_folder mret M_ret].
    unfold mbind at 1, M_bind at 1. rewrite (Hrec q t fp0 s) by (done || lia).
    destruct (clean_b t); cbn [negb andb]; [|done].
    rewrite <- (IH its0 fp' (a ++ [FavType a0 (Folder (Some (FavFolder f n (Some q))))]) b d s);
      try done; [by rewrite zlen_app|by rewrite Ef, <- app_assoc|lia].
Qed.

Lemma need_spec fuel : forall q t fp s,
  repr false (heap s) q t fp -> (depth t <= fuel)%nat ->
  is_need_rebuild_fav fuel (Some q) s = Some (s, negb (clean_b t)).
Proof.
  induction fuel as [|fuel IH]; intros p t fp s Hr Hd;
    inversion Hr as [? d es fpr Hp Hs Hfit _ Hrs]; subst; rewrite depth_eq in Hd; [lia|].
  destruct (reprs_items _ _ _ _ _ Hrs Hs) as (its & b & Ef & Hi & En & Ez).
  cbn [is_need_rebuild_fav]. mstep (load_some _ _ _ Hp). rewrite En.
  change 0 with (zlen (@nil fav_type_t)). eapply need_loop_spec; eauto. lia.
Qed.

End FavClean.
