(* ===== verification/FavStore.v ===== *)
(** Saving and loading the favourites: [write_favrec] and [read_favrec] on a
    heap that holds a tree. *)

From stdpp Require Import gmap.
From S2P Require Import Prelude Cstr Fav FavTree FavClean.

#[global] Open Scope Z_scope.
#[global] Open Scope list_scope.

Module FavStore.
Import Fav FavTree FavClean.

(** *** The image of a tree *)

Definition entry_type (e : entry) : Z :=
  match e with
  | Leaf _ (Board _) => FAVT_BOARD
  | Leaf _ (Line _) => FAVT_LINE
  | Leaf _ (Folder _) | Sub _ _ _ _ => FAVT_FOLDER
  | Leaf _ NoItem => 0
  end.

Definition entry_bytes (e : entry) : list Z :=
  le_bytes 1 (entry_type e) ++ le_bytes 1 (entry_attr e) ++
  match e with
  | Leaf _ (Board b) => board_bytes b
  | Leaf _ (Line l) => le_bytes 1 l
  | Leaf _ _ => []
  | Sub _ f n _ => le_bytes 1 f ++ n
  end.

Definition head_bytes (es : list entry) : list Z :=
  le_bytes 2 (count (fun e => live e && is_board e) es) ++
  le_bytes 1 (count (fun e => live e && is_line e) es) ++
  le_bytes 1 (count (fun e => live e && is_sub e) es).

Fixpoint tree_bytes (t : tree) : list Z :=
  match t with
  | Tree es =>
      head_bytes es ++ flat_map entry_bytes es ++
      flat_map (fun e => match e with Sub _ _ _ t => tree_bytes t | _ => [] end) es
  end.

Definition sub_bytes (e : entry) : list Z := match e with Sub _ _ _ t => tree_bytes t | _ => [] end.

(** The number of entries. *)
Fixpoint tree_size (t : tree) : Z :=
  match t with
  | Tree es =>
      fold_right (fun e n => match e with Sub _ _ _ t => 1 + tree_size t | _ => 1 end + n) 0 es
  end.

Definition entry_size (e : entry) : Z := match e with Sub _ _ _ t => 1 + tree_size t | _ => 1 end.
Definition sizes (es : list entry) : Z := fold_right (fun e n => entry_size e + n) 0 es.

(** The values are in the range of their types, and a title is a Big5 string. *)
Definition in_s8 (z : Z) : Prop := -128 <= z < 128.
Definition board_ok (b : fav_board_t) : Prop :=
  is_s32 (bid b) /\ is_s32 (lastvisit b) /\ in_s8 (battr b) /\ 0 <= bpad b < 2 ^ 24.
Definition entry_ok (e : entry) : Prop :=
  in_s8 (entry_attr e) /\
  match e with
  | Leaf _ (Board b) => board_ok b
  | Leaf _ (Line l) => in_s8 l
  | Leaf _ _ => True
  | Sub _ f n _ => in_s8 f /\ zlen n = SZ_TITLE /\ trim_title n = Some n
  end.

Inductive storable : tree -> Prop :=
  | storable_tree es :
      Forall entry_ok es -> (forall a f n t, In (Sub a f n t) es -> storable t) -> storable (Tree es).

(** A tree as [fav_save] writes it. *)
Inductive savable : tree -> Prop :=
  | savable_tree es :
      Forall entry_ok es -> all_live es -> fits es ->
      (forall a f n t, In (Sub a f n t) es -> savable t) -> savable (Tree es).

(** *** Writing *)

Lemma fits_total es : all_live es -> fits es -> zlen es <= 32254.
Proof.
  intros Ha (H1 & H2 & H3).
  rewrite <- (exact_total (FavT 0 0 (count (fun e => live e && is_board e) es)
    (count (fun e => live e && is_line e) es) (count (fun e => live e && is_sub e) es) 0 0 []) es);
    [|by split_and!|done].
  unfold get_data_number. cbn. lia.
Qed.

Lemma write_items_spec ex p d es : forall its fp a b s,
  heap s !! p = Some d -> favh d = a ++ its ++ b -> reprs ex (heap s) its es fp -> all_live es ->
  write_items (length its) (zlen a) p s = Some (s, flat_map entry_bytes es).
Proof.
  induction es as [|e es IH]; intros its fp a b s Hp Ef Hr Ha; inversion Hr; subst; [done| |];
    cbn [length write_items app flat_map] in *; mstep (load_item_at _ _ _ _ _ _ _ Hp Ef eq_refl);
    inversion Ha as [|? ? Hl Ha']; subst.
  - assert (E : item_bytes (FavType a0 d0) = Some (entry_bytes (Leaf a0 d0))).
    { destruct d0 as [|x|[f|]|l]; unfold live in Hl; cbn in Hl; rewrite ?andb_false_r in Hl; try done.
      all: unfold item_bytes, entry_bytes; cbn; by rewrite ?app_nil_r. }
    unfold lift at 1, mbind at 1, M_bind at 1. rewrite E.
    rewrite (bind_some _ _ s s (flat_map entry_bytes es)); [done|].
    specialize (IH its0 fp (a ++ [FavType a0 d0]) b s Hp). rewrite zlen_app in IH.
    apply IH; try done. by rewrite Ef, <- app_assoc.
  - unfold lift at 1, mbind at 1, M_bind at 1. cbn [item_bytes data].
    rewrite (bind_some _ _ s s (flat_map entry_bytes es)).
    + unfold entry_bytes at 1. cbn. by rewrite <- ?app_assoc.
    + specialize (IH its0 fp' (a ++ [FavType a0 (Folder (Some (FavFolder f n (Some q))))]) b s Hp).
      rewrite zlen_app in IH. apply IH; try done. by rewrite Ef, <- app_assoc.
Qed.

Lemma write_subs_spec fuel p d es :
  (forall q t fp s, repr true (heap s) q t fp -> clean_b t = true -> (depth t <= fuel)%nat ->
     write_favrec fuel (Some q) s = Some (s, tree_bytes t)) ->
  forall its fp a b s,
  heap s !! p = Some d -> favh d = a ++ its ++ b -> reprs true (heap s) its es fp ->
  forallb entry_clean es = true -> (depths es <= fuel)%nat ->
  write_subs (write_favrec fuel) (length its) (zlen a) p s = Some (s, flat_map sub_bytes es).
Proof.
  intros Hrec. induction es as [|e es IH]; intros its fp a b s Hp Ef Hr Hc Hd; inversion Hr; subst; [done| |];
    cbn [length write_subs app flat_map forallb] in *; mstep (load_item_at _ _ _ _ _ _ _ Hp Ef eq_refl);
    apply andb_true_iff in Hc as [Hl Hc]; unfold entry_clean in Hl; apply andb_true_iff in Hl as [Hl Ht].
  - rewrite (bind_some _ _ s s []).
    2: { destruct d0 as [|x|[f|]|l]; unfold live in Hl; cbn in Hl; rewrite ?andb_false_r in Hl; done. }
    rewrite (bind_some _ _ s s (flat_map sub_bytes es)); [done|].
    specialize (IH its0 fp (a ++ [FavType a0 d0]) b s Hp). rewrite zlen_app in IH.
    apply IH; try done. by rewrite Ef, <- app_assoc.
  - cbn [depths fold_right] in Hd. fold (depths es) in Hd.
    rewrite (bind_some _ _ s s (tree_bytes t)).
    2: { cbn [data]. unfold mbind, M_bind, get_fav_folder. cbn [data this_folder mret M_ret].
         apply Hrec with fp0; done || lia. }
    rewrite (bind_some _ _ s s (flat_map sub_bytes es)); [done|].
    specialize (IH its0 fp' (a ++ [FavType a0 (Folder (Some (FavFolder f n (Some q))))]) b s Hp).
    rewrite zlen_app in IH. apply IH; try done; [by rewrite Ef, <- app_assoc|lia].
Qed.

Lemma clean_live es : forallb entry_clean es = true -> all_live es.
Proof.
  intros H. apply List.Forall_forall. intros e He. rewrite forallb_forall in H. apply H in He.
  unfold entry_clean in He. by apply andb_true_iff in He as [He _].
Qed.

Lemma write_spec fuel : forall p t fp s,
  repr true (heap s) p t fp -> clean_b t = true -> (depth t <= fuel)%nat ->
  write_favrec fuel (Some p) s = Some (s, tree_bytes t).
Proof.
  induction fuel as [|fuel IH]; intros p t fp s Hr Hc Hd;
    inversion Hr as [? d es fpr Hp Hs Hfit He Hrs]; subst; rewrite depth_eq in Hd; [lia|].
  change (forallb entry_clean es = true) in Hc. pose proof (clean_live _ Hc) as Ha.
  destruct (reprs_items _ _ _ _ _ Hrs Hs) as (its & b & Ef & Hi & En & Ez).
  pose proof (exact_total _ _ He Ha) as Et. pose proof (fits_total _ Ha Hfit) as Hz.
  assert (El : zlen es = DataTail d) by (rewrite Ez; unfold zlen; by rewrite (reprs_length _ _ _ _ _ Hi)).
  cbn [write_favrec]. mstep (load_some _ _ _ Hp).
  rewrite Et, El, s16_id by (pose proof (zlen_nonneg es); lia).
  rewrite (bind_some _ _ s s ()).
  2: { rewrite (store_some p d) by done. do 2 f_equal. destruct s as [h]. unfold with_heap. cbn. f_equal.
       apply insert_id. cbn in Hp. rewrite Hp. by destruct d. }
  rewrite En.
  pose proof (write_items_spec true p d es its fpr [] b s Hp Ef Hi Ha) as E1.
  pose proof (write_subs_spec fuel p d es IH its fpr [] b s Hp Ef Hi Hc ltac:(lia)) as E2.
  change (zlen []) with 0 in *. mstep E1. mstep E2.
  cbn [tree_bytes]. unfold head_bytes. destruct He as (-> & -> & ->). by rewrite <- !app_assoc.
Qed.

(** *** Reading one entry *)

Lemma fread_app (old b f : list Z) : length b = length old -> fread old (b ++ f) = (b, f).
Proof.
  intros H. unfold fread. rewrite <- H, take_app_length, drop_app_length.
  by rewrite H, drop_ge, app_nil_r.
Qed.

Lemma read_s8_app z f : in_s8 z -> read_s8 (le_bytes 1 z ++ f) = (z, f).
Proof.
  intros Hz. unfold read_s8. rewrite fread_app by done. rewrite le_val_bytes.
  f_equal. unfold s8, in_s8 in *. Z.to_euclidean_division_equations; lia.
Qed.

Lemma read_s16_app z f : -32768 <= z < 32768 -> read_s16 (le_bytes 2 z ++ f) = (z, f).
Proof.
  intros Hz. unfold read_s16. rewrite fread_app by done. rewrite le_val_bytes.
  f_equal. unfold s16 in *. Z.to_euclidean_division_equations; lia.
Qed.

Lemma board_of_bytes b : board_ok b -> board_of (board_bytes b) = b.
Proof.
  intros (H1 & H2 & H3 & H4). destruct b as [bi lv at_ pad]. cbn [bid lastvisit battr bpad] in *.
  unfold board_of, board_bytes. cbn [bid lastvisit battr bpad].
  rewrite take_app_length' by done. rewrite !(drop_app_length' (le_bytes 4 bi)) by done.
  rewrite take_app_length' by done.
  assert (E8 : forall x y z w : list Z, length x = 4%nat -> length y = 4%nat ->
             drop 8 (x ++ y ++ z ++ w) = z ++ w).
  { intros x y z w Hx Hy. rewrite app_assoc. apply drop_app_length'. by rewrite length_app, Hx, Hy. }
  change (drop 9) with (fun l : list Z => drop (8 + 1) l). cbn beta. rewrite <- drop_drop.
  rewrite E8 by done. rewrite take_app_length' by done. rewrite drop_app_length' by done.
  rewrite !le_val_bytes. unfold is_s32, in_s8 in *. f_equal.
  - unfold s32. Z.to_euclidean_division_equations; lia.
  - unfold s32. Z.to_euclidean_division_equations; lia.
  - unfold s8. Z.to_euclidean_division_equations; lia.
  - apply Z.mod_small. lia.
Qed.

(** The entry before its folder is read. *)
Definition flat_item (e : entry) : fav_type_t :=
  match e with
  | Leaf a d => FavType a d
  | Sub a f n _ => FavType a (Folder (Some (FavFolder f n None)))
  end.

Lemma read_item_app e f :
  entry_ok e -> live e = true -> read_item (entry_bytes e ++ f) = Some (flat_item e, f, true).
Proof.
  intros [Ha Ho] Hl. unfold entry_bytes. rewrite <- !app_assoc. unfold read_item.
  rewrite read_s8_app by (unfold in_s8; destruct e as [? []|]; cbn; unfold FAVT_BOARD, FAVT_LINE, FAVT_FOLDER; lia).
  destruct e as [a [|b|o|l]|a i n t]; unfold live in Hl; cbn in Hl; rewrite ?andb_false_r in Hl; try done;
    cbn [entry_type entry_attr flat_item] in *;
    match goal with |- context [is_valid_favtype ?t] => change (is_valid_favtype t) with true end;
    cbn [negb]; rewrite read_s8_app by done.
  - change (FAVT_BOARD =? FAVT_FOLDER) with false. change (FAVT_BOARD =? FAVT_BOARD) with true. cbn iota.
    rewrite fread_app by done. by rewrite board_of_bytes.
  - change (FAVT_LINE =? FAVT_FOLDER) with false. change (FAVT_LINE =? FAVT_BOARD) with false. cbn iota.
    by rewrite read_s8_app.
  - change (FAVT_FOLDER =? FAVT_FOLDER) with true. cbn iota. destruct Ho as (Hi & Hn & Ht).
    rewrite <- app_assoc, read_s8_app by done. rewrite fread_app by (unfold zlen, zero_bytes in *; rewrite length_replicate; lia).
    by rewrite Ht.
Qed.

(** *** Reading a folder *)

Definition pad : list fav_type_t := replicate (Z.to_nat FAV_PRE_ALLOC) zero_item.

Lemma read_items_spec es : forall p d out f s,
  heap s !! p = Some d -> favh d = out ++ replicate (length es) zero_item ++ pad ->
  Forall entry_ok es -> all_live es ->
  read_items read_item (length es) (zlen out) p (flat_map entry_bytes es ++ f) s =
    Some (with_heap (<[p := with_favh (out ++ map flat_item es ++ pad) d]> (heap s)) s, (f, true)).
Proof.
  induction es as [|e es IH]; intros p d out f s Hp Ef Ho Ha.
  - cbn [length replicate app map read_items flat_map] in *.
    replace (with_favh _ d) with d by (rewrite <- Ef; by destruct d).
    rewrite insert_id by done. by destruct s.
  - inversion Ho as [|? ? Ho1 Ho']; subst. inversion Ha as [|? ? Ha1 Ha']; subst.
    cbn [length read_items flat_map replicate app] in *. rewrite <- app_assoc.
    unfold lift at 1, mbind at 1, M_bind at 1. rewrite read_item_app by done.
    rewrite (bind_some _ _ _ _ _ (store_item_some p _ d out _ _ (flat_item e) s Hp Ef eq_refl)).
    set (d' := with_favh _ d). set (s' := with_heap _ s).
    assert (Hp' : heap s' !! p = Some d') by apply lookup_insert_eq.
    pose proof (IH p d' (out ++ [flat_item e]) f s' Hp') as H. rewrite zlen_app in H.
    change (zlen [_]) with 1 in H. rewrite H; try done; [|cbn [d' favh with_favh]; by rewrite <- app_assoc].
    unfold s', with_heap. cbn [heap]. rewrite insert_insert_eq. rewrite <- app_assoc. done.
Qed.

(** No object at the addresses that come next. *)
Definition fresh (s : favs) : Prop := forall x, next s <= x -> heap s !! x = None.

(** From [s] to [s'] the object [p] may change, and the objects [fp] are new. *)
Definition grown (p : Z) (fp : list Z) (s s' : favs) : Prop :=
  fresh s' /\ next s <= next s' /\ NoDup fp /\ (forall x, x ∈ fp -> next s <= x < next s') /\
  (forall x, x < next s -> x <> p -> heap s' !! x = heap s !! x) /\
  fav_stack s' = fav_stack s /\ fav_stack_num s' = fav_stack_num s /\ dirty s' = dirty s /\
  fav_tmp s' = fav_tmp s.

Lemma grown_trans p fp fp' s s1 s2 : grown p fp s s1 -> grown p fp' s1 s2 -> grown p (fp ++ fp') s s2.
Proof.
  intros (F1 & N1 & D1 & R1 & H1 & A1 & B1 & C1 & E1) (F2 & N2 & D2 & R2 & H2 & A2 & B2 & C2 & E2).
  split; [done|]. split; [lia|]. split.
  { apply list.NoDup_app. split_and!; try done. intros x Hx Hx'. apply R1 in Hx. apply R2 in Hx'. lia. }
  split; [intros x [Hx|Hx]%list.elem_of_app; [apply R1 in Hx|apply R2 in Hx]; lia|].
  split; [intros x Hx Hne; rewrite H2 by (done || lia); by apply H1|]. split_and!; congruence.
Qed.

Lemma grown_store p d s : fresh s -> p < next s -> grown p [] s (with_heap (<[p := d]> (heap s)) s).
Proof.
  intros Hf Hp. split; [intros x Hx; cbn in *; rewrite lookup_insert_ne by lia; by apply Hf|].
  split; [done|]. split; [constructor|]. split; [set_solver|].
  split; [intros x _ Hx; cbn; by apply lookup_insert_ne|done].
Qed.

Lemma grown_alloc p s fp s' n : fresh s ->
  let q := next s in
  grown q fp (Favs (<[q := zero_fav]> (heap s)) (q + 1) n (fav_stack s) (fav_stack_num s) (dirty s) (fav_tmp s)) s' ->
  grown p (q :: fp) s s'.
Proof.
  intros Hfr q (F & N & D & R & H & A). subst q. cbn [next heap] in *.
  split; [done|]. split; [lia|]. split.
  { apply list.NoDup_cons. split; [|done]. intros Hx. apply R in Hx. lia. }
  split; [intros x [->|Hx]%list.elem_of_cons; [lia|apply R in Hx; lia]|].
  split; [intros x Hx _; rewrite H by lia; by rewrite lookup_insert_ne by lia|exact A].
Qed.

Lemma reprs_grown ex p fp s s' out es fpo :
  grown p fp s s' -> (forall x, x ∈ fpo -> x <> p /\ x < next s) ->
  reprs ex (heap s) out es fpo -> reprs ex (heap s') out es fpo.
Proof.
  intros (_&_&_&_&H&_) Hx Hr. eapply reprs_frame; [done|]. intros x Hin. apply H; by apply Hx.
Qed.

Definition read_ok (rr : Z -> list Z -> M (list Z * bool)) (fuel : nat) : Prop :=
  forall t p f s, savable t -> (depth t <= fuel)%nat -> heap s !! p = Some zero_fav -> fresh s -> p < next s ->
  exists s' fp, rr p (tree_bytes t ++ f) s = Some (s', (f, true)) /\
    repr true (heap s') p (clean t) (p :: fp) /\ grown p fp s s' /\
    fav_number s' = fav_number s + tree_size t.

Definition same_counts (d d' : fav_t) : Prop :=
  nAllocs d' = nAllocs d /\ DataTail d' = DataTail d /\ nBoards d' = nBoards d /\
  nLines d' = nLines d /\ nFolders d' = nFolders d.

Definition subs_pre (p : Z) (s : favs) (d : fav_t) (out : list fav_type_t) (eo es : list entry) (fpo : list Z) : Prop :=
  heap s !! p = Some d /\ favh d = out ++ map flat_item es ++ pad /\ reprs true (heap s) out eo fpo /\
  fresh s /\ p < next s /\ (forall x, x ∈ fpo -> x <> p /\ x < next s).

Definition sub_size (e : entry) : Z := match e with Sub _ _ _ t => tree_size t | _ => 0 end.
Definition sub_sizes (es : list entry) : Z := fold_right (fun e n => sub_size e + n) 0 es.

Definition subs_post (p : Z) (s : favs) (d : fav_t) (er : list entry) (fpo : list Z) (size : Z) (f : list Z)
    (r : option (favs * (list Z * bool))) : Prop :=
  exists s' d' out' fp', r = Some (s', (f, true)) /\ heap s' !! p = Some d' /\ favh d' = out' ++ pad /\
    reprs true (heap s') out' er (fpo ++ fp') /\ grown p fp' s s' /\ same_counts d d' /\
    fav_number s' = fav_number s + size.

Lemma subs_post_trans p s s1 d d1 er fpo fq f n n1 size r :
  grown p fq s s1 -> same_counts d d1 -> fav_number s1 = fav_number s + n1 -> n = n1 + size ->
  subs_post p s1 d1 er (fpo ++ fq) size f r -> subs_post p s d er fpo n f r.
Proof.
  intros Hg (A1&A2&A3&A4&A5) Hn -> (s' & d' & out' & fp' & -> & Hp & Ef & Hr & Hg' & (B1&B2&B3&B4&B5) & Hn').
  exists s', d', out', (fq ++ fp'). split; [done|]. rewrite app_assoc.
  pose proof (grown_trans _ _ _ _ _ _ Hg Hg').
  do 4 (split; [done|]). split; [split_and!; congruence|lia].
Qed.

Definition subs_ok rr fuel (es : list entry) : Prop :=
  forall p s d out eo fpo f, subs_pre p s d out eo es fpo ->
  subs_post p s d (eo ++ clean_list es (lineID d) (folderID d)) fpo (sub_sizes es) f
    (read_subs rr fuel (length es) (zlen out) p (flat_map sub_bytes es ++ f) s).

(** The next entry, once it is what the tree has. *)
Lemma subs_next rr fuel es p s s1 d d1 out it eo e fpo fq f n n1 :
  subs_ok rr fuel es ->
  grown p fq s s1 -> same_counts d d1 -> fav_number s1 = fav_number s + n1 -> n = n1 + sub_sizes es ->
  heap s1 !! p = Some d1 -> favh d1 = out ++ it :: map flat_item es ++ pad ->
  reprs true (heap s) out eo fpo -> reprs true (heap s1) [it] [e] fq -> p < next s ->
  (forall x, x ∈ fpo -> x <> p /\ x < next s) ->
  subs_post p s d (eo ++ e :: clean_list es (lineID d1) (folderID d1)) fpo n f
    (read_subs rr fuel (length es) (zlen out + 1) p (flat_map sub_bytes es ++ f) s1).
Proof.
  intros IH Hg Hs Hn1 Hn Hp Ef Ho Hr Hlt Hfpo.
  apply (subs_post_trans p s s1 d d1 _ fpo fq f n n1 (sub_sizes es)); try done.
  replace (zlen out + 1) with (zlen (out ++ [it])) by (by rewrite zlen_app).
  change (e :: clean_list es (lineID d1) (folderID d1))
    with ([e] ++ clean_list es (lineID d1) (folderID d1)). rewrite app_assoc.
  pose proof Hg as (F & N & _ & R & _). apply IH. split; [done|].
  split; [by rewrite Ef, <- app_assoc|]. split; [apply reprs_app; [by eapply reprs_grown|done]|].
  split; [done|]. split; [lia|]. intros x [Hx|Hx]%list.elem_of_app.
  - apply Hfpo in Hx. lia.
  - apply R in Hx. lia.
Qed.

Lemma subs_leaf rr fuel a dt es :
  subs_ok rr fuel es -> live (Leaf a dt) = true -> subs_ok rr fuel (Leaf a dt :: es).
Proof.
  intros IH Hl p s d out eo fpo f (Hp & Ef & Ho & Hfr & Hlt & Hfpo). cbn [map flat_item app length read_subs] in *.
  mstep (load_item_at _ _ _ _ _ _ _ Hp Ef eq_refl). cbn [clean_list]. rewrite Hl.
  destruct dt as [|b|o|l]; unfold live in Hl; cbn in Hl; rewrite ?andb_false_r in Hl; try done;
    cbn [data attr flat_map sub_bytes app].
  - eapply (subs_next rr fuel es p s s d d out (FavType a (Board b)) eo (Leaf a (Board b)) fpo [] f _ 0); try done.
    + replace s with (with_heap (<[p := d]> (heap s)) s) at 2; [by apply grown_store|].
      rewrite insert_id by done. by destruct s.
    + lia.
    + by repeat constructor.
  - mstep (load_some _ _ _ Hp). set (d0 := FavT _ _ _ _ _ _ _ _).
    rewrite (bind_some _ _ _ _ _ (store_some p d d0 s Hp)).
    set (s0 := with_heap _ s). assert (Hp0 : heap s0 !! p = Some d0) by apply lookup_insert_eq.
    rewrite (bind_some _ _ _ _ _ (store_item_some p _ d0 out _ _ _ s0 Hp0 Ef eq_refl)).
    set (it := FavType a (Line _)). set (d1 := with_favh _ d0).
    eapply (subs_next rr fuel es p s _ d d1 out it eo _ fpo [] f _ 0); try done.
    + change (grown p [] s (with_heap (<[p := d1]> (<[p := d0]> (heap s))) s)).
      rewrite insert_insert_eq. by apply grown_store.
    + cbn. lia.
    + apply lookup_insert_eq.
    + by repeat constructor.
Qed.

Lemma subs_sub rr fuel a i n t es :
  read_ok rr fuel -> savable t -> (depth t <= fuel)%nat -> live (Sub a i n t) = true ->
  subs_ok rr fuel es -> subs_ok rr fuel (Sub a i n t :: es).
Proof.
  intros Hrr Hsv Hd Hl IH p s d out eo fpo f (Hp & Ef & Ho & Hfr & Hlt & Hfpo).
  cbn [map flat_item app length read_subs] in *.
  mstep (load_item_at _ _ _ _ _ _ _ Hp Ef eq_refl). cbn [clean_list data attr title flat_map sub_bytes]. rewrite Hl.
  pose (q := next s).
  pose (s0 := Favs (<[q := zero_fav]> (heap s)) (q + 1) (fav_number s) (fav_stack s) (fav_stack_num s) (dirty s) (fav_tmp s)).
  assert (E0 : alloc zero_fav s = Some (s0, q)) by done.
  rewrite (bind_some _ _ _ _ _ E0). rewrite <- app_assoc.
  destruct (Hrr t q (flat_map sub_bytes es ++ f) s0) as (s1 & fq & E1 & Hrq & Hg & Hn); try done.
  { apply lookup_insert_eq. }
  { intros x Hx. cbn in *. rewrite lookup_insert_ne by lia. apply Hfr. lia. }
  { cbn. lia. }
  rewrite (bind_some _ _ _ _ _ E1). cbn iota.
  pose proof (grown_alloc p s fq s1 _ Hfr Hg) as Hg1. pose proof Hg1 as (F1 & N1 & _ & R1 & H1 & _).
  assert (Hp1 : heap s1 !! p = Some d).
  { destruct Hg as (_&_&_&_&H&_). rewrite H by (cbn; subst q; lia). cbn. by rewrite lookup_insert_ne by (subst q; lia). }
  mstep (load_some _ _ _ Hp1). set (d0 := FavT _ _ _ _ _ _ _ _).
  rewrite (bind_some _ _ _ _ _ (store_some p d d0 s1 Hp1)).
  set (s2 := with_heap _ s1). assert (Hp2 : heap s2 !! p = Some d0) by apply lookup_insert_eq.
  rewrite (bind_some _ _ _ _ _ (store_item_some p _ d0 out _ _ _ s2 Hp2 Ef eq_refl)).
  set (it := FavType a (Folder _)). set (d1 := with_favh _ d0). set (s3 := with_heap _ s2).
  assert (Hs3 : forall x, x <> p -> heap s3 !! x = heap s1 !! x).
  { intros x Hx. cbn. by rewrite !lookup_insert_ne. }
  assert (Hg3 : grown p (q :: fq) s s3).
  { rewrite <- (app_nil_r (q :: fq)). eapply grown_trans; [exact Hg1|].
    change (grown p [] s1 (with_heap (<[p := d1]> (<[p := d0]> (heap s1))) s1)).
    rewrite insert_insert_eq. apply grown_store; [done|lia]. }
  eapply (subs_next rr fuel es p s s3 d d1 out it eo _ fpo (q :: fq) f _ (tree_size t)); try done.
  - apply lookup_insert_eq.
  - rewrite <- (app_nil_r (q :: fq)). constructor; [|constructor].
    eapply repr_frame; [exact Hrq|]. intros x Hx. apply Hs3. apply R1 in Hx. lia.
Qed.

Lemma subs_all rr fuel es :
  read_ok rr fuel -> (depths es <= fuel)%nat -> all_live es ->
  (forall a f n t, In (Sub a f n t) es -> savable t) -> subs_ok rr fuel es.
Proof.
  intros Hrr. induction es as [|e es IH]; intros Hd Ha Hs.
  - intros p s d out eo fpo f (Hp & Ef & Ho & Hfr & Hlt & Hfpo). exists s, d, out, [].
    rewrite !app_nil_r. split; [done|]. split; [done|]. split; [done|]. split; [done|].
    split; [|split; [by split_and!|cbn; lia]].
    replace s with (with_heap (<[p := d]> (heap s)) s) at 2; [by apply grown_store|].
    rewrite insert_id by done. by destruct s.
  - inversion Ha as [|? ? Hl Ha']; subst.
    assert (IH' : subs_ok rr fuel es).
    { apply IH; [|done|intros; eapply Hs; right; eauto].
      destruct e; cbn [depths fold_right] in Hd; fold (depths es) in Hd; lia. }
    destruct e as [a dt|a i n t]; [by apply subs_leaf|].
    cbn [depths fold_right] in Hd. fold (depths es) in Hd.
    apply subs_sub; try done; [eapply Hs; by left|lia].
Qed.

Lemma length_clean es : forall l f, all_live es -> length (clean_list es l f) = length es.
Proof.
  induction es as [|e es IH]; intros l f Ha; inversion Ha as [|? ? Hl Ha']; subst; cbn [clean_list length]; [done|].
  rewrite Hl. destruct e as [a [| | |]|]; cbn [length]; by rewrite IH.
Qed.

Lemma tree_size_eq es : tree_size (Tree es) = zlen es + sub_sizes es.
Proof.
  change (tree_size (Tree es)) with (sizes es).
  induction es as [|e es IH]; [done|]. cbn [sizes sub_sizes fold_right]. fold (sizes es) (sub_sizes es).
  rewrite IH, zlen_cons. destruct e; cbn; lia.
Qed.

(** The object after the head of its folder is read. *)
Definition head_of (es : list entry) : fav_t :=
  FavT (zlen es + FAV_PRE_ALLOC) (zlen es) (count (fun e => live e && is_board e) es)
    (count (fun e => live e && is_line e) es) (count (fun e => live e && is_sub e) es) 0 0
    (replicate (length es) zero_item ++ pad).

Lemma read_head_spec es p f s :
  all_live es -> fits es -> heap s !! p = Some zero_fav ->
  read_head p (head_bytes es ++ f) s =
    Some (add_number (zlen es) (with_heap (<[p := head_of es]> (heap s)) s), f).
Proof.
  intros Ha Hf Hp. pose proof (fits_total _ Ha Hf) as Hz. pose proof (zlen_nonneg es) as Hz0.
  pose proof (exact_total (head_of es) es) as Et. unfold get_data_number in Et. cbn in Et.
  specialize (Et ltac:(by split_and!) Ha). destruct Hf as (H1 & H2 & H3).
  pose proof (fun f => count_nonneg f es) as Hn.
  unfold read_head, head_bytes. rewrite <- !app_assoc.
  rewrite read_s16_app by (pose proof (Hn (fun e => live e && is_board e)); lia).
  rewrite read_s8_app by (pose proof (Hn (fun e => live e && is_line e)); unfold in_s8; lia).
  rewrite read_s8_app by (pose proof (Hn (fun e => live e && is_sub e)); unfold in_s8; lia).
  rewrite Et, (s16_id (zlen es)) by lia. unfold FAV_PRE_ALLOC in *. rewrite s16_id by lia.
  rewrite (proj2 (Z.ltb_lt _ _)) by lia.
  rewrite (bind_some _ _ _ _ _ (store_some p zero_fav _ s Hp)).
  replace (Z.to_nat (zlen es + 8)) with (length es + 8)%nat by (unfold zlen; lia).
  rewrite replicate_add. done.
Qed.

Lemma read_spec fuel : read_ok (read_rec read_item fuel) fuel.
Proof.
  induction fuel as [|fuel IH]; intros t p f s Hsv Hd Hp Hfr Hlt;
    destruct Hsv as [es Ho Ha Hfit Hsv]; rewrite depth_eq in Hd; [lia|].
  change (tree_bytes (Tree es)) with (head_bytes es ++ flat_map entry_bytes es ++ flat_map sub_bytes es).
  rewrite <- !app_assoc. cbn [read_rec].
  rewrite (bind_some _ _ _ _ _ (read_head_spec es p _ s Ha Hfit Hp)).
  set (s1 := add_number _ _). assert (Hp1 : heap s1 !! p = Some (head_of es)) by apply lookup_insert_eq.
  mstep (load_some _ _ _ Hp1).
  replace (Z.to_nat (DataTail (head_of es))) with (length es) by (cbn; unfold zlen; lia).
  pose proof (read_items_spec es p (head_of es) [] (flat_map sub_bytes es ++ f) s1 Hp1 eq_refl Ho Ha) as E2.
  change (zlen []) with 0 in E2. rewrite (bind_some _ _ _ _ _ E2). cbn iota.
  set (d2 := with_favh _ _) in *. set (s2 := with_heap _ s1) in *.
  assert (Hp2 : heap s2 !! p = Some d2) by apply lookup_insert_eq. mstep (load_some _ _ _ Hp2).
  replace (Z.to_nat (DataTail d2)) with (length es) by (cbn; unfold zlen; lia).
  assert (Hg2 : grown p [] s s2).
  { change (grown p [] s (add_number (zlen es) (with_heap (<[p := d2]> (<[p := head_of es]> (heap s))) s))).
    rewrite insert_insert_eq. exact (grown_store p d2 s Hfr Hlt). }
  destruct (subs_all _ fuel es IH ltac:(lia) Ha Hsv p s2 d2 [] [] [] f)
    as (s' & d' & out & fp & E & Hp' & Ef' & Hr & Hg & (A1 & A2 & A3 & A4 & A5) & Hn).
  { split; [done|]. split; [done|]. split; [constructor|]. split; [apply Hg2|].
    split; [destruct Hg2; lia|set_solver]. }
  change (zlen []) with 0 in E. exists s', fp. split; [exact E|].
  split; [|split; [exact (grown_trans p [] fp _ _ _ Hg2 Hg)|rewrite Hn, tree_size_eq; cbn; lia]].
  rewrite clean_eq. cbn [app] in Hr. change (lineID d2) with 0 in Hr. change (folderID d2) with 0 in Hr.
  assert (Hz : zlen out = zlen es).
  { unfold zlen. by rewrite (reprs_length _ _ _ _ _ Hr), length_clean. }
  pose proof (fits_total _ Ha Hfit). pose proof (zlen_nonneg es).
  apply repr_node with d'; [done| |by apply fits_clean| |].
  - unfold sized. rewrite A1, A2, Ef', zlen_app, Hz.
    change (zlen pad) with 8. change (nAllocs d2) with (zlen es + 8). change (DataTail d2) with (zlen es). lia.
  - unfold exact. rewrite A3, A4, A5. by rewrite !count_clean.
  - rewrite A2, Ef'. by rewrite take_out.
Qed.

End FavStore.
