(* ===== verification/FavOps.v ===== *)
(** Moving and adding entries of an open folder ([move_in_folder],
    [fav_add_board]). *)

From stdpp Require Import gmap.
From S2P Require Import Prelude Cstr Fav FavTree FavClean.

#[global] Open Scope Z_scope.
#[global] Open Scope list_scope.

Module FavOps.
Import Fav FavTree FavClean.

(** *** Moving an entry *)

Definition visible (l : list fav_type_t) : list fav_type_t := List.filter valid_item l.

(** The entry at [src] taken out and put in at [dst]. *)
Definition move_to {A} (l : list A) (src dst : nat) : list A :=
  match l !! src with
  | Some x => take dst (delete src l) ++ x :: drop dst (delete src l)
  | None => l
  end.

Lemma find_valid_spec l : forall i count k,
  count <= k < count + zlen (visible l) ->
  exists a x b, l = a ++ x :: b /\ valid_item x = true /\ zlen (visible a) = k - count /\
    find_valid l i count k = Some (i + zlen a).
Proof.
  induction l as [|it l IH]; intros i count k Hk; [cbn in Hk; change (zlen []) with 0 in Hk; lia|].
  unfold visible in Hk. cbn [List.filter find_valid] in *. destruct (valid_item it) eqn:Ev.
  - destruct (count =? k) eqn:Ek; zbool.
    + exists [], it, l. split; [done|]. split; [done|]. split; [change (zlen (visible [])) with 0; lia|].
      f_equal. change (zlen []) with 0. lia.
    + destruct (IH (i + 1) (count + 1) k) as (a & x & b & -> & Hv & Hz & E); [unfold visible; zlia|].
      exists (it :: a), x, b. split; [done|]. split; [done|]. unfold visible in *. cbn [List.filter]. rewrite Ev.
      split; [zlia|]. rewrite E. f_equal. zlia.
  - destruct (IH (i + 1) count k) as (a & x & b & -> & Hv & Hz & E); [done|].
    exists (it :: a), x, b. split; [done|]. split; [done|]. unfold visible in *. cbn [List.filter]. rewrite Ev.
    split; [done|]. rewrite E. f_equal. zlia.
Qed.

Lemma find_valid_none l : forall i count k, count + zlen (visible l) <= k -> find_valid l i count k = None.
Proof.
  induction l as [|it l IH]; intros i count k Hk; [done|]. unfold visible in Hk. cbn [find_valid List.filter] in *.
  destruct (valid_item it).
  - rewrite zlen_cons in Hk. pose proof (zlen_nonneg (List.filter valid_item l)).
    rewrite (proj2 (Z.eqb_neq _ _)) by lia. apply IH. unfold visible. lia.
  - by apply IH.
Qed.

Lemma visible_app a b : visible (a ++ b) = visible a ++ visible b.
Proof. apply List.filter_app. Qed.

Lemma visible_cons x b : valid_item x = true -> visible (x :: b) = x :: visible b.
Proof. intros H. unfold visible. cbn. by rewrite H. Qed.

Lemma move_to_down {A} (a m b : list A) x :
  move_to (a ++ x :: m ++ b) (length a) (length a + length m) = a ++ m ++ x :: b.
Proof.
  unfold move_to. rewrite list_lookup_middle by done. rewrite delete_middle.
  rewrite app_assoc, take_app_length', drop_app_length' by (by rewrite length_app). by rewrite <- app_assoc.
Qed.

Lemma move_to_up {A} (a m b : list A) x :
  move_to (a ++ m ++ x :: b) (length a + length m) (length a) = a ++ x :: m ++ b.
Proof.
  unfold move_to. rewrite app_assoc, <- (length_app a m), list_lookup_middle by done. rewrite delete_middle.
  rewrite <- app_assoc. by rewrite take_app_length, drop_app_length.
Qed.

(** Closing the cell of [x] and opening the one behind [m]. *)
Lemma shift_down a x m b :
  shift_items (a ++ x :: m ++ b) (zlen a) (zlen a + zlen m) = Some (a ++ m ++ x :: b).
Proof.
  unfold shift_items. rewrite zget_middle by done. cbn [mbind option_bind].
  case_if E; [|destruct m; [|zlia]].
  - destruct (exists_last (l := x :: m) ltac:(done)) as (c & z & Ec).
    assert (Hc : zlen c = zlen m).
    { assert (H : zlen (x :: m) = zlen (c ++ [z])) by (by rewrite Ec).
      rewrite zlen_cons, zlen_app in H. change (zlen [z]) with 1 in H. lia. }
    assert (El : mem_move (a ++ x :: m ++ b) (zlen a) (zlen a + 1) (zlen a + zlen m - zlen a)
                 = Some ((a ++ m) ++ z :: b)).
    { unfold mem_move.
      replace (a ++ x :: m ++ b) with ((a ++ [x]) ++ m ++ b) at 1 by (by rewrite <- app_assoc).
      rewrite (mem_read_app (a ++ [x]) m b); [|by rewrite zlen_app|lia].
      cbn [mbind option_bind]. change (x :: m ++ b) with ((x :: m) ++ b). rewrite Ec, <- !app_assoc.
      apply mem_write_app; done. }
    rewrite El. cbn [mbind option_bind]. rewrite mem_write_one by (by rewrite zlen_app). by rewrite <- app_assoc.
  - cbn [app]. change (zlen []) with 0. rewrite Z.add_0_r, Z.sub_diag.
    unfold mem_move, mem_read. change (zlen []) with 0.
    assert (El : mem_move (a ++ x :: b) (zlen a + 1) (zlen a) 0 = Some (a ++ x :: b)).
    { unfold mem_move. rewrite (mem_read_app a [] (x :: b)) by done. cbn [mbind option_bind].
      change (a ++ x :: b) with (a ++ [x] ++ [] ++ b). rewrite app_assoc.
      apply (mem_write_app (a ++ [x]) [] b []); [by rewrite zlen_app|done]. }
    unfold mem_move in El. unfold mem_read in El. rewrite El. cbn [mbind option_bind]. by apply mem_write_one.
Qed.

Lemma shift_up a x m b : m <> [] ->
  shift_items (a ++ m ++ x :: b) (zlen a + zlen m) (zlen a) = Some (a ++ x :: m ++ b).
Proof.
  intros Hm. unfold shift_items. rewrite app_assoc, zget_middle by (by rewrite zlen_app). cbn [mbind option_bind].
  pose proof (zlen_nonneg m). rewrite (proj2 (Z.ltb_ge _ _)) by lia.
  destruct m as [|y m]; [done|].
  assert (El : mem_move ((a ++ y :: m) ++ x :: b) (zlen a + 1) (zlen a) (zlen a + zlen (y :: m) - zlen a)
               = Some (a ++ y :: y :: m ++ b)).
  { unfold mem_move. rewrite <- app_assoc. rewrite (mem_read_app a (y :: m) (x :: b)) by (done || lia).
    cbn [mbind option_bind app].
    replace (a ++ y :: m ++ x :: b) with ((a ++ [y]) ++ (m ++ [x]) ++ b) by (by rewrite <- !app_assoc).
    rewrite (mem_write_app (a ++ [y]) (m ++ [x]) b (y :: m)); [by rewrite <- app_assoc|by rewrite zlen_app|].
    rewrite zlen_app, zlen_cons. change (zlen [x]) with 1. lia. }
  rewrite El. cbn [mbind option_bind]. by rewrite mem_write_one.
Qed.

(** Two visible entries, the first one in front of the other. *)
Lemma split_two (a1 b1 a2 b2 : list fav_type_t) x y :
  a1 ++ x :: b1 = a2 ++ y :: b2 -> zlen (visible a1) < zlen (visible a2) ->
  exists m, a2 = a1 ++ x :: m /\ b1 = m ++ y :: b2.
Proof.
  intros E Hlt. destruct (app_eq_app _ _ _ _ E) as (l & [[-> H]|[-> H]]).
  - rewrite visible_app, zlen_app in Hlt. pose proof (zlen_nonneg (visible l)). lia.
  - destruct l as [|z l]; [rewrite app_nil_r in Hlt; lia|]. injection H as -> ->. by exists l.
Qed.

(** Moving the entries of the block is moving the visible ones. *)
Lemma shift_visible l tl src dst :
  0 <= src < zlen (visible l) -> 0 <= dst < zlen (visible l) -> src <> dst ->
  exists i j l', find_valid l 0 0 src = Some i /\ find_valid l 0 0 dst = Some j /\
    shift_items (l ++ tl) i j = Some (l' ++ tl) /\ Permutation l' l /\
    visible l' = move_to (visible l) (Z.to_nat src) (Z.to_nat dst).
Proof.
  intros Hs Hd Hne.
  destruct (find_valid_spec l 0 0 src ltac:(lia)) as (a1 & x & b1 & E1 & Hx & Hz1 & ->).
  destruct (find_valid_spec l 0 0 dst ltac:(lia)) as (a2 & y & b2 & E2 & Hy & Hz2 & ->).
  rewrite Z.sub_0_r in *. rewrite !Z.add_0_l.
  replace (Z.to_nat src) with (length (visible a1)) by (unfold zlen in Hz1; lia).
  replace (Z.to_nat dst) with (length (visible a2)) by (unfold zlen in Hz2; lia).
  destruct (Z_lt_le_dec src dst).
  - destruct (split_two a1 b1 a2 b2 x y ltac:(congruence) ltac:(lia)) as (m & -> & ->). subst l.
    exists (zlen a1), (zlen (a1 ++ x :: m)), (a1 ++ (m ++ [y]) ++ x :: b2).
    split; [done|]. split; [done|]. split; [|split].
    + replace (zlen (a1 ++ x :: m)) with (zlen a1 + zlen (m ++ [y])) by (unfold zlen; rewrite !length_app; cbn [length]; lia).
      replace ((a1 ++ x :: m ++ y :: b2) ++ tl) with (a1 ++ x :: (m ++ [y]) ++ b2 ++ tl)
        by (by rewrite <- !app_assoc; cbn; rewrite <- ?app_assoc).
      rewrite shift_down. by rewrite <- !app_assoc; cbn; rewrite <- ?app_assoc.
    + apply Permutation_app_head. rewrite <- (Permutation_middle (m ++ [y])), <- app_assoc. done.
    + rewrite !visible_app, !visible_cons, !visible_app, !visible_cons by done.
      change (visible []) with (@nil fav_type_t).
      change (x :: visible m ++ y :: visible b2) with (x :: visible m ++ [y] ++ visible b2).
      rewrite (app_assoc (visible m)), length_app. cbn [length].
      rewrite <- (move_to_down (visible a1) (visible m ++ [y]) (visible b2) x), length_app. cbn [length].
      f_equal. lia.
  - destruct (split_two a2 b2 a1 b1 y x ltac:(congruence) ltac:(lia)) as (m & -> & ->). subst l.
    exists (zlen (a2 ++ y :: m)), (zlen a2), (a2 ++ x :: (y :: m) ++ b1).
    split; [done|]. split; [done|]. split; [|split].
    + rewrite zlen_app. replace (((a2 ++ y :: m) ++ x :: b1) ++ tl) with (a2 ++ (y :: m) ++ x :: b1 ++ tl)
        by (by rewrite <- !app_assoc; cbn; rewrite <- ?app_assoc).
      rewrite shift_up by done. by rewrite <- !app_assoc; cbn; rewrite <- ?app_assoc.
    + rewrite <- app_assoc. apply Permutation_app_head, (Permutation_middle (y :: m)).
    + rewrite <- app_assoc. cbn [app]. rewrite !visible_app, !visible_cons, !visible_app, !visible_cons by done.
      rewrite !length_app. cbn [length].
      symmetry. exact (move_to_up (visible a2) (y :: visible m) (visible b1) x).
Qed.

Lemma move_to_same {A} (l : list A) i : move_to l i i = l.
Proof.
  destruct (l !! i) as [x|] eqn:E; [|unfold move_to; by rewrite E].
  apply list_elem_of_split_length in E as (a & b & -> & ->).
  pose proof (move_to_down a [] b x) as H. by rewrite Nat.add_0_r in H.
Qed.

Lemma with_favh_id d : with_favh (favh d) d = d.
Proof. by destruct d. Qed.

Lemma with_heap_id s : with_heap (heap s) s = s.
Proof. by destruct s. Qed.

(** *** Looking for a board *)

Definition has_board (b : Z) (e : entry) : bool :=
  live e && match e with Leaf _ (Board x) => bid x =? b | _ => false end.

(** The index of the first entry of the board. *)
Fixpoint board_index (b : Z) (es : list entry) (i : Z) : option Z :=
  match es with
  | [] => None
  | e :: es => if has_board b e then Some i else board_index b es (i + 1)
  end.

Lemma item_loop_spec b p d s es : forall its fp a c,
  heap s !! p = Some d -> favh d = a ++ its ++ c -> reprs true (heap s) its es fp ->
  item_loop b FAVT_BOARD (length its) (zlen a) p s =
    Some (s, option_map (pair p) (board_index b es (zlen a))).
Proof.
  induction es as [|e es IH]; intros its fp a c Hp Ef Hr; inversion Hr; subst;
    cbn [length item_loop board_index app] in *; [done| |]; mstep (load_item_at _ _ _ _ _ _ _ Hp Ef eq_refl).
  - assert (Hgo : item_loop b FAVT_BOARD (length its0) (zlen a + 1) p s =
                    Some (s, option_map (pair p) (board_index b es (zlen a + 1)))).
    { specialize (IH its0 fp (a ++ [FavType a0 d0]) c Hp). rewrite zlen_app in IH.
      apply IH; [by rewrite Ef, <- app_assoc|done]. }
    unfold has_board, live, valid_item. cbn [attr entry_attr].
    destruct (Z.land a0 FAVH_FAV =? 0); cbn [negb orb andb]; [done|].
    destruct d0 as [|x|o|l]; cbn [get_item_type data]; try done.
    unfold mbind, M_bind, fav_getid. cbn [data mret M_ret]. by destruct (bid x =? b).
  - assert (Hgo : item_loop b FAVT_BOARD (length its0) (zlen a + 1) p s =
                    Some (s, option_map (pair p) (board_index b es (zlen a + 1)))).
    { specialize (IH its0 fp' (a ++ [FavType a0 (Folder (Some (FavFolder f n (Some q))))]) c Hp).
      rewrite zlen_app in IH. apply IH; [by rewrite Ef, <- app_assoc|done]. }
    unfold has_board. rewrite andb_false_r. unfold get_item_type. cbn [data].
    change (2 =? FAVT_BOARD) with false. cbn [negb]. by rewrite orb_true_r.
Qed.

(** *** Appending *)

Definition new_board (b : Z) : fav_board_t := FavBoard b 0 0 0.

Lemma fav_enlarge_spec p d s :
  heap s !! p = Some d -> sized d -> DataTail d <= 32000 -> fav_number s < MAX_FAV ->
  exists r k, enlarge_if_full p s = Some (with_heap (<[p := r]> (heap s)) s, k) /\ 0 <= k /\
    (exists b, favh r = favh d ++ b) /\ sized r /\ DataTail d < zlen (favh r) /\
    DataTail r = DataTail d /\ nBoards r = nBoards d /\ nLines r = nLines d /\ nFolders r = nFolders d.
Proof.
  intros Hp (Hs1 & Hs2 & Hs3) Ht Hn. unfold enlarge_if_full.
  rewrite (bind_some _ _ s s false).
  2: { unfold is_maxsize, mbind, M_bind, get. by rewrite (proj2 (Z.leb_gt _ _)) by lia. }
  mstep (load_some _ _ _ Hp). case_if E.
  - exists d, 1. rewrite insert_id, with_heap_id by done. unfold sized. split; [done|]. split; [done|].
    split; [exists []; by rewrite app_nil_r|]. split_and!; done || lia.
  - rewrite (bind_some _ _ _ _ _ (store_some p d _ s Hp)). eexists _, 0. split; [done|]. split; [done|].
    cbn [favh DataTail nBoards nLines nFolders]. split; [by eexists|]. unfold sized. cbn [favh DataTail nAllocs].
    rewrite zlen_app, zlen_replicate. unfold FAV_PRE_ALLOC. rewrite s16_id by lia. split_and!; done || lia.
Qed.

(** The open folder. *)
Definition is_open_folder (s : favs) (p : Z) : Prop :=
  fav_stack_num s <> 0 /\ zget (fav_stack s) (fav_stack_num s - 1) = Some (Some p).

Lemma get_current_some s p : is_open_folder s p -> get_current_fav s = Some (s, Some p).
Proof.
  intros [Hn Hz]. unfold get_current_fav, mbind, M_bind, get. rewrite (proj2 (Z.eqb_neq _ _)) by done.
  unfold lift. by rewrite Hz.
Qed.

Lemma getboard_spec s p es fp b :
  is_open_folder s p -> repr true (heap s) p (Tree es) fp -> 1 <= b <= MAX_BOARD ->
  getboard b s = Some (s, option_map (pair p) (board_index b es 0)).
Proof.
  intros Ho Hr Hb. inversion Hr as [? d ? fpr Hp Hs Hfit He Hrs]; subst.
  destruct (reprs_items _ _ _ _ _ Hrs Hs) as (its & tl & Ef & Hi & En & Ez).
  unfold getboard. rewrite (bind_some _ _ s s ()).
  2: { unfold assert_bid. by rewrite (proj2 (Z.leb_le _ _)), (proj2 (Z.ltb_lt _ _)) by lia. }
  unfold get_fav_item. rewrite (bind_some _ _ _ _ _ (get_current_some _ _ Ho)).
  mstep (load_some _ _ _ Hp). rewrite En. exact (item_loop_spec b p d s es its fpr [] tl Hp Ef Hi).
Qed.

Lemma reprs_snoc ex h its es fp a dt :
  reprs ex h its es fp -> plain a dt -> reprs ex h (its ++ [FavType a dt]) (es ++ [Leaf a dt]) fp.
Proof.
  intros H Hp. rewrite <- (app_nil_r fp). apply reprs_app; [done|]. by repeat constructor.
Qed.

(** The object after a board is appended. *)
Definition appended (r : fav_t) (its : list fav_type_t) (b : Z) (rest : list fav_type_t) : fav_t :=
  FavT (nAllocs r) (s16 (DataTail r + 1)) (s16 (nBoards r + 1)) (nLines r) (nFolders r) (lineID r) (folderID r)
    (its ++ FavType FAVH_FAV (Board (new_board b)) :: rest).

Lemma append_code s p d its x rest b :
  heap s !! p = Some d -> favh d = its ++ x :: rest -> DataTail d = zlen its ->
  (_ ← store_item p (DataTail d) (FavType FAVH_FAV (new_data FAVT_BOARD));
   _ ← fav_increase p (DataTail d);
   set_bid (p, DataTail d) b) s =
  Some (after (<[p := appended d its b rest]> (heap s)) 1 s, ()).
Proof.
  intros Hp Ef Ht. rewrite Ht.
  rewrite (bind_some _ _ _ _ _ (store_item_some p _ d its x rest _ s Hp Ef eq_refl)).
  set (d1 := with_favh _ d). set (s1 := with_heap _ s).
  assert (Hp1 : heap s1 !! p = Some d1) by apply lookup_insert_eq.
  rewrite (bind_some _ _ _ _ _ (fav_increase_some p _ d1 its _ rest s1 Hp1 eq_refl eq_refl I)).
  set (d2 := bumped _ _ _). set (s2 := after _ 1 s1).
  assert (Hp2 : heap s2 !! p = Some d2) by apply lookup_insert_eq.
  unfold set_bid. cbn [fst snd]. mstep (load_item_at p _ d2 its _ rest s2 Hp2 eq_refl eq_refl).
  cbn [data attr renum]. change (new_data FAVT_BOARD) with (Board (FavBoard 0 0 0 0)). cbn iota.
  rewrite (store_item_some p _ d2 its _ rest _ s2 Hp2 eq_refl eq_refl).
  unfold s2, s1, after, with_heap. cbn. by rewrite !insert_insert_eq.
Qed.

Lemma append_repr h p r its rest es fpr b x :
  h !! p = Some r -> sized r -> favh r = its ++ x :: rest -> DataTail r = zlen its ->
  exact r es -> fits (es ++ [Leaf FAVH_FAV (Board (new_board b))]) -> zlen es <= 32000 ->
  reprs true h its es fpr -> p ∉ fpr ->
  repr true (<[p := appended r its b rest]> h) p (Tree (es ++ [Leaf FAVH_FAV (Board (new_board b))])) (p :: fpr).
Proof.
  intros Hp (Hs1 & Hs2 & Hs3) Ef Ht He Hf Hz Hr Hin.
  assert (Hzi : zlen its = zlen es) by (unfold zlen; by rewrite (reprs_length _ _ _ _ _ Hr)).
  rewrite Ef, zlen_app, zlen_cons in Hs1, Hs2. pose proof (zlen_nonneg rest). pose proof (zlen_nonneg es).
  assert (Et : DataTail (appended r its b rest) = zlen its + 1) by (cbn; rewrite s16_id; lia).
  destruct He as (E1 & E2 & E3). destruct Hf as (F1 & F2 & F3).
  apply repr_node with (appended r its b rest); [apply lookup_insert_eq| |done| |].
  - unfold sized. rewrite Et. cbn [appended favh nAllocs]. rewrite zlen_app, zlen_cons. lia.
  - rewrite !count_snoc in F1. cbn in F1. unfold exact. rewrite !count_snoc. cbn.
    pose proof (count_nonneg (fun e => live e && is_board e) es).
    change (live (Leaf FAVH_FAV (Board (new_board b)))) with true in *. cbn [andb] in *. rewrite s16_id; lia.
  - rewrite Et. cbn [appended favh].
    replace (its ++ FavType FAVH_FAV (Board (new_board b)) :: rest)
      with ((its ++ [FavType FAVH_FAV (Board (new_board b))]) ++ rest) by (by rewrite <- app_assoc).
    rewrite take_out by (by rewrite zlen_app). apply reprs_snoc; [|done].
    eapply reprs_frame; [done|]. intros y Hy. apply lookup_insert_ne. set_solver.
Qed.

End FavOps.
