(* ===== verification/FavProps.v ===== *)
(** The properties of the favourites ([Fav]), each with an instance. *)

From stdpp Require Import gmap.
From S2P Require Import Prelude Cstr Fav FavTree FavClean FavStore FavOps.

#[global] Open Scope Z_scope.
#[global] Open Scope list_scope.

Module FavProps.
Import Fav FavTree FavClean FavStore FavOps.

(** *** Trees and their clean form *)

Lemma tree_nested_ind (P : tree -> Prop) :
  (forall es, (forall a f n t, In (Sub a f n t) es -> P t) -> P (Tree es)) -> forall t, P t.
Proof.
  intros H. fix IH 1. intros [es]. apply H.
  induction es as [|[a d|a f n t] es IHes]; intros a' f' n' t'; [intros []|intros [E|Hin]..].
  - discriminate E.
  - by eapply IHes.
  - assert (Ht : P t) by apply IH. injection E as <- <- <- <-. exact Ht.
  - by eapply IHes.
Qed.

Lemma clean_b_eq es : clean_b (Tree es) = forallb entry_clean es.
Proof. reflexivity. Qed.

Lemma clean_b_clean t : clean_b (clean t) = true.
Proof.
  induction t as [es IH] using tree_nested_ind. rewrite clean_eq, clean_b_eq. generalize 0 at 2 as f.
  generalize 0 as l. induction es as [|e es IHes]; intros l f; cbn [clean_list]; [done|].
  assert (Hes : forall a f n t, In (Sub a f n t) es -> clean_b (clean t) = true) by (intros; eapply IH; right; eauto).
  destruct (live e) eqn:El; [|by apply IHes].
  destruct e as [a [|b|o|x]|a i n t]; cbn [forallb]; rewrite IHes by done; unfold entry_clean;
    unfold live in *; cbn [entry_attr] in *; rewrite El; cbn; try done. by rewrite (IH a i n t) by (by left).
Qed.

Lemma clean_idem t : clean (clean t) = clean t.
Proof.
  induction t as [es IH] using tree_nested_ind. rewrite !clean_eq. f_equal. generalize 0 at 2 4 6 as f.
  generalize 0 as l. induction es as [|e es IHes]; intros l f; cbn [clean_list]; [done|].
  assert (Hes : forall a f n t, In (Sub a f n t) es -> clean (clean t) = clean t) by (intros; eapply IH; right; eauto).
  destruct (live e) eqn:El; [|by apply IHes].
  destruct e as [a [|b|o|x]|a i n t]; cbn [clean_list]; unfold live in *; cbn [entry_attr] in *; rewrite El;
    rewrite IHes by done; try done. by rewrite (IH a i n t) by (by left).
Qed.

Lemma sizes_cons e es : sizes (e :: es) = entry_size e + sizes es.
Proof. reflexivity. Qed.

Lemma tree_size_clean t : clean_b t = true -> tree_size (clean t) = tree_size t.
Proof.
  induction t as [es IH] using tree_nested_ind. rewrite clean_eq, clean_b_eq.
  change (forallb entry_clean es = true -> sizes (clean_list es 0 0) = sizes es). generalize 0 at 2 as f.
  generalize 0 as l. induction es as [|e es IHes]; intros l f Hc; cbn [clean_list forallb] in *; [done|].
  assert (Hes : forall a f n t, In (Sub a f n t) es -> clean_b t = true -> tree_size (clean t) = tree_size t)
    by (intros; eapply IH; [right|]; eauto).
  apply andb_true_iff in Hc as [He Hc]. unfold entry_clean in He. apply andb_true_iff in He as [El Ht].
  rewrite El. destruct e as [a [|b|o|x]|a i n t]; rewrite !sizes_cons, IHes by done; try done.
  cbn [entry_size]. by rewrite (IH a i n t) by (done || by left).
Qed.

Lemma storable_clean t : storable t -> storable (clean t).
Proof.
  induction t as [es IH] using tree_nested_ind. rewrite clean_eq. intros H. inversion H as [? Ho Hs]; subst.
  assert (E : forall l f, Forall entry_ok (clean_list es l f) /\
                forall a i n t, In (Sub a i n t) (clean_list es l f) -> storable t).
  { clear H. induction es as [|e es IHes]; intros l f; cbn [clean_list]; [split; [constructor|done]|].
    inversion Ho as [|? ? He Ho']; subst.
    assert (Hes : forall l f, Forall entry_ok (clean_list es l f) /\
                   forall a i n t, In (Sub a i n t) (clean_list es l f) -> storable t).
    { apply IHes; [intros; eapply IH; [right|]; eauto|done|intros; eapply Hs; right; eauto]. }
    assert (Hr : forall z, in_s8 (s8 z)) by (intros z; unfold in_s8, s8; Z.to_euclidean_division_equations; lia).
    destruct (live e); [|apply Hes]. destruct He as [Ha He].
    destruct e as [a [|b|o|x]|a i n t]; (split; [constructor; [|apply Hes]|]); try (by split; [|apply Hr]); try done.
    all: try (intros ? ? ? ? [Hd|Hin]; [try discriminate Hd|by eapply Hes]).
    - split; [done|]. destruct He as (_ & Hn & Ht). split; [apply Hr|done].
    - injection Hd as <- <- <- <-. eapply IH; [by left|]. eapply Hs. by left. }
  constructor; apply E.
Qed.

Lemma repr_savable ex h p t fp : repr ex h p t fp -> storable t -> clean_b t = true -> savable t.
Proof.
  intros Hr. revert p t fp Hr.
  apply (repr_mut ex h (fun _ t _ => storable t -> clean_b t = true -> savable t)
    (fun _ es _ => Forall entry_ok es -> (forall a f n t, In (Sub a f n t) es -> storable t) ->
       forallb entry_clean es = true -> forall a f n t, In (Sub a f n t) es -> savable t)).
  - intros p d es fp _ _ Hf _ _ IH H Hc. inversion H; subst.
    constructor; try done; [by apply clean_live|by apply IH].
  - by intros.
  - intros a d its es fp _ _ IH Ho Hs Hc b f n t [E|Hin]; [done|]. inversion Ho; subst.
    cbn [forallb] in Hc. apply andb_true_iff in Hc as [_ Hc].
    eapply IH; try done. intros. eapply Hs. by right.
  - intros a f n q t its es fp fp' _ IHt _ IH Ho Hs Hc b f' n' t' Hin. inversion Ho; subst.
    cbn [forallb] in Hc. apply andb_true_iff in Hc as [He Hc].
    destruct Hin as [E|Hin].
    + injection E as <- <- <- <-. apply IHt; [eapply Hs; by left|].
      unfold entry_clean in He. by apply andb_true_iff in He as [_ He].
    + eapply IH; try done. intros. eapply Hs. by right.
Qed.

(** *** The fuel *)

Lemma repr_sizes ex h :
  (forall p t fp, repr ex h p t fp -> (depth t <= length fp)%nat /\ Forall (fun x => is_Some (h !! x)) fp) /\
  (forall its es fp, reprs ex h its es fp -> (depths es <= length fp)%nat /\ Forall (fun x => is_Some (h !! x)) fp).
Proof.
  apply repr_reprs_ind.
  - intros p d es fp Hp _ _ _ _ [Hd Hf]. rewrite depth_eq. cbn. split; [lia|]. constructor; [by eexists|done].
  - split; [cbn; lia|constructor].
  - intros a d its es fp _ _ [Hd Hf]. cbn [depths fold_right]. fold (depths es). done.
  - intros a f n q t its es fp fp' _ [Hd Hf] _ [Hd' Hf']. cbn [depths fold_right]. fold (depths es).
    rewrite length_app. split; [lia|]. by apply list.Forall_app.
Qed.

Lemma depth_le ex h p t fp : repr ex h p t fp -> NoDup fp -> (depth t <= S (size h))%nat.
Proof.
  intros Hr Hn. destruct (repr_sizes ex h) as [H _]. apply H in Hr as [Hd Hf].
  rewrite <- (size_dom (D := gset Z) h).
  enough (length fp <= size (dom (D := gset Z) h))%nat by lia.
  rewrite <- (size_list_to_set (C := gset Z) fp) by done. apply subseteq_size.
  intros x Hx%elem_of_list_to_set. rewrite elem_of_dom. rewrite list.Forall_forall in Hf. by apply Hf.
Qed.

Lemma depth_bytes t : (depth t <= length (tree_bytes t))%nat.
Proof.
  induction t as [es IH] using tree_nested_ind. rewrite depth_eq.
  change (tree_bytes (Tree es)) with (head_bytes es ++ flat_map entry_bytes es ++ flat_map sub_bytes es).
  rewrite !length_app. change (length (head_bytes es)) with 4%nat.
  enough (depths es <= length (flat_map sub_bytes es))%nat by lia.
  induction es as [|e es IHes]; [cbn; lia|]. cbn [depths fold_right flat_map]. fold (depths es).
  rewrite length_app. assert (H : (depths es <= length (flat_map sub_bytes es))%nat)
    by (apply IHes; intros; eapply IH; right; eauto).
  destruct e as [a d|a f n t]; [lia|]. cbn [sub_bytes]. pose proof (IH a f n t ltac:(by left)). lia.
Qed.

(** *** The theorems *)

(** What a cleanup leaves of a tree. *)
Definition cleaned (t : tree) : tree := if clean_b t then t else clean t.

Lemma get_fav_root_some s x : zget (fav_stack s) 0 = Some x -> get_fav_root s = Some (s, x).
Proof. intros E. unfold get_fav_root, get, lift, mbind, M_bind. by rewrite E. Qed.

Lemma cleanup_ok s p t fp :
  zget (fav_stack s) 0 = Some (Some p) -> repr true (heap s) p t fp -> NoDup fp ->
  exists s' fp', fav_cleanup s = Some (s', ()) /\ repr true (heap s') p (cleaned t) fp' /\
    kept s s' /\ sublist fp' fp /\ (forall x, x ∈ fp -> x ∉ fp' -> heap s' !! x = None) /\
    (forall x, x ∉ fp -> heap s' !! x = heap s !! x).
Proof.
  intros Hroot Hr Hnd. pose proof (depth_le _ _ _ _ _ Hr Hnd) as Hd.
  assert (Hr' : repr false (heap s) p t fp) by (by apply repr_weaken_both).
  unfold fav_cleanup. rewrite (bind_some _ _ _ _ _ (get_fav_root_some _ _ Hroot)).
  rewrite (bind_some _ _ s s (S (size (heap s)))) by done.
  rewrite (bind_some _ _ _ _ _ (need_spec _ p t fp s Hr' Hd)). unfold cleaned.
  destruct (clean_b t); cbn [negb].
  - exists s, fp. split; [done|]. split; [done|]. split; [done|]. split; [done|]. done.
  - destruct (rebuild_spec _ p t fp s Hr' Hnd Hd) as (s' & fp' & E' & H). exists s', fp'. tauto.
Qed.

(** C33. [fav_cleanup] ends, for a tree of any shape on the heap: it leaves the
    entries that count, at every depth, in their order and with lines and
    folders numbered again, frees exactly the objects that are no longer in the
    tree, and touches no other object. *)
Theorem fav_cleanup_spec s p t fp :
  zget (fav_stack s) 0 = Some (Some p) -> repr true (heap s) p t fp -> NoDup fp ->
  exists s' fp', fav_cleanup s = Some (s', ()) /\ repr true (heap s') p (cleaned t) fp' /\
    kept s s' /\ sublist fp' fp /\ (forall x, x ∈ fp -> x ∉ fp' -> heap s' !! x = None) /\
    (forall x, x ∉ fp -> heap s' !! x = heap s !! x).
Proof. apply cleanup_ok. Qed.

Lemma cleaned_facts ex h p t fp : repr ex h p (cleaned t) fp -> storable t ->
  savable (cleaned t) /\ clean_b (cleaned t) = true /\ clean (cleaned t) = clean t /\
  tree_size (cleaned t) = tree_size (clean t).
Proof.
  intros Hr Hs. unfold cleaned in *. destruct (clean_b t) eqn:Hc.
  - split; [by eapply repr_savable|]. split; [done|]. split; [done|]. by rewrite tree_size_clean.
  - split; [|split; [apply clean_b_clean|split; [apply clean_idem|done]]].
    eapply repr_savable; [done|by apply storable_clean|apply clean_b_clean].
Qed.

Lemma save_ok s p t fp :
  zget (fav_stack s) 0 = Some (Some p) -> repr true (heap s) p t fp -> NoDup fp -> storable t ->
  dirty s = true ->
  exists s' fp', fav_save true true s = Some (s', (Some (le_bytes 2 FAV_VERSION ++ tree_bytes (cleaned t)), 0)) /\
    repr true (heap s') p (cleaned t) fp'.
Proof.
  intros Hroot Hr Hnd Hst Hdirty.
  destruct (cleanup_ok s p t fp Hroot Hr Hnd) as (s' & fp' & E & Hr' & Hk & Hs & _).
  destruct (cleaned_facts _ _ _ _ _ Hr' Hst) as (Hsv & Hc & _).
  assert (Hd : dirty s' = true) by (by apply Hk).
  pose proof (depth_le _ _ _ _ _ Hr' ltac:(by eapply sublist_NoDup)) as Hdep.
  pose proof (write_spec _ p (cleaned t) fp' s' Hr' Hc Hdep) as Ew.
  exists s', fp'. split; [|done]. unfold fav_save.
  rewrite (bind_some _ _ _ _ _ (get_fav_root_some _ _ Hroot)).
  rewrite (bind_some _ _ _ _ _ E). rewrite (bind_some _ _ s' s' s') by done. rewrite Hd. cbn [negb].
  rewrite (bind_some _ _ s' s' (S (size (heap s')))) by done. by rewrite (bind_some _ _ _ _ _ Ew).
Qed.

Lemma load_ok s0 u old :
  fresh s0 -> fav_stack_num s0 = 0 -> length (fav_stack s0) = 5%nat -> savable u ->
  exists s2 q fq, fav_load (Some (le_bytes 2 FAV_VERSION ++ tree_bytes u)) old s0 = Some (s2, 0) /\
    zget (fav_stack s2) 0 = Some (Some q) /\ fav_stack_num s2 = 1 /\ dirty s2 = false /\
    repr true (heap s2) q (clean u) fq /\ NoDup fq /\ fav_number s2 = tree_size u.
Proof.
  intros Hfr Hn Hst Hsv. unfold fav_load. rewrite (bind_some _ _ s0 s0 s0) by done. rewrite Hn. cbn [Z.ltb].
  change (0 <? 0) with false. cbn iota.
  set (q := next s0). set (s1 := Favs (<[q := zero_fav]> (heap s0)) (q + 1) 0 (fav_stack s0) (fav_stack_num s0)
    (dirty s0) (fav_tmp s0)).
  rewrite (bind_some _ _ _ _ _ (eq_refl : alloc zero_fav s0 = Some (_, q))).
  rewrite (bind_some _ _ _ s1 ()) by done. rewrite fread_app by done.
  destruct (read_spec (file_fuel (tree_bytes u)) u q [] s1) as (s2 & fp & E & Hr & Hg & Hnum); try done.
  { unfold file_fuel. pose proof (depth_bytes u). lia. }
  { apply lookup_insert_eq. }
  { intros x Hx. cbn in *. rewrite lookup_insert_ne by lia. apply Hfr. lia. }
  { cbn. lia. }
  rewrite app_nil_r in E. rewrite (bind_some _ _ _ _ _ E). cbn iota.
  rewrite (bind_some _ _ s2 s2 q) by done.
  destruct Hg as (_ & N & D & R & _ & Es & En & _). cbn in Es, En, Hnum, R. rewrite Hn in En.
  rewrite (bind_some _ _ s2 (with_stack (<[0%nat := Some q]> (fav_stack s2)) 1 s2) 0).
  2: { unfold fav_stack_push_fav. rewrite (bind_some _ _ s2 s2 false)
         by (unfold fav_stack_full, mbind, M_bind, get; by rewrite En).
       unfold mbind, M_bind, get. rewrite En. rewrite Es.
       destruct (fav_stack s0) as [|a l]; [done|]. unfold lift.
       pose proof (mem_write_head [a] l [Some q] eq_refl) as Em. cbn [app] in Em. by rewrite Em. }
  eexists _, q, (q :: fp). split; [done|]. cbn. rewrite Es.
  split; [by destruct (fav_stack s0)|]. split; [done|]. split; [done|]. split; [done|].
  split; [|lia]. apply list.NoDup_cons. split; [|done]. intros Hx. apply R in Hx. lia.
Qed.

(** C32. Favourites that are saved and loaded again, by any session without open
    folders, are those that count, in order and at every depth, with their
    attributes, boards and titles; the loaded tree is alone in new objects, its
    counters are exact, and [fav_number] is the number of its entries. *)
Theorem fav_save_then_load s p t fp s0 old :
  zget (fav_stack s) 0 = Some (Some p) -> repr true (heap s) p t fp -> NoDup fp -> storable t ->
  dirty s = true -> fresh s0 -> fav_stack_num s0 = 0 -> length (fav_stack s0) = 5%nat ->
  exists s1 file s2 q fq, fav_save true true s = Some (s1, (Some file, 0)) /\
    fav_load (Some file) old s0 = Some (s2, 0) /\
    zget (fav_stack s2) 0 = Some (Some q) /\ fav_stack_num s2 = 1 /\ dirty s2 = false /\
    repr true (heap s2) q (clean t) fq /\ NoDup fq /\ fav_number s2 = tree_size (clean t).
Proof.
  intros Hroot Hr Hnd Hst Hd Hfr Hn Hlen.
  destruct (save_ok s p t fp Hroot Hr Hnd Hst Hd) as (s1 & fp1 & E1 & Hr1).
  destruct (cleaned_facts _ _ _ _ _ Hr1 Hst) as (Hsv & _ & Hc & Hz).
  destruct (load_ok s0 (cleaned t) old Hfr Hn Hlen Hsv) as (s2 & q & fq & E2 & H).
  eexists s1, _, s2, q, fq. split; [exact E1|]. split; [exact E2|]. by rewrite Hc, Hz in H.
Qed.

(** C39. Moving an entry of a folder takes the visible entry at [src] out and
    puts it in at [dst], on every pair of positions, although entries that were
    removed lie between them; it keeps all entries and what is behind them. *)
Theorem move_in_folder_spec s p d l tl src dst :
  heap s !! p = Some d -> favh d = l ++ tl -> DataTail d = zlen l ->
  0 <= src < zlen (visible l) -> 0 <= dst < zlen (visible l) ->
  exists s' l', move_in_folder (Some p) src dst s = Some (s', ()) /\
    heap s' = <[p := with_favh (l' ++ tl) d]> (heap s) /\ kept s s' /\ fav_number s' = fav_number s /\
    Permutation l' l /\ visible l' = move_to (visible l) (Z.to_nat src) (Z.to_nat dst).
Proof.
  intros Hp Ef Ht Hs Hd.
  assert (Hv : zlen (visible l) <= zlen l).
  { unfold visible, zlen. pose proof (List.filter_length_le valid_item l). lia. }
  unfold move_in_folder. mstep (load_some _ _ _ Hp). rewrite Ht.
  rewrite !(proj2 (Z.leb_gt _ _)) by lia. case_if E.
  - subst dst. exists s, l. split; [done|]. rewrite <- Ef, with_favh_id, insert_id by done.
    split; [done|]. split; [done|]. split; [done|]. split; [done|]. by rewrite move_to_same.
  - rewrite (bind_some _ _ s (with_dirty true s) ()) by done.
    rewrite (bind_some _ _ (with_dirty true s) (with_dirty true s) l)
      by (unfold lift; by rewrite Ef, (mem_read_head l tl) by lia).
    destruct (shift_visible l tl src dst Hs Hd E) as (i & j & l' & E1 & E2 & E3 & Hpm & Hvis).
    unfold real_pos. rewrite !(proj2 (Z.ltb_ge _ _)) by lia. rewrite E1, E2, Ef.
    unfold lift, mbind, M_bind. rewrite E3.
    assert (Hp' : heap (with_dirty true s) !! p = Some d) by done.
    rewrite (store_some p d _ _ Hp'). eexists _, l'. split; [done|]. split; [done|].
    split; [by split_and!|]. done.
Qed.

(** C34. Adding a board to the open folder gives the entry of the board when
    the folder has one, and changes nothing; else, when there are [MAX_FAV]
    entries already, it gives none and changes nothing; else it appends an entry
    for the board, enlarging the folder when it is full, counts it, and leaves
    every other object alone. *)
Theorem fav_add_board_spec s p es fp b :
  is_open_folder s p -> repr true (heap s) p (Tree es) fp -> NoDup fp -> 1 <= b <= MAX_BOARD ->
  zlen es <= 32000 -> fits (es ++ [Leaf FAVH_FAV (Board (new_board b))]) ->
  match board_index b es 0 with
  | Some i => fav_add_board b s = Some (s, Some (p, i))
  | None =>
      if MAX_FAV <=? fav_number s then fav_add_board b s = Some (s, None)
      else exists s', fav_add_board b s = Some (s', Some (p, zlen es)) /\
        repr true (heap s') p (Tree (es ++ [Leaf FAVH_FAV (Board (new_board b))])) fp /\
        kept s s' /\ dirty s' = true /\ fav_number s' = fav_number s + 1 /\
        forall x, x <> p -> heap s' !! x = heap s !! x
  end.
Proof.
  intros Ho Hr Hnd Hb Hz Hf.
  pose proof (getboard_spec s p es fp b Ho Hr Hb) as Eg.
  unfold fav_add_board. rewrite (bind_some _ _ _ _ _ (get_current_some _ _ Ho)), (bind_some _ _ _ _ _ Eg).
  destruct (board_index b es 0) as [i|]; [done|]. cbn [option_map].
  rewrite (bind_some _ _ s s (MAX_FAV <=? fav_number s)) by done.
  destruct (MAX_FAV <=? fav_number s) eqn:Efull; [done|]. zbool.
  inversion Hr as [? d ? fpr Hp Hs Hfit He Hrs]; subst.
  destruct (reprs_items _ _ _ _ _ Hrs Hs) as (its & tl & Ef & Hi & _ & Ez).
  assert (Hzi : zlen its = zlen es) by (unfold zlen; by rewrite (reprs_length _ _ _ _ _ Hi)).
  destruct (fav_enlarge_spec p d s Hp Hs ltac:(lia) Efull)
    as (r & k & Ee & Hk & (ext & Er) & Hsr & Hlt & Ht & Hnb & Hnl & Hnf).
  set (s1 := with_heap _ s) in *. rewrite Ef in Er.
  assert (Hp1 : heap s1 !! p = Some r) by apply lookup_insert_eq.
  assert (Hs1 : forall x, x <> p -> heap s1 !! x = heap s !! x) by (intros; by apply lookup_insert_ne).
  assert (Hpf : p ∉ fpr) by (apply list.NoDup_cons in Hnd; tauto).
  destruct (tl ++ ext) as [|x rest] eqn:Etl.
  { rewrite <- app_assoc, Etl, app_nil_r in Er. rewrite Er in Hlt. lia. }
  rewrite <- app_assoc, Etl in Er.
  pose proof (append_code s1 p r its x rest b Hp1 Er ltac:(congruence)) as Ea.
  exists (after (<[p := appended r its b rest]> (heap s1)) 1 s1). split.
  - unfold fav_preappend. unfold mbind, M_bind in *. rewrite Ee, (proj2 (Z.ltb_ge _ _)) by lia.
    rewrite (load_some p r s1 Hp1). cbn [fst snd].
    destruct (store_item p (DataTail r) _ s1) as [[s2 []]|]; [|done].
    destruct (fav_increase p (DataTail r) s2) as [[s3 []]|]; [|done]. cbn [mret M_ret].
    rewrite Ea. by replace (DataTail r) with (zlen es) by congruence.
  - cbn [heap after]. split; [|split; [by split_and!|split; [done|split; [done|]]]].
    + eapply append_repr; try done; [congruence|unfold exact; by rewrite Hnb, Hnl, Hnf|].
      eapply reprs_frame; [done|]. intros y Hy. apply Hs1. set_solver.
    + intros y Hy. rewrite lookup_insert_ne by done. by apply Hs1.
Qed.

(** *** Concrete instances *)

(** A board, a board that was removed, and a folder with a line. *)
Definition ex_title : list Z := 65 :: replicate 48 0.
Definition ex_root : fav_t :=
  FavT 8 3 1 0 1 0 1
    ([FavType 1 (Board (FavBoard 3 0 0 0)); FavType 0 (Board (FavBoard 4 0 0 0));
      FavType 1 (Folder (Some (FavFolder 1 ex_title (Some 2))))] ++ replicate 5 zero_item).
Definition ex_sub : fav_t := FavT 8 1 0 1 0 1 0 (FavType 1 (Line 1) :: replicate 7 zero_item).
Definition ex_state : favs :=
  Favs (<[1 := ex_root]> (<[2 := ex_sub]> ∅)) 3 3 (Some 1 :: replicate 4 None) 1 true None.
Definition ex_tree : tree :=
  Tree [Leaf 1 (Board (FavBoard 3 0 0 0)); Leaf 0 (Board (FavBoard 4 0 0 0));
        Sub 1 1 ex_title (Tree [Leaf 1 (Line 1)])].

Lemma ex_repr : repr true (heap ex_state) 1 ex_tree [1; 2].
Proof.
  apply repr_node with ex_root; [done|by split_and!|by split_and!|by split_and!|].
  apply reprs_leaf; [done|]. apply reprs_leaf; [done|]. apply (reprs_sub _ _ _ _ _ _ _ _ _ [2] []); [|constructor].
  apply repr_node with ex_sub; [done|by split_and!|by split_and!|by split_and!|].
  apply reprs_leaf; [done|]. constructor.
Qed.

Lemma ex_storable : storable ex_tree.
Proof.
  constructor; [by repeat constructor|]. intros a f n t [E|[E|[E|[]]]]; [done|done|]. injection E as <- <- <- <-.
  constructor; [by repeat constructor|]. intros a f n t [E|[]]; done.
Qed.

Lemma fav_cleanup_spec_witness :
  exists s' fp', fav_cleanup ex_state = Some (s', ()) /\ repr true (heap s') 1 (cleaned ex_tree) fp' /\
    kept ex_state s' /\ sublist fp' [1; 2] /\ (forall x, x ∈ [1; 2] -> x ∉ fp' -> heap s' !! x = None) /\
    (forall x, x ∉ [1; 2] -> heap s' !! x = heap ex_state !! x).
Proof. apply (fav_cleanup_spec ex_state 1 ex_tree [1; 2]); [done|apply ex_repr|apply (bool_decide_unpack _); by vm_compute]. Defined.

Lemma fav_save_then_load_witness :
  exists s1 file s2 q fq, fav_save true true ex_state = Some (s1, (Some file, 0)) /\
    fav_load (Some file) None init_favs = Some (s2, 0) /\
    zget (fav_stack s2) 0 = Some (Some q) /\ fav_stack_num s2 = 1 /\ dirty s2 = false /\
    repr true (heap s2) q (clean ex_tree) fq /\ NoDup fq /\ fav_number s2 = tree_size (clean ex_tree).
Proof.
  apply (fav_save_then_load ex_state 1 ex_tree [1; 2] init_favs None); try done.
  - apply ex_repr.
  - apply (bool_decide_unpack _). by vm_compute.
  - apply ex_storable.
Defined.

(** The folder moves in front of the board, over the removed one. *)
Lemma move_in_folder_spec_witness :
  exists s' l', move_in_folder (Some 1) 1 0 ex_state = Some (s', ()) /\
    heap s' = <[1 := with_favh (l' ++ replicate 5 zero_item) ex_root]> (heap ex_state) /\ kept ex_state s' /\
    fav_number s' = fav_number ex_state /\ Permutation l' (take 3 (favh ex_root)) /\
    visible l' = move_to (visible (take 3 (favh ex_root))) (Z.to_nat 1) (Z.to_nat 0).
Proof. by apply (move_in_folder_spec ex_state 1 ex_root (take 3 (favh ex_root)) (replicate 5 zero_item) 1 0). Defined.

Lemma fav_add_board_spec_witness :
  match board_index 4 (entries ex_tree) 0 with
  | Some i => fav_add_board 4 ex_state = Some (ex_state, Some (1, i))
  | None =>
      if MAX_FAV <=? fav_number ex_state then fav_add_board 4 ex_state = Some (ex_state, None)
      else exists s', fav_add_board 4 ex_state = Some (s', Some (1, zlen (entries ex_tree))) /\
        repr true (heap s') 1 (Tree (entries ex_tree ++ [Leaf FAVH_FAV (Board (new_board 4))])) [1; 2] /\
        kept ex_state s' /\ dirty s' = true /\ fav_number s' = fav_number ex_state + 1 /\
        forall x, x <> 1 -> heap s' !! x = heap ex_state !! x
  end.
Proof.
  apply (fav_add_board_spec ex_state 1 (entries ex_tree) [1; 2] 4); try done.
  - apply ex_repr.
  - apply (bool_decide_unpack _). by vm_compute.
Defined.

(** *** What the code does not mean to do *)

(** New favourites with a folder that has a board. *)
Definition one_folder : M () :=
  _ ← fav_load None None; _ ← fav_add_folder; _ ← fav_folder_in 1; _ ← fav_add_board 5;
  fav_folder_out.

(** When the folder is removed, its board still counts in [fav_number]. *)
Example removed_folder_still_counts :
  match (_ ← one_folder; _ ← fav_remove_item 1 FAVT_FOLDER; fav_cleanup) init_favs with
  | Some (s, _) => (fav_number s, size (heap s), option_map DataTail (heap s !! 1)) = (1, 1%nat, Some 0)
  | None => False
  end.
Proof. vm_compute. reflexivity. Qed.

(** A line that is moved to a folder that has one keeps its number there: the
    two cannot be told apart. *)
Definition tagged_line : M () :=
  _ ← one_folder; _ ← fav_add_line; _ ← fav_tag 1 FAVT_LINE TRUE;
  _ ← fav_folder_in 1; _ ← fav_add_line; fav_add_all_tagged_item.
Example moved_line_collides :
  match tagged_line init_favs with
  | Some (s, _) =>
      option_map (fun d => map data (take (Z.to_nat (DataTail d)) (favh d))) (heap s !! 2) =
      Some [Board (FavBoard 5 0 0 0); Line 1; Line 1]
  | None => False
  end.
Proof. vm_compute. reflexivity. Qed.

End FavProps.
