(* ===== verification/Uhash.v ===== *)
(** The table of users in shared memory ([common/bbs/cache.c]): the slot of a
    user name, in chains that every process of the system reads and changes.

    A process is a point in its code; [step] is one atomic operation on the
    memory, as the code has them, and [sys_step] lets any process take one.
    Copying and comparing a name is one operation.  The arrays are functions of
    the index; the code tests every index it has read from memory. *)

From stdpp Require Import functions relations.
From S2P Require Import Prelude Cstr Str.

#[global] Open Scope Z_scope.
#[global] Open Scope list_scope.

Module Uhash.
Import Cstr Str.

Definition MAX_USERS : Z := 150000.
Definition HASH_BITS : Z := 16.
Definition IDLEN : Z := 12.

Record shm := Shm
  { userid : Z -> list Z; next_in_hash : Z -> Z; hash_head : Z -> Z }.

Definition set_userid (n : Z) (id : list Z) (s : shm) : shm :=
  Shm (<[n := id]> (userid s)) (next_in_hash s) (hash_head s).
Definition set_next (n x : Z) (s : shm) : shm :=
  Shm (userid s) (<[n := x]> (next_in_hash s)) (hash_head s).
Definition set_head (h x : Z) (s : shm) : shm :=
  Shm (userid s) (next_in_hash s) (<[h := x]> (hash_head s)).

(** [StringHash(id) % (1 << HASH_BITS)] *)
Definition bucket (id : list Z) : Z := StringHash id mod Z.shiftl 1 HASH_BITS.

(** The operations; a result is a number and, for a search, the name. *)
Inductive op := OpAdd (n : Z) (id : list Z) | OpRemove (n : Z) | OpSearch (id : list Z).

Inductive pc :=
  (* add_to_uhash *)
  | AddCopy (n : Z) (id : list Z)
  | AddLoad (n h : Z)
  | AddLink (n h old_head : Z)
  | AddCas (n h old_head : Z)
  (* remove_from_uhash *)
  | RemHash (n : Z)
  | RemHead (n h : Z)
  | RemNext (n h : Z)
  | RemCasHead (n h next : Z)
  | RemScan (n h times prev : Z)
  | RemSucc (n h prev : Z)
  | RemCas (n h prev succ : Z)
  (* dosearchuser *)
  | FindHead (id : list Z)
  | FindCmp (id : list Z) (times p : Z)
  | FindNext (id : list Z) (times p : Z)
  | Ret (r : Z) (rid : list Z).

Definition bad_slot (n : Z) : bool := (n <? 0) || (MAX_USERS <=? n).

(** The condition of the loops over a chain. *)
Definition go_on (times p : Z) : bool :=
  (times <? MAX_USERS) && negb (p =? -1) && (0 <=? p) && (p <? MAX_USERS).

Definition start (o : op) : pc :=
  match o with
  | OpAdd n id => if bad_slot n then Ret 0 [] else AddCopy n id
  | OpRemove n => if bad_slot n then Ret 0 [] else RemHash n
  | OpSearch id => FindHead id
  end.

Definition step (s : shm) (c : pc) : shm * pc :=
  match c with
  | AddCopy n id => (set_userid n (strlcpy (IDLEN + 1) id) s, AddLoad n (bucket id))
  | AddLoad n h => (s, AddLink n h (hash_head s h))
  | AddLink n h old_head => (set_next n old_head s, AddCas n h old_head)
  | AddCas n h old_head =>
      if hash_head s h =? old_head then (set_head h n s, Ret 0 []) else (s, AddLoad n h)
  | RemHash n => (s, RemHead n (bucket (userid s n)))
  | RemHead n h =>
      let head := hash_head s h in
      if (head =? -1) || (MAX_USERS <=? head) || (head <? 0) then (s, Ret 0 [])
      else if head =? n then (s, RemNext n h)
      else (s, RemScan n h 0 head)
  | RemNext n h => (s, RemCasHead n h (next_in_hash s n))
  | RemCasHead n h next =>
      if hash_head s h =? n then (set_head h next s, Ret 0 []) else (s, RemHead n h)
  | RemScan n h times prev =>
      if go_on times prev then
        let next := next_in_hash s prev in
        if next =? n then (s, RemSucc n h prev) else (s, RemScan n h (times + 1) next)
      else (s, Ret 0 [])
  | RemSucc n h prev => (s, RemCas n h prev (next_in_hash s n))
  | RemCas n h prev succ =>
      if next_in_hash s prev =? n then (set_next prev succ s, Ret 0 []) else (s, RemHead n h)
  | FindHead id => (s, FindCmp id 0 (hash_head s (bucket id)))
  | FindCmp id times p =>
      if go_on times p then
        if strcasecmp (userid s p) id =? 0 then
          (s, Ret (p + 1) (match id with [] => [] | _ => strlcpy (IDLEN + 1) (userid s p) end))
        else (s, FindNext id times p)
      else (s, Ret 0 [])
  | FindNext id times p => (s, FindCmp id (times + 1) (next_in_hash s p))
  | Ret r rid => (s, Ret r rid)
  end.

(** *** One process alone *)

(** [None] is the fuel: [remove_from_uhash] may start again for ever. *)
Fixpoint run (fuel : nat) (s : shm) (c : pc) : option (shm * (Z * list Z)) :=
  match c with
  | Ret r rid => Some (s, (r, rid))
  | _ =>
      match fuel with
      | O => None
      | S fuel => let '(s, c) := step s c in run fuel s c
      end
  end.

Definition add_to_uhash (fuel : nat) (n : Z) (id : list Z) (s : shm) : option shm :=
  '(s, _) ← run fuel s (start (OpAdd n id)); Some s.
Definition remove_from_uhash (fuel : nat) (n : Z) (s : shm) : option shm :=
  '(s, _) ← run fuel s (start (OpRemove n)); Some s.
Definition dosearchuser (fuel : nat) (id : list Z) (s : shm) : option (Z * list Z) :=
  '(_, r) ← run fuel s (start (OpSearch id)); Some r.
Definition searchuser (fuel : nat) (id : list Z) (s : shm) : option (Z * list Z) :=
  match id with [] => Some (0, []) | _ => dosearchuser fuel id s end.
Definition getuserid (num : Z) (s : shm) : option (list Z) :=
  if (0 <=? num - 1) && (num - 1 <? MAX_USERS) then Some (userid s (num - 1)) else None.
Definition setuserid (fuel : nat) (num : Z) (id : list Z) (s : shm) : option shm :=
  if (0 <? num) && (num <=? MAX_USERS) then
    s ← remove_from_uhash fuel (num - 1) s; add_to_uhash fuel (num - 1) id s
  else Some s.

(** *** Many processes *)

Definition sys : Type := shm * list pc.

Inductive sys_step : sys -> sys -> Prop :=
  | sys_step_at s ts i c :
      ts !! i = Some c ->
      sys_step (s, ts) ((step s c).1, <[i := (step s c).2]> ts).

(** A schedule names the process that takes each step. *)
Fixpoint schedule (w : sys) (l : list nat) : sys :=
  match l with
  | [] => w
  | i :: l =>
      match w.2 !! i with
      | Some c => schedule ((step w.1 c).1, <[i := (step w.1 c).2]> w.2) l
      | None => schedule w l
      end
  end.

End Uhash.
