(* ===== verification/UhashProps.v ===== *)
(** The properties of the table of users ([Uhash]): what each operation does
    when it runs alone, and that searches and additions by any number of
    processes, interleaved in any way, lose nothing. *)

From stdpp Require Import functions relations list_numbers.
From S2P Require Import Prelude Cstr Str Uhash.

#[global] Open Scope Z_scope.
#[global] Open Scope list_scope.

Module UhashProps.
Import Cstr Str Uhash.

(** *** Chains *)

(** The slots from [p] on are [l]. *)
Fixpoint path (s : shm) (p : Z) (l : list Z) : Prop :=
  match l with
  | [] => p = -1
  | x :: l => p = x /\ path s (next_in_hash s x) l
  end.

Definition valid_slot (p : Z) : Prop := 0 <= p < MAX_USERS.

(** The chain of bucket [h] is [C h]. *)
Definition table_ok (C : Z -> list Z) (s : shm) : Prop :=
  (forall h, path s (hash_head s h) (C h)) /\
  (forall h p, p ∈ C h -> valid_slot p /\ bucket (userid s p) = h /\ c_string (userid s p)) /\
  (forall h, NoDup (C h)).

Lemma path_frame s s' l : forall p,
  (forall x, x ∈ l -> next_in_hash s' x = next_in_hash s x) -> path s p l -> path s' p l.
Proof.
  induction l as [|x l IH]; intros p Hx; cbn; [done|]. intros [-> Hp]. split; [done|].
  rewrite Hx by set_solver. apply IH; [|done]. intros y Hy. apply Hx. set_solver.
Qed.

Lemma slots_bound l : NoDup l -> (forall p, p ∈ l -> valid_slot p) -> zlen l <= MAX_USERS.
Proof.
  intros Hnd Hv. assert (Hs : l ⊆+ seqZ 0 MAX_USERS).
  { apply NoDup_submseteq; [done|]. intros p Hp. apply elem_of_seqZ. apply Hv in Hp. unfold valid_slot in Hp. lia. }
  apply submseteq_length in Hs. rewrite length_seqZ in Hs. unfold zlen, MAX_USERS in *. lia.
Qed.

Lemma chain_bound C s h : table_ok C s -> zlen (C h) <= MAX_USERS.
Proof. intros (_ & Hv & Hn). apply slots_bound; [done|]. intros p Hp. by apply (Hv h). Qed.

Lemma go_on_in times p : 0 <= times < MAX_USERS -> valid_slot p -> go_on times p = true.
Proof.
  unfold valid_slot, go_on. intros. rewrite (proj2 (Z.ltb_lt _ _)), (proj2 (Z.eqb_neq _ _)),
    (proj2 (Z.leb_le _ _)), (proj2 (Z.ltb_lt _ _)) by lia. done.
Qed.

Lemma go_on_end times : go_on times (-1) = false.
Proof. unfold go_on. rewrite Z.eqb_refl. cbn. by rewrite andb_false_r. Qed.

(** *** Names *)

Lemma strncasecmp_eq n : forall a b, c_string a -> c_string b -> (length a < n)%nat -> (length b < n)%nat ->
  strncasecmp n a b = 0 -> map tolower a = map tolower b.
Proof.
  induction n as [|n IH]; intros a b Ha Hb Hla Hlb; [lia|]. cbn [strncasecmp].
  destruct Ha as [|x a Hx Ha], Hb as [|y b Hy Hb]; cbn [map length] in *; try done.
  - unfold tolower. destruct ((65 <=? y) && (y <=? 90)) eqn:E; zbool; lia.
  - unfold tolower. destruct ((65 <=? x) && (x <=? 90)) eqn:E; zbool; lia.
  - case_if E; [|intros; lia]. intros H. f_equal; [done|]. apply IH; [done|done|lia|lia|done].
Qed.

Lemma tolower_toupper x y : tolower x = tolower y -> toupper x = toupper y.
Proof. unfold tolower, toupper. intros. repeat case_match; zbool; try lia; repeat case_match; zbool; lia. Qed.

Lemma fnv_case a : forall b v, map tolower a = map tolower b -> fnv1a_32_strcase a v = fnv1a_32_strcase b v.
Proof.
  induction a as [|x a IH]; intros [|y b] v E; try done. injection E as Ex E. cbn [fnv1a_32_strcase].
  rewrite (tolower_toupper x y) by done. by apply IH.
Qed.

(** Two names that differ in case only are in the same bucket. *)
Lemma bucket_case a b : c_string a -> c_string b -> strcasecmp a b = 0 -> bucket a = bucket b.
Proof.
  intros Ha Hb E. unfold bucket, StringHash. f_equal. apply fnv_case.
  apply (strncasecmp_eq (S (Nat.max (length a) (length b)))); try done; lia.
Qed.

(** What a search along the slots [l] finds. *)
Fixpoint find_name (s : shm) (id l : list Z) : Z * list Z :=
  match l with
  | [] => (0, [])
  | p :: l =>
      if strcasecmp (userid s p) id =? 0 then
        (p + 1, match id with [] => [] | _ => strlcpy (IDLEN + 1) (userid s p) end)
      else find_name s id l
  end.

Lemma find_name_frame s s' id l :
  (forall p, p ∈ l -> userid s' p = userid s p) -> find_name s' id l = find_name s id l.
Proof.
  induction l as [|p l IH]; intros H; cbn; [done|]. rewrite H by set_solver.
  destruct (_ =? 0); [done|]. apply IH. set_solver.
Qed.

(** *** One process alone *)

Definition not_ret (c : pc) : Prop := match c with Ret _ _ => False | _ => True end.

Lemma run_step fuel s c : not_ret c -> run (S fuel) s c = run fuel (step s c).1 (step s c).2.
Proof. intros H. destruct c; try done; cbn [run]; by destruct (step s _). Qed.

Lemma run_ret fuel s r rid : run fuel s (Ret r rid) = Some (s, (r, rid)).
Proof. by destruct fuel. Qed.

Ltac next_step := rewrite run_step by exact I; cbn [step fst snd].

Lemma search_run s id suf : forall times p fuel,
  path s p suf -> (forall q, q ∈ suf -> valid_slot q) -> 0 <= times -> times + zlen suf <= MAX_USERS ->
  (2 * length suf + 1 <= fuel)%nat ->
  run fuel s (FindCmp id times p) = Some (s, find_name s id suf).
Proof.
  induction suf as [|x suf IH]; intros times p fuel Hp Hv H0 Ht Hf; cbn [length path find_name] in *.
  - subst p. destruct fuel as [|fuel]; [lia|]. next_step. rewrite go_on_end. apply run_ret.
  - destruct Hp as [-> Hp]. rewrite zlen_cons in Ht. pose proof (zlen_nonneg suf).
    destruct fuel as [|[|fuel]]; [lia|lia|].
    next_step. rewrite go_on_in by (lia || (apply Hv; set_solver)).
    case_match; [apply run_ret|]. cbn [snd fst]. next_step. apply IH; try done; [|lia|lia|lia].
    intros q Hq. apply Hv. set_solver.
Qed.

Lemma search_spec C s id fuel :
  table_ok C s -> (2 * Z.to_nat MAX_USERS + 2 <= fuel)%nat ->
  dosearchuser fuel id s = Some (find_name s id (C (bucket id))).
Proof.
  intros Hok Hf. pose proof (chain_bound C s (bucket id) Hok) as Hb. destruct Hok as (Hp & Hv & _).
  unfold dosearchuser, start. destruct fuel as [|fuel]; [lia|]. next_step.
  rewrite (search_run s id (C (bucket id))); [done|apply Hp|intros q Hq; by apply (Hv (bucket id))|done|lia|].
  unfold zlen in Hb. lia.
Qed.

(** The chain without the slot [n]. *)
Definition without (n : Z) (l : list Z) : list Z := List.filter (fun p => negb (p =? n)) l.

Lemma without_notin n l : n ∉ l -> without n l = l.
Proof.
  unfold without. induction l as [|x l IH]; intros H; [done|]. cbn [List.filter].
  rewrite (proj2 (Z.eqb_neq _ _)) by set_solver. cbn [negb]. f_equal. apply IH. set_solver.
Qed.

Lemma elem_of_without n l p : p ∈ without n l <-> p ∈ l /\ p <> n.
Proof.
  unfold without. rewrite !list_elem_of_In, filter_In, negb_true_iff, Z.eqb_neq. done.
Qed.

Lemma without_NoDup n l : NoDup l -> NoDup (without n l).
Proof.
  induction 1 as [|x l Hx Hl IH]; [constructor|]. unfold without in *. cbn [List.filter].
  destruct (negb (x =? n)); [|done]. constructor; [|done]. fold (without n l). rewrite elem_of_without. tauto.
Qed.

Lemma without_app n a b : without n (a ++ b) = without n a ++ without n b.
Proof. apply List.filter_app. Qed.

Lemma without_cons n b : without n (n :: b) = without n b.
Proof. unfold without. cbn [List.filter]. by rewrite Z.eqb_refl. Qed.

(** [n] is taken out behind [prev]. *)
Lemma path_unlink s prev n b : forall a p,
  NoDup (a ++ prev :: n :: b) -> path s p (a ++ prev :: n :: b) ->
  path (set_next prev (next_in_hash s n) s) p (a ++ prev :: b).
Proof.
  induction a as [|x a IH]; intros p Hnd Hp; cbn [app path] in *.
  - destruct Hp as (-> & _ & Hp). split; [done|]. cbn. rewrite fn_lookup_insert.
    apply path_frame with s; [|done]. intros y Hy. cbn. apply fn_lookup_insert_ne.
    apply list.NoDup_cons in Hnd as [Hnd _]. set_solver.
  - destruct Hp as [-> Hp]. apply list.NoDup_cons in Hnd as [Hx Hnd]. split; [done|].
    cbn. rewrite fn_lookup_insert_ne by set_solver. by apply IH.
Qed.

Lemma path_next s p a x y b : path s p (a ++ x :: y :: b) -> next_in_hash s x = y.
Proof. revert p. induction a as [|z a IH]; intros p; cbn; [by intros (_ & -> & _)|]. intros [_ H]. by eapply IH. Qed.

Lemma path_end s p a x : path s p (a ++ [x]) -> next_in_hash s x = -1.
Proof. revert p. induction a as [|z a IH]; intros p; cbn; [by intros [_ ->]|]. intros [_ H]. by eapply IH. Qed.

Lemma rem_scan_run s n h p rest : forall pre times prev fuel,
  path s p (pre ++ prev :: rest) -> NoDup (pre ++ prev :: rest) ->
  (forall q, q ∈ prev :: rest -> valid_slot q) -> prev <> n -> valid_slot n ->
  0 <= times -> times + zlen (prev :: rest) <= MAX_USERS -> (length rest + 4 <= fuel)%nat ->
  exists s', run fuel s (RemScan n h times prev) = Some (s', (0, [])) /\
    path s' p (pre ++ prev :: without n rest) /\ hash_head s' = hash_head s /\ userid s' = userid s /\
    (forall x, x ∉ pre ++ prev :: rest -> next_in_hash s' x = next_in_hash s x).
Proof.
  induction rest as [|x rest IH]; intros pre times prev fuel Hp Hnd Hv Hne Hn H0 Ht Hf;
    rewrite !zlen_cons in Ht; destruct fuel as [|fuel]; try lia; next_step.
  - rewrite go_on_in by ((change (zlen []) with 0 in Ht; lia) || (apply Hv; set_solver)).
    rewrite (path_end _ _ _ _ Hp). unfold valid_slot in Hn. rewrite (proj2 (Z.eqb_neq _ _)) by lia.
    cbn [fst snd]. destruct fuel as [|fuel]; [cbn in Hf; lia|]. next_step. rewrite go_on_end. cbn [fst snd].
    rewrite run_ret. exists s. done.
  - pose proof (zlen_nonneg rest). rewrite go_on_in by (lia || (apply Hv; set_solver)).
    rewrite (path_next _ _ _ _ _ _ Hp). destruct (x =? n) eqn:Ex; zbool; cbn [fst snd].
    + subst x. cbn [length] in Hf. destruct fuel as [|[|fuel]]; try lia. next_step. next_step.
      rewrite (path_next _ _ _ _ _ _ Hp), Z.eqb_refl. cbn [fst snd]. rewrite run_ret.
      eexists. split; [done|]. split.
      * rewrite without_cons, without_notin; [by apply path_unlink|].
        apply list.NoDup_app in Hnd as (_ & _ & Hnd). apply list.NoDup_cons in Hnd as [_ Hnd].
        by apply list.NoDup_cons in Hnd as [Hnd _].
      * split; [done|]. split; [done|]. intros y Hy. cbn. apply fn_lookup_insert_ne. set_solver.
    + cbn [length] in Hf.
      assert (Ea : pre ++ prev :: x :: rest = (pre ++ [prev]) ++ x :: rest) by (by rewrite <- app_assoc).
      rewrite Ea in Hp, Hnd.
      destruct (IH (pre ++ [prev]) (times + 1) x fuel Hp Hnd) as (s' & E & Hp' & Hh & Hu & Hx);
        [intros q Hq; apply Hv; set_solver|done|done|lia|rewrite zlen_cons; lia|lia|].
      exists s'. split; [done|]. unfold without in *. cbn [List.filter]. rewrite (proj2 (Z.eqb_neq _ _)) by done.
      cbn [negb]. rewrite <- app_assoc in Hp'. rewrite Ea. done.
Qed.

(** Only the chain of the bucket of its name can hold a slot. *)
Lemma other_chain C s n h : table_ok C s -> h <> bucket (userid s n) -> n ∉ C h.
Proof. intros (_ & Hv & _) Hne Hin. by destruct (Hv _ _ Hin) as (_ & E & _). Qed.

(** A memory whose chain [h] is new. *)
Lemma table_update C s s' n h :
  table_ok C s -> h = bucket (userid s n) -> userid s' = userid s ->
  (forall h', h' <> h -> hash_head s' h' = hash_head s h') ->
  (forall x, x ∉ C h -> next_in_hash s' x = next_in_hash s x) ->
  path s' (hash_head s' h) (without n (C h)) ->
  table_ok (fun h => without n (C h)) s'.
Proof.
  intros Hok -> Hu Hh Hn Hp. pose proof Hok as (Hp0 & Hv & Hnd). split; [|split].
  - intros h'. destruct (decide (h' = bucket (userid s n))) as [->|Hne]; [done|].
    rewrite Hh, without_notin by (done || by apply (other_chain C s)).
    apply path_frame with s; [|done]. intros x Hx. apply Hn. intros Hx'.
    destruct (Hv _ _ Hx) as (_ & E1 & _), (Hv _ _ Hx') as (_ & E2 & _). congruence.
  - intros h' p [Hin _]%elem_of_without. rewrite Hu. by apply Hv.
  - intros h'. by apply without_NoDup.
Qed.

Lemma remove_spec C s n fuel :
  table_ok C s -> valid_slot n -> (Z.to_nat MAX_USERS + 5 <= fuel)%nat ->
  exists s', remove_from_uhash fuel n s = Some s' /\ table_ok (fun h => without n (C h)) s' /\
    userid s' = userid s.
Proof.
  intros Hok Hn Hf. unfold remove_from_uhash, start, bad_slot. pose proof Hn as Hn'. unfold valid_slot in Hn'.
  rewrite (proj2 (Z.ltb_ge _ _)), (proj2 (Z.leb_gt _ _)) by lia. cbn [orb].
  set (h := bucket (userid s n)). pose proof (chain_bound C s h Hok) as Hb.
  pose proof Hok as (Hp & Hv & Hnd). specialize (Hp h). specialize (Hnd h).
  do 2 (destruct fuel as [|fuel]; [lia|]). do 2 next_step. fold h.
  destruct (C h) as [|x l] eqn:EC; cbn [path] in Hp.
  - rewrite Hp, Z.eqb_refl. cbn [orb fst snd]. rewrite run_ret. cbn.
    exists s. split; [done|]. split; [|done]. apply (table_update C s s n h); try done. by rewrite EC, Hp.
  - destruct Hp as [Hx Hp]. rewrite Hx.
    assert (Hvx : valid_slot x) by (apply (Hv h); rewrite EC; apply list.elem_of_cons; by left).
    unfold valid_slot in Hvx.
    assert (E1 : (x =? -1) || (MAX_USERS <=? x) || (x <? 0) = false) by (clear - Hvx; lia).
    rewrite E1. destruct (Z.eqb_spec x n) as [->|Ex]; cbn [fst snd].
    + do 2 (destruct fuel as [|fuel]; [lia|]). do 2 next_step. rewrite Hx, Z.eqb_refl. cbn [fst snd].
      rewrite run_ret. cbn [mbind option_bind]. eexists. split; [done|]. split; [|done].
      apply (table_update C s _ n h); try done.
      * intros h' Hne. cbn. by apply fn_lookup_insert_ne.
      * cbn. rewrite fn_lookup_insert, EC, without_cons, without_notin; [by apply path_frame with s|].
        by apply list.NoDup_cons in Hnd as [Hnd _].
    + rewrite zlen_cons in Hb.
      destruct (rem_scan_run s n h x l [] 0 x fuel) as (s' & E & Hp' & Hh & Hu & Hx');
        [by split|done|intros q Hq; apply (Hv h); by rewrite EC|done|done|done|rewrite zlen_cons; lia
        |unfold zlen in Hb; lia|].
      rewrite E. cbn [mbind option_bind]. exists s'. split; [done|]. split; [|done].
      cbn [app] in Hp', Hx'. apply (table_update C s s' n h); try done.
      * intros h' _. by rewrite Hh.
      * by rewrite EC.
      * rewrite EC, Hh, Hx. unfold without in *. cbn [List.filter]. by rewrite (proj2 (Z.eqb_neq _ _)) by done.
Qed.

(** The table after the slot [n] is pushed for [id]. *)
Definition pushed (n : Z) (id : list Z) (C : Z -> list Z) (h : Z) : list Z :=
  if decide (h = bucket id) then n :: C h else C h.

Lemma strlcpy_id n id : zlen id <= n -> strlcpy (n + 1) id = id.
Proof. intros H. unfold strlcpy. apply take_ge. unfold zlen in H. lia. Qed.

Lemma table_push C s n id :
  table_ok C s -> valid_slot n -> (forall h, n ∉ C h) -> userid s n = id -> c_string id ->
  next_in_hash s n = hash_head s (bucket id) ->
  table_ok (pushed n id C) (set_head (bucket id) n s).
Proof.
  intros (Hp & Hv & Hnd) Hn Hfree Hu Hc Hnx. split; [|split]; unfold pushed.
  - intros h. cbn. destruct (decide (h = bucket id)) as [->|Hne].
    + rewrite fn_lookup_insert. split; [done|]. cbn [next_in_hash set_head]. rewrite Hnx.
      apply path_frame with s; [done|apply Hp].
    + rewrite fn_lookup_insert_ne by done. apply path_frame with s; [done|apply Hp].
  - intros h p Hin. cbn. destruct (decide (h = bucket id)) as [->|Hne]; [|by apply Hv].
    apply list.elem_of_cons in Hin as [->|Hin]; [by rewrite Hu|by apply Hv].
  - intros h. destruct (decide (h = bucket id)) as [->|Hne]; [|done]. by apply list.NoDup_cons.
Qed.

(** Writing to a slot that no chain has changes no chain. *)
Lemma table_free C s s' n :
  table_ok C s -> (forall h, n ∉ C h) -> hash_head s' = hash_head s ->
  (forall x, x <> n -> userid s' x = userid s x) ->
  (forall x, x <> n -> next_in_hash s' x = next_in_hash s x) -> table_ok C s'.
Proof.
  intros (Hp & Hv & Hnd) Hfree Hh Hu Hx.
  assert (Hne : forall h p, p ∈ C h -> p <> n) by (intros h p Hin ->; by apply (Hfree h)).
  split; [|split; [|done]].
  - intros h. rewrite Hh. apply path_frame with s; [|apply Hp]. intros x Hin. apply Hx. by apply (Hne h).
  - intros h p Hin. rewrite Hu by (by apply (Hne h)). by apply Hv.
Qed.

Lemma uhash_add_spec C s n id fuel :
  table_ok C s -> valid_slot n -> (forall h, n ∉ C h) -> c_string id -> zlen id <= IDLEN -> (4 <= fuel)%nat ->
  exists s', add_to_uhash fuel n id s = Some s' /\ table_ok (pushed n id C) s' /\
    userid s' = <[n := id]> (userid s).
Proof.
  intros Hok Hn Hfree Hc Hl Hf. unfold add_to_uhash, start, bad_slot. pose proof Hn as Hn'. unfold valid_slot in Hn'.
  rewrite (proj2 (Z.ltb_ge _ _)), (proj2 (Z.leb_gt _ _)) by lia. cbn [orb].
  do 4 (destruct fuel as [|fuel]; [lia|]). do 4 next_step. cbn [set_userid set_next hash_head].
  rewrite Z.eqb_refl. cbn [fst snd]. rewrite run_ret, strlcpy_id by done. cbn [mbind option_bind].
  eexists. split; [done|]. split; [|done]. apply table_push; try done.
  - apply (table_free C s _ n); try done.
    + intros x Hx. cbn. by apply fn_lookup_insert_ne.
    + intros x Hx. cbn. by apply fn_lookup_insert_ne.
  - cbn. apply fn_lookup_insert.
  - cbn. apply fn_lookup_insert.
Qed.

(** Enough for any operation on a table that is well formed. *)
Definition enough (fuel : nat) : Prop := (2 * Z.to_nat MAX_USERS + 5 <= fuel)%nat.

Lemma find_name_hit s id l p rid :
  find_name s id l = (p, rid) -> p <> 0 -> exists q, q ∈ l /\ p = q + 1 /\ strcasecmp (userid s q) id = 0.
Proof.
  induction l as [|x l IH]; cbn [find_name]; [intros [= <- <-]; done|].
  case_match eqn:E; zbool.
  - intros [= <- <-] _. exists x. split; [by apply list.elem_of_cons; left|done].
  - intros H Hne. destruct (IH H Hne) as (q & Hq & ? & ?). exists q. split; [by apply list.elem_of_cons; right|done].
Qed.

Lemma find_name_miss s id l rid :
  (forall p, p ∈ l -> valid_slot p) -> find_name s id l = (0, rid) ->
  forall q, q ∈ l -> strcasecmp (userid s q) id <> 0.
Proof.
  induction l as [|x l IH]; cbn [find_name]; intros Hv H q Hq; [by apply not_elem_of_nil in Hq|].
  apply list.elem_of_cons in Hq. case_match eqn:E; zbool.
  - injection H as H _. assert (Hx : valid_slot x) by (apply Hv; apply list.elem_of_cons; by left).
    unfold valid_slot in Hx. lia.
  - destruct Hq as [->|Hq]; [done|]. eapply IH; try done. intros p Hp. apply Hv. apply list.elem_of_cons. by right.
Qed.

(** In a table that is well formed a search for a name ends and gives a slot
    of the table with the name, whatever its case, and 0 exactly when no slot of
    any chain has it. *)
Theorem dosearchuser_spec C s id fuel :
  table_ok C s -> c_string id -> enough fuel ->
  exists r rid, dosearchuser fuel id s = Some (r, rid) /\
    (r = 0 -> forall h p, p ∈ C h -> strcasecmp (userid s p) id <> 0) /\
    (r <> 0 -> r - 1 ∈ C (bucket id) /\ strcasecmp (userid s (r - 1)) id = 0).
Proof.
  intros Hok Hc Hf. unfold enough in Hf. pose proof (search_spec C s id fuel Hok ltac:(lia)) as E.
  destruct (find_name s id (C (bucket id))) as [r rid] eqn:Ef. exists r, rid. split; [done|].
  destruct Hok as (_ & Hv & _). split.
  - intros -> h p Hp E0. destruct (Hv h p Hp) as (_ & Hb & Hcp).
    rewrite (bucket_case _ _ Hcp Hc E0) in Hb. subst h. revert E0.
    eapply find_name_miss; [|exact Ef|done]. intros q Hq. by apply (Hv (bucket id)).
  - intros Hne. destruct (find_name_hit _ _ _ _ _ Ef Hne) as (q & Hq & -> & Hs).
    by replace (q + 1 - 1) with q by lia.
Qed.

Lemma setuserid_ok C s num id fuel :
  table_ok C s -> 1 <= num <= MAX_USERS -> c_string id -> zlen id <= IDLEN -> enough fuel ->
  exists s', setuserid fuel num id s = Some s' /\
    table_ok (pushed (num - 1) id (fun h => without (num - 1) (C h))) s' /\
    userid s' = <[num - 1 := id]> (userid s).
Proof.
  intros Hok Hn Hc Hl Hf. unfold enough in Hf. unfold setuserid.
  assert (Hb : (0 <? num) && (num <=? MAX_USERS) = true) by lia. rewrite Hb.
  assert (Hv : valid_slot (num - 1)) by (unfold valid_slot; lia).
  destruct (remove_spec C s (num - 1) fuel Hok Hv ltac:(lia)) as (s1 & E1 & Hok1 & Hu1).
  destruct (uhash_add_spec _ s1 (num - 1) id fuel Hok1 Hv) as (s2 & E2 & Hok2 & Hu2); try done; [|lia|].
  { intros h. rewrite elem_of_without. tauto. }
  rewrite E1. cbn [mbind option_bind]. exists s2. by rewrite Hu2, Hu1.
Qed.

(** C31. Giving a slot a new name ends, keeps the table well formed, takes the
    slot out of the chain of its old name and puts it in that of the new one:
    every search then finds this slot when the names agree but for case, and
    what it found before, less this slot, when they do not. *)
Theorem setuserid_spec C s num id fuel :
  table_ok C s -> 1 <= num <= MAX_USERS -> c_string id -> zlen id <= IDLEN -> enough fuel ->
  exists s', setuserid fuel num id s = Some s' /\
    table_ok (pushed (num - 1) id (fun h => without (num - 1) (C h))) s' /\
    forall id', c_string id' ->
      dosearchuser fuel id' s' =
        Some (if strcasecmp id id' =? 0 then (num, match id' with [] => [] | _ => id end)
              else find_name s id' (without (num - 1) (C (bucket id')))).
Proof.
  intros Hok Hn Hc Hl Hf. destruct (setuserid_ok C s num id fuel Hok Hn Hc Hl Hf) as (s' & E & Hok' & Hu).
  exists s'. split; [done|]. split; [done|]. intros id' Hc'. unfold enough in Hf.
  rewrite (search_spec _ s' id' fuel Hok') by lia. f_equal.
  assert (Hr : find_name s' id' (without (num - 1) (C (bucket id'))) =
               find_name s id' (without (num - 1) (C (bucket id')))).
  { apply find_name_frame. intros p [_ Hp]%elem_of_without. rewrite Hu. by apply fn_lookup_insert_ne. }
  unfold pushed. destruct (strcasecmp id id' =? 0) eqn:Es; zbool.
  - rewrite (decide_True (P := bucket id' = bucket id)) by (symmetry; by apply bucket_case).
    cbn [find_name]. rewrite Hu, fn_lookup_insert, Es. cbn [Z.eqb]. rewrite strlcpy_id by done.
    f_equal. lia.
  - destruct (decide _) as [_|_]; [|done]. cbn [find_name]. rewrite Hu, fn_lookup_insert.
    rewrite (proj2 (Z.eqb_neq _ _)) by done. exact Hr.
Qed.

(** *** Additions and searches by many processes *)

Definition free_slot (C : Z -> list Z) (n : Z) : Prop := valid_slot n /\ forall h, n ∉ C h.

(** A process that started at [c0], on the table [C0] of [s0], is at [c] now that
    the table is [C] in [s]. *)
Inductive thread_ok (C0 : Z -> list Z) (s0 : shm) (C : Z -> list Z) (s : shm) : pc -> pc -> Prop :=
  | ok_copy n id : free_slot C n -> thread_ok C0 s0 C s (AddCopy n id) (AddCopy n id)
  | ok_load n id :
      free_slot C n -> userid s n = id -> thread_ok C0 s0 C s (AddCopy n id) (AddLoad n (bucket id))
  | ok_link n id old :
      free_slot C n -> userid s n = id -> thread_ok C0 s0 C s (AddCopy n id) (AddLink n (bucket id) old)
  | ok_cas n id old :
      free_slot C n -> userid s n = id -> next_in_hash s n = old ->
      thread_ok C0 s0 C s (AddCopy n id) (AddCas n (bucket id) old)
  | ok_added n id :
      n ∈ C (bucket id) -> userid s n = id -> thread_ok C0 s0 C s (AddCopy n id) (Ret 0 [])
  | ok_head id : thread_ok C0 s0 C s (FindHead id) (FindHead id)
  | ok_cmp id times p pre suf :
      C (bucket id) = pre ++ suf -> path s p suf -> 0 <= times -> times + zlen suf <= MAX_USERS ->
      (forall q, q ∈ C0 (bucket id) -> q ∈ suf \/ strcasecmp (userid s0 q) id <> 0) ->
      thread_ok C0 s0 C s (FindHead id) (FindCmp id times p)
  | ok_next id times p pre suf :
      C (bucket id) = pre ++ p :: suf -> path s p (p :: suf) -> 0 <= times ->
      times + zlen (p :: suf) <= MAX_USERS ->
      (forall q, q ∈ C0 (bucket id) -> q ∈ suf \/ strcasecmp (userid s0 q) id <> 0) ->
      thread_ok C0 s0 C s (FindHead id) (FindNext id times p)
  | ok_found id p rid :
      p ∈ C (bucket id) -> strcasecmp (userid s p) id = 0 ->
      thread_ok C0 s0 C s (FindHead id) (Ret (p + 1) rid)
  | ok_none id :
      (forall q, q ∈ C0 (bucket id) -> strcasecmp (userid s0 q) id <> 0) ->
      thread_ok C0 s0 C s (FindHead id) (Ret 0 []).

(** The slot a process adds. *)
Definition added (c : pc) : option Z := match c with AddCopy n _ => Some n | _ => None end.

Definition good_start (c : pc) : Prop :=
  match c with
  | AddCopy n id => valid_slot n /\ c_string id /\ zlen id <= IDLEN
  | FindHead id => c_string id
  | _ => False
  end.

Definition distinct (ts : list pc) : Prop :=
  forall i j ci cj n, ts !! i = Some ci -> ts !! j = Some cj -> added ci = Some n -> added cj = Some n -> i = j.

Record inv (C0 : Z -> list Z) (s0 : shm) (ts0 : list pc) (C : Z -> list Z) (w : sys) : Prop :=
  { inv_table : table_ok C w.1;
    inv_grow : forall h, C0 h `suffix_of` C h;
    inv_names : forall h q, q ∈ C0 h -> userid w.1 q = userid s0 q;
    inv_threads : Forall2 (thread_ok C0 s0 C w.1) ts0 w.2 }.

(** One step of another process, which adds [n] or only reads. *)
Lemma thread_mono C0 s0 C s C' s' n c0 c :
  thread_ok C0 s0 C s c0 c -> added c0 <> Some n ->
  (forall h, n ∉ C h) ->
  (forall h, exists l, C' h = l ++ C h /\ forall x, x ∈ l -> x = n) ->
  (forall x, x <> n -> userid s' x = userid s x) ->
  (forall x, x <> n -> next_in_hash s' x = next_in_hash s x) ->
  thread_ok C0 s0 C' s' c0 c.
Proof.
  intros Hok Hne Hfree HC Hu Hx.
  assert (Hin : forall h x, x ∈ C h -> x ∈ C' h /\ x <> n).
  { intros h x Hxin. destruct (HC h) as (l & -> & _). split; [apply list.elem_of_app; by right|].
    intros ->. by apply (Hfree h). }
  assert (Hfs : forall m, m <> n -> free_slot C m -> free_slot C' m).
  { intros m Hm [Hv Hf]. split; [done|]. intros h. destruct (HC h) as (l & -> & Hl).
    rewrite list.elem_of_app. intros [Hml|Hmc]; [by apply Hl in Hml|by apply (Hf h)]. }
  assert (Hps : forall h p pre suf, C h = pre ++ suf -> path s p suf -> path s' p suf).
  { intros h p pre suf E Hp. apply path_frame with s; [|done]. intros x Hxs. apply Hx.
    apply (Hin h). rewrite E. apply list.elem_of_app. by right. }
  assert (Hsuf : forall h pre suf, C h = pre ++ suf -> exists pre', C' h = pre' ++ suf).
  { intros h pre suf E. destruct (HC h) as (l & -> & _). exists (l ++ pre). by rewrite E, app_assoc. }
  destruct Hok as [m id Hf|m id Hf Hi|m id old Hf Hi|m id old Hf Hi Ho|m id Hf Hi|id
    |id times p pre suf E Hp H0 Ht Hq|id times p pre suf E Hp H0 Ht Hq|id p rid Hp Hs|id Hq];
    cbn [added] in Hne.
  all: try (assert (Hm : m <> n) by congruence).
  - constructor. auto.
  - constructor; [auto|by rewrite Hu].
  - constructor; [auto|by rewrite Hu].
  - constructor; [auto|by rewrite Hu|by rewrite Hx].
  - constructor; [by apply Hin|by rewrite Hu].
  - constructor.
  - destruct (Hsuf _ _ _ E) as [pre' E']. econstructor; eauto.
  - destruct (Hsuf _ _ _ E) as [pre' E']. econstructor; eauto.
  - destruct (Hin _ _ Hp). constructor; [done|by rewrite Hu].
  - by constructor.
Qed.

(** The process [i] goes on to [c'], with [n] as the only slot it touches. *)
Lemma inv_update C0 s0 ts0 C s ts i c0 c' C' s' n :
  inv C0 s0 ts0 C (s, ts) -> ts0 !! i = Some c0 ->
  (forall j cj, ts0 !! j = Some cj -> j <> i -> added cj <> Some n) ->
  (forall h, n ∉ C h) ->
  (forall h, exists l, C' h = l ++ C h /\ forall x, x ∈ l -> x = n) ->
  (forall x, x <> n -> userid s' x = userid s x) ->
  (forall x, x <> n -> next_in_hash s' x = next_in_hash s x) ->
  table_ok C' s' -> thread_ok C0 s0 C' s' c0 c' ->
  inv C0 s0 ts0 C' (s', <[i := c']> ts).
Proof.
  intros [Ht Hg Hnm Hth] Hi Hother Hfree HC Hu Hx Ht' Hc. cbn [fst snd] in *. split; cbn [fst snd].
  - done.
  - intros h. destruct (HC h) as (l & -> & _). by apply suffix_app_r.
  - intros h q Hq. rewrite Hu; [by apply (Hnm h)|]. intros ->. apply (Hfree h).
    destruct (Hg h) as [l ->]. apply list.elem_of_app. by right.
  - apply Forall2_lookup. intros j. rewrite Forall2_lookup in Hth. specialize (Hth j).
    destruct (decide (j = i)) as [->|Hne].
    + rewrite Hi in Hth |- *. inversion Hth as [? c Hcc E1 E2|]; subst.
      rewrite list_lookup_insert_eq by (apply lookup_lt_Some with c; done). by constructor.
    + rewrite list_lookup_insert_ne by done.
      destruct (ts0 !! j) as [cj|] eqn:Ej; inversion Hth as [? c Hcc E1 E2|E1 E2]; subst; constructor.
      eapply thread_mono; eauto.
Qed.

Section Steps.
Variables (C0 : Z -> list Z) (s0 : shm) (ts0 : list pc).
Hypothesis Hgood : Forall good_start ts0.
Hypothesis Hdist : distinct ts0.

Lemma good_at i c : ts0 !! i = Some c -> good_start c.
Proof. intros H. by apply (Forall_lookup_1 _ _ _ _ Hgood H). Qed.

Lemma added_once i j n id cj :
  ts0 !! i = Some (AddCopy n id) -> ts0 !! j = Some cj -> j <> i -> added cj <> Some n.
Proof. intros Hi Hj Hne E. apply Hne. by apply (Hdist j i cj (AddCopy n id) n). Qed.

Lemma never_added j cj : ts0 !! j = Some cj -> added cj <> Some (-1).
Proof.
  intros Hj E. apply good_at in Hj. destruct cj; try done. injection E as ->. destruct Hj as [Hv _].
  unfold valid_slot in Hv. lia.
Qed.

Lemma same_table (C : Z -> list Z) n h : exists l, C h = l ++ C h /\ forall x : Z, x ∈ l -> x = n.
Proof. exists []. split; [done|]. intros x Hx. by apply not_elem_of_nil in Hx. Qed.

(** A step that only reads. *)
Lemma read_step C s ts i c0 c' :
  inv C0 s0 ts0 C (s, ts) -> ts0 !! i = Some c0 -> thread_ok C0 s0 C s c0 c' ->
  inv C0 s0 ts0 C (s, <[i := c']> ts).
Proof.
  intros Hinv Hi Hc. apply (inv_update C0 s0 ts0 C s ts i c0 c' C s (-1)); try done.
  - intros j cj Hj _. by eapply never_added.
  - intros h Hin. destruct Hinv as [(_ & Hv & _) _ _ _]. destruct (Hv _ _ Hin) as [H _].
    unfold valid_slot in H. lia.
  - intros h. apply same_table.
  - apply Hinv.
Qed.

Lemma add_step C s ts i n id c :
  inv C0 s0 ts0 C (s, ts) -> ts0 !! i = Some (AddCopy n id) -> thread_ok C0 s0 C s (AddCopy n id) c ->
  exists C', inv C0 s0 ts0 C' ((step s c).1, <[i := (step s c).2]> ts).
Proof.
  intros Hinv Hi Hc. pose proof (good_at _ _ Hi) as (Hv & Hcs & Hl).
  assert (Ho : forall j cj, ts0 !! j = Some cj -> j <> i -> added cj <> Some n) by (intros; by eapply added_once).
  pose proof (inv_table _ _ _ _ _ Hinv) as Ht. cbn in Ht.
  inversion Hc as [? ? Hf|? ? Hf Hu|? ? old Hf Hu|? ? old Hf Hu Hn|? ? Hin Hu|?|?|?|?|?]; subst; cbn [step].
  - exists C. rewrite strlcpy_id by done. cbn [fst snd].
    assert (Hx : forall x, x <> n -> userid (set_userid n id s) x = userid s x)
      by (intros; cbn; by apply fn_lookup_insert_ne).
    apply (inv_update C0 s0 ts0 C s ts i _ _ C _ n Hinv Hi Ho); try done; [apply Hf|intros; apply same_table| |].
    + apply (table_free C s _ n); try done. apply Hf.
    + constructor; [done|]. cbn. apply fn_lookup_insert.
  - exists C. cbn [fst snd]. apply (read_step C s ts i (AddCopy n (userid s n))); try done. by constructor.
  - exists C. cbn [fst snd].
    assert (Hx : forall x, x <> n -> next_in_hash (set_next n old s) x = next_in_hash s x)
      by (intros; cbn; by apply fn_lookup_insert_ne).
    apply (inv_update C0 s0 ts0 C s ts i _ _ C _ n Hinv Hi Ho); try done; [apply Hf|intros; apply same_table| |].
    + apply (table_free C s _ n); try done. apply Hf.
    + constructor; try done. cbn. apply fn_lookup_insert.
  - case_match eqn:E; zbool; cbn [fst snd].
    + exists (pushed n (userid s n) C).
      apply (inv_update C0 s0 ts0 C s ts i _ _ _ _ n Hinv Hi Ho); try done; [apply Hf| | |].
      * intros h. unfold pushed. destruct (decide _); [|apply same_table]. exists [n]. split; [done|].
        intros x Hx. by apply list_elem_of_singleton in Hx.
      * by apply table_push; try apply Hf.
      * constructor; [|done]. unfold pushed. rewrite decide_True by done. apply list.elem_of_cons. by left.
    + exists C. apply (read_step C s ts i (AddCopy n (userid s n))); try done. by constructor.
  - exists C. cbn [fst snd]. apply (read_step C s ts i (AddCopy n (userid s n))); try done.
Qed.

Lemma find_step C s ts i id c :
  inv C0 s0 ts0 C (s, ts) -> ts0 !! i = Some (FindHead id) -> thread_ok C0 s0 C s (FindHead id) c ->
  (step s c).1 = s /\ thread_ok C0 s0 C s (FindHead id) (step s c).2.
Proof.
  intros Hinv Hi Hc. pose proof (inv_table _ _ _ _ _ Hinv) as Ht. cbn in Ht.
  pose proof Ht as (Hp & Hv & _).
  inversion Hc as [|?|?|?|?|?|? times p pre suf E Hps H0 Hb Hq|? times p pre suf E Hps H0 Hb Hq|? p rid Hin Hs|? Hq];
    subst; cbn [step].
  - split; [done|]. cbn [snd]. eapply (ok_cmp _ _ _ _ id 0 _ [] (C (bucket id))); try done.
    + pose proof (chain_bound C s (bucket id) Ht). lia.
    + intros q Hq. left. destruct (inv_grow _ _ _ _ _ Hinv (bucket id)) as [l ->]. apply list.elem_of_app. by right.
  - destruct suf as [|x suf]; cbn [path] in Hps.
    + subst p. rewrite go_on_end. split; [done|]. cbn [snd]. constructor. intros q Hin.
      destruct (Hq q Hin) as [H|H]; [by apply not_elem_of_nil in H|done].
    + destruct Hps as [-> Hps].
      assert (Hin : x ∈ C (bucket id)) by (rewrite E; apply list.elem_of_app; right; apply list.elem_of_cons; by left).
      rewrite go_on_in; [|rewrite zlen_cons in Hb; pose proof (zlen_nonneg suf); lia|by apply (Hv (bucket id))].
      case_match eqn:Es; zbool; cbn [fst snd]; (split; [done|]).
      * by constructor.
      * eapply ok_next; try done. intros q Hq0. destruct (Hq q Hq0) as [[->|H]%list.elem_of_cons|H]; [|by left|by right].
        right. by rewrite <- (inv_names _ _ _ _ _ Hinv (bucket id) x Hq0).
  - split; [done|]. cbn [snd]. destruct Hps as [_ Hps]. rewrite zlen_cons in Hb.
    apply (ok_cmp _ _ _ _ id (times + 1) _ (pre ++ [p]) suf); try done; [by rewrite <- app_assoc|lia|lia].
  - split; [done|]. by constructor.
  - split; [done|]. by constructor.
Qed.

Lemma inv_step C w w' : inv C0 s0 ts0 C w -> sys_step w w' -> exists C', inv C0 s0 ts0 C' w'.
Proof.
  intros Hinv Hst. destruct Hst as [s ts i c Hc].
  pose proof (inv_threads _ _ _ _ _ Hinv) as Hth. cbn in Hth.
  destruct (Forall2_lookup_r _ _ _ _ _ Hth Hc) as (c0 & Hi & Hok).
  pose proof (good_at _ _ Hi) as Hg. destruct c0; try done.
  - by eapply add_step.
  - destruct (find_step C s ts i id c Hinv Hi Hok) as [E Hok']. exists C. rewrite E. by eapply read_step.
Qed.

End Steps.

Lemma inv_start C s ts : table_ok C s -> Forall good_start ts -> distinct ts ->
  (forall i n id, ts !! i = Some (AddCopy n id) -> forall h, n ∉ C h) -> inv C s ts C (s, ts).
Proof.
  intros Ht Hg Hd Hf. split; [done|done|done|]. cbn. apply Forall2_same_length_lookup. split; [done|].
  intros i c c' Hc Hc'. rewrite Hc in Hc'. injection Hc' as <-.
  pose proof (Forall_lookup_1 _ _ _ _ Hg Hc) as Hgc. destruct c; try done.
  - constructor. split; [apply Hgc|by eapply Hf].
  - constructor.
Qed.

(** C29. Any number of processes that add slots, each its own, and of processes
    that search, interleaved in any way from a table that is well formed: at any
    time the table is well formed and has every slot it had; an addition that has
    ended is in the table; a search that has ended with a number found a slot of
    the table with the name, and one that has ended with 0 started when no slot
    of the table had the name. *)
Theorem concurrent_add_search C0 s0 ts0 s ts :
  table_ok C0 s0 -> Forall good_start ts0 -> distinct ts0 ->
  (forall i n id, ts0 !! i = Some (AddCopy n id) -> forall h, n ∉ C0 h) ->
  rtc sys_step (s0, ts0) (s, ts) ->
  exists C, table_ok C s /\ (forall h, C0 h `suffix_of` C h) /\
    (forall i n id r rid, ts0 !! i = Some (AddCopy n id) -> ts !! i = Some (Ret r rid) ->
       n ∈ C (bucket id) /\ userid s n = id) /\
    (forall i id r rid, ts0 !! i = Some (FindHead id) -> ts !! i = Some (Ret r rid) ->
       (r = 0 /\ forall h p, p ∈ C0 h -> strcasecmp (userid s0 p) id <> 0) \/
       (r - 1 ∈ C (bucket id) /\ strcasecmp (userid s (r - 1)) id = 0)).
Proof.
  intros Ht Hg Hd Hf Hrtc.
  assert (Hinv : exists C, inv C0 s0 ts0 C (s, ts)).
  { assert (H : forall w w', rtc sys_step w w' -> (exists C, inv C0 s0 ts0 C w) -> exists C, inv C0 s0 ts0 C w').
    { induction 1 as [|w w1 w' Hst _ IH]; [done|]. intros [C HC]. apply IH. by eapply inv_step. }
    apply (H _ _ Hrtc). exists C0. by apply inv_start. }
  destruct Hinv as [C [Hok Hgr Hnm Hth]]. cbn in *. exists C. split; [done|]. split; [done|]. split.
  - intros i n id r rid Hi Hr. destruct (Forall2_lookup_l _ _ _ _ _ Hth Hi) as (c & Hc & Hto).
    rewrite Hr in Hc. injection Hc as <-. by inversion Hto.
  - intros i id r rid Hi Hr. destruct (Forall2_lookup_l _ _ _ _ _ Hth Hi) as (c & Hc & Hto).
    rewrite Hr in Hc. injection Hc as <-. pose proof (Forall_lookup_1 _ _ _ _ Hg Hi) as Hcs.
    inversion Hto as [| | | | | | | |? p ? Hin Hs|? Hq]; subst.
    + right. by replace (p + 1 - 1) with p by lia.
    + left. split; [done|]. intros h p Hp E. destruct Ht as (_ & Hv & _). destruct (Hv h p Hp) as (_ & Hb & Hcp).
      rewrite (bucket_case _ _ Hcp Hcs E) in Hb. subst h. by apply (Hq p).
Qed.

(** *** Concrete instances *)

(** No users, and the user "a" in the slot 0. *)
Definition no_users : shm := Shm (fun _ => []) (fun _ => -1) (fun _ => -1).
Definition one_user : shm := set_head (bucket [97]) 0 (set_userid 0 [97] no_users).
Definition one_chain : Z -> list Z := pushed 0 [97] (fun _ => []).

Lemma one_user_ok : table_ok one_chain one_user.
Proof.
  assert (H0 : forall h, (0 : Z) ∉ (fun _ : Z => @nil Z) h) by (intros h H; by apply not_elem_of_nil in H).
  apply table_push; try done; [|by repeat constructor].
  split; [done|]. split; [intros h p H; by apply not_elem_of_nil in H|intros h; constructor].
Qed.

Lemma one_chain_free h : (1 : Z) ∉ one_chain h.
Proof.
  unfold one_chain, pushed. destruct (decide _); [intros H; by apply list_elem_of_singleton in H|apply not_elem_of_nil].
Qed.

Lemma schedule_rtc l : forall w, rtc sys_step w (schedule w l).
Proof.
  induction l as [|i l IH]; intros [s ts]; cbn; [done|]. destruct (ts !! i) as [c|] eqn:E; [|apply IH].
  eapply rtc_l; [by apply (sys_step_at s ts i c)|apply IH].
Qed.

Definition some_fuel : nat := 2 * Z.to_nat MAX_USERS + 5.

Lemma dosearchuser_spec_witness :
  exists r rid, dosearchuser some_fuel [65] one_user = Some (r, rid) /\
    (r = 0 -> forall h p, p ∈ one_chain h -> strcasecmp (userid one_user p) [65] <> 0) /\
    (r <> 0 -> r - 1 ∈ one_chain (bucket [65]) /\ strcasecmp (userid one_user (r - 1)) [65] = 0).
Proof.
  apply (dosearchuser_spec one_chain one_user [65] some_fuel);
    [apply one_user_ok|by repeat constructor|apply Nat.le_refl].
Defined.

Lemma setuserid_spec_witness :
  exists s', setuserid some_fuel 1 [98] one_user = Some s' /\
    table_ok (pushed (1 - 1) [98] (fun h => without (1 - 1) (one_chain h))) s' /\
    forall id', c_string id' ->
      dosearchuser some_fuel id' s' =
        Some (if strcasecmp [98] id' =? 0 then (1, match id' with [] => [] | _ => [98] end)
              else find_name one_user id' (without (1 - 1) (one_chain (bucket id')))).
Proof.
  apply (setuserid_spec one_chain one_user 1 [98] some_fuel);
    [apply one_user_ok|done|by repeat constructor|done|apply Nat.le_refl].
Defined.

(** A process adds "b" while another looks for "A". *)
Definition two_processes : list pc := [AddCopy 1 [98]; FindHead [65]].
Definition some_schedule : list nat := [0; 1; 0; 0; 1; 0]%nat.
Definition final : sys := schedule (one_user, two_processes) some_schedule.

Lemma concurrent_add_search_witness :
  exists C, table_ok C final.1 /\ (forall h, one_chain h `suffix_of` C h) /\
    (forall i n id r rid, two_processes !! i = Some (AddCopy n id) -> final.2 !! i = Some (Ret r rid) ->
       n ∈ C (bucket id) /\ userid final.1 n = id) /\
    (forall i id r rid, two_processes !! i = Some (FindHead id) -> final.2 !! i = Some (Ret r rid) ->
       (r = 0 /\ forall h p, p ∈ one_chain h -> strcasecmp (userid one_user p) id <> 0) \/
       (r - 1 ∈ C (bucket id) /\ strcasecmp (userid final.1 (r - 1)) id = 0)).
Proof.
  apply (concurrent_add_search one_chain one_user two_processes).
  - apply one_user_ok.
  - repeat constructor; done.
  - intros [|[|i]] [|[|j]] ci cj n Hi Hj; cbn in *; try discriminate;
      injection Hi as <-; injection Hj as <-; cbn; congruence.
  - intros [|[|i]] n id Hi; cbn in *; try discriminate. injection Hi as <- <-. apply one_chain_free.
  - rewrite <- surjective_pairing. apply schedule_rtc.
Defined.

(** *** What the code does not mean to do

    Four users of one bucket, the last one added first.  While a process takes
    the slot 1 out, another takes out the slot 2 behind it and gives it a new
    name: the first one links the slot 2 in again, which now ends another
    chain, and the user in the slot 3 cannot be found any more. *)
Definition four_users : option shm :=
  s ← setuserid 20 4 [119; 97; 101; 107] no_users; s ← setuserid 20 3 [118; 109; 102; 109] s;
  s ← setuserid 20 2 [117; 101; 116; 110] s; setuserid 20 1 [116; 109; 115; 108] s.

(** The first process stops before its last step; the second one removes its
    slot and the third goes on for it. *)
Definition renames : list pc := [RemHash 1; RemHash 2; AddCopy 2 [97]].
Definition bad_schedule : list nat := [0; 0; 0; 0; 1; 1; 1; 1; 1; 1; 0; 2; 2; 2; 2]%nat.

Example concurrent_rename_loses_user :
  match four_users with
  | Some s =>
      let w := schedule (s, renames) bad_schedule in
      w.2 = [Ret 0 []; Ret 0 []; Ret 0 []] /\
      option_map fst (dosearchuser 20 [119; 97; 101; 107] s) = Some 4 /\
      option_map fst (dosearchuser 20 [119; 97; 101; 107] w.1) = Some 0
  | None => False
  end.
Proof. vm_compute. split_and!; reflexivity. Qed.

End UhashProps.
