(* ===== verification/Utmp.v ===== *)
(** The sessions of each user in shared memory ([utmp_user] of
    [common/bbs/cache.c], [include/cmbbs.h]): a linked list of session slots
    for every user, whose links carry the mark of a deleted slot.

    The operations are those of one process that runs alone, so that an exchange
    finds the value the process has loaded and its loop ends; the exchange that
    compares with a value computed otherwise is written out.  The arrays are
    functions of the index; the code tests every index it uses. *)

From stdpp Require Import functions.
From S2P Require Import Prelude Cstr.

#[global] Open Scope Z_scope.
#[global] Open Scope list_scope.

Module Utmp.
Import Cstr.

Definition MAX_USERS : Z := 150000.
Definition MAX_ACTIVE : Z := 1024.
Definition USHM_SIZE : Z := MAX_ACTIVE * 41 / 40.
Definition DEBUGSLEEPING : Z := 83.

Definition VALID_USHM_ENTRY (x : Z) : bool := (0 <=? x) && (x <? USHM_SIZE).

(** *** Links: a slot plus one, with a mark in the highest bit *)

Definition UTMP_DELETED_BIT : Z := Z.shiftl 1 31.
Definition UTMP_ENCODE_NEXT (slot : Z) : Z := slot + 1.
Definition UTMP_DECODE_SLOT (v : Z) : Z :=
  s32 (u32 (Z.land (u32 v) (Z.lxor 0xFFFFFFFF UTMP_DELETED_BIT) - 1)).
Definition UTMP_IS_DELETED (v : Z) : bool := negb (Z.land (u32 v) UTMP_DELETED_BIT =? 0).
Definition UTMP_MARK_DELETED (v : Z) : Z := s32 (Z.lor (u32 v) UTMP_DELETED_BIT).

Record userinfo_t := UserInfo { pid : Z; uid : Z; mode : Z }.

Record utmp := Mem
  { user_head : Z -> Z; next_session : Z -> Z; session_user : Z -> Z; uinfo : Z -> userinfo_t }.

Definition set_head (u x : Z) (s : utmp) : utmp :=
  Mem (<[u := x]> (user_head s)) (next_session s) (session_user s) (uinfo s).
Definition set_next (i x : Z) (s : utmp) : utmp :=
  Mem (user_head s) (<[i := x]> (next_session s)) (session_user s) (uinfo s).
Definition set_user (i u : Z) (s : utmp) : utmp :=
  Mem (user_head s) (next_session s) (<[i := u]> (session_user s)) (uinfo s).

Definition good_user (unum : Z) : bool := (0 <? unum) && (unum <=? MAX_USERS).

(** *** Taking marked slots out of a list *)

(** The inner loop; the flag is [restart]. *)
Fixpoint scan_marked (n : nat) (prev : Z) (s : utmp) : utmp * bool :=
  match n with
  | O => (s, false)
  | S n =>
      if negb (VALID_USHM_ENTRY prev) then (s, false)
      else
        let prev_next := next_session s prev in
        if UTMP_IS_DELETED prev_next then (s, true)
        else
          let curr := UTMP_DECODE_SLOT prev_next in
          if negb (VALID_USHM_ENTRY curr) || (curr =? prev) then (s, false)
          else
            let curr_next := next_session s curr in
            if UTMP_IS_DELETED curr_next then
              let succ := UTMP_DECODE_SLOT curr_next in
              let succ := if (succ =? curr) || (succ =? prev) then -1 else succ in
              if next_session s prev =? UTMP_ENCODE_NEXT curr then
                scan_marked n prev (set_next prev (UTMP_ENCODE_NEXT succ) s)
              else (s, true)
            else scan_marked n curr s
  end.

Fixpoint clean_loop (attempts : nat) (unum : Z) (s : utmp) : utmp :=
  match attempts with
  | O => s
  | S attempts =>
      let head := user_head s unum in
      if negb (VALID_USHM_ENTRY head) then s
      else
        let head_next := next_session s head in
        if UTMP_IS_DELETED head_next then
          let next := UTMP_DECODE_SLOT head_next in
          if (next =? head) || negb (VALID_USHM_ENTRY next) then set_head unum (-1) s
          else clean_loop attempts unum (set_head unum next s)
        else
          let '(s, restart) := scan_marked (Z.to_nat USHM_SIZE) head s in
          if (restart : bool) then clean_loop attempts unum s else s
  end.

Definition clean_marked_nodes (unum : Z) (s : utmp) : utmp := clean_loop (Z.to_nat USHM_SIZE) unum s.

(** *** Adding and removing a session *)

Definition remove_from_utmp_user (uslot unum : Z) (s : utmp) : utmp :=
  if negb (VALID_USHM_ENTRY uslot) || negb (good_user unum) then s
  else
    let s := set_user uslot 0 s in
    let next_val := next_session s uslot in
    let s := if UTMP_IS_DELETED next_val then s else set_next uslot (UTMP_MARK_DELETED next_val) s in
    clean_marked_nodes unum s.

Definition add_to_utmp_user (uslot unum : Z) (s : utmp) : utmp :=
  if negb (VALID_USHM_ENTRY uslot) || negb (good_user unum) then s
  else
    let old_uid := session_user s uslot in
    let s := if good_user old_uid then remove_from_utmp_user uslot old_uid s else s in
    let s := set_user uslot unum s in
    let s := clean_marked_nodes unum s in
    let old_head := user_head s unum in
    if old_head =? uslot then s
    else set_head unum uslot (set_next uslot (UTMP_ENCODE_NEXT old_head) s).

Fixpoint init_loop (n : nat) (i : Z) (s : utmp) : utmp :=
  match n with
  | O => s
  | S n =>
      let u := uid (uinfo s i) in
      init_loop n (i + 1)
        (if (0 <? pid (uinfo s i)) && good_user u then
           set_user i u (set_head u i (set_next i (UTMP_ENCODE_NEXT (user_head s u)) s))
         else s)
  end.

(** Rebuilding the lists from the sessions. *)
Definition init_utmp_user (s : utmp) : utmp :=
  init_loop (Z.to_nat USHM_SIZE) 0 (Mem (fun _ => -1) (fun _ => 0) (fun _ => 0) (uinfo s)).

(** *** Visiting the sessions of a user *)

Section Apply.
Context {A : Type}.
Variable callback : Z -> A -> A * Z.

Fixpoint apply_loop (n : nat) (unum uslot : Z) (s : utmp) (arg : A) : A * Z :=
  match n with
  | O => (arg, 0)
  | S n =>
      if negb (VALID_USHM_ENTRY uslot) then (arg, 0)
      else
        let next_val := next_session s uslot in
        let next_slot := UTMP_DECODE_SLOT next_val in
        let go arg := if next_slot =? uslot then (arg, 0) else apply_loop n unum next_slot s arg in
        if UTMP_IS_DELETED next_val then go arg
        else if (uid (uinfo s uslot) =? unum) && (0 <? pid (uinfo s uslot)) then
          let '(arg, ret) := callback uslot arg in
          if negb (ret =? 0) then (arg, ret) else go arg
        else (arg, 0)
  end.

Definition utmp_apply_user (unum : Z) (s : utmp) (arg : A) : A * Z :=
  if good_user unum then apply_loop 32 unum (user_head s unum) s arg else (arg, 0).
End Apply.

(** The argument is the counter and the slot found. *)
Definition find_nth_cb (s : utmp) (uslot : Z) (ctx : Z * option Z) : (Z * option Z) * Z :=
  if mode (uinfo s uslot) =? DEBUGSLEEPING then (ctx, 0)
  else
    let n := ctx.1 - 1 in
    if n =? 0 then ((n, Some uslot), 1) else ((n, ctx.2), 0).

Definition search_ulistn (uid unum : Z) (s : utmp) : option Z :=
  if unum <=? 0 then None
  else (utmp_apply_user (find_nth_cb s) uid s (unum, None)).1.2.
Definition utmp_find (unum : Z) (s : utmp) : option Z := search_ulistn unum 1 s.

End Utmp.
