(* ===== verification/UtmpProps.v ===== *)
(** The properties of the sessions of users ([Utmp]): the linked lists, with
    their marks, refine a list of sessions for every user. *)

From stdpp Require Import functions list_numbers.
From S2P Require Import Prelude Cstr Utmp.

#[global] Open Scope Z_scope.
#[global] Open Scope list_scope.

Module UtmpProps.
Import Utmp.

(** *** Links *)

Definition link_facts (v : Z) : bool :=
  negb (UTMP_IS_DELETED v) && (UTMP_DECODE_SLOT v =? v - 1) &&
  UTMP_IS_DELETED (UTMP_MARK_DELETED v) && (UTMP_DECODE_SLOT (UTMP_MARK_DELETED v) =? v - 1).

Lemma link_ok q : -1 <= q < USHM_SIZE ->
  UTMP_IS_DELETED (q + 1) = false /\ UTMP_DECODE_SLOT (q + 1) = q /\
  UTMP_IS_DELETED (UTMP_MARK_DELETED (q + 1)) = true /\ UTMP_DECODE_SLOT (UTMP_MARK_DELETED (q + 1)) = q.
Proof.
  intros Hq. assert (H : forallb link_facts (seqZ 0 (USHM_SIZE + 1)) = true) by (by vm_compute).
  rewrite forallb_forall in H. specialize (H (q + 1)). unfold link_facts in H.
  assert (Hin : In (q + 1) (seqZ 0 (USHM_SIZE + 1))) by (apply list_elem_of_In, elem_of_seqZ; lia).
  apply H in Hin. apply andb_true_iff in Hin as [Hin H4]. apply andb_true_iff in Hin as [Hin H3].
  apply andb_true_iff in Hin as [H1 H2]. apply negb_true_iff in H1. zbool.
  split_and!; try done; lia.
Qed.

Lemma valid_iff x : VALID_USHM_ENTRY x = true <-> 0 <= x < USHM_SIZE.
Proof. unfold VALID_USHM_ENTRY. lia. Qed.

(** The list from [p] on, no slot of which is marked. *)
Fixpoint links (s : utmp) (p : Z) (l : list Z) : Prop :=
  match l with
  | [] => p = -1
  | x :: l => p = x /\ 0 <= x < USHM_SIZE /\
      exists q, next_session s x = q + 1 /\ -1 <= q < USHM_SIZE /\ links s q l
  end.

Definition user (u : Z) : Prop := 0 < u <= MAX_USERS.

(** The sessions of [u] are [L u]. *)
Definition lists_ok (L : Z -> list Z) (s : utmp) : Prop :=
  (forall u, user u -> links s (user_head s u) (L u)) /\
  (forall u x, user u -> x ∈ L u <-> 0 <= x < USHM_SIZE /\ session_user s x = u) /\
  (forall u, user u -> NoDup (L u)).

Lemma links_frame s s' l : forall p,
  (forall x, x ∈ l -> next_session s' x = next_session s x) -> links s p l -> links s' p l.
Proof.
  induction l as [|x l IH]; intros p Hx; cbn [links]; [done|]. intros (-> & Hv & q & E & Hq & Hl).
  split; [done|]. split; [done|]. exists q. rewrite Hx by (apply list.elem_of_cons; by left).
  split; [done|]. split; [done|]. apply IH; [|done]. intros y Hy. apply Hx. apply list.elem_of_cons. by right.
Qed.

Lemma links_head s p l : links s p l -> -1 <= p < USHM_SIZE.
Proof. destruct l; cbn; [intros ->; done|]. intros (-> & ? & _). lia. Qed.

Lemma links_valid s l : forall p, links s p l -> forall x, x ∈ l -> 0 <= x < USHM_SIZE.
Proof.
  induction l as [|y l IH]; intros p H x Hx; [by apply not_elem_of_nil in Hx|].
  cbn in H. destruct H as (-> & Hv & q & _ & _ & Hl). apply list.elem_of_cons in Hx as [->|Hx]; [done|by eapply IH].
Qed.

(** *** Scanning *)

(** Without marks a scan changes nothing. *)
Lemma utmp_scan_plain s l : forall n p, links s p l -> scan_marked n p s = (s, false).
Proof.
  induction l as [|x l IH]; intros [|n] p H; cbn [scan_marked]; try done.
  - cbn in H. subst p. done.
  - cbn [links] in H. destruct H as (-> & Hv & q & E & Hq & Hl).
    rewrite (proj2 (valid_iff _)) by done. cbn [negb]. rewrite E.
    destruct (link_ok q Hq) as (E1 & E2 & _). rewrite E1, E2.
    destruct l as [|y l]; cbn [links] in Hl.
    + subst q. done.
    + pose proof Hl as (-> & Hy & q' & Ey & Hq' & Hl'). rewrite (proj2 (valid_iff _)) by done. cbn [negb orb].
      case_match; [done|]. rewrite Ey. destruct (link_ok q' Hq') as (-> & _). by apply IH.
Qed.

(** The slot [x] is marked, [s0] is the memory before. *)
Lemma scan_unlinks s0 x b : forall a n p prev,
  links s0 p (a ++ prev :: x :: b) -> NoDup (a ++ prev :: x :: b) -> (length a < n)%nat ->
  scan_marked n p (set_next x (UTMP_MARK_DELETED (next_session s0 x)) s0) =
    (set_next prev (next_session s0 x) (set_next x (UTMP_MARK_DELETED (next_session s0 x)) s0), false).
Proof.
  induction a as [|y a IH]; intros [|n] p prev Hl Hnd Hn; cbn [length app] in *; try lia;
    cbn [links] in Hl; set (s := set_next x _ s0).
  - destruct Hl as (-> & Hv & q & E & Hq & -> & Hx & q' & E' & Hq' & Hb).
    apply list.NoDup_cons in Hnd as [Hpx Hnd]. apply list.NoDup_cons in Hnd as [Hxb _].
    assert (Hne : prev <> x) by (intros ->; apply Hpx, list.elem_of_cons; by left).
    assert (En : next_session s prev = x + 1) by (cbn; by rewrite fn_lookup_insert_ne).
    assert (Ex : next_session s x = UTMP_MARK_DELETED (q' + 1)) by (cbn; by rewrite fn_lookup_insert, E').
    destruct (link_ok x ltac:(lia)) as (E1 & E2 & _). destruct (link_ok q' Hq') as (E3 & E4 & E5 & E6).
    cbn [scan_marked]. rewrite (proj2 (valid_iff _)) by done. cbn [negb].
    rewrite En, E1, E2, (proj2 (valid_iff _)), (proj2 (Z.eqb_neq _ _)) by lia. cbn [negb orb].
    rewrite Ex, E5, E6. unfold UTMP_ENCODE_NEXT. rewrite Z.eqb_refl.
    assert (Hq'x : q' <> x /\ q' <> prev).
    { destruct b as [|z b]; cbn [links] in Hb; [lia|]. destruct Hb as (-> & _).
      split; intros ->; [apply Hxb|apply Hpx]; rewrite ?list.elem_of_cons; auto. }
    rewrite !(proj2 (Z.eqb_neq _ _)) by tauto. cbn [orb]. rewrite <- E'.
    apply (utmp_scan_plain _ (prev :: b)). cbn [links]. split; [done|]. split; [done|]. exists q'.
    split; [cbn; by rewrite fn_lookup_insert|]. split; [done|].
    eapply links_frame; [|exact Hb]. intros z Hz. cbn.
    rewrite !fn_lookup_insert_ne; [done| |]; intros ->; [by apply Hxb|].
    apply Hpx. rewrite list.elem_of_cons. by right.
  - destruct Hl as (-> & Hv & q & E & Hq & Hl). apply list.NoDup_cons in Hnd as [Hy Hnd].
    rewrite list.elem_of_app, !list.elem_of_cons in Hy.
    assert (En : next_session s y = q + 1) by (cbn; rewrite fn_lookup_insert_ne by (intros ->; tauto); done).
    destruct (link_ok q Hq) as (E1 & E2 & _).
    cbn [scan_marked]. rewrite (proj2 (valid_iff _)) by done. cbn [negb]. rewrite En, E1, E2.
    assert (Hz : exists z, links s0 q (z :: tail (a ++ prev :: x :: b)) /\ z ∈ a ++ [prev] /\ z ∉ x :: b).
    { destruct a as [|z a]; cbn [app tail] in *.
      - exists prev. split; [by rewrite (proj1 Hl) in Hl |- *|]. split; [by apply list_elem_of_singleton|].
        apply list.NoDup_cons in Hnd. tauto.
      - exists z. split; [by rewrite (proj1 Hl) in Hl |- *|]. split; [apply list.elem_of_cons; by left|].
        apply list.NoDup_cons in Hnd as [Hnd _]. rewrite list.elem_of_app, !list.elem_of_cons in Hnd.
        rewrite list.elem_of_cons. tauto. }
    destruct Hz as (z & Hlz & Hza & Hzx). cbn [links] in Hlz. destruct Hlz as (-> & Hvz & q' & Ez & Hq' & _).
    rewrite list.elem_of_app, list_elem_of_singleton in Hza. rewrite list.elem_of_cons in Hzx.
    rewrite (proj2 (valid_iff _)) by done. rewrite (proj2 (Z.eqb_neq _ _)) by (intros ->; tauto). cbn [negb orb].
    assert (Ezn : next_session s z = q' + 1) by (cbn; rewrite fn_lookup_insert_ne by (intros ->; tauto); done).
    rewrite Ezn. destruct (link_ok q' Hq') as (-> & _). apply IH; [done|done|lia].
Qed.

(** *** Cleaning *)

Lemma clean_plain s u l n : links s (user_head s u) l -> clean_loop n u s = s.
Proof.
  intros H. destruct n as [|n]; [done|]. cbn [clean_loop]. destruct l as [|x l].
  - cbn in H. by rewrite H.
  - pose proof H as (E & Hv & q & Ex & Hq & _). rewrite (proj2 (valid_iff _)) by (by rewrite E). cbn [negb].
    rewrite E, Ex. destruct (link_ok q Hq) as (-> & _). rewrite <- E. by rewrite (utmp_scan_plain s _ _ _ H).
Qed.

(** The list without the slot [x]. *)
Definition without (x : Z) (l : list Z) : list Z := List.filter (fun y => negb (y =? x)) l.

Lemma without_elem x l y : y ∈ without x l <-> y ∈ l /\ y <> x.
Proof. unfold without. rewrite !list_elem_of_In, filter_In, negb_true_iff, Z.eqb_neq. done. Qed.

Lemma without_out x l : x ∉ l -> without x l = l.
Proof.
  unfold without. induction l as [|y l IH]; intros H; [done|]. rewrite list.elem_of_cons in H. cbn [List.filter].
  rewrite (proj2 (Z.eqb_neq _ _)) by (intros ->; tauto). cbn [negb]. f_equal. apply IH. tauto.
Qed.

Lemma without_mid x a b : x ∉ a -> x ∉ b -> without x (a ++ x :: b) = a ++ b.
Proof.
  intros Ha Hb. transitivity (without x a ++ without x (x :: b)); [apply List.filter_app|].
  rewrite without_out by done. f_equal. unfold without. cbn [List.filter]. rewrite Z.eqb_refl. by apply without_out.
Qed.

Lemma without_nodup x l : NoDup l -> NoDup (without x l).
Proof.
  induction 1 as [|y l Hy Hl IH]; [constructor|]. unfold without in *. cbn [List.filter].
  destruct (negb (y =? x)); [|done]. constructor; [|done]. fold (without x l). rewrite without_elem. tauto.
Qed.

(** [prev] skips [x]. *)
Lemma links_unlink s x b s' : forall a p prev,
  links s p (a ++ prev :: x :: b) -> NoDup (a ++ prev :: x :: b) ->
  next_session s' prev = next_session s x ->
  (forall y, y <> prev -> y <> x -> next_session s' y = next_session s y) -> links s' p (a ++ prev :: b).
Proof.
  induction a as [|y a IH]; intros p prev Hl Hnd Hp Hx; cbn [app links] in *.
  - destruct Hl as (-> & Hv & q & _ & _ & -> & _ & q' & E & Hq & Hl). split; [done|]. split; [done|].
    exists q'. split; [congruence|]. split; [done|]. apply links_frame with s; [|done]. intros y Hy.
    apply list.NoDup_cons in Hnd as [H1 Hnd]. apply list.NoDup_cons in Hnd as [H2 _].
    rewrite list.elem_of_cons in H1. apply Hx; intros ->; tauto.
  - destruct Hl as (-> & Hv & q & E & Hq & Hl). apply list.NoDup_cons in Hnd as [Hy Hnd].
    rewrite list.elem_of_app, !list.elem_of_cons in Hy. split; [done|]. split; [done|]. exists q.
    rewrite Hx by (intros ->; tauto). split; [done|]. split; [done|]. by apply IH.
Qed.

Lemma session_slots_bound l : NoDup l -> (forall x, x ∈ l -> 0 <= x < USHM_SIZE) -> zlen l <= USHM_SIZE.
Proof.
  intros Hnd Hv. assert (Hs : l ⊆+ seqZ 0 USHM_SIZE).
  { apply NoDup_submseteq; [done|]. intros p Hp. apply elem_of_seqZ. apply Hv in Hp. lia. }
  apply submseteq_length in Hs. rewrite length_seqZ in Hs. unfold zlen.
  assert (0 <= USHM_SIZE) by done. lia.
Qed.

(** Cleaning the list of [u] when [x] was marked in it. *)
Lemma clean_marked s0 u x a b :
  links s0 (user_head s0 u) (a ++ x :: b) -> NoDup (a ++ x :: b) ->
  exists s', clean_marked_nodes u (set_next x (UTMP_MARK_DELETED (next_session s0 x)) s0) = s' /\
    links s' (user_head s' u) (a ++ b) /\
    (forall v, v <> u -> user_head s' v = user_head s0 v) /\
    (forall y, y ∉ a ++ x :: b -> next_session s' y = next_session s0 y) /\
    session_user s' = session_user s0 /\ uinfo s' = uinfo s0.
Proof.
  intros Hl Hnd. eexists. split; [done|]. unfold clean_marked_nodes.
  set (s := set_next x _ s0).
  assert (Hsz : exists n, Z.to_nat USHM_SIZE = S n) by (exists 1048%nat; reflexivity).
  assert (Hb : (length (a ++ x :: b) <= Z.to_nat USHM_SIZE)%nat).
  { pose proof (session_slots_bound _ Hnd (links_valid _ _ _ Hl)) as H. unfold zlen in H. lia. }
  destruct a as [|prev a' _] using rev_ind.
  - cbn [app] in *. cbn [links] in Hl. destruct Hl as (E & Hv & q & Ex & Hq & Hl).
    destruct (link_ok q Hq) as (_ & _ & E1 & E2). destruct Hsz as [n ->]. cbn [clean_loop].
    change (user_head s u) with (user_head s0 u). rewrite E, (proj2 (valid_iff _)) by done. cbn [negb].
    assert (Es : next_session s x = UTMP_MARK_DELETED (q + 1)) by (cbn; by rewrite fn_lookup_insert, Ex).
    rewrite Es, E1, E2. apply list.NoDup_cons in Hnd as [Hx Hnd].
    assert (Hls : links s q b).
    { apply links_frame with s0; [|done]. intros y Hy. cbn. apply fn_lookup_insert_ne. intros ->. tauto. }
    destruct b as [|y b]; cbn [links] in Hl.
    + subst q. rewrite orb_true_r. split; [cbn; by rewrite fn_lookup_insert|].
      split; [intros v Hv'; cbn; by apply fn_lookup_insert_ne|]. split; [|done].
      intros y Hy. cbn. apply fn_lookup_insert_ne. intros ->. apply Hy, list.elem_of_cons. by left.
    + destruct Hl as (-> & Hy & _). rewrite (proj2 (Z.eqb_neq _ _)), (proj2 (valid_iff _));
        [|done|intros ->; apply Hx, list.elem_of_cons; by left]. cbn [negb orb].
      set (s1 := set_head u y s).
      assert (Hl1 : links s1 (user_head s1 u) (y :: b)) by (unfold s1; cbn [user_head set_head]; rewrite fn_lookup_insert; by apply links_frame with s).
      fold s1. rewrite (clean_plain s1 u _ n Hl1). split; [done|].
      split; [intros v Hv'; cbn; by apply fn_lookup_insert_ne|]. split; [|done].
      intros z Hz. cbn. apply fn_lookup_insert_ne. intros ->. apply Hz, list.elem_of_cons. by left.
  - rewrite <- app_assoc in *. cbn [app] in *.
    pose proof (scan_unlinks s0 x b a' (Z.to_nat USHM_SIZE) _ prev Hl Hnd) as Hscan. fold s in Hscan.
    rewrite length_app in Hb. cbn [length] in Hb. specialize (Hscan ltac:(lia)).
    pose proof (links_head _ _ _ Hl) as Hh.
    assert (H1 : exists h q, user_head s0 u = h /\ 0 <= h < USHM_SIZE /\ h <> x /\ next_session s0 h = q + 1 /\ -1 <= q < USHM_SIZE).
    { destruct a' as [|z a']; cbn [app links] in Hl; destruct Hl as (E & Hv & q & Ez & Hq & _);
        eexists _, q; (split; [exact E|]); (split; [done|]); (split; [|done]);
        cbn [app] in Hnd; apply list.NoDup_cons in Hnd as [Hnd _];
        rewrite ?list.elem_of_app, ?list.elem_of_cons in Hnd; intros ->; tauto. }
    destruct H1 as (h & q & Eh & Hv & Hne & Eq & Hq). destruct (link_ok q Hq) as (E1 & _).
    assert (Ec : clean_loop (Z.to_nat USHM_SIZE) u s = set_next prev (next_session s0 x) s).
    { destruct Hsz as [n Esz]. rewrite Esz at 1. cbn [clean_loop].
      change (user_head s u) with (user_head s0 u). rewrite Eh, (proj2 (valid_iff _)) by done. cbn [negb].
      assert (Es : next_session s h = q + 1) by (cbn; by rewrite fn_lookup_insert_ne). rewrite Es, E1.
      by rewrite <- Eh, Hscan. }
    rewrite Ec. split; [|split; [done|split; [|done]]].
    + change (user_head _ u) with (user_head s0 u). apply (links_unlink s0 x b _ a' _ prev Hl Hnd).
      * cbn. by rewrite fn_lookup_insert.
      * intros y Hy Hyx. cbn. by rewrite !fn_lookup_insert_ne.
    + intros y Hy. rewrite !list.elem_of_app, !list.elem_of_cons in Hy. cbn.
      rewrite !fn_lookup_insert_ne; [done| |]; intros ->; tauto.
Qed.

(** *** The operations *)

Lemma good_user_iff u : good_user u = true <-> user u.
Proof. unfold good_user, user. lia. Qed.

Lemma lists_ok_ext L L' s : (forall u, user u -> L' u = L u) -> lists_ok L s -> lists_ok L' s.
Proof.
  intros E (H1 & H2 & H3). split; [|split].
  - intros u Hu. rewrite E by done. by apply H1.
  - intros u x Hu. rewrite E by done. by apply H2.
  - intros u Hu. rewrite E by done. by apply H3.
Qed.

Lemma links_next s x : forall l p, links s p l -> x ∈ l -> exists q, next_session s x = q + 1 /\ -1 <= q < USHM_SIZE.
Proof.
  induction l as [|y l IH]; intros p H Hx; [by apply not_elem_of_nil in Hx|]. cbn in H.
  destruct H as (-> & _ & q & E & Hq & Hl). apply list.elem_of_cons in Hx as [->|Hx]; [by exists q|by eapply IH].
Qed.

Lemma remove_ok L s x u :
  lists_ok L s -> 0 <= x < USHM_SIZE -> user u -> session_user s x = u ->
  lists_ok (fun v => without x (L v)) (remove_from_utmp_user x u s) /\
  session_user (remove_from_utmp_user x u s) = <[x := 0]> (session_user s) /\
  uinfo (remove_from_utmp_user x u s) = uinfo s.
Proof.
  intros (Hl & Hin & Hnd) Hx Hu Hsu.
  assert (Hxu : x ∈ L u) by (by apply Hin).
  destruct (links_next s x _ _ (Hl u Hu) Hxu) as (q & Eq & Hq). destruct (link_ok q Hq) as (E1 & _).
  unfold remove_from_utmp_user. rewrite (proj2 (valid_iff _)), (proj2 (good_user_iff _)) by done. cbn [negb orb].
  set (s0 := set_user x 0 s). change (next_session s0 x) with (next_session s x). rewrite Eq, E1, <- Eq.
  pose proof (Hnd u Hu) as Hndu. pose proof (Hl u Hu) as Hlu.
  apply list_elem_of_split in Hxu as (a & b & EL). rewrite EL in Hndu, Hlu.
  destruct (clean_marked s0 u x a b) as (s' & Es' & H1 & H2 & H3 & H4 & H5); [|done|].
  { eapply links_frame; [|exact Hlu]. done. }
  change (next_session s0 x) with (next_session s x) in Es'. rewrite Es', H4, H5. split; [|done].
  assert (Hxab : x ∉ a /\ x ∉ b).
  { apply list.NoDup_app in Hndu as (_ & Hd & Hndu). apply list.NoDup_cons in Hndu as [Hb _].
    split; [|done]. intros Ha. apply (Hd x Ha), list.elem_of_cons. by left. }
  split; [|split].
  - intros v Hv. destruct (decide (v = u)) as [->|Hne]; [by rewrite EL, without_mid by tauto|].
    rewrite H2 by done. rewrite without_out by (intros Hin'; apply (Hin v x Hv) in Hin' as [_ ?]; congruence).
    eapply links_frame; [|apply (Hl v Hv)]. intros y Hy. rewrite H3; [done|]. rewrite <- EL.
    intros Hy'. apply (Hin v y Hv) in Hy as [_ ?]. apply (Hin u y Hu) in Hy' as [_ ?]. congruence.
  - intros v y Hv. rewrite without_elem, Hin, H4 by done. cbn. destruct (decide (y = x)) as [->|Hne].
    + rewrite fn_lookup_insert. unfold user in Hv. lia.
    + rewrite fn_lookup_insert_ne by done. tauto.
  - intros v Hv. by apply without_nodup, Hnd.
Qed.

(** The sessions after [x] is one of [u]. *)
Definition moved (x u : Z) (L : Z -> list Z) (v : Z) : list Z :=
  if decide (v = u) then x :: without x (L v) else without x (L v).

Lemma push_ok L s x u :
  lists_ok L s -> (forall v, user v -> x ∉ L v) -> 0 <= x < USHM_SIZE -> user u ->
  lists_ok (fun v => if decide (v = u) then x :: L v else L v)
    (set_head u x (set_next x (UTMP_ENCODE_NEXT (user_head s u)) (set_user x u s))).
Proof.
  intros (Hl & Hin & Hnd) Hout Hx Hu. split; [|split].
  - intros v Hv. pose proof (links_head _ _ _ (Hl v Hv)) as Hh. cbn.
    assert (Hfr : forall p, links s p (L v) ->
      links (set_head u x (set_next x (UTMP_ENCODE_NEXT (user_head s u)) (set_user x u s))) p (L v)).
    { intros p. apply links_frame. intros y Hy. cbn. apply fn_lookup_insert_ne. intros ->. by apply (Hout v Hv). }
    destruct (decide (v = u)) as [->|Hne].
    + rewrite fn_lookup_insert. split; [done|]. split; [done|]. exists (user_head s u).
      split; [cbn; by rewrite fn_lookup_insert|]. split; [done|]. apply Hfr, Hl, Hu.
    + rewrite fn_lookup_insert_ne by done. apply Hfr, Hl, Hv.
  - intros v y Hv. cbn. destruct (decide (y = x)) as [->|Hne].
    + rewrite fn_lookup_insert. destruct (decide (v = u)) as [->|Hvu].
      * rewrite list.elem_of_cons. tauto.
      * split; [intros H; by apply Hout in H|intros [_ ?]; congruence].
    + rewrite fn_lookup_insert_ne by done. rewrite <- Hin by done.
      destruct (decide (v = u)); [rewrite list.elem_of_cons|]; tauto.
  - intros v Hv. destruct (decide (v = u)) as [->|Hne]; [|by apply Hnd].
    apply list.NoDup_cons. split; [by apply Hout|by apply Hnd].
Qed.

Lemma add_ok L s x u :
  lists_ok L s -> 0 <= x < USHM_SIZE -> user u ->
  lists_ok (moved x u L) (add_to_utmp_user x u s) /\ uinfo (add_to_utmp_user x u s) = uinfo s.
Proof.
  intros Hok Hx Hu. unfold add_to_utmp_user.
  rewrite (proj2 (valid_iff _)), (proj2 (good_user_iff _)) by done. cbn [negb orb].
  set (s1 := if good_user (session_user s x) then _ else s).
  assert (H1 : lists_ok (fun v => without x (L v)) s1 /\ uinfo s1 = uinfo s).
  { unfold s1. destruct (good_user (session_user s x)) eqn:E.
    - apply good_user_iff in E. by destruct (remove_ok L s x _ Hok Hx E eq_refl) as (? & _ & ?).
    - split; [|done]. apply lists_ok_ext with L; [|done]. intros v Hv. apply without_out.
      destruct Hok as (_ & Hin & _). rewrite Hin by done. intros [_ Hsu]. rewrite Hsu in E.
      apply good_user_iff in Hv. congruence. }
  destruct H1 as [Hok1 Hui].
  assert (Hout : forall v, user v -> x ∉ without x (L v)) by (intros v _; rewrite without_elem; tauto).
  assert (Hl : links (set_user x u s1) (user_head (set_user x u s1) u) (without x (L u))).
  { apply links_frame with s1; [done|]. by apply Hok1. }
  unfold clean_marked_nodes. rewrite (clean_plain _ _ _ _ Hl).
  change (user_head (set_user x u s1) u) with (user_head s1 u) in *.
  assert (Hne : user_head s1 u =? x = false).
  { apply Z.eqb_neq. intros E. apply (Hout u Hu). rewrite E in Hl. destruct (without x (L u)) as [|y l].
    - cbn in Hl. lia.
    - destruct Hl as [<- _]. apply list.elem_of_cons. by left. }
  rewrite Hne. split; [|done]. by apply (push_ok _ s1 x u Hok1 Hout).
Qed.

(** *** Visiting *)

Section Visit.
Context {A : Type}.
Variable callback : Z -> A -> A * Z.

(** The callback on each slot, until it answers other than 0. *)
Fixpoint visit (l : list Z) (arg : A) : A * Z :=
  match l with
  | [] => (arg, 0)
  | x :: l => let '(arg, ret) := callback x arg in if negb (ret =? 0) then (arg, ret) else visit l arg
  end.

(** The sessions in front of the first one that is not alive as [u]. *)
Fixpoint alive (u : Z) (s : utmp) (l : list Z) : list Z :=
  match l with
  | x :: l => if (uid (uinfo s x) =? u) && (0 <? pid (uinfo s x)) then x :: alive u s l else []
  | [] => []
  end.

Lemma apply_loop_ok s u l : forall n p arg,
  links s p l -> NoDup l -> apply_loop callback n u p s arg = visit (alive u s (take n l)) arg.
Proof.
  induction l as [|x l IH]; intros [|n] p arg Hl Hnd; cbn [apply_loop take alive visit]; try done.
  - cbn in Hl. by subst p.
  - cbn [links] in Hl. destruct Hl as (-> & Hx & q & E & Hq & Hl). apply list.NoDup_cons in Hnd as [Hxl Hnd].
    rewrite (proj2 (valid_iff _)) by done. cbn [negb]. rewrite E. destruct (link_ok q Hq) as (-> & -> & _).
    assert (Hgo : forall arg, (if q =? x then (arg, 0) else apply_loop callback n u q s arg) =
                              visit (alive u s (take n l)) arg).
    { intros arg'. rewrite <- (IH n q arg' Hl Hnd). case_if E'; [|done]. subst q. destruct l as [|y l].
      - cbn in Hl. lia.
      - destruct Hl as [-> _]. exfalso. apply Hxl, list.elem_of_cons. by left. }
    destruct (_ && _); [|done]. cbn [visit]. destruct (callback x arg) as [arg' ret].
    destruct (negb (ret =? 0)); [done|]. apply Hgo.
Qed.
End Visit.

(** *** From the start *)

Definition session_of (s : utmp) (u i : Z) : bool := (0 <? pid (uinfo s i)) && (uid (uinfo s i) =? u).

(** The sessions of [u] below [k], the last one first. *)
Definition recent (s : utmp) (k u : Z) : list Z := List.filter (session_of s u) (rev (seqZ 0 k)).

Lemma recent_step s k u : 0 <= k ->
  recent s (k + 1) u = if session_of s u k then k :: recent s k u else recent s k u.
Proof.
  intros Hk. unfold recent. rewrite seqZ_app by lia. rewrite rev_app_distr. cbn. done.
Qed.

Lemma elem_of_recent s k u x : x ∈ recent s k u -> 0 <= x < k.
Proof.
  unfold recent. rewrite list_elem_of_In, filter_In, <- in_rev, <- list_elem_of_In, elem_of_seqZ. lia.
Qed.

Lemma init_loop_ok n : forall i s, 0 <= i -> i + Z.of_nat n <= USHM_SIZE ->
  lists_ok (recent s i) s ->
  lists_ok (recent s (i + Z.of_nat n)) (init_loop n i s) /\ uinfo (init_loop n i s) = uinfo s.
Proof.
  induction n as [|n IH]; intros i s Hi Hn Hok; cbn [init_loop]; [by rewrite Z.add_0_r|].
  set (s' := if _ && _ then _ else s).
  assert (H : lists_ok (recent s (i + 1)) s' /\ uinfo s' = uinfo s).
  { unfold s'. destruct ((0 <? pid (uinfo s i)) && good_user (uid (uinfo s i))) eqn:E.
    - apply andb_true_iff in E as [Ep Eu]. apply good_user_iff in Eu. split; [|done].
      eapply lists_ok_ext; [|apply (push_ok (recent s i) s i (uid (uinfo s i)) Hok); [|lia|done]].
      + intros v Hv. rewrite recent_step by done. unfold session_of. rewrite Ep. cbn [andb].
        destruct (decide (v = uid (uinfo s i))) as [->|Hne]; [by rewrite Z.eqb_refl|].
        by rewrite (proj2 (Z.eqb_neq _ _)) by done.
      + intros v _ Hin. apply elem_of_recent in Hin. lia.
    - split; [|done]. eapply lists_ok_ext; [|exact Hok]. intros v Hv. rewrite recent_step by done.
      unfold session_of. apply andb_false_iff in E as [->|E]; [done|]. apply andb_false_iff in E.
      rewrite (proj2 (Z.eqb_neq _ _)); [by rewrite andb_false_r|]. unfold user in Hv. intros <-. destruct E; lia. }
  destruct H as [H1 H2]. replace (i + Z.of_nat (S n)) with (i + 1 + Z.of_nat n) by lia.
  destruct (IH (i + 1) s') as [H3 H4]; [lia|lia| |].
  - eapply lists_ok_ext; [|exact H1]. intros v _. unfold recent, session_of. by rewrite H2.
  - split; [|congruence]. eapply lists_ok_ext; [|exact H3]. intros v _. unfold recent, session_of. by rewrite H2.
Qed.

Lemma init_ok s : lists_ok (recent s USHM_SIZE) (init_utmp_user s) /\ uinfo (init_utmp_user s) = uinfo s.
Proof.
  unfold init_utmp_user. set (s0 := Mem _ _ _ (uinfo s)).
  assert (E : recent s = recent s0) by reflexivity. rewrite E.
  assert (Hn : 0 + Z.of_nat (Z.to_nat USHM_SIZE) = USHM_SIZE) by (rewrite Z2Nat.id by done; done).
  destruct (init_loop_ok (Z.to_nat USHM_SIZE) 0 s0) as [H1 H2]; [done|lia| |].
  - split; [|split].
    + done.
    + intros u x Hu. unfold user in Hu. cbn [session_user s0].
      split; [intros H1; by apply not_elem_of_nil in H1|cbn; lia].
    + intros u _. constructor.
  - rewrite Hn in H1. by split.
Qed.

Inductive session_op := AddSession (x u : Z) | RemoveSession (x u : Z).

Definition run_op (s : utmp) (o : session_op) : utmp :=
  match o with
  | AddSession x u => add_to_utmp_user x u s
  | RemoveSession x u => remove_from_utmp_user x u s
  end.

Definition good_args (x u : Z) : bool := VALID_USHM_ENTRY x && good_user u.

(** The operations on lists. *)
Definition spec_op (L : Z -> list Z) (o : session_op) : Z -> list Z :=
  match o with
  | AddSession x u => if good_args x u then moved x u L else L
  | RemoveSession x u => if good_args x u then fun v => without x (L v) else L
  end.

(** Only a session of the user is removed. *)
Fixpoint all_fit (L : Z -> list Z) (ops : list session_op) : Prop :=
  match ops with
  | [] => True
  | o :: ops =>
      match o with RemoveSession x u => good_args x u = true -> x ∈ L u | AddSession _ _ => True end /\
      all_fit (spec_op L o) ops
  end.

Lemma op_ok L s o :
  lists_ok L s -> match o with RemoveSession x u => good_args x u = true -> x ∈ L u | _ => True end ->
  lists_ok (spec_op L o) (run_op s o) /\ uinfo (run_op s o) = uinfo s.
Proof.
  intros Hok Hfit. destruct o as [x u|x u]; cbn [spec_op run_op]; unfold good_args in *;
    destruct (VALID_USHM_ENTRY x && good_user u) eqn:E.
  - apply andb_true_iff in E as [Ex Eu]. apply valid_iff in Ex. apply good_user_iff in Eu. by apply add_ok.
  - unfold add_to_utmp_user. by rewrite <- negb_andb, E.
  - specialize (Hfit eq_refl). apply andb_true_iff in E as [Ex Eu]. apply valid_iff in Ex. apply good_user_iff in Eu.
    apply (proj1 (proj2 Hok) u x Eu) in Hfit as [_ Hs].
    by destruct (remove_ok L s x u Hok Ex Eu Hs) as (? & _ & ?).
  - unfold remove_from_utmp_user. by rewrite <- negb_andb, E.
Qed.

Lemma ops_ok ops : forall L s, lists_ok L s -> all_fit L ops ->
  lists_ok (fold_left spec_op ops L) (fold_left run_op ops s) /\ uinfo (fold_left run_op ops s) = uinfo s.
Proof.
  induction ops as [|o ops IH]; intros L s Hok Hfit; [done|]. cbn [fold_left all_fit] in *.
  destruct Hfit as [Ho Hfit]. destruct (op_ok L s o Hok Ho) as [H1 H2].
  destruct (IH _ _ H1 Hfit) as [H3 H4]. split; [done|]. by rewrite H4, H2.
Qed.

(** C30. From the sessions that are logged in, and for any sequence of sessions
    that come, move to another user and go, the linked lists are the lists of
    sessions of each user, the newest first; visiting a user calls back for
    the first 32 of his sessions, in order, up to one that is not alive, until
    the callback answers. *)
Theorem utmp_refines_lists s0 ops u A (callback : Z -> A -> A * Z) arg :
  all_fit (recent s0 USHM_SIZE) ops -> user u ->
  let s := fold_left run_op ops (init_utmp_user s0) in
  let L := fold_left spec_op ops (recent s0 USHM_SIZE) in
  lists_ok L s /\
  utmp_apply_user callback u s arg = visit callback (alive u s0 (take 32 (L u))) arg.
Proof.
  intros Hfit Hu s L. destruct (init_ok s0) as [H1 H2]. destruct (ops_ok ops _ _ H1 Hfit) as [H3 H4].
  split; [exact H3|]. unfold utmp_apply_user. rewrite (proj2 (good_user_iff _)) by done.
  destruct H3 as (Hl & _ & Hnd). rewrite (apply_loop_ok callback s u (L u)); [|by apply Hl|by apply Hnd].
  f_equal. generalize (take 32 (L u)) as l. induction l as [|x l IH]; [done|]. cbn [alive].
  unfold s. rewrite H4, H2. fold s. by rewrite IH.
Qed.

(** Two sessions of the user 7; the first one goes, and a third one comes. *)
Definition two_sessions : utmp :=
  Mem (fun _ => 0) (fun _ => 0) (fun _ => 0)
    (fun i => if i <? 3 then UserInfo 100 7 0 else UserInfo 0 0 0).

Lemma utmp_refines_lists_witness :
  let ops := [AddSession 1 8; RemoveSession 0 7; AddSession 0 8; AddSession 1 7] in
  let s := fold_left run_op ops (init_utmp_user two_sessions) in
  let L := fold_left spec_op ops (recent two_sessions USHM_SIZE) in
  lists_ok L s /\
  utmp_apply_user (fun x l => (l ++ [x], 0)) 7 s [] =
    visit (fun x l => (l ++ [x], 0)) (alive 7 two_sessions (take 32 (L 7))) [].
Proof.
  apply (utmp_refines_lists two_sessions [AddSession 1 8; RemoveSession 0 7; AddSession 0 8; AddSession 1 7] 7
           (list Z) (fun x l => (l ++ [x], 0)) []); [|done].
  cbn [all_fit]. split; [done|]. split; [|done]. intros _.
  apply (bool_decide_unpack _). by vm_compute.
Defined.

End UtmpProps.
