(* ===== verification/Money.v ===== *)
(** The money of the users ([common/bbs/cache.c], [common/bbs/passwd.c]): the
    balances in shared memory, which every process changes with a loop around an
    atomic exchange, and the copy of them in the password file.

    A process is a point in its code and [step] is one atomic operation, an
    atomic access to the shared memory or a system call on the file.  The
    balances of a user are at the index [uid - 1]; the code tests every user
    number before it uses it. *)

From stdpp Require Import functions.
From S2P Require Import Prelude Cstr.

#[global] Open Scope Z_scope.
#[global] Open Scope list_scope.

Module Money.

Definition MAX_USERS : Z := 150000.

(** [SHM->money], and the field [money] of the records of .PASSWDS. *)
Record bank := Bank { money : Z -> Z; passwds : Z -> Z }.

Definition store_money (i m : Z) (b : bank) : bank := Bank (<[i := m]> (money b)) (passwds b).
Definition write_money (i m : Z) (b : bank) : bank := Bank (money b) (<[i := m]> (passwds b)).

Definition moneyof (uid : Z) (b : bank) : Z := money b (uid - 1).

Definition good_uid (uid : Z) : bool := (0 <? uid) && (uid <=? MAX_USERS).

Inductive op := SetMoney (uid m : Z) | DeMoney (uid m : Z).

Inductive pc :=
  (* setumoney *)
  | SetStore (uid m : Z)
  (* deumoney *)
  | DeLoad (uid m : Z)
  | DeCas (uid m old_m new_m : Z)
  (* passwd_update_money, and the value to return after it *)
  | PwLoad (uid ret : Z)
  | PwWrite (uid m ret : Z)
  | Ret (r : Z).

Definition start (o : op) : pc :=
  match o with
  | SetMoney uid m => if good_uid uid then SetStore uid m else Ret (-1)
  | DeMoney uid m => if good_uid uid then DeLoad uid m else Ret (-1)
  end.

(** The new balance of [deumoney]; [- money] and [old_m + money] are sums of
    [int]s, and wrap. *)
Definition new_money (old_m m : Z) : Z :=
  if (m <? 0) && (old_m <? s32 (- m)) then 0 else s32 (old_m + m).

Definition step (b : bank) (c : pc) : bank * pc :=
  match c with
  | SetStore uid m => (store_money (uid - 1) m b, PwLoad uid m)
  | DeLoad uid m =>
      let old_m := money b (uid - 1) in (b, DeCas uid m old_m (new_money old_m m))
  | DeCas uid m old_m new_m =>
      if money b (uid - 1) =? old_m then (store_money (uid - 1) new_m b, PwLoad uid new_m)
      else (b, DeLoad uid m)
  | PwLoad uid ret => (b, PwWrite uid (moneyof uid b) ret)
  | PwWrite uid m ret => (write_money (uid - 1) m b, Ret ret)
  | Ret r => (b, Ret r)
  end.

(** *** One process alone *)

Fixpoint run (fuel : nat) (b : bank) (c : pc) : option (bank * Z) :=
  match c with
  | Ret r => Some (b, r)
  | _ =>
      match fuel with
      | O => None
      | S fuel => let '(b, c) := step b c in run fuel b c
      end
  end.

Definition setumoney (uid m : Z) (b : bank) : option (bank * Z) := run 3 b (start (SetMoney uid m)).
Definition deumoney (uid m : Z) (b : bank) : option (bank * Z) := run 4 b (start (DeMoney uid m)).

(** [pay_as_uid]: the user pays [m]; the log of the payment is not part of it. *)
Definition pay_as_uid (uid m : Z) (b : bank) : option (bank * Z) :=
  if m =? 0 then Some (b, 0) else deumoney uid (s32 (- m)) b.

(** *** Many processes *)

Definition sys : Type := bank * list pc.

Inductive sys_step : sys -> sys -> Prop :=
  | sys_step_at b ts i c :
      ts !! i = Some c ->
      sys_step (b, ts) ((step b c).1, <[i := (step b c).2]> ts).

Fixpoint schedule (w : sys) (l : list nat) : sys :=
  match l with
  | [] => w
  | i :: l =>
      match w.2 !! i with
      | Some c => schedule ((step w.1 c).1, <[i := (step w.1 c).2]> w.2) l
      | None => schedule w l
      end
  end.

End Money.
