(* ===== verification/MoneyProps.v ===== *)
(** The properties of the money of the users ([Money]): however the processes
    interleave, the balances are those of the operations one after the other. *)

From stdpp Require Import functions relations.
From S2P Require Import Prelude Cstr Money.

#[global] Open Scope Z_scope.
#[global] Open Scope list_scope.

Module MoneyProps.
Import Money.

(** *** The operations on balances *)

Definition op_uid (o : op) : Z := match o with SetMoney uid _ | DeMoney uid _ => uid end.

(** The new balance of the user, from the old one, with sums of [int]s. *)
Definition result (o : op) (old_m : Z) : Z :=
  match o with SetMoney _ m => m | DeMoney _ m => new_money old_m m end.

(** What the operations mean: to set the balance, or to change it by an amount
    and take what there is when it is less. *)
Definition meant (o : op) (old_m : Z) : Z :=
  match o with SetMoney _ m => m | DeMoney _ m => Z.max 0 (old_m + m) end.

Definition result_in (o : op) (f : Z -> Z) : Z := result o (f (op_uid o - 1)).

(** The operations of the processes in [lin], one after the other. *)
Definition one_by_one (res : op -> Z -> Z) (os : list op) (f : Z -> Z) (lin : list nat) : Z -> Z :=
  fold_left (fun f i => match os !! i with
                        | Some o => <[op_uid o - 1 := res o (f (op_uid o - 1))]> f
                        | None => f
                        end) lin f.

Definition balances := one_by_one result.

Lemma one_by_one_snoc res os f lin i o :
  os !! i = Some o ->
  one_by_one res os f (lin ++ [i]) =
    <[op_uid o - 1 := res o (one_by_one res os f lin (op_uid o - 1))]> (one_by_one res os f lin).
Proof. intros Ho. unfold one_by_one. rewrite fold_left_app. cbn. by rewrite Ho. Qed.

(** *** The invariant *)

(** Where a process with the operation [o] can be: before its exchange, or
    after it, when it is in the order. *)
Definition before (o : op) (c : pc) : Prop :=
  c = start o \/
  exists uid m old_m,
    o = DeMoney uid m /\ good_uid uid = true /\ c = DeCas uid m old_m (new_money old_m m).

Definition returns (c : pc) (uid r : Z) : Prop :=
  c = PwLoad uid r \/ (exists m, c = PwWrite uid m r) \/ c = Ret r.

(** The place of a process in the order, and what it returns. *)
Definition placed (os : list op) (f : Z -> Z) (lin : list nat) (i : nat) (o : op) (r : Z) : Prop :=
  exists l1 l2, lin = l1 ++ i :: l2 /\ r = result_in o (balances os f l1).

(** A value that was the balance at some time. *)
Definition past (os : list op) (f : Z -> Z) (lin : list nat) (i m : Z) : Prop :=
  exists l1 l2, lin = l1 ++ l2 /\ m = balances os f l1 i.

Record inv (os : list op) (b0 : bank) (lin : list nat) (w : sys) : Prop := Inv
  { inv_nodup : NoDup lin;
    inv_ops : forall i, i ∈ lin -> exists o, os !! i = Some o /\ good_uid (op_uid o) = true;
    inv_money : money w.1 = balances os (money b0) lin;
    inv_disk : forall x, passwds w.1 x = passwds b0 x \/ past os (money b0) lin x (passwds w.1 x);
    inv_len : length w.2 = length os;
    inv_procs : forall i o c, os !! i = Some o -> w.2 !! i = Some c ->
      (i ∉ lin /\ before o c) \/
      (good_uid (op_uid o) = true /\ (exists r, returns c (op_uid o) r /\ placed os (money b0) lin i o r) /\
       forall m r, c = PwWrite (op_uid o) m r -> past os (money b0) lin (op_uid o - 1) m) }.

Lemma placed_app os f lin i o r l : placed os f lin i o r -> placed os f (lin ++ l) i o r.
Proof. intros (l1 & l2 & -> & ->). exists l1, (l2 ++ l). split; [|done]. by rewrite <- app_assoc. Qed.

Lemma past_app os f lin x m l : past os f lin x m -> past os f (lin ++ l) x m.
Proof. intros (l1 & l2 & -> & ->). exists l1, (l2 ++ l). split; [|done]. by rewrite <- app_assoc. Qed.

Lemma past_now os f lin x : past os f lin x (balances os f lin x).
Proof. exists lin, []. by rewrite app_nil_r. Qed.

(** A step that changes no memory and leaves the order as it is. *)
Lemma inv_local os b0 lin b ts i o c c' :
  inv os b0 lin (b, ts) -> os !! i = Some o -> ts !! i = Some c ->
  ((i ∉ lin /\ before o c') \/
   (good_uid (op_uid o) = true /\ (exists r, returns c' (op_uid o) r /\ placed os (money b0) lin i o r) /\
    forall m r, c' = PwWrite (op_uid o) m r -> past os (money b0) lin (op_uid o - 1) m)) ->
  inv os b0 lin (b, <[i := c']> ts).
Proof.
  intros [Hnd Hops Hm Hd Hlen Hp] Ho Hc H. split; try done; cbn in *; [by rewrite length_insert|].
  intros j oj cj Hoj Hcj. destruct (decide (j = i)) as [->|Hne].
  - rewrite list_lookup_insert_eq in Hcj by (by eapply lookup_lt_Some). simplify_eq. done.
  - rewrite list_lookup_insert_ne in Hcj by done. by eapply Hp.
Qed.

(** The exchange of the process [i] puts it in the order. *)
Lemma inv_linearize os b0 lin b ts i o c :
  inv os b0 lin (b, ts) -> os !! i = Some o -> ts !! i = Some c -> i ∉ lin ->
  good_uid (op_uid o) = true ->
  inv os b0 (lin ++ [i])
    (store_money (op_uid o - 1) (result_in o (money b)) b,
     <[i := PwLoad (op_uid o) (result_in o (money b))]> ts).
Proof.
  intros [Hnd Hops Hm Hd Hlen Hp] Ho Hc Hi Hg. cbn in *. split; cbn.
  - apply list.NoDup_app. split; [done|]. split; [|by apply NoDup_singleton].
    intros x Hx ->%list_elem_of_singleton. done.
  - intros j [Hj| ->%list_elem_of_singleton]%list.elem_of_app; [by apply Hops|]. by exists o.
  - unfold balances in *. rewrite (one_by_one_snoc result os (money b0) lin i o Ho), <- Hm. done.
  - intros x. destruct (Hd x) as [H|H]; [by left|right]. by apply past_app.
  - by rewrite length_insert.
  - intros j oj cj Hoj Hcj. destruct (decide (j = i)) as [->|Hne].
    + rewrite list_lookup_insert_eq in Hcj by (by eapply lookup_lt_Some). simplify_eq. right.
      split; [done|]. split; [|done]. exists (result_in o (money b)). split; [by left|].
      exists lin, []. by rewrite Hm.
    + rewrite list_lookup_insert_ne in Hcj by done. destruct (Hp j oj cj Hoj Hcj) as [[Hj Hb]|(Hgj & Hr & Hw)].
      * left. split; [|done]. rewrite list.elem_of_app, list_elem_of_singleton. tauto.
      * right. split; [done|]. split.
        -- destruct Hr as (r & Hr & Hpl). exists r. split; [done|]. by apply placed_app.
        -- intros m r Hcm. apply past_app. by eapply Hw.
Qed.

Lemma money_inv_step os b0 lin w w' : inv os b0 lin w -> sys_step w w' -> exists lin', inv os b0 lin' w'.
Proof.
  intros Hinv Hs. destruct Hs as [b ts i c Hc]. pose proof Hinv as [Hnd Hops Hm Hd Hlen Hp]. cbn in *.
  destruct (os !! i) as [o|] eqn:Ho.
  2:{ apply lookup_ge_None in Ho. apply lookup_lt_Some in Hc. lia. }
  destruct (Hp i o c Ho Hc) as [[Hi Hb]|(Hg & (r & Hr & Hpl) & Hw)].
  - destruct Hb as [->|(uid & m & old_m & -> & Hg & ->)].
    + destruct o as [uid m|uid m]; cbn [start] in *; destruct (good_uid uid) eqn:Hg; cbn [step fst snd].
      * exists (lin ++ [i]). apply (inv_linearize os b0 lin b ts i (SetMoney uid m) _ Hinv Ho Hc Hi Hg).
      * exists lin. eapply inv_local; [done..|]. left. split; [done|]. left. cbn [start]. by rewrite Hg.
      * exists lin. eapply inv_local; [done..|]. left. split; [done|]. right.
        by exists uid, m, (money b (uid - 1)).
      * exists lin. eapply inv_local; [done..|]. left. split; [done|]. left. cbn [start]. by rewrite Hg.
    + cbn [step]. destruct (Z.eqb_spec (money b (uid - 1)) old_m) as [E|E]; cbn [fst snd].
      * exists (lin ++ [i]).
        pose proof (inv_linearize os b0 lin b ts i (DeMoney uid m) _ Hinv Ho Hc Hi Hg) as H.
        unfold result_in in H. cbn [op_uid result] in H. by rewrite E in H.
      * exists lin. eapply inv_local; [done..|]. left. split; [done|]. left. cbn [start]. by rewrite Hg.
  - exists lin. destruct Hr as [->|[[m ->]| ->]]; cbn [step fst snd].
    + eapply inv_local; [done..|]. right. split; [done|]. split.
      * exists r. split; [|done]. right. left. by eexists.
      * intros m r' [= <- <-]. unfold moneyof. rewrite Hm. apply past_now.
    + assert (H : inv os b0 lin (write_money (op_uid o - 1) m b, ts)).
      { split; try done. cbn. intros x. destruct (decide (x = op_uid o - 1)) as [->|Hne].
        - rewrite fn_lookup_insert. right. by eapply Hw.
        - rewrite fn_lookup_insert_ne by done. apply Hd. }
      eapply inv_local; [done..|]. right. split; [done|]. split; [|done].
      exists r. split; [|done]. right. by right.
    + eapply inv_local; [done..|]. right. split; [done|]. split; [|done]. exists r. split; [|done]. right. by right.
Qed.

Lemma inv_init os b0 : inv os b0 [] (b0, map start os).
Proof.
  split; cbn; try done.
  - constructor.
  - intros i Hi. by apply not_elem_of_nil in Hi.
  - intros x. by left.
  - by rewrite length_map.
  - intros i o c Ho Hc. rewrite list_lookup_fmap, Ho in Hc. injection Hc as <-.
    left. split; [apply not_elem_of_nil|by left].
Qed.

Lemma inv_reachable os b0 w : rtc sys_step (b0, map start os) w -> exists lin, inv os b0 lin w.
Proof.
  assert (H : forall w0 w, rtc sys_step w0 w -> (exists lin, inv os b0 lin w0) -> exists lin, inv os b0 lin w).
  { induction 1 as [|w0 w1 w2 Hs _ IH]; [done|]. intros [lin Hi]. apply IH. by eapply money_inv_step. }
  intros Hr. eapply H; [done|]. eexists. apply inv_init.
Qed.

(** *** The range of the balances *)

Definition in_range (m : Z) : Prop := 0 <= m < 2 ^ 31.

Definition op_money (o : op) : Z := match o with SetMoney _ m | DeMoney _ m => m end.

(** Every [Z] the operations are given is an [int]. *)
Definition ops_int (os : list op) : Prop := Forall (fun o => is_s32 (op_money o)) os.

(** No balance is set to a negative amount, and no amount is the least [int],
    whose negation is not an [int]. *)
Definition ops_range (os : list op) : Prop :=
  Forall (fun o => match o with SetMoney _ m => in_range m | DeMoney _ m => - 2 ^ 31 < m < 2 ^ 31 end) os.

(** In the order [lin] no balance and amount add up to [2 ^ 31] or more. *)
Definition no_overflow (os : list op) (f : Z -> Z) (lin : list nat) : Prop :=
  forall l1 i l2 uid m, lin = l1 ++ i :: l2 -> os !! i = Some (DeMoney uid m) ->
    one_by_one meant os f l1 (uid - 1) + m < 2 ^ 31.

Lemma one_by_one_ind (P : Z -> Prop) res os f lin :
  (forall x, P (f x)) -> (forall o m, o ∈ os -> P m -> P (res o m)) ->
  forall x, P (one_by_one res os f lin x).
Proof.
  intros Hf Hres. induction lin as [|i lin IH] using rev_ind; [done|]. intros x.
  destruct (os !! i) as [o|] eqn:Ho.
  - rewrite (one_by_one_snoc res os f lin i o Ho). destruct (decide (x = op_uid o - 1)) as [->|Hne].
    + rewrite fn_lookup_insert. apply Hres; [by eapply list_elem_of_lookup_2|apply IH].
    + by rewrite fn_lookup_insert_ne.
  - unfold one_by_one. rewrite fold_left_app. cbn. rewrite Ho. apply IH.
Qed.

Lemma balances_int os f lin x : (forall x, is_s32 (f x)) -> ops_int os -> is_s32 (balances os f lin x).
Proof.
  intros Hf Hos. apply (one_by_one_ind is_s32 result); [done|]. intros o m Ho _.
  pose proof (proj1 (list.Forall_forall _ _) Hos o Ho) as Hm.
  destruct o as [uid a|uid a]; [done|]. cbn [result]. unfold new_money.
  destruct (_ && _); [unfold is_s32; lia|apply s32_range].
Qed.

(** Without an overflow the step of the code is the one that is meant. *)
Lemma result_meant o m :
  in_range m -> match o with SetMoney _ a => in_range a | DeMoney _ a => - 2 ^ 31 < a < 2 ^ 31 end ->
  (forall uid a, o = DeMoney uid a -> m + a < 2 ^ 31) ->
  result o m = meant o m /\ in_range (meant o m).
Proof.
  unfold in_range. destruct o as [uid a|uid a]; cbn [result meant]; [done|]. intros Hm Ha Ho.
  specialize (Ho uid a eq_refl). unfold new_money.
  rewrite (s32_small (- a)), (s32_small (m + a)) by (unfold is_s32; lia).
  destruct (Z.ltb_spec a 0), (Z.ltb_spec m (- a)); cbn [andb]; lia.
Qed.

Lemma balances_meant os f lin :
  (forall x, in_range (f x)) -> ops_range os -> no_overflow os f lin ->
  balances os f lin = one_by_one meant os f lin /\ forall x, in_range (balances os f lin x).
Proof.
  intros Hf Hos. induction lin as [|i lin IH] using rev_ind; [done|]. intros Hno.
  destruct IH as [E Hr].
  { intros l1 j l2 uid m -> Hj. apply (Hno l1 j (l2 ++ [i])); [|done]. by rewrite <- app_assoc. }
  unfold balances in *. destruct (os !! i) as [o|] eqn:Ho.
  2:{ unfold one_by_one in *. rewrite !fold_left_app. cbn. by rewrite Ho. }
  destruct (result_meant o (one_by_one result os f lin (op_uid o - 1))) as [Em Hm].
  - apply Hr.
  - exact (proj1 (list.Forall_forall _ _) Hos o (list_elem_of_lookup_2 _ _ _ Ho)).
  - intros uid a ->. rewrite E. by apply (Hno lin i []).
  - rewrite !(one_by_one_snoc _ os f lin i o Ho), Em, <- E. split; [done|]. intros x.
    destruct (decide (x = op_uid o - 1)) as [->|Hne]; [by rewrite fn_lookup_insert|].
    by rewrite fn_lookup_insert_ne.
Qed.

(** *** The properties *)

(** C25. However the processes interleave that set and change balances, there is
    an order of those that have passed their exchange in which, one after the
    other, they give the balances that are in memory; a process that has ended
    returned the balance right after its turn, or -1 for a bad user number; what
    the password file holds for a user was his balance at some time.  The
    balances stay [int]s, and as long as no balance and amount add up to
    [2 ^ 31], they are what the operations mean (an amount added, or taken as far
    as the balance goes) and none is negative. *)
Theorem money_linearizable os b0 b ts :
  rtc sys_step (b0, map start os) (b, ts) ->
  exists lin, NoDup lin /\ (forall i, i ∈ lin -> (i < length os)%nat) /\
    money b = balances os (money b0) lin /\
    (forall i o r, os !! i = Some o -> ts !! i = Some (Ret r) ->
       if good_uid (op_uid o) then placed os (money b0) lin i o r else r = -1) /\
    (forall x, passwds b x = passwds b0 x \/ past os (money b0) lin x (passwds b x)) /\
    ((forall x, is_s32 (money b0 x)) -> ops_int os -> forall x, is_s32 (money b x)) /\
    ((forall x, in_range (money b0 x)) -> ops_range os -> no_overflow os (money b0) lin ->
     money b = one_by_one meant os (money b0) lin /\ forall x, in_range (money b x)).
Proof.
  intros Hr. destruct (inv_reachable os b0 _ Hr) as [lin [Hnd Hops Hm Hd Hlen Hp]]. cbn in *.
  exists lin. split; [done|]. split; [|split; [done|split; [|split; [done|split]]]].
  - intros i Hi. destruct (Hops i Hi) as (o & Ho & _). by eapply lookup_lt_Some.
  - intros i o r Ho Hc. destruct (Hp i o _ Ho Hc) as [[Hi Hb]|(Hg & (r' & Hret & Hpl) & _)].
    + destruct Hb as [E|(uid & m & old_m & _ & _ & E)]; [|done].
      destruct o as [uid m|uid m]; cbn in *; destruct (good_uid uid); congruence.
    + rewrite Hg. destruct Hret as [E|[[m E]|E]]; try done. by injection E as ->.
  - intros Hb Hs x. rewrite Hm. by apply balances_int.
  - intros Hb Hs Hno. rewrite Hm. by apply balances_meant.
Qed.

Lemma money_schedule_rtc l : forall w, rtc sys_step w (schedule w l).
Proof.
  induction l as [|i l IH]; intros [b ts]; cbn [schedule fst snd]; [done|].
  destruct (ts !! i) as [c|] eqn:Hc; [|done]. eapply rtc_l; [by apply sys_step_at|]. apply IH.
Qed.

Definition forty : bank := Bank (fun _ => 40) (fun _ => 40).

(** Both load the balance; the exchange of the second one fails once. *)
Definition pay_twice : list op := [DeMoney 1 (-50); DeMoney 1 30; DeMoney 0 7].
Definition interleaved : list nat := [0; 1; 1; 0; 0; 0; 1; 1; 0; 0]%nat.

Lemma money_linearizable_witness :
  let w := schedule (forty, map start pay_twice) interleaved in
  w.2 = [Ret 20; Ret 70; Ret (-1)] /\
  exists lin, NoDup lin /\ (forall i, i ∈ lin -> (i < length pay_twice)%nat) /\
    money w.1 = balances pay_twice (money forty) lin /\
    (forall i o r, pay_twice !! i = Some o -> w.2 !! i = Some (Ret r) ->
       if good_uid (op_uid o) then placed pay_twice (money forty) lin i o r else r = -1) /\
    (forall x, passwds w.1 x = passwds forty x \/ past pay_twice (money forty) lin x (passwds w.1 x)) /\
    ((forall x, is_s32 (money forty x)) -> ops_int pay_twice -> forall x, is_s32 (money w.1 x)) /\
    ((forall x, in_range (money forty x)) -> ops_range pay_twice ->
     no_overflow pay_twice (money forty) lin ->
     money w.1 = one_by_one meant pay_twice (money forty) lin /\ forall x, in_range (money w.1 x)).
Proof.
  split; [vm_compute; reflexivity|].
  apply (money_linearizable pay_twice forty _ (schedule (forty, map start pay_twice) interleaved).2).
  rewrite <- surjective_pairing. apply money_schedule_rtc.
Defined.

(** A deposit is added without a test: a balance of [2 ^ 31 - 1] and one more is
    stored as [- 2 ^ 31], and written to the file. *)
Example deposit_wraps :
  deumoney 1 1 (Bank (fun _ => 2 ^ 31 - 1) (fun _ => 0)) <> None /\
  forall b r, deumoney 1 1 (Bank (fun _ => 2 ^ 31 - 1) (fun _ => 0)) = Some (b, r) ->
    r = - 2 ^ 31 /\ money b 0 = - 2 ^ 31 /\ passwds b 0 = - 2 ^ 31.
Proof. split; [by vm_compute|]. intros b r [= <- <-]. by vm_compute. Qed.

(** The copy in the file can stay behind: the first process reads the balance 50
    for the file, the second one makes it 55 and writes it, and the first one
    writes 50 last. *)
Example passwds_stays_behind :
  let w := schedule (forty, map start [DeMoney 1 10; DeMoney 1 5]) [0; 0; 0; 1; 1; 1; 1; 0]%nat in
  w.2 = [Ret 50; Ret 55] /\ money w.1 0 = 55 /\ passwds w.1 0 = 50.
Proof. vm_compute. auto. Qed.

End MoneyProps.
