(* ===== verification/Boards.v ===== *)
(** The table of boards in shared memory ([common/bbs/cache.c]): the sorted
    indices and the search in them, the lists of the boards of a group, the
    counters of posts and the pinned articles.

    The operations are those of one process; what another process does to the
    pinned articles in the middle of an operation is an argument.  [None] is an
    access out of bounds, a failed assertion, an overflow, or no fuel. *)

From stdpp Require Import functions.
From S2P Require Import Prelude Cstr Stamp Aids Uhash.

#[global] Open Scope Z_scope.
#[global] Open Scope list_scope.

Module Boards.
Import Cstr Stamp Aids.

Definition MAX_BOARD : Z := 8192.
Definition MAX_BMs : nat := 4.
Definition MAX_BOTTOM_POSTS : nat := 5.

(** The types of the lists of a group. *)
Definition BRD_GROUP_LL_TYPE_NAME : Z := 0.
Definition BRD_GROUP_LL_TYPE_CLASS : Z := 1.

(** The fields the modelled code reads and writes; [moderators] are the user
    numbers of the moderators. *)
Record boardheader_t := BoardHeader
  { brdname : list Z; bclass : list Z; gid : Z;
    next : Z -> Z; firstchild : Z -> Z; parent : Z; childcount : Z;
    moderators : list Z; bottom : list Z }.

Definition with_next (t x : Z) (b : boardheader_t) : boardheader_t :=
  BoardHeader (brdname b) (bclass b) (gid b) (<[t := x]> (next b)) (firstchild b) (parent b)
    (childcount b) (moderators b) (bottom b).
Definition with_firstchild (t x : Z) (b : boardheader_t) : boardheader_t :=
  BoardHeader (brdname b) (bclass b) (gid b) (next b) (<[t := x]> (firstchild b)) (parent b)
    (childcount b) (moderators b) (bottom b).
Definition with_parent (x : Z) (b : boardheader_t) : boardheader_t :=
  BoardHeader (brdname b) (bclass b) (gid b) (next b) (firstchild b) x
    (childcount b) (moderators b) (bottom b).
Definition with_childcount (x : Z) (b : boardheader_t) : boardheader_t :=
  BoardHeader (brdname b) (bclass b) (gid b) (next b) (firstchild b) (parent b)
    x (moderators b) (bottom b).
Definition with_bottom (x : list Z) (b : boardheader_t) : boardheader_t :=
  BoardHeader (brdname b) (bclass b) (gid b) (next b) (firstchild b) (parent b)
    (childcount b) (moderators b) x.

(** [bcache] and the other arrays are at [bid - 1]; [bsorted t] has [MAX_BOARD]
    entries. *)
Record shm := Shm
  { Bbusystate : Z; Bnumber : Z; bcache : Z -> boardheader_t; bsorted : Z -> list Z;
    total : Z -> Z; lastposttime : Z -> Z; n_bottom : Z -> Z }.

Definition with_bcache (f : Z -> boardheader_t) (s : shm) : shm :=
  Shm (Bbusystate s) (Bnumber s) f (bsorted s) (total s) (lastposttime s) (n_bottom s).
Definition with_sorted (f : Z -> list Z) (s : shm) : shm :=
  Shm (Bbusystate s) (Bnumber s) (bcache s) f (total s) (lastposttime s) (n_bottom s).
Definition with_posts (i n t : Z) (s : shm) : shm :=
  Shm (Bbusystate s) (Bnumber s) (bcache s) (bsorted s) (<[i := n]> (total s))
    (<[i := t]> (lastposttime s)) (n_bottom s).
Definition with_total (i n : Z) (s : shm) : shm :=
  Shm (Bbusystate s) (Bnumber s) (bcache s) (bsorted s) (<[i := n]> (total s)) (lastposttime s) (n_bottom s).
Definition with_n_bottom (i n : Z) (s : shm) : shm :=
  Shm (Bbusystate s) (Bnumber s) (bcache s) (bsorted s) (total s) (lastposttime s) (<[i := n]> (n_bottom s)).

Definition getbcache (bid : Z) (s : shm) : boardheader_t := bcache s (bid - 1).
Definition set_board (bid : Z) (f : boardheader_t -> boardheader_t) (s : shm) : shm :=
  with_bcache (<[bid - 1 := f (getbcache bid s)]> (bcache s)) s.

Definition valid_bid (bid : Z) : bool := (0 <=? bid - 1) && (bid - 1 <? MAX_BOARD).
Definition num_boards (s : shm) : Z := Bnumber s.

(** *** Sorting *)

Definition cmpboardname (s : shm) (i j : Z) : Z := strcasecmp (brdname (bcache s i)) (brdname (bcache s j)).
Definition cmpboardclass (s : shm) (i j : Z) : Z :=
  let cmp := strcmp (bclass (bcache s i)) (bclass (bcache s j)) in
  if negb (cmp =? 0) then cmp else strcasecmp (brdname (bcache s i)) (brdname (bcache s j)).

Section Sort.
(** qsort(3) with a comparison function. *)
Variable qsort : (Z -> Z -> Z) -> list Z -> list Z.

(** The first [n] entries are filled with their indices and sorted. *)
Definition sort_indices (cmp : Z -> Z -> Z) (n : Z) (l : list Z) : list Z :=
  qsort cmp (seqZ 0 n) ++ drop (Z.to_nat n) l.

Definition no_children (b : boardheader_t) : boardheader_t :=
  with_firstchild BRD_GROUP_LL_TYPE_CLASS 0 (with_firstchild BRD_GROUP_LL_TYPE_NAME 0 b).

Definition sort_bcache (s : shm) : shm :=
  if negb (Bbusystate s =? 0) then s
  else
    let n := Bnumber s in
    let s := with_sorted (<[BRD_GROUP_LL_TYPE_CLASS :=
                sort_indices (cmpboardclass s) n (bsorted s BRD_GROUP_LL_TYPE_CLASS)]>
               (<[BRD_GROUP_LL_TYPE_NAME :=
                sort_indices (cmpboardname s) n (bsorted s BRD_GROUP_LL_TYPE_NAME)]> (bsorted s))) s in
    with_bcache (fun i => if (0 <=? i) && (i <? n) then no_children (bcache s i) else bcache s i) s.
End Sort.

(** *** Searching *)

(** The loop of [getbnum]; [e] is the variable [end], and [i] is computed at
    the head of every turn. *)
Fixpoint getbnum_loop (fuel : nat) (bname : list Z) (s : shm) (start e : Z) : option Z :=
  match fuel with
  | O => None
  | S fuel =>
      let i := Z.quot (start + e) 2 in
      x ← zget (bsorted s BRD_GROUP_LL_TYPE_NAME) i;
      if negb (valid_bid (x + 1)) then None
      else
        let j := strcasecmp bname (brdname (bcache s x)) in
        if j =? 0 then Some (x + 1)
        else if e =? start then Some 0
        else if i =? start then getbnum_loop fuel bname s e e
        else if 0 <? j then getbnum_loop fuel bname s i e
        else getbnum_loop fuel bname s start i
  end.

Definition getbnum (bname : list Z) (s : shm) : option Z :=
  getbnum_loop (S (S (Z.to_nat (Bnumber s)))) bname s 0 (Bnumber s - 1).

(** *** The lists of a group *)

(** [currbptr] is the board [curr], and [parent] the board [g]. *)
Fixpoint group_loop (l : list Z) (t g curr count : Z) (s : shm) : option (shm * Z * Z) :=
  match l with
  | [] => Some (s, curr, count)
  | x :: l =>
      let bid := x + 1 in
      if bid <=? 0 then group_loop l t g curr count s
      else if negb (valid_bid bid) then None
      else
        match brdname (getbcache bid s) with
        | [] => group_loop l t g curr count s
        | _ =>
            if gid (getbcache bid s) =? g then
              let s := if curr =? g then set_board curr (with_firstchild t bid) s
                       else set_board curr (fun b => with_parent g (with_next t bid b)) s in
              group_loop l t g bid (count + 1) s
            else group_loop l t g curr count s
        end
  end.

Definition resolve_board_group (g t : Z) (s : shm) : option shm :=
  if negb ((0 <=? t) && (t <? 2)) || negb (valid_bid g) then None
  else if negb ((0 <=? num_boards s) && (num_boards s <=? MAX_BOARD)) then None
  else
    '(s, curr, count) ← group_loop (take (Z.to_nat (num_boards s)) (bsorted s t)) t g g 0 s;
    let s := set_board g (with_childcount count) s in
    Some (if curr =? g then set_board curr (with_firstchild t (-1)) s
          else set_board curr (with_next t (-1)) s).

(** *** Posts *)

Definition touchbtotal (bid : Z) (s : shm) : option shm :=
  if valid_bid bid then Some (with_posts (bid - 1) 0 0 s) else None.

Definition is_int (x : Z) : bool := (- 2 ^ 31 <=? x) && (x <? 2 ^ 31).

Definition touchbpostnum (bid delta : Z) (s : shm) : option shm :=
  if negb (valid_bid bid) then Some s
  else
    let old_val := total s (bid - 1) in
    if old_val <=? 0 then Some s
    else if negb (is_int (old_val + delta)) then None
    else
      let new_val := old_val + delta in
      let new_val := if new_val <? 0 then 0 else new_val in
      Some (with_total (bid - 1) new_val s).

(** [dir] is the .DIR of the board, [None] when it cannot be opened; reading it
    succeeds. *)
Definition setbtotal (dir : option (list fileheader)) (bid : Z) (s : shm) : option shm :=
  if negb (valid_bid bid) then None
  else
    match dir with
    | None => Some (with_posts (bid - 1) 0 0 s)
    | Some dir =>
        let num := zlen dir in
        let t :=
          if 0 <? num then
            match zget dir (num - 1) with
            | Some fh => get_fhdr_stamp_ts (Some (filename fh))
            | None => 0
            end
          else 0 in
        Some (with_posts (bid - 1) num t s)
    end.

(** *** Pinned articles *)

Definition bottom_count (l : list Z) : Z := zlen (List.filter (fun a => negb (aidu_raw a =? 0)) l).

Definition getbottomtotal (bid : Z) (s : shm) : Z :=
  if negb (valid_bid bid) then 0 else n_bottom s (bid - 1).

Definition setbottomtotal (bid : Z) (s : shm) : shm :=
  if negb (valid_bid bid) then s
  else
    match brdname (getbcache bid s) with
    | [] => s
    | _ => with_n_bottom (bid - 1) (bottom_count (bottom (getbcache bid s))) s
    end.

Section Bottoms.
Variable conv : fileheader -> fileheader.

(** The slots [snap] from [i] on; [slots] and [recs] are [new_slots] and
    [out_recs], whose length is [valid_cnt]. *)
Fixpoint bottoms_loop (dir : list fileheader) (snap : list Z) (i : Z) (slots recs : list Z) (dirty : bool)
    : option (list Z * list Z * bool) :=
  match snap with
  | [] => Some (slots, recs, dirty)
  | a :: snap =>
      if aidu_raw a =? 0 then bottoms_loop dir snap (i + 1) slots recs dirty
      else
        let old_idx := aidu_idx a in
        '(found_idx, _) ← search_dir_by_aidu_fd conv dir (zlen dir) a FILE_BOTTOM;
        if 0 <? found_idx then
          let expected_idx := if found_idx <=? AIDU_IDX_MASK then found_idx else 0 in
          bottoms_loop dir snap (i + 1) (slots ++ [aidu_with_idx a expected_idx]) (recs ++ [found_idx])
            (dirty || negb (expected_idx =? old_idx) || negb (zlen slots =? i))
        else bottoms_loop dir snap (i + 1) slots recs true
  end.

(** The points at which other processes can have changed the slots since the last
    access to them: when they are copied to [snap], compared with it, overwritten,
    and written to the file. *)
Inductive moment := AtSnapshot | AtCompare | AtCopy | AtWrite.

#[export] Instance moment_eq_dec : EqDecision moment.
Proof. solve_decision. Defined.

(** [other] is what another process has made of the slots at each point, if it
    has.  The results are the memory, the slots written to the file of boards if
    any, the count, and the records. *)
Definition resolve_board_bottoms (dir : option (list fileheader)) (other : moment -> option (list Z))
    (bid : Z) (s : shm)
    : option (shm * option (list Z) * Z * list Z) :=
  if negb (valid_bid bid) then Some (s, None, 0, [])
  else
    let bh := getbcache bid s in
    match brdname bh, dir with
    | [], _ => Some (s, None, 0, [])
    | _, None => Some (s, None, 0, [])
    | _, Some dir =>
        if bottom_count (bottom bh) =? 0 then Some (s, None, 0, [])
        else
          let touch p s := match other p with Some l => set_board bid (with_bottom l) s | None => s end in
          let s := touch AtSnapshot s in
          let snap := bottom (getbcache bid s) in
          '(slots, recs, dirty) ← bottoms_loop dir snap 0 [] [] false;
          let s := touch AtCompare s in
          let new_slots := slots ++ replicate (MAX_BOTTOM_POSTS - length slots) 0 in
          let write := dirty && bool_decide (snap = bottom (getbcache bid s)) in
          let s := if write then touch AtWrite (set_board bid (with_bottom new_slots) (touch AtCopy s)) else s in
          Some (with_n_bottom (bid - 1) (zlen slots) s,
                if write then Some (bottom (getbcache bid s)) else None, zlen slots, recs)
    end.
End Bottoms.

(** The slot of the article in [pin_post], the last one that has it. *)
Fixpoint slot_of (l : list Z) (target_raw i : Z) : Z :=
  match l with
  | [] => -1
  | a :: l =>
      let r := slot_of l target_raw (i + 1) in
      if 0 <=? r then r
      else if aidu_raw a =? 0 then -1
      else if aidu_raw a =? target_raw then i else -1
  end.

(** The change of the slots in [pin_post], once it is confirmed; [modified] is
    that the header of the article could be changed. *)
Definition pin_slots (l : list Z) (target_raw ent : Z) (modified : bool) : list Z :=
  let slot_idx := slot_of l target_raw 0 in
  let num := bottom_count l in
  if slot_idx <? 0 then
    if Z.of_nat MAX_BOTTOM_POSTS <=? num then l
    else if negb modified then l
    else <[Z.to_nat num := aidu_with_idx target_raw ent]> l
  else if negb modified then l
  else take (Z.to_nat slot_idx) l ++ drop (Z.to_nat (slot_idx + 1)) l ++ [0].

(** *** Moderators *)

Definition does_board_have_bm (b : boardheader_t) : bool := 0 <? hd 0 (moderators b).

Fixpoint format_loop (users : Uhash.shm) (l : list Z) (buflen : Z) (buf : list Z) : list Z :=
  match l with
  | [] => buf
  | uid :: l =>
      format_loop users l buflen
        (if (0 <? uid) && (uid <=? Uhash.MAX_USERS) then
           match Uhash.getuserid uid users with
           | None | Some [] => buf
           | Some name =>
               let buf := match buf with [] => buf | _ => strlcat buflen buf [47] end in
               strlcat buflen buf name
           end
         else buf)
  end.

Definition board_format_moderators (users : Uhash.shm) (b : boardheader_t) (buflen : Z) : list Z :=
  if buflen =? 0 then [] else format_loop users (moderators b) buflen [].

End Boards.
