(* ===== verification/BoardsProps.v ===== *)
(** The properties of the table of boards ([Boards]): the search in the sorted
    index, the lists of the boards of a group, and the pinned articles. *)

From stdpp Require Import functions sorting list_numbers.
From S2P Require Import Prelude Cstr Stamp Aids AidsProps Uhash Boards.

#[global] Open Scope Z_scope.
#[global] Open Scope list_scope.

Module BoardsProps.
Import Cstr Aids Boards.

(** *** The order of names *)

(** The characters of a string are positive. *)
Definition name_ok (s : list Z) : Prop := Forall (fun c => 0 < c) s.

(** [strncasecmp] with a count that the strings do not reach. *)
Fixpoint casecmp (a b : list Z) : Z :=
  match a, b with
  | [], [] => 0
  | [], y :: _ => - tolower y
  | x :: _, [] => tolower x
  | x :: a, y :: b => if tolower x =? tolower y then casecmp a b else tolower x - tolower y
  end.

Lemma strncasecmp_long n a : forall b,
  (length a < n)%nat -> (length b < n)%nat -> strncasecmp n a b = casecmp a b.
Proof.
  revert a. induction n as [|n IH]; intros [|x a] [|y b] Ha Hb; cbn in *; try lia; try done.
  case_match; [apply IH; lia|done].
Qed.

Lemma strcasecmp_casecmp a b : strcasecmp a b = casecmp a b.
Proof. apply strncasecmp_long; lia. Qed.

Lemma tolower_pos c : 0 < c -> 0 < tolower c.
Proof. unfold tolower. case_match; lia. Qed.

Lemma casecmp_antisym a : forall b, casecmp b a = - casecmp a b.
Proof.
  induction a as [|x a IH]; intros [|y b]; cbn; try lia.
  rewrite (Z.eqb_sym (tolower y)). case_match; [apply IH|lia].
Qed.

Lemma casecmp_trans a : forall b c, name_ok a -> name_ok b -> name_ok c ->
  casecmp a b <= 0 -> casecmp b c <= 0 -> casecmp a c <= 0.
Proof.
  unfold name_ok.
  induction a as [|x a IH]; intros [|y b] [|z c] Ha Hb Hc; cbn [casecmp]; try lia; rewrite ?list.Forall_cons in *;
    repeat match goal with H : _ /\ _ |- _ => destruct H end;
    repeat match goal with H : 0 < ?c |- _ => is_var c; apply tolower_pos in H end; intros L1 L2; try lia.
  destruct (Z.eqb_spec (tolower x) (tolower y)), (Z.eqb_spec (tolower y) (tolower z)),
    (Z.eqb_spec (tolower x) (tolower z)); try lia. by apply (IH b c).
Qed.

(** A name that comes before [b] comes before what [b] does not follow. *)
Lemma casecmp_lt_le a b c : name_ok a -> name_ok b -> name_ok c ->
  casecmp a b < 0 -> casecmp b c <= 0 -> casecmp a c < 0.
Proof.
  intros Ha Hb Hc H1 H2. destruct (Z_lt_le_dec (casecmp a c) 0) as [|H]; [done|].
  pose proof (casecmp_antisym a c). pose proof (casecmp_antisym a b).
  assert (casecmp b a <= 0) by (apply (casecmp_trans b c a); lia || done). lia.
Qed.

Lemma strcmp_antisym a : forall b, strcmp b a = - strcmp a b.
Proof.
  induction a as [|x a IH]; intros [|y b]; cbn; try lia.
  rewrite (Z.eqb_sym y). case_match; [apply IH|lia].
Qed.

Lemma strcmp_trans a : forall b c, name_ok a -> name_ok b -> name_ok c ->
  strcmp a b <= 0 -> strcmp b c <= 0 -> strcmp a c <= 0 /\ (strcmp a c = 0 -> strcmp a b = 0 /\ strcmp b c = 0).
Proof.
  unfold name_ok.
  induction a as [|x a IH]; intros [|y b] [|z c] Ha Hb Hc; cbn [strcmp]; try lia; rewrite ?list.Forall_cons in *;
    repeat match goal with H : _ /\ _ |- _ => destruct H end; intros L1 L2; try lia.
  destruct (Z.eqb_spec x y), (Z.eqb_spec y z), (Z.eqb_spec x z); try lia. by apply (IH b c).
Qed.

Definition names_ok (s : shm) : Prop := forall x, name_ok (brdname (bcache s x)) /\ name_ok (bclass (bcache s x)).

(** What qsort(3) needs of a comparison. *)
Definition order_ok (cmp : Z -> Z -> Z) : Prop :=
  (forall x y, cmp x y <= 0 \/ cmp y x <= 0) /\
  (forall x y z, cmp x y <= 0 -> cmp y z <= 0 -> cmp x z <= 0).

Lemma by_name_order s : names_ok s -> order_ok (cmpboardname s).
Proof.
  intros Hn. unfold cmpboardname. split.
  - intros x y. rewrite !strcasecmp_casecmp, (casecmp_antisym (brdname (bcache s x))). lia.
  - intros x y z. rewrite !strcasecmp_casecmp. apply casecmp_trans; apply Hn.
Qed.

Lemma by_class_order s : names_ok s -> order_ok (cmpboardclass s).
Proof.
  intros Hn. split.
  - intros x y. unfold cmpboardclass. destruct (proj1 (by_name_order s Hn) x y) as [H|H]; unfold cmpboardname in H;
      pose proof (strcmp_antisym (bclass (bcache s x)) (bclass (bcache s y))); repeat case_match; zbool; lia.
  - intros x y z. pose proof (proj2 (by_name_order s Hn) x y z) as H. unfold cmpboardname in H. unfold cmpboardclass.
    pose proof (strcmp_trans (bclass (bcache s x)) (bclass (bcache s y)) (bclass (bcache s z))
      (proj2 (Hn x)) (proj2 (Hn y)) (proj2 (Hn z))) as Hc.
    repeat case_match; zbool; intros; try lia;
      (destruct Hc as [Hc1 Hc2]; [lia..|]); try lia; specialize (Hc2 ltac:(lia)); lia.
Qed.

(** *** Searching *)

Definition name_at (s : shm) (i : Z) : list Z :=
  match zget (bsorted s BRD_GROUP_LL_TYPE_NAME) i with Some x => brdname (bcache s x) | None => [] end.

(** The index of the boards by name: every entry is a board and the names do
    not decrease. *)
Definition index_ok (s : shm) : Prop :=
  1 <= Bnumber s <= MAX_BOARD /\ (forall x, name_ok (brdname (bcache s x))) /\
  (forall i, 0 <= i < Bnumber s -> exists x, zget (bsorted s BRD_GROUP_LL_TYPE_NAME) i = Some x /\ 0 <= x < MAX_BOARD) /\
  (forall i j, 0 <= i <= j -> j < Bnumber s -> strcasecmp (name_at s i) (name_at s j) <= 0).

Lemma name_at_ok s i : index_ok s -> name_ok (name_at s i).
Proof. intros (_ & H & _). unfold name_at. case_match; [apply H|constructor]. Qed.

(** The board [r - 1] has the name and is in the index. *)
Definition found_board (s : shm) (bname : list Z) (r : Z) : Prop :=
  exists i, 0 <= i < Bnumber s /\ zget (bsorted s BRD_GROUP_LL_TYPE_NAME) i = Some (r - 1) /\ 1 <= r <= MAX_BOARD /\
    strcasecmp bname (brdname (bcache s (r - 1))) = 0.

Lemma getbnum_loop_spec fuel s bname : index_ok s -> name_ok bname -> forall start e,
  0 <= start <= e -> e < Bnumber s -> (Z.to_nat (e - start) + 2 <= fuel)%nat ->
  (forall i, 0 <= i < Bnumber s -> strcasecmp bname (name_at s i) = 0 -> start <= i <= e) ->
  exists r, getbnum_loop fuel bname s start e = Some r /\
    ((r = 0 /\ forall i, 0 <= i < Bnumber s -> strcasecmp bname (name_at s i) <> 0) \/ found_board s bname r).
Proof.
  intros Hok Hn. pose proof Hok as (HB & Hnames & Hent & Hsort).
  induction fuel as [|fuel IH]; intros start e Hs He Hf Hin; [lia|]. cbn [getbnum_loop].
  set (i := Z.quot (start + e) 2).
  assert (Hi : start <= i <= e /\ (start < e -> i < e)).
  { unfold i. rewrite Z.quot_div_nonneg by lia. Z.to_euclidean_division_equations; lia. }
  destruct (Hent i) as (x & Ex & Hx); [lia|]. rewrite Ex. cbn [mbind option_bind].
  assert (Hv : negb (valid_bid (x + 1)) = false) by (unfold valid_bid; lia). rewrite Hv.
  assert (Ei : name_at s i = brdname (bcache s x)) by (unfold name_at; by rewrite Ex).
  set (j := strcasecmp bname (brdname (bcache s x))).
  destruct (Z.eqb_spec j 0) as [Ej|Ej].
  { exists (x + 1). split; [done|]. right. exists i. replace (x + 1 - 1) with x by lia. split_and!; try lia; done. }
  assert (Hgt : forall k, 0 <= k <= i -> 0 < j -> strcasecmp bname (name_at s k) <> 0).
  { intros k Hk Hj E. specialize (Hsort k i ltac:(lia) ltac:(lia)). rewrite Ei in Hsort. unfold j in Hj.
    rewrite !strcasecmp_casecmp in *. pose proof (casecmp_antisym bname (name_at s k)).
    enough (casecmp bname (brdname (bcache s x)) <= 0) by lia.
    eapply casecmp_trans; [done|by apply (name_at_ok s k)|apply Hnames|lia|done]. }
  assert (Hlt : forall k, i <= k < Bnumber s -> j < 0 -> strcasecmp bname (name_at s k) <> 0).
  { intros k Hk Hj E. specialize (Hsort i k ltac:(lia) ltac:(lia)). rewrite Ei in Hsort. unfold j in Hj.
    rewrite !strcasecmp_casecmp in *.
    enough (casecmp bname (name_at s k) < 0) by lia.
    eapply casecmp_lt_le; [done|apply (Hnames x)|by apply name_at_ok|lia|done]. }
  assert (Hne : forall k, k = i -> 0 <= k < Bnumber s -> strcasecmp bname (name_at s k) <> 0).
  { intros k -> _. by rewrite Ei. }
  destruct (Z.eqb_spec e start) as [->|Hes].
  { exists 0. split; [done|]. left. split; [done|]. intros k Hk E. specialize (Hin k Hk E). apply (Hne k); try done. lia. }
  destruct (Z.eqb_spec i start) as [Eis|Eis].
  - apply IH; try lia. intros k Hk E. specialize (Hin k Hk E).
    assert (k <> i) by (intros ->; by apply (Hne i)).
    assert (e = start + 1).
    { unfold i in Eis. rewrite Z.quot_div_nonneg in Eis by lia. Z.to_euclidean_division_equations; lia. }
    lia.
  - destruct (Z.ltb_spec 0 j) as [Hj|Hj]; apply IH; try lia; intros k Hk E; specialize (Hin k Hk E).
    + destruct (Z_le_gt_dec k i); [|lia]. exfalso. by apply (Hgt k ltac:(lia) Hj).
    + destruct (Z_le_gt_dec i k); [|lia]. exfalso. by apply (Hlt k ltac:(lia) ltac:(lia)).
Qed.

Lemma sorted_lookup_lt {A} (R : A -> A -> Prop) (l : list A) i j x y :
  StronglySorted R l -> l !! i = Some x -> l !! j = Some y -> (i < j)%nat -> R x y.
Proof.
  intros Hs Hx Hy Hij. rewrite <- (take_drop j l) in Hs.
  apply (StronglySorted_app_1_elem_of R _ _ x y Hs).
  - apply (list_elem_of_lookup_2 _ i). by rewrite lookup_take_lt.
  - apply (list_elem_of_lookup_2 _ 0). rewrite lookup_drop. by rewrite Nat.add_0_r.
Qed.

Section Sort.
Context (qsort : (Z -> Z -> Z) -> list Z -> list Z).

(** qsort(3) sorts. *)
Definition qsort_ok : Prop :=
  (forall cmp l, Permutation (qsort cmp l) l) /\
  (forall cmp l, order_ok cmp -> StronglySorted (fun x y => cmp x y <= 0) (qsort cmp l)).

Context (Hqsort : qsort_ok).

(** The first entries of an index. *)
Definition index (s : shm) (t : Z) : list Z := take (Z.to_nat (Bnumber s)) (bsorted s t).

Lemma index_sorted s : Bbusystate s = 0 ->
  index (sort_bcache qsort s) BRD_GROUP_LL_TYPE_NAME = qsort (cmpboardname s) (seqZ 0 (Bnumber s)) /\
  index (sort_bcache qsort s) BRD_GROUP_LL_TYPE_CLASS = qsort (cmpboardclass s) (seqZ 0 (Bnumber s)).
Proof.
  intros Hb. unfold sort_bcache. rewrite Hb. cbn [Z.eqb negb]. unfold index. cbn [Bnumber bsorted with_bcache with_sorted].
  rewrite fn_lookup_insert_ne by done. rewrite !fn_lookup_insert. unfold sort_indices.
  assert (Hl : forall cmp, length (qsort cmp (seqZ 0 (Bnumber s))) = Z.to_nat (Bnumber s)).
  { intros cmp. by rewrite (Permutation_length (proj1 Hqsort cmp _)), length_seqZ. }
  by rewrite !take_app_length' by done.
Qed.

Lemma sort_names s x : brdname (bcache (sort_bcache qsort s) x) = brdname (bcache s x).
Proof. unfold sort_bcache. case_match; [done|]. cbn. by case_match. Qed.

Lemma zget_index s t i : 0 <= i < Bnumber s -> zget (bsorted s t) i = index s t !! Z.to_nat i.
Proof. intros Hi. unfold zget, index. rewrite (proj2 (Z.leb_le 0 i)) by lia. by rewrite lookup_take_lt by lia. Qed.

Lemma sort_number s : Bnumber (sort_bcache qsort s) = Bnumber s.
Proof. unfold sort_bcache. by case_match. Qed.

Lemma sort_index_ok s : Bbusystate s = 0 -> 1 <= Bnumber s <= MAX_BOARD -> names_ok s ->
  index_ok (sort_bcache qsort s).
Proof.
  intros Hb HB Hn. destruct (index_sorted s Hb) as [Ei _].
  pose proof (proj1 Hqsort (cmpboardname s) (seqZ 0 (Bnumber s))) as Hp.
  pose proof (proj2 Hqsort (cmpboardname s) (seqZ 0 (Bnumber s)) (by_name_order s Hn)) as Hs.
  unfold index_ok. rewrite sort_number. split; [done|]. split; [intros x; rewrite sort_names; apply Hn|].
  assert (Hent : forall i, 0 <= i < Bnumber s -> exists x,
    zget (bsorted (sort_bcache qsort s) BRD_GROUP_LL_TYPE_NAME) i = Some x /\
    qsort (cmpboardname s) (seqZ 0 (Bnumber s)) !! Z.to_nat i = Some x /\ 0 <= x < Bnumber s).
  { intros i Hi. rewrite zget_index by (by rewrite sort_number). rewrite Ei.
    destruct (lookup_lt_is_Some_2 (qsort (cmpboardname s) (seqZ 0 (Bnumber s))) (Z.to_nat i)) as [x Hx].
    { rewrite (Permutation_length Hp), length_seqZ. lia. }
    exists x. split; [done|]. split; [done|]. apply list_elem_of_lookup_2 in Hx. rewrite Hp, elem_of_seqZ in Hx. lia. }
  split.
  - intros i Hi. destruct (Hent i Hi) as (x & E & _ & Hx). exists x. split; [done|]. lia.
  - intros i j Hij Hj. destruct (Hent i ltac:(lia)) as (x & E1 & L1 & _). destruct (Hent j ltac:(lia)) as (y & E2 & L2 & _).
    unfold name_at. rewrite E1, E2, !sort_names. destruct (decide (i = j)) as [->|Hne].
    + rewrite L1 in L2. injection L2 as ->. destruct (proj1 (by_name_order s Hn) y y); done.
    + apply (sorted_lookup_lt _ _ (Z.to_nat i) (Z.to_nat j) x y Hs); [done|done|lia].
Qed.

(** C27. Once the table is sorted, looking up a name ends and gives a board with
    that name, whatever its case, and 0 exactly when no board has it. *)
Theorem sort_then_find s bname :
  Bbusystate s = 0 -> 1 <= Bnumber s <= MAX_BOARD -> names_ok s -> name_ok bname ->
  exists r, getbnum bname (sort_bcache qsort s) = Some r /\
    (r = 0 -> forall x, 0 <= x < Bnumber s -> strcasecmp bname (brdname (bcache s x)) <> 0) /\
    (r <> 0 -> 1 <= r <= Bnumber s /\ strcasecmp bname (brdname (bcache s (r - 1))) = 0).
Proof.
  intros Hb HB Hn Hbn. pose proof (sort_index_ok s Hb HB Hn) as Hok.
  destruct (index_sorted s Hb) as [Ei _].
  pose proof (proj1 Hqsort (cmpboardname s) (seqZ 0 (Bnumber s))) as Hp.
  unfold getbnum. rewrite sort_number.
  destruct (getbnum_loop_spec (S (S (Z.to_nat (Bnumber s)))) _ bname Hok Hbn 0 (Bnumber s - 1)) as (r & E & Hr);
    rewrite ?sort_number; try lia.
  exists r. split; [done|]. destruct Hr as [[-> Hno]|(i & Hi & Hg & Hr & Hs)]; (split; [|]); try lia.
  - intros _ x Hx E0.
    assert (Hin : x ∈ qsort (cmpboardname s) (seqZ 0 (Bnumber s))) by (rewrite Hp, elem_of_seqZ; lia).
    apply list_elem_of_lookup in Hin as [k Hk]. pose proof (lookup_lt_Some _ _ _ Hk) as Hl.
    rewrite (Permutation_length Hp), length_seqZ in Hl. rewrite sort_number in Hno.
    apply (Hno (Z.of_nat k)); [lia|]. unfold name_at.
    rewrite zget_index by (rewrite sort_number; lia). rewrite Nat2Z.id, Ei, Hk. by rewrite sort_names.
  - intros _. rewrite sort_number in Hi. rewrite zget_index in Hg by (by rewrite sort_number). rewrite Ei in Hg.
    apply list_elem_of_lookup_2 in Hg. rewrite Hp, elem_of_seqZ in Hg. rewrite sort_names in Hs. split; [lia|done].
Qed.

End Sort.

(** A sort. *)
Definition msort (cmp : Z -> Z -> Z) (l : list Z) : list Z := 
  @merge_sort Z (fun x y => cmp x y <= 0) (fun x y => Z_le_dec (cmp x y) 0) l.

Lemma msort_ok : qsort_ok msort.
Proof.
  split.
  - intros cmp l. apply merge_sort_Permutation.
  - intros cmp l [Htot Htr]. apply StronglySorted_merge_sort.
    + intros x y z. apply Htr.
    + intros x y. apply Htot.
Qed.

(** A group and its boards [b], [A] and [c]. *)
Definition board (name class : list Z) (g : Z) : boardheader_t :=
  BoardHeader name class g (fun _ => 0) (fun _ => 0) 0 0 [] [0; 0; 0; 0; 0].
Definition four_boards : shm :=
  Shm 0 4 (fun i => if i =? 0 then board [103] [] 9 else if i =? 1 then board [98] [50] 1
                    else if i =? 2 then board [65] [49] 1 else board [99] [49] 1)
    (fun _ => []) (fun _ => 0) (fun _ => 0) (fun _ => 0).

Lemma four_names : names_ok four_boards.
Proof. intros x. cbn. repeat case_match; cbn; split; repeat constructor. Qed.

Lemma sort_then_find_witness :
  exists r, getbnum [97] (sort_bcache msort four_boards) = Some r /\
    (r = 0 -> forall x, 0 <= x < 4 -> strcasecmp [97] (brdname (bcache four_boards x)) <> 0) /\
    (r <> 0 -> 1 <= r <= 4 /\ strcasecmp [97] (brdname (bcache four_boards (r - 1))) = 0).
Proof.
  apply (sort_then_find msort msort_ok four_boards [97]); [done|done|apply four_names|repeat constructor].
Defined.

(** Without boards the search reads the entry before the index. *)
Example getbnum_no_boards :
  getbnum [97] (Shm 0 0 (bcache four_boards) (fun _ => replicate 8 1) (fun _ => 0) (fun _ => 0) (fun _ => 0)) = None.
Proof. vm_compute. reflexivity. Qed.

(** *** Moderators *)

(** The name of a moderator, if he is a user who has one. *)
Definition moderator_name (users : Uhash.shm) (uid : Z) : option (list Z) :=
  if (0 <? uid) && (uid <=? Uhash.MAX_USERS) then
    match Uhash.getuserid uid users with Some (c :: n) => Some (c :: n) | _ => None end
  else None.

(** Names with a stroke between them. *)
Definition join (acc name : list Z) : list Z := match acc with [] => name | _ => acc ++ 47 :: name end.

Lemma strlcat_take buflen acc src : 0 < buflen ->
  strlcat buflen (take (Z.to_nat (buflen - 1)) acc) src = take (Z.to_nat (buflen - 1)) (acc ++ src).
Proof.
  intros Hb. unfold strlcat. rewrite (proj2 (Z.leb_gt _ _)).
  2:{ unfold zlen. rewrite length_take. lia. }
  destruct (Nat.le_gt_cases (length acc) (Z.to_nat (buflen - 1))).
  - by rewrite (take_ge acc).
  - rewrite (take_app_le acc) by lia. rewrite take_app_le by (rewrite length_take; lia). by rewrite take_take, Nat.min_id.
Qed.

(** The line of moderators is the names of those who have one, joined, and cut
    to the size of the buffer. *)
Lemma board_format_moderators_spec users b buflen : 0 < buflen ->
  board_format_moderators users b buflen =
    take (Z.to_nat (buflen - 1)) (fold_left join (omap (moderator_name users) (moderators b)) []).
Proof.
  intros Hb. unfold board_format_moderators. rewrite (proj2 (Z.eqb_neq buflen 0)) by lia.
  replace (@nil Z) with (take (Z.to_nat (buflen - 1)) (@nil Z)) at 1 by apply take_nil.
  generalize (@nil Z) as acc. induction (moderators b) as [|uid l IH]; intros acc; cbn [format_loop]; [done|].
  assert (H : forall name, name <> [] ->
    strlcat buflen (match take (Z.to_nat (buflen - 1)) acc with [] => take (Z.to_nat (buflen - 1)) acc
                    | _ :: _ => strlcat buflen (take (Z.to_nat (buflen - 1)) acc) [47] end) name =
    take (Z.to_nat (buflen - 1)) (join acc name)).
  { intros name Hn. destruct acc as [|c acc]; [rewrite take_nil; by rewrite <- (take_nil (Z.to_nat (buflen - 1))), strlcat_take at 1|].
    destruct (Z.to_nat (buflen - 1)) as [|n] eqn:E.
    - rewrite !take_0. unfold strlcat. case_match; [done|]. by rewrite E, take_0.
    - rewrite <- E. destruct (take (Z.to_nat (buflen - 1)) (c :: acc)) eqn:Et; [by rewrite E in Et|]. rewrite <- Et.
      rewrite strlcat_take by done. rewrite strlcat_take by done. cbn [join]. by rewrite <- app_assoc. }
  cbn [omap list_omap]. unfold moderator_name at 1.
  destruct ((0 <? uid) && (uid <=? Uhash.MAX_USERS)); [|apply IH].
  destruct (Uhash.getuserid uid users) as [[|c name]|]; [apply IH| |apply IH].
  cbn [fold_left]. rewrite <- IH. f_equal. rewrite <- H by done. by destruct (take _ acc).
Qed.

End BoardsProps.
