(* ===== verification/BoardGroups.v ===== *)
(** The lists of the boards of a group ([Boards.resolve_board_group]): after the
    table is sorted and any groups are resolved, following the links of a group
    visits its boards, in order. *)

From stdpp Require Import functions sorting list_numbers.
From S2P Require Import Prelude Cstr Boards BoardsProps.

#[global] Open Scope Z_scope.
#[global] Open Scope list_scope.

Module BoardGroups.
Import Cstr Boards BoardsProps.

(** The loops over a group, in [load_boards] and in boardlist: from [bid] on
    while it is positive. *)
Fixpoint group_list (fuel : nat) (t bid : Z) (s : shm) : option (list Z) :=
  if bid <=? 0 then Some []
  else
    match fuel with
    | O => None
    | S fuel => l ← group_list fuel t (next (getbcache bid s) t) s; Some (bid :: l)
    end.

(** *** Memory *)

Lemma get_set y x f s :
  getbcache y (set_board x f s) = if y =? x then f (getbcache x s) else getbcache y s.
Proof.
  unfold getbcache, set_board, with_bcache. cbn. destruct (Z.eqb_spec y x) as [->|Hne].
  - by rewrite fn_lookup_insert.
  - by rewrite fn_lookup_insert_ne by lia.
Qed.

(** What the lists depend on is the same. *)
Definition same_boards (s s' : shm) : Prop :=
  Bnumber s' = Bnumber s /\ bsorted s' = bsorted s /\
  forall y, brdname (getbcache y s') = brdname (getbcache y s) /\ gid (getbcache y s') = gid (getbcache y s).

Lemma same_boards_refl s : same_boards s s.
Proof. by split_and!. Qed.

Lemma same_boards_trans s1 s2 s3 : same_boards s1 s2 -> same_boards s2 s3 -> same_boards s1 s3.
Proof.
  intros (A1 & A2 & A3) (B1 & B2 & B3). split; [congruence|]. split; [congruence|].
  intros y. destruct (A3 y), (B3 y). split; congruence.
Qed.

Lemma same_boards_set x f s :
  (forall b, brdname (f b) = brdname b /\ gid (f b) = gid b) -> same_boards s (set_board x f s).
Proof.
  intros Hf. split; [done|]. split; [done|]. intros y. rewrite get_set.
  destruct (Z.eqb_spec y x) as [->|]; [apply Hf|done].
Qed.

(** *** Links *)

Section Group.
Context (t g : Z).

(** One turn of the loop links [x] behind [curr]. *)
Definition set_link (curr x : Z) (s : shm) : shm :=
  if curr =? g then set_board curr (with_firstchild t x) s
  else set_board curr (fun b => with_parent g (with_next t x b)) s.

(** What follows the loop. *)
Definition set_end (curr n : Z) (s : shm) : shm :=
  let s := set_board g (with_childcount n) s in
  if curr =? g then set_board curr (with_firstchild t (-1)) s else set_board curr (with_next t (-1)) s.

Fixpoint link_list (curr : Z) (cs : list Z) (n : Z) (s : shm) : shm :=
  match cs with
  | [] => set_end curr n s
  | x :: cs => link_list x cs n (set_link curr x s)
  end.

(** The boards of the group among the entries [l] of an index. *)
Definition child (s : shm) (x : Z) : bool :=
  negb (bool_decide (brdname (bcache s x) = [])) && (gid (bcache s x) =? g).
Definition members (s : shm) (l : list Z) : list Z := map (fun x => x + 1) (List.filter (child s) l).

Lemma child_same s s' x : same_boards s s' -> child s' x = child s x.
Proof.
  intros (_ & _ & H). destruct (H (x + 1)) as [H1 H2]. unfold getbcache in *.
  replace (x + 1 - 1) with x in * by lia. unfold child. by rewrite H1, H2.
Qed.

Lemma members_same s s' l : same_boards s s' -> members s' l = members s l.
Proof.
  intros H. unfold members. f_equal. apply List.filter_ext. intros x. by apply child_same.
Qed.

Lemma set_link_same curr x s : same_boards s (set_link curr x s).
Proof. unfold set_link. case_match; by apply same_boards_set. Qed.

Lemma set_end_same curr n s : same_boards s (set_end curr n s).
Proof.
  unfold set_end. eapply same_boards_trans; [by apply (same_boards_set g (with_childcount n))|].
  case_match; by apply same_boards_set.
Qed.

(** The loop and what follows it link the members. *)
Lemma group_loop_links l : forall curr count s, Forall (fun x => 0 <= x < MAX_BOARD) l ->
  ('(s', c, m) ← group_loop l t g curr count s; Some (set_end c m s')) =
  Some (link_list curr (members s l) (count + zlen (members s l)) s).
Proof.
  induction l as [|x l IH]; intros curr count s Hl; cbn [group_loop].
  - cbn. by rewrite Z.add_0_r.
  - apply list.Forall_cons in Hl as [Hx Hl].
    rewrite (proj2 (Z.leb_gt (x + 1) 0)) by lia.
    assert (Hv : negb (valid_bid (x + 1)) = false) by (unfold valid_bid; lia). rewrite Hv.
    unfold members. cbn [List.filter].
    assert (Hg : getbcache (x + 1) s = bcache s x) by (unfold getbcache; f_equal; lia). rewrite Hg.
    destruct (brdname (bcache s x)) as [|ch nm] eqn:En.
    { assert (E : child s x = false) by (unfold child; by rewrite En). rewrite E. by apply IH. }
    assert (E : child s x = (gid (bcache s x) =? g)) by (unfold child; by rewrite En). rewrite E.
    destruct (gid (bcache s x) =? g); [|by apply IH].
    change (if curr =? g then _ else _) with (set_link curr (x + 1) s).
    rewrite IH by done. rewrite (members_same s) by apply set_link_same. cbn [map link_list].
    unfold members. rewrite zlen_cons. f_equal. f_equal. lia.
Qed.

(** The first link behind [y]. *)
Definition link_of (y : Z) (s : shm) : Z :=
  if y =? g then firstchild (getbcache g s) t else next (getbcache y s) t.

(** The list behind the link [p]. *)
Fixpoint chain (s : shm) (p : Z) (l : list Z) : Prop :=
  match l with
  | [] => p = -1
  | x :: l => p = x /\ chain s (next (getbcache x s) t) l
  end.

(** What linking leaves alone. *)
Record linked (curr : Z) (cs : list Z) (n : Z) (s s' : shm) : Prop := Linked
  { linked_same : same_boards s s';
    linked_first : forall y t', (curr <> g \/ y <> g \/ t' <> t) ->
      firstchild (getbcache y s') t' = firstchild (getbcache y s) t';
    linked_next : forall y t', (y ∉ curr :: cs \/ y = g \/ t' <> t) ->
      next (getbcache y s') t' = next (getbcache y s) t';
    linked_parent : forall y, parent (getbcache y s') = parent (getbcache y s) \/
      (y ∈ curr :: cs /\ y <> g /\ parent (getbcache y s') = g);
    linked_count : forall y, childcount (getbcache y s') = if y =? g then n else childcount (getbcache y s);
    linked_chain : chain s' (link_of curr s') cs;
    linked_parents : forall y, y ∈ removelast (curr :: cs) -> y <> g -> parent (getbcache y s') = g }.

Lemma get_link curr x y s :
  getbcache y (set_link curr x s) =
    if y =? curr then (if curr =? g then with_firstchild t x (getbcache curr s)
                       else with_parent g (with_next t x (getbcache curr s)))
    else getbcache y s.
Proof. unfold set_link. destruct (curr =? g); apply get_set. Qed.

Lemma get_end curr n y s :
  getbcache y (set_end curr n s) =
    let b := if y =? g then with_childcount n (getbcache g s) else getbcache y s in
    if y =? curr then (if curr =? g then with_firstchild t (-1) b else with_next t (-1) b) else b.
Proof.
  unfold set_end. destruct (Z.eqb_spec curr g) as [->|Hc]; rewrite !get_set.
  - rewrite Z.eqb_refl. by destruct (y =? g).
  - rewrite (proj2 (Z.eqb_neq curr g)) by done. destruct (Z.eqb_spec y curr) as [->|]; [|done].
    by rewrite (proj2 (Z.eqb_neq curr g)).
Qed.

(** The cases of the boards, and of the type of a link. *)
Ltac board_cases y curr :=
  rewrite ?get_end, ?get_link;
  destruct (Z.eqb_spec y curr) as [->|]; cbv zeta; try destruct (Z.eqb_spec curr g) as [->|];
  try destruct (Z.eqb_spec y g) as [->|]; cbn; rewrite ?fn_lookup_insert_ne by done; try done; try tauto.
Ltac link_cases t' y curr := destruct (decide (t' = t)) as [->|]; board_cases y curr.

Lemma set_end_linked curr n s : linked curr [] n s (set_end curr n s).
Proof.
  split; [apply set_end_same|..].
  - intros y t' H. link_cases t' y curr.
  - intros y t' H. rewrite list_elem_of_singleton in H. link_cases t' y curr.
  - intros y. left. board_cases y curr.
  - intros y. board_cases y curr.
  - cbn. unfold link_of. destruct (Z.eqb_spec curr g) as [->|Hc]; rewrite get_end, Z.eqb_refl; cbv zeta;
      rewrite ?Z.eqb_refl, ?(proj2 (Z.eqb_neq curr g)) by done; cbn; by rewrite fn_lookup_insert.
  - intros y H. by apply not_elem_of_nil in H.
Qed.

Lemma set_link_linked curr x cs n s s' :
  curr ∉ x :: cs -> x <> g ->
  linked x cs n (set_link curr x s) s' -> linked curr (x :: cs) n s s'.
Proof.
  intros Hc Hx [H1 H2 H3 H4 H5 H6 H7]. split.
  - eapply same_boards_trans; [apply set_link_same|done].
  - intros y t' H. rewrite H2 by tauto. link_cases t' y curr.
  - intros y t' H. rewrite H3.
    2:{ rewrite list.elem_of_cons in H. tauto. }
    rewrite list.elem_of_cons in H. link_cases t' y curr.
  - intros y. rewrite (list.elem_of_cons (x :: cs)). destruct (H4 y) as [->|(Hy & Hg & E)]; [|right; tauto].
    rewrite get_link. destruct (Z.eqb_spec y curr) as [->|]; [|by left].
    destruct (Z.eqb_spec curr g); [by left|]. right. cbn. tauto.
  - intros y. rewrite H5. board_cases y curr.
  - cbn [chain]. assert (E : link_of x s' = next (getbcache x s') t).
    { unfold link_of. by rewrite (proj2 (Z.eqb_neq x g)). }
    rewrite E in H6. split; [|done]. unfold link_of. destruct (Z.eqb_spec curr g) as [->|Hg].
    + rewrite H2 by tauto. rewrite get_link, !Z.eqb_refl. cbn. by rewrite fn_lookup_insert.
    + rewrite H3 by tauto. rewrite get_link, Z.eqb_refl, (proj2 (Z.eqb_neq curr g)) by done. cbn. by rewrite fn_lookup_insert.
  - intros y Hy Hg. change (removelast (curr :: x :: cs)) with (curr :: removelast (x :: cs)) in Hy.
    apply list.elem_of_cons in Hy as [->|Hy]; [|by apply H7].
    destruct (H4 curr) as [->|(Hin & _)]; [|done].
    rewrite get_link, Z.eqb_refl, (proj2 (Z.eqb_neq curr g)) by done. done.
Qed.

Lemma link_list_linked cs : forall curr n s,
  NoDup (curr :: cs) -> g ∉ cs -> linked curr cs n s (link_list curr cs n s).
Proof.
  induction cs as [|x cs IH]; intros curr n s Hnd Hg; cbn [link_list]; [apply set_end_linked|].
  apply list.NoDup_cons in Hnd as [Hc Hnd]. rewrite list.elem_of_cons in Hg.
  apply set_link_linked; [done|intros ->; tauto|]. apply IH; [done|tauto].
Qed.

End Group.

(** *** Groups *)

Definition children (s : shm) (g t : Z) : list Z := members g s (index s t).

Definition good_type (t : Z) : Prop := t = BRD_GROUP_LL_TYPE_NAME \/ t = BRD_GROUP_LL_TYPE_CLASS.

(** Both indices hold every board once, and no board is in its own group. *)
Definition table_ok (s : shm) : Prop :=
  0 <= Bnumber s <= MAX_BOARD /\
  (forall t, good_type t -> Permutation (index s t) (seqZ 0 (Bnumber s))) /\
  (forall x, 0 <= x < Bnumber s -> gid (bcache s x) <> x + 1).

(** The lists of a group are right. *)
Definition group_ok (s : shm) (g t : Z) : Prop :=
  chain t s (firstchild (getbcache g s) t) (children s g t) /\
  childcount (getbcache g s) = zlen (children s g t) /\
  forall y, y ∈ removelast (children s g t) -> parent (getbcache y s) = g.

Lemma children_same s s' g t : same_boards s s' -> children s' g t = children s g t.
Proof.
  intros H. unfold children. rewrite (members_same g s s') by done. destruct H as (Hn & Hb & _).
  unfold index. by rewrite Hn, Hb.
Qed.

Lemma elem_of_members g s l y : y ∈ members g s l <-> y - 1 ∈ l /\ child g s (y - 1) = true.
Proof.
  unfold members. rewrite list_elem_of_In, in_map_iff. setoid_rewrite filter_In. rewrite list_elem_of_In. split.
  - intros (x & <- & H). by replace (x + 1 - 1) with x by lia.
  - intros H. exists (y - 1). split; [lia|done].
Qed.

Lemma members_perm g s l l' : Permutation l l' -> Permutation (members g s l) (members g s l').
Proof.
  intros H. unfold members. apply Permutation_map. induction H; cbn [List.filter]; repeat case_match; auto.
  - by constructor.
  - by etransitivity.
Qed.

Lemma members_nodup g s l : NoDup l -> NoDup (members g s l).
Proof.
  intros H. unfold members. apply (NoDup_fmap_2_strong (fun x => x + 1)).
  - intros x y _ _. lia.
  - apply NoDup_ListNoDup, List.NoDup_filter, NoDup_ListNoDup. done.
Qed.

Lemma child_gid s g t y : y ∈ children s g t -> gid (getbcache y s) = g.
Proof. intros [_ H]%elem_of_members. unfold child in H. unfold getbcache. apply andb_true_iff in H as [_ H]. lia. Qed.

Lemma table_same s s' : same_boards s s' -> table_ok s -> table_ok s'.
Proof.
  intros (Hn & Hb & Hg) (H1 & H2 & H3). split; [by rewrite Hn|]. split.
  - intros t Ht. unfold index. rewrite Hn, Hb. by apply H2.
  - intros x Hx. rewrite Hn in Hx. destruct (Hg (x + 1)) as [_ E]. unfold getbcache in E.
    replace (x + 1 - 1) with x in E by lia. rewrite E. by apply H3.
Qed.

Lemma not_own_child s g t : table_ok s -> good_type t -> g ∉ children s g t.
Proof.
  intros (HB & Hp & Hself) Ht Hin. pose proof (child_gid _ _ _ _ Hin) as E. apply elem_of_members in Hin as [Hin _].
  rewrite (Hp t Ht), elem_of_seqZ in Hin. apply (Hself (g - 1)); [lia|]. unfold getbcache in E. lia.
Qed.

Lemma resolve_linked s g t : table_ok s -> valid_bid g = true -> good_type t ->
  exists s', resolve_board_group g t s = Some s' /\
    linked t g g (children s g t) (zlen (children s g t)) s s'.
Proof.
  intros Htab Hg Ht. pose proof Htab as (HB & Hp & Hself). unfold resolve_board_group.
  assert (E1 : negb ((0 <=? t) && (t <? 2)) || negb (valid_bid g) = false) by (rewrite Hg; destruct Ht as [-> | ->]; done).
  assert (E2 : negb ((0 <=? num_boards s) && (num_boards s <=? MAX_BOARD)) = false) by (unfold num_boards; lia).
  rewrite E1, E2. pose proof (Hp t Ht) as Hpt.
  pose proof (group_loop_links t g (index s t) g 0 s) as H. rewrite Z.add_0_l in H.
  unfold index in H. unfold num_boards. eexists. split; [apply H|].
  - apply list.Forall_forall. intros x Hx. fold (index s t) in Hx. rewrite Hpt, elem_of_seqZ in Hx. lia.
  - fold (index s t). fold (children s g t).
    assert (Hin : g ∉ children s g t) by (by apply not_own_child).
    apply link_list_linked; [|done]. apply list.NoDup_cons. split; [done|].
    apply members_nodup. rewrite Hpt. apply NoDup_seqZ.
Qed.

Lemma chain_frame t s s' l : forall p,
  (forall y, y ∈ l -> next (getbcache y s') t = next (getbcache y s) t) -> chain t s p l -> chain t s' p l.
Proof.
  induction l as [|x l IH]; intros p Hx; cbn [chain]; [done|]. intros [-> Hl]. split; [done|].
  rewrite Hx by (apply list.elem_of_cons; by left). apply IH; [|done].
  intros y Hy. apply Hx. apply list.elem_of_cons. by right.
Qed.

Lemma elem_of_removelast {A} (l : list A) y : y ∈ removelast l -> y ∈ l.
Proof.
  induction l as [|x [|z l] IH]; cbn [removelast]; [done|by intros ?%not_elem_of_nil|].
  rewrite !(list.elem_of_cons _ y x). tauto.
Qed.

(** The group that is resolved is right, and the others stay so. *)
Lemma resolved_ok s s' g t : table_ok s -> good_type t ->
  linked t g g (children s g t) (zlen (children s g t)) s s' -> group_ok s' g t.
Proof.
  intros Ht Hty [Hsame _ _ _ H5 H6 H7]. unfold group_ok. rewrite (children_same s s') by done.
  rewrite H5, Z.eqb_refl. unfold link_of in H6. rewrite Z.eqb_refl in H6. split; [done|]. split; [done|].
  intros y Hy. pose proof (not_own_child s g t Ht Hty) as Hg.
  destruct (children s g t) as [|x cs]; [by apply not_elem_of_nil in Hy|].
  apply H7; [apply list.elem_of_cons; by right|]. intros ->. by apply elem_of_removelast in Hy.
Qed.

Lemma others_ok s s' g t g' t' : table_ok s -> good_type t -> good_type t' ->
  linked t g g (children s g t) (zlen (children s g t)) s s' ->
  (g', t') <> (g, t) -> group_ok s g' t' -> group_ok s' g' t'.
Proof.
  intros Ht Hty Hty' [H1 H2 H3 H4 H5 _ _] Hne (C1 & C2 & C3).
  pose proof (not_own_child s g t Ht Hty) as Hg. pose proof (not_own_child s g' t' Ht Hty') as Hg'.
  assert (Hor : g' <> g \/ t' <> t).
  { destruct (decide (g' = g)) as [->|]; [|by left]. right. congruence. }
  unfold group_ok. rewrite (children_same s s') by done. split; [|split].
  - rewrite H2 by tauto. eapply chain_frame; [|exact C1]. intros y Hy. apply H3.
    destruct Hor as [Hor|Hor]; [|tauto]. destruct (decide (y = g)) as [->|Hy']; [tauto|]. left.
    rewrite list.elem_of_cons. intros [E|Hin]; [done|]. apply child_gid in Hy, Hin. congruence.
  - rewrite H5. destruct (Z.eqb_spec g' g) as [->|]; [|done]. unfold children, zlen. f_equal.
    apply Permutation_length, members_perm. destruct Ht as (_ & Hp & _). by rewrite !Hp.
  - intros y Hy. destruct (H4 y) as [->|(Hin & Hyg & E)]; [by apply C3|]. rewrite E.
    apply list.elem_of_cons in Hin as [|Hin]; [done|]. apply elem_of_removelast in Hy.
    apply child_gid in Hy, Hin. congruence.
Qed.

Fixpoint resolve_all (ops : list (Z * Z)) (s : shm) : option shm :=
  match ops with
  | [] => Some s
  | (g, t) :: ops => s ← resolve_board_group g t s; resolve_all ops s
  end.

Definition good_op (o : Z * Z) : Prop := valid_bid o.1 = true /\ good_type o.2.

Lemma resolve_all_ok ops : forall s, table_ok s -> Forall good_op ops ->
  exists s', resolve_all ops s = Some s' /\ same_boards s s' /\
    (forall g t, (g, t) ∈ ops -> group_ok s' g t) /\
    (forall g t, good_type t -> group_ok s g t -> group_ok s' g t).
Proof.
  induction ops as [|[g t] ops IH]; intros s Hs Hops; cbn [resolve_all].
  { exists s. split; [done|]. split; [apply same_boards_refl|]. split; [|done]. intros g t H. by apply not_elem_of_nil in H. }
  apply list.Forall_cons in Hops as [[Hg Ht] Hops]. cbn [fst snd] in *.
  destruct (resolve_linked s g t Hs Hg Ht) as (s1 & E & Hl). rewrite E. cbn [mbind option_bind].
  pose proof (resolved_ok s s1 g t Hs Ht Hl) as Hok. pose proof (linked_same _ _ _ _ _ _ _ Hl) as Hsame.
  destruct (IH s1) as (s' & E' & Hs' & Hin & Hkeep); [by eapply table_same|done|].
  exists s'. split; [done|]. split; [by eapply same_boards_trans|]. split.
  - intros g' t' [[= -> ->]|H]%list.elem_of_cons; [by apply Hkeep|by apply Hin].
  - intros g' t' Ht' H. apply Hkeep; [done|]. destruct (decide ((g', t') = (g, t))) as [[= -> ->]|Hne]; [done|].
    by apply (others_ok s s1 g t).
Qed.

(** A chain is what the loops over a group visit. *)
Lemma group_list_chain t s l : forall p fuel, Forall (fun y => 0 < y) l -> (length l <= fuel)%nat ->
  chain t s p l -> group_list fuel t p s = Some l.
Proof.
  induction l as [|x l IH]; intros p fuel Hl Hf Hc; cbn [chain] in Hc.
  - subst p. by destruct fuel.
  - destruct Hc as [-> Hc]. apply list.Forall_cons in Hl as [Hx Hl]. destruct fuel as [|fuel]; cbn in Hf; [lia|].
    cbn [group_list]. rewrite (proj2 (Z.leb_gt x 0)) by lia. rewrite (IH (next (getbcache x s) t)); [done|done|lia|done].
Qed.

(** *** Sorting and resolving *)

Section Sorted.
Context (qsort : (Z -> Z -> Z) -> list Z -> list Z) (Hqsort : qsort_ok qsort).

Definition cmpboard (t : Z) (s : shm) : Z -> Z -> Z :=
  if t =? BRD_GROUP_LL_TYPE_NAME then cmpboardname s else cmpboardclass s.

Lemma sort_same s x : brdname (bcache (sort_bcache qsort s) x) = brdname (bcache s x) /\
  gid (bcache (sort_bcache qsort s) x) = gid (bcache s x).
Proof. unfold sort_bcache. case_match; [done|]. cbn. by case_match. Qed.

Lemma index_of_sorted s t : Bbusystate s = 0 -> good_type t ->
  index (sort_bcache qsort s) t = qsort (cmpboard t s) (seqZ 0 (Bnumber s)).
Proof. intros Hb [-> | ->]; by apply index_sorted. Qed.

Lemma sort_table_ok s : Bbusystate s = 0 -> 0 <= Bnumber s <= MAX_BOARD ->
  (forall x, 0 <= x < Bnumber s -> gid (bcache s x) <> x + 1) -> table_ok (sort_bcache qsort s).
Proof.
  intros Hb HB Hg. unfold table_ok. rewrite sort_number. split; [done|]. split.
  - intros t Ht. rewrite index_of_sorted by done. apply (proj1 Hqsort).
  - intros x Hx. rewrite (proj2 (sort_same s x)). by apply Hg.
Qed.

Lemma members_sorted g s0 s t l :
  StronglySorted (fun x y => cmpboard t s x y <= 0) l ->
  StronglySorted (fun x y => cmpboard t s (x - 1) (y - 1) <= 0) (members g s0 l).
Proof.
  unfold members. induction 1 as [|x l Hl IH Hx]; cbn [List.filter map]; [constructor|].
  destruct (child g s0 x); [|done]. cbn [map]. constructor; [done|].
  apply list.Forall_forall. intros y Hy. apply elem_of_members in Hy as [Hy _].
  replace (x + 1 - 1) with x by lia. rewrite list.Forall_forall in Hx. by apply Hx.
Qed.

(** C26. Once the table is sorted, resolving any groups in any order ends, and
    then the loop over each of them visits exactly the boards of the group, in the
    order of their names or of their classes, and ends; the group has their
    number, and all of them but the last one have it as their parent. *)
Theorem groups_listed s ops fuel :
  Bbusystate s = 0 -> 0 <= Bnumber s <= MAX_BOARD -> names_ok s ->
  (forall x, 0 <= x < Bnumber s -> gid (bcache s x) <> x + 1) ->
  Forall good_op ops -> (Z.to_nat (Bnumber s) <= fuel)%nat ->
  exists s', resolve_all ops (sort_bcache qsort s) = Some s' /\
    forall g t, (g, t) ∈ ops ->
      exists l, group_list fuel t (firstchild (getbcache g s') t) s' = Some l /\
        Permutation l (members g s (seqZ 0 (Bnumber s))) /\
        StronglySorted (fun x y => cmpboard t s (x - 1) (y - 1) <= 0) l /\
        childcount (getbcache g s') = zlen l /\
        forall y, y ∈ removelast l -> parent (getbcache y s') = g.
Proof.
  intros Hb HB Hn Hg Hops Hf. pose proof (sort_table_ok s Hb HB Hg) as Ht.
  destruct (resolve_all_ok ops _ Ht Hops) as (s' & E & Hsame & Hok & _). exists s'. split; [done|].
  intros g t Hin. pose proof (proj2 (proj1 (list.Forall_forall _ _) Hops _ Hin)) as Hty. cbn in Hty.
  destruct (Hok g t Hin) as (C1 & C2 & C3). exists (children s' g t).
  assert (El : children s' g t = members g s (qsort (cmpboard t s) (seqZ 0 (Bnumber s)))).
  { rewrite (children_same _ s' g t Hsame). unfold children. rewrite index_of_sorted by done.
    unfold members. f_equal. apply List.filter_ext. intros x. unfold child. by destruct (sort_same s x) as [-> ->]. }
  rewrite El in *. pose proof (proj1 Hqsort (cmpboard t s) (seqZ 0 (Bnumber s))) as Hp.
  split; [|split; [by apply members_perm|split; [|by split]]].
  - apply group_list_chain; [|etransitivity; [|exact Hf]|done].
    + apply list.Forall_forall. intros y Hy. apply elem_of_members in Hy as [Hy _]. rewrite Hp, elem_of_seqZ in Hy. lia.
    + unfold members. rewrite length_map, List.filter_length_le, (Permutation_length Hp), length_seqZ. done.
  - apply members_sorted. apply (proj2 Hqsort). unfold cmpboard. case_match; [by apply by_name_order|by apply by_class_order].
Qed.

End Sorted.

Lemma groups_listed_witness :
  exists s', resolve_all [(1, 0); (1, 1); (2, 0)] (sort_bcache msort four_boards) = Some s' /\
    forall g t, (g, t) ∈ [(1, 0); (1, 1); (2, 0)] ->
      exists l, group_list 4 t (firstchild (getbcache g s') t) s' = Some l /\
        Permutation l (members g four_boards (seqZ 0 4)) /\
        StronglySorted (fun x y => cmpboard t four_boards (x - 1) (y - 1) <= 0) l /\
        childcount (getbcache g s') = zlen l /\
        forall y, y ∈ removelast l -> parent (getbcache y s') = g.
Proof.
  apply (groups_listed msort msort_ok four_boards [(1, 0); (1, 1); (2, 0)] 4);
    [done|done|apply four_names| | |done].
  - intros x Hx. cbn in *. destruct (Z.eqb_spec x 0), (Z.eqb_spec x 1), (Z.eqb_spec x 2); cbn; lia.
  - repeat constructor; vm_compute; tauto.
Defined.

(** The last board of a group is not given its parent: the board 4 keeps 0. *)
Example last_child_without_parent :
  option_map (fun s => (group_list 4 0 (firstchild (getbcache 1 s) 0) s, map (fun b => parent (getbcache b s)) [3; 2; 4]))
    (resolve_board_group 1 0 (sort_bcache msort four_boards)) = Some (Some [3; 2; 4], [1; 1; 0]).
Proof. vm_compute. reflexivity. Qed.

End BoardGroups.
