(* ===== verification/BottomProps.v ===== *)
(** The properties of pinned articles ([Boards.resolve_board_bottoms],
    [Boards.pin_slots]): the slots hold what can be found in the .DIR. *)

From stdpp Require Import functions.
From S2P Require Import Prelude Cstr Stamp Aids AidsProps Boards.

#[global] Open Scope Z_scope.
#[global] Open Scope list_scope.

Module BottomProps.
Import Cstr Stamp Aids AidsProps Boards.

(** *** Slots *)

(** An identifier of 64 bits; a slot without an article is 0. *)
Definition slot_ok (a : Z) : Prop := 0 <= a < 2 ^ 64 /\ (aidu_raw a = 0 -> a = 0).

Lemma slot_fields a : 0 <= a < 2 ^ 64 -> exists i g s h, fields_ok i g s h /\ a = aidu_val i g s h.
Proof.
  intros Ha. exists (a / 2 ^ 45), (a / 2 ^ 44 mod 2), (a / 2 ^ 12 mod 2 ^ 32), (a mod 2 ^ 12).
  unfold fields_ok, is_u32, aidu_val. split; Z.to_euclidean_division_equations; lia.
Qed.

(** A header of the pinned article [a]. *)
Definition matches (a : Z) (fh : fileheader) : bool :=
  match_fhdr_stamp_hex fh (prefix_of a) (aidu_stamp a) (aidu_hex a) (allow_prefix_of a FILE_BOTTOM) FILE_BOTTOM.

Lemma with_idx_fields a r : 0 <= a < 2 ^ 64 -> 0 < r <= AIDU_IDX_MASK ->
  aidu_idx (aidu_with_idx a r) = r /\ aidu_raw (aidu_with_idx a r) = aidu_raw a /\
  (forall fh, matches (aidu_with_idx a r) fh = matches a fh) /\ 0 <= aidu_with_idx a r < 2 ^ 64 /\
  aidu_with_idx (aidu_with_idx a r) r = aidu_with_idx a r /\ (aidu_idx a = r -> aidu_with_idx a r = a).
Proof.
  intros Ha Hr. destruct (slot_fields a Ha) as (i & g & s & h & Hf & ->).
  assert (Hs : safe_idx r = r).
  { unfold safe_idx, AIDU_IDX_MASK in *. rewrite u32_small by (unfold is_u32; lia).
    by replace ((0 <? r) && (r <=? 0x7FFFF)) with true by lia. }
  assert (Hf' : fields_ok r g s h) by (unfold fields_ok, is_u32, AIDU_IDX_MASK in *; lia).
  rewrite !with_idx_val, Hs by done. destruct (val_fields _ _ _ _ Hf) as (E1 & E2 & E3 & E4 & E5).
  destruct (val_fields _ _ _ _ Hf') as (E1' & E2' & E3' & E4' & E5').
  split; [done|]. split; [by rewrite E5, E5'|]. split; [|split; [|split]].
  - intros fh. unfold matches, prefix_of, allow_prefix_of. by rewrite E2, E2', E3, E3', E4, E4'.
  - unfold aidu_val, fields_ok, is_u32 in *. lia.
  - by rewrite with_idx_val, Hs.
  - intros <-. by rewrite E1.
Qed.

Section Bottoms.
Context (conv : fileheader -> fileheader) (dir : list fileheader).
Hypothesis Hdir : zlen dir <= AIDU_IDX_MASK.

(** The article of the slot is in the .DIR, pinned. *)
Definition alive (a : Z) : bool := negb (aidu_raw a =? 0) && existsb (matches a) dir.

(** The record [i] is the article of the slot. *)
Definition at_record (a i : Z) : Prop :=
  1 <= i <= zlen dir /\ exists fh, zget dir (i - 1) = Some fh /\ matches a fh = true.

Lemma search_slot a : aidu_raw a <> 0 ->
  exists i o, search_dir_by_aidu_fd conv dir (zlen dir) a FILE_BOTTOM = Some (i, o) /\
    if alive a then at_record a i else i = 0.
Proof.
  intros Hr. unfold search_dir_by_aidu_fd, search_dir_by_aidu_fd_bounded.
  rewrite (proj2 (Z.eqb_neq _ 0)) by done.
  destruct (search_cases conv dir (aidu_idx a) (prefix_of a) (aidu_stamp a) (aidu_hex a)
    (allow_prefix_of a FILE_BOTTOM) FILE_BOTTOM (-1) ltac:(done)) as ([i o] & E & Hc).
  exists i, o. split; [done|]. unfold alive. rewrite (proj2 (Z.eqb_neq _ 0)) by done. cbn [negb andb].
  destruct Hc as [(i' & fh & [= -> ->] & Hi & Hg & Hm)|[[[= -> ->] Hn]|(_ & ? & _)]]; [| |lia].
  - assert (Hin : fh ∈ dir).
    { cbn in Hg. apply list_elem_of_lookup. unfold zget in Hg. case_match; [|done]. by eexists. }
    assert (Ee : existsb (matches a) dir = true).
    { apply existsb_exists. exists fh. split; [by apply list_elem_of_In|done]. }
    rewrite Ee. split; [done|]. by exists fh.
  - destruct (existsb (matches a) dir) eqn:Ee; [|done]. apply existsb_exists in Ee as (fh & Hin & Hm).
    apply list_elem_of_In in Hin. specialize (Hn fh Hin). unfold matches in Hm. congruence.
Qed.

(** A slot whose hint is right is found at its hint. *)
Lemma search_hint a : aidu_raw a <> 0 -> at_record a (aidu_idx a) ->
  exists o, search_dir_by_aidu_fd conv dir (zlen dir) a FILE_BOTTOM = Some (aidu_idx a, o).
Proof.
  intros Hr (Hi & fh & Hg & Hm). unfold search_dir_by_aidu_fd, search_dir_by_aidu_fd_bounded, search_dir_by_stamp_fd_bounded.
  rewrite (proj2 (Z.eqb_neq _ 0)) by done. rewrite (proj2 (Z.leb_gt (zlen dir) 0)) by lia.
  unfold hint_exact. replace ((1 <=? aidu_idx a) && (aidu_idx a <=? zlen dir)) with true by lia.
  unfold pread_one. rewrite Hg. cbn [mbind option_bind]. unfold matches in Hm. rewrite Hm. by eexists.
Qed.

(** *** The loop *)

Lemma loop_ok snap : forall i slots recs dirty, Forall slot_ok snap -> zlen slots <= i ->
  exists R D, bottoms_loop conv dir snap i slots recs dirty =
      Some (slots ++ zip_with aidu_with_idx (List.filter alive snap) R, recs ++ R, dirty || D) /\
    Forall2 at_record (List.filter alive snap) R /\
    (D = false -> (List.filter alive snap = [] \/ zlen slots = i) /\
       exists n, snap = zip_with aidu_with_idx (List.filter alive snap) R ++ replicate n 0).
Proof.
  induction snap as [|a snap IH]; intros i slots recs dirty Hs Hi; cbn [bottoms_loop List.filter].
  { exists [], false. rewrite !app_nil_r, orb_false_r. split; [done|]. split; [done|]. intros _. split; [by left|]. by exists 0%nat. }
  apply list.Forall_cons in Hs as [[Ha Ha0] Hs].
  destruct (Z.eqb_spec (aidu_raw a) 0) as [E|E].
  { assert (Hal : alive a = false) by (unfold alive; by rewrite E). rewrite Hal.
    destruct (IH (i + 1) slots recs dirty Hs ltac:(lia)) as (R & D & E1 & E2 & E3). exists R, D.
    split; [done|]. split; [done|]. intros HD. destruct (E3 HD) as [[Hk|Hk] [n Hn]]; [|lia]. split; [by left|].
    rewrite Hk in Hn |- *. cbn in Hn |- *. exists (S n). rewrite (Ha0 E), Hn. done. }
  destruct (search_slot a E) as (f & o & Ef & Hf). rewrite Ef. cbn [mbind option_bind].
  destruct (alive a).
  - pose proof Hf as (Hr & _). assert (H0 : 0 <? f = true) by lia.
    assert (Hle : f <=? AIDU_IDX_MASK = true) by lia. rewrite H0, Hle.
    destruct (IH (i + 1) (slots ++ [aidu_with_idx a f]) (recs ++ [f])
      (dirty || negb (f =? aidu_idx a) || negb (zlen slots =? i)) Hs) as (R & D & E1 & E2 & E3); [zlia|].
    exists (f :: R), (negb (f =? aidu_idx a) || negb (zlen slots =? i) || D). rewrite E1, <- !app_assoc. cbn [app zip_with].
    split; [by rewrite <- !orb_assoc|]. split; [by constructor|]. intros HD.
    apply orb_false_iff in HD as [HD HD3]. apply orb_false_iff in HD as [HD1 HD2]. zbool. split; [by right|].
    destruct (E3 HD3) as [_ [n Hn]]. exists n. rewrite Hn at 1. cbn. f_equal. symmetry. apply with_idx_fields; lia.
  - subst f. cbn [Z.ltb Z.compare]. destruct (IH (i + 1) slots recs true Hs ltac:(lia)) as (R & D & E1 & E2 & E3).
    exists R, true. split; [by rewrite E1, orb_true_r|]. split; [done|]. done.
Qed.

Lemma loop_zeros n : forall i slots recs dirty,
  bottoms_loop conv dir (replicate n 0) i slots recs dirty = Some (slots, recs, dirty).
Proof. induction n as [|n IH]; intros i slots recs dirty; [done|]. cbn [replicate bottoms_loop]. apply IH. Qed.

(** Slots whose hints are right stay as they are. *)
Lemma loop_stable l R : Forall2 at_record l R -> Forall (fun a => 0 <= a < 2 ^ 64 /\ aidu_raw a <> 0) l ->
  forall i slots recs dirty n, zlen slots = i ->
  bottoms_loop conv dir (zip_with aidu_with_idx l R ++ replicate n 0) i slots recs dirty =
    Some (slots ++ zip_with aidu_with_idx l R, recs ++ R, dirty).
Proof.
  induction 1 as [|a r l R Har Hl IH]; intros Hs i slots recs dirty n Hi; cbn [zip_with app].
  - rewrite !app_nil_r. apply loop_zeros.
  - apply list.Forall_cons in Hs as [[Ha Hr] Hs]. pose proof Har as (Hrange & fh & Hg & Hm).
    destruct (with_idx_fields a r Ha) as (E1 & E2 & E3 & E4 & E5 & _); [lia|].
    cbn [bottoms_loop]. rewrite E2, (proj2 (Z.eqb_neq (aidu_raw a) 0)) by done.
    destruct (search_hint (aidu_with_idx a r)) as [o Eo]; [by rewrite E2|rewrite E1; split; [done|]; exists fh; by rewrite E3|].
    rewrite E1 in *. rewrite Eo. cbn [mbind option_bind].
    assert (H0 : 0 <? r = true) by lia. assert (Hle : r <=? AIDU_IDX_MASK = true) by lia.
    rewrite H0, Hle, E5, Z.eqb_refl, (proj2 (Z.eqb_eq (zlen slots) i)) by done. cbn [negb]. rewrite !orb_false_r.
    rewrite IH by (done || zlia). by rewrite <- !app_assoc.
Qed.

Lemma alive_raw l : Forall slot_ok l -> Forall (fun a => 0 <= a < 2 ^ 64 /\ aidu_raw a <> 0) (List.filter alive l).
Proof.
  intros H. apply list.Forall_forall. intros a Ha. apply list_elem_of_In, filter_In in Ha as [Hin Ha].
  apply list_elem_of_In in Hin. rewrite list.Forall_forall in H. split; [by apply H|].
  unfold alive in Ha. intros E. by rewrite E in Ha.
Qed.

Lemma zip_with_idx_raw l R : Forall2 at_record l R -> Forall (fun a => 0 <= a < 2 ^ 64 /\ aidu_raw a <> 0) l ->
  List.filter (fun a => negb (aidu_raw a =? 0)) (zip_with aidu_with_idx l R) = zip_with aidu_with_idx l R.
Proof.
  induction 1 as [|a r l R (Har & _) Hl IH]; intros H; [done|]. apply list.Forall_cons in H as [[Ha Hr] H].
  cbn [zip_with List.filter]. destruct (with_idx_fields a r Ha) as (_ & -> & _); [lia|].
  rewrite (proj2 (Z.eqb_neq _ 0)) by done. cbn [negb]. by rewrite IH.
Qed.

Lemma count_slots l R n : Forall2 at_record l R -> Forall (fun a => 0 <= a < 2 ^ 64 /\ aidu_raw a <> 0) l ->
  bottom_count (zip_with aidu_with_idx l R ++ replicate n 0) = zlen l.
Proof.
  intros H Hl. unfold bottom_count. rewrite List.filter_app, zip_with_idx_raw by done.
  assert (E : forall n, List.filter (fun a => negb (aidu_raw a =? 0)) (replicate n 0) = []).
  { intros k. by induction k. }
  rewrite E, app_nil_r. unfold zlen. f_equal. rewrite length_zip_with, (Forall2_length H). lia.
Qed.

Lemma get_n_bottom y i n s : getbcache y (with_n_bottom i n s) = getbcache y s.
Proof. done. Qed.

Lemma get_set_bottom y f s : getbcache y (set_board y f s) = f (getbcache y s).
Proof. unfold getbcache, set_board, with_bcache. cbn. by rewrite fn_lookup_insert. Qed.

(** What one process makes of the slots at the point [p], and nothing else. *)
Definition only (p : moment) (l : list Z) : moment -> option (list Z) :=
  fun q => if decide (q = p) then Some l else None.
Definition quiet : moment -> option (list Z) := fun _ => None.

Definition touched (other : moment -> option (list Z)) (bid : Z) (p : moment) (s : shm) : shm :=
  match other p with Some l => set_board bid (with_bottom l) s | None => s end.

(** The function from its second check on, when the slots are as counted. *)
Lemma resolve_loop other bid s slots R D :
  valid_bid bid = true -> brdname (getbcache bid s) <> [] -> bottom_count (bottom (getbcache bid s)) <> 0 ->
  let snap := bottom (getbcache bid s) in
  bottoms_loop conv dir snap 0 [] [] false = Some (slots, R, D) -> other AtSnapshot = None ->
  resolve_board_bottoms conv (Some dir) other bid s =
    (let s1 := touched other bid AtCompare s in
     let new_slots := slots ++ replicate (MAX_BOTTOM_POSTS - length slots) 0 in
     let write := D && bool_decide (snap = bottom (getbcache bid s1)) in
     let s2 := if write then touched other bid AtWrite
                   (set_board bid (with_bottom new_slots) (touched other bid AtCopy s1)) else s1 in
     Some (with_n_bottom (bid - 1) (zlen slots) s2,
           if write then Some (bottom (getbcache bid s2)) else None, zlen slots, R)).
Proof.
  intros Hv Hn Hc snap E Hsnap. unfold resolve_board_bottoms. rewrite Hv. cbn [negb].
  destruct (brdname (getbcache bid s)); [done|]. rewrite (proj2 (Z.eqb_neq _ 0)) by done.
  rewrite Hsnap. fold snap. rewrite E. done.
Qed.

End Bottoms.

(** C28. Resolving the pinned articles of a board ends: those that are in the
    .DIR and pinned stay, in order and without gaps, each with the number of its
    record; they are counted; the file of boards is written when the slots
    change, unless another process has changed them before they are compared with
    the copy; and resolving them again changes nothing and finds the same
    records.  A change between the comparison and the copying back is lost when
    the slots are written. *)
Theorem resolve_bottoms_spec conv dir bid s :
  let snap := bottom (getbcache bid s) in
  let kept := List.filter (alive dir) snap in
  zlen dir <= AIDU_IDX_MASK -> valid_bid bid = true -> brdname (getbcache bid s) <> [] ->
  Forall slot_ok snap -> length snap = MAX_BOTTOM_POSTS -> bottom_count snap <> 0 ->
  exists s' w recs,
    resolve_board_bottoms conv (Some dir) quiet bid s = Some (s', w, zlen kept, recs) /\
    Forall2 (at_record dir) kept recs /\
    bottom (getbcache bid s') = zip_with aidu_with_idx kept recs ++ replicate (MAX_BOTTOM_POSTS - length kept) 0 /\
    getbottomtotal bid s' = zlen kept /\
    match w with Some l => l = bottom (getbcache bid s') | None => bottom (getbcache bid s') = snap end /\
    (exists s'', resolve_board_bottoms conv (Some dir) quiet bid s' = Some (s'', None, zlen kept, recs) /\
       bottom (getbcache bid s'') = bottom (getbcache bid s')) /\
    (forall l, l <> snap -> exists s'', resolve_board_bottoms conv (Some dir) (only AtCompare l) bid s =
       Some (s'', None, zlen kept, recs) /\ bottom (getbcache bid s'') = l) /\
    (forall l, w <> None -> exists s'', resolve_board_bottoms conv (Some dir) (only AtCopy l) bid s =
       Some (s'', w, zlen kept, recs) /\ bottom (getbcache bid s'') = bottom (getbcache bid s')).
Proof.
  intros snap kept Hdir Hv Hn Hs Hlen Hc. pose proof (alive_raw dir snap Hs) as Hraw. fold kept in Hraw.
  destruct (loop_ok conv dir Hdir snap 0 [] [] false Hs) as (R & D & E & HR & HD); [done|]. fold kept in E, HR, HD.
  cbn [app orb] in E.
  assert (Hlz : length (zip_with aidu_with_idx kept R) = length kept).
  { rewrite length_zip_with, (Forall2_length HR). lia. }
  set (final := zip_with aidu_with_idx kept R ++ replicate (MAX_BOTTOM_POSTS - length kept) 0).
  assert (Hclean : D = false -> snap = final).
  { intros HD0. destruct (HD HD0) as [_ [n En]]. unfold final. rewrite En at 1. f_equal. f_equal.
    apply (f_equal length) in En. rewrite length_app, Hlz, length_replicate, Hlen in En. lia. }
  pose proof (fun other => resolve_loop conv dir other bid s _ R D Hv Hn Hc E) as Hres. cbv zeta in Hres.
  fold snap in Hres. rewrite Hlz in Hres. fold final in Hres.
  assert (Ez : zlen (zip_with aidu_with_idx kept R) = zlen kept) by (unfold zlen; by rewrite Hlz). rewrite Ez in Hres.
  set (s' := with_n_bottom (bid - 1) (zlen kept) (if D && bool_decide (snap = bottom (getbcache bid s))
    then set_board bid (with_bottom final) s else s)).
  assert (Hb : bottom (getbcache bid s') = final).
  { unfold s'. rewrite get_n_bottom. rewrite (bool_decide_eq_true_2 (snap = _)) by done. rewrite andb_true_r.
    destruct D; [by rewrite get_set_bottom|]. by apply Hclean. }
  assert (Hn' : brdname (getbcache bid s') <> []).
  { unfold s'. rewrite get_n_bottom. case_match; [by rewrite get_set_bottom|done]. }
  exists s', (if D && bool_decide (snap = bottom (getbcache bid s)) then Some final else None), R.
  split; [rewrite Hres by done; cbn [touched quiet]; by destruct (_ && _); rewrite ?get_set_bottom|].
  split; [done|]. split; [done|].
  split; [unfold getbottomtotal; rewrite Hv; cbn; by rewrite fn_lookup_insert|].
  split; [|split; [|split]].
  - rewrite Hb. rewrite (bool_decide_eq_true_2 (snap = _)) by done. rewrite andb_true_r.
    destruct D; [done|]. symmetry. by apply Hclean.
  - destruct (decide (zlen kept = 0)) as [Ek|Ek].
    + exists s'. split; [|done]. unfold resolve_board_bottoms. rewrite Hv. cbn [negb].
      destruct (brdname (getbcache bid s')); [done|]. rewrite Hb. unfold final. rewrite (count_slots dir) by done.
      apply zlen_zero in Ek. rewrite Ek in *. cbn. by inversion HR.
    + eexists. split.
      * rewrite (resolve_loop conv dir quiet bid s' (zip_with aidu_with_idx kept R) R false Hv Hn'); [cbn; by rewrite Ez|..];
          rewrite ?Hb; unfold final; [by rewrite (count_slots dir)|by apply loop_stable|done].
      * done.
  - intros l Hl. rewrite Hres by done. change (touched (only AtCompare l) bid AtCompare s) with (set_board bid (with_bottom l) s).
    rewrite get_set_bottom. cbn [with_bottom bottom].
    rewrite (bool_decide_eq_false_2 (snap = l)) by done. rewrite andb_false_r.
    eexists. split; [done|]. rewrite get_n_bottom. by rewrite get_set_bottom.
  - intros l Hw. rewrite Hres by done. change (touched (only AtCopy l) bid AtCompare s) with s.
    destruct (D && bool_decide (snap = bottom (getbcache bid s))); [|done].
    change (touched (only AtCopy l) bid AtWrite ?s) with s. rewrite Hb, get_set_bottom.
    eexists. split; [done|]. rewrite get_n_bottom. by rewrite get_set_bottom.
Qed.

(** *** Pinning *)

(** The slots [l] hold the articles [bs], each once and without gaps. *)
Definition pinned (l bs : list Z) : Prop :=
  l = bs ++ replicate (MAX_BOTTOM_POSTS - length bs) 0 /\ (length bs <= MAX_BOTTOM_POSTS)%nat /\
  Forall (fun a => aidu_raw a <> 0) bs /\ NoDup (map aidu_raw bs).

Lemma slot_of_absent bs n x i : 0 <= i -> x <> 0 -> x ∉ map aidu_raw bs -> slot_of (bs ++ replicate n 0) x i = -1.
Proof.
  intros Hi Hx. revert i Hi. induction bs as [|a bs IH]; intros i Hi Hin; cbn [app slot_of map] in *.
  - revert i Hi. induction n as [|n IH]; intros i Hi; [done|]. cbn [replicate slot_of]. by rewrite IH by lia.
  - rewrite list.elem_of_cons in Hin. rewrite IH by tauto || lia. cbn [Z.leb Z.compare].
    destruct (aidu_raw a =? 0); [done|]. rewrite (proj2 (Z.eqb_neq (aidu_raw a) x)); [done|]. intros <-. tauto.
Qed.

Lemma slot_of_present b1 a b2 n i :
  0 <= i -> aidu_raw a <> 0 -> aidu_raw a ∉ map aidu_raw b2 ->
  slot_of ((b1 ++ a :: b2) ++ replicate n 0) (aidu_raw a) i = i + zlen b1.
Proof.
  intros Hi Ha Hb. revert i Hi. induction b1 as [|b b1 IH]; intros i Hi; cbn [app slot_of].
  - rewrite slot_of_absent by done || lia. cbn [Z.leb Z.compare]. rewrite (proj2 (Z.eqb_neq _ 0)) by done.
    rewrite Z.eqb_refl. zlia.
  - rewrite IH by lia. pose proof (zlen_nonneg b1). rewrite (proj2 (Z.leb_le 0 _)) by lia. zlia.
Qed.

Lemma count_pinned l bs : pinned l bs -> bottom_count l = zlen bs.
Proof.
  intros (-> & _ & Hr & _). unfold bottom_count. rewrite List.filter_app.
  assert (E : forall n, List.filter (fun a => negb (aidu_raw a =? 0)) (replicate n 0) = []) by (intros k; by induction k).
  rewrite E, app_nil_r. f_equal. induction Hr as [|a bs Ha _ IH]; [done|]. cbn [List.filter].
  rewrite (proj2 (Z.eqb_neq _ 0)) by done. cbn [negb]. by rewrite IH.
Qed.

(** The articles after the change. *)
Definition pin (bs : list Z) (x ent : Z) (modified : bool) : list Z :=
  if negb modified then bs
  else if bool_decide (x ∈ map aidu_raw bs) then List.filter (fun a => negb (aidu_raw a =? x)) bs
  else if (MAX_BOTTOM_POSTS <=? length bs)%nat then bs
  else bs ++ [aidu_with_idx x ent].

Lemma filter_others b1 a b2 : NoDup (map aidu_raw (b1 ++ a :: b2)) ->
  List.filter (fun b => negb (aidu_raw b =? aidu_raw a)) (b1 ++ a :: b2) = b1 ++ b2.
Proof.
  rewrite map_app. cbn [map]. intros (_ & H1 & H2)%list.NoDup_app. apply list.NoDup_cons in H2 as [H2 _].
  assert (E : forall l, aidu_raw a ∉ map aidu_raw l -> List.filter (fun b => negb (aidu_raw b =? aidu_raw a)) l = l).
  { induction l as [|b l IH]; [done|]. cbn [map List.filter]. rewrite list.elem_of_cons. intros H.
    rewrite (proj2 (Z.eqb_neq _ _)) by (intros E; rewrite E in H; tauto). cbn [negb]. rewrite IH; tauto. }
  rewrite List.filter_app. cbn [List.filter]. rewrite Z.eqb_refl. cbn [negb]. rewrite !E; [done|done|].
  intros Hin. apply (H1 _ Hin). apply list.elem_of_cons. by left.
Qed.

Lemma take_drop_mid {A} (b1 : list A) a T :
  take (length b1) (b1 ++ a :: T) = b1 /\ drop (S (length b1)) (b1 ++ a :: T) = T.
Proof. induction b1 as [|b b1 [IH1 IH2]]; cbn; [done|]. by rewrite IH1. Qed.

(** Taking an article out closes the gap. *)
Lemma unpin_ok l b1 a b2 : pinned l (b1 ++ a :: b2) ->
  pinned (take (length b1) l ++ drop (S (length b1)) l ++ [0]) (b1 ++ b2).
Proof.
  intros (-> & Hlen & Hr & Hnd). rewrite <- app_assoc. cbn [app].
  set (n := (MAX_BOTTOM_POSTS - _)%nat).
  destruct (take_drop_mid b1 a (b2 ++ replicate n 0)) as [-> ->]. split; [|split; [|split]].
  - rewrite <- !app_assoc. f_equal. f_equal. rewrite <- replicate_cons_app. 
    change (0 :: replicate n 0) with (replicate (S n) 0). f_equal. unfold n. rewrite !length_app in *. cbn [length] in *. lia.
  - rewrite !length_app in *. cbn [length] in *. lia.
  - apply list.Forall_app in Hr as [H1 H2]. apply list.Forall_cons in H2 as [_ H2]. by apply list.Forall_app.
  - rewrite map_app in *. cbn [map] in Hnd. apply list.NoDup_app in Hnd as (N1 & N2 & N3).
    apply list.NoDup_cons in N3 as [_ N3]. apply list.NoDup_app. split; [done|]. split; [|done].
    intros x Hx Hx2. apply (N2 x Hx). apply list.elem_of_cons. by right.
Qed.

(** Adding an article fills the first free slot. *)
Lemma pin_ok l bs x ent : pinned l bs -> x <> 0 -> aidu_raw x = x -> 0 <= x < 2 ^ 64 -> 0 < ent <= AIDU_IDX_MASK ->
  x ∉ map aidu_raw bs -> (length bs < MAX_BOTTOM_POSTS)%nat ->
  pinned (<[length bs := aidu_with_idx x ent]> l) (bs ++ [aidu_with_idx x ent]).
Proof.
  intros (-> & Hlen & Hr & Hnd) Hx Hraw Hx64 Hent Hin Hlt.
  destruct (with_idx_fields x ent Hx64 Hent) as (_ & E & _). split; [|split; [|split]].
  - replace (length bs) with (length bs + 0)%nat at 1 by lia. rewrite insert_app_r.
    rewrite length_app. cbn [length]. rewrite <- app_assoc. f_equal.
    replace (MAX_BOTTOM_POSTS - length bs)%nat with (S (MAX_BOTTOM_POSTS - (length bs + 1))) by lia. done.
  - rewrite length_app. cbn [length]. lia.
  - apply list.Forall_app. split; [done|]. apply list.Forall_singleton. by rewrite E, Hraw.
  - rewrite map_app. cbn [map]. rewrite E, Hraw. apply list.NoDup_app. split; [done|]. split; [|by apply NoDup_singleton].
    intros y Hy ->%list_elem_of_singleton. done.
Qed.

(** Pinning keeps the articles of the slots without gaps and each once: an
    article that is not there is added at the end, with its record, unless there
    are five; one that is there is taken out; and when its header could not be
    changed nothing is. *)
Theorem pin_slots_spec l bs x ent modified :
  pinned l bs -> x <> 0 -> aidu_raw x = x -> 0 <= x < 2 ^ 64 -> 0 < ent <= AIDU_IDX_MASK ->
  pinned (pin_slots l x ent modified) (pin bs x ent modified).
Proof.
  intros Hp Hx Hraw Hx64 Hent. unfold pin_slots, pin. rewrite (count_pinned l bs Hp).
  pose proof Hp as (El & Hlen & Hr & Hnd).
  destruct (decide (x ∈ map aidu_raw bs)) as [Hin|Hin].
  - rewrite bool_decide_eq_true_2 by done. rewrite list_elem_of_In, in_map_iff in Hin.
    destruct Hin as (a & Ea & Hin). apply list_elem_of_In, list_elem_of_split in Hin as (b1 & b2 & ->). subst x.
    assert (Es : slot_of l (aidu_raw a) 0 = zlen b1).
    { rewrite El, slot_of_present; [done|done|done|]. rewrite map_app in Hnd. cbn [map] in Hnd.
      apply list.NoDup_app in Hnd as (_ & _ & Hnd). by apply list.NoDup_cons in Hnd as [Hnd _]. }
    rewrite Es. pose proof (zlen_nonneg b1). rewrite (proj2 (Z.ltb_ge (zlen b1) 0)) by lia.
    destruct modified; cbn [negb]; [|done]. rewrite filter_others by done.
    replace (Z.to_nat (zlen b1)) with (length b1) by (unfold zlen; lia).
    replace (Z.to_nat (zlen b1 + 1)) with (S (length b1)) by (unfold zlen; lia). by apply (unpin_ok l b1 a b2).
  - rewrite bool_decide_eq_false_2 by done.
    assert (Es : slot_of l x 0 = -1) by (rewrite El; by apply slot_of_absent). rewrite Es. cbn [Z.ltb Z.compare].
    destruct modified; cbn [negb]; [|by case_match].
    assert (Eb : (Z.of_nat MAX_BOTTOM_POSTS <=? zlen bs) = (MAX_BOTTOM_POSTS <=? length bs)%nat).
    { unfold zlen. destruct (Nat.leb_spec MAX_BOTTOM_POSTS (length bs)); [apply Z.leb_le|apply Z.leb_gt]; lia. }
    rewrite Eb. destruct (Nat.leb_spec MAX_BOTTOM_POSTS (length bs)); [done|].
    replace (Z.to_nat (zlen bs)) with (length bs) by (unfold zlen; lia). by apply pin_ok.
Qed.

(** Three pinned articles, one of which is gone and one of which has no hint. *)
Definition pinned_post (t : Z) : fileheader :=
  Fileheader (stamp_name STAMP_FILE t 0x1EA) [97] FILE_BOTTOM [].
Definition two_posts : list fileheader := [pinned_post 1120582370; pinned_post 1120582371].
Definition three_pins : list Z :=
  [aidu_pack 0 1120582371 0x1EA; aidu_pack 0 1120582372 0x1EA; aidu_pack 1 1120582370 0x1EA; 0; 0].
Definition one_board : shm :=
  Shm 0 1 (fun _ => BoardHeader [97] [] 2 (fun _ => 0) (fun _ => 0) 0 0 [] three_pins)
    (fun _ => [0]) (fun _ => 0) (fun _ => 0) (fun _ => 0).

Lemma resolve_bottoms_spec_witness :
  let kept := List.filter (alive two_posts) three_pins in
  length kept = 2%nat /\
  exists s' w recs,
    resolve_board_bottoms id (Some two_posts) quiet 1 one_board = Some (s', w, zlen kept, recs) /\
    Forall2 (at_record two_posts) kept recs /\
    bottom (getbcache 1 s') = zip_with aidu_with_idx kept recs ++ replicate (MAX_BOTTOM_POSTS - length kept) 0 /\
    getbottomtotal 1 s' = zlen kept /\
    match w with Some l => l = bottom (getbcache 1 s') | None => bottom (getbcache 1 s') = three_pins end /\
    (exists s'', resolve_board_bottoms id (Some two_posts) quiet 1 s' = Some (s'', None, zlen kept, recs) /\
       bottom (getbcache 1 s'') = bottom (getbcache 1 s')) /\
    (forall l, l <> three_pins -> exists s'', resolve_board_bottoms id (Some two_posts) (only AtCompare l) 1 one_board =
       Some (s'', None, zlen kept, recs) /\ bottom (getbcache 1 s'') = l) /\
    (forall l, w <> None -> exists s'', resolve_board_bottoms id (Some two_posts) (only AtCopy l) 1 one_board =
       Some (s'', w, zlen kept, recs) /\ bottom (getbcache 1 s'') = bottom (getbcache 1 s')).
Proof.
  split; [vm_compute; reflexivity|].
  apply (resolve_bottoms_spec id two_posts 1 one_board); [by vm_compute|done|done| |done|by vm_compute].
  repeat (constructor; [vm_compute; intuition congruence|]). constructor.
Defined.

Lemma pin_slots_spec_witness :
  let x := aidu_pack 0 1120582372 0x1EA in
  pinned (pin_slots [aidu_pack 1 1120582370 0x1EA; 0; 0; 0; 0] x 7 true)
    (pin [aidu_pack 1 1120582370 0x1EA] x 7 true).
Proof.
  apply (pin_slots_spec _ [aidu_pack 1 1120582370 0x1EA]); [|by vm_compute..].
  split; [by vm_compute|]. split; [unfold MAX_BOTTOM_POSTS; cbn; lia|]. split; [by repeat constructor|]. by apply NoDup_singleton.
Defined.

End BottomProps.
