(* ===== verification/Edit.v ===== *)
(** The text buffer of the editor ([mbbsd/edit.c]).

    A text is a doubly linked list of lines on the heap; [editor] is the
    [editor_internal_t] of [curr_buf] with the heap, [mbcs_mode] and the height
    of the terminal.  The allocator, the width table of [wcwidth.c] and the
    codec are arguments: [malloc] may return any free address and fill a block
    with anything, and [realloc] may or may not move it.  [None] is a failed
    assertion, an access out of a block or through a pointer that is NULL or
    dangling, or a block freed twice.  The screen is not modelled: of what the
    functions do to it only [redraw_everything] is. *)

From Stdlib Require Import String.
From stdpp Require Import gmap.
From S2P Require Import Prelude Cstr Str Utf8 Vtkbd Mbs.

#[global] Open Scope Z_scope.
#[global] Open Scope list_scope.

Module Edit.
Import Cstr Str Mbs.

Definition WRAPMARGIN : Z := 511.
Definition EDIT_LINE_LIMIT : Z := 65530.
Definition MAX_EDIT_LINE : Z := 2048.
Definition MAX_EDIT_LINE_LARGE : Z := 32000.

(** *** Lines and the editor *)

Definition ptr := positive.

(** [data] is the array at the end of the block: [alloc_len + 1] characters. *)
Record textline_t := Textline
  { prev : option ptr; next : option ptr; len : Z; alloc_len : Z; data : list Z }.

Record editor := Editor
  { heap : gmap ptr textline_t;
    firstline : option ptr; lastline : option ptr;
    currline : option ptr; blockline : option ptr; top_of_win : option ptr;
    deleted_line : option ptr; oldcurrline : option ptr;
    currln : Z; totaln : Z; curr_window_line : Z; blockln : Z;
    currpnt : Z; lastindent : Z; t_lines : Z;
    redraw_everything : bool; insert_mode : bool; ansimode : bool;
    indent_mode : bool; phone_mode : bool; mbcs_mode : bool }.

Definition set_heap (v : gmap ptr textline_t) (s : editor) : editor :=
  Editor v (firstline s) (lastline s) (currline s) (blockline s) (top_of_win s) 
    (deleted_line s) (oldcurrline s) (currln s) (totaln s) (curr_window_line s) (blockln s) 
    (currpnt s) (lastindent s) (t_lines s) (redraw_everything s) (insert_mode s) (ansimode s) 
    (indent_mode s) (phone_mode s) (mbcs_mode s).
Definition set_firstline (v : option ptr) (s : editor) : editor :=
  Editor (heap s) v (lastline s) (currline s) (blockline s) (top_of_win s) (deleted_line s) 
    (oldcurrline s) (currln s) (totaln s) (curr_window_line s) (blockln s) (currpnt s) 
    (lastindent s) (t_lines s) (redraw_everything s) (insert_mode s) (ansimode s) 
    (indent_mode s) (phone_mode s) (mbcs_mode s).
Definition set_lastline (v : option ptr) (s : editor) : editor :=
  Editor (heap s) (firstline s) v (currline s) (blockline s) (top_of_win s) (deleted_line s) 
    (oldcurrline s) (currln s) (totaln s) (curr_window_line s) (blockln s) (currpnt s) 
    (lastindent s) (t_lines s) (redraw_everything s) (insert_mode s) (ansimode s) 
    (indent_mode s) (phone_mode s) (mbcs_mode s).
Definition set_currline (v : option ptr) (s : editor) : editor :=
  Editor (heap s) (firstline s) (lastline s) v (blockline s) (top_of_win s) (deleted_line s) 
    (oldcurrline s) (currln s) (totaln s) (curr_window_line s) (blockln s) (currpnt s) 
    (lastindent s) (t_lines s) (redraw_everything s) (insert_mode s) (ansimode s) 
    (indent_mode s) (phone_mode s) (mbcs_mode s).
Definition set_blockline (v : option ptr) (s : editor) : editor :=
  Editor (heap s) (firstline s) (lastline s) (currline s) v (top_of_win s) (deleted_line s) 
    (oldcurrline s) (currln s) (totaln s) (curr_window_line s) (blockln s) (currpnt s) 
    (lastindent s) (t_lines s) (redraw_everything s) (insert_mode s) (ansimode s) 
    (indent_mode s) (phone_mode s) (mbcs_mode s).
Definition set_top_of_win (v : option ptr) (s : editor) : editor :=
  Editor (heap s) (firstline s) (lastline s) (currline s) (blockline s) v (deleted_line s) 
    (oldcurrline s) (currln s) (totaln s) (curr_window_line s) (blockln s) (currpnt s) 
    (lastindent s) (t_lines s) (redraw_everything s) (insert_mode s) (ansimode s) 
    (indent_mode s) (phone_mode s) (mbcs_mode s).
Definition set_deleted_line (v : option ptr) (s : editor) : editor :=
  Editor (heap s) (firstline s) (lastline s) (currline s) (blockline s) (top_of_win s) v 
    (oldcurrline s) (currln s) (totaln s) (curr_window_line s) (blockln s) (currpnt s) 
    (lastindent s) (t_lines s) (redraw_everything s) (insert_mode s) (ansimode s) 
    (indent_mode s) (phone_mode s) (mbcs_mode s).
Definition set_oldcurrline (v : option ptr) (s : editor) : editor :=
  Editor (heap s) (firstline s) (lastline s) (currline s) (blockline s) (top_of_win s) 
    (deleted_line s) v (currln s) (totaln s) (curr_window_line s) (blockln s) (currpnt s) 
    (lastindent s) (t_lines s) (redraw_everything s) (insert_mode s) (ansimode s) 
    (indent_mode s) (phone_mode s) (mbcs_mode s).
Definition set_currln (v : Z) (s : editor) : editor :=
  Editor (heap s) (firstline s) (lastline s) (currline s) (blockline s) (top_of_win s) 
    (deleted_line s) (oldcurrline s) v (totaln s) (curr_window_line s) (blockln s) (currpnt s) 
    (lastindent s) (t_lines s) (redraw_everything s) (insert_mode s) (ansimode s) 
    (indent_mode s) (phone_mode s) (mbcs_mode s).
Definition set_totaln (v : Z) (s : editor) : editor :=
  Editor (heap s) (firstline s) (lastline s) (currline s) (blockline s) (top_of_win s) 
    (deleted_line s) (oldcurrline s) (currln s) v (curr_window_line s) (blockln s) (currpnt s) 
    (lastindent s) (t_lines s) (redraw_everything s) (insert_mode s) (ansimode s) 
    (indent_mode s) (phone_mode s) (mbcs_mode s).
Definition set_curr_window_line (v : Z) (s : editor) : editor :=
  Editor (heap s) (firstline s) (lastline s) (currline s) (blockline s) (top_of_win s) 
    (deleted_line s) (oldcurrline s) (currln s) (totaln s) v (blockln s) (currpnt s) 
    (lastindent s) (t_lines s) (redraw_everything s) (insert_mode s) (ansimode s) 
    (indent_mode s) (phone_mode s) (mbcs_mode s).
Definition set_blockln (v : Z) (s : editor) : editor :=
  Editor (heap s) (firstline s) (lastline s) (currline s) (blockline s) (top_of_win s) 
    (deleted_line s) (oldcurrline s) (currln s) (totaln s) (curr_window_line s) v (currpnt s) 
    (lastindent s) (t_lines s) (redraw_everything s) (insert_mode s) (ansimode s) 
    (indent_mode s) (phone_mode s) (mbcs_mode s).
Definition set_currpnt (v : Z) (s : editor) : editor :=
  Editor (heap s) (firstline s) (lastline s) (currline s) (blockline s) (top_of_win s) 
    (deleted_line s) (oldcurrline s) (currln s) (totaln s) (curr_window_line s) (blockln s) v 
    (lastindent s) (t_lines s) (redraw_everything s) (insert_mode s) (ansimode s) 
    (indent_mode s) (phone_mode s) (mbcs_mode s).
Definition set_lastindent (v : Z) (s : editor) : editor :=
  Editor (heap s) (firstline s) (lastline s) (currline s) (blockline s) (top_of_win s) 
    (deleted_line s) (oldcurrline s) (currln s) (totaln s) (curr_window_line s) (blockln s) 
    (currpnt s) v (t_lines s) (redraw_everything s) (insert_mode s) (ansimode s) 
    (indent_mode s) (phone_mode s) (mbcs_mode s).
Definition set_t_lines (v : Z) (s : editor) : editor :=
  Editor (heap s) (firstline s) (lastline s) (currline s) (blockline s) (top_of_win s) 
    (deleted_line s) (oldcurrline s) (currln s) (totaln s) (curr_window_line s) (blockln s) 
    (currpnt s) (lastindent s) v (redraw_everything s) (insert_mode s) (ansimode s) 
    (indent_mode s) (phone_mode s) (mbcs_mode s).
Definition set_redraw_everything (v : bool) (s : editor) : editor :=
  Editor (heap s) (firstline s) (lastline s) (currline s) (blockline s) (top_of_win s) 
    (deleted_line s) (oldcurrline s) (currln s) (totaln s) (curr_window_line s) (blockln s) 
    (currpnt s) (lastindent s) (t_lines s) v (insert_mode s) (ansimode s) (indent_mode s) 
    (phone_mode s) (mbcs_mode s).
Definition set_insert_mode (v : bool) (s : editor) : editor :=
  Editor (heap s) (firstline s) (lastline s) (currline s) (blockline s) (top_of_win s) 
    (deleted_line s) (oldcurrline s) (currln s) (totaln s) (curr_window_line s) (blockln s) 
    (currpnt s) (lastindent s) (t_lines s) (redraw_everything s) v (ansimode s) (indent_mode s) 
    (phone_mode s) (mbcs_mode s).
Definition set_ansimode (v : bool) (s : editor) : editor :=
  Editor (heap s) (firstline s) (lastline s) (currline s) (blockline s) (top_of_win s) 
    (deleted_line s) (oldcurrline s) (currln s) (totaln s) (curr_window_line s) (blockln s) 
    (currpnt s) (lastindent s) (t_lines s) (redraw_everything s) (insert_mode s) v 
    (indent_mode s) (phone_mode s) (mbcs_mode s).
Definition set_indent_mode (v : bool) (s : editor) : editor :=
  Editor (heap s) (firstline s) (lastline s) (currline s) (blockline s) (top_of_win s) 
    (deleted_line s) (oldcurrline s) (currln s) (totaln s) (curr_window_line s) (blockln s) 
    (currpnt s) (lastindent s) (t_lines s) (redraw_everything s) (insert_mode s) (ansimode s) v 
    (phone_mode s) (mbcs_mode s).
Definition set_phone_mode (v : bool) (s : editor) : editor :=
  Editor (heap s) (firstline s) (lastline s) (currline s) (blockline s) (top_of_win s) 
    (deleted_line s) (oldcurrline s) (currln s) (totaln s) (curr_window_line s) (blockln s) 
    (currpnt s) (lastindent s) (t_lines s) (redraw_everything s) (insert_mode s) (ansimode s) 
    (indent_mode s) v (mbcs_mode s).
Definition set_mbcs_mode (v : bool) (s : editor) : editor :=
  Editor (heap s) (firstline s) (lastline s) (currline s) (blockline s) (top_of_win s) 
    (deleted_line s) (oldcurrline s) (currln s) (totaln s) (curr_window_line s) (blockln s) 
    (currpnt s) (lastindent s) (t_lines s) (redraw_everything s) (insert_mode s) (ansimode s) 
    (indent_mode s) (phone_mode s) v.

Definition b_lines (s : editor) : Z := t_lines s - 1.
Definition p_lines (s : editor) : Z := t_lines s - 4.

Definition assert (b : bool) : option unit := if b then Some tt else None.

(** *** Pointers *)

Definition get (p : option ptr) (s : editor) : option textline_t := q ← p; heap s !! q.

(** [*p = t]. *)
Definition put (p : option ptr) (t : textline_t) (s : editor) : option editor :=
  q ← p;
  _ ← heap s !! q;
  Some (set_heap (<[q := t]> (heap s)) s).

Definition set_prev (p q : option ptr) (s : editor) : option editor :=
  t ← get p s; put p (Textline q (next t) (len t) (alloc_len t) (data t)) s.
Definition set_next (p q : option ptr) (s : editor) : option editor :=
  t ← get p s; put p (Textline (prev t) q (len t) (alloc_len t) (data t)) s.
Definition set_len (p : option ptr) (n : Z) (s : editor) : option editor :=
  t ← get p s; put p (Textline (prev t) (next t) n (alloc_len t) (data t)) s.
Definition set_alloc_len (p : option ptr) (n : Z) (s : editor) : option editor :=
  t ← get p s; put p (Textline (prev t) (next t) (len t) n (data t)) s.

(** The assignment of the array that [f] computes from it. *)
Definition upd_data (p : option ptr) (f : list Z -> option (list Z)) (s : editor) : option editor :=
  t ← get p s;
  d ← f (data t);
  put p (Textline (prev t) (next t) (len t) (alloc_len t) d) s.

(** The string that starts at [d[off]]: there must be a NUL in the array. *)
Definition c_str (d : list Z) (off : Z) : option (list Z) :=
  if (0 <=? off) && existsb (Z.eqb 0) (drop (Z.to_nat off) d)
  then Some (cstring (drop (Z.to_nat off) d)) else None.

(** A walk along the list visits each line once. *)
Definition line_fuel (s : editor) : nat := S (size (heap s)).

(** *** The allocator *)

Class Libc :=
  { malloc_at : gmap ptr textline_t -> ptr;
    realloc_moves : gmap ptr textline_t -> ptr -> Z -> bool;
    garbage : gmap ptr textline_t -> Z -> Z }.

Section Editor.
Context `{Libc} {C : Type} `{MbCodec C}.
Variable mk_wcwidth_cjk : Z -> Z.

#[local] Abbreviation mb_bytes := (@Mbs.mb_bytes C _).
#[local] Abbreviation mb_width := (@Mbs.mb_width C _ mk_wcwidth_cjk).
#[local] Abbreviation stream_width_n := (@Mbs.stream_width_n C _ mk_wcwidth_cjk).
#[local] Abbreviation stream_width := (@Mbs.stream_width C _ mk_wcwidth_cjk).

(** [n] characters that nobody has written yet. *)
Definition fill (s : editor) (n : Z) : list Z := map (garbage (heap s)) (seqZ 0 n).

Definition alloc_line (length : Z) (s : editor) : editor * option ptr :=
  let p := malloc_at (heap s) in
  (set_heap (<[p := Textline None None 0 length (0 :: fill s length)]> (heap s)) s, Some p).

(** [realloc] to an array of [n + 1] characters. *)
Definition realloc_line (p : option ptr) (n : Z) (s : editor) : option (editor * option ptr) :=
  q ← p;
  t ← heap s !! q;
  let d := take (Z.to_nat (n + 1)) (data t ++ fill s (n + 1 - zlen (data t))) in
  let t := Textline (prev t) (next t) (len t) (alloc_len t) d in
  if realloc_moves (heap s) q n then
    let r := malloc_at (heap s) in
    Some (set_heap (<[r := t]> (delete q (heap s))) s, Some r)
  else Some (set_heap (<[q := t]> (heap s)) s, Some q).

Definition free_line (p : option ptr) (s : editor) : option editor :=
  q ← p;
  _ ← heap s !! q;
  let s := if bool_decide (p = oldcurrline s) then set_oldcurrline None s else s in
  Some (set_heap (delete q (heap s)) s).

(** *** Positions in a line *)

Inductive dir := FC_RIGHT | FC_LEFT.

(** [newpos] and the last [w]. *)
Fixpoint fix_loop (fuel : nat) (str : list Z) (pos newpos w : Z) : option (Z * Z) :=
  match fuel with
  | O => None
  | S fuel =>
      if negb (cchar str 0 =? 0) && (newpos <? pos) then
        w ← mb_bytes str;
        fix_loop fuel (drop (Z.to_nat w) str) pos (newpos + w) w
      else Some (newpos, w)
  end.

Definition fix_cursor (str : list Z) (pos : Z) (dir : dir) : option Z :=
  _ ← assert (0 <=? pos);
  '(newpos, w) ← fix_loop (S (length str)) str pos 0 0;
  Some (match dir with FC_LEFT => if pos <? newpos then newpos - w else newpos
                  | FC_RIGHT => newpos end).

Definition isalpha (c : Z) : bool := between 65 90 c || between 97 122 c.

(** The length of the sequence at the front of [s], its final letter included. *)
Definition esc_len (s : list Z) : nat :=
  let k := run_len (fun c => negb (isalpha c)) s in
  if (k <? length s)%nat then S k else k.

(** [n] is [tmp - data]. *)
Fixpoint col_to_pos (mbcs_mode strip_esc : bool) (fuel : nat) (s : list Z) (col n : Z) : option Z :=
  match fuel with
  | O => None
  | S fuel =>
      if cchar s 0 =? 0 then Some n
      else if strip_esc && (cchar s 0 =? ESC_CHR) then
        let k := esc_len s in
        col_to_pos mbcs_mode strip_esc fuel (drop k s) col (n + Z.of_nat k)
      else if col <=? 0 then Some n
      else
        w ← mb_bytes s;
        cw ← mb_width s;
        let cw := if negb strip_esc && (cw <=? 0) then 1 else cw in
        if col <? cw then Some (if negb mbcs_mode then n + col else n)
        else col_to_pos mbcs_mode strip_esc fuel (drop (Z.to_nat w) s) (col - cw) (n + w)
  end.

Definition line_col_to_pos (line : option ptr) (col : Z) (strip_esc : bool) (s : editor) : option Z :=
  t ← get line s;
  d ← c_str (data t) 0;
  col_to_pos (mbcs_mode s) strip_esc (S (length d)) d col 0.

(** [n] is [nxp - tmp]. *)
Fixpoint pos_to_col (strip_esc : bool) (fuel : nat) (s : list Z) (n col : Z) : option Z :=
  match fuel with
  | O => None
  | S fuel =>
      if cchar s 0 =? 0 then Some col
      else if strip_esc && (cchar s 0 =? ESC_CHR) then
        let k := esc_len s in
        pos_to_col strip_esc fuel (drop k s) (n - Z.of_nat k) col
      else if n <=? 0 then Some col
      else
        w ← mb_bytes s;
        cw ← mb_width s;
        let cw := if negb strip_esc && (cw <=? 0) then 1 else cw in
        if n <? w then Some (s16 (col + s16 n))
        else pos_to_col strip_esc fuel (drop (Z.to_nat w) s) (n - w) (s16 (col + cw))
  end.

Definition line_pos_to_col (line : option ptr) (nx : Z) (strip_esc : bool) (s : editor) : option Z :=
  t ← get line s;
  d ← c_str (data t) 0;
  pos_to_col strip_esc (S (length d)) d nx 0.

Definition ansi2n (ansix : Z) (line : option ptr) (s : editor) : option Z := line_col_to_pos line ansix true s.
Definition n2ansi (nx : Z) (line : option ptr) (s : editor) : option Z := line_pos_to_col line nx true s.

(** *** The window *)

Definition middle_line (s : editor) : Z := p_lines s / 2 + 1.

Definition visible_window_height (s : editor) : Z :=
  if phone_mode s then b_lines s - 1 else b_lines s.

(** The line and how many steps were made. *)
Fixpoint walk_line (f : textline_t -> option ptr) (num : nat) (pos : option ptr) (s : editor)
  : option (option ptr * Z) :=
  match num, pos with
  | S num, Some _ =>
      t ← get pos s;
      match f t with
      | Some item => '(p, n) ← walk_line f num (Some item) s; Some (p, n + 1)
      | None => Some (pos, 0)
      end
  | _, _ => Some (pos, 0)
  end.

Definition back_line (pos : option ptr) (num : Z) (changeln : bool) (s : editor)
  : option (editor * option ptr) :=
  '(p, n) ← walk_line prev (Z.to_nat num) pos s;
  Some (if changeln then set_currln (currln s - n) s else s, p).

Definition forward_line (pos : option ptr) (num : Z) (changeln : bool) (s : editor)
  : option (editor * option ptr) :=
  '(p, n) ← walk_line next (Z.to_nat num) pos s;
  Some (if changeln then set_currln (currln s + n) s else s, p).

(** The cursor goes to [line] at the column where it was. *)
Definition keep_column (from line : option ptr) (s : editor) : option editor :=
  pos ← (if ansimode s then
           pos ← n2ansi (currpnt s) from s;
           ansi2n pos line s
         else line_col_to_pos line (lastindent s) false s);
  Some (set_currpnt pos s).

Definition cursor_to_next_line (s : editor) : option editor :=
  t ← get (currline s) s;
  match next t with
  | None => Some s
  | Some n =>
      let s := set_currline (Some n) s in
      let s := set_curr_window_line (curr_window_line s + 1) s in
      let s := set_currln (currln s + 1) s in
      t ← get (currline s) s;
      keep_column (prev t) (currline s) s
  end.

Definition cursor_to_prev_line (s : editor) : option editor :=
  t ← get (currline s) s;
  match prev t with
  | None => Some s
  | Some p =>
      let s := set_curr_window_line (curr_window_line s - 1) s in
      let s := set_currln (currln s - 1) s in
      let s := set_currline (Some p) s in
      t ← get (currline s) s;
      keep_column (next t) (currline s) s
  end.

Definition edit_window_adjust (s : editor) : option editor :=
  let '(s, offset) :=
    if curr_window_line s <? 0 then
      (set_top_of_win (currline s) (set_curr_window_line 0 s), curr_window_line s)
    else (s, 0) in
  let h := visible_window_height s in
  '(s, offset) ←
    (if h <=? curr_window_line s then
       let offset := curr_window_line s - h + 1 in
       let s := set_curr_window_line (h - 1) s in
       '(s, p) ← back_line (currline s) (h - 1) false s;
       Some (set_top_of_win p s, offset)
     else Some (s, offset));
  Some (if (offset =? -1) || (offset =? 1) || (offset =? 0) then s else set_redraw_everything true s).

(** [for (i = n; i; i--) p = p->prev]. *)
Fixpoint up_lines (n : nat) (p : option ptr) (s : editor) : option (option ptr) :=
  match n with
  | O => Some p
  | S n => t ← get p s; up_lines n (prev t) s
  end.

Definition edit_window_adjust_middle (s : editor) : option editor :=
  s ← (if currln s <? middle_line s then
         Some (set_curr_window_line (currln s) (set_top_of_win (firstline s) s))
       else
         p ← up_lines (Z.to_nat (middle_line s)) (currline s) s;
         Some (set_top_of_win p (set_curr_window_line (middle_line s) s)));
  Some (set_redraw_everything true s).

Fixpoint lineno_loop (fuel : nat) (p : option ptr) (cnt : Z) (s : editor) : option Z :=
  match fuel with
  | O => None
  | S fuel =>
      if bool_decide (p = None) || bool_decide (p = top_of_win s) then Some cnt
      else t ← get p s; lineno_loop fuel (prev t) (cnt + 1) s
  end.

Definition get_lineno_in_window (s : editor) : option Z := lineno_loop (line_fuel s) (currline s) 0 s.

(** *** Raw data *)

(** [s] is [d + off]; [n] iterations are left. *)
Fixpoint raw_shift_left (n : nat) (d : list Z) (off : Z) : option (list Z) :=
  match n with
  | O => Some d
  | S n =>
      c ← zget d off;
      if c =? 0 then Some d
      else
        c ← zget d (off + 1);
        d ← mem_write d off [c];
        raw_shift_left n d (off + 1)
  end.

Fixpoint raw_shift_right (n : nat) (d : list Z) (off : Z) : option (list Z) :=
  match n with
  | O => Some d
  | S n =>
      c ← zget d (off + Z.of_nat n);
      d ← mem_write d (off + Z.of_nat n + 1) [c];
      raw_shift_right n d off
  end.

Definition next_non_space_char (d : list Z) (off : Z) : option Z :=
  t ← c_str d off; Some (off + Z.of_nat (run_len (Z.eqb 32) t)).

(** [while (s != d && f( *s)) s--]. *)
Fixpoint back_while (f : Z -> bool) (d : list Z) (s : nat) : option nat :=
  match s with
  | O => Some O
  | S n => c ← d !! s; if f c then back_while f d n else Some s
  end.

(** The last space before the last word that ends at or before [s], or 0. *)
Definition wrap_point (d : list Z) (s : Z) : option Z :=
  _ ← assert (0 <=? s);
  i ← back_while (Z.eqb 32) d (Z.to_nat s);
  i ← back_while (fun c => negb (c =? 32)) d i;
  Some (Z.of_nat i).

(** *** The list of lines *)

Definition clone_line (line : option ptr) (s : editor) : option (editor * option ptr) :=
  t ← get line s;
  let '(s, p) := alloc_line (len t) s in
  s ← set_len p (len t) s;
  d ← c_str (data t) 0;
  s ← upd_data p (fun d' => mem_write d' 0 (strlcpy (len t + 1) d ++ [0])) s;
  Some (s, p).

Definition insert_line (line p : option ptr) (s : editor) : option editor :=
  t ← get line s;
  s ← set_next p (next t) s;
  s ← match next t with
      | Some _ => set_prev (next t) p s
      | None => Some (set_lastline p s)
      end;
  s ← set_next line p s;
  set_prev p line s.

Definition delete_line (line : option ptr) (saved : bool) (s : editor) : option editor :=
  t ← get line s;
  let p := prev t in
  let n := next t in
  if bool_decide (p = None) && bool_decide (n = None) then
    s ← set_len line 0 s;
    upd_data line (fun d => mem_write d 0 [0]) s
  else
    _ ← assert (negb (bool_decide (line = top_of_win s)));
    s ← match n with Some _ => set_prev n p s | None => Some (set_lastline p s) end;
    s ← match p with Some _ => set_next p n s | None => Some (set_firstline n s) end;
    let s := set_totaln (totaln s - 1) s in
    if saved then
      s ← match deleted_line s with Some _ => free_line (deleted_line s) s | None => Some s end;
      let s := if bool_decide (line = oldcurrline s) then set_oldcurrline None s else s in
      t ← get line s;
      '(s, line) ← (if len t <? alloc_len t then
                      '(s, line) ← realloc_line line (len t) s;
                      s ← set_alloc_len line (len t) s;
                      Some (s, line)
                    else Some (s, line));
      let s := set_deleted_line line s in
      s ← set_next (deleted_line s) None s;
      set_prev (deleted_line s) None s
    else free_line line s.

Fixpoint indent_loop (fuel : nat) (p : option ptr) (s : editor) : option Z :=
  match fuel with
  | O => None
  | S fuel =>
      match p with
      | None => Some 0
      | Some _ =>
          t ← get p s;
          spcs ← next_non_space_char (data t) 0;
          c ← zget (data t) spcs;
          if negb (c =? 0) then Some spcs else indent_loop fuel (prev t) s
      end
  end.

Definition indent_space (s : editor) : option Z :=
  if negb (indent_mode s) then Some 0 else indent_loop (line_fuel s) (currline s) s.

(** [if (oldp == f) f = newp]. *)
Definition moved (oldp newp f : option ptr) : option ptr := if bool_decide (oldp = f) then newp else f.

Definition move_ptrs (oldp newp : option ptr) (s : editor) : editor :=
  let s := set_firstline (moved oldp newp (firstline s)) s in
  let s := set_lastline (moved oldp newp (lastline s)) s in
  let s := set_currline (moved oldp newp (currline s)) s in
  let s := set_blockline (moved oldp newp (blockline s)) s in
  let s := set_top_of_win (moved oldp newp (top_of_win s)) s in
  set_oldcurrline (moved oldp newp (oldcurrline s)) s.

Definition adjustline (oldp : option ptr) (n : Z) (s : editor) : option (editor * option ptr) :=
  t ← get oldp s;
  _ ← assert ((0 <=? len t) && (len t <=? WRAPMARGIN));
  _ ← assert (negb (bool_decide (oldp = deleted_line s)));
  _ ← assert (len t <=? n);
  if alloc_len t =? n then Some (s, oldp)
  else
    '(s, newp) ← realloc_line oldp n s;
    s ← set_alloc_len newp n s;
    s ← upd_data newp (fun d => mem_write d (len t) [0]) s;
    s ← (if bool_decide (oldp = newp) then Some s
         else
           let s := move_ptrs oldp newp s in
           t ← get newp s;
           s ← match prev t with Some _ => set_next (prev t) newp s | None => Some s end;
           match next t with Some _ => set_prev (next t) newp s | None => Some s end);
    let s := if bool_decide (oldcurrline s = None) && (n =? WRAPMARGIN)
             then set_oldcurrline (currline s) s else s in
    Some (s, newp).

Definition edit_buffer_check_healthy (line : option ptr) (s : editor) : option unit :=
  t ← get line s;
  _ ← match next t with
      | Some _ => u ← get (next t) s; assert (bool_decide (prev u = line))
      | None => Some tt
      end;
  _ ← match prev t with
      | Some _ => u ← get (prev t) s; assert (bool_decide (next u = line))
      | None => Some tt
      end;
  _ ← assert (0 <=? len t);
  _ ← assert (len t <=? WRAPMARGIN);
  d ← c_str (data t) 0;
  assert (zlen d =? len t).

(** *** Splitting and joining lines *)

Definition spaces (n : Z) : list Z := replicate (Z.to_nat n) 32.

(** [memset(data, ' ', n)] under [if (n > 0)]. *)
Definition put_spaces (p : option ptr) (n : Z) (s : editor) : option editor :=
  if 0 <? n then upd_data p (fun d => mem_write d 0 (spaces n)) s else Some s.

Definition split_upper (line : option ptr) (pos spcs actual_pos tail_len : Z) (s : editor)
  : option (editor * option ptr) :=
  t ← get line s;
  let '(s, head) := alloc_line pos s in
  s ← set_len head pos s;
  d ← mem_read (data t) 0 pos;
  s ← upd_data head (fun h => mem_write h 0 d) s;
  s ← upd_data head (fun h => mem_write h pos [0]) s;
  '(s, line) ← (if alloc_len t <? WRAPMARGIN then adjustline line WRAPMARGIN s else Some (s, line));
  t ← get line s;
  s ← set_prev head (prev t) s;
  s ← set_next head line s;
  s ← match prev t with
      | Some _ => set_next (prev t) head s
      | None => Some (set_firstline head s)
      end;
  s ← set_prev line head s;
  let s := if bool_decide (top_of_win s = line) then set_top_of_win head s else s in
  let s := if bool_decide (blockline s = line) then set_blockline head s else s in
  s ← upd_data line (fun d => mem_move d spcs actual_pos (tail_len + 1)) s;
  s ← put_spaces line spcs s;
  s ← set_len line (tail_len + spcs) s;
  s ← (if currpnt s <=? actual_pos then Some (set_currpnt spcs s)
       else
         let s := set_currpnt (currpnt s - actual_pos + spcs) s in
         t ← get (currline s) s;
         Some (if len t <? currpnt s then set_currpnt (len t) s else s));
  let s := set_curr_window_line (curr_window_line s + 1) s in
  let s := set_currln (currln s + 1) s in
  s ← edit_window_adjust s;
  Some (s, head).

Definition split_lower (line : option ptr) (pos spcs actual_pos tail_len : Z) (s : editor)
  : option editor :=
  let '(s, p) := alloc_line (tail_len + spcs) s in
  s ← set_len p (tail_len + spcs) s;
  s ← put_spaces p spcs s;
  t ← get line s;
  d ← mem_read (data t) actual_pos (tail_len + 1);
  s ← upd_data p (fun d' => mem_write d' spcs d) s;
  s ← set_len line pos s;
  s ← upd_data line (fun d => mem_write d pos [0]) s;
  insert_line line p s.

(** The upper line. *)
Definition split (line : option ptr) (pos indent : Z) (s : editor) : option (editor * option ptr) :=
  t ← get line s;
  pos ← (if mbcs_mode s && (0 <? pos) && (pos <? len t)
         then d ← c_str (data t) 0; fix_cursor d pos FC_LEFT else Some pos);
  if len t <? pos then Some (s, line)
  else
    let s := set_totaln (totaln s + 1) s in
    '(p, tail_len) ←
      (if indent_mode s then
         p ← next_non_space_char (data t) pos;
         d ← c_str (data t) p;
         Some (p, zlen d)
       else Some (pos, len t - pos));
    '(s, line) ←
      (if bool_decide (line = currline s) && (pos <=? currpnt s)
       then split_upper line pos indent p tail_len s
       else s ← split_lower line pos indent p tail_len s; Some (s, line));
    let s := set_redraw_everything true s in
    _ ← edit_buffer_check_healthy line s;
    t ← get line s;
    _ ← edit_buffer_check_healthy (next t) s;
    Some (s, line).

Definition has_block_selection (s : editor) : bool := 0 <=? blockln s.

Definition block_cancel (s : editor) : editor :=
  if has_block_selection s
  then set_redraw_everything true (set_blockline None (set_blockln (-1) s)) else s.

(** YEA is [true]. [fuel] bounds the calls of [join] by itself: one is enough. *)
Fixpoint join (fuel : nat) (line : option ptr) (s : editor) : option (editor * bool) :=
  match fuel with
  | O => None
  | S fuel =>
      t ← get line s;
      match next t with
      | None => Some (s, true)
      | Some n =>
          let n := Some n in
          u ← get n s;
          i ← next_non_space_char (data u) 0;
          c ← zget (data u) i;
          if c =? 0 then s ← delete_line n false s; Some (s, true)
          else
            let ovfl := len t + len u - WRAPMARGIN in
            if ovfl <? 0 then
              '(s, line) ← (if alloc_len t <? WRAPMARGIN then adjustline line WRAPMARGIN s
                            else Some (s, line));
              t ← get line s;
              d ← c_str (data t) 0;
              d' ← c_str (data u) 0;
              s ← upd_data line (fun b => mem_write b (zlen d) (d' ++ [0])) s;
              s ← set_len line (len t + len u) s;
              s ← delete_line n false s;
              Some (s, true)
            else
              i ← wrap_point (data u) (len u - ovfl - 1);
              if i =? 0 then Some (s, true)
              else
                '(s, _) ← split n (i + 1) 0 s;
                t ← get line s;
                u ← get (next t) s;
                _ ← assert (len t + len u <? WRAPMARGIN);
                '(s, _) ← join fuel line s;
                Some (s, false)
      end
  end.

Definition do_join (line : option ptr) (s : editor) : option (editor * bool) := join 2 line s.

(** *** Characters *)

Definition delete_char (s : editor) : option editor :=
  t ← get (currline s) s;
  if len t =? 0 then Some s
  else
    _ ← assert (currpnt s <? len t);
    s ← upd_data (currline s)
          (fun d => raw_shift_left (Z.to_nat (len t - currpnt s + 1)) d (currpnt s)) s;
    set_len (currline s) (len t - 1) s.

Fixpoint repeat_op (n : nat) (f : editor -> option editor) (s : editor) : option editor :=
  match n with
  | O => Some s
  | S n => s ← f s; repeat_op n f s
  end.

(** [currpnt = ansi2n(n2ansi(currpnt, currline), currline)] under [if (ansimode)]. *)
Definition ansi_fix (s : editor) : option editor :=
  if ansimode s then
    x ← n2ansi (currpnt s) (currline s) s;
    p ← ansi2n x (currline s) s;
    Some (set_currpnt p s)
  else Some s.

Definition fix_currpnt (dir : dir) (s : editor) : option editor :=
  t ← get (currline s) s;
  d ← c_str (data t) 0;
  p ← fix_cursor d (currpnt s) dir;
  Some (set_currpnt p s).

Definition del_currchar (s : editor) : option (editor * Z) :=
  s ← ansi_fix s;
  t ← get (currline s) s;
  if len t <=? currpnt s then Some (s, 0)
  else
    s ← (if mbcs_mode s then fix_currpnt FC_LEFT s else Some s);
    d ← c_str (data t) (currpnt s);
    w ← (if mbcs_mode s then mb_bytes d else Some 1);
    old_width ← stream_width_n d w;
    s ← repeat_op (Z.to_nat w) delete_char s;
    Some (s, old_width).

(** [p] gets a trailing space; [extra] more bytes must still fit. *)
Definition wrap_space (wordwrap : bool) (p : option ptr) (extra : Z) (s : editor) : option editor :=
  t ← get p s;
  if wordwrap && (1 <=? len t) && (len t + 1 + extra <? WRAPMARGIN) &&
     negb (bool_decide (currline s = p) && (currpnt s =? len t)) then
    '(s, p) ← (if alloc_len t <? len t + 1 then adjustline p (len t + 1) s else Some (s, p));
    t ← get p s;
    c ← zget (data t) (len t - 1);
    if negb (c =? 32) then
      s ← upd_data p (fun d => mem_write d (len t) [32]) s;
      s ← upd_data p (fun d => mem_write d (len t + 1) [0]) s;
      set_len p (len t + 1) s
    else Some s
  else Some s.

(** The first half of [raw_insert_char]: the character is in the line. *)
Definition raw_put_char (ch : Z) (s : editor) : option editor :=
  t ← get (currline s) s;
  s ← (if alloc_len t <? WRAPMARGIN then
         '(s, p) ← adjustline (currline s) WRAPMARGIN s;
         Some (set_currline p s)
       else Some s);
  let p := currline s in
  t ← get p s;
  _ ← assert (currpnt s <=? len t);
  let s := block_cancel s in
  s ← upd_data p (fun d => raw_shift_right (Z.to_nat (len t - currpnt s + 1)) d (currpnt s)) s;
  s ← upd_data p (fun d => mem_write d (currpnt s) [u8 ch]) s;
  let s := set_currpnt (currpnt s + 1) s in
  set_len p (len t + 1) s.

Definition raw_insert_char (ch : Z) (s : editor) : option editor :=
  s ← raw_put_char ch s;
  let p := currline s in
  t ← get p s;
  if len t <? WRAPMARGIN then Some s
  else
    i ← wrap_point (data t) (len t - 1);
    '(wordwrap, split_pos) ←
      (if (i =? 0) || (WRAPMARGIN - 1 <=? len t - (i + 1)) then
         d ← c_str (data t) 0;
         k ← fix_cursor d (len t - 1) FC_LEFT;
         Some (false, k)
       else Some (true, i + 1));
    '(s, p) ← split p split_pos 0 s;
    t ← get p s;
    wrap_space wordwrap (next t) 0 s.

(** A space where a narrower character has been written over a wider one. *)
Definition pad_width (new_width old_width : Z) (s : editor) : option editor :=
  if (0 <? new_width) && (new_width <? old_width) then
    s ← raw_insert_char 32 s;
    Some (set_currpnt (currpnt s - 1) s)
  else Some s.

Definition insert_char (ch : Z) (s : editor) : option editor :=
  '(s, old_width) ← (if insert_mode s then Some (s, 0) else del_currchar s);
  s ← raw_insert_char ch s;
  if insert_mode s then Some s
  else
    new_width ← stream_width (cstring [u8 ch; 0]);
    s ← pad_width new_width old_width s;
    ansi_fix s.

(** The room [insert_dchar] makes before it inserts [w] bytes. *)
Definition dchar_split (w : Z) (s : editor) : option editor :=
  let p := currline s in
  t ← get p s;
  if len t + w <? WRAPMARGIN then Some s
  else
    let max_split := if currpnt s =? len t then len t else WRAPMARGIN - 1 - w in
    i ← wrap_point (data t) (max_split - 1);
    let lower_extra := if i + 1 <=? currpnt s then w else 0 in
    '(wordwrap, split_pos) ←
      (if (i =? 0) || (WRAPMARGIN <=? len t - (i + 1) + 1 + lower_extra) then
         if currpnt s =? len t then Some (false, len t)
         else
           d ← c_str (data t) 0;
           k ← fix_cursor d max_split FC_LEFT;
           Some (false, k)
       else Some (true, i + 1));
    '(s, p) ← split p split_pos 0 s;
    t ← get p s;
    s ← wrap_space wordwrap (next t) lower_extra s;
    t ← get (currline s) s;
    if mbcs_mode s && (currpnt s <? len t) then fix_currpnt FC_LEFT s else Some s.

Fixpoint insert_bytes (bs : list Z) (s : editor) : option editor :=
  match bs with
  | [] => Some s
  | b :: bs => s ← raw_insert_char b s; insert_bytes bs s
  end.

Definition del_one (s : editor) : option editor := '(s, _) ← del_currchar s; Some s.

(** What [insert_dchar] writes over. *)
Definition dchar_overwrite (dchar : list Z) (w : Z) (s : editor) : option (editor * Z) :=
  if insert_mode s then Some (s, 0)
  else if negb (mbcs_mode s) then
    s ← repeat_op (Z.to_nat w) del_one s;
    Some (s, 0)
  else
    '(s, old_width) ← del_currchar s;
    new_width ← mb_width dchar;
    t ← get (currline s) s;
    more ← (if (old_width =? 1) && (2 <=? new_width) && (currpnt s <? len t)
            then c ← zget (data t) (currpnt s); Some (negb (ansimode s) || negb (c =? ESC_CHR))
            else Some false);
    if (more : bool) then
      '(s, w2) ← del_currchar s;
      Some (s, old_width + w2)
    else Some (s, old_width).

Definition insert_dchar (dchar : list Z) (s : editor) : option editor :=
  w ← mb_bytes dchar;
  '(s, old_width) ← dchar_overwrite dchar w s;
  t ← get (currline s) s;
  s ← (if mbcs_mode s && (currpnt s <? len t) then fix_currpnt FC_LEFT s else Some s);
  s ← dchar_split w s;
  bs ← mem_read dchar 0 w;
  s ← insert_bytes bs s;
  if insert_mode s then Some s
  else
    new_width ← mb_width dchar;
    s ← pad_width new_width old_width s;
    ansi_fix s.

(** [do ... while]. The column is at most the length of a line, hence the fuel. *)
Fixpoint tab_loop (fuel : nat) (s : editor) : option editor :=
  match fuel with
  | O => None
  | S fuel =>
      s ← insert_char 32 s;
      _ ← edit_buffer_check_healthy (currline s) s;
      col ← line_pos_to_col (currline s) (currpnt s) (ansimode s) s;
      if Z.land col 7 =? 0 then Some s else tab_loop fuel s
  end.

Definition insert_tab (s : editor) : option editor := tab_loop 1024 s.

Definition isprint2 (ch : Z) : bool := (128 <=? ch) || ((32 <=? ch) && (ch <? 127)).

Fixpoint insert_loop (fuel : nat) (str : list Z) (s : editor) : option editor :=
  match fuel with
  | O => None
  | S fuel =>
      match str with
      | [] => Some s
      | ch :: rest =>
          w ← (if 128 <=? ch then mb_bytes str else Some 1);
          if 1 <? w then
            s ← insert_dchar str s;
            insert_loop fuel (drop (Z.to_nat w) str) s
          else
            s ← (if isprint2 ch || (ch =? ESC_CHR) then insert_char ch s
                 else if ch =? 9 then insert_tab s
                 else if ch =? 10 then '(s, _) ← split (currline s) (currpnt s) 0 s; Some s
                 else Some s);
            insert_loop fuel rest s
      end
  end.

Definition insert_string (str : list Z) (s : editor) : option editor :=
  insert_loop (S (length str)) str (block_cancel s).

(** The lines read by [fgets] into [buf], in the build whose texts are stored as
    they are edited ([TEMP_STORAGE_TO_MB_SZ] is the identity). *)
Fixpoint load_lines (bufs : list (list Z)) (s : editor) : option editor :=
  match bufs with
  | [] => Some s
  | buf :: bufs => s ← insert_string buf s; load_lines bufs s
  end.

Definition undelete_line (s : editor) : option (editor * option ptr) :=
  match deleted_line s with
  | None => Some (s, None)
  | Some _ =>
      let s := block_cancel s in
      '(s, p) ← clone_line (deleted_line s) s;
      t ← get (currline s) s;
      s ← set_prev p (prev t) s;
      s ← set_next p (currline s) s;
      s ← match prev t with Some _ => set_next (prev t) p s | None => Some s end;
      s ← set_prev (currline s) p s;
      let s := set_totaln (totaln s + 1) s in
      t ← get (currline s) s;
      s ← (if len t <? alloc_len t then
             '(s, q) ← adjustline (currline s) (len t) s;
             Some (set_currline q s)
           else Some s);
      let s := if bool_decide (top_of_win s = currline s) then set_top_of_win p s else s in
      let s := if bool_decide (firstline s = currline s) then set_firstline p s else s in
      let s := set_currline p s in
      let s := set_currpnt 0 s in
      let s := set_redraw_everything true s in
      Some (s, currline s)
  end.

(** *** Blocks *)

(** [begin] and [end]. *)
Definition setup_block_begin_end (s : editor) : option ptr * option ptr :=
  if blockln s <=? currln s then (blockline s, currline s) else (currline s, blockline s).

(** The number of lines freed. *)
Fixpoint free_lines (fuel : nat) (p : option ptr) (s : editor) : option (editor * Z) :=
  match fuel with
  | O => None
  | S fuel =>
      match p with
      | None => Some (s, 0)
      | Some _ =>
          t ← get p s;
          s ← free_line p s;
          '(s, n) ← free_lines fuel (next t) s;
          Some (s, n + 1)
      end
  end.

(** [pv] is [begin->prev], [nx] is [end->next]. *)
Definition unlink_block (pv nx : option ptr) (s : editor) : option editor :=
  s ← match pv with Some _ => set_next pv nx s | None => Some s end;
  match nx with Some _ => set_prev nx pv s | None => Some s end.

(** The cursor goes to the line below the block, or to the one above. *)
Definition leave_block (deleted_line_count : Z) (pv nx : option ptr) (s : editor) : editor :=
  let s := if blockln s <? currln s then
             set_curr_window_line (curr_window_line s - (deleted_line_count - 1))
               (set_currln (blockln s) s)
           else s in
  let s := set_totaln (totaln s - deleted_line_count) s in
  let s := set_currline nx s in
  if bool_decide (currline s = None) then
    set_curr_window_line (curr_window_line s - 1)
      (set_currln (currln s - 1) (set_currline pv s))
  else s.

(** There is always a line. *)
Definition ensure_line (s : editor) : option editor :=
  if bool_decide (currline s = None) then
    _ ← assert (currln s =? -1);
    _ ← assert (totaln s =? -1);
    let '(s, p) := alloc_line WRAPMARGIN s in
    let s := set_currline p s in
    Some (set_totaln (totaln s + 1) (set_currln (currln s + 1) s))
  else Some s.

Definition settle_ends (begin end_ : option ptr) (s : editor) : editor :=
  let s := if bool_decide (firstline s = begin) then set_firstline (currline s) s else s in
  let s := if bool_decide (lastline s = end_) then set_lastline (currline s) s else s in
  if curr_window_line s <=? 0
  then set_top_of_win (currline s) (set_curr_window_line 0 s) else s.

Definition block_delete (s : editor) : option editor :=
  if negb (has_block_selection s) then Some s else
  let '(begin, end_) := setup_block_begin_end s in
  let deleted_line_count := Z.abs (currln s - blockln s) + 1 in
  b ← get begin s;
  e ← get end_ s;
  s ← unlink_block (prev b) (next e) s;
  s ← ensure_line (leave_block deleted_line_count (prev b) (next e) s);
  s ← set_next end_ None (settle_ends begin end_ s);
  '(s, n) ← free_lines (line_fuel s) begin s;
  _ ← assert (deleted_line_count - n =? 0);
  Some (block_cancel (set_currpnt 0 s)).

(** *** Moving about *)

Definition block_select (s : editor) : editor :=
  set_blockline (currline s) (set_blockln (currln s) s).

(** The file the block is saved to is not modelled. *)
Definition block_cut (s : editor) : option editor :=
  if has_block_selection s then block_delete s else Some s.
Definition block_copy (s : editor) : editor :=
  if has_block_selection s then block_cancel s else s.

(** [cut] is what the answers say: the block goes, or it is only saved or left alone. *)
Definition block_prompt (cut : bool) (s : editor) : option editor :=
  if cut then block_delete s else Some (block_cancel s).
Definition edit_cmd_block_mark (cut : bool) (s : editor) : option editor :=
  if has_block_selection s then block_prompt cut s else Some (block_select s).

(** [while (--lino && p->next) p = p->next]. *)
Fixpoint goto_loop (n : nat) (p : option ptr) (s : editor) : option (option ptr) :=
  match n with
  | O => Some p
  | S n =>
      t ← get p s;
      match next t with
      | Some _ => goto_loop n (next t) s
      | None => Some p
      end
  end.

Definition goto_line (lino : Z) (s : editor) : option editor :=
  s ← (if (0 <? lino) && (lino <=? totaln s + 1) then
         let p := firstline s in
         let s := set_currln (lino - 1) s in
         p ← goto_loop (Z.to_nat (lino - 1)) p s;
         let s := match p with
                  | Some _ => set_currline p s
                  | None => set_currline (lastline s) (set_currln (totaln s) s)
                  end in
         edit_window_adjust_middle (set_currpnt 0 s)
       else Some s);
  Some (set_redraw_everything true s).

Definition currline_shift_left (s : editor) : option editor :=
  t ← get (currline s) s;
  if len t <=? 0 then Some s
  else
    let currpnt0 := currpnt s in
    s ← delete_char (set_currpnt 0 s);
    t ← get (currline s) s;
    ansi_fix (set_currpnt (if currpnt0 <=? len t then currpnt0 else currpnt0 - 1) s).

Definition currline_shift_right (s : editor) : option editor :=
  t ← get (currline s) s;
  if WRAPMARGIN - 1 <=? len t then Some s
  else
    let currpnt0 := currpnt s in
    s ← insert_char 32 (set_currpnt 0 s);
    Some (set_currpnt currpnt0 s).

(** [while (currpnt < len && f(data[currpnt])) currpnt++]. *)
Fixpoint word_next (fuel : nat) (f : Z -> bool) (d : list Z) (len pnt : Z) : option Z :=
  match fuel with
  | O => None
  | S fuel =>
      if pnt <? len then
        c ← zget d pnt;
        if f c then word_next fuel f d len (pnt + 1) else Some pnt
      else Some pnt
  end.

(** [while (currpnt > 0 && f(data[currpnt - 1])) currpnt--]. *)
Fixpoint word_prev (fuel : nat) (f : Z -> bool) (d : list Z) (pnt : Z) : option Z :=
  match fuel with
  | O => None
  | S fuel =>
      if 0 <? pnt then
        c ← zget d (pnt - 1);
        if f c then word_prev fuel f d (pnt - 1) else Some pnt
      else Some pnt
  end.

Definition not_alnum (c : Z) : bool := negb (isalnum c).

Definition cursor_to_next_word (s : editor) : option editor :=
  t ← get (currline s) s;
  let fuel := S (length (data t)) in
  p ← word_next fuel isalnum (data t) (len t) (currpnt s);
  p ← word_next fuel not_alnum (data t) (len t) p;
  Some (set_currpnt p s).

Definition cursor_to_prev_word (s : editor) : option editor :=
  t ← get (currline s) s;
  let fuel := S (length (data t)) in
  p ← word_prev fuel not_alnum (data t) (currpnt s);
  p ← word_prev fuel isalnum (data t) p;
  Some (set_currpnt p s).

(** [while (currpnt < len) { delete_char(); if (!f(data[currpnt])) break; }]. *)
Fixpoint delete_while (fuel : nat) (f : Z -> bool) (s : editor) : option editor :=
  match fuel with
  | O => None
  | S fuel =>
      t ← get (currline s) s;
      if currpnt s <? len t then
        s ← delete_char s;
        t ← get (currline s) s;
        c ← zget (data t) (currpnt s);
        if f c then delete_while fuel f s else Some s
      else Some s
  end.

Definition delete_current_word (s : editor) : option editor :=
  t ← get (currline s) s;
  let fuel := S (length (data t)) in
  s ← delete_while fuel isalnum s;
  delete_while fuel isspace s.

Fixpoint color_loop (fuel : nat) (line : list Z) : list Z :=
  match fuel with
  | O => line
  | S fuel =>
      match line with
      | a :: b :: rest =>
          if (a =? 42) && (b =? 91) then ESC_CHR :: 91 :: color_loop fuel rest
          else a :: color_loop fuel (b :: rest)
      | _ => line
      end
  end.

(** The string after the call. *)
Definition transform_to_color (line : list Z) : list Z := color_loop (length line) line.

Fixpoint block_color_loop (fuel : nat) (p end_ : option ptr) (s : editor) : option editor :=
  match fuel with
  | O => None
  | S fuel =>
      t ← get p s;
      d ← c_str (data t) 0;
      s ← upd_data p (fun b => mem_write b 0 (transform_to_color d)) s;
      if bool_decide (p = end_) then Some s else block_color_loop fuel (next t) end_ s
  end.

Definition block_color (s : editor) : option editor :=
  let '(begin, end_) := setup_block_begin_end s in
  s ← block_color_loop (line_fuel s) begin end_ s;
  Some (block_cancel s).

(** *** Commands *)

Definition edit_cmd_enter (allowlarge : bool) (s : editor) : option editor :=
  let s := block_cancel s in
  if EDIT_LINE_LIMIT <=? totaln s then Some s
  else if totaln s =? (if allowlarge then MAX_EDIT_LINE_LARGE else MAX_EDIT_LINE) then Some s
  else
    n ← indent_space s;
    '(s, _) ← split (currline s) (currpnt s) n s;
    Some s.

Definition edit_cmd_left (s : editor) : option editor :=
  if negb (currpnt s =? 0) then
    s ← (if ansimode s then x ← n2ansi (currpnt s) (currline s) s; Some (set_currpnt x s) else Some s);
    let s := set_currpnt (currpnt s - 1) s in
    s ← (if ansimode s then x ← ansi2n (currpnt s) (currline s) s; Some (set_currpnt x s) else Some s);
    if mbcs_mode s then fix_currpnt FC_LEFT s else Some s
  else
    t ← get (currline s) s;
    match prev t with
    | None => Some s
    | Some p =>
        let s := set_curr_window_line (curr_window_line s - 1) s in
        let s := set_currln (currln s - 1) s in
        let s := set_currline (Some p) s in
        t ← get (currline s) s;
        Some (set_currpnt (len t) s)
    end.

Definition edit_cmd_right (s : editor) : option editor :=
  t ← get (currline s) s;
  if negb (len t =? currpnt s) then
    s ← (if ansimode s then
           d ← c_str (data t) (currpnt s);
           cw ← mb_width d;
           x ← n2ansi (currpnt s) (currline s) s;
           let s := set_currpnt (s16 (x + (if 0 <? cw then cw else 1))) s in
           x ← ansi2n (currpnt s) (currline s) s;
           Some (set_currpnt x s)
         else Some (set_currpnt (currpnt s + 1) s));
    if mbcs_mode s then fix_currpnt FC_RIGHT s else Some s
  else
    match next t with
    | None => Some s
    | Some n =>
        let s := set_currpnt 0 s in
        let s := set_curr_window_line (curr_window_line s + 1) s in
        let s := set_currln (currln s + 1) s in
        Some (set_currline (Some n) s)
    end.

Definition edit_cmd_pgup (s : editor) : option editor :=
  col ← line_pos_to_col (currline s) (currpnt s) (ansimode s) s;
  '(s, p) ← back_line (top_of_win s) (visible_window_height s - 1) false s;
  let s := set_top_of_win p s in
  '(s, p) ← back_line (currline s) (visible_window_height s - 1) true s;
  let s := set_currline p s in
  n ← get_lineno_in_window s;
  let s := set_curr_window_line n s in
  x ← line_col_to_pos (currline s) col (ansimode s) s;
  Some (set_redraw_everything true (set_currpnt x s)).

Definition edit_cmd_pgdn (s : editor) : option editor :=
  col ← line_pos_to_col (currline s) (currpnt s) (ansimode s) s;
  '(s, p) ← forward_line (top_of_win s) (visible_window_height s - 1) false s;
  let s := set_top_of_win p s in
  '(s, p) ← forward_line (currline s) (visible_window_height s - 1) true s;
  let s := set_currline p s in
  n ← get_lineno_in_window s;
  let s := set_curr_window_line n s in
  x ← line_col_to_pos (currline s) col (ansimode s) s;
  Some (set_redraw_everything true (set_currpnt x s)).

Definition edit_cmd_end (s : editor) : option editor :=
  t ← get (currline s) s; Some (set_currpnt (len t) s).

Definition edit_cmd_bof (s : editor) : editor :=
  let s := set_currline (firstline s) (set_top_of_win (firstline s) s) in
  set_redraw_everything true (set_currpnt 0 (set_currln 0 (set_curr_window_line 0 s))).

Definition edit_cmd_eof (s : editor) : option editor :=
  '(s, p) ← back_line (lastline s) (visible_window_height s - 1) false s;
  let s := set_top_of_win p s in
  let s := set_currline (lastline s) s in
  n ← get_lineno_in_window s;
  let s := set_curr_window_line n s in
  let s := set_currln (totaln s) s in
  Some (set_currpnt 0 (set_redraw_everything true s)).

Definition edit_cmd_home (s : editor) : editor := set_currpnt 0 s.

Definition edit_cmd_toggle_insert (s : editor) : editor := set_insert_mode (negb (insert_mode s)) s.

(** [for (; currpnt > newpnt;) { currpnt--; delete_char(); }]. *)
Definition back_char (s : editor) : option editor := delete_char (set_currpnt (currpnt s - 1) s).

Definition edit_cmd_backspace (s : editor) : option editor :=
  let s := block_cancel s in
  if ansimode s then Some (set_redraw_everything true (set_ansimode false s))
  else if currpnt s =? 0 then
    t ← get (currline s) s;
    match prev t with
    | None => Some s
    | Some _ =>
        let s := set_curr_window_line (curr_window_line s - 1) s in
        let s := set_currln (currln s - 1) s in
        s ← (if len t <? alloc_len t then
               '(s, p) ← adjustline (currline s) (len t) s;
               Some (set_currline p s)
             else Some s);
        t ← get (currline s) s;
        let s := set_currline (prev t) s in
        let s := set_oldcurrline (currline s) s in
        t ← get (currline s) s;
        let s := set_redraw_everything true (set_currpnt (len t) s) in
        let s := if bool_decide (next t = top_of_win s)
                 then set_curr_window_line 0 (set_top_of_win (currline s) s) else s in
        '(s, _) ← do_join (currline s) s;
        Some s
    end
  else
    t ← get (currline s) s;
    newpnt ← (if mbcs_mode s then d ← c_str (data t) 0; fix_cursor d (currpnt s - 1) FC_LEFT
              else Some (currpnt s - 1));
    repeat_op (Z.to_nat (currpnt s - newpnt)) back_char s.

Definition edit_cmd_delete (s : editor) : option editor :=
  let s := block_cancel s in
  t ← get (currline s) s;
  if len t =? currpnt s then
    '(s, _) ← do_join (currline s) s;
    Some (set_redraw_everything true s)
  else
    '(s, _) ← del_currchar s;
    ansi_fix s.

Definition do_delete_current_line (s : editor) : option editor :=
  t ← get (currline s) s;
  match next t, prev t with
  | None, None =>
      s ← upd_data (currline s) (fun d => mem_write d 0 [0]) s;
      set_len (currline s) 0 s
  | n, p =>
      let '(s, p) :=
        match n with
        | Some _ => (s, n)
        | None =>
            let s := if 0 <? curr_window_line s
                     then set_curr_window_line (curr_window_line s - 1) s else s in
            (set_currln (currln s - 1) s, p)
        end in
      let s := if bool_decide (currline s = top_of_win s) then set_top_of_win p s else s in
      s ← delete_line (currline s) true s;
      Some (set_redraw_everything true (set_currline p s))
  end.

Definition edit_cmd_del_line (s : editor) : option editor :=
  do_delete_current_line (block_cancel (set_currpnt 0 s)).

Definition edit_cmd_del_eol (s : editor) : option editor :=
  let s := block_cancel s in
  t ← get (currline s) s;
  if len t =? 0 then do_delete_current_line s
  else if len t =? currpnt s then
    '(s, _) ← do_join (currline s) s;
    Some (set_redraw_everything true s)
  else
    s ← set_len (currline s) (currpnt s) s;
    upd_data (currline s) (fun d => mem_write d (currpnt s) [0]) s.

Definition edit_cmd_toggle_ansi (s : editor) : option editor :=
  let s := set_ansimode (negb (ansimode s)) s in
  s ← (if ansimode s && has_block_selection s then block_color s else Some s);
  Some (set_redraw_everything true s).

(** [load_file]: the lines are typed without indenting. *)
Definition load_file (bufs : list (list Z)) (s : editor) : option editor :=
  let indent_mode0 := indent_mode s in
  s ← load_lines bufs (set_indent_mode false s);
  Some (set_indent_mode indent_mode0 s).

Definition read_tmpbuf (bufs : list (list Z)) (s : editor) : option editor :=
  if EDIT_LINE_LIMIT <=? totaln s then Some s else load_file bufs s.

(** The prompts are not modelled: [Cmd_goto] has the number typed, [Cmd_block_mark]
    whether the answers delete a block that is marked, and [Cmd_read] the lines of
    the file that is read, none if there is none. *)
Inductive command :=
  | Cmd_tab | Cmd_enter | Cmd_left | Cmd_right | Cmd_up | Cmd_down
  | Cmd_pgup | Cmd_pgdn | Cmd_home | Cmd_end | Cmd_bof | Cmd_eof | Cmd_goto (lino : Z)
  | Cmd_next_word | Cmd_prev_word | Cmd_toggle_insert | Cmd_toggle_indent
  | Cmd_toggle_ansi | Cmd_toggle_raw | Cmd_phone_mode
  | Cmd_backspace | Cmd_delete | Cmd_del_line | Cmd_del_eol | Cmd_del_word
  | Cmd_undelete_line | Cmd_shift_left | Cmd_shift_right | Cmd_esc_char
  | Cmd_block_mark (cut : bool) | Cmd_block_cancel | Cmd_block_copy | Cmd_cut | Cmd_read (bufs : list (list Z)).

Definition run_command (allowlarge : bool) (c : command) (s : editor) : option editor :=
  match c with
  | Cmd_tab => insert_tab s
  | Cmd_enter => edit_cmd_enter allowlarge s
  | Cmd_left => edit_cmd_left s
  | Cmd_right => edit_cmd_right s
  | Cmd_up => cursor_to_prev_line s
  | Cmd_down => cursor_to_next_line s
  | Cmd_pgup => edit_cmd_pgup s
  | Cmd_pgdn => edit_cmd_pgdn s
  | Cmd_home => Some (edit_cmd_home s)
  | Cmd_end => edit_cmd_end s
  | Cmd_bof => Some (edit_cmd_bof s)
  | Cmd_eof => edit_cmd_eof s
  | Cmd_goto lino => goto_line lino s
  | Cmd_next_word => cursor_to_next_word s
  | Cmd_prev_word => cursor_to_prev_word s
  | Cmd_toggle_insert => Some (edit_cmd_toggle_insert s)
  | Cmd_toggle_indent => Some (set_indent_mode (negb (indent_mode s)) s)
  | Cmd_toggle_ansi => edit_cmd_toggle_ansi s
  | Cmd_toggle_raw => Some (set_mbcs_mode (negb (mbcs_mode s)) s)
  | Cmd_phone_mode => Some (set_redraw_everything true (set_phone_mode (negb (phone_mode s)) s))
  | Cmd_backspace => edit_cmd_backspace s
  | Cmd_delete => edit_cmd_delete s
  | Cmd_del_line => edit_cmd_del_line s
  | Cmd_del_eol => edit_cmd_del_eol s
  | Cmd_del_word => delete_current_word s
  | Cmd_undelete_line => '(s, _) ← undelete_line s; Some s
  | Cmd_shift_left => currline_shift_left s
  | Cmd_shift_right => currline_shift_right s
  | Cmd_esc_char => insert_char ESC_CHR s
  | Cmd_block_mark cut => edit_cmd_block_mark cut s
  | Cmd_block_cancel => Some (block_cancel s)
  | Cmd_block_copy => Some (block_copy s)
  | Cmd_cut => block_cut s
  | Cmd_read bufs => s ← read_tmpbuf bufs s; Some (set_redraw_everything true s)
  end.

(** *** The health check *)

(** [check] is false where the code only walks. *)
Fixpoint check_walk (check : bool) (n : nat) (p : option ptr) (s : editor) : option (option ptr) :=
  match n with
  | O => Some p
  | S n =>
      _ ← (if check then edit_buffer_check_healthy p s else Some tt);
      t ← get p s;
      check_walk check n (next t) s
  end.

(** With [SLOW_CHECK_DETAIL]. *)
Definition edit_check_healthy (s : editor) : option unit :=
  _ ← edit_buffer_check_healthy (firstline s) s;
  t ← get (firstline s) s;
  _ ← assert (bool_decide (prev t = None));
  _ ← edit_buffer_check_healthy (lastline s) s;
  t ← get (lastline s) s;
  _ ← assert (bool_decide (next t = None));
  _ ← match oldcurrline s with Some _ => edit_buffer_check_healthy (oldcurrline s) s | None => Some tt end;
  _ ← edit_buffer_check_healthy (currline s) s;
  t ← get (currline s) s;
  _ ← assert ((0 <=? currpnt s) && (currpnt s <=? len t));
  _ ← match deleted_line s with
      | None => Some tt
      | Some d =>
          _ ← edit_buffer_check_healthy (Some d) s;
          t ← get (Some d) s;
          _ ← assert (bool_decide (next t = None));
          _ ← assert (bool_decide (prev t = None));
          _ ← assert (bool_decide (Some d <> firstline s));
          _ ← assert (bool_decide (Some d <> lastline s));
          _ ← assert (bool_decide (Some d <> currline s));
          _ ← assert (bool_decide (Some d <> blockline s));
          assert (bool_decide (Some d <> top_of_win s))
      end;
  _ ← assert (0 <=? currln s);
  _ ← assert (currln s <=? totaln s);
  _ ← assert (curr_window_line s <? visible_window_height s);
  p ← check_walk true (Z.to_nat (currln s)) (firstline s) s;
  _ ← assert (bool_decide (p = currline s));
  p ← check_walk true (Z.to_nat (totaln s - currln s)) (currline s) s;
  _ ← assert (bool_decide (p = lastline s));
  p ← check_walk false (Z.to_nat (curr_window_line s)) (top_of_win s) s;
  _ ← assert (bool_decide (p = currline s));
  _ ← assert ((blockln s <? 0) || bool_decide (blockline s <> None));
  match blockline s with
  | None => Some tt
  | Some _ =>
      _ ← edit_buffer_check_healthy (blockline s) s;
      p ← check_walk false (Z.to_nat (blockln s)) (firstline s) s;
      assert (bool_decide (p = blockline s))
  end.

(** *** The session *)

Definition edit_buffer_constructor (rows : Z) (mbcs : bool) : editor :=
  let s := Editor ∅ None None None None None None None 0 0 0 0 0 0 rows
             false false false false false mbcs in
  let s := set_blockln (-1) s in
  let s := set_insert_mode true s in
  let s := set_redraw_everything true s in
  let s := set_lastindent (-1) s in
  let '(s, p) := alloc_line WRAPMARGIN s in
  set_oldcurrline p (set_currline p (set_top_of_win p (set_firstline p (set_lastline p s)))).

Definition edit_buffer_destructor (s : editor) : option editor :=
  '(s, _) ← free_lines (line_fuel s) (firstline s) s;
  match deleted_line s with Some _ => free_line (deleted_line s) s | None => Some s end.

(** [oldcurrline = adjustline(oldcurrline, oldcurrline->len)]. *)
Definition shrink_old (s : editor) : option editor :=
  match oldcurrline s with
  | None => Some s
  | Some _ =>
      t ← get (oldcurrline s) s;
      if len t <? alloc_len t then
        '(s, p) ← adjustline (oldcurrline s) (len t) s;
        Some (set_oldcurrline p s)
      else Some s
  end.

(** From the end of [read_file] and [do_quote] to the loop. *)
Definition vedit_start (s : editor) : option editor :=
  s ← (if negb (bool_decide (oldcurrline s = firstline s)) || negb (bool_decide (currline s = firstline s))
       then
         s ← shrink_old s;
         Some (set_oldcurrline (firstline s) (set_currline (firstline s) (set_top_of_win (firstline s) s)))
       else Some s);
  Some (set_curr_window_line 0 (set_currln 0 (set_currpnt 0 s))).

(** What a turn of the loop gets: the bytes of a character from [vkey_to_mb] or
    [phone_char], a press of the left button at a cell, or a command.
    In [Key_resize] the terminal gets another height while the turn waits for its key. *)
Inductive input :=
  | Key_char (mb : list Z)
  | Key_mouse (x y : Z)
  | Key_cmd (c : command)
  | Key_resize (rows : Z) (k : input).

(** [while (k < y && p->next)]. *)
Definition mouse_line (y x : Z) (edit_margin : Z) (s : editor) : option editor :=
  let top_ln := currln s - curr_window_line s in
  '(p, k) ← walk_line next (Z.to_nat y) (top_of_win s) s;
  let s := set_currline p s in
  let s := set_curr_window_line k s in
  let s := set_currln (top_ln + k) s in
  let col := x + edit_margin in
  let col := if col <? 0 then 0 else col in
  n ← line_col_to_pos p col (ansimode s) s;
  let s := set_currpnt n s in
  if mbcs_mode s then fix_currpnt FC_LEFT s else Some s.

Fixpoint vedit_key (allowlarge : bool) (edit_margin : Z) (k : input) (s : editor) : option editor :=
  match k with
  | Key_resize rows k => vedit_key allowlarge edit_margin k (set_t_lines rows s)
  | Key_char mb =>
      s ← (if 1 <? zlen mb then insert_dchar mb s else insert_char (cchar mb 0) s);
      Some (set_lastindent (-1) s)
  | Key_mouse x y =>
      let s := set_lastindent (-1) s in
      if (0 <=? y) && (y <? b_lines s) then mouse_line y x edit_margin s
      else
        s ← edit_window_adjust s;
        if mbcs_mode s then fix_currpnt FC_LEFT s else Some s
  | Key_cmd c =>
      s ← match c with
          | Cmd_up | Cmd_down =>
              if lastindent s =? -1 then
                x ← line_pos_to_col (currline s) (currpnt s) (ansimode s) s;
                Some (set_lastindent x s)
              else Some s
          | _ => Some (set_lastindent (-1) s)
          end;
      s ← run_command allowlarge c s;
      let s := if currln s <? 0 then set_currln 0 s else s in
      s ← edit_window_adjust s;
      if mbcs_mode s then fix_currpnt FC_LEFT s else Some s
  end.

(** A turn of the loop of [vedit2]; [refresh_window] clears the flag. *)
Definition vedit_turn (allowlarge : bool) (edit_margin : Z) (k : input) (s : editor) : option editor :=
  _ ← edit_check_healthy s;
  let s := if redraw_everything s || has_block_selection s then set_redraw_everything false s else s in
  s ← (if bool_decide (oldcurrline s = currline s) then Some s
       else
         s ← shrink_old s;
         Some (set_oldcurrline (currline s) s));
  vedit_key allowlarge edit_margin k s.

(** The turns, each with the margin the window is drawn with. *)
Fixpoint vedit_turns (allowlarge : bool) (ks : list (Z * input)) (s : editor) : option editor :=
  match ks with
  | [] => Some s
  | (edit_margin, k) :: ks =>
      s ← vedit_turn allowlarge edit_margin k s;
      vedit_turns allowlarge ks s
  end.

(** The editor at its first turn, on the lines of a file. *)
Definition vedit_open (rows : Z) (mbcs : bool) (bufs : list (list Z)) : option editor :=
  s ← load_file bufs (edit_buffer_constructor rows mbcs);
  vedit_start s.
End Editor.

(** *** Saving *)

(** [strip_move_control_sequence] ([kaede.c]); the string keeps its length. *)
Definition move_letters : list Z := str "ABCDEFGHJRefjru".

Definition in_set (l : list Z) (c : Z) : bool := existsb (Z.eqb c) l.

Fixpoint strip_move_loop (fuel : nat) (s : list Z) : list Z :=
  match fuel with
  | O => s
  | S fuel =>
      match s with
      | [] => []
      | c :: s1 =>
          if c =? ESC_CHR then
            if cchar s1 0 =? 91 then
              let p := drop 1 s1 in
              let has_private := between 0x3C 0x3F (cchar p 0) in
              let n := run_len (between 0x30 0x3F) p in
              let n := (n + run_len (between 0x20 0x2F) (drop n p))%nat in
              let f := cchar p (Z.of_nat n) in
              if between 0x40 0x7E f then
                let f := if has_private || in_set move_letters f then 115 else f in
                c :: 91 :: take n p ++ f :: strip_move_loop fuel (drop (S n) p)
              else c :: strip_move_loop fuel s1
            else if cchar s1 0 =? 93 then 32 :: strip_move_loop fuel s1
            else c :: strip_move_loop fuel s1
          else c :: strip_move_loop fuel s1
      end
  end.

Definition strip_move_control_sequence (s : list Z) : list Z := strip_move_loop (length s) s.

(** Both work in place: a NUL is written over each trailing space. *)
Definition put_trimmed (msg msg' d : list Z) : option (list Z) :=
  mem_write d 0 (msg' ++ replicate (length msg - length msg') 0).

(** The loop of [write_file] over the lines: the editor, and the text written. *)
Fixpoint write_lines (fuel : nat) (p : option ptr) (s : editor) : option (editor * list Z) :=
  match fuel with
  | O => None
  | S fuel =>
      match p with
      | None => Some (s, [])
      | Some _ =>
          t ← get p s;
          msg ← c_str (data t) 0;
          if bool_decide (next t = None) && (cchar msg 0 =? 0) then write_lines fuel (next t) s
          else
            let msg' := strip_move_control_sequence (trim msg) in
            s ← upd_data p (put_trimmed msg msg') s;
            '(s, out) ← write_lines fuel (next t) s;
            Some (s, msg' ++ 10 :: out)
      end
  end.

Definition write_body (s : editor) : option (editor * list Z) :=
  write_lines (line_fuel s) (firstline s) s.

End Edit.
