(* ===== verification/EditText.v ===== *)
(** What the buffer of the editor stands for: a text with a cursor, as lists of
    strings, and what each operation of [Edit] does to it.

    This is the abstract machine the linked list refines ([EditSession], [EditProps]);
    there is no pointer, no block of memory and no failure in it. *)

From Stdlib Require Import String.
From S2P Require Import Prelude Cstr Str Utf8 Vtkbd Mbs Edit.

#[global] Open Scope Z_scope.
#[global] Open Scope list_scope.

Module EditText.
Import Cstr Str Mbs Edit.

(** The lines above the cursor, its line, those below, the line deleted last,
    the row of the cursor in the window, and the first line of a block. *)
Record doc := Doc
  { up : list (list Z); cur : list Z; dn : list (list Z); del : option (list Z);
    pnt : Z; row : Z; blk : option Z; lind : Z; rows : Z;
    ins : bool; ansi : bool; ind : bool; phone : bool; mbcs : bool }.

Definition w_text (u : list (list Z)) (c : list Z) (n : list (list Z)) (d : doc) : doc :=
  Doc u c n (del d) (pnt d) (row d) (blk d) (lind d) (rows d) (ins d) (ansi d) (ind d) (phone d) (mbcs d).
Definition w_del (x : option (list Z)) (d : doc) : doc :=
  Doc (up d) (cur d) (dn d) x (pnt d) (row d) (blk d) (lind d) (rows d) (ins d) (ansi d) (ind d) (phone d) (mbcs d).
Definition w_pnt (x : Z) (d : doc) : doc :=
  Doc (up d) (cur d) (dn d) (del d) x (row d) (blk d) (lind d) (rows d) (ins d) (ansi d) (ind d) (phone d) (mbcs d).
Definition w_row (x : Z) (d : doc) : doc :=
  Doc (up d) (cur d) (dn d) (del d) (pnt d) x (blk d) (lind d) (rows d) (ins d) (ansi d) (ind d) (phone d) (mbcs d).
Definition w_blk (x : option Z) (d : doc) : doc :=
  Doc (up d) (cur d) (dn d) (del d) (pnt d) (row d) x (lind d) (rows d) (ins d) (ansi d) (ind d) (phone d) (mbcs d).
Definition w_lind (x : Z) (d : doc) : doc :=
  Doc (up d) (cur d) (dn d) (del d) (pnt d) (row d) (blk d) x (rows d) (ins d) (ansi d) (ind d) (phone d) (mbcs d).
Definition w_rows (x : Z) (d : doc) : doc :=
  Doc (up d) (cur d) (dn d) (del d) (pnt d) (row d) (blk d) (lind d) x (ins d) (ansi d) (ind d) (phone d) (mbcs d).
Definition w_ins (x : bool) (d : doc) : doc :=
  Doc (up d) (cur d) (dn d) (del d) (pnt d) (row d) (blk d) (lind d) (rows d) x (ansi d) (ind d) (phone d) (mbcs d).
Definition w_ansi (x : bool) (d : doc) : doc :=
  Doc (up d) (cur d) (dn d) (del d) (pnt d) (row d) (blk d) (lind d) (rows d) (ins d) x (ind d) (phone d) (mbcs d).
Definition w_ind (x : bool) (d : doc) : doc :=
  Doc (up d) (cur d) (dn d) (del d) (pnt d) (row d) (blk d) (lind d) (rows d) (ins d) (ansi d) x (phone d) (mbcs d).
Definition w_phone (x : bool) (d : doc) : doc :=
  Doc (up d) (cur d) (dn d) (del d) (pnt d) (row d) (blk d) (lind d) (rows d) (ins d) (ansi d) (ind d) x (mbcs d).
Definition w_mbcs (x : bool) (d : doc) : doc :=
  Doc (up d) (cur d) (dn d) (del d) (pnt d) (row d) (blk d) (lind d) (rows d) (ins d) (ansi d) (ind d) (phone d) x.

Definition lines (d : doc) : list (list Z) := up d ++ cur d :: dn d.

Definition height (d : doc) : Z := if phone d then rows d - 2 else rows d - 1.

Definition ztake {A} (n : Z) (t : list A) : list A := take (Z.to_nat n) t.
Definition zdrop {A} (n : Z) (t : list A) : list A := drop (Z.to_nat n) t.

Section Text.
Context {C : Type} `{MbCodec C}.
Variable wc : Z -> Z.

(** *** Positions *)

Definition fixp (t : list Z) (p : Z) (dir : dir) : Z := default 0 (fix_cursor (C := C) t p dir).
Definition pos_of (d : doc) (t : list Z) (col : Z) (strip : bool) : Z :=
  default 0 (col_to_pos (C := C) wc (mbcs d) strip (S (length t)) t col 0).
Definition col_of (t : list Z) (p : Z) (strip : bool) : Z :=
  default 0 (pos_to_col (C := C) wc strip (S (length t)) t p 0).
Definition wrap_of (t : list Z) (i : Z) : Z := default 0 (wrap_point t i).
Definition width_of (t : list Z) (n : Z) : Z := default 0 (Mbs.stream_width_n (C := C) wc t n).
Definition bytes_of (t : list Z) : Z := default 0 (Mbs.mb_bytes C t).
Definition char_width (t : list Z) : Z := default 0 (Mbs.mb_width (C := C) wc t).

Definition spc (t : list Z) : Z := Z.of_nat (run_len (Z.eqb 32) t).
Definition blank_line (t : list Z) : bool := spc t =? zlen t.
(** *** The window *)

Definition d_adjust (d : doc) : doc :=
  w_row (if row d <? 0 then 0 else if height d <=? row d then height d - 1 else row d) d.

Definition d_fix (dir : dir) (d : doc) : doc := w_pnt (fixp (cur d) (pnt d) dir) d.

(** The cursor on the line [i] of the text, in the window at [r]. *)
Definition d_goto (i r p : Z) (d : doc) : doc :=
  let ls := lines d in
  w_pnt p (w_row r (w_text (ztake i ls) (default [] (ls !! Z.to_nat i)) (zdrop (i + 1) ls) d)).

Definition currl (d : doc) : Z := zlen (up d).
Definition lastl (d : doc) : Z := zlen (up d) + zlen (dn d).
Definition line (d : doc) (i : Z) : list Z := default [] (lines d !! Z.to_nat i).

(** The position on the line [i] of the column of the cursor. *)
Definition keep_col (i : Z) (d : doc) : Z :=
  if ansi d then pos_of d (line d i) (col_of (cur d) (pnt d) true) true
  else pos_of d (line d i) (lind d) false.

Definition d_down (d : doc) : doc :=
  if currl d <? lastl d then d_goto (currl d + 1) (row d + 1) (keep_col (currl d + 1) d) d else d.
Definition d_up (d : doc) : doc :=
  if 0 <? currl d then d_goto (currl d - 1) (row d - 1) (keep_col (currl d - 1) d) d else d.

(** *** Splitting *)

(** Where a line is cut, and where the text of the lower line starts. *)
Definition cut_at (d : doc) (t : list Z) (p : Z) : Z :=
  if mbcs d && (0 <? p) && (p <? zlen t) then fixp t p FC_LEFT else p.
Definition cut_from (d : doc) (t : list Z) (p : Z) : Z :=
  let q := cut_at d t p in if ind d then q + spc (zdrop q t) else q.
Definition upper (d : doc) (t : list Z) (p : Z) : list Z := ztake (cut_at d t p) t.
Definition lower (d : doc) (t : list Z) (p n : Z) : list Z := spaces n ++ zdrop (cut_from d t p) t.

(** The line of the cursor is cut at or before it. *)
Definition cut_above (d : doc) (p : Z) : bool := cut_at d (cur d) p <=? pnt d.

Definition d_split (p n : Z) (d : doc) : doc :=
  if zlen (cur d) <? cut_at d (cur d) p then d
  else if cut_above d p then
    let low := lower d (cur d) p n in
    let from := cut_from d (cur d) p in
    d_adjust (w_pnt (if pnt d <=? from then n else Z.min (pnt d - from + n) (zlen low))
      (w_row (row d + 1) (w_text (up d ++ [upper d (cur d) p]) low (dn d) d)))
  else w_text (up d) (upper d (cur d) p) (lower d (cur d) p n :: dn d) d.

Definition d_cancel (d : doc) : doc := w_blk None d.

Definition d_join (d : doc) : doc :=
  match dn d with
  | [] => d
  | n :: ds =>
      if blank_line n then w_text (up d) (cur d) ds d
      else if zlen (cur d) + zlen n <? WRAPMARGIN then w_text (up d) (cur d ++ n) ds d
      else
        let i := wrap_of n (WRAPMARGIN - 1 - zlen (cur d)) in
        if i =? 0 then d
        else
          let a := upper d n (i + 1) in
          w_text (up d) (if blank_line a then cur d else cur d ++ a) (lower d n (i + 1) 0 :: ds) d
  end.

(** *** Characters *)

Definition d_delete_char (d : doc) : doc :=
  w_text (up d) (ztake (pnt d) (cur d) ++ zdrop (pnt d + 1) (cur d)) (dn d) d.

(** [n] characters go at the cursor. *)
Definition d_delete (n : Z) (d : doc) : doc :=
  w_text (up d) (ztake (pnt d) (cur d) ++ zdrop (pnt d + n) (cur d)) (dn d) d.

Definition d_ansi_fix (d : doc) : doc :=
  if ansi d then w_pnt (pos_of d (cur d) (col_of (cur d) (pnt d) true) true) d else d.

Definition d_del_currchar (d : doc) : doc * Z :=
  let d := d_ansi_fix d in
  if zlen (cur d) <=? pnt d then (d, 0)
  else
    let d := if mbcs d then d_fix FC_LEFT d else d in
    let t := zdrop (pnt d) (cur d) in
    let w := if mbcs d then bytes_of t else 1 in
    (d_delete w d, width_of t w).

(** The line below the cut gets a space after a word. *)
Definition d_wrap_space (above wordwrap : bool) (extra : Z) (d : doc) : doc :=
  let sp t := if wordwrap && (1 <=? zlen t) && (zlen t + 1 + extra <? WRAPMARGIN) &&
                 negb (above && (pnt d =? zlen t)) && negb (cchar t (zlen t - 1) =? 32)
              then t ++ [32] else t in
  if above then w_text (up d) (sp (cur d)) (dn d) d
  else match dn d with
       | [] => d
       | n :: ds => w_text (up d) (cur d) (sp n :: ds) d
       end.

Definition d_put (ch : Z) (d : doc) : doc :=
  w_pnt (pnt d + 1) (w_text (up d) (ztake (pnt d) (cur d) ++ u8 ch :: zdrop (pnt d) (cur d)) (dn d) d).

(** Where a full line is cut: after the last space, or before the last character. *)
Definition wrap_cut (t : list Z) : bool * Z :=
  let i := wrap_of t (zlen t - 1) in
  if (i =? 0) || (WRAPMARGIN - 1 <=? zlen t - (i + 1))
  then (false, fixp t (zlen t - 1) FC_LEFT) else (true, i + 1).

Definition d_raw_insert (ch : Z) (d : doc) : doc :=
  let d := d_put ch (d_cancel d) in
  if zlen (cur d) <? WRAPMARGIN then d
  else
    let '(wordwrap, p) := wrap_cut (cur d) in
    d_wrap_space (cut_above d p) wordwrap 0 (d_split p 0 d).

Definition d_pad (new_width old_width : Z) (d : doc) : doc :=
  if (0 <? new_width) && (new_width <? old_width) then
    let d := d_raw_insert 32 d in w_pnt (pnt d - 1) d
  else d.

Definition d_insert_char (ch : Z) (d : doc) : doc :=
  let '(d, old_width) := if ins d then (d, 0) else d_del_currchar d in
  let d := d_raw_insert ch d in
  if ins d then d
  else
    let s := cstring [u8 ch; 0] in
    d_ansi_fix (d_pad (width_of s (zlen s)) old_width d).

(** Where a line is cut to make room for [w] bytes. *)
Definition dchar_cut (w : Z) (d : doc) : bool * Z :=
  let t := cur d in
  let max_split := if pnt d =? zlen t then zlen t else WRAPMARGIN - 1 - w in
  let i := wrap_of t (max_split - 1) in
  let extra := if i + 1 <=? pnt d then w else 0 in
  if (i =? 0) || (WRAPMARGIN <=? zlen t - (i + 1) + 1 + extra)
  then (false, if pnt d =? zlen t then zlen t else fixp t max_split FC_LEFT)
  else (true, i + 1).

Definition d_fix_in (d : doc) : doc :=
  if mbcs d && (pnt d <? zlen (cur d)) then d_fix FC_LEFT d else d.

Definition d_dchar_split (w : Z) (d : doc) : doc :=
  if zlen (cur d) + w <? WRAPMARGIN then d
  else
    let '(wordwrap, p) := dchar_cut w d in
    let max_split := if pnt d =? zlen (cur d) then zlen (cur d) else WRAPMARGIN - 1 - w in
    let extra := if wrap_of (cur d) (max_split - 1) + 1 <=? pnt d then w else 0 in
    d_fix_in (d_wrap_space (cut_above d p) wordwrap extra (d_split p 0 d)).

Definition d_insert_bytes (bs : list Z) (d : doc) : doc := fold_left (fun d b => d_raw_insert b d) bs d.

Fixpoint d_repeat (n : nat) (f : doc -> doc) (d : doc) : doc :=
  match n with O => d | S n => d_repeat n f (f d) end.

Definition d_dchar_overwrite (dchar : list Z) (w : Z) (d : doc) : doc * Z :=
  if ins d then (d, 0)
  else if negb (mbcs d) then (d_repeat (Z.to_nat w) (fun d => (d_del_currchar d).1) d, 0)
  else
    let '(d, old_width) := d_del_currchar d in
    if (old_width =? 1) && (2 <=? char_width dchar) && (pnt d <? zlen (cur d)) &&
       (negb (ansi d) || negb (cchar (cur d) (pnt d) =? ESC_CHR))
    then let '(d, w2) := d_del_currchar d in (d, old_width + w2)
    else (d, old_width).

Definition d_insert_dchar (dchar : list Z) (d : doc) : doc :=
  let w := bytes_of dchar in
  let '(d, old_width) := d_dchar_overwrite dchar w d in
  let d := d_insert_bytes (ztake w dchar) (d_dchar_split w (d_fix_in d)) in
  if ins d then d else d_ansi_fix (d_pad (char_width dchar) old_width d).

(** Spaces up to a column that is a multiple of eight. *)
Definition at_tab (d : doc) : bool := Z.land (col_of (cur d) (pnt d) (ansi d)) 7 =? 0.
Fixpoint d_tab_loop (fuel : nat) (d : doc) : doc :=
  match fuel with
  | O => d
  | S fuel => let d := d_insert_char 32 d in if at_tab d then d else d_tab_loop fuel d
  end.
Definition d_tab (d : doc) : doc := d_tab_loop 1024 d.

(** Without tabs. *)
Fixpoint d_insert_loop (fuel : nat) (str : list Z) (d : doc) : doc :=
  match fuel with
  | O => d
  | S fuel =>
      match str with
      | [] => d
      | ch :: rest =>
          let w := if 128 <=? ch then bytes_of str else 1 in
          if 1 <? w then d_insert_loop fuel (zdrop w str) (d_insert_dchar str d)
          else
            d_insert_loop fuel rest
              (if isprint2 ch || (ch =? ESC_CHR) then d_insert_char ch d
               else if ch =? 10 then d_split (pnt d) 0 d
               else d)
      end
  end.

Definition d_insert_string (str : list Z) (d : doc) : doc :=
  d_insert_loop (S (length str)) str (d_cancel d).

Definition d_load (bufs : list (list Z)) (d : doc) : doc :=
  fold_left (fun d b => d_insert_string b d) bufs d.
Definition d_file (bufs : list (list Z)) (d : doc) : doc := w_ind (ind d) (d_load bufs (w_ind false d)).

(** *** Commands *)

Definition d_enter (allowlarge : bool) (d : doc) : doc :=
  let d := d_cancel d in
  let indent :=
    if ind d then
      match List.find (fun t => negb (blank_line t)) (cur d :: rev (up d)) with
      | Some t => spc t
      | None => 0
      end
    else 0 in
  if (EDIT_LINE_LIMIT <=? lastl d) || (lastl d =? if allowlarge then MAX_EDIT_LINE_LARGE else MAX_EDIT_LINE)
  then d else d_split (pnt d) indent d.

Definition d_left (d : doc) : doc :=
  if negb (pnt d =? 0) then
    let p := if ansi d then pos_of d (cur d) (col_of (cur d) (pnt d) true - 1) true else pnt d - 1 in
    let d := w_pnt p d in
    if mbcs d then d_fix FC_LEFT d else d
  else if 0 <? currl d then d_goto (currl d - 1) (row d - 1) (zlen (line d (currl d - 1))) d
  else d.

Definition d_right (d : doc) : doc :=
  if negb (zlen (cur d) =? pnt d) then
    let cw := char_width (zdrop (pnt d) (cur d)) in
    let p := if ansi d
             then pos_of d (cur d) (s16 (col_of (cur d) (pnt d) true + (if 0 <? cw then cw else 1))) true
             else pnt d + 1 in
    let d := w_pnt p d in
    if mbcs d then d_fix FC_RIGHT d else d
  else if currl d <? lastl d then d_goto (currl d + 1) (row d + 1) 0 d
  else d.

(** The cursor goes to the line [i], the window starts at [top]. *)
Definition d_page (i top : Z) (d : doc) : doc :=
  d_goto i (i - top) (pos_of d (line d i) (col_of (cur d) (pnt d) (ansi d)) (ansi d)) d.
Definition d_pgup (d : doc) : doc :=
  let k := height d - 1 in d_page (Z.max 0 (currl d - k)) (Z.max 0 (currl d - row d - k)) d.
Definition d_pgdn (d : doc) : doc :=
  let k := height d - 1 in
  d_page (Z.min (lastl d) (currl d + k)) (Z.min (lastl d) (currl d - row d + k)) d.

Definition d_eof (d : doc) : doc := d_goto (lastl d) (Z.min (lastl d) (height d - 1)) 0 d.
Definition d_middle (i : Z) (d : doc) : Z := Z.min i ((rows d - 4) / 2 + 1).
Definition d_goto_line (lino : Z) (d : doc) : doc :=
  if (0 <? lino) && (lino <=? lastl d + 1) then d_goto (lino - 1) (d_middle (lino - 1) d) 0 d else d.

Definition next_word_of (t : list Z) (p : Z) : Z :=
  let fuel := S (length t) in
  default 0 (p ← word_next fuel isalnum t (zlen t) p; word_next fuel not_alnum t (zlen t) p).
Definition prev_word_of (t : list Z) (p : Z) : Z :=
  let fuel := S (length t) in default 0 (p ← word_prev fuel not_alnum t p; word_prev fuel isalnum t p).

(** The characters of a word at the cursor, and the blanks after it. *)
Fixpoint d_delete_while (fuel : nat) (f : Z -> bool) (d : doc) : doc :=
  match fuel with
  | O => d
  | S fuel =>
      if pnt d <? zlen (cur d) then
        let d := d_delete_char d in
        if f (cchar (cur d) (pnt d)) then d_delete_while fuel f d else d
      else d
  end.
Definition d_del_word (d : doc) : doc :=
  let fuel := S (length (cur d)) in d_delete_while fuel isspace (d_delete_while fuel isalnum d).

Definition d_backspace (d : doc) : doc :=
  let d := d_cancel d in
  if ansi d then w_ansi false d
  else if pnt d =? 0 then
    if 0 <? currl d then
      d_join (d_goto (currl d - 1) (Z.max 0 (row d - 1)) (zlen (line d (currl d - 1))) d)
    else d
  else
    let p := if mbcs d then fixp (cur d) (pnt d - 1) FC_LEFT else pnt d - 1 in
    w_pnt p (w_text (up d) (ztake p (cur d) ++ zdrop (pnt d) (cur d)) (dn d) d).

Definition d_delete_key (d : doc) : doc :=
  let d := d_cancel d in
  if zlen (cur d) =? pnt d then d_join d else d_ansi_fix (d_del_currchar d).1.

Definition d_del_current (d : doc) : doc :=
  match dn d, rev (up d) with
  | n :: ds, _ => w_del (Some (cur d)) (w_text (up d) n ds d)
  | [], p :: us =>
      w_del (Some (cur d)) (w_row (Z.max 0 (row d - 1)) (w_text (rev us) p [] d))
  | [], [] => w_text (up d) [] (dn d) d
  end.
Definition d_del_line (d : doc) : doc := d_del_current (d_cancel (w_pnt 0 d)).
Definition d_del_eol (d : doc) : doc :=
  let d := d_cancel d in
  if zlen (cur d) =? 0 then d_del_current d
  else if zlen (cur d) =? pnt d then d_join d
  else w_text (up d) (ztake (pnt d) (cur d)) (dn d) d.

Definition d_undelete (d : doc) : doc :=
  match del d with
  | None => d
  | Some t => w_pnt 0 (w_text (up d) t (cur d :: dn d) (d_cancel d))
  end.

Definition d_shift_left (d : doc) : doc :=
  if zlen (cur d) <=? 0 then d
  else
    let t := drop 1 (cur d) in
    d_ansi_fix (w_pnt (if pnt d <=? zlen t then pnt d else pnt d - 1) (w_text (up d) t (dn d) d)).
Definition d_shift_right (d : doc) : doc :=
  if WRAPMARGIN - 1 <=? zlen (cur d) then d else w_pnt (pnt d) (d_insert_char 32 (w_pnt 0 d)).

(** The first and the last line of the block. *)
Definition blk_begin (b : Z) (d : doc) : Z := Z.min b (currl d).
Definition blk_end (b : Z) (d : doc) : Z := Z.max b (currl d).

Definition d_block_delete (d : doc) : doc :=
  match blk d with
  | None => d
  | Some b =>
      let i := blk_begin b d in
      let us := ztake i (lines d) in
      let ds := zdrop (blk_end b d + 1) (lines d) in
      let r := row d - (currl d - i) in
      d_cancel (w_pnt 0
        match ds, rev us with
        | n :: ds, _ => w_row (Z.max 0 r) (w_text us n ds d)
        | [], p :: us => w_row (Z.max 0 (r - 1)) (w_text (rev us) p [] d)
        | [], [] => w_row 0 (w_text [] [] [] d)
        end)
  end.

Definition d_toggle_ansi (d : doc) : doc :=
  let d := w_ansi (negb (ansi d)) d in
  match blk d with
  | Some b =>
      if ansi d then
        let f i t := if (blk_begin b d <=? i) && (i <=? blk_end b d) then transform_to_color t else t in
        d_cancel (w_text (imap (fun i => f (Z.of_nat i)) (up d)) (f (currl d) (cur d))
                    (imap (fun i => f (currl d + 1 + Z.of_nat i)) (dn d)) d)
      else d
  | None => d
  end.

Definition d_command (allowlarge : bool) (c : command) (d : doc) : doc :=
  match c with
  | Cmd_tab => d_tab d
  | Cmd_enter => d_enter allowlarge d
  | Cmd_left => d_left d
  | Cmd_right => d_right d
  | Cmd_up => d_up d
  | Cmd_down => d_down d
  | Cmd_pgup => d_pgup d
  | Cmd_pgdn => d_pgdn d
  | Cmd_home => w_pnt 0 d
  | Cmd_end => w_pnt (zlen (cur d)) d
  | Cmd_bof => d_goto 0 0 0 d
  | Cmd_eof => d_eof d
  | Cmd_goto lino => d_goto_line lino d
  | Cmd_next_word => w_pnt (next_word_of (cur d) (pnt d)) d
  | Cmd_prev_word => w_pnt (prev_word_of (cur d) (pnt d)) d
  | Cmd_toggle_insert => w_ins (negb (ins d)) d
  | Cmd_toggle_indent => w_ind (negb (ind d)) d
  | Cmd_toggle_ansi => d_toggle_ansi d
  | Cmd_toggle_raw => w_mbcs (negb (mbcs d)) d
  | Cmd_phone_mode => w_phone (negb (phone d)) d
  | Cmd_backspace => d_backspace d
  | Cmd_delete => d_delete_key d
  | Cmd_del_line => d_del_line d
  | Cmd_del_eol => d_del_eol d
  | Cmd_del_word => d_del_word d
  | Cmd_undelete_line => d_undelete d
  | Cmd_shift_left => d_shift_left d
  | Cmd_shift_right => d_shift_right d
  | Cmd_esc_char => d_insert_char ESC_CHR d
  | Cmd_block_mark cut => match blk d with
                          | Some _ => if cut then d_block_delete d else d_cancel d
                          | None => w_blk (Some (currl d)) d
                          end
  | Cmd_block_cancel | Cmd_block_copy => d_cancel d
  | Cmd_cut => d_block_delete d
  | Cmd_read bufs => if EDIT_LINE_LIMIT <=? lastl d then d else d_file bufs d
  end.

Definition d_mouse (y x edit_margin : Z) (d : doc) : doc :=
  let top := currl d - row d in
  let i := Z.min (lastl d) (top + y) in
  let d := d_goto i (i - top) (pos_of d (line d i) (Z.max 0 (x + edit_margin)) (ansi d)) d in
  if mbcs d then d_fix FC_LEFT d else d.

Definition d_settle (d : doc) : doc :=
  let d := d_adjust d in if mbcs d then d_fix FC_LEFT d else d.

Fixpoint d_key (allowlarge : bool) (edit_margin : Z) (k : input) (d : doc) : doc :=
  match k with
  | Key_resize r k => d_key allowlarge edit_margin k (w_rows r d)
  | Key_char mb =>
      w_lind (-1) (if 1 <? zlen mb then d_insert_dchar mb d else d_insert_char (cchar mb 0) d)
  | Key_mouse x y =>
      let d := w_lind (-1) d in
      if (0 <=? y) && (y <? rows d - 1) then d_mouse y x edit_margin d else d_settle d
  | Key_cmd c =>
      let d := match c with
               | Cmd_up | Cmd_down =>
                   if lind d =? -1 then w_lind (col_of (cur d) (pnt d) (ansi d)) d else d
               | _ => w_lind (-1) d
               end in
      d_settle (d_command allowlarge c d)
  end.
End Text.

(** A new editor. *)
Definition d_new (r : Z) (m : bool) : doc := Doc [] [] [] None 0 0 None (-1) r true false false false m.

(** The start of the loop, at the top of the text. *)
Definition d_start (d : doc) : doc := d_goto 0 0 0 d.

End EditText.
