(* ===== verification/EditHeap.v ===== *)
(** The lines of [Edit] on the heap: segments of the doubly linked list, and what
    the assignments through pointers do to them. *)

From stdpp Require Import gmap.
From S2P Require Import Prelude Cstr Edit.

#[global] Open Scope Z_scope.
#[global] Open Scope list_scope.

Module EditHeap.
Import Cstr Edit.

#[local] Abbreviation hp := (gmap ptr textline_t).

(** *** Segments *)

(** A string and what is after its NUL in the array. *)
Record lrow := Row { txt : list Z; slack : list Z }.
Abbreviation node := (ptr * lrow)%type.
Definition cell (pv nx : option ptr) (r : lrow) : textline_t :=
  Textline pv nx (zlen (txt r)) (zlen (txt r) + zlen (slack r)) (txt r ++ 0 :: slack r).

Definition ptrs (ls : list node) : list ptr := map fst ls.
Definition texts (ls : list node) : list (list Z) := map (fun x => txt x.2) ls.

Definition head_ptr (ls : list node) (nx : option ptr) : option ptr :=
  match ls with [] => nx | (p, _) :: _ => Some p end.
Fixpoint last_ptr (pv : option ptr) (ls : list node) : option ptr :=
  match ls with [] => pv | (p, _) :: ls => last_ptr (Some p) ls end.

Fixpoint dseg (h : hp) (pv : option ptr) (ls : list node) (nx : option ptr) : Prop :=
  match ls with
  | [] => True
  | (p, r) :: ls => h !! p = Some (cell pv (head_ptr ls nx) r) /\ dseg h (Some p) ls nx
  end.

Implicit Types (h : hp) (ls a b : list node) (pv nx : option ptr).

Lemma ptrs_app a b : ptrs (a ++ b) = ptrs a ++ ptrs b.
Proof. apply map_app. Qed.

Lemma texts_app a b : texts (a ++ b) = texts a ++ texts b.
Proof. apply map_app. Qed.

Lemma zlen_texts ls : zlen (texts ls) = zlen ls.
Proof. apply zlen_map. Qed.

Lemma head_ptr_app a b nx : head_ptr (a ++ b) nx = head_ptr a (head_ptr b nx).
Proof. by destruct a as [|[]]. Qed.

Lemma last_ptr_app a b pv : last_ptr pv (a ++ b) = last_ptr (last_ptr pv a) b.
Proof. revert pv. induction a as [|[p r] a IH]; intros pv; [done|apply IH]. Qed.

Lemma last_ptr_in a pv q : last_ptr pv a = Some q -> q ∈ ptrs a \/ (a = [] /\ pv = Some q).
Proof.
  revert pv. induction a as [|[p r] a IH]; intros pv E; cbn in *; [by right|].
  destruct (IH _ E) as [Hi|[-> [= ->]]]; left; [by right|by left].
Qed.

Lemma dseg_app h pv a b nx :
  dseg h pv (a ++ b) nx <-> dseg h pv a (head_ptr b nx) /\ dseg h (last_ptr pv a) b nx.
Proof.
  revert pv. induction a as [|[p r] a IH]; intros pv; cbn [app dseg last_ptr]; [tauto|].
  rewrite head_ptr_app, IH. tauto.
Qed.

Lemma dseg_mid h pv a p r b nx :
  dseg h pv (a ++ (p, r) :: b) nx <->
  dseg h pv a (Some p) /\ h !! p = Some (cell (last_ptr pv a) (head_ptr b nx) r) /\ dseg h (Some p) b nx.
Proof. rewrite dseg_app. cbn [dseg head_ptr]. tauto. Qed.

Lemma dseg_frame h h' pv ls nx :
  (forall p, p ∈ ptrs ls -> h' !! p = h !! p) -> dseg h pv ls nx -> dseg h' pv ls nx.
Proof.
  revert pv. induction ls as [|[p r] ls IH]; intros pv Hf; [done|]. intros [Hp Hl]. split.
  - rewrite Hf; [done|by left].
  - apply IH; [|done]. intros q Hq. apply Hf. by right.
Qed.

Lemma dseg_insert h pv ls nx p t : p ∉ ptrs ls -> dseg h pv ls nx -> dseg (<[p := t]> h) pv ls nx.
Proof.
  intros Hp. apply dseg_frame. intros q Hq. apply lookup_insert_ne. intros ->. done.
Qed.

Lemma dseg_delete h pv ls nx p : p ∉ ptrs ls -> dseg h pv ls nx -> dseg (delete p h) pv ls nx.
Proof.
  intros Hp. apply dseg_frame. intros q Hq. apply lookup_delete_ne. intros ->. done.
Qed.

(** The cell of a node is found where the list puts it. *)
Lemma dseg_lookup h pv ls nx a p r b :
  dseg h pv ls nx -> ls = a ++ (p, r) :: b -> h !! p = Some (cell (last_ptr pv a) (head_ptr b nx) r).
Proof. intros H ->. by apply dseg_mid in H as (_ & ? & _). Qed.

(** *** Relinking the ends of a segment *)

(** A line in the middle of a list without repetitions. *)
Lemma nodup_at a p r b : NoDup (ptrs (a ++ (p, r) :: b)) ->
  p ∉ ptrs a /\ p ∉ ptrs b /\ (forall x, x ∈ ptrs a -> x ∉ ptrs b) /\ NoDup (ptrs a) /\ NoDup (ptrs b).
Proof.
  rewrite ptrs_app. cbn [ptrs map fst]. rewrite list.NoDup_app, list.NoDup_cons. intros (Ha & Hd & Hp & Hb).
  split_and!; try done; [intros Hi; apply (Hd _ Hi); by left|]. intros x Hx Hi. apply (Hd _ Hx). by right.
Qed.

Lemma ptrs_at x a p r b : x ∈ ptrs (a ++ (p, r) :: b) <-> x = p \/ x ∈ ptrs (a ++ b).
Proof. rewrite !ptrs_app, !list.elem_of_app. cbn. rewrite list.elem_of_cons. tauto. Qed.

Lemma nodup_without a p r b : NoDup (ptrs (a ++ (p, r) :: b)) -> p ∉ ptrs (a ++ b) /\ NoDup (ptrs (a ++ b)).
Proof.
  intros (Hpa & Hpb & Hd & Ha & Hb)%nodup_at. rewrite ptrs_app, list.elem_of_app, list.NoDup_app. split_and!; tauto || done.
Qed.

(** One line of a list gets another string. *)
Lemma dseg_edit h a p r r' b : dseg h None (a ++ (p, r) :: b) None -> p ∉ ptrs a -> p ∉ ptrs b ->
  dseg (<[p := cell (last_ptr None a) (head_ptr b None) r']> h) None (a ++ (p, r') :: b) None.
Proof.
  intros (Ha & _ & Hb)%dseg_mid Hpa Hpb. apply dseg_mid.
  split_and!; [by apply dseg_insert|by rewrite lookup_insert_eq|by apply dseg_insert].
Qed.

Lemma relink_next h pv a p r nx nx' :
  NoDup (ptrs (a ++ [(p, r)])) -> dseg h pv (a ++ [(p, r)]) nx ->
  dseg (<[p := cell (last_ptr pv a) nx' r]> h) pv (a ++ [(p, r)]) nx'.
Proof.
  intros Hn (Ha & Hp & _)%dseg_mid. rewrite ptrs_app in Hn.
  apply list.NoDup_app in Hn as (_ & Hd & _). apply dseg_mid. split_and!; [|by rewrite lookup_insert_eq|done].
  apply dseg_insert; [|done]. intros Hi. apply (Hd _ Hi). by left.
Qed.

Lemma relink_prev h pv pv' p r b nx :
  NoDup (ptrs ((p, r) :: b)) -> dseg h pv ((p, r) :: b) nx ->
  dseg (<[p := cell pv' (head_ptr b nx) r]> h) pv' ((p, r) :: b) nx.
Proof.
  intros Hn [Hp Hb]. apply list.NoDup_cons in Hn as [Hn _]. split; [by rewrite lookup_insert_eq|].
  by apply dseg_insert.
Qed.

(** *** Assignments through pointers *)

Lemma get_some s p t : heap s !! p = Some t -> get (Some p) s = Some t.
Proof. done. Qed.

Lemma put_some s p t t' : heap s !! p = Some t -> put (Some p) t' s = Some (set_heap (<[p := t']> (heap s)) s).
Proof. intros H. unfold put. cbn. by rewrite H. Qed.

Lemma set_heap_heap s h h' : set_heap h (set_heap h' s) = set_heap h s.
Proof. done. Qed.

Lemma set_heap_id s : set_heap (heap s) s = s.
Proof. by destruct s. Qed.

Lemma dom_overwrite h p t t' : h !! p = Some t -> dom (<[p := t']> h) = dom h.
Proof. intros H. apply dom_insert_lookup_L. by exists t. Qed.

(** [if (q) q->next = v] where [q] is the end of [a]. *)
Lemma link_next s a nx v (X : editor) :
  NoDup (ptrs a) -> dseg (heap s) None a nx ->
  exists h', match last_ptr None a with Some _ => set_next (last_ptr None a) v s | None => Some X end =
             Some (match a with [] => X | _ => set_heap h' s end) /\
    dseg h' None a v /\ dom h' = dom (heap s) /\ (forall q, q ∉ ptrs a -> h' !! q = heap s !! q) /\
    (a = [] -> h' = heap s).
Proof.
  intros Hn Ha. destruct a as [|x a _] using rev_ind; [exists (heap s); by split_and!|].
  destruct x as [p r]. rewrite last_ptr_app. cbn [last_ptr].
  pose proof (dseg_lookup _ _ _ _ a p r [] Ha eq_refl) as Hp.
  unfold set_next. rewrite (get_some _ _ _ Hp). cbn [mbind option_bind]. rewrite (put_some _ _ _ _ Hp).
  eexists. split_and!.
  - by destruct a.
  - by apply relink_next with nx.
  - by apply dom_overwrite with (1 := Hp).
  - intros q Hq. apply lookup_insert_ne. intros <-. apply Hq. rewrite ptrs_app. apply list.elem_of_app. right. by left.
  - by destruct a.
Qed.

(** [if (q) q->prev = v] where [q] is the front of [b]. *)
Lemma link_prev s pv b v (X : editor) :
  NoDup (ptrs b) -> dseg (heap s) pv b None ->
  exists h', match head_ptr b None with Some _ => set_prev (head_ptr b None) v s | None => Some X end =
             Some (match b with [] => X | _ => set_heap h' s end) /\
    dseg h' v b None /\ dom h' = dom (heap s) /\ (forall q, q ∉ ptrs b -> h' !! q = heap s !! q) /\
    (b = [] -> h' = heap s).
Proof.
  intros Hn Hb. destruct b as [|[p r] b]; [exists (heap s); by split_and!|].
  cbn [head_ptr]. destruct (Hb) as [Hp _].
  unfold set_prev. rewrite (get_some _ _ _ Hp). cbn [mbind option_bind]. rewrite (put_some _ _ _ _ Hp).
  eexists. split_and!; try done.
  - by apply relink_prev with pv.
  - by apply dom_overwrite with (1 := Hp).
  - intros q Hq. apply lookup_insert_ne. intros <-. apply Hq. by left.
Qed.

(** Assignments to the fields of one block, with the state in the form
    [set_heap (<[p := t]> h) s]. *)

Lemma as_cell s p t : heap s !! p = Some t -> set_heap (<[p := t]> (heap s)) s = s.
Proof. intros Hp. rewrite insert_id by done. apply set_heap_id. Qed.

Section Cells.
Variables (h : hp) (p : ptr) (s : editor).

Lemma cell_get t : get (Some p) (set_heap (<[p := t]> h) s) = Some t.
Proof. apply lookup_insert_eq. Qed.

Lemma cell_put t t' : put (Some p) t' (set_heap (<[p := t]> h) s) = Some (set_heap (<[p := t']> h) s).
Proof.
  unfold put. cbn. rewrite lookup_insert_eq. cbn. by rewrite set_heap_heap, insert_insert_eq.
Qed.

Lemma cell_set_len t n :
  set_len (Some p) n (set_heap (<[p := t]> h) s) =
  Some (set_heap (<[p := Textline (prev t) (next t) n (alloc_len t) (data t)]> h) s).
Proof. unfold set_len. rewrite cell_get. apply cell_put. Qed.

Lemma cell_set_alloc_len t n :
  set_alloc_len (Some p) n (set_heap (<[p := t]> h) s) =
  Some (set_heap (<[p := Textline (prev t) (next t) (len t) n (data t)]> h) s).
Proof. unfold set_alloc_len. rewrite cell_get. apply cell_put. Qed.

Lemma cell_set_prev t q :
  set_prev (Some p) q (set_heap (<[p := t]> h) s) =
  Some (set_heap (<[p := Textline q (next t) (len t) (alloc_len t) (data t)]> h) s).
Proof. unfold set_prev. rewrite cell_get. apply cell_put. Qed.

Lemma cell_set_next t q :
  set_next (Some p) q (set_heap (<[p := t]> h) s) =
  Some (set_heap (<[p := Textline (prev t) q (len t) (alloc_len t) (data t)]> h) s).
Proof. unfold set_next. rewrite cell_get. apply cell_put. Qed.

Lemma cell_upd_data t f d :
  f (data t) = Some d ->
  upd_data (Some p) f (set_heap (<[p := t]> h) s) =
  Some (set_heap (<[p := Textline (prev t) (next t) (len t) (alloc_len t) d]> h) s).
Proof. intros E. unfold upd_data. rewrite cell_get. cbn [mbind option_bind]. rewrite E. apply cell_put. Qed.
End Cells.

(** The same on a heap [h'] that has [t] at [p]. *)
Section CellsAt.
Variables (h' : hp) (p : ptr) (s : editor) (t : textline_t).
Hypothesis Hp : h' !! p = Some t.

Lemma at_cell : set_heap h' s = set_heap (<[p := t]> h') s.
Proof. by rewrite insert_id. Qed.

Lemma set_next_at q :
  set_next (Some p) q (set_heap h' s) =
  Some (set_heap (<[p := Textline (prev t) q (len t) (alloc_len t) (data t)]> h') s).
Proof. rewrite at_cell at 1. apply cell_set_next. Qed.

Lemma set_prev_at q :
  set_prev (Some p) q (set_heap h' s) =
  Some (set_heap (<[p := Textline q (next t) (len t) (alloc_len t) (data t)]> h') s).
Proof. rewrite at_cell at 1. apply cell_set_prev. Qed.

Lemma set_len_at n :
  set_len (Some p) n (set_heap h' s) =
  Some (set_heap (<[p := Textline (prev t) (next t) n (alloc_len t) (data t)]> h') s).
Proof. rewrite at_cell at 1. apply cell_set_len. Qed.

Lemma upd_data_at f d :
  f (data t) = Some d ->
  upd_data (Some p) f (set_heap h' s) =
  Some (set_heap (<[p := Textline (prev t) (next t) (len t) (alloc_len t) d]> h') s).
Proof. intros E. rewrite at_cell at 1. by apply cell_upd_data. Qed.
End CellsAt.

(** One such assignment at the front of a bind. *)
Ltac cell_step :=
  first [rewrite cell_get | rewrite cell_set_len | rewrite cell_set_alloc_len
        | rewrite cell_set_prev | rewrite cell_set_next
        | erewrite cell_upd_data by (cbn [data]; eassumption || reflexivity)];
  cbn [mbind option_bind prev next len alloc_len data].

(** The array of a line: its string, and the NUL after it. *)
Lemma c_str_at (d r : list Z) : c_string d -> c_str (d ++ 0 :: r) 0 = Some d.
Proof.
  intros Hd. unfold c_str. cbn [Z.leb Z.compare andb Z.to_nat]. rewrite drop_0.
  rewrite existsb_app. cbn [existsb]. rewrite Z.eqb_refl, orb_true_r, cstring_app by done. done.
Qed.

Lemma c_str_mid (a d r : list Z) i :
  c_string d -> i = zlen a -> c_str (a ++ d ++ 0 :: r) i = Some d.
Proof.
  intros Hd ->. unfold c_str. rewrite drop_zlen_app, existsb_app. cbn [existsb].
  rewrite Z.eqb_refl, orb_true_r, cstring_app by done. pose proof (zlen_nonneg a).
  by replace (0 <=? zlen a) with true by lia.
Qed.

Lemma c_string_drop n d : c_string d -> c_string (drop n d).
Proof. apply Forall_drop. Qed.

Lemma c_str_drop (d r : list Z) i :
  c_string d -> 0 <= i <= zlen d -> c_str (d ++ 0 :: r) i = Some (drop (Z.to_nat i) d).
Proof.
  intros Hd Hi. rewrite <- (take_drop (Z.to_nat i) d) at 1. rewrite <- app_assoc.
  apply c_str_mid; [by apply c_string_drop|]. zlia.
Qed.

End EditHeap.
