(* ===== verification/EditRep.v ===== *)
(** The editor represents a text: [rep], and the operations of [Edit] on single
    lines that keep it. *)

From stdpp Require Import gmap.
From S2P Require Import Prelude Cstr Str Mbs MbsProps Edit EditText EditHeap.

#[global] Open Scope Z_scope.
#[global] Open Scope list_scope.

Module EditRep.
Import Cstr MbsProps Edit EditText EditHeap.

(** [malloc] returns a free address. *)
Class LibcOk `{Libc} : Prop := malloc_fresh h : h !! malloc_at h = None.

Definition row_ok (r : lrow) : Prop := text_chars (txt r) /\ zlen (txt r) <= WRAPMARGIN.
Definition rows_ok (ls : list node) : Prop := Forall (fun x => row_ok x.2) ls.

(** [bx]: the line of the block is the one [blockln] counts. *)
Definition blk_rep (bx : bool) (ps : list ptr) (b : option Z) (s : editor) : Prop :=
  match b with
  | None => blockln s = -1 /\ blockline s = None
  | Some i =>
      0 <= i /\ blockln s = i /\
      exists q, blockline s = Some q /\ q ∈ ps /\ (bx = true -> ps !! Z.to_nat i = Some q)
  end.

Definition del_rep (ps : list ptr) (dl : option node) (s : editor) : Prop :=
  match dl with
  | None => deleted_line s = None
  | Some (p, r) =>
      deleted_line s = Some p /\ heap s !! p = Some (cell None None r) /\ p ∉ ps /\ row_ok r
  end.

Definition del_ptr (dl : option node) (q : ptr) : Prop := exists r, dl = Some (q, r).

(** A block that is not in the list yet. *)
Definition ex_rep (ps : list ptr) (dl : option node) (ex : option (ptr * textline_t)) (s : editor) : Prop :=
  match ex with
  | None => True
  | Some (p, t) => heap s !! p = Some t /\ p ∉ ps /\ ~ del_ptr dl p
  end.

(** The list on the heap, the counters, and the texts: [us] above the line [c] of
    the cursor, [ds] below, [dl] the deleted line, and [ex]; nothing else is
    allocated.  [totaln] has been counted up for [k] lines that are to come. *)
Record rep (ex : option (ptr * textline_t)) (bx : bool) (k : Z) (s : editor) (us : list node) (c : node) (ds : list node)
  (dl : option node) (d : doc) : Prop := Rep
  { rp_seg : dseg (heap s) None (us ++ c :: ds) None;
    rp_nodup : NoDup (ptrs (us ++ c :: ds));
    rp_rows : rows_ok (us ++ c :: ds);
    rp_del : del_rep (ptrs (us ++ c :: ds)) dl s;
    rp_ex : ex_rep (ptrs (us ++ c :: ds)) dl ex s;
    rp_dom : forall q t, heap s !! q = Some t ->
      q ∈ ptrs (us ++ c :: ds) \/ del_ptr dl q \/ exists t, ex = Some (q, t);
    rp_first : firstline s = head_ptr (us ++ c :: ds) None;
    rp_last : lastline s = last_ptr None (us ++ c :: ds);
    rp_cur : currline s = Some c.1;
    rp_top : top_of_win s = ptrs (us ++ c :: ds) !! Z.to_nat (zlen us - row d);
    rp_row : 0 <= zlen us - row d <= zlen us + zlen ds;
    rp_old : forall q, oldcurrline s = Some q -> q ∈ ptrs (us ++ c :: ds);
    rp_blk : blk_rep bx (ptrs (us ++ c :: ds)) (blk d) s;
    rp_up : up d = texts us;
    rp_curt : cur d = txt c.2;
    rp_dn : dn d = texts ds;
    rp_delt : del d = (fun x => txt x.2) <$> dl;
    rp_currln : currln s = zlen us;
    rp_totaln : totaln s = zlen us + zlen ds + k;
    rp_winln : curr_window_line s = row d;
    rp_pnt : currpnt s = pnt d;
    rp_lind : lastindent s = lind d;
    rp_size : t_lines s = rows d;
    rp_ins : insert_mode s = ins d;
    rp_ansi : ansimode s = ansi d;
    rp_ind : indent_mode s = ind d;
    rp_phone : phone_mode s = phone d;
    rp_mbcs : mbcs_mode s = mbcs d }.

Arguments rp_seg {_ _ _ _ _ _ _ _ _}.
Arguments rp_nodup {_ _ _ _ _ _ _ _ _}.
Arguments rp_rows {_ _ _ _ _ _ _ _ _}.
Arguments rp_del {_ _ _ _ _ _ _ _ _}.
Arguments rp_ex {_ _ _ _ _ _ _ _ _}.
Arguments rp_dom {_ _ _ _ _ _ _ _ _}.
Arguments rp_first {_ _ _ _ _ _ _ _ _}.
Arguments rp_last {_ _ _ _ _ _ _ _ _}.
Arguments rp_cur {_ _ _ _ _ _ _ _ _}.
Arguments rp_top {_ _ _ _ _ _ _ _ _}.
Arguments rp_row {_ _ _ _ _ _ _ _ _}.
Arguments rp_old {_ _ _ _ _ _ _ _ _}.
Arguments rp_blk {_ _ _ _ _ _ _ _ _}.
Arguments rp_up {_ _ _ _ _ _ _ _ _}.
Arguments rp_curt {_ _ _ _ _ _ _ _ _}.
Arguments rp_dn {_ _ _ _ _ _ _ _ _}.
Arguments rp_delt {_ _ _ _ _ _ _ _ _}.
Arguments rp_currln {_ _ _ _ _ _ _ _ _}.
Arguments rp_totaln {_ _ _ _ _ _ _ _ _}.
Arguments rp_winln {_ _ _ _ _ _ _ _ _}.
Arguments rp_pnt {_ _ _ _ _ _ _ _ _}.
Arguments rp_lind {_ _ _ _ _ _ _ _ _}.
Arguments rp_size {_ _ _ _ _ _ _ _ _}.
Arguments rp_ins {_ _ _ _ _ _ _ _ _}.
Arguments rp_ansi {_ _ _ _ _ _ _ _ _}.
Arguments rp_ind {_ _ _ _ _ _ _ _ _}.
Arguments rp_phone {_ _ _ _ _ _ _ _ _}.
Arguments rp_mbcs {_ _ _ _ _ _ _ _ _}.

(** *** Strings *)

Lemma text_c_string t : text_chars t -> c_string t.
Proof. apply Forall_impl. by intros x []. Qed.
Lemma text_u8 t : text_chars t -> Forall is_u8 t.
Proof. apply Forall_impl. by intros x []. Qed.
Lemma row_c_string r : row_ok r -> c_string (txt r).
Proof. intros []. by apply text_c_string. Qed.

#[export] Hint Resolve text_c_string text_u8 row_c_string : ptt.

Lemma cell_c_str pv nx r : row_ok r -> c_str (data (cell pv nx r)) 0 = Some (txt r).
Proof. intros H. apply c_str_at. by apply row_c_string. Qed.

(** *** Renaming a node *)

(** The block [q] has moved to [q'], and holds [r']. *)
Definition ren (q q' : ptr) (r' : lrow) (x : node) : node := if decide (x.1 = q) then (q', r') else x.
Definition rn (q q' p : ptr) : ptr := if decide (p = q) then q' else p.

Lemma ren_ptrs q q' r' ls : ptrs (map (ren q q' r') ls) = map (rn q q') (ptrs ls).
Proof.
  unfold ptrs. rewrite !map_map. apply map_ext. intros [p r]. unfold ren, rn. cbn. by destruct (decide _).
Qed.

Lemma ren_notin q q' r' ls : q ∉ ptrs ls -> map (ren q q' r') ls = ls.
Proof.
  induction ls as [|[p r] ls IH]; intros Hq; [done|]. cbn [map]. rewrite IH.
  - unfold ren. cbn. destruct (decide _) as [->|]; [|done]. exfalso. apply Hq. by left.
  - intros Hi. apply Hq. by right.
Qed.

Lemma ren_at q q' r' r a b :
  NoDup (ptrs (a ++ (q, r) :: b)) -> map (ren q q' r') (a ++ (q, r) :: b) = a ++ (q', r') :: b.
Proof.
  rewrite ptrs_app. intros (Ha & Hd & Hb)%list.NoDup_app. apply list.NoDup_cons in Hb as [Hb _].
  rewrite map_app. cbn [map]. rewrite !ren_notin; [|done|intros Hi; apply (Hd _ Hi); by left].
  unfold ren. cbn. by destruct (decide (q = q)).
Qed.

Lemma ren_id q r ls : NoDup (ptrs ls) -> (q, r) ∈ ls -> map (ren q q r) ls = ls.
Proof.
  intros Hn (a & b & ->)%list_elem_of_split. by apply ren_at.
Qed.

Lemma moved_lookup q q' ps i :
  moved (Some q) (Some q') (ps !! i) = map (rn q q') ps !! i.
Proof.
  rewrite list_lookup_fmap. unfold moved. destruct (ps !! i) as [p|]; cbn; [|by case_bool_decide].
  unfold rn. destruct (decide (p = q)) as [->|Hne]; case_bool_decide; congruence.
Qed.

Lemma head_ptr_ptrs ls : head_ptr ls None = ptrs ls !! 0%nat.
Proof. by destruct ls as [|[]]. Qed.

Lemma last_ptr_lookup ls : last_ptr None ls = ptrs ls !! pred (length ls).
Proof.
  destruct ls as [|[p r] ls _] using rev_ind; [done|]. rewrite last_ptr_app, ptrs_app, length_app. cbn.
  rewrite Nat.add_1_r. cbn. symmetry. apply list_lookup_middle. unfold ptrs. by rewrite length_map.
Qed.

(** *** Edits in place *)

Lemma texts_ren q q' r r' ls : (q, r) ∈ ls -> NoDup (ptrs ls) -> txt r' = txt r ->
  texts (map (ren q q' r') ls) = texts ls.
Proof.
  intros (a & b & ->)%list_elem_of_split Hn E. rewrite ren_at by done. rewrite !texts_app. cbn. by rewrite E.
Qed.

Lemma rep_mid ex bx k s us c ds dl d : rep ex bx k s us c ds dl d ->
  heap s !! c.1 = Some (cell (last_ptr None us) (head_ptr ds None) c.2) /\
  c.1 ∉ ptrs us /\ c.1 ∉ ptrs ds /\ row_ok c.2 /\ NoDup (ptrs us) /\ NoDup (ptrs ds).
Proof.
  intros R. destruct c as [p r]. split_and!.
  - apply (dseg_lookup _ _ _ _ us p r ds (rp_seg R) eq_refl).
  - pose proof (rp_nodup R) as Hn. rewrite ptrs_app in Hn.
    apply list.NoDup_app in Hn as (_ & Hd & _). intros Hi. apply (Hd _ Hi). by left.
  - pose proof (rp_nodup R) as Hn. rewrite ptrs_app in Hn.
    apply list.NoDup_app in Hn as (_ & _ & Hn). by apply list.NoDup_cons in Hn as [? _].
  - pose proof (rp_rows R) as H. apply list.Forall_app in H as [_ H].
    by apply list.Forall_cons in H as [? _].
  - pose proof (rp_nodup R) as Hn. rewrite ptrs_app in Hn. by apply list.NoDup_app in Hn as (? & _).
  - pose proof (rp_nodup R) as Hn. rewrite ptrs_app in Hn.
    apply list.NoDup_app in Hn as (_ & _ & Hn). by apply list.NoDup_cons in Hn as [_ ?].
Qed.

Lemma rep_get_cur ex bx k s us c ds dl d : rep ex bx k s us c ds dl d ->
  get (currline s) s = Some (cell (last_ptr None us) (head_ptr ds None) c.2).
Proof. intros R. rewrite (rp_cur R). by apply rep_mid in R as [? _]. Qed.

(** The line of the cursor gets a new string. *)
Lemma rep_edit_cur ex bx k s us p r r' ds dl d :
  rep ex bx k s us (p, r) ds dl d -> row_ok r' ->
  rep ex bx k (set_heap (<[p := cell (last_ptr None us) (head_ptr ds None) r']> (heap s)) s)
    us (p, r') ds dl (w_text (up d) (txt r') (dn d) d).
Proof.
  intros R Hr'. pose proof (rep_mid _ _ _ _ _ _ _ _ _ R) as (Hp & Hu & Hd & _ & _). destruct R. cbn in *.
  assert (Ep : ptrs (us ++ (p, r') :: ds) = ptrs (us ++ (p, r) :: ds)) by (by rewrite !ptrs_app).
  constructor; rewrite ?Ep; cbn; try done.
  - by apply dseg_edit with r.
  - apply list.Forall_app in rp_rows0 as [Ha Hb]. apply list.Forall_cons in Hb as [_ Hb].
    apply list.Forall_app. split; [done|]. by apply list.Forall_cons.
  - unfold del_rep in *. destruct dl as [[q rq]|]; [|done]. destruct rp_del0 as (? & ? & Hn & ?). cbn.
    split_and!; try done. rewrite lookup_insert_ne; [done|]. intros <-. apply Hn.
    rewrite ptrs_app. apply list.elem_of_app. right. by left.
  - unfold ex_rep in *. destruct ex as [[q tq]|]; [|done]. destruct rp_ex0 as (? & Hn & ?). cbn.
    split_and!; try done. rewrite lookup_insert_ne; [done|]. intros <-. apply Hn.
    rewrite ptrs_app. apply list.elem_of_app. right. by left.
  - intros q t. destruct (decide (q = p)) as [->|Hne].
    + intros _. left. rewrite ptrs_app. apply list.elem_of_app. right. by left.
    + rewrite lookup_insert_ne by done. apply rp_dom0.
  - rewrite rp_first0, !head_ptr_app. by destruct us as [|[]].
  - rewrite rp_last0, !last_ptr_app. done.
Qed.

(** *** [adjustline] *)

Section Libc.
Context `{LibcOk}.

Lemma realloc_cell pv nx r n s p :
  heap s !! p = Some (cell pv nx r) -> zlen (txt r) <= n ->
  exists y sl, y = 0 /\ zlen sl = n - zlen (txt r) /\
    realloc_line (Some p) n s =
    let t := Textline pv nx (zlen (txt r)) (zlen (txt r) + zlen (slack r)) (txt r ++ y :: sl) in
    if realloc_moves (heap s) p n
    then Some (set_heap (<[malloc_at (heap s) := t]> (delete p (heap s))) s, Some (malloc_at (heap s)))
    else Some (set_heap (<[p := t]> (heap s)) s, Some p).
Proof.
  intros Hp Hn. unfold realloc_line. cbn [mbind option_bind]. rewrite Hp. cbn [mbind option_bind cell prev next len alloc_len data].
  set (f := fill s _). set (l := (0 :: slack r) ++ f).
  assert (Hf : n + 1 <= zlen (txt r) + zlen l).
  { assert (Hs : forall k, zlen (seqZ 0 k) = Z.max 0 k) by (intros k; unfold zlen; rewrite length_seqZ; lia).
    unfold l, f, fill. rewrite zlen_app, zlen_map, Hs. zlia. }
  replace ((txt r ++ 0 :: slack r) ++ f) with (txt r ++ l) by (unfold l; rewrite <- app_assoc; done).
  rewrite take_app_ge by (unfold zlen in *; lia).
  assert (El : l = 0 :: drop 1 l) by done.
  exists 0, (take (Z.to_nat (n - zlen (txt r))) (drop 1 l)). split; [done|]. split.
  - rewrite zlen_take, zlen_drop. unfold zlen in *. lia.
  - replace (take (Z.to_nat (n + 1) - length (txt r)) l)
      with (0 :: take (Z.to_nat (n - zlen (txt r))) (drop 1 l)); [by destruct (realloc_moves _ _ _)|].
    rewrite El at 2. replace (Z.to_nat (n + 1) - length (txt r))%nat with (S (Z.to_nat (n - zlen (txt r))))
      by (unfold zlen in *; lia). done.
Qed.


(** The neighbours of a block that has moved are pointed at it. *)
Lemma relink_moved s0 s a q r b q' r' :
  NoDup (ptrs (a ++ (q, r) :: b)) -> q' ∉ ptrs (a ++ (q, r) :: b) ->
  dseg (heap s0) None (a ++ (q, r) :: b) None ->
  heap s = <[q' := cell (last_ptr None a) (head_ptr b None) r']> (delete q (heap s0)) ->
  exists h',
    (s1 ← match last_ptr None a with Some _ => set_next (last_ptr None a) (Some q') s | None => Some s end;
     match head_ptr b None with Some _ => set_prev (head_ptr b None) (Some q') s1 | None => Some s1 end) =
    Some (set_heap h' s) /\
    dseg h' None (a ++ (q', r') :: b) None /\
    (forall p, p ∉ ptrs (a ++ (q', r') :: b) -> h' !! p = delete q (heap s0) !! p).
Proof.
  intros Hn Hq' Hs Eh. apply dseg_mid in Hs as (Ha & _ & Hb).
  rewrite ptrs_app in Hn, Hq'. cbn [ptrs map fst] in Hn, Hq'. fold (ptrs b) in Hn, Hq'.
  apply list.NoDup_app in Hn as (Hna & Hd & Hnb). apply list.NoDup_cons in Hnb as [Hqb Hnb].
  assert (Hqa : q ∉ ptrs a) by (intros Hi; apply (Hd _ Hi); by left).
  assert (Hqa' : q' ∉ ptrs a) by (intros Hi; apply Hq'; apply list.elem_of_app; by left).
  assert (Hqb' : q' ∉ ptrs b).
  { intros Hi. apply Hq'. apply list.elem_of_app. right. by right. }
  assert (Ha1 : dseg (heap s) None a (Some q)) by (rewrite Eh; apply dseg_insert, dseg_delete; done).
  assert (Hb1 : dseg (heap s) (Some q) b None) by (rewrite Eh; apply dseg_insert, dseg_delete; done).
  destruct (link_next s a _ (Some q') s Hna Ha1) as (h4 & E4 & Ha4 & _ & F4 & N4).
  rewrite E4. cbn [mbind option_bind].
  assert (E4' : match a with [] => s | _ :: _ => set_heap h4 s end = set_heap h4 s).
  { destruct a; [|done]. rewrite N4 by done. by rewrite set_heap_id. }
  rewrite E4'. set (s4 := set_heap h4 s).
  assert (Hb4 : dseg (heap s4) (Some q) b None).
  { apply dseg_frame with (heap s); [|done]. intros p Hp. apply F4. intros Hi. apply (Hd _ Hi). by right. }
  destruct (link_prev s4 _ b (Some q') s4 Hnb Hb4) as (h5 & E5 & Hb5 & _ & F5 & N5).
  rewrite E5. exists h5.
  assert (E5' : match b with [] => s4 | _ :: _ => set_heap h5 s4 end = set_heap h5 s).
  { destruct b; [|done]. by rewrite N5. }
  rewrite E5'. split; [done|].
  assert (Eh5 : forall p, p ∉ ptrs a -> p ∉ ptrs b -> h5 !! p = heap s !! p).
  { intros p Hpa Hpb. rewrite F5 by done. cbn. by apply F4. }
  split.
  - apply dseg_mid. split_and!.
    + apply dseg_frame with h4; [|done]. intros p Hp. apply F5. intros Hi. apply (Hd _ Hp). by right.
    + rewrite Eh5 by done. by rewrite Eh, lookup_insert_eq.
    + done.
  - intros p Hp. rewrite ptrs_app in Hp. rewrite Eh5.
    + rewrite Eh, lookup_insert_ne; [done|]. intros <-. apply Hp. apply list.elem_of_app. right. by left.
    + intros Hi. apply Hp. apply list.elem_of_app. by left.
    + intros Hi. apply Hp. apply list.elem_of_app. right. by right.
Qed.

Lemma rn_in q q' ps p : p ∈ ps -> rn q q' p ∈ map (rn q q') ps.
Proof. intros Hp. apply list_elem_of_In, in_map. by apply list_elem_of_In. Qed.

Lemma moved_some q q' p : moved (Some q) (Some q') (Some p) = Some (rn q q' p).
Proof. unfold moved, rn. destruct (decide (p = q)) as [->|]; case_bool_decide; congruence. Qed.

Lemma moved_id q f : moved (Some q) (Some q) f = f.
Proof. unfold moved. case_bool_decide; congruence. Qed.

Lemma move_ptrs_id q s : move_ptrs (Some q) (Some q) s = s.
Proof. unfold move_ptrs. cbn. rewrite !moved_id. by destruct s. Qed.

(** A block that is not a line is not one after a line has moved to free memory. *)
Lemma rn_other (h : gmap ptr textline_t) q q' ps p : (q' = q \/ h !! q' = None) -> is_Some (h !! p) -> p ∉ ps -> q ∈ ps ->
  p ∉ map (rn q q') ps.
Proof.
  intros Hq' [t Hp] Hn Hq (x & Ex & Hx%list_elem_of_In)%list_elem_of_In%in_map_iff. unfold rn in Ex.
  destruct (decide _) as [->|]; [|by subst]. destruct Hq' as [->|Hq']; [by subst|congruence].
Qed.

Lemma rn_nodup (h : gmap ptr textline_t) q q' ls : (q' = q \/ h !! q' = None) -> dseg h None ls None -> NoDup (ptrs ls) ->
  NoDup (map (rn q q') (ptrs ls)).
Proof.
  intros Hq' Hs Hn. apply NoDup_fmap_2_strong; [|done]. intros x y Hx Hy. unfold rn.
  assert (Hfr : forall z, z ∈ ptrs ls -> q' = z -> q' = q).
  { intros z Hz ->. destruct Hq' as [?|Hq']; [done|]. exfalso.
    apply list_elem_of_In, in_map_iff in Hz as ([z' rz] & <- & Hz%list_elem_of_In).
    apply list_elem_of_split in Hz as (a & b & Ez). cbn in Hq'.
    rewrite (dseg_lookup _ _ _ _ _ _ _ _ Hs Ez) in Hq'. done. }
  destruct (decide (x = q)) as [->|], (decide (y = q)) as [->|]; intros E; try done.
  - rewrite <- E in *. by apply Hfr in Hy.
  - rewrite E in *. by apply Hfr in Hx.
Qed.

Lemma rep_ren ex bx k s us c ds dl d q r q' r' h' :
  rep ex bx k s us c ds dl d -> (q, r) ∈ us ++ c :: ds -> txt r' = txt r ->
  (q' = q \/ heap s !! q' = None) ->
  dseg h' None (map (ren q q' r') (us ++ c :: ds)) None ->
  (forall p, p ∉ ptrs (map (ren q q' r') (us ++ c :: ds)) -> h' !! p = delete q (heap s) !! p) ->
  rep ex bx k (set_heap h' (move_ptrs (Some q) (Some q') s))
    (map (ren q q' r') us) (ren q q' r' c) (map (ren q q' r') ds) dl d.
Proof.
  intros R Hin Et Hq' Hs Hf. set (f := ren q q' r') in *.
  assert (Hqin : q ∈ ptrs (us ++ c :: ds)).
  { apply list_elem_of_In, in_map_iff. exists (q, r). split; [done|]. by apply list_elem_of_In. }
  assert (El : map f us ++ f c :: map f ds = map f (us ++ c :: ds)) by (by rewrite map_app).
  assert (Ep : ptrs (map f (us ++ c :: ds)) = map (rn q q') (ptrs (us ++ c :: ds))) by apply ren_ptrs.
  assert (Hq'd : forall p rd, dl = Some (p, rd) -> p ∉ map (rn q q') (ptrs (us ++ c :: ds))).
  { intros p rd ->. destruct (rp_del R) as (_ & Hp & Hn & _). by apply (rn_other (heap s)). }
  assert (Hq'x : forall p t, ex = Some (p, t) -> p ∉ map (rn q q') (ptrs (us ++ c :: ds))).
  { intros p t ->. destruct (rp_ex R) as (Hp & Hn & _). by apply (rn_other (heap s)). }
  assert (Ht : texts (map f (us ++ c :: ds)) = texts (us ++ c :: ds)).
  { apply texts_ren with r; try done. by destruct R. }
  assert (Htc : texts (map f us) = texts us /\ txt (f c).2 = txt c.2 /\ texts (map f ds) = texts ds).
  { rewrite map_app, !texts_app in Ht. cbn [map] in Ht.
    apply app_inj_1 in Ht as [Hu Ht]; [|unfold texts; by rewrite !length_map]. injection Ht as Hc Hd. done. }
  destruct Htc as (Htu & Htc & Htd).
  destruct R. constructor; rewrite ?El, ?Ep; cbn; rewrite ?zlen_map; try done.
  - by apply (rn_nodup (heap s)).
  - apply List.Forall_forall. intros x Hx. apply in_map_iff in Hx as (y & <- & Hy).
    unfold rows_ok in rp_rows0. rewrite List.Forall_forall in rp_rows0. unfold f, ren.
    destruct (decide _); [|by apply rp_rows0]. cbn. unfold row_ok. rewrite Et.
    apply (rp_rows0 (q, r)). by apply list_elem_of_In.
  - unfold del_rep in *. destruct dl as [[p rd]|]; [|done]. cbn. destruct rp_del0 as (? & ? & ? & ?).
    split_and!; try done; [|by apply (Hq'd p rd)].
    rewrite Hf; [|rewrite Ep; by apply (Hq'd p rd)]. rewrite lookup_delete_ne; [done|]. intros <-. done.
  - unfold ex_rep in *. destruct ex as [[p t]|]; [|done]. cbn. destruct rp_ex0 as (? & ? & ?).
    split_and!; try done; [|by apply (Hq'x p t)].
    rewrite Hf; [|rewrite Ep; by apply (Hq'x p t)]. rewrite lookup_delete_ne; [done|]. intros <-. done.
  - intros p t Hp. destruct (decide (p ∈ map (rn q q') (ptrs (us ++ c :: ds)))) as [|Hn]; [by left|].
    right. rewrite Hf in Hp by (by rewrite Ep). destruct (decide (p = q)) as [->|Hne]; [by rewrite lookup_delete_eq in Hp|].
    rewrite lookup_delete_ne in Hp by done. destruct (rp_dom0 _ _ Hp) as [Hi|]; [|done].
    exfalso. apply Hn. replace p with (rn q q' p); [by apply rn_in|]. unfold rn. by destruct (decide (p = q)).
  - rewrite rp_first0, !head_ptr_ptrs, moved_lookup. by rewrite Ep.
  - rewrite rp_last0, !last_ptr_lookup, moved_lookup, Ep, length_map. done.
  - rewrite rp_cur0, moved_some. unfold f, ren, rn. by destruct (decide _).
  - rewrite rp_top0. apply moved_lookup.
  - intros p. destruct (oldcurrline s) as [o|] eqn:Eo.
    + rewrite moved_some. intros [= <-]. by apply rn_in, rp_old0.
    + unfold moved. by case_bool_decide.
  - unfold blk_rep in *. destruct (blk d) as [i|]; cbn.
    + destruct rp_blk0 as (? & ? & o & -> & Ho & Hx). split_and!; try done. exists (rn q q' o).
      rewrite moved_some. split_and!; [done|by apply rn_in|]. intros Hb. rewrite list_lookup_fmap, Hx; done.
    + destruct rp_blk0 as [? ->]. split; [done|]. unfold moved. by case_bool_decide.
  - by rewrite Htu.
  - by rewrite Htc.
  - by rewrite Htd.
Qed.

(** The pointers to the block that was given back, in the lists and outside. *)
Lemma adjust_relink s a q r b q' r' :
  NoDup (ptrs (a ++ (q, r) :: b)) -> dseg (heap s) None (a ++ (q, r) :: b) None -> (q' = q \/ heap s !! q' = None) ->
  let h3 := <[q' := cell (last_ptr None a) (head_ptr b None) r']> (delete q (heap s)) in
  exists h', (if bool_decide (Some q = Some q') then Some (set_heap h3 s)
      else
        let s := move_ptrs (Some q) (Some q') (set_heap h3 s) in
        t ← get (Some q') s;
        s ← match prev t with Some _ => set_next (prev t) (Some q') s | None => Some s end;
        match next t with Some _ => set_prev (next t) (Some q') s | None => Some s end) =
      Some (set_heap h' (move_ptrs (Some q) (Some q') s)) /\
    dseg h' None (a ++ (q', r') :: b) None /\
    (forall p, p ∉ ptrs (a ++ (q', r') :: b) -> h' !! p = delete q (heap s) !! p).
Proof.
  intros Hnd Hs Hfr h3. apply dseg_mid in Hs as (Ha & Hc & Hb).
  case_bool_decide as Eq.
  - injection Eq as Eq. rewrite <- Eq. exists h3. rewrite move_ptrs_id. split; [done|].
    apply nodup_at in Hnd as (Hqa & Hqb & _).
    unfold h3. rewrite <- Eq. split.
    + apply dseg_mid. split_and!; [by apply dseg_insert, dseg_delete|by rewrite lookup_insert_eq|by apply dseg_insert, dseg_delete].
    + intros p Hp. apply lookup_insert_ne. intros <-. apply Hp. rewrite ptrs_app.
      apply list.elem_of_app. right. by left.
  - destruct Hfr as [Hfr|Hfr]; [exfalso; apply Eq; by rewrite Hfr|].
    assert (Hq' : q' ∉ ptrs (a ++ (q, r) :: b)).
    { intros Hi. apply list_elem_of_In, in_map_iff in Hi as ([z rz] & Ez & Hz%list_elem_of_In).
      apply list_elem_of_split in Hz as (a1 & b1 & Ez1). cbn in Ez. subst z.
      assert (Hs' : dseg (heap s) None (a ++ (q, r) :: b) None) by (by apply dseg_mid).
      rewrite (dseg_lookup _ _ _ _ _ _ _ _ Hs' Ez1) in Hfr. done. }
    set (sm := move_ptrs (Some q) (Some q') (set_heap h3 s)). cbn zeta. fold sm.
    destruct (relink_moved s sm a q r b q' r' Hnd Hq') as (h' & E' & Hs' & Hf'); [by apply dseg_mid|done|].
    exists h'. split; [|by split].
    replace (get (Some q') sm) with (Some (cell (last_ptr None a) (head_ptr b None) r'))
      by (symmetry; apply lookup_insert_eq).
    cbn [mbind option_bind cell prev next]. cbn [mbind option_bind] in E'. rewrite E'. done.
Qed.

Lemma adjustline_ok ex bx k s us c ds dl d q r n :
  rep ex bx k s us c ds dl d -> (q, r) ∈ us ++ c :: ds -> zlen (txt r) <= n ->
  exists s' q' r', adjustline (Some q) n s = Some (s', Some q') /\
    txt r' = txt r /\ zlen (txt r') + zlen (slack r') = n /\
    rep ex bx k s' (map (ren q q' r') us) (ren q q' r' c) (map (ren q q' r') ds) dl d.
Proof.
  intros R Hin Hn. pose proof (rp_nodup R) as Hnd.
  destruct (list_elem_of_split _ _ Hin) as (a & b & El).
  pose proof (rp_seg R) as Hs. rewrite El in Hs, Hnd.
  pose proof (dseg_lookup _ _ _ _ _ _ _ _ Hs eq_refl) as Hq.
  assert (Hok : row_ok r).
  { pose proof (rp_rows R) as Hr. rewrite El in Hr.
    apply list.Forall_app in Hr as [_ Hr]. by apply list.Forall_cons in Hr as [? _]. }
  unfold adjustline. rewrite (get_some _ _ _ Hq). cbn [mbind option_bind cell prev next len alloc_len data].
  unfold assert at 1. destruct Hok as [Hch Hl]. pose proof (zlen_nonneg (txt r)).
  replace ((0 <=? zlen (txt r)) && (zlen (txt r) <=? WRAPMARGIN)) with true by lia. cbn [mbind option_bind].
  rewrite bool_decide_eq_false_2; [|].
  2: { pose proof (rp_del R) as Hdl. unfold del_rep in Hdl. rewrite El in Hdl. destruct dl as [[p rp]|].
       - destruct Hdl as (-> & _ & Hp & _). intros [= ->]. apply Hp. rewrite ptrs_app. apply list.elem_of_app.
         right. by left.
       - by rewrite Hdl. }
  cbn [negb]. unfold assert at 1. cbn [mbind option_bind]. unfold assert at 1.
  replace (zlen (txt r) <=? n) with true by lia. cbn [mbind option_bind].
  case_if Ean.
  { exists s, q, r. split_and!; try done.
    assert (Hid : map (ren q q r) (us ++ c :: ds) = us ++ c :: ds) by (rewrite El; by apply ren_at).
    rewrite map_app in Hid. cbn [map] in Hid. apply app_inj_1 in Hid as [-> Hid]; [|by rewrite length_map].
    by injection Hid as -> ->. }
  destruct (realloc_cell _ _ _ n s q Hq Hn) as (y & sl & _ & Hsl & ->).
  set (r' := Row (txt r) sl). set (t1 := Textline _ _ _ _ (txt r ++ y :: sl)). cbn zeta.
  set (q' := if realloc_moves (heap s) q n then malloc_at (heap s) else q).
  assert (E0 : (if realloc_moves (heap s) q n
    then Some (set_heap (<[malloc_at (heap s):=t1]> (delete q (heap s))) s, Some (malloc_at (heap s)))
    else Some (set_heap (<[q:=t1]> (heap s)) s, Some q)) =
    Some (set_heap (<[q' := t1]> (delete q (heap s))) s, Some q')).
  { unfold q'. destruct (realloc_moves _ _ _); [done|]. by rewrite insert_delete_eq. }
  rewrite E0. clear E0. cbn [mbind option_bind].
  assert (Hfr : q' = q \/ heap s !! q' = None).
  { unfold q'. destruct (realloc_moves _ _ _); [right; apply malloc_fresh|by left]. }
  assert (Ew : mem_write (txt r ++ y :: sl) (zlen (txt r)) [0] = Some (txt r ++ 0 :: sl)) by (by apply mem_write_one).
  unfold t1. do 2 cell_step.
  assert (Et3 : Textline (last_ptr None a) (head_ptr b None) (zlen (txt r)) n (txt r ++ 0 :: sl) =
                cell (last_ptr None a) (head_ptr b None) r').
  { unfold cell, r'. cbn [txt slack]. f_equal. lia. }
  rewrite Et3. set (h3 := <[q' := cell _ _ r']> (delete q (heap s))).
  assert (Els : map (ren q q' r') (us ++ c :: ds) = a ++ (q', r') :: b) by (rewrite El; by apply ren_at).
  destruct (adjust_relink s a q r b q' r' Hnd Hs Hfr) as (h' & E & Hs' & Hf'). fold h3 in E. cbn zeta in E. rewrite E. clear E. cbn [mbind option_bind].
  pose proof (rep_ren ex bx k s us c ds dl d q r q' r' h' R Hin eq_refl Hfr) as R'.
  rewrite Els in R'. specialize (R' Hs' Hf').
  eexists _, q', r'. split; [reflexivity|]. split_and!; [done|cbn; lia|].
  case_if Eold; [|done].
  destruct R'. constructor; try done. cbn [oldcurrline set_oldcurrline]. intros p Ep.
  rewrite rp_cur0 in Ep. injection Ep as <-.
  rewrite ptrs_app. apply list.elem_of_app. right. by left.
Qed.

End Libc.
(** *** What depends on the heap alone *)

Section HeapOnly.
Context `{LibcOk}.

(** An assignment through a pointer does the same to every state with the same heap. *)
Definition onto (s0 : editor) (x : editor) : editor := set_heap (heap x) s0.

Lemma get_heap s s0 p : heap s0 = heap s -> get p s0 = get p s.
Proof. intros E. unfold get. by rewrite E. Qed.
Lemma put_heap s s0 p t : heap s0 = heap s -> put p t s0 = onto s0 <$> put p t s.
Proof. intros E. unfold put, onto. rewrite E. destruct p as [q|]; [|done]. cbn. by destruct (heap s !! q). Qed.
Lemma set_next_heap s s0 p q : heap s0 = heap s -> set_next p q s0 = onto s0 <$> set_next p q s.
Proof. intros E. unfold set_next. rewrite (get_heap s) by done. destruct (get p s); [|done]. by apply put_heap. Qed.
Lemma set_prev_heap s s0 p q : heap s0 = heap s -> set_prev p q s0 = onto s0 <$> set_prev p q s.
Proof. intros E. unfold set_prev. rewrite (get_heap s) by done. destruct (get p s); [|done]. by apply put_heap. Qed.
Lemma set_alloc_len_heap s s0 p n : heap s0 = heap s -> set_alloc_len p n s0 = onto s0 <$> set_alloc_len p n s.
Proof. intros E. unfold set_alloc_len. rewrite (get_heap s) by done. destruct (get p s); [|done]. by apply put_heap. Qed.
Lemma upd_data_heap s s0 p f : heap s0 = heap s -> upd_data p f s0 = onto s0 <$> upd_data p f s.
Proof.
  intros E. unfold upd_data. rewrite (get_heap s) by done. destruct (get p s) as [t|]; [|done]. cbn [mbind option_bind].
  destruct (f (data t)); [|done]. by apply put_heap.
Qed.
Lemma realloc_heap s s0 p n : heap s0 = heap s -> realloc_line p n s0 = (fun x => (onto s0 x.1, x.2)) <$> realloc_line p n s.
Proof.
  intros E. unfold realloc_line, fill. rewrite E. destruct p as [q|]; [|done]. cbn [mbind option_bind].
  destruct (heap s !! q); [|done]. cbn [mbind option_bind]. cbv zeta. by destruct (realloc_moves _ _ _).
Qed.

(** [adjustline] in two states with the same lines. *)
Lemma adjust_heap s s0 s1 p n q : adjustline p n s = Some (s1, q) -> n <> WRAPMARGIN ->
  heap s0 = heap s -> deleted_line s0 = deleted_line s ->
  adjustline p n s0 = Some (set_heap (heap s1) (move_ptrs p q s0), q).
Proof.
  intros Ea Hn Eh Ed. destruct p as [p|]; [|done]. unfold adjustline in *. rewrite (get_heap s), Ed by done. destruct (get (Some p) s) as [t|]; [|done].
  cbn [mbind option_bind] in *. destruct (assert ((0 <=? len t) && _)); [|done]. cbn [mbind option_bind] in *.
  destruct (assert (negb _)); [|done]. cbn [mbind option_bind] in *. destruct (assert (len t <=? n)); [|done]. cbn [mbind option_bind] in *.
  destruct (alloc_len t =? n).
  { injection Ea as <- <-. do 2 f_equal. rewrite move_ptrs_id, <- Eh. symmetry. apply set_heap_id. }
  rewrite (realloc_heap s) by done. destruct (realloc_line (Some p) n s) as [[s2 q2]|]; [|done]. cbn [fmap option_fmap option_map mbind option_bind fst snd] in *.
  rewrite (set_alloc_len_heap s2) by done. destruct (set_alloc_len q2 n s2) as [s3|]; [|done]. cbn [fmap option_fmap option_map mbind option_bind] in *.
  rewrite (upd_data_heap s3) by done. destruct (upd_data q2 _ s3) as [s4|]; [|done]. cbn [fmap option_fmap option_map mbind option_bind] in *.
  assert (HnW : (n =? WRAPMARGIN) = false) by (by apply Z.eqb_neq).
  case_bool_decide as Epq.
  - subst q2. cbn [mbind option_bind] in *. rewrite HnW, andb_false_r in Ea |- *. injection Ea as <- <-. do 2 f_equal.
    by rewrite move_ptrs_id.
  - change (get q2 (move_ptrs (Some p) q2 s4)) with (get q2 s4) in Ea.
    match goal with |- context [get q2 ?X] => change (get q2 X) with (get q2 s4) end.
    destruct (get q2 s4) as [w|]; [|done]. cbn [mbind option_bind] in *.
    set (X := move_ptrs (Some p) q2 _) in *. set (X0 := move_ptrs (Some p) q2 _) in |- *.
    assert (HX : heap X0 = heap X) by done.
    assert (HA : (match prev w with Some _ => set_next (prev w) q2 X0 | None => Some X0 end) =
      onto X0 <$> (match prev w with Some _ => set_next (prev w) q2 X | None => Some X end)).
    { destruct (prev w); [by apply set_next_heap|]. cbn. unfold onto. rewrite <- HX, set_heap_id. done. }
    rewrite HA. clear HA. destruct (match prev w with Some _ => set_next (prev w) q2 X | None => Some X end) as [Y|] eqn:EY; [|done].
    cbn [fmap option_fmap option_map mbind option_bind] in *.
    assert (HB : (match next w with Some _ => set_prev (next w) q2 (onto X0 Y) | None => Some (onto X0 Y) end) =
      onto (onto X0 Y) <$> (match next w with Some _ => set_prev (next w) q2 Y | None => Some Y end)).
    { destruct (next w); [by apply set_prev_heap|]. done. }
    rewrite HB. clear HB. destruct (match next w with Some _ => set_prev (next w) q2 Y | None => Some Y end) as [V|]; [|done].
    cbn [fmap option_fmap option_map mbind option_bind] in *. rewrite HnW, andb_false_r in Ea |- *. by injection Ea as <- <-.
Qed.
End HeapOnly.

End EditRep.
