(* ===== verification/EditPos.v ===== *)
(** Positions and columns in a line of [Edit]: the loops end, inside the line. *)

From stdpp Require Import gmap.
From S2P Require Import Prelude Cstr Str StrProps Utf8 Utf8Props Mbs MbsProps Edit EditText.

#[global] Open Scope Z_scope.
#[global] Open Scope list_scope.

Module EditPos.
Import Cstr Str Mbs MbsProps Edit EditText.

(** A character is at most four bytes, none of them a control or a space. *)
Class MbShort (C : Type) `{MbLaws C} : Prop :=
  mb_char_short w : mb_char w -> zlen w <= 4 /\ Forall (fun b => 64 <= b) w.

#[global] Instance big5_short : MbShort Utf8.big5_ctx.
Proof.
  intros w (l & t & -> & Hl & Ht). split; [by vm_compute|]. repeat constructor; lia.
Qed.

Lemma penc_high n k v : 2 <= n -> 0 <= v -> Forall (fun b => 64 <= b) (Utf8Props.penc n k v).
Proof.
  intros Hn. revert v. induction k as [|k IH]; intros v Hv; [by constructor|].
  destruct k; [|change (Utf8Props.penc n (S (S k)) v) with (Utf8Props.penc n (S k) (v / 64) ++ [128 + v mod 64])].
  - constructor; [|done]. unfold Utf8Props.lead_base. split_ifs.
  - apply list.Forall_app. split; [apply IH; apply Z.div_pos; lia|]. constructor; [|done].
    pose proof (Z.mod_pos_bound v 64). lia.
Qed.

#[global] Instance utf8_short : MbShort Utf8.utf8_ctx.
Proof.
  intros w (u & Hs & Hu & ->). destruct (Utf8Props.enc_bytes u Hs) as (_ & Hl & _). split.
  - rewrite Hl. unfold Utf8Props.enc_len. split_ifs.
  - destruct Hs as [Hs _]. unfold Utf8Props.enc. replace (u <? 0x80) with false by lia. apply penc_high; [|lia].
    unfold Utf8Props.enc_len. replace (u <? 0x80) with false by lia. split_ifs.
Qed.

Lemma chars_first t : text_chars t -> t <> [] -> (cchar t 0 =? 0) = false.
Proof. intros Ht Hn. destruct Ht as [|x t [_ Hx] _]; [done|]. rewrite cchar_0. lia. Qed.

Lemma chars_drop n t : text_chars t -> text_chars (drop n t).
Proof. apply Forall_drop. Qed.
Lemma chars_take n t : text_chars t -> text_chars (take n t).
Proof. apply Forall_take. Qed.

Section Pos.
Context {C : Type} `{MbShort C}.
Variable wc : Z -> Z.
Hypothesis wc_le : forall u, wc u <= 2.

(** The bytes of the character [char_loop] completes. *)
Lemma char_loop_at p : forall c r,
  mb_ok c -> Forall is_u8 p -> char_loop c p = Some (Some r) ->
  exists n, (1 <= n <= length p)%nat /\ mb_len r = zlen (mb_held c ++ take n p) /\
    (zlen (mb_held c ++ take n p) = 1 \/ mb_char (mb_held c ++ take n p)).
Proof.
  induction p as [|x p IH]; intros c r Hc Hp E; [done|]. cbn [char_loop] in E.
  apply list.Forall_cons in Hp as [Hx Hp].
  destruct (mb_add_ok c x Hc Hx) as (c' & ready & Ea & Hr). rewrite Ea in E. cbn [mbind option_bind] in E.
  destruct ready.
  - injection E as <-. destruct Hr as (_ & Hl & Hch & _). exists 1%nat. cbn [take length].
    split; [lia|]. split; [done|]. destruct Hch as [[-> _]|Hch]; [by left|by right].
  - destruct Hr as [Hc' Hh]. destruct (mb_pending c' =? 0) eqn:Ep; [done|]. zbool.
    destruct (IH c' r Hc' Hp E) as (n & Hn & Hl & Hch).
    assert (Eh : mb_held c' = mb_held c ++ [x]).
    { destruct Hh as [Hh|Hh]; [done|]. exfalso. apply Ep. by apply mb_pending_held. }
    exists (S n). cbn [take length]. rewrite Eh, <- app_assoc in *. split; [lia|]. by split.
Qed.

Lemma mb_bytes_at t : text_chars t -> t <> [] ->
  exists w, Mbs.mb_bytes C t = Some w /\ 1 <= w <= zlen t /\ w <= 4 /\
    (w = 1 \/ Forall (fun b => 64 <= b) (take (Z.to_nat w) t)).
Proof.
  intros Ht Hn. unfold mb_bytes. rewrite chars_first by done.
  assert (Hz : 1 <= zlen t) by (destruct t; [done|zlia]).
  destruct mb_init_ok as (c & -> & Hc & Hh). cbn [mbind option_bind].
  assert (Hu : Forall is_u8 t) by (revert Ht; apply Forall_impl; by intros x []).
  destruct (char_loop_ok c t Hc Hu) as (r & Er & _). rewrite Er. cbn [mbind option_bind].
  destruct r as [r|]; [|exists 1; split_and!; done || lia || by left].
  destruct (char_loop_at t c r Hc Hu Er) as (n & Hl & El & Hch). rewrite Hh in *. cbn [app] in *.
  exists (mb_len r). rewrite El. split; [done|].
  assert (zlen (take n t) = Z.of_nat n) by (rewrite zlen_take; unfold zlen; lia).
  split; [rewrite zlen_take; unfold zlen in *; lia|].
  destruct Hch as [Hch|Hch]; [rewrite Hch; split; [lia|by left]|].
  apply mb_char_short in Hch as [Hs Hb]. split; [done|]. right.
  replace (Z.to_nat (zlen (take n t))) with n by lia. done.
Qed.

(** *** The cursor on a character *)

Lemma fix_loop_ok t pos fuel : forall n w,
  text_chars t -> 0 <= n <= zlen t -> (Z.to_nat (zlen t - n) < fuel)%nat ->
  exists np w', fix_loop (C := C) fuel (drop (Z.to_nat n) t) pos n w = Some (np, w') /\
    n <= np <= zlen t /\ (np < pos -> np = zlen t) /\
    (pos < np -> (np = n /\ w' = w) \/ (1 <= w' <= 4 /\ n <= np - w' < pos)) /\
    (n <= pos <= zlen t -> 0 < pos -> cchar t (pos - 1) = 32 -> np = pos).
Proof.
  induction fuel as [|fuel IH]; intros n w Ht Hn Hf; [lia|]. cbn [fix_loop].
  destruct (decide (n = zlen t)) as [->|Hne].
  { rewrite drop_ge by (unfold zlen; lia). cbn [negb andb]. rewrite cchar_nil. cbn [Z.eqb negb andb].
    exists (zlen t), w. split_and!; done || lia. }
  set (u := drop (Z.to_nat n) t).
  assert (Hu : text_chars u) by (by apply chars_drop).
  assert (Hun : u <> []).
  { unfold u. intros E. apply (f_equal zlen) in E. autorewrite with zlen in E. change (zlen []) with 0 in E. lia. }
  rewrite chars_first by done. cbn [negb andb]. case_if Ep.
  2: { exists n, w. split_and!; done || lia. }
  destruct (mb_bytes_at u Hu Hun) as (b & -> & Hb & Hb4 & Hsp). cbn [mbind option_bind].
  assert (Hzu : zlen u = zlen t - n) by (unfold u; zlia).
  assert (Ed : drop (Z.to_nat b) u = drop (Z.to_nat (n + b)) t).
  { unfold u. rewrite drop_drop. f_equal. lia. }
  rewrite Ed. destruct (IH (n + b) b Ht) as (np & w' & E & Hr & Hlt & Hgt & Hspc); [lia|lia|].
  exists np, w'. split; [done|]. split; [lia|]. split; [done|]. split.
  - intros Hp. right. destruct (Hgt Hp) as [[-> ->]|?]; lia.
  - intros Hnp Hp0 Hc. destruct (Z_le_gt_dec (n + b) pos) as [Hle|Hgt']; [apply Hspc; done || lia|].
    exfalso. destruct Hsp as [->|Hsp]; [lia|]. rewrite List.Forall_forall in Hsp.
    assert (Hin : In 32 (take (Z.to_nat b) u)); [|by apply Hsp in Hin].
    apply list_elem_of_In, list_elem_of_lookup. exists (Z.to_nat (pos - 1 - n)).
    rewrite lookup_take_lt by lia. unfold u. rewrite lookup_drop. revert Hc. unfold cchar, zget.
    replace (0 <=? pos - 1) with true by lia.
    replace (Z.to_nat n + Z.to_nat (pos - 1 - n))%nat with (Z.to_nat (pos - 1)) by lia.
    destruct (t !! Z.to_nat (pos - 1)); cbn; congruence.
Qed.

Lemma fix_cursor_ok t pos dir :
  text_chars t -> 0 <= pos ->
  exists v, fix_cursor (C := C) t pos dir = Some v /\ 0 <= v <= zlen t /\
    (dir = FC_LEFT -> v <= pos /\ (pos <= zlen t -> pos - 3 <= v)) /\
    (pos <= zlen t -> 0 < pos -> cchar t (pos - 1) = 32 -> v = pos).
Proof.
  intros Ht Hp. unfold fix_cursor, assert. replace (0 <=? pos) with true by lia. cbn [mbind option_bind].
  pose proof (zlen_nonneg t).
  destruct (fix_loop_ok t pos (S (length t)) 0 0 Ht) as (np & w & E & Hr & Hlt & Hgt & Hsp); [lia|unfold zlen; lia|].
  rewrite drop_0 in E. rewrite E. cbn [mbind option_bind]. eexists. split; [reflexivity|]. destruct dir.
  - split_and!; try done || lia. all: intros; apply Hsp; done || lia.
  - case_if Ep.
    + assert (np - w < pos /\ 0 <= np - w /\ 1 <= w <= 4) by lia.
      split_and!; try done || lia. all: intros; rewrite Hsp in Ep by (done || lia); lia.
    + split_and!; try done || lia. all: intros; apply Hsp; done || lia.
Qed.

Lemma fixp_ok t pos dir : text_chars t -> 0 <= pos ->
  fix_cursor t pos dir = Some (fixp (C := C) t pos dir) /\ 0 <= fixp (C := C) t pos dir <= zlen t.
Proof.
  intros Ht Hp. destruct (fix_cursor_ok t pos dir Ht Hp) as (v & E & Hv & _). unfold fixp. by rewrite E.
Qed.

Lemma fixp_left t pos : text_chars t -> 0 <= pos ->
  fixp (C := C) t pos FC_LEFT <= pos /\ (pos <= zlen t -> pos - 3 <= fixp (C := C) t pos FC_LEFT).
Proof.
  intros Ht Hp. destruct (fix_cursor_ok t pos FC_LEFT Ht Hp) as (v & E & Hv & Hl & _). unfold fixp. rewrite E. by apply Hl.
Qed.

Lemma fixp_space t pos dir : text_chars t -> 0 < pos <= zlen t -> cchar t (pos - 1) = 32 ->
  fixp (C := C) t pos dir = pos.
Proof.
  intros Ht Hp Hc. destruct (fix_cursor_ok t pos dir Ht) as (v & E & _ & _ & Hs); [lia|]. unfold fixp. rewrite E.
  apply Hs; done || lia.
Qed.

(** *** Columns *)

Lemma mb_width_at t : text_chars t -> exists w, Mbs.mb_width (C := C) wc t = Some w /\ 0 <= w <= 2.
Proof.
  intros Ht. assert (Hu : Forall is_u8 t) by (revert Ht; apply Forall_impl; by intros x []).
  assert (Hch : forall ch, 0 <= mb_char_width wc ch <= 2).
  { intros ch. pose proof (wc_le ch). unfold mb_char_width, ucs_width. cbn zeta. split_ifs; lia. }
  unfold Mbs.mb_width. cbn zeta. case_if E1; [by exists 0|]. case_if E2; [eexists; split; [done|]; split_ifs|].
  case_if E3; [by exists 2|].
  destruct mb_init_ok as (c & -> & Hok & _). cbn [mbind option_bind].
  destruct (char_loop_ok c t Hok Hu) as (r & -> & _). cbn [mbind option_bind].
  destruct r as [c'|]; eexists; (split; [done|]); [apply Hch|lia].
Qed.

Lemma esc_len_at t : cchar t 0 = ESC_CHR -> (1 <= esc_len t <= length t)%nat.
Proof.
  destruct t as [|x t]; [done|]. rewrite cchar_0. intros ->. unfold esc_len.
  assert (Hr : forall f l, (run_len f l <= length l)%nat).
  { intros f l. induction l as [|y l IH]; cbn; [lia|]. destruct (f y); lia. }
  pose proof (Hr (fun c => negb (isalpha c)) (ESC_CHR :: t)) as Hl.
  assert (1 <= run_len (fun c => negb (isalpha c)) (ESC_CHR :: t))%nat by (cbn; lia).
  destruct (Nat.ltb_spec (run_len (fun c => negb (isalpha c)) (ESC_CHR :: t)) (length (ESC_CHR :: t))); lia.
Qed.

Lemma col_to_pos_ok m strip fuel : forall t col n,
  text_chars t -> (length t < fuel)%nat ->
  exists v, col_to_pos (C := C) wc m strip fuel t col n = Some v /\ n <= v <= n + zlen t.
Proof.
  induction fuel as [|fuel IH]; intros t col n Ht Hf; [lia|]. cbn [col_to_pos].
  destruct (decide (t = [])) as [->|Hn]; [rewrite cchar_nil; exists n; split; [done|]; change (zlen []) with 0; lia|].
  rewrite chars_first by done. pose proof (zlen_nonneg t). destruct (strip && (cchar t 0 =? ESC_CHR)) eqn:Ee.
  - zbool. destruct (esc_len_at t) as [E1 E2]; [done|].
    destruct (IH (drop (esc_len t) t) col (n + Z.of_nat (esc_len t))) as (v & -> & Hv); [by apply chars_drop|rewrite length_drop; lia|].
    exists v. split; [done|]. revert Hv. rewrite zlen_drop. unfold zlen in *. lia.
  - clear Ee. case_if E0; [exists n; split; [done|lia]|].
    destruct (mb_bytes_at t Ht Hn) as (w & -> & Hw & _). destruct (mb_width_at t Ht) as (cw & -> & Hcw).
    cbn [mbind option_bind]. set (cw' := if _ : bool then 1 else cw). assert (cw' <= 2) by (unfold cw'; split_ifs).
    case_if E1.
    + eexists. split; [reflexivity|]. assert (1 <= zlen t) by lia. destruct m; cbn; lia.
    + destruct (IH (drop (Z.to_nat w) t) (col - cw') (n + w)) as (v & -> & Hv); [by apply chars_drop|rewrite length_drop; unfold zlen in *; lia|].
      exists v. split; [done|]. revert Hv. rewrite zlen_drop. lia.
Qed.

Lemma pos_of_ok d t col strip : text_chars t ->
  col_to_pos (C := C) wc (mbcs d) strip (S (length t)) t col 0 = Some (pos_of (C := C) wc d t col strip) /\
  0 <= pos_of (C := C) wc d t col strip <= zlen t.
Proof.
  intros Ht. destruct (col_to_pos_ok (mbcs d) strip (S (length t)) t col 0 Ht) as (v & E & Hv); [lia|].
  unfold pos_of. rewrite E. cbn [default from_option id]. split; [done|lia].
Qed.

Lemma pos_to_col_ok strip fuel : forall t n col,
  text_chars t -> (length t < fuel)%nat -> exists v, pos_to_col (C := C) wc strip fuel t n col = Some v.
Proof.
  induction fuel as [|fuel IH]; intros t n col Ht Hf; [lia|]. cbn [pos_to_col].
  destruct (decide (t = [])) as [->|Hn]; [by eexists|].
  rewrite chars_first by done. destruct (strip && (cchar t 0 =? ESC_CHR)) eqn:Ee.
  - zbool. destruct (esc_len_at t) as [E1 E2]; [done|].
    apply IH; [by apply chars_drop|rewrite length_drop; lia].
  - case_if E0; [by eexists|].
    destruct (mb_bytes_at t Ht Hn) as (w & -> & Hw & _). destruct (mb_width_at t Ht) as (cw & -> & Hcw).
    cbn [mbind option_bind]. case_match; [by eexists|].
    apply IH; [by apply chars_drop|rewrite length_drop; unfold zlen in *; lia].
Qed.

Lemma col_of_ok t n strip : text_chars t ->
  pos_to_col (C := C) wc strip (S (length t)) t n 0 = Some (col_of (C := C) wc t n strip).
Proof.
  intros Ht. destruct (pos_to_col_ok strip (S (length t)) t n 0 Ht) as (v & E); [lia|].
  unfold col_of. by rewrite E.
Qed.

Lemma width_loop_ok fuel : forall t n w,
  text_chars t -> (length t < fuel)%nat -> exists v, width_loop (C := C) wc fuel t n w = Some v.
Proof.
  induction fuel as [|fuel IH]; intros t n w Ht Hf; [lia|]. cbn [width_loop].
  destruct (decide (t = [])) as [->|Hn]; [rewrite cchar_nil, orb_true_r; by eexists|].
  rewrite chars_first by done. rewrite orb_false_r. case_if E0; [by eexists|].
  assert (Hsk : forall k, (1 <= k)%nat -> (length (drop k t) < fuel)%nat).
  { intros k Hk. rewrite length_drop. destruct t; [done|]. cbn in *. lia. }
  case_if E1.
  - apply IH; [by apply chars_drop|]. apply Hsk. apply StrProps.skip_len_pos.
  - destruct (mb_bytes_at t Ht Hn) as (b & -> & Hb & _). destruct (mb_width_at t Ht) as (cw & -> & _).
    cbn [mbind option_bind]. case_if Eu; [apply IH; [by apply chars_drop|apply Hsk; lia]|].
    case_if Eb; [by eexists|]. apply IH; [by apply chars_drop|apply Hsk; lia].
Qed.

Lemma width_of_ok t n : text_chars t ->
  Mbs.stream_width_n (C := C) wc t n = Some (width_of (C := C) wc t n).
Proof.
  intros Ht. unfold width_of, Mbs.stream_width_n. case_if E; [done|].
  destruct (width_loop_ok (S (length t)) t n 0 Ht) as (v & E'); [lia|]. by rewrite E'.
Qed.

Lemma bytes_of_ok t : text_chars t -> t <> [] ->
  Mbs.mb_bytes C t = Some (bytes_of (C := C) t) /\ 1 <= bytes_of (C := C) t <= zlen t /\ bytes_of (C := C) t <= 4.
Proof.
  intros Ht Hn. destruct (mb_bytes_at t Ht Hn) as (w & E & Hw & H4 & _). unfold bytes_of. by rewrite E.
Qed.

Lemma char_width_ok t : text_chars t -> Mbs.mb_width (C := C) wc t = Some (char_width (C := C) wc t).
Proof. intros Ht. destruct (mb_width_at t Ht) as (w & E & _). unfold char_width. by rewrite E. Qed.
End Pos.

(** *** Words *)

Lemma back_while_ok f (t r : list Z) n : (n < length t)%nat ->
  exists m, back_while f (t ++ r) n = Some m /\ back_while f t n = Some m /\ (m <= n)%nat /\
    (m = 0%nat \/ exists x, t !! m = Some x /\ f x = false).
Proof.
  induction n as [|n IH]; intros Hn; cbn [back_while]; [exists 0%nat; split_and!; done || lia || by left|].
  rewrite lookup_app_l by done. destruct (lookup_lt_is_Some_2 t (S n) Hn) as [x Ex]. rewrite Ex.
  cbn [mbind option_bind]. destruct (f x) eqn:Ef.
  - destruct IH as (m & -> & -> & Hm & Hx); [lia|]. exists m. split_and!; done || lia.
  - exists (S n). split_and!; try done. right. by exists x.
Qed.

Lemma wrap_of_ok (t r : list Z) i : 0 <= i < zlen t ->
  wrap_point (t ++ r) i = Some (wrap_of t i) /\ 0 <= wrap_of t i <= i /\
  (wrap_of t i <> 0 -> wrap_of t i < i /\ cchar t (wrap_of t i) = 32).
Proof.
  intros Hi. unfold wrap_of, wrap_point, assert. replace (0 <=? i) with true by lia. cbn [mbind option_bind].
  destruct (back_while_ok (Z.eqb 32) t r (Z.to_nat i)) as (m & -> & -> & Hm & Hx); [unfold zlen in *; lia|].
  cbn [mbind option_bind].
  destruct (back_while_ok (fun c => negb (c =? 32)) t r m) as (k & -> & -> & Hk & Hy); [unfold zlen in *; lia|].
  cbn [mbind option_bind default from_option id]. split; [done|]. split; [lia|]. intros H0.
  destruct Hy as [->|(y & Ey & Hy)]; [done|]. zbool. subst y. unfold cchar, zget.
  replace (0 <=? Z.of_nat k) with true by lia. rewrite Nat2Z.id, Ey. split; [|done].
  destruct (decide (k = m)) as [->|]; [|lia]. destruct Hx as [->|(x & Ex & Hx)]; [done|].
  rewrite Ey in Ex. injection Ex as <-. done.
Qed.

End EditPos.
