(* ===== verification/EditList.v ===== *)
(** The operations of [Edit] on the list of lines, over [rep]: lines that are
    allocated, linked in and taken out, and the window. *)

From stdpp Require Import gmap.
From S2P Require Import Prelude Cstr Str Mbs MbsProps Edit EditText EditHeap EditRep.

#[global] Open Scope Z_scope.
#[global] Open Scope list_scope.

Module EditList.
Import Cstr MbsProps Edit EditText EditHeap EditRep.

Lemma in_mid (a : list ptr) p b : p ∈ a ++ p :: b.
Proof. apply list.elem_of_app. right. by left. Qed.

Lemma ptrs_mid (a : list node) p (r : lrow) b : p ∈ ptrs (a ++ (p, r) :: b).
Proof. rewrite ptrs_app. apply in_mid. Qed.

Section Ops.
Context `{LibcOk}.
Implicit Types (us ds a b : list node) (c : node) (dl : option node) (d : doc) (k : Z).

(** *** A block of its own *)

Lemma fill_len s n : 0 <= n -> zlen (0 :: fill s n) = n + 1.
Proof. intros Hn. unfold fill. rewrite zlen_cons, zlen_map. unfold zlen. rewrite length_seqZ. lia. Qed.

Lemma rep_alloc bx k s us c ds dl d n :
  rep None bx k s us c ds dl d ->
  let p := malloc_at (heap s) in
  let t := Textline None None 0 n (0 :: fill s n) in
  alloc_line n s = (set_heap (<[p := t]> (heap s)) s, Some p) /\
  rep (Some (p, t)) bx k (set_heap (<[p := t]> (heap s)) s) us c ds dl d.
Proof.
  intros R p t. split; [done|].
  assert (Hp : heap s !! p = None) by apply malloc_fresh.
  assert (Hps : p ∉ ptrs (us ++ c :: ds)).
  { intros Hi. apply list_elem_of_In, in_map_iff in Hi as ([z rz] & <- & Hz%list_elem_of_In).
    apply list_elem_of_split in Hz as (a & b & Ez). cbn in Hp.
    by rewrite (dseg_lookup _ _ _ _ _ _ _ _ (rp_seg R) Ez) in Hp. }
  destruct R. constructor; cbn; try done.
  - by apply dseg_insert.
  - unfold del_rep in *. destruct dl as [[q r]|]; [|done]. destruct rp_del0 as (? & Hq & ? & ?). cbn.
    split_and!; try done. rewrite lookup_insert_ne; [done|]. intros <-. congruence.
  - rewrite lookup_insert_eq. split_and!; [done|done|]. intros [r ->]. cbn in rp_del0.
    destruct rp_del0 as (_ & Hq & _). congruence.
  - intros q t'. destruct (decide (q = p)) as [->|Hne].
    + intros _. right. right. by eexists.
    + rewrite lookup_insert_ne by done. intros Hq. destruct (rp_dom0 _ _ Hq) as [|[|[? ?]]]; [by left|right; by left|done].
Qed.

Lemma rep_ex_put t t' p bx k s us c ds dl d :
  rep (Some (p, t)) bx k s us c ds dl d ->
  rep (Some (p, t')) bx k (set_heap (<[p := t']> (heap s)) s) us c ds dl d.
Proof.
  intros R. destruct R. cbn in rp_ex0. destruct rp_ex0 as (Hp & Hn & Hdl). constructor; cbn; try done.
  - by apply dseg_insert.
  - unfold del_rep in *. destruct dl as [[q r]|]; [|done]. destruct rp_del0 as (? & Hq & ? & ?). cbn.
    split_and!; try done. rewrite lookup_insert_ne; [done|]. intros <-. apply Hdl. by exists r.
  - by rewrite lookup_insert_eq.
  - intros q t''. destruct (decide (q = p)) as [->|Hne].
    + intros _. right. right. by eexists.
    + rewrite lookup_insert_ne by done. intros Hq.
      destruct (rp_dom0 _ _ Hq) as [|[|[? [= ]]]]; [by left|right; by left|congruence].
Qed.

Lemma rep_ex_get p t bx k s us c ds dl d :
  rep (Some (p, t)) bx k s us c ds dl d -> heap s !! p = Some t /\ p ∉ ptrs (us ++ c :: ds).
Proof. intros R. destruct R. by destruct rp_ex0 as (? & ? & _). Qed.

(** *** The lines by number *)

Definition prev_ix (ps : list ptr) (i : nat) : option ptr := match i with O => None | S j => ps !! j end.

Lemma node_at ex bx k s us c ds dl d i q :
  rep ex bx k s us c ds dl d -> ptrs (us ++ c :: ds) !! i = Some q ->
  exists r, (us ++ c :: ds) !! i = Some (q, r) /\ row_ok r /\
    heap s !! q = Some (cell (prev_ix (ptrs (us ++ c :: ds)) i) (ptrs (us ++ c :: ds) !! S i) r).
Proof.
  intros R Hq. unfold ptrs in Hq. rewrite list_lookup_fmap in Hq.
  destruct ((us ++ c :: ds) !! i) as [[q' r]|] eqn:E; [|done]. injection Hq as ->. exists r.
  pose proof (rp_rows R) as Hr. pose proof (rp_seg R) as Hs.
  set (ls := us ++ c :: ds) in *. split; [done|]. split; [by apply (list.Forall_lookup_1 _ _ _ _ Hr E)|].
  apply list_elem_of_split_length in E as (a & b & El & ->).
  rewrite (dseg_lookup _ _ _ _ _ _ _ _ Hs El). f_equal.
  assert (E1 : last_ptr None a = prev_ix (ptrs ls) (length a)).
  { rewrite last_ptr_lookup, El, ptrs_app. destruct a as [|x a]; [done|]. cbn [length prev_ix Nat.pred].
    rewrite lookup_app_l; [done|]. unfold ptrs. rewrite length_map. cbn. lia. }
  assert (E2 : head_ptr b None = ptrs ls !! S (length a)).
  { rewrite head_ptr_ptrs, El, ptrs_app. rewrite lookup_app_r by (unfold ptrs; rewrite length_map; lia).
    unfold ptrs. rewrite length_map. by replace (S (length a) - length a)%nat with 1%nat by lia. }
  by rewrite E1, E2.
Qed.

Lemma ptr_cur us c ds : ptrs (us ++ c :: ds) !! length us = Some c.1.
Proof.
  rewrite ptrs_app. apply list_lookup_middle. unfold ptrs. by rewrite length_map.
Qed.

Lemma ptrs_length (ls : list node) : length (ptrs ls) = length ls.
Proof. unfold ptrs. by rewrite length_map. Qed.

Lemma walk_prev ex bx k s us c ds dl d n : forall i,
  rep ex bx k s us c ds dl d -> (i < length (us ++ c :: ds))%nat ->
  walk_line prev n (ptrs (us ++ c :: ds) !! i) s =
  Some (ptrs (us ++ c :: ds) !! (i - n)%nat, Z.of_nat (Nat.min n i)).
Proof.
  induction n as [|n IH]; intros i R Hi; cbn [walk_line].
  { rewrite Nat.sub_0_r. by destruct (_ !! i). }
  destruct (ptrs (us ++ c :: ds) !! i) as [q|] eqn:E.
  2: { apply lookup_ge_None in E. rewrite ptrs_length in E. lia. }
  destruct (node_at _ _ _ _ _ _ _ _ _ _ _ R E) as (r & _ & _ & Hq). rewrite (get_some _ _ _ Hq).
  cbn [mbind option_bind cell prev]. destruct i as [|i]; cbn [prev_ix].
  { replace (0 - S n)%nat with 0%nat by lia. by rewrite E. }
  destruct (ptrs (us ++ c :: ds) !! i) as [q'|] eqn:E'.
  2: { apply lookup_ge_None in E'. rewrite ptrs_length in E'. lia. }
  rewrite <- E', IH by (done || lia). cbn [mbind option_bind]. do 2 f_equal. lia.
Qed.

Lemma walk_next ex bx k s us c ds dl d n : forall i,
  rep ex bx k s us c ds dl d -> (i < length (us ++ c :: ds))%nat ->
  walk_line next n (ptrs (us ++ c :: ds) !! i) s =
  Some (ptrs (us ++ c :: ds) !! Nat.min (i + n) (length (us ++ c :: ds) - 1),
        Z.of_nat (Nat.min n (length (us ++ c :: ds) - 1 - i))).
Proof.
  induction n as [|n IH]; intros i R Hi; cbn [walk_line].
  { replace (Nat.min (i + 0) _) with i by lia. by destruct (_ !! i). }
  destruct (ptrs (us ++ c :: ds) !! i) as [q|] eqn:E.
  2: { apply lookup_ge_None in E. rewrite ptrs_length in E. lia. }
  destruct (node_at _ _ _ _ _ _ _ _ _ _ _ R E) as (r & _ & _ & Hq). rewrite (get_some _ _ _ Hq).
  cbn [mbind option_bind cell next].
  destruct (ptrs (us ++ c :: ds) !! S i) as [q'|] eqn:E'.
  - apply lookup_lt_Some in E' as Hl. rewrite ptrs_length in Hl.
    rewrite <- E', IH by (done || lia). cbn [mbind option_bind]. do 2 f_equal; [f_equal; lia|lia].
  - apply lookup_ge_None in E'. rewrite ptrs_length in E'.
    replace (Nat.min (i + S n) _) with i by lia. rewrite E. do 2 f_equal. lia.
Qed.


(** Every line passes the check of the code. *)
Lemma healthy_ok ex bx k s us c ds dl d q :
  rep ex bx k s us c ds dl d -> q ∈ ptrs (us ++ c :: ds) -> edit_buffer_check_healthy (Some q) s = Some tt.
Proof.
  intros R (i & Hi)%list_elem_of_lookup.
  destruct (node_at _ _ _ _ _ _ _ _ _ _ _ R Hi) as (r & Er & [Hch Hlen] & Hq).
  unfold edit_buffer_check_healthy. rewrite (get_some _ _ _ Hq). cbn [mbind option_bind cell prev next len data].
  assert (Hnx : match ptrs (us ++ c :: ds) !! S i with
    | Some _ => u ← get (ptrs (us ++ c :: ds) !! S i) s; assert (bool_decide (prev u = Some q))
    | None => Some tt end = Some tt).
  { destruct (ptrs (us ++ c :: ds) !! S i) as [q'|] eqn:E; [|done].
    destruct (node_at _ _ _ _ _ _ _ _ _ _ _ R E) as (r' & _ & _ & Hq'). rewrite (get_some _ _ _ Hq').
    cbn [mbind option_bind cell prev prev_ix]. by rewrite Hi, bool_decide_eq_true_2. }
  rewrite Hnx. cbn [mbind option_bind].
  assert (Hpv : match prev_ix (ptrs (us ++ c :: ds)) i with
    | Some _ => u ← get (prev_ix (ptrs (us ++ c :: ds)) i) s; assert (bool_decide (next u = Some q))
    | None => Some tt end = Some tt).
  { destruct (prev_ix (ptrs (us ++ c :: ds)) i) as [q'|] eqn:E; [|done]. destruct i as [|i]; [done|]. cbn [prev_ix] in E.
    destruct (node_at _ _ _ _ _ _ _ _ _ _ _ R E) as (r' & _ & _ & Hq'). rewrite (get_some _ _ _ Hq').
    cbn [mbind option_bind cell next]. by rewrite Hi, bool_decide_eq_true_2. }
  rewrite Hpv. cbn [mbind option_bind]. unfold assert. pose proof (zlen_nonneg (txt r)).
  replace (0 <=? zlen (txt r)) with true by lia. replace (zlen (txt r) <=? WRAPMARGIN) with true by lia.
  cbn [mbind option_bind]. rewrite c_str_at by (by apply text_c_string). cbn [mbind option_bind].
  by rewrite Z.eqb_refl.
Qed.

(** The line below. *)
Lemma next_at ex bx k s us c ds dl d a q r b :
  rep ex bx k s us c ds dl d -> us ++ c :: ds = a ++ (q, r) :: b ->
  get (Some q) s = Some (cell (last_ptr None a) (head_ptr b None) r).
Proof. intros R E. exact (dseg_lookup _ _ _ _ _ _ _ _ (rp_seg R) E). Qed.

(** *** Fields of the editor alone *)

(** What a record of counters and flags changes. *)
Lemma rep_pnt ex bx k s us c ds dl d x :
  rep ex bx k s us c ds dl d -> rep ex bx k (set_currpnt x s) us c ds dl (w_pnt x d).
Proof. intros []. by constructor. Qed.

Lemma rep_redraw ex bx k s us c ds dl d x :
  rep ex bx k s us c ds dl d -> rep ex bx k (set_redraw_everything x s) us c ds dl d.
Proof. intros []. by constructor. Qed.

Lemma rep_lastindent ex bx k s us c ds dl d x :
  rep ex bx k s us c ds dl d -> rep ex bx k (set_lastindent x s) us c ds dl (w_lind x d).
Proof. intros []. by constructor. Qed.

Lemma rep_oldcurrline ex bx k s us c ds dl d :
  rep ex bx k s us c ds dl d -> rep ex bx k (set_oldcurrline (currline s) s) us c ds dl d.
Proof.
  intros R. pose proof (rp_cur R) as Hc. destruct R. constructor; try done. cbn. intros q. rewrite Hc.
  intros [= <-]. destruct c. apply ptrs_mid.
Qed.

Lemma rep_weak ex bx k s us c ds dl d : rep ex bx k s us c ds dl d -> rep ex false k s us c ds dl d.
Proof.
  intros []. constructor; try done. unfold blk_rep in *. destruct (blk d); [|done].
  destruct rp_blk0 as (? & ? & q & ? & ? & ?). split_and!; try done. by exists q.
Qed.

Lemma rep_exact ex bx k s us c ds dl d :
  rep ex bx k s us c ds dl d -> blk d = None -> rep ex true k s us c ds dl d.
Proof. intros [] E. constructor; try done. unfold blk_rep in *. by rewrite E in *. Qed.

Lemma rep_has_block ex bx k s us c ds dl d :
  rep ex bx k s us c ds dl d -> has_block_selection s = match blk d with Some _ => true | None => false end.
Proof.
  intros []. unfold has_block_selection, blk_rep in *. destruct (blk d).
  - destruct rp_blk0 as (? & -> & _). lia.
  - by destruct rp_blk0 as [-> _].
Qed.

Lemma rep_cancel ex bx k s us c ds dl d :
  rep ex bx k s us c ds dl d -> rep ex true k (block_cancel s) us c ds dl (d_cancel d).
Proof.
  intros R. pose proof (rep_has_block _ _ _ _ _ _ _ _ _ R) as E. unfold block_cancel. rewrite E. destruct R. destruct (blk d) eqn:Eb; by constructor.
Qed.

(** A line gets another string: the line [q] among those of [a ++ (q, r) :: b]. *)
Lemma rep_edit_at ex bx k s us c ds dl d a q r b us' c' ds' r' :
  rep ex bx k s us c ds dl d -> us ++ c :: ds = a ++ (q, r) :: b ->
  us' ++ c' :: ds' = a ++ (q, r') :: b -> length us' = length us -> row_ok r' ->
  rep ex bx k (set_heap (<[q := cell (last_ptr None a) (head_ptr b None) r']> (heap s)) s) us' c' ds' dl
    (w_text (texts us') (txt c'.2) (texts ds') d).
Proof.
  intros R El El' Hu Hr'. pose proof (rp_nodup R) as Hn. rewrite El in Hn. apply nodup_at in Hn as (Hqa & Hqb & _).
  assert (Ep : ptrs (us' ++ c' :: ds') = ptrs (us ++ c :: ds)) by (by rewrite El, El', !ptrs_app).
  assert (Hqi : q ∈ ptrs (us ++ c :: ds)) by (rewrite El; apply ptrs_mid).
  assert (Ez : zlen us' = zlen us /\ zlen ds' = zlen ds).
  { split; [unfold zlen; by rewrite Hu|]. apply (f_equal length) in Ep. rewrite !ptrs_length, !length_app in Ep.
    cbn in Ep. unfold zlen. lia. }
  destruct Ez as [Ezu Ezd].
  destruct R. constructor; rewrite ?Ep; cbn; rewrite ?Ezu, ?Ezd; try done.
  - rewrite El'. rewrite El in rp_seg0. by apply dseg_edit with r.
  - rewrite El'. rewrite El in rp_rows0. apply list.Forall_app in rp_rows0 as [? Hb].
    apply list.Forall_cons in Hb as [_ ?]. apply list.Forall_app. split; [done|]. by apply list.Forall_cons.
  - unfold del_rep in *. destruct dl as [[x rx]|]; [|done]. destruct rp_del0 as (? & ? & Hx & ?). cbn.
    split_and!; try done. rewrite lookup_insert_ne; [done|]. by intros <-.
  - unfold ex_rep in *. destruct ex as [[x tx]|]; [|done]. destruct rp_ex0 as (? & Hx & ?). cbn.
    split_and!; try done. rewrite lookup_insert_ne; [done|]. by intros <-.
  - intros x t. destruct (decide (x = q)) as [->|Hne]; [by left|]. rewrite lookup_insert_ne by done. apply rp_dom0.
  - by rewrite rp_first0, !head_ptr_ptrs, Ep.
  - rewrite rp_last0, !last_ptr_lookup, Ep. f_equal. apply (f_equal length) in Ep. rewrite !ptrs_length in Ep. congruence.
  - rewrite rp_cur0. pose proof (ptr_cur us c ds) as E1. pose proof (ptr_cur us' c' ds') as E2.
    rewrite Ep, Hu, E1 in E2. congruence.
Qed.

(** [adjustline] on the line [q] at the end of [a]: the line of the cursor, or one
    below. *)
Lemma adjust_at ex bx k s us (fc : node -> node) (fm : node -> list node) b dl d a q r n :
  (forall x, us ++ fc x :: fm x = a ++ [x]) ->
  rep ex bx k s us (fc (q, r)) (fm (q, r) ++ b) dl d -> zlen (txt r) <= n ->
  exists s' q' r', adjustline (Some q) n s = Some (s', Some q') /\
    txt r' = txt r /\ zlen (txt r') + zlen (slack r') = n /\
    rep ex bx k s' us (fc (q', r')) (fm (q', r') ++ b) dl d.
Proof.
  intros Hf R Hn.
  assert (El : forall x, us ++ fc x :: fm x ++ b = a ++ x :: b).
  { intros x. replace (us ++ fc x :: fm x ++ b) with ((us ++ fc x :: fm x) ++ b) by (by rewrite <- app_assoc).
    by rewrite Hf, <- app_assoc. }
  destruct (adjustline_ok _ _ _ _ _ _ _ _ _ q r n R) as (s' & q' & r' & E & Et & Ez & R');
    [rewrite El; apply list.elem_of_app; right; by left|done|].
  exists s', q', r'. split; [done|]. split; [done|]. split; [done|].
  assert (Em : map (ren q q' r') (us ++ fc (q, r) :: fm (q, r) ++ b) = us ++ fc (q', r') :: fm (q', r') ++ b).
  { rewrite !El. apply ren_at. rewrite <- El. apply (rp_nodup R). }
  rewrite map_app in Em. cbn [map] in Em. apply app_inj_1 in Em as [Eu Em]; [|by rewrite length_map].
  injection Em as Ec Ed. by rewrite Eu, Ec, Ed in R'.
Qed.

(** Room for a full line, as the code asks for it. *)
Lemma full_line_ok ex bx k s us p r ds dl d : rep ex bx k s us (p, r) ds dl d ->
  exists s' p' r', (if zlen (txt r) + zlen (slack r) <? WRAPMARGIN then adjustline (Some p) WRAPMARGIN s else Some (s, Some p)) = Some (s', Some p') /\
    txt r' = txt r /\ WRAPMARGIN <= zlen (txt r') + zlen (slack r') /\ rep ex bx k s' us (p', r') ds dl d.
Proof.
  intros R. pose proof (rep_mid _ _ _ _ _ _ _ _ _ R) as (_ & _ & _ & [_ Hl] & _). cbn [snd] in Hl.
  case_if Eal; [|by exists s, p, r].
  destruct (adjust_at ex bx k s us (fun x => x) (fun _ => []) ds dl d us p r WRAPMARGIN (fun _ => eq_refl) R Hl) as (s' & p' & r' & -> & Et & Ez & R').
  exists s', p', r'. split_and!; try done. lia.
Qed.

(** *** The window *)

(** The cursor's line and the top of the window, on an unchanged list. *)
Lemma rep_top ex bx k s us c ds dl d top r :
  rep ex bx k s us c ds dl d -> 0 <= zlen us - r <= zlen us + zlen ds ->
  top = ptrs (us ++ c :: ds) !! Z.to_nat (zlen us - r) ->
  rep ex bx k (set_top_of_win top (set_curr_window_line r s)) us c ds dl (w_row r d).
Proof. intros [] Hr Ht. by constructor. Qed.

Lemma edit_window_adjust_ok ex bx k s us c ds dl d :
  rep ex bx k s us c ds dl d -> 1 <= height d ->
  exists s', edit_window_adjust s = Some s' /\ rep ex bx k s' us c ds dl (d_adjust d).
Proof.
  intros R Hh. unfold edit_window_adjust.
  assert (Ehh : forall s0, rep ex bx k s0 us c ds dl d -> visible_window_height s0 = height d).
  { intros s0 []. unfold visible_window_height, height, b_lines. rewrite rp_phone0, rp_size0. destruct (phone d); lia. }
  pose proof (Ehh _ R) as Eh.
  pose proof (rp_winln R) as Ew. pose proof (rp_row R) as Hr. pose proof (zlen_nonneg us).
  rewrite Ew. destruct (row d <? 0) eqn:E0; zbool.
  - change (visible_window_height (set_top_of_win _ (set_curr_window_line 0 s))) with (visible_window_height s).
    rewrite Eh. cbn [curr_window_line set_top_of_win set_curr_window_line].
    replace (height d <=? 0) with false by lia. cbn [mbind option_bind].
    assert (R' : rep ex bx k (set_top_of_win (currline s) (set_curr_window_line 0 s)) us c ds dl (d_adjust d)).
    { unfold d_adjust. replace (row d <? 0) with true by lia. apply rep_top; [done|pose proof (zlen_nonneg ds); lia|].
      rewrite (rp_cur R), Z.sub_0_r. unfold zlen. rewrite Nat2Z.id. symmetry. apply ptr_cur. }
    eexists. split; [reflexivity|]. case_match; [done|by apply rep_redraw].
  - rewrite Eh. unfold d_adjust. replace (row d <? 0) with false by lia. destruct (height d <=? row d) eqn:E1; zbool.
    + rewrite ?Ew. replace (height d <=? row d) with true by lia. unfold back_line. cbn [currline set_curr_window_line heap].
      rewrite (rp_cur R), <- (ptr_cur us c ds).
      assert (W : forall s0, heap s0 = heap s -> walk_line prev (Z.to_nat (height d - 1)) (ptrs (us ++ c :: ds) !! length us) s0 =
        walk_line prev (Z.to_nat (height d - 1)) (ptrs (us ++ c :: ds) !! length us) s).
      { intros s0 E. generalize (ptrs (us ++ c :: ds) !! length us). induction (Z.to_nat (height d - 1)) as [|n IH]; intros p; [done|].
        cbn [walk_line]. destruct p as [p|]; [|done]. unfold get. cbn. rewrite E. destruct (heap s !! p); cbn; [|done].
        destruct (prev _); [|done]. by rewrite IH. }
      rewrite W by done. rewrite (walk_prev _ _ _ _ _ _ _ _ _ _ _ R) by (rewrite length_app; cbn; lia).
      cbn [mbind option_bind].
      assert (R' : rep ex bx k (set_top_of_win (ptrs (us ++ c :: ds) !! (length us - Z.to_nat (height d - 1))%nat)
        (set_curr_window_line (height d - 1) s)) us c ds dl (w_row (height d - 1) d)).
      { apply rep_top; [done|pose proof (zlen_nonneg ds); lia|]. f_equal. unfold zlen in *. lia. }
      eexists. split; [reflexivity|]. case_match; [done|by apply rep_redraw].
    + rewrite ?Ew. replace (height d <=? row d) with false by lia. cbn [mbind option_bind].
      eexists. split; [reflexivity|]. replace (w_row (row d) d) with d by (by destruct d). case_match; [done|by apply rep_redraw].
Qed.

(** *** Linking a line in *)

Lemma app_tail us c m a (n : node) b : us ++ c :: m = a ++ [n] -> us ++ c :: m ++ b = a ++ n :: b.
Proof. intros E. change (us ++ c :: m ++ b) with (us ++ (c :: m) ++ b). by rewrite app_assoc, E, <- app_assoc. Qed.

Lemma nodup_below a q r b p rp : NoDup (ptrs (a ++ (q, r) :: b)) -> p ∉ ptrs (a ++ (q, r) :: b) ->
  NoDup (ptrs (a ++ (q, r) :: (p, rp) :: b)).
Proof.
  rewrite !ptrs_app. cbn [ptrs map fst]. fold (ptrs b). rewrite list.elem_of_app, list.elem_of_cons, !list.NoDup_app, !list.NoDup_cons.
  intros (Ha & Hd & Hq & Hb) Hp. split_and!; [done| |rewrite list.elem_of_cons; intros [->|?]; tauto|tauto|done].
  intros x Hx. rewrite !list.elem_of_cons. intros [->|[->|Hi]]; [by apply (Hd q Hx); left|tauto|by apply (Hd x Hx); right].
Qed.

(** The assignments that put [p] below the line [q]: what they do to the heap. *)
Lemma insert_line_run s a q r b p pv nx rp :
  NoDup (ptrs (a ++ (q, r) :: b)) -> dseg (heap s) None (a ++ (q, r) :: b) None ->
  heap s !! p = Some (cell pv nx rp) -> p ∉ ptrs (a ++ (q, r) :: b) ->
  exists h, insert_line (Some q) (Some p) s =
      Some (set_heap h (set_lastline (match b with [] => Some p | _ => lastline s end) s)) /\
    dseg h None (a ++ (q, r) :: (p, rp) :: b) None /\
    (forall x, x ∉ ptrs (a ++ (q, r) :: (p, rp) :: b) -> h !! x = heap s !! x).
Proof.
  intros Hnd Hs Hp Hpn.
  pose proof (dseg_lookup _ _ _ _ _ _ _ _ Hs eq_refl) as Hq.
  assert (Hqp : q <> p) by (intros ->; apply Hpn, ptrs_mid).
  unfold insert_line. rewrite (get_some _ _ _ Hq). cbn [mbind option_bind cell next].
  pose proof (set_next_at (heap s) p s _ Hp (head_ptr b None)) as E1. rewrite set_heap_id in E1. rewrite E1. clear E1.
  cbn [mbind option_bind cell prev len alloc_len data].
  set (h1 := <[p := _]> (heap s)).
  apply dseg_mid in Hs as (Ha & _ & Hb).
  apply nodup_at in Hnd as (Hqa & Hqb & Hab & Hna & Hnb). rewrite ptrs_at, ptrs_app, list.elem_of_app in Hpn.
  assert (Hpa : p ∉ ptrs a) by tauto. assert (Hpb : p ∉ ptrs b) by tauto.
  assert (Hb1 : dseg (heap (set_heap h1 s)) (Some q) b None) by (by apply dseg_insert).
  destruct (link_prev (set_heap h1 s) _ b (Some p) (set_lastline (Some p) (set_heap h1 s)) Hnb Hb1)
    as (h2 & E2 & Hb2 & _ & F2 & N2). rewrite E2. clear E2. cbn [mbind option_bind].
  set (ll := match b with [] => Some p | _ => lastline s end).
  assert (E2 : match b with [] => set_lastline (Some p) (set_heap h1 s) | _ :: _ => set_heap h2 (set_heap h1 s) end =
    set_heap h2 (set_lastline ll s)).
  { unfold ll. destruct b; [by rewrite N2|]. rewrite set_heap_heap. by destruct s. }
  rewrite E2. clear E2.
  assert (Hq2 : h2 !! q = Some (cell (last_ptr None a) (head_ptr b None) r)).
  { rewrite F2 by done. cbn. unfold h1. by rewrite lookup_insert_ne. }
  rewrite (set_next_at _ q _ _ Hq2). cbn [mbind option_bind cell prev len alloc_len data].
  set (h3 := <[q := _]> h2).
  assert (Hp3 : h3 !! p = Some (cell pv (head_ptr b None) rp)).
  { unfold h3. rewrite lookup_insert_ne by done. rewrite F2 by done. cbn. unfold h1. by rewrite lookup_insert_eq. }
  rewrite (set_prev_at _ p _ _ Hp3). cbn [cell next len alloc_len data].
  set (h4 := <[p := _]> h3). exists h4. split; [reflexivity|].
  assert (Fr : forall x, x ∉ ptrs (a ++ (q, r) :: (p, rp) :: b) -> h4 !! x = heap s !! x).
  { intros x Hx. rewrite !ptrs_at, ptrs_app, list.elem_of_app in Hx. unfold h4, h3. rewrite !lookup_insert_ne by (intros ->; tauto).
    rewrite F2 by tauto. cbn. unfold h1. by rewrite lookup_insert_ne by (intros ->; tauto). }
  assert (Hseg : dseg h4 None (a ++ (q, r) :: (p, rp) :: b) None).
  { apply dseg_mid. split_and!.
    - unfold h4, h3. do 2 (apply dseg_insert; [done|]). apply dseg_frame with (heap s); [|done].
      intros x Hx. rewrite F2 by (by apply Hab). cbn. unfold h1. apply lookup_insert_ne. congruence.
    - unfold h4, h3. rewrite lookup_insert_ne by congruence. by rewrite lookup_insert_eq.
    - cbn [dseg head_ptr]. split; [unfold h4; by rewrite lookup_insert_eq|].
      unfold h4, h3. do 2 (apply dseg_insert; [done|]). done. }
  done.
Qed.

Lemma insert_line_ok bx k s us c m b ds dl d a q r p pv nx rp :
  rep (Some (p, cell pv nx rp)) bx k s us c ds dl d -> us ++ c :: m = a ++ [(q, r)] -> ds = m ++ b ->
  row_ok rp -> 0 <= row d ->
  exists s', insert_line (Some q) (Some p) s = Some s' /\
    rep None false (k - 1) s' us c (m ++ (p, rp) :: b) dl (w_text (up d) (cur d) (texts (m ++ (p, rp) :: b)) d).
Proof.
  intros R Ea Eb Hrp Hrow.
  assert (El : us ++ c :: ds = a ++ (q, r) :: b).
  { rewrite Eb. by apply (app_tail us c m a (q, r) b). }
  pose proof (app_tail us c m a (q, r) ((p, rp) :: b) Ea) as El'.
  destruct (rep_ex_get _ _ _ _ _ _ _ _ _ _ R) as [Hp Hpn].
  pose proof (rp_seg R) as Hs. pose proof (rp_nodup R) as Hnd. rewrite El in Hs, Hnd, Hpn.
  destruct (insert_line_run s a q r b p pv nx rp Hnd Hs Hp Hpn) as (h4 & E & Hseg & Fr). eexists. split; [exact E|]. clear E.
  assert (Hin : forall x, x ∈ ptrs (us ++ c :: ds) -> x ∈ ptrs (us ++ c :: m ++ (p, rp) :: b)).
  { intros x. rewrite El, El', !ptrs_app. rewrite !list.elem_of_app. cbn. rewrite !list.elem_of_cons. tauto. }
  assert (Hnew : forall x, x <> p -> x ∉ ptrs (us ++ c :: ds) -> x ∉ ptrs (us ++ c :: m ++ (p, rp) :: b)).
  { intros x Hx. rewrite El, El', !ptrs_app. rewrite !list.elem_of_app. cbn. rewrite !list.elem_of_cons. tauto. }
  assert (Htop : forall i, (i <= length us)%nat ->
    ptrs (us ++ c :: ds) !! i = ptrs (us ++ c :: m ++ (p, rp) :: b) !! i).
  { intros i Hi. replace (us ++ c :: ds) with ((us ++ [c]) ++ ds) by (by rewrite <- app_assoc).
    replace (us ++ c :: m ++ (p, rp) :: b) with ((us ++ [c]) ++ m ++ (p, rp) :: b) by (by rewrite <- app_assoc).
    rewrite !ptrs_app. rewrite <- (ptrs_app us [c]), !lookup_app_l by (rewrite ptrs_length, length_app; cbn; lia). done. }
  destruct R. constructor; cbn [heap set_heap firstline lastline set_lastline currline]; try done.
  - by rewrite El'.
  - rewrite El'. by apply nodup_below.
  - rewrite El'. rewrite El in rp_rows0. apply list.Forall_app in rp_rows0 as [? Hx].
    apply list.Forall_cons in Hx as [? ?]. apply list.Forall_app. split; [done|].
    apply list.Forall_cons. split; [done|]. by apply list.Forall_cons.
  - unfold del_rep in *. destruct dl as [[x rx]|]; [|done]. destruct rp_del0 as (? & Hx & Hxn & ?). cbn [deleted_line set_heap set_lastline heap].
    assert (x <> p). { intros ->. destruct rp_ex0 as (_ & _ & Hdl). apply Hdl. by eexists. }
    split_and!; try done; [rewrite Fr; [done|]|]; [rewrite <- El'|]; by apply Hnew.
  - intros x t Hx. destruct (decide (x ∈ ptrs (a ++ (q, r) :: (p, rp) :: b))) as [Hi|Hi].
    + left. by rewrite El'.
    + rewrite Fr in Hx by done. destruct (rp_dom0 _ _ Hx) as [Hy|[Hy|[t' [= <-]]]].
      * exfalso. apply Hi. rewrite <- El'. by apply Hin.
      * by right; left.
      * exfalso. apply Hi. rewrite ptrs_app. apply list.elem_of_app. right. right. by left.
  - rewrite rp_first0, El, El', !head_ptr_app. by destruct a as [|[]].
  - rewrite El', last_ptr_app. rewrite El, last_ptr_app in rp_last0. by destruct b as [|[]].
  - cbn. rewrite rp_top0. apply Htop. unfold zlen in *. lia.
  - cbn [row w_text]. autorewrite with zlen. pose proof (zlen_nonneg m). pose proof (zlen_nonneg b).
    rewrite Eb in rp_row0. autorewrite with zlen in rp_row0. lia.
  - intros x Hx. apply Hin. by apply rp_old0.
  - unfold blk_rep in *. cbn [blk w_text]. destruct (blk d) as [i|]; [|done].
    destruct rp_blk0 as (? & ? & x & ? & ? & _). split_and!; try done. exists x. split_and!; [done|by apply Hin|done].
  - cbn. rewrite rp_totaln0, Eb. autorewrite with zlen. lia.
Qed.


(** The assignments that put [ph] above the line [p]; [fl] is the first line when
    there is nothing above. *)
Lemma link_above_ok ex bx k s us p r ds dl d ph t rh fl X :
  rep ex bx k s us (p, r) ds dl d -> heap s !! ph = Some t -> ph ∉ ptrs (us ++ (p, r) :: ds) ->
  len t = zlen (txt rh) -> alloc_len t = zlen (txt rh) + zlen (slack rh) -> data t = txt rh ++ 0 :: slack rh ->
  (forall h, X (set_heap h s) = set_heap h (set_firstline fl s)) ->
  exists h',
    (s ← set_prev (Some ph) (last_ptr None us) s;
     s ← set_next (Some ph) (Some p) s;
     s ← match last_ptr None us with
         | Some _ => set_next (last_ptr None us) (Some ph) s
         | None => Some (X s)
         end;
     set_prev (Some p) (Some ph) s) =
    Some (set_heap h' (set_firstline (match us with [] => fl | _ => firstline s end) s)) /\
    dseg h' None (us ++ (ph, rh) :: (p, r) :: ds) None /\
    (forall x, x ∉ ptrs (us ++ (ph, rh) :: (p, r) :: ds) -> h' !! x = heap s !! x).
Proof.
  intros R Hph Hn E1 E2 E3 HX. pose proof (rep_mid _ _ _ _ _ _ _ _ _ R) as (Hp & Hpu & Hpd & _ & Hnu & Hnd).
  cbn [fst snd] in *.
  assert (Hpp : p <> ph) by (intros <-; apply Hn, ptrs_mid).
  assert (Hphu : ph ∉ ptrs us).
  { intros Hi. apply Hn. rewrite ptrs_app. apply list.elem_of_app. by left. }
  assert (Hphd : ph ∉ ptrs ds).
  { intros Hi. apply Hn. rewrite ptrs_app. apply list.elem_of_app. right. by right. }
  assert (Hdis : forall x, x ∈ ptrs us -> x ∉ ptrs ds).
  { intros x Hx Hi. pose proof (rp_nodup R) as Hd. rewrite ptrs_app in Hd.
    apply list.NoDup_app in Hd as (_ & Hd & _). apply (Hd _ Hx). by right. }
  pose proof (set_prev_at (heap s) ph s _ Hph (last_ptr None us)) as E. rewrite set_heap_id in E. rewrite E. clear E.
  cbn [mbind option_bind]. rewrite cell_set_next. cbn [mbind option_bind prev next len alloc_len data].
  set (h2 := <[ph := _]> (heap s)).
  pose proof (rp_seg R) as Hs. apply dseg_mid in Hs as (Ha & _ & Hb).
  assert (Ha2 : dseg (heap (set_heap h2 s)) None us (Some p)) by (by apply dseg_insert).
  destruct (link_next (set_heap h2 s) us _ (Some ph) (X (set_heap h2 s)) Hnu Ha2) as (h3 & E3' & Ha3 & _ & F3 & N3).
  rewrite E3'. clear E3'. cbn [mbind option_bind].
  set (s3 := match us with [] => X (set_heap h2 s) | _ :: _ => set_heap h3 (set_heap h2 s) end).
  assert (Es3 : s3 = set_heap h3 (set_firstline (match us with [] => fl | _ => firstline s end) s)).
  { unfold s3. destruct us; [rewrite HX, N3 by done; done|]. rewrite set_heap_heap. by destruct s. }
  rewrite Es3. set (sf := set_firstline _ s).
  assert (Hp3 : h3 !! p = Some (cell (last_ptr None us) (head_ptr ds None) r)).
  { rewrite F3 by done. cbn. unfold h2. by rewrite lookup_insert_ne by congruence. }
  rewrite (set_prev_at _ p sf _ Hp3). cbn [cell next len alloc_len data].
  set (h4 := <[p := _]> h3). exists h4. split; [done|]. split.
  - apply dseg_mid. split_and!.
    + unfold h4. by apply dseg_insert.
    + unfold h4. rewrite lookup_insert_ne, F3 by done. cbn. unfold h2. rewrite lookup_insert_eq.
      unfold cell. by rewrite E1, E2, E3.
    + cbn [dseg]. split; [unfold h4; by rewrite lookup_insert_eq|].
      unfold h4. apply dseg_insert; [done|]. apply dseg_frame with (heap s); [|done].
      intros x Hx. rewrite F3 by (intros Hi; by apply (Hdis _ Hi)). cbn. unfold h2. apply lookup_insert_ne. congruence.
  - intros x Hx. rewrite ptrs_app in Hx. cbn [ptrs map fst] in Hx. fold (ptrs ds) in Hx.
    assert (x <> p /\ x <> ph /\ x ∉ ptrs us) as (? & ? & ?).
    { split_and!; [intros ->|intros ->|intros Hi]; apply Hx, list.elem_of_app; [right; right; by left|right; by left|by left]. }
    unfold h4. rewrite lookup_insert_ne, F3 by congruence. cbn. unfold h2. by rewrite lookup_insert_ne by congruence.
Qed.

(** The editor after a line [ph] has been put above the line of the cursor. *)
Lemma rep_above bx k s us p r ds dl d ph t rh r2 h' x :
  rep (Some (ph, t)) bx k s us (p, r) ds dl d -> row_ok rh -> row_ok r2 -> 0 <= row d ->
  dseg h' None (us ++ (ph, rh) :: (p, r2) :: ds) None ->
  (forall x, x ∉ ptrs (us ++ (ph, rh) :: (p, r2) :: ds) -> h' !! x = heap s !! x) ->
  rep None false (k - 1)
    (set_currln (currln s + 1) (set_curr_window_line (curr_window_line s + 1) (set_currpnt x
      (set_heap h'
        (set_blockline (if bool_decide (blockline s = Some p) then Some ph else blockline s)
          (set_top_of_win (if bool_decide (top_of_win s = Some p) then Some ph else top_of_win s)
            (set_firstline (match us with [] => Some ph | _ => firstline s end) s)))))))
    (us ++ [(ph, rh)]) (p, r2) ds dl
    (w_pnt x (w_row (row d + 1) (w_text (texts (us ++ [(ph, rh)])) (txt r2) (dn d) d))).
Proof.
  intros R Hrh Hr2 Hrow Hs Fr. pose proof (rep_mid _ _ _ _ _ _ _ _ _ R) as (Hp & Hpu & Hpd & _ & Hnu & Hnd).
  cbn [fst snd] in *. destruct (rep_ex_get _ _ _ _ _ _ _ _ _ _ R) as [Hph Hn].
  assert (El : (us ++ [(ph, rh)]) ++ (p, r2) :: ds = us ++ (ph, rh) :: (p, r2) :: ds) by (by rewrite <- app_assoc).
  assert (Hin : forall y, y ∈ ptrs (us ++ (p, r) :: ds) -> y ∈ ptrs (us ++ (ph, rh) :: (p, r2) :: ds)).
  { intros y. rewrite !ptrs_app. rewrite !list.elem_of_app. cbn. rewrite !list.elem_of_cons. tauto. }
  assert (Hnew : forall y, y <> ph -> y ∉ ptrs (us ++ (p, r) :: ds) -> y ∉ ptrs (us ++ (ph, rh) :: (p, r2) :: ds)).
  { intros y Hy. rewrite !ptrs_app. rewrite !list.elem_of_app. cbn. rewrite !list.elem_of_cons. tauto. }
  assert (Hphin : ph ∈ ptrs (us ++ (ph, rh) :: (p, r2) :: ds)) by apply ptrs_mid.
  destruct R. cbn [ex_rep] in rp_ex0. constructor; cbn; rewrite ?El; try done.
  - rewrite ptrs_app in *. cbn [ptrs map fst] in *. fold (ptrs ds) in *. rewrite list.elem_of_app in Hn.
    apply list.NoDup_app in rp_nodup0 as (? & Hd & Hc).
    apply list.NoDup_app. split_and!; [done| |].
    + intros y Hy. rewrite list.elem_of_cons. intros [->|Hi]; [tauto|by apply (Hd _ Hy)].
    + apply list.NoDup_cons. split; [tauto|done].
  - apply list.Forall_app in rp_rows0 as [? Hx]. apply list.Forall_cons in Hx as [_ ?].
    apply list.Forall_app. split; [done|]. apply list.Forall_cons. split; [done|]. by apply list.Forall_cons.
  - unfold del_rep in *. destruct dl as [[y ry]|]; [|done]. destruct rp_del0 as (? & Hy & Hyn & ?). cbn.
    assert (y <> ph). { intros ->. destruct rp_ex0 as (_ & _ & Hdl). apply Hdl. by eexists. }
    split_and!; try done; [rewrite Fr; [done|]|]; by apply Hnew.
  - intros y ty Hy. destruct (decide (y ∈ ptrs (us ++ (ph, rh) :: (p, r2) :: ds))) as [Hi|Hi]; [by left|].
    rewrite Fr in Hy by done. destruct (rp_dom0 _ _ Hy) as [Hz|[Hz|[t' [= <-]]]]; [|by right; left|done].
    exfalso. apply Hi. by apply Hin.
  - rewrite rp_first0, !head_ptr_app. by destruct us as [|[]].
  - rewrite rp_last0, !last_ptr_app. done.
  - rewrite zlen_app, rp_top0. change (zlen [(ph, rh)]) with 1.
    replace (zlen us + 1 - (row d + 1)) with (zlen us - row d) by lia.
    destruct (decide (row d = 0)) as [E|E].
    + rewrite E, Z.sub_0_r. unfold zlen. rewrite Nat2Z.id, (ptr_cur us (p, r)), (ptr_cur us (ph, rh)).
      cbn [fst]. by rewrite bool_decide_eq_true_2.
    + assert (Hi : (Z.to_nat (zlen us - row d) < length us)%nat) by (unfold zlen in *; lia).
      rewrite !ptrs_app, !lookup_app_l by (rewrite ptrs_length; done).
      rewrite bool_decide_eq_false_2; [done|]. intros Hl%list_elem_of_lookup_2. done.
  - rewrite !zlen_app. change (zlen [(ph, rh)]) with 1. lia.
  - intros y Hy. by apply Hin, rp_old0.
  - unfold blk_rep in *. cbn. destruct (blk d) as [i|].
    + destruct rp_blk0 as (? & ? & y & -> & ? & _). split_and!; try done. case_bool_decide.
      * by exists ph.
      * exists y. split_and!; [done|by apply Hin|done].
    + destruct rp_blk0 as [? ->]. done.
  - rewrite zlen_app. change (zlen [(ph, rh)]) with 1. lia.
  - rewrite zlen_app. change (zlen [(ph, rh)]) with 1. lia.
  - lia.
Qed.

End Ops.
End EditList.
