(* ===== verification/EditSplit.v ===== *)
(** [split] over [rep]: what is written in the arrays, and the line that is made. *)

From stdpp Require Import gmap.
From S2P Require Import Prelude Cstr Str Mbs MbsProps Edit EditText EditHeap EditRep EditPos EditList.

#[global] Open Scope Z_scope.
#[global] Open Scope list_scope.

Module EditSplit.
Import Cstr Str Mbs MbsProps Edit EditText EditHeap EditRep EditPos EditList.

(** *** Arrays *)

Lemma ztake_len {A} n (t : list A) : 0 <= n <= zlen t -> zlen (ztake n t) = n.
Proof. intros. unfold ztake. zlia. Qed.
Lemma zdrop_len {A} n (t : list A) : 0 <= n <= zlen t -> zlen (zdrop n t) = zlen t - n.
Proof. intros. unfold zdrop. zlia. Qed.
Lemma ztake_zdrop {A} n (t : list A) : ztake n t ++ zdrop n t = t.
Proof. apply take_drop. Qed.

Lemma spaces_len n : 0 <= n -> zlen (spaces n) = n.
Proof. intros. unfold spaces. zlia. Qed.

Lemma spaces_chars n : text_chars (spaces n).
Proof.
  apply List.Forall_forall. intros x Hx. apply repeat_spec in Hx || apply list_elem_of_In, elem_of_replicate in Hx.
  destruct Hx as [-> _]. unfold is_u8. lia.
Qed.

Lemma mem_write_nil (g : list Z) : mem_write g 0 [] = Some g.
Proof. by apply (mem_write_head [] g []). Qed.

(** Two writes fill a new array. *)
Lemma arr_two (g a b : list Z) :
  zlen g = zlen a + zlen b -> exists g1, mem_write g 0 a = Some g1 /\ mem_write g1 (zlen a) b = Some (a ++ b).
Proof.
  intros Hg. pose proof (zlen_nonneg a). pose proof (zlen_nonneg b).
  set (x := ztake (zlen a) g). set (y := zdrop (zlen a) g).
  assert (Eg : g = x ++ y) by (symmetry; apply ztake_zdrop).
  assert (Hx : zlen x = zlen a) by (apply ztake_len; lia).
  assert (Hy : zlen y = zlen b) by (unfold y; rewrite zdrop_len; lia).
  exists (a ++ y). rewrite Eg. split; [by apply mem_write_head|].
  rewrite <- (app_nil_r (a ++ y)), <- app_assoc.
  rewrite (mem_write_app a y [] b) by (done || lia). by rewrite app_nil_r.
Qed.

(** A string is cut by a NUL. *)
Lemma arr_cut (t r : list Z) n : 0 <= n <= zlen t ->
  exists r', mem_write (t ++ 0 :: r) n [0] = Some (ztake n t ++ 0 :: r') /\ n + zlen r' = zlen t + zlen r.
Proof.
  intros Hn. assert (Ed : t ++ 0 :: r = ztake n t ++ zdrop n t ++ 0 :: r).
  { by rewrite app_assoc, ztake_zdrop. }
  destruct (zdrop n t ++ 0 :: r) as [|y r'] eqn:E; [by destruct (zdrop n t)|].
  exists r'. rewrite Ed. split.
  - apply mem_write_one. symmetry. by apply ztake_len.
  - apply (f_equal zlen) in E. rewrite zlen_app, !zlen_cons, zdrop_len in E by done. lia.
Qed.

Lemma arr_read (t r : list Z) i n : 0 <= i -> 0 <= n -> i + n = zlen t ->
  mem_read (t ++ 0 :: r) i (n + 1) = Some (zdrop i t ++ [0]).
Proof.
  intros Hi Hn E. rewrite <- (ztake_zdrop i t) at 1.
  replace ((ztake i t ++ zdrop i t) ++ 0 :: r) with (ztake i t ++ (zdrop i t ++ [0]) ++ r)
    by (by rewrite <- !app_assoc).
  apply mem_read_app; [symmetry; apply ztake_len; lia|]. rewrite zlen_app, zdrop_len by lia.
  change (zlen [0]) with 1. lia.
Qed.

(** The tail of the string moves to [n], and spaces go before it. *)
Lemma arr_move (t r : list Z) n i tail :
  0 <= i -> 0 <= tail -> i + tail = zlen t -> 0 <= n -> n + tail <= zlen t + zlen r ->
  exists d1 r', mem_move (t ++ 0 :: r) n i (tail + 1) = Some d1 /\
    mem_write d1 0 (spaces n) = Some (spaces n ++ zdrop i t ++ 0 :: r') /\
    (n = 0 -> d1 = zdrop i t ++ 0 :: r') /\
    n + tail + zlen r' = zlen t + zlen r.
Proof.
  intros Hi Ht E Hn Hs. set (d := t ++ 0 :: r).
  assert (Hd : zlen d = zlen t + 1 + zlen r) by (unfold d; zlia).
  set (r' := zdrop (n + tail + 1) d).
  assert (Hr' : zlen r' = zlen t + zlen r - n - tail) by (unfold r'; rewrite zdrop_len; lia).
  set (x := ztake n d). set (m := ztake (tail + 1) (zdrop n d)).
  assert (Ed : d = x ++ m ++ r').
  { unfold x, m, r'. rewrite <- (ztake_zdrop n d) at 1. f_equal.
    rewrite <- (ztake_zdrop (tail + 1) (zdrop n d)) at 1. f_equal. unfold zdrop. rewrite drop_drop. f_equal. lia. }
  assert (Hx : zlen x = n) by (apply ztake_len; lia).
  assert (Hm : zlen m = tail + 1) by (apply ztake_len; rewrite zdrop_len; lia).
  exists (x ++ (zdrop i t ++ [0]) ++ r'), r'. split_and!.
  - unfold mem_move. unfold d. rewrite arr_read by done. fold d. cbn [mbind option_bind]. rewrite Ed.
    apply mem_write_app; [done|]. rewrite zlen_app, zdrop_len, Hm by lia. change (zlen [0]) with 1. lia.
  - rewrite mem_write_head by (by rewrite spaces_len). by rewrite <- !app_assoc.
  - intros ->. apply zlen_zero in Hx. rewrite Hx. by rewrite <- app_assoc.
  - lia.
Qed.

Lemma put_spaces_cell h p s t n d :
  0 <= n -> mem_write (data t) 0 (spaces n) = Some d -> (n = 0 -> d = data t) ->
  put_spaces (Some p) n (set_heap (<[p := t]> h) s) =
  Some (set_heap (<[p := Textline (prev t) (next t) (len t) (alloc_len t) d]> h) s).
Proof.
  intros Hn E E0. unfold put_spaces. case_if E1; [by apply cell_upd_data|].
  rewrite E0 by lia. by destruct t.
Qed.

(** *** Where a line is cut *)

Section Split.
Context `{LibcOk} {C : Type} `{MbShort C}.
Implicit Types (us ds a b : list node) (c : node) (dl : option node) (d : doc) (t : list Z).

Lemma cut_at_ok d t p : text_chars t -> 0 <= p ->
  0 <= cut_at (C := C) d t p <= p /\ (p <= zlen t -> p - 3 <= cut_at (C := C) d t p <= zlen t).
Proof.
  intros Ht Hp. unfold cut_at. case_if E; [|lia].
  destruct (fixp_ok t p FC_LEFT Ht Hp) as [_ Hf]. pose proof (fixp_left t p Ht Hp). lia.
Qed.

Lemma cut_at_space d t p : text_chars t -> 0 < p <= zlen t -> cchar t (p - 1) = 32 -> cut_at (C := C) d t p = p.
Proof. intros Ht Hp Hc. unfold cut_at. destruct (_ && _); [|done]. apply fixp_space; done || lia. Qed.

Lemma edit_run_len_le f (l : list Z) : (run_len f l <= length l)%nat.
Proof. induction l as [|y l IH]; cbn; [lia|]. destruct (f y); lia. Qed.

Lemma spc_ok t : 0 <= spc t <= zlen t.
Proof. unfold spc. pose proof (edit_run_len_le (Z.eqb 32) t). unfold zlen. lia. Qed.

Lemma cut_from_ok d t p : text_chars t -> 0 <= p -> cut_at (C := C) d t p <= zlen t ->
  cut_at (C := C) d t p <= cut_from (C := C) d t p <= zlen t.
Proof.
  intros Ht Hp Hc. unfold cut_from. pose proof (cut_at_ok d t p Ht Hp).
  case_match; [|lia]. pose proof (spc_ok (zdrop (cut_at (C := C) d t p) t)) as Hs.
  rewrite zdrop_len in Hs by lia. lia.
Qed.

Lemma run_len_0 (t r : list Z) : c_string t -> run_len (Z.eqb 32) (t ++ 0 :: r) = run_len (Z.eqb 32) t.
Proof. induction 1 as [|x t Hx _ IH]; [done|]. cbn [run_len app]. rewrite IH. done. Qed.

(** [next_non_space_char] in an array. *)
Lemma next_non_space_at t (r : list Z) p : c_string t -> 0 <= p <= zlen t ->
  next_non_space_char (t ++ 0 :: r) p = Some (p + spc (zdrop p t)).
Proof. intros Ht Hp. unfold next_non_space_char. by rewrite c_str_drop. Qed.

Lemma lower_chars d t p n : text_chars t -> text_chars (lower (C := C) d t p n).
Proof. intros Ht. apply list.Forall_app. split; [apply spaces_chars|by apply chars_drop]. Qed.

Lemma lower_len d t p n : text_chars t -> 0 <= p -> 0 <= n -> cut_at (C := C) d t p <= zlen t ->
  zlen (lower (C := C) d t p n) = n + (zlen t - cut_from (C := C) d t p).
Proof.
  intros Ht Hp Hn Hc. pose proof (cut_from_ok d t p Ht Hp Hc). pose proof (cut_at_ok d t p Ht Hp).
  unfold lower. rewrite zlen_app, spaces_len, zdrop_len by lia. lia.
Qed.

(** *** The new line *)

Lemma split_lower_ok bx s us (fc : lrow -> node) (fm : lrow -> list node) b dl d a q r pos n from tail :
  (forall x, us ++ fc x :: fm x = a ++ [(q, x)]) ->
  rep None bx 1 s us (fc r) (fm r ++ b) dl d -> 0 <= row d ->
  0 <= pos <= zlen (txt r) -> 0 <= from -> 0 <= tail -> from + tail = zlen (txt r) ->
  0 <= n -> n + tail <= WRAPMARGIN ->
  exists s' r1 p, split_lower (Some q) pos n from tail s = Some s' /\ txt r1 = ztake pos (txt r) /\
    let r2 := Row (spaces n ++ zdrop from (txt r)) [] in
    rep None false 0 s' us (fc r1) (fm r1 ++ (p, r2) :: b) dl
      (w_text (up d) (txt (fc r1).2) (texts (fm r1 ++ (p, r2) :: b)) d).
Proof.
  intros Hf R Hrow Hpos Hfrom Htail Eft Hn Hnt.
  assert (El : forall x l, us ++ fc x :: fm x ++ l = a ++ (q, x) :: l).
  { intros x l. replace (us ++ fc x :: fm x ++ l) with ((us ++ fc x :: fm x) ++ l) by (by rewrite <- app_assoc).
    by rewrite Hf, <- app_assoc. }
  destruct (node_at _ _ _ _ _ _ _ _ _ (length a) q R) as (r0 & Er0 & Hrok & _).
  { rewrite El. apply (ptr_cur a (q, r) b). }
  rewrite El, list_lookup_middle in Er0 by done. injection Er0 as <-. destruct Hrok as [Hch Hlen].
  destruct (rep_alloc bx 1 s us (fc r) (fm r ++ b) dl d (tail + n) R) as [Ea R1].
  unfold split_lower. rewrite Ea. set (p := malloc_at (heap s)) in *. clear Ea.
  set (r2 := Row (spaces n ++ zdrop from (txt r)) []).
  set (g := 0 :: fill s (tail + n)) in *.
  assert (Hg : zlen g = zlen (spaces n) + zlen (zdrop from (txt r) ++ [0])).
  { unfold g. rewrite fill_len, spaces_len, zlen_app, zdrop_len by lia. change (zlen [0]) with 1. lia. }
  destruct (arr_two _ _ _ Hg) as (g1 & Eg1 & Eg2). rewrite spaces_len in Eg2 by done.
  cell_step.
  rewrite (put_spaces_cell _ _ _ _ n g1); [|done|done|].
  2: { intros ->. rewrite mem_write_nil in Eg1. by injection Eg1. }
  cbn [mbind option_bind prev next len alloc_len data].
  pose proof (rep_ex_put _ (cell None None r2) _ _ _ _ _ _ _ _ _ R1) as R2. rewrite set_heap_heap in R2. cbn [heap set_heap] in R2.
  rewrite insert_insert_eq in R2.
  destruct (rep_ex_get _ _ _ _ _ _ _ _ _ _ R2) as [Hp Hpn].
  pose proof (rp_seg R2) as Hs2. rewrite El in Hs2, Hpn. pose proof (dseg_lookup _ _ _ _ _ _ _ _ Hs2 eq_refl) as Hq2.
  cbn [heap set_heap] in Hq2.
  assert (Hpq : p <> q) by (intros ->; apply Hpn, ptrs_mid).
  assert (Hq1 : forall t0 : textline_t, get (Some q) (set_heap (<[p := t0]> (heap s)) s) = Some (cell (last_ptr None a) (head_ptr b None) r)).
  { intros t0. rewrite lookup_insert_ne in Hq2 by done. unfold get. cbn. by rewrite lookup_insert_ne. }
  rewrite Hq1. cbn [mbind option_bind cell data]. rewrite arr_read by done. cbn [mbind option_bind].
  rewrite (cell_upd_data _ _ _ _ _ (spaces n ++ zdrop from (txt r) ++ [0])) by done.
  cbn [mbind option_bind prev next len alloc_len data].
  assert (E2 : Textline None None (tail + n) (tail + n) (spaces n ++ zdrop from (txt r) ++ [0]) = cell None None r2).
  { unfold cell, r2. cbn [txt slack]. rewrite zlen_app, spaces_len, zdrop_len, <- app_assoc by lia.
    change (zlen []) with 0. f_equal; lia. }
  rewrite E2. clear E2. set (s2 := set_heap (<[p := cell None None r2]> (heap s)) s) in *.
  rewrite <- (set_heap_id s2). rewrite (set_len_at _ q s2 _ Hq2). cbn [mbind option_bind cell prev next alloc_len data].
  destruct (arr_cut (txt r) (slack r) pos Hpos) as (r' & Er' & Hr').
  rewrite (cell_upd_data _ _ _ _ _ (ztake pos (txt r) ++ 0 :: r')) by done.
  cbn [mbind option_bind prev next len alloc_len data].
  set (r1 := Row (ztake pos (txt r)) r').
  assert (E1 : Textline (last_ptr None a) (head_ptr b None) pos (zlen (txt r) + zlen (slack r)) (ztake pos (txt r) ++ 0 :: r') =
    cell (last_ptr None a) (head_ptr b None) r1).
  { unfold cell, r1. cbn [txt slack]. rewrite ztake_len by done. f_equal. lia. }
  rewrite E1. clear E1.
  assert (Hr1 : row_ok r1).
  { split; [by apply chars_take|]. unfold r1. cbn [txt]. rewrite ztake_len by done. unfold WRAPMARGIN in *. lia. }
  assert (Hr2 : row_ok r2).
  { split; [apply list.Forall_app; split; [apply spaces_chars|by apply chars_drop]|].
    unfold r2. cbn [txt]. rewrite zlen_app, spaces_len, zdrop_len by lia. lia. }
  pose proof (rep_edit_at _ _ _ _ _ _ _ _ _ a q r b us (fc r1) (fm r1 ++ b) r1 R2 (El _ _) (El _ _) eq_refl Hr1) as R3.
  destruct (insert_line_ok _ _ _ _ _ (fm r1) b _ _ _ a q r1 p None None r2 R3 (Hf r1) eq_refl Hr2 Hrow) as (s' & Es' & R4).
  exists s', r1, p. split; [exact Es'|]. split; [done|]. cbn zeta.
  rewrite (rp_up R2). exact R4.
Qed.


(** *** The line of the cursor is the lower one *)

(** The new block has what was before the cut. *)
Lemma new_head_ok bx s us p r ds dl d pos : rep None bx 1 s us (p, r) ds dl d -> 0 <= pos <= zlen (txt r) ->
  let ph := malloc_at (heap s) in
  let th := Textline None None pos pos (ztake pos (txt r) ++ [0]) in
  let s2 := set_heap (<[ph := th]> (heap s)) s in
  (let '(s, head) := alloc_line pos s in
   s ← set_len head pos s;
   t ← mem_read (txt r ++ 0 :: slack r) 0 pos;
   s ← upd_data head (fun h => mem_write h 0 t) s;
   s ← upd_data head (fun h => mem_write h pos [0]) s;
   Some (s, head)) = Some (s2, Some ph) /\ rep (Some (ph, th)) bx 1 s2 us (p, r) ds dl d.
Proof.
  intros R Hpos ph th s2. destruct (rep_alloc bx 1 s us (p, r) ds dl d pos R) as [Ea R1]. rewrite Ea. clear Ea. fold ph in R1 |- *.
  cell_step. rewrite <- (ztake_zdrop pos (txt r)) at 1. rewrite <- app_assoc, mem_read_head by (symmetry; by apply ztake_len).
  cbn [mbind option_bind].
  destruct (arr_two (0 :: fill s pos) (ztake pos (txt r)) [0]) as (g1 & Eg1 & Eg2); [rewrite fill_len, ztake_len by lia; change (zlen [0]) with 1; lia|].
  rewrite ztake_len in Eg2 by done. do 2 cell_step. split; [done|].
  pose proof (rep_ex_put _ th _ _ _ _ _ _ _ _ _ R1) as R2. rewrite set_heap_heap in R2. cbn [heap set_heap] in R2. by rewrite insert_insert_eq in R2.
Qed.

(** What is behind the cut moves to the front, behind the spaces. *)
Lemma move_tail_ok h s p pv nx r n from tail : h !! p = Some (cell pv nx r) -> WRAPMARGIN <= zlen (txt r) + zlen (slack r) ->
  0 <= from -> 0 <= tail -> from + tail = zlen (txt r) -> 0 <= n -> n + tail <= WRAPMARGIN ->
  exists r', (s1 ← upd_data (Some p) (fun g => mem_move g n from (tail + 1)) (set_heap h s);
      s1 ← put_spaces (Some p) n s1;
      set_len (Some p) (tail + n) s1) =
    Some (set_heap (<[p := cell pv nx (Row (spaces n ++ zdrop from (txt r)) r')]> h) s).
Proof.
  intros Hp Hal Hfrom Htail Eft Hn Hnt.
  destruct (arr_move (txt r) (slack r) n from tail) as (d1 & r' & Em & Es & E0 & Hr'); [lia..|]. exists r'.
  rewrite (upd_data_at _ _ s _ Hp _ d1) by done. cbn [mbind option_bind cell prev next len alloc_len].
  rewrite (put_spaces_cell _ _ _ _ n (spaces n ++ zdrop from (txt r) ++ 0 :: r')); [|done|done|].
  2: { intros ->. cbn [data]. rewrite E0 by done. done. }
  cbn [mbind option_bind prev next len alloc_len data]. rewrite cell_set_len. cbn [prev next alloc_len data].
  do 3 f_equal. unfold cell. cbn [txt slack]. rewrite zlen_app, spaces_len, zdrop_len, <- app_assoc by lia. f_equal; lia.
Qed.

(** The cursor goes with the text. *)
Lemma split_pnt_ok s (t : textline_t) from n : get (currline s) s = Some t ->
  (if currpnt s <=? from then Some (set_currpnt n s)
   else
     let s := set_currpnt (currpnt s - from + n) s in
     t ← get (currline s) s;
     Some (if len t <? currpnt s then set_currpnt (len t) s else s)) =
  Some (set_currpnt (if currpnt s <=? from then n else Z.min (currpnt s - from + n) (len t)) s).
Proof.
  intros Ht. case_if E; [done|]. cbn zeta. change (get _ _) with (get (currline s) s). rewrite Ht. cbn [mbind option_bind currpnt set_currpnt].
  case_if E2; [by rewrite Z.min_r by lia|by rewrite Z.min_l by lia].
Qed.

Lemma split_upper_ok bx s us p r ds dl d pos n from tail :
  rep None bx 1 s us (p, r) ds dl d -> 0 <= row d -> 1 <= height d ->
  0 <= pos <= zlen (txt r) -> 0 <= from -> 0 <= tail -> from + tail = zlen (txt r) ->
  0 <= n -> n + tail <= WRAPMARGIN ->
  let low := spaces n ++ zdrop from (txt r) in
  exists s' ph rh p' r', split_upper (Some p) pos n from tail s = Some (s', Some ph) /\
    rep None false 0 s' (us ++ [(ph, rh)]) (p', r') ds dl
      (d_adjust (w_pnt (if pnt d <=? from then n else Z.min (pnt d - from + n) (zlen low))
        (w_row (row d + 1) (w_text (up d ++ [ztake pos (txt r)]) low (dn d) d)))).
Proof.
  intros R Hrow Hh Hpos Hfrom Htail Eft Hn Hnt low.
  pose proof (rep_mid _ _ _ _ _ _ _ _ _ R) as (Hp & _ & _ & [Hch Hlen] & _). cbn [fst snd] in *.
  unfold split_upper. rewrite (get_some _ _ _ Hp). cbn [mbind option_bind cell data].
  destruct (new_head_ok bx s us p r ds dl d pos R Hpos) as [Eh R2]. revert Eh.
  destruct (alloc_line pos s) as [t1 hd]. destruct (set_len hd pos t1) as [t2|]; cbn [mbind option_bind]; [|done].
  destruct (mem_read _ 0 pos) as [t3|]; cbn [mbind option_bind]; [|done].
  destruct (upd_data hd _ t2) as [t4|]; cbn [mbind option_bind]; [|done].
  destruct (upd_data hd _ t4) as [t5|]; cbn [mbind option_bind]; [|done]. intros [= -> ->].
  set (ph := malloc_at (heap s)) in *. set (rh := Row (ztake pos (txt r)) []).
  set (th := Textline None None pos pos (ztake pos (txt r) ++ [0])) in *. set (s2 := set_heap (<[ph := th]> (heap s)) s) in *.
  destruct (full_line_ok _ _ _ _ _ _ _ _ _ _ R2) as (s3 & p3 & r3 & E3 & Et3 & Ez3 & R3).
  cbn [cell alloc_len]. rewrite E3. clear E3. cbn [mbind option_bind].
  pose proof (rep_mid _ _ _ _ _ _ _ _ _ R3) as (Hp3 & Hpu3 & Hpd3 & _). cbn [fst snd] in *.
  rewrite (get_some _ _ _ Hp3). cbn [mbind option_bind cell prev].
  destruct (rep_ex_get _ _ _ _ _ _ _ _ _ _ R3) as [Hph Hphn].
  destruct (link_above_ok _ _ _ s3 us p3 r3 ds dl d ph th rh (Some ph) (fun s => set_firstline (Some ph) s) R3 Hph Hphn)
    as (h' & El & Hs' & Fr); [unfold th, rh; cbn; by rewrite ztake_len|unfold th, rh; cbn; rewrite ztake_len by done; change (zlen []) with 0; lia|done|done|].
  cbn [cell prev] in El. revert El.
  destruct (set_prev (Some ph) (last_ptr None us) s3) as [u1|]; cbn [mbind option_bind]; [|done].
  destruct (set_next (Some ph) (Some p3) u1) as [u2|]; cbn [mbind option_bind]; [|done].
  destruct (match last_ptr None us with Some _ => _ | None => _ end) as [u3|]; cbn [mbind option_bind]; [|done].
  intros ->. cbn [mbind option_bind].
  set (Y := set_blockline (if bool_decide (blockline s3 = Some p3) then Some ph else blockline s3)
    (set_top_of_win (if bool_decide (top_of_win s3 = Some p3) then Some ph else top_of_win s3)
      (set_firstline (match us with [] => Some ph | _ => firstline s3 end) s3))).
  match goal with |- context [upd_data (Some p3) _ ?S] => assert (ES : S = set_heap h' Y) end.
  { cbn [top_of_win set_heap set_firstline]. unfold Y.
    destruct (bool_decide (top_of_win s3 = Some p3)); cbn [blockline set_heap set_firstline set_top_of_win];
      destruct (bool_decide (blockline s3 = Some p3)); by destruct s3. }
  rewrite ES. clear ES.
  pose proof (dseg_lookup _ _ _ _ (us ++ [(ph, rh)]) p3 r3 ds Hs' ltac:(by rewrite <- app_assoc)) as Hp'.
  rewrite last_ptr_app in Hp'. cbn [last_ptr] in Hp'.
  destruct (move_tail_ok h' Y p3 _ _ r3 n from tail Hp') as (r' & Em); [done|done|done|by rewrite Et3|done|done|].
  rewrite Et3 in Em. fold low in Em. set (r4 := Row low r') in *. set (h2 := <[p3 := cell (Some ph) (head_ptr ds None) r4]> h') in *. revert Em.
  destruct (upd_data (Some p3) _ _) as [v1|]; cbn [mbind option_bind]; [|done].
  destruct (put_spaces (Some p3) n v1) as [v2|]; cbn [mbind option_bind]; [|done]. intros ->. cbn [mbind option_bind].
  assert (Hlow : zlen low = n + tail) by (unfold low; rewrite zlen_app, spaces_len, zdrop_len by lia; lia).
  assert (Hrh : row_ok rh).
  { split; [by apply chars_take|]. unfold rh. cbn [txt]. rewrite ztake_len by done. unfold WRAPMARGIN in *. lia. }
  assert (Hr4 : row_ok r4).
  { split; [apply list.Forall_app; split; [apply spaces_chars|by apply chars_drop]|]. cbn [txt r4]. lia. }
  set (x := if pnt d <=? from then n else Z.min (pnt d - from + n) (zlen low)).
  rewrite (split_pnt_ok (set_heap h2 Y) (cell (Some ph) (head_ptr ds None) r4)).
  2: { change (currline (set_heap h2 Y)) with (currline s3). rewrite (rp_cur R3). apply lookup_insert_eq. }
  cbn [mbind option_bind cell len]. change (currpnt (set_heap h2 Y)) with (currpnt s3). rewrite (rp_pnt R3). cbn [txt r4]. fold x.
  assert (Hs2 : dseg h2 None (us ++ (ph, rh) :: (p3, r4) :: ds) None).
  { change (us ++ (ph, rh) :: (p3, r4) :: ds) with (us ++ [(ph, rh)] ++ (p3, r4) :: ds).
    change (us ++ (ph, rh) :: (p3, r3) :: ds) with (us ++ [(ph, rh)] ++ (p3, r3) :: ds) in Hs'. rewrite app_assoc in Hs' |- *.
    pose proof (dseg_edit h' _ p3 r3 r4 ds Hs') as Hd. rewrite last_ptr_app in Hd. apply Hd; [|done].
    rewrite ptrs_app. intros [Hi|Hi]%list.elem_of_app; [done|]. apply list_elem_of_singleton in Hi. cbn in Hi. subst. apply Hphn, ptrs_mid. }
  assert (Fr2 : forall y, y ∉ ptrs (us ++ (ph, rh) :: (p3, r4) :: ds) -> h2 !! y = heap s3 !! y).
  { intros y Hy. unfold h2. rewrite lookup_insert_ne; [apply Fr; by rewrite ptrs_app in *|].
    intros <-. apply Hy. rewrite ptrs_app. apply list.elem_of_app. right. right. by left. }
  pose proof (rep_above _ _ _ _ _ _ _ _ _ _ _ rh r4 h2 x R3 Hrh Hr4 Hrow Hs2 Fr2) as R4. fold Y in R4.
  destruct (edit_window_adjust_ok _ _ _ _ _ _ _ _ _ R4 Hh) as (s5 & E5 & R5).
  rewrite texts_app, <- (rp_up R3) in R5.
  exists s5, ph, rh, p3, r4. split; [|exact R5].
  cbn [curr_window_line set_currpnt set_heap currln set_curr_window_line] in E5 |- *.
  change (curr_window_line Y) with (curr_window_line s3). change (currln Y) with (currln s3).
  rewrite E5. done.
Qed.


(** *** [split] *)

(** Where the code cuts. *)
Lemma cut_code bx k s us c ds dl d r pos :
  rep None bx k s us c ds dl d -> row_ok r -> 0 <= pos <= zlen (txt r) ->
  let cut := cut_at (C := C) d (txt r) pos in
  let from := cut_from (C := C) d (txt r) pos in
  (if mbcs_mode s && (0 <? pos) && (pos <? zlen (txt r))
   then d0 ← c_str (txt r ++ 0 :: slack r) 0; fix_cursor (C := C) d0 pos FC_LEFT else Some pos) = Some cut /\
  (if indent_mode s then
     p ← next_non_space_char (txt r ++ 0 :: slack r) cut;
     d0 ← c_str (txt r ++ 0 :: slack r) p;
     Some (p, zlen d0)
   else Some (cut, zlen (txt r) - cut)) = Some (from, zlen (txt r) - from).
Proof.
  intros R [Hch Hlen] Hpos cut from. assert (Hcs : c_string (txt r)) by (by apply text_c_string).
  pose proof (cut_at_ok d (txt r) pos Hch ltac:(lia)) as [Hc1 Hc2]. specialize (Hc2 ltac:(lia)). fold cut in Hc1, Hc2.
  pose proof (cut_from_ok d (txt r) pos Hch ltac:(lia) ltac:(fold cut; lia)) as Hf. fold cut from in Hf. split.
  - rewrite (rp_mbcs R). unfold cut, cut_at. destruct (mbcs d && _ && _); [|done].
    rewrite c_str_at by done. cbn [mbind option_bind]. apply fixp_ok; done || lia.
  - rewrite (rp_ind R). unfold from, cut_from. fold cut. destruct (ind d) eqn:Ei; [|done].
    rewrite next_non_space_at by (done || lia). cbn [mbind option_bind].
    assert (Hfr : from = cut + spc (zdrop cut (txt r))) by (unfold from, cut_from; by rewrite Ei).
    rewrite <- Hfr, c_str_drop by (done || lia). cbn [mbind option_bind].
    do 2 f_equal. apply zdrop_len. lia.
Qed.

Lemma split_cur_ok bx s us c ds dl d pos n :
  rep None bx 0 s us c ds dl d -> 0 <= row d -> 1 <= height d -> 0 <= pos <= zlen (cur d) -> 0 <= n ->
  zlen (lower (C := C) d (cur d) pos n) <= WRAPMARGIN ->
  exists s' us' c' ds' q, split (C := C) (currline s) pos n s = Some (s', Some q) /\
    rep None false 0 s' us' c' ds' dl (d_split (C := C) pos n d) /\
    (if cut_above (C := C) d pos then exists rq, us' = us ++ [(q, rq)]
     else us' = us /\ c'.1 = q /\ ds' <> []).
Proof.
  intros R Hrow Hh Hpos Hn Hlow. destruct c as [p r].
  pose proof (rep_mid _ _ _ _ _ _ _ _ _ R) as (Hp & _ & _ & Hrok & _). cbn [fst snd] in *.
  pose proof (rp_curt R) as Ecur. cbn [snd] in Ecur. rewrite Ecur in Hpos, Hlow.
  pose proof Hrok as [Hch Hlen]. assert (Hcs : c_string (txt r)) by (by apply text_c_string).
  destruct (cut_code _ _ _ _ _ _ _ _ r pos R Hrok Hpos) as [E1 E2].
  set (cut := cut_at (C := C) d (txt r) pos) in *. set (from := cut_from (C := C) d (txt r) pos) in *.
  pose proof (cut_at_ok d (txt r) pos Hch ltac:(lia)) as [Hc1 Hc2]. specialize (Hc2 ltac:(lia)). fold cut in Hc1, Hc2.
  pose proof (cut_from_ok d (txt r) pos Hch ltac:(lia) ltac:(fold cut; lia)) as Hf. fold cut from in Hf.
  rewrite lower_len in Hlow by (done || lia || (fold cut; lia)). fold from in Hlow.
  unfold split. rewrite (rp_cur R). cbn [fst]. rewrite (get_some _ _ _ Hp). cbn [mbind option_bind cell len data].
  rewrite E1. cbn [mbind option_bind]. replace (zlen (txt r) <? cut) with false by lia.
  set (s1 := set_totaln (totaln s + 1) s). change (indent_mode s1) with (indent_mode s).
  rewrite E2. cbn [mbind option_bind].
  assert (R1 : rep None bx 1 s1 us (p, r) ds dl d).
  { destruct R. constructor; try done. cbn. lia. }
  change (currline s1) with (currline s). change (currpnt s1) with (currpnt s).
  rewrite (rp_cur R), bool_decide_eq_true_2, (rp_pnt R) by done. cbn [andb].
  assert (Eds : d_split (C := C) pos n d =
    if cut <=? pnt d then
      d_adjust (w_pnt (if pnt d <=? from then n else Z.min (pnt d - from + n) (zlen (spaces n ++ zdrop from (txt r))))
        (w_row (row d + 1) (w_text (up d ++ [ztake cut (txt r)]) (spaces n ++ zdrop from (txt r)) (dn d) d)))
    else w_text (up d) (ztake cut (txt r)) ((spaces n ++ zdrop from (txt r)) :: dn d) d).
  { unfold d_split, cut_above, upper, lower. rewrite Ecur. fold cut from.
    replace (zlen (txt r) <? cut) with false by lia. done. }
  rewrite Eds. unfold cut_above. rewrite Ecur. fold cut. clear Eds.
  case_if Ec.
  - destruct (split_upper_ok bx s1 us p r ds dl d cut n from (zlen (txt r) - from) R1 Hrow Hh)
      as (s' & ph & rh & p' & r' & -> & R2); [lia..|]. cbn [mbind option_bind].
    apply (rep_redraw _ _ _ _ _ _ _ _ _ true) in R2. set (s2 := set_redraw_everything true s') in *.
    rewrite (healthy_ok _ _ _ _ _ _ _ _ _ ph R2) by (rewrite <- app_assoc; apply ptrs_mid). cbn [mbind option_bind].
    rewrite (next_at _ _ _ _ _ _ _ _ _ us ph rh ((p', r') :: ds) R2) by (by rewrite <- app_assoc).
    cbn [mbind option_bind cell next head_ptr].
    rewrite (healthy_ok _ _ _ _ _ _ _ _ _ p' R2) by apply ptrs_mid. cbn [mbind option_bind].
    exists s2, (us ++ [(ph, rh)]), (p', r'), ds, ph. split_and!; try done. by exists rh.
  - destruct (split_lower_ok bx s1 us (fun x => (p, x)) (fun _ => []) ds dl d us p r cut n from (zlen (txt r) - from))
      as (s' & r1 & p2 & -> & Et1 & R2); [done|done|done|lia..|]. cbn [mbind option_bind]. cbn zeta in R2.
    cbn [app fst snd] in R2. rewrite Et1 in R2. cbn [texts map txt snd] in R2. fold (texts ds) in R2. rewrite <- (rp_dn R) in R2.
    apply (rep_redraw _ _ _ _ _ _ _ _ _ true) in R2. set (s2 := set_redraw_everything true s') in *.
    rewrite (healthy_ok _ _ _ _ _ _ _ _ _ p R2) by apply ptrs_mid. cbn [mbind option_bind].
    rewrite (next_at _ _ _ _ _ _ _ _ _ us p r1 _ R2 eq_refl). cbn [mbind option_bind cell next head_ptr].
    rewrite (healthy_ok _ _ _ _ _ _ _ _ _ p2 R2).
    2: { rewrite ptrs_app. apply list.elem_of_app. right. right. by left. }
    cbn [mbind option_bind]. eexists s2, us, (p, r1), _, p. split; [reflexivity|]. split; [exact R2|]. done.
Qed.

End Split.
End EditSplit.
