(* ===== verification/EditJoin.v ===== *)
(** Lines taken out of the list, and [join], over [rep]. *)

From stdpp Require Import gmap.
From S2P Require Import Prelude Cstr Str Mbs MbsProps Edit EditText EditHeap EditRep EditPos EditList EditSplit.

#[global] Open Scope Z_scope.
#[global] Open Scope list_scope.

Module EditJoin.
Import Cstr Str Mbs MbsProps Edit EditText EditHeap EditRep EditPos EditList EditSplit.

Section Join.
Context `{LibcOk} {C : Type} `{MbShort C}.
Implicit Types (us ds a b : list node) (c : node) (dl : option node) (d : doc) (t : list Z).

(** *** Unlinking *)

Lemma unlink_ok s a q r b :
  NoDup (ptrs (a ++ (q, r) :: b)) -> dseg (heap s) None (a ++ (q, r) :: b) None ->
  exists h',
    (s ← match head_ptr b None with
         | Some _ => set_prev (head_ptr b None) (last_ptr None a) s
         | None => Some (set_lastline (last_ptr None a) s)
         end;
     match last_ptr None a with
     | Some _ => set_next (last_ptr None a) (head_ptr b None) s
     | None => Some (set_firstline (head_ptr b None) s)
     end) =
    Some (set_heap h' (set_lastline (match b with [] => last_ptr None a | _ => lastline s end)
      (set_firstline (match a with [] => head_ptr b None | _ => firstline s end) s))) /\
    dseg h' None (a ++ b) None /\
    (forall x, x ∉ ptrs (a ++ b) -> h' !! x = heap s !! x).
Proof.
  intros Hn Hs. apply dseg_mid in Hs as (Ha & _ & Hb). rewrite ptrs_app in Hn.
  apply list.NoDup_app in Hn as (Hna & Hd & Hn). apply list.NoDup_cons in Hn as [_ Hnb]. fold (ptrs b) in Hd, Hnb.
  assert (Hab : forall x, x ∈ ptrs a -> x ∉ ptrs b) by (intros x Hx Hi; apply (Hd _ Hx); by right).
  destruct (link_prev s _ b (last_ptr None a) (set_lastline (last_ptr None a) s) Hnb Hb) as (h1 & -> & Hb1 & _ & F1 & N1).
  cbn [mbind option_bind]. set (ll := match b with [] => last_ptr None a | _ => lastline s end).
  assert (E1 : match b with [] => set_lastline (last_ptr None a) s | _ :: _ => set_heap h1 s end =
    set_heap h1 (set_lastline ll s)).
  { unfold ll. destruct b; [rewrite N1 by done|]; by destruct s. }
  rewrite E1. clear E1. set (s1 := set_heap h1 (set_lastline ll s)).
  assert (Ha1 : dseg (heap s1) None a (Some q)).
  { apply dseg_frame with (heap s); [|done]. intros x Hx. apply F1. by apply Hab. }
  destruct (link_next s1 a _ (head_ptr b None) (set_firstline (head_ptr b None) s1) Hna Ha1) as (h2 & -> & Ha2 & _ & F2 & N2).
  exists h2. split_and!.
  - f_equal. destruct a; [rewrite N2 by done|]; by destruct s.
  - apply dseg_app. split; [done|]. apply dseg_frame with h1; [|done]. intros x Hx. apply F2.
    intros Hi. by apply (Hab _ Hi).
  - intros x Hx. rewrite ptrs_app, list.elem_of_app in Hx. rewrite F2 by tauto. apply F1. tauto.
Qed.

(** A line is freed: what is left on the heap. *)
Lemma delete_line_free s a q r b :
  NoDup (ptrs (a ++ (q, r) :: b)) -> dseg (heap s) None (a ++ (q, r) :: b) None -> a <> [] -> top_of_win s <> Some q ->
  exists h o, delete_line (Some q) false s = Some (set_heap h (set_oldcurrline o (set_totaln (totaln s - 1)
      (set_lastline (match b with [] => last_ptr None a | _ => lastline s end)
        (set_firstline (match a with [] => head_ptr b None | _ => firstline s end) s))))) /\
    dseg h None (a ++ b) None /\ h !! q = None /\ (forall x, x <> q -> x ∉ ptrs (a ++ b) -> h !! x = heap s !! x) /\
    (forall x, o = Some x -> oldcurrline s = Some x /\ x <> q).
Proof.
  intros Hnd Hs Ha Htop. pose proof (dseg_lookup _ _ _ _ _ _ _ _ Hs eq_refl) as Hq.
  unfold delete_line. rewrite (get_some _ _ _ Hq). cbn [mbind option_bind cell prev next].
  assert (El : bool_decide (last_ptr None a = None) = false).
  { destruct a as [|[x rx] a _] using rev_ind; [done|]. by rewrite last_ptr_app, bool_decide_eq_false_2. }
  rewrite El. cbn [andb]. rewrite bool_decide_eq_false_2 by congruence. cbn [negb assert mbind option_bind].
  destruct (unlink_ok s a q r b Hnd Hs) as (h' & E & Hs' & Fr). revert E.
  destruct (match head_ptr b None with Some _ => _ | None => _ end) as [s1|]; cbn [mbind option_bind]; [|done].
  intros ->. cbn [mbind option_bind]. destruct (nodup_without _ _ _ _ Hnd) as [Hqn _].
  clear El. set (Y := set_totaln _ _). unfold free_line. cbn [mbind option_bind]. change (heap Y) with h'. rewrite Fr, Hq by done.
  cbn [mbind option_bind]. exists (delete q h'), (if bool_decide (Some q = oldcurrline s) then None else oldcurrline s).
  split; [change (oldcurrline Y) with (oldcurrline s); by destruct (bool_decide _)|]. split_and!.
  - by apply dseg_delete.
  - apply lookup_delete_eq.
  - intros x Hne Hx. rewrite lookup_delete_ne by done. by apply Fr.
  - intros x. case_bool_decide; [done|]. intros Ex. split; [done|]. congruence.
Qed.

(** The line [q] below the cursor is freed. *)
Lemma delete_next_ok bx k s us c q r ds dl d :
  rep None bx k s us c ((q, r) :: ds) dl d -> 0 <= row d -> blk d = None ->
  exists s', delete_line (Some q) false s = Some s' /\
    rep None true k s' us c ds dl (w_text (up d) (cur d) (texts ds) d).
Proof.
  intros R Hrow Hblk. set (a := us ++ [c]).
  assert (El : us ++ c :: (q, r) :: ds = a ++ (q, r) :: ds) by (unfold a; by rewrite <- app_assoc).
  assert (El' : us ++ c :: ds = a ++ ds) by (unfold a; by rewrite <- app_assoc).
  assert (Ea : last_ptr None a = Some c.1) by (unfold a; rewrite last_ptr_app; by destruct c).
  pose proof (rp_nodup R) as Hnd. pose proof (rp_seg R) as Hs. rewrite El in Hnd, Hs.
  assert (Htop : top_of_win s <> Some q).
  { rewrite (rp_top R), El, ptrs_app, lookup_app_l.
    - intros E. apply list_elem_of_lookup_2 in E. by apply nodup_at in Hnd as [? _].
    - rewrite ptrs_length. unfold a. rewrite length_app. cbn. pose proof (rp_row R). unfold zlen in *. lia. }
  destruct (delete_line_free s a q r ds Hnd Hs) as (h & o & -> & Hs' & Hqh & Fr & Ho); [by destruct us|done|].
  eexists. split; [reflexivity|].
  assert (Hin : forall x, x ∈ ptrs (us ++ c :: (q, r) :: ds) -> x = q \/ x ∈ ptrs (us ++ c :: ds)) by (intros x; rewrite El, El'; apply ptrs_at).
  assert (Hsub : forall x, x ∈ ptrs (us ++ c :: ds) -> x ∈ ptrs (us ++ c :: (q, r) :: ds)) by (intros x; rewrite El, El', ptrs_at; by right).
  assert (Hhd : match a with [] => head_ptr ds None | _ => firstline s end = firstline s) by (unfold a; by destruct us).
  assert (Hds : zlen ((q, r) :: ds) = 1 + zlen ds) by zlia.
  destruct R. constructor; try done.
  - by rewrite El'.
  - rewrite El'. apply (nodup_without _ _ _ _ Hnd).
  - rewrite El'. rewrite El in rp_rows0. apply list.Forall_app in rp_rows0 as [? Hr].
    apply list.Forall_cons in Hr as [_ ?]. by apply list.Forall_app.
  - unfold del_rep in *. destruct dl as [[x rx]|]; [|done].
    destruct rp_del0 as (Hx & Hx2 & Hx3 & ?). split_and!; [done| |intros Hi; by apply Hx3, Hsub|done].
    change (h !! x = Some (cell None None rx)). rewrite Fr; [done|intros ->; apply Hx3; rewrite El; apply ptrs_mid|].
    intros Hi. apply Hx3, Hsub. by rewrite El'.
  - intros x t Hx'. change (h !! x = Some t) in Hx'. destruct (decide (x = q)) as [->|Hne]; [congruence|].
    destruct (decide (x ∈ ptrs (us ++ c :: ds))) as [|Hi]; [by left|]. right.
    rewrite Fr in Hx' by (done || by rewrite <- El'). destruct (rp_dom0 _ _ Hx') as [Hy|[Hy|[? ?]]]; [|by left|done].
    destruct (Hin _ Hy); done.
  - assert (E : firstline s = head_ptr (us ++ c :: ds) None) by (rewrite rp_first0, !head_ptr_app; by destruct us as [|[]], c).
    rewrite <- E. cbn. by rewrite Hhd.
  - rewrite El', last_ptr_app, Ea. rewrite El, last_ptr_app, Ea in rp_last0. cbn [last_ptr] in rp_last0.
    cbn. by destruct ds as [|[x rx]].
  - rewrite Hds in *. assert (E : top_of_win s = ptrs (us ++ c :: ds) !! Z.to_nat (zlen us - row d)).
    { rewrite rp_top0, El, El', !ptrs_app. unfold a. rewrite !lookup_app_l; [done|..];
      rewrite ptrs_length, length_app; cbn; unfold zlen in *; lia. }
    done.
  - cbn [row w_text]. rewrite Hds in *. pose proof (zlen_nonneg ds). lia.
  - intros x Ex. destruct (Ho x Ex) as [Eo Hne]. by destruct (Hin x (rp_old0 _ Eo)).
  - unfold blk_rep in *. cbn [blk w_text]. by rewrite Hblk in *.
  - rewrite Hds in *. cbn. rewrite rp_totaln0. lia.
Qed.


(** *** The line below is cut *)

Lemma split_dn_ok bx s us c q r ds dl d pos :
  rep None bx 0 s us c ((q, r) :: ds) dl d -> 0 <= row d -> 0 <= pos <= zlen (txt r) ->
  exists s' q2 r1 r2, split (C := C) (Some q) pos 0 s = Some (s', Some q) /\
    txt r1 = upper (C := C) d (txt r) pos /\ txt r2 = lower (C := C) d (txt r) pos 0 /\
    rep None false 0 s' us c ((q, r1) :: (q2, r2) :: ds) dl
      (w_text (up d) (cur d) (txt r1 :: txt r2 :: texts ds) d).
Proof.
  intros R Hrow Hpos. set (a := us ++ [c]).
  assert (El : us ++ c :: (q, r) :: ds = a ++ (q, r) :: ds) by (unfold a; by rewrite <- app_assoc).
  pose proof (next_at _ _ _ _ _ _ _ _ _ a q r ds R El) as Hq.
  assert (Hrok : row_ok r).
  { pose proof (rp_rows R) as Hr. rewrite El in Hr. apply list.Forall_app in Hr as [_ Hr].
    by apply list.Forall_cons in Hr as [? _]. }
  pose proof Hrok as [Hch Hlen].
  destruct (cut_code _ _ _ _ _ _ _ _ r pos R Hrok Hpos) as [E1 E2].
  set (cut := cut_at (C := C) d (txt r) pos) in *. set (from := cut_from (C := C) d (txt r) pos) in *.
  pose proof (cut_at_ok (C := C) d (txt r) pos Hch ltac:(lia)) as [Hc1 Hc2]. specialize (Hc2 ltac:(lia)). fold cut in Hc1, Hc2.
  assert (Hc3 : cut_at (C := C) d (txt r) pos <= zlen (txt r)) by (fold cut; lia).
  pose proof (cut_from_ok (C := C) d (txt r) pos Hch ltac:(lia) Hc3) as Hf. fold cut from in Hf.
  unfold split. rewrite Hq. cbn [mbind option_bind cell len data].
  rewrite E1. cbn [mbind option_bind]. replace (zlen (txt r) <? cut) with false by lia.
  set (s1 := set_totaln (totaln s + 1) s). change (indent_mode s1) with (indent_mode s).
  rewrite E2. cbn [mbind option_bind].
  assert (R1 : rep None bx 1 s1 us c ((q, r) :: ds) dl d).
  { destruct R. constructor; try done. cbn. lia. }
  change (currline s1) with (currline s). rewrite (rp_cur R).
  pose proof (rep_mid _ _ _ _ _ _ _ _ _ R) as (_ & _ & Hcd & _).
  rewrite bool_decide_eq_false_2 by (intros [= ->]; apply Hcd; by left). cbn [andb].
  destruct (split_lower_ok bx s1 us (fun _ => c) (fun x => [(q, x)]) ds dl d a q r cut 0 from (zlen (txt r) - from))
    as (s' & r1 & p2 & -> & Et1 & R2); [intros x; unfold a; by rewrite <- app_assoc|done|done|lia..|].
  cbn [mbind option_bind]. cbn zeta in R2. cbn [app] in R2.
  set (r2 := Row (spaces 0 ++ zdrop from (txt r)) []) in *.
  apply (rep_redraw _ _ _ _ _ _ _ _ _ true) in R2. set (s2 := set_redraw_everything true s') in *.
  assert (El2 : us ++ c :: (q, r1) :: (p2, r2) :: ds = a ++ (q, r1) :: (p2, r2) :: ds) by (unfold a; by rewrite <- app_assoc).
  rewrite (healthy_ok _ _ _ _ _ _ _ _ _ q R2) by (rewrite El2; apply ptrs_mid). cbn [mbind option_bind].
  rewrite (next_at _ _ _ _ _ _ _ _ _ a q r1 _ R2 El2). cbn [mbind option_bind cell next head_ptr].
  rewrite (healthy_ok _ _ _ _ _ _ _ _ _ p2 R2).
  2: { rewrite El2, ptrs_app. apply list.elem_of_app. right. right. by left. }
  cbn [mbind option_bind]. exists s2, p2, r1, r2. split_and!; try done. rewrite (rp_curt R). exact R2.
Qed.

(** *** [join] *)

Lemma blank_code t (r : list Z) : c_string t ->
  exists x, next_non_space_char (t ++ 0 :: r) 0 = Some (spc t) /\ zget (t ++ 0 :: r) (spc t) = Some x /\
    (x =? 0) = blank_line t.
Proof.
  intros Ht. pose proof (spc_ok t) as Hs. rewrite next_non_space_at by (done || (pose proof (zlen_nonneg t); lia)).
  change (zdrop 0 t) with t. unfold blank_line. destruct (Z.eqb_spec (spc t) (zlen t)) as [E|E].
  - exists 0. split; [done|]. split; [|done]. by apply zget_middle.
  - destruct (zget_some t (spc t)) as [x Ex]; [lia|]. exists x. split; [done|]. split; [by apply zget_app_l|].
    assert (Hx : x <> 0).
    { unfold zget in Ex. replace (0 <=? spc t) with true in Ex by lia. by apply (list.Forall_lookup_1 _ _ _ _ Ht Ex). }
    lia.
Qed.

Lemma rep_cells ex bx k s us c q r ds dl d : rep ex bx k s us c ((q, r) :: ds) dl d ->
  get (Some c.1) s = Some (cell (last_ptr None us) (Some q) c.2) /\
  get (Some q) s = Some (cell (Some c.1) (head_ptr ds None) r) /\ row_ok c.2 /\ row_ok r.
Proof.
  intros R. assert (El : us ++ c :: (q, r) :: ds = (us ++ [c]) ++ (q, r) :: ds) by (by rewrite <- app_assoc).
  pose proof (rep_mid _ _ _ _ _ _ _ _ _ R) as (Hc & _ & _ & Hok & _).
  pose proof (next_at _ _ _ _ _ _ _ _ _ _ q r ds R El) as Hq. rewrite last_ptr_app in Hq.
  split_and!; try done; [by destruct c|].
  pose proof (rp_rows R) as Hr. rewrite El in Hr. apply list.Forall_app in Hr as [_ Hr]. by apply list.Forall_cons in Hr as [? _].
Qed.

(** The line below is blank, or there is room for it. *)
Lemma join_simple fuel s us c q r ds dl d :
  rep None true 0 s us c ((q, r) :: ds) dl d -> 0 <= row d -> blk d = None ->
  blank_line (txt r) = true \/ zlen (cur d) + zlen (txt r) < WRAPMARGIN ->
  exists s' us' c' ds', join (C := C) (S fuel) (currline s) s = Some (s', true) /\
    rep None true 0 s' us' c' ds' dl
      (w_text (up d) (if blank_line (txt r) then cur d else cur d ++ txt r) (texts ds) d).
Proof.
  intros R Hrow Hblk Hor. destruct (rep_cells _ _ _ _ _ _ _ _ _ _ _ R) as (Hc & Hq & [Hcch Hcl] & [Hch Hl]).
  cbn [join]. rewrite (rp_cur R), Hc. cbn [mbind option_bind cell next]. rewrite Hq. cbn [mbind option_bind cell data].
  destruct (blank_code (txt r) (slack r)) as (x & -> & E2 & Ex); [by apply text_c_string|]. cbn [mbind option_bind].
  rewrite E2. cbn [mbind option_bind]. rewrite Ex. destruct (blank_line (txt r)).
  { destruct (delete_next_ok _ _ _ _ _ _ _ _ _ _ R Hrow Hblk) as (s' & -> & R'). cbn [mbind option_bind].
    by exists s', us, c, ds. }
  destruct Hor as [?|Hlt]; [done|]. rewrite (rp_curt R) in Hlt |- *. cbn [len cell].
  replace (zlen (txt c.2) + zlen (txt r) - WRAPMARGIN <? 0) with true by lia. destruct c as [p rc]. cbn [fst snd] in *.
  destruct (full_line_ok _ _ _ _ _ _ _ _ _ _ R) as (s3 & p3 & r3 & E3 & Et3 & Ez3 & R3).
  cbn [alloc_len cell]. rewrite E3. clear E3. cbn [mbind option_bind].
  destruct (rep_cells _ _ _ _ _ _ _ _ _ _ _ R3) as (Hc3 & _). cbn [fst snd] in Hc3. rewrite Hc3. cbn [mbind option_bind cell data len].
  rewrite Et3. rewrite c_str_at by (by apply text_c_string). cbn [mbind option_bind].
  rewrite c_str_at by (by apply text_c_string). cbn [mbind option_bind].
  rewrite <- Et3 in *.
  assert (Ew : exists rest, mem_write (txt r3 ++ 0 :: slack r3) (zlen (txt r3)) (txt r ++ [0]) =
    Some ((txt r3 ++ txt r) ++ 0 :: rest) /\ zlen (txt r) + zlen rest = zlen (slack r3)).
  { pose proof (zlen_nonneg (txt r)).
    exists (zdrop (zlen (txt r)) (slack r3)). rewrite zdrop_len by lia. split; [|lia].
    rewrite <- (ztake_zdrop (zlen (txt r)) (slack r3)) at 1.
    change (0 :: ztake (zlen (txt r)) (slack r3) ++ zdrop (zlen (txt r)) (slack r3)) with
      ((0 :: ztake (zlen (txt r)) (slack r3)) ++ zdrop (zlen (txt r)) (slack r3)).
    rewrite (mem_write_app _ _ _ (txt r ++ [0])); [by rewrite <- !app_assoc|done|].
    rewrite zlen_app. change (zlen [0]) with 1. rewrite zlen_cons, ztake_len by lia. lia. }
  destruct Ew as (rest & Ew & Hrest).
  pose proof (upd_data_at (heap s3) p3 s3 _ Hc3 (fun g : list Z => mem_write g (zlen (txt r3)) (txt r ++ [0])) _ Ew) as Eu.
  rewrite set_heap_id in Eu. rewrite Eu. clear Eu. cbn [mbind option_bind cell prev next len alloc_len].
  rewrite cell_set_len. cbn [mbind option_bind prev next alloc_len data].
  set (r4 := Row (txt r3 ++ txt r) rest).
  assert (Ec : Textline (last_ptr None us) (Some q) (zlen (txt r3) + zlen (txt r)) (zlen (txt r3) + zlen (slack r3))
    ((txt r3 ++ txt r) ++ 0 :: rest) = cell (last_ptr None us) (head_ptr ((q, r) :: ds) None) r4).
  { unfold cell, r4. cbn [txt slack head_ptr]. rewrite zlen_app. f_equal. lia. }
  rewrite Ec. clear Ec.
  assert (Hr4 : row_ok r4).
  { split; [apply list.Forall_app; by split|]. unfold r4. cbn [txt]. rewrite zlen_app. lia. }
  pose proof (rep_edit_cur _ _ _ _ _ _ _ r4 _ _ _ R3 Hr4) as R4.
  destruct (delete_next_ok _ _ _ _ _ _ _ _ _ _ R4 Hrow Hblk) as (s5 & E5 & R5). rewrite E5. cbn [mbind option_bind].
  exists s5, us, (p3, r4), ds. split; [done|]. exact R5.
Qed.

Lemma join_ok s us c ds dl d :
  rep None true 0 s us c ds dl d -> 0 <= row d -> blk d = None -> zlen (cur d) < WRAPMARGIN ->
  exists s' (ok : bool) us' c' ds', do_join (C := C) (currline s) s = Some (s', ok) /\
    rep None true 0 s' us' c' ds' dl (d_join (C := C) d).
Proof.
  intros R Hrow Hblk Hcur. unfold do_join, d_join. rewrite (rp_dn R). destruct ds as [|[q r] ds].
  { cbn [join texts map]. rewrite (rep_get_cur _ _ _ _ _ _ _ _ _ R). cbn. by exists s, true, us, c, []. }
  cbn [texts map txt snd]. fold (texts ds).
  destruct (blank_line (txt r) || (zlen (cur d) + zlen (txt r) <? WRAPMARGIN)) eqn:Eor.
  { destruct (join_simple 1 _ _ _ _ _ _ _ _ R Hrow Hblk) as (s' & us' & c' & ds' & E & R').
    { apply orb_true_iff in Eor as [?|?]; [by left|right; lia]. }
    exists s', true, us', c', ds'. split; [done|].
    destruct (blank_line (txt r)); [done|]. cbn [orb] in Eor. by rewrite Eor. }
  apply orb_false_iff in Eor as [Eb Elt]. rewrite Eb, Elt. zbool.
  destruct (rep_cells _ _ _ _ _ _ _ _ _ _ _ R) as (Hc & Hq & [Hcch Hcl] & [Hch Hl]).
  set (f := 1%nat). change 2%nat with (S f). cbn [join]. rewrite (rp_cur R), Hc. cbn [mbind option_bind cell next]. rewrite Hq.
  cbn [mbind option_bind cell data].
  destruct (blank_code (txt r) (slack r)) as (x & -> & E2 & Ex); [by apply text_c_string|]. cbn [mbind option_bind].
  rewrite E2. cbn [mbind option_bind]. rewrite Ex, Eb. cbn [len cell]. pose proof (rp_curt R) as Ecur. rewrite <- Ecur.
  replace (zlen (cur d) + zlen (txt r) - WRAPMARGIN <? 0) with false by lia.
  replace (zlen (txt r) - (zlen (cur d) + zlen (txt r) - WRAPMARGIN) - 1) with (WRAPMARGIN - 1 - zlen (cur d)) by lia.
  pose proof (zlen_nonneg (cur d)).
  destruct (wrap_of_ok (txt r) (0 :: slack r) (WRAPMARGIN - 1 - zlen (cur d))) as (-> & Hw & Hsp); [lia|].
  cbn [mbind option_bind]. set (i := wrap_of (txt r) (WRAPMARGIN - 1 - zlen (cur d))) in *.
  case_if Ei; [by exists s, true, us, c, ((q, r) :: ds)|]. destruct (Hsp Ei) as [Hlt Hspc].
  destruct (split_dn_ok _ _ _ _ _ _ _ _ _ (i + 1) R Hrow) as (s' & q2 & r1 & r2 & -> & Et1 & Et2 & R2); [lia|].
  cbn [mbind option_bind]. apply rep_exact in R2; [|done].
  destruct (rep_cells _ _ _ _ _ _ _ _ _ _ _ R2) as (Hc2 & Hq2 & _). rewrite Hc2. cbn [mbind option_bind cell next].
  rewrite Hq2. cbn [mbind option_bind len cell].
  assert (Hl1 : zlen (txt r1) <= i + 1).
  { rewrite Et1. unfold upper. pose proof (cut_at_ok (C := C) d (txt r) (i + 1) Hch ltac:(lia)) as [H1' H2'].
    rewrite ztake_len; [lia|]. specialize (H2' ltac:(lia)). lia. }
  unfold assert. rewrite <- Ecur. replace (zlen (cur d) + zlen (txt r1) <? WRAPMARGIN) with true by lia. cbn [mbind option_bind].
  destruct (join_simple 0 _ _ _ _ _ _ _ _ R2 Hrow Hblk) as (s5 & us' & c' & ds' & E5 & R5); [right; cbn [cur w_text]; lia|].
  rewrite (rp_cur R2) in E5. change 1%nat with f in E5. rewrite E5. cbn [mbind option_bind].
  exists s5, false, us', c', ds'. split; [done|]. cbn [texts map snd] in R5. rewrite Et1, Et2 in R5. exact R5.
Qed.

End Join.
End EditJoin.
