(* ===== verification/EditChars.v ===== *)
(** Characters put in and taken out at the cursor, over [rep]. *)

From stdpp Require Import gmap.
From S2P Require Import Prelude Cstr Str Mbs MbsProps Edit EditText EditHeap EditRep EditPos EditList EditSplit EditJoin.

#[global] Open Scope Z_scope.
#[global] Open Scope list_scope.

Module EditChars.
Import Cstr Str Mbs MbsProps Edit EditText EditHeap EditRep EditPos EditList EditSplit EditJoin.

(** *** Shifts *)

Lemma raw_shift_left_ok n : forall (a t r : list Z) x,
  x <> 0 -> c_string t -> (length t + 2 <= n)%nat ->
  raw_shift_left n (a ++ x :: t ++ 0 :: r) (zlen a) = Some (a ++ t ++ 0 :: 0 :: r).
Proof.
  induction n as [|n IH]; intros a t r x Hx Ht Hn; [lia|]. cbn [raw_shift_left].
  rewrite (zget_middle a x (t ++ 0 :: r) (zlen a)) by done. cbn [mbind option_bind]. replace (x =? 0) with false by lia.
  destruct Ht as [|y t Hy Ht]; cbn [app].
  - replace (zget (a ++ x :: 0 :: r) (zlen a + 1)) with (Some 0).
    2: { symmetry. replace (a ++ x :: 0 :: r) with ((a ++ [x]) ++ 0 :: r) by (by rewrite <- app_assoc).
         apply zget_middle. rewrite zlen_app. reflexivity. }
    cbn [mbind option_bind]. rewrite mem_write_one by done. cbn [mbind option_bind].
    destruct n as [|n]; [cbn in Hn; lia|]. cbn [raw_shift_left].
    replace (a ++ 0 :: 0 :: r) with ((a ++ [0]) ++ 0 :: r) by (by rewrite <- app_assoc).
    rewrite (zget_middle (a ++ [0]) 0 r (zlen a + 1)) by (rewrite zlen_app; reflexivity). cbn. done.
  - replace (zget (a ++ x :: y :: t ++ 0 :: r) (zlen a + 1)) with (Some y).
    2: { symmetry. replace (a ++ x :: y :: t ++ 0 :: r) with ((a ++ [x]) ++ y :: t ++ 0 :: r) by (by rewrite <- app_assoc).
         apply zget_middle. rewrite zlen_app. reflexivity. }
    cbn [mbind option_bind]. rewrite mem_write_one by done. cbn [mbind option_bind].
    specialize (IH (a ++ [y]) t r y Hy Ht). rewrite zlen_app in IH. change (zlen [y]) with 1 in IH.
    rewrite <- !app_assoc in IH. cbn [app] in IH. apply IH. cbn in Hn. lia.
Qed.

Lemma raw_shift_right_ok (a u r : list Z) y :
  exists x, raw_shift_right (length u) (a ++ u ++ y :: r) (zlen a) = Some (a ++ x :: u ++ r).
Proof.
  revert y r. induction u as [|l u IH] using rev_ind; intros y r; [by exists y|].
  rewrite length_app, Nat.add_1_r. cbn [raw_shift_right].
  replace (a ++ (u ++ [l]) ++ y :: r) with ((a ++ u) ++ l :: y :: r) by (by rewrite <- !app_assoc).
  rewrite zget_middle by (rewrite zlen_app; unfold zlen; lia). cbn [mbind option_bind].
  replace ((a ++ u) ++ l :: y :: r) with (((a ++ u) ++ [l]) ++ y :: r) by (by rewrite <- !app_assoc).
  rewrite mem_write_one by (rewrite !zlen_app; change (zlen [l]) with 1; unfold zlen; lia). cbn [mbind option_bind].
  replace (((a ++ u) ++ [l]) ++ l :: r) with (a ++ u ++ l :: l :: r) by (by rewrite <- !app_assoc).
  destruct (IH l (l :: r)) as (x & ->). exists x. by rewrite <- !app_assoc.
Qed.

(** *** The text the editor stands for *)

Section Chars.
Context `{LibcOk} {C : Type} `{MbShort C}.
Variable wc : Z -> Z.
Hypothesis wc_le : forall u, wc u <= 2.
Implicit Types (us ds a b : list node) (c : node) (dl : option node) (d : doc) (t : list Z).

Definition Rb (bx : bool) (s : editor) (d : doc) : Prop :=
  exists us c ds dl, rep None bx 0 s us c ds dl d.

Lemma Rb_exact bx s d : Rb bx s d -> blk d = None -> Rb true s d.
Proof. intros (us & c & ds & dl & R) E. exists us, c, ds, dl. by apply rep_exact with bx. Qed.

Lemma Rb_weak bx s d : Rb bx s d -> Rb false s d.
Proof. intros (us & c & ds & dl & R). exists us, c, ds, dl. by apply rep_weak with bx. Qed.

Lemma Rb_pnt bx s d x : Rb bx s d -> Rb bx (set_currpnt x s) (w_pnt x d).
Proof. intros (us & c & ds & dl & R). exists us, c, ds, dl. by apply rep_pnt. Qed.

(** The line of the cursor and what is read of it. *)
Lemma Rb_cur bx s d : Rb bx s d ->
  exists p r pv nx, currline s = Some p /\ get (Some p) s = Some (cell pv nx r) /\ txt r = cur d /\ row_ok r /\
    mbcs_mode s = mbcs d /\ ansimode s = ansi d /\ insert_mode s = ins d /\ indent_mode s = ind d /\ currpnt s = pnt d /\
    text_chars (cur d).
Proof.
  intros (us & [p r] & ds & dl & R). pose proof (rep_mid _ _ _ _ _ _ _ _ _ R) as (Hp & _ & _ & Hok & _).
  exists p, r, (last_ptr None us), (head_ptr ds None). cbn [fst snd] in *. pose proof Hok as [Hch _].
  destruct R. cbn [fst snd] in *. rewrite rp_curt0. split_and!; done.
Qed.

Definition line_ok (t : list Z) : Prop := text_chars t /\ zlen t < WRAPMARGIN.

(** Lines that are not full, but for that of the cursor, which has at most [m]
    bytes, and the cursor in its line. *)
Record doc_w (m : Z) (d : doc) : Prop := DocW
  { ok_up : Forall line_ok (up d);
    ok_dn : Forall line_ok (dn d);
    ok_chars : text_chars (cur d);
    ok_len : zlen (cur d) <= m;
    ok_del : forall t, del d = Some t -> line_ok t;
    ok_pnt : 0 <= pnt d <= zlen (cur d);
    ok_rows : 3 <= rows d }.

(** What holds between two keys. *)
Definition doc_ok : doc -> Prop := doc_w (WRAPMARGIN - 1).

Lemma doc_w_le m m' d : doc_w m d -> m <= m' -> doc_w m' d.
Proof. intros [] ?. constructor; try done. lia. Qed.

Lemma doc_ok_cur d : doc_ok d -> line_ok (cur d).
Proof. intros []. split; [done|unfold WRAPMARGIN in *; lia]. Qed.

Lemma doc_height d m : doc_w m d -> 1 <= height d.
Proof. intros []. unfold height. destruct (phone d); lia. Qed.

(** The line of the cursor gets the string [t]. *)
Lemma Rb_edit bx s d t p pv nx r sl :
  Rb bx s d -> get (Some p) s = Some (cell pv nx r) -> currline s = Some p ->
  text_chars t -> zlen t <= WRAPMARGIN ->
  Rb bx (set_heap (<[p := cell pv nx (Row t sl)]> (heap s)) s) (w_text (up d) t (dn d) d).
Proof.
  intros (us & [q r0] & ds & dl & R) Hp Hc Ht Hl. pose proof (rep_mid _ _ _ _ _ _ _ _ _ R) as (Hq & _).
  pose proof (rp_cur R) as Hc'. cbn [fst snd] in *. rewrite Hc' in Hc. injection Hc as ->.
  unfold get in Hp. cbn [mbind option_bind] in Hp. rewrite Hq in Hp. injection Hp as <- <- Hr.
  exists us, (p, Row t sl), ds, dl. apply rep_edit_cur with r0; [done|]. by split.
Qed.

(** *** Deleting *)

Lemma delete_char_ok bx s d :
  Rb bx s d -> 0 <= pnt d -> pnt d < zlen (cur d) \/ cur d = [] ->
  exists s', delete_char s = Some s' /\ Rb bx s' (d_delete_char d).
Proof.
  intros R Hp0 Hp. destruct (Rb_cur _ _ _ R) as (p & r & pv & nx & Ec & Eg & Et & [Hch Hl] & _ & _ & _ & _ & Epnt & Hcc).
  unfold delete_char. rewrite Ec, Eg. cbn [mbind option_bind cell len]. rewrite Et.
  case_if E0.
  - exists s. split; [done|]. assert (E : cur d = []) by (by apply zlen_zero).
    unfold d_delete_char, ztake, zdrop. rewrite E, take_nil, drop_nil. cbn [app].
    replace (w_text (up d) [] (dn d) d) with d; [done|]. rewrite <- E at 1. by destruct d.
  - destruct Hp as [Hp|Hp]; [|by rewrite Hp in E0]. rewrite Epnt. unfold assert.
    replace (pnt d <? zlen (cur d)) with true by lia. cbn [mbind option_bind].
    set (a := ztake (pnt d) (cur d)). set (u := zdrop (pnt d) (cur d)).
    assert (Ha : zlen a = pnt d) by (apply ztake_len; lia).
    assert (Hu : zlen u = zlen (cur d) - pnt d) by (apply zdrop_len; lia).
    assert (Hcu : text_chars u) by (by apply chars_drop).
    destruct u as [|x u'] eqn:Eu; [change (zlen []) with 0 in Hu; lia|].
    apply list.Forall_cons in Hcu as [[_ Hx] Hcu].
    assert (Ed : txt r ++ 0 :: slack r = a ++ x :: u' ++ 0 :: slack r).
    { rewrite Et, <- (ztake_zdrop (pnt d) (cur d)). fold u a. rewrite Eu, <- app_assoc. done. }
    pose proof (raw_shift_left_ok (Z.to_nat (zlen (cur d) - pnt d + 1)) a u' (slack r) x Hx) as Es.
    rewrite <- Ed, Ha in Es. specialize (Es ltac:(by apply text_c_string)).
    rewrite zlen_cons in Hu. unfold zlen in Hu, Es at 1. specialize (Es ltac:(unfold zlen in *; lia)).
    change (heap s !! p = Some (cell pv nx r)) in Eg.
    pose proof (upd_data_at (heap s) p s _ Eg
      (fun g => raw_shift_left (Z.to_nat (zlen (cur d) - pnt d + 1)) g (pnt d)) _ Es) as Eup. rewrite set_heap_id in Eup. rewrite Eup. clear Eup.
    cbn [mbind option_bind cell prev next len alloc_len]. change (currline (set_heap _ s)) with (currline s). rewrite Ec, cell_set_len. cbn [prev next alloc_len data].
    assert (Ez : zdrop (pnt d + 1) (cur d) = u').
    { unfold zdrop. replace (Z.to_nat (pnt d + 1)) with (Z.to_nat (pnt d) + 1)%nat by lia.
      rewrite <- drop_drop. change (drop 1 u = u'). by rewrite Eu. }
    set (t := a ++ u'). assert (Ht : zlen t = zlen (cur d) - 1) by (unfold t; rewrite zlen_app; unfold zlen in *; lia).
    assert (Ec2 : Textline pv nx (zlen (cur d) - 1) (zlen (txt r) + zlen (slack r)) (a ++ u' ++ 0 :: 0 :: slack r) =
      cell pv nx (Row t (0 :: slack r))).
    { unfold cell. cbn [txt slack]. rewrite zlen_cons, Ht, Et. unfold t. rewrite <- app_assoc. f_equal. lia. }
    rewrite Ec2. eexists. split; [reflexivity|].
    unfold d_delete_char. fold a. rewrite Ez. fold t. apply Rb_edit with r; try done.
    + apply list.Forall_app. split; [by apply chars_take|done].
    + rewrite Et in Hl. lia.
Qed.

Lemma d_delete_S d n : 0 <= pnt d -> 0 <= n -> pnt d + n < zlen (cur d) ->
  d_delete n (d_delete_char d) = d_delete (n + 1) d.
Proof.
  intros Hp Hn Hl. unfold d_delete, d_delete_char, w_text. cbn [cur pnt up dn del row blk lind rows ins ansi ind phone mbcs]. f_equal.
  unfold ztake, zdrop. rewrite take_app_le by (rewrite length_take; unfold zlen in Hl; lia).
  rewrite take_take, Nat.min_id. f_equal.
  rewrite drop_app_ge by (rewrite length_take; unfold zlen in *; lia).
  rewrite drop_drop. f_equal. rewrite length_take. unfold zlen in *. lia.
Qed.

Lemma repeat_delete_ok bx n : forall s d,
  Rb bx s d -> 0 <= pnt d -> pnt d + Z.of_nat n <= zlen (cur d) ->
  exists s', repeat_op n delete_char s = Some s' /\ Rb bx s' (d_delete (Z.of_nat n) d).
Proof.
  induction n as [|n IH]; intros s d R Hp Hl.
  - exists s. split; [done|]. unfold d_delete. rewrite Z.add_0_r, ztake_zdrop.
    replace (w_text _ _ _ d) with d by (by destruct d). done.
  - destruct (delete_char_ok _ _ _ R Hp) as (s1 & E1 & R1); [left; lia|]. cbn [repeat_op]. rewrite E1. cbn [mbind option_bind].
    destruct (IH s1 _ R1) as (s' & -> & R'); [done| |].
    { unfold d_delete_char. cbn [cur pnt w_text]. rewrite zlen_app, ztake_len, zdrop_len by lia. lia. }
    exists s'. split; [done|]. rewrite d_delete_S in R' by lia. by replace (Z.of_nat (S n)) with (Z.of_nat n + 1) by lia.
Qed.


(** *** Reading positions *)

Lemma line_pos_ok d s q pv nx r col strip :
  get (Some q) s = Some (cell pv nx r) -> row_ok r -> mbcs_mode s = mbcs d ->
  line_col_to_pos (C := C) wc (Some q) col strip s = Some (pos_of (C := C) wc d (txt r) col strip) /\
  0 <= pos_of (C := C) wc d (txt r) col strip <= zlen (txt r).
Proof.
  intros Hq [Hch Hl] Em. unfold line_col_to_pos. rewrite Hq. cbn [mbind option_bind cell data].
  rewrite c_str_at by (by apply text_c_string). cbn [mbind option_bind]. rewrite Em. by apply pos_of_ok.
Qed.

Lemma line_col_ok s q pv nx r p strip :
  get (Some q) s = Some (cell pv nx r) -> row_ok r ->
  line_pos_to_col (C := C) wc (Some q) p strip s = Some (col_of (C := C) wc (txt r) p strip).
Proof.
  intros Hq [Hch Hl]. unfold line_pos_to_col. rewrite Hq. cbn [mbind option_bind cell data].
  rewrite c_str_at by (by apply text_c_string). cbn [mbind option_bind]. by apply col_of_ok.
Qed.

Lemma cur_col_ok bx s d strip : Rb bx s d ->
  line_pos_to_col (C := C) wc (currline s) (currpnt s) strip s = Some (col_of (C := C) wc (cur d) (pnt d) strip).
Proof.
  intros R. destruct (Rb_cur _ _ _ R) as (p & r & pv & nx & -> & Eg & <- & Hok & _ & _ & _ & _ & -> & _).
  by apply line_col_ok with pv nx.
Qed.

Lemma cur_pos_ok bx s d col strip : Rb bx s d ->
  line_col_to_pos (C := C) wc (currline s) col strip s = Some (pos_of (C := C) wc d (cur d) col strip) /\
  0 <= pos_of (C := C) wc d (cur d) col strip <= zlen (cur d).
Proof.
  intros R. destruct (Rb_cur _ _ _ R) as (p & r & pv & nx & -> & Eg & <- & Hok & Em & _).
  by apply line_pos_ok with pv nx.
Qed.

Lemma ansi_fix_ok bx s d : Rb bx s d ->
  exists s', ansi_fix (C := C) wc s = Some s' /\ Rb bx s' (d_ansi_fix (C := C) wc d).
Proof.
  intros R. destruct (Rb_cur _ _ _ R) as (p & r & pv & nx & _ & _ & _ & _ & _ & Ea & _).
  unfold ansi_fix, d_ansi_fix, n2ansi, ansi2n. rewrite Ea. destruct (ansi d); [|by exists s].
  rewrite (cur_col_ok _ _ _ _ R). cbn [mbind option_bind]. rewrite (proj1 (cur_pos_ok _ _ _ _ _ R)). cbn [mbind option_bind].
  eexists. split; [reflexivity|]. by apply Rb_pnt.
Qed.

Lemma d_ansi_fix_cur d : cur (d_ansi_fix (C := C) wc d) = cur d.
Proof. unfold d_ansi_fix. by destruct (ansi d). Qed.

Lemma d_ansi_fix_pnt d : text_chars (cur d) -> 0 <= pnt d <= zlen (cur d) ->
  0 <= pnt (d_ansi_fix (C := C) wc d) <= zlen (cur d).
Proof.
  intros Hc Hp. unfold d_ansi_fix. destruct (ansi d); [|done]. cbn [pnt w_pnt]. by apply pos_of_ok.
Qed.

Lemma fix_currpnt_ok bx s d dir : Rb bx s d -> 0 <= pnt d ->
  exists s', fix_currpnt (C := C) dir s = Some s' /\ Rb bx s' (d_fix (C := C) dir d).
Proof.
  intros R Hp. destruct (Rb_cur _ _ _ R) as (p & r & pv & nx & Ec & Eg & Et & Hok & _ & _ & _ & _ & Epnt & Hch).
  unfold fix_currpnt, d_fix. rewrite Ec, Eg. cbn [mbind option_bind cell data].
  rewrite c_str_at by (by apply row_c_string). cbn [mbind option_bind]. rewrite Et, Epnt.
  rewrite (proj1 (fixp_ok (C := C) (cur d) (pnt d) dir Hch Hp)). cbn [mbind option_bind].
  eexists. split; [reflexivity|]. by apply Rb_pnt.
Qed.

(** Where the cursor is when [del_currchar] deletes, and how much. *)
Lemma del_currchar_ok bx s d : Rb bx s d -> 0 <= pnt d <= zlen (cur d) ->
  exists s', del_currchar (C := C) wc s = Some (s', (d_del_currchar (C := C) wc d).2) /\
    Rb bx s' (d_del_currchar (C := C) wc d).1.
Proof.
  intros R Hp. destruct (ansi_fix_ok _ _ _ R) as (s1 & E1 & R1).
  unfold del_currchar, d_del_currchar. rewrite E1. cbn [mbind option_bind]. clear E1.
  pose proof (d_ansi_fix_pnt d) as Hp1. pose proof (d_ansi_fix_cur d) as Ecur.
  destruct (Rb_cur _ _ _ R) as (_ & _ & _ & _ & _ & _ & _ & _ & _ & _ & _ & _ & _ & Hch). specialize (Hp1 Hch Hp).
  set (d1 := d_ansi_fix (C := C) wc d) in *. rewrite <- Ecur in Hp1, Hch. clearbody d1. clear R Hp Ecur d s. rename d1 into d, s1 into s.
  destruct (Rb_cur _ _ _ R1) as (p & r & pv & nx & Ec & Eg & Et & Hok & Em & _ & _ & _ & Epnt & _).
  rewrite Ec, Eg. cbn [mbind option_bind cell len]. rewrite Et, Epnt. case_if El; [by exists s|].
  rewrite Em. set (d2 := if mbcs d then d_fix (C := C) FC_LEFT d else d).
  assert (Hs2 : exists s2, (if mbcs d then fix_currpnt (C := C) FC_LEFT s else Some s) = Some s2 /\ Rb bx s2 d2).
  { unfold d2. destruct (mbcs d); [apply fix_currpnt_ok; done || lia|by exists s]. }
  assert (Hp2 : 0 <= pnt d2 < zlen (cur d)).
  { unfold d2. destruct (mbcs d); [|lia]. unfold d_fix. cbn [pnt w_pnt].
    pose proof (fixp_ok (C := C) (cur d) (pnt d) FC_LEFT Hch ltac:(lia)). pose proof (fixp_left (C := C) (cur d) (pnt d) Hch ltac:(lia)). lia. }
  assert (Ec2 : cur d2 = cur d /\ mbcs d2 = mbcs d) by (unfold d2; destruct (mbcs d) eqn:Em0; cbn; by rewrite ?Em0). destruct Ec2 as [Ec2 Em2].
  destruct Hs2 as (s2 & -> & R2). cbn [mbind option_bind].
  destruct (Rb_cur _ _ _ R2) as (_ & _ & _ & _ & _ & _ & _ & _ & Ems & _ & _ & _ & Ep2 & _).
  rewrite Ep2. cbn [data cell]. pose proof Hok as [Hrc _].
  rewrite c_str_drop; [|by apply text_c_string|rewrite Et; lia]. cbn [mbind option_bind].
  rewrite Et, Ems, Em2, Ec2. fold (zdrop (pnt d2) (cur d)). set (t := zdrop (pnt d2) (cur d)).
  assert (Ht : text_chars t) by (by apply chars_drop).
  assert (Hz : zlen t = zlen (cur d) - pnt d2) by (apply zdrop_len; lia).
  assert (Htn : t <> []) by (intros E; rewrite E in Hz; change (zlen []) with 0 in Hz; lia).
  set (w := if mbcs d then bytes_of (C := C) t else 1).
  destruct (bytes_of_ok (C := C) t Ht Htn) as (Eb & Hb & _).
  assert (Ew : (if mbcs d then Mbs.mb_bytes C t else Some 1) = Some w) by (unfold w; by destruct (mbcs d)).
  assert (Hw : 1 <= w <= zlen t) by (unfold w; destruct (mbcs d); lia).
  rewrite Ew. cbn [mbind option_bind]. rewrite (width_of_ok (C := C) wc wc_le t w Ht). cbn [mbind option_bind].
  destruct (repeat_delete_ok bx (Z.to_nat w) s2 d2 R2) as (s3 & E3 & R3); [lia|rewrite Ec2; lia|].
  rewrite E3. cbn [mbind option_bind fst snd]. rewrite Z2Nat.id in R3 by lia. by exists s3.
Qed.

(** *** Inserting *)

Lemma raw_put_ok bx s d ch :
  Rb bx s d -> 0 <= pnt d <= zlen (cur d) -> zlen (cur d) < WRAPMARGIN -> is_u8 ch -> ch <> 0 ->
  exists s', raw_put_char ch s = Some s' /\ Rb true s' (d_put ch (d_cancel d)).
Proof.
  intros (us & [p0 r0] & ds & dl & R) Hp Hl Hch Hch0.
  pose proof (rep_mid _ _ _ _ _ _ _ _ _ R) as (Hp0 & Hpu & Hpd & Hok & _). cbn [fst snd] in *.
  unfold raw_put_char. rewrite (rep_get_cur _ _ _ _ _ _ _ _ _ R). cbn [mbind option_bind cell alloc_len snd].
  assert (HA : exists s1 p r, (if zlen (txt r0) + zlen (slack r0) <? WRAPMARGIN then
      '(s, p) ← adjustline (currline s) WRAPMARGIN s; Some (set_currline p s) else Some s) = Some s1 /\
    WRAPMARGIN <= zlen (txt r) + zlen (slack r) /\ rep None bx 0 s1 us (p, r) ds dl d).
  { rewrite (rp_cur R). cbn [fst]. destruct (full_line_ok _ _ _ _ _ _ _ _ _ _ R) as (s3 & p3 & r3 & E3 & Et & Ez & R3).
    destruct (zlen (txt r0) + zlen (slack r0) <? WRAPMARGIN); [rewrite E3; cbn [mbind option_bind]|by injection E3 as <- <-; exists s, p0, r3].
    exists s3, p3, r3. split_and!; [|lia|done]. f_equal. pose proof (rp_cur R3) as E. cbn [fst] in E. rewrite <- E. by destruct s3. }
  destruct HA as (s1 & p & r & -> & Hal & R1). cbn [mbind option_bind]. clear R Hp0 Hpu Hpd Hok.
  rewrite (rep_get_cur _ _ _ _ _ _ _ _ _ R1). cbn [mbind option_bind cell len snd].
  pose proof (rp_curt R1) as Ec. cbn [snd] in Ec. rewrite (rp_pnt R1), <- Ec. unfold assert.
  replace (pnt d <=? zlen (cur d)) with true by lia. cbn [mbind option_bind].
  pose proof (rep_cancel _ _ _ _ _ _ _ _ _ R1) as R2. set (s2 := block_cancel s1) in *.
  assert (Ecl : currline s1 = Some p) by apply (rp_cur R1). rewrite Ecl.
  rewrite (rp_pnt R2). change (pnt (d_cancel d)) with (pnt d).
  pose proof (rep_mid _ _ _ _ _ _ _ _ _ R2) as (Hp2 & _ & _ & [Hrc _] & _). cbn [fst snd] in Hp2, Hrc.
  set (a := ztake (pnt d) (cur d)). set (u := zdrop (pnt d) (cur d)).
  assert (Ha : zlen a = pnt d) by (apply ztake_len; lia).
  assert (Hu : zlen u = zlen (cur d) - pnt d) by (apply zdrop_len; lia).
  assert (Ed : exists y sl, txt r ++ 0 :: slack r = a ++ (u ++ [0]) ++ y :: sl /\ 1 + zlen sl = zlen (slack r)).
  { rewrite <- Ec in Hal |- *. destruct (slack r) as [|y sl]; [change (zlen []) with 0 in Hal; unfold WRAPMARGIN in *; lia|].
    exists y, sl. rewrite <- (ztake_zdrop (pnt d) (cur d)). fold a u. rewrite <- !app_assoc. split; [done|zlia]. }
  destruct Ed as (y & sl & Ed & Hsl).
  destruct (raw_shift_right_ok a (u ++ [0]) sl y) as (x & Es). rewrite <- Ed, Ha in Es.
  replace (length (u ++ [0])) with (Z.to_nat (zlen (cur d) - pnt d + 1)) in Es
    by (rewrite length_app; cbn; unfold zlen in *; lia).
  pose proof (upd_data_at (heap s2) p s2 _ Hp2
    (fun g => raw_shift_right (Z.to_nat (zlen (cur d) - pnt d + 1)) g (pnt d)) _ Es) as Eup.
  rewrite set_heap_id in Eup. rewrite Eup. clear Eup. cbn [mbind option_bind cell prev next len alloc_len].
  change (currpnt (set_heap _ s2)) with (currpnt s2). rewrite (rp_pnt R2). change (pnt (d_cancel d)) with (pnt d).
  assert (Eu8 : u8 ch = ch) by (unfold u8, is_u8 in *; by apply Z.mod_small).
  rewrite (cell_upd_data _ _ _ _ _ (a ++ u8 ch :: u ++ 0 :: sl)).
  2: { cbn [data]. rewrite mem_write_one by done. by rewrite <- app_assoc. }
  cbn [mbind option_bind prev next len alloc_len data].
  set (t' := a ++ u8 ch :: u).
  assert (Hz : zlen t' = zlen (cur d) + 1) by (unfold t'; rewrite zlen_app, zlen_cons; lia).
  change (currpnt (set_heap _ s2)) with (currpnt s2). rewrite (rp_pnt R2). change (pnt (d_cancel d)) with (pnt d).
  match goal with |- context [set_currpnt ?x (set_heap ?h s2)] =>
    change (set_currpnt x (set_heap h s2)) with (set_heap h (set_currpnt x s2)) end.
  rewrite cell_set_len. cbn [prev next alloc_len data].
  assert (Ecell : Textline (last_ptr None us) (head_ptr ds None) (zlen (cur d) + 1) (zlen (txt r) + zlen (slack r))
    (a ++ u8 ch :: u ++ 0 :: sl) = cell (last_ptr None us) (head_ptr ds None) (Row t' sl)).
  { unfold cell. cbn [txt slack]. rewrite Hz, <- Ec. unfold t'. rewrite <- app_assoc. f_equal. lia. }
  rewrite Ecell. eexists. split; [reflexivity|].
  assert (Ht' : row_ok (Row t' sl)).
  { split; cbn [txt]; [|unfold WRAPMARGIN in *; lia]. rewrite <- Ec in Hrc. apply list.Forall_app. split; [by apply chars_take|].
    constructor; [by rewrite Eu8|by apply chars_drop]. }
  exists us, (p, Row t' sl), ds, dl.
  exact (rep_pnt _ _ _ _ _ _ _ _ _ (pnt d + 1) (rep_edit_cur _ _ _ _ _ _ _ (Row t' sl) _ _ _ R2 Ht')).
Qed.


(** *** Wrapping *)

(** A space at the end of the line [q]. *)
Lemma append_space_ok bx s us (fc : node -> node) (fm : node -> list node) b dl d a q r :
  (forall x, us ++ fc x :: fm x = a ++ [x]) ->
  rep None bx 0 s us (fc (q, r)) (fm (q, r) ++ b) dl d -> 1 <= zlen (txt r) < WRAPMARGIN ->
  let t' := if negb (cchar (txt r) (zlen (txt r) - 1) =? 32) then txt r ++ [32] else txt r in
  exists s' q' r', 
    ('(s, p) ← (if zlen (txt r) + zlen (slack r) <? zlen (txt r) + 1 then adjustline (Some q) (zlen (txt r) + 1) s
                else Some (s, Some q));
     t ← get p s;
     x ← zget (data t) (len t - 1);
     if negb (x =? 32) then
       s ← upd_data p (fun g : list Z => mem_write g (len t) [32]) s;
       s ← upd_data p (fun g : list Z => mem_write g (len t + 1) [0]) s;
       set_len p (len t + 1) s
     else Some s) = Some s' /\ txt r' = t' /\
    rep None bx 0 s' us (fc (q', r')) (fm (q', r') ++ b) dl
      (w_text (up d) (txt (fc (q', r')).2) (texts (fm (q', r') ++ b)) d).
Proof.
  intros Hf R Hl t'.
  assert (El : forall x, us ++ fc x :: fm x ++ b = a ++ x :: b).
  { intros x. replace (us ++ fc x :: fm x ++ b) with ((us ++ fc x :: fm x) ++ b) by (by rewrite <- app_assoc).
    by rewrite Hf, <- app_assoc. }
  assert (HA : exists s1 q1 r1, (if zlen (txt r) + zlen (slack r) <? zlen (txt r) + 1
      then adjustline (Some q) (zlen (txt r) + 1) s else Some (s, Some q)) = Some (s1, Some q1) /\
    txt r1 = txt r /\ 1 <= zlen (slack r1) /\ rep None bx 0 s1 us (fc (q1, r1)) (fm (q1, r1) ++ b) dl d).
  { case_if E; [|exists s, q, r; split_and!; done || lia].
    destruct (adjust_at _ _ _ _ _ _ _ _ _ _ _ _ _ (zlen (txt r) + 1) Hf R) as (s1 & q1 & r1 & E1 & Et & Ez & R1); [lia|].
    exists s1, q1, r1. split_and!; try done. rewrite Et in Ez. lia. }
  destruct HA as (s1 & q1 & r1 & -> & Et1 & Hs1 & R1). cbn [mbind option_bind].
  pose proof (next_at _ _ _ _ _ _ _ _ _ a q1 r1 b R1 (El _)) as Hq. rewrite Hq. cbn [mbind option_bind cell data len].
  assert (Hok : row_ok r1).
  { pose proof (rp_rows R1) as Hr. rewrite El in Hr. apply list.Forall_app in Hr as [_ Hr]. by apply list.Forall_cons in Hr as [? _]. }
  destruct (zget_some (txt r1) (zlen (txt r1) - 1)) as [x Ex]; [rewrite Et1; lia|].
  rewrite (zget_app_l _ _ _ _ Ex). cbn [mbind option_bind].
  assert (Exc : cchar (txt r) (zlen (txt r) - 1) = x) by (unfold cchar; by rewrite <- Et1, Ex).
  unfold t'. rewrite Exc. destruct (x =? 32); cbn [negb].
  { exists s1, q1, r1. split; [done|]. split; [done|].
    rewrite <- (rp_curt R1), <- (rp_dn R1). replace (w_text _ _ _ d) with d; [done|by destruct d]. }
  destruct (slack r1) as [|y sl] eqn:Esl; [change (zlen []) with 0 in Hs1; lia|].
  change (heap s1 !! q1 = Some (cell (last_ptr None a) (head_ptr b None) r1)) in Hq.
  assert (Ew : (fun g : list Z => mem_write g (zlen (txt r1)) [32]) (txt r1 ++ 0 :: y :: sl) = Some (txt r1 ++ 32 :: y :: sl))
    by (by apply mem_write_one).
  rewrite <- Esl in Ew at 1.
  pose proof (upd_data_at (heap s1) q1 s1 _ Hq (fun g : list Z => mem_write g (zlen (txt r1)) [32]) _ Ew) as Eup. rewrite set_heap_id in Eup. rewrite Eup. clear Eup.
  cbn [mbind option_bind cell prev next len alloc_len].
  rewrite (cell_upd_data _ _ _ _ _ (txt r1 ++ 32 :: 0 :: sl)).
  2: { cbn [data]. replace (txt r1 ++ 32 :: y :: sl) with ((txt r1 ++ [32]) ++ y :: sl) by (by rewrite <- app_assoc).
       rewrite mem_write_one by (rewrite zlen_app; reflexivity). by rewrite <- app_assoc. }
  cbn [mbind option_bind prev next len alloc_len data]. rewrite cell_set_len. cbn [prev next alloc_len data].
  set (r2 := Row (txt r1 ++ [32]) sl).
  assert (Ec : Textline (last_ptr None a) (head_ptr b None) (zlen (txt r1) + 1) (zlen (txt r1) + zlen (slack r1))
    (txt r1 ++ 32 :: 0 :: sl) = cell (last_ptr None a) (head_ptr b None) r2).
  { unfold cell, r2. cbn [txt slack]. rewrite Esl, zlen_app, zlen_cons, <- app_assoc. change (zlen [32]) with 1. f_equal. lia. }
  rewrite Ec. eexists _, q1, r2. split; [reflexivity|]. split; [unfold r2; cbn [txt]; by rewrite Et1|].
  rewrite (rp_up R1).
  apply (rep_edit_at None bx 0 s1 us (fc (q1, r1)) (fm (q1, r1) ++ b) dl d a q1 r1 b); try done.
  split; unfold r2; cbn [txt].
  - apply list.Forall_app. split; [apply Hok|]. constructor; [unfold is_u8; lia|done].
  - rewrite zlen_app, Et1. change (zlen [32]) with 1. lia.
Qed.

Lemma wrap_space_ok bx s us c ds dl d above ww extra :
  rep None bx 0 s us c ds dl d -> 0 <= extra ->
  (above = false -> ds <> []) ->
  exists s', wrap_space ww (if above : bool then Some c.1 else head_ptr ds None) extra s = Some s' /\
    Rb bx s' (d_wrap_space above ww extra d).
Proof.
  intros R Hex Hds. unfold wrap_space, d_wrap_space. rewrite (rp_cur R), (rp_pnt R). destruct above.
  - destruct c as [p r]. pose proof (rep_get_cur _ _ _ _ _ _ _ _ _ R) as Eg. rewrite (rp_cur R) in Eg. cbn [fst snd] in *.
    rewrite Eg. cbn [mbind option_bind cell len alloc_len]. rewrite bool_decide_eq_true_2 by done.
    pose proof (rp_curt R) as Ec. cbn [snd] in Ec. rewrite <- Ec. cbn [andb].
    destruct (ww && _ && _ && _) eqn:Econd.
    + zbool. destruct (append_space_ok bx s us (fun x => x) (fun _ => []) ds dl d us p r) as (s' & q' & r' & E & Et & R');
        [done|exact R|rewrite <- Ec; lia|]. rewrite <- Ec in E. rewrite E. exists s'. split; [done|].
      exists us, (q', r'), ds, dl. cbn [fst snd app] in R'. rewrite Et, <- Ec, <- (rp_dn R) in R'. exact R'.
    + exists s. split; [done|]. exists us, (p, r), ds, dl. replace (w_text _ _ _ d) with d; [done|by destruct d].
  - destruct ds as [|[q r] ds]; [by destruct (Hds eq_refl)|]. rewrite (rp_dn R). cbn [head_ptr texts map snd]. fold (texts ds).
    destruct (rep_cells _ _ _ _ _ _ _ _ _ _ _ R) as (_ & Hq & _ & Hok). rewrite Hq. cbn [mbind option_bind cell len alloc_len].
    pose proof (rep_mid _ _ _ _ _ _ _ _ _ R) as (_ & _ & Hcd & _).
    rewrite bool_decide_eq_false_2 by (intros [= E]; apply Hcd; rewrite E; by left). cbn [andb negb]. rewrite !andb_true_r.
    destruct (ww && _ && _) eqn:Econd.
    + zbool. destruct (append_space_ok bx s us (fun _ => c) (fun x => [x]) ds dl d (us ++ [c]) q r) as (s' & q' & r' & E & Et & R');
        [intros x; by rewrite <- app_assoc|exact R|lia|]. rewrite E. exists s'. split; [done|].
      exists us, c, ((q', r') :: ds), dl. cbn [app texts map snd] in R'. fold (texts ds) in R'.
      rewrite Et, <- (rp_curt R) in R'. exact R'.
    + exists s. split; [done|]. exists us, c, ((q, r) :: ds), dl.
      replace (w_text _ _ _ d) with d; [done|]. destruct R. destruct d. cbn in *. by subst.
Qed.

End Chars.
End EditChars.
