(* ===== verification/EditInsert.v ===== *)
(** Typing: a character goes into the line of the cursor, and a line that is full
    is cut after a word. *)

From stdpp Require Import gmap.
From S2P Require Import Prelude Cstr Str Mbs MbsProps Edit EditText EditHeap EditRep EditPos EditList EditSplit EditJoin EditChars.

#[global] Open Scope Z_scope.
#[global] Open Scope list_scope.

Module EditInsert.
Import Cstr Str Mbs MbsProps Edit EditText EditHeap EditRep EditPos EditList EditSplit EditJoin EditChars.

Section Insert.
Context `{LibcOk} {C : Type} `{MbShort C}.
Variable wc : Z -> Z.
Hypothesis wc_le : forall u, wc u <= 2.
Implicit Types (us ds a b : list node) (c : node) (dl : option node) (d : doc) (t : list Z).

(** *** Texts *)

Lemma doc_w_row m d r : doc_w m d -> doc_w m (w_row r d).
Proof. intros []. by constructor. Qed.

Lemma doc_w_pnt m d p : doc_w m d -> 0 <= p <= zlen (cur d) -> doc_w m (w_pnt p d).
Proof. intros [] ?. by constructor. Qed.

Lemma doc_w_blk m d (x : option Z) : doc_w m d -> doc_w m (w_blk x d).
Proof. intros []. by constructor. Qed.

Lemma doc_w_text m m' d (u : list (list Z)) t (n : list (list Z)) p : doc_w m d ->
  Forall line_ok u -> Forall line_ok n -> text_chars t -> zlen t <= m' -> 0 <= p <= zlen t ->
  doc_w m' (w_pnt p (w_text u t n d)).
Proof. intros [] ?????. by constructor. Qed.

Lemma doc_w_cur m m' d t : doc_w m d -> text_chars t -> zlen t <= m' -> 0 <= pnt d <= zlen t ->
  doc_w m' (w_text (up d) t (dn d) d).
Proof. intros [] ???. by constructor. Qed.

Lemma line_ok_of t : text_chars t -> zlen t <= WRAPMARGIN - 1 -> line_ok t.
Proof. split; [done|lia]. Qed.

(** A line is cut, and neither half is full. *)
Lemma doc_split m d p n : doc_w m d -> m <= WRAPMARGIN -> 0 <= p <= zlen (cur d) -> 0 <= n ->
  cut_at (C := C) d (cur d) p <= WRAPMARGIN - 1 -> zlen (lower (C := C) d (cur d) p n) <= WRAPMARGIN - 1 ->
  doc_ok (d_split (C := C) p n d).
Proof.
  intros Hd Hm Hp Hn Hc Hlow. pose proof Hd as [Hu Hdn Hch Hl Hdel Hpnt Hr].
  pose proof (cut_at_ok (C := C) d (cur d) p Hch ltac:(lia)) as [Hc1 Hc2]. specialize (Hc2 ltac:(lia)).
  assert (Hf := cut_from_ok d (cur d) p Hch ltac:(lia) (proj2 Hc2)).
  assert (Hll := lower_len d (cur d) p n Hch ltac:(lia) Hn (proj2 Hc2)).
  pose proof (lower_chars (C := C) d (cur d) p n Hch) as Hlc.
  assert (Hup : zlen (upper (C := C) d (cur d) p) = cut_at (C := C) d (cur d) p) by (apply ztake_len; lia).
  assert (Huc : text_chars (upper (C := C) d (cur d) p)) by (by apply chars_take).
  unfold d_split. case_if E; [lia|]. unfold cut_above. case_if Ea.
  - unfold d_adjust. apply doc_w_row. constructor; try done.
    + apply list.Forall_app. split; [done|]. apply list.Forall_cons. split; [by apply line_ok_of; [|lia]|done].
    + cbn [cur pnt w_text w_pnt w_row]. case_if Ef; lia.
  - constructor; try done.
    + apply list.Forall_cons. split; [by apply line_ok_of|done].
    + cbn [cur w_text]. lia.
    + cbn [cur pnt w_text]. lia.
Qed.

(** A space after the word does not fill the line. *)
Definition wrap_sp (above ww : bool) (extra p : Z) (t : list Z) : list Z :=
  if ww && (1 <=? zlen t) && (zlen t + 1 + extra <? WRAPMARGIN) && negb (above && (p =? zlen t)) &&
     negb (cchar t (zlen t - 1) =? 32) then t ++ [32] else t.

Lemma wrap_sp_ok above ww extra p t : line_ok t -> 0 <= extra ->
  line_ok (wrap_sp above ww extra p t) /\ zlen t <= zlen (wrap_sp above ww extra p t) /\
  (zlen (wrap_sp above ww extra p t) = zlen t \/
    ww = true /\ zlen (wrap_sp above ww extra p t) + extra <= WRAPMARGIN - 1).
Proof.
  intros [Hc Hl] He. unfold wrap_sp. destruct (_ && _ && _ && _ && _) eqn:E.
  - zbool. rewrite zlen_app. change (zlen [32]) with 1. split; [|split; [lia|right; split; [by destruct ww|lia]]]. split.
    + apply list.Forall_app. split; [done|]. constructor; [unfold is_u8; lia|done].
    + rewrite zlen_app. change (zlen [32]) with 1. lia.
  - split; [by split|]. split; [lia|by left].
Qed.

Lemma d_wrap_space_eq above ww extra d :
  d_wrap_space above ww extra d =
  if above then w_text (up d) (wrap_sp true ww extra (pnt d) (cur d)) (dn d) d
  else match dn d with [] => d | n :: ds => w_text (up d) (cur d) (wrap_sp false ww extra (pnt d) n :: ds) d end.
Proof. by destruct above. Qed.

Lemma doc_wrap_space above ww extra d : doc_ok d -> 0 <= extra -> doc_ok (d_wrap_space above ww extra d).
Proof.
  intros Hd He. rewrite d_wrap_space_eq. pose proof (doc_ok_cur _ Hd) as Hc. destruct above.
  - destruct (wrap_sp_ok true ww extra (pnt d) (cur d) Hc He) as ([Hch Hl] & Hle & _). pose proof (ok_pnt _ _ Hd).
    apply doc_w_cur with (WRAPMARGIN - 1); try (done || lia).
  - destruct Hd as [Hu Hdn Hch Hl Hdel Hpnt Hr]. destruct (dn d) as [|n ds] eqn:E; [by constructor; rewrite ?E|].
    apply list.Forall_cons in Hdn as [Hn Hds]. pose proof (proj1 (wrap_sp_ok false ww extra (pnt d) n Hn He)).
    constructor; try done. by apply list.Forall_cons.
Qed.

Lemma wrap_cut_ok t d : text_chars t -> zlen t = WRAPMARGIN ->
  let '(ww, p) := wrap_cut (C := C) t in
  0 < p <= zlen t /\ 1 <= cut_at (C := C) d t p <= WRAPMARGIN - 1.
Proof.
  intros Hc Hz. unfold wrap_cut. destruct (wrap_of_ok t [] (zlen t - 1)) as (_ & Hi & Hw); [unfold WRAPMARGIN in *; lia|].
  set (i := wrap_of t (zlen t - 1)) in *.
  assert (Hcut : forall p, WRAPMARGIN - 4 <= p <= WRAPMARGIN - 1 -> 1 <= cut_at (C := C) d t p <= WRAPMARGIN - 1).
  { intros p Hp. pose proof (cut_at_ok (C := C) d t p Hc ltac:(unfold WRAPMARGIN in *; lia)) as [? Hq].
    specialize (Hq ltac:(lia)). unfold WRAPMARGIN in *. lia. }
  case_if E.
  - pose proof (fixp_left (C := C) t (zlen t - 1) Hc ltac:(unfold WRAPMARGIN in *; lia)) as [? Hq].
    specialize (Hq ltac:(lia)). split; [unfold WRAPMARGIN in *; lia|]. apply Hcut. lia.
  - zbool. destruct Hw as [? Hsp]; [lia|]. split; [lia|].
    rewrite (cut_at_space (C := C)) by (done || lia || (replace (i + 1 - 1) with i by lia; done)). lia.
Qed.

Lemma doc_put m d ch : doc_w m d -> is_u8 ch -> ch <> 0 -> doc_w (m + 1) (d_put ch d) /\
  zlen (cur (d_put ch d)) = zlen (cur d) + 1 /\ pnt (d_put ch d) = pnt d + 1.
Proof.
  intros Hd Hch Hch0. pose proof Hd as [Hu Hdn Hc Hl Hdel Hpnt Hr].
  assert (Hz : zlen (cur (d_put ch d)) = zlen (cur d) + 1).
  { cbn [cur d_put w_pnt w_text]. rewrite zlen_app, zlen_cons, ztake_len, zdrop_len by lia. lia. }
  split; [|done]. cbn [cur d_put w_pnt w_text] in Hz. apply doc_w_text with m; try (done || lia).
  assert (Eu8 : u8 ch = ch) by (unfold u8, is_u8 in *; by apply Z.mod_small). rewrite Eu8.
  apply list.Forall_app. split; [by apply chars_take|]. constructor; [done|by apply chars_drop].
Qed.

(** The line cut is not full afterwards. *)
Lemma doc_full_split d p : doc_w WRAPMARGIN d -> zlen (cur d) = WRAPMARGIN -> 0 < p <= zlen (cur d) ->
  1 <= cut_at (C := C) d (cur d) p <= WRAPMARGIN - 1 ->
  zlen (lower (C := C) d (cur d) p 0) <= WRAPMARGIN - 1 /\ doc_ok (d_split (C := C) p 0 d).
Proof.
  intros Hd Hz Hp Hc. pose proof (ok_chars _ _ Hd) as Hch.
  assert (Hlow : zlen (lower (C := C) d (cur d) p 0) <= WRAPMARGIN - 1).
  { assert (Hle : cut_at (C := C) d (cur d) p <= zlen (cur d)) by lia.
    pose proof (cut_from_ok d (cur d) p Hch ltac:(lia) Hle). rewrite lower_len by (done || lia). lia. }
  split; [done|]. by apply doc_split with WRAPMARGIN; try lia.
Qed.

Lemma doc_raw_insert d ch : doc_ok d -> is_u8 ch -> ch <> 0 -> doc_ok (d_raw_insert (C := C) ch d).
Proof.
  intros Hd Hch Hch0. unfold d_raw_insert.
  destruct (doc_put _ _ ch (doc_w_blk _ _ None Hd) Hch Hch0) as (Hd1 & Hz & _). fold (d_cancel d) in *.
  set (d1 := d_put ch (d_cancel d)) in *. pose proof (ok_len _ _ Hd1) as Hl.
  case_if E; [by constructor; destruct Hd1; try done; lia|].
  pose proof (wrap_cut_ok (cur d1) d1 (ok_chars _ _ Hd1) ltac:(lia)) as Hcut. destruct (wrap_cut (cur d1)) as [ww p].
  destruct Hcut as [Hp Hcut]. apply doc_wrap_space; [|done]. apply doc_full_split; try done || lia.
Qed.

(** The line of the cursor is cut, and the lower half gets its space. *)
Lemma split_wrap_ok bx s d p ww extra : Rb bx s d -> doc_w WRAPMARGIN d -> 0 <= row d -> 0 <= p <= zlen (cur d) ->
  zlen (lower (C := C) d (cur d) p 0) <= WRAPMARGIN -> 0 <= extra ->
  exists s', ('(s, q) ← split (C := C) (currline s) p 0 s; t ← get q s; wrap_space ww (next t) extra s) = Some s' /\
    Rb false s' (d_wrap_space (cut_above (C := C) d p) ww extra (d_split (C := C) p 0 d)).
Proof.
  intros (us & c & ds & dl & R) Hd Hr Hp Hlow Hex.
  destruct (split_cur_ok (C := C) _ _ _ _ _ _ _ p 0 R Hr (doc_height _ _ Hd)) as (s2 & us' & c' & ds' & q & E2 & R2 & Hq);
    [lia|lia|lia|]. rewrite E2. cbn [mbind option_bind].
  destruct (cut_above (C := C) d p) eqn:Ea.
  - destruct Hq as [rq ->]. rewrite (next_at _ _ _ _ _ _ _ _ _ us q rq (c' :: ds') R2) by (by rewrite <- app_assoc).
    cbn [mbind option_bind cell next head_ptr]. destruct c' as [p' r'].
    destruct (wrap_space_ok _ s2 _ (p', r') ds' dl _ true ww extra R2 Hex) as (s3 & E3 & R3); [done|]. exists s3. by split; [exact E3|].
  - destruct Hq as (-> & <- & Hne). destruct c' as [p' r']. cbn [fst].
    rewrite (next_at _ _ _ _ _ _ _ _ _ us p' r' ds' R2 eq_refl). cbn [mbind option_bind cell next].
    destruct (wrap_space_ok _ s2 _ (p', r') ds' dl _ false ww extra R2 Hex) as (s3 & E3 & R3); [done|]. exists s3. by split; [exact E3|].
Qed.

Lemma d_split_blk d p n : blk (d_split (C := C) p n d) = blk d.
Proof. unfold d_split. case_if E; [done|]. by destruct (cut_above d p). Qed.

Lemma d_wrap_space_blk d above ww extra : blk (d_wrap_space above ww extra d) = blk d.
Proof. rewrite d_wrap_space_eq. destruct above; [done|]. by destruct (dn d). Qed.

Lemma raw_insert_ok bx s d ch : Rb bx s d -> doc_ok d -> 0 <= row d -> is_u8 ch -> ch <> 0 ->
  exists s', raw_insert_char (C := C) ch s = Some s' /\ Rb true s' (d_raw_insert (C := C) ch d).
Proof.
  intros R Hd Hrow Hch Hch0. pose proof (doc_ok_cur _ Hd) as [_ Hlt].
  destruct (raw_put_ok _ _ _ ch R (ok_pnt _ _ Hd) Hlt Hch Hch0) as (s1 & E1 & R1).
  destruct (doc_put _ _ ch (doc_w_blk _ _ None Hd) Hch Hch0) as (Hd1 & Hz & _). fold (d_cancel d) in *.
  unfold raw_insert_char, d_raw_insert. rewrite E1. cbn [mbind option_bind].
  set (d1 := d_put ch (d_cancel d)) in *. assert (Hrow1 : 0 <= row d1) by done. assert (Hb1 : blk d1 = None) by done.
  replace (WRAPMARGIN - 1 + 1) with WRAPMARGIN in Hd1 by lia. clearbody d1. clear E1 Hlt R Hd Hz Hrow d.
  destruct (Rb_cur _ _ _ R1) as (p & r & pv & nx & Ec & Eg & Et & Hok & Em & _ & _ & _ & Epnt & Hcc).
  rewrite Ec, Eg. cbn [mbind option_bind cell len data]. rewrite Et. pose proof (ok_len _ _ Hd1) as Hlen.
  case_if E; [by exists s1|]. pose proof (wrap_cut_ok (cur d1) d1 Hcc ltac:(lia)) as Hcut. unfold wrap_cut in *.
  destruct (wrap_of_ok (cur d1) (0 :: slack r) (zlen (cur d1) - 1)) as (-> & _); [unfold WRAPMARGIN in *; lia|].
  cbn [mbind option_bind]. set (i := wrap_of (cur d1) (zlen (cur d1) - 1)) in *.
  assert (Ed0 : c_str (cur d1 ++ 0 :: slack r) 0 = Some (cur d1)) by (apply c_str_at; by apply text_c_string).
  rewrite Ed0. cbn [mbind option_bind].
  rewrite (proj1 (fixp_ok (C := C) (cur d1) (zlen (cur d1) - 1) FC_LEFT Hcc ltac:(unfold WRAPMARGIN in *; lia))). cbn [mbind option_bind].
  match type of Hcut with let '(_, _) := ?x in _ => set (wp := x) in * end.
  match goal with |- context [mbind ?f (if ?c then Some ?x else Some ?y)] =>
    replace (if c then Some x else Some y) with (Some wp) by (unfold wp; by destruct c) end.
  clearbody wp. destruct wp as [ww sp]. destruct Hcut as [Hsp Hcut]. cbn [mbind option_bind].
  destruct (doc_full_split d1 sp Hd1 ltac:(lia) Hsp Hcut) as [Hlow Hd2]. rewrite <- Ec.
  destruct (split_wrap_ok true s1 d1 sp ww 0 R1 Hd1 Hrow1) as (s2 & -> & R2); [lia|lia|lia|].
  exists s2. split; [done|]. apply Rb_exact with false; [done|]. by rewrite d_wrap_space_blk, d_split_blk.
Qed.

Lemma d_raw_insert_row d ch : 1 <= height d -> 0 <= row d -> 0 <= row (d_raw_insert (C := C) ch d).
Proof.
  intros Hh Hr. unfold d_raw_insert. set (d1 := d_put ch (d_cancel d)).
  assert (Hr1 : 0 <= row d1) by done. assert (Hh1 : 1 <= height d1) by done. clearbody d1.
  case_if E; [done|]. destruct (wrap_cut (cur d1)) as [ww p].
  assert (Hr2 : 0 <= row (d_split (C := C) p 0 d1)).
  { unfold d_split. case_if E1; [done|]. destruct (cut_above d1 p); [|done]. unfold d_adjust. cbn [row w_row w_pnt].
    change (height _) with (height d1). case_if E2; [done|]. case_if E3; lia. }
  rewrite d_wrap_space_eq. destruct (cut_above d1 p); [done|]. by destruct (dn _).
Qed.

(** *** Typing over *)

(** The state between two keys, but for the window, which is adjusted last. *)
Definition Okb (bx : bool) (s : editor) (d : doc) : Prop := Rb bx s d /\ doc_ok d /\ 0 <= row d.
Definition Ok : editor -> doc -> Prop := Okb true.

(** Typing over a character never cuts a line that has room for the widest one. *)
Definition room (d : doc) : Prop := ins d = true \/ zlen (cur d) <= WRAPMARGIN - 6.

Lemma raw_insert_Ok bx s d ch : Okb bx s d -> is_u8 ch -> ch <> 0 ->
  exists s', raw_insert_char (C := C) ch s = Some s' /\ Ok s' (d_raw_insert (C := C) ch d).
Proof.
  intros (R & Hd & Hr) Hch Hch0. destruct (raw_insert_ok _ _ _ ch R Hd Hr Hch Hch0) as (s' & E & R').
  exists s'. split; [done|]. split; [done|]. split; [by apply doc_raw_insert|].
  apply d_raw_insert_row; [by apply doc_height with (WRAPMARGIN - 1)|done].
Qed.

Lemma raw_insert_small d ch : doc_ok d -> zlen (cur d) < WRAPMARGIN - 1 -> is_u8 ch -> ch <> 0 ->
  d_raw_insert (C := C) ch d = d_put ch (d_cancel d) /\ zlen (cur (d_put ch (d_cancel d))) = zlen (cur d) + 1.
Proof.
  intros Hd Hl Hch Hch0. destruct (doc_put _ _ ch (doc_w_blk _ _ None Hd) Hch Hch0) as (Hd1 & Hz & _).
  fold (d_cancel d) in *. change (cur (d_cancel d)) with (cur d) in Hz. unfold d_raw_insert. rewrite Hz.
  by replace (zlen (cur d) + 1 <? WRAPMARGIN) with true by lia.
Qed.

Lemma d_ansi_fix_frame d : let d' := d_ansi_fix (C := C) wc d in
  row d' = row d /\ ins d' = ins d /\ mbcs d' = mbcs d /\ ansi d' = ansi d.
Proof. unfold d_ansi_fix. destruct (ansi d) eqn:E; cbn; by rewrite ?E. Qed.

Lemma doc_ansi_fix d : doc_ok d -> doc_ok (d_ansi_fix (C := C) wc d).
Proof.
  intros Hd. pose proof Hd as [Hu Hdn Hch Hl Hdel Hpnt Hr]. pose proof (d_ansi_fix_pnt wc wc_le d Hch Hpnt) as Hp.
  unfold d_ansi_fix in *. destruct (ansi d); [|done]. by apply doc_w_pnt.
Qed.

Lemma ansi_fix_Ok s d : Ok s d -> exists s', ansi_fix (C := C) wc s = Some s' /\ Ok s' (d_ansi_fix (C := C) wc d).
Proof.
  intros (R & Hd & Hr). destruct (ansi_fix_ok wc wc_le _ _ _ R) as (s' & E & R'). exists s'. split; [done|].
  split; [done|]. split; [by apply doc_ansi_fix|]. by rewrite (proj1 (d_ansi_fix_frame d)).
Qed.

Lemma doc_delete n d : doc_ok d -> 0 <= n -> pnt d + n <= zlen (cur d) ->
  doc_ok (d_delete n d) /\ zlen (cur (d_delete n d)) = zlen (cur d) - n.
Proof.
  intros Hd Hn Hp. pose proof Hd as [Hu Hdn Hch Hl Hdel Hpnt Hr].
  assert (Hz : zlen (cur (d_delete n d)) = zlen (cur d) - n).
  { cbn [cur d_delete w_text]. rewrite zlen_app, ztake_len, zdrop_len by lia. lia. }
  split; [|done]. cbn [cur d_delete w_text] in Hz. apply doc_w_cur with (WRAPMARGIN - 1); try done; [|lia|lia].
  apply list.Forall_app. split; [by apply chars_take|by apply chars_drop].
Qed.

Lemma doc_fix d dir : doc_ok d -> doc_ok (d_fix (C := C) dir d).
Proof.
  intros Hd. apply doc_w_pnt; [done|]. apply fixp_ok; [apply Hd|]. by destruct (ok_pnt _ _ Hd).
Qed.

Lemma doc_del_currchar d : doc_ok d -> let d' := (d_del_currchar (C := C) wc d).1 in
  doc_ok d' /\ zlen (cur d') <= zlen (cur d) /\ row d' = row d /\ ins d' = ins d /\ mbcs d' = mbcs d /\ ansi d' = ansi d.
Proof.
  intros Hd. unfold d_del_currchar. pose proof (doc_ansi_fix d Hd) as Hd1.
  pose proof (d_ansi_fix_frame d) as (F1 & F2 & F3 & F4). pose proof (d_ansi_fix_cur wc d) as Ec.
  set (d1 := d_ansi_fix (C := C) wc d) in *. clearbody d1. cbn zeta. case_if E; [cbn [fst]; rewrite Ec; split_and!; done|].
  cbn [fst]. set (d2 := if mbcs d1 then d_fix (C := C) FC_LEFT d1 else d1).
  assert (Hd2 : doc_ok d2 /\ cur d2 = cur d1 /\ pnt d2 < zlen (cur d1) /\ row d2 = row d1 /\ ins d2 = ins d1 /\ mbcs d2 = mbcs d1 /\ ansi d2 = ansi d1).
  { unfold d2. destruct (mbcs d1) eqn:Em; [|split_and!; done]. split; [by apply doc_fix|]. cbn. split_and!; try done.
    pose proof (fixp_left (C := C) (cur d1) (pnt d1) (ok_chars _ _ Hd1) (proj1 (ok_pnt _ _ Hd1))). lia. }
  destruct Hd2 as (Hd2 & Ec2 & Hp2 & G1 & G2 & G3 & G4).
  assert (Hz : zlen (zdrop (pnt d2) (cur d2)) = zlen (cur d2) - pnt d2) by (apply zdrop_len; destruct (ok_pnt _ _ Hd2); lia).
  assert (Hw : 1 <= (if mbcs d2 then bytes_of (C := C) (zdrop (pnt d2) (cur d2)) else 1) <= zlen (cur d2) - pnt d2).
  { destruct (mbcs d2); [|rewrite Ec2 in *; lia]. rewrite <- Hz. apply bytes_of_ok; [apply chars_drop, Hd2|].
    intros E0. rewrite E0, Ec2 in Hz. change (zlen []) with 0 in Hz. lia. }
  fold d2. clearbody d2. match type of Hw with 1 <= ?x <= _ => set (w := x) in * end.
  destruct (doc_delete w d2 Hd2) as [Hd3 Hz3]; [lia|lia|]. rewrite Hz3, Ec2, Ec. split_and!; try done; [lia|..].
  all: cbn; by rewrite ?G1, ?G2, ?G3, ?G4.
Qed.

Lemma del_currchar_Ok s d : Ok s d ->
  exists s', del_currchar (C := C) wc s = Some (s', (d_del_currchar (C := C) wc d).2) /\
    Ok s' (d_del_currchar (C := C) wc d).1.
Proof.
  intros (R & Hd & Hr). destruct (del_currchar_ok wc wc_le _ _ _ R (ok_pnt _ _ Hd)) as (s' & E & R').
  destruct (doc_del_currchar d Hd) as (Hd' & _ & Hrow & _). exists s'. split; [done|]. split; [done|]. split; [done|]. lia.
Qed.

(** A character in a line with room for it. *)
Lemma put_Ok bx s d ch : Okb bx s d -> zlen (cur d) < WRAPMARGIN - 1 -> is_u8 ch -> ch <> 0 ->
  exists s', raw_insert_char (C := C) ch s = Some s' /\ Ok s' (d_raw_insert (C := C) ch d) /\
    zlen (cur (d_raw_insert (C := C) ch d)) = zlen (cur d) + 1 /\ pnt (d_raw_insert (C := C) ch d) = pnt d + 1 /\
    ins (d_raw_insert (C := C) ch d) = ins d.
Proof.
  intros Ho Hl Hch Hch0. destruct (raw_insert_Ok _ s d ch Ho Hch Hch0) as (s' & E & Ho').
  destruct Ho as (_ & Hd & _). destruct (raw_insert_small d ch Hd Hl Hch Hch0) as [Ed Hz].
  exists s'. rewrite !Ed in *. split_and!; try done.
Qed.

Lemma pad_Ok s d new_width old_width : Ok s d -> zlen (cur d) < WRAPMARGIN - 1 ->
  exists s', pad_width (C := C) new_width old_width s = Some s' /\ Ok s' (d_pad (C := C) new_width old_width d).
Proof.
  intros Ho Hl. unfold pad_width, d_pad. case_if E; [|by exists s].
  destruct (put_Ok _ s d 32 Ho Hl) as (s' & -> & (R & Hd & Hr) & Hz & Hp & _); [unfold is_u8; lia|done|].
  cbn [mbind option_bind]. eexists. split; [reflexivity|].
  destruct (Rb_cur _ _ _ R) as (_ & _ & _ & _ & _ & _ & _ & _ & _ & _ & _ & _ & -> & _).
  split; [by apply Rb_pnt|]. split; [|done]. apply doc_w_pnt; [done|].
  destruct Ho as (_ & Hd0 & _). pose proof (ok_pnt _ _ Hd0). lia.
Qed.

Lemma Ok_ins s d : Ok s d -> insert_mode s = ins d.
Proof. intros (R & _). by destruct (Rb_cur _ _ _ R) as (? & ? & ? & ? & ? & ? & ? & ? & ? & ? & ? & _). Qed.

Lemma d_raw_insert_ins d ch : ins (d_raw_insert (C := C) ch d) = ins d.
Proof.
  unfold d_raw_insert. set (d1 := d_put ch (d_cancel d)). case_if E; [done|]. destruct (wrap_cut (cur d1)) as [ww p].
  assert (E2 : ins (d_split (C := C) p 0 d1) = ins d).
  { unfold d_split. case_if E1; [done|]. by destruct (cut_above d1 p). }
  rewrite d_wrap_space_eq. destruct (cut_above d1 p); [done|]. by destruct (dn _).
Qed.

Lemma insert_char_Ok s d ch : Ok s d -> room d -> is_u8 ch -> ch <> 0 ->
  exists s', insert_char (C := C) wc ch s = Some s' /\ Ok s' (d_insert_char (C := C) wc ch d).
Proof.
  intros Ho Hroom Hch Hch0. unfold insert_char, d_insert_char. rewrite (Ok_ins _ _ Ho). destruct (ins d) eqn:Ei.
  - cbn [mbind option_bind]. destruct (raw_insert_Ok _ s d ch Ho Hch Hch0) as (s' & -> & Ho'). cbn [mbind option_bind].
    rewrite (Ok_ins _ _ Ho'), d_raw_insert_ins, Ei. by exists s'.
  - destruct Hroom as [?|Hroom]; [congruence|].
    destruct (del_currchar_Ok s d Ho) as (s1 & -> & Ho1). cbn [mbind option_bind].
    destruct (doc_del_currchar d) as (_ & Hl & _ & Hi & _); [apply Ho|].
    destruct (d_del_currchar (C := C) wc d) as [d1 ow]. cbn [fst snd] in *.
    destruct (put_Ok _ s1 d1 ch Ho1) as (s2 & -> & Ho2 & Hz & _ & Hi2); [lia|done|done|]. cbn [mbind option_bind].
    rewrite (Ok_ins _ _ Ho2), Hi2, Hi, Ei.
    assert (Ecs : cstring [u8 ch; 0] = [ch]).
    { unfold u8, is_u8 in *. rewrite Z.mod_small by done. cbn. by replace (ch =? 0) with false by lia. }
    rewrite Ecs. unfold stream_width. change (cchar [ch] 0) with ch. replace (ch =? 0) with false by lia.
    rewrite (width_of_ok wc wc_le [ch]) by (by constructor; [|constructor]). cbn [mbind option_bind].
    destruct (pad_Ok s2 _ (width_of (C := C) wc [ch] (zlen [ch])) ow Ho2) as (s3 & -> & Ho3); [lia|]. cbn [mbind option_bind].
    by apply ansi_fix_Ok.
Qed.

(** *** Characters of several bytes *)

Lemma d_split_frame d p n : let d' := d_split (C := C) p n d in
  ins d' = ins d /\ mbcs d' = mbcs d /\ (1 <= height d -> 0 <= row d -> 0 <= row d').
Proof.
  unfold d_split. case_if E; [done|]. destruct (cut_above d p); [|done]. cbn. split_and!; try done.
  intros Hh Hr. unfold d_adjust. cbn [row w_row w_pnt]. change (height _) with (height d).
  case_if E2; [done|]. case_if E3; lia.
Qed.

Lemma d_wrap_space_frame d above ww extra : let d' := d_wrap_space above ww extra d in
  ins d' = ins d /\ mbcs d' = mbcs d /\ row d' = row d.
Proof. rewrite d_wrap_space_eq. destruct above; [done|]. by destruct (dn d). Qed.

Lemma dchar_cut_ok w d : doc_ok d -> 1 <= w <= 4 -> WRAPMARGIN <= zlen (cur d) + w ->
  let t := cur d in
  let ms := if pnt d =? zlen t then zlen t else WRAPMARGIN - 1 - w in
  let extra := if wrap_of t (ms - 1) + 1 <=? pnt d then w else 0 in
  let '(ww, p) := dchar_cut (C := C) w d in
  1 <= ms <= zlen t /\ 0 <= p <= zlen t /\
  (if cut_above (C := C) d p then
     forall sp, sp <= zlen t - cut_at (C := C) d t p \/ (ww = true /\ sp + extra <= WRAPMARGIN - 1) -> sp + w <= WRAPMARGIN - 1
   else cut_at (C := C) d t p + w <= WRAPMARGIN - 1) /\
  zlen t - cut_at (C := C) d t p <= WRAPMARGIN - 1.
Proof.
  intros Hd Hw Hz t ms extra. pose proof Hd as [_ _ Hch Hl _ Hpnt _]. fold t in Hch, Hl, Hpnt, Hz.
  assert (HW : WRAPMARGIN = 511) by done.
  assert (Hms : 506 <= ms <= zlen t) by (unfold ms; case_if E; lia).
  destruct (wrap_of_ok t [] (ms - 1)) as (_ & Hi & Hsp); [lia|].
  unfold dchar_cut. fold t. fold ms. fold extra. set (i := wrap_of t (ms - 1)) in *.
  unfold cut_above. fold t. case_if E.
  - assert (Hcut : forall p, ms - 3 <= p <= ms -> ms < zlen t \/ p = zlen t ->
      0 <= p <= zlen t /\ ms - 6 <= cut_at (C := C) d t p <= ms /\ (p = zlen t -> cut_at (C := C) d t p = zlen t)).
    { intros p Hp Hor. pose proof (cut_at_ok (C := C) d t p Hch) as Hca. destruct Hca as [Hc1 Hc2]; [lia|].
      split_and!; try lia. intros ->. unfold cut_at. replace (zlen t <? zlen t) with false by lia. by rewrite andb_false_r. }
    clear E Hsp Hi. revert Hcut Hms. unfold ms. case_if Ep; intros Hcut Hms.
    + destruct (Hcut (zlen t)) as (? & _ & Ec); [lia..|]. rewrite Ec by done. replace (zlen t <=? pnt d) with true by lia.
      split_and!; lia.
    + pose proof (fixp_left (C := C) t (WRAPMARGIN - 1 - w) Hch ltac:(lia)) as [Hf1 Hf2]. specialize (Hf2 ltac:(lia)).
      destruct (Hcut (fixp (C := C) t (WRAPMARGIN - 1 - w) FC_LEFT)) as (? & Ec & _); [lia..|].
      split_and!; try lia. case_if Ea; [|lia]. intros sp [?|[? _]]; [lia|done].
  - assert (i <> 0 /\ zlen t - (i + 1) + 1 + extra < WRAPMARGIN) as [Hi0 Hfit] by (zbool; lia). destruct (Hsp Hi0) as [Hlt Hc32].
    rewrite (cut_at_space (C := C)) by (done || lia || (replace (i + 1 - 1) with i by lia; done)).
    split_and!; try lia. unfold extra in *. case_if Ea; [intros sp [?|[_ ?]]; lia|]. revert Hlt Hms. unfold ms. case_if Ep; lia.
Qed.

Lemma doc_dchar_split d w : doc_ok d -> 1 <= w <= 4 -> 0 <= row d ->
  let d' := d_dchar_split (C := C) w d in
  doc_ok d' /\ zlen (cur d') + w <= WRAPMARGIN - 1 /\ 0 <= row d' /\ ins d' = ins d.
Proof.
  intros Hd Hw Hr. unfold d_dchar_split. cbn zeta. case_if E; [split_and!; done || lia|].
  pose proof (dchar_cut_ok w d Hd Hw E) as Hcut. cbn zeta in Hcut.
  set (ms := if pnt d =? zlen (cur d) then zlen (cur d) else WRAPMARGIN - 1 - w) in *.
  set (ex := if wrap_of (cur d) (ms - 1) + 1 <=? pnt d then w else 0) in *.
  assert (Hex : 0 <= ex) by (unfold ex; case_if Ee; lia).
  destruct (dchar_cut (C := C) w d) as [ww p]. destruct Hcut as (_ & Hp & Habove & Hlow).
  pose proof (ok_chars _ _ Hd) as Hch. pose proof (ok_len _ _ Hd) as Hl.
  pose proof (cut_at_ok (C := C) d (cur d) p Hch (proj1 Hp)) as [Hc1 Hc2]. specialize (Hc2 (proj2 Hp)).
  assert (Hf := cut_from_ok d (cur d) p Hch (proj1 Hp) (proj2 Hc2)).
  assert (Hll := lower_len d (cur d) p 0 Hch (proj1 Hp) ltac:(lia) (proj2 Hc2)).
  assert (Hd2 : doc_ok (d_split (C := C) p 0 d)) by (apply doc_split with (WRAPMARGIN - 1); lia || done).
  destruct (d_split_frame d p 0) as (F1 & F2 & F3). destruct (d_wrap_space_frame (d_split (C := C) p 0 d) (cut_above (C := C) d p) ww ex) as (G1 & G2 & G3).
  assert (Hd3 : doc_ok (d_wrap_space (cut_above (C := C) d p) ww ex (d_split (C := C) p 0 d))) by (by apply doc_wrap_space).
  set (d3 := d_wrap_space _ _ _ _) in *.
  assert (Hz : zlen (cur d3) + w <= WRAPMARGIN - 1).
  { unfold d3. rewrite d_wrap_space_eq. revert Habove. unfold d_split. replace (zlen (cur d) <? _) with false by lia.
    destruct (cut_above (C := C) d p); intros Habove; cbn [cur w_text d_adjust w_row w_pnt pnt dn].
    - match goal with |- context [wrap_sp true ww ex ?x _] => set (pos := x) end.
      destruct (wrap_sp_ok true ww ex pos (lower (C := C) d (cur d) p 0)) as (_ & _ & Hor);
        [split; [by apply lower_chars|lia]|done|]. apply Habove. destruct Hor as [->|Hor]; [left; lia|by right].
    - unfold upper. rewrite ztake_len; lia. }
  unfold d_fix_in. destruct (mbcs d3 && (pnt d3 <? zlen (cur d3))); [|split_and!; try done; [|congruence]].
  2: { rewrite G3. apply F3; [by apply doc_height with (WRAPMARGIN - 1)|done]. }
  split; [by apply doc_fix|]. cbn. split_and!; try done; [|congruence]. rewrite G3. apply F3; [by apply doc_height with (WRAPMARGIN - 1)|done].
Qed.

Lemma fix_in_ok bx s d : Rb bx s d -> 0 <= pnt d ->
  exists s', (t ← get (currline s) s; if mbcs_mode s && (currpnt s <? len t) then fix_currpnt (C := C) FC_LEFT s else Some s) = Some s' /\
    Rb bx s' (d_fix_in (C := C) d).
Proof.
  intros R Hp. destruct (Rb_cur _ _ _ R) as (p & r & pv & nx & Ec & Eg & Et & _ & Em & _ & _ & _ & Epnt & _).
  rewrite Ec, Eg. cbn [mbind option_bind cell len]. rewrite Em, Epnt, Et. unfold d_fix_in.
  destruct (mbcs d && (pnt d <? zlen (cur d))); [by apply fix_currpnt_ok|by exists s].
Qed.

Lemma dchar_split_ok bx s d w : Okb bx s d -> 1 <= w <= 4 ->
  exists s', dchar_split (C := C) w s = Some s' /\ Okb false s' (d_dchar_split (C := C) w d).
Proof.
  intros (R & Hd & Hr) Hw. destruct (doc_dchar_split d w Hd Hw Hr) as (Hd' & _ & Hr' & _).
  assert (Hs : exists s', dchar_split (C := C) w s = Some s' /\ Rb false s' (d_dchar_split (C := C) w d));
    [|destruct Hs as (s' & E & R'); by exists s'].
  clear Hr'. revert Hd'. destruct (Rb_cur _ _ _ R) as (p & r & pv & nx & Ec & Eg & Et & Hok & Em & _ & _ & _ & Epnt & Hcc).
  unfold dchar_split, d_dchar_split. rewrite Ec, Eg. cbn [mbind option_bind cell len data]. rewrite Et, Epnt.
  case_if E; [intros _; exists s; split; [done|by apply Rb_weak with bx]|].
  pose proof (dchar_cut_ok w d Hd Hw E) as Hcut. cbn zeta in Hcut. unfold dchar_cut in *.
  set (ms := if pnt d =? zlen (cur d) then zlen (cur d) else WRAPMARGIN - 1 - w) in *.
  assert (Hms : 1 <= ms <= zlen (cur d)) by (by case_match; destruct Hcut).
  destruct (wrap_of_ok (cur d) (0 :: slack r) (ms - 1)) as (-> & _); [lia|]. cbn [mbind option_bind].
  set (i := wrap_of (cur d) (ms - 1)) in *. set (ex := if i + 1 <=? pnt d then w else 0) in *.
  assert (Hex : 0 <= ex) by (unfold ex; case_if Ee; lia).
  rewrite c_str_at by (by apply text_c_string). cbn [mbind option_bind].
  rewrite (proj1 (fixp_ok (C := C) (cur d) ms FC_LEFT Hcc ltac:(lia))). cbn [mbind option_bind].
  match type of Hcut with let '(_, _) := ?x in _ => set (wp := x) in * end.
  match goal with |- context [mbind ?f (if ?c then (if ?c2 then Some ?x else Some ?y) else Some ?z)] =>
    replace (if c then (if c2 then Some x else Some y) else Some z) with (Some wp)
      by (unfold wp, ms; destruct c; [by destruct c2|done]) end.
  clearbody wp. destruct wp as [ww sp]. destruct Hcut as (_ & Hsp & _ & Hlow). cbn [mbind option_bind]. intros _.
  pose proof (cut_at_ok (C := C) d (cur d) sp Hcc (proj1 Hsp)) as [_ Hc2]. specialize (Hc2 (proj2 Hsp)).
  assert (Hf := cut_from_ok d (cur d) sp Hcc (proj1 Hsp) (proj2 Hc2)).
  assert (Hll := lower_len d (cur d) sp 0 Hcc (proj1 Hsp) ltac:(lia) (proj2 Hc2)).
  destruct (split_wrap_ok bx s d sp ww ex R) as (s2 & E2 & R2); [by apply doc_w_le with (WRAPMARGIN - 1); [|lia]|done|done|lia|done|].
  assert (Hd3 : doc_ok (d_wrap_space (cut_above (C := C) d sp) ww ex (d_split (C := C) sp 0 d))).
  { apply doc_wrap_space; [|done]. pose proof (ok_len _ _ Hd). apply doc_split with (WRAPMARGIN - 1); lia || done. }
  rewrite <- Ec. revert E2. destruct (split (C := C) (currline s) sp 0 s) as [[s3 q]|]; [|done]. cbn [mbind option_bind].
  destruct (get q s3) as [t3|]; [|done]. cbn [mbind option_bind]. intros ->. cbn [mbind option_bind].
  apply fix_in_ok; [done|]. by destruct (ok_pnt _ _ Hd3).
Qed.

Lemma insert_bytes_ok bs : forall bx s d, Okb bx s d -> text_chars bs -> zlen (cur d) + zlen bs <= WRAPMARGIN - 1 ->
  exists s', insert_bytes (C := C) bs s = Some s' /\ Okb (bx || negb (bool_decide (bs = []))) s' (d_insert_bytes (C := C) bs d) /\
    zlen (cur (d_insert_bytes (C := C) bs d)) = zlen (cur d) + zlen bs /\
    ins (d_insert_bytes (C := C) bs d) = ins d.
Proof.
  induction bs as [|b bs IH]; intros bx s d Ho Hb Hl.
  - exists s. rewrite orb_false_r. split_and!; try done. cbn. change (zlen []) with 0. lia.
  - apply list.Forall_cons in Hb as [[Hb Hb0] Hbs]. rewrite zlen_cons in Hl |- *. pose proof (zlen_nonneg bs).
    cbn [insert_bytes d_insert_bytes fold_left]. fold (d_insert_bytes (C := C) bs).
    destruct (put_Ok _ s d b Ho) as (s1 & -> & Ho1 & Hz & _ & Hi); [lia|done|done|]. cbn [mbind option_bind].
    destruct (IH true s1 _ Ho1 Hbs) as (s' & -> & Ho' & Hz' & Hi'); [lia|]. exists s'. unfold d_insert_bytes in *. cbn [fold_left] in *.
    rewrite orb_true_r. split_and!; [done|done|lia|congruence].
Qed.

(** What is written over goes. *)
Lemma dchar_overwrite_ok s d dchar w : Ok s d -> text_chars dchar ->
  let '(d', old) := d_dchar_overwrite (C := C) wc dchar w d in
  exists s', dchar_overwrite (C := C) wc dchar w s = Some (s', old) /\ Ok s' d' /\
    zlen (cur d') <= zlen (cur d) /\ ins d' = ins d.
Proof.
  intros Ho Hdc. unfold d_dchar_overwrite, dchar_overwrite. rewrite (Ok_ins _ _ Ho). pose proof Ho as (R & Hd & Hr).
  destruct (Rb_cur _ _ _ R) as (_ & _ & _ & _ & _ & _ & _ & _ & Em & _).
  rewrite Em. destruct (ins d) eqn:Ei; [exists s; split_and!; done || lia|]. destruct (mbcs d); cbn [negb].
  - destruct (del_currchar_Ok s d Ho) as (s1 & -> & Ho1). destruct (doc_del_currchar d Hd) as (_ & Hl1 & _ & Hi1 & _).
    destruct (d_del_currchar (C := C) wc d) as [d1 ow]. cbn [mbind option_bind fst snd] in *.
    rewrite (char_width_ok wc wc_le dchar Hdc). cbn [mbind option_bind]. pose proof Ho1 as (R1 & Hd1 & _).
    destruct (Rb_cur _ _ _ R1) as (p & r & pv & nx & Ec & Eg & Et & Hok & _ & Ea & _ & _ & Epnt & Hcc).
    rewrite Ec, Eg. cbn [mbind option_bind cell len data]. rewrite Et, Epnt, Ea.
    destruct ((ow =? 1) && _ && _) eqn:Econd.
    + zbool. destruct (zget_some (cur d1) (pnt d1)) as [x Ex]; [destruct (ok_pnt _ _ Hd1); lia|].
      rewrite (zget_app_l _ _ _ _ Ex). cbn [mbind option_bind andb]. unfold cchar. rewrite Ex. cbn [default from_option id].
      destruct (negb (ansi d1) || negb (x =? ESC_CHR)); [|exists s1; split_and!; done || lia || congruence].
      destruct (del_currchar_Ok s1 d1 Ho1) as (s2 & -> & Ho2). destruct (doc_del_currchar d1 Hd1) as (_ & Hl2 & _ & Hi2 & _).
      destruct (d_del_currchar (C := C) wc d1) as [d2 w2]. cbn [mbind option_bind fst snd] in *.
      exists s2. split_and!; done || lia || congruence.
    + cbn [andb]. exists s1. split_and!; done || lia || congruence.
  - assert (Hrep : forall n s d, Ok s d -> exists s', repeat_op n (del_one (C := C) wc) s = Some s' /\
      Ok s' (d_repeat n (fun d => (d_del_currchar (C := C) wc d).1) d) /\
      zlen (cur (d_repeat n (fun d => (d_del_currchar (C := C) wc d).1) d)) <= zlen (cur d) /\
      ins (d_repeat n (fun d => (d_del_currchar (C := C) wc d).1) d) = ins d).
    { clear - H0 H3 wc_le. induction n as [|n IH]; intros s d Ho; [exists s; split_and!; done || lia|].
      cbn [repeat_op d_repeat]. destruct (del_currchar_Ok s d Ho) as (s1 & E1 & Ho1).
      assert (E2 : del_one (C := C) wc s = Some s1) by (unfold del_one; by rewrite E1). rewrite E2. cbn [mbind option_bind].
      destruct (doc_del_currchar d) as (_ & Hl & _ & Hi & _); [apply Ho|].
      destruct (IH s1 _ Ho1) as (s' & E & Ho' & Hl' & Hi'). exists s'. split_and!; done || lia || congruence. }
    destruct (Hrep (Z.to_nat w) s d Ho) as (s' & -> & Ho' & Hl & Hi). cbn [mbind option_bind].
    exists s'. split_and!; done || congruence.
Qed.

Lemma doc_fix_in d : doc_ok d -> doc_ok (d_fix_in (C := C) d).
Proof. intros Hd. unfold d_fix_in. destruct (_ && _); [by apply doc_fix|done]. Qed.

Lemma d_fix_in_frame d : cur (d_fix_in (C := C) d) = cur d /\ ins (d_fix_in (C := C) d) = ins d /\ row (d_fix_in (C := C) d) = row d.
Proof. unfold d_fix_in. by destruct (_ && _). Qed.

Lemma insert_dchar_Ok s d dchar : Ok s d -> room d -> text_chars dchar -> dchar <> [] ->
  exists s', insert_dchar (C := C) wc dchar s = Some s' /\ Ok s' (d_insert_dchar (C := C) wc dchar d).
Proof.
  intros Ho Hroom Hdc Hne. destruct (bytes_of_ok (C := C) dchar Hdc Hne) as (Eb & Hw & Hw4).
  unfold insert_dchar, d_insert_dchar. rewrite Eb. cbn [mbind option_bind]. set (w := bytes_of (C := C) dchar) in *.
  pose proof (dchar_overwrite_ok s d dchar w Ho Hdc) as Hov. destruct (d_dchar_overwrite (C := C) wc dchar w d) as [d1 old].
  destruct Hov as (s1 & -> & (R1 & Hd1 & Hr1) & Hl1 & Hi1). cbn [mbind option_bind].
  destruct (fix_in_ok true s1 d1 R1) as (s2 & E2 & R2); [apply (ok_pnt _ _ Hd1)|].
  match goal with |- exists s', ?e = _ /\ _ => assert (Ee : e = (s ← Some s2; s ← dchar_split (C := C) w s;
      bs ← mem_read dchar 0 w; s ← insert_bytes (C := C) bs s;
      if insert_mode s then Some s
      else new_width ← Mbs.mb_width (C := C) wc dchar; s ← pad_width (C := C) new_width old s; ansi_fix (C := C) wc s)) end.
  { rewrite <- E2. by destruct (get (currline s1) s1). }
  rewrite Ee. clear Ee E2. cbn [mbind option_bind].
  pose proof (doc_fix_in d1 Hd1) as Hd2. destruct (d_fix_in_frame d1) as (Ec2 & Ei2 & Er2).
  set (d2 := d_fix_in (C := C) d1) in *. clearbody d2.
  destruct (dchar_split_ok true s2 d2 w) as (s3 & -> & Ho3); [split_and!; done || lia|lia|]. cbn [mbind option_bind].
  destruct (doc_dchar_split d2 w Hd2) as (_ & Hl3 & _ & Hi3); [lia|lia|].
  assert (Hroom3 : ins d = true \/ zlen (cur (d_dchar_split (C := C) w d2)) <= WRAPMARGIN - 6).
  { destruct Hroom as [?|Hroom]; [by left|right]. unfold d_dchar_split.
    replace (zlen (cur d2) + w <? WRAPMARGIN) with true by (rewrite Ec2; lia). rewrite Ec2. lia. }
  set (d3 := d_dchar_split (C := C) w d2) in *. clearbody d3.
  assert (Ezt : zlen (ztake w dchar) = w) by (apply ztake_len; lia).
  replace (mem_read dchar 0 w) with (Some (ztake w dchar)).
  2: { symmetry. rewrite <- (ztake_zdrop w dchar) at 1. by apply mem_read_head. }
  cbn [mbind option_bind].
  destruct (insert_bytes_ok (ztake w dchar) false s3 d3 Ho3) as (s4 & -> & Ho4 & Hz4 & Hi4); [by apply chars_take|lia|].
  cbn [mbind option_bind]. rewrite bool_decide_eq_false_2 in Ho4 by (intros E0; rewrite E0 in Ezt; change (zlen []) with 0 in Ezt; lia).
  cbn [negb orb] in Ho4. rewrite (Ok_ins _ _ Ho4).
  destruct (ins (d_insert_bytes (C := C) (ztake w dchar) d3)) eqn:Ei; [by exists s4|].
  rewrite (char_width_ok wc wc_le dchar Hdc). cbn [mbind option_bind].
  destruct (pad_Ok s4 _ (char_width (C := C) wc dchar) old Ho4) as (s5 & -> & Ho5).
  { destruct Hroom3 as [?|?]; [congruence|]. lia. }
  cbn [mbind option_bind]. by apply ansi_fix_Ok.
Qed.

(** *** Strings *)

(** No block is selected, and characters are inserted. *)
Definition inserting (d : doc) : Prop := blk d = None /\ ins d = true.

Lemma inserting_raw ch d : inserting d -> inserting (d_raw_insert (C := C) ch d).
Proof.
  intros [Hb Hi]. split; [|by rewrite d_raw_insert_ins]. unfold d_raw_insert. set (d1 := d_put ch (d_cancel d)).
  case_if E; [done|]. destruct (wrap_cut (cur d1)) as [ww p]. by rewrite d_wrap_space_blk, d_split_blk.
Qed.

Lemma inserting_char ch d : inserting d -> inserting (d_insert_char (C := C) wc ch d).
Proof.
  intros Hi. pose proof (inserting_raw ch d Hi) as Hi'. unfold d_insert_char. rewrite (proj2 Hi). cbn beta iota. by rewrite (proj2 Hi').
Qed.

Lemma inserting_fix_in d : inserting d -> inserting (d_fix_in (C := C) d).
Proof. unfold d_fix_in. by destruct (_ && _). Qed.

Lemma inserting_split d w : inserting d -> inserting (d_dchar_split (C := C) w d).
Proof.
  intros [Hb Hi]. unfold d_dchar_split. case_if E; [done|]. destruct (dchar_cut w d) as [ww p]. apply inserting_fix_in. split.
  - by rewrite d_wrap_space_blk, d_split_blk.
  - destruct (d_split_frame d p 0) as (F & _). rewrite (proj1 (d_wrap_space_frame _ _ _ _)). congruence.
Qed.

Lemma inserting_dchar t d : inserting d -> inserting (d_insert_dchar (C := C) wc t d).
Proof.
  intros Hi. unfold d_insert_dchar, d_dchar_overwrite. rewrite (proj2 Hi). cbn beta iota.
  assert (Hi' : inserting (d_insert_bytes (C := C) (ztake (bytes_of (C := C) t) t) (d_dchar_split (C := C) (bytes_of (C := C) t) (d_fix_in (C := C) d)))).
  { generalize (ztake (bytes_of (C := C) t) t). intros bs. pose proof (inserting_split _ (bytes_of (C := C) t) (inserting_fix_in d Hi)) as Hd.
    revert Hd. generalize (d_dchar_split (C := C) (bytes_of (C := C) t) (d_fix_in (C := C) d)).
    unfold d_insert_bytes. induction bs as [|b bs IH]; intros d1 Hd1; [done|]. cbn [fold_left]. apply IH. by apply inserting_raw. }
  by rewrite (proj2 Hi').
Qed.

(** Text that can be read: no tab. *)
Definition plain (t : list Z) : Prop := text_chars t /\ Forall (fun x => x <> 9) t.

Lemma split_Ok s d p n : Ok s d -> blk d = None -> 0 <= p <= zlen (cur d) -> 0 <= n ->
  zlen (lower (C := C) d (cur d) p n) <= WRAPMARGIN - 1 ->
  exists s' q, split (C := C) (currline s) p n s = Some (s', q) /\ Ok s' (d_split (C := C) p n d).
Proof.
  intros (R & Hd & Hr) Hb Hp Hn Hlow. pose proof R as (us & c & ds & dl & R').
  destruct (split_cur_ok (C := C) _ _ _ _ _ _ _ p n R' Hr (doc_height _ _ Hd)) as (s2 & us' & c' & ds' & q & E2 & R2 & _); [lia..|].
  exists s2, (Some q). split; [done|]. split; [|split].
  - apply Rb_exact with false; [by exists us', c', ds', dl|]. by rewrite d_split_blk.
  - apply doc_split with (WRAPMARGIN - 1); try done || lia. pose proof (cut_at_ok (C := C) d (cur d) p (ok_chars _ _ Hd) (proj1 Hp)).
    pose proof (ok_len _ _ Hd). lia.
  - apply d_split_frame; [by apply doc_height with (WRAPMARGIN - 1)|done].
Qed.

Lemma split_at_pnt_len d : doc_ok d -> zlen (lower (C := C) d (cur d) (pnt d) 0) <= WRAPMARGIN - 1.
Proof.
  intros Hd. pose proof (ok_pnt _ _ Hd) as Hp. pose proof (ok_chars _ _ Hd) as Hc. pose proof (ok_len _ _ Hd).
  pose proof (cut_at_ok (C := C) d (cur d) (pnt d) Hc (proj1 Hp)) as [Hc1 Hc2]. specialize (Hc2 (proj2 Hp)).
  assert (Hf := cut_from_ok d (cur d) (pnt d) Hc (proj1 Hp) (proj2 Hc2)).
  rewrite (lower_len d (cur d) (pnt d) 0 Hc (proj1 Hp) ltac:(lia) (proj2 Hc2)). lia.
Qed.

Lemma insert_loop_Ok fuel : forall str s d, Ok s d -> inserting d -> plain str -> (length str < fuel)%nat ->
  exists s', insert_loop (C := C) wc fuel str s = Some s' /\
    Ok s' (d_insert_loop (C := C) wc fuel str d) /\ inserting (d_insert_loop (C := C) wc fuel str d).
Proof.
  induction fuel as [|fuel IH]; intros str s d Ho Hi [Hc Ht] Hf; [lia|].
  cbn [insert_loop d_insert_loop]. destruct str as [|ch rest]; [by exists s|].
  pose proof (bytes_of_ok (C := C) (ch :: rest) Hc ltac:(done)) as (Eb & Hw & _).
  assert (Ew : (if 128 <=? ch then Mbs.mb_bytes C (ch :: rest) else Some 1) =
    Some (if 128 <=? ch then bytes_of (C := C) (ch :: rest) else 1)) by (by destruct (128 <=? ch)).
  rewrite Ew. cbn [mbind option_bind]. set (w := if 128 <=? ch then _ else 1). case_if Ew1.
  - destruct (insert_dchar_Ok s d (ch :: rest) Ho) as (s1 & -> & Ho1); [by left; apply Hi|done|done|]. cbn [mbind option_bind].
    fold (zdrop w (ch :: rest)). apply IH; [done|by apply inserting_dchar|split; [by apply chars_drop|by apply list.Forall_drop]|].
    unfold zdrop. rewrite length_drop. cbn in *. lia.
  - apply list.Forall_cons in Hc as [[Hch Hch0] Hc]. apply list.Forall_cons in Ht as [Hch9 Ht]. cbn in Hf.
    replace (ch =? 9) with false by lia.
    assert (Hs : forall d1, (exists s1, (if isprint2 ch || (ch =? ESC_CHR) then insert_char (C := C) wc ch s
        else if ch =? 10 then '(s, _) ← split (C := C) (currline s) (currpnt s) 0 s; Some s else Some s) = Some s1 /\ Ok s1 d1) ->
      inserting d1 -> exists s', (s ← (if isprint2 ch || (ch =? ESC_CHR) then insert_char (C := C) wc ch s
        else if ch =? 10 then '(s, _) ← split (C := C) (currline s) (currpnt s) 0 s; Some s else Some s); insert_loop (C := C) wc fuel rest s) = Some s' /\
        Ok s' (d_insert_loop (C := C) wc fuel rest d1) /\ inserting (d_insert_loop (C := C) wc fuel rest d1)).
    { intros d1 (s1 & -> & Ho1) Hi1. cbn [mbind option_bind]. apply IH; done || lia. }
    apply Hs; clear Hs.
    + destruct (isprint2 ch || (ch =? ESC_CHR)); [apply insert_char_Ok; try done; by left; apply Hi|].
      case_if E10; [|by exists s]. pose proof Ho as (R & Hd & _).
      destruct (Rb_cur _ _ _ R) as (_ & _ & _ & _ & _ & _ & _ & _ & _ & _ & _ & _ & -> & _).
      destruct (split_Ok s d (pnt d) 0 Ho (proj1 Hi) (ok_pnt _ _ Hd) ltac:(lia) (split_at_pnt_len d Hd)) as (s1 & q & -> & Ho1).
      by exists s1.
    + destruct (isprint2 ch || (ch =? ESC_CHR)); [by apply inserting_char|]. case_if E10; [|done].
      split; [by rewrite d_split_blk; apply Hi|]. destruct (d_split_frame d (pnt d) 0) as (F & _). rewrite F. apply Hi.
Qed.

Lemma cancel_Ok bx s d : Okb bx s d -> Ok (block_cancel s) (d_cancel d).
Proof.
  intros ((us & c & ds & dl & R) & Hd & Hr). split; [|split; [by apply doc_w_blk|done]].
  exists us, c, ds, dl. by apply rep_cancel with bx.
Qed.

Lemma insert_string_Ok str s d : Ok s d -> ins d = true -> plain str ->
  exists s', insert_string (C := C) wc str s = Some s' /\ Ok s' (d_insert_string (C := C) wc str d) /\
    inserting (d_insert_string (C := C) wc str d).
Proof. intros Ho Hi Hp. apply insert_loop_Ok; [by apply cancel_Ok with true|done|done|lia]. Qed.

Lemma load_lines_Ok bufs : forall s d, Ok s d -> ins d = true -> Forall plain bufs ->
  exists s', load_lines (C := C) wc bufs s = Some s' /\ Ok s' (d_load (C := C) wc bufs d).
Proof.
  induction bufs as [|b bufs IH]; intros s d Ho Hi Hb; [by exists s|]. apply list.Forall_cons in Hb as [Hb Hbs].
  cbn [load_lines]. destruct (insert_string_Ok b s d Ho Hi Hb) as (s1 & -> & Ho1 & _ & Hi1). cbn [mbind option_bind].
  unfold d_load. cbn [fold_left]. by apply IH.
Qed.

End Insert.
End EditInsert.
