(* ===== verification/EditMoves.v ===== *)
(** The commands that move the cursor: lines, columns, words, pages, the mouse. *)

From stdpp Require Import gmap.
From S2P Require Import Prelude Cstr Str Mbs MbsProps Edit EditText EditHeap EditRep EditPos EditList EditSplit EditJoin EditChars EditInsert.

#[global] Open Scope Z_scope.
#[global] Open Scope list_scope.

Module EditMoves.
Import Cstr Str Mbs MbsProps Edit EditText EditHeap EditRep EditPos EditList EditSplit EditJoin EditChars EditInsert.

Section Moves.
Context `{LibcOk} {C : Type} `{MbShort C}.
Variable wc : Z -> Z.
Hypothesis wc_le : forall u, wc u <= 2.
Implicit Types (us ds a b : list node) (c : node) (dl : option node) (d : doc) (t : list Z).

(** After a command, before the window follows the cursor. *)
Definition Cok (s : editor) (d : doc) : Prop := Rb true s d /\ doc_ok d.

Lemma Ok_Cok s d : Ok s d -> Cok s d.
Proof. intros (R & Hd & _). by split. Qed.

(** *** Another line *)

Lemma rep_lines ex bx k s us c ds dl d : rep ex bx k s us c ds dl d -> lines d = texts (us ++ c :: ds).
Proof. intros []. unfold lines. rewrite rp_up0, rp_curt0, rp_dn0, texts_app. done. Qed.

Lemma rep_lastl ex bx k s us c ds dl d : rep ex bx k s us c ds dl d ->
  currl d = zlen us /\ lastl d = zlen us + zlen ds.
Proof. intros []. unfold currl, lastl. rewrite rp_up0, rp_dn0. unfold zlen, texts. by rewrite !length_map. Qed.

Lemma rep_line ex bx k s us c ds dl d i x : rep ex bx k s us c ds dl d ->
  (us ++ c :: ds) !! Z.to_nat i = Some x -> line d i = txt x.2.
Proof.
  intros R E. unfold line. rewrite (rep_lines _ _ _ _ _ _ _ _ _ R). unfold texts. rewrite list_lookup_fmap. by rewrite E.
Qed.

Lemma rep_nth ex bx k s us c ds dl d i : rep ex bx k s us c ds dl d -> 0 <= i <= lastl d ->
  exists x, (us ++ c :: ds) !! Z.to_nat i = Some x /\ ptrs (us ++ c :: ds) !! Z.to_nat i = Some x.1.
Proof.
  intros R Hi. rewrite (proj2 (rep_lastl _ _ _ _ _ _ _ _ _ R)) in Hi.
  destruct (lookup_lt_is_Some_2 (us ++ c :: ds) (Z.to_nat i)) as [x Ex].
  { rewrite length_app. cbn. unfold zlen in Hi. lia. }
  exists x. split; [done|]. unfold ptrs. rewrite list_lookup_fmap. by rewrite Ex.
Qed.

(** The cursor is put on the line [i], and the window so that it is its row [r]. *)
Definition goto (q top : option ptr) (i r p : Z) (s : editor) : editor :=
  set_top_of_win top (set_currpnt p (set_curr_window_line r (set_currln i (set_currline q s)))).

Lemma rep_goto ex bx k s us c ds dl d i r p x :
  rep ex bx k s us c ds dl d -> (us ++ c :: ds) !! Z.to_nat i = Some x -> 0 <= i -> 0 <= i - r <= lastl d ->
  exists us' ds', us ++ c :: ds = us' ++ x :: ds' /\ zlen us' = i /\
    rep ex bx k (goto (Some x.1) (ptrs (us ++ c :: ds) !! Z.to_nat (i - r)) i r p s) us' x ds' dl (d_goto i r p d).
Proof.
  intros R Ex Hi Hr. rewrite (proj2 (rep_lastl _ _ _ _ _ _ _ _ _ R)) in Hr.
  pose proof (rep_lines _ _ _ _ _ _ _ _ _ R) as Hls.
  apply list_elem_of_split_length in Ex as (us' & ds' & El & Elen). exists us', ds'. split; [done|].
  assert (Hz : zlen us' = i) by (unfold zlen; lia). split; [done|].
  assert (Ed : ztake i (lines d) = texts us' /\ default [] (lines d !! Z.to_nat i) = txt x.2 /\ zdrop (i + 1) (lines d) = texts ds').
  { rewrite Hls, El, texts_app. cbn [texts map]. fold (texts ds'). unfold ztake, zdrop.
    assert (Hlt : length (texts us') = Z.to_nat i) by (unfold texts; rewrite length_map; lia).
    rewrite <- Hlt at 1. rewrite take_app_length. rewrite list_lookup_middle by done. split_and!; [done|done|].
    replace (Z.to_nat (i + 1)) with (length (texts us' ++ [txt x.2])) by (rewrite length_app; cbn; lia).
    replace (texts us' ++ txt x.2 :: texts ds') with ((texts us' ++ [txt x.2]) ++ texts ds') by (by rewrite <- app_assoc).
    apply drop_app_length. }
  destruct Ed as (E1 & E2 & E3). unfold d_goto. rewrite E1, E2, E3.
  assert (Hzz : zlen us + zlen ds = zlen us' + zlen ds').
  { apply (f_equal zlen) in El. rewrite !zlen_app, !zlen_cons in El. lia. }
  destruct R. rewrite El in *. unfold goto. constructor; cbn; rewrite ?Hz; try done; try lia.
Qed.

(** The window stays, and the cursor goes [k] lines down. *)
Definition step (q : option ptr) (k p : Z) (s : editor) : editor :=
  set_currpnt p (set_curr_window_line (curr_window_line s + k) (set_currln (currln s + k) (set_currline q s))).

Lemma rep_step ex bx n s us c ds dl d k p x :
  rep ex bx n s us c ds dl d -> (us ++ c :: ds) !! Z.to_nat (zlen us + k) = Some x -> 0 <= zlen us + k ->
  exists us' ds', us ++ c :: ds = us' ++ x :: ds' /\ zlen us' = zlen us + k /\
    rep ex bx n (step (Some x.1) k p s) us' x ds' dl (d_goto (currl d + k) (row d + k) p d).
Proof.
  intros R Ex Hi. pose proof (rep_lastl _ _ _ _ _ _ _ _ _ R) as [Ec El].
  destruct (rep_goto _ _ _ _ _ _ _ _ _ (zlen us + k) (row d + k) p x R Ex Hi) as (us' & ds' & E & Hz & R').
  { pose proof (rp_row R). lia. }
  exists us', ds'. split; [done|]. split; [done|].
  replace (zlen us + k - (row d + k)) with (zlen us - row d) in R' by lia.
  rewrite <- (rp_top R) in R'. unfold step. rewrite (rp_winln R), (rp_currln R), Ec. by destruct s.
Qed.

(** One line up. *)
Lemma rep_step_up ex bx n s us p rp q r ds dl d x : rep ex bx n s (us ++ [(p, rp)]) (q, r) ds dl d ->
  rep ex bx n (step (Some p) (-1) x s) us (p, rp) ((q, r) :: ds) dl (d_goto (currl d + -1) (row d + -1) x d).
Proof.
  intros R. assert (Ez : zlen (us ++ [(p, rp)]) = zlen us + 1) by (by rewrite zlen_app). pose proof (zlen_nonneg us).
  assert (Ex : ((us ++ [(p, rp)]) ++ (q, r) :: ds) !! Z.to_nat (zlen (us ++ [(p, rp)]) + -1) = Some (p, rp)).
  { rewrite <- app_assoc. apply list_lookup_middle. rewrite Ez. unfold zlen. lia. }
  destruct (rep_step _ _ _ _ _ _ _ _ _ (-1) x (p, rp) R Ex) as (us' & ds' & E & Hz & R2); [lia|].
  rewrite <- app_assoc in E. cbn [app] in E. apply app_inj_1 in E as [-> [= <-]]; [exact R2|]. unfold zlen in *. lia.
Qed.

Lemma doc_goto d i r p : doc_ok d -> 0 <= i <= lastl d -> 0 <= p <= zlen (line d i) -> doc_ok (d_goto i r p d).
Proof.
  intros [Hu Hdn Hch Hl Hdel Hpnt Hr] Hi Hp.
  assert (Hls : Forall line_ok (lines d)).
  { apply list.Forall_app. split; [done|]. apply list.Forall_cons. split; [split; [done|lia]|done]. }
  assert (Hli : line_ok (line d i)).
  { unfold line. destruct (lookup_lt_is_Some_2 (lines d) (Z.to_nat i)) as [x Ex].
    - unfold lines, lastl, zlen in *. rewrite length_app. cbn. lia.
    - rewrite Ex. by apply (list.Forall_lookup_1 _ _ _ _ Hls Ex). }
  destruct Hli as [Hlc Hll]. constructor; try done.
  - by apply list.Forall_take.
  - by apply list.Forall_drop.
  - unfold line in *. cbn. lia.
Qed.

Lemma goto_Cok s d i r p : Rb true (s : editor) (d_goto i r p d) -> doc_ok d -> 0 <= i <= lastl d ->
  0 <= p <= zlen (line d i) -> Cok s (d_goto i r p d).
Proof. intros R Hd Hi Hp. split; [done|]. by apply doc_goto. Qed.

(** *** Left and right *)

Lemma pos_of_line d t col strip : text_chars t -> 0 <= pos_of (C := C) wc d t col strip <= zlen t.
Proof. intros Ht. by apply pos_of_ok. Qed.

Lemma fix_in_Cok s d dir : Cok s d -> mbcs_mode s = mbcs d -> exists s',
  (if mbcs_mode s then fix_currpnt (C := C) dir s else Some s) = Some s' /\
  Cok s' (if mbcs d then d_fix (C := C) dir d else d).
Proof.
  intros [R Hd] ->. destruct (mbcs d); [|by exists s].
  destruct (fix_currpnt_ok _ _ _ dir R) as (s' & -> & R'); [apply (ok_pnt _ _ Hd)|]. exists s'. split; [done|].
  split; [done|by apply doc_fix].
Qed.

Lemma pnt_Cok s d p : Cok s d -> 0 <= p <= zlen (cur d) -> Cok (set_currpnt p s) (w_pnt p d).
Proof. intros [R Hd] Hp. split; [by apply Rb_pnt|by apply doc_w_pnt]. Qed.

Lemma Cok_mbcs s d : Cok s d -> mbcs_mode s = mbcs d.
Proof. intros [R _]. by destruct (Rb_cur _ _ _ R) as (? & ? & ? & ? & ? & ? & ? & ? & ? & _). Qed.

Lemma left_ok s d : Ok s d -> exists s', edit_cmd_left (C := C) wc s = Some s' /\ Cok s' (d_left (C := C) wc d).
Proof.
  intros Ho. pose proof (Ok_Cok _ _ Ho) as Hc. destruct Ho as (R & Hd & Hr).
  destruct (Rb_cur _ _ _ R) as (_ & _ & _ & _ & _ & _ & _ & _ & Em & Ea & _ & _ & Ep & Hch).
  unfold edit_cmd_left, d_left. rewrite Ep. destruct (pnt d =? 0) eqn:E0; cbn [negb].
  - destruct R as (us & c & ds & dl & R). rewrite (rep_get_cur _ _ _ _ _ _ _ _ _ R). cbn [mbind option_bind cell prev].
    pose proof (rep_lastl _ _ _ _ _ _ _ _ _ R) as [Ec El]. rewrite Ec. destruct us as [|u us _] using rev_ind.
    { cbn. by exists s. }
    rewrite last_ptr_app. destruct u as [q r]. cbn [last_ptr]. rewrite zlen_app in *. change (zlen [(q, r)]) with 1 in *.
    pose proof (zlen_nonneg us) as Hn. replace (0 <? zlen us + 1) with true by lia.
    assert (Ex : ((us ++ [(q, r)]) ++ c :: ds) !! Z.to_nat (zlen us) = Some (q, r)).
    { rewrite <- app_assoc. apply list_lookup_middle. unfold zlen. lia. }
    assert (Ez : zlen us + 1 + -1 = zlen us) by lia.
    destruct (rep_step _ _ _ _ _ _ _ _ _ (-1) (zlen (txt r)) (q, r) R) as (us' & ds' & E & Hz & R');
      [rewrite zlen_app; change (zlen [(q, r)]) with 1; by rewrite Ez|rewrite zlen_app; change (zlen [(q, r)]) with 1; lia|].
    pose proof (rep_get_cur _ _ _ _ _ _ _ _ _ R') as Eg.
    match goal with |- context [get ?p ?s1] => replace (get p s1) with (Some (cell (last_ptr None us') (head_ptr ds' None) r)) end.
    cbn [mbind option_bind cell len]. eexists. split; [reflexivity|].
    replace (zlen us + 1 - 1) with (zlen us) by lia.
    rewrite (rep_line _ _ _ _ _ _ _ _ _ _ _ R Ex). cbn [snd]. rewrite Ec, Ez in R'.
    apply goto_Cok; [|done|pose proof (zlen_nonneg ds); lia|rewrite (rep_line _ _ _ _ _ _ _ _ _ _ _ R Ex); pose proof (zlen_nonneg (txt r)); cbn; lia].
    exists us', (q, r), ds', dl. exact R'.
  - zbool. pose proof (ok_pnt _ _ Hd) as Hp. rewrite Ea.
    assert (Hs : exists s1, (s ← (if ansi d then x ← n2ansi (C := C) wc (pnt d) (currline s) s; Some (set_currpnt x s) else Some s);
       let s := set_currpnt (currpnt s - 1) s in
       (if ansimode s then x ← ansi2n (C := C) wc (currpnt s) (currline s) s; Some (set_currpnt x s) else Some s)) = Some s1 /\
       Cok s1 (w_pnt (if ansi d then pos_of (C := C) wc d (cur d) (col_of (C := C) wc (cur d) (pnt d) true - 1) true else pnt d - 1) d)).
    { destruct (ansi d) eqn:Ea'.
      - unfold n2ansi at 1. pose proof (cur_col_ok wc wc_le _ _ _ true R) as Ecol. rewrite Ep in Ecol. rewrite Ecol. cbn [mbind option_bind].
        cbn [currpnt set_currpnt]. set (s1 := set_currpnt _ (set_currpnt _ s)). change (ansimode s1) with (ansimode s). rewrite Ea.
        assert (R1 : Rb true s1 (w_pnt (col_of (C := C) wc (cur d) (pnt d) true - 1) d)).
        { pose proof (Rb_pnt _ _ _ (col_of (C := C) wc (cur d) (pnt d) true - 1) R) as R1. exact R1. }
        destruct (cur_pos_ok wc wc_le _ _ _ (col_of (C := C) wc (cur d) (pnt d) true - 1) true R1) as [Epos Hpos].
        unfold ansi2n. change (currpnt s1) with (col_of (C := C) wc (cur d) (pnt d) true - 1).
        rewrite Epos. cbn [mbind option_bind]. eexists. split; [reflexivity|]. split; [|by apply doc_w_pnt].
        pose proof (Rb_pnt _ _ _ (pos_of (C := C) wc d (cur d) (col_of (C := C) wc (cur d) (pnt d) true - 1) true) R) as R2. exact R2.
      - cbn [mbind option_bind]. change (ansimode (set_currpnt _ s)) with (ansimode s). rewrite Ea, Ep.
        eexists. split; [reflexivity|]. apply pnt_Cok; [done|lia]. }
    destruct Hs as (s1 & E1 & Hc1). revert E1. cbn zeta.
    destruct (if ansi d then _ else Some s) as [s0|]; [|done]. cbn [mbind option_bind]. intros E1.
    match goal with |- context [mbind ?f ?e] => replace e with (Some s1) end. cbn [mbind option_bind].
    destruct (fix_in_Cok s1 _ FC_LEFT Hc1) as (s2 & -> & Hc2); [by apply Cok_mbcs|]. by exists s2.
Qed.

(** *** Up and down *)

Lemma keep_column_ok bx s d q pv nx r : Rb bx s d -> get (Some q) s = Some (cell pv nx r) -> row_ok r ->
  let p := if ansi d then pos_of (C := C) wc d (cur d) (col_of (C := C) wc (txt r) (pnt d) true) true
           else pos_of (C := C) wc d (cur d) (lind d) false in
  keep_column (C := C) wc (Some q) (currline s) s = Some (set_currpnt p s).
Proof.
  intros R Eq Hr. destruct (Rb_cur _ _ _ R) as (_ & _ & _ & _ & _ & _ & _ & _ & _ & Ea & _ & _ & Ep & _).
  assert (El : lastindent s = lind d) by (by destruct R as (? & ? & ? & ? & []%rp_lind)).
  unfold keep_column, n2ansi, ansi2n. rewrite Ea, Ep, El. destruct (ansi d).
  - rewrite (line_col_ok wc wc_le s q pv nx r _ true Eq Hr). cbn [mbind option_bind].
    rewrite (proj1 (cur_pos_ok wc wc_le _ _ _ _ true R)). done.
  - rewrite (proj1 (cur_pos_ok wc wc_le _ _ _ _ false R)). done.
Qed.

(** The line above, and the line below, as the code finds them. *)
Lemma rep_around us c ds ex bx n s dl d k x : rep ex bx n s us c ds dl d ->
  (us ++ c :: ds) !! Z.to_nat (zlen us + k) = Some x -> 0 <= zlen us + k ->
  exists pv nx, get (Some x.1) s = Some (cell pv nx x.2) /\ row_ok x.2 /\
    (k = -1 -> nx = Some c.1) /\ (k = 1 -> pv = Some c.1).
Proof.
  intros R Ex Hk. assert (Ep : ptrs (us ++ c :: ds) !! Z.to_nat (zlen us + k) = Some x.1).
  { unfold ptrs. rewrite list_lookup_fmap. by rewrite Ex. }
  destruct (node_at _ _ _ _ _ _ _ _ _ _ _ R Ep) as (r & Er & Hr & Hq). rewrite Ex in Er. injection Er as ->. cbn [fst snd].
  eexists _, _. split; [exact Hq|]. split; [done|]. split; intros ->.
  - replace (S (Z.to_nat (zlen us + -1))) with (length us) by (unfold zlen in *; lia). apply ptr_cur.
  - replace (Z.to_nat (zlen us + 1)) with (S (length us)) by (unfold zlen; lia). cbn [prev_ix]. apply ptr_cur.
Qed.

Lemma step_keep_ok us c ds s dl d k x : rep None true 0 s us c ds dl d -> doc_ok d ->
  (us ++ c :: ds) !! Z.to_nat (zlen us + k) = Some x -> 0 <= zlen us + k ->
  exists s', keep_column (C := C) wc (Some c.1) (Some x.1) (step (Some x.1) k (currpnt s) s) = Some s' /\
    Cok s' (d_goto (currl d + k) (row d + k) (keep_col (C := C) wc (currl d + k) d) d).
Proof.
  intros R Hd Ex Hk. destruct (rep_step _ _ _ _ _ _ _ _ _ k (currpnt s) x R Ex Hk) as (us' & ds' & E & Hz & R').
  pose proof (rep_lastl _ _ _ _ _ _ _ _ _ R) as [Ec El].
  pose proof (rep_get_cur _ _ _ _ _ _ _ _ _ R) as Eg. rewrite (rp_cur R) in Eg.
  pose proof (rep_mid _ _ _ _ _ _ _ _ _ R) as (_ & _ & _ & Hok & _).
  assert (Rb' : Rb true (step (Some x.1) k (currpnt s) s) (d_goto (currl d + k) (row d + k) (currpnt s) d)) by (by exists us', x, ds', dl).
  pose proof (keep_column_ok true _ _ c.1 _ _ c.2 Rb' Eg Hok) as Ek. cbn zeta in Ek.
  change (currline (step (Some x.1) k (currpnt s) s)) with (Some x.1) in Ek. rewrite Ek.
  eexists. split; [reflexivity|].
  assert (Eline : line d (currl d + k) = txt x.2).
  { apply (rep_line _ _ _ _ _ _ _ _ _ _ _ R). by rewrite Ec. }
  assert (Ecd : cur (d_goto (currl d + k) (row d + k) (currpnt s) d) = txt x.2) by apply (rp_curt R').
  assert (Ekc : (if ansi (d_goto (currl d + k) (row d + k) (currpnt s) d)
      then pos_of (C := C) wc (d_goto (currl d + k) (row d + k) (currpnt s) d) (cur (d_goto (currl d + k) (row d + k) (currpnt s) d))
             (col_of (C := C) wc (txt c.2) (pnt (d_goto (currl d + k) (row d + k) (currpnt s) d)) true) true
      else pos_of (C := C) wc (d_goto (currl d + k) (row d + k) (currpnt s) d) (cur (d_goto (currl d + k) (row d + k) (currpnt s) d))
             (lind (d_goto (currl d + k) (row d + k) (currpnt s) d)) false) = keep_col (C := C) wc (currl d + k) d).
  { unfold keep_col. rewrite Ecd, Eline, (rp_curt R). cbn [pnt d_goto w_pnt]. by rewrite (rp_pnt R). }
  rewrite Ekc. clear Ekc.
  assert (Hlt : (Z.to_nat (zlen us + k) < length (us ++ c :: ds))%nat) by (by apply lookup_lt_is_Some_1).
  rewrite length_app in Hlt. cbn in Hlt.
  apply goto_Cok; [|done|unfold zlen in *; lia|].
  - pose proof (Rb_pnt _ _ _ (keep_col (C := C) wc (currl d + k) d) Rb') as R2. exact R2.
  - unfold keep_col. rewrite Eline.
    assert (Hx : text_chars (txt x.2)) by (destruct (rep_around _ _ _ _ _ _ _ _ _ _ _ R Ex Hk) as (? & ? & _ & [? _] & _); done).
    destruct (ansi d); by apply pos_of_line.
Qed.

Lemma down_ok s d : Ok s d -> exists s', cursor_to_next_line (C := C) wc s = Some s' /\ Cok s' (d_down (C := C) wc d).
Proof.
  intros Ho. pose proof (Ok_Cok _ _ Ho) as Hc. destruct Ho as ((us & c & ds & dl & R) & Hd & Hr).
  unfold cursor_to_next_line, d_down. rewrite (rep_get_cur _ _ _ _ _ _ _ _ _ R). cbn [mbind option_bind cell next].
  pose proof (rep_lastl _ _ _ _ _ _ _ _ _ R) as [Ec El]. rewrite Ec, El. destruct ds as [|[q r] ds]; cbn [head_ptr].
  { replace (zlen us <? zlen us + zlen []) with false by (change (zlen []) with 0; lia). by exists s. }
  rewrite zlen_cons. pose proof (zlen_nonneg us). pose proof (zlen_nonneg ds). replace (zlen us <? _) with true by lia.
  assert (Ex : (us ++ c :: (q, r) :: ds) !! Z.to_nat (zlen us + 1) = Some (q, r)).
  { replace (us ++ c :: (q, r) :: ds) with ((us ++ [c]) ++ (q, r) :: ds) by (by rewrite <- app_assoc).
    apply list_lookup_middle. rewrite length_app. cbn. unfold zlen. lia. }
  destruct (rep_around _ _ _ _ _ _ _ _ _ _ _ R Ex) as (pv & nx & Eg & _ & _ & Epv); [lia|]. cbn [fst snd] in Eg.
  cbn [currline set_currline set_currln set_curr_window_line]. 
  match goal with |- context [get (Some q) ?s1] => change (get (Some q) s1) with (get (Some q) s) end. rewrite Eg.
  cbn [mbind option_bind cell prev]. rewrite Epv by done. rewrite <- Ec. exact (step_keep_ok us c ((q, r) :: ds) s dl d 1 (q, r) R Hd Ex ltac:(lia)).
Qed.

Lemma up_ok s d : Ok s d -> exists s', cursor_to_prev_line (C := C) wc s = Some s' /\ Cok s' (d_up (C := C) wc d).
Proof.
  intros Ho. pose proof (Ok_Cok _ _ Ho) as Hc. destruct Ho as ((us & c & ds & dl & R) & Hd & Hr).
  unfold cursor_to_prev_line, d_up. rewrite (rep_get_cur _ _ _ _ _ _ _ _ _ R). cbn [mbind option_bind cell prev].
  pose proof (rep_lastl _ _ _ _ _ _ _ _ _ R) as [Ec El]. rewrite Ec. destruct us as [|[q r] us _] using rev_ind.
  { by exists s. }
  rewrite last_ptr_app. cbn [last_ptr]. pose proof (zlen_nonneg us).
  assert (Ez : zlen (us ++ [(q, r)]) = zlen us + 1) by (by rewrite zlen_app). replace (0 <? _) with true by lia.
  assert (Ex : ((us ++ [(q, r)]) ++ c :: ds) !! Z.to_nat (zlen (us ++ [(q, r)]) + -1) = Some (q, r)).
  { rewrite <- app_assoc. apply list_lookup_middle. unfold zlen in *. lia. }
  destruct (rep_around _ _ _ _ _ _ _ _ _ _ _ R Ex) as (pv & nx & Eg & _ & Enx & _); [lia|]. cbn [fst snd] in Eg.
  cbn [currline set_currline set_currln set_curr_window_line].
  match goal with |- context [get (Some q) ?s1] => change (get (Some q) s1) with (get (Some q) s) end. rewrite Eg.
  cbn [mbind option_bind cell next]. rewrite Enx by done. rewrite <- Ec.
  exact (step_keep_ok (us ++ [(q, r)]) c ds s dl d (-1) (q, r) R Hd Ex ltac:(lia)).
Qed.

(** *** Right *)

(** The cursor moves by columns in colour mode. *)
Lemma ansi_move_ok bx s d col : Rb bx s d -> doc_ok d -> ansi d = true ->
  exists s', (let s1 := set_currpnt col s in x ← ansi2n (C := C) wc (currpnt s1) (currline s1) s1; Some (set_currpnt x s1)) = Some s' /\
    Rb bx s' (w_pnt (pos_of (C := C) wc d (cur d) col true) d) /\ doc_ok (w_pnt (pos_of (C := C) wc d (cur d) col true) d).
Proof.
  intros R Hd Ea. pose proof (Rb_pnt _ _ _ col R) as R1.
  destruct (cur_pos_ok wc wc_le _ _ _ col true R1) as [Epos Hpos]. cbn zeta. unfold ansi2n. cbn [currpnt set_currpnt].
  rewrite Epos. cbn [mbind option_bind]. eexists. split; [reflexivity|]. split; [|by apply doc_w_pnt].
  pose proof (Rb_pnt _ _ _ (pos_of (C := C) wc d (cur d) col true) R) as R2. exact R2.
Qed.

Lemma right_ok s d : Ok s d -> exists s', edit_cmd_right (C := C) wc s = Some s' /\ Cok s' (d_right (C := C) wc d).
Proof.
  intros Ho. pose proof (Ok_Cok _ _ Ho) as Hc. destruct Ho as (R & Hd & Hr).
  destruct (Rb_cur _ _ _ R) as (p & r & pv & nx & Ecl & Eg & Et & Hok & Em & Ea & _ & _ & Ep & Hch).
  unfold edit_cmd_right, d_right. rewrite Ecl, Eg. cbn [mbind option_bind cell len data next]. rewrite Ep, Et.
  destruct (zlen (cur d) =? pnt d) eqn:E0; cbn [negb]; zbool.
  - destruct R as (us & c & ds & dl & R). pose proof (rep_get_cur _ _ _ _ _ _ _ _ _ R) as Eg2. rewrite Ecl, Eg in Eg2.
    injection Eg2 as _ -> _ _ _. pose proof (rep_lastl _ _ _ _ _ _ _ _ _ R) as [Ec El]. destruct ds as [|[q rq] ds]; cbn [head_ptr].
    { replace (currl d <? lastl d) with false by (rewrite Ec, El; change (zlen []) with 0; lia). by exists s. }
    rewrite zlen_cons in El. pose proof (zlen_nonneg us). pose proof (zlen_nonneg ds). replace (currl d <? lastl d) with true by lia.
    assert (Ex : (us ++ c :: (q, rq) :: ds) !! Z.to_nat (zlen us + 1) = Some (q, rq)).
    { replace (us ++ c :: (q, rq) :: ds) with ((us ++ [c]) ++ (q, rq) :: ds) by (by rewrite <- app_assoc).
      apply list_lookup_middle. rewrite length_app. cbn. unfold zlen. lia. }
    destruct (rep_step _ _ _ _ _ _ _ _ _ 1 0 (q, rq) R Ex) as (us' & ds' & E & Hz & R'); [lia|].
    eexists. split; [reflexivity|]. apply goto_Cok; [|done|lia|].
    + exists us', (q, rq), ds', dl. exact R'.
    + rewrite <- Ec in Ex. rewrite (rep_line _ _ _ _ _ _ _ _ _ _ _ R Ex). cbn. pose proof (zlen_nonneg (txt rq)). lia.
  - pose proof (ok_pnt _ _ Hd) as Hp. rewrite Ea.
    assert (Hs : exists s1, (if ansi d then
        d0 ← c_str (txt r ++ 0 :: slack r) (pnt d); cw ← Mbs.mb_width (C := C) wc d0; x ← n2ansi (C := C) wc (pnt d) (Some p) s;
        let s := set_currpnt (s16 (x + (if 0 <? cw then cw else 1))) s in
        x ← ansi2n (C := C) wc (currpnt s) (currline s) s; Some (set_currpnt x s)
      else Some (set_currpnt (pnt d + 1) s)) = Some s1 /\
      Cok s1 (w_pnt (if ansi d then pos_of (C := C) wc d (cur d) (s16 (col_of (C := C) wc (cur d) (pnt d) true +
        (if 0 <? char_width (C := C) wc (zdrop (pnt d) (cur d)) then char_width (C := C) wc (zdrop (pnt d) (cur d)) else 1))) true else pnt d + 1) d)).
    { destruct (ansi d) eqn:Ea'.
      - rewrite c_str_drop; [|apply text_c_string; by rewrite Et|rewrite Et; lia]. cbn [mbind option_bind]. rewrite Et.
        fold (zdrop (pnt d) (cur d)). rewrite (char_width_ok wc wc_le (zdrop (pnt d) (cur d))) by (by apply chars_drop). cbn [mbind option_bind].
        pose proof (cur_col_ok wc wc_le _ _ _ true R) as Ecol. rewrite Ep, Ecl in Ecol. unfold n2ansi. rewrite Ecol. cbn [mbind option_bind].
        destruct (ansi_move_ok true s d (s16 (col_of (C := C) wc (cur d) (pnt d) true +
          (if 0 <? char_width (C := C) wc (zdrop (pnt d) (cur d)) then char_width (C := C) wc (zdrop (pnt d) (cur d)) else 1))) R Hd Ea')
          as (s1 & E1 & R1 & Hd1). exists s1. split; [exact E1|by split].
      - eexists. split; [reflexivity|]. apply pnt_Cok; [done|lia]. }
    destruct Hs as (s1 & E1 & Hc1). cbn zeta in E1. cbn zeta. rewrite Et in E1. rewrite E1. cbn [mbind option_bind].
    destruct (fix_in_Cok s1 _ FC_RIGHT Hc1) as (s2 & -> & Hc2); [by apply Cok_mbcs|]. by exists s2.
Qed.

(** *** In the line *)

Lemma end_ok s d : Ok s d -> exists s', edit_cmd_end s = Some s' /\ Cok s' (w_pnt (zlen (cur d)) d).
Proof.
  intros Ho. pose proof (Ok_Cok _ _ Ho) as Hc. destruct Ho as (R & Hd & Hr).
  destruct (Rb_cur _ _ _ R) as (p & r & pv & nx & Ecl & Eg & Et & _).
  unfold edit_cmd_end. rewrite Ecl, Eg. cbn [mbind option_bind cell len]. rewrite Et. eexists. split; [reflexivity|].
  apply pnt_Cok; [done|]. pose proof (zlen_nonneg (cur d)). lia.
Qed.

Lemma word_next_ok f t (r : list Z) fuel : forall p, 0 <= p <= zlen t -> zlen t - p < Z.of_nat fuel ->
  exists q, word_next fuel f (t ++ 0 :: r) (zlen t) p = Some q /\ word_next fuel f t (zlen t) p = Some q /\ p <= q <= zlen t.
Proof.
  induction fuel as [|fuel IH]; intros p Hp Hf; [lia|]. cbn [word_next]. case_if E; [|exists p; split_and!; done || lia].
  destruct (zget_some t p) as [x Ex]; [lia|]. rewrite (zget_app_l _ _ _ _ Ex), Ex. cbn [mbind option_bind].
  destruct (f x); [|exists p; split_and!; done || lia].
  destruct (IH (p + 1)) as (q & -> & -> & Hq); [lia..|]. exists q. split_and!; done || lia.
Qed.

Lemma word_prev_ok f t (r : list Z) fuel : forall p, 0 <= p <= zlen t -> p < Z.of_nat fuel ->
  exists q, word_prev fuel f (t ++ 0 :: r) p = Some q /\ word_prev fuel f t p = Some q /\ 0 <= q <= p.
Proof.
  induction fuel as [|fuel IH]; intros p Hp Hf; [lia|]. cbn [word_prev]. case_if E; [|exists p; split_and!; done || lia].
  destruct (zget_some t (p - 1)) as [x Ex]; [lia|]. rewrite (zget_app_l _ _ _ _ Ex), Ex. cbn [mbind option_bind].
  destruct (f x); [|exists p; split_and!; done || lia].
  destruct (IH (p - 1)) as (q & -> & -> & Hq); [lia..|]. exists q. split_and!; done || lia.
Qed.

(** More fuel does not change the word. *)
Lemma word_next_fuel f t fuel fuel' : forall p, 0 <= p <= zlen t -> zlen t - p < Z.of_nat fuel -> (fuel <= fuel')%nat ->
  word_next fuel' f t (zlen t) p = word_next fuel f t (zlen t) p.
Proof.
  revert fuel'. induction fuel as [|fuel IH]; intros fuel' p Hp Hf Hle; [lia|]. destruct fuel' as [|fuel']; [lia|]. cbn [word_next].
  case_if E; [|done]. destruct (zget t p) as [x|]; cbn [mbind option_bind]; [|done]. destruct (f x); [|done]. apply IH; lia.
Qed.

Lemma word_prev_fuel f t fuel fuel' : forall p, 0 <= p <= zlen t -> p < Z.of_nat fuel -> (fuel <= fuel')%nat ->
  word_prev fuel' f t p = word_prev fuel f t p.
Proof.
  revert fuel'. induction fuel as [|fuel IH]; intros fuel' p Hp Hf Hle; [lia|]. destruct fuel' as [|fuel']; [lia|]. cbn [word_prev].
  case_if E; [|done]. destruct (zget t (p - 1)) as [x|]; cbn [mbind option_bind]; [|done]. destruct (f x); [|done]. apply IH; lia.
Qed.

Lemma next_word_ok s d : Ok s d -> exists s', cursor_to_next_word s = Some s' /\ Cok s' (w_pnt (next_word_of (cur d) (pnt d)) d).
Proof.
  intros Ho. pose proof (Ok_Cok _ _ Ho) as Hc. destruct Ho as (R & Hd & Hr). pose proof (ok_pnt _ _ Hd) as Hp.
  destruct (Rb_cur _ _ _ R) as (p & r & pv & nx & Ecl & Eg & Et & _ & _ & _ & _ & _ & Ep & _).
  unfold cursor_to_next_word, next_word_of. rewrite Ecl, Eg. cbn [mbind option_bind cell len data]. rewrite Et, Ep.
  set (F := S (length (cur d ++ 0 :: slack r))). set (G := S (length (cur d))).
  assert (HFG : (G <= F)%nat) by (unfold F, G; rewrite length_app; cbn; lia).
  assert (HG : zlen (cur d) < Z.of_nat G) by (unfold G, zlen; lia).
  destruct (word_next_ok isalnum (cur d) (slack r) F (pnt d)) as (q & -> & E1 & Hq); [lia|lia|]. cbn [mbind option_bind].
  rewrite (word_next_fuel isalnum (cur d) G F) in E1 by lia. rewrite E1. cbn [mbind option_bind].
  destruct (word_next_ok not_alnum (cur d) (slack r) F q) as (q2 & -> & E2 & Hq2); [lia|lia|]. cbn [mbind option_bind].
  rewrite (word_next_fuel not_alnum (cur d) G F) in E2 by lia. rewrite E2. cbn [default from_option id].
  eexists. split; [reflexivity|]. apply pnt_Cok; [done|lia].
Qed.

Lemma prev_word_ok s d : Ok s d -> exists s', cursor_to_prev_word s = Some s' /\ Cok s' (w_pnt (prev_word_of (cur d) (pnt d)) d).
Proof.
  intros Ho. pose proof (Ok_Cok _ _ Ho) as Hc. destruct Ho as (R & Hd & Hr). pose proof (ok_pnt _ _ Hd) as Hp.
  destruct (Rb_cur _ _ _ R) as (p & r & pv & nx & Ecl & Eg & Et & _ & _ & _ & _ & _ & Ep & _).
  unfold cursor_to_prev_word, prev_word_of. rewrite Ecl, Eg. cbn [mbind option_bind cell len data]. rewrite Et, Ep.
  set (F := S (length (cur d ++ 0 :: slack r))). set (G := S (length (cur d))).
  assert (HFG : (G <= F)%nat) by (unfold F, G; rewrite length_app; cbn; lia).
  assert (HG : zlen (cur d) < Z.of_nat G) by (unfold G, zlen; lia).
  destruct (word_prev_ok not_alnum (cur d) (slack r) F (pnt d)) as (q & -> & E1 & Hq); [lia|lia|]. cbn [mbind option_bind].
  rewrite (word_prev_fuel not_alnum (cur d) G F) in E1 by lia. rewrite E1. cbn [mbind option_bind].
  destruct (word_prev_ok isalnum (cur d) (slack r) F q) as (q2 & -> & E2 & Hq2); [lia|lia|]. cbn [mbind option_bind].
  rewrite (word_prev_fuel isalnum (cur d) G F) in E2 by lia. rewrite E2. cbn [default from_option id].
  eexists. split; [reflexivity|]. apply pnt_Cok; [done|lia].
Qed.

(** *** Pages *)

Lemma heap_size ex bx k s us c ds dl d : rep ex bx k s us c ds dl d -> (length (us ++ c :: ds) <= size (heap s))%nat.
Proof.
  intros R. rewrite <- ptrs_length, <- (size_list_to_set (C := gset ptr) (ptrs (us ++ c :: ds))) by apply (rp_nodup R).
  rewrite <- size_dom. apply subseteq_size. intros q Hq%elem_of_list_to_set. apply elem_of_dom.
  apply list_elem_of_lookup in Hq as (i & Hi). destruct (node_at _ _ _ _ _ _ _ _ _ _ _ R Hi) as (r & _ & _ & ->). by eexists.
Qed.

Lemma walk_heap f n : forall p s s0, heap s0 = heap s -> walk_line f n p s0 = walk_line f n p s.
Proof.
  induction n as [|n IH]; intros p s s0 E; [done|]. cbn [walk_line]. destruct p as [p|]; [|done]. unfold get. cbn.
  rewrite E. destruct (heap s !! p); cbn; [|done]. destruct (f _); [|done]. by rewrite (IH _ s s0).
Qed.

Lemma ptrs_neq ls i j : NoDup (ptrs ls) -> (i < length ls)%nat -> i <> j -> ptrs ls !! i <> ptrs ls !! j.
Proof.
  intros Hn Hi Hne. destruct (lookup_lt_is_Some_2 (ptrs ls) i) as [q Eq]; [by rewrite ptrs_length|]. rewrite Eq.
  intros E. apply Hne. by apply (NoDup_lookup _ _ _ _ Hn Eq).
Qed.

(** The row of the line [i] in a window that starts with the line [j]. *)
Lemma lineno_ok ex bx k s us c ds dl d s0 i j :
  rep ex bx k s us c ds dl d -> heap s0 = heap s -> currline s0 = ptrs (us ++ c :: ds) !! i ->
  top_of_win s0 = ptrs (us ++ c :: ds) !! j -> (j <= i < length (us ++ c :: ds))%nat ->
  get_lineno_in_window s0 = Some (Z.of_nat (i - j)).
Proof.
  intros R Eh Ec Et Hij. unfold get_lineno_in_window, line_fuel. rewrite Eh, Ec.
  pose proof (heap_size _ _ _ _ _ _ _ _ _ R) as Hs.
  replace (Z.of_nat (i - j)) with (0 + Z.of_nat (i - j)) by lia. generalize 0 as cnt. intros cnt.
  assert (Hf : (i - j < S (size (heap s)))%nat) by lia. revert cnt Hf. generalize (S (size (heap s))) as fuel. clear Ec.
  intros fuel. revert i Hij. induction fuel as [|fuel IH]; intros i Hij cnt Hf; [lia|]. cbn [lineno_loop].
  destruct (lookup_lt_is_Some_2 (ptrs (us ++ c :: ds)) i) as [q Eq]; [rewrite ptrs_length; lia|].
  destruct (node_at _ _ _ _ _ _ _ _ _ _ _ R Eq) as (r & _ & _ & Hq). rewrite Et, Eq. rewrite bool_decide_eq_false_2 by done. cbn [orb].
  destruct (decide (i = j)) as [->|Hne].
  - rewrite Eq, bool_decide_eq_true_2 by done. f_equal. lia.
  - rewrite <- Eq, bool_decide_eq_false_2 by (apply ptrs_neq; [apply (rp_nodup R)|lia|done]). rewrite Eq.
    unfold get. cbn [mbind option_bind]. rewrite Eh, Hq. cbn [mbind option_bind cell prev]. destruct i as [|i]; [lia|]. cbn [prev_ix].
    rewrite IH by lia. f_equal. lia.
Qed.

(** The cursor goes to the line [i] in a window that starts at [top], in the same
    column. *)
Lemma page_ok s us c ds dl d i top x col strip :
  rep None true 0 s us c ds dl d -> doc_ok d -> 0 <= i <= lastl d -> 0 <= top <= lastl d ->
  (us ++ c :: ds) !! Z.to_nat i = Some x ->
  let s1 := set_curr_window_line (i - top) (set_currline (Some x.1) (set_currln i (set_top_of_win (ptrs (us ++ c :: ds) !! Z.to_nat top) s))) in
  line_col_to_pos (C := C) wc (Some x.1) col strip s1 = Some (pos_of (C := C) wc d (line d i) col strip) /\
  Cok (set_currpnt (pos_of (C := C) wc d (line d i) col strip) s1)
    (d_goto i (i - top) (pos_of (C := C) wc d (line d i) col strip) d).
Proof.
  intros R Hd Hi Ht Ex s1.
  destruct (rep_goto _ _ _ _ _ _ _ _ _ i (i - top) (pos_of (C := C) wc d (line d i) col strip) x R Ex) as (us' & ds' & E & Hz & R'); [lia|lia|].
  replace (i - (i - top)) with top in R' by lia.
  pose proof (rep_get_cur _ _ _ _ _ _ _ _ _ R') as Eg. pose proof (rep_mid _ _ _ _ _ _ _ _ _ R') as (_ & _ & _ & Hok & _).
  assert (Em : mbcs_mode s1 = mbcs d) by exact (rp_mbcs R).
  pose proof (line_pos_ok wc wc_le d s1 x.1 _ _ x.2 col strip Eg Hok Em) as [E1 Hp].
  rewrite (rep_line _ _ _ _ _ _ _ _ _ _ _ R Ex) in *. split; [exact E1|].
  apply goto_Cok; [|done|done|by rewrite (rep_line _ _ _ _ _ _ _ _ _ _ _ R Ex)].
  exists us', x, ds', dl. exact R'.
Qed.

Lemma redraw_Cok s d x : Cok s d -> Cok (set_redraw_everything x s) d.
Proof. intros [(us & c & ds & dl & R) Hd]. split; [|done]. exists us, c, ds, dl. by apply rep_redraw. Qed.

Lemma rep_height ex bx k s us c ds dl d : rep ex bx k s us c ds dl d -> 1 <= height d -> visible_window_height s = height d.
Proof. intros [] Hh. unfold visible_window_height, height, b_lines in *. rewrite rp_phone0, rp_size0. destruct (phone d); lia. Qed.

Lemma pgup_ok s d : Ok s d -> exists s', edit_cmd_pgup (C := C) wc s = Some s' /\ Cok s' (d_pgup (C := C) wc d).
Proof.
  intros (R0 & Hd & Hr). pose proof (cur_col_ok wc wc_le _ _ _ (ansi d) R0) as Ecol. pose proof (doc_height _ _ Hd) as Hh.
  destruct R0 as (us & c & ds & dl & R). pose proof (rep_lastl _ _ _ _ _ _ _ _ _ R) as [Ec El].
  pose proof (zlen_nonneg us). pose proof (zlen_nonneg ds). pose proof (rp_row R) as Hrow.
  unfold edit_cmd_pgup, d_pgup, d_page. rewrite (rp_ansi R), Ecol. cbn [mbind option_bind].
  unfold back_line. rewrite (rep_height _ _ _ _ _ _ _ _ _ R Hh), (rp_top R).
  assert (Hlen : length (us ++ c :: ds) = S (length us + length ds)) by (rewrite length_app; cbn; lia).
  rewrite (walk_prev _ _ _ _ _ _ _ _ _ _ _ R) by (unfold zlen in *; lia). cbn [mbind option_bind].
  change (currline (set_top_of_win _ s)) with (currline s). change (visible_window_height (set_top_of_win _ s)) with (visible_window_height s).
  rewrite (rp_cur R), <- (ptr_cur us c ds), (rep_height _ _ _ _ _ _ _ _ _ R Hh).
  rewrite (walk_heap prev _ _ s) by done. rewrite (walk_prev _ _ _ _ _ _ _ _ _ _ _ R) by lia. cbn [mbind option_bind].
  set (k := height d - 1). set (i := Z.max 0 (currl d - k)). set (top := Z.max 0 (currl d - row d - k)).
  replace (length us - Z.to_nat k)%nat with (Z.to_nat i) by (unfold i, k, zlen in *; lia).
  replace (Z.to_nat (zlen us - row d) - Z.to_nat k)%nat with (Z.to_nat top) by (unfold top, k, zlen in *; lia).
  destruct (rep_nth _ _ _ _ _ _ _ _ _ i R) as (x & Ex & Ep); [unfold i, k; lia|]. rewrite Ep.
  erewrite lineno_ok; [|exact R|done|symmetry; exact Ep|done|unfold top, i, k, zlen in *; lia].
  cbn [mbind option_bind].
  destruct (page_ok s us c ds dl d i top x (col_of (C := C) wc (cur d) (pnt d) (ansi d)) (ansi d) R Hd) as [E1 Hc];
    [unfold i, k; lia|unfold top, k; lia|done|].
  cbn [currln set_top_of_win ansimode set_currline set_currln set_curr_window_line currline].
  rewrite (rp_currln R), (rp_ansi R). replace (zlen us - Z.of_nat (Nat.min (Z.to_nat k) (length us))) with i by (unfold i, k, zlen in *; lia).
  replace (Z.of_nat (Z.to_nat i - Z.to_nat top)) with (i - top) by (unfold i, top, k; lia).
  rewrite E1. cbn [mbind option_bind]. eexists. split; [reflexivity|]. by apply redraw_Cok.
Qed.

Lemma pgdn_ok s d : Ok s d -> exists s', edit_cmd_pgdn (C := C) wc s = Some s' /\ Cok s' (d_pgdn (C := C) wc d).
Proof.
  intros (R0 & Hd & Hr). pose proof (cur_col_ok wc wc_le _ _ _ (ansi d) R0) as Ecol. pose proof (doc_height _ _ Hd) as Hh.
  destruct R0 as (us & c & ds & dl & R). pose proof (rep_lastl _ _ _ _ _ _ _ _ _ R) as [Ec El].
  pose proof (zlen_nonneg us). pose proof (zlen_nonneg ds). pose proof (rp_row R) as Hrow.
  unfold edit_cmd_pgdn, d_pgdn, d_page. rewrite (rp_ansi R), Ecol. cbn [mbind option_bind].
  unfold forward_line. rewrite (rep_height _ _ _ _ _ _ _ _ _ R Hh), (rp_top R).
  assert (Hlen : length (us ++ c :: ds) = S (length us + length ds)) by (rewrite length_app; cbn; lia).
  rewrite (walk_next _ _ _ _ _ _ _ _ _ _ _ R) by (unfold zlen in *; lia). cbn [mbind option_bind].
  change (currline (set_top_of_win _ s)) with (currline s). change (visible_window_height (set_top_of_win _ s)) with (visible_window_height s).
  rewrite (rp_cur R), <- (ptr_cur us c ds), (rep_height _ _ _ _ _ _ _ _ _ R Hh).
  rewrite (walk_heap next _ _ s) by done. rewrite (walk_next _ _ _ _ _ _ _ _ _ _ _ R) by lia. cbn [mbind option_bind].
  set (k := height d - 1). set (i := Z.min (lastl d) (currl d + k)). set (top := Z.min (lastl d) (currl d - row d + k)).
  replace (Nat.min (length us + Z.to_nat k) (length (us ++ c :: ds) - 1)) with (Z.to_nat i) by (unfold i, k, zlen in *; lia).
  replace (Nat.min (Z.to_nat (zlen us - row d) + Z.to_nat k) (length (us ++ c :: ds) - 1)) with (Z.to_nat top) by (unfold top, k, zlen in *; lia).
  destruct (rep_nth _ _ _ _ _ _ _ _ _ i R) as (x & Ex & Ep); [unfold i, k; lia|]. rewrite Ep.
  erewrite lineno_ok; [|exact R|done|symmetry; exact Ep|done|unfold top, i, k, zlen in *; lia].
  cbn [mbind option_bind].
  destruct (page_ok s us c ds dl d i top x (col_of (C := C) wc (cur d) (pnt d) (ansi d)) (ansi d) R Hd) as [E1 Hc];
    [unfold i, k; lia|unfold top, k; lia|done|].
  cbn [currln set_top_of_win ansimode set_currline set_currln set_curr_window_line currline].
  rewrite (rp_currln R), (rp_ansi R).
  replace (zlen us + Z.of_nat (Nat.min (Z.to_nat k) (length (us ++ c :: ds) - 1 - length us))) with i by (unfold i, k, zlen in *; lia).
  replace (Z.of_nat (Z.to_nat i - Z.to_nat top)) with (i - top) by (unfold i, top, k; lia).
  rewrite E1. cbn [mbind option_bind]. eexists. split; [reflexivity|]. by apply redraw_Cok.
Qed.

(** *** The ends of the text, and a line by its number *)

Lemma rep_firstline ex bx k s us c ds dl d : rep ex bx k s us c ds dl d -> firstline s = ptrs (us ++ c :: ds) !! 0%nat.
Proof. intros R. by rewrite (rp_first R), head_ptr_ptrs. Qed.

Lemma rep_lastline ex bx k s us c ds dl d : rep ex bx k s us c ds dl d ->
  lastline s = ptrs (us ++ c :: ds) !! Z.to_nat (lastl d).
Proof.
  intros R. rewrite (rp_last R), last_ptr_lookup. f_equal. rewrite (proj2 (rep_lastl _ _ _ _ _ _ _ _ _ R)), length_app.
  cbn. unfold zlen. lia.
Qed.

(** The cursor at the start of the line [i]. *)
Lemma goto_start_ok s us c ds dl d i top x : rep None true 0 s us c ds dl d -> doc_ok d -> 0 <= i <= lastl d -> 0 <= top <= lastl d ->
  (us ++ c :: ds) !! Z.to_nat i = Some x ->
  Cok (goto (Some x.1) (ptrs (us ++ c :: ds) !! Z.to_nat top) i (i - top) 0 s) (d_goto i (i - top) 0 d).
Proof.
  intros R Hd Hi Ht Ex. destruct (rep_goto _ _ _ _ _ _ _ _ _ i (i - top) 0 x R Ex) as (us' & ds' & E & Hz & R'); [lia|lia|].
  replace (i - (i - top)) with top in R' by lia. apply goto_Cok; [by exists us', x, ds', dl|done|done|].
  pose proof (zlen_nonneg (line d i)). lia.
Qed.

Lemma bof_ok s d : Ok s d -> Cok (edit_cmd_bof s) (d_goto 0 0 0 d).
Proof.
  intros ((us & c & ds & dl & R) & Hd & Hr). pose proof (rep_lastl _ _ _ _ _ _ _ _ _ R) as [Ec El].
  pose proof (zlen_nonneg us). pose proof (zlen_nonneg ds).
  destruct (rep_nth _ _ _ _ _ _ _ _ _ 0 R) as (x & Ex & Ep); [lia|].
  pose proof (goto_start_ok s us c ds dl d 0 0 x R Hd) as Hc. specialize (Hc ltac:(lia) ltac:(lia) Ex).
  unfold edit_cmd_bof. change (firstline (set_top_of_win _ s)) with (firstline s).
  rewrite (rep_firstline _ _ _ _ _ _ _ _ _ R). rewrite Ep in Hc. change (Z.to_nat 0) with 0%nat in Ep. rewrite Ep.
  apply redraw_Cok. exact Hc.
Qed.

Lemma eof_ok s d : Ok s d -> exists s', edit_cmd_eof s = Some s' /\ Cok s' (d_eof d).
Proof.
  intros ((us & c & ds & dl & R) & Hd & Hr). pose proof (doc_height _ _ Hd) as Hh.
  pose proof (rep_lastl _ _ _ _ _ _ _ _ _ R) as [Ec El]. pose proof (zlen_nonneg us). pose proof (zlen_nonneg ds).
  assert (Hlen : length (us ++ c :: ds) = S (length us + length ds)) by (rewrite length_app; cbn; lia).
  unfold edit_cmd_eof, d_eof, back_line. rewrite (rep_height _ _ _ _ _ _ _ _ _ R Hh), (rep_lastline _ _ _ _ _ _ _ _ _ R).
  rewrite (walk_prev _ _ _ _ _ _ _ _ _ _ _ R) by (unfold zlen in *; lia). cbn [mbind option_bind].
  set (top := Z.max 0 (lastl d - (height d - 1))).
  replace (Z.to_nat (lastl d) - Z.to_nat (height d - 1))%nat with (Z.to_nat top) by (unfold top; lia).
  change (lastline (set_top_of_win _ s)) with (lastline s). rewrite (rep_lastline _ _ _ _ _ _ _ _ _ R).
  destruct (rep_nth _ _ _ _ _ _ _ _ _ (lastl d) R) as (x & Ex & Ep); [lia|].
  erewrite lineno_ok; [|exact R|done|reflexivity|reflexivity|unfold top, zlen in *; lia]. cbn [mbind option_bind].
  eexists. split; [reflexivity|]. pose proof (goto_start_ok s us c ds dl d (lastl d) top x R Hd) as Hc.
  specialize (Hc ltac:(lia) ltac:(unfold top; lia) Ex).
  replace (Z.of_nat (Z.to_nat (lastl d) - Z.to_nat top)) with (lastl d - top) by (unfold top; lia).
  replace (Z.min (lastl d) (height d - 1)) with (lastl d - top) by (unfold top; lia).
  pose proof (redraw_Cok _ _ true Hc) as Hc2. rewrite Ep. cbn [set_curr_window_line totaln set_currline set_top_of_win].
  assert (Et : totaln s = lastl d) by (rewrite (rp_totaln R); lia). rewrite Et. exact Hc2.
Qed.

Lemma goto_loop_ok ex bx k s us c ds dl d s0 n : rep ex bx k s us c ds dl d -> heap s0 = heap s -> forall i,
  (i + n < length (us ++ c :: ds))%nat ->
  goto_loop n (ptrs (us ++ c :: ds) !! i) s0 = Some (ptrs (us ++ c :: ds) !! (i + n)%nat).
Proof.
  intros R Eh. induction n as [|n IH]; intros i Hi; cbn [goto_loop]; [by rewrite Nat.add_0_r|].
  destruct (lookup_lt_is_Some_2 (ptrs (us ++ c :: ds)) i) as [q Eq]; [rewrite ptrs_length; lia|].
  destruct (lookup_lt_is_Some_2 (ptrs (us ++ c :: ds)) (S i)) as [q' Eq']; [rewrite ptrs_length; lia|].
  destruct (node_at _ _ _ _ _ _ _ _ _ _ _ R Eq) as (r & _ & _ & Hq). rewrite Eq. unfold get. cbn [mbind option_bind].
  rewrite Eh, Hq. cbn [mbind option_bind cell next]. rewrite Eq', <- Eq', IH by lia. f_equal. f_equal. lia.
Qed.

Lemma up_lines_ok ex bx k s us c ds dl d s0 n : rep ex bx k s us c ds dl d -> heap s0 = heap s -> forall i,
  (n <= i < length (us ++ c :: ds))%nat ->
  up_lines n (ptrs (us ++ c :: ds) !! i) s0 = Some (ptrs (us ++ c :: ds) !! (i - n)%nat).
Proof.
  intros R Eh. induction n as [|n IH]; intros i Hi; cbn [up_lines]; [by rewrite Nat.sub_0_r|].
  destruct (lookup_lt_is_Some_2 (ptrs (us ++ c :: ds)) i) as [q Eq]; [rewrite ptrs_length; lia|].
  destruct (node_at _ _ _ _ _ _ _ _ _ _ _ R Eq) as (r & _ & _ & Hq). rewrite Eq. unfold get. cbn [mbind option_bind].
  rewrite Eh, Hq. cbn [mbind option_bind cell prev]. destruct i as [|i]; [lia|]. cbn [prev_ix]. apply IH. lia.
Qed.

Lemma goto_line_ok s d lino : Ok s d -> exists s', goto_line lino s = Some s' /\ Cok s' (d_goto_line lino d).
Proof.
  intros Ho. pose proof (Ok_Cok _ _ Ho) as Hc. destruct Ho as ((us & c & ds & dl & R) & Hd & Hr).
  pose proof (rep_lastl _ _ _ _ _ _ _ _ _ R) as [Ec El]. pose proof (zlen_nonneg us). pose proof (zlen_nonneg ds).
  assert (Hlen : length (us ++ c :: ds) = S (length us + length ds)) by (rewrite length_app; cbn; lia).
  assert (Et : totaln s = lastl d) by (rewrite (rp_totaln R); lia).
  unfold goto_line, d_goto_line. rewrite Et. destruct ((0 <? lino) && (lino <=? lastl d + 1)) eqn:E.
  2: { cbn [mbind option_bind]. eexists. split; [reflexivity|]. by apply redraw_Cok. }
  zbool. set (i := lino - 1). rewrite (rep_firstline _ _ _ _ _ _ _ _ _ R).
  rewrite (goto_loop_ok _ _ _ _ _ _ _ _ _ _ _ R) by (done || (unfold i, zlen in *; lia)). cbn [mbind option_bind].
  change (0 + Z.to_nat i)%nat with (Z.to_nat i). destruct (rep_nth _ _ _ _ _ _ _ _ _ i R) as (x & Ex & Ep); [unfold i; lia|]. rewrite Ep.
  unfold edit_window_adjust_middle. cbn [currln set_currpnt set_currline set_currln firstline currline].
  change (middle_line (set_currpnt 0 _)) with (middle_line s).
  assert (Em : middle_line s = (rows d - 4) / 2 + 1) by (unfold middle_line, p_lines; by rewrite (rp_size R)).
  assert (Hm : 0 <= (rows d - 4) / 2 + 1) by (pose proof (ok_rows _ _ Hd); Z.to_euclidean_division_equations; lia).
  rewrite Em. set (m := (rows d - 4) / 2 + 1) in *. unfold d_middle. fold m.
  assert (Hrow : exists top, Z.min i m = i - top /\ 0 <= top <= lastl d) by (exists (i - Z.min i m); unfold i; lia).
  destruct (i <? m) eqn:Eim; zbool.
  - cbn [mbind option_bind]. eexists. split; [reflexivity|]. apply redraw_Cok, redraw_Cok.
    replace (Z.min i m) with (i - 0) by lia. pose proof (goto_start_ok s us c ds dl d i 0 x R Hd) as Hg.
    specialize (Hg ltac:(unfold i; lia) ltac:(lia) Ex). rewrite (rep_firstline _ _ _ _ _ _ _ _ _ R).
    replace (i - 0) with i in * by lia. exact Hg.
  - rewrite <- Ep. rewrite (up_lines_ok _ _ _ _ _ _ _ _ _ _ _ R) by (done || (unfold i, zlen in *; lia)). cbn [mbind option_bind].
    eexists. split; [reflexivity|]. apply redraw_Cok, redraw_Cok.
    replace (Z.min i m) with (i - (i - m)) by lia. pose proof (goto_start_ok s us c ds dl d i (i - m) x R Hd) as Hg.
    specialize (Hg ltac:(unfold i; lia) ltac:(unfold i; lia) Ex). rewrite Ep.
    replace (Z.to_nat i - Z.to_nat m)%nat with (Z.to_nat (i - m)) by lia. replace (i - (i - m)) with m in * by lia. exact Hg.
Qed.

Lemma mouse_ok s d y x margin : Ok s d -> 0 <= y ->
  exists s', mouse_line (C := C) wc y x margin s = Some s' /\ Cok s' (d_mouse (C := C) wc y x margin d).
Proof.
  intros ((us & c & ds & dl & R) & Hd & Hr) Hy.
  pose proof (rep_lastl _ _ _ _ _ _ _ _ _ R) as [Ec El]. pose proof (zlen_nonneg us). pose proof (zlen_nonneg ds).
  assert (Hlen : length (us ++ c :: ds) = S (length us + length ds)) by (rewrite length_app; cbn; lia).
  pose proof (rp_row R) as Hrow. unfold mouse_line, d_mouse. rewrite (rp_top R).
  rewrite (walk_next _ _ _ _ _ _ _ _ _ _ _ R) by (unfold zlen in *; lia). cbn [mbind option_bind].
  set (top := currl d - row d). set (i := Z.min (lastl d) (top + y)).
  replace (Nat.min (Z.to_nat (zlen us - row d) + Z.to_nat y) (length (us ++ c :: ds) - 1)) with (Z.to_nat i) by (unfold i, top, zlen in *; lia).
  replace (Z.of_nat (Nat.min (Z.to_nat y) (length (us ++ c :: ds) - 1 - Z.to_nat (zlen us - row d)))) with (i - top) by (unfold i, top, zlen in *; lia).
  destruct (rep_nth _ _ _ _ _ _ _ _ _ i R) as (z & Ex & Ep); [unfold i, top; lia|]. rewrite Ep.
  destruct (page_ok s us c ds dl d i top z (Z.max 0 (x + margin)) (ansi d) R Hd) as [E1 Hc]; [unfold i, top; lia|unfold top; lia|done|].
  assert (Ecol : (if x + margin <? 0 then 0 else x + margin) = Z.max 0 (x + margin)) by (case_if E0; lia).
  rewrite Ecol. rewrite (rp_currln R), (rp_winln R). replace (zlen us - row d + (i - top)) with i by (unfold top; lia).
  cbn [ansimode set_currln set_curr_window_line set_currline]. rewrite (rp_ansi R).
  assert (Etop : ptrs (us ++ c :: ds) !! Z.to_nat top = top_of_win s) by (unfold top; by rewrite (rp_top R), Ec).
  rewrite Etop in *.
  match type of E1 with line_col_to_pos _ _ _ _ ?s1 = _ =>
    match goal with |- context [line_col_to_pos _ _ _ _ ?s2] => replace s2 with s1 by (destruct s; reflexivity) end end.
  rewrite E1. cbn [mbind option_bind].
  match goal with |- context [set_currpnt ?v ?s2] => destruct (fix_in_Cok (set_currpnt v s2) _ FC_LEFT Hc) as (s3 & E3 & Hc3); [exact (rp_mbcs R)|] end.
  exists s3. split; [exact E3|exact Hc3].
Qed.

End Moves.
End EditMoves.
