(* ===== verification/EditCmds.v ===== *)
(** The commands that change the text, over [rep]. *)

From stdpp Require Import gmap.
From S2P Require Import Prelude Cstr Str Mbs MbsProps Edit EditText EditHeap EditRep EditPos EditList EditSplit EditJoin EditChars EditInsert EditMoves.

#[global] Open Scope Z_scope.
#[global] Open Scope list_scope.

Module EditCmds.
Import Cstr Str Mbs MbsProps Edit EditText EditHeap EditRep EditPos EditList EditSplit EditJoin EditChars EditInsert EditMoves.

Section Cmds.
Context `{LibcOk} {C : Type} `{MbShort C}.
Variable wc : Z -> Z.
Hypothesis wc_le : forall u, wc u <= 2.
Implicit Types (us ds a b : list node) (c : node) (dl : option node) (d : doc) (t : list Z).

(** *** Modes *)

Lemma ins_Cok s d x : Cok s d -> Cok (set_insert_mode x s) (w_ins x d).
Proof. intros [(us & c & ds & dl & []) []]. split; [exists us, c, ds, dl|]; by constructor. Qed.

Lemma ind_Cok s d x : Cok s d -> Cok (set_indent_mode x s) (w_ind x d).
Proof. intros [(us & c & ds & dl & []) []]. split; [exists us, c, ds, dl|]; by constructor. Qed.

Lemma ansi_Cok s d x : Cok s d -> Cok (set_ansimode x s) (w_ansi x d).
Proof. intros [(us & c & ds & dl & []) []]. split; [exists us, c, ds, dl|]; by constructor. Qed.

Lemma mbcs_Cok s d x : Cok s d -> Cok (set_mbcs_mode x s) (w_mbcs x d).
Proof. intros [(us & c & ds & dl & []) []]. split; [exists us, c, ds, dl|]; by constructor. Qed.

Lemma phone_Cok s d x : Cok s d -> Cok (set_phone_mode x s) (w_phone x d).
Proof. intros [(us & c & ds & dl & []) []]. split; [exists us, c, ds, dl|]; by constructor. Qed.

Lemma mark_Cok s d : Cok s d -> Cok (block_select s) (w_blk (Some (currl d)) d).
Proof.
  intros [(us & c & ds & dl & R) Hd]. split; [|by apply doc_w_blk]. exists us, c, ds, dl.
  pose proof (rep_lastl _ _ _ _ _ _ _ _ _ R) as [Ec _]. pose proof (zlen_nonneg us) as Hn. pose proof (rp_cur R) as Hcur.
  pose proof (rp_currln R) as Hln. destruct R. constructor; try done. cbn. rewrite Ec, Hln, Hcur. split; [done|]. split; [done|].
  exists c.1. split; [done|]. rewrite <- (ptr_cur us c ds). unfold zlen. rewrite Nat2Z.id.
  split; [|done]. apply list_elem_of_lookup. exists (length us). apply ptr_cur.
Qed.

Lemma ind_Ok s d x : Ok s d -> Ok (set_indent_mode x s) (w_ind x d).
Proof. intros (R & Hd & Hr). destruct (ind_Cok s d x) as [R' Hd']; [by split|]. by split. Qed.

(** *** A new line *)

Lemma spc_drop t q : 0 <= q <= spc t -> spc (zdrop q t) = spc t - q.
Proof.
  unfold spc, zdrop. intros Hq. destruct (Z_of_nat_complete q (proj1 Hq)) as [n ->]. rewrite Nat2Z.id. revert n Hq.
  induction t as [|x t IH]; intros n Hq; [rewrite drop_nil; cbn in *; lia|]. destruct n as [|n]; [rewrite drop_0; lia|].
  cbn [drop run_len] in *. destruct (32 =? x); [|lia]. rewrite IH; lia.
Qed.

Lemma cut_from_spc d t p : text_chars t -> 0 <= p -> ind d = true -> spc t <= cut_from (C := C) d t p.
Proof.
  intros Ht Hp Hi. pose proof (cut_at_ok (C := C) d t p Ht Hp) as [Hc _]. unfold cut_from. rewrite Hi.
  set (q := cut_at (C := C) d t p) in *. destruct (Z_le_gt_dec q (spc t)) as [Hle|Hgt]; [rewrite spc_drop; lia|].
  pose proof (spc_ok (zdrop q t)). lia.
Qed.

Lemma indent_loop_ok ex bx k s us c ds dl d : rep ex bx k s us c ds dl d -> forall fuel i,
  (i < length (us ++ c :: ds))%nat -> (S i < fuel)%nat ->
  indent_loop fuel (ptrs (us ++ c :: ds) !! i) s =
  Some match List.find (fun t : list Z => negb (blank_line t)) (rev (take (S i) (texts (us ++ c :: ds)))) with Some t => spc t | None => 0 end.
Proof.
  intros R. induction fuel as [|fuel IH]; intros i Hi Hf; [lia|]. cbn [indent_loop].
  destruct (lookup_lt_is_Some_2 (ptrs (us ++ c :: ds)) i) as [q Eq]; [by rewrite ptrs_length|]. rewrite Eq.
  destruct (node_at _ _ _ _ _ _ _ _ _ _ _ R Eq) as (r & Er & [Hch Hl] & Hq). rewrite (get_some _ _ _ Hq).
  cbn [mbind option_bind cell data prev].
  destruct (blank_code (txt r) (slack r)) as (x & -> & E2 & Ex); [by apply text_c_string|]. cbn [mbind option_bind].
  rewrite E2. cbn [mbind option_bind]. rewrite Ex.
  assert (Et : texts (us ++ c :: ds) !! i = Some (txt r)) by (unfold texts; rewrite list_lookup_fmap; by rewrite Er).
  rewrite (take_S_r _ _ _ Et), rev_app_distr. cbn [rev app List.find].
  destruct (blank_line (txt r)); cbn [negb]; [|done]. destruct i as [|i]; cbn [prev_ix].
  - rewrite take_0. cbn. destruct fuel; [lia|done].
  - apply IH; lia.
Qed.

Lemma find_spc_le ls : Forall line_ok ls ->
  0 <= match List.find (fun t : list Z => negb (blank_line t)) ls with Some t => spc t | None => 0 end <= WRAPMARGIN - 1.
Proof.
  induction 1 as [|t ls [_ Ht] _ IH]; cbn; [unfold WRAPMARGIN; lia|]. destruct (negb (blank_line t)); [|done].
  pose proof (spc_ok t). lia.
Qed.

Lemma enter_ok allowlarge s d : Ok s d -> exists s', edit_cmd_enter (C := C) allowlarge s = Some s' /\ Cok s' (d_enter (C := C) allowlarge d).
Proof.
  intros Ho. apply cancel_Ok in Ho. unfold edit_cmd_enter, d_enter. set (s1 := block_cancel s) in *. set (d1 := d_cancel d) in *.
  assert (Hb : blk d1 = None) by done. clearbody s1 d1. clear s d. rename s1 into s, d1 into d.
  pose proof (Ok_Cok _ _ Ho) as Hc. pose proof Ho as ((us & c & ds & dl & R) & Hd & Hr).
  pose proof (rep_lastl _ _ _ _ _ _ _ _ _ R) as [Ec El].
  assert (Et : totaln s = lastl d) by (rewrite (rp_totaln R); lia). rewrite Et.
  destruct (EDIT_LINE_LIMIT <=? lastl d); cbn [orb]; [by exists s|].
  destruct (lastl d =? _); cbn [orb]; [by exists s|].
  set (n := if ind d then _ else 0).
  assert (Hn : indent_space s = Some n).
  { unfold indent_space, n. rewrite (rp_ind R). destruct (ind d); cbn [negb]; [|done].
    rewrite (rp_cur R), <- (ptr_cur us c ds).
    assert (Hlen : length (us ++ c :: ds) = S (length us + length ds)) by (rewrite length_app; cbn; lia).
    rewrite (indent_loop_ok _ _ _ _ _ _ _ _ _ R); [|lia|unfold line_fuel; pose proof (heap_size _ _ _ _ _ _ _ _ _ R); lia].
    rewrite texts_app. cbn [texts map]. fold (texts ds).
    assert (E1 : take (S (length us)) (texts us ++ txt c.2 :: texts ds) = texts us ++ [txt c.2]).
    { replace (texts us ++ txt c.2 :: texts ds) with ((texts us ++ [txt c.2]) ++ texts ds) by (by rewrite <- app_assoc).
      apply take_app_length'. unfold texts. rewrite length_app, length_map. cbn. lia. }
    rewrite E1, rev_app_distr. cbn [rev app]. by rewrite (rp_curt R), (rp_up R). }
  rewrite Hn. cbn [mbind option_bind]. rewrite (rp_pnt R).
  assert (Hn0 : 0 <= n <= WRAPMARGIN - 1).
  { unfold n. destruct (ind d); [|unfold WRAPMARGIN; lia]. apply find_spc_le. apply list.Forall_cons. split; [by apply doc_ok_cur|].
    apply List.Forall_rev, Hd. }
  assert (Hlow : zlen (lower (C := C) d (cur d) (pnt d) n) <= WRAPMARGIN - 1).
  { pose proof (ok_pnt _ _ Hd) as Hp. pose proof (ok_chars _ _ Hd) as Hch. pose proof (ok_len _ _ Hd) as Hl.
    pose proof (cut_at_ok (C := C) d (cur d) (pnt d) Hch (proj1 Hp)) as [Hc1 Hc2]. specialize (Hc2 (proj2 Hp)).
    assert (Hf := cut_from_ok d (cur d) (pnt d) Hch (proj1 Hp) (proj2 Hc2)).
    rewrite (lower_len d (cur d) (pnt d) n Hch (proj1 Hp) (proj1 Hn0) (proj2 Hc2)).
    unfold n in *. destruct (ind d) eqn:Ei; [|lia]. pose proof (cut_from_spc d (cur d) (pnt d) Hch (proj1 Hp) Ei) as Hs.
    cbn [List.find] in *. destruct (blank_line (cur d)) eqn:Eb; cbn [negb] in *; unfold blank_line in Eb; zbool; lia. }
  destruct (split_Ok s d (pnt d) n Ho Hb (ok_pnt _ _ Hd) (proj1 Hn0) Hlow) as (s' & q & -> & Ho').
  exists s'. split; [done|by apply Ok_Cok].
Qed.

(** *** Characters *)

Lemma ansi_fix_Cok s d : Cok s d -> exists s', ansi_fix (C := C) wc s = Some s' /\ Cok s' (d_ansi_fix (C := C) wc d).
Proof.
  intros [R Hd]. destruct (ansi_fix_ok wc wc_le _ _ _ R) as (s' & E & R'). exists s'. split; [done|].
  split; [done|by apply doc_ansi_fix].
Qed.

Lemma insert_Cok s d ch : Ok s d -> room d -> is_u8 ch -> ch <> 0 ->
  exists s', insert_char (C := C) wc ch s = Some s' /\ Cok s' (d_insert_char (C := C) wc ch d).
Proof.
  intros Ho Hr Hch Hch0. destruct (insert_char_Ok wc wc_le s d ch Ho Hr Hch Hch0) as (s' & E & Ho'). exists s'.
  split; [done|by apply Ok_Cok].
Qed.

Lemma shift_left_ok s d : Ok s d -> exists s', currline_shift_left (C := C) wc s = Some s' /\ Cok s' (d_shift_left (C := C) wc d).
Proof.
  intros Ho. pose proof (Ok_Cok _ _ Ho) as Hc. destruct Ho as (R & Hd & Hr). pose proof (ok_pnt _ _ Hd) as Hp.
  destruct (Rb_cur _ _ _ R) as (p & r & pv & nx & Ecl & Eg & Et & _ & _ & _ & _ & _ & Ep & _).
  unfold currline_shift_left, d_shift_left. rewrite Ecl, Eg. cbn [mbind option_bind cell len]. rewrite Et.
  case_if E; [by exists s|]. pose proof (Rb_pnt _ _ _ 0 R) as R0.
  destruct (delete_char_ok _ _ _ R0) as (s1 & -> & R1); [done|left; cbn; lia|]. cbn [mbind option_bind].
  destruct (doc_delete 1 (w_pnt 0 d)) as [Hd1 Hz1]; [apply doc_w_pnt; [done|lia]|lia|cbn; lia|].
  destruct (Rb_cur _ _ _ R1) as (p1 & r1 & pv1 & nx1 & Ecl1 & Eg1 & Et1 & _). rewrite Ecl1, Eg1. cbn [mbind option_bind cell len].
  rewrite Et1, Ep. change (cur (d_delete_char (w_pnt 0 d))) with (drop 1 (cur d)) in *.
  change (cur (d_delete 1 (w_pnt 0 d))) with (drop 1 (cur d)) in *. cbn [cur w_pnt] in Hz1.
  set (q := if pnt d <=? zlen (drop 1 (cur d)) then pnt d else pnt d - 1).
  destruct (ansi_fix_Cok (set_currpnt q s1) (w_pnt q (d_delete 1 (w_pnt 0 d)))) as (s2 & -> & Hc2).
  { split; [exact (Rb_pnt _ _ _ q R1)|]. apply doc_w_pnt; [done|].
    change (cur (d_delete 1 (w_pnt 0 d))) with (drop 1 (cur d)). unfold q. case_if Eqq; lia. }
  exists s2. split; [done|exact Hc2].
Qed.

Lemma shift_right_ok s d : Ok s d -> ins d = true ->
  exists s', currline_shift_right (C := C) wc s = Some s' /\ Cok s' (d_shift_right (C := C) wc d).
Proof.
  intros Ho Hi. pose proof (Ok_Cok _ _ Ho) as Hc. pose proof Ho as (R & Hd & Hr). pose proof (ok_pnt _ _ Hd) as Hp.
  destruct (Rb_cur _ _ _ R) as (p & r & pv & nx & Ecl & Eg & Et & _ & _ & _ & _ & _ & Ep & _).
  unfold currline_shift_right, d_shift_right. rewrite Ecl, Eg. cbn [mbind option_bind cell len]. rewrite Et.
  case_if E; [by exists s|].
  assert (Ho0 : Ok (set_currpnt 0 s) (w_pnt 0 d)).
  { split; [by apply Rb_pnt|]. split; [apply doc_w_pnt; [done|lia]|done]. }
  destruct (insert_char_Ok wc wc_le _ _ 32 Ho0) as (s1 & -> & (R1 & Hd1 & Hr1)); [by left|unfold is_u8; lia|done|].
  cbn [mbind option_bind]. rewrite Ep. eexists. split; [reflexivity|]. split; [by apply Rb_pnt|]. apply doc_w_pnt; [done|].
  destruct (raw_insert_small (C := C) (w_pnt 0 d) 32) as [Ed Hz]; [apply Ho0|cbn; lia|unfold is_u8; lia|done|].
  unfold d_insert_char. cbn [ins w_pnt]. rewrite Hi. cbn beta iota. rewrite d_raw_insert_ins. cbn [ins w_pnt]. rewrite Hi.
  rewrite Ed, Hz. cbn [cur w_pnt]. lia.
Qed.

Lemma back_chars_ok n : forall s d, Cok s d -> Z.of_nat n <= pnt d ->
  exists s', repeat_op n back_char s = Some s' /\
    Cok s' (w_pnt (pnt d - Z.of_nat n) (w_text (up d) (ztake (pnt d - Z.of_nat n) (cur d) ++ zdrop (pnt d) (cur d)) (dn d) d)).
Proof.
  induction n as [|n IH]; intros s d [R Hd] Hn.
  - exists s. split; [done|]. change (Z.of_nat 0) with 0. rewrite Z.sub_0_r, ztake_zdrop. by destruct d.
  - pose proof (ok_pnt _ _ Hd) as Hp. cbn [repeat_op].
    destruct (Rb_cur _ _ _ R) as (_ & _ & _ & _ & _ & _ & _ & _ & _ & _ & _ & _ & Ep & _).
    replace (back_char s) with (delete_char (set_currpnt (pnt d - 1) s)) by (unfold back_char; by rewrite Ep).
    pose proof (Rb_pnt _ _ _ (pnt d - 1) R) as R0.
    destruct (delete_char_ok _ _ _ R0) as (s1 & -> & R1); [cbn; lia|left; cbn; lia|]. cbn [mbind option_bind].
    destruct (doc_delete 1 (w_pnt (pnt d - 1) d)) as [Hd1 Hz1]; [apply doc_w_pnt; [done|lia]|lia|cbn; lia|].
    destruct (IH s1 (d_delete 1 (w_pnt (pnt d - 1) d))) as (s' & -> & Hc'); [by split|cbn; lia|].
    exists s'. split; [done|]. cbn [pnt cur up dn d_delete w_pnt w_text] in Hc'.
    replace (pnt d - 1 - Z.of_nat n) with (pnt d - Z.of_nat (S n)) in Hc' by lia. replace (pnt d - 1 + 1) with (pnt d) in Hc' by lia.
    assert (Et : ztake (pnt d - Z.of_nat (S n)) (ztake (pnt d - 1) (cur d) ++ zdrop (pnt d) (cur d)) ++
        zdrop (pnt d - 1) (ztake (pnt d - 1) (cur d) ++ zdrop (pnt d) (cur d)) =
      ztake (pnt d - Z.of_nat (S n)) (cur d) ++ zdrop (pnt d) (cur d)).
    { unfold ztake, zdrop. rewrite take_app_le by (rewrite length_take; unfold zlen in *; lia). rewrite take_take. f_equal; [f_equal; lia|].
      rewrite drop_app_ge by (rewrite length_take; lia). rewrite length_take.
      replace (Z.to_nat (pnt d - 1) - _)%nat with 0%nat by (unfold zlen in *; lia). by rewrite drop_0. }
    rewrite Et in Hc'. exact Hc'.
Qed.

Lemma delete_while_ok f fuel : forall fuel' s d, Cok s d -> zlen (cur d) - pnt d < Z.of_nat fuel -> zlen (cur d) - pnt d < Z.of_nat fuel' ->
  exists s', delete_while fuel f s = Some s' /\ Cok s' (d_delete_while fuel' f d) /\
    zlen (cur (d_delete_while fuel' f d)) <= zlen (cur d) /\ pnt (d_delete_while fuel' f d) = pnt d.
Proof.
  induction fuel as [|fuel IH]; intros fuel' s d [R Hd] Hf Hf'; [destruct (ok_pnt _ _ Hd); lia|].
  destruct fuel' as [|fuel']; [destruct (ok_pnt _ _ Hd); lia|]. pose proof (ok_pnt _ _ Hd) as Hp.
  destruct (Rb_cur _ _ _ R) as (p & r & pv & nx & Ecl & Eg & Et & _ & _ & _ & _ & _ & Ep & _).
  cbn [delete_while d_delete_while]. rewrite Ecl, Eg. cbn [mbind option_bind cell len]. rewrite Et, Ep.
  case_if E; [|exists s; split_and!; done || lia].
  destruct (delete_char_ok _ _ _ R) as (s1 & -> & R1); [lia|by left|]. cbn [mbind option_bind].
  destruct (doc_delete 1 d Hd) as [Hd1 Hz1]; [lia|lia|]. change (d_delete 1 d) with (d_delete_char d) in *.
  destruct (Rb_cur _ _ _ R1) as (p1 & r1 & pv1 & nx1 & Ecl1 & Eg1 & Et1 & _ & _ & _ & _ & _ & Ep1 & _).
  rewrite Ecl1, Eg1. cbn [mbind option_bind cell data]. rewrite Et1, Ep1. change (pnt (d_delete_char d)) with (pnt d).
  assert (Ec : zget (cur (d_delete_char d) ++ 0 :: slack r1) (pnt d) = Some (cchar (cur (d_delete_char d)) (pnt d))).
  { unfold cchar. destruct (Z.eq_dec (pnt d) (zlen (cur (d_delete_char d)))) as [Ez|Ez].
    - rewrite zget_middle by done. unfold zget. replace (0 <=? pnt d) with true by lia.
      rewrite lookup_ge_None_2; [done|]. unfold zlen in Ez. lia.
    - destruct (zget_some (cur (d_delete_char d)) (pnt d)) as [x Ex]; [lia|]. rewrite (zget_app_l _ _ _ _ Ex). by rewrite Ex. }
  rewrite Ec. cbn [mbind option_bind]. destruct (f _); [|exists s1; split_and!; done || lia].
  destruct (IH fuel' s1 (d_delete_char d)) as (s' & -> & Hc' & Hz' & Hp'); [by split|cbn [pnt d_delete_char w_text]; lia..|].
  exists s'. split_and!; done || lia.
Qed.

Lemma del_word_ok s d : Ok s d -> exists s', delete_current_word s = Some s' /\ Cok s' (d_del_word d).
Proof.
  intros Ho. pose proof (Ok_Cok _ _ Ho) as Hc. destruct Ho as (R & Hd & Hr). pose proof (ok_pnt _ _ Hd) as Hp.
  destruct (Rb_cur _ _ _ R) as (p & r & pv & nx & Ecl & Eg & Et & _).
  unfold delete_current_word, d_del_word. rewrite Ecl, Eg. cbn [mbind option_bind cell data]. rewrite Et.
  set (F := S (length (cur d ++ 0 :: slack r))). assert (HF : zlen (cur d) < Z.of_nat F) by (unfold F, zlen; rewrite length_app; lia).
  destruct (delete_while_ok isalnum F (S (length (cur d))) s d Hc) as (s1 & -> & Hc1 & Hz1 & Hp1); [lia|unfold zlen; lia|].
  cbn [mbind option_bind].
  destruct (delete_while_ok isspace F (S (length (cur d))) s1 _ Hc1) as (s2 & -> & Hc2 & _); [lia|unfold zlen in *; lia|].
  by exists s2.
Qed.

End Cmds.
End EditCmds.
