(* ===== verification/EditDelete.v ===== *)
(** Lines taken out of the list and kept, or freed: the deleted line, and blocks. *)

From stdpp Require Import gmap.
From S2P Require Import Prelude Cstr Str Mbs MbsProps Edit EditText EditHeap EditRep EditPos EditList EditSplit EditJoin EditChars EditInsert EditMoves EditCmds.

#[global] Open Scope Z_scope.
#[global] Open Scope list_scope.

Module EditDelete.
Import Cstr Str Mbs MbsProps Edit EditText EditHeap EditRep EditPos EditList EditSplit EditJoin EditChars EditInsert EditMoves EditCmds.

Section Delete.
Context `{LibcOk} {C : Type} `{MbShort C}.
Variable wc : Z -> Z.
Hypothesis wc_le : forall u, wc u <= 2.
Implicit Types (us ds a b : list node) (c : node) (dl : option node) (d : doc) (t : list Z).

(** *** The line that can be put back *)

(** The block of the line before is freed. *)
Lemma free_old_ok s ps dl : del_rep ps dl s ->
  exists s1, match deleted_line s with Some _ => free_line (deleted_line s) s | None => Some s end = Some s1 /\
    exists h1 o, s1 = set_heap h1 (set_oldcurrline o s) /\ (o = None \/ o = oldcurrline s) /\
      (forall x, h1 !! x = if decide (deleted_line s = Some x) then None else heap s !! x).
Proof.
  intros Hdel. destruct dl as [[p r]|]; cbn in Hdel.
  - destruct Hdel as (E & Hp & _). rewrite E. unfold free_line. cbn [mbind option_bind]. rewrite Hp. cbn [mbind option_bind].
    eexists. split; [reflexivity|]. exists (delete p (heap s)), (if bool_decide (Some p = oldcurrline s) then None else oldcurrline s).
    split; [by case_bool_decide; destruct s|]. split; [case_bool_decide; [by left|by right]|].
    intros x. destruct (decide (Some p = Some x)) as [[= ->]|Hne]; [apply lookup_delete_eq|apply lookup_delete_ne; congruence].
  - rewrite Hdel. exists s. split; [done|]. exists (heap s), (oldcurrline s). split; [by destruct s|]. split; [by right|done].
Qed.

(** The block of the line becomes no larger than its string, and has no neighbours. *)
Lemma keep_ok s q pv nx r : heap s !! q = Some (cell pv nx r) ->
  exists s1, (t ← get (Some q) s;
     '(s, line) ← (if len t <? alloc_len t then
                     '(s, line) ← realloc_line (Some q) (len t) s;
                     s ← set_alloc_len line (len t) s;
                     Some (s, line)
                   else Some (s, Some q));
     let s := set_deleted_line line s in
     s ← set_next (deleted_line s) None s;
     set_prev (deleted_line s) None s) = Some s1 /\
    exists q' r' h1, s1 = set_heap h1 (set_deleted_line (Some q') s) /\ txt r' = txt r /\
      (q' = q \/ heap s !! q' = None) /\ h1 = <[q' := cell None None r']> (delete q (heap s)).
Proof.
  intros Hq. rewrite (get_some _ _ _ Hq). cbn [mbind option_bind cell len alloc_len].
  assert (HA : exists q' r', (if zlen (txt r) <? zlen (txt r) + zlen (slack r) then
        '(s, line) ← realloc_line (Some q) (zlen (txt r)) s; s ← set_alloc_len line (zlen (txt r)) s; Some (s, line)
      else Some (s, Some q)) = Some (set_heap (<[q' := cell pv nx r']> (delete q (heap s))) s, Some q') /\
      txt r' = txt r /\ (q' = q \/ heap s !! q' = None)).
  { case_if E.
    - destruct (realloc_cell pv nx r (zlen (txt r)) s q Hq) as (y & sl & -> & Hsl & ->); [lia|]. cbn zeta.
      assert (sl = []) as -> by (apply zlen_zero; lia).
      assert (Ec : forall n, Textline pv nx n (zlen (txt r)) (txt r ++ [0]) = Textline pv nx n (zlen (txt r) + 0) (txt r ++ [0]))
        by (intros n; f_equal; lia).
      destruct (realloc_moves (heap s) q (zlen (txt r))); cbn [mbind option_bind]; rewrite cell_set_alloc_len; cbn [mbind option_bind prev next len data]; rewrite Ec.
      + exists (malloc_at (heap s)), (Row (txt r) []). split_and!; [done|done|right; apply malloc_fresh].
      + exists q, (Row (txt r) []). rewrite insert_delete_eq. split_and!; [done|done|by left].
    - exists q, r. split_and!; [|done|by left]. by rewrite insert_delete_eq, as_cell. }
  destruct HA as (q' & r' & -> & Et & Hq'). cbn [mbind option_bind].
  match goal with |- context [set_deleted_line (Some q') (set_heap ?h s)] =>
    change (set_deleted_line (Some q') (set_heap h s)) with (set_heap h (set_deleted_line (Some q') s)) end.
  cbn [deleted_line set_heap set_deleted_line]. rewrite cell_set_next. cbn [mbind option_bind prev next len alloc_len data cell].
  cbn [deleted_line set_heap set_deleted_line]. rewrite cell_set_prev. cbn [prev next len alloc_len data cell].
  eexists. split; [reflexivity|]. exists q', r', (<[q' := cell None None r']> (delete q (heap s))). by split_and!.
Qed.

Lemma delete_cur_ok s us q r ds dl :
  NoDup (ptrs (us ++ (q, r) :: ds)) -> dseg (heap s) None (us ++ (q, r) :: ds) None ->
  del_rep (ptrs (us ++ (q, r) :: ds)) dl s -> us ++ ds <> [] -> top_of_win s <> Some q ->
  (forall x (u : textline_t), heap s !! x = Some u -> x ∈ ptrs (us ++ (q, r) :: ds) \/ del_ptr dl x) ->
  (forall x, oldcurrline s = Some x -> x ∈ ptrs (us ++ (q, r) :: ds)) ->
  exists q' r' h1 o, delete_line (Some q) true s =
    Some (set_heap h1 (set_deleted_line (Some q') (set_oldcurrline o (set_totaln (totaln s - 1)
      (set_lastline (match ds with [] => last_ptr None us | _ => lastline s end)
        (set_firstline (match us with [] => head_ptr ds None | _ => firstline s end) s)))))) /\
    txt r' = txt r /\ dseg h1 None (us ++ ds) None /\ h1 !! q' = Some (cell None None r') /\ q' ∉ ptrs (us ++ ds) /\
    (forall x (u : textline_t), h1 !! x = Some u -> x ∈ ptrs (us ++ ds) \/ x = q') /\ (forall x, o = Some x -> x ∈ ptrs (us ++ ds)).
Proof.
  intros Hnd Hs Hdel Hne Htop Hdom Hold.
  pose proof (dseg_lookup _ _ _ _ us q r ds Hs eq_refl) as Hq.
  destruct (nodup_without _ _ _ _ Hnd) as [Hqn _].
  assert (Hin : forall x, x ∈ ptrs (us ++ (q, r) :: ds) -> x = q \/ x ∈ ptrs (us ++ ds)) by (intros x; apply ptrs_at).
  assert (Hsub : forall x, x ∈ ptrs (us ++ ds) -> x ∈ ptrs (us ++ (q, r) :: ds)) by (intros x; rewrite ptrs_at; by right).
  unfold delete_line. rewrite (get_some _ _ _ Hq). cbn [mbind option_bind cell prev next].
  assert (Hb : bool_decide (last_ptr None us = None) && bool_decide (head_ptr ds None = None) = false).
  { destruct ds as [|[x rx] ds]; [|by rewrite (bool_decide_eq_false_2 (head_ptr _ _ = None)), andb_false_r by done].
    destruct us as [|[x rx] us _] using rev_ind; [done|]. rewrite last_ptr_app. done. }
  rewrite Hb, bool_decide_eq_false_2 by congruence. cbn [negb assert mbind option_bind].
  destruct (unlink_ok s us q r ds Hnd Hs) as (h0 & E & Hs0 & F0). revert E.
  destruct (match head_ptr ds None with Some _ => _ | None => _ end) as [s1|]; cbn [mbind option_bind]; [|done].
  intros ->. cbn [mbind option_bind]. clear s1.
  set (s2 := set_totaln _ _).
  assert (Hdel2 : del_rep (ptrs (us ++ ds)) dl s2).
  { destruct dl as [[x rx]|]; cbn in *; [|done]. destruct Hdel as (? & ? & Hx & ?). split_and!; [done| |by intros Hi; apply Hx, Hsub|done].
    change (h0 !! x = Some (cell None None rx)). rewrite F0; [done|]. intros Hi. by apply Hx, Hsub. }
  destruct (free_old_ok s2 _ dl Hdel2) as (s3 & -> & h3 & o3 & -> & Ho3 & F3). cbn [mbind option_bind].
  change (oldcurrline (set_heap h3 (set_oldcurrline o3 s2))) with o3.
  set (o := if bool_decide (Some q = o3) then None else o3).
  assert (Eo : (if bool_decide (Some q = o3) then set_oldcurrline None (set_heap h3 (set_oldcurrline o3 s2)) else set_heap h3 (set_oldcurrline o3 s2)) =
    set_heap h3 (set_oldcurrline o s2)) by (unfold o; by destruct (bool_decide (Some q = o3))).
  rewrite Eo. clear Eo. set (s4 := set_heap h3 (set_oldcurrline o s2)).
  assert (Hdne : deleted_line s2 <> Some q).
  { destruct dl as [[x rx]|]; cbn in Hdel; [|change (deleted_line s2) with (deleted_line s); by rewrite Hdel].
    destruct Hdel as (Ed & _ & Hx & _). change (deleted_line s2) with (deleted_line s). rewrite Ed. intros [= ->]. apply Hx, ptrs_mid. }
  assert (Hq4 : heap s4 !! q = Some (cell (last_ptr None us) (head_ptr ds None) r)).
  { change (h3 !! q = Some (cell (last_ptr None us) (head_ptr ds None) r)). rewrite F3. destruct (decide _) as [|_]; [done|].
    change (h0 !! q = Some (cell (last_ptr None us) (head_ptr ds None) r)). by rewrite F0. }
  destruct (keep_ok s4 q _ _ r Hq4) as (s5 & E5 & q' & r' & h5 & -> & Et & Hq' & Eh5).
  cbn zeta in E5. rewrite E5. exists q', r', h5, o. split; [reflexivity|]. split; [done|].
  assert (Hq'n : q' ∉ ptrs (us ++ ds)).
  { destruct Hq' as [->|Hq']; [done|]. intros Hi. apply list_elem_of_In, in_map_iff in Hi as ([z rz] & <- & Hz%list_elem_of_In).
    apply list_elem_of_split in Hz as (a & b & Ez). pose proof (dseg_lookup _ _ _ _ _ _ _ _ Hs0 Ez) as Hz0. cbn [fst] in Hq'.
    change (h3 !! z = None) in Hq'. rewrite F3 in Hq'. destruct (decide (deleted_line s2 = Some z)) as [Edz|_].
    - destruct dl as [[x rx]|]; unfold del_rep in Hdel2; [|congruence]. destruct Hdel2 as (Ed & _ & Hx & _). rewrite Ed in Edz. injection Edz as ->.
      apply Hx. rewrite Ez. apply ptrs_mid.
    - change (h0 !! z = None) in Hq'. congruence. }
  assert (F5 : forall x, x ∈ ptrs (us ++ ds) -> h5 !! x = h0 !! x).
  { intros x Hx. rewrite Eh5, lookup_insert_ne by (by intros <-). rewrite lookup_delete_ne by (by intros <-).
    change (h3 !! x = h0 !! x). rewrite F3. destruct (decide (deleted_line s2 = Some x)) as [Edx|_]; [|done].
    destruct dl as [[y ry]|]; unfold del_rep in Hdel2; [|congruence]. destruct Hdel2 as (Ed & _ & Hy & _). congruence. }
  split_and!; try done.
  - by apply dseg_frame with h0.
  - rewrite Eh5. apply lookup_insert_eq.
  - intros x t Hx. destruct (decide (x = q')) as [|Hxq]; [by right|left]. rewrite Eh5, lookup_insert_ne in Hx by done.
    destruct (decide (x = q)) as [->|Hxq2]; [by rewrite lookup_delete_eq in Hx|]. rewrite lookup_delete_ne in Hx by done.
    change (h3 !! x = Some t) in Hx. rewrite F3 in Hx. destruct (decide (deleted_line s2 = Some x)) as [|Hxd]; [done|].
    destruct (decide (x ∈ ptrs (us ++ ds))) as [|Hxn]; [done|]. change (h0 !! x = Some t) in Hx. rewrite F0 in Hx by done.
    destruct (Hdom _ _ Hx) as [Hy|[ry ->]]; [by destruct (Hin _ Hy)|]. cbn in Hdel. destruct Hdel as [Ed _]. by destruct (Hxd Ed).
  - intros x. unfold o. destruct (bool_decide (Some q = o3)) eqn:Eqo; [congruence|]. apply bool_decide_eq_false_1 in Eqo.
    intros ->. destruct Ho3 as [?|Ho3]; [done|].
    change (oldcurrline s2) with (oldcurrline s) in Ho3. symmetry in Ho3. destruct (Hin _ (Hold _ Ho3)) as [->|]; done.
Qed.

(** The editor without the line of the cursor. *)
Lemma rep_without s us q r ds dl d us' c' ds' top r2 q' r' h1 o :
  rep None true 0 s us (q, r) ds dl d -> blk d = None -> us ++ ds = us' ++ c' :: ds' ->
  0 <= zlen us' - r2 <= zlen us' + zlen ds' -> top = ptrs (us ++ ds) !! Z.to_nat (zlen us' - r2) ->
  txt r' = txt r -> dseg h1 None (us ++ ds) None -> h1 !! q' = Some (cell None None r') -> q' ∉ ptrs (us ++ ds) ->
  (forall x (u : textline_t), h1 !! x = Some u -> x ∈ ptrs (us ++ ds) \/ x = q') -> (forall x, o = Some x -> x ∈ ptrs (us ++ ds)) ->
  rep None true 0
    (set_currline (Some c'.1) (set_heap h1 (set_deleted_line (Some q') (set_oldcurrline o (set_totaln (totaln s - 1)
      (set_lastline (match ds with [] => last_ptr None us | _ => lastline s end)
        (set_firstline (match us with [] => head_ptr ds None | _ => firstline s end)
          (set_top_of_win top (set_currln (zlen us') (set_curr_window_line r2 s))))))))))
    us' c' ds' (Some (q', r')) (w_del (Some (cur d)) (w_row r2 (w_text (texts us') (txt c'.2) (texts ds') d))).
Proof.
  intros R Hblk El Hr2 Ht Et Hs Hq' Hq'n Hdom Hold.
  pose proof (rp_nodup R) as Hnd. pose proof (rp_rows R) as Hrows. pose proof (rp_curt R) as Ec. cbn [snd] in Ec.
  assert (Hz : zlen us' + zlen ds' = zlen us + zlen ds - 1).
  { apply (f_equal zlen) in El. rewrite !zlen_app, zlen_cons in El. lia. }
  apply list.Forall_app in Hrows as [Hr1 Hrows]. apply list.Forall_cons in Hrows as [Hrr Hr3].
  destruct (nodup_without _ _ _ _ Hnd) as [_ Hnw].
  destruct R. constructor; cbn; try done; rewrite <- ?El; try done.
  - by apply list.Forall_app.
  - split_and!; try done. destruct Hrr. cbn in *. unfold row_ok. by rewrite Et.
  - intros x u Hx. destruct (Hdom _ _ Hx) as [?| ->]; [by left|right; left; by eexists].
  - rewrite rp_first0, !head_ptr_app. by destruct us as [|[]].
  - rewrite last_ptr_app, rp_last0, last_ptr_app. by destruct ds as [|[]].
  - unfold blk_rep in *. by rewrite Hblk in *.
  - by rewrite Et, Ec.
  - lia.
Qed.

Lemma doc_del_current d : doc_ok d -> pnt d = 0 -> doc_ok (d_del_current d).
Proof.
  intros [Hu Hdn Hch Hl Hdel Hpnt Hr] Hp. unfold d_del_current. destruct (dn d) as [|n ds] eqn:Ed.
  - destruct (rev (up d)) as [|p us] eqn:Eu.
    + constructor; cbn [up dn cur del pnt rows w_text]; rewrite ?Ed; try done; change (zlen []) with 0; [constructor|lia].
    + assert (Hup : Forall line_ok (rev us ++ [p])) by (replace (rev us ++ [p]) with (up d); [done|by rewrite <- (rev_involutive (up d)), Eu]).
      apply list.Forall_app in Hup as [Hus Hpp]. apply list.Forall_cons in Hpp as [[Hpc Hpl] _].
      constructor; cbn; try done; [lia|intros t [= <-]; split; [done|lia]|pose proof (zlen_nonneg p); lia].
  - apply list.Forall_cons in Hdn as [[Hnc Hnl] Hds].
    constructor; cbn; try done; [lia|intros t [= <-]; split; [done|lia]|pose proof (zlen_nonneg n); lia].
Qed.

(** The line [q] of the cursor goes, from any state with the same list. *)
Lemma without_ok s us q r ds dl d us' c' ds' top r2 :
  rep None true 0 s us (q, r) ds dl d -> blk d = None -> us ++ ds = us' ++ c' :: ds' ->
  0 <= zlen us' - r2 <= zlen us' + zlen ds' -> top = ptrs (us ++ ds) !! Z.to_nat (zlen us' - r2) ->
  exists s', delete_line (Some q) true (set_top_of_win top (set_currln (zlen us') (set_curr_window_line r2 s))) = Some s' /\
    Rb true (set_currline (Some c'.1) s') (w_del (Some (cur d)) (w_row r2 (w_text (texts us') (txt c'.2) (texts ds') d))).
Proof.
  intros R Hblk El Hr2 Ht. set (s0 := set_top_of_win _ _).
  assert (Hqn : top <> Some q).
  { rewrite Ht. intros E. apply list_elem_of_lookup_2 in E. by destruct (nodup_without _ _ _ _ (rp_nodup R)). }
  destruct (delete_cur_ok s0 us q r ds dl (rp_nodup R)) as (q' & r' & h1 & o & E & Et & Hs & Hq' & Hq'n & Hdom & Hold).
  - exact (rp_seg R).
  - exact (rp_del R).
  - rewrite El. by destruct us'.
  - exact Hqn.
  - intros x u Hx. destruct (rp_dom R _ _ Hx) as [?|[?|[? ?]]]; [by left|by right|done].
  - exact (rp_old R).
  - rewrite E. eexists. split; [reflexivity|]. exists us', c', ds', (Some (q', r')).
    by apply (rep_without s us q r ds dl d us' c' ds' top r2 q' r' h1 o).
Qed.

(** The only line becomes empty. *)
Lemma del_only_ok s q r dl d : rep None true 0 s [] (q, r) [] dl d ->
  exists s', (s ← upd_data (Some q) (fun g => mem_write g 0 [0]) s; set_len (currline s) 0 s) = Some s' /\ Rb true s' (w_text [] [] [] d).
Proof.
  intros R. pose proof (rep_mid _ _ _ _ _ _ _ _ _ R) as (Hq & _). cbn [fst snd] in Hq.
  pose proof (upd_data_at (heap s) q s _ Hq (fun g : list Z => mem_write g 0 [0]) (0 :: drop 1 (txt r ++ 0 :: slack r))) as Eu.
  rewrite set_heap_id in Eu. rewrite Eu by (cbn [data cell]; destruct (txt r) as [|x0 t0]; [exact (mem_write_one [] 0 0 (slack r) 0 eq_refl)|exact (mem_write_one [] x0 0 (t0 ++ 0 :: slack r) 0 eq_refl)]). clear Eu.
  cbn [mbind option_bind cell prev next len alloc_len]. cbn [currline set_heap]. rewrite (rp_cur R). cbn [fst].
  rewrite cell_set_len. cbn [prev next alloc_len data]. eexists. split; [reflexivity|].
  set (sl := drop 1 (txt r ++ 0 :: slack r)).
  assert (Ecell : Textline (last_ptr None []) (head_ptr [] None) 0 (zlen (txt r) + zlen (slack r)) (0 :: sl) =
    cell (last_ptr None []) (head_ptr [] None) (Row [] sl)).
  { unfold cell. cbn [txt slack app]. f_equal. unfold sl. change (zlen []) with 0. unfold zlen. rewrite length_drop, length_app. cbn. lia. }
  assert (Hok : row_ok (Row [] sl)) by (split; [constructor|cbn; change (zlen []) with 0; unfold WRAPMARGIN; lia]).
  pose proof (rep_edit_cur _ _ _ _ _ _ _ (Row [] sl) _ _ _ R Hok) as R'. rewrite <- Ecell in R'.
  exists [], (q, Row [] sl), [], dl. rewrite (rp_up R), (rp_dn R) in R'. exact R'.
Qed.

(** The cursor moves on to the line [p], and its line goes. *)
Lemma drop_line_ok s us q r ds dl d us' p rp ds' r2 :
  rep None true 0 s us (q, r) ds dl d -> blk d = None -> us ++ ds = us' ++ (p, rp) :: ds' ->
  0 <= zlen us' - r2 <= zlen us' + zlen ds' ->
  (if bool_decide (Some q = top_of_win s) then Some p else top_of_win s) = ptrs (us ++ ds) !! Z.to_nat (zlen us' - r2) ->
  let s0 := set_currln (zlen us') (set_curr_window_line r2 s) in
  let s1 := if bool_decide (currline s0 = top_of_win s0) then set_top_of_win (Some p) s0 else s0 in
  exists s', (s2 ← delete_line (currline s1) true s1; Some (set_redraw_everything true (set_currline (Some p) s2))) = Some s' /\
    Rb true s' (w_del (Some (cur d)) (w_row r2 (w_text (texts us') (txt rp) (texts ds') d))).
Proof.
  intros R Hblk El Hr2 Ht s0 s1. destruct (without_ok s us q r ds dl d us' (p, rp) ds' _ r2 R Hblk El Hr2 Ht) as (s2 & E & R').
  assert (Es : s1 = set_top_of_win (if bool_decide (Some q = top_of_win s) then Some p else top_of_win s) s0).
  { unfold s1. change (currline s0) with (currline s). change (top_of_win s0) with (top_of_win s). rewrite (rp_cur R). cbn [fst].
    destruct (bool_decide _); [done|by destruct s]. }
  rewrite Es. change (currline (set_top_of_win _ s0)) with (currline s). rewrite (rp_cur R). cbn [fst]. unfold s0. rewrite E. cbn [mbind option_bind].
  eexists. split; [reflexivity|]. destruct R' as (a & c1 & b & dl1 & R'). exists a, c1, b, dl1. by apply rep_redraw.
Qed.

(** The top of the window when the last line goes, and when another does. *)
Lemma top_last s us p rp q r dl d : rep None true 0 s (us ++ [(p, rp)]) (q, r) [] dl d -> 0 <= row d ->
  (if bool_decide (Some q = top_of_win s) then Some p else top_of_win s) =
  ptrs ((us ++ [(p, rp)]) ++ []) !! Z.to_nat (zlen us - Z.max 0 (row d - 1)).
Proof.
  intros R Hrow. pose proof (rp_row R) as Hrw. pose proof (rp_top R) as Htop. destruct (nodup_at _ _ _ _ (rp_nodup R)) as (Hqu & _).
  rewrite zlen_app in *. change (zlen [(p, rp)]) with 1 in *. change (zlen []) with 0 in *. rewrite app_nil_r, Htop.
  destruct (Z.eq_dec (row d) 0) as [E0|E0].
  - rewrite bool_decide_eq_true_2.
    + replace (zlen us - Z.max 0 (row d - 1)) with (zlen us) by lia. unfold zlen. rewrite Nat2Z.id. symmetry. apply (ptr_cur us (p, rp) []).
    + rewrite E0. pose proof (ptr_cur (us ++ [(p, rp)]) (q, r) []) as Ep. rewrite length_app in Ep. cbn in Ep.
      replace (Z.to_nat (zlen us + 1 - 0)) with (length us + 1)%nat by (unfold zlen; lia). by rewrite Ep.
  - rewrite ptrs_app, lookup_app_l by (rewrite ptrs_length, length_app; cbn; unfold zlen in *; lia). rewrite bool_decide_eq_false_2; [f_equal; lia|].
    intros E. symmetry in E. by apply list_elem_of_lookup_2 in E.
Qed.

Lemma top_inner s us q r x rx ds dl d : rep None true 0 s us (q, r) ((x, rx) :: ds) dl d -> 0 <= row d ->
  (if bool_decide (Some q = top_of_win s) then Some x else top_of_win s) = ptrs (us ++ (x, rx) :: ds) !! Z.to_nat (zlen us - row d).
Proof.
  intros R Hrow. pose proof (rp_row R) as Hrw. rewrite (rp_top R). destruct (nodup_at _ _ _ _ (rp_nodup R)) as (Hqu & _).
  destruct (Z.eq_dec (row d) 0) as [E0|E0].
  - rewrite E0, Z.sub_0_r. unfold zlen. rewrite Nat2Z.id, (ptr_cur us (q, r)), (ptr_cur us (x, rx)). cbn [fst]. by rewrite bool_decide_eq_true_2.
  - assert (Hi : (Z.to_nat (zlen us - row d) < length us)%nat) by (unfold zlen in *; lia).
    rewrite !ptrs_app, !lookup_app_l by (by rewrite ptrs_length). rewrite bool_decide_eq_false_2; [done|].
    intros E. symmetry in E. by apply list_elem_of_lookup_2 in E.
Qed.

Lemma del_current_ok s d : Ok s d -> blk d = None -> pnt d = 0 ->
  exists s', do_delete_current_line s = Some s' /\ Cok s' (d_del_current d).
Proof.
  intros (Rb' & Hd & Hrow) Hblk Hp.
  assert (Hs : exists s', do_delete_current_line s = Some s' /\ Rb true s' (d_del_current d));
    [|destruct Hs as (s' & E & R'); exists s'; split; [done|split; [done|by apply doc_del_current]]].
  destruct Rb' as (us & [q r] & ds & dl & R).
  unfold do_delete_current_line, d_del_current. rewrite (rep_get_cur _ _ _ _ _ _ _ _ _ R). cbn [mbind option_bind cell next prev].
  rewrite (rp_dn R), (rp_up R). pose proof (rp_row R) as Hrw. pose proof (rp_winln R) as Ew. pose proof (rp_currln R) as Eln.
  pose proof (zlen_nonneg us). pose proof (zlen_nonneg ds). destruct ds as [|[x rx] ds]; cbn [head_ptr texts map].
  - destruct us as [|[p rp] us _] using rev_ind; cbn [last_ptr texts map rev].
    + rewrite (rp_cur R). destruct (del_only_ok _ _ _ _ _ R) as (s' & E & R'). by exists s'.
    + rewrite last_ptr_app. cbn [last_ptr]. rewrite texts_app, rev_app_distr. cbn [texts map rev app snd]. fold (texts us). rewrite rev_involutive.
      pose proof (top_last _ _ _ _ _ _ _ _ R Hrow) as Ht. rewrite zlen_app in *. change (zlen [(p, rp)]) with 1 in *. change (zlen []) with 0 in *.
      destruct (drop_line_ok s _ q r [] dl d us p rp [] (Z.max 0 (row d - 1)) R Hblk) as (s' & E & R'); [by rewrite app_nil_r|pose proof (zlen_nonneg us); change (zlen []) with 0; lia|exact Ht|].
      exists s'. split; [|exact R']. rewrite <- E. clear E. cbn zeta. replace (zlen us) with (currln s - 1) by lia. rewrite <- Ew.
      destruct (0 <? curr_window_line s) eqn:E0; [by replace (Z.max 0 (curr_window_line s - 1)) with (curr_window_line s - 1) by lia|].
      replace (Z.max 0 (curr_window_line s - 1)) with (curr_window_line s) by (rewrite Ew in *; lia). by destruct s.
  - destruct (drop_line_ok s us q r _ dl d us x rx ds (row d) R Hblk eq_refl) as (s' & E & R');
      [rewrite zlen_cons in Hrw; pose proof (zlen_nonneg ds); lia|by apply (top_inner _ _ _ _ _ _ _ _ _ R Hrow)|].
    exists s'. split; [|replace (w_row (row d) _) with (w_text (texts us) (txt rx) (texts ds) d) in R' by (by destruct d); exact R'].
    rewrite <- E. cbn zeta. replace (set_currln (zlen us) (set_curr_window_line (row d) s)) with s; [done|].
    rewrite <- Eln, <- Ew. by destruct s.
Qed.

(** *** Joining *)

Lemma doc_join d : doc_ok d -> doc_ok (d_join (C := C) d).
Proof.
  intros Hd. pose proof Hd as [Hu Hdn Hch Hl Hdel Hpnt Hr]. unfold d_join. destruct (dn d) as [|n ds] eqn:Ed; [done|].
  apply list.Forall_cons in Hdn as [[Hnc Hnl] Hds].
  assert (Hjoin : forall t x, Forall line_ok x -> text_chars t -> zlen (cur d) + zlen t <= WRAPMARGIN - 1 ->
    doc_ok (w_text (up d) (cur d ++ t) x d)).
  { intros t x Hx Ht Hz. pose proof (zlen_nonneg t). constructor; cbn [up cur dn del pnt rows w_text]; try done.
    - by apply list.Forall_app.
    - rewrite zlen_app. lia.
    - rewrite zlen_app. lia. }
  case_if Eb; [by constructor|]. case_if Es; [apply Hjoin; done || lia|].
  case_if Ei; [done|]. pose proof (zlen_nonneg (cur d)).
  set (i := wrap_of n (WRAPMARGIN - 1 - zlen (cur d))) in *.
  destruct (wrap_of_ok n [] (WRAPMARGIN - 1 - zlen (cur d))) as (_ & Hi & Hlt); [lia|]. fold i in Hi, Hlt. destruct (Hlt Ei) as [Hlt' Hsp].
  pose proof (cut_at_ok (C := C) d n (i + 1) Hnc ltac:(lia)) as [Hc1 Hc2]. specialize (Hc2 ltac:(lia)).
  assert (Hf := cut_from_ok d n (i + 1) Hnc ltac:(lia) (proj2 Hc2)).
  assert (Hlow : line_ok (lower (C := C) d n (i + 1) 0)).
  { split; [by apply lower_chars|]. rewrite (lower_len d n (i + 1) 0 Hnc ltac:(lia) ltac:(lia) (proj2 Hc2)). lia. }
  case_if Ea; [constructor; try done; by apply list.Forall_cons|]. apply Hjoin; [by apply list.Forall_cons|by apply chars_take|].
  unfold upper. rewrite ztake_len; lia.
Qed.

Lemma join_Cok s d : Ok s d -> blk d = None ->
  exists s' (ok : bool), do_join (C := C) (currline s) s = Some (s', ok) /\ Cok s' (d_join (C := C) d).
Proof.
  intros ((us & c & ds & dl & R) & Hd & Hr) Hb.
  destruct (join_ok s us c ds dl d R Hr Hb) as (s' & ok & us' & c' & ds' & E & R'); [pose proof (ok_len _ _ Hd); lia|].
  exists s', ok. split; [done|]. split; [by exists us', c', ds', dl|by apply doc_join].
Qed.

(** The block of the line of the cursor shrinks to its string. *)
Lemma shrink_ok bx s us q r ds dl d : rep None bx 0 s us (q, r) ds dl d -> zlen (txt r) < WRAPMARGIN ->
  exists h1 q' r', txt r' = txt r /\ rep None bx 0 (set_heap h1 (move_ptrs (Some q) (Some q') s)) us (q', r') ds dl d /\
    (forall s0, heap s0 = heap s -> deleted_line s0 = deleted_line s -> currline s0 = Some q ->
      (if zlen (txt r) <? zlen (txt r) + zlen (slack r) then
         '(s, p) ← adjustline (Some q) (zlen (txt r)) s0; Some (set_currline p s)
       else Some s0) = Some (set_heap h1 (move_ptrs (Some q) (Some q') s0))).
Proof.
  intros R Hl. case_if E.
  - destruct (adjust_at None bx 0 s us (fun x => x) (fun _ => []) ds dl d us q r (zlen (txt r)) ltac:(done) R) as (s1 & q' & r' & E1 & Et & _ & R1); [lia|].
    pose proof (adjust_heap s s s1 (Some q) _ (Some q') E1 ltac:(lia) eq_refl eq_refl) as Es. rewrite E1 in Es. injection Es as Es.
    exists (heap s1), q', r'. split; [done|]. split; [cbn [app] in R1; by rewrite Es in R1 at 1|].
    intros s0 Eh Ed Ec. rewrite (adjust_heap s s0 s1 _ _ _ E1 ltac:(lia) Eh Ed). cbn [mbind option_bind]. f_equal.
    unfold move_ptrs, moved. destruct s0; cbn in *. rewrite Ec. by rewrite (bool_decide_eq_true_2 (Some q = Some q)).
  - exists (heap s), q, r. split; [done|]. rewrite move_ptrs_id, set_heap_id. split; [done|].
    intros s0 Eh Ed Ec. by rewrite move_ptrs_id, <- Eh, set_heap_id.
Qed.

(** Blocks may move before the counters change. *)
Lemma move_counters h p q s : let s1 := set_heap h (move_ptrs p q s) in
  set_heap h (move_ptrs p q (set_currln (currln s - 1) (set_curr_window_line (curr_window_line s - 1) s))) =
  set_currln (currln s1 - 1) (set_curr_window_line (curr_window_line s1 - 1) s1).
Proof. by destruct s. Qed.

Lemma step_up q n x s : 
  set_redraw_everything x (set_currpnt n (set_oldcurrline q (set_currline q
    (set_currln (currln s - 1) (set_curr_window_line (curr_window_line s - 1) s))))) =
  set_redraw_everything x (set_oldcurrline (currline (step q (-1) n s)) (step q (-1) n s)).
Proof. by destruct s. Qed.

Lemma backspace_join_ok s us p rp q r ds dl d :
  rep None true 0 s (us ++ [(p, rp)]) (q, r) ds dl d -> doc_ok d -> 0 <= row d -> blk d = None ->
  exists s', (let s := set_curr_window_line (curr_window_line s - 1) s in
        let s := set_currln (currln s - 1) s in
        s ← (if zlen (txt r) <? zlen (txt r) + zlen (slack r) then
               '(s, p) ← adjustline (currline s) (zlen (txt r)) s;
               Some (set_currline p s)
             else Some s);
        t ← get (currline s) s;
        let s := set_currline (prev t) s in
        let s := set_oldcurrline (currline s) s in
        t ← get (currline s) s;
        let s := set_redraw_everything true (set_currpnt (len t) s) in
        let s := if bool_decide (next t = top_of_win s)
                 then set_curr_window_line 0 (set_top_of_win (currline s) s) else s in
        '(s, _) ← do_join (C := C) (currline s) s;
        Some s) = Some s' /\
    Cok s' (d_join (C := C) (d_goto (currl d - 1) (Z.max 0 (row d - 1)) (zlen (line d (currl d - 1))) d)).
Proof.
  intros R Hd Hrow Hb. cbn zeta. pose proof (rp_curt R) as Ect. cbn [snd] in Ect.
  destruct (shrink_ok true s (us ++ [(p, rp)]) q r ds dl d R) as (h1 & q' & r' & Et & R1 & Hadj); [rewrite <- Ect; pose proof (ok_len _ _ Hd); lia|].
  cbn [currline set_currln set_curr_window_line]. rewrite (rp_cur R). cbn [fst].
  rewrite Hadj by (done || exact (rp_cur R)). clear Hadj.
  set (s1 := set_heap h1 (move_ptrs (Some q) (Some q') s)) in *.
  set (sb := set_heap h1 _). assert (Esb : sb = set_currln (currln s1 - 1) (set_curr_window_line (curr_window_line s1 - 1) s1)) by exact (move_counters h1 (Some q) (Some q') s).
  clearbody s1 sb. clear R Et h1. rename R1 into R. cbn [mbind option_bind].
  assert (Ecb : currline sb = Some q') by (rewrite Esb; exact (rp_cur R)). assert (Ehb : heap sb = heap s1) by (by rewrite Esb). rewrite Ecb.
  pose proof (rep_lastl _ _ _ _ _ _ _ _ _ R) as [Ec El]. pose proof (zlen_nonneg us). pose proof (zlen_nonneg ds).
  assert (Ez : zlen (us ++ [(p, rp)]) = zlen us + 1) by (by rewrite zlen_app). rewrite Ez in *.
  assert (Ex : ((us ++ [(p, rp)]) ++ (q', r') :: ds) !! Z.to_nat (zlen (us ++ [(p, rp)]) + -1) = Some (p, rp)).
  { rewrite <- app_assoc. apply list_lookup_middle. rewrite Ez. unfold zlen. lia. }
  pose proof (rep_step_up _ _ _ _ _ _ _ _ _ _ _ _ (zlen (txt rp)) R) as R2.
  pose proof (rep_get_cur _ _ _ _ _ _ _ _ _ R) as Eg1. rewrite (rp_cur R) in Eg1. cbn [fst snd] in Eg1.
  pose proof (rep_get_cur _ _ _ _ _ _ _ _ _ R2) as Eg2.
  rewrite (get_heap s1) in Eg2 by done. change (currline (step (Some p) (-1) (zlen (txt rp)) s1)) with (Some p) in Eg2. cbn [snd head_ptr] in Eg2.
  rewrite (get_heap s1 sb) by done. rewrite Eg1.
  cbn [mbind option_bind cell prev]. rewrite last_ptr_app. cbn [last_ptr currline set_currline set_oldcurrline].
  match goal with |- context [get (Some p) ?X] => rewrite (get_heap s1 X) by (exact Ehb) end. rewrite Eg2.
  cbn [mbind option_bind cell len next].
  match goal with |- context [bool_decide (Some q' = top_of_win ?X)] => set (sx := X) end.
  assert (R3 : rep None true 0 sx us (p, rp) ((q', r') :: ds) dl (d_goto (currl d + -1) (row d + -1) (zlen (txt rp)) d))
    by (unfold sx; rewrite Esb, step_up; apply rep_redraw, rep_oldcurrline, R2).
  assert (Htop : top_of_win sx = ptrs ((us ++ [(p, rp)]) ++ (q', r') :: ds) !! Z.to_nat (zlen us + 1 - row d)) by (rewrite <- Ez, <- (rp_top R); unfold sx; by rewrite Esb).
  clearbody sx. pose proof (rp_row R) as Hrw. rewrite Ez in Hrw.
  assert (Eline : line d (currl d - 1) = txt rp).
  { apply (rep_line _ _ _ _ _ _ _ _ _ (currl d - 1) (p, rp) R). rewrite Ec, <- Ez. exact Ex. }
  rewrite Eline. assert (R4 : rep None true 0 (if bool_decide (Some q' = top_of_win sx) then set_curr_window_line 0 (set_top_of_win (currline sx) sx) else sx)
    us (p, rp) ((q', r') :: ds) dl (d_goto (currl d - 1) (Z.max 0 (row d - 1)) (zlen (txt rp)) d)).
  { destruct (Z.eq_dec (row d) 0) as [E0|E0].
    - rewrite bool_decide_eq_true_2.
      + pose proof (rep_top _ _ _ _ _ _ _ _ _ (currline sx) 0 R3) as R4. rewrite zlen_cons in R4. replace (Z.max 0 (row d - 1)) with 0 by lia.
        apply R4; [lia|]. rewrite (rp_cur R3), Z.sub_0_r. unfold zlen. rewrite Nat2Z.id. symmetry. apply ptr_cur.
      + rewrite Htop, E0. symmetry. replace (Z.to_nat (zlen us + 1 - 0)) with (length (us ++ [(p, rp)])) by (rewrite length_app; cbn; unfold zlen; lia).
        apply (ptr_cur (us ++ [(p, rp)]) (q', r') ds).
    - rewrite bool_decide_eq_false_2; [replace (Z.max 0 (row d - 1)) with (row d + -1) by lia; exact R3|].
      rewrite Htop, ptrs_app, lookup_app_l by (rewrite ptrs_length, length_app; cbn; unfold zlen in *; lia).
      intros E1. symmetry in E1. apply list_elem_of_lookup_2 in E1. pose proof (rp_nodup R) as Hnd. rewrite ptrs_app in Hnd.
      apply list.NoDup_app in Hnd as (_ & Hdj & _). apply (Hdj _ E1). by left. }
  destruct (join_Cok (if bool_decide (Some q' = top_of_win sx) then set_curr_window_line 0 (set_top_of_win (currline sx) sx) else sx)
    (d_goto (currl d - 1) (Z.max 0 (row d - 1)) (zlen (txt rp)) d)) as (s3 & ok & E3 & Hc3); [|done|].
  - split; [by exists us, (p, rp), ((q', r') :: ds), dl|]. split; [|cbn; lia]. apply doc_goto; [done|lia|].
    rewrite Eline. pose proof (zlen_nonneg (txt rp)). lia.
  - rewrite E3. cbn [mbind option_bind]. by exists s3.
Qed.

Lemma backspace_ok s d : Ok s d -> exists s', edit_cmd_backspace (C := C) s = Some s' /\ Cok s' (d_backspace (C := C) d).
Proof.
  intros Ho. apply cancel_Ok in Ho. unfold edit_cmd_backspace, d_backspace. set (s1 := block_cancel s) in *. set (d1 := d_cancel d) in *.
  assert (Hb : blk d1 = None) by done. clearbody s1 d1. clear s d. rename s1 into s, d1 into d.
  pose proof (Ok_Cok _ _ Ho) as Hc. destruct Ho as (R & Hd & Hr). pose proof (ok_pnt _ _ Hd) as Hp.
  destruct (Rb_cur _ _ _ R) as (p & r & pv & nx & Ecl & Eg & Et & Hok & Em & Ea & _ & _ & Ep & Hch).
  rewrite Ea. destruct (ansi d); [eexists; split; [reflexivity|]; by apply redraw_Cok, ansi_Cok|].
  rewrite Ep. case_if E0.
  - destruct R as (us & [q rq] & ds & dl & R). rewrite (rep_get_cur _ _ _ _ _ _ _ _ _ R). cbn [mbind option_bind cell prev len alloc_len snd].
    pose proof (rep_lastl _ _ _ _ _ _ _ _ _ R) as [Ec El]. rewrite Ec. destruct us as [|[x rx] us _] using rev_ind; [by exists s|].
    rewrite last_ptr_app. cbn [last_ptr]. replace (0 <? _) with true by (rewrite zlen_app; change (zlen [(x, rx)]) with 1; pose proof (zlen_nonneg us); lia).
    rewrite <- Ec. by apply backspace_join_ok with (1 := R).
  - rewrite Ecl, Eg. cbn [mbind option_bind cell data]. rewrite c_str_at by (by apply row_c_string). cbn [mbind option_bind]. rewrite Em, Et.
    set (q := if mbcs d then fixp (C := C) (cur d) (pnt d - 1) FC_LEFT else pnt d - 1).
    assert (Eq' : (if mbcs d then fix_cursor (C := C) (cur d) (pnt d - 1) FC_LEFT else Some (pnt d - 1)) = Some q).
    { unfold q. destruct (mbcs d); [|done]. apply fixp_ok; [done|lia]. }
    assert (Hq : 0 <= q <= pnt d - 1).
    { unfold q. destruct (mbcs d); [|lia]. pose proof (fixp_ok (C := C) (cur d) (pnt d - 1) FC_LEFT Hch ltac:(lia)).
      pose proof (fixp_left (C := C) (cur d) (pnt d - 1) Hch ltac:(lia)). lia. }
    rewrite Eq'. cbn [mbind option_bind].
    destruct (back_chars_ok (Z.to_nat (pnt d - q)) s d Hc) as (s' & -> & Hc'); [lia|]. exists s'. split; [done|].
    replace (pnt d - Z.of_nat (Z.to_nat (pnt d - q))) with q in Hc' by lia. exact Hc'.
Qed.

Lemma delete_key_ok s d : Ok s d -> exists s', edit_cmd_delete (C := C) wc s = Some s' /\ Cok s' (d_delete_key (C := C) wc d).
Proof.
  intros Ho. apply cancel_Ok in Ho. unfold edit_cmd_delete, d_delete_key. set (s1 := block_cancel s) in *. set (d1 := d_cancel d) in *.
  assert (Hb : blk d1 = None) by done. clearbody s1 d1. clear s d. rename s1 into s, d1 into d.
  pose proof Ho as (R & Hd & Hr). destruct (Rb_cur _ _ _ R) as (p & r & pv & nx & Ecl & Eg & Et & _ & _ & _ & _ & _ & Ep & _).
  rewrite Ecl, Eg. cbn [mbind option_bind cell len]. rewrite Et, Ep. case_if E.
  - destruct (join_Cok s d Ho Hb) as (s' & ok & Ej & Hc'). rewrite Ecl in Ej. rewrite Ej. cbn [mbind option_bind].
    eexists. split; [reflexivity|]. by apply redraw_Cok.
  - destruct (del_currchar_Ok wc wc_le s d Ho) as (s1 & -> & Ho1). cbn [mbind option_bind].
    apply ansi_fix_Cok; [done|by apply Ok_Cok].
Qed.

Lemma del_line_ok s d : Ok s d -> exists s', edit_cmd_del_line s = Some s' /\ Cok s' (d_del_line d).
Proof.
  intros (R & Hd & Hr). apply del_current_ok; [|done|done]. apply cancel_Ok with true. split; [by apply Rb_pnt|].
  split; [|done]. apply doc_w_pnt; [done|]. pose proof (zlen_nonneg (cur d)). lia.
Qed.

Lemma del_eol_ok s d : Ok s d -> exists s', edit_cmd_del_eol (C := C) s = Some s' /\ Cok s' (d_del_eol (C := C) d).
Proof.
  intros Ho. apply cancel_Ok in Ho. unfold edit_cmd_del_eol, d_del_eol. set (s1 := block_cancel s) in *. set (d1 := d_cancel d) in *.
  assert (Hb : blk d1 = None) by done. clearbody s1 d1. clear s d. rename s1 into s, d1 into d.
  pose proof Ho as (R & Hd & Hr). pose proof (ok_pnt _ _ Hd) as Hp.
  destruct (Rb_cur _ _ _ R) as (p & r & pv & nx & Ecl & Eg & Et & _ & _ & _ & _ & _ & Ep & Hch).
  rewrite Ecl, Eg. cbn [mbind option_bind cell len]. rewrite Et, Ep. case_if E; [apply del_current_ok; done || lia|].
  case_if E1.
  - destruct (join_Cok s d Ho Hb) as (s' & ok & Ej & Hc'). rewrite Ecl in Ej. rewrite Ej. cbn [mbind option_bind].
    eexists. split; [reflexivity|]. by apply redraw_Cok.
  - change (heap s !! p = Some (cell pv nx r)) in Eg. pose proof (set_len_at (heap s) p s _ Eg (pnt d)) as Es. rewrite set_heap_id in Es.
    rewrite Es. clear Es. cbn [mbind option_bind currline set_heap currpnt cell prev next alloc_len data]. rewrite Ecl, Ep, Et.
    set (a := ztake (pnt d) (cur d)). assert (Ha : zlen a = pnt d) by (apply ztake_len; lia).
    assert (Hb0 : exists x u, cur d = a ++ x :: u).
    { pose proof (ztake_zdrop (pnt d) (cur d)) as Ez. fold a in Ez. destruct (zdrop (pnt d) (cur d)) as [|x u] eqn:Eu.
      - exfalso. pose proof (zdrop_len (pnt d) (cur d) ltac:(lia)) as Hz. rewrite Eu in Hz. change (zlen []) with 0 in Hz. lia.
      - exists x, u. by rewrite Ez. }
    destruct Hb0 as (x & u & Ecd).
    rewrite (cell_upd_data _ _ _ _ _ (a ++ 0 :: u ++ 0 :: slack r)).
    2: { cbn [data]. rewrite Ecd, <- app_assoc. cbn [app]. by apply mem_write_one. }
    cbn [prev next len alloc_len]. eexists. split; [reflexivity|].
    assert (Ec : Textline pv nx (pnt d) (zlen (cur d) + zlen (slack r)) (a ++ 0 :: u ++ 0 :: slack r) = cell pv nx (Row a (u ++ 0 :: slack r))).
    { unfold cell. cbn [txt slack]. rewrite Ha, Ecd. autorewrite with zlen. f_equal. lia. }
    rewrite Ec. assert (Hac : text_chars a) by (by apply chars_take). pose proof (ok_len _ _ Hd).
    split; [apply Rb_edit with r; done || lia|]. apply doc_w_cur with (WRAPMARGIN - 1); done || lia.
Qed.


(** *** Putting the deleted line back *)

Lemma clone_ok bx k s us c ds p0 rd d : rep None bx k s us c ds (Some (p0, rd)) d ->
  exists p, clone_line (Some p0) s = Some (set_heap (<[p := cell None None (Row (txt rd) [])]> (heap s)) s, Some p) /\
    rep (Some (p, cell None None (Row (txt rd) []))) bx k (set_heap (<[p := cell None None (Row (txt rd) [])]> (heap s)) s) us c ds (Some (p0, rd)) d.
Proof.
  intros R. pose proof (rp_del R) as (_ & Hp0 & _ & [Hch Hl]).
  unfold clone_line. rewrite (get_some _ _ _ Hp0). cbn [mbind option_bind cell len data].
  destruct (rep_alloc bx k s us c ds _ d (zlen (txt rd)) R) as [Ea R1]. rewrite Ea. clear Ea. set (p := malloc_at (heap s)) in *.
  cell_step. rewrite c_str_at by (by apply text_c_string). cbn [mbind option_bind].
  assert (Ed : strlcpy (zlen (txt rd) + 1) (txt rd) = txt rd).
  { unfold strlcpy. apply take_ge. unfold zlen. lia. }
  rewrite Ed. assert (Hg : zlen (0 :: fill s (zlen (txt rd))) = zlen (txt rd ++ [0])).
  { pose proof (zlen_nonneg (txt rd)). rewrite fill_len, zlen_app by lia. change (zlen [0]) with 1. lia. }
  assert (Ew : (fun g : list Z => mem_write g 0 (txt rd ++ [0])) (0 :: fill s (zlen (txt rd))) = Some (txt rd ++ [0])).
  { pose proof (mem_write_app [] (0 :: fill s (zlen (txt rd))) [] (txt rd ++ [0]) 0) as E. rewrite !app_nil_r in E. cbn [app] in E.
    apply E; done. }
  erewrite cell_upd_data by exact Ew. cbn [mbind option_bind prev next len alloc_len].
  assert (Ec : Textline None None (zlen (txt rd)) (zlen (txt rd)) (txt rd ++ [0]) = cell None None (Row (txt rd) [])).
  { unfold cell. cbn [txt slack]. change (zlen []) with 0. by rewrite Z.add_0_r. }
  rewrite Ec. exists p. split; [done|].
  pose proof (rep_ex_put _ (cell None None (Row (txt rd) [])) _ _ _ _ _ _ _ _ _ R1) as R2. rewrite set_heap_heap in R2. cbn [heap set_heap] in R2.
  by rewrite insert_insert_eq in R2.
Qed.

Lemma set_prev_inv p q s s1 : set_prev p q s = Some s1 -> s1 = set_heap (heap s1) s.
Proof. unfold set_prev, put. destruct p as [x|]; [|done]. cbn. destruct (heap s !! x); [|done]. cbn. by intros [= <-]. Qed.

Lemma set_next_inv p q s s1 : set_next p q s = Some s1 -> s1 = set_heap (heap s1) s.
Proof. unfold set_next, put. destruct p as [x|]; [|done]. cbn. destruct (heap s !! x); [|done]. cbn. by intros [= <-]. Qed.

Lemma editor_ext s s0 :
  heap s = heap s0 -> firstline s = firstline s0 -> lastline s = lastline s0 -> currline s = currline s0 ->
  blockline s = blockline s0 -> top_of_win s = top_of_win s0 -> deleted_line s = deleted_line s0 -> oldcurrline s = oldcurrline s0 ->
  currln s = currln s0 -> totaln s = totaln s0 -> curr_window_line s = curr_window_line s0 -> blockln s = blockln s0 ->
  currpnt s = currpnt s0 -> lastindent s = lastindent s0 -> t_lines s = t_lines s0 -> redraw_everything s = redraw_everything s0 ->
  insert_mode s = insert_mode s0 -> ansimode s = ansimode s0 -> indent_mode s = indent_mode s0 ->
  phone_mode s = phone_mode s0 -> mbcs_mode s = mbcs_mode s0 -> s = s0.
Proof. destruct s, s0. cbn. intros. by subst. Qed.

Lemma if_top (b : bool) v s : (if b then set_top_of_win v s else s) = set_top_of_win (if b then v else top_of_win s) s.
Proof. by destruct b, s. Qed.

Lemma if_first (b : bool) v s : (if b then set_firstline v s else s) = set_firstline (if b then v else firstline s) s.
Proof. by destruct b, s. Qed.

(** The fields of the editor after [undelete_line], and one line above. *)
Lemma undelete_fields s us ds q q' r r' ph rh h1 h2 :
  blockline s = None -> currline s = Some q -> ph <> q -> ph <> q' ->
  firstline s = head_ptr (us ++ (q, r) :: ds) None -> NoDup (ptrs (us ++ (ph, rh) :: (q', r') :: ds)) -> 
  NoDup (ptrs (us ++ (ph, rh) :: (q, r) :: ds)) -> (forall x, top_of_win s = Some x -> x ∈ ptrs (us ++ (q, r) :: ds)) ->
  let V := set_currln (currln s + 1) (set_curr_window_line (curr_window_line s + 1) (set_currpnt 0
      (set_heap h1
        (set_blockline (if bool_decide (blockline s = Some q) then Some ph else blockline s)
          (set_top_of_win (if bool_decide (top_of_win s = Some q) then Some ph else top_of_win s)
            (set_firstline (match us with [] => Some ph | _ => firstline s end) s)))))) in
  let Y := set_heap h2 (move_ptrs (Some q) (Some q') (set_heap h1 s)) in
  let Y := if bool_decide (top_of_win Y = currline Y) then set_top_of_win (Some ph) Y else Y in
  let Y := if bool_decide (firstline Y = currline Y) then set_firstline (Some ph) Y else Y in
  set_currpnt 0 (set_currline (Some ph) Y) = step (Some ph) (-1) 0 (set_heap h2 (move_ptrs (Some q) (Some q') V)).
Proof.
  intros Hb Hc Hpq Hpq' Hf Hn Hn0 Ht. cbn zeta.
  assert (Hft : forall x, x ∈ ptrs (us ++ ds) -> x <> q /\ x <> q' /\ x <> ph).
  { rewrite !ptrs_app in Hn, Hn0. apply list.NoDup_app in Hn as (_ & Hd & Hn). apply list.NoDup_app in Hn0 as (_ & Hd0 & Hn0).
    cbn in Hd, Hd0, Hn, Hn0. apply list.NoDup_cons in Hn as [Hph Hn]. apply list.NoDup_cons in Hn as [Hq' _].
    apply list.NoDup_cons in Hn0 as [_ Hn0]. apply list.NoDup_cons in Hn0 as [Hq _].
    intros x. rewrite ptrs_app, list.elem_of_app. intros [Hx|Hx].
    - split_and!; intros ->; [apply (Hd0 _ Hx)|apply (Hd _ Hx)|apply (Hd _ Hx)]; rewrite !list.elem_of_cons; tauto.
    - split_and!; intros ->; [done|done|]. apply Hph. rewrite list.elem_of_cons. by right. }
  assert (Hm : forall x, moved (Some q) (Some q') x = if bool_decide (x = Some q) then Some q' else x).
  { intros x. unfold moved. case_bool_decide as E1; case_bool_decide as E2; congruence. }
  assert (Hmv : forall o, (forall x, o = Some x -> x ∈ ptrs (us ++ (q, r) :: ds)) ->
    (if bool_decide (moved (Some q) (Some q') o = Some q') then Some ph else moved (Some q) (Some q') o) =
    moved (Some q) (Some q') (if bool_decide (o = Some q) then Some ph else o)).
  { intros o Ho. rewrite !Hm. destruct (decide (o = Some q)) as [->|Hoq].
    - rewrite !(bool_decide_eq_true_2 (Some q = Some q)) by done. rewrite bool_decide_eq_true_2 by done.
      by rewrite bool_decide_eq_false_2 by congruence.
    - rewrite !(bool_decide_eq_false_2 (o = Some q)) by done. rewrite bool_decide_eq_false_2; [done|]. intros ->.
      assert (Hq' : q' ∈ ptrs (us ++ ds)); [|by destruct (Hft _ Hq') as (_ & ? & _)].
      specialize (Ho q' eq_refl). revert Ho. rewrite !ptrs_app, !list.elem_of_app. cbn. rewrite list.elem_of_cons.
      intros [?|[->|?]]; [by left|done|by right]. }
  assert (Hfi : (match us with [] => Some ph | _ => firstline s end) = if bool_decide (firstline s = Some q) then Some ph else firstline s).
  { rewrite Hf. destruct us as [|[x rx] us]; cbn [app head_ptr]; [by rewrite bool_decide_eq_true_2|].
    rewrite bool_decide_eq_false_2; [done|]. intros [= ->]. destruct (Hft q) as (? & _); [by left|done]. }
  assert (Hfp : forall x, firstline s = Some x -> x ∈ ptrs (us ++ (q, r) :: ds)).
  { intros x. rewrite Hf. destruct us as [|[y ry] us]; cbn; intros [= <-]; by left. }
  rewrite Hfi. pose proof (Hmv _ Ht) as Et. pose proof (Hmv _ Hfp) as Efi. clear Hmv Hfi Hfp Hft Ht Hf Hn Hn0.
  rewrite if_top, if_first. apply editor_ext; unfold step, move_ptrs; cbn; rewrite ?Hb, ?Hc; try done.
  - rewrite (Hm (Some q)), (bool_decide_eq_true_2 (Some q = Some q)) by done. exact Efi.
  - rewrite (Hm (Some q)), (bool_decide_eq_true_2 (Some q = Some q)) by done. exact Et.
  - lia.
  - lia.
Qed.

Lemma doc_undelete d : doc_ok d -> doc_ok (d_undelete d).
Proof.
  intros [Hu Hdn Hch Hl Hdel Hpnt Hr]. unfold d_undelete. destruct (del d) as [t|] eqn:Ed; [|by constructor; rewrite ?Ed].
  destruct (Hdel t eq_refl) as [Htc Htl]. constructor; cbn [up cur dn del pnt rows w_pnt w_text w_blk d_cancel]; try done.
  - apply list.Forall_cons. split; [split; [done|lia]|done].
  - lia.
  - by rewrite Ed.
  - pose proof (zlen_nonneg t). lia.
Qed.

Lemma d_goto_eq ex bx k s us c ds dl i r p d : rep ex bx k s us c ds dl (d_goto i r p d) ->
  d_goto i r p d = w_pnt p (w_row r (w_text (texts us) (txt c.2) (texts ds) d)).
Proof.
  intros R. pose proof (rp_up R) as E1. pose proof (rp_curt R) as E2. pose proof (rp_dn R) as E3. unfold d_goto in *.
  cbn [up cur dn w_pnt w_row w_text] in E1, E2, E3. by rewrite E1, E2, E3.
Qed.

(** The copy is linked in above the line of the cursor. *)
Lemma link_clone_ok bx k s us q r ds dl d ph rh : let th := cell None None rh in rep (Some (ph, th)) bx k s us (q, r) ds dl d ->
  exists h1, (s1 ← set_prev (Some ph) (last_ptr None us) s;
      s1 ← set_next (Some ph) (currline s1) s1;
      s1 ← match last_ptr None us with Some _ => set_next (last_ptr None us) (Some ph) s1 | None => Some s1 end;
      set_prev (currline s1) (Some ph) s1) = Some (set_heap h1 s) /\
    dseg h1 None (us ++ (ph, rh) :: (q, r) :: ds) None /\
    (forall x, x ∉ ptrs (us ++ (ph, rh) :: (q, r) :: ds) -> h1 !! x = heap s !! x).
Proof.
  intros th R. destruct (rep_ex_get _ _ _ _ _ _ _ _ _ _ R) as [Hph Hphn]. pose proof (rp_cur R) as Ecl. cbn [fst] in Ecl.
  destruct (link_above_ok _ _ _ s us q r ds _ d ph th rh (firstline s) (fun s => s) R Hph Hphn) as (h1 & El & Hs1 & Fr);
    [done|done|done|by intros h; destruct s|].
  exists h1. split; [|done].
  revert El. destruct (set_prev (Some ph) (last_ptr None us) s) as [u1|] eqn:E1; cbn [mbind option_bind]; [|done].
  apply set_prev_inv in E1. assert (Ec1 : currline u1 = Some q) by (by rewrite E1). rewrite Ec1.
  destruct (set_next (Some ph) (Some q) u1) as [u2|] eqn:E2; cbn [mbind option_bind]; [|done].
  destruct (match last_ptr None us with Some _ => _ | None => _ end) as [u3|] eqn:E3; cbn [mbind option_bind]; [|done].
  apply set_next_inv in E2. assert (Ec2 : currline u2 = Some q) by (by rewrite E2).
  assert (Ec3 : currline u3 = Some q).
  { revert E3. destruct (last_ptr None us); [intros E3%set_next_inv; by rewrite E3|by intros [= <-]]. }
  rewrite Ec3. intros ->. f_equal. destruct us; by destruct s.
Qed.

Lemma cancel_none s (b : bool) : has_block_selection s = b -> b = false -> block_cancel s = s.
Proof. unfold block_cancel. by intros -> ->. Qed.

Lemma undelete_cancel s : undelete_line s = match deleted_line s with None => Some (s, None) | Some _ => undelete_line (block_cancel s) end.
Proof.
  assert (E : block_cancel (block_cancel s) = block_cancel s).
  { unfold block_cancel at 2 3. destruct (has_block_selection s) eqn:Eb; [done|]. by apply (cancel_none s _ Eb). }
  assert (Ed : deleted_line (block_cancel s) = deleted_line s) by (unfold block_cancel; by destruct (has_block_selection s)).
  unfold undelete_line. cbn zeta. rewrite E, !Ed. by destruct (deleted_line s).
Qed.

(** Without a block. *)
Lemma undelete_core s us q r ds p0 rd d : rep None true 0 s us (q, r) ds (Some (p0, rd)) d -> doc_ok d -> blk d = None -> 0 <= row d ->
  exists s' q', undelete_line s = Some (s', q') /\ Rb true s' (w_pnt 0 (w_text (up d) (txt rd) (cur d :: dn d) d)).
Proof.
  intros R Hd Hb Hr. unfold undelete_line. pose proof (rp_del R) as (Ed1 & _). rewrite Ed1.
  rewrite (cancel_none _ _ (rep_has_block _ _ _ _ _ _ _ _ _ R)) by (by rewrite Hb). rewrite Ed1. destruct (clone_ok _ _ _ _ _ _ _ _ _ R) as (ph & -> & R1). cbn [mbind option_bind].
  set (rh := Row (txt rd) []) in *. set (th := cell None None rh) in *.
  set (s1 := set_heap (<[ph := th]> (heap s)) s) in *. assert (Hb1 : blockline s1 = None).
  { pose proof (rp_blk R) as Hbr. unfold blk_rep in Hbr. rewrite Hb in Hbr. apply Hbr. }
  clearbody s1. pose proof (rep_get_cur _ _ _ _ _ _ _ _ _ R1) as Eg. rewrite Eg. cbn [mbind option_bind cell prev snd].
  assert (Hrd : row_ok rd) by (by destruct (rp_del R) as (_ & _ & _ & ?)). clear R s Ed1. rename R1 into R, s1 into s.
  destruct (rep_ex_get _ _ _ _ _ _ _ _ _ _ R) as [_ Hphn]. pose proof (rp_cur R) as Ecl. cbn [fst] in Ecl.
  destruct (link_clone_ok _ _ _ _ _ _ _ _ _ _ _ R) as (h1 & El & Hs1 & Fr). revert El.
  destruct (set_prev (Some ph) (last_ptr None us) s) as [u1|]; cbn [mbind option_bind]; [|done].
  destruct (set_next (Some ph) (currline u1) u1) as [u2|]; cbn [mbind option_bind]; [|done].
  destruct (match last_ptr None us with Some _ => _ | None => _ end) as [u3|]; cbn [mbind option_bind]; [|done].
  intros ->. cbn [mbind option_bind]. set (s2 := set_totaln (totaln s + 1) s).
  match goal with |- context [set_totaln ?n (set_heap h1 s)] => change (set_totaln n (set_heap h1 s)) with (set_heap h1 s2) end.
  assert (R2 : rep (Some (ph, th)) true 1 s2 us (q, r) ds (Some (p0, rd)) d) by (destruct R; constructor; try done; cbn; lia).
  assert (Hrh : row_ok rh) by done.
  assert (Hrq : row_ok r) by (by pose proof (rep_mid _ _ _ _ _ _ _ _ _ R) as (_ & _ & _ & ? & _)).
  pose proof (rep_above _ _ _ _ _ _ _ _ _ ph th rh r h1 0 R2 Hrh Hrq Hr Hs1 Fr) as RV. change (1 - 1) with 0 in RV.
  match type of RV with rep _ _ _ ?v _ _ _ _ ?dv => set (V := v) in *; set (dV := dv) in * end.
  assert (Htxt : zlen (txt r) < WRAPMARGIN) by (pose proof (rp_curt R) as E; cbn [snd] in E; rewrite <- E; pose proof (ok_len _ _ Hd); lia).
  destruct (shrink_ok false V (us ++ [(ph, rh)]) q r ds _ dV RV Htxt) as (h2 & q' & r' & Et & RW & Hadj).
  change (currline (set_heap h1 s2)) with (currline s). rewrite Ecl.
  assert (Hq1 : h1 !! q = Some (cell (Some ph) (head_ptr ds None) r)).
  { pose proof (dseg_lookup _ _ _ _ (us ++ [(ph, rh)]) q r ds Hs1 ltac:(by rewrite <- app_assoc)) as E. by rewrite last_ptr_app in E. }
  change (get (Some q) (set_heap h1 s2)) with (h1 !! q). rewrite Hq1. cbn [mbind option_bind cell len alloc_len].
  change (currline (set_heap h1 s2)) with (currline s). rewrite ?Ecl.
  rewrite Hadj by (done || exact Ecl). 
  set (Y := set_heap h2 (move_ptrs (Some q) (Some q') (set_heap h1 s2))).
  assert (RS : rep None true 0 (step (Some ph) (-1) 0 (set_heap h2 (move_ptrs (Some q) (Some q') V))) us (ph, rh) ((q', r') :: ds) (Some (p0, rd))
    (w_pnt 0 (w_text (up d) (txt rd) (cur d :: dn d) d))).
  { apply rep_exact in RW; [|done]. pose proof (rep_step_up _ _ _ _ _ _ _ _ _ _ _ _ 0 RW) as RS. pose proof (d_goto_eq _ _ _ _ _ _ _ _ _ _ _ _ RS) as Eg2. rewrite Eg2 in RS.
    cbn [snd texts map] in RS. fold (texts ds) in RS. rewrite Et, <- (rp_up R), <- (rp_dn R) in RS. pose proof (rp_curt R) as Ect. cbn [snd] in Ect.
    rewrite <- Ect in RS. unfold dV in RS. cbn [row w_pnt w_row w_text] in RS. replace (row d + 1 + -1) with (row d) in RS by lia.
    replace (w_pnt 0 (w_text _ _ _ d)) with (w_pnt 0 (w_row (row d) (w_text (up d) (txt rd) (cur d :: dn d)
      (w_pnt 0 (w_row (row d + 1) (w_text (texts (us ++ [(ph, rh)])) (cur d) (dn d) d)))))) by (by destruct d). exact RS. }
  assert (Hfields : let Y := if bool_decide (top_of_win Y = currline Y) then set_top_of_win (Some ph) Y else Y in
    let Y := if bool_decide (firstline Y = currline Y) then set_firstline (Some ph) Y else Y in
    set_currpnt 0 (set_currline (Some ph) Y) = step (Some ph) (-1) 0 (set_heap h2 (move_ptrs (Some q) (Some q') V))).
  { pose proof (rp_nodup RW) as Hn1. pose proof (rp_nodup RV) as Hn0. rewrite <- app_assoc in Hn0, Hn1. cbn [app] in Hn0, Hn1.
    apply (undelete_fields s2 us ds q q' r r' ph rh h1 h2).
    - exact Hb1.
    - exact Ecl.
    - intros ->. apply Hphn, ptrs_mid.
    - intros ->. rewrite ptrs_app in Hn1. apply list.NoDup_app in Hn1 as (_ & _ & Hn1). apply list.NoDup_cons in Hn1 as [Hn1 _]. apply Hn1. by left.
    - exact (rp_first R).
    - done.
    - done.
    - intros x Hx. change (top_of_win s2) with (top_of_win s) in Hx. rewrite (rp_top R) in Hx. by apply list_elem_of_lookup_2 in Hx. }
  cbn zeta in Hfields. clearbody Y. cbn [mbind option_bind].
  eexists _, _. split; [reflexivity|]. exists us, (ph, rh), ((q', r') :: ds), (Some (p0, rd)).
  apply rep_redraw. rewrite Hfields. exact RS.
Qed.

Lemma undelete_ok s d : Ok s d -> exists s' q, undelete_line s = Some (s', q) /\ Cok s' (d_undelete d).
Proof.
  intros Ho. assert (Hs : exists s' q, undelete_line s = Some (s', q) /\ Rb true s' (d_undelete d));
    [|destruct Hs as (s' & q & E & R); exists s', q; split; [done|split; [done|apply doc_undelete, Ho]]].
  rewrite undelete_cancel. unfold d_undelete. destruct Ho as ((us & [q r] & ds & dl & R) & Hd & Hr). rewrite (rp_delt R).
  destruct dl as [[p0 rd]|]; cbn [fmap option_fmap option_map snd].
  - pose proof (rp_del R) as (-> & _). apply rep_cancel in R.
    destruct (undelete_core _ _ _ _ _ _ _ _ R) as (s' & q' & E & R'); [by apply doc_w_blk|done|done|by exists s', q'].
  - pose proof (rp_del R) as Ed. cbn in Ed. rewrite Ed. exists s, None. split; [done|]. by exists us, (q, r), ds, None.
Qed.

End Delete.
End EditDelete.
