(* ===== verification/EditBlocks.v ===== *)
(** Blocks of lines: the range between the mark and the cursor is freed, or its
    escape codes are rewritten; and the end of the session. *)

From stdpp Require Import gmap.
From S2P Require Import Prelude Cstr Str Mbs MbsProps Edit EditText EditHeap EditRep EditPos EditList EditSplit EditJoin EditChars EditInsert EditMoves EditCmds EditDelete.

#[global] Open Scope Z_scope.
#[global] Open Scope list_scope.

Module EditBlocks.
Import Cstr Str Mbs MbsProps Edit EditText EditHeap EditRep EditPos EditList EditSplit EditJoin EditChars EditInsert EditMoves EditCmds EditDelete.

Section Blocks.
Context `{LibcOk} {C : Type} `{MbShort C}.
Variable wc : Z -> Z.
Hypothesis wc_le : forall u, wc u <= 2.
Implicit Types (us ds a b : list node) (c : node) (dl : option node) (d : doc) (t : list Z) (A B D : list node).

(** *** Lines freed *)

Lemma free_lines_ok B : forall fuel pv s, dseg (heap s) pv B None -> NoDup (ptrs B) -> (length B < fuel)%nat ->
  exists h o, free_lines fuel (head_ptr B None) s = Some (set_heap h (set_oldcurrline o s), zlen B) /\
    (forall x, h !! x = if decide (x ∈ ptrs B) then None else heap s !! x) /\
    (o = None \/ (o = oldcurrline s /\ forall x, oldcurrline s = Some x -> x ∉ ptrs B)).
Proof.
  induction B as [|[p r] B IH]; intros fuel pv s Hs Hn Hf; (destruct fuel as [|fuel]; [cbn in Hf; lia|]).
  - exists (heap s), (oldcurrline s). cbn. split; [do 2 f_equal; by destruct s|]. split; [|right; split; [done|intros x _ Hx; by inversion Hx]].
    intros x. by destruct (decide _) as [Hx|]; [inversion Hx|].
  - destruct Hs as [Hp Hs]. apply list.NoDup_cons in Hn as [Hpn Hn]. cbn [free_lines head_ptr].
    rewrite (get_some _ _ _ Hp). cbn [mbind option_bind cell next]. unfold free_line. cbn [mbind option_bind]. rewrite Hp. cbn [mbind option_bind].
    set (s1 := set_heap (delete p (heap (if bool_decide (Some p = oldcurrline s) then set_oldcurrline None s else s))) _).
    set (o1 := if bool_decide (Some p = oldcurrline s) then None else oldcurrline s).
    assert (Es1 : s1 = set_heap (delete p (heap s)) (set_oldcurrline o1 s)).
    { unfold s1, o1. destruct (bool_decide (Some p = oldcurrline s)); by destruct s. }
    clearbody s1. subst s1.
    destruct (IH fuel (Some p) (set_heap (delete p (heap s)) (set_oldcurrline o1 s))) as (h & o & -> & Hh & Ho);
      [by apply dseg_delete|done|cbn in Hf; lia|].
    cbn [mbind option_bind]. exists h, o. rewrite zlen_cons. split; [do 2 f_equal; lia|]. split.
    + intros x. rewrite Hh. cbn [heap set_heap ptrs map fst]. destruct (decide (x = p)) as [->|Hxp].
      * rewrite lookup_delete_eq. destruct (decide (p ∈ ptrs B)), (decide (p ∈ p :: map fst B)) as [|Hi]; try done. by destruct Hi; left.
      * rewrite lookup_delete_ne by done. destruct (decide (x ∈ ptrs B)) as [Hi|Hi], (decide (x ∈ p :: map fst B)) as [Hi2|Hi2]; try done.
        -- destruct Hi2. by right.
        -- apply list.elem_of_cons in Hi2 as [|]; done.
    + destruct Ho as [->|[-> Ho]]; [by left|]. cbn [oldcurrline set_oldcurrline set_heap] in *. unfold o1 in *.
      destruct (bool_decide (Some p = oldcurrline s)) eqn:Eb; [by left|right]. apply bool_decide_eq_false_1 in Eb. split; [done|].
      intros x Hx. cbn [ptrs map fst]. rewrite list.elem_of_cons. intros [->|Hi]; [congruence|by apply (Ho x)].
Qed.

Lemma unlink_block_ok s A B D :
  NoDup (ptrs (A ++ B ++ D)) -> dseg (heap s) None (A ++ B ++ D) None -> B <> [] ->
  exists h, unlink_block (last_ptr None A) (head_ptr D None) s = Some (set_heap h s) /\
    dseg h None (A ++ D) None /\ (forall x, x ∉ ptrs (A ++ D) -> h !! x = heap s !! x).
Proof.
  intros Hn Hs Hne. apply dseg_app in Hs as [Ha Hs]. apply dseg_app in Hs as [Hb Hd].
  rewrite !ptrs_app in Hn. apply list.NoDup_app in Hn as (Hna & Hdis & Hn). apply list.NoDup_app in Hn as (_ & Hdis2 & Hnd).
  assert (Had : forall x, x ∈ ptrs A -> x ∉ ptrs D) by (intros x Hx Hi; apply (Hdis _ Hx), list.elem_of_app; by right).
  unfold unlink_block. destruct (link_next s A _ (head_ptr D None) s Hna Ha) as (h1 & -> & Ha1 & _ & F1 & N1). cbn [mbind option_bind].
  assert (E1 : match A with [] => s | _ :: _ => set_heap h1 s end = set_heap h1 s) by (destruct A; [rewrite N1 by done; by rewrite set_heap_id|done]).
  rewrite E1. assert (Hd1 : dseg (heap (set_heap h1 s)) (last_ptr (last_ptr None A) B) D None).
  { apply dseg_frame with (heap s); [|done]. intros x Hx. apply F1. intros Hi. by apply (Had _ Hi). }
  destruct (link_prev (set_heap h1 s) _ D (last_ptr None A) (set_heap h1 s) Hnd Hd1) as (h2 & -> & Hd2 & _ & F2 & N2).
  exists h2. split; [destruct D; [by rewrite N2|done]|]. split.
  - apply dseg_app. split; [|done]. apply dseg_frame with h1; [|done]. intros x Hx. apply F2. by apply Had.
  - intros x Hx. rewrite ptrs_app, list.elem_of_app in Hx. rewrite F2 by tauto. apply F1. tauto.
Qed.

(** The editor on what is left, or on an empty line. *)
Lemma rep_rest s us c ds dl d us' c' ds' hF w top o f l :
  rep None true 0 s us c ds dl d ->
  dseg hF None (us' ++ c' :: ds') None -> NoDup (ptrs (us' ++ c' :: ds')) -> rows_ok (us' ++ c' :: ds') ->
  (forall p r, dl = Some (p, r) -> hF !! p = heap s !! p /\ p ∉ ptrs (us' ++ c' :: ds')) ->
  (forall x (u : textline_t), hF !! x = Some u -> x ∈ ptrs (us' ++ c' :: ds') \/ del_ptr dl x) ->
  f = head_ptr (us' ++ c' :: ds') None -> l = last_ptr None (us' ++ c' :: ds') ->
  top = ptrs (us' ++ c' :: ds') !! Z.to_nat (zlen us' - w) -> 0 <= zlen us' - w <= zlen us' + zlen ds' ->
  (forall x, o = Some x -> x ∈ ptrs (us' ++ c' :: ds')) ->
  rep None true 0
    (set_redraw_everything true (set_blockline None (set_blockln (-1) (set_currpnt 0 (set_heap hF (set_oldcurrline o
      (set_top_of_win top (set_curr_window_line w (set_lastline l (set_firstline f (set_currln (zlen us')
        (set_currline (Some c'.1) (set_totaln (zlen us' + zlen ds') s)))))))))))))
    us' c' ds' dl (d_cancel (w_pnt 0 (w_row w (w_text (texts us') (txt c'.2) (texts ds') d)))).
Proof.
  intros R Hs Hn Hrows Hdel Hdom -> -> -> Hw Ho. destruct R. constructor; cbn; try done; try lia.
  - unfold del_rep in *. destruct dl as [[p r]|]; [|done]. destruct rp_del0 as (? & ? & _ & ?). destruct (Hdel p r eq_refl) as [Ep ?].
    cbn. rewrite Ep. by split_and!.
  - intros x u Hx. destruct (Hdom _ _ Hx); [by left|right; by left].
Qed.

Lemma leave_block_eq n pv nx s :
  let k := match nx with Some _ => 0 | None => 1 end in
  leave_block n pv nx s =
  set_curr_window_line ((if blockln s <? currln s then curr_window_line s - (n - 1) else curr_window_line s) - k)
    (set_currln (Z.min (blockln s) (currln s) - k)
      (set_currline (match nx with Some _ => nx | None => pv end) (set_totaln (totaln s - n) s))).
Proof.
  cbn zeta. unfold leave_block. destruct (blockln s <? currln s) eqn:E; destruct nx; cbn zeta;
    [rewrite bool_decide_eq_false_2 by done|rewrite bool_decide_eq_true_2 by done|rewrite bool_decide_eq_false_2 by done|rewrite bool_decide_eq_true_2 by done];
    apply editor_ext; cbn; try done; lia.
Qed.

Lemma if_last (b : bool) v s : (if b then set_lastline v s else s) = set_lastline (if b then v else lastline s) s.
Proof. by destruct b, s. Qed.

Lemma settle_ends_eq be en s :
  settle_ends be en s =
  set_top_of_win (if curr_window_line s <=? 0 then currline s else top_of_win s)
    (set_curr_window_line (Z.max 0 (curr_window_line s))
      (set_lastline (if bool_decide (lastline s = en) then currline s else lastline s)
        (set_firstline (if bool_decide (firstline s = be) then currline s else firstline s) s))).
Proof.
  unfold settle_ends. rewrite if_first, if_last. cbn [currline lastline curr_window_line set_lastline set_firstline].
  destruct (curr_window_line s <=? 0) eqn:E; apply editor_ext; cbn; try done; lia.
Qed.

Lemma settle_at be en (w n t : Z) q h s :
  settle_ends be en (set_curr_window_line w (set_currln n (set_currline q (set_totaln t (set_heap h s))))) =
  set_top_of_win (if w <=? 0 then q else top_of_win s)
    (set_curr_window_line (Z.max 0 w)
      (set_lastline (if bool_decide (lastline s = en) then q else lastline s)
        (set_firstline (if bool_decide (firstline s = be) then q else firstline s)
          (set_curr_window_line w (set_currln n (set_currline q (set_totaln t (set_heap h s)))))))).
Proof. rewrite settle_ends_eq. by destruct s. Qed.

(** *** The lines of a block *)

Lemma block_parts (ls : list node) i j : 0 <= i <= j -> j < zlen ls ->
  exists A B D pb (rb : lrow) pe (re : lrow) B1 B2, ls = A ++ B ++ D /\ B = (pb, rb) :: B1 /\ B = B2 ++ [(pe, re)] /\
    zlen A = i /\ zlen B = j - i + 1 /\ ptrs ls !! Z.to_nat i = Some pb /\ ptrs ls !! Z.to_nat j = Some pe /\
    texts A = ztake i (texts ls) /\ texts D = zdrop (j + 1) (texts ls).
Proof.
  intros Hi Hj. set (A := ztake i ls). set (B := ztake (j - i + 1) (zdrop i ls)). set (D := zdrop (j + 1) ls).
  assert (HA : zlen A = i) by (apply ztake_len; lia).
  assert (HB : zlen B = j - i + 1) by (unfold B; rewrite ztake_len; [done|rewrite zdrop_len; lia]).
  assert (El : ls = A ++ B ++ D).
  { unfold A, B, D. rewrite <- (ztake_zdrop i ls) at 1. f_equal. rewrite <- (ztake_zdrop (j - i + 1) (zdrop i ls)) at 1. f_equal.
    unfold zdrop. rewrite drop_drop. f_equal. lia. }
  assert (Htx : texts A = ztake i (texts ls) /\ texts D = zdrop (j + 1) (texts ls)).
  { unfold A, D, ztake, zdrop, texts. by rewrite <- firstn_map, <- skipn_map. }
  destruct B as [|[pb rb] B1] eqn:EB; [change (zlen []) with 0 in HB; lia|].
  destruct ((pb, rb) :: B1) as [|[pe re] B2 _] eqn:EB2 using rev_ind; [done|]. rewrite <- EB2 in *.
  exists A, B, D, pb, rb, pe, re, B1, B2. rewrite EB. split_and!; try done; try apply Htx.
  - rewrite El, ptrs_app. apply list_lookup_middle. unfold ptrs. rewrite length_map. unfold zlen in HA. lia.
  - rewrite El, EB2. replace (A ++ (B2 ++ [(pe, re)]) ++ D) with ((A ++ B2) ++ (pe, re) :: D) by (by rewrite <- !app_assoc).
    rewrite ptrs_app. apply list_lookup_middle. unfold ptrs. rewrite length_map, length_app. rewrite EB2 in HB.
    rewrite zlen_app in HB. change (zlen [(pe, re)]) with 1 in HB. unfold zlen in HA, HB. lia.
Qed.

Lemma setup_ok s us c ds dl d (b : Z) : rep None true 0 s us c ds dl d -> blk d = Some b ->
  setup_block_begin_end s =
    (ptrs (us ++ c :: ds) !! Z.to_nat (blk_begin b d), ptrs (us ++ c :: ds) !! Z.to_nat (blk_end b d)) /\ 0 <= b <= lastl d /\ blockln s = b.
Proof.
  intros R Hb. pose proof (rp_blk R) as Hbr. unfold blk_rep in Hbr. rewrite Hb in Hbr.
  destruct Hbr as (Hb0 & Eb & qb & Eqb & _ & Hqb). specialize (Hqb eq_refl).
  pose proof (rep_lastl _ _ _ _ _ _ _ _ _ R) as [Ec El]. apply lookup_lt_Some in Hqb as Hlt. rewrite ptrs_length, length_app in Hlt. cbn in Hlt.
  split; [|split; [rewrite El; unfold zlen; lia|done]].
  unfold setup_block_begin_end, blk_begin, blk_end. rewrite Eb, (rp_currln R), (rp_cur R), Eqb, Ec.
  rewrite <- (ptr_cur us c ds), <- Hqb. assert (En : length us = Z.to_nat (zlen us)) by (unfold zlen; lia). rewrite En.
  case_if E; [rewrite Z.min_l, Z.max_r by lia|rewrite Z.min_r, Z.max_l by lia]; done.
Qed.

(** What is left when [B] goes: the cursor's line [c'], among [us'] and [ds'], on the
    heap [h']; a block of memory is taken when nothing is left. *)
Record left_over (h h' : gmap ptr textline_t) (A D us' : list node) (c' : node) (ds' : list node) : Prop := LeftOver
  { lo_seg : dseg h' None (us' ++ c' :: ds') None;
    lo_nodup : NoDup (ptrs (us' ++ c' :: ds'));
    lo_rows : rows_ok (us' ++ c' :: ds');
    lo_old : forall x, x ∈ ptrs (A ++ D) -> x ∈ ptrs (us' ++ c' :: ds');
    lo_in : forall x, x ∈ ptrs (us' ++ c' :: ds') -> x ∈ ptrs (A ++ D) \/ h !! x = None;
    lo_heap : forall x, h !! x <> None -> h' !! x = h !! x;
    lo_dom : forall x, h !! x = None -> h' !! x <> None -> x ∈ ptrs (us' ++ c' :: ds') }.

(** Where the cursor goes. *)
Definition left_case (A D us' : list node) (c' : node) (ds' : list node) : Prop :=
  match D, rev A with
  | n :: D', _ => us' = A /\ c' = n /\ ds' = D'
  | [], p :: A' => us' = rev A' /\ c' = p /\ ds' = []
  | [], [] => us' = [] /\ txt c'.2 = [] /\ ds' = []
  end.

(** [nx] is the line below the block, [k] is 1 when the block was at the end. *)
Lemma ensure_ok s h A D w0 i m :
  dseg h None (A ++ D) None -> NoDup (ptrs (A ++ D)) -> rows_ok (A ++ D) -> zlen A = i -> m = zlen A + zlen D - 1 ->
  let k := match head_ptr D None with Some _ => 0 | None => 1 end in
  exists us' c' ds' h', left_over h h' A D us' c' ds' /\
    ensure_line (set_curr_window_line w0 (set_currln (i - k) (set_currline
      (match head_ptr D None with Some _ => head_ptr D None | None => last_ptr None A end) (set_totaln m (set_heap h s))))) =
    Some (set_curr_window_line w0 (set_currln (zlen us') (set_currline (Some c'.1) (set_totaln (zlen us' + zlen ds') (set_heap h' s))))) /\
    left_case A D us' c' ds'.
Proof.
  intros Hs Hn Hr Hi Hm. cbn zeta. unfold left_case.
  assert (Hlo : forall us' c' ds', A ++ D = us' ++ c' :: ds' -> left_over h h A D us' c' ds').
  { intros us' c' ds' E. rewrite E in *. constructor; rewrite ?E; try done; intros x Hx; by left. }
  destruct D as [|[q rq] D]; cbn [head_ptr].
  - rewrite app_nil_r in *. destruct A as [|[p rp] A _] using rev_ind.
    + cbn [last_ptr rev]. unfold ensure_line. cbn [currline set_currline set_currln set_curr_window_line]. rewrite bool_decide_eq_true_2 by done.
      cbn [currln totaln set_currline set_currln set_curr_window_line set_totaln]. change (zlen []) with 0 in *. subst i m. cbn [assert Z.sub Z.add Z.opp Z.pos_sub Z.eqb Pos.eqb mbind option_bind].
      unfold alloc_line. cbn [heap set_heap set_totaln set_currline set_currln set_curr_window_line].
      set (X := set_curr_window_line w0 _). set (g := fill X WRAPMARGIN). set (p := malloc_at h).
      assert (Hp : h !! p = None) by apply malloc_fresh.
      exists [], (p, Row [] g), [], (<[p := cell None None (Row [] g)]> h). split; [|split; [|done]].
      * constructor; cbn.
        -- split; [apply lookup_insert_eq|done].
        -- apply list.NoDup_cons. split; [intros Hx; inversion Hx|apply NoDup_nil_2].
        -- apply list.Forall_cons. split; [|by apply list.Forall_nil]. split; [by apply list.Forall_nil|]. cbn. change (zlen []) with 0. unfold WRAPMARGIN. lia.
        -- intros x Hx. inversion Hx.
        -- intros x Hx. apply list_elem_of_singleton in Hx as ->. by right.
        -- intros x Hx. apply lookup_insert_ne. congruence.
        -- intros x Hx Hx'. destruct (decide (x = p)) as [->|Hne]; [by left|]. by rewrite lookup_insert_ne in Hx'.
      * by f_equal.
    + rewrite last_ptr_app, rev_app_distr. cbn [last_ptr rev app]. rewrite rev_involutive. unfold ensure_line. cbn [currline set_currline set_currln set_curr_window_line].
      rewrite bool_decide_eq_false_2 by done. rewrite zlen_app in *. change (zlen [(p, rp)]) with 1 in *. change (zlen []) with 0 in *.
      exists A, (p, rp), [], h. split; [by apply Hlo|]. split; [|done]. subst i m. change (zlen []) with 0.
      replace (zlen A + 1 - 1) with (zlen A) by lia. by replace (zlen A + 1 + 0 - 1) with (zlen A + 0) by lia.
  - unfold ensure_line. cbn [currline set_currline set_currln set_curr_window_line]. rewrite bool_decide_eq_false_2 by done.
    exists A, (q, rq), D, h. split; [by apply Hlo|]. split; [|by destruct (rev A)]. rewrite zlen_cons in Hm. subst i m.
    rewrite Z.sub_0_r. by replace (zlen A + (1 + zlen D) - 1) with (zlen A + zlen D) by lia.
Qed.

Lemma doc_block_delete d : doc_ok d -> doc_ok (d_block_delete d).
Proof.
  intros Hd. pose proof Hd as [Hu Hdn Hch Hl Hdel Hpnt Hr]. unfold d_block_delete. destruct (blk d) as [b|]; [|done].
  assert (Hls : Forall line_ok (lines d)).
  { apply list.Forall_app. split; [done|]. apply list.Forall_cons. split; [by apply doc_ok_cur|done]. }
  set (U := ztake _ _). set (D := zdrop _ _).
  assert (HU : Forall line_ok U) by (by apply list.Forall_take). assert (HD : Forall line_ok D) by (by apply list.Forall_drop).
  assert (Hgen : forall (x : list (list Z)) t (y : list (list Z)) r, Forall line_ok x -> line_ok t -> Forall line_ok y ->
    doc_ok (d_cancel (w_pnt 0 (w_row r (w_text x t y d))))).
  { intros x t y r Hx [Htc Htl] Hy. pose proof (zlen_nonneg t). constructor; cbn; try done; lia. }
  destruct D as [|n ds].
  - destruct (rev U) as [|p us] eqn:EU.
    + apply Hgen; [done| |done]. split; [by apply list.Forall_nil|done].
    + assert (HU2 : Forall line_ok (rev us ++ [p])) by (replace (rev us ++ [p]) with U; [done|by rewrite <- (rev_involutive U), EU]).
      apply list.Forall_app in HU2 as [Hus Hpp]. apply list.Forall_cons in Hpp as [Hpp _]. by apply Hgen.
  - apply list.Forall_cons in HD as [Hn HD]. by apply Hgen.
Qed.

Lemma dseg_size h pv ls nx : dseg h pv ls nx -> NoDup (ptrs ls) -> (length ls <= size h)%nat.
Proof.
  intros Hs Hn. rewrite <- (length_map fst ls), <- size_dom, <- (size_list_to_set (C := gset ptr)) by exact Hn.
  apply subseteq_size. intros q Hq. apply elem_of_list_to_set in Hq.
  apply list_elem_of_In, in_map_iff in Hq as ([p r] & <- & Hi%list_elem_of_In). apply list_elem_of_split in Hi as (a & b & ->).
  apply elem_of_dom. exists (cell (last_ptr pv a) (head_ptr b nx) r). by apply dseg_mid in Hs as (_ & ? & _).
Qed.

Lemma block_apart h A B D : NoDup (ptrs (A ++ B ++ D)) -> dseg h None (A ++ B ++ D) None ->
  forall x, x ∈ ptrs B -> x ∉ ptrs (A ++ D) /\ h !! x <> None.
Proof.
  intros Hn Hs x Hx. split.
  - rewrite !ptrs_app in *. apply list.NoDup_app in Hn as (_ & G1 & Hn). apply list.NoDup_app in Hn as (_ & G2 & _).
    intros [Hi|Hi]%list.elem_of_app; [apply (G1 _ Hi), list.elem_of_app; by left|by apply (G2 _ Hx)].
  - apply list_elem_of_In, in_map_iff in Hx as ([p r] & <- & Hi%list_elem_of_In). apply list_elem_of_split in Hi as (a & b & ->). cbn [fst].
    rewrite (dseg_lookup _ _ _ _ (A ++ a) p r (b ++ D) Hs); [done|]. by rewrite <- !app_assoc.
Qed.

(** The heap [hF] when the block is freed. *)
Lemma rest_heap s us c ds dl d A B D h h' hF us' c' ds' :
  rep None true 0 s us c ds dl d -> us ++ c :: ds = A ++ B ++ D ->
  (forall x, x ∉ ptrs (A ++ D) -> h !! x = heap s !! x) -> left_over h h' A D us' c' ds' ->
  (forall x, hF !! x = if decide (x ∈ ptrs B) then None else h' !! x) ->
  dseg hF None (us' ++ c' :: ds') None /\
  (forall p r, dl = Some (p, r) -> hF !! p = heap s !! p /\ p ∉ ptrs (us' ++ c' :: ds')) /\
  (forall x (u : textline_t), hF !! x = Some u -> x ∈ ptrs (us' ++ c' :: ds') \/ del_ptr dl x).
Proof.
  intros R EL F1 Lo HF. pose proof (rp_nodup R) as Hn. pose proof (rp_seg R) as Hs. pose proof (rp_del R) as Hdl.
  pose proof (rp_dom R) as Hdom. rewrite EL in *.
  pose proof (block_apart _ _ _ _ Hn Hs) as HB.
  assert (HBn : forall x, x ∈ ptrs B -> x ∉ ptrs (us' ++ c' :: ds')).
  { intros x Hx Hi. destruct (HB _ Hx) as (G1 & G2). destruct (lo_in _ _ _ _ _ _ _ Lo _ Hi); [done|]. rewrite F1 in * by done. done. }
  split_and!.
  - apply dseg_frame with h'; [|apply (lo_seg _ _ _ _ _ _ _ Lo)]. intros x Hx. rewrite HF. rewrite decide_False; [done|].
    intros Hi. by apply (HBn x).
  - intros p r ->. cbn in Hdl. destruct Hdl as (_ & Hp & Hpn & _). rewrite !ptrs_app, !list.elem_of_app in Hpn.
    assert (Hp2 : p ∉ ptrs (A ++ D)) by (rewrite ptrs_app, list.elem_of_app; tauto).
    assert (Hhp : h !! p = heap s !! p) by (by apply F1). split.
    + rewrite HF, decide_False by tauto. rewrite <- Hhp. apply (lo_heap _ _ _ _ _ _ _ Lo). congruence.
    + intros Hi. destruct (lo_in _ _ _ _ _ _ _ Lo _ Hi); [done|congruence].
  - intros x u. rewrite HF. destruct (decide (x ∈ ptrs B)) as [|Hx]; [done|]. intros Hu.
    destruct (h !! x) as [v|] eqn:Ev; [|left; apply (lo_dom _ _ _ _ _ _ _ Lo); congruence].
    destruct (decide (x ∈ ptrs (A ++ D))) as [Hi|Hi]; [left; by apply (lo_old _ _ _ _ _ _ _ Lo)|].
    rewrite F1 in Ev by done. destruct (Hdom _ _ Ev) as [Hi2|[Hi2|(? & ?)]]; [|by right|done].
    rewrite !ptrs_app, !list.elem_of_app in *. tauto.
Qed.

Lemma left_cases A D us' c' ds' : left_case A D us' c' ds' ->
  (A ++ D = us' ++ c' :: ds' /\ (D = [] -> ds' = []) /\ (D <> [] -> us' = A) /\ zlen us' = zlen A - match head_ptr D None with Some _ => 0 | None => 1 end)
  \/ (A = [] /\ D = [] /\ us' = [] /\ ds' = []).
Proof.
  unfold left_case. destruct D as [|[q r] D].
  - destruct A as [|p A _] using rev_ind; [cbn; intros (-> & _ & ->); by right|].
    rewrite rev_app_distr. cbn [rev app]. intros (-> & -> & ->). left. rewrite rev_involutive, app_nil_r. split_and!; try done.
    cbn [head_ptr]. rewrite zlen_app. change (zlen [p]) with 1. lia.
  - intros (-> & -> & ->). left. split_and!; try done. cbn [head_ptr]. lia.
Qed.

(** The ends of the list, and the top of the window. *)
Lemma rest_ends s us c ds dl d A B D B1 B2 pb (rb : lrow) pe (re : lrow) us' c' ds' w :
  rep None true 0 s us c ds dl d -> us ++ c :: ds = A ++ B ++ D -> B = (pb, rb) :: B1 -> B = B2 ++ [(pe, re)] ->
  left_case A D us' c' ds' -> zlen A <= zlen us ->
  w = row d - (zlen us - zlen A) - match head_ptr D None with Some _ => 0 | None => 1 end ->
  (if bool_decide (firstline s = Some pb) then Some c'.1 else firstline s) = head_ptr (us' ++ c' :: ds') None /\
  (if bool_decide (lastline s = Some pe) then Some c'.1 else lastline s) = last_ptr None (us' ++ c' :: ds') /\
  (if w <=? 0 then Some c'.1 else top_of_win s) = ptrs (us' ++ c' :: ds') !! Z.to_nat (zlen us' - Z.max 0 w) /\
  0 <= zlen us' - Z.max 0 w.
Proof.
  intros R EL EB1 EB2 Hc HA Hw. pose proof (rp_first R) as Ef. pose proof (rp_last R) as Ela. pose proof (rp_top R) as Et.
  pose proof (rp_nodup R) as Hn. pose proof (rp_row R) as Hrow. pose proof (zlen_nonneg us'). pose proof (zlen_nonneg us).
  rewrite EL in *. rewrite !ptrs_app in Hn. apply list.NoDup_app in Hn as (_ & G1 & Hn). apply list.NoDup_app in Hn as (_ & G2 & _).
  assert (Hpb : pb ∈ ptrs B) by (rewrite EB1; by left).
  assert (Hpe : pe ∈ ptrs B) by (rewrite EB2, ptrs_app, list.elem_of_app; right; by left).
  assert (Hcp : w <= 0 -> Some c'.1 = ptrs (us' ++ c' :: ds') !! Z.to_nat (zlen us' - Z.max 0 w)).
  { intros Hw0. rewrite <- (ptr_cur us' c' ds'). f_equal. unfold zlen. lia. }
  pose proof (left_cases _ _ _ _ _ Hc) as HC. split; [|split; [|case_if Ew; [split; [by apply Hcp; lia|lia]|]]].
  - rewrite Ef. destruct A as [|[pa ra] A].
    + assert (us' = []) as -> by (unfold left_case in Hc; destruct D; cbn in Hc; tauto).
      rewrite EB1. cbn [app head_ptr]. rewrite bool_decide_eq_true_2 by done. by destruct c'.
    + destruct HC as [(<- & _)|[? _]]; [|done]. cbn [app head_ptr].
      rewrite bool_decide_eq_false_2; [done|]. intros [= ->]. apply (G1 pb); [by left|apply list.elem_of_app; by left].
  - rewrite Ela. destruct D as [|[pd rd] D _] using rev_ind.
    + assert (ds' = []) as -> by (unfold left_case in Hc; destruct (rev A); tauto).
      rewrite EB2, app_nil_r, !last_ptr_app. cbn [last_ptr]. rewrite bool_decide_eq_true_2 by done. by destruct c'.
    + destruct HC as [(E & _)|(_ & E & _)]; [|by destruct D]. rewrite <- E, !last_ptr_app. cbn [last_ptr].
      rewrite bool_decide_eq_false_2; [done|]. intros [= ->]. apply (G2 pe); [done|]. rewrite ptrs_app, list.elem_of_app. right. by left.
  - destruct HC as [(E & _ & _ & Hz)|(-> & -> & _)]; [|change (zlen []) with 0 in *; cbn [head_ptr] in Hw; lia].
    assert (Hi : zlen us' - Z.max 0 w = zlen us - row d) by lia.
    split; [|lia]. rewrite Et, Hi, <- E, !ptrs_app.
    assert (Hlt : (Z.to_nat (zlen us - row d) < length (ptrs A))%nat).
    { rewrite ptrs_length. destruct (head_ptr D None); unfold zlen in *; lia. }
    by rewrite !lookup_app_l.
Qed.

Lemma doc_left d (b : Z) A D us' c' ds' : blk d = Some b ->
  texts A = ztake (blk_begin b d) (lines d) -> texts D = zdrop (blk_end b d + 1) (lines d) -> left_case A D us' c' ds' ->
  (A = [] -> D = [] -> row d - (currl d - blk_begin b d) - 1 <= 0) ->
  d_block_delete d = d_cancel (w_pnt 0 (w_row
    (Z.max 0 (row d - (currl d - blk_begin b d) - match head_ptr D None with Some _ => 0 | None => 1 end))
    (w_text (texts us') (txt c'.2) (texts ds') d))).
Proof.
  intros Hb EA ED Hc H0'. unfold d_block_delete. rewrite Hb, <- EA, <- ED. unfold left_case in Hc.
  destruct D as [|[q r] D]; cbn [texts map head_ptr].
  - destruct A as [|p A _] using rev_ind.
    + destruct Hc as (-> & -> & ->). cbn [texts map rev]. rewrite Z.max_l by (by apply H0'). done.
    + rewrite rev_app_distr in Hc. cbn [rev app] in Hc. destruct Hc as (-> & -> & ->).
      fold (texts (A ++ [p])). rewrite texts_app, rev_app_distr. cbn [texts map rev app]. by rewrite !rev_involutive.
  - destruct Hc as (-> & -> & ->). by rewrite Z.sub_0_r.
Qed.

Lemma free_block_ok s pv nx B B1 B2 pb (rb : lrow) pe (re : lrow) (n : Z) : NoDup (ptrs B) -> dseg (heap s) pv B nx ->
  B = (pb, rb) :: B1 -> B = B2 ++ [(pe, re)] -> n = zlen B ->
  exists hF o,
    (s0 ← set_next (Some pe) None s;
     '(s1, k) ← free_lines (line_fuel s0) (Some pb) s0;
     _ ← assert (n - k =? 0);
     Some (block_cancel (set_currpnt 0 s1))) = Some (block_cancel (set_currpnt 0 (set_heap hF (set_oldcurrline o s)))) /\
    (forall x, hF !! x = if decide (x ∈ ptrs B) then None else heap s !! x) /\
    (o = None \/ (o = oldcurrline s /\ forall x, oldcurrline s = Some x -> x ∉ ptrs B)).
Proof.
  intros Hn Hs EB1 EB2 ->. assert (Hpe : heap s !! pe = Some (cell (last_ptr pv B2) nx re)).
  { rewrite EB2 in Hs. apply (dseg_lookup _ _ _ _ B2 pe re [] Hs eq_refl). }
  assert (Hpi : pe ∈ ptrs B) by (rewrite EB2, ptrs_app, list.elem_of_app; right; by left).
  replace (set_next (Some pe) None s) with (set_next (Some pe) None (set_heap (heap s) s)) by (by rewrite set_heap_id).
  rewrite (set_next_at _ _ s _ Hpe). cbn [mbind option_bind cell prev next len alloc_len data].
  set (h1 := <[pe := _]> (heap s)). assert (Hs1 : dseg h1 pv B None).
  { rewrite EB2 in Hn, Hs |- *. by apply relink_next with nx. }
  destruct (free_lines_ok B (line_fuel (set_heap h1 s)) pv (set_heap h1 s)) as (h & o & E & Hh & Ho); [done|done| |].
  { unfold line_fuel. cbn [heap set_heap]. pose proof (dseg_size _ _ _ _ Hs1 Hn). lia. }
  replace (head_ptr B None) with (Some pb) in E by (by rewrite EB1). rewrite E. cbn [mbind option_bind].
  unfold assert. replace (zlen B - zlen B =? 0) with true by lia. cbn [mbind option_bind]. exists h, o. split; [by destruct s|].
  split; [|done]. intros x. rewrite Hh. destruct (decide (x ∈ ptrs B)) as [|Hx]; [done|]. cbn [heap set_heap]. unfold h1.
  apply lookup_insert_ne. by intros <-.
Qed.

Lemma rest_state s hF h' (o top f l q : option ptr) (w w0 n t : Z) : 0 <= blockln s ->
  block_cancel (set_currpnt 0 (set_heap hF (set_oldcurrline o (set_top_of_win top (set_curr_window_line w (set_lastline l (set_firstline f
    (set_curr_window_line w0 (set_currln n (set_currline q (set_totaln t (set_heap h' s)))))))))))) =
  set_redraw_everything true (set_blockline None (set_blockln (-1) (set_currpnt 0 (set_heap hF (set_oldcurrline o
    (set_top_of_win top (set_curr_window_line w (set_lastline l (set_firstline f (set_currln n (set_currline q (set_totaln t s)))))))))))).
Proof.
  intros Hb. destruct s. cbn in Hb. unfold block_cancel, has_block_selection. cbn. by replace (0 <=? blockln0) with true by lia.
Qed.

Lemma block_core_ok s us c ds dl d (b0 : Z) A B D B1 B2 pb (rb : lrow) pe (re : lrow) h n :
  rep None true 0 s us c ds dl d -> blk d = Some b0 -> 0 <= b0 <= lastl d -> us ++ c :: ds = A ++ B ++ D ->
  B = (pb, rb) :: B1 -> B = B2 ++ [(pe, re)] ->
  zlen A = blk_begin b0 d -> n = zlen B -> zlen B = blk_end b0 d - blk_begin b0 d + 1 ->
  texts A = ztake (blk_begin b0 d) (lines d) -> texts D = zdrop (blk_end b0 d + 1) (lines d) ->
  dseg h None (A ++ D) None -> (forall x, x ∉ ptrs (A ++ D) -> h !! x = heap s !! x) ->
  exists s',
    (s0 ← ensure_line (leave_block n (last_ptr None A) (head_ptr D None) (set_heap h s));
     s1 ← set_next (Some pe) None (settle_ends (Some pb) (Some pe) s0);
     '(s2, k) ← free_lines (line_fuel s1) (Some pb) s1;
     _ ← assert (n - k =? 0);
     Some (block_cancel (set_currpnt 0 s2))) = Some s' /\ Rb true s' (d_block_delete d).
Proof.
  intros R Hb Hb0 EL EB1 EB2 HA -> HB EtA EtD Hs1 F1. pose proof (rep_lastl _ _ _ _ _ _ _ _ _ R) as [Ec El].
  pose proof (rp_blk R) as Hbr. unfold blk_rep in Hbr. rewrite Hb in Hbr. destruct Hbr as (_ & Ebln & _).
  pose proof (rp_nodup R) as Hnd. pose proof (rp_rows R) as Hrows. pose proof (rp_seg R) as Hseg. rewrite EL in Hnd, Hrows, Hseg.
  assert (HnAD : NoDup (ptrs (A ++ D))).
  { rewrite !ptrs_app in Hnd. rewrite ptrs_app. apply list.NoDup_app in Hnd as (G1 & G2 & G3). apply list.NoDup_app in G3 as (_ & _ & G3).
    apply list.NoDup_app. split_and!; [done| |done]. intros x Hx Hi. apply (G2 _ Hx), list.elem_of_app. by right. }
  assert (HrAD : rows_ok (A ++ D)).
  { apply list.Forall_app in Hrows as [G1 G2]. apply list.Forall_app in G2 as [_ G2]. by apply list.Forall_app. }
  pose proof (f_equal zlen EL) as Hlen. rewrite !zlen_app, zlen_cons in Hlen.
  rewrite leave_block_eq. cbn [blockln currln totaln curr_window_line set_heap]. rewrite Ebln, (rp_currln R), (rp_winln R), (rp_totaln R).
  set (w := row d - (zlen us - zlen A) - match head_ptr D None with Some _ => 0 | None => 1 end).
  replace ((if b0 <? zlen us then row d - (zlen B - 1) else row d) - match head_ptr D None with Some _ => 0 | None => 1 end) with w
    by (unfold w; rewrite HA, HB; unfold blk_begin, blk_end; rewrite Ec; destruct (b0 <? zlen us) eqn:?; lia).
  replace (b0 `min` zlen us) with (zlen A) by (rewrite HA; unfold blk_begin; by rewrite Ec).
  destruct (ensure_ok s h A D w (zlen A) (zlen us + zlen ds + 0 - zlen B)) as (us' & c' & ds' & h' & Lo & -> & Hc); [done|done|done|done|lia|].
  match goal with |- context [Some ?X ≫= _] => remember X as s1 eqn:Es1 end.
  cbn [mbind option_bind]. assert (E0 := settle_at (Some pb) (Some pe) w (zlen us') (zlen us' + zlen ds') (Some c'.1) h' s). rewrite <- Es1 in E0. rewrite E0. clear E0.
  destruct (rest_ends s us c ds dl d A B D B1 B2 pb rb pe re us' c' ds' w R EL EB1 EB2 Hc) as (E1 & E2 & E3 & E4);
    [rewrite HA; unfold blk_begin; lia|done|]. rewrite E1, E2, E3. clear E1 E2 E3.
  subst s1. set (S := set_top_of_win _ _). assert (HhS : heap S = h') by done. assert (HoS : oldcurrline S = oldcurrline s) by done.
  pose proof (block_apart _ _ _ _ Hnd Hseg) as HBa.
  assert (HsB : dseg (heap S) (last_ptr None A) B (head_ptr D None)).
  { rewrite HhS. apply dseg_app in Hseg as [_ G2]. apply dseg_app in G2 as [G2 _]. apply dseg_frame with (heap s); [|done].
    intros x Hx. destruct (HBa _ Hx) as [G3 G4]. rewrite <- (F1 x) in * by done. by apply (lo_heap _ _ _ _ _ _ _ Lo). }
  assert (HnB : NoDup (ptrs B)) by (rewrite !ptrs_app in Hnd; apply list.NoDup_app in Hnd as (_ & _ & Hnd); by apply list.NoDup_app in Hnd as [? _]).
  destruct (free_block_ok S (last_ptr None A) (head_ptr D None) B B1 B2 pb rb pe re (zlen B)) as (hF & o & -> & HF & Ho); [done..|].
  rewrite HhS in HF. rewrite HoS in Ho. clear HhS HoS HsB.
  destruct (rest_heap s us c ds dl d A B D h h' hF us' c' ds' R EL F1 Lo HF) as (G1 & G2 & G3).
  rewrite (doc_left d b0 A D us' c' ds' Hb EtA EtD Hc).
  2: { intros EA ED. rewrite Ec, <- HA. unfold w in *. clear -EA R. pose proof (rp_row R). rewrite EA. change (zlen []) with 0. lia. }
  rewrite Ec, <- HA. fold w.
  eexists. split; [reflexivity|]. exists us', c', ds', dl.
  assert (Ho2 : forall x, o = Some x -> x ∈ ptrs (us' ++ c' :: ds')).
  { intros x Ex. destruct Ho as [->|[Eo Ho]]; [done|]. rewrite Eo in Ex. apply (lo_old _ _ _ _ _ _ _ Lo). specialize (Ho _ Ex).
    pose proof (rp_old R _ Ex) as Hi. rewrite EL in Hi. rewrite !ptrs_app, !list.elem_of_app in *. tauto. }
  pose proof (rep_rest s us c ds dl d us' c' ds' hF (Z.max 0 w) _ o _ _ R G1 (lo_nodup _ _ _ _ _ _ _ Lo) (lo_rows _ _ _ _ _ _ _ Lo)
    G2 G3 eq_refl eq_refl eq_refl) as RR.
  unfold S. rewrite (rest_state s hF h' o) by lia.
  apply RR; [|done]. split; [done|]. pose proof (zlen_nonneg ds'). lia.
Qed.

Lemma block_delete_ok s d : Ok s d -> exists s', block_delete s = Some s' /\ Cok s' (d_block_delete d).
Proof.
  intros (R & Hd & Hrow). assert (Hs : exists s', block_delete s = Some s' /\ Rb true s' (d_block_delete d));
    [|destruct Hs as (s' & E & R'); exists s'; split; [done|split; [done|by apply doc_block_delete]]].
  destruct R as (us & c & ds & dl & R). destruct (blk d) as [b0|] eqn:Hb.
  2: { pose proof (rp_blk R) as Hbr. unfold blk_rep in Hbr. rewrite Hb in Hbr. unfold block_delete, d_block_delete, has_block_selection.
       destruct Hbr as [-> _]. rewrite Hb. exists s. split; [done|]. by exists us, c, ds, dl. }
  destruct (setup_ok _ _ _ _ _ _ _ R Hb) as (Ebe & Hbl & Ebln).
  unfold block_delete, has_block_selection. rewrite Ebln. replace (0 <=? b0) with true by lia. cbn [negb]. rewrite Ebe.
  pose proof (rep_lastl _ _ _ _ _ _ _ _ _ R) as [Ec El]. pose proof (zlen_nonneg us). pose proof (zlen_nonneg ds).
  set (i := blk_begin b0 d) in *. set (j := blk_end b0 d) in *.
  assert (Hij : 0 <= i <= j /\ j < zlen (us ++ c :: ds) /\ i <= zlen us)
    by (unfold i, j, blk_begin, blk_end; rewrite zlen_app, zlen_cons; lia).
  destruct (block_parts (us ++ c :: ds) i j) as (A & B & D & pb & rb & pe & re & B1 & B2 & EL & EB1 & EB2 & HA & HB & Epb & Epe & EtA & EtD); [lia|lia|].
  pose proof (rp_seg R) as Hseg. pose proof (rp_nodup R) as Hnd. pose proof (rp_rows R) as Hrows. rewrite Epb, Epe, EL in *.
  assert (Egb : heap s !! pb = Some (cell (last_ptr None A) (head_ptr (B1 ++ D) None) rb)).
  { apply (dseg_lookup _ _ _ _ A pb rb (B1 ++ D) Hseg). by rewrite EB1. }
  assert (Ege : heap s !! pe = Some (cell (last_ptr None (A ++ B2)) (head_ptr D None) re)).
  { apply (dseg_lookup _ _ _ _ (A ++ B2) pe re D Hseg). rewrite EB2. by rewrite <- !app_assoc. }
  rewrite (get_some _ _ _ Egb), (get_some _ _ _ Ege). cbn [mbind option_bind cell prev next].
  assert (HBne : B <> []) by (by rewrite EB1).
  destruct (unlink_block_ok s A B D Hnd Hseg HBne) as (h & -> & Hs1 & F1). cbn [mbind option_bind].
  rewrite <- EL in *. apply (block_core_ok s us c ds dl d b0 A B D B1 B2 pb rb pe re h); try done.
  - rewrite (rp_currln R), HB. unfold i, j, blk_begin, blk_end. rewrite Ec. lia.
  - by rewrite (rep_lines _ _ _ _ _ _ _ _ _ R).
  - by rewrite (rep_lines _ _ _ _ _ _ _ _ _ R).
Qed.

End Blocks.
End EditBlocks.
