(* ===== verification/EditColor.v ===== *)
(** Blocks of lines whose escape codes are written out: [block_color]. *)

From stdpp Require Import gmap.
From S2P Require Import Prelude Cstr Str Mbs MbsProps Edit EditText EditHeap EditRep EditPos EditList EditSplit EditJoin EditChars EditInsert EditMoves EditCmds EditDelete EditBlocks.

#[global] Open Scope Z_scope.
#[global] Open Scope list_scope.

Module EditColor.
Import Cstr Str Mbs MbsProps Edit EditText EditHeap EditRep EditPos EditList EditSplit EditJoin EditChars EditInsert EditMoves EditCmds EditDelete EditBlocks.

Ltac leb_cases :=
  repeat match goal with |- context [(?x <=? ?y)%nat] => destruct (Nat.leb_spec x y) end; cbn [andb]; try done; lia.

Section Color.
Context `{LibcOk} {C : Type} `{MbShort C}.
Implicit Types (us ds a b : list node) (c : node) (dl : option node) (d : doc) (t : list Z).

Lemma color_loop_len fuel : forall t, length (color_loop fuel t) = length t.
Proof.
  induction fuel as [|fuel IH]; intros [|x [|y t]]; cbn [color_loop]; try done.
  destruct ((x =? 42) && (y =? 91)); cbn [length]; by rewrite IH.
Qed.

Lemma color_loop_chars fuel : forall t, text_chars t -> text_chars (color_loop fuel t).
Proof.
  induction fuel as [|fuel IH]; intros [|x [|y t]] Ht; cbn [color_loop]; try done.
  inversion Ht as [|? ? Hx Ht']. inversion Ht' as [|? ? Hy Ht2]. destruct ((x =? 42) && (y =? 91)).
  - repeat constructor; try done. by apply IH.
  - constructor; [done|]. by apply IH.
Qed.

Lemma color_len t : zlen (transform_to_color t) = zlen t.
Proof. unfold zlen, transform_to_color. by rewrite color_loop_len. Qed.
Lemma color_line t : line_ok t -> line_ok (transform_to_color t).
Proof. intros [? ?]. split; [by apply color_loop_chars|by rewrite color_len]. Qed.

(** The lines [i] to [j] of a list that starts at the line [k]. *)
Definition paint {A} (f : A -> A) (i j k : nat) (x : A) : A := if ((i <=? k) && (k <=? j))%nat then f x else x.
Definition paints {A} (f : A -> A) (i j k : nat) (l : list A) : list A := imap (fun m => paint f i j (k + m)) l.
Definition paint_row (x : node) : node := (x.1, Row (transform_to_color (txt x.2)) (slack x.2)).

Lemma paints_lookup {A} (f : A -> A) i j k l m : paints f i j k l !! m = paint f i j (k + m) <$> l !! m.
Proof. unfold paints. by rewrite list_lookup_imap. Qed.

Lemma paints_app {A} (f : A -> A) i j k l x l' :
  paints f i j k (l ++ x :: l') = paints f i j k l ++ paint f i j (k + length l) x :: paints f i j (k + length l + 1) l'.
Proof.
  unfold paints. rewrite imap_app. cbn [imap]. rewrite Nat.add_0_r. do 2 f_equal.
  apply imap_ext. intros m y _. cbn. f_equal. lia.
Qed.

Lemma paints_step {A} (f : A -> A) i j k l : (i < j)%nat -> paints f (S i) j k (paints f i i k l) = paints f i j k l.
Proof.
  intros Hij. apply list_eq. intros m. rewrite !paints_lookup. destruct (l !! m) as [x|]; [|done]. cbn. f_equal. unfold paint. leb_cases.
Qed.

Lemma paint_step {A} (f : A -> A) i j k x : (i < j)%nat -> paint f (S i) j k (paint f i i k x) = paint f i j k x.
Proof. intros Hij. unfold paint. leb_cases. Qed.

Lemma paint_ptr i j k x : (paint paint_row i j k x).1 = x.1.
Proof. unfold paint. by case_match. Qed.

Lemma paints_ptrs i j k us : ptrs (paints paint_row i j k us) = ptrs us.
Proof.
  unfold ptrs. apply list_eq. intros m. rewrite !list_lookup_fmap, paints_lookup. destruct (us !! m); [|done]. cbn. by rewrite paint_ptr.
Qed.

Lemma paints_length {A} (f : A -> A) i j k l : length (paints f i j k l) = length l.
Proof. apply length_imap. Qed.

Lemma paint_text i j k x : txt (paint paint_row i j k x).2 = paint transform_to_color i j k (txt x.2).
Proof. unfold paint. by case_match. Qed.

Lemma paints_texts i j k us : texts (paints paint_row i j k us) = paints transform_to_color i j k (texts us).
Proof.
  unfold texts. apply list_eq. intros m. rewrite list_lookup_fmap, !paints_lookup, list_lookup_fmap.
  destruct (us !! m); [|done]. cbn. f_equal. apply paint_text.
Qed.

Lemma paint_one i us : forall (x : node), us !! i = Some x ->
  exists a b, us = a ++ x :: b /\ paints paint_row i i 0 us = a ++ paint_row x :: b /\ length a = i.
Proof.
  intros x Hx. apply list_elem_of_split_length in Hx as (a & b & -> & ->). exists a, b. split; [done|]. split; [|done].
  rewrite paints_app. cbn. assert (E : forall l k, (forall m, m < length l -> k + m <> length a)%nat -> paints paint_row (length a) (length a) k l = l).
  { intros l k Hk. apply list_eq. intros m. rewrite paints_lookup. destruct (l !! m) as [y|] eqn:Ey; [|done]. cbn. f_equal.
    apply lookup_lt_Some in Ey. specialize (Hk _ Ey). unfold paint. leb_cases. }
  rewrite !E by lia. unfold paint. by rewrite !Nat.leb_refl.
Qed.

Definition painted (i j : nat) us c ds d : doc :=
  w_text (texts (paints paint_row i j 0 us)) (txt (paint paint_row i j (length us) c).2)
    (texts (paints paint_row i j (length us + 1) ds)) d.

Lemma color_step_ok i s us c ds dl d p r : rep None true 0 s us c ds dl d -> (us ++ c :: ds) !! i = Some (p, r) ->
  exists s', (t ← get (Some p) s; b ← c_str (data t) 0; upd_data (Some p) (fun x => mem_write x 0 (transform_to_color b)) s) = Some s' /\
    rep None true 0 s' (paints paint_row i i 0 us) (paint paint_row i i (length us) c) (paints paint_row i i (length us + 1) ds) dl
      (painted i i us c ds d).
Proof.
  intros R Hi. destruct (paint_one _ _ _ Hi) as (a & b & El & El' & _).
  assert (Hok : row_ok r) by (pose proof (list.Forall_lookup_1 _ _ _ _ (rp_rows R) Hi) as Hr; by apply Hr).
  pose proof (rp_seg R) as Hs. pose proof (dseg_lookup _ _ _ _ _ _ _ _ Hs El) as Hp.
  rewrite (get_some _ _ _ Hp). cbn [mbind option_bind]. rewrite cell_c_str by done. cbn [mbind option_bind].
  unfold upd_data. rewrite (get_some _ _ _ Hp). cbn [mbind option_bind cell data prev next len alloc_len].
  assert (Ew : mem_write (txt r ++ 0 :: slack r) 0 (transform_to_color (txt r)) = Some (transform_to_color (txt r) ++ 0 :: slack r)).
  { unfold mem_write. rewrite color_len, zlen_app. pose proof (zlen_nonneg (txt r)). pose proof (zlen_nonneg (0 :: slack r)).
    replace ((0 <=? 0) && _) with true by lia. f_equal. cbn. rewrite Z.add_0_l. by rewrite drop_zlen_app. }
  rewrite Ew. cbn [mbind option_bind]. rewrite (put_some _ _ _ _ Hp). eexists. split; [reflexivity|].
  rewrite paints_app in El'. cbn [Nat.add] in El'.
  replace (Textline _ _ _ _ _) with (cell (last_ptr None a) (head_ptr b None) (Row (transform_to_color (txt r)) (slack r)))
    by (unfold cell; cbn [txt slack]; by rewrite color_len).
  apply (rep_edit_at _ _ _ _ us c ds dl d a p r b); try done; [by apply paints_length|].
  destruct Hok. split; [by apply color_loop_chars|cbn; by rewrite color_len].
Qed.

Lemma color_ok n : forall fuel i j s us c ds dl d, rep None true 0 s us c ds dl d -> j = (i + n)%nat ->
  (j < length (us ++ c :: ds))%nat -> (n < fuel)%nat ->
  exists s', block_color_loop fuel (ptrs (us ++ c :: ds) !! i) (ptrs (us ++ c :: ds) !! j) s = Some s' /\
    rep None true 0 s' (paints paint_row i j 0 us) (paint paint_row i j (length us) c) (paints paint_row i j (length us + 1) ds) dl
      (painted i j us c ds d).
Proof.
  induction n as [|n IH]; intros fuel i j s us c ds dl d R Hj Hl Hf; (destruct fuel as [|fuel]; [lia|]).
  - rewrite Nat.add_0_r in Hj. subst j. destruct (lookup_lt_is_Some_2 _ _ Hl) as [[p r] Hi].
    assert (Ep : ptrs (us ++ c :: ds) !! i = Some p) by (unfold ptrs; by rewrite list_lookup_fmap, Hi).
    destruct (color_step_ok i s us c ds dl d p r R Hi) as (s' & E & R'). rewrite Ep. cbn [block_color_loop].
    destruct (get (Some p) s) as [t|]; [|done]. cbn [mbind option_bind] in *. destruct (c_str (data t) 0); [|done]. cbn [mbind option_bind] in *.
    rewrite E. cbn [mbind option_bind]. rewrite bool_decide_eq_true_2 by done. by exists s'.
  - destruct (lookup_lt_is_Some_2 (us ++ c :: ds) i) as [[p r] Hi]; [lia|].
    assert (Ep : ptrs (us ++ c :: ds) !! i = Some p) by (unfold ptrs; by rewrite list_lookup_fmap, Hi).
    destruct (color_step_ok i s us c ds dl d p r R Hi) as (s' & E & R').
    destruct (node_at _ _ _ _ _ _ _ _ _ _ _ R Ep) as (r0 & _ & _ & Hp).
    assert (Eps : ptrs (paints paint_row i i 0 us ++ paint paint_row i i (length us) c :: paints paint_row i i (length us + 1) ds) = ptrs (us ++ c :: ds)).
    { replace (_ ++ _) with (paints paint_row i i 0 (us ++ c :: ds)) by (by rewrite paints_app). apply paints_ptrs. }
    destruct (IH fuel (S i) j s' _ _ _ _ _ R') as (s2 & E2 & R2); [lia| |lia|].
    { apply (f_equal length) in Eps. rewrite !ptrs_length in Eps. by rewrite Eps. }
    exists s2. rewrite Ep. cbn [block_color_loop]. rewrite (get_some _ _ _ Hp) in *. cbn [mbind option_bind] in *.
    destruct (c_str _ 0); [|done]. cbn [mbind option_bind] in *. rewrite E. cbn [mbind option_bind cell next].
    rewrite bool_decide_eq_false_2.
    2: { rewrite <- Ep. apply ptrs_neq; [apply (rp_nodup R)|lia|lia]. }
    rewrite Eps in E2. split; [done|]. rewrite !paints_length, !paints_step, paint_step in R2 by lia.
    unfold painted in R2. rewrite !paints_length, !paints_step, paint_step in R2 by lia. exact R2.
Qed.

(** *** The command *)

Lemma paint_Z (f : list Z -> list Z) (x y : Z) m t : 0 <= x -> 0 <= y ->
  (if (x <=? Z.of_nat m) && (Z.of_nat m <=? y) then f t else t) = paint f (Z.to_nat x) (Z.to_nat y) m t.
Proof.
  intros Hx Hy. unfold paint. destruct (Z.leb_spec x (Z.of_nat m)), (Z.leb_spec (Z.of_nat m) y); cbn [andb]; leb_cases.
Qed.

Lemma toggle_text d (b0 : Z) : 0 <= b0 -> blk d = Some b0 -> ansi d = false ->
  d_toggle_ansi d =
  let f := paints transform_to_color (Z.to_nat (blk_begin b0 d)) (Z.to_nat (blk_end b0 d)) in
  d_cancel (w_text (f 0%nat (up d)) (paint transform_to_color (Z.to_nat (blk_begin b0 d)) (Z.to_nat (blk_end b0 d)) (length (up d)) (cur d))
    (f (length (up d) + 1)%nat (dn d)) (w_ansi true d)).
Proof.
  intros Hb0 Hb Ha. unfold d_toggle_ansi. rewrite Ha. cbn [negb]. replace (blk (w_ansi true d)) with (Some b0) by done. cbn [ansi w_ansi].
  change (blk_begin b0 (Doc _ _ _ _ _ _ _ _ _ _ _ _ _ _)) with (blk_begin b0 d). change (blk_end b0 (Doc _ _ _ _ _ _ _ _ _ _ _ _ _ _)) with (blk_end b0 d).
  pose proof (zlen_nonneg (up d)). assert (Hi : 0 <= blk_begin b0 d /\ 0 <= blk_end b0 d) by (unfold blk_begin, blk_end, currl; lia).
  destruct Hi as [Hi Hj]. cbn zeta. f_equal. f_equal.
  - apply imap_ext. intros m x _. cbn [Nat.add]. by apply paint_Z.
  - unfold currl, zlen at 1 2. by apply paint_Z.
  - apply imap_ext. intros m x _. rewrite <- paint_Z by done.
    by replace (currl _ + 1 + Z.of_nat m) with (Z.of_nat (length (up d) + 1 + m)) by (unfold currl, zlen; cbn; lia).
Qed.

Lemma doc_toggle d : doc_ok d -> (forall b0 : Z, blk d = Some b0 -> 0 <= b0) -> doc_ok (d_toggle_ansi d).
Proof.
  intros Hd Hb. assert (Hw : doc_ok (w_ansi (negb (ansi d)) d)) by (by destruct Hd).
  destruct (blk d) as [b0|] eqn:E; [|unfold d_toggle_ansi; cbn; by rewrite E].
  destruct (ansi d) eqn:Ea; [unfold d_toggle_ansi; cbn; by rewrite E, Ea|].
  rewrite (toggle_text d b0) by (by try apply Hb). cbn zeta. apply doc_w_blk.
  assert (Hp : forall f i j k l, (forall t, line_ok t -> line_ok (f t)) -> Forall line_ok l -> Forall line_ok (paints f i j k l)).
  { intros f i j k l Hf Hl. apply List.Forall_forall. intros x Hx%list_elem_of_In. apply list_elem_of_lookup in Hx as (m & Hm).
    rewrite paints_lookup in Hm. destruct (l !! m) as [y|] eqn:Ey; [|done]. injection Hm as <-.
    pose proof (list.Forall_lookup_1 _ _ _ _ Hl Ey). unfold paint. case_match; [by apply Hf|done]. }
  set (t := paint _ _ _ _ (cur d)). assert (Ht : line_ok t /\ zlen t = zlen (cur d)).
  { unfold t, paint. case_match; [split; [by apply color_line, doc_ok_cur|apply color_len]|split; [by apply doc_ok_cur|done]]. }
  destruct Ht as [[Htc _] Htl]. destruct Hd. constructor; cbn; try done; [by apply Hp; [apply color_line|]..|lia|lia].
Qed.

Lemma toggle_ansi_ok s d : Ok s d -> exists s', edit_cmd_toggle_ansi s = Some s' /\ Cok s' (d_toggle_ansi d).
Proof.
  intros (R & Hd & _). destruct R as (us & c & ds & dl & R). unfold edit_cmd_toggle_ansi.
  assert (Hbk : forall b0 : Z, blk d = Some b0 -> 0 <= b0) by (intros b0 E; pose proof (rp_blk R) as Hb; rewrite E in Hb; by destruct Hb).
  assert (Ehas : has_block_selection s = bool_decide (blk d <> None))
    by (rewrite (rep_has_block _ _ _ _ _ _ _ _ _ R); by destruct (blk d)).
  assert (R1 : rep None true 0 (set_ansimode (negb (ansi d)) s) us c ds dl (w_ansi (negb (ansi d)) d)) by (destruct R; by constructor).
  rewrite (rp_ansi R). set (s1 := set_ansimode _ s) in *.
  change (has_block_selection s1) with (has_block_selection s). change (ansimode s1) with (negb (ansi d)). rewrite Ehas.
  assert (Hgoal : exists s', (if negb (ansi d) && bool_decide (blk d <> None) then block_color s1 else Some s1) = Some s' /\ Rb true s' (d_toggle_ansi d));
    [|destruct Hgoal as (s' & -> & R'); eexists; split; [reflexivity|]; apply redraw_Cok; split; [done|by apply doc_toggle]].
  clearbody s1. destruct (blk d) as [b0|] eqn:Hb.
  2: { rewrite andb_false_r. exists s1. split; [done|]. unfold d_toggle_ansi. cbn. rewrite Hb. by exists us, c, ds, dl. }
  destruct (ansi d) eqn:Ha; cbn [negb andb] in *.
  { exists s1. split; [done|]. unfold d_toggle_ansi. cbn. rewrite Hb, Ha. by exists us, c, ds, dl. }
  rewrite bool_decide_eq_true_2 by done. rewrite (toggle_text d b0) by auto. cbn zeta.
  destruct (setup_ok _ _ _ _ _ _ b0 R1 Hb) as (Ebe & Hbl & _). unfold block_color. rewrite Ebe.
  change (blk_begin b0 (w_ansi true d)) with (blk_begin b0 d). change (blk_end b0 (w_ansi true d)) with (blk_end b0 d).
  pose proof (rep_lastl _ _ _ _ _ _ _ _ _ R) as [Ec El]. change (lastl (w_ansi true d)) with (lastl d) in Hbl. pose proof (zlen_nonneg us). pose proof (zlen_nonneg ds).
  set (i := Z.to_nat (blk_begin b0 d)). set (j := Z.to_nat (blk_end b0 d)).
  assert (Hij : (i <= j < length (us ++ c :: ds))%nat).
  { unfold i, j, blk_begin, blk_end. rewrite length_app. cbn. unfold zlen in *. lia. }
  destruct (color_ok (j - i) (line_fuel s1) i j s1 us c ds dl _ R1) as (s2 & -> & R2); [lia|lia| |].
  { unfold line_fuel. pose proof (heap_size _ _ _ _ _ _ _ _ _ R1). lia. }
  cbn [mbind option_bind]. eexists. split; [reflexivity|]. apply rep_cancel in R2.
  unfold painted in R2. rewrite !paints_texts, paint_text in R2. rewrite <- (rp_curt R), <- (rp_up R), <- (rp_dn R) in R2.
  replace (length us) with (length (up d)) in R2 by (rewrite (rp_up R); unfold texts; by rewrite length_map).
  eexists _, _, _, dl. exact R2.
Qed.

End Color.
End EditColor.
