(* ===== verification/EditSession.v ===== *)
(** The turns of the loop of [vedit2]: the health check, the lines that are left,
    the key, and the window that follows the cursor. *)

From stdpp Require Import gmap.
From S2P Require Import Prelude Cstr Str Mbs MbsProps Edit EditText EditHeap EditRep EditPos EditList EditSplit EditJoin EditChars EditInsert EditMoves EditCmds EditDelete EditBlocks EditColor.

#[global] Open Scope Z_scope.
#[global] Open Scope list_scope.

Module EditSession.
Import Cstr Str Mbs MbsProps Edit EditText EditHeap EditRep EditPos EditList EditSplit EditJoin EditChars EditInsert EditMoves EditCmds EditDelete EditBlocks EditColor.

Section Session.
Context `{LibcOk} {C : Type} `{MbShort C}.
Variable wc : Z -> Z.
Hypothesis wc_le : forall u, wc u <= 2.
Implicit Types (us ds a b : list node) (c : node) (dl : option node) (d : doc) (t : list Z).

(** Between two turns the cursor is in the window. *)
Definition Sok (s : editor) (d : doc) : Prop := Ok s d /\ row d < height d.

(** *** The health check *)

Lemma check_walk_ok ex bx k s us c ds dl d chk n : rep ex bx k s us c ds dl d -> forall i, (i + n < length (us ++ c :: ds))%nat ->
  check_walk chk n (ptrs (us ++ c :: ds) !! i) s = Some (ptrs (us ++ c :: ds) !! (i + n)%nat).
Proof.
  intros R. induction n as [|n IH]; intros i Hi; cbn [check_walk]; [by rewrite Nat.add_0_r|].
  destruct (ptrs (us ++ c :: ds) !! i) as [q|] eqn:E; [|apply lookup_ge_None in E; rewrite ptrs_length in E; lia].
  assert (Hc : (if chk then edit_buffer_check_healthy (Some q) s else Some tt) = Some tt).
  { destruct chk; [|done]. apply (healthy_ok _ _ _ _ _ _ _ _ _ _ R). by apply list_elem_of_lookup_2 with i. }
  rewrite Hc. cbn [mbind option_bind]. destruct (node_at _ _ _ _ _ _ _ _ _ _ _ R E) as (r & _ & _ & Hq).
  rewrite (get_some _ _ _ Hq). cbn [mbind option_bind cell next]. rewrite IH by lia. do 2 f_equal. lia.
Qed.

Lemma deleted_ok s us c ds dl d : rep None true 0 s us c ds dl d ->
  match deleted_line s with
  | None => Some tt
  | Some x =>
      _ ← edit_buffer_check_healthy (Some x) s;
      t ← get (Some x) s;
      _ ← assert (bool_decide (next t = None));
      _ ← assert (bool_decide (prev t = None));
      _ ← assert (bool_decide (Some x <> firstline s));
      _ ← assert (bool_decide (Some x <> lastline s));
      _ ← assert (bool_decide (Some x <> currline s));
      _ ← assert (bool_decide (Some x <> blockline s));
      assert (bool_decide (Some x <> top_of_win s))
  end = Some tt.
Proof.
  intros R. pose proof (rp_del R) as Hd. unfold del_rep in Hd. destruct dl as [[p r]|]; [|by rewrite Hd].
  destruct Hd as (-> & Hp & Hn & [Hch Hlen]). unfold edit_buffer_check_healthy. rewrite (get_some _ _ _ Hp).
  cbn [mbind option_bind cell prev next len data]. unfold assert. pose proof (zlen_nonneg (txt r)).
  replace (0 <=? zlen (txt r)) with true by lia. replace (zlen (txt r) <=? WRAPMARGIN) with true by lia. cbn [mbind option_bind].
  rewrite c_str_at by (by apply text_c_string). cbn [mbind option_bind]. rewrite Z.eqb_refl, (bool_decide_eq_true_2 (None = None)) by done. cbn [mbind option_bind].
  assert (Hne : forall o, (forall x, o = Some x -> x ∈ ptrs (us ++ c :: ds)) -> Some p <> o) by (intros o Ho <-; by apply Hn, Ho).
  assert (Hl : forall i x, ptrs (us ++ c :: ds) !! i = Some x -> x ∈ ptrs (us ++ c :: ds)) by (intros i x; apply list_elem_of_lookup_2).
  rewrite (rp_first R), (rp_last R), (rp_cur R), (rp_top R), head_ptr_ptrs, last_ptr_lookup.
  rewrite !bool_decide_eq_true_2; [done|..]; apply Hne; intros x; try apply Hl.
  - intros [= <-]. apply Hl with (length us). apply ptr_cur.
  - pose proof (rp_blk R) as Hb. unfold blk_rep in Hb. destruct (blk d); [|by destruct Hb as [_ ->]].
    destruct Hb as (_ & _ & q & -> & Hq & _). by intros [= <-].
Qed.

Lemma blockline_ok s us c ds dl d : rep None true 0 s us c ds dl d ->
  (_ ← assert ((blockln s <? 0) || bool_decide (blockline s <> None));
   match blockline s with
   | None => Some tt
   | Some _ =>
       _ ← edit_buffer_check_healthy (blockline s) s;
       p ← check_walk false (Z.to_nat (blockln s)) (firstline s) s;
       assert (bool_decide (p = blockline s))
   end) = Some tt.
Proof.
  intros R. pose proof (rp_blk R) as Hb. unfold blk_rep in Hb. destruct (blk d) as [i|]; [|by destruct Hb as [-> ->]].
  destruct Hb as (Hi & -> & q & -> & Hq & Hx). specialize (Hx eq_refl).
  rewrite bool_decide_eq_true_2 by done. rewrite orb_true_r. cbn [assert mbind option_bind].
  rewrite (healthy_ok _ _ _ _ _ _ _ _ _ _ R Hq). cbn [mbind option_bind].
  rewrite (rp_first R), head_ptr_ptrs, (check_walk_ok _ _ _ _ _ _ _ _ _ false _ R).
  - cbn [Nat.add mbind option_bind]. by rewrite bool_decide_eq_true_2.
  - apply lookup_lt_Some in Hx. rewrite ptrs_length in Hx. lia.
Qed.

Lemma healthy_at s us c ds dl d i : rep None true 0 s us c ds dl d -> (i < length (us ++ c :: ds))%nat ->
  edit_buffer_check_healthy (ptrs (us ++ c :: ds) !! i) s = Some tt.
Proof.
  intros R Hi. destruct (ptrs (us ++ c :: ds) !! i) as [q|] eqn:E; [|apply lookup_ge_None in E; rewrite ptrs_length in E; lia].
  apply (healthy_ok _ _ _ _ _ _ _ _ _ _ R). by apply list_elem_of_lookup_2 with i.
Qed.

(** Every assertion holds, but the one on the row of the cursor. *)
Lemma health_eq s d : Ok s d -> edit_check_healthy s = if row d <? height d then Some tt else None.
Proof.
  intros ((us & c & ds & dl & R) & Hd & Hr). set (L := us ++ c :: ds). pose proof (rp_row R) as Hrow.
  assert (EL : length L = (length us + S (length ds))%nat) by (unfold L; rewrite length_app; done).
  assert (Ef : firstline s = ptrs L !! 0%nat) by (rewrite (rp_first R); apply head_ptr_ptrs).
  assert (Ela : lastline s = ptrs L !! pred (length L)) by (rewrite (rp_last R); apply last_ptr_lookup).
  assert (Ec : currline s = ptrs L !! length us) by (rewrite (rp_cur R); symmetry; apply ptr_cur).
  assert (Hg : forall i, (i < length L)%nat -> exists r, get (ptrs L !! i) s = Some (cell (prev_ix (ptrs L) i) (ptrs L !! S i) r)).
  { intros i Hi. destruct (ptrs L !! i) as [q|] eqn:E; [|apply lookup_ge_None in E; rewrite ptrs_length in E; lia].
    destruct (node_at _ _ _ _ _ _ _ _ _ _ _ R E) as (r & _ & _ & Hq). by exists r. }
  assert (Hh1 : edit_buffer_check_healthy (firstline s) s = Some tt) by (rewrite Ef; apply (healthy_at _ _ _ _ _ _ _ R); fold L; lia).
  assert (Hh2 : edit_buffer_check_healthy (lastline s) s = Some tt) by (rewrite Ela; apply (healthy_at _ _ _ _ _ _ _ R); fold L; lia).
  assert (Hh3 : edit_buffer_check_healthy (currline s) s = Some tt) by (rewrite Ec; apply (healthy_at _ _ _ _ _ _ _ R); fold L; lia).
  destruct (Hg 0%nat) as (r0 & G1); [lia|]. rewrite <- Ef in G1. destruct (Hg (pred (length L))) as (r1 & G2); [lia|]. rewrite <- Ela in G2.
  assert (Ho : match oldcurrline s with Some _ => edit_buffer_check_healthy (oldcurrline s) s | None => Some tt end = Some tt).
  { destruct (oldcurrline s) as [o|] eqn:Eo; [|done]. apply (healthy_ok _ _ _ _ _ _ _ _ _ _ R). by apply (rp_old R). }
  assert (W : forall chk i n, (i + n < length L)%nat -> check_walk chk n (ptrs L !! i) s = Some (ptrs L !! (i + n)%nat)) by (intros chk i n; apply check_walk_ok with (1 := R)).
  assert (W1 : check_walk true (Z.to_nat (currln s)) (firstline s) s = Some (currline s)).
  { rewrite Ef, Ec, (rp_currln R), W by (unfold zlen; lia). do 2 f_equal. unfold zlen. lia. }
  assert (W2 : check_walk true (Z.to_nat (totaln s - currln s)) (currline s) s = Some (lastline s)).
  { rewrite Ec, Ela, (rp_totaln R), (rp_currln R), W by (unfold zlen; lia). do 2 f_equal. unfold zlen. lia. }
  assert (W3 : check_walk false (Z.to_nat (curr_window_line s)) (top_of_win s) s = Some (currline s)).
  { rewrite (rp_top R), Ec, (rp_winln R). fold L. rewrite W by (unfold zlen in *; lia). do 2 f_equal. unfold zlen in *. lia. }
  assert (G3 := rep_get_cur _ _ _ _ _ _ _ _ _ R).
  unfold edit_check_healthy. rewrite Hh1, G1. cbn [mbind option_bind cell prev prev_ix]. rewrite (bool_decide_eq_true_2 (None = None)) by done.
  cbn [assert mbind option_bind]. rewrite Hh2, G2. cbn [mbind option_bind cell next].
  rewrite (bool_decide_eq_true_2 (ptrs L !! S (pred (length L)) = None)) by (apply lookup_ge_None; rewrite ptrs_length; lia). cbn [assert mbind option_bind].
  rewrite Ho, Hh3, G3. cbn [mbind option_bind cell len]. pose proof (ok_pnt _ _ Hd). unfold assert at 1.
  rewrite (rp_pnt R), <- (rp_curt R). replace ((0 <=? pnt d) && (pnt d <=? zlen (cur d))) with true by lia. cbn [mbind option_bind].
  rewrite (deleted_ok _ _ _ _ _ _ R). cbn [mbind option_bind]. unfold assert at 1 2 3.
  pose proof (zlen_nonneg us). pose proof (zlen_nonneg ds). rewrite (rep_height _ _ _ _ _ _ _ _ _ R) by (by apply doc_height with (1 := Hd)).
  replace (0 <=? currln s) with true by (rewrite (rp_currln R); lia).
  replace (currln s <=? totaln s) with true by (rewrite (rp_totaln R), (rp_currln R); lia).
  replace (curr_window_line s <? height d) with (row d <? height d) by (rewrite (rp_winln R); lia). cbn [mbind option_bind].
  destruct (row d <? height d); [|done]. cbn [mbind option_bind]. rewrite W1. cbn [mbind option_bind]. rewrite (bool_decide_eq_true_2 (currline s = currline s)) by done. cbn [assert mbind option_bind].
  rewrite W2. cbn [mbind option_bind]. rewrite (bool_decide_eq_true_2 (lastline s = lastline s)) by done. cbn [assert mbind option_bind].
  rewrite W3. cbn [mbind option_bind]. rewrite (bool_decide_eq_true_2 (currline s = currline s)) by done. cbn [mbind option_bind].
  apply (blockline_ok _ _ _ _ _ _ R).
Qed.

Lemma health_ok s d : Sok s d -> edit_check_healthy s = Some tt.
Proof. intros [Ho Hh]. rewrite (health_eq _ _ Ho). by replace (row d <? height d) with true by lia. Qed.

(** *** The window *)

(** The cursor does not leave the window. *)
Definition steady d (d' : doc) : Prop := height d' = height d /\ (1 <= height d -> row d < height d -> row d' < height d').

#[export] Instance steady_preorder : PreOrder steady.
Proof.
  split; [by intros d|]. intros x y z [E1 H1'] [E2 H2']. split; [congruence|]. intros Hh Hr. apply H2'; [lia|by apply H1'].
Qed.

Lemma steady_same d (d' : doc) : phone d' = phone d -> rows d' = rows d -> row d' = row d -> steady d d'.
Proof. intros E1 E2 E3. unfold steady, height. by rewrite E1, E2, E3. Qed.

Lemma steady_adjust d (d' : doc) : phone d' = phone d -> rows d' = rows d -> steady d (d_adjust d').
Proof.
  intros E1 E2. assert (Eh : height d' = height d) by (unfold height; by rewrite E1, E2).
  split; [done|]. intros Hh _. unfold d_adjust. change (height (w_row _ d')) with (height d'). cbn [row w_row]. case_if E0; [lia|]. case_if E3; lia.
Qed.

Lemma steady_split p n d : steady d (d_split (C := C) p n d).
Proof. unfold d_split. case_match; [done|]. case_match; [by apply steady_adjust|by apply steady_same]. Qed.

Lemma steady_wrap_space above ww extra d : steady d (d_wrap_space above ww extra d).
Proof. rewrite d_wrap_space_eq. destruct above; [by apply steady_same|]. destruct (dn d); by apply steady_same. Qed.

Lemma steady_raw ch d : steady d (d_raw_insert (C := C) ch d).
Proof.
  unfold d_raw_insert. assert (E : steady d (d_put ch (d_cancel d))) by (by apply steady_same). case_match; [exact E|].
  destruct (wrap_cut _) as [ww p]. etrans; [exact E|]. etrans; [apply steady_split|apply steady_wrap_space].
Qed.

Lemma steady_pad x y d : steady d (d_pad (C := C) x y d).
Proof. unfold d_pad. case_match; [|done]. etrans; [apply (steady_raw 32)|by apply steady_same]. Qed.

Lemma steady_ansi_fix d : steady d (d_ansi_fix (C := C) wc d).
Proof. unfold d_ansi_fix. by destruct (ansi d); apply steady_same. Qed.

Lemma steady_del d : steady d (d_del_currchar (C := C) wc d).1.
Proof.
  unfold d_del_currchar. etrans; [apply steady_ansi_fix|]. set (d1 := d_ansi_fix wc d).
  destruct (zlen (cur d1) <=? pnt d1); [done|]. by destruct (mbcs d1); apply steady_same.
Qed.

Lemma steady_char ch d : steady d (d_insert_char (C := C) wc ch d).
Proof.
  unfold d_insert_char. set (x := if ins d then _ else _). assert (E : steady d x.1) by (unfold x; destruct (ins d); [done|apply steady_del]).
  destruct x as [d1 w]. cbn [fst] in E. etrans; [exact E|]. case_match; [apply steady_raw|].
  etrans; [apply (steady_raw ch)|]. etrans; [|apply steady_ansi_fix]. apply steady_pad.
Qed.

Lemma steady_fix_in d : steady d (d_fix_in (C := C) d).
Proof. unfold d_fix_in. by case_match; apply steady_same. Qed.

Lemma steady_dchar_split w d : steady d (d_dchar_split (C := C) w d).
Proof.
  unfold d_dchar_split. case_match; [done|]. destruct (dchar_cut w d) as [ww p]. etrans; [apply (steady_split p 0)|].
  etrans; [|apply steady_fix_in]. apply steady_wrap_space.
Qed.

Lemma steady_bytes bs : forall d, steady d (d_insert_bytes (C := C) bs d).
Proof. induction bs as [|x bs IH]; intros d; [done|]. etrans; [apply (steady_raw x)|]. apply IH. Qed.

Lemma steady_repeat n (f : doc -> doc) : (forall d, steady d (f d)) -> forall d, steady d (d_repeat n f d).
Proof. intros Hf. induction n as [|n IH]; intros d; [done|]. etrans; [apply Hf|]. apply IH. Qed.

Lemma steady_overwrite t w d : steady d (d_dchar_overwrite (C := C) wc t w d).1.
Proof.
  unfold d_dchar_overwrite. destruct (ins d); [done|]. destruct (mbcs d); cbn [negb].
  2: { apply steady_repeat. intros d0. apply steady_del. }
  pose proof (steady_del d) as E. destruct (d_del_currchar wc d) as [d1 w1]. cbn [fst] in E. etrans; [exact E|].
  case_match; [|done]. pose proof (steady_del d1) as E1. by destruct (d_del_currchar wc d1).
Qed.

Lemma steady_dchar t d : steady d (d_insert_dchar (C := C) wc t d).
Proof.
  unfold d_insert_dchar. pose proof (steady_overwrite t (bytes_of (C := C) t) d) as E.
  destruct (d_dchar_overwrite wc t _ d) as [d1 w]. cbn [fst] in E. etrans; [exact E|]. set (d2 := d_insert_bytes _ _).
  assert (E2 : steady d1 d2) by (etrans; [apply steady_fix_in|]; etrans; [apply steady_dchar_split|]; apply steady_bytes).
  case_match; [exact E2|]. etrans; [exact E2|]. etrans; [|apply steady_ansi_fix]. apply steady_pad.
Qed.

(** *** Keys *)

(** What the editor can take in the state [d].  Left out are the inputs that make
    the code fail: while overwriting, characters in a line with fewer than six free places; a
    click on the bar of symbols; a character when the terminal has become too small for the
    cursor; and with them inserting a file and shifting right while overwriting.  A tab is
    taken when each of its spaces is, and they come to a stop. *)
Definition text_b (t : list Z) : bool := forallb (fun x => (1 <=? x) && (x <? 256)) t.
Definition plain_b (t : list Z) : bool := text_b t && forallb (fun x => negb (x =? 9)) t.
Definition room_b (d : doc) : bool := ins d || (zlen (cur d) <=? WRAPMARGIN - 6).
Fixpoint tab_takes (fuel : nat) (d : doc) : bool :=
  match fuel with
  | O => false
  | S fuel => room_b d && let d := d_insert_char (C := C) wc 32 d in at_tab (C := C) wc d || tab_takes fuel d
  end.
Definition tab_stops (d : doc) : bool := tab_takes 1024 d.

Definition can_run (c : command) (d : doc) : Prop :=
  match c with
  | Cmd_tab => tab_stops d = true
  | Cmd_esc_char => room d
  | Cmd_shift_right => ins d = true
  | Cmd_read bufs => ins d = true /\ Forall plain bufs
  | _ => True
  end.

Fixpoint can_take (k : input) (d : doc) : Prop :=
  match k with
  | Key_char mb => row d < height d /\ room d /\ text_chars mb /\ mb <> []
  | Key_mouse x y => 0 <= y < rows d - 1 -> y < height d
  | Key_cmd c => can_run c (w_lind (-1) d)
  | Key_resize r k => 3 <= r /\ can_take k (w_rows r d)
  end.

(** The same, but for the place of the cursor in the window. *)
Fixpoint can_store (k : input) (d : doc) : Prop :=
  match k with
  | Key_char mb => room d /\ text_chars mb /\ mb <> []
  | Key_mouse x y => True
  | Key_cmd c => can_run c (w_lind (-1) d)
  | Key_resize r k => 3 <= r /\ can_store k (w_rows r d)
  end.

(** The same as a test. *)
Definition can_run_b (c : command) (d : doc) : bool :=
  match c with
  | Cmd_tab => tab_stops d
  | Cmd_esc_char => room_b d
  | Cmd_shift_right => ins d
  | Cmd_read bufs => ins d && forallb plain_b bufs
  | _ => true
  end.
Fixpoint can_take_b (k : input) (d : doc) : bool :=
  match k with
  | Key_char mb => (row d <? height d) && room_b d && text_b mb && (0 <? zlen mb)
  | Key_mouse x y => (y <? 0) || (rows d - 1 <=? y) || (y <? height d)
  | Key_cmd c => can_run_b c (w_lind (-1) d)
  | Key_resize r k => (3 <=? r) && can_take_b k (w_rows r d)
  end.

Lemma text_b_ok t : text_b t = true -> text_chars t.
Proof.
  intros Ht. apply List.Forall_forall. intros x Hx. unfold text_b in Ht. rewrite forallb_forall in Ht. specialize (Ht _ Hx).
  unfold is_u8. lia.
Qed.
Lemma plain_b_ok t : plain_b t = true -> plain t.
Proof.
  unfold plain_b. intros [Ht H9]%andb_true_iff. split; [by apply text_b_ok|]. apply List.Forall_forall. intros x Hx.
  rewrite forallb_forall in H9. specialize (H9 _ Hx). lia.
Qed.
Lemma room_b_ok d : room_b d = true -> room d.
Proof. unfold room_b, room. destruct (ins d); [by left|]. intros E. right. lia. Qed.

Lemma plains_b_ok (l : list (list Z)) : forallb plain_b l = true -> Forall plain l.
Proof.
  intros Hb. apply List.Forall_forall. intros t Ht. rewrite forallb_forall in Hb. by apply plain_b_ok, Hb.
Qed.

Lemma can_run_b_ok (x : command) d : can_run_b x d = true -> can_run x d.
Proof.
  destruct x; try done; cbn [can_run_b can_run]; [by apply room_b_ok|]. intros [Hi Hb]%andb_true_iff. split; [done|by apply plains_b_ok].
Qed.

Lemma can_take_b_ok k : forall d, can_take_b k d = true -> can_take k d.
Proof.
  induction k as [mb|x y|x|r k IH]; intros d; cbn [can_take_b can_take].
  - intros [[[Hr Hm]%andb_true_iff Ht]%andb_true_iff Hz]%andb_true_iff. split_and!; [lia|by apply room_b_ok|by apply text_b_ok|].
    intros ->. done.
  - lia.
  - apply can_run_b_ok.
  - intros [Hr Hk]%andb_true_iff. split; [lia|by apply IH].
Qed.

Lemma load_file_ok bufs s d : Ok s d -> ins d = true -> Forall plain bufs ->
  exists s', load_file (C := C) wc bufs s = Some s' /\ Ok s' (d_file (C := C) wc bufs d).
Proof.
  intros Ho Hi Hb. unfold load_file.
  destruct (load_lines_Ok wc wc_le bufs (set_indent_mode false s) (w_ind false d)) as (s' & -> & Ho'); [by apply ind_Ok|done|done|].
  cbn [mbind option_bind]. eexists. split; [reflexivity|]. destruct Ho as [(us & c & ds & dl & R) _]. rewrite (rp_ind R). by apply ind_Ok.
Qed.

Lemma read_ok bufs s d : Ok s d -> ins d = true -> Forall plain bufs -> exists s', read_tmpbuf (C := C) wc bufs s = Some s' /\
  Ok s' (if EDIT_LINE_LIMIT <=? lastl d then d else d_file (C := C) wc bufs d).
Proof.
  intros Ho Hi Hb. pose proof Ho as [(us & c & ds & dl & R) _]. unfold read_tmpbuf.
  rewrite (rp_totaln R), Z.add_0_r. destruct (rep_lastl _ _ _ _ _ _ _ _ _ R) as [_ ->]. case_match; [by exists s|by apply load_file_ok].
Qed.

Lemma cut_delete s : block_cut s = block_delete s.
Proof. unfold block_cut, block_delete. by destruct (has_block_selection s). Qed.

Lemma copy_cancel s : block_copy s = block_cancel s.
Proof. unfold block_copy, block_cancel. by destruct (has_block_selection s). Qed.

Lemma block_mark_ok cut s d : Ok s d -> exists s', edit_cmd_block_mark cut s = Some s' /\ Cok s' (d_command (C := C) wc false (Cmd_block_mark cut) d).
Proof.
  intros Ho. pose proof Ho as [(us & c & ds & dl & R) _]. unfold edit_cmd_block_mark, block_prompt. cbn [d_command].
  rewrite (rep_has_block _ _ _ _ _ _ _ _ _ R). destruct (blk d); [|eexists; split; [reflexivity|by apply mark_Cok, Ok_Cok]].
  destruct cut; [by apply block_delete_ok|]. eexists. split; [reflexivity|]. by apply Ok_Cok, cancel_Ok with true.
Qed.

Lemma tab_loop_ok fuel : forall s d, Ok s d -> tab_takes fuel d = true ->
  exists s', tab_loop (C := C) wc fuel s = Some s' /\ Ok s' (d_tab_loop (C := C) wc fuel d).
Proof.
  induction fuel as [|fuel IH]; intros s d Ho Ht; [done|]. cbn [tab_takes tab_loop d_tab_loop] in *. cbn zeta in *.
  apply andb_true_iff in Ht as [Hr Ht].
  destruct (insert_char_Ok wc wc_le s d 32 Ho (room_b_ok _ Hr)) as (s1 & -> & Ho1); [unfold is_u8; lia|lia|]. cbn [mbind option_bind].
  set (d1 := d_insert_char wc 32 d) in *. pose proof Ho1 as [R1 _]. destruct R1 as (us & c & ds & dl & R).
  assert (Hh : edit_buffer_check_healthy (currline s1) s1 = Some tt).
  { rewrite (rp_cur R), <- (ptr_cur us c ds). apply (healthy_at _ _ _ _ _ _ _ R). rewrite length_app. cbn. lia. }
  rewrite Hh. cbn [mbind option_bind]. assert (Ea : ansimode s1 = ansi d1) by apply R.
  rewrite Ea, (cur_col_ok wc wc_le _ _ _ _ (proj1 Ho1)). cbn [mbind option_bind].
  unfold at_tab in *. case_match; [by exists s1|]. by apply IH.
Qed.

Lemma tab_ok s d : Ok s d -> tab_stops d = true ->
  exists s', insert_tab (C := C) wc s = Some s' /\ Cok s' (d_tab (C := C) wc d).
Proof. intros Ho Ht. destruct (tab_loop_ok 1024 s d Ho Ht) as (s' & E & Ho'). exists s'. split; [exact E|by apply Ok_Cok]. Qed.

Lemma run_command_ok al (x : command) s d : Ok s d -> can_run x d ->
  exists s', run_command (C := C) wc al x s = Some s' /\ Cok s' (d_command (C := C) wc al x d).
Proof.
  intros Ho Hc. pose proof (Ok_Cok _ _ Ho) as Hk. pose proof Ho as [R [Hd _]].
  assert (Hm : insert_mode s = ins d /\ indent_mode s = ind d /\ phone_mode s = phone d /\ mbcs_mode s = mbcs d)
    by (destruct R as (us & z & ds & dl & R); by destruct R).
  destruct Hm as (E1 & E2 & E3 & E4). destruct x; cbn [run_command d_command can_run] in *; try done.
  - by apply tab_ok.
  - by apply enter_ok.
  - by apply left_ok.
  - by apply right_ok.
  - by apply up_ok.
  - by apply down_ok.
  - by apply pgup_ok.
  - by apply pgdn_ok.
  - eexists. split; [reflexivity|]. apply pnt_Cok; [done|]. pose proof (zlen_nonneg (cur d)). lia.
  - by apply end_ok.
  - eexists. split; [reflexivity|]. by apply bof_ok.
  - by apply eof_ok.
  - by apply goto_line_ok.
  - by apply next_word_ok.
  - by apply prev_word_ok.
  - eexists. split; [reflexivity|]. unfold edit_cmd_toggle_insert. rewrite E1. by apply ins_Cok.
  - eexists. split; [reflexivity|]. rewrite E2. by apply ind_Cok.
  - by apply toggle_ansi_ok.
  - eexists. split; [reflexivity|]. rewrite E4. by apply mbcs_Cok.
  - eexists. split; [reflexivity|]. rewrite E3. by apply redraw_Cok, phone_Cok.
  - by apply backspace_ok.
  - by apply delete_key_ok.
  - by apply del_line_ok.
  - by apply del_eol_ok.
  - by apply del_word_ok.
  - destruct (undelete_ok s d Ho) as (s' & q & -> & ?). by exists s'.
  - by apply shift_left_ok.
  - by apply shift_right_ok.
  - by apply insert_Cok.
  - by apply block_mark_ok.
  - eexists. split; [reflexivity|]. by apply Ok_Cok, cancel_Ok with true.
  - eexists. split; [reflexivity|]. rewrite copy_cancel. apply Ok_Cok. by apply cancel_Ok with true.
  - rewrite cut_delete. by apply block_delete_ok.
  - destruct Hc as [Hi Hb]. destruct (read_ok bufs s d Ho Hi Hb) as (s' & -> & ?). cbn [mbind option_bind].
    eexists. split; [reflexivity|]. by apply redraw_Cok, Ok_Cok.
Qed.

(** *** A turn *)

Lemma doc_adjust d : doc_ok d -> doc_ok (d_adjust d).
Proof. apply doc_w_row. Qed.

Lemma settle_ok s d : Cok s d -> exists s',
  (s1 ← edit_window_adjust s; if mbcs_mode s1 then fix_currpnt (C := C) FC_LEFT s1 else Some s1) = Some s' /\
  Sok s' (d_settle (C := C) d).
Proof.
  intros [(us & c & ds & dl & R) Hd]. pose proof (doc_height _ _ Hd) as Hh.
  destruct (edit_window_adjust_ok _ _ _ _ _ _ _ _ _ R Hh) as (s1 & -> & R1). cbn [mbind option_bind].
  destruct (fix_in_Cok s1 (d_adjust d) FC_LEFT) as (s2 & E2 & Hc2); [by split; [exists us, c, ds, dl|apply doc_adjust]|apply (rp_mbcs R1)|].
  exists s2. split; [exact E2|]. unfold d_settle. change (if mbcs d then _ else _) with (if mbcs (d_adjust d) then d_fix (C := C) FC_LEFT (d_adjust d) else d_adjust d).
  assert (Er : forall d', d' = (if mbcs (d_adjust d) then d_fix (C := C) FC_LEFT (d_adjust d) else d_adjust d) -> height d' = height d /\ 0 <= row d' < height d).
  { intros d' ->. assert (E : 0 <= row (d_adjust d) < height d) by (unfold d_adjust; cbn [row w_row]; split_ifs).
    by destruct (mbcs (d_adjust d)). }
  destruct (Er _ eq_refl) as [E3 E4]. destruct Hc2 as [R2 Hd2]. split; [split; [done|split; [done|lia]]|lia].
Qed.

Lemma lind_Ok s d x : Ok s d -> Ok (set_lastindent x s) (w_lind x d).
Proof. intros ((us & c & ds & dl & R) & Hd & Hr). split; [exists us, c, ds, dl; by apply rep_lastindent|split; [by destruct Hd|done]]. Qed.

Lemma insert_key_ok mb s d : Ok s d -> room d -> text_chars mb -> mb <> [] -> exists s',
  (if 1 <? zlen mb then insert_dchar (C := C) wc mb s else insert_char (C := C) wc (cchar mb 0) s) = Some s' /\
  Ok s' (if 1 <? zlen mb then d_insert_dchar (C := C) wc mb d else d_insert_char (C := C) wc (cchar mb 0) d).
Proof.
  intros Ho Hr Ht Hne. case_match; [by apply insert_dchar_Ok|]. destruct Ht as [|x mb [Hx Hx0] _]; [done|].
  rewrite cchar_0. by apply insert_char_Ok.
Qed.

Lemma mouse_row d y x m : 0 <= y < height d -> doc_ok d -> row (d_mouse (C := C) wc y x m d) < height (d_mouse (C := C) wc y x m d).
Proof.
  intros Hy Hd. unfold d_mouse. set (i := Z.min _ _). set (p := pos_of _ _ _ _ _).
  assert (E : row (d_goto i (i - (currl d - row d)) p d) < height d) by (unfold i; cbn; lia).
  by destruct (mbcs (d_goto _ _ _ _)).
Qed.

Lemma mouse_row_nonneg d y x m : 0 <= y -> 0 <= currl d - row d <= lastl d -> 0 <= row (d_mouse (C := C) wc y x m d).
Proof.
  intros Hy Ht. unfold d_mouse. set (i := Z.min _ _). set (p := pos_of _ _ _ _ _).
  assert (E : 0 <= row (d_goto i (i - (currl d - row d)) p d)) by (unfold i; cbn; lia).
  by destruct (mbcs (d_goto _ _ _ _)).
Qed.

Lemma resize_ok s d r : Ok s d -> 3 <= r -> Ok (set_t_lines r s) (w_rows r d).
Proof.
  intros ((us & c & ds & dl & R) & Hd & Hr) Hle. split; [|split; [|done]].
  - exists us, c, ds, dl. destruct R. by constructor.
  - destruct Hd. by constructor.
Qed.

Lemma lind_key_ok (x : command) s d : Ok s d -> exists s',
  match x with
  | Cmd_up | Cmd_down =>
      if lastindent s =? -1 then y ← line_pos_to_col (C := C) wc (currline s) (currpnt s) (ansimode s) s; Some (set_lastindent y s) else Some s
  | _ => Some (set_lastindent (-1) s)
  end = Some s' /\
  Ok s' match x with
        | Cmd_up | Cmd_down => if lind d =? -1 then w_lind (col_of (C := C) wc (cur d) (pnt d) (ansi d)) d else d
        | _ => w_lind (-1) d
        end.
Proof.
  intros Ho. assert (Hm : lastindent s = lind d /\ ansimode s = ansi d /\ Rb true s d) by (destruct Ho as [(us & z & ds & dl & R) _]; split_and!; [by destruct R..|by exists us, z, ds, dl]).
  destruct Hm as (E1 & E2 & R). assert (Hud : exists s',
    (if lastindent s =? -1 then y ← line_pos_to_col (C := C) wc (currline s) (currpnt s) (ansimode s) s; Some (set_lastindent y s) else Some s) = Some s' /\
    Ok s' (if lind d =? -1 then w_lind (col_of (C := C) wc (cur d) (pnt d) (ansi d)) d else d)).
  { rewrite E1, E2. case_match; [|by exists s].
    rewrite (cur_col_ok wc wc_le _ _ _ _ R). cbn [mbind option_bind]. eexists. split; [reflexivity|]. by apply lind_Ok. }
  destruct x; try exact Hud; (eexists; split; [reflexivity|by apply lind_Ok]).
Qed.

Lemma currln_nonneg s d : Cok s d -> (if currln s <? 0 then set_currln 0 s else s) = s.
Proof.
  intros [(us & c & ds & dl & R) _]. pose proof (zlen_nonneg us). rewrite (rp_currln R). by replace (zlen us <? 0) with false by lia.
Qed.

Lemma can_take_store k : forall d, can_take k d -> can_store k d.
Proof. induction k as [mb|x y|x|r k IH]; intros d; cbn [can_take can_store]; [by intros [_ ?]|done|done|]. intros [? ?]. split; [done|by apply IH]. Qed.

Lemma command_key_ok al m (x : command) s d : Ok s d -> can_run x (w_lind (-1) d) -> exists s',
  vedit_key (C := C) wc al m (Key_cmd x) s = Some s' /\ Sok s' (d_key (C := C) wc al m (Key_cmd x) d).
Proof.
  intros Ho Hk. cbn [vedit_key d_key]. destruct (lind_key_ok x s d Ho) as (s1 & E & Ho1). rewrite E. cbn [mbind option_bind].
  match type of Ho1 with Ok _ ?X => set (d1 := X) in * end.
  assert (Hk1 : can_run x d1) by (unfold d1; destruct x; try exact Hk; exact I).
  destruct (run_command_ok al x s1 d1 Ho1 Hk1) as (s2 & -> & Hc2). cbn [mbind option_bind]. rewrite (currln_nonneg _ _ Hc2). by apply settle_ok.
Qed.

(** A click anywhere, and where it leaves the cursor. *)
Lemma click_ok al m x y s d : Ok s d -> exists s', vedit_key (C := C) wc al m (Key_mouse x y) s = Some s' /\
  Ok s' (d_key (C := C) wc al m (Key_mouse x y) d) /\ (0 <= y < rows d - 1 \/ Sok s' (d_key (C := C) wc al m (Key_mouse x y) d)).
Proof.
  intros Ho. cbn [vedit_key d_key].
  pose proof (lind_Ok s d (-1) Ho) as Ho1. set (s1 := set_lastindent (-1) s) in *. set (d1 := w_lind (-1) d) in *.
  assert (Eb : b_lines s1 = rows d1 - 1) by (destruct Ho as [(us & c & ds & dl & R) _]; unfold b_lines; cbn; by rewrite (rp_size R)).
  rewrite Eb. destruct ((0 <=? y) && (y <? rows d1 - 1)) eqn:Ey.
  2: { destruct (settle_ok s1 d1 (Ok_Cok _ _ Ho1)) as (s2 & E2 & Hs). exists s2. split; [exact E2|]. split; [apply Hs|by right]. }
  apply andb_true_iff in Ey as [Ey1 Ey2]. zbool. change (rows d1) with (rows d) in Ey2.
  destruct (mouse_ok wc wc_le s1 d1 y x m Ho1 Ey1) as (s2 & E2 & [R2 Hd2]). exists s2. split; [exact E2|]. split; [|left; lia].
  split; [done|]. split; [done|]. apply mouse_row_nonneg; [done|]. destruct Ho1 as [(us & c & ds & dl & R) _].
  destruct (rep_lastl _ _ _ _ _ _ _ _ _ R) as [-> ->]. apply (rp_row R).
Qed.

(** The memory stays right wherever the cursor is. *)
Lemma key_store_ok al m k : forall s d, Ok s d -> can_store k d -> exists s',
  vedit_key (C := C) wc al m k s = Some s' /\ Ok s' (d_key (C := C) wc al m k d).
Proof.
  induction k as [mb|x y|x|r k IH]; intros s d Ho Hk; cbn [can_store] in Hk.
  - destruct Hk as (Hr & Ht & Hne). cbn [vedit_key d_key]. destruct (insert_key_ok mb s d Ho Hr Ht Hne) as (s' & E & Ho').
    rewrite E. cbn [mbind option_bind]. eexists. split; [reflexivity|by apply lind_Ok].
  - destruct (click_ok al m x y s d Ho) as (s' & E & Ho' & _). by exists s'.
  - destruct (command_key_ok al m x s d Ho Hk) as (s' & E & Ho' & _). by exists s'.
  - destruct Hk as [Hr Hk]. cbn [vedit_key d_key]. apply IH; [by apply resize_ok|done].
Qed.

Lemma char_key_ok al m mb s d : Ok s d -> can_take (Key_char mb) d -> exists s',
  vedit_key (C := C) wc al m (Key_char mb) s = Some s' /\ Sok s' (d_key (C := C) wc al m (Key_char mb) d).
Proof.
  intros Ho Hk. destruct (key_store_ok al m (Key_char mb) s d Ho (can_take_store _ _ Hk)) as (s' & E & Ho'). exists s'. split; [exact E|].
  split; [exact Ho'|]. destruct Hk as (Hh & _).
  assert (Hst : steady d (if 1 <? zlen mb then d_insert_dchar (C := C) wc mb d else d_insert_char (C := C) wc (cchar mb 0) d)).
  { case_match; [apply steady_dchar|apply steady_char]. }
  destruct Hst as [_ Hst]. apply Hst; [|done]. destruct Ho as (_ & Hd & _). by apply doc_height with (1 := Hd).
Qed.

Lemma mouse_key_ok al m x y s d : Ok s d -> can_take (Key_mouse x y) d -> exists s',
  vedit_key (C := C) wc al m (Key_mouse x y) s = Some s' /\ Sok s' (d_key (C := C) wc al m (Key_mouse x y) d).
Proof.
  intros Ho Hk. cbn [can_take] in Hk. destruct (click_ok al m x y s d Ho) as (s' & E & Ho' & [Hy|Hs]); exists s'; [|done].
  split; [exact E|]. split; [exact Ho'|]. cbn [d_key]. change (rows (w_lind (-1) d)) with (rows d).
  replace ((0 <=? y) && (y <? rows d - 1)) with true by lia. apply (mouse_row (w_lind (-1) d)); [|by destruct Ho as (_ & [] & _)].
  specialize (Hk Hy). change (height (w_lind (-1) d)) with (height d). lia.
Qed.

Lemma key_ok al m k : forall s d, Ok s d -> can_take k d -> exists s',
  vedit_key (C := C) wc al m k s = Some s' /\ Sok s' (d_key (C := C) wc al m k d).
Proof.
  induction k as [mb|x y|x|r k IH]; intros s d Ho Hk; [by apply char_key_ok|by apply mouse_key_ok|by apply command_key_ok|].
  - destruct Hk as [Hr Hk]. cbn [vedit_key d_key]. apply IH; [by apply resize_ok|done].
Qed.

(** The line that is left gives back what it does not use. *)
Lemma shrink_old_ok s d : Ok s d -> exists s', shrink_old s = Some s' /\ Ok s' d.
Proof.
  intros ((us & c & ds & dl & R) & Hd & Hr). unfold shrink_old. destruct (oldcurrline s) as [q|] eqn:Eq; [|exists s; by split; [|split; [exists us, c, ds, dl|]]].
  pose proof (rp_old R q Eq) as Hq. apply list_elem_of_lookup in Hq as (i & Hi).
  destruct (node_at _ _ _ _ _ _ _ _ _ _ _ R Hi) as (r & Er & [Hrc Hrl] & Hp). rewrite (get_some _ _ _ Hp). cbn [mbind option_bind cell len alloc_len].
  case_match; [|exists s; by split; [|split; [exists us, c, ds, dl|]]].
  destruct (adjustline_ok _ _ _ _ _ _ _ _ _ q r (zlen (txt r)) R) as (s1 & q1 & r1 & -> & Et & Ez & R1); [by apply list_elem_of_lookup_2 with i|lia|].
  cbn [mbind option_bind]. eexists. split; [reflexivity|]. split; [|done]. eexists _, _, _, dl. destruct R1. constructor; try done.
  cbn. intros x [= <-]. replace (map (ren q q1 r1) us ++ ren q q1 r1 c :: map (ren q q1 r1) ds) with (map (ren q q1 r1) (us ++ c :: ds)) by (by rewrite map_app).
  rewrite ren_ptrs. apply list_elem_of_lookup. exists i. rewrite list_lookup_fmap, Hi. cbn. unfold rn. by rewrite decide_True.
Qed.

Lemma old_Ok s d : Ok s d -> Ok (set_oldcurrline (currline s) s) d.
Proof. intros ((us & c & ds & dl & R) & H1'). split; [|done]. exists us, c, ds, dl. by apply rep_oldcurrline. Qed.

(** What comes before the key. *)
Lemma turn_key al m k s d : Sok s d -> exists s', Ok s' d /\ vedit_turn (C := C) wc al m k s = vedit_key (C := C) wc al m k s'.
Proof.
  intros Hs. unfold vedit_turn. rewrite (health_ok _ _ Hs). cbn [mbind option_bind]. destruct Hs as [Ho Hh].
  set (s1 := if redraw_everything s || has_block_selection s then set_redraw_everything false s else s).
  assert (Ho1 : Ok s1 d).
  { unfold s1. case_match; [|done]. destruct Ho as ((us & c & ds & dl & R) & Ho). split; [|done]. exists us, c, ds, dl. by apply rep_redraw. }
  clearbody s1. assert (Hex : exists s2, (if bool_decide (oldcurrline s1 = currline s1) then Some s1
    else s2 ← shrink_old s1; Some (set_oldcurrline (currline s2) s2)) = Some s2 /\ Ok s2 d).
  { case_match; [by exists s1|]. destruct (shrink_old_ok _ _ Ho1) as (s2 & -> & Ho2). cbn [mbind option_bind]. eexists. split; [reflexivity|]. by apply old_Ok. }
  destruct Hex as (s2 & -> & Ho2). cbn [mbind option_bind]. by exists s2.
Qed.

Lemma turn_ok al m k s d : Sok s d -> can_take k d -> exists s',
  vedit_turn (C := C) wc al m k s = Some s' /\ Sok s' (d_key (C := C) wc al m k d).
Proof. intros Hs Hk. destruct (turn_key al m k s d Hs) as (s1 & Ho1 & ->). by apply key_ok. Qed.

Lemma turn_store_ok al m k s d : Sok s d -> can_store k d -> exists s',
  vedit_turn (C := C) wc al m k s = Some s' /\ Ok s' (d_key (C := C) wc al m k d).
Proof. intros Hs Hk. destruct (turn_key al m k s d Hs) as (s1 & Ho1 & ->). by apply key_store_ok. Qed.

(** The next turn fails exactly when the cursor is below the window. *)
Lemma turn_check al m k s d : Ok s d -> can_store k d -> vedit_turn (C := C) wc al m k s = None <-> height d <= row d.
Proof.
  intros Ho Hk. destruct (Z.lt_ge_cases (row d) (height d)) as [Hlt|Hge].
  - destruct (turn_store_ok al m k s d) as (s' & -> & _); [done|done|]. split; [done|lia].
  - unfold vedit_turn. rewrite (health_eq _ _ Ho). by replace (row d <? height d) with false by lia.
Qed.

End Session.
End EditSession.
