(* ===== verification/EditStart.v ===== *)
(** From an empty editor on the lines of a file to the first turn, and the end:
    every block of memory is freed. *)

From stdpp Require Import gmap.
From S2P Require Import Prelude Cstr Str Mbs MbsProps Edit EditText EditHeap EditRep EditPos EditList EditSplit EditJoin EditChars EditInsert EditMoves EditCmds EditDelete EditBlocks EditColor EditSession.

#[global] Open Scope Z_scope.
#[global] Open Scope list_scope.

Module EditStart.
Import Cstr Str Mbs MbsProps Edit EditText EditHeap EditRep EditPos EditList EditSplit EditJoin EditChars EditInsert EditMoves EditCmds EditDelete EditBlocks EditColor EditSession.

Section Start.
Context `{LibcOk} {C : Type} `{MbShort C}.
Variable wc : Z -> Z.
Hypothesis wc_le : forall u, wc u <= 2.
Implicit Types (us ds a b : list node) (c : node) (dl : option node) (d : doc) (t : list Z).

Lemma constructor_ok r m : 3 <= r -> Ok (edit_buffer_constructor r m) (d_new r m).
Proof.
  intros Hr. split; [|split; [|done]].
  - unfold edit_buffer_constructor, alloc_line. cbn [heap set_blockln set_insert_mode set_redraw_everything set_lastindent].
    set (g := fill _ _). set (p := malloc_at ∅). exists [], (p, Row [] g), [], None. constructor; cbn; try done.
    + split; [|done]. rewrite lookup_insert_eq. f_equal.
    + apply list.NoDup_cons. split; [intros Hx; inversion Hx|apply NoDup_nil_2].
    + apply list.Forall_cons. split; [|by apply list.Forall_nil]. split; [by apply list.Forall_nil|]. cbn. change (zlen []) with 0. unfold WRAPMARGIN. lia.
    + intros q t Hq. left. destruct (decide (q = p)) as [->|Hne]; [by left|]. by rewrite lookup_insert_ne in Hq.
    + intros q [= <-]. by left.
  - constructor; cbn; try done; try (by apply list.Forall_nil); unfold WRAPMARGIN; try lia.
Qed.

(** The cursor at the top, from any state with the same list. *)
Lemma top_Sok s us c ds dl d x : rep None true 0 s us c ds dl d -> doc_ok d -> (us ++ c :: ds) !! 0%nat = Some x ->
  Sok (set_curr_window_line 0 (set_currln 0 (set_currpnt 0 (set_oldcurrline (Some x.1) (set_currline (Some x.1) (set_top_of_win (Some x.1) s))))))
    (d_start d).
Proof.
  intros R Hd Hx. pose proof (rep_lastl _ _ _ _ _ _ _ _ _ R) as [Ec El]. pose proof (zlen_nonneg us). pose proof (zlen_nonneg ds).
  destruct (rep_goto _ _ _ _ _ _ _ _ _ 0 0 0 x R Hx) as (us' & ds' & E & _ & R'); [lia|lia|].
  assert (Ep : ptrs (us ++ c :: ds) !! 0%nat = Some x.1) by (unfold ptrs; by rewrite list_lookup_fmap, Hx).
  change (Z.to_nat (0 - 0)) with 0%nat in R'. rewrite Ep in R'. apply rep_oldcurrline in R'.
  assert (Hds : doc_ok (d_start d)) by (apply doc_goto; [done|lia|pose proof (zlen_nonneg (line d 0)); lia]).
  split; [split; [exists us', x, ds', dl|split; [done|by cbn]]|].
  - replace (set_curr_window_line _ _) with (set_oldcurrline (currline (goto (Some x.1) (Some x.1) 0 0 0 s)) (goto (Some x.1) (Some x.1) 0 0 0 s)); [exact R'|by destruct s].
  - pose proof (doc_height _ _ Hds). unfold d_start in *. cbn in *. lia.
Qed.

Lemma start_ok s d : Ok s d -> exists s', vedit_start s = Some s' /\ Sok s' (d_start d).
Proof.
  intros Ho. unfold vedit_start.
  assert (Hp : forall s us c ds dl, rep None true 0 s us c ds dl d -> exists x, (us ++ c :: ds) !! 0%nat = Some x /\ firstline s = Some x.1).
  { intros s1 us c ds dl R. rewrite (rp_first R). destruct us as [|[p r] us]; [exists c|exists (p, r)]; split; try done. by destruct c. }
  destruct (negb _ || negb _) eqn:E.
  - destruct (shrink_old_ok _ _ Ho) as (s1 & -> & ((us & c & ds & dl & R) & Hd & _)). cbn [mbind option_bind].
    destruct (Hp _ _ _ _ _ R) as (x & Hx & Ef). rewrite Ef. eexists. split; [reflexivity|].
    by apply top_Sok with us c ds dl.
  - apply orb_false_iff in E as [E1 E2]. apply negb_false_iff, bool_decide_eq_true_1 in E1, E2. cbn [mbind option_bind].
    destruct Ho as ((us & c & ds & dl & R) & Hd & Hr). destruct (Hp _ _ _ _ _ R) as (x & Hx & Ef).
    eexists. split; [reflexivity|]. pose proof (rp_row R) as Hrow. pose proof (rp_cur R) as Hc.
    assert (Hu : us = []).
    { destruct us as [|[p r] us]; [done|]. pose proof (rp_nodup R) as Hn. pose proof (rp_first R) as Hf. cbn [app head_ptr] in Hf.
      apply list.NoDup_cons in Hn as [Hn _]. destruct Hn. cbn [fst]. assert (Ep : p = c.1) by congruence. rewrite Ep. destruct c. apply ptrs_mid. }
    subst us. cbn [app] in Hx. injection Hx as <-. change (zlen []) with 0 in Hrow.
    replace (set_curr_window_line _ _) with (set_curr_window_line 0 (set_currln 0 (set_currpnt 0 (set_oldcurrline (Some c.1) (set_currline (Some c.1) (set_top_of_win (Some c.1) s)))))); [by apply top_Sok with [] c ds dl|].
    pose proof (rp_top R) as Ht. assert (row d = 0) as Er by lia. rewrite Er in Ht. cbn in Ht. destruct c as [p r]. cbn [fst] in *.
    rewrite Ef in E1. apply editor_ext; cbn; try done; congruence.
Qed.

Lemma open_ok r m bufs : 3 <= r -> Forall plain bufs -> exists s',
  vedit_open (C := C) wc r m bufs = Some s' /\ Sok s' (d_start (d_file (C := C) wc bufs (d_new r m))).
Proof.
  intros Hr Hb. unfold vedit_open. destruct (load_file_ok wc wc_le bufs _ _ (constructor_ok r m Hr)) as (s & -> & Ho); [done|done|].
  cbn [mbind option_bind]. by apply start_ok.
Qed.

(** *** The whole session *)

Fixpoint d_turns (al : bool) (ks : list (Z * input)) d : doc :=
  match ks with [] => d | (m, k) :: ks => d_turns al ks (d_key (C := C) wc al m k d) end.

(** Each input is one the editor can take in the state it comes in. *)
Fixpoint can_take_all (al : bool) (ks : list (Z * input)) d : Prop :=
  match ks with [] => True | (m, k) :: ks => can_take (C := C) wc k d /\ can_take_all al ks (d_key (C := C) wc al m k d) end.

Fixpoint can_take_all_b (al : bool) (ks : list (Z * input)) d : bool :=
  match ks with [] => true | (m, k) :: ks => can_take_b (C := C) wc k d && can_take_all_b al ks (d_key (C := C) wc al m k d) end.

Lemma can_take_all_b_ok al ks : forall d, can_take_all_b al ks d = true -> can_take_all al ks d.
Proof.
  induction ks as [|[m k] ks IH]; intros d; [done|]. intros [Hk Hks]%andb_true_iff. split; [by apply can_take_b_ok|by apply IH].
Qed.

Lemma turns_ok al ks : forall s d, Sok s d -> can_take_all al ks d ->
  exists s', vedit_turns (C := C) wc al ks s = Some s' /\ Sok s' (d_turns al ks d).
Proof.
  induction ks as [|[m k] ks IH]; intros s d Hs Hk; [by exists s|]. destruct Hk as [Hk Hks]. cbn [vedit_turns d_turns].
  destruct (turn_ok wc wc_le al m k s d Hs Hk) as (s1 & -> & Hs1). cbn [mbind option_bind]. by apply IH.
Qed.

(** *** The end *)

Lemma destructor_ok s d : Ok s d -> exists s', edit_buffer_destructor s = Some s' /\ heap s' = ∅.
Proof.
  intros ((us & c & ds & dl & R) & _). unfold edit_buffer_destructor. rewrite (rp_first R).
  destruct (free_lines_ok (us ++ c :: ds) (line_fuel s) None s (rp_seg R) (rp_nodup R)) as (h & o & -> & Hh & _).
  { unfold line_fuel. pose proof (heap_size _ _ _ _ _ _ _ _ _ R). lia. }
  cbn [mbind option_bind deleted_line set_heap set_oldcurrline]. pose proof (rp_del R) as Hd. pose proof (rp_dom R) as Hdom.
  assert (Hx : forall x, h !! x = None \/ del_ptr dl x).
  { intros x. rewrite Hh. destruct (decide _) as [|Hx]; [by left|]. destruct (heap s !! x) as [u|] eqn:E; [|by left].
    destruct (Hdom _ _ E) as [?|[?|(? & ?)]]; [done|by right|done]. }
  unfold del_rep in Hd. destruct dl as [[p r]|].
  - destruct Hd as (-> & Hp & Hn & _). unfold free_line. cbn [mbind option_bind heap set_heap].
    assert (Ep : h !! p = Some (cell None None r)) by (rewrite Hh, decide_False; done). rewrite Ep. cbn [mbind option_bind].
    eexists. split; [reflexivity|]. apply map_empty. intros x.
    assert (El : forall s2, heap s2 = h -> heap (set_heap (delete p (heap s2)) s2) !! x = None).
    { intros s2 E. cbn [heap set_heap]. rewrite E. destruct (decide (x = p)) as [->|Hne]; [apply lookup_delete_eq|].
      rewrite lookup_delete_ne by done. by destruct (Hx x) as [|(? & [= ->])]. }
    apply El. by case_bool_decide.
  - rewrite Hd. eexists. split; [reflexivity|]. apply map_empty. intros x. by destruct (Hx x) as [|(? & ?)].
Qed.

End Start.
End EditStart.
