(* ===== verification/EditSave.v ===== *)
(** Reading the text off the heap, and saving it. *)

From stdpp Require Import gmap.
From S2P Require Import Prelude Cstr Str StrProps Mbs MbsProps Edit EditText EditHeap EditRep EditPos EditList EditSplit EditJoin EditChars EditInsert EditMoves EditCmds EditDelete EditBlocks EditColor EditSession EditStart.

#[global] Open Scope Z_scope.
#[global] Open Scope list_scope.

Module EditSave.
Import Cstr Str Mbs MbsProps Edit EditText EditHeap EditRep EditPos EditList EditSplit EditJoin EditChars EditInsert EditMoves EditCmds EditDelete EditBlocks EditColor EditSession EditStart.

(** The strings of the lines from [p] on. *)
Fixpoint read_lines (fuel : nat) (p : option ptr) (s : editor) : option (list (list Z)) :=
  match fuel with
  | O => None
  | S fuel =>
      match p with
      | None => Some []
      | Some _ =>
          t ← get p s;
          x ← c_str (data t) 0;
          xs ← read_lines fuel (next t) s;
          Some (x :: xs)
      end
  end.
Definition text_of (s : editor) : option (list (list Z)) := read_lines (line_fuel s) (firstline s) s.

(** What [write_file] makes of a line, and of a text: an empty last line is left out. *)
Definition saved_line (t : list Z) : list Z := strip_move_control_sequence (trim t).
Fixpoint saved (ls : list (list Z)) : list Z :=
  match ls with
  | [] => []
  | [t] => match t with [] => [] | _ => saved_line t ++ [10] end
  | t :: ls => saved_line t ++ 10 :: saved ls
  end.

(** A line that is saved as it is. *)
Definition clean (t : list Z) : Prop := Forall (fun x => x <> ESC_CHR) t /\ trim t = t.

(** The final character of a control sequence, after ESC [ : parameters, then
    intermediate characters, then the first one that is neither. *)
Fixpoint csi_final (inter : bool) (p : list Z) : Z :=
  match p with
  | [] => 0
  | g :: p =>
      if negb inter && between 0x30 0x3F g then csi_final false p
      else if between 0x20 0x2F g then csi_final true p
      else g
  end.

(** No control sequence of the line moves the cursor of the reader. *)
Fixpoint no_moves (t : list Z) : bool :=
  match t with
  | [] => true
  | c :: t => negb ((c =? ESC_CHR) && (cchar t 0 =? 91) && in_set move_letters (csi_final false (drop 1 t))) && no_moves t
  end.

(** A line as it may be saved. *)
Definition tidy (t : list Z) : Prop := list.last t <> Some 32 /\ no_moves t = true.

(** *** What is saved *)

Lemma in_set_range f : in_set move_letters f = true -> between 0x40 0x7E f = true.
Proof.
  unfold in_set. intros (x & Hx & E)%existsb_exists. apply Z.eqb_eq in E. subst x.
  assert (A : Forall (fun f => between 0x40 0x7E f = true) move_letters) by (by repeat constructor).
  rewrite List.Forall_forall in A. by apply A.
Qed.

Lemma between_iff a b c : between a b c = true <-> a <= c <= b.
Proof. unfold between. lia. Qed.

Lemma csi_final_runs p :
  let n := run_len (between 0x30 0x3F) p in
  csi_final false p = cchar p (Z.of_nat (n + run_len (between 0x20 0x2F) (drop n p))).
Proof.
  assert (Ht : forall p, csi_final true p = cchar p (Z.of_nat (run_len (between 0x20 0x2F) p))).
  { induction p0 as [|g p0 IH]; [done|]. cbn [csi_final run_len negb andb]. destruct (between 0x20 0x2F g); [|by rewrite cchar_0].
    rewrite IH. unfold cchar, zget. by rewrite !(proj2 (Z.leb_le 0 _)), !Nat2Z.id by lia. }
  cbn zeta. induction p as [|g p IH]; [done|]. cbn [csi_final run_len negb andb].
  destruct (between 0x30 0x3F g) eqn:E; cbn [drop Nat.add].
  - rewrite IH. unfold cchar, zget. by rewrite !(proj2 (Z.leb_le 0 _)), !Nat2Z.id by lia.
  - change (if between 32 47 g then csi_final true p else g) with (csi_final true (g :: p)). apply Ht.
Qed.

Lemma csi_final_stop a b f X : Forall (fun c => between 0x30 0x3F c = true) a -> Forall (fun c => between 0x20 0x2F c = true) b ->
  between 0x40 0x7E f = true -> csi_final false (a ++ b ++ f :: X) = f.
Proof.
  intros Ha Hb Hf. rewrite between_iff in Hf. assert (Hstop : between 0x20 0x2F f = false /\ between 0x30 0x3F f = false) by (unfold between; lia).
  destruct Hstop as [E1 E2]. induction Ha as [|c a Hc _ IH]; cbn [app csi_final negb andb]; [|by rewrite Hc].
  destruct Hb as [|c b Hc Hb]; cbn [app csi_final negb andb]; [by rewrite E1, E2|].
  assert (E3 : between 0x30 0x3F c = false) by (rewrite between_iff in Hc; unfold between; lia). rewrite E3, Hc.
  induction Hb as [|c' b Hc' _ IH]; cbn [app csi_final negb andb]; [by rewrite E1|by rewrite Hc'].
Qed.

(** The first character is kept, but for the ESC of ESC ]. *)
Lemma strip_head fuel c t : exists X, strip_move_loop fuel (c :: t) = c :: X \/
  (c = ESC_CHR /\ cchar t 0 = 93 /\ exists fuel', fuel = S fuel' /\ strip_move_loop fuel (c :: t) = 32 :: X /\ X = strip_move_loop fuel' t).
Proof.
  destruct fuel as [|fuel]; [by exists t; left|]. cbn [strip_move_loop]. destruct (Z.eqb_spec c ESC_CHR); [|by eexists; left].
  destruct (_ =? 91); [destruct (between _ _ _); by eexists; left|]. destruct (Z.eqb_spec (cchar t 0) 93); [|by eexists; left].
  eexists. right. split; [done|]. split; [done|]. by eexists.
Qed.

Lemma strip_plain fuel c t : c <> ESC_CHR -> strip_move_loop (S fuel) (c :: t) = c :: strip_move_loop fuel t.
Proof. intros Hc. cbn [strip_move_loop]. by rewrite (proj2 (Z.eqb_neq c ESC_CHR)). Qed.

(** A sequence that is not one does not become one that moves. *)
Lemma csi_final_strip p : forall fuel inter, (length p <= fuel)%nat -> between 0x40 0x7E (csi_final inter p) = false ->
  in_set move_letters (csi_final inter (strip_move_loop fuel p)) = false.
Proof.
  induction p as [|g p IH]; intros fuel inter Hf Hb; [by destruct fuel|].
  destruct fuel as [|fuel]; [cbn in Hf; lia|]. cbn in Hf. cbn [csi_final] in Hb.
  assert (Hesc : forall a b, 0x20 <= a -> between a b g = true -> g <> ESC_CHR) by (intros a b Ha; rewrite between_iff; unfold ESC_CHR; lia).
  destruct (negb inter && between 0x30 0x3F g) eqn:E1.
  { pose proof E1 as [_ E]%andb_true_iff. rewrite strip_plain by (by eapply Hesc; [|exact E]). cbn [csi_final]. rewrite E1.
    apply IH; [lia|done]. }
  destruct (between 0x20 0x2F g) eqn:E2.
  { rewrite strip_plain by (by eapply Hesc; [|exact E2]). cbn [csi_final]. rewrite E1, E2. apply IH; [lia|done]. }
  destruct (strip_head (S fuel) g p) as [X [->|(-> & Hp & fuel' & [= <-] & -> & ->)]].
  { cbn [csi_final]. rewrite E1, E2. destruct (in_set move_letters g) eqn:E; [|done]. apply in_set_range in E. congruence. }
  destruct p as [|x p]; [done|]. rewrite cchar_0 in Hp. subst x. cbn in Hf. destruct fuel as [|fuel]; [lia|].
  rewrite strip_plain by done. by destruct inter.
Qed.

Lemma no_moves_cons c t : c <> ESC_CHR -> no_moves (c :: t) = no_moves t.
Proof. intros Hc. cbn [no_moves]. by rewrite (proj2 (Z.eqb_neq c ESC_CHR)). Qed.

Lemma no_moves_plain a b : Forall (fun c => c <> ESC_CHR) a -> no_moves (a ++ b) = no_moves b.
Proof. induction 1 as [|c a Hc _ IH]; [done|]. cbn [app no_moves]. by rewrite (proj2 (Z.eqb_neq c ESC_CHR)). Qed.

Lemma strip_no_moves fuel : forall t, (length t <= fuel)%nat -> no_moves (strip_move_loop fuel t) = true.
Proof.
  induction fuel as [|fuel IH]; intros [|c t] Hf; [done|cbn in Hf; lia|done|]. cbn in Hf. cbn [strip_move_loop].
  destruct (Z.eqb_spec c ESC_CHR) as [->|Hc]; [|rewrite no_moves_cons by done; apply IH; lia].
  destruct (Z.eqb_spec (cchar t 0) 91) as [E|E].
  - destruct t as [|x p]; [done|]. rewrite cchar_0 in E. subst x. cbn [drop]. rewrite (drop_0 p). cbn in Hf. rewrite <- csi_final_runs.
    destruct (between 0x40 0x7E (csi_final false p)) eqn:Eb.
    2:{ destruct fuel as [|fuel]; [lia|]. cbn [no_moves]. rewrite IH by (cbn; lia). rewrite strip_plain, cchar_0 by done. cbn [drop].
        rewrite drop_0, csi_final_strip by (done || lia). by rewrite andb_false_r. }
    set (f := if _ || _ then 115 else _). set (a := run_len _ p). set (b := run_len _ (drop a p)).
    assert (Hfr : between 0x40 0x7E f = true /\ in_set move_letters f = false).
    { unfold f. destruct (_ || in_set _ _) eqn:Ef; [by vm_compute|]. by apply orb_false_iff in Ef as [_ Ef]. }
    assert (Et : take (a + b) p = take a p ++ take b (drop a p)) by (by rewrite take_take_drop).
    rewrite Et. set (A := take a p). set (B := take b (drop a p)). set (X := strip_move_loop _ _).
    assert (HA : Forall (fun c => between 0x30 0x3F c = true) A) by apply StrProps.run_len_take.
    assert (HB : Forall (fun c => between 0x20 0x2F c = true) B) by apply StrProps.run_len_take.
    assert (HX : no_moves X = true) by (apply IH; rewrite length_drop; lia).
    cbn [no_moves cchar]. rewrite <- app_assoc. rewrite cchar_0. cbn [drop]. rewrite drop_0, csi_final_stop by (done || apply Hfr).
    destruct Hfr as [Hfr ->]. rewrite andb_false_r. cbn [negb andb].
    change (no_moves (([91] ++ A ++ B ++ f :: X)) = true). 
    replace ([91] ++ A ++ B ++ f :: X) with (([91] ++ A ++ B ++ [f]) ++ X) by (by rewrite <- !app_assoc).
    rewrite no_moves_plain; [done|]. rewrite between_iff in Hfr. unfold ESC_CHR. repeat (apply list.Forall_app; split).
    + by repeat constructor.
    + revert HA. apply Forall_impl. intros y. rewrite between_iff. lia.
    + revert HB. apply Forall_impl. intros y. rewrite between_iff. lia.
    + repeat constructor. lia.
  - destruct (_ =? 93); [rewrite no_moves_cons by done; apply IH; lia|].
    cbn [no_moves]. rewrite IH by lia. destruct t as [|x t]; [by destruct fuel|]. rewrite cchar_0 in E.
    destruct (strip_head fuel x t) as [X [->|(_ & _ & fuel' & _ & -> & _)]]; rewrite cchar_0.
    + by rewrite (proj2 (Z.eqb_neq x 91)), andb_false_r.
    + done.
Qed.

Lemma last_some_cons (c x : Z) l : list.last l = Some x -> list.last (c :: l) = Some x.
Proof. intros E. by rewrite last_cons, E. Qed.

(** A space at the end was there before. *)
Lemma strip_last fuel : forall t, list.last (strip_move_loop fuel t) = Some 32 -> list.last t = Some 32.
Proof.
  induction fuel as [|fuel IH]; intros [|c t]; cbn [strip_move_loop]; try done.
  assert (Hrest : list.last (c :: strip_move_loop fuel t) = Some 32 -> list.last (c :: t) = Some 32).
  { rewrite !last_cons. destruct (list.last (strip_move_loop fuel t)) as [x|] eqn:E.
    - intros [= ->]. by rewrite (IH t E).
    - apply last_None in E. apply (f_equal length) in E. destruct t as [|x t]; [done|].
      destruct (strip_head fuel x t) as [X [E'|(_ & _ & ? & _ & E' & _)]]; by rewrite E' in E. }
  destruct (c =? ESC_CHR); [|done]. destruct (cchar t 0 =? 91).
  - set (p := drop 1 t). set (n := (_ + _)%nat). destruct (between 0x40 0x7E (cchar p (Z.of_nat n))) eqn:Ef; [|done].
    set (f := if _ || _ then 115 else _). set (r := drop (S n) p).
    assert (Hf : f <> 32) by (unfold f; destruct (_ || _); [done|]; rewrite between_iff in Ef; lia).
    rewrite app_comm_cons, app_comm_cons, last_app, last_cons.
    destruct (list.last (strip_move_loop fuel r)) as [x|] eqn:E; [|congruence]. intros [= ->]. apply IH in E.
    apply last_some_cons. destruct t as [|y t]; [done|]. apply last_some_cons.
    change p with t in r. rewrite <- (take_drop (S n) t), last_app. fold r. by rewrite E.
  - destruct (Z.eqb_spec (cchar t 0) 93) as [Eb|]; [|done]. destruct t as [|x t]; [done|]. rewrite cchar_0 in Eb. subst x.
    rewrite last_cons. destruct fuel as [|fuel].
    + cbn [strip_move_loop]. destruct (list.last (93 :: t)) eqn:E; [|by rewrite last_cons in E; case_match]. intros [= ->]. by apply last_some_cons.
    + destruct (list.last (strip_move_loop (S fuel) (93 :: t))) as [y|] eqn:E.
      * intros [= ->]. apply last_some_cons, IH, E.
      * rewrite strip_plain, last_cons in E by done. by case_match.
Qed.

Lemma trim_last t : list.last (trim t) <> Some 32.
Proof.
  unfold trim, skip_run. set (u := rev t). induction u as [|x u IH]; [done|].
  cbn [run_len]. destruct (Z.eqb_spec 32 x); [done|]. cbn [drop rev]. rewrite last_snoc. congruence.
Qed.

Lemma saved_line_tidy t : tidy (saved_line t).
Proof.
  split; [intros E; by apply strip_last, trim_last in E|]. by apply strip_no_moves.
Qed.

(** A text of lines, each with its newline. *)
Definition file_of (l : list (list Z)) : list Z := concat (map (fun t => t ++ [10]) l).

Lemma saved_lines (l : list (list Z)) : saved (l ++ [[]]) = file_of (map saved_line l).
Proof.
  induction l as [|t l IH]; [done|]. cbn [app map]. unfold file_of in *. cbn [map concat].
  replace (saved (t :: l ++ [[]])) with (saved_line t ++ 10 :: saved (l ++ [[]])) by (by destruct t, l).
  rewrite IH. by rewrite <- app_assoc.
Qed.

Section Save.
Context `{LibcOk} {C : Type} `{MbShort C}.
Implicit Types (us ds a b : list node) (c : node) (dl : option node) (d : doc) (t : list Z) (ls : list node).

Lemma read_lines_ok ls : forall fuel pv s, dseg (heap s) pv ls None -> rows_ok ls -> (length ls < fuel)%nat ->
  read_lines fuel (head_ptr ls None) s = Some (texts ls).
Proof.
  induction ls as [|[p r] ls IH]; intros fuel pv s Hs Hr Hf; (destruct fuel as [|fuel]; [cbn in Hf; lia|]); [done|].
  destruct Hs as [Hp Hs]. apply list.Forall_cons in Hr as [Hok Hr]. cbn [read_lines head_ptr]. rewrite (get_some _ _ _ Hp). cbn [mbind option_bind].
  rewrite cell_c_str by done. cbn [mbind option_bind cell next]. rewrite (IH fuel (Some p)) by (done || (cbn in Hf; lia)). done.
Qed.

Lemma text_ok s d : Ok s d -> text_of s = Some (lines d).
Proof.
  intros ((us & c & ds & dl & R) & _). unfold text_of. rewrite (rp_first R), (rep_lines _ _ _ _ _ _ _ _ _ R).
  apply read_lines_ok with None; [apply (rp_seg R)|apply (rp_rows R)|]. unfold line_fuel. pose proof (heap_size _ _ _ _ _ _ _ _ _ R). lia.
Qed.

(** *** Saving *)

Lemma trim_len t : zlen (trim t) <= zlen t.
Proof.
  unfold trim, skip_run, zlen. rewrite length_rev, length_drop, length_rev. lia.
Qed.

Lemma strip_loop_len fuel : forall t, zlen (strip_move_loop fuel t) = zlen t.
Proof.
  induction fuel as [|fuel IH]; intros [|x t]; cbn [strip_move_loop]; try done.
  destruct (x =? ESC_CHR); [|by rewrite !zlen_cons, IH]. destruct (cchar t 0 =? 91) eqn:Eb.
  2: { by destruct (cchar t 0 =? 93); rewrite !zlen_cons, IH. }
  set (p := drop 1 t). set (n := (run_len _ p + _)%nat). destruct (between 0x40 0x7E (cchar p (Z.of_nat n))) eqn:Ef; [|by rewrite !zlen_cons, IH].
  assert (Hn : (n < length p)%nat).
  { destruct (decide (n < length p)%nat) as [|Hge]; [done|]. assert (E : cchar p (Z.of_nat n) = 0); [|by rewrite E in Ef].
    unfold cchar, zget. case_match; [|done]. rewrite Nat2Z.id, lookup_ge_None_2 by lia. done. }
  assert (Ht : length t = S (length p)) by (unfold p; rewrite length_drop; destruct t; [done|cbn; lia]).
  rewrite !zlen_cons, zlen_app, zlen_cons, IH. unfold zlen. rewrite length_take, length_drop. lia.
Qed.

Lemma strip_id t : Forall (fun x => x <> ESC_CHR) t -> strip_move_control_sequence t = t.
Proof.
  unfold strip_move_control_sequence. assert (G : forall fuel u, (length u <= fuel)%nat -> Forall (fun x => x <> ESC_CHR) u -> strip_move_loop fuel u = u).
  { induction fuel as [|fuel IH]; intros [|x u] Hl Hu; cbn [strip_move_loop]; try done. inversion Hu as [|? ? Hx Hu']. subst.
    replace (x =? ESC_CHR) with false by (unfold ESC_CHR in *; lia). f_equal. apply IH; [cbn in Hl; lia|done]. }
  by apply G.
Qed.

Lemma clean_saved t : clean t -> saved_line t = t.
Proof. intros [He Ht]. unfold saved_line. rewrite Ht. by apply strip_id. Qed.

Lemma put_trimmed_ok (t r : list Z) : put_trimmed t (saved_line t) (t ++ 0 :: r) =
  Some ((saved_line t ++ replicate (length t - length (saved_line t)) 0) ++ 0 :: r).
Proof.
  assert (Hl : zlen (saved_line t) <= zlen t).
  { unfold saved_line, strip_move_control_sequence. rewrite strip_loop_len. apply trim_len. }
  unfold put_trimmed, mem_write. set (m := saved_line t ++ _).
  assert (Em : zlen m = zlen t) by (unfold m, zlen in *; rewrite length_app, length_replicate; lia).
  rewrite Em, zlen_app. pose proof (zlen_nonneg t). pose proof (zlen_nonneg (0 :: r)). replace ((0 <=? 0) && _) with true by lia.
  rewrite Z.add_0_l, drop_zlen_app. done.
Qed.

Lemma write_lines_ok ls : forall fuel pv s, dseg (heap s) pv ls None -> NoDup (ptrs ls) -> rows_ok ls -> (length ls < fuel)%nat ->
  exists s', write_lines fuel (head_ptr ls None) s = Some (s', saved (texts ls)).
Proof.
  induction ls as [|[p r] ls IH]; intros fuel pv s Hs Hn Hr Hf; (destruct fuel as [|fuel]; [cbn in Hf; lia|]); [by exists s|].
  destruct Hs as [Hp Hs]. apply list.Forall_cons in Hr as [Hok Hr]. apply list.NoDup_cons in Hn as [Hpn Hn].
  cbn [write_lines head_ptr]. rewrite (get_some _ _ _ Hp). cbn [mbind option_bind]. rewrite cell_c_str by done. cbn [mbind option_bind cell next].
  cbn in Hf. assert (Hgo : exists s',
    (s1 ← upd_data (Some p) (put_trimmed (txt r) (strip_move_control_sequence (trim (txt r)))) s;
     '(s2, out) ← write_lines fuel (head_ptr ls None) s1;
     Some (s2, strip_move_control_sequence (trim (txt r)) ++ 10 :: out)) = Some (s', saved_line (txt r) ++ 10 :: saved (texts ls))).
  { fold (saved_line (txt r)). unfold upd_data. rewrite (get_some _ _ _ Hp). cbn [mbind option_bind cell data].
    rewrite put_trimmed_ok. cbn [mbind option_bind]. rewrite (put_some _ _ _ _ Hp). cbn [mbind option_bind].
    match goal with |- context [write_lines _ _ ?X] => destruct (IH fuel (Some p) X) as (s2 & ->); [by apply dseg_insert|done|done|lia|] end.
    cbn [mbind option_bind]. by exists s2. }
  destruct ls as [|[q rq] ls].
  - cbn [head_ptr texts map saved] in *. rewrite bool_decide_eq_true_2 by done. destruct (txt r) as [|x t] eqn:Et.
    + change (cchar [] 0 =? 0) with true. cbn [andb]. exists s. cbn [snd]. rewrite Et. destruct fuel; [lia|done].
    + assert (Hx : x <> 0) by (cbn [snd] in Hok; destruct Hok as [Hok _]; rewrite Et in Hok; inversion Hok as [|? ? [_ Hx] _]; done).
      rewrite cchar_0. replace (x =? 0) with false by lia. cbn [andb snd]. rewrite Et. exact Hgo.
  - cbn [head_ptr]. rewrite bool_decide_eq_false_2 by done. cbn [andb]. cbn [texts map snd] in *. exact Hgo.
Qed.

Lemma write_ok s d : Ok s d -> exists s', write_body s = Some (s', saved (lines d)).
Proof.
  intros ((us & c & ds & dl & R) & _). unfold write_body. rewrite (rp_first R), (rep_lines _ _ _ _ _ _ _ _ _ R).
  apply write_lines_ok with None; [apply (rp_seg R)|apply (rp_nodup R)|apply (rp_rows R)|]. unfold line_fuel. pose proof (heap_size _ _ _ _ _ _ _ _ _ R). lia.
Qed.

Lemma map_clean (l : list (list Z)) : Forall clean l -> map saved_line l = l.
Proof. induction 1 as [|t l Ht _ IH]; [done|]. cbn [map]. by rewrite clean_saved, IH. Qed.

End Save.
End EditSave.
