(* ===== verification/EditRound.v ===== *)
(** The text through the editor: the lines of a file become those of the buffer,
    and a command that moves the cursor keeps them. *)

From stdpp Require Import gmap.
From S2P Require Import Prelude Cstr Str Mbs MbsProps Edit EditText EditHeap EditRep EditPos EditList EditSplit EditJoin EditChars EditInsert EditMoves EditCmds EditDelete EditBlocks EditColor EditSession EditStart EditSave.

#[global] Open Scope Z_scope.
#[global] Open Scope list_scope.

Module EditRound.
Import Cstr Str Mbs MbsProps Edit EditText EditHeap EditRep EditPos EditList EditSplit EditJoin EditChars EditInsert EditMoves EditCmds EditDelete EditBlocks EditColor EditSession EditStart EditSave.

Section Round.
Context `{LibcOk} {C : Type} `{MbShort C}.
Variable wc : Z -> Z.
Hypothesis wc_le : forall u, wc u <= 2.
Implicit Types (us ds a b : list node) (c : node) (dl : option node) (d : doc) (t u : list Z) (l : list (list Z)).

(** *** Typing at the end of the text *)

(** The text is [l] and the line [t], with the cursor at its end. *)
Record typing l t d : Prop := Typing
  { ty_up : up d = l; ty_cur : cur d = t; ty_dn : dn d = []; ty_pnt : pnt d = zlen t; ty_ins : ins d = true; ty_ind : ind d = false }.

(** What the lines of a file may hold: no tab, and fewer characters than make a line wrap. *)
Definition printable t : Prop := Forall (fun x => is_u8 x /\ (isprint2 x = true \/ x = ESC_CHR)) t.
Definition file_line t : Prop := printable t /\ zlen t < WRAPMARGIN.

Lemma typing_raw l t d x : typing l t d -> is_u8 x -> zlen t < WRAPMARGIN - 1 -> typing l (t ++ [x]) (d_raw_insert (C := C) x d).
Proof.
  intros [Eu Ec Ed Ep Ei En] Hx Hl. unfold d_raw_insert. set (d1 := d_put x (d_cancel d)).
  assert (T : typing l (t ++ [x]) d1).
  { assert (Eu8 : u8 x = x) by (unfold u8, is_u8 in *; by rewrite Z.mod_small).
    constructor; cbn; try done; rewrite Ep; [|rewrite zlen_app; change (zlen [x]) with 1; lia].
    rewrite Ec, Eu8. unfold ztake, zdrop, zlen. rewrite Nat2Z.id, firstn_all, skipn_all. done. }
  rewrite (ty_cur _ _ _ T), zlen_app. change (zlen [x]) with 1. replace (zlen t + 1 <? WRAPMARGIN) with true by lia. done.
Qed.

Lemma typing_char l t d x : typing l t d -> is_u8 x -> zlen t < WRAPMARGIN - 1 -> typing l (t ++ [x]) (d_insert_char (C := C) wc x d).
Proof.
  intros T Hx Hl. unfold d_insert_char. rewrite (ty_ins _ _ _ T). pose proof (typing_raw _ _ _ x T Hx Hl) as T1.
  by rewrite (ty_ins _ _ _ T1).
Qed.

Lemma typing_bytes l bs : forall t d, typing l t d -> Forall is_u8 bs -> zlen t + zlen bs < WRAPMARGIN ->
  typing l (t ++ bs) (d_insert_bytes (C := C) bs d).
Proof.
  induction bs as [|x bs IH]; intros t d T Hb Hl; [by rewrite app_nil_r|]. inversion Hb as [|? ? Hx Hb']. subst.
  rewrite zlen_cons in Hl. pose proof (zlen_nonneg bs). unfold d_insert_bytes. cbn [fold_left].
  replace (t ++ x :: bs) with ((t ++ [x]) ++ bs) by (by rewrite <- app_assoc). apply IH; [apply typing_raw; done || lia|done|].
  rewrite zlen_app. change (zlen [x]) with 1. lia.
Qed.

Lemma typing_dchar l t d u : typing l t d -> Forall is_u8 u -> bytes_of (C := C) u <= zlen u -> 1 <= bytes_of (C := C) u -> zlen t + bytes_of (C := C) u < WRAPMARGIN ->
  typing l (t ++ ztake (bytes_of (C := C) u) u) (d_insert_dchar (C := C) wc u d).
Proof.
  intros T Hu Hw Hw1 Hl. unfold d_insert_dchar, d_dchar_overwrite. rewrite (ty_ins _ _ _ T).
  assert (Ef : d_fix_in (C := C) d = d).
  { unfold d_fix_in. rewrite (ty_pnt _ _ _ T), (ty_cur _ _ _ T). replace (zlen t <? zlen t) with false by lia. by rewrite andb_false_r. }
  rewrite Ef. assert (Es : d_dchar_split (C := C) (bytes_of (C := C) u) d = d).
  { unfold d_dchar_split. rewrite (ty_cur _ _ _ T). by replace (zlen t + bytes_of u <? WRAPMARGIN) with true by lia. }
  rewrite Es. pose proof (typing_bytes l (ztake (bytes_of (C := C) u) u) t d T) as T1.
  assert (T2 : typing l (t ++ ztake (bytes_of (C := C) u) u) (d_insert_bytes (C := C) (ztake (bytes_of (C := C) u) u) d)).
  { apply T1; [by apply list.Forall_take|]. rewrite ztake_len by lia. lia. }
  by rewrite (ty_ins _ _ _ T2).
Qed.

Lemma typing_newline l t d : typing l t d -> typing (l ++ [t]) [] (d_split (C := C) (pnt d) 0 d).
Proof.
  intros [Eu Ec Ed Ep Ei En]. unfold d_split, cut_above, upper, lower, cut_from, cut_at. rewrite En, Ep, Ec.
  replace (zlen t <? zlen t) with false by lia. rewrite andb_false_r. replace (zlen t <? zlen t) with false by lia.
  replace (zlen t <=? zlen t) with true by lia. unfold ztake, zdrop.
  replace (Z.to_nat (zlen t)) with (length t) by (unfold zlen; lia). rewrite firstn_all, skipn_all.
  constructor; cbn; try done. by rewrite Eu.
Qed.

Lemma printable_text t : printable t -> text_chars t.
Proof. apply Forall_impl. intros x [Hx Hp]. split; [done|]. unfold isprint2, ESC_CHR in *. destruct Hp; lia. Qed.

Lemma printable_plain t : printable t -> plain (t ++ [10]).
Proof.
  intros Hp. split.
  - apply list.Forall_app. split; [by apply printable_text|]. repeat constructor; done.
  - apply list.Forall_app. split; [|by repeat constructor]. revert Hp. apply Forall_impl. intros x [_ Hx] ->. cbn in Hx. by destruct Hx.
Qed.

Lemma typing_loop fuel : forall l t d u, typing l t d -> printable u -> zlen t + zlen u < WRAPMARGIN -> (S (length u) < fuel)%nat ->
  typing (l ++ [t ++ u]) [] (d_insert_loop (C := C) wc fuel (u ++ [10]) d).
Proof.
  induction fuel as [|fuel IH]; intros l t d u T Hu Hl Hf; [lia|]. destruct u as [|x u]; cbn [app d_insert_loop].
  - change (128 <=? 10) with false. cbn zeta. change (1 <? 1) with false. change (isprint2 10 || (10 =? ESC_CHR)) with false.
    change (10 =? 10) with true. cbn iota. rewrite app_nil_r. cbn in Hf. destruct fuel; [lia|]. by apply typing_newline.
  - assert (Hpx : is_u8 x /\ (isprint2 x = true \/ x = ESC_CHR)) by (by inversion Hu). destruct Hpx as [Hx Hpx].
    assert (Hu' : printable u) by (by inversion Hu). rewrite zlen_cons in Hl. pose proof (zlen_nonneg u). cbn in Hf.
    assert (Htc : text_chars ((x :: u) ++ [10])) by (by apply printable_plain).
    cbv zeta. destruct (1 <? (if 128 <=? x then bytes_of (C := C) (x :: u ++ [10]) else 1)) eqn:Ew; zbool.
    + destruct (128 <=? x) eqn:E128; [|lia]. destruct (mb_bytes_at (C := C) (x :: u ++ [10]) Htc) as (w & E & Hw & _ & Hb); [done|].
      assert (Ebw : bytes_of (C := C) (x :: u ++ [10]) = w) by (unfold bytes_of; by rewrite E). rewrite Ebw in *.
      destruct Hb as [->|Hb]; [lia|].
      assert (Hwu : w <= zlen (x :: u)).
      { destruct (Z.le_gt_cases w (zlen (x :: u))) as [|Hgt]; [done|]. exfalso. rewrite take_ge in Hb.
        - assert (H10 : Forall (fun y : Z => 64 <= y) ([10] : list Z)) by (apply (list.Forall_app _ (x :: u)); exact Hb). inversion H10. lia.
        - cbn. rewrite length_app. cbn. unfold zlen in Hgt. cbn in Hgt. lia. }
      pose proof (typing_dchar l t d (x :: u ++ [10])) as Td. rewrite Ebw in Td.
      assert (Hz : zlen (x :: u ++ [10]) = zlen (x :: u) + 1) by (change (x :: u ++ [10]) with ((x :: u) ++ [10]); rewrite zlen_app; done).
      rewrite zlen_cons in Hwu. assert (Td' : typing l (t ++ ztake w (x :: u ++ [10])) (d_insert_dchar (C := C) wc (x :: u ++ [10]) d)).
      { apply Td; [done|by apply text_u8|rewrite Hz, zlen_cons; lia|lia|lia]. }
      clear Td. assert (Ek : ztake w (x :: u ++ [10]) = ztake w (x :: u) /\ zdrop w (x :: u ++ [10]) = zdrop w (x :: u) ++ [10]).
      { change (x :: u ++ [10]) with ((x :: u) ++ [10]). unfold ztake, zdrop. assert (Hle : (Z.to_nat w <= length (x :: u))%nat) by (cbn; unfold zlen in Hwu; lia).
        by rewrite take_app_le, drop_app_le. }
      destruct Ek as [Ek1 Ek2]. rewrite Ek1 in Td'. rewrite Ek2.
      pose proof (IH l _ _ (zdrop w (x :: u)) Td') as G. rewrite <- app_assoc, ztake_zdrop in G. apply G.
      * by apply list.Forall_drop.
      * rewrite zlen_app, ztake_len, zdrop_len by (rewrite zlen_cons; lia). rewrite zlen_cons. lia.
      * unfold zdrop. rewrite length_drop. cbn. lia.
    + assert (Ep : isprint2 x || (x =? ESC_CHR) = true) by (destruct Hpx as [->| ->]; [done|by rewrite Z.eqb_refl, orb_true_r]).
      rewrite Ep. pose proof (IH l (t ++ [x]) (d_insert_char (C := C) wc x d) u) as G.
      rewrite <- app_assoc in G. apply G; [apply typing_char; done || lia|done| |lia].
      rewrite zlen_app. change (zlen [x]) with 1. lia.
Qed.

Lemma typing_cancel l t d : typing l t d -> typing l t (d_cancel d).
Proof. intros []. by constructor. Qed.

Lemma typing_load (ls : list (list Z)) : forall l d, typing l [] d -> Forall file_line ls ->
  typing (l ++ ls) [] (d_load (C := C) wc (map (fun t => t ++ [10]) ls) d).
Proof.
  induction ls as [|t ls IH]; intros l d T Hl; [by rewrite app_nil_r|]. apply list.Forall_cons in Hl as [[Hp Hz] Hl].
  unfold d_load. cbn [map fold_left]. replace (l ++ t :: ls) with ((l ++ [t]) ++ ls) by (by rewrite <- app_assoc). apply IH; [|done].
  unfold d_insert_string. apply (typing_loop _ l [] (d_cancel d) t); [by apply typing_cancel|done|done|rewrite length_app; cbn; lia].
Qed.

Lemma load_lines_of r m (ls : list (list Z)) : Forall file_line ls ->
  lines (d_load (C := C) wc (map (fun t => t ++ [10]) ls) (d_new r m)) = ls ++ [[]].
Proof.
  intros Hl. assert (T0 : typing [] [] (d_new r m)) by (by constructor). pose proof (typing_load ls [] _ T0 Hl) as [Eu Ec Ed _ _ _].
  unfold lines. by rewrite Eu, Ec, Ed.
Qed.

(** *** Moving about *)

Definition is_move (x : command) : bool :=
  match x with
  | Cmd_left | Cmd_right | Cmd_up | Cmd_down | Cmd_pgup | Cmd_pgdn | Cmd_home | Cmd_end | Cmd_bof | Cmd_eof | Cmd_goto _
  | Cmd_next_word | Cmd_prev_word | Cmd_toggle_insert | Cmd_toggle_indent | Cmd_toggle_raw | Cmd_phone_mode
  | Cmd_block_mark false | Cmd_block_cancel | Cmd_block_copy => true
  | _ => false
  end.
(** The inputs that change no text. *)
Fixpoint keeps_text (k : input) : bool :=
  match k with Key_char _ => false | Key_mouse _ _ => true | Key_cmd x => is_move x | Key_resize _ k => keeps_text k end.

Lemma lines_goto d i r p : 0 <= i <= lastl d -> lines (d_goto i r p d) = lines d.
Proof.
  intros Hi. unfold d_goto. set (ls := lines d). unfold lines. cbn [up cur dn w_pnt w_row w_text]. unfold ztake, zdrop.
  destruct (lookup_lt_is_Some_2 ls (Z.to_nat i)) as [t Et]; [unfold ls, lines, lastl, zlen in *; rewrite length_app; cbn; lia|].
  rewrite Et. cbn [default]. replace (Z.to_nat (i + 1)) with (S (Z.to_nat i)) by lia. by apply take_drop_middle.
Qed.

Lemma lines_settle d : lines (d_settle (C := C) d) = lines d.
Proof. unfold d_settle. by destruct (mbcs (d_adjust d)). Qed.

Lemma lines_move al x d : is_move x = true -> 0 <= currl d - row d <= lastl d -> 1 <= height d -> 0 <= row d ->
  lines (d_command (C := C) wc al x d) = lines d.
Proof.
  intros Hm Hw Hh Hr. assert (Hc : 0 <= currl d <= lastl d) by (unfold currl, lastl; pose proof (zlen_nonneg (up d)); pose proof (zlen_nonneg (dn d)); lia).
  assert (Hfx : forall (x0 : bool) dir d', lines (if x0 then d_fix (C := C) dir d' else d') = lines d') by (by intros [] ? ?).
  destruct x; try done; cbn [d_command].
  - unfold d_left. case_match; [by rewrite Hfx|]. case_match; [|done]. zbool. apply lines_goto. lia.
  - unfold d_right. case_match; [by rewrite Hfx|]. case_match; [|done]. zbool. apply lines_goto. lia.
  - unfold d_up. case_match; [|done]. zbool. apply lines_goto. lia.
  - unfold d_down. case_match; [|done]. zbool. apply lines_goto. lia.
  - apply lines_goto. lia.
  - apply lines_goto. lia.
  - apply lines_goto. lia.
  - apply lines_goto. lia.
  - unfold d_goto_line. case_match; [|done]. apply lines_goto. lia.
  - destruct cut; [done|]. by destruct (blk d).
Qed.

Lemma keys_keep al m k : forall d, 0 <= currl d - row d <= lastl d -> 0 <= row d -> can_take (C := C) wc k d -> 3 <= rows d -> keeps_text k = true ->
  lines (d_key (C := C) wc al m k d) = lines d.
Proof.
  induction k as [mb|x y|x|r k IH]; intros d Hw Hr Ht Hh Hk; cbn [d_key keeps_text can_take] in *; try done.
  - case_match; [|by rewrite lines_settle]. unfold d_mouse. change (lastl (w_lind (-1) d)) with (lastl d). change (currl (w_lind (-1) d)) with (currl d).
    change (row (w_lind (-1) d)) with (row d). set (d1 := d_goto _ _ _ _). assert (E : lines d1 = lines d) by (apply (lines_goto (w_lind (-1) d)); change (lastl (w_lind (-1) d)) with (lastl d); lia).
    by destruct (mbcs d1).
  - rewrite lines_settle. set (d1 := match x with Cmd_up | Cmd_down => _ | _ => _ end).
    assert (E : lines d1 = lines d /\ currl d1 = currl d /\ lastl d1 = lastl d /\ row d1 = row d /\ height d1 = height d) by (unfold d1; destruct x; try done; by case_match).
    destruct E as (<- & E2 & E3 & E4 & E5). assert (1 <= height d) by (unfold height; case_match; lia).
    apply lines_move; [done|rewrite E2, E3, E4; lia|lia|lia].
  - destruct Ht as [Hr3 Ht]. by apply (IH (w_rows r d)).
Qed.

Lemma turns_keep al ks : forall s d, Sok s d -> can_take_all (C := C) wc al ks d -> Forall (fun x => keeps_text x.2 = true) ks ->
  lines (d_turns (C := C) wc al ks d) = lines d.
Proof.
  induction ks as [|[m k] ks IH]; intros s d Hs Ht Hk; [done|]. destruct Ht as [Ht Hts]. apply list.Forall_cons in Hk as [Hk Hks]. cbn [snd] in Hk.
  destruct (turn_ok wc wc_le al m k s d Hs Ht) as (s1 & _ & Hs1). cbn [d_turns]. rewrite (IH s1) by done.
  destruct Hs as [((us & c & ds & dl & R) & Hd & Hr) _]. apply keys_keep; try done; [|apply (ok_rows _ _ Hd)].
  destruct (rep_lastl _ _ _ _ _ _ _ _ _ R) as [-> ->]. apply (rp_row R).
Qed.

End Round.
End EditRound.
