(* ===== verification/EditWords.v ===== *)
(** No character is lost: breaking and joining lines changes nothing but spaces. *)

From stdpp Require Import gmap.
From S2P Require Import Prelude Cstr Str Mbs MbsProps Edit EditText EditHeap EditRep EditPos EditList EditSplit EditJoin EditChars EditInsert EditMoves EditCmds EditDelete EditBlocks EditColor EditSession EditStart EditSave EditRound.

#[global] Open Scope Z_scope.
#[global] Open Scope list_scope.

Module EditWords.
Import Cstr Str Mbs MbsProps Edit EditText EditHeap EditRep EditPos EditList EditSplit EditJoin EditChars EditInsert EditMoves EditCmds EditDelete EditBlocks EditColor EditSession EditStart EditSave EditRound.

(** The characters of a text that are not spaces. *)
Definition ink (t : list Z) : list Z := List.filter (fun x => negb (x =? 32)) t.
Definition inks (l : list (list Z)) : list Z := ink (concat l).

(** The text before and after the cursor. *)
Definition before (d : doc) : list Z := concat (up d) ++ ztake (pnt d) (cur d).
Definition after (d : doc) : list Z := zdrop (pnt d) (cur d) ++ concat (dn d).

Section Words.
Context {C : Type} `{MbCodec C}.
Variable wc : Z -> Z.
Implicit Types (d : doc) (t u : list Z) (l : list (list Z)).

Lemma ink_app t u : ink (t ++ u) = ink t ++ ink u.
Proof. apply filter_app. Qed.

Lemma inks_lines d : inks (lines d) = inks (up d) ++ ink (cur d) ++ inks (dn d).
Proof. unfold inks, lines. rewrite concat_app. cbn [concat]. by rewrite !ink_app. Qed.

Lemma ink_blank t : Forall (eq 32) t -> ink t = [].
Proof. induction 1 as [|x t <- _ IH]; [done|]. exact IH. Qed.

Lemma ink_spaces n : ink (spaces n) = [].
Proof. apply ink_blank. unfold spaces. apply list.Forall_replicate. done. Qed.

Lemma ink_skip t : ink (zdrop (spc t) t) = ink t.
Proof.
  unfold zdrop, spc. rewrite Nat2Z.id. induction t as [|x t IH]; [done|]. cbn [run_len]. destruct (32 =? x) eqn:E; [|done].
  cbn [drop]. rewrite IH. cbn [ink List.filter]. by replace (x =? 32) with true by lia.
Qed.

Lemma ink_blank_line t : blank_line t = true -> ink t = [].
Proof.
  unfold blank_line. intros E. rewrite <- ink_skip. zbool. rewrite E. unfold zdrop, zlen. by rewrite Nat2Z.id, skipn_all.
Qed.

Lemma zdrop_plus (q k : Z) t : 0 <= q -> 0 <= k -> zdrop (q + k) t = zdrop k (zdrop q t).
Proof. intros. unfold zdrop. rewrite drop_drop. f_equal. lia. Qed.

Lemma ink_cut d t (p n : Z) : 0 <= cut_at (C := C) d t p -> ink (upper (C := C) d t p) ++ ink (lower (C := C) d t p n) = ink t.
Proof.
  intros Hq. unfold upper, lower, cut_from. rewrite ink_app, ink_spaces. cbn [app]. set (q := cut_at _ _ _) in *.
  assert (E : ink (zdrop (if ind d then q + spc (zdrop q t) else q) t) = ink (zdrop q t)).
  { destruct (ind d); [|done]. rewrite zdrop_plus by (done || unfold spc; lia). apply ink_skip. }
  rewrite E, <- ink_app. by rewrite ztake_zdrop.
Qed.

Lemma inks_split d (p n : Z) : 0 <= cut_at (C := C) d (cur d) p -> inks (lines (d_split (C := C) p n d)) = inks (lines d).
Proof.
  intros Hq. unfold d_split. case_match; [done|]. pose proof (ink_cut d (cur d) p n Hq) as E. case_match.
  - change (lines (d_adjust (w_pnt ?x (w_row ?r (w_text ?u ?c ?n d)))) ) with (lines (w_text u c n d)).
    rewrite !inks_lines. cbn [up cur dn w_text]. unfold inks at 1. rewrite concat_app. cbn [concat]. rewrite app_nil_r, ink_app, <- E, <- !app_assoc. done.
  - rewrite !inks_lines. cbn [up cur dn w_text]. unfold inks at 2. cbn [concat]. rewrite ink_app, <- E, <- !app_assoc. done.
Qed.

Lemma ink_wrap_sp above ww extra p t : ink (wrap_sp above ww extra p t) = ink t.
Proof. unfold wrap_sp. case_match; [|done]. rewrite ink_app. apply app_nil_r. Qed.

Lemma inks_wrap_space above ww extra d : inks (lines (d_wrap_space above ww extra d)) = inks (lines d).
Proof.
  rewrite d_wrap_space_eq. destruct above; [rewrite !inks_lines; cbn [up cur dn w_text]; by rewrite ink_wrap_sp|].
  destruct (dn d) as [|n ds] eqn:E; [done|]. rewrite !inks_lines, E. cbn [up cur dn w_text]. unfold inks at 2 4. cbn [concat].
  by rewrite !ink_app, ink_wrap_sp.
Qed.

Lemma wrap_nonneg t i : 0 <= wrap_of t i.
Proof.
  unfold wrap_of, wrap_point. destruct (assert _); [|done]. cbn [mbind option_bind]. destruct (back_while _ t _) as [m|]; [|done]. cbn [mbind option_bind].
  destruct (back_while _ t m) as [k|]; [|done]. cbn. lia.
Qed.

Lemma inks_put x d : is_u8 x -> inks (lines (d_put x d)) = ink (before d) ++ ink [x] ++ ink (after d).
Proof.
  intros Hx. rewrite inks_lines. cbn [up cur dn w_text d_put w_pnt]. unfold before, after, inks.
  assert (Eu : u8 x = x) by (unfold u8, is_u8 in *; by rewrite Z.mod_small). rewrite Eu, !ink_app.
  change (ink (x :: zdrop (pnt d) (cur d))) with (ink ([x] ++ zdrop (pnt d) (cur d))). by rewrite ink_app, <- !app_assoc.
Qed.

Lemma inks_around d : inks (lines d) = ink (before d) ++ ink (after d).
Proof.
  rewrite inks_lines. unfold before, after, inks. rewrite !ink_app. rewrite <- (ztake_zdrop (pnt d) (cur d)) at 1.
  by rewrite ink_app, <- !app_assoc.
Qed.
End Words.

Section Keys.
Context {C : Type} `{MbShort C}.
Variable wc : Z -> Z.
Hypothesis wc_le : forall u, wc u <= 2.
Implicit Types (d : doc) (t u : list Z) (l : list (list Z)).

Lemma inks_raw x d : doc_ok d -> is_u8 x -> x <> 0 ->
  inks (lines (d_raw_insert (C := C) x d)) = ink (before d) ++ ink [x] ++ ink (after d).
Proof.
  intros Hd Hx H0'. unfold d_raw_insert. set (d1 := d_put x (d_cancel d)).
  assert (E : inks (lines d1) = ink (before d) ++ ink [x] ++ ink (after d)) by (by apply (inks_put x (d_cancel d))).
  destruct (doc_put (WRAPMARGIN - 1) (d_cancel d) x) as (Hd1 & _); [by apply doc_w_blk|done|done|]. fold d1 in Hd1.
  case_match; [exact E|]. destruct (wrap_cut (cur d1)) as [ww p] eqn:Ew. rewrite inks_wrap_space, inks_split; [exact E|].
  apply cut_at_ok; [apply (ok_chars _ _ Hd1)|]. unfold wrap_cut in Ew. case_match; injection Ew as <- <-.
  - apply fixp_ok; [apply (ok_chars _ _ Hd1)|]. destruct (doc_put (WRAPMARGIN - 1) (d_cancel d) x) as (_ & Hz & _); [by apply doc_w_blk|done|done|].
    fold d1 in Hz. pose proof (zlen_nonneg (cur (d_cancel d))). change (0 <= zlen (cur d1) - 1). lia.
  - pose proof (wrap_nonneg (cur d1) (zlen (cur d1) - 1)). change (0 <= wrap_of (cur d1) (zlen (cur d1) - 1) + 1). lia.
Qed.

Lemma inks_join d : doc_ok d -> inks (lines (d_join (C := C) d)) = inks (lines d).
Proof.
  intros Hd. unfold d_join. destruct (dn d) as [|n ds] eqn:Ed; [done|].
  assert (Hn : text_chars n) by (pose proof (ok_dn _ _ Hd) as Hdn; rewrite Ed in Hdn; by inversion Hdn as [|? ? [? _] _]).
  assert (Ein : inks (lines d) = inks (up d) ++ ink (cur d) ++ ink n ++ inks ds) by (rewrite inks_lines, Ed; unfold inks at 2; cbn [concat]; by rewrite ink_app).
  destruct (blank_line n) eqn:Eb; [rewrite Ein, inks_lines, (ink_blank_line n Eb); done|].
  destruct (zlen (cur d) + zlen n <? WRAPMARGIN) eqn:Ez; [rewrite Ein, inks_lines; cbn [up cur dn w_text]; by rewrite ink_app, <- app_assoc|].
  set (i := wrap_of n _). destruct (i =? 0) eqn:Ei; [done|]. assert (Hc : 0 <= cut_at (C := C) d n (i + 1)).
  { apply cut_at_ok; [done|]. pose proof (wrap_nonneg n (WRAPMARGIN - 1 - zlen (cur d))). unfold i. lia. }
  rewrite Ein, inks_lines. cbn [up cur dn w_text]. unfold inks at 2. cbn [concat]. rewrite <- (ink_cut d n (i + 1) 0 Hc), ink_app, <- !app_assoc.
  f_equal. destruct (blank_line (upper d n (i + 1))) eqn:Ea; [by rewrite (ink_blank_line _ Ea)|]. by rewrite ink_app, <- app_assoc.
Qed.

(** What an input adds to the text, when it only adds, or breaks or joins lines. *)
Definition adds (k : input) d : option (list Z) :=
  match k with
  | Key_char [x] => if ins d then Some [x] else None
  | Key_cmd Cmd_enter => Some []
  | Key_cmd Cmd_delete => if pnt d =? zlen (cur d) then Some [] else None
  | Key_cmd Cmd_backspace => if pnt d =? 0 then Some [] else None
  | _ => None
  end.

Lemma inks_enter al d : doc_ok d -> inks (lines (d_enter (C := C) al d)) = inks (lines d).
Proof.
  intros Hd. unfold d_enter. case_match; [done|]. rewrite inks_split; [done|]. apply cut_at_ok; [apply (ok_chars _ _ Hd)|apply (ok_pnt _ _ Hd)].
Qed.

Lemma inks_backspace d : doc_ok d -> pnt d = 0 -> inks (lines (d_backspace (C := C) d)) = inks (lines d).
Proof.
  intros Hd Hp. unfold d_backspace. change (ansi (d_cancel d)) with (ansi d). destruct (ansi d); [done|].
  change (pnt (d_cancel d)) with (pnt d). rewrite Hp, Z.eqb_refl. case_match; [|done]. zbool.
  change (currl (d_cancel d)) with (currl d) in *. assert (Hc : 0 <= currl d - 1 <= lastl (d_cancel d)).
  { unfold currl, lastl in *. change (up (d_cancel d)) with (up d). pose proof (zlen_nonneg (dn (d_cancel d))). lia. }
  rewrite inks_join; [by rewrite lines_goto|]. apply doc_goto; [by apply doc_w_blk|done|]. pose proof (zlen_nonneg (line (d_cancel d) (currl d - 1))). lia.
Qed.

Lemma inks_key al m k u s d : Sok s d -> can_take (C := C) wc k d -> adds k d = Some u ->
  inks (lines (d_key (C := C) wc al m k d)) = ink (before d) ++ ink u ++ ink (after d).
Proof.
  intros [(_ & Hd & _) _] Ht Ha. destruct k as [mb| |x|]; cbn [adds] in Ha; try done.
  - destruct mb as [|x [|? ?]]; try done. destruct (ins d) eqn:Ei; [|done]. injection Ha as <-. cbn [d_key].
    change (1 <? zlen [x]) with false. cbn iota. unfold d_insert_char. rewrite Ei. assert (Hx : is_u8 x /\ x <> 0) by (destruct Ht as (_ & _ & Ht & _); by inversion Ht).
    rewrite d_raw_insert_ins, Ei. change (inks (lines (d_raw_insert (C := C) x d)) = ink (before d) ++ ink [x] ++ ink (after d)). by destruct Hx; apply inks_raw.
  - cbn [d_key]. rewrite lines_settle. destruct x; try done; cbn [d_command].
    + injection Ha as <-. rewrite inks_enter; [apply (inks_around (w_lind (-1) d))|by destruct Hd].
    + destruct (pnt d =? 0) eqn:Ep; [|done]. injection Ha as <-. zbool. rewrite inks_backspace; [apply (inks_around (w_lind (-1) d))|by destruct Hd|done].
    + destruct (pnt d =? zlen (cur d)) eqn:Ep; [|done]. injection Ha as <-. zbool. unfold d_delete_key.
      replace (zlen (cur (d_cancel _)) =? pnt (d_cancel _)) with true by (symmetry; cbn; lia).
      rewrite inks_join; [apply (inks_around (w_lind (-1) d))|apply doc_w_blk; by destruct Hd].
Qed.

End Keys.
End EditWords.
