(* ===== verification/EditProps.v ===== *)
(** The editor: what holds of every session, from a file that is opened to the
    memory that is given back. *)

From Stdlib Require Import String.
From stdpp Require Import gmap.
From S2P Require Import Prelude Cstr Str Utf8 Mbs MbsProps Edit EditText EditHeap EditRep EditPos EditList EditSplit EditJoin EditChars EditInsert EditMoves EditCmds EditDelete EditBlocks EditColor EditSession EditStart EditSave EditRound EditWords.

#[global] Open Scope Z_scope.
#[global] Open Scope list_scope.

Module EditProps.
Import Cstr Str Mbs MbsProps Edit EditText EditHeap EditRep EditPos EditList EditSplit EditJoin EditChars EditInsert EditMoves EditCmds EditDelete EditBlocks EditColor EditSession EditStart EditSave EditRound EditWords.

(** The lines that are left when those from [i] to [j] go: there is always one. *)
Definition without_lines (i j : Z) (l : list (list Z)) : list (list Z) :=
  match ztake i l ++ zdrop (j + 1) l with [] => [[]] | l => l end.

(** A line on the heap: an array of [alloc_len + 1] characters with a string of
    [len] of them, and neighbours that point back. *)
Definition line_typed (s : editor) (p : ptr) (t : textline_t) : Prop :=
  0 <= len t < WRAPMARGIN /\ len t <= alloc_len t /\ zlen (data t) = alloc_len t + 1 /\
  (exists x, c_str (data t) 0 = Some x /\ zlen x = len t /\ text_chars x) /\
  (forall q, next t = Some q -> exists u, heap s !! q = Some u /\ prev u = Some p) /\
  (forall q, prev t = Some q -> exists u, heap s !! q = Some u /\ next u = Some p).
Definition allocated (o : option ptr) (s : editor) : Prop := forall p, o = Some p -> is_Some (heap s !! p).

(** Every block is a line, and every pointer of the editor points to one. *)
Definition well_typed (s : editor) : Prop :=
  map_Forall (line_typed s) (heap s) /\
  Forall (fun o => is_Some o /\ allocated o s) [firstline s; lastline s; currline s; top_of_win s] /\
  Forall (fun o => allocated o s) [blockline s; deleted_line s; oldcurrline s].

Section Props.
Context `{LibcOk} {C : Type} `{MbShort C}.
Variable wc : Z -> Z.
Hypothesis wc_le : forall u, wc u <= 2.
Variables (rows : Z) (mb al : bool) (bufs : list (list Z)).

(** A session on the lines of a file, and the text it stands for. *)
Definition session (ks : list (Z * input)) : option editor :=
  s ← vedit_open (C := C) wc rows mb bufs; vedit_turns (C := C) wc al ks s.
Definition opened : doc := d_start (d_file (C := C) wc bufs (d_new rows mb)).
Definition session_text (ks : list (Z * input)) : doc := d_turns (C := C) wc al ks opened.

(** The inputs of a session that the editor can take. *)
Definition session_input (ks : list (Z * input)) : Prop :=
  3 <= rows /\ Forall plain bufs /\ can_take_all (C := C) wc al ks opened.

Lemma session_ok ks : session_input ks -> exists s, session ks = Some s /\ Sok s (session_text ks).
Proof.
  intros (Hr & Hb & Hk). unfold session. destruct (open_ok wc wc_le rows mb bufs Hr Hb) as (s & -> & Hs). cbn [mbind option_bind].
  by apply turns_ok.
Qed.

Lemma turns_app ks : forall ks' d, d_turns (C := C) wc al (ks ++ ks') d = d_turns (C := C) wc al ks' (d_turns (C := C) wc al ks d).
Proof. induction ks as [|[m k] ks IH]; intros ks' d; [done|]. apply IH. Qed.

Lemma take_app_all ks : forall ks' d, can_take_all (C := C) wc al ks d -> can_take_all (C := C) wc al ks' (d_turns (C := C) wc al ks d) ->
  can_take_all (C := C) wc al (ks ++ ks') d.
Proof. induction ks as [|[m k] ks IH]; intros ks' d Hk Hk'; [done|]. destruct Hk as [Hk Hks]. split; [done|]. by apply IH. Qed.

Lemma session_then ks l s o : session ks = Some s -> vedit_turns (C := C) wc al l s = o -> session (ks ++ l) = o.
Proof.
  unfold session. destruct (vedit_open wc rows mb bufs) as [s0|]; [|done]. cbn [mbind option_bind]. revert s0.
  induction ks as [|[m k] ks IH]; intros s0 E <-; [by injection E as ->|]. cbn [app vedit_turns] in *.
  destruct (vedit_turn wc al m k s0) as [s1|]; [|done]. cbn [mbind option_bind] in *. by apply IH.
Qed.

(** Where a click on the last row but one, and a character, leave the cursor. *)
Lemma click_leaves m x s d : Sok s d -> let d' := d_key (C := C) wc al m (Key_mouse x (EditText.rows d - 2)) d in
  height d' <= row d' <-> phone d = true /\ EditText.rows d - 2 <= lastl d - (currl d - row d).
Proof.
  intros [((us & c & ds & dl & R) & Hd & Hr) _] d'. pose proof (ok_rows _ _ Hd) as Hr3. pose proof (rp_row R) as Hw.
  destruct (rep_lastl _ _ _ _ _ _ _ _ _ R) as [E1 E2].
  assert (Er : row d' = Z.min (lastl d) (currl d - row d + (EditText.rows d - 2)) - (currl d - row d) /\ height d' = height d).
  { unfold d'. cbn [d_key]. change (EditText.rows (w_lind (-1) d)) with (EditText.rows d).
    replace ((0 <=? EditText.rows d - 2) && (EditText.rows d - 2 <? EditText.rows d - 1)) with true by lia.
    unfold d_mouse. match goal with |- context [d_goto ?i ?r ?p ?e] => set (g := d_goto i r p e) end.
    assert (Eg : row g = Z.min (lastl d) (currl d - row d + (EditText.rows d - 2)) - (currl d - row d) /\ height g = height d) by done.
    by destruct (mbcs g). }
  destruct Er as [-> ->]. unfold height. destruct (phone d); split; [intros; split; [done|]|..]; lia || (intros [? ?]; done || lia).
Qed.

Lemma char_leaves m r ch d : ins d = true -> zlen (cur d) < WRAPMARGIN - 1 -> let d' := d_key (C := C) wc al m (Key_resize r (Key_char [ch])) d in
  height d' <= row d' <-> height (w_rows r d) <= row d.
Proof.
  intros Hins Hz d'. assert (E : height d' = height (w_rows r d) /\ row d' = row d); [|by destruct E as [-> ->]].
  unfold d'. cbn [d_key]. change (1 <? zlen [ch]) with false. cbn iota. unfold d_insert_char.
  change (ins (w_rows r d)) with (ins d). rewrite Hins, d_raw_insert_ins. change (ins (w_rows r d)) with (ins d). rewrite Hins.
  unfold d_raw_insert. set (d1 := d_put _ _). assert (El : zlen (cur d1) <= zlen (cur d) + 1).
  { cbn. rewrite zlen_app, zlen_cons. unfold ztake, zdrop, zlen. rewrite length_take, length_drop. lia. }
  replace (zlen (cur d1) <? WRAPMARGIN) with true by lia. done.
Qed.

(** One more turn, or two. *)
Lemma session_more ks ks' : session_input ks -> can_take_all (C := C) wc al ks' (session_text ks) -> exists s,
  session (ks ++ ks') = Some s /\ Sok s (d_turns (C := C) wc al ks' (session_text ks)) /\ text_of s = Some (lines (d_turns (C := C) wc al ks' (session_text ks))).
Proof.
  intros (Hr & Hb & Hk) Hk'. destruct (session_ok (ks ++ ks')) as (s & E & Hs).
  - split; [done|]. split; [done|]. by apply take_app_all.
  - exists s. unfold session_text in *. rewrite turns_app in Hs. split; [done|]. split; [done|]. by apply text_ok, Hs.
Qed.

(** *** Types *)

Lemma cell_typed s p pv nx r : heap s !! p = Some (cell pv nx r) -> line_ok (txt r) ->
  (forall q, nx = Some q -> exists u, heap s !! q = Some u /\ prev u = Some p) ->
  (forall q, pv = Some q -> exists u, heap s !! q = Some u /\ next u = Some p) -> line_typed s p (cell pv nx r).
Proof.
  intros Hp [Hc Hl] Hn Hv. unfold line_typed. cbn [len alloc_len data next prev cell]. pose proof (zlen_nonneg (txt r)). pose proof (zlen_nonneg (slack r)).
  rewrite zlen_app, zlen_cons. split_and!; try done; try lia. exists (txt r). split; [by apply c_str_at, text_c_string|done].
Qed.

Lemma nodes_ok s us c ds dl d i q r : rep None true 0 s us c ds dl d -> doc_ok d -> (us ++ c :: ds) !! i = Some (q, r) -> line_ok (txt r).
Proof.
  intros R Hd Hi. assert (Hls : Forall line_ok (lines d)).
  { apply list.Forall_app. split; [apply (ok_up _ _ Hd)|]. apply list.Forall_cons. split; [by apply doc_ok_cur|apply (ok_dn _ _ Hd)]. }
  rewrite (rep_lines _ _ _ _ _ _ _ _ _ R) in Hls. apply (list.Forall_lookup_1 _ _ i _ Hls). unfold texts. by rewrite list_lookup_fmap, Hi.
Qed.

Lemma typed_ok s d : Ok s d -> well_typed s.
Proof.
  intros ((us & c & ds & dl & R) & Hd & _). set (L := us ++ c :: ds).
  assert (Hal : forall i, (i < length L)%nat -> is_Some (ptrs L !! i) /\ allocated (ptrs L !! i) s).
  { intros i Hi. destruct (ptrs L !! i) as [q|] eqn:E; [|apply lookup_ge_None in E; rewrite ptrs_length in E; lia]. split; [done|].
    intros x [= <-]. destruct (node_at _ _ _ _ _ _ _ _ _ _ _ R E) as (r & _ & _ & ->). done. }
  assert (Hin : forall x, x ∈ ptrs L -> is_Some (heap s !! x)).
  { intros x (i & Hi)%list_elem_of_lookup. destruct (node_at _ _ _ _ _ _ _ _ _ _ _ R Hi) as (r & _ & _ & ->). done. }
  assert (HL : length L = (length us + S (length ds))%nat) by (unfold L; rewrite length_app; done). pose proof (rp_row R) as Hrow.
  split; [|split].
  - intros p t Hp. destruct (rp_dom R p t Hp) as [(i & Hi)%list_elem_of_lookup|[(r & ->)|(? & ?)]]; [| |done].
    + destruct (node_at _ _ _ _ _ _ _ _ _ _ _ R Hi) as (r & Er & _ & Hq). rewrite Hq in Hp. injection Hp as <-.
      apply cell_typed; [done|by apply (nodes_ok s us c ds dl d i p)|intros q Eq|intros q Eq].
      * destruct (node_at _ _ _ _ _ _ _ _ _ _ _ R Eq) as (r' & _ & _ & Hq'). eexists. split; [exact Hq'|exact Hi].
      * destruct i as [|i]; [done|]. cbn [prev_ix] in Eq. destruct (node_at _ _ _ _ _ _ _ _ _ _ _ R Eq) as (r' & _ & _ & Hq').
        eexists. split; [exact Hq'|exact Hi].
    + pose proof (rp_del R) as Hdl. cbn in Hdl. destruct Hdl as (_ & Hq & _ & _). rewrite Hq in Hp. injection Hp as <-.
      apply cell_typed; [done| |done|done]. apply (ok_del _ _ Hd). by rewrite (rp_delt R).
  - rewrite (rp_first R), (rp_last R), (rp_cur R), (rp_top R), head_ptr_ptrs, last_ptr_lookup, <- (ptr_cur us c ds). fold L.
    repeat (apply list.Forall_cons; split; [apply Hal; unfold zlen in *; lia|]). apply list.Forall_nil. done.
  - repeat (apply list.Forall_cons; split); [| | |by apply list.Forall_nil]; intros x Ex.
    + pose proof (rp_blk R) as Hb. unfold blk_rep in Hb. destruct (blk d); [|destruct Hb; congruence].
      destruct Hb as (_ & _ & q & Eq & Hq & _). assert (x = q) as -> by congruence. by apply Hin.
    + pose proof (rp_del R) as Hdl. unfold del_rep in Hdl. destruct dl as [[q r]|]; [|congruence]. destruct Hdl as (Eq & Hq & _).
      assert (x = q) as -> by congruence. by rewrite Hq.
    + by apply Hin, (rp_old R).
Qed.

(** *** Properties *)

(** C3. The linked list implements the text with a cursor: a session never fails,
    and the lines read off the heap, the cursor, the window, the mark and the modes are those
    of the abstract machine after the same inputs. *)
Theorem editor_refines_text ks : session_input ks -> exists s, session ks = Some s /\
  let d := session_text ks in
  text_of s = Some (lines d) /\ currln s = currl d /\ totaln s = lastl d /\ currpnt s = pnt d /\ curr_window_line s = row d /\
  blockln s = default (-1) (blk d) /\ insert_mode s = ins d /\ ansimode s = ansi d /\ indent_mode s = ind d /\ mbcs_mode s = mbcs d.
Proof.
  intros Hi. destruct (session_ok ks Hi) as (s & E & [Ho _]). exists s. split; [done|]. cbn zeta. split; [by apply text_ok|].
  destruct Ho as [(us & c & ds & dl & R) _]. destruct (rep_lastl _ _ _ _ _ _ _ _ _ R) as [-> ->]. pose proof (rp_blk R) as Hb.
  unfold blk_rep in Hb. destruct R. rewrite rp_totaln0, Z.add_0_r. split_and!; try done.
  destruct (blk _); [by destruct Hb as (_ & ? & _)|by destruct Hb].
Qed.

(** C4. After any session of inputs the editor can take ([can_take]) every assertion
    of the health check of the code holds, and leaving the editor frees every block of memory once: nothing is left on the heap. *)
Theorem editor_safe_no_leak ks : session_input ks -> exists s s', session ks = Some s /\
  edit_check_healthy s = Some tt /\ edit_buffer_destructor s = Some s' /\ heap s' = ∅.
Proof.
  intros Hi. destruct (session_ok ks Hi) as (s & E & Hs). destruct (destructor_ok s _ (proj1 Hs)) as (s' & E' & Hh).
  exists s, s'. split_and!; [done|by apply health_ok with (session_text ks)|done|done].
Qed.

(** C14. The heap stays well typed: every block is a line of fewer than
    [WRAPMARGIN] characters, with its NUL inside its array, whose neighbours are
    lines that point back to it, and no pointer of the editor dangles. *)
Theorem editor_heap_typed ks : session_input ks -> exists s, session ks = Some s /\ well_typed s.
Proof.
  intros Hi. destruct (session_ok ks Hi) as (s & E & [Ho _]). exists s. split; [done|]. by apply typed_ok with (1 := Ho).
Qed.

(** C13. A file of lines of fewer than 511 characters, printable or ESC, each with its
    newline, is saved as its lines are: after any session the bytes written are
    the lines of the text, each without its trailing spaces and with the
    sequences that move the cursor made harmless, and no line of them ends in a
    space or moves the cursor.  When the session only moved about, these are the
    lines of the file, and a line with neither is written as it was read: the
    file of such lines comes back byte for byte. *)
Theorem editor_open_save (ls : list (list Z)) ks : bufs = map (fun t => t ++ [10]) ls -> Forall file_line ls -> session_input ks ->
  exists s s', session ks = Some s /\ write_body s = Some (s', saved (lines (session_text ks))) /\
    Forall tidy (map saved_line (lines (session_text ks))) /\
    (Forall (fun x => keeps_text x.2 = true) ks ->
       saved (lines (session_text ks)) = file_of (map saved_line ls) /\
       (Forall clean ls -> saved (lines (session_text ks)) = concat bufs)).
Proof.
  intros Eb Hl Hi. destruct (session_ok ks Hi) as (s & E & [Ho _]). destruct (write_ok s _ Ho) as (s' & E'). exists s, s'.
  split; [done|]. split; [done|]. split.
  { apply List.Forall_map, List.Forall_forall. intros t _. apply saved_line_tidy. }
  intros Hk. pose proof Hi as (Hr & Hb & Ht). destruct (open_ok wc wc_le rows mb bufs Hr Hb) as (s0 & _ & Hs0).
  assert (El : lines (session_text ks) = ls ++ [[]]).
  { unfold session_text. rewrite (turns_keep wc wc_le al ks s0 opened Hs0 Ht Hk). unfold opened, d_start.
    rewrite lines_goto; [|unfold lastl; pose proof (zlen_nonneg (up (d_file wc bufs (d_new rows mb)))); pose proof (zlen_nonneg (dn (d_file wc bufs (d_new rows mb)))); lia].
    change (lines (d_file wc bufs (d_new rows mb))) with (lines (d_load wc bufs (d_new rows mb))). by rewrite Eb, (load_lines_of wc). }
  rewrite El, saved_lines. split; [done|]. intros Hc. by rewrite map_clean, Eb.
Qed.

(** C5. Typing a character, breaking a line and joining two lose nothing and
    put nothing out of order: but for spaces, the text is what was before the cursor, what is typed, and
    what was after it, however the lines are wrapped. *)
Theorem editor_typing_keeps_text ks m k u : session_input ks -> can_take (C := C) wc k (session_text ks) -> adds k (session_text ks) = Some u ->
  exists s l, session (ks ++ [(m, k)]) = Some s /\ text_of s = Some l /\
    inks l = ink (before (session_text ks)) ++ ink u ++ ink (after (session_text ks)).
Proof.
  intros Hi Hk Ha. destruct (session_more ks [(m, k)] Hi) as (s & E & _ & El); [done|]. exists s. eexists. split; [exact E|]. split; [exact El|].
  cbn [d_turns]. destruct (session_ok ks Hi) as (s0 & _ & Hs0). by apply (inks_key wc al m k u s0).
Qed.

Lemma settle_blk d : blk (d_settle (C := C) d) = blk d.
Proof. unfold d_settle. by destruct (mbcs (d_adjust d)). Qed.

Lemma settle_text d : up (d_settle (C := C) d) = up d /\ del (d_settle (C := C) d) = del d.
Proof. unfold d_settle. by destruct (mbcs (d_adjust d)). Qed.

Lemma lines_cut d (b : Z) : blk d = Some b -> lines (d_block_delete d) = without_lines (blk_begin b d) (blk_end b d) (lines d).
Proof.
  intros Hb. unfold d_block_delete, without_lines. rewrite Hb. set (U := ztake _ _). set (D := zdrop _ _).
  destruct D as [|n D]; [|change (U ++ n :: D = match U ++ n :: D with [] => [[]] | l => l end); by destruct U].
  rewrite app_nil_r. destruct (rev U) as [|p V] eqn:E; apply (f_equal (@rev _)) in E; rewrite rev_involutive in E; [by rewrite E|].
  rewrite E. cbn [rev]. change (rev V ++ [p] = match rev V ++ [p] with [] => [[]] | l => l end). by destruct (rev V).
Qed.

(** C12. Cutting a block removes the lines from the mark to the cursor, either
    way round, and only them; an empty line is left when nothing else is. *)
Theorem editor_cut_removes_block ks m (b : Z) : session_input ks -> blk (session_text ks) = Some b ->
  exists s, session (ks ++ [(m, Key_cmd Cmd_cut)]) = Some s /\
    text_of s = Some (without_lines (Z.min b (currl (session_text ks))) (Z.max b (currl (session_text ks))) (lines (session_text ks))) /\
    blockln s = -1 /\ blockline s = None.
Proof.
  intros Hi Hb. destruct (session_more ks [(m, Key_cmd Cmd_cut)] Hi) as (s & E & [Ho _] & El); [done|]. exists s. split; [exact E|].
  rewrite El. cbn [d_turns d_key d_command] in *. set (d := w_lind (-1) (session_text ks)) in *. rewrite lines_settle, (lines_cut d b) by done.
  split; [done|]. destruct Ho as [(us & c & ds & dl & R) _]. pose proof (rp_blk R) as Hbr. unfold blk_rep in Hbr.
  assert (En : blk (d_settle (C := C) (d_block_delete d)) = None).
  { rewrite settle_blk. unfold d_block_delete. change (blk d) with (blk (session_text ks)). by rewrite Hb. }
  by rewrite En in Hbr.
Qed.

(** C35. What the inputs left out of [can_take] for the place of the cursor do, after any session
    the editor can take: the turn itself goes well and the text is what it should be,
    but the health check ends the process at the next turn exactly when the cursor is below the
    window.  A click on the last row but one does this exactly when the symbols are
    shown there and the text reaches it; a character of one byte, inserted in a line that
    is not full in the same turn as a change of the size of the terminal, exactly when
    the cursor is below what is left. *)
Theorem editor_leaves_window ks m k : session_input ks -> can_store (C := C) wc k (session_text ks) ->
  let d := session_text ks in let d' := d_key (C := C) wc al m k d in
  exists s, session (ks ++ [(m, k)]) = Some s /\ text_of s = Some (lines d') /\
    (forall m' k', can_store (C := C) wc k' d' -> session (ks ++ [(m, k); (m', k')]) = None <-> height d' <= row d') /\
    (forall x, k = Key_mouse x (EditText.rows d - 2) -> height d' <= row d' <-> phone d = true /\ EditText.rows d - 2 <= lastl d - (currl d - row d)) /\
    (forall r ch, k = Key_resize r (Key_char [ch]) -> ins d = true -> zlen (cur d) < WRAPMARGIN - 1 ->
       height d' <= row d' <-> height (w_rows r d) <= row d).
Proof.
  intros Hi Hk d d'. destruct (session_ok ks Hi) as (s0 & E0 & Hs0). destruct (turn_store_ok wc wc_le al m k s0 d Hs0 Hk) as (s & E & Ho).
  assert (Ek : forall l, session (ks ++ (m, k) :: l) = vedit_turns (C := C) wc al l s).
  { intros l. apply session_then with s0; [done|]. cbn [vedit_turns]. by rewrite E. }
  exists s. split; [apply (Ek [])|]. split; [by apply text_ok|]. split_and!.
  - intros m' k' Hk'. rewrite Ek, <- (turn_check wc wc_le al m' k' s d' Ho Hk'). cbn [vedit_turns]. by destruct (vedit_turn wc al m' k' s).
  - intros x Ex. unfold d'. rewrite Ex. by apply click_leaves with s0.
  - intros r ch Ex Hins Hz. unfold d'. rewrite Ex. by apply char_leaves.
Qed.

(** A line that is deleted comes back where it was: deleting the line of
    the cursor and undeleting it restores the text, unless it was the last line. *)
Theorem editor_undelete_restores ks m : session_input ks -> currl (session_text ks) < lastl (session_text ks) ->
  exists s, session (ks ++ [(m, Key_cmd Cmd_del_line); (m, Key_cmd Cmd_undelete_line)]) = Some s /\
    text_of s = Some (lines (session_text ks)).
Proof.
  intros Hi Hl. destruct (session_more ks [(m, Key_cmd Cmd_del_line); (m, Key_cmd Cmd_undelete_line)] Hi) as (s & E & _ & El); [done|].
  exists s. split; [exact E|]. rewrite El. f_equal. cbn [d_turns d_key d_command]. set (d := session_text ks) in *. rewrite lines_settle.
  unfold d_del_line, d_del_current. cbn [dn up cur w_lind w_pnt d_cancel w_blk]. destruct (dn d) as [|n D] eqn:Ed; [unfold currl, lastl in Hl; rewrite Ed in Hl; change (zlen []) with 0 in Hl; lia|].
  unfold d_undelete. set (e := w_del _ _). assert (Et : lines (d_settle (C := C) e) = up d ++ n :: D /\ del (d_settle (C := C) e) = Some (cur d) /\
    up (d_settle (C := C) e) = up d) by (rewrite lines_settle; destruct (settle_text e) as [-> ->]; done).
  destruct Et as (E1 & E2 & E3). change (del (w_lind (-1) (d_settle e))) with (del (d_settle (C := C) e)). rewrite E2.
  unfold lines in E1 |- *. cbn [up cur dn w_pnt w_text w_lind d_cancel w_blk]. rewrite E3 in E1 |- *. apply app_inv_head in E1. by rewrite E1, Ed.
Qed.

End Props.

(** *** Instances *)

(** Blocks that move when their size is odd. *)
#[local] Instance demo_libc : Libc :=
  {| malloc_at h := fresh (map_to_list h).*1; realloc_moves _ _ n := Z.odd n; garbage _ i := i |}.
#[local] Instance demo_libc_ok : LibcOk.
Proof.
  intros h. destruct (h !! malloc_at h) as [t|] eqn:E; [|done]. exfalso. apply (infinite_is_fresh (map_to_list h).*1).
  apply list_elem_of_fmap. exists (malloc_at h, t). split; [done|]. by apply elem_of_map_to_list.
Qed.

(** A kana and a Chinese character of three bytes each, one and two columns wide. *)
Definition demo_wc (u : Z) : Z := if (u <? 256) || (u =? 0xFF71) then 1 else 2.
Definition kana : list Z := [0xEF; 0xBD; 0xB1].
Definition zhong : list Z := [0xE4; 0xB8; 0xAD].

Lemma demo_wc_le u : demo_wc u <= 2.
Proof. unfold demo_wc. case_match; lia. Qed.

Abbreviation demo_session := (session (C := Utf8.utf8_ctx) demo_wc 24 true false).
Abbreviation demo_input := (session_input (C := Utf8.utf8_ctx) demo_wc 24 true false).
Abbreviation demo_text := (session_text (C := Utf8.utf8_ctx) demo_wc 24 true false).
Definition file (ls : list (list Z)) : list (list Z) := map (fun t => t ++ [10]) ls.
Definition cmd (x : command) : Z * input := (0, Key_cmd x).
Definition typed (t : list Z) : Z * input := (0, Key_char t).

Lemma demo_input_ok fs ks :
  forallb plain_b fs && can_take_all_b (C := Utf8.utf8_ctx) demo_wc false ks (opened (C := Utf8.utf8_ctx) demo_wc 24 true fs) = true ->
  demo_input fs ks.
Proof. intros [Hf Hk]%andb_true_iff. split; [lia|]. split; [by apply plains_b_ok|by apply can_take_all_b_ok]. Qed.

Definition demo_ls : list (list Z) := [str "hello world"; str "second"; str "third"].
Definition demo_keys : list (Z * input) :=
  [typed [65]; cmd Cmd_tab; typed zhong; cmd Cmd_down; cmd Cmd_end; cmd Cmd_enter; cmd (Cmd_block_mark false); cmd Cmd_up; cmd Cmd_cut; cmd Cmd_del_line;
   cmd Cmd_undelete_line; cmd Cmd_pgdn; cmd Cmd_toggle_insert; (3, Key_mouse 1 0); typed [66]; (0, Key_resize 10 (Key_cmd Cmd_eof))].
Definition demo_moves : list (Z * input) := [cmd Cmd_down; cmd Cmd_end; cmd Cmd_pgup; (0, Key_mouse 3 1); cmd Cmd_right; cmd Cmd_eof].

Lemma editor_refines_text_witness : demo_input (file demo_ls) demo_keys /\ exists s, demo_session (file demo_ls) demo_keys = Some s /\
  text_of s = Some [65 :: spaces 7 ++ zhong ++ str "hello world"; str "third"; [66]] /\ currln s = 2.
Proof.
  assert (Hi : demo_input (file demo_ls) demo_keys) by (apply demo_input_ok; by vm_compute). split; [exact Hi|].
  destruct (editor_refines_text demo_wc demo_wc_le 24 true false (file demo_ls) demo_keys Hi) as (s & E & Et & Ec & _).
  exists s. split; [exact E|]. rewrite Et, Ec. split; by vm_compute.
Defined.

Lemma editor_safe_no_leak_witness : demo_input (file demo_ls) demo_keys /\ exists s s', demo_session (file demo_ls) demo_keys = Some s /\
  edit_check_healthy s = Some tt /\ edit_buffer_destructor s = Some s' /\ heap s' = ∅.
Proof.
  assert (Hi : demo_input (file demo_ls) demo_keys) by (apply demo_input_ok; by vm_compute). split; [exact Hi|].
  exact (editor_safe_no_leak demo_wc demo_wc_le 24 true false (file demo_ls) demo_keys Hi).
Defined.

Lemma editor_heap_typed_witness : demo_input (file demo_ls) demo_keys /\ exists s, demo_session (file demo_ls) demo_keys = Some s /\ well_typed s.
Proof.
  assert (Hi : demo_input (file demo_ls) demo_keys) by (apply demo_input_ok; by vm_compute). split; [exact Hi|].
  exact (editor_heap_typed demo_wc demo_wc_le 24 true false (file demo_ls) demo_keys Hi).
Defined.

Definition file_line_b (t : list Z) : bool :=
  forallb (fun x => (0 <=? x) && (x <? 256) && (isprint2 x || (x =? ESC_CHR))) t && (zlen t <? WRAPMARGIN).
Lemma file_line_b_ok t : file_line_b t = true -> file_line t.
Proof.
  intros [Ht Hl]%andb_true_iff. split; [|lia]. apply List.Forall_forall. intros x Hx. rewrite forallb_forall in Ht. specialize (Ht _ Hx).
  apply andb_true_iff in Ht as [Ht Hp]. split; [unfold is_u8; lia|]. apply orb_true_iff in Hp as [Hp|Hp]; [by left|right; lia].
Qed.

(** Trailing spaces, ESC [ 2 J, which clears the screen, ESC [ 1 m, which is a
    colour, and ESC ]. *)
Definition untidy_ls : list (list Z) := [str "tail  "; 27 :: str "[2Jx"; 27 :: str "[1my"; 27 :: str "]0"].
Definition tidied_ls : list (list Z) := [str "tail"; 27 :: str "[2sx"; 27 :: str "[1my"; str " ]0"].

Lemma editor_open_save_witness : demo_input (file untidy_ls) demo_moves /\ exists s s',
  demo_session (file untidy_ls) demo_moves = Some s /\ write_body s = Some (s', concat (file tidied_ls)) /\
  Forall tidy tidied_ls.
Proof.
  assert (Hi : demo_input (file untidy_ls) demo_moves) by (apply demo_input_ok; by vm_compute). split; [exact Hi|].
  destruct (editor_open_save (C := Utf8.utf8_ctx) demo_wc demo_wc_le 24 true false (file untidy_ls) untidy_ls demo_moves) as (s & s' & E & Ew & Ht & Hk);
    [reflexivity| |exact Hi|].
  - repeat (apply list.Forall_cons; split; [by apply file_line_b_ok|]). apply List.Forall_nil.
  - destruct Hk as [Es _]; [by repeat constructor|]. exists s, s'. split; [exact E|]. rewrite Ew, Es. split; [by vm_compute|].
    assert (El : tidied_ls = take 4 (map saved_line (lines (demo_text (file untidy_ls) demo_moves)))) by (by vm_compute).
    rewrite El. by apply list.Forall_take.
Defined.

(** A line of 510 characters is wrapped when one more is typed. *)
Definition full_ls : list (list Z) := [str "words " ++ replicate 504 65].
Lemma editor_typing_keeps_text_witness : demo_input (file full_ls) [cmd Cmd_end] /\
  exists s l, demo_session (file full_ls) ([cmd Cmd_end] ++ [typed [66]]) = Some s /\ text_of s = Some l /\
    inks l = str "words" ++ replicate 504 65 ++ [66].
Proof.
  assert (Hi : demo_input (file full_ls) [cmd Cmd_end]) by (apply demo_input_ok; by vm_compute). split; [exact Hi|].
  destruct (editor_typing_keeps_text demo_wc demo_wc_le 24 true false (file full_ls) [cmd Cmd_end] 0 (Key_char [66]) [66] Hi) as (s & l & E & El & Ei);
    [by apply can_take_b_ok; vm_compute|by vm_compute|].
  exists s, l. split; [exact E|]. split; [exact El|]. rewrite Ei. by vm_compute.
Defined.

Lemma editor_cut_removes_block_witness :
  let ks := [cmd Cmd_down; cmd (Cmd_block_mark false); cmd Cmd_eof; cmd Cmd_up] in demo_input (file demo_ls) ks /\
  exists s, demo_session (file demo_ls) (ks ++ [cmd Cmd_cut]) = Some s /\ text_of s = Some [str "hello world"; []].
Proof.
  intros ks. assert (Hi : demo_input (file demo_ls) ks) by (apply demo_input_ok; by vm_compute). split; [exact Hi|].
  destruct (editor_cut_removes_block demo_wc demo_wc_le 24 true false (file demo_ls) ks 0 1 Hi) as (s & E & Et & _); [by vm_compute|].
  exists s. split; [exact E|]. rewrite Et. by vm_compute.
Defined.

Lemma editor_undelete_restores_witness : demo_input (file demo_ls) [cmd Cmd_down] /\
  exists s, demo_session (file demo_ls) ([cmd Cmd_down] ++ [cmd Cmd_del_line; cmd Cmd_undelete_line]) = Some s /\ text_of s = Some (demo_ls ++ [[]]).
Proof.
  assert (Hi : demo_input (file demo_ls) [cmd Cmd_down]) by (apply demo_input_ok; by vm_compute). split; [exact Hi|].
  destruct (editor_undelete_restores demo_wc demo_wc_le 24 true false (file demo_ls) [cmd Cmd_down] 0 Hi) as (s & E & Et); [by vm_compute|].
  exists s. split; [exact E|]. rewrite Et. by vm_compute.
Defined.

(** A click on the row of the bar of symbols, the last but one of the screen; and a
    character when the terminal has shrunk. *)
Definition tall : list (list Z) := replicate 30 [65].
Lemma editor_leaves_window_witness : let click := Key_mouse 0 22 in let ks := [cmd Cmd_phone_mode] in
  demo_input (file tall) ks /\ demo_session (file tall) (ks ++ [(0, click); cmd Cmd_up]) = None /\
  let small := Key_resize 20 (Key_char [65]) in let ks := [(0, Key_mouse 0 22)] in
  demo_input (file tall) ks /\ demo_session (file tall) (ks ++ [(0, small); cmd Cmd_up]) = None.
Proof.
  intros click ks. assert (Hi : demo_input (file tall) ks) by (apply demo_input_ok; by vm_compute). split; [exact Hi|]. split.
  2: { intros small ks2. assert (Hj : demo_input (file tall) ks2) by (apply demo_input_ok; by vm_compute). split; [exact Hj|].
    destruct (editor_leaves_window (C := Utf8.utf8_ctx) demo_wc demo_wc_le 24 true false (file tall) ks2 0 small Hj) as (s & _ & _ & Hn & _ & Hc).
    - split; [lia|]. split_and!; [by left; vm_compute|by repeat constructor|done].
    - destruct (Hn 0 (Key_cmd Cmd_up)) as [_ Hn']; [done|]. apply Hn'. destruct (Hc 20 65 eq_refl) as [_ Hc']; [by vm_compute..|].
      apply Hc'. by vm_compute. }
  destruct (editor_leaves_window (C := Utf8.utf8_ctx) demo_wc demo_wc_le 24 true false (file tall) ks 0 click Hi) as (s & _ & _ & Hn & Hm & _); [done|].
  destruct (Hn 0 (Key_cmd Cmd_up)) as [_ Hn']; [done|]. apply Hn'. destruct (Hm 0 eq_refl) as [_ Hm']. apply Hm'. split; by vm_compute.
Defined.

(** *** Two more ways to fail the health check *)

(** The state after the inputs is there, but not its next turn. *)
Definition dies (s : option editor) : Prop :=
  match s with Some x => edit_check_healthy x = None | None => False end.

(** A character written over a wider one in a full line. *)
Example wide_overwrite_dies : dies (demo_session (file [zhong ++ replicate 507 65]) [cmd Cmd_toggle_insert; typed kana]).
Proof. by vm_compute. Qed.

(** A text with spaces at the end of a line that is saved, refused and edited on,
    when the check compares the lengths of lines too ([SLOW_CHECK_DETAIL]). *)
Example refused_save_dies : dies (s ← demo_session (file [str "end "]) []; '(s, _) ← write_body s; Some s).
Proof. by vm_compute. Qed.

End EditProps.
